(* ===== verification/_CoqProject ===== *)
-Q . S2P
Prelude.v
Pktq.v
Ringbuf.v
EthBuf.v
Iovec.v
Vqueue.v
VirtioDev.v
Napi.v
Netdev.v
Route.v
Newlib.v
Inet6.v
Config.v
Forward.v
Router.v
RouterInit.v
Pta.v
RouterHost.v
RespQueue.v
Https.v
HttpsAuth.v
HttpsSafe.v
HttpsConfig.v
WebStub.v
WebProtocol.v
ConfigHost.v
Worker.v
VirtioNet.v
VirtioTx.v
VirtioRx.v
VirtioPoll.v
Fec.v
FecTx.v
FecRx.v
FecReset.v
FecTraps.v
FecLink.v
FecInit.v
VnicInit.v
Boot.v
