(* ===== verification/Prelude.v ===== *)
(** * TrustedGateway: a verification development

    TrustedGateway is a router and firewall that runs in the secure world of
    an Arm TrustZone system.  The normal world keeps Linux, with the
    management of the Ethernet link; packets are received, filtered, routed
    and sent by the secure world.  This library models its C code (under src/)
    as Rocq functions and proves what makes it correct, or what goes wrong.

    ** The program and its model

    The parts, from the wire to the administrator, with the files that model
    them; a definition has the name of the function it models wherever
    possible, and a loop or a branch that is a definition of its own is named
    after its role.

    - Packets and queues.  [EthBuf]: packet buffers and their pool
      (nettrug/pta/bstgw_eth_buf.c); a buffer is an identifier in the pool's
      store, with its bytes.  [Pktq]: the egress and ingress queues
      (bstgw_pktq.h, bstgw_netif_utils.h).
    - Devices.  [Netdev]: devices, their registry, addresses and NAPI
      contexts (if_netdev.c, if_bstgw.c, npf_bstgw_ops.c).  [Napi]: the
      scheduling of a context as a step relation between producers, worker,
      notifier and control thread (nettrug/napi, worker_run of npf_router.c).
    - The router.  [Route]: the route table (route.c).  [Newlib]: the C
      library routines behind the configuration (external/newlib); [Inet6]:
      IPv6 addresses (inet_pton.c).
      [Config]: the configuration text (config.c).  [Forward]: ARP output,
      link-layer headers, transmit queues (arp.c, worker.c); its record
      [world] is what all packet code shares.  [Worker]: the pipeline of a
      burst: input, ARP, firewall, routing, output (worker.c, arp.c).
      [Router], [RouterInit]: the router, its workers and their
      initialisation (npf_router.c, worker_storage.c).
    - The pseudo TA.  [Pta]: sessions, their binding to workers, commands
      and the access of the ConfigService to the firewall (trust_router.c,
      if_netdev.c).  [RouterHost]: the process of the normal world that lends
      the workers their threads (nettrug/host), run against [Pta].
    - The virtual network card of the normal world.  [Iovec]: copies between
      the worlds (vnic/src/iovec.c).  [Vqueue]: virtqueues in memory the
      normal world can change at any time (vqueue.c).  [VirtioDev]: the
      device and its register window (virtio.c, virtio-mmio.c, parts of
      virtio-net.c and vnic.c).  [VirtioNet]: the data path (virtio-net.c,
      vnic.c), verified in [VirtioTx], [VirtioRx] and [VirtioPoll].
      [VnicInit]: its start (vnic.c).
    - The Ethernet controller.  [Fec]: the driver (fec_drivers/bstgw/imx_fec.c,
      skbuff_stub.c) over two descriptor rings, verified in [FecTx], [FecRx]
      and [FecReset].  [FecTraps]: the handler of the normal world's register
      accesses (nw_mmio_traps.c).  [FecLink]: the normal world's driver as
      the accesses it makes (nw_linux/bstgw_fec_main.c), run through the
      handler.  [FecInit]: probing (imx_fec.c, utils.c, dma_pool.c,
      rte_ether.h).  [Boot]: the whole start, one step after the other.
    - The ConfigService.  [Ringbuf]: the byte rings shared with its host
      (configservice/ta/ringbuffer.c, sw_mbedtls_util.c).  [RespQueue]: the
      queue of response chunks (response_queue.c).  [Https]: the HTTPS server
      (secure_ta.c, parser_utils.c, sw_crt_mng.c, sw_fileio.c), with
      [HttpsAuth] on access control, [HttpsSafe] on safety and termination
      and [HttpsConfig] on a request's way to the firewall and back.
      [WebStub], [WebProtocol]: the entry points of the TA and the order they
      may be called in (web_stub_ta.c).  [ConfigHost]: its host application
      (configservice/host), run against the entry points.

    ** Conventions

    C code that can go wrong returns an [outcome]: [Ok] of a value, [Panic]
    for panic(), a failed assertion or abort(), [Undef] for undefined
    behaviour (an access outside an object, to freed memory, to an
    uninitialised pointer).  State is passed explicitly; structs are records,
    with [p <| f := v |>] for an assignment.  Machine integers are [Z] with
    [u8] to [u64] and [i32] where the code wraps.  Arrays are lists accessed
    with [aget], [aset], [mem_read] and [mem_write], which are undefined out
    of range; heaps are finite maps from names.  Locks that only delimit a
    critical section leave no trace, except in [Napi], where the critical
    sections are the steps, and for concurrent memory of the normal world,
    which is a function of the number of reads made so far.

    Code that is not part of the tree is a class or an argument, and what is
    relied on is a named law: the prefix-match library ([Lpm]), the hash map
    ([ThMap]), the firewall NPF (an argument of [Worker] and [Pta]), libnv
    ([NvList]), mbedTLS ([MbedTLS], [MbedServer], [tls_laws], [conn_laws], [peer_laws]),
    the HTTP parser ([HttpParser], [phr_law]), the client calls of the TEE
    ([TeeClient], [tee_laws], discharged by [Pta] in [HttpsConfig]), sockets
    ([Socket], [sock_law]), register reads of the controller, and what the
    heap, the memory management and the device tree answer (the records
    [init_env], [probe_env], [vnic_env], [host_env]).  The main theorems are
    followed, at the end of their files, by instances with concrete
    libraries.

    ** What the theorems show

    - Packets are neither lost nor duplicated, and no access leaves its
      object: [router_if_input_conserves] for the pipeline,
      [virtio_net_flush_tx_conserves] and [vnic_transmit_conserves] for the
      virtual card against a hostile normal world, [fec_transmit_moves] for
      the Ethernet driver, [pool_reachable_sound], [pktq_run_is_fifo] and
      [rb_run_is_stream] for the data structures.
    - They arrive as they should: [virtio_net_flush_tx_forwards],
      [virtio_net_receive_delivers], [prepare_enqueue_forwards],
      [arp_input_replies], [fec_xmit_handler_submits], [fec_rxq_delivers],
      [vqueue_get_avail_buf_chain].
    - Progress: [no_lost_wakeup], [vnic_poll_loses_no_kick].
    - The start: [fec_probe_ready], [init_trusted_router_ready],
      [boot_to_running], [host_starts_workers]; the configuration:
      [parse_config_prints], [inet_pton4_dotted_quad].
    - The normal world is confined: [vqueue_get_avail_buf_safe],
      [vnic_mmio_safe], [fec_traps_confine]; and its own driver works under
      the confinement: [nw_adjust_link_accepted].
    - Who may do what: [pta_sessions_sound], [pta_firewall_guarded],
      [https_access_control].  The ConfigService: [https_read_safe],
      [flush_resp_queue_sends], [https_config_end_to_end],
      [client_session_protocol], [host_serves_client].
    - What goes wrong: [fec_rxq_long_frame_panics], [fini_client_dangles],
      [peer_reset_frees_twice], [nw_close_panics],
      [virtio_net_flush_tx_length_wraps], [vnic_poll_spins], the panics that
      [vnic_mmio_safe] leaves to the normal world, and the use after free at
      the end of [host_starts_workers].

    The theorems on the ConfigService say what they take of it: as loading a
    web application writes its terminator to the wrong place
    ([webapp_never_loaded]), they are for a server without web applications.

    ** Bounds and fuel

    Sizes are those of the code: queues of 512 entries, virtqueues of at most
    256, byte rings of 2048 bytes, a request buffer of 4096, packet buffers
    of 2048 bytes for the card.  [router_if_input_conserves] is for up to seven
    devices, since the code keeps its set of output devices in a byte.
    Recursion that is not structural takes fuel.  Where the code has a bound
    the fuel is that bound: the vectors of the caller plus one for a
    descriptor chain ([chain_fuel]), the burst plus one for a transmit loop,
    the chunks of a queue, the characters of a text, two for the nesting of
    an ARP request in the packet that caused it; running out is [Undef], so
    a theorem that excludes [Undef] shows that it is enough.  Where the loop
    depends on the environment the fuel is an argument: [https_read_safe]
    gives an amount that suffices; the loops of [ConfigHost] return no value
    when it runs out, and [host_serves_client] holds for every amount; the
    loop of [vnic_poll] need not end ([vnic_poll_spins]).

    ** Not modelled

    - Code that never runs: the PTP clock (bstgw_fec_ptp.c, in both drivers),
      since extended buffer descriptors are switched off; stpncpy and ffs of
      external/newlib, which have no caller; statistics and dumps under
      debugging switches.
    - Calls of Linux in bstgw_fec_main.c: clocks, pins, power management,
      ethtool, registration of the device and of the MDIO bus.  Their one
      register access is the write of the MDIO clock when the driver is
      probed; like any access it is covered by [fec_traps_confine].
    - System calls of the host processes: opening the listening socket,
      reading files, signal handlers.
    - The millisecond counter and the JIT pool (one line each over OP-TEE),
      the thread wrappers, and headers with declarations only.
    - What is not C code of the gateway: the web pages, the JavaScript around
      the WebAssembly build of npfctl, and the patches of OP-TEE, Linux, NPF
      and its libraries, whose patched sources are not in the tree.
    - Timing, caches (an answer of the environment in [FecInit]) and memory
      ordering. *)

From Stdlib Require Import ZArith Lia.
From stdpp Require Import base option list list_numbers numbers gmap.
From Stdlib Require Export ZArith Lia.
From stdpp Require Export base option list list_numbers numbers gmap.

Global Open Scope Z_scope.

(** ** Functional record update

    C structs are records; an assignment [p->f = v] is [p <| f := v |>].  A
    record opts in by giving its eta expansion as a [Settable] instance. *)
Class Settable (R : Type) := eta : R -> R.

Class Upd {R E : Type} (fld : R -> E) := upd : (E -> E) -> R -> R.
Arguments upd {R E} fld {Upd} _ _.

Ltac derive_upd fld :=
  match type of fld with
  | ?R -> ?E =>
    let s := constr:(_ : Settable R) in
    let body := eval hnf in s in
    let abst := eval pattern fld in body in
    lazymatch abst with
    | (fun _ => ?b) _ => fail "not a field of the record"
    | ?ctx _ =>
      let t := constr:(fun (f : E -> E) (r : R) => ctx (fun r' => f (fld r')) r) in
      let t := eval cbv beta in t in exact t
    end
  end.

#[export] Hint Mode Settable + : typeclass_instances.
#[export] Hint Mode Upd + + + : typeclass_instances.
#[export] Hint Extern 1 (Upd ?fld) => derive_upd fld : typeclass_instances.

Declare Scope tgw_scope.
Delimit Scope tgw_scope with tgw.
Open Scope tgw_scope.

Notation "r <| fld := v |>" := (upd fld (fun _ => v) r)
  (at level 1, left associativity, fld at level 9, v at level 99) : tgw_scope.
Notation "r <| fld ::= f |>" := (upd fld f r)
  (at level 1, left associativity, fld at level 9, f at level 99) : tgw_scope.

(** ** Outcomes

    What running a piece of the C code can lead to: a value, a deliberate
    stop of the secure world ([panic()], a failing [assert], [abort()]), or
    behaviour the C standard leaves undefined (a NULL or out-of-range
    access, a division by zero). *)
Inductive outcome (A : Type) : Type :=
| Ok (a : A)
| Panic
| Undef.
Arguments Ok {A} _.
Arguments Panic {A}.
Arguments Undef {A}.

#[global] Instance outcome_ret : MRet outcome := fun A a => Ok a.
#[global] Instance outcome_bind : MBind outcome :=
  fun A B k o => match o with Ok a => k a | Panic => Panic | Undef => Undef end.

#[global] Instance outcome_eq_dec {A} `{EqDecision A} : EqDecision (outcome A).
Proof. solve_decision. Defined.

Definition c_assert (b : bool) : outcome unit := if b then Ok tt else Panic.

(** Dereferencing a pointer that may be NULL. *)
Definition deref {A} (p : option A) : outcome A :=
  match p with Some a => Ok a | None => Undef end.

(** [assert(p)] on a pointer, then its target. *)
Definition assert_ptr {A} (p : option A) : outcome A :=
  match p with Some a => Ok a | None => Panic end.

(** [returns o Q]: [o] is a value, and it satisfies [Q] (total correctness). *)
Definition returns {A} (o : outcome A) (Q : A -> Prop) : Prop :=
  match o with Ok a => Q a | _ => False end.

(** [defined o Q]: [o] is not undefined behaviour; a value satisfies [Q]. *)
Definition defined {A} (o : outcome A) (Q : A -> Prop) : Prop :=
  match o with Ok a => Q a | Panic => True | Undef => False end.

(** ** Machine integers

    The trusted side is 32-bit ARM: [unsigned], [size_t] and pointers are
    32 bits wide, [int] is two's complement. *)
Definition u8 (x : Z) : Z := x mod 256.
Definition u16 (x : Z) : Z := x mod 65536.
Definition u32 (x : Z) : Z := x mod 4294967296.
Definition u64 (x : Z) : Z := x mod 18446744073709551616.
Definition i32 (x : Z) : Z := (x + 2147483648) mod 4294967296 - 2147483648.

Definition MAX_U32 : Z := 4294967295.
Definition MAX_I32 : Z := 2147483647.

(** ** Arrays: reading and writing outside the bounds is undefined. *)
Definition aget {A} (l : list A) (i : Z) : outcome A :=
  if i <? 0 then Undef else deref (l !! Z.to_nat i).

Definition aset {A} (l : list A) (i : Z) (v : A) : outcome (list A) :=
  if (i <? 0) || (Z.of_nat (length l) <=? i) then Undef
  else Ok (<[Z.to_nat i := v]> l).

(** ** Memory blocks: [memcpy] out of and into a byte array *)
Definition blit {A} (l : list A) (off : nat) (d : list A) : list A :=
  take off l ++ d ++ drop (off + length d) l.

Definition mem_read {A} (l : list A) (off n : Z) : outcome (list A) :=
  if (0 <=? off) && (0 <=? n) && (off + n <=? Z.of_nat (length l))
  then Ok (take (Z.to_nat n) (drop (Z.to_nat off) l)) else Undef.

Definition mem_write {A} (l : list A) (off : Z) (d : list A) : outcome (list A) :=
  if (0 <=? off) && (off + Z.of_nat (length d) <=? Z.of_nat (length l))
  then Ok (blit l (Z.to_nat off) d) else Undef.

(** The value of bytes, least significant first, and the [n] bytes of [x]. *)
Definition le_value (l : list Z) : Z := foldr (fun b a => b + 256 * a) 0 l.
Fixpoint le_bytes (n : nat) (x : Z) : list Z :=
  match n with O => [] | S n' => x mod 256 :: le_bytes n' (x / 256) end.

(** ** The live part of a ring: [n] slots from index [s], wrapping around. *)
Definition window {A} (l : list A) (s n : nat) : list A :=
  take n (drop s (l ++ l)).

(** ** Lemmas on outcomes *)
Lemma returns_bind {A B} (o : outcome A) (k : A -> outcome B) Q :
  returns (o ≫= k) Q <-> returns o (fun a => returns (k a) Q).
Proof. destruct o; reflexivity. Qed.

Lemma defined_bind {A B} (o : outcome A) (k : A -> outcome B) Q :
  defined (o ≫= k) Q <-> defined o (fun a => defined (k a) Q).
Proof. destruct o; reflexivity. Qed.

Lemma returns_ok {A} (o : outcome A) Q :
  returns o Q <-> exists a, o = Ok a /\ Q a.
Proof.
  destruct o as [a| |]; simpl; split; intros H.
  all: try (destruct H as (? & ? & ?); congruence).
  all: naive_solver.
Qed.

Lemma returns_mono {A} (o : outcome A) (P Q : A -> Prop) :
  (forall a, P a -> Q a) -> returns o P -> returns o Q.
Proof. destruct o; simpl; auto. Qed.

Lemma defined_mono {A} (o : outcome A) (P Q : A -> Prop) :
  (forall a, P a -> Q a) -> defined o P -> defined o Q.
Proof. destruct o; simpl; auto. Qed.

Lemma returns_defined {A} (o : outcome A) Q : returns o Q -> defined o Q.
Proof. destruct o; simpl; auto. Qed.

Lemma ok_bind {A B} (a : A) (k : A -> outcome B) : Ok a ≫= k = k a.
Proof. done. Qed.

Lemma bind_ok {A B} (o : outcome A) (k : A -> outcome B) b :
  o ≫= k = Ok b <-> exists a, o = Ok a /\ k a = Ok b.
Proof.
  destruct o as [a| |]; simpl; split; intros H.
  all: try (destruct H as (? & ? & ?); congruence).
  all: naive_solver.
Qed.

(** Splits a hypothesis [o ≫= k = Ok b] into its steps. *)
Ltac inv_ok :=
  repeat match goal with
  | H : _ ≫= _ = Ok _ |- _ =>
      let a := fresh "a" in let H1 := fresh H in
      apply bind_ok in H as (a & H1 & H)
  | H : mret _ = Ok _ |- _ => injection H as H
  | H : Ok _ = Ok _ |- _ => injection H as H
  | H : Panic = Ok _ |- _ => discriminate H
  | H : Undef = Ok _ |- _ => discriminate H
  end.

(** Two results of the same computation agree. *)
Ltac ok_inj :=
  match goal with
  | H1 : ?o = Ok _, H2 : ?o = Ok _ |- _ => rewrite H1 in H2; simplify_eq
  end.

(** ** Lemmas on machine integers *)
Lemma u8_small x : 0 <= x < 256 -> u8 x = x.
Proof. apply Z.mod_small. Qed.
Lemma u16_small x : 0 <= x < 65536 -> u16 x = x.
Proof. apply Z.mod_small. Qed.
Lemma u32_small x : 0 <= x < 4294967296 -> u32 x = x.
Proof. apply Z.mod_small. Qed.
Lemma u64_small x : 0 <= x < 18446744073709551616 -> u64 x = x.
Proof. apply Z.mod_small. Qed.
Lemma i32_small x : -2147483648 <= x < 2147483648 -> i32 x = x.
Proof. intros H. unfold i32. rewrite Z.mod_small by lia. lia. Qed.

Lemma u8_range x : 0 <= u8 x < 256.
Proof. apply Z.mod_pos_bound. lia. Qed.
Lemma u16_range x : 0 <= u16 x < 65536.
Proof. apply Z.mod_pos_bound. lia. Qed.
Lemma u32_range x : 0 <= u32 x < 4294967296.
Proof. apply Z.mod_pos_bound. lia. Qed.
Lemma u64_range x : 0 <= u64 x < 18446744073709551616.
Proof. apply Z.mod_pos_bound. lia. Qed.

(** Removes the wrap-arounds whose argument [lia] can bound. *)
Ltac unwrap_ints :=
  repeat match goal with
  | |- context [ u32 ?x ] => rewrite (u32_small x) by lia
  | |- context [ i32 ?x ] => rewrite (i32_small x) by lia
  | |- context [ u16 ?x ] => rewrite (u16_small x) by lia
  | |- context [ u8 ?x ] => rewrite (u8_small x) by lia
  | |- context [ u64 ?x ] => rewrite (u64_small x) by lia
  end.

(** ** Lemmas on arrays *)
Lemma aget_lookup {A} (l : list A) i :
  0 <= i -> aget l i = deref (l !! Z.to_nat i).
Proof. intros H. unfold aget. by rewrite (proj2 (Z.ltb_ge i 0)). Qed.

Lemma aget_ok {A} (l : list A) i a :
  aget l i = Ok a <-> 0 <= i /\ l !! Z.to_nat i = Some a.
Proof.
  unfold aget. destruct (Z.ltb_spec i 0); [split; [done|lia]|].
  destruct (l !! Z.to_nat i); simpl; split; [intros [= ->]; done|intros [_ [= ->]]; done|done|intros [_ [=]]].
Qed.

Lemma aset_ok {A} (l : list A) i (v : A) :
  0 <= i < Z.of_nat (length l) -> aset l i v = Ok (<[Z.to_nat i := v]> l).
Proof.
  intros H. unfold aset.
  by rewrite (proj2 (Z.ltb_ge i 0)), (proj2 (Z.leb_gt _ _)) by lia.
Qed.

Lemma aget_in_range {A} (l : list A) i :
  0 <= i < Z.of_nat (length l) -> exists a, aget l i = Ok a.
Proof.
  intros H. rewrite aget_lookup by lia.
  destruct (lookup_lt_is_Some_2 l (Z.to_nat i)) as [a ->]; [lia|by exists a].
Qed.

(** ** Lemmas on ring windows *)
Lemma lookup_window {A} (l : list A) s n i :
  (s < length l)%nat -> (n <= length l)%nat ->
  window l s n !! i =
    if decide (i < n)%nat then l !! ((s + i) mod length l)%nat else None.
Proof.
  intros Hs Hn. unfold window. case_decide as Hi.
  - rewrite lookup_take_lt, lookup_drop by lia.
    destruct (decide (s + i < length l)%nat).
    + by rewrite Nat.mod_small, lookup_app_l by lia.
    + rewrite lookup_app_r by lia. f_equal.
      rewrite <- (Nat.mod_small (s + i - length l) (length l)) by lia.
      replace (s + i)%nat with (s + i - length l + 1 * length l)%nat at 2 by lia.
      by rewrite Nat.Div0.mod_add.
  - apply lookup_take_ge. lia.
Qed.

Lemma length_window {A} (l : list A) s n :
  (s < length l)%nat -> (n <= length l)%nat -> length (window l s n) = n.
Proof.
  intros. unfold window. rewrite length_take, length_drop, length_app. lia.
Qed.

(** Two offsets below the size that meet modulo the size are equal. *)
Lemma ring_index_inj (s i j L : nat) :
  (i < L)%nat -> (j < L)%nat -> ((s + i) mod L = (s + j) mod L)%nat -> i = j.
Proof.
  intros Hi Hj H.
  pose proof (Nat.div_mod_eq (s + i) L) as E1.
  pose proof (Nat.div_mod_eq (s + j) L) as E2.
  rewrite H in E1.
  destruct (Nat.lt_trichotomy ((s + i) / L) ((s + j) / L)) as [?|[?|?]]; nia.
Qed.

Lemma window_push {A} (l : list A) s n x :
  (s < length l)%nat -> (n < length l)%nat ->
  window (<[((s + n) mod length l)%nat := x]> l) s (S n) = window l s n ++ [x].
Proof.
  intros Hs Hn. apply list_eq. intros i.
  rewrite lookup_window by (rewrite length_insert; lia).
  rewrite length_insert.
  assert (Hm : ((s + n) mod length l < length l)%nat) by (apply Nat.mod_upper_bound; lia).
  destruct (decide (i < n)%nat) as [Hi|Hi].
  - rewrite decide_True by lia.
    rewrite lookup_app_l by (rewrite length_window; lia).
    rewrite lookup_window, decide_True by lia.
    apply list_lookup_insert_ne. intros E. apply ring_index_inj in E; lia.
  - rewrite lookup_app_r; rewrite length_window by lia; [|lia].
    destruct (decide (i = n)) as [->|].
    + rewrite decide_True, Nat.sub_diag by lia. by apply list_lookup_insert_eq.
    + rewrite decide_False by lia. symmetry. apply lookup_ge_None_2. simpl. lia.
Qed.

Lemma window_pop {A} (l : list A) s n k :
  (s < length l)%nat -> (n <= length l)%nat -> (k <= n)%nat ->
  window l ((s + k) mod length l)%nat (n - k)%nat = drop k (window l s n).
Proof.
  intros Hs Hn Hk. apply list_eq. intros i.
  rewrite lookup_drop, !lookup_window; try lia; [|apply Nat.mod_upper_bound; lia].
  destruct (decide (k + i < n)%nat).
  - rewrite decide_True by lia. f_equal. rewrite Nat.Div0.add_mod_idemp_l. f_equal. lia.
  - by rewrite decide_False by lia.
Qed.

(** ** Lemmas on memory blocks *)
Lemma mem_read_ok {A} (l : list A) off n :
  0 <= off -> 0 <= n -> off + n <= Z.of_nat (length l) ->
  mem_read l off n = Ok (take (Z.to_nat n) (drop (Z.to_nat off) l)).
Proof.
  intros. unfold mem_read.
  by rewrite !(proj2 (Z.leb_le _ _)) by lia.
Qed.

Lemma mem_write_ok {A} (l : list A) off d :
  0 <= off -> off + Z.of_nat (length d) <= Z.of_nat (length l) ->
  mem_write l off d = Ok (blit l (Z.to_nat off) d).
Proof.
  intros. unfold mem_write.
  by rewrite !(proj2 (Z.leb_le _ _)) by lia.
Qed.

Lemma mem_read_inv {A} (l : list A) off n d :
  mem_read l off n = Ok d ->
  0 <= off /\ 0 <= n /\ off + n <= Z.of_nat (length l) /\
  d = take (Z.to_nat n) (drop (Z.to_nat off) l).
Proof.
  unfold mem_read. destruct (_ && _) eqn:E; [|done]. intros [= <-].
  apply andb_true_iff in E as [[? ?]%andb_true_iff ?].
  repeat split; lia.
Qed.

Lemma mem_write_inv {A} (l : list A) off d l' :
  mem_write l off d = Ok l' ->
  0 <= off /\ off + Z.of_nat (length d) <= Z.of_nat (length l) /\
  l' = blit l (Z.to_nat off) d.
Proof.
  unfold mem_write. destruct (_ && _) eqn:E; [|done]. intros [= <-].
  apply andb_true_iff in E as [? ?]. repeat split; lia.
Qed.

Lemma length_blit {A} (l : list A) off d :
  (off + length d <= length l)%nat -> length (blit l off d) = length l.
Proof.
  intros. unfold blit. rewrite !length_app, length_take, length_drop. lia.
Qed.

Lemma lookup_blit {A} (l : list A) off d i :
  (off + length d <= length l)%nat ->
  blit l off d !! i =
    if decide (off <= i < off + length d)%nat then d !! (i - off)%nat else l !! i.
Proof.
  intros H. unfold blit. case_decide as E.
  - rewrite lookup_app_r; rewrite length_take; [|lia].
    rewrite lookup_app_l by lia. f_equal. lia.
  - destruct (decide (i < off)%nat).
    + rewrite lookup_app_l by (rewrite length_take; lia). apply lookup_take_lt. lia.
    + rewrite lookup_app_r; rewrite length_take; [|lia].
      rewrite lookup_app_r by lia. rewrite lookup_drop. f_equal. lia.
Qed.

(** Overwriting the middle part of a list. *)
Lemma blit_mid {A} (p x q y : list A) off :
  off = length p -> length x = length y -> blit (p ++ x ++ q) off y = p ++ y ++ q.
Proof.
  intros -> Hl. unfold blit. rewrite take_app_length, <- Hl. do 2 f_equal. rewrite app_assoc. apply drop_app_length'. by rewrite length_app.
Qed.

(** A list cut into a part of a given length and the rest. *)
Lemma cut_at {A} (n : nat) (l : list A) : (n <= length l)%nat -> exists p q, l = p ++ q /\ length p = n.
Proof. intros Hn. exists (take n l), (drop n l). rewrite take_drop, length_take. split; [done|lia]. Qed.

(** The index of a ring slot, below twice the size. *)
Lemma ring_mod (x L : nat) :
  (x < 2 * L)%nat -> (x mod L = if decide (x < L) then x else x - L)%nat.
Proof.
  intros H. case_decide; [by apply Nat.mod_small|].
  rewrite <- (Nat.mod_small (x - L) L) by lia.
  replace x with (x - L + 1 * L)%nat at 1 by lia. apply Nat.Div0.mod_add.
Qed.

(** Slots written behind the window extend it. *)
Lemma window_append {A} (l l' d : list A) s n :
  length l' = length l -> (s < length l)%nat -> (n + length d <= length l)%nat ->
  (forall i, (i < n)%nat -> l' !! ((s + i) mod length l)%nat = l !! ((s + i) mod length l)%nat) ->
  (forall j, (j < length d)%nat -> l' !! ((s + n + j) mod length l)%nat = d !! j) ->
  window l' s (n + length d) = window l s n ++ d.
Proof.
  intros Hl Hs Hn Hold Hnew. apply list_eq. intros i.
  rewrite lookup_window by lia. rewrite Hl.
  destruct (decide (i < n)%nat) as [Hi|Hi].
  - rewrite decide_True, lookup_app_l by (rewrite ?length_window; lia).
    rewrite lookup_window, decide_True by lia. auto.
  - rewrite lookup_app_r; rewrite length_window by lia; [|lia].
    destruct (decide (i < n + length d)%nat).
    + rewrite <- Hnew by lia. f_equal. f_equal. lia.
    + symmetry. apply lookup_ge_None_2. lia.
Qed.

(** ** Little-endian words *)
Lemma length_le_bytes n x : length (le_bytes n x) = n.
Proof. revert x. induction n as [|n IH]; intros x; cbn; [done|by rewrite IH]. Qed.

Lemma le_value_bytes n x : 0 <= x < 256 ^ Z.of_nat n -> le_value (le_bytes n x) = x.
Proof.
  revert x. induction n as [|n IH]; intros x Hx; [cbn in *; lia|].
  rewrite Nat2Z.inj_succ, Z.pow_succ_r in Hx by lia. cbn [le_bytes le_value foldr].
  fold (le_value (le_bytes n (x / 256))). rewrite IH by (split; [apply Z.div_pos; lia|apply Z.div_lt_upper_bound; lia]).
  pose proof (Z.div_mod x 256). lia.
Qed.

Lemma Z_to_nat_mod (a b : Z) :
  0 <= a -> 0 < b -> Z.to_nat (a mod b) = (Z.to_nat a mod Z.to_nat b)%nat.
Proof. intros. apply Z2Nat.inj_mod; lia. Qed.

Create HintDb tgw.
Create Rewrite HintDb tgw.
#[export] Hint Resolve u8_range u16_range u32_range u64_range : tgw.
#[export] Hint Resolve returns_defined : tgw.
#[export] Hint Rewrite @returns_bind @defined_bind : tgw.
