(* ===== verification/Pktq.v ===== *)
(** * The egress packet queue of a network interface
    (nettrug/pta/bstgw_pktq.h and the queue control of
    nettrug/pta/bstgw_netif_utils.h).

    The queue is a ring of ethbuf pointers.  [pq_abs] reads the ring as the
    list of queued pointers in FIFO order; the theorems show that, on a
    well-formed queue, every operation is the corresponding operation on that
    list, keeps the queue well formed and never touches memory outside the
    ring. *)

From S2P Require Import Prelude.

(** A pointer to a packet buffer; NULL is [None]. *)
Notation ebptr := (option positive).

Record pktqueue_t := mk_pktqueue {
  stopped : bool;
  next_read : Z;
  next_write : Z;
  count : Z;
  capacity : Z;
  pkt : list ebptr
}.

#[global] Instance eta_pktqueue : Settable pktqueue_t :=
  fun q => mk_pktqueue (stopped q) (next_read q) (next_write q) (count q) (capacity q) (pkt q).

#[global] Instance pktqueue_eq_dec : EqDecision pktqueue_t.
Proof. solve_decision. Defined.

(** ** Operations; the caller holds the queue's spin lock *)

Definition bstgw_pktq_locked_is_full (pq : pktqueue_t) : bool :=
  capacity pq <=? count pq.

Definition bstgw_pktq_locked_is_empty (pq : pktqueue_t) : bool :=
  count pq =? 0.

(** [pq->pkt[pq->next_write] = b; pq->next_write++; pq->next_write %= pq->capacity] *)
Definition pktq_push_slot (pq : pktqueue_t) (b : ebptr) : outcome pktqueue_t :=
  pkt' ← aset (pkt pq) (next_write pq) b;
  if capacity pq =? 0 then Undef else
  Ok (pq <| pkt := pkt' |> <| next_write := u32 (next_write pq + 1) mod capacity pq |>).

(** The copy loop, for [i] up to [i + n]. *)
Fixpoint pktq_bulk_loop (n : nat) (i : Z) (bs : list ebptr) (pq : pktqueue_t) : outcome pktqueue_t :=
  match n with
  | O => Ok pq
  | S n' =>
      b ← aget bs i;
      pq' ← pktq_push_slot pq b;
      pktq_bulk_loop n' (i + 1) bs pq'
  end.

(** Returns how many buffers were added.  [space_left] and [will_add] are
    [int]; the comparison [nbufs <= space_left] is made on [size_t]. *)
Definition bstgw_pktq_locked_bulk_add_buff (pq : pktqueue_t) (bs : list ebptr) (nbufs : Z)
    : outcome (Z * pktqueue_t) :=
  let space_left := i32 (capacity pq - count pq) in
  let will_add := i32 (if nbufs <=? u32 space_left then nbufs else space_left) in
  pq' ← pktq_bulk_loop (Z.to_nat will_add) 0 bs pq;
  Ok (u32 will_add, pq' <| count := u32 (count pq' + will_add) |>).

Definition bstgw_pktq_locked_add_buf (pq : pktqueue_t) (b : ebptr) : outcome (bool * pktqueue_t) :=
  c_assert (bool_decide (is_Some b));;
  if bstgw_pktq_locked_is_full pq then Ok (false, pq) else
  pq' ← pktq_push_slot pq b;
  Ok (true, pq' <| count := u32 (count pq' + 1) |>).

Definition bstgw_pktq_locked_drop_bufs (pq : pktqueue_t) (num : Z) : outcome (bool * pktqueue_t) :=
  c_assert (num <=? count pq);;
  if capacity pq =? 0 then Undef else
  Ok (true, pq <| next_read := u32 (next_read pq + num) mod capacity pq |>
               <| count := u32 (count pq - num) |>).

Definition bstgw_pktq_locked_contig_bufs (pq : pktqueue_t) : Z :=
  if bstgw_pktq_locked_is_empty pq then 0 else
  let till_end := u32 (1 + ((capacity pq - 1) - next_read pq)) in
  if count pq <? till_end then count pq else till_end.

Definition netif_tx_start_queue (pq : pktqueue_t) : pktqueue_t := pq <| stopped := false |>.
Definition netif_tx_stop_queue (pq : pktqueue_t) : pktqueue_t := pq <| stopped := true |>.
Definition netif_tx_queue_stopped (pq : pktqueue_t) : bool := stopped pq.

(** The compare-and-exchange of [netif_tx_wake_queue]: the new queue and
    whether the egress notification handler is called. *)
Definition netif_tx_wake_queue (pq : pktqueue_t) : bool * pktqueue_t :=
  if stopped pq then (true, pq <| stopped := false |>) else (false, pq).

(** ** Invariant and abstraction *)

Record pq_wf (pq : pktqueue_t) : Prop := {
  wf_cap : 0 < capacity pq <= MAX_I32;
  wf_count : 0 <= count pq <= capacity pq;
  wf_read : 0 <= next_read pq < capacity pq;
  wf_write : next_write pq = (next_read pq + count pq) mod capacity pq;
  wf_len : Z.of_nat (length (pkt pq)) = capacity pq
}.

Definition pq_abs (pq : pktqueue_t) : list ebptr :=
  window (pkt pq) (Z.to_nat (next_read pq)) (Z.to_nat (count pq)).

(** The contract of the queue: a bounded FIFO. *)
Definition fifo_push (cap : nat) (bs q : list ebptr) : list ebptr :=
  q ++ take (cap - length q) bs.

(** A user of the queue: producers add buffers, the transmit path drains the
    contiguous front of the ring (as [router_pktq_tx] does). *)
Inductive pktq_op := PqAdd (b : positive) | PqBulk (bs : list ebptr) | PqDrain.

Definition pq_drain (pq : pktqueue_t) : outcome (list ebptr * pktqueue_t) :=
  let n := bstgw_pktq_locked_contig_bufs pq in
  d ← mem_read (pkt pq) (next_read pq) n;
  '(_, pq') ← bstgw_pktq_locked_drop_bufs pq n;
  Ok (d, pq').

(** Runs the operations; collects the buffers accepted and those drained. *)
Fixpoint pq_run (ops : list pktq_op) (pq : pktqueue_t) : outcome (list ebptr * list ebptr * pktqueue_t) :=
  match ops with
  | [] => Ok ([], [], pq)
  | PqAdd b :: ops' =>
      '(r, pq1) ← bstgw_pktq_locked_add_buf pq (Some b);
      '(i, o, pq2) ← pq_run ops' pq1;
      Ok ((if (r : bool) then [Some b] else []) ++ i, o, pq2)
  | PqBulk bs :: ops' =>
      '(n, pq1) ← bstgw_pktq_locked_bulk_add_buff pq bs (Z.of_nat (length bs));
      '(i, o, pq2) ← pq_run ops' pq1;
      Ok (take (Z.to_nat n) bs ++ i, o, pq2)
  | PqDrain :: ops' =>
      '(d, pq1) ← pq_drain pq;
      '(i, o, pq2) ← pq_run ops' pq1;
      Ok (i, d ++ o, pq2)
  end.

(** ** Lemmas *)

Lemma pq_abs_length pq : pq_wf pq -> length (pq_abs pq) = Z.to_nat (count pq).
Proof. intros []. unfold pq_abs. apply length_window; lia. Qed.

(** One slot written at the end of the window, when there is room.  The
    code updates [count] only after its loop, so [c] is the count the ring
    will have. *)
Lemma push_slot_spec pq c b :
  pq_wf (pq <| count := c |>) -> c < capacity pq ->
  exists pq', pktq_push_slot pq b = Ok pq' /\
    pq_wf (pq' <| count := c + 1 |>) /\
    pq_abs (pq' <| count := c + 1 |>) = pq_abs (pq <| count := c |>) ++ [b] /\
    count pq' = count pq /\ capacity pq' = capacity pq.
Proof.
  intros [Hcap Hcnt Hrd Hwr Hlen] Hroom. simpl in *.
  pose proof (Z.mod_pos_bound (next_read pq + c) (capacity pq)) as Hb.
  unfold pktq_push_slot, MAX_I32 in *.
  rewrite aset_ok by lia. simpl. rewrite (proj2 (Z.eqb_neq _ _)) by lia.
  eexists. split; [done|]. split; [|split; [|done]].
  - split; simpl; rewrite ?length_insert; try done; unfold MAX_I32; try lia.
    rewrite u32_small by lia. rewrite Hwr, Z.add_mod_idemp_l by lia. f_equal. lia.
  - unfold pq_abs. simpl. rewrite Hwr, Z2Nat.inj_mod by lia.
    rewrite (Z2Nat.inj_add (next_read pq)), <- Hlen, Nat2Z.id by lia.
    rewrite Z.add_1_r, Z2Nat.inj_succ by lia. apply window_push; lia.
Qed.

Lemma bulk_loop_spec n : forall i bs pq c,
  pq_wf (pq <| count := c |>) -> 0 <= i -> Z.of_nat n <= capacity pq - c ->
  i + Z.of_nat n <= Z.of_nat (length bs) ->
  exists pq', pktq_bulk_loop n i bs pq = Ok pq' /\
    pq_wf (pq' <| count := c + Z.of_nat n |>) /\
    pq_abs (pq' <| count := c + Z.of_nat n |>)
      = pq_abs (pq <| count := c |>) ++ take n (drop (Z.to_nat i) bs) /\
    count pq' = count pq /\ capacity pq' = capacity pq.
Proof.
  induction n as [|n IH]; intros i bs pq c Hwf Hi Hroom Hbs.
  - exists pq. simpl. rewrite Z.add_0_r, app_nil_r. auto.
  - destruct (aget_in_range bs i) as [b Hb]; [lia|].
    cbn [pktq_bulk_loop]. rewrite Hb. simpl.
    destruct (push_slot_spec pq c b) as (pq1 & -> & Hwf1 & Habs1 & Hc1 & Hk1); [done|lia|].
    simpl. destruct (IH (i + 1) bs pq1 (c + 1)) as (pq2 & -> & Hwf2 & Habs2 & Hc2 & Hk2);
      [done|lia|lia|lia|].
    replace (c + Z.of_nat (S n)) with (c + 1 + Z.of_nat n) by lia.
    exists pq2. split; [done|]. split; [done|]. split; [|split; congruence].
    apply aget_ok in Hb as [_ Hb].
    rewrite Habs2, Habs1, <- app_assoc. f_equal. simpl.
    rewrite (drop_S bs b (Z.to_nat i)) by done.
    rewrite Z.add_1_r, Z2Nat.inj_succ by lia. done.
Qed.

Lemma pq_count_id pq : pq <| count := count pq |> = pq.
Proof. by destruct pq. Qed.

(** Bulk enqueue is a bounded FIFO push: on a well-formed queue it adds
    exactly the first [min nbufs room] buffers at the back, in order, reports
    that number, and leaves the queue well formed. *)
Lemma bulk_add_refines_fifo pq bs nbufs :
  pq_wf pq -> 0 <= nbufs <= Z.of_nat (length bs) -> nbufs <= MAX_U32 ->
  exists pq', bstgw_pktq_locked_bulk_add_buff pq bs nbufs
      = Ok (Z.min nbufs (capacity pq - count pq), pq') /\
    pq_wf pq' /\ capacity pq' = capacity pq /\
    pq_abs pq' = fifo_push (Z.to_nat (capacity pq)) (take (Z.to_nat nbufs) bs) (pq_abs pq).
Proof.
  intros Hwf Hn Hmax. pose proof (pq_abs_length pq Hwf) as Hlen.
  destruct (Hwf) as [Hcap Hcnt _ _ _]. unfold MAX_I32, MAX_U32 in *.
  unfold bstgw_pktq_locked_bulk_add_buff.
  rewrite (i32_small (capacity pq - count pq)), (u32_small (capacity pq - count pq)) by lia.
  replace (if nbufs <=? _ then nbufs else _) with (Z.min nbufs (capacity pq - count pq))
    by (destruct (Z.leb_spec nbufs (capacity pq - count pq)); lia).
  set (w := Z.min _ _). rewrite (i32_small w), (u32_small w) by lia.
  destruct (bulk_loop_spec (Z.to_nat w) 0 bs pq (count pq))
    as (pq' & -> & Hwf' & Habs & Hc & Hk); rewrite ?pq_count_id; [done|lia|lia|lia|].
  rewrite Z2Nat.id in * by lia. rewrite pq_count_id in Habs. simpl.
  rewrite Hc, (u32_small (count pq + w)) by lia.
  eexists. split; [done|]. split; [done|]. split; [done|].
  rewrite Habs. unfold fifo_push. rewrite Hlen, take_take, drop_0. f_equal. f_equal. lia.
Qed.

Lemma add_buf_refines_fifo pq b :
  pq_wf pq ->
  exists pq', bstgw_pktq_locked_add_buf pq (Some b)
      = Ok (negb (bstgw_pktq_locked_is_full pq), pq') /\
    pq_wf pq' /\ capacity pq' = capacity pq /\
    pq_abs pq' = fifo_push (Z.to_nat (capacity pq)) [Some b] (pq_abs pq).
Proof.
  intros Hwf. pose proof (pq_abs_length pq Hwf) as Hlen.
  destruct (Hwf) as [Hcap Hcnt _ _ _]. unfold MAX_I32 in *.
  unfold bstgw_pktq_locked_add_buf, bstgw_pktq_locked_is_full, fifo_push. simpl.
  rewrite Hlen. destruct (Z.leb_spec (capacity pq) (count pq)); simpl.
  - exists pq. replace (_ - _)%nat with 0%nat by lia. by rewrite app_nil_r.
  - destruct (push_slot_spec pq (count pq) (Some b)) as (pq' & -> & Hwf' & Habs & Hc & Hk);
      rewrite ?pq_count_id; [done|lia|].
    simpl. rewrite Hc, u32_small by lia. eexists. split; [done|]. split; [done|].
    split; [done|]. rewrite Habs, pq_count_id. f_equal.
    destruct (Z.to_nat (capacity pq) - Z.to_nat (count pq))%nat eqn:?; [lia|].
    by destruct n.
Qed.

Lemma drop_bufs_refines_fifo pq num :
  pq_wf pq -> 0 <= num <= count pq ->
  exists pq', bstgw_pktq_locked_drop_bufs pq num = Ok (true, pq') /\
    pq_wf pq' /\ capacity pq' = capacity pq /\
    pq_abs pq' = drop (Z.to_nat num) (pq_abs pq).
Proof.
  intros [Hcap Hcnt Hrd Hwr Hlen] Hn. unfold MAX_I32 in *.
  unfold bstgw_pktq_locked_drop_bufs. rewrite (proj2 (Z.leb_le _ _)) by lia. simpl.
  rewrite (proj2 (Z.eqb_neq _ _)) by lia.
  rewrite (u32_small (next_read pq + num)), (u32_small (count pq - num)) by lia.
  pose proof (Z.mod_pos_bound (next_read pq + num) (capacity pq)).
  eexists. split; [done|]. split; [|split; [done|]].
  - split; simpl; try done; unfold MAX_I32; try lia.
    rewrite Hwr, Z.add_mod_idemp_l by lia. f_equal. lia.
  - unfold pq_abs. simpl. rewrite Z2Nat.inj_mod, Z2Nat.inj_add, Z2Nat.inj_sub by lia.
    rewrite <- Hlen, Nat2Z.id at 1. apply window_pop; lia.
Qed.

Lemma contig_bufs_window pq :
  pq_wf pq ->
  let n := bstgw_pktq_locked_contig_bufs pq in
  0 <= n <= count pq /\ (count pq <> 0 -> 0 < n) /\
  take (Z.to_nat n) (drop (Z.to_nat (next_read pq)) (pkt pq)) = take (Z.to_nat n) (pq_abs pq).
Proof.
  intros [Hcap Hcnt Hrd Hwr Hlen] n. unfold MAX_I32 in *.
  assert (Hn : n = Z.min (count pq) (capacity pq - next_read pq)).
  { unfold n, bstgw_pktq_locked_contig_bufs, bstgw_pktq_locked_is_empty.
    rewrite u32_small by lia. destruct (Z.eqb_spec (count pq) 0); [lia|].
    destruct (Z.ltb_spec (count pq) (1 + (capacity pq - 1 - next_read pq))); lia. }
  split; [lia|]. split; [lia|]. unfold pq_abs, window.
  rewrite take_take, Nat.min_l, drop_app_le by lia.
  rewrite take_app_le; [done|]. rewrite length_drop. lia.
Qed.

(** Draining returns a prefix of the queue, which is not empty when the queue
    is not, and leaves the rest. *)
Lemma pq_drain_spec pq :
  pq_wf pq ->
  exists d pq', pq_drain pq = Ok (d, pq') /\ pq_wf pq' /\ capacity pq' = capacity pq /\
    d ++ pq_abs pq' = pq_abs pq /\ (pq_abs pq <> [] -> d <> []).
Proof.
  intros Hwf. pose proof (contig_bufs_window pq Hwf) as (Hn & Hpos & Hwin).
  pose proof (pq_abs_length pq Hwf) as Hlen. unfold pq_drain.
  set (n := bstgw_pktq_locked_contig_bufs pq) in *.
  destruct (drop_bufs_refines_fifo pq n Hwf ltac:(lia)) as (pq' & -> & Hwf' & Hcap & Habs).
  assert (Hfit : next_read pq + n <= Z.of_nat (length (pkt pq))).
  { destruct Hwf as [Hc ? ? ? Hl]. unfold MAX_I32 in *.
    unfold n, bstgw_pktq_locked_contig_bufs, bstgw_pktq_locked_is_empty.
    rewrite u32_small by lia.
    destruct (_ =? 0); [lia|]. destruct (Z.ltb_spec (count pq) (1 + (capacity pq - 1 - next_read pq))); lia. }
  destruct (Hwf) as [_ _ Hr _ _].
  rewrite mem_read_ok by lia. simpl. rewrite Hwin. eexists _, _. split; [done|].
  split; [done|]. split; [done|]. rewrite Habs. split; [apply take_drop|].
  intros Hne E. apply (f_equal length) in E. rewrite length_take, Hlen in E. simpl in E.
  destruct (pq_abs pq); [done|]. simpl in Hlen. lia.
Qed.

(** C31. The egress queue is a FIFO under any sequence of enqueues and
    drains: the sequence runs to its end without a panic or an access outside
    the ring, keeps the queue well formed, and the buffers drained followed by
    those still queued are the initial contents followed by the buffers
    accepted, in order; none is lost, duplicated or reordered. *)
Theorem pktq_run_is_fifo ops : forall pq,
  pq_wf pq ->
  Forall (fun op => match op with PqBulk bs => Z.of_nat (length bs) <= MAX_U32 | _ => True end) ops ->
  exists i o pq', pq_run ops pq = Ok (i, o, pq') /\ pq_wf pq' /\
    o ++ pq_abs pq' = pq_abs pq ++ i.
Proof.
  induction ops as [|[b|bs|] ops IH]; intros pq Hwf Hops; simpl.
  { exists [], [], pq. by rewrite app_nil_r. }
  all: apply Forall_cons in Hops as [Hop Hops].
  - destruct (add_buf_refines_fifo pq b Hwf) as (pq1 & -> & Hwf1 & _ & Habs). simpl.
    destruct (IH pq1 Hwf1 Hops) as (i & o & pq2 & -> & Hwf2 & Hs). simpl.
    eexists _, o, pq2. split; [done|]. split; [done|]. rewrite Hs, Habs.
    unfold fifo_push. rewrite <- app_assoc. do 2 f_equal. rewrite pq_abs_length by done.
    unfold bstgw_pktq_locked_is_full. destruct (Z.leb_spec (capacity pq) (count pq)); simpl.
    + by replace (_ - _)%nat with 0%nat by lia.
    + rewrite take_ge; [done|]. simpl. destruct Hwf. lia.
  - destruct (bulk_add_refines_fifo pq bs (Z.of_nat (length bs)) Hwf) as (pq1 & -> & Hwf1 & _ & Habs);
      [lia|done|]. cbn -[Z.to_nat].
    destruct (IH pq1 Hwf1 Hops) as (i & o & pq2 & -> & Hwf2 & Hs). cbn -[Z.to_nat].
    eexists _, o, pq2. split; [done|]. split; [done|]. rewrite Hs, Habs.
    unfold fifo_push. rewrite <- app_assoc. do 2 f_equal.
    rewrite pq_abs_length, take_take by done. f_equal. destruct Hwf. lia.
  - destruct (pq_drain_spec pq Hwf) as (d & pq1 & -> & Hwf1 & _ & Habs & _). simpl.
    destruct (IH pq1 Hwf1 Hops) as (i & o & pq2 & -> & Hwf2 & Hs). simpl.
    eexists i, _, pq2. split; [done|]. split; [done|].
    by rewrite <- app_assoc, Hs, <- Habs, app_assoc.
Qed.

Lemma pktq_run_is_fifo_witness :
  let pq := mk_pktqueue false 2 1 2 3 [Some 7%positive; None; Some 6%positive] in
  exists i o pq', pq_run [PqBulk [Some 8%positive; Some 9%positive]; PqDrain; PqAdd 4%positive] pq
      = Ok (i, o, pq') /\ pq_wf pq' /\ o ++ pq_abs pq' = pq_abs pq ++ i.
Proof.
  apply (pktq_run_is_fifo [PqBulk [Some 8%positive; Some 9%positive]; PqDrain; PqAdd 4%positive]).
  - split; simpl; unfold MAX_I32; try lia; reflexivity.
  - repeat constructor; unfold MAX_U32; simpl; lia.
Defined.
