(* ===== verification/Ringbuf.v ===== *)
(** * The byte ring shared between the ConfigService TA and its host
    (configservice/ta/ringbuffer.c, host/shm_rb.c, and the mbedTLS transport
    callbacks of ta/sw_mbedtls_util.c).

    One ring carries TLS records from the host to the TA, another one back.
    [sw_abs] reads a ring as the byte stream it holds.  [put_sw_buffer] and
    [get_sw_buffer] are shown to append to and to take from that stream; the
    one input for which [put_sw_buffer] does not (a write that fills the ring
    exactly) is shown to lose the whole stream. *)

From S2P Require Import Prelude.

(** [sizeof(buff->buffer)] *)
Definition SW_BUFFER_SIZE : Z := 2048.

Record sw_buff_t := mk_sw_buff {
  buffer : list Z;
  head : Z;
  tail : Z;
  full : Z
}.

#[global] Instance eta_sw_buff : Settable sw_buff_t :=
  fun b => mk_sw_buff (buffer b) (head b) (tail b) (full b).

Definition init_sw_buffer (b : sw_buff_t) : sw_buff_t :=
  b <| head := 0 |> <| tail := 0 |> <| full := 0 |>.

Definition spaceleft_sw_buffer (b : sw_buff_t) : Z :=
  if head b =? tail b then
    if negb (full b =? 0) then 0 else SW_BUFFER_SIZE
  else if tail b <? head b then u32 (head b - tail b)
  else u32 (SW_BUFFER_SIZE - tail b + head b).

Definition dataleft_sw_buffer (b : sw_buff_t) : Z :=
  if head b =? tail b then
    if negb (full b =? 0) then SW_BUFFER_SIZE else 0
  else if head b <? tail b then u32 (tail b - head b)
  else u32 (SW_BUFFER_SIZE - head b + tail b).

(** The copy into the ring: in one piece, or wrapping around its end. *)
Definition put_copy (b : sw_buff_t) (buf : list Z) (sent : Z) : outcome (list Z) :=
  let tillend := u32 (SW_BUFFER_SIZE - tail b) in
  if (tail b <? head b) || (sent <=? tillend) then
    d ← mem_read buf 0 sent; mem_write (buffer b) (tail b) d
  else
    d ← mem_read buf 0 tillend;
    b1 ← mem_write (buffer b) (tail b) d;
    d' ← mem_read buf tillend (u32 (sent - tillend));
    mem_write b1 0 d'.

(** The copy out of the ring. *)
Definition get_copy (b : sw_buff_t) (nread : Z) : outcome (list Z) :=
  let tillend := u32 (SW_BUFFER_SIZE - head b) in
  if (head b <? tail b) || (nread <=? tillend) then
    mem_read (buffer b) (head b) nread
  else
    d ← mem_read (buffer b) (head b) tillend;
    d' ← mem_read (buffer b) 0 (u32 (nread - tillend));
    Ok (d ++ d').

(** [put_sw_buffer(sw_buff, buf, len)]: the number of bytes taken, and the ring. *)
Definition put_sw_buffer (b : sw_buff_t) (buf : list Z) (len : Z) : outcome (Z * sw_buff_t) :=
  if negb (full b =? 0) then Panic else
  let spaceleft := spaceleft_sw_buffer b in
  if SW_BUFFER_SIZE <? spaceleft then Panic else
  let sent := if spaceleft <? len then spaceleft else len in
  let full' := if spaceleft <? len then 1 else full b in
  buffer' ← put_copy b buf sent;
  Ok (i32 sent, b <| full := full' |> <| buffer := buffer' |>
                  <| tail := u32 (tail b + sent) mod SW_BUFFER_SIZE |>).

(** [get_sw_buffer(sw_buff, buf, len)]: the bytes written to [buf], whose
    number is the return value, and the ring. *)
Definition get_sw_buffer (b : sw_buff_t) (len : Z) : outcome (list Z * sw_buff_t) :=
  if (head b =? tail b) && (full b =? 0) then Panic else
  let dataleft := dataleft_sw_buffer b in
  if SW_BUFFER_SIZE <? dataleft then Panic else
  let nread := if dataleft <? len then dataleft else len in
  let full' := if 0 <? nread then 0 else full b in
  out ← get_copy b nread;
  Ok (out, b <| full := full' |> <| head := u32 (head b + nread) mod SW_BUFFER_SIZE |>).

(** The transport callbacks mbedTLS calls; negative results are its error
    codes. *)
Definition MBEDTLS_ERR_SSL_WANT_READ : Z := -26880.
Definition MBEDTLS_ERR_SSL_WANT_WRITE : Z := -26752.
Definition MBEDTLS_ERR_NET_SEND_FAILED : Z := -78.
Definition MBEDTLS_ERR_NET_RECV_FAILED : Z := -76.

Definition bstgw_mbedtls_net_send (tx : option sw_buff_t) (buf : option (list Z)) (len : Z)
    : outcome (Z * option sw_buff_t) :=
  b ← assert_ptr tx;
  if len =? 0 then Ok (0, tx) else
  match buf with
  | None => Ok (MBEDTLS_ERR_NET_SEND_FAILED, tx)
  | Some d =>
      if negb (full b =? 0) then Ok (MBEDTLS_ERR_SSL_WANT_WRITE, tx) else
      '(n, b') ← put_sw_buffer b d len; Ok (n, Some b')
  end.

(** The result is an error code or the bytes received. *)
Definition bstgw_mbedtls_net_recv (rx : option sw_buff_t) (have_buf : bool) (len : Z)
    : outcome ((Z + list Z) * option sw_buff_t) :=
  b ← assert_ptr rx;
  if len =? 0 then Ok (inl 0, rx) else
  if negb have_buf then Ok (inl MBEDTLS_ERR_NET_RECV_FAILED, rx) else
  if dataleft_sw_buffer b =? 0 then Ok (inl MBEDTLS_ERR_SSL_WANT_READ, rx) else
  '(d, b') ← get_sw_buffer b len; Ok (inr d, Some b').

(** ** Invariant and abstraction *)

Record sw_wf (b : sw_buff_t) : Prop := {
  sw_len : Z.of_nat (length (buffer b)) = SW_BUFFER_SIZE;
  sw_head : 0 <= head b < SW_BUFFER_SIZE;
  sw_tail : 0 <= tail b < SW_BUFFER_SIZE;
  sw_full : full b <> 0 -> head b = tail b
}.

Definition sw_abs (b : sw_buff_t) : list Z :=
  window (buffer b) (Z.to_nat (head b)) (Z.to_nat (dataleft_sw_buffer b)).

(** A client of the ring: a sequence of writes and reads. *)
Inductive rb_op := RbPut (d : list Z) | RbGet (len : Z).

(** Runs the operations; collects the bytes accepted and the bytes delivered. *)
Fixpoint rb_run (ops : list rb_op) (b : sw_buff_t) : outcome (list Z * list Z * sw_buff_t) :=
  match ops with
  | [] => Ok ([], [], b)
  | RbPut d :: ops' =>
      '(n, b1) ← put_sw_buffer b d (Z.of_nat (length d));
      '(i, o, b2) ← rb_run ops' b1;
      Ok (take (Z.to_nat n) d ++ i, o, b2)
  | RbGet len :: ops' =>
      '(d, b1) ← get_sw_buffer b len;
      '(i, o, b2) ← rb_run ops' b1;
      Ok (i, d ++ o, b2)
  end.

(** No write of the sequence fills the ring exactly. *)
Fixpoint rb_no_exact_fill (ops : list rb_op) (b : sw_buff_t) : bool :=
  match ops with
  | [] => true
  | RbPut d :: ops' =>
      negb (Z.of_nat (length d) =? spaceleft_sw_buffer b) &&
      match put_sw_buffer b d (Z.of_nat (length d)) with
      | Ok (_, b1) => rb_no_exact_fill ops' b1
      | _ => true
      end
  | RbGet len :: ops' =>
      match get_sw_buffer b len with
      | Ok (_, b1) => rb_no_exact_fill ops' b1
      | _ => true
      end
  end.

(** ** Lemmas *)

(** The two counts of a well-formed ring, and where its tail is. *)
Lemma sw_counts b :
  sw_wf b ->
  0 <= dataleft_sw_buffer b /\ 0 <= spaceleft_sw_buffer b /\
  dataleft_sw_buffer b + spaceleft_sw_buffer b = SW_BUFFER_SIZE /\
  (head b + dataleft_sw_buffer b = tail b \/
   head b + dataleft_sw_buffer b = tail b + SW_BUFFER_SIZE) /\
  (tail b < head b -> spaceleft_sw_buffer b = head b - tail b) /\
  (head b < tail b -> dataleft_sw_buffer b = tail b - head b).
Proof.
  intros [_ Hh Ht Hf]. unfold dataleft_sw_buffer, spaceleft_sw_buffer, SW_BUFFER_SIZE in *.
  destruct (Z.eqb_spec (head b) (tail b)); [destruct (Z.eqb_spec (full b) 0); simpl; lia|].
  destruct (Z.ltb_spec (tail b) (head b)), (Z.ltb_spec (head b) (tail b)); unwrap_ints; lia.
Qed.

(** Rewrites [window]'s ring indices and the lookups of [blit] to cases on
    linear conditions, then closes them. *)
Ltac ring_cases :=
  repeat match goal with
  | |- context [ (?x mod ?L)%nat ] => rewrite (ring_mod x L) by lia
  | |- context [ blit ?l ?o ?d !! ?i ] => rewrite (lookup_blit l o d i) by (rewrite ?length_blit; lia)
  | |- context [ decide ?P ] => destruct (decide P); try lia
  end.

Lemma put_copy_spec b buf sent :
  sw_wf b -> 0 <= sent <= spaceleft_sw_buffer b -> sent <= Z.of_nat (length buf) ->
  exists buffer', put_copy b buf sent = Ok buffer' /\
    length buffer' = length (buffer b) /\
    window buffer' (Z.to_nat (head b)) (Z.to_nat (dataleft_sw_buffer b + sent))
      = sw_abs b ++ take (Z.to_nat sent) buf.
Proof.
  intros Hwf Hs Hb. pose proof (sw_counts b Hwf) as (HD & HS & Hsum & Htl & Hlt & _).
  destruct Hwf as [Hlen Hh Ht _]. unfold put_copy, SW_BUFFER_SIZE in *.
  rewrite (u32_small (2048 - tail b)) by lia.
  assert (Hd : length (take (Z.to_nat sent) buf) = Z.to_nat sent) by (rewrite length_take; lia).
  replace (Z.to_nat (dataleft_sw_buffer b + sent))
    with (Z.to_nat (dataleft_sw_buffer b) + length (take (Z.to_nat sent) buf))%nat by lia.
  unfold sw_abs.
  destruct (_ || _) eqn:E.
  - rewrite mem_read_ok, drop_0 by lia. cbn -[Z.to_nat window blit]. rewrite mem_write_ok by lia.
    eexists. split; [done|]. rewrite length_blit by lia. split; [done|].
    apply orb_true_iff in E as [E%Z.ltb_lt|E%Z.leb_le];
      (apply window_append; [by rewrite length_blit by lia|lia|lia|intros; ring_cases; done|]);
      intros j Hj; ring_cases; f_equal; lia.
  - apply orb_false_iff in E as [E1%Z.ltb_ge E2%Z.leb_gt].
    rewrite u32_small by lia. rewrite (mem_read_ok buf 0), drop_0 by lia.
    cbn -[Z.to_nat window blit].
    assert (Hd1 : length (take (Z.to_nat (2048 - tail b)) buf) = Z.to_nat (2048 - tail b))
      by (rewrite length_take; lia).
    rewrite mem_write_ok by lia. cbn -[Z.to_nat window blit].
    rewrite mem_read_ok by lia. cbn -[Z.to_nat window blit].
    set (d2 := take _ (drop _ buf)).
    assert (Hd2 : length d2 = Z.to_nat (sent - (2048 - tail b)))
      by (unfold d2; rewrite length_take, length_drop; lia).
    rewrite mem_write_ok by (rewrite ?length_blit; lia).
    eexists. split; [done|]. rewrite !length_blit by (rewrite ?length_blit; lia).
    split; [done|]. apply window_append; [by rewrite !length_blit by (rewrite ?length_blit; lia)|lia|lia| |].
    + intros i Hi. ring_cases; done.
    + intros j Hj. ring_cases.
      * unfold d2. rewrite !lookup_take_lt, lookup_drop by lia. f_equal. lia.
      * rewrite !lookup_take_lt by lia. f_equal. lia.
Qed.

Lemma get_copy_spec b nread :
  sw_wf b -> 0 <= nread <= dataleft_sw_buffer b ->
  get_copy b nread = Ok (take (Z.to_nat nread) (sw_abs b)).
Proof.
  intros Hwf Hn. pose proof (sw_counts b Hwf) as (HD & HS & Hsum & _ & _ & Hlt).
  destruct Hwf as [Hlen Hh Ht _]. unfold get_copy, SW_BUFFER_SIZE in *.
  rewrite (u32_small (2048 - head b)) by lia.
  unfold sw_abs, window. rewrite take_take, Nat.min_l by lia.
  rewrite drop_app_le by lia. destruct (_ || _) eqn:E.
  - rewrite mem_read_ok; [|lia|lia|].
    + rewrite take_app_le; [done|]. rewrite length_drop.
      apply orb_true_iff in E as [E%Z.ltb_lt|E%Z.leb_le]; lia.
    + apply orb_true_iff in E as [E%Z.ltb_lt|E%Z.leb_le]; lia.
  - apply orb_false_iff in E as [_ E%Z.leb_gt]. rewrite u32_small by lia.
    rewrite !mem_read_ok by lia. cbn -[Z.to_nat take drop].
    rewrite take_app_ge by (rewrite length_drop; lia). rewrite length_drop, drop_0.
    rewrite (take_ge (drop _ _)) by (rewrite length_drop; lia). repeat f_equal. lia.
Qed.

Lemma dataleft_unique b n :
  sw_wf b -> 0 <= n <= SW_BUFFER_SIZE ->
  (head b + n = tail b \/ head b + n = tail b + SW_BUFFER_SIZE) ->
  (n = 0 -> full b = 0) -> (n = SW_BUFFER_SIZE -> full b <> 0) ->
  dataleft_sw_buffer b = n.
Proof.
  intros Hwf Hn Ht H0 Hf. pose proof (sw_counts b Hwf) as (HD & HS & Hsum & Htl & _ & _).
  unfold dataleft_sw_buffer, SW_BUFFER_SIZE in *.
  destruct (Z.eqb_spec (head b) (tail b)); [|lia].
  destruct (Z.eqb_spec (full b) 0); simpl in *; lia.
Qed.

Lemma sw_mod x : 0 <= x < 2 * SW_BUFFER_SIZE ->
  u32 x mod SW_BUFFER_SIZE = if x <? SW_BUFFER_SIZE then x else x - SW_BUFFER_SIZE.
Proof.
  unfold SW_BUFFER_SIZE. intros H. rewrite u32_small by lia.
  destruct (Z.ltb_spec x 2048); [apply Z.mod_small; lia|].
  rewrite <- (Z.mod_small (x - 2048) 2048) by lia.
  replace x with (x - 2048 + 1 * 2048) at 1 by lia. apply Z_mod_plus_full.
Qed.

(** What a write does on any well-formed ring that is not full. *)
Lemma put_steps b buf len :
  sw_wf b -> full b = 0 -> 0 <= len <= Z.of_nat (length buf) ->
  let sent := Z.min len (spaceleft_sw_buffer b) in
  exists b', put_sw_buffer b buf len = Ok (sent, b') /\ sw_wf b' /\
    head b' = head b /\ (len <= spaceleft_sw_buffer b -> full b' = 0) /\
    (spaceleft_sw_buffer b < len -> full b' = 1) /\
    (head b + (dataleft_sw_buffer b + sent) = tail b' \/
     head b + (dataleft_sw_buffer b + sent) = tail b' + SW_BUFFER_SIZE) /\
    window (buffer b') (Z.to_nat (head b)) (Z.to_nat (dataleft_sw_buffer b + sent))
      = sw_abs b ++ take (Z.to_nat sent) buf.
Proof.
  intros Hwf Hf Hlen sent. pose proof (sw_counts b Hwf) as (HD & HS & Hsum & Htl & _ & _).
  destruct (put_copy_spec b buf sent) as (buffer' & Hcopy & Hlen' & Hwin); [done|lia|lia|].
  destruct (Hwf) as [Hl Hh Ht _].
  assert (Hfull : (full b =? 0) = true) by lia.
  unfold put_sw_buffer. rewrite Hfull. simpl.
  rewrite (proj2 (Z.ltb_ge _ _)) by lia.
  replace (if spaceleft_sw_buffer b <? len then _ else len) with sent
    by (destruct (Z.ltb_spec (spaceleft_sw_buffer b) len); lia).
  rewrite Hcopy. simpl.
  rewrite i32_small, (sw_mod (tail b + sent)) by (unfold SW_BUFFER_SIZE in *; lia).
  unfold SW_BUFFER_SIZE in *.
  eexists. split; [done|].
  split; [split|split_and!]; simpl; try done; unfold SW_BUFFER_SIZE; try lia.
  all: destruct (Z.ltb_spec (tail b + sent) 2048), (Z.ltb_spec (spaceleft_sw_buffer b) len); lia.
Qed.

(** A write to a well-formed ring that is not full takes
    [min len spaceleft] bytes, and appends exactly those to the byte stream
    the ring holds, unless it fills the ring exactly. *)
Lemma put_sw_buffer_appends b buf len :
  sw_wf b -> full b = 0 -> 0 <= len <= Z.of_nat (length buf) ->
  len <> spaceleft_sw_buffer b ->
  let sent := Z.min len (spaceleft_sw_buffer b) in
  exists b', put_sw_buffer b buf len = Ok (sent, b') /\ sw_wf b' /\
    sw_abs b' = sw_abs b ++ take (Z.to_nat sent) buf.
Proof.
  intros Hwf Hf Hlen Hne sent.
  destruct (put_steps b buf len Hwf Hf Hlen) as (b' & Hput & Hwf' & Hh & Hf0 & Hf1 & Ht & Hwin).
  pose proof (sw_counts b Hwf) as (HD & HS & Hsum & _ & _ & _).
  exists b'. split; [done|]. split; [done|]. unfold sw_abs at 1.
  rewrite (dataleft_unique b' (dataleft_sw_buffer b + sent)), Hh; [done|done|lia|by rewrite Hh| |];
    unfold SW_BUFFER_SIZE in *; lia.
Qed.

(** A write that fills the ring exactly reports every byte as accepted,
    but leaves [full] clear, so that the ring reads as empty: the whole
    stream, old bytes and new ones, is lost. *)
Theorem put_sw_buffer_exact_fill_loses b buf :
  sw_wf b -> full b = 0 -> spaceleft_sw_buffer b <= Z.of_nat (length buf) ->
  exists b', put_sw_buffer b buf (spaceleft_sw_buffer b) = Ok (spaceleft_sw_buffer b, b') /\
    dataleft_sw_buffer b' = 0 /\ spaceleft_sw_buffer b' = SW_BUFFER_SIZE /\ sw_abs b' = [].
Proof.
  intros Hwf Hf Hlen. pose proof (sw_counts b Hwf) as (HD & HS & Hsum & _ & _ & _).
  destruct (put_steps b buf (spaceleft_sw_buffer b) Hwf Hf) as (b' & Hput & Hwf' & Hh & Hf0 & _ & Ht & _);
    [lia|]. rewrite Z.min_id in *.
  assert (E : head b' = tail b')
    by (destruct Hwf, Hwf'; unfold SW_BUFFER_SIZE in *; lia).
  assert (E0 : dataleft_sw_buffer b' = 0).
  { unfold dataleft_sw_buffer. rewrite E, Z.eqb_refl, Hf0 by lia. done. }
  exists b'. split; [done|]. split; [done|]. split.
  - pose proof (sw_counts b' Hwf') as (_ & _ & ? & _). lia.
  - unfold sw_abs. by rewrite E0.
Qed.

(** A read from a well-formed ring that holds data returns the next
    [min len dataleft] bytes of the stream and removes exactly those. *)
Lemma get_sw_buffer_takes b len :
  sw_wf b -> 0 < dataleft_sw_buffer b -> 0 <= len ->
  let n := Z.to_nat (Z.min len (dataleft_sw_buffer b)) in
  exists b', get_sw_buffer b len = Ok (take n (sw_abs b), b') /\ sw_wf b' /\
    sw_abs b' = drop n (sw_abs b).
Proof.
  intros Hwf Hpos Hlen n. pose proof (sw_counts b Hwf) as (HD & HS & Hsum & Htl & _ & _).
  set (nread := Z.min len (dataleft_sw_buffer b)) in n.
  pose proof (get_copy_spec b nread Hwf ltac:(lia)) as Hcopy.
  destruct (Hwf) as [Hl Hh Ht Hf].
  assert (Hne : (head b =? tail b) && (full b =? 0) = false).
  { unfold dataleft_sw_buffer in Hpos. destruct (head b =? tail b); [|done].
    destruct (full b =? 0); simpl in *; lia. }
  unfold get_sw_buffer. rewrite Hne, (proj2 (Z.ltb_ge _ _)) by lia.
  replace (if dataleft_sw_buffer b <? len then _ else len) with nread
    by (destruct (Z.ltb_spec (dataleft_sw_buffer b) len); lia).
  rewrite Hcopy. cbn -[Z.to_nat sw_abs u32].
  eexists. split; [done|]. unfold SW_BUFFER_SIZE in *.
  pose proof (sw_mod (head b + nread)) as Hmod. unfold SW_BUFFER_SIZE in Hmod.
  match goal with |- sw_wf ?x /\ _ => set (b' := x) end.
  assert (Hwf' : sw_wf b').
  { unfold b'. split; simpl; unfold SW_BUFFER_SIZE; rewrite ?Hmod by lia; try lia.
    all: destruct (Z.ltb_spec (head b + nread) 2048), (Z.ltb_spec 0 nread); lia. }
  split; [done|]. unfold sw_abs.
  rewrite (dataleft_unique b' (dataleft_sw_buffer b - nread)); [|done|unfold SW_BUFFER_SIZE; lia| | |];
    unfold b'; simpl; rewrite ?Hmod by lia; unfold SW_BUFFER_SIZE.
  2-4: destruct (Z.ltb_spec (head b + nread) 2048), (Z.ltb_spec 0 nread); try lia.
  rewrite Z2Nat.inj_sub by lia. fold n. rewrite <- window_pop by lia. f_equal.
  rewrite ring_mod by lia. replace (length (buffer b)) with 2048%nat by lia.
  destruct (Z.ltb_spec (head b + nread) 2048); case_decide; lia.
Qed.

Lemma put_ok_not_full b d len r : put_sw_buffer b d len = Ok r -> full b = 0.
Proof. unfold put_sw_buffer. destruct (Z.eqb_spec (full b) 0); done. Qed.

Lemma get_ok_not_empty b len r :
  sw_wf b -> get_sw_buffer b len = Ok r -> 0 < dataleft_sw_buffer b.
Proof.
  intros Hwf. pose proof (sw_counts b Hwf) as (? & ? & ? & ? & _). destruct Hwf.
  unfold get_sw_buffer, dataleft_sw_buffer, SW_BUFFER_SIZE in *.
  destruct (Z.eqb_spec (head b) (tail b)), (Z.eqb_spec (full b) 0); simpl in *; [done|lia|lia|lia].
Qed.

(** The indices are read from memory the normal world can write: with an
    index outside the ring, [put_sw_buffer]'s check on the free space passes
    and the copy leaves the buffer. *)
Theorem put_sw_buffer_untrusted_index :
  put_sw_buffer (mk_sw_buff (replicate 2048 0) 2900 3000 0) [1] 1 = Undef.
Proof. vm_compute. reflexivity. Qed.

(** C32. Over any sequence of writes and reads that does not abort and has no
    exact fill, the ring is a byte stream: the bytes delivered, followed by
    what is still in the ring, are the initial contents followed by the bytes
    accepted, in order. *)
Theorem rb_run_is_stream ops : forall b i o b',
  sw_wf b -> Forall (fun op => match op with RbGet len => 0 <= len | _ => True end) ops ->
  rb_no_exact_fill ops b = true -> rb_run ops b = Ok (i, o, b') ->
  sw_wf b' /\ o ++ sw_abs b' = sw_abs b ++ i.
Proof.
  induction ops as [|[d|len] ops IH]; intros b i o b' Hwf Hops Hnf Hrun; simpl in *.
  - inv_ok. simplify_eq. by rewrite app_nil_r.
  - apply Forall_cons in Hops as [_ Hops].
    apply andb_true_iff in Hnf as [Hne%negb_true_iff%Z.eqb_neq Hnf].
    inv_ok. destruct a as [n b1]. inv_ok. destruct a as [[i2 o2] b2]. inv_ok. simplify_eq.
    pose proof (put_ok_not_full _ _ _ _ Hrun0) as Hf.
    destruct (put_sw_buffer_appends b d (Z.of_nat (length d)) Hwf Hf) as (b1' & Hput & Hwf1 & Habs);
      [lia|done|]. rewrite Hput in *. simplify_eq.
    destruct (IH _ _ _ _ Hwf1 Hops Hnf Hrun1) as [? Hs]. split; [done|].
    by rewrite Hs, Habs, <- app_assoc.
  - apply Forall_cons in Hops as [Hlen Hops].
    inv_ok. destruct a as [d b1]. inv_ok. destruct a as [[i2 o2] b2]. inv_ok. simplify_eq.
    pose proof (get_ok_not_empty _ _ _ Hwf Hrun0) as Hpos.
    destruct (get_sw_buffer_takes b len Hwf Hpos Hlen) as (b1' & Hget & Hwf1 & Habs).
    rewrite Hget in *. simplify_eq.
    destruct (IH _ _ _ _ Hwf1 Hops Hnf Hrun1) as [? Hs]. split; [done|].
    rewrite <- app_assoc, Hs, Habs, app_assoc. by rewrite take_drop.
Qed.

Lemma rb_run_is_stream_witness :
  exists i o b', rb_run [RbPut [1; 2; 3]; RbGet 2; RbPut [4]; RbGet 9]
      (mk_sw_buff (replicate 2048 0) 2046 2046 0) = Ok (i, o, b') /\
    sw_wf b' /\ o ++ sw_abs b' = sw_abs (mk_sw_buff (replicate 2048 0) 2046 2046 0) ++ i /\
    o = [1; 2; 3; 4].
Proof.
  assert (Hrun : exists b', rb_run [RbPut [1; 2; 3]; RbGet 2; RbPut [4]; RbGet 9]
      (mk_sw_buff (replicate 2048 0) 2046 2046 0) = Ok ([1; 2; 3; 4], [1; 2; 3; 4], b'))
    by (eexists; vm_compute; reflexivity).
  destruct Hrun as [b' Hrun]. exists [1; 2; 3; 4], [1; 2; 3; 4], b'. split; [exact Hrun|].
  refine (let H := rb_run_is_stream _ _ _ _ _ _ _ _ Hrun in conj (proj1 H) (conj (proj2 H) eq_refl)).
  - split; simpl; rewrite ?length_replicate; unfold SW_BUFFER_SIZE; lia.
  - repeat constructor; lia.
  - vm_compute. reflexivity.
Defined.

Lemma put_sw_buffer_exact_fill_loses_witness :
  exists b', put_sw_buffer (mk_sw_buff (replicate 2048 0) 4 2 0) [7; 8] 2 = Ok (2, b') /\
    dataleft_sw_buffer b' = 0 /\ spaceleft_sw_buffer b' = SW_BUFFER_SIZE /\ sw_abs b' = [].
Proof.
  apply (put_sw_buffer_exact_fill_loses (mk_sw_buff (replicate 2048 0) 4 2 0) [7; 8]).
  - split; simpl; rewrite ?length_replicate; unfold SW_BUFFER_SIZE; lia.
  - reflexivity.
  - vm_compute. discriminate.
Defined.
