(* ===== verification/EthBuf.v ===== *)
(** * Packet buffers and their pool (nettrug/pta/bstgw_eth_buf.h/.c, and the
    per-packet structures of nettrug/pta/npf_router.h).

    A buffer is named by an identifier in the pool's store; the pool keeps
    its free and in-use lists as the code does.  A pointer into a buffer's
    bytes is an offset into [bytes].  What the heap returns is an argument of
    the allocating operations. *)

From S2P Require Import Prelude Pktq.

(** ** Per-packet data *)

(** An address of [npf_addr_t]: its bytes in memory order (network order). *)
Definition npf_addr_t := list Z.

Record route_info_t := mk_route_info {
  rt_if_idx : Z;
  rt_addr_len : Z;
  rt_next_hop : npf_addr_t;
  rt_if_addr_idx : Z
}.

#[global] Instance eta_route_info : Settable route_info_t :=
  fun r => mk_route_info (rt_if_idx r) (rt_addr_len r) (rt_next_hop r) (rt_if_addr_idx r).
#[global] Instance route_info_eq_dec : EqDecision route_info_t.
Proof. solve_decision. Defined.

Definition MBUF_NPF_NEED_L2 : Z := 1.

Record npf_mbuf_priv_t := mk_priv {
  flags : Z;
  ether_type : Z;
  route : route_info_t;
  out_if_idx : Z
}.

#[global] Instance eta_priv : Settable npf_mbuf_priv_t :=
  fun p => mk_priv (flags p) (ether_type p) (route p) (out_if_idx p).
#[global] Instance priv_eq_dec : EqDecision npf_mbuf_priv_t.
Proof. solve_decision. Defined.

(** What [calloc] leaves in the private area. *)
Definition priv_zero : npf_mbuf_priv_t :=
  mk_priv 0 0 (mk_route_info 0 0 (replicate 16 0) 0) 0.

Definition RTE_PTYPE_L2_MASK : Z := 15.
Definition BSTGW_DEFAULT_BUF_SIZE : Z := 2048.
Definition BSTGW_CACHE_LINE : Z := 64.
(** [sizeof(npf_mbuf_priv_t)]: four words and a 16-byte address, in words. *)
Definition BSTGW_PRIV_SIZE : Z := 40.

Record bstgw_ethbuf_t := mk_ethbuf {
  next : ebptr;
  packet_type : Z;
  l2_len : Z;
  l3_len : Z;
  priv_data : option npf_mbuf_priv_t;
  data_len : Z;
  data_off : Z;
  buf_cap : Z;
  buf : Z;           (** address of the first byte of the buffer *)
  bytes : list Z;    (** the allocated bytes from that address on *)
  aligned : Z;
  ip_summed : Z;     (** checksum offloading *)
  csum_start : Z;
  csum_offset : Z
}.

#[global] Instance eta_ethbuf : Settable bstgw_ethbuf_t :=
  fun e => mk_ethbuf (next e) (packet_type e) (l2_len e) (l3_len e) (priv_data e)
             (data_len e) (data_off e) (buf_cap e) (buf e) (bytes e) (aligned e)
             (ip_summed e) (csum_start e) (csum_offset e).

(** ** One buffer *)

Definition bstgw_ethbuf_align_check (e : bstgw_ethbuf_t) : outcome unit :=
  if Z.land (buf e) (aligned e) =? 0 then Ok tt else Panic.

(** What the heap returned for a buffer: its identity, the address and the
    contents of [raw_buf], and whether the private area could be allocated. *)
Record chunk := mk_chunk {
  ch_id : positive;
  ch_addr : Z;
  ch_raw : list Z;
  ch_priv_ok : bool
}.

(** [roundup2] of the platform's headers is an argument. *)
Definition bstgw_ethbuf_alloc_aligned (roundup2 : Z -> Z -> Z) (malloc : Z -> option chunk)
    (capacity priv_size align_req : Z) : outcome (option (positive * bstgw_ethbuf_t)) :=
  let align := negb (align_req =? 0) in
  let rlen := if negb align then capacity else u32 (roundup2 capacity align_req + align_req) in
  match malloc rlen with
  | None => Ok None
  | Some ch =>
      let al := u32 (align_req - 1) in
      let off := if align then Z.land (ch_addr ch) al else 0 in
      let pad := if off =? 0 then 0 else u32 (al + 1 - off) in
      let e := mk_ethbuf None 0 0 0 None 0 0 capacity (ch_addr ch + pad)
                 (drop (Z.to_nat pad) (ch_raw ch)) al 0 0 0 in
      (if align then bstgw_ethbuf_align_check e else Ok tt);;
      if 0 <? priv_size then
        if negb (ch_priv_ok ch) then Ok None
        else Ok (Some (ch_id ch, e <| priv_data := Some priv_zero |>))
      else Ok (Some (ch_id ch, e))
  end.

Definition bstgw_ethbuf_buf_capacity (e : bstgw_ethbuf_t) : Z := buf_cap e.
Definition bstgw_ethbuf_data_len (e : bstgw_ethbuf_t) : Z := data_len e.

(** A pointer to [data[offset]]: an offset into [bytes], or NULL. *)
Definition bstgw_ethbuf_data_ptr (e : bstgw_ethbuf_t) (offset : Z) : outcome (option Z) :=
  if data_len e <=? offset then Ok None else
  c_assert (u32 (data_off e + offset) <? buf_cap e);;
  Ok (Some (u32 (data_off e + offset))).

Definition bstgw_ethbuf_head (e : bstgw_ethbuf_t) : Z := 0.

Definition bstgw_ethbuf_precut (e : bstgw_ethbuf_t) (len : Z) : option Z * bstgw_ethbuf_t :=
  if data_len e <? len then (None, e) else
  let off := u32 (data_off e + len) in
  (Some off, e <| data_off := off |> <| data_len := u32 (data_len e - len) |>).

Definition bstgw_ethbuf_prepend (e : bstgw_ethbuf_t) (len : Z) : option Z * bstgw_ethbuf_t :=
  let head_space := data_off e in
  if head_space <? len then (None, e) else
  let off := u32 (data_off e - len) in
  (Some off, e <| data_off := off |> <| data_len := u32 (data_len e + len) |>).

(** ** Chains of buffers in a store *)

Notation ebstore := (gmap positive bstgw_ethbuf_t).

(** The loop of [bstgw_ethbuf_total_pkt_len]; [fuel] bounds the length of the
    chain. *)
Fixpoint total_len_loop (fuel : nat) (st : ebstore) (p : ebptr) (len : Z) : outcome Z :=
  match p with
  | None => Ok len
  | Some i =>
      match fuel with
      | O => Undef
      | S fuel' =>
          e ← deref (st !! i);
          total_len_loop fuel' st (next e) (u32 (len + data_len e))
      end
  end.

Definition bstgw_ethbuf_total_pkt_len (st : ebstore) (p : ebptr) : outcome Z :=
  i ← assert_ptr p;
  e ← deref (st !! i);
  match next e with
  | None => Ok (data_len e)
  | Some _ => total_len_loop (S (size st)) st p 0
  end.

(** The copy-and-free loop of [bstgw_ethbuf_linearize]: [b] is the write
    position in the first buffer's bytes [dst]. *)
Fixpoint linearize_loop (fuel : nat) (st : ebstore) (dst : list Z) (b : option Z) (p : ebptr)
    : outcome (ebstore * list Z) :=
  match p with
  | None => Ok (st, dst)
  | Some i =>
      match fuel with
      | O => Undef
      | S fuel' =>
          e ← deref (st !! i);
          src ← bstgw_ethbuf_data_ptr e 0;
          src ← deref src;
          d ← mem_read (bytes e) src (data_len e);
          b ← deref b;
          dst' ← mem_write dst b d;
          linearize_loop fuel' (delete i st) dst' (Some (b + data_len e)) (next e)
      end
  end.

Definition bstgw_ethbuf_linearize (st : ebstore) (p : ebptr) : outcome (Z * ebstore) :=
  match p with
  | None => Ok (-1, st)
  | Some i =>
      e ← deref (st !! i);
      match next e with
      | None => Ok (0, st)
      | Some _ =>
          total ← bstgw_ethbuf_total_pkt_len st p;
          let tail_space := u32 (buf_cap e - (data_off e + data_len e)) in
          let rest_buf := u32 (total - data_len e) in
          if tail_space <? rest_buf then Ok (-1, st) else
          last ← bstgw_ethbuf_data_ptr e (u32 (data_len e - 1));
          let b := (fun x => x + 1) <$> last in
          '(st', dst) ← linearize_loop (size st) st (bytes e) b (next e);
          Ok (0, <[i := e <| bytes := dst |> <| data_len := u32 (data_len e + rest_buf) |>
                          <| next := None |>]> st')
      end
  end.

(** ** The pool *)

Record ethbuf_pool := mk_pool {
  bufs : ebstore;
  free_list : list positive;
  inuse_list : list positive;
  pool_capacity : Z
}.

#[global] Instance eta_pool : Settable ethbuf_pool :=
  fun p => mk_pool (bufs p) (free_list p) (inuse_list p) (pool_capacity p).

Definition bstgw_ethpool_init : ethbuf_pool := mk_pool ∅ [] [] 0.

Definition lremove (i : positive) (l : list positive) : list positive :=
  filter (fun j => j <> i) l.

(** [LIST_REMOVE(eb, pool_entry)]: unlinks [eb] from the list it is on. *)
Definition pool_unlink (i : positive) (p : ethbuf_pool) : outcome ethbuf_pool :=
  if decide (i ∈ free_list p ++ inuse_list p) then
    Ok (p <| free_list ::= lremove i |> <| inuse_list ::= lremove i |>)
  else Undef.

Fixpoint ethpool_increase_loop (roundup2 : Z -> Z -> Z) (heap : nat -> Z -> option chunk)
    (n : nat) (p : ethbuf_pool) : outcome ethbuf_pool :=
  match n with
  | O => Ok p
  | S n' =>
      r ← bstgw_ethbuf_alloc_aligned roundup2 (heap n) BSTGW_DEFAULT_BUF_SIZE BSTGW_PRIV_SIZE BSTGW_CACHE_LINE;
      '(i, e) ← assert_ptr r;
      ethpool_increase_loop roundup2 heap n' (p <| bufs ::= <[i := e]> |> <| free_list ::= cons i |>)
  end.

Definition bstgw_ethpool_increase (roundup2 : Z -> Z -> Z) (heap : nat -> Z -> option chunk)
    (buffer_number : Z) (p : ethbuf_pool) : outcome ethbuf_pool :=
  p' ← ethpool_increase_loop roundup2 heap (Z.to_nat buffer_number) p;
  Ok (p' <| pool_capacity := u32 (pool_capacity p' + buffer_number) |>).

Definition bstgw_ethpool_buf_reset (e : bstgw_ethbuf_t) : outcome bstgw_ethbuf_t :=
  c_assert (bool_decide (next e = None));;
  pr ← deref (priv_data e);
  Ok (e <| l2_len := 0 |> <| l3_len := 0 |> <| data_len := 0 |> <| data_off := 0 |>
        <| priv_data := Some (pr <| flags := 0 |>) |>).

Definition bstgw_ethpool_buf_alloc (p : ethbuf_pool) : outcome (positive * ethbuf_pool) :=
  match free_list p with
  | [] => Panic
  | i :: _ =>
      p' ← pool_unlink i p;
      Ok (i, p' <| inuse_list ::= cons i |>)
  end.

Definition bstgw_ethpool_buf_free (b : ebptr) (p : ethbuf_pool) : outcome ethbuf_pool :=
  i ← assert_ptr b;
  e ← deref (bufs p !! i);
  e' ← bstgw_ethpool_buf_reset e;
  p' ← pool_unlink i (p <| bufs ::= <[i := e']> |>);
  Ok (p' <| free_list ::= cons i |>).

(** [bstgw_ethbuf_free]: frees every buffer of the chain. *)
Fixpoint bstgw_ethbuf_free (fuel : nat) (b : ebptr) (st : ebstore) : outcome ebstore :=
  match b with
  | None => Ok st
  | Some i =>
      match fuel with
      | O => Undef
      | S fuel' =>
          e ← deref (st !! i);
          bstgw_ethbuf_free fuel' (next e) (delete i st)
      end
  end.

Definition bstgw_ethpool_buf_destroy (b : ebptr) (p : ethbuf_pool) : outcome ethbuf_pool :=
  i ← assert_ptr b;
  p' ← pool_unlink i p;
  st ← bstgw_ethbuf_free (S (size (bufs p'))) b (bufs p');
  Ok (p' <| pool_capacity := u32 (pool_capacity p' - 1) |> <| bufs := st |>).

(** ** Invariants *)

Record eb_wf (e : bstgw_ethbuf_t) : Prop := {
  ebw_off : 0 <= data_off e;
  ebw_len : 0 <= data_len e;
  ebw_fit : data_off e + data_len e <= buf_cap e;
  ebw_cap : buf_cap e <= Z.of_nat (length (bytes e));
  ebw_max : buf_cap e <= MAX_I32;
  ebw_priv : is_Some (priv_data e)
}.

(** The packet a buffer holds. *)
Definition eb_data (e : bstgw_ethbuf_t) : list Z :=
  take (Z.to_nat (data_len e)) (drop (Z.to_nat (data_off e)) (bytes e)).

(** A buffer as [bstgw_ethpool_buf_reset] leaves it. *)
Definition eb_clean (e : bstgw_ethbuf_t) : Prop :=
  next e = None /\ l2_len e = 0 /\ l3_len e = 0 /\ data_len e = 0 /\ data_off e = 0 /\
  exists pr, priv_data e = Some pr /\ flags pr = 0.

Record pool_wf (p : ethbuf_pool) : Prop := {
  pw_nodup : NoDup (free_list p ++ inuse_list p);
  pw_store : forall i, i ∈ free_list p ++ inuse_list p <-> is_Some (bufs p !! i);
  pw_bufs : map_Forall (fun _ e => eb_wf e /\ next e = None) (bufs p);
  pw_clean : forall i e, i ∈ free_list p -> bufs p !! i = Some e -> eb_clean e;
  pw_cap : pool_capacity p = Z.of_nat (length (free_list p ++ inuse_list p))
}.

(** A heap that serves [n] requests for a packet buffer: each with a block of
    its own, of the size asked for, none of them already in the pool. *)
Record heap_ok (roundup2 : Z -> Z -> Z) (heap : nat -> Z -> option chunk) (n : nat) (p : ethbuf_pool) : Prop := {
  hk_round : BSTGW_DEFAULT_BUF_SIZE <= roundup2 BSTGW_DEFAULT_BUF_SIZE BSTGW_CACHE_LINE < BSTGW_DEFAULT_BUF_SIZE + BSTGW_CACHE_LINE;
  hk_chunk : forall k sz, (1 <= k <= n)%nat -> 0 <= sz -> exists ch, heap k sz = Some ch /\
    ch_priv_ok ch = true /\ 0 <= ch_addr ch /\ Z.of_nat (length (ch_raw ch)) = sz /\ bufs p !! ch_id ch = None;
  hk_fresh : forall k k' sz sz' ch ch', (1 <= k <= n)%nat -> (1 <= k' <= n)%nat -> k <> k' ->
    heap k sz = Some ch -> heap k' sz' = Some ch' -> ch_id ch <> ch_id ch'
}.

(** The life of the pool: buffers are added, allocated, used, freed and
    destroyed. *)
Inductive pool_step : ethbuf_pool -> ethbuf_pool -> Prop :=
| step_increase roundup2 heap n p p' :
    heap_ok roundup2 heap (Z.to_nat n) p -> 0 <= n -> pool_capacity p + n <= MAX_U32 ->
    bstgw_ethpool_increase roundup2 heap n p = Ok p' -> pool_step p p'
| step_alloc p i p' :
    bstgw_ethpool_buf_alloc p = Ok (i, p') -> pool_step p p'
| step_free p i p' :
    i ∈ inuse_list p -> bstgw_ethpool_buf_free (Some i) p = Ok p' -> pool_step p p'
| step_destroy p i p' :
    i ∈ inuse_list p -> bstgw_ethpool_buf_destroy (Some i) p = Ok p' -> pool_step p p'
| step_use p i e :
    i ∈ inuse_list p -> eb_wf e -> next e = None ->
    pool_step p (p <| bufs ::= <[i := e]> |>).

(** Concrete buffers for the examples. *)
Definition eb_example : bstgw_ethbuf_t :=
  mk_ethbuf None 1 0 0 (Some priv_zero) 20 2 64 1024 (seqZ 0 64) 63 0 0 0.

Definition pool_example : ethbuf_pool :=
  mk_pool {[ 1%positive := eb_example <| data_len := 0 |> <| data_off := 0 |> ]} [1%positive] [] 1.

(** ** Lemmas on one buffer *)

Lemma land_align_mask x k : 0 <= k -> Z.land x (2 ^ k - 1) = x mod 2 ^ k.
Proof. intros. rewrite <- Z.land_ones by done. f_equal. rewrite Z.ones_equiv. lia. Qed.

Lemma align_pad_mod a m : 0 < m -> a mod m <> 0 -> (a + (m - a mod m)) mod m = 0.
Proof.
  intros Hm Ha. pose proof (Z.div_mod a m ltac:(lia)).
  replace (a + (m - a mod m)) with ((a / m + 1) * m) by nia. apply Z_mod_mult.
Qed.

(** The aligned allocation of a packet buffer, for any power-of-two
    alignment: when the heap serves the requests, it returns a buffer whose
    address is a multiple of the alignment (so its own check cannot panic)
    and that has [capacity] bytes inside the allocated block. *)
Lemma alloc_aligned_ok roundup2 malloc k capacity priv_size ch :
  0 <= k <= 16 -> 0 <= capacity <= MAX_I32 - 2 * 2 ^ k ->
  capacity <= roundup2 capacity (2 ^ k) < capacity + 2 ^ k ->
  malloc (roundup2 capacity (2 ^ k) + 2 ^ k) = Some ch -> ch_priv_ok ch = true -> 0 <= ch_addr ch ->
  Z.of_nat (length (ch_raw ch)) = roundup2 capacity (2 ^ k) + 2 ^ k ->
  exists e, bstgw_ethbuf_alloc_aligned roundup2 malloc capacity priv_size (2 ^ k) = Ok (Some (ch_id ch, e)) /\
    buf e mod 2 ^ k = 0 /\ buf_cap e = capacity /\
    buf e + capacity <= ch_addr ch + Z.of_nat (length (ch_raw ch)) /\
    capacity <= Z.of_nat (length (bytes e)) /\
    next e = None /\ data_off e = 0 /\ data_len e = 0 /\ l2_len e = 0 /\ l3_len e = 0 /\
    (0 < priv_size -> priv_data e = Some priv_zero).
Proof.
  intros Hk Hcap Hr Hm Hp Ha Hlen.
  assert (H2 : 1 <= 2 ^ k <= 65536).
  { split; [pose proof (Z.pow_pos_nonneg 2 k); lia|].
    replace 65536 with (2 ^ 16) by done. apply Z.pow_le_mono_r; lia. }
  unfold bstgw_ethbuf_alloc_aligned, MAX_I32 in *.
  rewrite (proj2 (Z.eqb_neq (2 ^ k) 0)) by lia. simpl.
  rewrite !(u32_small (roundup2 _ _ + _)), (u32_small (2 ^ k - 1)) by lia.
  rewrite Hm, land_align_mask by lia.
  pose proof (Z.mod_pos_bound (ch_addr ch) (2 ^ k) ltac:(lia)) as Hoff.
  set (pad := if ch_addr ch mod 2 ^ k =? 0 then 0 else _).
  assert (Hpad : 0 <= pad < 2 ^ k /\ (ch_addr ch + pad) mod 2 ^ k = 0).
  { unfold pad. destruct (Z.eqb_spec (ch_addr ch mod 2 ^ k) 0) as [E|Hne];
      [rewrite Z.add_0_r; lia|]. rewrite u32_small by lia.
    split; [lia|]. replace (2 ^ k - 1 + 1) with (2 ^ k) by lia. apply align_pad_mod; lia. }
  destruct Hpad as [Hpad Hal].
  unfold bstgw_ethbuf_align_check. simpl. rewrite land_align_mask, Hal by lia. simpl.
  rewrite Hp. simpl.
  destruct (Z.ltb_spec 0 priv_size); (eexists; split; [done|]); simpl;
    (split_and!; [done|done|lia|rewrite length_drop; lia|done..|]); [done|lia].
Qed.

Lemma data_ptr_spec e off :
  eb_wf e -> 0 <= off ->
  bstgw_ethbuf_data_ptr e off
    = Ok (if off <? data_len e then Some (data_off e + off) else None).
Proof.
  intros [] Hoff. unfold bstgw_ethbuf_data_ptr, MAX_I32 in *.
  destruct (Z.leb_spec (data_len e) off), (Z.ltb_spec off (data_len e)); try lia; [done|].
  rewrite u32_small by lia. rewrite (proj2 (Z.ltb_lt _ _)) by lia. done.
Qed.

Lemma precut_spec e len :
  eb_wf e -> 0 <= len <= data_len e ->
  let r := bstgw_ethbuf_precut e len in
  r.1 = Some (data_off e + len) /\ eb_wf r.2 /\ next r.2 = next e /\
  data_len r.2 = data_len e - len /\ data_off r.2 = data_off e + len /\
  eb_data r.2 = drop (Z.to_nat len) (eb_data e).
Proof.
  intros Hwf Hlen. destruct (Hwf). unfold bstgw_ethbuf_precut, MAX_I32 in *.
  rewrite (proj2 (Z.ltb_ge _ _)) by lia. cbn -[Z.to_nat]. unwrap_ints.
  split_and!; try done; [split; cbn -[Z.to_nat]; try lia; done|].
  unfold eb_data. simpl.
  rewrite skipn_firstn_comm, drop_drop. f_equal; [lia|f_equal; lia].
Qed.

Lemma prepend_spec e len :
  eb_wf e -> 0 <= len <= data_off e ->
  let r := bstgw_ethbuf_prepend e len in
  r.1 = Some (data_off e - len) /\ eb_wf r.2 /\ next r.2 = next e /\
  data_len r.2 = data_len e + len /\ data_off r.2 = data_off e - len /\
  drop (Z.to_nat len) (eb_data r.2) = eb_data e.
Proof.
  intros Hwf Hlen. destruct (Hwf). unfold bstgw_ethbuf_prepend, MAX_I32 in *.
  rewrite (proj2 (Z.ltb_ge _ _)) by lia. cbn -[Z.to_nat]. unwrap_ints.
  split_and!; try done; [split; cbn -[Z.to_nat]; try lia; done|].
  unfold eb_data. simpl.
  rewrite skipn_firstn_comm, drop_drop. f_equal; [lia|f_equal; lia].
Qed.

(** Stripping a header and putting one of the same length back: the two
    operations succeed, stay inside the buffer, the packet between them is the
    old one without its first [len] bytes, and afterwards every field of the
    buffer, its bytes included, is as before. *)
Theorem precut_prepend_roundtrip e len :
  eb_wf e -> 0 <= len <= data_len e ->
  exists off e1, bstgw_ethbuf_precut e len = (Some off, e1) /\ eb_wf e1 /\
    eb_data e1 = drop (Z.to_nat len) (eb_data e) /\
    bstgw_ethbuf_prepend e1 len = (Some (data_off e), e).
Proof.
  intros Hwf Hlen. pose proof (precut_spec e len Hwf Hlen) as (H1 & H2 & _ & _ & _ & H3).
  destruct (bstgw_ethbuf_precut e len) as [o e1] eqn:E. simpl in *. subst o.
  exists (data_off e + len), e1. split; [done|]. split; [done|]. split; [done|].
  destruct Hwf. unfold bstgw_ethbuf_precut, bstgw_ethbuf_prepend, MAX_I32 in *.
  rewrite (proj2 (Z.ltb_ge _ _)) in E by lia. injection E as _ <-. simpl. unwrap_ints.
  rewrite (proj2 (Z.ltb_ge _ _)) by lia.
  replace (data_off e + len - len) with (data_off e) by lia.
  replace (data_len e - len + len) with (data_len e) by lia.
  unwrap_ints. by destruct e.
Qed.

(** ** Lemmas on the pool *)

Lemma elem_of_lremove i j l : j ∈ lremove i l <-> j ∈ l /\ j <> i.
Proof. unfold lremove. rewrite list_elem_of_filter. tauto. Qed.

Lemma lremove_notin i l : i ∉ l -> lremove i l = l.
Proof.
  induction l as [|j l IH]; intros H; [done|]. apply not_elem_of_cons in H as [? ?].
  unfold lremove in *. rewrite filter_cons_True by done. by rewrite IH.
Qed.

Lemma lremove_head i l : i ∉ l -> lremove i (i :: l) = l.
Proof.
  intros H. unfold lremove. rewrite filter_cons_False by naive_solver.
  by apply lremove_notin.
Qed.

Lemma length_lremove i l : NoDup l -> i ∈ l -> S (length (lremove i l)) = length l.
Proof.
  induction l as [|j l IH]; intros Hnd Hi; [by apply elem_of_nil in Hi|].
  apply NoDup_cons in Hnd as [Hj Hnd]. destruct (decide (j = i)) as [->|Hne].
  - by rewrite lremove_head.
  - unfold lremove in *. rewrite filter_cons_True by done. simpl. f_equal.
    apply IH; [done|]. by apply elem_of_cons in Hi as [?|?].
Qed.

Lemma NoDup_lremove i l : NoDup l -> NoDup (lremove i l).
Proof. apply NoDup_filter. Qed.

Lemma lremove_app i l k : lremove i (l ++ k) = lremove i l ++ lremove i k.
Proof. apply filter_app. Qed.

Lemma pool_unlink_ok i p :
  i ∈ free_list p ++ inuse_list p ->
  pool_unlink i p = Ok (p <| free_list ::= lremove i |> <| inuse_list ::= lremove i |>).
Proof. intros H. unfold pool_unlink. by rewrite decide_True. Qed.

Lemma reset_ok e :
  eb_wf e -> next e = None ->
  exists e', bstgw_ethpool_buf_reset e = Ok e' /\ eb_wf e' /\ eb_clean e' /\ buf_cap e' = buf_cap e.
Proof.
  intros [? ? ? ? ? [pr Hpr]] Hn. unfold bstgw_ethpool_buf_reset.
  rewrite Hn, Hpr. simpl. eexists. split; [done|].
  split; [split; simpl; try lia; by eexists|]. split; [|done].
  unfold eb_clean. simpl. split_and!; try done. by eexists.
Qed.

(** Disjointness of the two lists. *)
Lemma pool_inuse_not_free p i : pool_wf p -> i ∈ inuse_list p -> i ∉ free_list p.
Proof. intros [Hnd _ _ _ _] Hi Hf. apply NoDup_app in Hnd as (_ & H & _). by eapply H. Qed.

Lemma pool_alloc_spec p i fl :
  pool_wf p -> free_list p = i :: fl ->
  exists p', bstgw_ethpool_buf_alloc p = Ok (i, p') /\ pool_wf p' /\
    free_list p' = fl /\ inuse_list p' = i :: inuse_list p /\ bufs p' = bufs p /\
    pool_capacity p' = pool_capacity p.
Proof.
  intros [Hnd Hst Hb Hcl Hcap] Hfl. unfold bstgw_ethpool_buf_alloc. rewrite Hfl in *.
  rewrite pool_unlink_ok by (rewrite Hfl; set_solver). simpl.
  apply NoDup_app in Hnd as (Hnd1 & Hdis & Hnd2). apply NoDup_cons in Hnd1 as [Hi Hnd1].
  assert (Hi' : i ∉ inuse_list p) by (apply Hdis; set_solver).
  eexists. split; [done|]. simpl. rewrite Hfl, lremove_head, lremove_notin by done.
  split; [|done].
  assert (Hperm : fl ++ i :: inuse_list p ≡ₚ (i :: fl) ++ inuse_list p) by solve_Permutation.
  split; simpl; rewrite ?Hfl, ?lremove_head, ?lremove_notin by done.
  - rewrite Hperm. simpl. apply NoDup_cons. split; [set_solver|].
    apply NoDup_app. split; [done|]. split; [|done]. set_solver.
  - intros j. rewrite <- Hst, Hperm. done.
  - done.
  - intros j e Hj. apply Hcl. set_solver.
  - rewrite Hcap. by rewrite Hperm.
Qed.

Lemma pool_free_spec p i :
  pool_wf p -> i ∈ inuse_list p ->
  exists p' e', bstgw_ethpool_buf_free (Some i) p = Ok p' /\ pool_wf p' /\
    free_list p' = i :: free_list p /\ inuse_list p' = lremove i (inuse_list p) /\
    bufs p' = <[i := e']> (bufs p) /\ (exists e, bufs p !! i = Some e /\ buf_cap e' = buf_cap e) /\
    pool_capacity p' = pool_capacity p.
Proof.
  intros Hwf Hi. pose proof (pool_inuse_not_free p i Hwf Hi) as Hnf.
  destruct Hwf as [Hnd Hst Hb Hcl Hcap].
  destruct (proj1 (Hst i)) as [e He]; [set_solver|].
  destruct (Hb i e He) as [Hew Hen].
  destruct (reset_ok e Hew Hen) as (e' & Hr & Hew' & Hcl' & Hbc).
  unfold bstgw_ethpool_buf_free. simpl. rewrite He. simpl. rewrite Hr. simpl.
  rewrite pool_unlink_ok by (simpl; set_solver). simpl.
  eexists _, e'. split; [done|]. simpl. rewrite (lremove_notin i (free_list p)) by done.
  split; [|by eauto 10].
  apply NoDup_app in Hnd as (Hnd1 & Hdis & Hnd2).
  split; simpl; rewrite ?(lremove_notin i (free_list p)) by done.
  - simpl. apply NoDup_cons. split; [rewrite elem_of_app, elem_of_lremove; tauto|].
    apply NoDup_app. split; [done|]. split; [|by apply NoDup_lremove].
    intros j Hj. rewrite elem_of_lremove. naive_solver.
  - intros j. destruct (decide (j = i)) as [->|Hne].
    + rewrite lookup_insert_eq. split; [by eexists|set_solver].
    + rewrite lookup_insert_ne, <- Hst by done.
      rewrite elem_of_cons, !elem_of_app, elem_of_lremove. naive_solver.
  - apply map_Forall_insert_2; [|done]. split; [done|]. by destruct Hcl'.
  - intros j ej [->|Hj]%elem_of_cons.
    + rewrite lookup_insert_eq. by intros [= <-].
    + rewrite lookup_insert_ne by (intros ->; done). by apply Hcl.
  - rewrite Hcap. simpl. rewrite !length_app. pose proof (length_lremove i _ Hnd2 Hi). lia.
Qed.

Lemma pool_use_spec p i e :
  pool_wf p -> i ∈ inuse_list p -> eb_wf e -> next e = None ->
  pool_wf (p <| bufs ::= <[i := e]> |>).
Proof.
  intros Hwf Hi Hew Hen. pose proof (pool_inuse_not_free p i Hwf Hi) as Hnf.
  destruct Hwf as [Hnd Hst Hb Hcl Hcap]. split; simpl; try done.
  - intros j. destruct (decide (j = i)) as [->|Hne].
    + rewrite lookup_insert_eq. split; [by eexists|set_solver].
    + by rewrite lookup_insert_ne.
  - apply map_Forall_insert_2; done.
  - intros j ej Hj. rewrite lookup_insert_ne by (intros ->; done). by apply Hcl.
Qed.

Lemma pool_destroy_spec p i :
  pool_wf p -> i ∈ inuse_list p -> pool_capacity p <= MAX_U32 ->
  exists p', bstgw_ethpool_buf_destroy (Some i) p = Ok p' /\ pool_wf p' /\
    free_list p' = free_list p /\ inuse_list p' = lremove i (inuse_list p) /\
    pool_capacity p' = pool_capacity p - 1.
Proof.
  intros Hwf Hi Hmax. pose proof (pool_inuse_not_free p i Hwf Hi) as Hnf.
  destruct Hwf as [Hnd Hst Hb Hcl Hcap].
  destruct (proj1 (Hst i)) as [e He]; [set_solver|]. destruct (Hb i e He) as [_ Hen].
  unfold bstgw_ethpool_buf_destroy. simpl. rewrite pool_unlink_ok by set_solver. simpl.
  rewrite He. simpl. rewrite Hen.
  replace (bstgw_ethbuf_free _ None _) with (Ok (delete i (bufs p))) by by destruct (size (bufs p)).
  assert (Hpos : 1 <= pool_capacity p).
  { rewrite Hcap. destruct (inuse_list p); [by apply elem_of_nil in Hi|].
    rewrite length_app. simpl. lia. }
  simpl. unfold MAX_U32 in *. rewrite u32_small by lia. eexists. split; [done|]. simpl.
  rewrite (lremove_notin i (free_list p)) by done. split; [|done].
  apply NoDup_app in Hnd as (Hnd1 & Hdis & Hnd2). pose proof (length_lremove i _ Hnd2 Hi) as Hl.
  split; simpl; rewrite ?(lremove_notin i (free_list p)) by done.
  - apply NoDup_app. split; [done|]. split; [|by apply NoDup_lremove].
    intros j Hj. rewrite elem_of_lremove. naive_solver.
  - intros j. rewrite elem_of_app, elem_of_lremove. destruct (decide (j = i)) as [->|Hne].
    + rewrite lookup_delete_eq. split; [naive_solver|by intros [? ?]].
    + rewrite lookup_delete_ne, <- Hst, elem_of_app by done. naive_solver.
  - by apply map_Forall_delete.
  - intros j ej Hj. rewrite lookup_delete_ne by (intros ->; done). by apply Hcl.
  - rewrite Hcap, !length_app. lia.
Qed.

(** What [n] new buffers change: the pool has [n] more free buffers. *)
Definition increased (n : Z) (p p' : ethbuf_pool) : Prop :=
  pool_wf p' /\ inuse_list p' = inuse_list p /\ Z.of_nat (length (free_list p')) = Z.of_nat (length (free_list p)) + n /\
  pool_capacity p' = pool_capacity p + n /\ (forall i, is_Some (bufs p !! i) -> bufs p' !! i = bufs p !! i) /\
  (map_Forall (fun _ e => BSTGW_DEFAULT_BUF_SIZE <= buf_cap e) (bufs p) -> map_Forall (fun _ e => BSTGW_DEFAULT_BUF_SIZE <= buf_cap e) (bufs p')).

Lemma increase_one p i e :
  pool_wf p -> bufs p !! i = None -> eb_wf e -> next e = None -> eb_clean e -> BSTGW_DEFAULT_BUF_SIZE <= buf_cap e ->
  increased 1 p (p <| bufs ::= <[i := e]> |> <| free_list ::= cons i |> <| pool_capacity ::= fun c => c + 1 |>).
Proof.
  intros [Hnd Hst Hb Hcl Hcap] Hi He Hn Hc Hs.
  assert (Hni : i ∉ free_list p ++ inuse_list p) by (intros [? ?]%Hst; congruence).
  split; [split; simpl|split; [done|]; split; [cbn [free_list upd length]; simpl; lia|]; split; [done|]].
  - by apply NoDup_cons.
  - intros j. destruct (decide (j = i)) as [->|]; [rewrite lookup_insert_eq; split; intros _; [by eexists|set_solver]|].
    rewrite lookup_insert_ne, <- Hst by done. set_solver.
  - by apply map_Forall_insert_2.
  - intros j ej [->|Hj]%elem_of_cons; [rewrite lookup_insert_eq; by intros [= <-]|].
    rewrite lookup_insert_ne by (intros ->; apply Hni; set_solver). by apply Hcl.
  - rewrite Hcap. cbn [length]. lia.
  - split; [intros j [ej Hj]; simpl; rewrite lookup_insert_ne; [done|]; intros ->; congruence|]. intros Hall. by apply map_Forall_insert_2.
Qed.

Lemma increased_0 p : pool_wf p -> increased 0 p p.
Proof. intros Hp. unfold increased. rewrite !Z.add_0_r. done. Qed.

Lemma increased_trans n n' p1 p2 p3 : increased n p1 p2 -> increased n' p2 p3 -> increased (n + n') p1 p3.
Proof.
  intros (W1 & I1 & F1 & C1 & O1 & S1) (W2 & I2 & F2 & C2 & O2 & S2). split; [done|]. split; [congruence|]. split; [lia|]. split; [lia|].
  split; [|by auto]. intros i Hi. rewrite O2; [by apply O1|by rewrite O1].
Qed.

(** The new buffers come from the heap. *)
Definition from_heap (heap : nat -> Z -> option chunk) (n : nat) (p p' : ethbuf_pool) : Prop :=
  forall i, is_Some (bufs p' !! i) -> is_Some (bufs p !! i) \/
    exists k sz ch, (1 <= k <= n)%nat /\ heap k sz = Some ch /\ ch_id ch = i.

(** The loop, for a pool whose capacity would have to be [c]. *)
Lemma increase_loop_ok roundup2 heap n p c :
  pool_wf (p <| pool_capacity := c |>) -> heap_ok roundup2 heap n p ->
  exists p', ethpool_increase_loop roundup2 heap n p = Ok p' /\ pool_capacity p' = pool_capacity p /\
    increased (Z.of_nat n) (p <| pool_capacity := c |>) (p' <| pool_capacity := c + Z.of_nat n |>) /\ from_heap heap n p p'.
Proof.
  revert p c. induction n as [|n IH]; intros p c Hp Hh; cbn [ethpool_increase_loop].
  { exists p. split; [done|]. split; [done|]. rewrite Z.add_0_r. split; [by apply increased_0|]. intros i Hi. by left. }
  pose proof (hk_round _ _ _ _ Hh) as Hr.
  destruct (hk_chunk _ _ _ _ Hh (S n) (roundup2 BSTGW_DEFAULT_BUF_SIZE (2 ^ 6) + 2 ^ 6) ltac:(lia)) as (ch & Ech & Hpr & Ha & Hl & Hnew);
    [change BSTGW_CACHE_LINE with (2 ^ 6) in Hr; unfold BSTGW_DEFAULT_BUF_SIZE in *; lia|].
  destruct (alloc_aligned_ok roundup2 (heap (S n)) 6 BSTGW_DEFAULT_BUF_SIZE BSTGW_PRIV_SIZE ch) as (e & Ee & _ & Hcap & _ & Hby & Hnx & Ho & Hd & H2 & H3 & Hpv);
    [lia|vm_compute; split; discriminate|exact Hr|exact Ech|exact Hpr|exact Ha|exact Hl|].
  change BSTGW_CACHE_LINE with (2 ^ 6). rewrite Ee. cbn [mbind outcome_bind assert_ptr].
  assert (Hpv' : priv_data e = Some priv_zero) by (by apply Hpv).
  assert (Hone : increased 1 (p <| pool_capacity := c |>) (p <| bufs ::= <[ch_id ch := e]> |> <| free_list ::= cons (ch_id ch) |> <| pool_capacity := c + 1 |>)).
  { refine (increase_one (p <| pool_capacity := c |>) (ch_id ch) e Hp Hnew _ Hnx _ _); [| |rewrite Hcap; apply Z.le_refl].
    - split; rewrite ?Ho, ?Hd, ?Hcap, ?Hpv'; [vm_compute; discriminate..|exact Hby|vm_compute; discriminate|by eexists].
    - unfold eb_clean. rewrite Hpv'. repeat (split; [done|]). by eexists. }
  destruct (IH (p <| bufs ::= <[ch_id ch := e]> |> <| free_list ::= cons (ch_id ch) |>) (c + 1)) as (p' & E' & Ec & Hinc & Hfrom).
  - apply Hone.
  - destruct Hh as [_ Hch Hfr]. split; [done| |intros; by eapply Hfr; [..|done|done]; lia].
    intros k sz Hk Hsz. destruct (Hch k sz ltac:(lia) Hsz) as (ch' & E1 & ? & ? & ? & Hn'). exists ch'. split_and!; try done. cbn.
    rewrite lookup_insert_ne; [done|]. eapply Hfr; [..|exact Ech|exact E1]; lia.
  - exists p'. split; [exact E'|]. split; [exact Ec|]. replace (Z.of_nat (S n)) with (1 + Z.of_nat n) by lia.
    split; [eapply increased_trans; [exact Hone|]; rewrite Z.add_assoc; exact Hinc|]. intros i Hi.
    destruct (Hfrom i Hi) as [Hi'|(k & sz & ch' & Hk & ? & ?)]; [|right; exists k, sz, ch'; split; [lia|done]].
    cbn in Hi'. destruct (decide (i = ch_id ch)) as [->|]; [|rewrite lookup_insert_ne in Hi' by done; by left].
    right. exists (S n), (roundup2 BSTGW_DEFAULT_BUF_SIZE (2 ^ 6) + 2 ^ 6), ch. split; [lia|done].
Qed.

Lemma pool_increase_spec roundup2 heap n p :
  pool_wf p -> heap_ok roundup2 heap (Z.to_nat n) p -> 0 <= n -> pool_capacity p + n <= MAX_U32 ->
  exists p', bstgw_ethpool_increase roundup2 heap n p = Ok p' /\ increased n p p' /\ from_heap heap (Z.to_nat n) p p'.
Proof.
  intros Hp Hh Hn Hm. unfold bstgw_ethpool_increase.
  assert (Ep : p <| pool_capacity := pool_capacity p |> = p) by (by destruct p).
  destruct (increase_loop_ok roundup2 heap (Z.to_nat n) p (pool_capacity p)) as (p' & -> & Hc & Hi & Hfrom); [by rewrite Ep|done|].
  cbn [mbind outcome_bind]. eexists. split; [done|]. rewrite Z2Nat.id, Ep in Hi by done. rewrite Hc, u32_small by (pose proof (pw_cap p Hp); unfold MAX_U32 in *; lia). split; [exact Hi|exact Hfrom].
Qed.

Lemma pool_step_wf p1 p2 :
  pool_wf p1 -> pool_capacity p1 <= MAX_U32 -> pool_step p1 p2 ->
  pool_wf p2 /\ pool_capacity p2 <= MAX_U32.
Proof.
  intros Hwf Hmax Hs. destruct Hs as [roundup2 heap n p p' Hh Hn Hc Hi|p i p' Ha|p i p' Hi Hf|p i p' Hi Hd|p i e Hi He Hn].
  - destruct (pool_increase_spec _ _ _ p Hwf Hh Hn Hc) as (p2' & Hi' & Hinc & _). ok_inj. destruct Hinc as (? & _ & _ & -> & _). done.
  - destruct (free_list p) as [|j fl] eqn:Hfl.
    { unfold bstgw_ethpool_buf_alloc in Ha. by rewrite Hfl in Ha. }
    destruct (pool_alloc_spec p j fl Hwf Hfl) as (p2' & Ha' & ? & _ & _ & _ & Hc).
    ok_inj. split; [done|lia].
  - destruct (pool_free_spec p i Hwf Hi) as (p2' & ? & Hf' & ? & _ & _ & _ & _ & Hc).
    ok_inj. split; [done|lia].
  - destruct (pool_destroy_spec p i Hwf Hi Hmax) as (p2' & Hd' & ? & _ & _ & Hc).
    ok_inj. split; [done|lia].
  - split; [by apply pool_use_spec|done].
Qed.

(** C30. Pool soundness.  In every state reached from a well-formed pool by
    adding, allocating, using, freeing and destroying buffers, the free and in-use
    lists partition the buffers of the pool and their number is the recorded
    capacity; allocating fails (with a panic) only when no buffer is free, and
    otherwise hands out a buffer that was not in use and whose lengths,
    offset and flags are cleared, whatever it was used for before. *)
Theorem pool_reachable_sound p0 p :
  pool_wf p0 -> pool_capacity p0 <= MAX_U32 -> rtc pool_step p0 p ->
  pool_wf p /\
  match bstgw_ethpool_buf_alloc p with
  | Ok (i, p') => pool_wf p' /\ ~ (i ∈ inuse_list p) /\ i ∈ inuse_list p' /\
                  exists e, bufs p' !! i = Some e /\ eb_clean e
  | Panic => free_list p = []
  | Undef => False
  end.
Proof.
  intros Hwf0 Hmax Hr.
  assert (Hwf : pool_wf p).
  { induction Hr as [|p1 p2 p3 Hs _ IH]; [done|].
    destruct (pool_step_wf p1 p2 Hwf0 Hmax Hs). auto. }
  split; [done|]. destruct (free_list p) as [|i fl] eqn:Hfl.
  { unfold bstgw_ethpool_buf_alloc. by rewrite Hfl. }
  destruct (pool_alloc_spec p i fl Hwf Hfl) as (p' & -> & Hwf' & _ & Hin & Hb & _).
  split; [done|]. rewrite Hin, Hb.
  assert (Hi : i ∈ free_list p) by (rewrite Hfl; set_solver).
  split; [exact (fun H => pool_inuse_not_free p i Hwf H Hi)|]. split; [set_solver|].
  destruct (proj1 (pw_store p Hwf i)) as [e He]; [set_solver|].
  exists e. split; [done|]. exact (pw_clean p Hwf i e Hi He).
Qed.

Lemma eb_example_wf : eb_wf eb_example.
Proof. split; vm_compute; try discriminate. by eexists. Qed.

Lemma precut_prepend_roundtrip_witness :
  exists off e1, bstgw_ethbuf_precut eb_example 14 = (Some off, e1) /\ eb_wf e1 /\
    eb_data e1 = drop 14 (eb_data eb_example) /\
    bstgw_ethbuf_prepend e1 14 = (Some 2, eb_example).
Proof.
  apply (precut_prepend_roundtrip eb_example 14); [exact eb_example_wf|vm_compute; split; discriminate].
Defined.

Lemma pool_example_wf : pool_wf pool_example.
Proof.
  split.
  - repeat constructor; set_solver.
  - intros i. simpl. rewrite list_elem_of_singleton, lookup_singleton_is_Some. done.
  - simpl. apply map_Forall_singleton. split; [|done].
    split; vm_compute; try discriminate. by eexists.
  - simpl. intros i e ->%list_elem_of_singleton. rewrite lookup_singleton_eq. intros [= <-].
    unfold eb_clean. simpl. split_and!; try done. by eexists.
  - done.
Qed.

Lemma pool_reachable_sound_witness :
  pool_wf pool_example /\
  match bstgw_ethpool_buf_alloc pool_example with
  | Ok (i, p') => pool_wf p' /\ ~ (i ∈ inuse_list pool_example) /\ i ∈ inuse_list p' /\
                  exists e, bufs p' !! i = Some e /\ eb_clean e
  | Panic => free_list pool_example = []
  | Undef => False
  end.
Proof.
  apply (pool_reachable_sound pool_example pool_example);
    [exact pool_example_wf|vm_compute; discriminate|apply rtc_refl].
Defined.
