(* ===== verification/Iovec.v ===== *)
(** * Copies between secure buffers and normal-world I/O vectors
    (virtio-nic/vnic/src/iovec.c).

    Normal-world memory is a byte array, a virtual address an index into it;
    a secure buffer is a byte array of its own with a write or read position.
    The copies are compared with the reference functions [gather] and
    [scatter]. *)

From S2P Require Import Prelude.

(** Error codes of internal/err.h that the virtio code returns. *)
Definition NO_ERROR : Z := 0.
Definition ERROR_GENERIC : Z := -1.
Definition ERR_NO_MEMORY : Z := -5.
Definition ERR_NOT_VALID : Z := -7.
Definition ERR_INVALID_ARGS : Z := -8.
Definition ERR_NOT_ENOUGH_BUFFER : Z := -9.
Definition ERR_CHANNEL_CLOSED : Z := -15.
Definition ERR_TOO_BIG : Z := -25.

Record iovec_kern_t := mk_iovec { base : option Z; iov_len : Z }.

#[global] Instance eta_iovec : Settable iovec_kern_t := fun v => mk_iovec (base v) (iov_len v).
#[global] Instance iovec_eq_dec : EqDecision iovec_kern_t.
Proof. solve_decision. Defined.

(** ** Secure buffer to I/O vector *)

(** The loop; [src] is the secure buffer, [boff] the position of [buf] in it. *)
Fixpoint membuf_to_kern_loop (cnt : nat) (iov : list iovec_kern_t) (mem src : list Z)
    (boff len copied : Z) : outcome (Z * list Z) :=
  match cnt with
  | O => Ok (i32 copied, mem)
  | S cnt' =>
      v ← deref (hd_error iov);
      let to_copy := if iov_len v <? len then iov_len v else len in
      if to_copy =? 0 then membuf_to_kern_loop cnt' (List.tl iov) mem src boff len copied else
      match base v with
      | None => Ok (ERR_INVALID_ARGS, mem)
      | Some va =>
          d ← mem_read src boff to_copy;
          mem' ← mem_write mem va d;
          let copied' := u32 (copied + to_copy) in
          let len' := u32 (len - to_copy) in
          if len' =? 0 then Ok (i32 copied', mem')
          else membuf_to_kern_loop cnt' (List.tl iov) mem' src (boff + to_copy) len' copied'
      end
  end.

Definition membuf_to_kern_iovec (iov : list iovec_kern_t) (iov_cnt : Z) (mem src : list Z)
    (buf : option Z) (len : Z) : outcome (Z * list Z) :=
  if (iov_cnt =? 0) || (len =? 0) then Ok (0, mem) else
  match buf with
  | None => Ok (ERR_INVALID_ARGS, mem)
  | Some boff => membuf_to_kern_loop (Z.to_nat iov_cnt) iov mem src boff len 0
  end.

(** The loop that skips [prefix_skip] bytes, up to the vector they end in. *)
Fixpoint membuf_to_kern_skip_loop (cnt : nat) (iov : list iovec_kern_t) (mem src : list Z)
    (boff len prefix_skip skipped : Z) : outcome (Z * list Z) :=
  match cnt with
  | O => (* every vector was skipped: [skipped < prefix_skip] *)
      if skipped <? prefix_skip then Ok (ERR_INVALID_ARGS, mem)
      else Undef
  | S cnt' =>
      v ← deref (hd_error iov);
      let next_len := iov_len v in
      if u32 (skipped + next_len) <? prefix_skip then
        membuf_to_kern_skip_loop cnt' (List.tl iov) mem src boff len prefix_skip (u32 (skipped + next_len))
      else
        let rest_buf := u32 (u32 (skipped + next_len) - prefix_skip) in
        let finish mem' :=
          let skipped' := u32 (skipped + u32 (next_len - rest_buf)) in
          c_assert (skipped' =? prefix_skip);;
          '(r, mem'') ← membuf_to_kern_iovec (List.tl iov) (Z.of_nat cnt') mem' src
                          (Some (boff + rest_buf)) (u32 (len - rest_buf));
          Ok (i32 (rest_buf + r), mem'') in
        if 0 <? rest_buf then
          let to_copy := if len <? rest_buf then len else rest_buf in
          match base v with
          | None => Ok (ERR_INVALID_ARGS, mem)
          | Some va =>
              d ← mem_read src boff rest_buf;
              mem' ← mem_write mem (va + u32 (next_len - rest_buf)) d;
              if to_copy =? len then Ok (i32 len, mem') else finish mem'
          end
        else finish mem
  end.

Definition membuf_to_kern_iovec_skip_begin (iov : list iovec_kern_t) (iov_cnt : Z) (mem src : list Z)
    (buf : option Z) (len prefix_skip : Z) : outcome (Z * list Z) :=
  if prefix_skip =? 0 then membuf_to_kern_iovec iov iov_cnt mem src buf len else
  if (iov_cnt =? 0) || (len =? 0) then Ok (0, mem) else
  match buf with
  | None => Ok (ERR_INVALID_ARGS, mem)
  | Some boff => membuf_to_kern_skip_loop (Z.to_nat iov_cnt) iov mem src boff len prefix_skip 0
  end.

(** ** I/O vector to secure buffer *)

(** [dst] is the secure buffer, [boff] the position of [buf] in it. *)
Fixpoint kern_to_membuf_loop (cnt : nat) (iov : list iovec_kern_t) (mem dst : list Z)
    (boff len copied : Z) : outcome (Z * list Z) :=
  match cnt with
  | O => Ok (i32 copied, dst)
  | S cnt' =>
      v ← deref (hd_error iov);
      let to_copy := if iov_len v <? len then iov_len v else len in
      if to_copy =? 0 then kern_to_membuf_loop cnt' (List.tl iov) mem dst boff len copied else
      match base v with
      | None => Ok (ERR_INVALID_ARGS, dst)
      | Some va =>
          d ← mem_read mem va to_copy;
          dst' ← mem_write dst boff d;
          let copied' := u32 (copied + to_copy) in
          let len' := u32 (len - to_copy) in
          if len' =? 0 then Ok (i32 copied', dst')
          else kern_to_membuf_loop cnt' (List.tl iov) mem dst' (boff + to_copy) len' copied'
      end
  end.

Definition kern_iovec_to_membuf (mem dst : list Z) (buf : option Z) (len : Z)
    (iov : list iovec_kern_t) (iov_cnt : Z) : outcome (Z * list Z) :=
  if (iov_cnt =? 0) || (len =? 0) then Ok (0, dst) else
  match buf with
  | None => Ok (ERR_INVALID_ARGS, dst)
  | Some boff => kern_to_membuf_loop (Z.to_nat iov_cnt) iov mem dst boff len 0
  end.

Fixpoint kern_to_membuf_skip_loop (cnt : nat) (iov : list iovec_kern_t) (mem dst : list Z)
    (boff len prefix_skip skipped : Z) : outcome (Z * list Z) :=
  match cnt with
  | O =>
      if skipped <? prefix_skip then Ok (ERR_INVALID_ARGS, dst)
      else Undef
  | S cnt' =>
      v ← deref (hd_error iov);
      let next_len := iov_len v in
      if u32 (skipped + next_len) <? prefix_skip then
        kern_to_membuf_skip_loop cnt' (List.tl iov) mem dst boff len prefix_skip (u32 (skipped + next_len))
      else
        let rest_buf := u32 (u32 (skipped + next_len) - prefix_skip) in
        let finish dst' :=
          let skipped' := u32 (skipped + u32 (next_len - rest_buf)) in
          c_assert (skipped' =? prefix_skip);;
          '(r, dst'') ← kern_iovec_to_membuf mem dst' (Some (boff + rest_buf)) (u32 (len - rest_buf))
                          (List.tl iov) (Z.of_nat cnt');
          Ok (i32 (rest_buf + r), dst'') in
        if 0 <? rest_buf then
          let to_copy := if len <? rest_buf then len else rest_buf in
          match base v with
          | None => Ok (ERR_INVALID_ARGS, dst)
          | Some va =>
              d ← mem_read mem (va + u32 (next_len - rest_buf)) rest_buf;
              dst' ← mem_write dst boff d;
              if to_copy =? len then Ok (i32 len, dst') else finish dst'
          end
        else finish dst
  end.

Definition kern_iovec_to_membuf_skip_begin (mem dst : list Z) (buf : option Z) (len : Z)
    (iov : list iovec_kern_t) (iov_cnt prefix_skip : Z) : outcome (Z * list Z) :=
  if prefix_skip =? 0 then kern_iovec_to_membuf mem dst buf len iov iov_cnt else
  if (iov_cnt =? 0) || (len =? 0) then Ok (0, dst) else
  match buf with
  | None => Ok (ERR_INVALID_ARGS, dst)
  | Some boff => kern_to_membuf_skip_loop (Z.to_nat iov_cnt) iov mem dst boff len prefix_skip 0
  end.

(** ** Reference functions *)

Definition slice (l : list Z) (off n : Z) : list Z :=
  take (Z.to_nat n) (drop (Z.to_nat off) l).

(** The bytes the vectors cover, in order. *)
Definition gather (mem : list Z) (iov : list iovec_kern_t) : list Z :=
  concat (map (fun v => slice mem (default 0 (base v)) (iov_len v)) iov).

(** Writes [d] over the vectors, in order. *)
Fixpoint scatter (mem : list Z) (iov : list iovec_kern_t) (d : list Z) : list Z :=
  match iov with
  | [] => mem
  | v :: iov' =>
      scatter (blit mem (Z.to_nat (default 0 (base v))) (take (Z.to_nat (iov_len v)) d))
        iov' (drop (Z.to_nat (iov_len v)) d)
  end.

(** A mapped vector: its bytes are inside normal-world memory. *)
Definition iov_ok (mem : list Z) (v : iovec_kern_t) : Prop :=
  0 <= iov_len v /\ exists va, base v = Some va /\ 0 <= va /\ va + iov_len v <= Z.of_nat (length mem).

Definition iov_total (iov : list iovec_kern_t) : Z := foldr (fun v a => iov_len v + a) 0 iov.

(** How many bytes of the vector in which the first [p] bytes end are left. *)
Fixpoint skip_rest (iov : list iovec_kern_t) (p : Z) : Z :=
  match iov with
  | [] => 0
  | v :: iov' => if iov_len v <? p then skip_rest iov' (p - iov_len v) else iov_len v - p
  end.

(** ** Lemmas *)

Lemma blit_nil (l : list Z) off : blit l off [] = l.
Proof. unfold blit. simpl. rewrite Nat.add_0_r. apply take_drop. Qed.

Lemma blit_app (l d1 d2 : list Z) off :
  (off + length d1 + length d2 <= length l)%nat ->
  blit (blit l off d1) (off + length d1) d2 = blit l off (d1 ++ d2).
Proof.
  intros H. apply list_eq. intros i.
  rewrite !lookup_blit; rewrite ?length_blit, ?length_app; try lia.
  repeat case_decide; try lia; try done.
  - rewrite lookup_app_r by lia. f_equal. lia.
  - by rewrite lookup_app_l by lia.
Qed.

Lemma length_slice (mem : list Z) va n :
  0 <= va -> 0 <= n -> va + n <= Z.of_nat (length mem) -> length (slice mem va n) = Z.to_nat n.
Proof. intros. unfold slice. rewrite length_take, length_drop. lia. Qed.

Lemma length_gather mem iov :
  Forall (iov_ok mem) iov -> Z.of_nat (length (gather mem iov)) = iov_total iov /\ 0 <= iov_total iov.
Proof.
  induction 1 as [|v iov (Hl & va & Hb & Hva & Hfit) _ IH]; [done|].
  unfold gather in *. simpl. rewrite Hb. simpl.
  rewrite length_app, length_slice by done. lia.
Qed.

Lemma slice_take (mem : list Z) va n m :
  0 <= m <= n -> slice mem va m = take (Z.to_nat m) (slice mem va n).
Proof. intros. unfold slice. rewrite take_take. f_equal. lia. Qed.

(** Gathering copies the first [len] bytes of the vectors, and only those. *)
Lemma kern_to_membuf_loop_spec mem iov : forall dst boff len copied,
  Forall (iov_ok mem) iov -> 0 <= boff -> 0 < len -> boff + len <= Z.of_nat (length dst) ->
  0 <= copied -> copied + len <= MAX_I32 ->
  kern_to_membuf_loop (length iov) iov mem dst boff len copied
    = Ok (copied + Z.min len (iov_total iov),
          blit dst (Z.to_nat boff) (take (Z.to_nat len) (gather mem iov))).
Proof.
  induction iov as [|v iov IH]; intros dst boff len copied Hok Hb Hlen Hfit Hc Hmax;
    unfold MAX_I32 in *.
  - simpl. unwrap_ints. unfold gather. simpl. rewrite take_nil, blit_nil. do 2 f_equal. lia.
  - apply Forall_cons in Hok as [Hv Hok]. pose proof (length_gather mem iov Hok) as [Hg Hpos].
    destruct (Hv) as (Hl & va & Hbase & Hva & Hvfit).
    assert (Hgv : gather mem (v :: iov) = slice mem va (iov_len v) ++ gather mem iov)
      by (unfold gather; simpl; by rewrite Hbase).
    assert (Hsl : length (slice mem va (iov_len v)) = Z.to_nat (iov_len v)) by (by apply length_slice).
    rewrite Hgv. simpl. rewrite Hbase. set (tc := if iov_len v <? len then iov_len v else len).
    assert (Htc : tc = Z.min len (iov_len v))
      by (unfold tc; destruct (Z.ltb_spec (iov_len v) len); lia).
    destruct (Z.eqb_spec tc 0).
    + rewrite IH by (try done; lia). replace (iov_len v) with 0 by lia. simpl. done.
    + rewrite mem_read_ok by lia. fold (slice mem va tc). simpl.
      assert (Hst : length (slice mem va tc) = Z.to_nat tc) by (apply length_slice; lia).
      rewrite mem_write_ok by lia. simpl. unwrap_ints.
      destruct (Z.eqb_spec (len - tc) 0).
      * unwrap_ints. rewrite take_app_le by lia. rewrite <- slice_take by lia.
        replace tc with len by lia. do 2 f_equal. lia.
      * replace tc with (iov_len v) in * by lia.
        rewrite IH; rewrite ?length_blit; try done; try lia.
        rewrite take_app_ge, Hsl by lia. f_equal. f_equal; [lia|].
        rewrite <- blit_app by (rewrite length_take; lia). rewrite Hsl.
        f_equal; [f_equal; lia|f_equal; lia].
Qed.

Lemma kern_iovec_to_membuf_spec mem dst boff len iov :
  Forall (iov_ok mem) iov -> 0 <= boff -> 0 <= len <= MAX_I32 -> boff + len <= Z.of_nat (length dst) ->
  kern_iovec_to_membuf mem dst (Some boff) len iov (Z.of_nat (length iov))
    = Ok (Z.min len (iov_total iov),
          blit dst (Z.to_nat boff) (take (Z.to_nat len) (gather mem iov))).
Proof.
  intros Hok Hb Hlen Hfit. pose proof (length_gather mem iov Hok) as [Hg Hpos].
  unfold kern_iovec_to_membuf. destruct (_ || _) eqn:E.
  - assert (Hz : take (Z.to_nat len) (gather mem iov) = []).
    { apply orb_true_iff in E as [E%Z.eqb_eq|E%Z.eqb_eq].
      - destruct iov; [apply take_nil|simpl in E; lia].
      - by rewrite E. }
    rewrite Hz, blit_nil. apply (f_equal length) in Hz. rewrite length_take in Hz. simpl in Hz.
    do 2 f_equal. lia.
  - apply orb_false_iff in E as [E1%Z.eqb_neq E2%Z.eqb_neq]. rewrite Nat2Z.id.
    by rewrite kern_to_membuf_loop_spec by (try done; lia).
Qed.

Lemma gather_cons mem v iov va :
  base v = Some va -> gather mem (v :: iov) = slice mem va (iov_len v) ++ gather mem iov.
Proof. intros H. unfold gather. simpl. by rewrite H. Qed.

Lemma slice_drop (mem : list Z) va n p :
  0 <= p <= n -> 0 <= va -> slice mem (va + p) (n - p) = drop (Z.to_nat p) (slice mem va n).
Proof.
  intros. unfold slice. rewrite skipn_firstn_comm, drop_drop. f_equal; [lia|f_equal; lia].
Qed.

(** What the skipping copy does, on every input that is mapped: below the
    prefix it fails; otherwise it copies the rest of the vector the prefix
    ends in and, if that is less than [len], goes on with the next ones. *)
Lemma kern_to_membuf_skip_loop_spec mem prefix iov : forall dst boff len skipped,
  Forall (iov_ok mem) iov -> 0 <= boff -> 0 < len <= MAX_I32 ->
  boff + len <= Z.of_nat (length dst) -> 0 <= skipped < prefix ->
  skipped + iov_total iov <= MAX_I32 -> prefix <= MAX_I32 ->
  let p := prefix - skipped in
  kern_to_membuf_skip_loop (length iov) iov mem dst boff len prefix skipped
    = if iov_total iov <? p then Ok (ERR_INVALID_ARGS, dst)
      else if skip_rest iov p <? len then
        Ok (Z.min len (iov_total iov - p),
            blit dst (Z.to_nat boff) (take (Z.to_nat len) (drop (Z.to_nat p) (gather mem iov))))
      else if boff + skip_rest iov p <=? Z.of_nat (length dst) then
        Ok (len, blit dst (Z.to_nat boff)
                   (take (Z.to_nat (skip_rest iov p)) (drop (Z.to_nat p) (gather mem iov))))
      else Undef.
Proof.
  induction iov as [|v iov IH]; intros dst boff len skipped Hok Hb Hlen Hfit Hs Htot Hp p;
    unfold MAX_I32 in *; simpl in Htot.
  { simpl. rewrite (proj2 (Z.ltb_lt 0 p)), (proj2 (Z.ltb_lt skipped prefix)) by lia. done. }
  apply Forall_cons in Hok as [Hv Hok]. destruct (Hv) as (Hl & va & Hbase & Hva & Hvfit).
  pose proof (length_gather mem iov Hok) as [Hg Hpos].
  assert (Hsl : length (slice mem va (iov_len v)) = Z.to_nat (iov_len v)) by (by apply length_slice).
  rewrite (gather_cons mem v iov va Hbase). cbn [length kern_to_membuf_skip_loop skip_rest iov_total foldr].
  fold (iov_total iov). simpl. rewrite Hbase.
  rewrite (u32_small (skipped + iov_len v)) by lia.
  destruct (Z.ltb_spec (skipped + iov_len v) prefix) as [Hlt|Hge].
  - rewrite IH by (try done; lia). fold p.
    replace (prefix - (skipped + iov_len v)) with (p - iov_len v) by lia.
    rewrite (proj2 (Z.ltb_lt (iov_len v) p)) by lia.
    replace (iov_total iov <? p - iov_len v) with (iov_len v + iov_total iov <? p)
      by (apply eq_true_iff_eq; rewrite !Z.ltb_lt; lia).
    rewrite drop_app_ge, Hsl by lia.
    replace (Z.to_nat p - Z.to_nat (iov_len v))%nat with (Z.to_nat (p - iov_len v)) by lia.
    replace (iov_len v + iov_total iov - p) with (iov_total iov - (p - iov_len v)) by lia. done.
  - assert (Hrest : u32 (skipped + iov_len v - prefix) = iov_len v - p) by (unwrap_ints; lia).
    rewrite Hrest. set (rest := iov_len v - p).
    rewrite (proj2 (Z.ltb_ge (iov_len v + _) p)), (proj2 (Z.ltb_ge (iov_len v) p)) by lia.
    replace (u32 (iov_len v - rest)) with p by (unwrap_ints; lia).
    rewrite (u32_small (skipped + p)) by lia.
    replace (skipped + p) with prefix by lia. rewrite Z.eqb_refl.
    rewrite drop_app_le by lia. rewrite <- slice_drop by lia. fold rest.
    set (d := slice mem (va + p) rest).
    assert (Hd : length d = Z.to_nat rest) by (apply length_slice; lia).
    destruct (Z.ltb_spec 0 rest) as [Hr|Hr].
    + rewrite mem_read_ok by lia. fold (slice mem (va + p) rest). fold d. simpl.
      replace (if len <? rest then len else rest) with (Z.min len rest)
        by (destruct (Z.ltb_spec len rest); lia).
      destruct (Z.ltb_spec rest len) as [Hshort|Hlong].
      * rewrite mem_write_ok by lia. simpl. rewrite (proj2 (Z.eqb_neq _ _)) by lia.
        rewrite (u32_small (len - rest)) by lia.
        rewrite kern_iovec_to_membuf_spec by (rewrite ?length_blit; unfold MAX_I32; try done; lia). simpl.
        unwrap_ints. rewrite take_app_ge, Hd by lia. do 2 f_equal; [lia|].
        rewrite <- blit_app by (rewrite length_take; lia). rewrite Hd.
        f_equal; [lia|f_equal; lia].
      * unfold mem_write. rewrite (proj2 (Z.leb_le 0 boff)), Hd, Z2Nat.id by lia. simpl.
        destruct (boff + rest <=? Z.of_nat (length dst)); [|done]. simpl.
        replace (Z.min len rest =? len) with true by lia. unwrap_ints.
        rewrite take_app_le, take_ge by lia. done.
    + assert (Hz : iov_len v = p) by lia. replace rest with 0 in * by lia. rewrite (proj2 (Z.ltb_lt 0 len)) by lia. simpl.
      rewrite Z.sub_0_r, Z.add_0_r. rewrite (u32_small len) by lia.
      rewrite kern_iovec_to_membuf_spec by (unfold MAX_I32; try done; lia). simpl. unwrap_ints.
      destruct d; [|simpl in Hd; lia]. simpl. do 2 f_equal. lia.
Qed.

Lemma skip_begin_loop mem dst boff len iov prefix :
  0 < len -> 0 < prefix <= iov_total iov ->
  kern_iovec_to_membuf_skip_begin mem dst (Some boff) len iov (Z.of_nat (length iov)) prefix
    = kern_to_membuf_skip_loop (length iov) iov mem dst boff len prefix 0.
Proof.
  intros Hlen Hp. unfold kern_iovec_to_membuf_skip_begin.
  rewrite (proj2 (Z.eqb_neq prefix 0)), (proj2 (Z.eqb_neq len 0)) by lia.
  destruct iov as [|v iov']; [simpl in *; lia|].
  rewrite (proj2 (Z.eqb_neq (Z.of_nat _) 0)), Nat2Z.id by (simpl; lia). done.
Qed.

(** Only the first [cnt] vectors are looked at. *)
Lemma kern_to_membuf_loop_take mem cnt : forall iov dst boff len copied,
  kern_to_membuf_loop cnt (take cnt iov) mem dst boff len copied = kern_to_membuf_loop cnt iov mem dst boff len copied.
Proof.
  induction cnt as [|cnt IH]; intros [|v iov] dst boff len copied; [done..|]. cbn -[Z.ltb Z.eqb].
  destruct (_ =? 0); [apply IH|]. destruct (base v); [|done].
  destruct (mem_read _ _ _); [|done|done]. cbn [mbind outcome_bind].
  destruct (mem_write _ _ _); [|done|done]. cbn [mbind outcome_bind]. destruct (_ =? 0); [done|apply IH].
Qed.

Lemma kern_iovec_to_membuf_take mem dst buf len iov n :
  kern_iovec_to_membuf mem dst buf len (take (Z.to_nat n) iov) n = kern_iovec_to_membuf mem dst buf len iov n.
Proof.
  unfold kern_iovec_to_membuf. destruct (_ || _); [done|]. destruct buf; [|done]. apply kern_to_membuf_loop_take.
Qed.

Lemma kern_to_membuf_skip_loop_take mem prefix cnt : forall iov dst boff len skipped,
  kern_to_membuf_skip_loop cnt (take cnt iov) mem dst boff len prefix skipped
    = kern_to_membuf_skip_loop cnt iov mem dst boff len prefix skipped.
Proof.
  induction cnt as [|cnt IH]; intros [|v iov] dst boff len skipped; [done..|].
  cbn [kern_to_membuf_skip_loop take hd_error deref mbind outcome_bind List.tl].
  destruct (_ <? prefix); [apply IH|]. cbv zeta.
  assert (E : forall d o n, kern_iovec_to_membuf mem d o n (take cnt iov) (Z.of_nat cnt) = kern_iovec_to_membuf mem d o n iov (Z.of_nat cnt)).
  { intros. rewrite <- (kern_iovec_to_membuf_take _ _ _ _ iov). by rewrite Nat2Z.id. }
  destruct (0 <? _); [|by rewrite E]. destruct (base v); [|done].
  destruct (mem_read _ _ _); [|done|done]. cbn [mbind outcome_bind].
  destruct (mem_write _ _ _); [|done|done]. cbn [mbind outcome_bind]. destruct (_ =? len); [done|]. by rewrite E.
Qed.

Lemma kern_iovec_to_membuf_skip_begin_take mem dst buf len iov n prefix :
  kern_iovec_to_membuf_skip_begin mem dst buf len (take (Z.to_nat n) iov) n prefix
    = kern_iovec_to_membuf_skip_begin mem dst buf len iov n prefix.
Proof.
  unfold kern_iovec_to_membuf_skip_begin. destruct (prefix =? 0); [apply kern_iovec_to_membuf_take|].
  destruct (_ || _); [done|]. destruct buf; [|done]. apply kern_to_membuf_skip_loop_take.
Qed.

(** The skipping copy of a whole packet: the length is that of the vectors
    without the prefix. *)
Lemma skip_begin_whole mem dst boff iov prefix :
  let len := iov_total iov - prefix in
  Forall (iov_ok mem) iov -> 0 <= boff -> 0 < prefix -> 0 < len -> iov_total iov <= MAX_I32 ->
  boff + len <= Z.of_nat (length dst) ->
  kern_iovec_to_membuf_skip_begin mem dst (Some boff) len iov (Z.of_nat (length iov)) prefix
    = Ok (len, blit dst (Z.to_nat boff) (drop (Z.to_nat prefix) (gather mem iov))).
Proof.
  intros len Hok Hb Hp Hlen Htot Hfit. pose proof (length_gather mem iov Hok) as [Hg _].
  assert (Hr : skip_rest iov prefix <= len).
  { clear - Hok Hp Hlen. subst len. revert prefix Hp Hlen. induction Hok as [|v iov' (Hl & _) Hok IH]; intros p Hp Hlen; cbn in *; [lia|].
    fold (iov_total iov') in *. pose proof (length_gather mem iov' Hok) as [_ ?].
    destruct (Z.ltb_spec (iov_len v) p); [|lia]. specialize (IH (p - iov_len v) ltac:(lia) ltac:(lia)). lia. }
  rewrite skip_begin_loop, kern_to_membuf_skip_loop_spec by (unfold MAX_I32 in *; try done; lia).
  rewrite Z.sub_0_r, (proj2 (Z.ltb_ge (iov_total iov) prefix)) by lia.
  assert (Hd : (length (drop (Z.to_nat prefix) (gather mem iov)) <= Z.to_nat len)%nat) by (rewrite length_drop; lia).
  destruct (Z.ltb_spec (skip_rest iov prefix) len) as [Hlt|Hge].
  - rewrite Z.min_l, take_ge by lia. done.
  - rewrite (proj2 (Z.leb_le _ _)) by lia. rewrite take_ge by lia. done.
Qed.

(** Gathering a packet behind a [prefix_skip]-byte header: on mapped
    vectors that hold at least the header, and when the rest of the vector the
    header ends in is shorter than [len], the copy returns the number of bytes
    available up to [len] and writes exactly the bytes after the header, in
    order, at the destination and nothing outside its [len] bytes. *)
Theorem kern_iovec_to_membuf_skip_begin_gathers mem dst boff len iov prefix :
  Forall (iov_ok mem) iov -> 0 <= boff -> 0 < len <= MAX_I32 ->
  boff + len <= Z.of_nat (length dst) -> 0 < prefix <= iov_total iov -> iov_total iov <= MAX_I32 ->
  skip_rest iov prefix < len ->
  kern_iovec_to_membuf_skip_begin mem dst (Some boff) len iov (Z.of_nat (length iov)) prefix
    = Ok (Z.min len (iov_total iov - prefix),
          blit dst (Z.to_nat boff) (take (Z.to_nat len) (drop (Z.to_nat prefix) (gather mem iov)))).
Proof.
  intros Hok Hb Hlen Hfit Hp Htot Hrest.
  rewrite skip_begin_loop, kern_to_membuf_skip_loop_spec by (try done; lia).
  rewrite Z.sub_0_r, (proj2 (Z.ltb_ge _ _)), (proj2 (Z.ltb_lt _ _)) by lia. done.
Qed.

(** The same copy writes past its destination: when the rest of the
    vector the header ends in is longer than [len], it copies that whole rest,
    a length the normal world chooses, instead of [len] bytes; a destination
    with no room for it is overrun. *)
Theorem kern_iovec_to_membuf_skip_begin_overruns mem dst boff len iov prefix :
  Forall (iov_ok mem) iov -> 0 <= boff -> 0 < len <= MAX_I32 ->
  boff + len <= Z.of_nat (length dst) -> 0 < prefix <= iov_total iov -> iov_total iov <= MAX_I32 ->
  len < skip_rest iov prefix ->
  kern_iovec_to_membuf_skip_begin mem dst (Some boff) len iov (Z.of_nat (length iov)) prefix
    = if boff + skip_rest iov prefix <=? Z.of_nat (length dst) then
        Ok (len, blit dst (Z.to_nat boff)
                   (take (Z.to_nat (skip_rest iov prefix)) (drop (Z.to_nat prefix) (gather mem iov))))
      else Undef.
Proof.
  intros Hok Hb Hlen Hfit Hp Htot Hrest.
  rewrite skip_begin_loop, kern_to_membuf_skip_loop_spec by (try done; lia).
  rewrite Z.sub_0_r, (proj2 (Z.ltb_ge _ _)), (proj2 (Z.ltb_ge (skip_rest _ _) _)) by lia. done.
Qed.

Lemma scatter_nil mem iov : scatter mem iov [] = mem.
Proof.
  revert mem. induction iov as [|v iov IH]; intros mem; simpl; [done|].
  by rewrite take_nil, drop_nil, blit_nil.
Qed.

Lemma membuf_to_kern_loop_spec src iov : forall mem boff len copied,
  Forall (iov_ok mem) iov -> 0 <= boff -> 0 < len -> boff + len <= Z.of_nat (length src) ->
  0 <= copied -> copied + len <= MAX_I32 ->
  membuf_to_kern_loop (length iov) iov mem src boff len copied
    = Ok (copied + Z.min len (iov_total iov), scatter mem iov (slice src boff len)).
Proof.
  induction iov as [|v iov IH]; intros mem boff len copied Hok Hb Hlen Hfit Hc Hmax;
    unfold MAX_I32 in *.
  - simpl. unwrap_ints. do 2 f_equal. lia.
  - pose proof (length_gather mem (v :: iov) Hok) as [_ Htot].
    apply Forall_cons in Hok as [Hv Hok]. pose proof (length_gather mem iov Hok) as [_ Hpos].
    destruct (Hv) as (Hl & va & Hbase & Hva & Hvfit).
    assert (Hsl : length (slice src boff len) = Z.to_nat len) by (apply length_slice; lia).
    simpl. rewrite Hbase. simpl. set (tc := if iov_len v <? len then iov_len v else len).
    assert (Htc : tc = Z.min len (iov_len v))
      by (unfold tc; destruct (Z.ltb_spec (iov_len v) len); lia).
    destruct (Z.eqb_spec tc 0).
    + rewrite IH by (try done; lia). replace (iov_len v) with 0 by lia.
      rewrite take_0, drop_0, blit_nil. done.
    + rewrite mem_read_ok by lia. fold (slice src boff tc). simpl.
      assert (Hst : length (slice src boff tc) = Z.to_nat tc) by (apply length_slice; lia).
      rewrite mem_write_ok by lia. simpl. unwrap_ints.
      destruct (Z.eqb_spec (len - tc) 0).
      * unwrap_ints. replace tc with len by lia.
        rewrite (take_ge (slice _ _ _)), (drop_ge (slice _ _ _)), scatter_nil by lia.
        do 2 f_equal. lia.
      * replace tc with (iov_len v) in * by lia.
        assert (Hbl : length (blit mem (Z.to_nat va) (slice src boff (iov_len v))) = length mem)
          by (apply length_blit; lia).
        rewrite IH; try done; try lia.
        -- rewrite (slice_take src boff len (iov_len v)), (slice_drop src boff len) by lia.
           do 2 f_equal. lia.
        -- eapply Forall_impl; [exact Hok|]. unfold iov_ok. by rewrite Hbl.
Qed.

Lemma membuf_to_kern_iovec_spec mem src boff len iov :
  Forall (iov_ok mem) iov -> 0 <= boff -> 0 <= len <= MAX_I32 -> boff + len <= Z.of_nat (length src) ->
  membuf_to_kern_iovec iov (Z.of_nat (length iov)) mem src (Some boff) len
    = Ok (Z.min len (iov_total iov), scatter mem iov (slice src boff len)).
Proof.
  intros Hok Hb Hlen Hfit. pose proof (length_gather mem iov Hok) as [_ Hpos].
  unfold membuf_to_kern_iovec. destruct (Z.eqb_spec len 0) as [->|Hl].
  - rewrite orb_true_r. unfold slice. rewrite take_0, scatter_nil. do 2 f_equal. lia.
  - destruct iov as [|v iov]; [simpl; do 2 f_equal; lia|].
    rewrite (proj2 (Z.eqb_neq (Z.of_nat _) 0)), Nat2Z.id by (simpl; lia). simpl orb. cbv iota.
    by rewrite membuf_to_kern_loop_spec by (try done; lia).
Qed.

(** Copying a packet out to mapped vectors is the reference scatter: it
    returns how many bytes fitted, and normal-world memory changes exactly by
    laying the packet's bytes over the vectors in order. *)
Theorem membuf_to_kern_iovec_scatters mem src boff len iov :
  Forall (iov_ok mem) iov -> 0 <= boff -> 0 <= len <= MAX_I32 -> boff + len <= Z.of_nat (length src) ->
  membuf_to_kern_iovec iov (Z.of_nat (length iov)) mem src (Some boff) len
    = Ok (Z.min len (iov_total iov), scatter mem iov (slice src boff len)).
Proof. apply membuf_to_kern_iovec_spec. Qed.

(** The skipping copy into one vector with room for the packet. *)
Lemma membuf_skip_one mem src boff len v va prefix :
  iov_ok mem v -> base v = Some va -> 0 <= boff -> 0 < len <= MAX_I32 ->
  0 < prefix -> iov_len v <= MAX_I32 -> len <= iov_len v - prefix ->
  membuf_to_kern_iovec_skip_begin [v] 1 mem src (Some boff) len prefix
    = if boff + (iov_len v - prefix) <=? Z.of_nat (length src) then
        Ok (len, blit mem (Z.to_nat (va + prefix)) (slice src boff (iov_len v - prefix)))
      else Undef.
Proof.
  intros (Hl & va' & Hb' & Hva & Hfit) Hbase Hb Hlen Hp Hmax Hrest. unfold MAX_I32 in *.
  assert (va' = va) as -> by congruence.
  unfold membuf_to_kern_iovec_skip_begin.
  rewrite (proj2 (Z.eqb_neq prefix 0)), (proj2 (Z.eqb_neq len 0)) by lia. simpl.
  rewrite Hbase, Z.add_0_l, (u32_small (iov_len v)), (proj2 (Z.ltb_ge _ _)) by lia. unwrap_ints.
  replace (iov_len v - (iov_len v - prefix)) with prefix by lia. unwrap_ints.
  replace (if len <? iov_len v - prefix then len else iov_len v - prefix) with len by (destruct (Z.ltb_spec len (iov_len v - prefix)); lia).
  rewrite (proj2 (Z.ltb_lt 0 _)), Z.eqb_refl by lia.
  unfold mem_read. rewrite (proj2 (Z.leb_le 0 boff)), (proj2 (Z.leb_le 0 (_ - _))) by lia. simpl.
  destruct (Z.leb_spec (boff + (iov_len v - prefix)) (Z.of_nat (length src))); [|done].
  simpl. fold (slice src boff (iov_len v - prefix)).
  rewrite mem_write_ok by (rewrite ?length_slice; lia). done.
Qed.

(** Copying a packet out behind a header, into one vector (the receive
    path uses one) with more room than the packet needs: the copy hands the
    normal world as many secure bytes as the vector has room for, not the
    packet's [len]; past the end of the secure buffer it reads out of bounds. *)
Theorem membuf_to_kern_iovec_skip_begin_overreads mem src boff len v va prefix :
  iov_ok mem v -> base v = Some va -> 0 <= boff -> 0 < len <= MAX_I32 ->
  0 < prefix -> iov_len v <= MAX_I32 -> len < iov_len v - prefix ->
  membuf_to_kern_iovec_skip_begin [v] 1 mem src (Some boff) len prefix
    = if boff + (iov_len v - prefix) <=? Z.of_nat (length src) then
        Ok (len, blit mem (Z.to_nat (va + prefix)) (slice src boff (iov_len v - prefix)))
      else Undef.
Proof. intros. apply membuf_skip_one; try done; lia. Qed.

(** ** Witnesses *)

Ltac iov_mapped :=
  repeat (apply Forall_cons; split;
    [split; [simpl; lia
            |eexists; split; [reflexivity|simpl; rewrite ?length_seqZ, ?length_replicate; lia]]|]);
  apply Forall_nil; exact I.

Lemma kern_iovec_to_membuf_skip_begin_gathers_witness :
  kern_iovec_to_membuf_skip_begin (seqZ 0 20) (replicate 8 99) (Some 1) 6
      [mk_iovec (Some 2) 4; mk_iovec (Some 10) 6] 2 3 = Ok (6, [99; 5; 10; 11; 12; 13; 14; 99]).
Proof.
  change 2 with (Z.of_nat (length [mk_iovec (Some 2) 4; mk_iovec (Some 10) 6])) at 2.
  rewrite (kern_iovec_to_membuf_skip_begin_gathers (seqZ 0 20) (replicate 8 99) 1 6
    [mk_iovec (Some 2) 4; mk_iovec (Some 10) 6] 3).
  - vm_compute. reflexivity.
  - iov_mapped.
  - lia.
  - unfold MAX_I32. lia.
  - rewrite length_replicate. lia.
  - simpl. lia.
  - unfold MAX_I32. simpl. lia.
  - simpl. lia.
Defined.

Lemma kern_iovec_to_membuf_skip_begin_overruns_witness :
  kern_iovec_to_membuf_skip_begin (seqZ 0 20) (replicate 8 99) (Some 2) 6
      [mk_iovec (Some 2) 12] 1 3 = Undef.
Proof.
  change 1 with (Z.of_nat (length [mk_iovec (Some 2) 12])).
  rewrite (kern_iovec_to_membuf_skip_begin_overruns (seqZ 0 20) (replicate 8 99) 2 6
    [mk_iovec (Some 2) 12] 3).
  - vm_compute. reflexivity.
  - iov_mapped.
  - lia.
  - unfold MAX_I32. lia.
  - rewrite length_replicate. lia.
  - simpl. lia.
  - unfold MAX_I32. simpl. lia.
  - simpl. lia.
Defined.

Lemma membuf_to_kern_iovec_scatters_witness :
  membuf_to_kern_iovec [mk_iovec (Some 1) 2; mk_iovec (Some 5) 4] 2 (replicate 10 0) (seqZ 0 8) (Some 2) 5
    = Ok (5, [0; 2; 3; 0; 0; 4; 5; 6; 0; 0]).
Proof.
  change 2 with (Z.of_nat (length [mk_iovec (Some 1) 2; mk_iovec (Some 5) 4])) at 2.
  rewrite (membuf_to_kern_iovec_scatters (replicate 10 0) (seqZ 0 8) 2 5
    [mk_iovec (Some 1) 2; mk_iovec (Some 5) 4]).
  - vm_compute. reflexivity.
  - iov_mapped.
  - lia.
  - unfold MAX_I32. lia.
  - rewrite length_seqZ. lia.
Defined.

Lemma membuf_to_kern_iovec_skip_begin_overreads_witness :
  membuf_to_kern_iovec_skip_begin [mk_iovec (Some 0) 8] 1 (replicate 10 0) (seqZ 0 20) (Some 2) 3 2
    = Ok (3, [0; 0; 2; 3; 4; 5; 6; 7; 0; 0]).
Proof.
  rewrite (membuf_to_kern_iovec_skip_begin_overreads (replicate 10 0) (seqZ 0 20) 2 3
    (mk_iovec (Some 0) 8) 0 2).
  - vm_compute. reflexivity.
  - split; simpl; [lia|]. eexists. split; [reflexivity|]. simpl. lia.
  - reflexivity.
  - lia.
  - unfold MAX_I32. lia.
  - lia.
  - unfold MAX_I32. simpl. lia.
  - simpl. lia.
Defined.
