(* ===== verification/Vqueue.v ===== *)
(** * Virtqueues (virtio-nic/vnic/src/vqueue.c, internal/vqueue.h,
    include/virtio/virtio_ring.h).

    The rings are in memory the normal world can write at any time.  Every
    read of it takes the value the memory has at that moment: [vring_shm]
    gives the contents as functions of a read counter, so that the safety
    theorems hold for every behaviour of the normal world, a change between
    two reads of the same field included.  The address translation of the
    platform is an argument. *)

From S2P Require Import Prelude Iovec.

Definition VRING_DESC_F_NEXT : Z := 1.
Definition VRING_DESC_F_WRITE : Z := 2.
Definition VRING_USED_F_NO_NOTIFY : Z := 1.
Definition VRING_AVAIL_F_NO_INTERRUPT : Z := 1.

Record vring_desc := mk_desc { d_addr : Z; d_len : Z; d_flags : Z; d_next : Z }.
Record vring_used_elem := mk_used_elem { ue_id : Z; ue_len : Z }.

(** Addresses of the three parts of a ring; 0 is NULL. *)
Record vring := mk_vring {
  vr_num : Z;
  vr_num_default : Z;
  vr_desc : Z;
  vr_avail : Z;
  vr_used : Z
}.
#[global] Instance eta_vring : Settable vring :=
  fun r => mk_vring (vr_num r) (vr_num_default r) (vr_desc r) (vr_avail r) (vr_used r).

Record vqueue := mk_vqueue {
  vq_id : Z;
  vq_vring : vring;
  vring_addr : Z;
  vring_sz : Z;
  vring_align : Z;
  last_avail_idx : Z
}.
#[global] Instance eta_vqueue : Settable vqueue :=
  fun q => mk_vqueue (vq_id q) (vq_vring q) (vring_addr q) (vring_sz q) (vring_align q) (last_avail_idx q).

(** What the normal world shows in the ring memory.  [shm_slots] is the
    number of entries the memory was laid out for; the available ring and the
    descriptors are functions of the read counter; the used ring is ours to
    write. *)
Record vring_shm := mk_shm {
  shm_slots : Z;
  avail_flags_at : nat -> Z;
  avail_idx_at : nat -> Z;
  avail_ring_at : nat -> Z -> Z;
  desc_at : nat -> Z -> vring_desc;
  used_flags : Z;
  used_idx : Z;
  used_ring : list vring_used_elem
}.
#[global] Instance eta_shm : Settable vring_shm :=
  fun m => mk_shm (shm_slots m) (avail_flags_at m) (avail_idx_at m) (avail_ring_at m) (desc_at m)
             (used_flags m) (used_idx m) (used_ring m).

Record vqueue_iovs := mk_iovs {
  iv_cnt : Z;
  iv_used : Z;
  iv_len : Z;
  iv_phys : list Z;
  iv_iovs : list iovec_kern_t
}.
#[global] Instance eta_iovs : Settable vqueue_iovs :=
  fun v => mk_iovs (iv_cnt v) (iv_used v) (iv_len v) (iv_phys v) (iv_iovs v).

Record vqueue_buf := mk_vqbuf { vb_head : Z; in_iovs : vqueue_iovs; out_iovs : vqueue_iovs }.
#[global] Instance eta_vqbuf : Settable vqueue_buf :=
  fun b => mk_vqbuf (vb_head b) (in_iovs b) (out_iovs b).

(** ** Set-up and tear-down *)

(** [(x + align - 1) & ~(align - 1)] on 32 bits. *)
Definition align_up (x align : Z) : Z :=
  Z.land (u32 (x + align - 1)) (u32 (Z.lnot (align - 1))).

Definition vring_size (num align : Z) : Z :=
  u32 (align_up (16 * num + 2 * (3 + num)) align + 2 * 3 + 8 * num).

Definition vqueue_init (id num align : Z) : vqueue :=
  mk_vqueue id (mk_vring num num 0 0 0) 0 0 align 0.

Definition check_ring_layout (get_va : Z -> Z) (pa ref_va : Z) : Z :=
  let va := get_va pa in
  if va =? 0 then -1 else if va =? ref_va then 0 else -1.

(** [map_vring pa sz] tries to add a mapping: the translation afterwards, if
    it could be added. *)
Definition vqueue_vring_setup (get_va : Z -> Z) (map_vring : Z -> Z -> option (Z -> Z))
    (vq : vqueue) (desc_pa avail_pa used_pa : Z) : outcome (Z * vqueue) :=
  c_assert (negb (desc_pa =? 0));;
  c_assert (negb (avail_pa =? 0));;
  c_assert (negb (used_pa =? 0));;
  let vq := vq <| vring_sz := vring_size (vr_num (vq_vring vq)) (vring_align vq) |> in
  let get_va' := if get_va desc_pa =? 0 then default get_va (map_vring desc_pa (vring_sz vq)) else get_va in
  let vaddr := get_va' desc_pa in
  if vaddr =? 0 then Ok (-1, vq) else
  let num := vr_num (vq_vring vq) in
  let avail := u32 (vaddr + 16 * num) in
  let used := align_up (avail + 4 + 2 * num + 2) (vring_align vq) in
  let fail := vq <| vring_addr := 0 |>
                 <| vq_vring ::= fun r => r <| vr_desc := 0 |> <| vr_avail := 0 |> <| vr_used := 0 |> |> in
  if negb (check_ring_layout get_va' avail_pa avail =? 0) then Ok (-1, fail) else
  if negb (check_ring_layout get_va' used_pa used =? 0) then Ok (-1, fail) else
  Ok (0, vq <| vring_addr := vaddr |>
            <| vq_vring ::= fun r => r <| vr_desc := vaddr |> <| vr_avail := avail |> <| vr_used := used |> |>).

Definition vqueue_vring_teardown (vq : vqueue) : outcome vqueue :=
  let addr := vring_addr vq in
  let vq := vq <| vring_addr := 0 |> <| vring_sz := 0 |> <| last_avail_idx := 0 |> in
  if negb (addr =? 0) then
    Ok (vq <| vq_vring ::= fun r => r <| vr_used := 0 |> <| vr_avail := 0 |> <| vr_desc := 0 |> |>)
  else
    c_assert (vr_desc (vq_vring vq) =? 0);;
    c_assert (vr_avail (vq_vring vq) =? 0);;
    c_assert (vr_used (vq_vring vq) =? 0);;
    Ok vq.

(** ** Notification flags and the number of available buffers *)

Definition vqueue_napi_signal_avail (vq : vqueue) (m : vring_shm) : outcome vring_shm :=
  if negb (vring_addr vq =? 0) then
    if vr_used (vq_vring vq) =? 0 then Undef
    else Ok (m <| used_flags ::= fun f => Z.lor f VRING_USED_F_NO_NOTIFY |>)
  else Ok m.

(** [t] counts the reads of shared memory. *)
Definition vqueue_num_of_avail_buf (vq : vqueue) (m : vring_shm) (t : nat) : outcome (Z * nat) :=
  if vr_avail (vq_vring vq) =? 0 then Undef else
  Ok (u16 (avail_idx_at m t - last_avail_idx vq), S t).

Definition vqueue_num_of_avail_buf_and_notify (vq : vqueue) (m : vring_shm) (t : nat)
    : outcome (Z * vring_shm * nat) :=
  if (vr_avail (vq_vring vq) =? 0) || (vr_used (vq_vring vq) =? 0) then Undef else
  let num_bufs := u16 (avail_idx_at m t - last_avail_idx vq) in
  if num_bufs =? 0 then
    let m := m <| used_flags ::= fun f => Z.land f (Z.lnot VRING_USED_F_NO_NOTIFY) |> in
    if last_avail_idx vq =? avail_idx_at m (t + 1) then Ok (0, m, (t + 2)%nat) else
    let num_bufs := u16 (avail_idx_at m (t + 2) - last_avail_idx vq) in
    Ok (num_bufs, m <| used_flags ::= fun f => Z.lor f VRING_USED_F_NO_NOTIFY |>, (t + 3)%nat)
  else
    Ok (num_bufs, m <| used_flags ::= fun f => Z.lor f VRING_USED_F_NO_NOTIFY |>, S t).

(** ** Taking a buffer off the available ring *)

(** One descriptor entered in the list of I/O vectors it belongs to. *)
Definition iovs_push (m : vring_shm) (t : nat) (i : Z) (v : vqueue_iovs) : outcome vqueue_iovs :=
  old ← aget (iv_iovs v) (iv_used v);
  iovs' ← aset (iv_iovs v) (iv_used v) (old <| iov_len := d_len (desc_at m (t + 1) i) |>);
  let pa := u32 (d_addr (desc_at m (t + 2) i)) in
  phys' ← aset (iv_phys v) (iv_used v) pa;
  c_assert (pa =? d_addr (desc_at m (t + 3) i));;
  Ok (v <| iv_iovs := iovs' |> <| iv_phys := phys' |> <| iv_used := u32 (iv_used v + 1) |>
        <| iv_len := u32 (iv_len v + d_len (desc_at m (t + 4) i)) |>).

(** The walk along the descriptor chain; [fuel] bounds its iterations. *)
Fixpoint desc_chain_loop (fuel : nat) (num : Z) (m : vring_shm) (t : nat) (next_idx : Z) (b : vqueue_buf)
    : outcome (Z * vqueue_buf * nat) :=
  match fuel with
  | O => Undef
  | S fuel' =>
      if num <=? next_idx then Ok (ERR_NOT_VALID, b, t) else
      if shm_slots m <=? next_idx then Undef else
      let is_out := negb (Z.land (d_flags (desc_at m t next_idx)) VRING_DESC_F_WRITE =? 0) in
      let iovlist := if is_out then out_iovs b else in_iovs b in
      if iv_used iovlist <? iv_cnt iovlist then
        v' ← iovs_push m t next_idx iovlist;
        let b' := if is_out then b <| out_iovs := v' |> else b <| in_iovs := v' |> in
        let next' := d_next (desc_at m (t + 5) next_idx) in
        if negb (Z.land (d_flags (desc_at m (t + 6) next_idx)) VRING_DESC_F_NEXT =? 0)
        then desc_chain_loop fuel' num m (t + 7) next' b'
        else Ok (NO_ERROR, b', (t + 7)%nat)
      else Ok (ERR_TOO_BIG, b, S t)
  end.

(** No chain takes more iterations than there are vectors, plus one. *)
Definition chain_fuel (b : vqueue_buf) : nat :=
  S (Z.to_nat (iv_cnt (in_iovs b)) + Z.to_nat (iv_cnt (out_iovs b))).

Definition vqueue_get_avail_buf (vq : vqueue) (m : vring_shm) (t : nat) (b : vqueue_buf)
    : outcome (Z * vqueue * vqueue_buf * nat) :=
  if vring_addr vq =? 0 then Ok (ERR_CHANNEL_CLOSED, vq, b, t) else
  if vr_avail (vq_vring vq) =? 0 then Undef else
  let num := vr_num (vq_vring vq) in
  let avail_cnt := u16 (avail_idx_at m t - last_avail_idx vq) in
  if u16 num <? avail_cnt then Panic else
  if last_avail_idx vq =? avail_idx_at m (t + 1) then Ok (ERR_NOT_ENOUGH_BUFFER, vq, b, (t + 2)%nat) else
  if num =? 0 then Undef else
  let slot := last_avail_idx vq mod num in
  if shm_slots m <=? slot then Undef else
  let next_idx := avail_ring_at m (t + 2) slot in
  let vq := vq <| last_avail_idx := u16 (last_avail_idx vq + 1) |> in
  if num <=? next_idx then Panic else
  let b := b <| vb_head := next_idx |>
             <| in_iovs ::= fun v => v <| iv_used := 0 |> <| iv_len := 0 |> |>
             <| out_iovs ::= fun v => v <| iv_used := 0 |> <| iv_len := 0 |> |> in
  '(ret, b, t) ← desc_chain_loop (chain_fuel b) num m (t + 3) next_idx b;
  Ok (ret, vq, b, t).

(** ** Mapping the vectors *)

(** The loop of [vqueue_map_iovs]: maps vectors [i] to [used - 1]; [None] when
    one has no mapping.  On that path the function returns a variable it
    never set. *)
Fixpoint map_iovs_loop (get_va : Z -> Z) (n : nat) (i : Z) (v : vqueue_iovs) : outcome (option vqueue_iovs) :=
  match n with
  | O => Ok (Some v)
  | S n' =>
      old ← aget (iv_iovs v) i;
      pa ← aget (iv_phys v) i;
      let va := get_va pa in
      if va =? 0 then Ok None else
      iovs' ← aset (iv_iovs v) i (old <| base := Some va |>);
      map_iovs_loop get_va n' (i + 1) (v <| iv_iovs := iovs' |>)
  end.

Definition vqueue_map_iovs (get_va : Z -> Z) (v : vqueue_iovs) : outcome (Z * vqueue_iovs) :=
  c_assert (iv_used v <=? iv_cnt v);;
  r ← map_iovs_loop get_va (Z.to_nat (iv_used v)) 0 v;
  match r with
  | Some v' => Ok (NO_ERROR, v')
  | None => Undef
  end.

Fixpoint unmap_iovs_loop (n : nat) (i : Z) (v : vqueue_iovs) : outcome vqueue_iovs :=
  match n with
  | O => Ok v
  | S n' =>
      old ← aget (iv_iovs v) i;
      c_assert (bool_decide (is_Some (base old)));;
      iovs' ← aset (iv_iovs v) i (old <| base := None |>);
      unmap_iovs_loop n' (i + 1) (v <| iv_iovs := iovs' |>)
  end.

Definition vqueue_unmap_iovs (v : vqueue_iovs) : outcome vqueue_iovs :=
  c_assert (iv_used v <=? iv_cnt v);;
  unmap_iovs_loop (Z.to_nat (iv_used v)) 0 v.

(** ** Returning a buffer on the used ring

    The used ring and its index lie in shared memory: [used_idx] is whatever
    is found there.  Any value gives an entry below [num]. *)
Definition vqueue_add_buf (vq : vqueue) (m : vring_shm) (b : vqueue_buf) (len : Z)
    : outcome (Z * vring_shm) :=
  if vring_addr vq =? 0 then Ok (ERR_CHANNEL_CLOSED, m) else
  let num := vr_num (vq_vring vq) in
  if num <=? vb_head b then Ok (ERR_NOT_VALID, m) else
  if (vr_used (vq_vring vq) =? 0) || (num =? 0) then Undef else
  ring' ← aset (used_ring m) (used_idx m mod num) (mk_used_elem (vb_head b) len);
  Ok (NO_ERROR, m <| used_ring := ring' |> <| used_idx := u16 (used_idx m + 1) |>).

(** ** Invariants *)

(** The vring pointers are set exactly while the ring is mapped. *)
Definition vq_ptrs_ok (vq : vqueue) : Prop :=
  if vring_addr vq =? 0
  then vr_desc (vq_vring vq) = 0 /\ vr_avail (vq_vring vq) = 0 /\ vr_used (vq_vring vq) = 0
  else vr_desc (vq_vring vq) <> 0 /\ vr_avail (vq_vring vq) <> 0 /\ vr_used (vq_vring vq) <> 0.

(** The number of entries is one the ring memory was laid out for. *)
Definition vq_num_ok (vq : vqueue) (m : vring_shm) : Prop :=
  0 < vr_num (vq_vring vq) <= shm_slots m /\ Z.of_nat (length (used_ring m)) = shm_slots m.

Record iovs_ok (v : vqueue_iovs) : Prop := {
  io_cnt : 0 <= iv_cnt v <= MAX_I32;
  io_iovs : Z.of_nat (length (iv_iovs v)) = iv_cnt v;
  io_phys : Z.of_nat (length (iv_phys v)) = iv_cnt v;
  io_used : 0 <= iv_used v <= iv_cnt v
}.

Definition vqbuf_ok (b : vqueue_buf) : Prop := iovs_ok (in_iovs b) /\ iovs_ok (out_iovs b).

(** Ring indices in the shared memory are 16-bit values. *)
Definition shm_typed (m : vring_shm) : Prop :=
  forall t i, 0 <= avail_ring_at m t i /\ 0 <= d_next (desc_at m t i).

(** Vector slots not yet used. *)
Definition iovs_left (b : vqueue_buf) : nat :=
  Z.to_nat (iv_cnt (in_iovs b) - iv_used (in_iovs b)) + Z.to_nat (iv_cnt (out_iovs b) - iv_used (out_iovs b)).

(** The vectors in use: physical address and length of each. *)
Definition iovs_content (v : vqueue_iovs) : list (Z * Z) :=
  zip (take (Z.to_nat (iv_used v)) (iv_phys v)) (iov_len <$> take (Z.to_nat (iv_used v)) (iv_iovs v)).

(** The mapped form of a vector, given its address and length. *)
Definition map_vec (get_va : Z -> Z) (pl : Z * Z) : iovec_kern_t := mk_iovec (Some (get_va pl.1)) pl.2.

(** A descriptor chain of a quiescent ring, by the virtio specification. *)
Inductive desc_chain (D : Z -> vring_desc) (num : Z) : Z -> list vring_desc -> Prop :=
| chain_last i :
    0 <= i < num -> Z.land (d_flags (D i)) VRING_DESC_F_NEXT = 0 -> desc_chain D num i [D i]
| chain_next i ds :
    0 <= i < num -> Z.land (d_flags (D i)) VRING_DESC_F_NEXT <> 0 ->
    desc_chain D num (d_next (D i)) ds -> desc_chain D num i (D i :: ds).

Definition is_write (d : vring_desc) : bool := negb (Z.land (d_flags d) VRING_DESC_F_WRITE =? 0).
Definition desc_vec (d : vring_desc) : Z * Z := (d_addr d, d_len d).
Definition read_descs (ds : list vring_desc) : list vring_desc := filter (fun d => is_write d = false) ds.
Definition write_descs (ds : list vring_desc) : list vring_desc := filter (fun d => is_write d = true) ds.
Definition descs_len (ds : list vring_desc) : Z := foldr (fun d a => d_len d + a) 0 ds.

(** The normal world does not change the ring while it is read. *)
Definition shm_quiet (m : vring_shm) (D : Z -> vring_desc) : Prop := forall t i, desc_at m t i = D i.

(** The vectors of [v'] are those of [v] followed by those of [ds]. *)
Definition iovs_extend (ds : list vring_desc) (v v' : vqueue_iovs) : Prop :=
  iovs_ok v' /\ iv_cnt v' = iv_cnt v /\
  iv_used v' = iv_used v + Z.of_nat (length ds) /\
  iovs_content v' = iovs_content v ++ map desc_vec ds /\
  u32 (iv_len v') = u32 (iv_len v + descs_len ds).

(** A small example queue: one chain of two descriptors. *)
Definition ex_desc (i : Z) : vring_desc :=
  if i =? 1 then mk_desc 4096 12 VRING_DESC_F_NEXT 3 else mk_desc 8192 60 0 0.
Definition ex_shm : vring_shm :=
  mk_shm 4 (fun _ => 0) (fun _ => 6) (fun _ _ => 1) (fun _ => ex_desc) 0 65535
    (replicate 4 (mk_used_elem 0 0)).
Definition ex_vq : vqueue := mk_vqueue 1 (mk_vring 4 4 1000 1064 2048) 1000 0 4096 5.
Definition ex_iovs : vqueue_iovs := mk_iovs 2 0 0 [0; 0] [mk_iovec None 0; mk_iovec None 0].
Definition ex_buf : vqueue_buf := mk_vqbuf 0 ex_iovs ex_iovs.

(** A normal world that shows one length when the vector is filled in and
    another one when the total is summed up. *)
Definition ex_shm_racing : vring_shm :=
  ex_shm <| desc_at := fun t _ => mk_desc 8192 (if (t =? 4)%nat then 4000 else 60) 0 0 |>.

(** ** Lemmas *)

Lemma iovs_push_safe m t i v :
  iovs_ok v -> iv_used v < iv_cnt v ->
  defined (iovs_push m t i v) (fun v' => iovs_ok v' /\ iv_cnt v' = iv_cnt v /\ iv_used v' = iv_used v + 1).
Proof.
  intros [Hc Hi Hp Hu] Hlt. unfold iovs_push, MAX_I32 in *.
  destruct (aget_in_range (iv_iovs v) (iv_used v)) as [old ->]; [lia|]. simpl.
  rewrite !aset_ok by lia. simpl. destruct (_ =? _); simpl; [|done].
  unwrap_ints. split_and!; [|done|done]. split; simpl; rewrite ?length_insert; unfold MAX_I32; lia.
Qed.

Lemma desc_chain_loop_safe m num : shm_typed m -> num <= shm_slots m ->
  forall fuel t i b, (iovs_left b < fuel)%nat -> vqbuf_ok b -> 0 <= i ->
  defined (desc_chain_loop fuel num m t i b) (fun '(r, b', _) =>
    (r = NO_ERROR \/ r = ERR_NOT_VALID \/ r = ERR_TOO_BIG) /\ vqbuf_ok b' /\ vb_head b' = vb_head b /\
    (r = NO_ERROR -> i < num /\ 1 <= iv_used (in_iovs b') + iv_used (out_iovs b'))).
Proof.
  intros Hty Hnum. induction fuel as [|fuel IH]; intros t i b Hf [Hin Hout] Hi; [lia|]. simpl.
  destruct (Z.leb_spec num i); [simpl; unfold ERR_NOT_VALID, NO_ERROR; split; [auto|split; [by split|split; [done|lia]]]|].
  rewrite (proj2 (Z.leb_gt _ _)) by lia.
  set (is_out := negb _). set (v := if is_out then _ else _).
  assert (Hv : iovs_ok v) by (unfold v; by destruct is_out).
  destruct (Z.ltb_spec (iv_used v) (iv_cnt v)) as [Hlt|];
    [|simpl; unfold ERR_TOO_BIG, NO_ERROR; split; [auto|split; [by split|split; [done|lia]]]].
  pose proof (iovs_push_safe m t i v Hv Hlt) as Hpush.
  destruct (iovs_push m t i v) as [v'| |]; simpl in *; [|done|done].
  destruct Hpush as (Hv' & Hcnt & Hused).
  set (b' := if is_out then _ else _).
  assert (Hb' : vqbuf_ok b' /\ vb_head b' = vb_head b /\ (S (iovs_left b') = iovs_left b) /\
                1 <= iv_used (in_iovs b') + iv_used (out_iovs b')).
  { unfold b', v, vqbuf_ok, iovs_left in *. destruct is_out; simpl; destruct Hin, Hout, Hv';
      (split_and!; [by split|by split|done|lia|lia]). }
  destruct Hb' as (Hok & Hhd & Hleft & Hone).
  destruct (negb (Z.land (d_flags (desc_at m (t + 6) i)) _ =? 0)); [|simpl; split_and!; auto].
  pose proof (IH (t + 7)%nat (d_next (desc_at m (t + 5) i)) b' ltac:(lia) Hok ltac:(apply (proj2 (Hty _ _)))) as H'.
  destruct (desc_chain_loop fuel _ _ _ _ b') as [[[r b2] t2]| |]; simpl in *; [|done|done].
  destruct H' as (? & ? & Hh & Hr). split_and!; try done; [congruence|]. intros E. split; [done|]. by apply Hr.
Qed.

Lemma iovs_reset_ok v : iovs_ok v -> iovs_ok (v <| iv_used := 0 |> <| iv_len := 0 |>).
Proof. intros []. split; simpl; lia. Qed.

Lemma get_avail_buf_safe vq m t b :
  vq_ptrs_ok vq -> vq_num_ok vq m -> shm_typed m -> vqbuf_ok b -> 0 <= last_avail_idx vq ->
  defined (vqueue_get_avail_buf vq m t b) (fun '(r, vq', b', _) =>
    (r = NO_ERROR \/ r = ERR_CHANNEL_CLOSED \/ r = ERR_NOT_ENOUGH_BUFFER \/
     r = ERR_NOT_VALID \/ r = ERR_TOO_BIG) /\
    vqbuf_ok b' /\ vq_vring vq' = vq_vring vq /\ vring_addr vq' = vring_addr vq /\
    (r = NO_ERROR -> 0 <= vb_head b' < vr_num (vq_vring vq) /\
                     1 <= iv_used (in_iovs b') + iv_used (out_iovs b') /\
                     last_avail_idx vq' = u16 (last_avail_idx vq + 1))).
Proof.
  intros Hptr [Hnum _] Hty [Hin Hout] Hidx.
  unfold vqueue_get_avail_buf, vq_ptrs_ok in *.
  destruct (Z.eqb_spec (vring_addr vq) 0).
  { simpl. unfold NO_ERROR, ERR_CHANNEL_CLOSED. split_and!; auto; [by split|lia]. }
  rewrite (proj2 (Z.eqb_neq _ _)) by naive_solver.
  destruct (_ <? _); [done|]. destruct (_ =? avail_idx_at _ _).
  { simpl. unfold NO_ERROR, ERR_NOT_ENOUGH_BUFFER. split_and!; auto; [by split|lia]. }
  rewrite (proj2 (Z.eqb_neq (vr_num _) 0)) by lia.
  pose proof (Z.mod_pos_bound (last_avail_idx vq) (vr_num (vq_vring vq)) ltac:(lia)).
  rewrite (proj2 (Z.leb_gt (shm_slots m) _)) by lia.
  set (i := avail_ring_at _ _ _).
  destruct (Z.leb_spec (vr_num (vq_vring vq)) i); [done|].
  set (b1 := upd out_iovs _ _).
  assert (Hb1 : vqbuf_ok b1) by (split; by apply iovs_reset_ok).
  assert (Hf : (iovs_left b1 < chain_fuel b1)%nat).
  { unfold iovs_left, chain_fuel, b1. simpl. lia. }
  pose proof (desc_chain_loop_safe m (vr_num (vq_vring vq)) Hty ltac:(lia) (chain_fuel b1) (t + 3) i b1 Hf Hb1
    (proj1 (Hty _ _))) as Hl.
  destruct (desc_chain_loop _ _ _ _ _ _) as [[[r b2] t2]| |]; simpl in *; [|done|done].
  destruct Hl as (Hr & Hb2 & Hh & Hok). split_and!; try done; [tauto|].
  intros E. destruct (Hok E). rewrite Hh. simpl. split_and!; try done. apply (proj1 (Hty _ _)).
Qed.

(** C4. Whatever the normal world writes to the ring memory, and whenever it
    does, taking a buffer off the available ring terminates and stays inside
    the ring memory and the vector arrays of the caller (no undefined
    behaviour); a buffer it returns has a head below the queue size, at least
    one vector, and no more vectors than the caller has room for, however long
    or cyclic the descriptor chain is. *)
Theorem vqueue_get_avail_buf_safe vq m t b :
  vq_ptrs_ok vq -> vq_num_ok vq m -> shm_typed m -> vqbuf_ok b -> 0 <= last_avail_idx vq ->
  defined (vqueue_get_avail_buf vq m t b) (fun '(r, vq', b', _) =>
    (r = NO_ERROR \/ r = ERR_CHANNEL_CLOSED \/ r = ERR_NOT_ENOUGH_BUFFER \/
     r = ERR_NOT_VALID \/ r = ERR_TOO_BIG) /\
    vqbuf_ok b' /\ vq_vring vq' = vq_vring vq /\ vring_addr vq' = vring_addr vq /\
    (r = NO_ERROR -> 0 <= vb_head b' < vr_num (vq_vring vq) /\
                     1 <= iv_used (in_iovs b') + iv_used (out_iovs b') /\
                     last_avail_idx vq' = u16 (last_avail_idx vq + 1))).
Proof. apply get_avail_buf_safe. Qed.

(** *** What the walk keeps of the vectors

    A fact about the input and one about the output vectors that hold of
    empty ones and that no push breaks, whatever the ring shows. *)
Lemma desc_chain_loop_inv (I O : vqueue_iovs -> Prop) m num :
  (forall t i v v', I v -> iovs_push m t i v = Ok v' -> I v') ->
  (forall t i v v', O v -> iovs_push m t i v = Ok v' -> O v') ->
  forall fuel t i b r b' t', I (in_iovs b) -> O (out_iovs b) ->
  desc_chain_loop fuel num m t i b = Ok (r, b', t') -> I (in_iovs b') /\ O (out_iovs b').
Proof.
  intros HI HO. induction fuel as [|fuel IH]; intros t i b r b' t' Hi Ho H; [done|]. cbn [desc_chain_loop] in H.
  destruct (num <=? i); [by simplify_eq|]. destruct (shm_slots m <=? i); [done|].
  destruct (_ <? _); [|by simplify_eq].
  destruct (negb (Z.land (d_flags (desc_at m t i)) _ =? 0));
    (destruct (iovs_push _ _ _ _) as [v'| |] eqn:E; cbn [mbind outcome_bind] in H; [|done|done]);
    (destruct (negb _); [eapply IH; [| |exact H]|simplify_eq; split]); cbn; eauto.
Qed.

Lemma get_avail_buf_inv (I O : vqueue_iovs -> Prop) vq m t b r vq' b' t' :
  (forall t i v v', I v -> iovs_push m t i v = Ok v' -> I v') ->
  (forall t i v v', O v -> iovs_push m t i v = Ok v' -> O v') ->
  I (in_iovs b) -> O (out_iovs b) ->
  I ((in_iovs b) <| iv_used := 0 |> <| iv_len := 0 |>) -> O ((out_iovs b) <| iv_used := 0 |> <| iv_len := 0 |>) ->
  vqueue_get_avail_buf vq m t b = Ok (r, vq', b', t') -> I (in_iovs b') /\ O (out_iovs b').
Proof.
  intros HI HO Hi Ho Hi0 Ho0 H. unfold vqueue_get_avail_buf in H.
  repeat (match type of H with (if ?c then _ else _) = _ => destruct c end; try by simplify_eq).
  apply bind_ok in H as ([[r1 b1] t1] & E & H). simplify_eq.
  eapply desc_chain_loop_inv in E; [exact E|done|done|done|done].
Qed.

(** *** What a quiescent chain yields *)

Lemma take_S_insert {A} (l : list A) u x :
  (u < length l)%nat -> take (S u) (<[u := x]> l) = take u l ++ [x].
Proof.
  intros H. rewrite (take_S_r _ u x) by (by apply list_lookup_insert_eq).
  by rewrite take_insert_ge.
Qed.

Lemma iovs_push_quiet m D t i v :
  shm_quiet m D -> iovs_ok v -> iv_used v < iv_cnt v -> 0 <= d_addr (D i) <= MAX_U32 ->
  exists v', iovs_push m t i v = Ok v' /\ iovs_ok v' /\ iv_cnt v' = iv_cnt v /\
    iv_used v' = iv_used v + 1 /\ iv_len v' = u32 (iv_len v + d_len (D i)) /\
    iovs_content v' = iovs_content v ++ [desc_vec (D i)].
Proof.
  intros Hq Hv Hlt Ha. pose proof (iovs_push_safe m t i v Hv Hlt) as Hsafe.
  destruct Hv as [Hc Hi Hp Hu]. unfold iovs_push, MAX_I32, MAX_U32 in *. rewrite !Hq in *.
  destruct (aget_in_range (iv_iovs v) (iv_used v)) as [old Hold]; [lia|].
  rewrite Hold in *. simpl in *. rewrite !aset_ok in * by lia. simpl in *.
  rewrite !(u32_small (d_addr (D i))), Z.eqb_refl in * by lia. simpl in *.
  destruct Hsafe as (H1 & H2 & H3). eexists. split; [done|].
  split; [done|]. split; [done|]. split; [done|]. split; [done|].
  unfold iovs_content. simpl. rewrite u32_small by lia.
  replace (Z.to_nat (iv_used v + 1)) with (S (Z.to_nat (iv_used v))) by lia.
  rewrite !take_S_insert, fmap_app by lia. simpl.
  rewrite zip_with_app; [done|]. rewrite length_fmap, !length_take. lia.
Qed.

Lemma iovs_extend_nil v : iovs_ok v -> iovs_extend [] v v.
Proof.
  intros. unfold iovs_extend. simpl. rewrite app_nil_r, !Z.add_0_r. done.
Qed.

Lemma iovs_extend_app ds1 ds2 v1 v2 v3 :
  iovs_extend ds1 v1 v2 -> iovs_extend ds2 v2 v3 -> iovs_extend (ds1 ++ ds2) v1 v3.
Proof.
  intros (H1 & H2 & H3 & H4 & H5) (K1 & K2 & K3 & K4 & K5).
  assert (Hd : descs_len (ds1 ++ ds2) = descs_len ds1 + descs_len ds2).
  { clear. induction ds1 as [|d ds1 IH]; simpl in *; lia. }
  split; [done|]. split; [congruence|]. rewrite length_app, Hd, map_app.
  split; [lia|]. split; [by rewrite K4, H4, app_assoc|].
  rewrite K5. unfold u32 in *. rewrite Z.add_assoc, <- Z.add_mod_idemp_l, H5 by lia.
  by rewrite Z.add_mod_idemp_l by lia.
Qed.

Lemma rw_descs_cons d ds :
  read_descs (d :: ds) = (if is_write d then [] else [d]) ++ read_descs ds /\
  write_descs (d :: ds) = (if is_write d then [d] else []) ++ write_descs ds.
Proof. unfold read_descs, write_descs. rewrite !filter_cons. by destruct (is_write d). Qed.

(** One iteration of the walk on a quiescent ring. *)
Lemma chain_step_quiet m D num t i b fuel :
  shm_quiet m D -> num <= shm_slots m -> 0 <= i < num -> 0 <= d_addr (D i) <= MAX_U32 -> vqbuf_ok b ->
  (if is_write (D i) then iv_used (out_iovs b) < iv_cnt (out_iovs b)
   else iv_used (in_iovs b) < iv_cnt (in_iovs b)) ->
  exists b', vb_head b' = vb_head b /\ vqbuf_ok b' /\
    iovs_extend (read_descs [D i]) (in_iovs b) (in_iovs b') /\
    iovs_extend (write_descs [D i]) (out_iovs b) (out_iovs b') /\
    desc_chain_loop (S fuel) num m t i b =
      if Z.land (d_flags (D i)) VRING_DESC_F_NEXT =? 0 then Ok (NO_ERROR, b', (t + 7)%nat)
      else desc_chain_loop fuel num m (t + 7) (d_next (D i)) b'.
Proof.
  intros Hq Hs Hi Ha [Hin Hout] Hroom. cbn [desc_chain_loop].
  rewrite (proj2 (Z.leb_gt num i)), (proj2 (Z.leb_gt (shm_slots m) i)) by lia.
  rewrite !Hq. fold (is_write (D i)).
  rewrite (proj1 (rw_descs_cons (D i) [])), (proj2 (rw_descs_cons (D i) [])).
  destruct (is_write (D i)) eqn:Ew; rewrite (proj2 (Z.ltb_lt _ _)) by lia.
  - destruct (iovs_push_quiet m D t i (out_iovs b) Hq Hout Hroom Ha) as (v' & -> & H1 & H2 & H3 & H4 & H5).
    exists (b <| out_iovs := v' |>). split_and!; try done; [by apply iovs_extend_nil| |].
    + unfold iovs_extend. simpl. rewrite H4, Z.add_0_r. unfold u32.
      rewrite Z.mod_mod by lia. done.
    + simpl. by destruct (_ =? 0).
  - destruct (iovs_push_quiet m D t i (in_iovs b) Hq Hin Hroom Ha) as (v' & -> & H1 & H2 & H3 & H4 & H5).
    exists (b <| in_iovs := v' |>). split_and!; try done; [|by apply iovs_extend_nil|].
    + unfold iovs_extend. simpl. rewrite H4, Z.add_0_r. unfold u32.
      rewrite Z.mod_mod by lia. done.
    + simpl. by destruct (_ =? 0).
Qed.

Lemma desc_chain_loop_quiet m D num i ds :
  shm_quiet m D -> num <= shm_slots m -> desc_chain D num i ds ->
  Forall (fun d => 0 <= d_addr d <= MAX_U32) ds ->
  forall fuel t b, (length ds <= fuel)%nat -> vqbuf_ok b ->
  iv_used (in_iovs b) + Z.of_nat (length (read_descs ds)) <= iv_cnt (in_iovs b) ->
  iv_used (out_iovs b) + Z.of_nat (length (write_descs ds)) <= iv_cnt (out_iovs b) ->
  exists b' t', desc_chain_loop fuel num m t i b = Ok (NO_ERROR, b', t') /\
    vb_head b' = vb_head b /\
    iovs_extend (read_descs ds) (in_iovs b) (in_iovs b') /\
    iovs_extend (write_descs ds) (out_iovs b) (out_iovs b').
Proof.
  intros Hq Hs Hch. induction Hch as [i Hi Hl|i ds Hi Hl Hch IH]; intros Ha fuel t b Hf Hb Hin Hout;
    (destruct fuel as [|fuel]; [simpl in Hf; lia|]); apply Forall_cons in Ha as [Ha Has].
  - destruct (chain_step_quiet m D num t i b fuel Hq Hs Hi Ha Hb) as (b' & H1 & H2 & H3 & H4 & H5).
    { rewrite (proj1 (rw_descs_cons _ _)) in Hin. rewrite (proj2 (rw_descs_cons _ _)) in Hout.
      destruct (is_write (D i)); simpl in *; lia. }
    rewrite H5, Hl. simpl. eexists _, _. split; [done|]. done.
  - assert (Hr : read_descs (D i :: ds) = read_descs [D i] ++ read_descs ds)
      by (apply (filter_app _ [D i] ds)).
    assert (Hw : write_descs (D i :: ds) = write_descs [D i] ++ write_descs ds)
      by (apply (filter_app _ [D i] ds)).
    rewrite Hr, Hw in *. rewrite length_app in Hin, Hout.
    destruct (chain_step_quiet m D num t i b fuel Hq Hs Hi Ha Hb) as (b1 & H1 & H2 & H3 & H4 & H5).
    { rewrite (proj1 (rw_descs_cons _ _)) in Hin. rewrite (proj2 (rw_descs_cons _ _)) in Hout.
      destruct (is_write (D i)); simpl in *; lia. }
    rewrite H5, (proj2 (Z.eqb_neq _ _) Hl).
    destruct (IH Has fuel (t + 7)%nat b1) as (b2 & t2 & K1 & K2 & K3 & K4);
      [simpl in Hf; lia|done|destruct H3 as (? & -> & -> & _); lia|destruct H4 as (? & -> & -> & _); lia|].
    exists b2, t2. split; [done|]. split; [congruence|].
    split; eapply iovs_extend_app; done.
Qed.

Lemma get_avail_buf_chain vq m t b D ds :
  vq_ptrs_ok vq -> vring_addr vq <> 0 -> vq_num_ok vq m -> shm_quiet m D -> vqbuf_ok b ->
  0 < u16 (avail_idx_at m t - last_avail_idx vq) <= u16 (vr_num (vq_vring vq)) ->
  last_avail_idx vq <> avail_idx_at m (t + 1) ->
  let i := avail_ring_at m (t + 2) (last_avail_idx vq mod vr_num (vq_vring vq)) in
  desc_chain D (vr_num (vq_vring vq)) i ds ->
  Forall (fun d => 0 <= d_addr d <= MAX_U32) ds ->
  Z.of_nat (length (read_descs ds)) <= iv_cnt (in_iovs b) ->
  Z.of_nat (length (write_descs ds)) <= iv_cnt (out_iovs b) ->
  exists b' t',
    vqueue_get_avail_buf vq m t b
      = Ok (NO_ERROR, vq <| last_avail_idx := u16 (last_avail_idx vq + 1) |>, b', t') /\
    vb_head b' = i /\
    iovs_content (in_iovs b') = map desc_vec (read_descs ds) /\
    iovs_content (out_iovs b') = map desc_vec (write_descs ds) /\
    u32 (iv_len (in_iovs b')) = u32 (descs_len (read_descs ds)) /\
    u32 (iv_len (out_iovs b')) = u32 (descs_len (write_descs ds)).
Proof.
  intros Hptr Haddr [Hnum _] Hq [Hin Hout] Havail Hne i Hch Ha Hr Hw.
  unfold vqueue_get_avail_buf, vq_ptrs_ok in *.
  rewrite (proj2 (Z.eqb_neq _ _) Haddr) in *. destruct Hptr as (_ & Hav & _).
  rewrite (proj2 (Z.eqb_neq _ _) Hav), (proj2 (Z.ltb_ge _ _)) by lia.
  rewrite (proj2 (Z.eqb_neq _ _) Hne), (proj2 (Z.eqb_neq (vr_num _) 0)) by lia.
  pose proof (Z.mod_pos_bound (last_avail_idx vq) (vr_num (vq_vring vq)) ltac:(lia)).
  rewrite (proj2 (Z.leb_gt (shm_slots m) _)) by lia. fold i.
  assert (Hi : 0 <= i < vr_num (vq_vring vq)) by (by destruct Hch).
  rewrite (proj2 (Z.leb_gt _ i)) by lia. set (b1 := upd out_iovs _ _).
  assert (Hb1 : vqbuf_ok b1) by (split; by apply iovs_reset_ok).
  assert (Hlen : (length ds <= chain_fuel b1)%nat).
  { assert (length ds = length (read_descs ds) + length (write_descs ds))%nat.
    { clear. induction ds as [|d ds IH]; [done|].
      rewrite (proj1 (rw_descs_cons _ _)), (proj2 (rw_descs_cons _ _)).
      destruct (is_write d); simpl; lia. }
    unfold chain_fuel, b1. simpl. lia. }
  destruct (desc_chain_loop_quiet m D _ i ds Hq (proj2 Hnum) Hch Ha _ (t + 3) b1 Hlen Hb1)
    as (b' & t' & -> & Hh & (_ & _ & _ & Hc1 & Hl1) & (_ & _ & _ & Hc2 & Hl2)); [done|done|].
  simpl. exists b', t'. split; [done|]. split; [done|].
  rewrite Hc1, Hc2, Hl1, Hl2. done.
Qed.

(** C22. On a ring the normal world leaves alone, the buffer taken off is the
    next available chain: its device-readable descriptors become the input
    vectors and its device-writable ones the output vectors, in chain order,
    each with the descriptor's address and length, and the total lengths are
    the sums of the descriptor lengths modulo 2^32. *)
Theorem vqueue_get_avail_buf_chain vq m t b D ds :
  vq_ptrs_ok vq -> vring_addr vq <> 0 -> vq_num_ok vq m -> shm_quiet m D -> vqbuf_ok b ->
  0 < u16 (avail_idx_at m t - last_avail_idx vq) <= u16 (vr_num (vq_vring vq)) ->
  last_avail_idx vq <> avail_idx_at m (t + 1) ->
  let i := avail_ring_at m (t + 2) (last_avail_idx vq mod vr_num (vq_vring vq)) in
  desc_chain D (vr_num (vq_vring vq)) i ds ->
  Forall (fun d => 0 <= d_addr d <= MAX_U32) ds ->
  Z.of_nat (length (read_descs ds)) <= iv_cnt (in_iovs b) ->
  Z.of_nat (length (write_descs ds)) <= iv_cnt (out_iovs b) ->
  exists b' t',
    vqueue_get_avail_buf vq m t b
      = Ok (NO_ERROR, vq <| last_avail_idx := u16 (last_avail_idx vq + 1) |>, b', t') /\
    vb_head b' = i /\
    iovs_content (in_iovs b') = map desc_vec (read_descs ds) /\
    iovs_content (out_iovs b') = map desc_vec (write_descs ds) /\
    u32 (iv_len (in_iovs b')) = u32 (descs_len (read_descs ds)) /\
    u32 (iv_len (out_iovs b')) = u32 (descs_len (write_descs ds)).
Proof. apply get_avail_buf_chain. Qed.

(** *** Mapping and unmapping *)

Lemma map_iovs_loop_ok get_va n : forall i v,
  0 <= i -> i + Z.of_nat n <= Z.of_nat (length (iv_iovs v)) -> length (iv_phys v) = length (iv_iovs v) ->
  (forall j pa, (Z.to_nat i <= j < Z.to_nat i + n)%nat -> iv_phys v !! j = Some pa -> get_va pa <> 0) ->
  exists l, map_iovs_loop get_va n i v = Ok (Some (v <| iv_iovs := l |>)) /\ length l = length (iv_iovs v) /\
    forall j pa io, iv_phys v !! j = Some pa -> iv_iovs v !! j = Some io ->
      l !! j = Some (if decide (Z.to_nat i <= j < Z.to_nat i + n)%nat then map_vec get_va (pa, iov_len io) else io).
Proof.
  induction n as [|n IH]; intros i v Hi Hlen Hph Hva.
  { exists (iv_iovs v). split; [by destruct v|]. split; [done|]. intros j pa io _ ->. by rewrite decide_False by lia. }
  destruct (lookup_lt_is_Some_2 (iv_iovs v) (Z.to_nat i)) as [old Hold]; [lia|].
  destruct (lookup_lt_is_Some_2 (iv_phys v) (Z.to_nat i)) as [pa Hpa]; [lia|].
  cbn [map_iovs_loop]. rewrite !aget_lookup, Hold, Hpa by lia. cbn [deref mbind outcome_bind].
  rewrite (proj2 (Z.eqb_neq _ _) (Hva (Z.to_nat i) pa ltac:(lia) Hpa)), aset_ok by lia. cbn [mbind outcome_bind].
  destruct (IH (i + 1) (v <| iv_iovs := <[Z.to_nat i := old <| base := Some (get_va pa) |>]> (iv_iovs v) |>))
    as (l & -> & Hl & Hj); cbn; rewrite ?length_insert; try lia.
  { intros j pa' ?. apply Hva. lia. }
  exists l. split; [done|]. cbn in Hl, Hj. rewrite length_insert in Hl. split; [done|].
  intros j pa' io Hp Hio. destruct (decide (j = Z.to_nat i)) as [->|Hne].
  - rewrite (Hj (Z.to_nat i) pa (old <| base := Some (get_va pa) |>)) by (try done; apply list_lookup_insert_eq; lia).
    rewrite decide_False, decide_True by lia. simplify_eq. done.
  - rewrite (Hj j pa' io) by (try done; by rewrite list_lookup_insert_ne).
    f_equal. repeat case_decide; try done; lia.
Qed.

Lemma lookup_content v j :
  iovs_content v !! j = if decide (j < Z.to_nat (iv_used v))%nat then
    pa ← iv_phys v !! j; io ← iv_iovs v !! j; Some (pa, iov_len io) else None.
Proof.
  unfold iovs_content. rewrite lookup_zip_with. case_decide.
  - by rewrite list_lookup_fmap, !lookup_take_lt by lia; destruct (iv_phys v !! j), (iv_iovs v !! j).
  - by rewrite lookup_take_ge by lia.
Qed.

Lemma map_iovs_ok get_va v :
  iovs_ok v -> Forall (fun pl => get_va pl.1 <> 0) (iovs_content v) ->
  exists l, vqueue_map_iovs get_va v = Ok (NO_ERROR, v <| iv_iovs := l |>) /\ iovs_ok (v <| iv_iovs := l |>) /\
    take (Z.to_nat (iv_used v)) l = map_vec get_va <$> iovs_content v.
Proof.
  intros [Hc Hi Hp Hu] Hva. unfold vqueue_map_iovs. rewrite (proj2 (Z.leb_le _ _)) by lia. cbn [c_assert mbind outcome_bind].
  destruct (map_iovs_loop_ok get_va (Z.to_nat (iv_used v)) 0 v) as (l & -> & Hl & Hj); try lia.
  { intros j pa Hr Hpa. destruct (lookup_lt_is_Some_2 (iv_iovs v) j) as [io Hio]; [lia|].
    eapply (Forall_lookup_1 _ _ j (pa, iov_len io) Hva). rewrite lookup_content, decide_True, Hpa by lia. cbn. by rewrite Hio. }
  exists l. split; [done|]. split; [split; cbn; rewrite ?Hl; done|]. apply list_eq. intros j.
  rewrite list_lookup_fmap, lookup_content. case_decide.
  - rewrite lookup_take_lt by lia. destruct (lookup_lt_is_Some_2 (iv_iovs v) j) as [io Hio]; [lia|].
    destruct (lookup_lt_is_Some_2 (iv_phys v) j) as [pa Hpa]; [lia|].
    rewrite (Hj j pa io Hpa Hio), decide_True, Hpa by lia. cbn. by rewrite Hio.
  - rewrite lookup_take_ge by lia. done.
Qed.

Lemma unmap_iovs_loop_ok n : forall i v,
  0 <= i -> i + Z.of_nat n <= Z.of_nat (length (iv_iovs v)) ->
  (forall j io, (Z.to_nat i <= j < Z.to_nat i + n)%nat -> iv_iovs v !! j = Some io -> is_Some (base io)) ->
  exists l, unmap_iovs_loop n i v = Ok (v <| iv_iovs := l |>) /\ iov_len <$> l = iov_len <$> iv_iovs v.
Proof.
  induction n as [|n IH]; intros i v Hi Hlen Hb; [exists (iv_iovs v); by destruct v|].
  destruct (lookup_lt_is_Some_2 (iv_iovs v) (Z.to_nat i)) as [old Hold]; [lia|].
  cbn [unmap_iovs_loop]. rewrite aget_lookup, Hold by lia. cbn [deref mbind outcome_bind].
  rewrite bool_decide_true by (eapply Hb; [|done]; lia). cbn [c_assert mbind outcome_bind].
  rewrite aset_ok by lia. cbn [mbind outcome_bind].
  destruct (IH (i + 1) (v <| iv_iovs := <[Z.to_nat i := old <| base := None |>]> (iv_iovs v) |>)) as (l & -> & Hl);
    cbn; rewrite ?length_insert; try lia.
  - intros j io ?. rewrite list_lookup_insert_ne by lia. apply Hb. lia.
  - exists l. split; [done|]. rewrite Hl. cbn. rewrite list_fmap_insert. cbn.
    apply list_insert_id. by rewrite list_lookup_fmap, Hold.
Qed.

Lemma unmap_iovs_ok v :
  iovs_ok v -> Forall (fun io => is_Some (base io)) (take (Z.to_nat (iv_used v)) (iv_iovs v)) ->
  exists l, vqueue_unmap_iovs v = Ok (v <| iv_iovs := l |>) /\ iovs_ok (v <| iv_iovs := l |>) /\
    iovs_content (v <| iv_iovs := l |>) = iovs_content v.
Proof.
  intros [Hc Hi Hp Hu] Hb. unfold vqueue_unmap_iovs. rewrite (proj2 (Z.leb_le _ _)) by lia. cbn [c_assert mbind outcome_bind].
  destruct (unmap_iovs_loop_ok (Z.to_nat (iv_used v)) 0 v) as (l & -> & Hl); try lia.
  - intros j io Hr Hio. eapply (Forall_lookup_1 _ _ j io Hb). by rewrite lookup_take_lt by lia.
  - exists l. split; [done|]. assert (length l = length (iv_iovs v)) as Hl' by (by rewrite <- (length_fmap iov_len l), Hl, length_fmap).
    split; [split; cbn; rewrite ?Hl'; done|]. unfold iovs_content. cbn. by rewrite !fmap_take, Hl.
Qed.

(** The ring's pointers are all set while it is mapped and all NULL
    otherwise: set-up that is refused, set-up that succeeds on addresses that
    do not wrap, and tear-down keep it so; and with it the assertions of
    tear-down hold, which leaves the queue reset. *)
Theorem vring_pointers_invariant get_va map_vring vq desc_pa avail_pa used_pa :
  vq_ptrs_ok vq ->
  (forall r vq', vqueue_vring_setup get_va map_vring vq desc_pa avail_pa used_pa = Ok (r, vq') ->
     (r = 0 /\ vring_addr vq' <> 0 /\
        (vr_avail (vq_vring vq') <> 0 -> vr_used (vq_vring vq') <> 0 -> vq_ptrs_ok vq')) \/
     (r = -1 /\ vq_ptrs_ok vq')) /\
  exists vq', vqueue_vring_teardown vq = Ok vq' /\ vq_ptrs_ok vq' /\ vring_addr vq' = 0 /\
              last_avail_idx vq' = 0.
Proof.
  intros Hok. split.
  - intros r vq' H. unfold vqueue_vring_setup in H. inv_ok. clear H0 H1 H2 a a0 a1.
    set (gv := if get_va desc_pa =? 0 then _ else _) in H.
    destruct (Z.eqb_spec (gv desc_pa) 0) as [|Hv]; [right; simplify_eq; done|].
    destruct (negb _); [right; simplify_eq; split; [done|]; unfold vq_ptrs_ok; done|].
    destruct (negb _); [right; simplify_eq; split; [done|]; unfold vq_ptrs_ok; done|].
    left. simplify_eq. simpl. split; [done|]. split; [done|]. intros Ha Hu.
    unfold vq_ptrs_ok. simpl. by rewrite (proj2 (Z.eqb_neq _ _) Hv).
  - unfold vqueue_vring_teardown, vq_ptrs_ok in *.
    destruct (Z.eqb_spec (vring_addr vq) 0); simpl.
    + destruct Hok as (H1 & H2 & H3). rewrite H1, H2, H3. simpl. eexists. split; [done|]. done.
    + eexists. split; [done|]. done.
Qed.

Lemma add_buf_publishes vq m b len :
  vq_ptrs_ok vq -> vq_num_ok vq m -> 0 <= used_idx m ->
  let num := vr_num (vq_vring vq) in
  let k := Z.to_nat (used_idx m mod num) in
  if vring_addr vq =? 0 then vqueue_add_buf vq m b len = Ok (ERR_CHANNEL_CLOSED, m)
  else if num <=? vb_head b then vqueue_add_buf vq m b len = Ok (ERR_NOT_VALID, m)
  else exists m', vqueue_add_buf vq m b len = Ok (NO_ERROR, m') /\
    used_idx m' = u16 (used_idx m + 1) /\
    used_ring m' !! k = Some (mk_used_elem (vb_head b) len) /\
    (forall j, j <> k -> used_ring m' !! j = used_ring m !! j) /\ vq_num_ok vq m'.
Proof.
  intros Hptr [Hnum Hlen] Hidx num k. unfold vqueue_add_buf, vq_ptrs_ok in *. fold num.
  destruct (Z.eqb_spec (vring_addr vq) 0); [done|]. destruct Hptr as (_ & _ & Hu).
  destruct (num <=? vb_head b); [done|].
  rewrite (proj2 (Z.eqb_neq _ _) Hu), (proj2 (Z.eqb_neq num 0)) by (unfold num; lia). simpl.
  pose proof (Z.mod_pos_bound (used_idx m) num ltac:(unfold num; lia)).
  rewrite aset_ok by (unfold num in *; lia). simpl. eexists. split; [done|]. simpl. split; [done|].
  split; [apply list_lookup_insert_eq; unfold k, num in *; lia|].
  split; [intros j Hj; by apply list_lookup_insert_ne|].
  split; simpl; [done|]. by rewrite length_insert.
Qed.

(** Returning a buffer publishes it in the next slot of the used ring:
    when the queue is set up and the buffer's head is in range, the entry at
    the current used index gets the head and the length, no other entry
    changes, and the index advances by one modulo 2^16; a queue that is not
    set up or a head out of range leaves the ring as it was. *)
Theorem vqueue_add_buf_publishes vq m b len :
  vq_ptrs_ok vq -> vq_num_ok vq m -> 0 <= used_idx m ->
  let num := vr_num (vq_vring vq) in
  let k := Z.to_nat (used_idx m mod num) in
  if vring_addr vq =? 0 then vqueue_add_buf vq m b len = Ok (ERR_CHANNEL_CLOSED, m)
  else if num <=? vb_head b then vqueue_add_buf vq m b len = Ok (ERR_NOT_VALID, m)
  else exists m', vqueue_add_buf vq m b len = Ok (NO_ERROR, m') /\
    used_idx m' = u16 (used_idx m + 1) /\
    used_ring m' !! k = Some (mk_used_elem (vb_head b) len) /\
    (forall j, j <> k -> used_ring m' !! j = used_ring m !! j) /\ vq_num_ok vq m'.
Proof. apply add_buf_publishes. Qed.

(** The length of a descriptor is read twice: a normal world that changes it
    in between gets a vector of one length (4000) into a total of another
    (60), so that a bound on the total does not bound the vector. *)
Theorem vqueue_get_avail_buf_double_fetch :
  exists b' t', vqueue_get_avail_buf ex_vq ex_shm_racing 0 ex_buf
      = Ok (NO_ERROR, ex_vq <| last_avail_idx := 6 |>, b', t') /\
    iovs_content (in_iovs b') = [(8192, 4000)] /\ iv_len (in_iovs b') = 60.
Proof. eexists _, _. split; [vm_compute; reflexivity|]. split; vm_compute; reflexivity. Qed.

(** ** Witnesses *)

Lemma ex_iovs_ok : iovs_ok ex_iovs.
Proof. split; vm_compute; try done; split; discriminate. Qed.

Lemma ex_vq_ptrs_ok : vq_ptrs_ok ex_vq.
Proof. vm_compute. split_and!; discriminate. Qed.

Lemma ex_num_ok : vq_num_ok ex_vq ex_shm.
Proof. vm_compute. split_and!; try done; discriminate. Qed.

Lemma vqueue_get_avail_buf_safe_witness :
  defined (vqueue_get_avail_buf ex_vq ex_shm 0 ex_buf) (fun '(r, vq', b', _) =>
    (r = NO_ERROR \/ r = ERR_CHANNEL_CLOSED \/ r = ERR_NOT_ENOUGH_BUFFER \/
     r = ERR_NOT_VALID \/ r = ERR_TOO_BIG) /\
    vqbuf_ok b' /\ vq_vring vq' = vq_vring ex_vq /\ vring_addr vq' = vring_addr ex_vq /\
    (r = NO_ERROR -> 0 <= vb_head b' < vr_num (vq_vring ex_vq) /\
                     1 <= iv_used (in_iovs b') + iv_used (out_iovs b') /\
                     last_avail_idx vq' = u16 (last_avail_idx ex_vq + 1))).
Proof.
  apply (vqueue_get_avail_buf_safe ex_vq ex_shm 0 ex_buf).
  - exact ex_vq_ptrs_ok.
  - exact ex_num_ok.
  - intros t i. simpl. unfold ex_desc. destruct (i =? 1); simpl; lia.
  - split; exact ex_iovs_ok.
  - simpl. lia.
Defined.

Lemma vqueue_get_avail_buf_chain_witness :
  exists b' t',
    vqueue_get_avail_buf ex_vq ex_shm 0 ex_buf
      = Ok (NO_ERROR, ex_vq <| last_avail_idx := u16 6 |>, b', t') /\
    vb_head b' = 1 /\
    iovs_content (in_iovs b') = map desc_vec (read_descs [ex_desc 1; ex_desc 3]) /\
    iovs_content (out_iovs b') = map desc_vec (write_descs [ex_desc 1; ex_desc 3]) /\
    u32 (iv_len (in_iovs b')) = u32 (descs_len (read_descs [ex_desc 1; ex_desc 3])) /\
    u32 (iv_len (out_iovs b')) = u32 (descs_len (write_descs [ex_desc 1; ex_desc 3])).
Proof.
  apply (vqueue_get_avail_buf_chain ex_vq ex_shm 0 ex_buf ex_desc [ex_desc 1; ex_desc 3]).
  - exact ex_vq_ptrs_ok.
  - discriminate.
  - exact ex_num_ok.
  - intros t i. reflexivity.
  - split; exact ex_iovs_ok.
  - vm_compute. split; [reflexivity|discriminate].
  - discriminate.
  - simpl. apply chain_next; [lia|discriminate|]. apply chain_last; [simpl; lia|reflexivity].
  - repeat constructor; vm_compute; discriminate.
  - vm_compute. discriminate.
  - vm_compute. discriminate.
Defined.

Lemma vring_pointers_invariant_witness :
  (forall r vq', vqueue_vring_setup (fun pa => pa + 4096) (fun _ _ => None) (vqueue_init 0 4 4096) 4096 4160 8192
       = Ok (r, vq') ->
     (r = 0 /\ vring_addr vq' <> 0 /\
        (vr_avail (vq_vring vq') <> 0 -> vr_used (vq_vring vq') <> 0 -> vq_ptrs_ok vq')) \/
     (r = -1 /\ vq_ptrs_ok vq')) /\
  exists vq', vqueue_vring_teardown (vqueue_init 0 4 4096) = Ok vq' /\ vq_ptrs_ok vq' /\
              vring_addr vq' = 0 /\ last_avail_idx vq' = 0.
Proof.
  apply (vring_pointers_invariant (fun pa => pa + 4096) (fun _ _ => None) (vqueue_init 0 4 4096)).
  vm_compute. split_and!; reflexivity.
Defined.

Lemma vqueue_add_buf_publishes_witness :
  exists m', vqueue_add_buf ex_vq ex_shm (ex_buf <| vb_head := 2 |>) 64 = Ok (NO_ERROR, m') /\
    used_idx m' = u16 (65535 + 1) /\
    used_ring m' !! 3%nat = Some (mk_used_elem 2 64) /\
    (forall j, j <> 3%nat -> used_ring m' !! j = used_ring ex_shm !! j) /\ vq_num_ok ex_vq m'.
Proof.
  exact (vqueue_add_buf_publishes ex_vq ex_shm (ex_buf <| vb_head := 2 |>) 64
    ex_vq_ptrs_ok ex_num_ok ltac:(simpl; lia)).
Defined.
