(* ===== verification/VirtioDev.v ===== *)
(** * The virtio device and its MMIO front end (virtio-nic/vnic/src/virtio.c,
    virtio-mmio.c, the control part of virtio-net.c, and the device set-up of
    vnic.c).

    The normal world drives the device by trapped accesses to the register
    window; each access is one call of [vnic_emu_check].  [vnic_t] collects
    the three structures of the code (MMIO front end, virtio device, virtio
    net device); interrupts raised towards the normal world and NAPI
    schedulings are recorded in [events]. *)

From S2P Require Import Prelude Iovec Vqueue.

Definition VNIC_QUEUE_MAX : Z := 2.
Definition VNIC_VQ_MAX_SIZE : Z := 256.
Definition SMALL_PAGE_SIZE : Z := 4096.
Definition EINVAL : Z := 22.

Definition VIRTIO_CONFIG_S_DRIVER_OK : Z := 4.
Definition VIRTIO_CONFIG_S_FEATURES_OK : Z := 8.
Definition VIRTIO_F_VERSION_1 : Z := 32.
Definition VIRTIO_NET_F_MTU : Z := 3.
Definition VIRTIO_NET_F_MAC : Z := 5.
Definition VIRTIO_NET_F_STATUS : Z := 16.
Definition VIRTIO_NET_S_LINK_UP : Z := 1.

Definition VIRT_MAGIC : Z := 0x74726976.
Definition VIRT_VERSION : Z := 2.
Definition VIRT_VENDOR : Z := 0x554D4551.

(** ** State *)

Record vdev_t := mk_vdev {
  status : Z;
  isr : Z;
  queue_sel : Z;
  guest_features : Z;
  host_features : Z;
  config : list Z;
  generation : Z;
  vq : list vqueue;
  device_id : Z;
  use_started : bool;
  started : bool
}.
#[global] Instance eta_vdev : Settable vdev_t :=
  fun d => mk_vdev (status d) (isr d) (queue_sel d) (guest_features d) (host_features d) (config d)
             (generation d) (vq d) (device_id d) (use_started d) (started d).

Record VirtIOMMIOQueue := mk_mmioq {
  q_num : Z;
  q_enabled : Z;
  q_desc : Z * Z;   (** low and high word *)
  q_avail : Z * Z;
  q_used : Z * Z
}.
#[global] Instance eta_mmioq : Settable VirtIOMMIOQueue :=
  fun q => mk_mmioq (q_num q) (q_enabled q) (q_desc q) (q_avail q) (q_used q).

Record mmio_t := mk_mmio {
  host_features_sel : Z;
  guest_features_sel : Z;
  mm_guest_features : list Z;
  vqs : list VirtIOMMIOQueue
}.
#[global] Instance eta_mmio : Settable mmio_t :=
  fun m => mk_mmio (host_features_sel m) (guest_features_sel m) (mm_guest_features m) (vqs m).

Record vnet_t := mk_vnet {
  n_mac : list Z;
  n_status : Z;
  n_mtu : Z;
  config_size : Z;
  curr_guest_offloads : Z;
  tx_burst : Z;
  rx_burst : Z
}.
#[global] Instance eta_vnet : Settable vnet_t :=
  fun n => mk_vnet (n_mac n) (n_status n) (n_mtu n) (config_size n) (curr_guest_offloads n) (tx_burst n) (rx_burst n).

Inductive vnic_event := EvIrq | EvNapiSchedule.

(** [ring_slots] is the number of entries each ring had when it was last set
    up: what the memory behind the vring pointers is laid out for. *)
Record vnic_t := mk_vnic {
  mmio_conf : mmio_t;
  vdev : vdev_t;
  vnet : vnet_t;
  ring_slots : list Z;
  events : list vnic_event
}.
#[global] Instance eta_vnic : Settable vnic_t :=
  fun v => mk_vnic (mmio_conf v) (vdev v) (vnet v) (ring_slots v) (events v).

(** ** Interrupts *)

Definition virtio_set_isr (d : vdev_t) (value : Z) : vdev_t :=
  if Z.land (isr d) value =? value then d else d <| isr := Z.lor (isr d) value |>.

Definition vnic_kick_nw (v : vnic_t) : vnic_t :=
  if negb (isr (vdev v) =? 0) then v <| events ::= cons EvIrq |> else v.

Definition virtio_notify_vector (v : vnic_t) : vnic_t := vnic_kick_nw v.

Definition virtio_notify (v : vnic_t) : vnic_t :=
  virtio_notify_vector (v <| vdev ::= fun d => virtio_set_isr d 1 |>).

Definition virtio_update_irq (v : vnic_t) : vnic_t := virtio_notify_vector v.

Definition virtio_notify_config (v : vnic_t) : vnic_t :=
  if Z.land (status (vdev v)) VIRTIO_CONFIG_S_DRIVER_OK =? 0 then v else
  virtio_notify_vector
    (v <| vdev ::= fun d => (virtio_set_isr d 3) <| generation := u32 (generation d + 1) |> |>).

Definition napi_schedule_vnic (v : vnic_t) : vnic_t := v <| events ::= cons EvNapiSchedule |>.

(** ** Features *)

Definition virtio_add_feature (features fbit : Z) : Z := Z.lor features (Z.shiftl 1 fbit).
Definition virtio_has_feature (features fbit : Z) : bool := negb (Z.land features (Z.shiftl 1 fbit) =? 0).

Definition vnic_vdev_init_feature_bits (d : vdev_t) : vdev_t :=
  d <| host_features :=
    virtio_add_feature (virtio_add_feature (virtio_add_feature
      (virtio_add_feature 0 VIRTIO_F_VERSION_1) VIRTIO_NET_F_MTU) VIRTIO_NET_F_MAC) VIRTIO_NET_F_STATUS |>.

Definition virtio_net_guest_offloads_by_features (features : Z) : Z := Z.land 0 features.

Definition virtio_net_set_features (v : vnic_t) (features : Z) : vnic_t :=
  v <| vnet ::= fun n => n <| curr_guest_offloads := virtio_net_guest_offloads_by_features (u32 features) |> |>.

Definition virtio_set_features_nocheck (v : vnic_t) (val : Z) : outcome (Z * vnic_t) :=
  let hf := host_features (vdev v) in
  let bad := negb (Z.land val (Z.lnot hf) =? 0) in
  let val := Z.land val hf in
  let v := virtio_net_set_features v val in
  let v := v <| vdev ::= fun d => d <| guest_features := val |> |> in
  if negb (Z.land (guest_features (vdev v)) VIRTIO_F_VERSION_1 =? 0)
  then Ok (if bad then -1 else 0, v)
  else Panic.

Definition virtio_set_features (v : vnic_t) (val : Z) : outcome (Z * vnic_t) :=
  if negb (Z.land (status (vdev v)) VIRTIO_CONFIG_S_FEATURES_OK =? 0) then Ok (- EINVAL, v)
  else virtio_set_features_nocheck v val.

(** ** Status and reset *)

Definition virtio_net_started (n : vnet_t) (st : Z) : bool :=
  negb (Z.land st VIRTIO_CONFIG_S_DRIVER_OK =? 0) && negb (Z.land (n_status n) VIRTIO_NET_S_LINK_UP =? 0).

Definition virtio_net_set_status (v : vnic_t) (st : Z) : vnic_t :=
  if virtio_net_started (vnet v) st then napi_schedule_vnic v else v.

Definition virtio_net_set_link_status (v : vnic_t) (link_up : bool) : vnic_t :=
  let old_status := n_status (vnet v) in
  let st := if link_up then Z.lor old_status VIRTIO_NET_S_LINK_UP
            else Z.land old_status (Z.lnot VIRTIO_NET_S_LINK_UP) in
  let v := v <| vnet ::= fun n => n <| n_status := st |> |> in
  let v := if negb (st =? old_status) then virtio_notify_config v else v in
  virtio_net_set_status v (status (vdev v)).

Definition virtio_set_status (v : vnic_t) (val : Z) : Z * vnic_t :=
  let v := if negb (Z.land (status (vdev v)) VIRTIO_CONFIG_S_DRIVER_OK
                    =? Z.land val VIRTIO_CONFIG_S_DRIVER_OK)
           then v <| vdev ::= fun d => d <| started := negb (Z.land val VIRTIO_CONFIG_S_DRIVER_OK =? 0) |> |>
           else v in
  let v := virtio_net_set_status v val in
  (0, v <| vdev ::= fun d => d <| status := val |> |>).

(** Tear-down and default size for each of the queues. *)
Fixpoint reset_queues (qs : list vqueue) : outcome (list vqueue) :=
  match qs with
  | [] => Ok []
  | q :: qs' =>
      q ← vqueue_vring_teardown q;
      qs' ← reset_queues qs';
      Ok (q <| vq_vring ::= fun r => r <| vr_num := vr_num_default r |> |> :: qs')
  end.

Definition virtio_reset (v : vnic_t) : outcome vnic_t :=
  let '(_, v) := virtio_set_status v 0 in
  let v := v <| vdev ::= fun d => d <| started := false |> <| guest_features := 0 |> <| queue_sel := 0 |>
                                    <| status := 0 |> <| isr := 0 |> |> in
  let v := virtio_notify_vector v in
  qs ← reset_queues (vq (vdev v));
  Ok (v <| vdev ::= fun d => d <| vq := qs |> |>).

Definition virtio_mmio_soft_reset (m : mmio_t) : mmio_t :=
  m <| vqs ::= map (fun q => q <| q_enabled := 0 |>) |>.

(** ** Configuration space *)

(** The 12 bytes of [struct virtio_net_config] (packed, little endian). *)
Definition le16 (x : Z) : list Z := [x mod 256; (x / 256) mod 256].
Definition virtio_net_config_bytes (n : vnet_t) : list Z :=
  n_mac n ++ le16 (n_status n) ++ le16 1 ++ le16 (n_mtu n).

Definition virtio_net_get_config (v : vnic_t) : outcome vnic_t :=
  let netcfg := virtio_net_config_bytes (vnet v) in
  if negb (config_size (vnet v) =? 12) then Panic else
  cfg ← mem_write (config (vdev v)) 0 netcfg;
  Ok (v <| vdev ::= fun d => d <| config := cfg |> |>).

Definition virtio_config_read (v : vnic_t) (offset size : Z) : outcome (Z * vnic_t) :=
  if Z.of_nat (length (config (vdev v))) <? u32 (offset + size) then Ok (0, v) else
  v ← virtio_net_get_config v;
  if (size =? 1) || (size =? 2) || (size =? 4) then
    d ← mem_read (config (vdev v)) offset size;
    Ok (le_value d, v)
  else Panic.

Definition virtio_config_write (v : vnic_t) (offset value size : Z) : outcome vnic_t :=
  if Z.of_nat (length (config (vdev v))) <? u32 (offset + size) then Ok v else
  if (size =? 1) || (size =? 2) || (size =? 4) then
    cfg ← mem_write (config (vdev v)) offset (le_bytes (Z.to_nat size) value);
    Ok (v <| vdev ::= fun d => d <| config := cfg |> |>)
  else Panic.

(** ** Queues *)

(** Updates the queue selected by [n]; out of range is undefined. *)
Definition with_vq (v : vnic_t) (n : Z) (f : vqueue -> outcome vqueue) : outcome vnic_t :=
  q ← aget (vq (vdev v)) n;
  q' ← f q;
  qs ← aset (vq (vdev v)) n q';
  Ok (v <| vdev ::= fun d => d <| vq := qs |> |>).

Definition with_mmioq (v : vnic_t) (n : Z) (f : VirtIOMMIOQueue -> VirtIOMMIOQueue) : outcome vnic_t :=
  q ← aget (vqs (mmio_conf v)) n;
  qs ← aset (vqs (mmio_conf v)) n (f q);
  Ok (v <| mmio_conf ::= fun m => m <| vqs := qs |> |>).

Definition virtio_queue_set_num (v : vnic_t) (n num : Z) : outcome vnic_t :=
  q ← aget (vq (vdev v)) n;
  if negb (eqb (negb (num =? 0)) (negb (vr_num (vq_vring q) =? 0))) ||
     (VNIC_VQ_MAX_SIZE <? num) || (num <? 0)
  then Ok v
  else with_vq v n (fun q => Ok (q <| vq_vring ::= fun r => r <| vr_num := num |> |>)).

Definition virtio_queue_get_num (v : vnic_t) (n : Z) : outcome Z :=
  q ← aget (vq (vdev v)) n; Ok (vr_num (vq_vring q)).

Section Platform.

(** The translation of normal-world physical addresses, and how a mapping is
    added; both are the platform's. *)
Context (get_va : Z -> Z) (map_vring : Z -> Z -> option (Z -> Z)).

(** The 64-bit addresses the driver wrote are passed on as [paddr_t]. *)
Definition virtio_queue_set_rings (v : vnic_t) (n desc avail used : Z) : outcome vnic_t :=
  q ← aget (vq (vdev v)) n;
  if vr_num (vq_vring q) =? 0 then Ok v else
  '(r, q') ← vqueue_vring_setup get_va map_vring q (u32 desc) (u32 avail) (u32 used);
  v ← with_vq v n (fun _ => Ok q');
  if r =? 0 then
    slots ← aset (ring_slots v) n (vr_num (vq_vring q'));
    Ok (v <| ring_slots := slots |>)
  else Ok v.

(** [vqueue_notify] calls [vnic_vq_notify_cb]. *)
Definition virtio_queue_notify (v : vnic_t) (n : Z) : outcome vnic_t :=
  q ← aget (vq (vdev v)) n;
  if vring_addr q =? 0 then Ok v else
  if vr_used (vq_vring q) =? 0 then Undef else
  Ok (napi_schedule_vnic v).

(** ** The register window *)

Definition u64_of (w : Z * Z) : Z := Z.lor (Z.shiftl (snd w) 32) (fst w).

Definition mmio_write_queue_ready (v : vnic_t) (value : Z) : outcome vnic_t :=
  let sel := queue_sel (vdev v) in
  if negb (value =? 0) then
    mq ← aget (vqs (mmio_conf v)) sel;
    v ← virtio_queue_set_num v sel (q_num mq);
    v ← virtio_queue_set_rings v sel (u64_of (q_desc mq)) (u64_of (q_avail mq)) (u64_of (q_used mq));
    with_mmioq v sel (fun q => q <| q_enabled := 1 |>)
  else with_mmioq v sel (fun q => q <| q_enabled := 0 |>).

Definition mmio_write_status (v : vnic_t) (value : Z) : outcome vnic_t :=
  v ← (if negb (Z.land value VIRTIO_CONFIG_S_FEATURES_OK =? 0) then
         f0 ← aget (mm_guest_features (mmio_conf v)) 0;
         f1 ← aget (mm_guest_features (mmio_conf v)) 1;
         '(_, v) ← virtio_set_features v (Z.lor (Z.shiftl f1 32) f0);
         Ok v
       else Ok v);
  let '(_, v) := virtio_set_status v (Z.land value 0xff) in
  if status (vdev v) =? 0 then
    v ← virtio_reset v;
    Ok (v <| mmio_conf ::= virtio_mmio_soft_reset |>)
  else Ok v.

Definition vnic_handle_mmio_write (v : vnic_t) (offset value size : Z) : outcome vnic_t :=
  let sel := queue_sel (vdev v) in
  if 0x100 <=? offset then virtio_config_write v (offset - 0x100) value size else
  if negb (size =? 4) then Ok v else
  match offset with
  | 0x014 => Ok (v <| mmio_conf ::= fun m => m <| host_features_sel := if value =? 0 then 0 else 1 |> |>)
  | 0x020 =>
      gf ← aset (mm_guest_features (mmio_conf v)) (guest_features_sel (mmio_conf v)) value;
      Ok (v <| mmio_conf ::= fun m => m <| mm_guest_features := gf |> |>)
  | 0x024 => Ok (v <| mmio_conf ::= fun m => m <| guest_features_sel := if value =? 0 then 0 else 1 |> |>)
  | 0x030 =>
      if value <? VNIC_QUEUE_MAX then Ok (v <| vdev ::= fun d => d <| queue_sel := value |> |>) else Ok v
  | 0x038 =>
      v ← virtio_queue_set_num v sel (i32 value);
      with_mmioq v sel (fun q => q <| q_num := u16 value |>)
  | 0x044 => mmio_write_queue_ready v value
  | 0x050 => if value <? VNIC_QUEUE_MAX then virtio_queue_notify v value else Ok v
  | 0x064 =>
      Ok (virtio_update_irq
        (v <| vdev ::= fun d => d <| isr := Z.land (isr d) (Z.land (Z.lnot value) 0xff) |> |>))
  | 0x070 => mmio_write_status v value
  | 0x080 => with_mmioq v sel (fun q => q <| q_desc := (value, snd (q_desc q)) |>)
  | 0x084 => with_mmioq v sel (fun q => q <| q_desc := (fst (q_desc q), value) |>)
  | 0x090 => with_mmioq v sel (fun q => q <| q_avail := (value, snd (q_avail q)) |>)
  | 0x094 => with_mmioq v sel (fun q => q <| q_avail := (fst (q_avail q), value) |>)
  | 0x0a0 => with_mmioq v sel (fun q => q <| q_used := (value, snd (q_used q)) |>)
  | 0x0a4 => with_mmioq v sel (fun q => q <| q_used := (fst (q_used q), value) |>)
  | _ => Ok v   (* legacy, read-only and invalid registers *)
  end.

Definition vnic_handle_mmio_read (v : vnic_t) (offset size : Z) : outcome (Z * vnic_t) :=
  let sel := queue_sel (vdev v) in
  if 0x100 <=? offset then virtio_config_read v (offset - 0x100) size else
  if negb (size =? 4) then Ok (0, v) else
  match offset with
  | 0x000 => Ok (VIRT_MAGIC, v)
  | 0x004 => Ok (VIRT_VERSION, v)
  | 0x008 => Ok (device_id (vdev v), v)
  | 0x00c => Ok (VIRT_VENDOR, v)
  | 0x010 => Ok (u32 (Z.shiftr (host_features (vdev v)) (32 * host_features_sel (mmio_conf v))), v)
  | 0x034 =>
      n ← virtio_queue_get_num v sel;
      Ok (if n =? 0 then 0 else VNIC_VQ_MAX_SIZE, v)
  | 0x044 => q ← aget (vqs (mmio_conf v)) sel; Ok (q_enabled q, v)
  | 0x060 => Ok (isr (vdev v), v)
  | 0x070 => Ok (status (vdev v), v)
  | 0x0fc => Ok (generation (vdev v), v)
  | _ => Ok (0, v)
  end.

Inductive emu_state := EMU_STATE_WRITE | EMU_STATE_READ_BEFORE | EMU_STATE_READ_AFTER.

(** A trapped access: whether the access itself is let through, the value
    for the normal world, and the device afterwards. *)
Definition vnic_emu_check (v : vnic_t) (base address : Z) (st : emu_state) (value : Z) (size : Z) (sign : bool)
    : outcome (bool * Z * vnic_t) :=
  let offset := u32 (address - base) in
  match st with
  | EMU_STATE_WRITE => v ← vnic_handle_mmio_write v offset value size; Ok (false, value, v)
  | EMU_STATE_READ_BEFORE => Ok (true, value, v)
  | EMU_STATE_READ_AFTER =>
      if negb ((size =? 1) || (size =? 2) || (size =? 4)) then Panic else
      '(r, v) ← vnic_handle_mmio_read v offset size;
      let r := if size =? 1 then u8 r else if size =? 2 then u16 r else r in
      let r := if sign then
                 if size =? 1 then (if negb (Z.land r 0x80 =? 0) then Z.lor r 0xFFFFFF00 else r)
                 else if size =? 2 then (if negb (Z.land r 0x8000 =? 0) then Z.lor r 0xFFFF0000 else r)
                 else r
               else r in
      Ok (true, r, v)
  end.

End Platform.

(** ** The device as [vnic_init] leaves it *)

Definition vnic_vdev_init (d : vdev_t) : vdev_t :=
  d <| status := 0 |> <| isr := 0 |> <| queue_sel := 0 |> <| guest_features := 0 |>
    <| generation := 0 |> <| device_id := 1 |> <| use_started := true |> <| started := false |>.

Definition vnic_init_config : vnet_t :=
  mk_vnet [0x00; 0x19; 0xb8; 0x08; 0x40; 0x78] VIRTIO_NET_S_LINK_UP 1500 12 0 0 0.

Definition vnic_vnet_init (n : vnet_t) : vnet_t :=
  n <| curr_guest_offloads := 0 |> <| tx_burst := 256 |> <| rx_burst := 256 |>.

(** The control state after [vnic_init] (registration with the router, NAPI
    and the interrupt controller: VnicInit). *)
Definition vnic_state_init : vnic_t :=
  let n := vnic_vnet_init vnic_init_config in
  let d := vnic_vdev_init_feature_bits (vnic_vdev_init
             (mk_vdev 0 0 0 0 0 (virtio_net_config_bytes n) 0
                [vqueue_init 0 256 SMALL_PAGE_SIZE; vqueue_init 1 256 SMALL_PAGE_SIZE] 0 false false)) in
  mk_vnic (mk_mmio 0 0 [0; 0] (replicate 2 (mk_mmioq 0 0 (0, 0) (0, 0) (0, 0)))) d n [0; 0] [].

(** ** Invariant *)

Definition vq_ctl_ok (q : vqueue) : Prop :=
  vq_ptrs_ok q /\ vring_align q = SMALL_PAGE_SIZE /\
  0 < vr_num (vq_vring q) <= VNIC_VQ_MAX_SIZE /\ 0 < vr_num_default (vq_vring q) <= VNIC_VQ_MAX_SIZE.

Record vnic_wf (v : vnic_t) : Prop := {
  vw_sel : 0 <= queue_sel (vdev v) < VNIC_QUEUE_MAX;
  vw_vq : length (vq (vdev v)) = 2%nat /\ Forall vq_ctl_ok (vq (vdev v));
  vw_vqs : length (vqs (mmio_conf v)) = 2%nat;
  vw_gsel : 0 <= guest_features_sel (mmio_conf v) < 2;
  vw_gf : length (mm_guest_features (mmio_conf v)) = 2%nat;
  vw_slots : length (ring_slots v) = 2%nat;
  vw_cfg : length (config (vdev v)) = 12%nat /\ config_size (vnet v) = 12;
  vw_mac : length (n_mac (vnet v)) = 6%nat;
  vw_feat : Z.land (guest_features (vdev v)) (Z.lnot (host_features (vdev v))) = 0
}.

(** An access of the normal world: a register write or read. *)
Inductive mmio_access := MmioWrite (offset value size : Z) | MmioRead (offset size : Z).

(** Runs a sequence of accesses, each decided by the normal world. *)
Fixpoint mmio_run (get_va : Z -> Z) (map_vring : Z -> Z -> option (Z -> Z))
    (l : list mmio_access) (v : vnic_t) : outcome vnic_t :=
  match l with
  | [] => Ok v
  | MmioWrite o x s :: l' => v ← vnic_handle_mmio_write get_va map_vring v o x s; mmio_run get_va map_vring l' v
  | MmioRead o s :: l' => '(_, v) ← vnic_handle_mmio_read v o s; mmio_run get_va map_vring l' v
  end.

(** Offsets and values are 32-bit. *)
Definition access_ok (a : mmio_access) : Prop :=
  match a with
  | MmioWrite o x _ => 0 <= o <= MAX_U32 /\ 0 <= x <= MAX_U32
  | MmioRead o _ => 0 <= o <= MAX_U32
  end.

(** The accesses that can stop the secure world: the write of the status
    register, which negotiates the features, the write of the ready register,
    which sets a ring up, and an access of the configuration space of a width
    the processor does not have. *)
Definition may_panic (a : mmio_access) : Prop :=
  match a with
  | MmioWrite o _ s => o = 0x070 \/ o = 0x044 \/ 0x100 <= o /\ ~ (s = 1 \/ s = 2 \/ s = 4)
  | MmioRead o s => 0x100 <= o /\ ~ (s = 1 \/ s = 2 \/ s = 4)
  end.

(** A ring in use has as many entries as its memory was laid out for. *)
Definition ring_fits (v : vnic_t) : Prop :=
  forall i q, vq (vdev v) !! i = Some q -> vring_addr q <> 0 -> ring_slots v !! i = Some (vr_num (vq_vring q)).

(** The normal world writes the size of a queue only while it has no ring. *)
Definition num_early (v : vnic_t) (a : mmio_access) : Prop :=
  match a with
  | MmioWrite o _ _ => o = 0x038 ->
      forall q, vq (vdev v) !! Z.to_nat (queue_sel (vdev v)) = Some q -> vring_addr q = 0
  | MmioRead _ _ => True
  end.

Fixpoint nums_early (get_va : Z -> Z) (map_vring : Z -> Z -> option (Z -> Z))
    (l : list mmio_access) (v : vnic_t) : Prop :=
  match l with
  | [] => True
  | a :: l' => num_early v a /\
      match mmio_run get_va map_vring [a] v with Ok v' => nums_early get_va map_vring l' v' | _ => True end
  end.

(** What keeps [ring_fits]: setting the ring up again cannot change the size. *)
Definition ring_laid (v : vnic_t) : Prop :=
  forall i q mq, vq (vdev v) !! i = Some q -> vqs (mmio_conf v) !! i = Some mq -> vring_addr q <> 0 ->
    ring_slots v !! i = Some (vr_num (vq_vring q)) /\
    (q_num mq = vr_num (vq_vring q) \/ ~ (0 < q_num mq <= VNIC_VQ_MAX_SIZE)).

(** The address translations the platform may use: low virtual addresses,
    which the layout of a ring cannot wrap around. *)
Definition va_ok (f : Z -> Z) : Prop := forall pa, 0 <= f pa < 2147483648.

(** ** Lemmas *)

Lemma align_up_page_pos x : 0 < x < 4294963200 -> align_up x SMALL_PAGE_SIZE <> 0.
Proof.
  intros Hx. unfold align_up, SMALL_PAGE_SIZE. rewrite u32_small by lia.
  change (u32 (Z.lnot (4096 - 1))) with 4294963200. set (y := x + 4096 - 1). intros E.
  assert (Hy : y = Z.land y 4294967295).
  { change 4294967295 with (Z.ones 32). rewrite Z.land_ones by lia.
    rewrite Z.mod_small; [done|unfold y; lia]. }
  change 4294967295 with (Z.lor 4294963200 4095) in Hy.
  rewrite Z.land_lor_distr_r, E, Z.lor_0_l in Hy.
  change 4095 with (Z.ones 12) in Hy. rewrite Z.land_ones in Hy by lia.
  pose proof (Z.mod_pos_bound y (2 ^ 12) ltac:(lia)). unfold y in *. lia.
Qed.

Lemma with_vq_spec v n f Q :
  vnic_wf v -> 0 <= n < 2 ->
  (forall q, vq_ctl_ok q -> defined (f q) (fun q' => vq_ctl_ok q' /\ Q q')) ->
  defined (with_vq v n f) (fun v' => vnic_wf v' /\ mmio_conf v' = mmio_conf v /\
    queue_sel (vdev v') = queue_sel (vdev v)).
Proof.
  intros Hwf Hn Hf. destruct (Hwf) as [? [Hl Hq] ? ? ? ? ? ? ?]. unfold with_vq.
  destruct (aget_in_range (vq (vdev v)) n) as [q Hg]; [lia|]. rewrite Hg. simpl.
  apply aget_ok in Hg as [_ Hg].
  assert (Hok : vq_ctl_ok q) by (by eapply Forall_lookup_1).
  specialize (Hf q Hok). destruct (f q) as [q'| |]; simpl in *; [|done|done].
  rewrite aset_ok by lia. simpl. split; [|done].
  split; simpl; try done. rewrite length_insert. split; [done|].
  apply Forall_insert; [done|]. by destruct Hf.
Qed.

Lemma with_mmioq_spec v n f :
  vnic_wf v -> 0 <= n < 2 -> returns (with_mmioq v n f) (fun v' => vnic_wf v' /\ vdev v' = vdev v).
Proof.
  intros Hwf Hn. destruct (Hwf). unfold with_mmioq.
  destruct (aget_in_range (vqs (mmio_conf v)) n) as [q ->]; [lia|]. simpl.
  rewrite aset_ok by lia. simpl. split; [|done]. split; simpl; rewrite ?length_insert; done.
Qed.

Lemma set_num_spec v n num :
  vnic_wf v -> 0 <= n < 2 ->
  defined (virtio_queue_set_num v n num) (fun v' => vnic_wf v' /\ mmio_conf v' = mmio_conf v /\
    queue_sel (vdev v') = queue_sel (vdev v)).
Proof.
  intros Hwf Hn. unfold virtio_queue_set_num.
  destruct (aget_in_range (vq (vdev v)) n) as [q Hq]; [destruct Hwf; lia|]. rewrite Hq. simpl.
  destruct (_ || _ || _) eqn:E; [done|].
  apply orb_false_iff in E as [[E1%negb_false_iff%eqb_prop E2%Z.ltb_ge]%orb_false_iff E3%Z.ltb_ge].
  assert (Hnz : num <> 0).
  { destruct Hwf as [_ [_ Hall] _ _ _ _ _ _ _]. apply aget_ok in Hq as [_ Hq].
    pose proof (Forall_lookup_1 _ _ _ _ Hall Hq) as (_ & _ & ? & _). intros ->.
    rewrite (proj2 (Z.eqb_neq (vr_num (vq_vring q)) 0)) in E1 by lia. done. }
  apply (with_vq_spec v n _ (fun _ => True)); [done|done|].
  intros q0 (H1 & H2 & H3 & H4). simpl. unfold vq_ctl_ok, vq_ptrs_ok, VNIC_VQ_MAX_SIZE in *. simpl.
  split; [|done]. split_and!; try done; lia.
Qed.

Section Safety.
Context (get_va : Z -> Z) (map_vring : Z -> Z -> option (Z -> Z)).
Context (Hva : va_ok get_va) (Hmap : forall pa sz f, map_vring pa sz = Some f -> va_ok f).

Lemma vring_setup_ok q d a u :
  vq_ctl_ok q ->
  defined (vqueue_vring_setup get_va map_vring q d a u) (fun '(_, q') => vq_ctl_ok q').
Proof.
  intros (Hptr & Hal & Hnum & Hdef). unfold vqueue_vring_setup, VNIC_VQ_MAX_SIZE in *.
  destruct (d =? 0); [done|]. destruct (a =? 0); [done|]. destruct (u =? 0); [done|]. simpl.
  set (gv := if get_va d =? 0 then _ else _).
  assert (Hgv : va_ok gv).
  { unfold gv. destruct (get_va d =? 0); [|done]. destruct (map_vring d _) eqn:E; simpl; [by eapply Hmap|done]. }
  destruct (Z.eqb_spec (gv d) 0) as [|Hnz].
  { simpl. unfold vq_ctl_ok, VNIC_VQ_MAX_SIZE in *. simpl. split_and!; [exact Hptr|done|lia..]. }
  destruct (check_ring_layout gv a _ =? 0); simpl;
    [|unfold vq_ctl_ok, vq_ptrs_ok, VNIC_VQ_MAX_SIZE; simpl; split_and!; done || lia].
  destruct (check_ring_layout gv u _ =? 0); simpl;
    [|unfold vq_ctl_ok, vq_ptrs_ok, VNIC_VQ_MAX_SIZE; simpl; split_and!; done || lia].
  simpl. unfold vq_ctl_ok, vq_ptrs_ok, VNIC_VQ_MAX_SIZE. simpl. rewrite (proj2 (Z.eqb_neq _ _) Hnz). simpl.
  pose proof (Hgv d). rewrite !u32_small by lia.
  split_and!; try done; try lia. rewrite Hal. apply align_up_page_pos. lia.
Qed.

Lemma set_rings_spec v n d a u :
  vnic_wf v -> 0 <= n < 2 ->
  defined (virtio_queue_set_rings get_va map_vring v n d a u)
    (fun v' => vnic_wf v' /\ queue_sel (vdev v') = queue_sel (vdev v)).
Proof.
  intros Hwf Hn. unfold virtio_queue_set_rings.
  destruct (aget_in_range (vq (vdev v)) n) as [q Hq]; [destruct Hwf; lia|]. rewrite Hq. simpl.
  destruct (_ =? 0); [done|].
  assert (Hok : vq_ctl_ok q).
  { destruct Hwf as [_ [_ Hall] _ _ _ _ _ _ _]. apply aget_ok in Hq as [_ Hq]. by eapply Forall_lookup_1. }
  pose proof (vring_setup_ok q (u32 d) (u32 a) (u32 u) Hok) as Hs.
  destruct (vqueue_vring_setup _ _ _ _ _ _) as [[r q']| |]; simpl in *; [|done|done].
  pose proof (with_vq_spec v n (fun _ => Ok q') (fun _ => True) Hwf Hn ltac:(by simpl)) as Hw.
  destruct (with_vq v n _) as [v'| |]; simpl in *; [|done|done]. destruct Hw as (Hwf' & _ & Hsel).
  destruct (r =? 0); [|done]. destruct (Hwf').
  rewrite aset_ok by lia. simpl. split; [|done]. split; simpl; rewrite ?length_insert; done.
Qed.

Lemma teardown_ok q :
  vq_ctl_ok q ->
  exists q', vqueue_vring_teardown q = Ok q' /\ vq_ctl_ok q' /\ vring_addr q' = 0 /\ last_avail_idx q' = 0.
Proof.
  intros (Hptr & Hal & Hnum & Hdef). unfold vqueue_vring_teardown, vq_ptrs_ok in *.
  destruct (Z.eqb_spec (vring_addr q) 0); simpl.
  - destruct Hptr as (H1 & H2 & H3). rewrite H1, H2, H3. simpl. eexists. split; [done|].
    unfold vq_ctl_ok, vq_ptrs_ok, VNIC_VQ_MAX_SIZE. simpl. done.
  - eexists. split; [done|]. unfold vq_ctl_ok, vq_ptrs_ok, VNIC_VQ_MAX_SIZE. simpl. done.
Qed.

Lemma reset_queues_spec qs :
  Forall vq_ctl_ok qs ->
  returns (reset_queues qs) (fun qs' => length qs' = length qs /\ Forall vq_ctl_ok qs' /\
    Forall (fun q => vring_addr q = 0 /\ last_avail_idx q = 0 /\
                     vr_num (vq_vring q) = vr_num_default (vq_vring q)) qs').
Proof.
  induction 1 as [|q qs Hq _ IH]; simpl; [done|].
  destruct (teardown_ok q Hq) as (q' & -> & (Hptr & Hal & Hnum & Hdef) & Ha & Hl). simpl.
  destruct (reset_queues qs) as [qs'| |]; simpl in *; [|done|done]. destruct IH as (Hlen & Hok & Hz).
  split; [lia|]. split; apply Forall_cons; (split; [|done]); [|done].
  unfold vq_ctl_ok, VNIC_VQ_MAX_SIZE in *. simpl. split_and!; [exact Hptr|done|lia..].
Qed.

Lemma set_status_spec v x :
  vnic_wf v -> let v' := snd (virtio_set_status v x) in
  vnic_wf v' /\ mmio_conf v' = mmio_conf v /\ status (vdev v') = x /\
  host_features (vdev v') = host_features (vdev v).
Proof.
  intros []. unfold virtio_set_status, virtio_net_set_status, napi_schedule_vnic.
  set (v1 := if negb _ then _ else v).
  assert (H1 : vnic_wf v1 /\ mmio_conf v1 = mmio_conf v /\ host_features (vdev v1) = host_features (vdev v))
    by (unfold v1; destruct (negb (Z.land (status _) _ =? _)); (split; [by split|done])).
  destruct H1 as ([] & ? & ?).
  destruct (virtio_net_started _ _); simpl; (split; [split; simpl; done|done]).
Qed.

Lemma virtio_reset_spec v :
  vnic_wf v ->
  returns (virtio_reset v) (fun v' => vnic_wf v' /\
    status (vdev v') = 0 /\ isr (vdev v') = 0 /\ queue_sel (vdev v') = 0 /\ guest_features (vdev v') = 0 /\
    started (vdev v') = false /\ host_features (vdev v') = host_features (vdev v) /\
    mmio_conf v' = mmio_conf v /\
    Forall (fun q => vring_addr q = 0 /\ last_avail_idx q = 0 /\
                     vr_num (vq_vring q) = vr_num_default (vq_vring q)) (vq (vdev v'))).
Proof.
  intros Hwf. unfold virtio_reset.
  pose proof (set_status_spec v 0 Hwf) as (Hwf1 & Hm1 & _ & Hh1).
  destruct (virtio_set_status v 0) as [r v1]. simpl in *. destruct (Hwf1) as [? [Hl Hq] ? ? ? ? ? ? ?].
  pose proof (reset_queues_spec (vq (vdev v1)) Hq) as Hr.
  destruct (reset_queues _) as [qs| |]; simpl in *; [|done|done].
  destruct Hr as (? & ? & ?). split; [|done].
  split; simpl; try done; split; [lia|done].
Qed.

(** Negotiation accepts a feature set exactly when it has bit 5, and keeps
    only features the device offers. *)
Lemma set_features_nocheck_spec v val :
  virtio_set_features_nocheck v val =
    if Z.testbit (Z.land val (host_features (vdev v))) 5 then
      Ok (if Z.land val (Z.lnot (host_features (vdev v))) =? 0 then 0 else -1,
          (virtio_net_set_features v (Z.land val (host_features (vdev v))))
            <| vdev ::= fun d => d <| guest_features := Z.land val (host_features (vdev v)) |> |>)
    else Panic.
Proof.
  unfold virtio_set_features_nocheck. cbv zeta. set (f := Z.land val (host_features (vdev v))).
  cbn [upd vdev guest_features].
  assert (E : Z.testbit f 5 = negb (Z.land f VIRTIO_F_VERSION_1 =? 0)).
  { unfold VIRTIO_F_VERSION_1. change 32 with (2 ^ 5). rewrite Z.land_comm.
    destruct (Z.testbit f 5) eqn:Ef.
    - destruct (Z.eqb_spec (Z.land (2 ^ 5) f) 0) as [E|]; [|done].
      apply (f_equal (fun z => Z.testbit z 5)) in E.
      rewrite Z.land_spec, Z.pow2_bits_true, Ef in E by lia. done.
    - destruct (Z.eqb_spec (Z.land (2 ^ 5) f) 0) as [|E]; [done|]. exfalso. apply E.
      apply Z.bits_inj'. intros n Hn. rewrite Z.land_spec, Z.bits_0.
      destruct (Z.eq_dec n 5) as [->|Hne]; [by rewrite Ef, andb_false_r|].
      by rewrite Z.pow2_bits_false by lia. }
  rewrite E. destruct (Z.land f VIRTIO_F_VERSION_1 =? 0); [done|]. simpl.
  by destruct (Z.land val _ =? 0).
Qed.

Lemma set_features_spec v val :
  vnic_wf v -> defined (virtio_set_features v val) (fun '(_, v') => vnic_wf v').
Proof.
  intros []. unfold virtio_set_features. destruct (negb (Z.land (status _) _ =? 0)); [done|].
  rewrite set_features_nocheck_spec. destruct (Z.testbit _ 5); simpl; [|done].
  split; simpl; try done. rewrite <- Z.land_assoc, Z.land_lnot_diag. apply Z.land_0_r.
Qed.

Lemma mmio_write_status_spec v x :
  vnic_wf v -> defined (mmio_write_status v x) vnic_wf.
Proof.
  intros Hwf. unfold mmio_write_status.
  set (o := if negb (Z.land x _ =? 0) then _ else _).
  assert (Ho : defined o vnic_wf).
  { unfold o. destruct (negb (Z.land x _ =? 0)); [|done]. destruct (Hwf).
    destruct (aget_in_range (mm_guest_features (mmio_conf v)) 0) as [f0 ->]; [lia|].
    destruct (aget_in_range (mm_guest_features (mmio_conf v)) 1) as [f1 ->]; [lia|]. simpl.
    pose proof (set_features_spec v (Z.lor (Z.shiftl f1 32) f0) Hwf) as Hs.
    destruct (virtio_set_features _ _) as [[]| |]; done. }
  apply defined_bind. eapply defined_mono; [|exact Ho]. intros v1 Hwf1.
  pose proof (set_status_spec v1 (Z.land x 255) Hwf1) as (Hwf2 & _).
  destruct (virtio_set_status v1 (Z.land x 255)) as [r v2]. cbn [snd] in Hwf2.
  destruct (status (vdev v2) =? 0); [|done].
  pose proof (virtio_reset_spec v2 Hwf2) as Hr.
  destruct (virtio_reset v2) as [v3| |]; cbn in Hr |- *; [|done|done].
  destruct Hr as ([] & _). split; simpl; rewrite ?length_map; done.
Qed.

Lemma config_write_spec v off x size :
  vnic_wf v -> 0 <= off -> off + 4 <= MAX_U32 -> defined (virtio_config_write v off x size) vnic_wf.
Proof.
  intros Hwf Hoff Hmax. destruct (Hwf). unfold virtio_config_write, MAX_U32 in *.
  destruct (Z.ltb_spec (Z.of_nat (length (config (vdev v)))) (u32 (off + size))) as [|Hb]; [done|].
  destruct (_ || _ || _) eqn:E; [|done].
  assert (Hs : size = 1 \/ size = 2 \/ size = 4) by lia.
  rewrite u32_small in Hb by lia.
  assert (Hlen : length (le_bytes (Z.to_nat size) x) = Z.to_nat size)
    by (destruct Hs as [->|[->| ->]]; done).
  rewrite mem_write_ok by lia. simpl.
  split; simpl; try done. by rewrite length_blit by lia.
Qed.

Lemma config_read_spec v off size :
  vnic_wf v -> 0 <= off -> off + 4 <= MAX_U32 ->
  defined (virtio_config_read v off size) (fun '(r, v') => vnic_wf v' /\ mmio_conf v' = mmio_conf v /\
    r = if 12 <? u32 (off + size) then 0
        else le_value (take (Z.to_nat size) (drop (Z.to_nat off) (virtio_net_config_bytes (vnet v))))).
Proof.
  intros Hwf Hoff Hmax. destruct (Hwf) as [? ? ? ? ? ? [Hcl Hcs] Hmac ?].
  unfold virtio_config_read, MAX_U32 in *. rewrite Hcl.
  destruct (Z.ltb_spec (Z.of_nat 12) (u32 (off + size))) as [Hb|Hb]; simpl in Hb.
  { simpl. by rewrite (proj2 (Z.ltb_lt _ _)) by lia. }
  unfold virtio_net_get_config. rewrite Hcs. simpl.
  assert (Hlen : length (virtio_net_config_bytes (vnet v)) = 12%nat)
    by (unfold virtio_net_config_bytes; rewrite !length_app, Hmac; done).
  rewrite mem_write_ok by lia. change (Z.to_nat 0) with 0%nat.
  assert (Hblit : blit (config (vdev v)) 0 (virtio_net_config_bytes (vnet v)) = virtio_net_config_bytes (vnet v)).
  { unfold blit. rewrite take_0, drop_ge, app_nil_r by lia. done. }
  rewrite Hblit. cbn [mbind outcome_bind]. cbv beta.
  destruct ((size =? 1) || (size =? 2) || (size =? 4)) eqn:E; [|done].
  assert (Hs : size = 1 \/ size = 2 \/ size = 4) by lia.
  rewrite u32_small in Hb by lia. cbn [upd vdev config]. rewrite mem_read_ok by lia.
  cbn -[u32 le_value Z.to_nat].
  rewrite (proj2 (Z.ltb_ge 12 (u32 _))) by (rewrite u32_small; lia).
  split; [|done]. split; simpl; done.
Qed.

Lemma queue_ready_spec v x :
  vnic_wf v -> defined (mmio_write_queue_ready get_va map_vring v x) vnic_wf.
Proof.
  intros Hwf. pose proof (vw_sel v Hwf) as Hsel. unfold VNIC_QUEUE_MAX in Hsel.
  unfold mmio_write_queue_ready. destruct (negb (x =? 0)).
  - destruct (aget_in_range (vqs (mmio_conf v)) (queue_sel (vdev v))) as [q ->]; [destruct Hwf; lia|]. simpl.
    pose proof (set_num_spec v (queue_sel (vdev v)) (q_num q) Hwf Hsel) as H1.
    destruct (virtio_queue_set_num _ _ _) as [v1| |]; simpl in *; [|done|done]. destruct H1 as (Hwf1 & _ & _).
    pose proof (set_rings_spec v1 (queue_sel (vdev v)) (u64_of (q_desc q)) (u64_of (q_avail q))
      (u64_of (q_used q)) Hwf1 Hsel) as H2.
    destruct (virtio_queue_set_rings _ _ _ _ _ _ _) as [v2| |]; simpl in *; [|done|done]. destruct H2 as (Hwf2 & _).
    apply returns_defined. eapply returns_mono; [|by apply with_mmioq_spec]. by intros ? [].
  - apply returns_defined. eapply returns_mono; [|by apply with_mmioq_spec]. by intros ? [].
Qed.

Lemma queue_notify_spec v n :
  vnic_wf v -> 0 <= n < 2 -> defined (virtio_queue_notify v n) vnic_wf.
Proof.
  intros Hwf Hn. unfold virtio_queue_notify.
  destruct (aget_in_range (vq (vdev v)) n) as [q Hq]; [destruct Hwf; lia|]. rewrite Hq. simpl.
  destruct (Hwf) as [? [_ Hall] ? ? ? ? ? ? ?]. apply aget_ok in Hq as [_ Hq].
  pose proof (Forall_lookup_1 _ _ _ _ Hall Hq) as (Hp & _). unfold vq_ptrs_ok in Hp.
  destruct (vring_addr q =? 0); [done|]. destruct Hp as (_ & _ & Hu).
  rewrite (proj2 (Z.eqb_neq _ _) Hu). destruct Hwf. by split.
Qed.

Lemma mmio_write_wf v off x size :
  vnic_wf v -> 0 <= off <= MAX_U32 -> 0 <= x <= MAX_U32 ->
  defined (vnic_handle_mmio_write get_va map_vring v off x size) vnic_wf.
Proof.
  intros Hwf Hoff Hx. pose proof (vw_sel v Hwf) as Hsel. unfold VNIC_QUEUE_MAX in Hsel.
  unfold vnic_handle_mmio_write.
  assert (Hq : forall f, defined (with_mmioq v (queue_sel (vdev v)) f) vnic_wf).
  { intros f. apply returns_defined. eapply returns_mono; [|by apply with_mmioq_spec]. by intros ? []. }
  destruct (Z.leb_spec 256 off).
  { apply config_write_spec; unfold MAX_U32 in *; [done|lia|lia]. }
  destruct (size =? 4); [|done]. cbn [negb].
  repeat match goal with
  | |- context [match off with _ => _ end] => destruct off
  | |- context [match ?p with _ => _ end] => is_var p; destruct p
  end; try done; try apply Hq.
  - unfold virtio_update_irq, virtio_notify_vector, vnic_kick_nw. destruct Hwf.
    destruct (negb (isr _ =? 0)); by split.
  - by apply queue_ready_spec.
  - destruct Hwf. split; simpl; try done. destruct (x =? 0); lia.
  - destruct Hwf. by split.
  - apply defined_bind. eapply defined_mono; [|by apply set_num_spec]. intros v1 (Hwf1 & _ & _).
    apply returns_defined. eapply returns_mono; [|by apply with_mmioq_spec]. by intros ? [].
  - by apply mmio_write_status_spec.
  - unfold VNIC_QUEUE_MAX. destruct (Z.ltb_spec x 2); [|done]. apply queue_notify_spec; [done|lia].
  - unfold VNIC_QUEUE_MAX. destruct (Z.ltb_spec x 2); [|done]. destruct Hwf. split; simpl; try done.
    unfold VNIC_QUEUE_MAX. lia.
  - destruct Hwf. rewrite aset_ok by lia. split; simpl; try done. by rewrite length_insert.
Qed.

Lemma mmio_read_wf v off size :
  vnic_wf v -> 0 <= off <= MAX_U32 ->
  defined (vnic_handle_mmio_read v off size) (fun '(_, v') => vnic_wf v').
Proof.
  intros Hwf Hoff. pose proof (vw_sel v Hwf) as Hsel. unfold VNIC_QUEUE_MAX in Hsel.
  unfold vnic_handle_mmio_read. destruct (Z.leb_spec 256 off).
  { eapply defined_mono; [|apply config_read_spec; unfold MAX_U32 in *; [done|lia|lia]].
    by intros [r v'] (? & _). }
  destruct (size =? 4); [|done]. cbn [negb].
  repeat match goal with
  | |- context [match off with _ => _ end] => destruct off
  | |- context [match ?p with _ => _ end] => is_var p; destruct p
  end; try done.
  - unfold virtio_queue_get_num.
    destruct (aget_in_range (vq (vdev v)) (queue_sel (vdev v))) as [q ->]; [destruct Hwf; lia|].
    done.
  - destruct (aget_in_range (vqs (mmio_conf v)) (queue_sel (vdev v))) as [q ->]; [destruct Hwf; lia|done].
Qed.

(** *** Panics, and the size of a ring in use *)

Lemma ring_laid_frame v v' :
  vq (vdev v') = vq (vdev v) -> ring_slots v' = ring_slots v ->
  map q_num (vqs (mmio_conf v')) = map q_num (vqs (mmio_conf v)) -> ring_laid v -> ring_laid v'.
Proof.
  unfold ring_laid. intros -> -> Hn H i q mq Hq Hm Ha.
  assert (E : map q_num (vqs (mmio_conf v)) !! i = Some (q_num mq)) by (by rewrite <- Hn, list_lookup_fmap, Hm).
  rewrite list_lookup_fmap in E. destruct (vqs (mmio_conf v) !! i) as [mq0|] eqn:E0; [|done].
  injection E as E. rewrite <- E. by apply H.
Qed.

Lemma ring_laid_unmapped v : Forall (fun q => vring_addr q = 0) (vq (vdev v)) -> ring_laid v.
Proof. intros H i q mq Hq _ Ha. by pose proof (Forall_lookup_1 _ _ _ _ H Hq). Qed.

Lemma with_mmioq_eq v n f q :
  vqs (mmio_conf v) !! Z.to_nat n = Some q -> 0 <= n ->
  with_mmioq v n f = Ok (v <| mmio_conf ::= fun m => m <| vqs := <[Z.to_nat n := f q]> (vqs (mmio_conf v)) |> |>).
Proof.
  intros Hq Hn. unfold with_mmioq. rewrite (proj2 (aget_ok _ n q)) by done. cbn [mbind outcome_bind].
  rewrite aset_ok; [done|]. apply lookup_lt_Some in Hq. lia.
Qed.

Lemma map_insert_same {A B} (f : A -> B) (l : list A) i x y :
  l !! i = Some x -> f y = f x -> map f (<[i := y]> l) = map f l.
Proof.
  intros Hx E. rewrite list_fmap_insert, E. apply list_insert_id. by rewrite list_lookup_fmap, Hx.
Qed.

(** Writing an address word or the enable bit of a queue. *)
Lemma with_mmioq_laid v n f :
  (forall q, q_num (f q) = q_num q) -> vnic_wf v -> 0 <= n < 2 ->
  returns (with_mmioq v n f) (fun v' => ring_laid v -> ring_laid v').
Proof.
  intros Hf Hwf Hn. destruct (lookup_lt_is_Some_2 (vqs (mmio_conf v)) (Z.to_nat n)) as [q Hq];
    [destruct Hwf; lia|].
  rewrite (with_mmioq_eq v n f q) by (done || lia).
  cbn [returns]. apply ring_laid_frame; [done|done|]. simpl. by eapply map_insert_same.
Qed.

(** The size is the one asked for, or the request was out of range. *)
Lemma set_num_eq v n num :
  vnic_wf v -> 0 <= n < 2 ->
  exists q num', vq (vdev v) !! Z.to_nat n = Some q /\
    (num' = num /\ 0 < num <= VNIC_VQ_MAX_SIZE \/ num' = vr_num (vq_vring q) /\ ~ (0 < num <= VNIC_VQ_MAX_SIZE)) /\
    virtio_queue_set_num v n num = Ok (v <| vdev ::= fun d =>
      d <| vq := <[Z.to_nat n := q <| vq_vring ::= fun r => r <| vr_num := num' |> |>]> (vq (vdev v)) |> |>).
Proof.
  intros Hwf Hn. destruct (Hwf) as [_ [Hl Hall] _ _ _ _ _ _ _].
  destruct (lookup_lt_is_Some_2 (vq (vdev v)) (Z.to_nat n)) as [q Hq]; [lia|].
  pose proof (Forall_lookup_1 _ _ _ _ Hall Hq) as (_ & _ & Hnum & _).
  unfold virtio_queue_set_num, with_vq. rewrite (proj2 (aget_ok _ n q)) by (split; [lia|done]). cbn [mbind outcome_bind].
  rewrite (proj2 (Z.eqb_neq (vr_num (vq_vring q)) 0)) by lia.
  destruct (negb _ || _ || _) eqn:E.
  - exists q, (vr_num (vq_vring q)). split; [done|]. split.
    + right. split; [done|]. unfold VNIC_VQ_MAX_SIZE in *. intros [H1 H2].
      rewrite (proj2 (Z.eqb_neq num 0)), (proj2 (Z.ltb_ge 256 num)), (proj2 (Z.ltb_ge num 0)) in E by lia. done.
    + f_equal. destruct v as [m d ? ? ?], d. simpl in *. unfold upd. simpl. f_equal. f_equal.
      symmetry. apply list_insert_id. rewrite Hq. by destruct q as [? [] ? ? ? ?].
  - exists q, num. split; [done|]. split; [|by rewrite aset_ok by lia]. left. split; [done|].
    apply orb_false_iff in E as [[E1 E2%Z.ltb_ge]%orb_false_iff E3%Z.ltb_ge].
    destruct (Z.eqb_spec num 0); [done|]. unfold VNIC_VQ_MAX_SIZE in *. lia.
Qed.

(** Setting a ring up keeps its size; when it fails the ring is as before or
    not in use. *)
Lemma vring_setup_num q d a u r q' :
  vqueue_vring_setup get_va map_vring q d a u = Ok (r, q') ->
  vr_num (vq_vring q') = vr_num (vq_vring q) /\
  (r <> 0 -> vring_addr q' = vring_addr q \/ vring_addr q' = 0).
Proof.
  unfold vqueue_vring_setup. cbv zeta. intros H. inv_ok.
  repeat match type of H with (if ?b then _ else _) = _ => destruct b end; injection H as <- <-;
    (split; [done|]); intros ?; first [done|by auto].
Qed.

Lemma ring_laid_at v v' n :
  (forall i, i <> n -> vq (vdev v') !! i = vq (vdev v) !! i /\ ring_slots v' !! i = ring_slots v !! i /\
     vqs (mmio_conf v') !! i = vqs (mmio_conf v) !! i) ->
  (forall q mq, vq (vdev v') !! n = Some q -> vqs (mmio_conf v') !! n = Some mq -> vring_addr q <> 0 ->
     ring_slots v' !! n = Some (vr_num (vq_vring q)) /\
     (q_num mq = vr_num (vq_vring q) \/ ~ (0 < q_num mq <= VNIC_VQ_MAX_SIZE))) ->
  ring_laid v -> ring_laid v'.
Proof.
  intros Hne Hn H i q mq Hq Hm Ha. destruct (decide (i = n)) as [->|E]; [by apply Hn|].
  destruct (Hne i E) as (E1 & E2 & E3). rewrite E1 in Hq. rewrite E3 in Hm. rewrite E2. by apply H.
Qed.

(** Setting the selected ring up after its size has been fixed. *)
Lemma set_rings_eq v n d a u v' q :
  vq (vdev v) !! Z.to_nat n = Some q -> 0 <= n -> 0 < vr_num (vq_vring q) ->
  virtio_queue_set_rings get_va map_vring v n d a u = Ok v' ->
  exists q', vr_num (vq_vring q') = vr_num (vq_vring q) /\
    vq (vdev v') = <[Z.to_nat n := q']> (vq (vdev v)) /\ mmio_conf v' = mmio_conf v /\
    queue_sel (vdev v') = queue_sel (vdev v) /\
    (ring_slots v' = <[Z.to_nat n := vr_num (vq_vring q)]> (ring_slots v) /\
       (Z.to_nat n < length (ring_slots v))%nat \/
     ring_slots v' = ring_slots v /\ (vring_addr q' = vring_addr q \/ vring_addr q' = 0)).
Proof.
  intros Hq Hn Hnum. unfold virtio_queue_set_rings. rewrite (proj2 (aget_ok _ n q)) by done.
  cbn [mbind outcome_bind]. rewrite (proj2 (Z.eqb_neq (vr_num (vq_vring q)) 0)) by lia.
  destruct (vqueue_vring_setup _ _ _ _ _ _) as [[r q']| |] eqn:Es; [|done..].
  apply vring_setup_num in Es as [En Er]. cbn [mbind outcome_bind]. unfold with_vq.
  rewrite (proj2 (aget_ok _ n q)) by done. cbn [mbind outcome_bind].
  pose proof (lookup_lt_Some _ _ _ Hq). rewrite aset_ok by lia. cbn [mbind outcome_bind].
  intros Hv. exists q'. destruct (Z.eqb_spec r 0) as [->|Hr]; inv_ok; subst; simpl.
  - split_and!; try done. simpl in *. unfold aset in Hv0.
    destruct (Z.ltb_spec n 0); [lia|]. destruct (Z.leb_spec (Z.of_nat (length (ring_slots v))) n); [done|].
    simplify_eq/=. rewrite En. left. split; [done|lia].
  - split_and!; try done. right. split; [done|auto].
Qed.

Lemma queue_ready_laid v x v' :
  vnic_wf v -> mmio_write_queue_ready get_va map_vring v x = Ok v' -> ring_laid v -> ring_laid v'.
Proof.
  intros Hwf. pose proof (vw_sel v Hwf) as Hsel. unfold VNIC_QUEUE_MAX in Hsel.
  unfold mmio_write_queue_ready. set (n := queue_sel (vdev v)) in *. destruct (negb (x =? 0)).
  2:{ intros H. pose proof (with_mmioq_laid v n (fun q => q <| q_enabled := 0 |>) ltac:(done) Hwf Hsel) as Hl.
      rewrite H in Hl. exact Hl. }
  destruct (lookup_lt_is_Some_2 (vqs (mmio_conf v)) (Z.to_nat n)) as [mq Hmq]; [destruct Hwf; lia|].
  rewrite (proj2 (aget_ok _ n mq)) by (split; [lia|done]). cbn [mbind outcome_bind].
  destruct (set_num_eq v n (q_num mq) Hwf Hsel) as (q & num & Hq & Hnum & ->). cbn [mbind outcome_bind].
  destruct (Hwf) as [_ [Hl Hall] _ _ _ _ _ _ _].
  pose proof (Forall_lookup_1 _ _ _ _ Hall Hq) as (_ & _ & Hnp & _).
  set (q1 := q <| vq_vring ::= _ |>). match goal with |- context [virtio_queue_set_rings _ _ ?w] => set (v1 := w) end. intros H. inv_ok.
  assert (H1 : vq (vdev v1) !! Z.to_nat n = Some q1) by (apply list_lookup_insert_eq; lia).
  apply (set_rings_eq _ _ _ _ _ _ q1 H1) in H0 as (q2 & E2 & Evq & Em & _ & Hs); [|lia|simpl; lia].
  rewrite (with_mmioq_eq a n _ mq) in H by (rewrite ?Em; done || lia). inv_ok. subst v'.
  intros Hlaid. apply (ring_laid_at v _ (Z.to_nat n)); [| |done]; simpl; rewrite Evq, Em; simpl.
  - intros i Hi. rewrite !list_lookup_insert_ne by done. split_and!; try done.
    destruct Hs as [[-> _]|[-> _]]; [by rewrite list_lookup_insert_ne|done].
  - pose proof (lookup_lt_Some _ _ _ Hq). pose proof (lookup_lt_Some _ _ _ Hmq).
    rewrite !list_lookup_insert_eq by (rewrite ?length_insert; lia). intros ? ? [= <-] [= <-] Ha. simpl.
    rewrite E2. simpl. specialize (Hlaid _ q mq Hq Hmq).
    destruct Hs as [[-> Hlt]|[-> [Ea|Ea]]]; [rewrite list_lookup_insert_eq by done| |done].
    + split; [done|]. destruct Hnum as [[-> ?]|[_ ?]]; [by left|by right].
    + rewrite Ea in Ha. destruct (Hlaid Ha) as [Esl Hm]. change (ring_slots v1) with (ring_slots v). rewrite Esl. simpl.
      assert (num = vr_num (vq_vring q)) as -> by (destruct Hnum as [[-> ?]|[-> ?]], Hm; done). done.
Qed.

Lemma set_status_rings v x : let v' := snd (virtio_set_status v x) in
  vq (vdev v') = vq (vdev v) /\ ring_slots v' = ring_slots v /\ mmio_conf v' = mmio_conf v.
Proof.
  unfold virtio_set_status, virtio_net_set_status, napi_schedule_vnic.
  destruct (negb _); destruct (virtio_net_started _ _); done.
Qed.

Lemma set_features_rings v val r v' : virtio_set_features v val = Ok (r, v') ->
  vq (vdev v') = vq (vdev v) /\ ring_slots v' = ring_slots v /\ mmio_conf v' = mmio_conf v.
Proof.
  unfold virtio_set_features. destruct (negb _); [by intros [= _ <-]|].
  rewrite set_features_nocheck_spec. destruct (Z.testbit _ 5); [|done]. by intros [= _ <-].
Qed.

Lemma mmio_write_status_laid v x v' :
  vnic_wf v -> mmio_write_status v x = Ok v' -> ring_laid v -> ring_laid v'.
Proof.
  intros Hwf. unfold mmio_write_status. intros H Hlaid. apply bind_ok in H as (v1 & H1 & H).
  assert (Hv1 : ring_laid v1 /\ vnic_wf v1).
  { destruct (negb (Z.land x _ =? 0)); [|by simplify_eq]. inv_ok. destruct a1 as [r v2]. inv_ok. subst.
    pose proof (set_features_spec v (Z.lor (Z.shiftl a0 32) a) Hwf) as Hs. rewrite H3 in Hs. split; [|exact Hs].
    apply set_features_rings in H3 as (? & ? & E). apply (ring_laid_frame v); [done..|by rewrite E|done]. }
  destruct Hv1 as [Hl1 Hwf1].
  pose proof (set_status_rings v1 (Z.land x 255)) as (Eq & Es & Em).
  pose proof (set_status_spec v1 (Z.land x 255) Hwf1) as (Hwf2 & _).
  destruct (virtio_set_status v1 _) as [r v2]. cbn [snd] in *.
  assert (Hl2 : ring_laid v2) by (apply (ring_laid_frame v1); [done..|by rewrite Em|done]).
  destruct (status (vdev v2) =? 0); [|by simplify_eq].
  pose proof (virtio_reset_spec v2 Hwf2) as Hr.
  apply bind_ok in H as (v3 & H2 & H). injection H as <-. rewrite H2 in Hr. destruct Hr as (_ & Hr).
  apply ring_laid_unmapped. simpl. destruct_and! Hr. eapply Forall_impl; [done|]. by intros q [].
Qed.

Lemma queue_num_laid v x :
  vnic_wf v -> returns (vnic_handle_mmio_write get_va map_vring v 0x038 x 4)
    (fun v' => num_early v (MmioWrite 0x038 x 4) -> ring_laid v -> ring_laid v').
Proof.
  intros Hwf. pose proof (vw_sel v Hwf) as Hsel. unfold VNIC_QUEUE_MAX in Hsel.
  cbn -[virtio_queue_set_num with_mmioq]. set (n := queue_sel (vdev v)) in *.
  destruct (set_num_eq v n (i32 x) Hwf Hsel) as (q & num & Hq & _ & ->). cbn [mbind outcome_bind].
  destruct (lookup_lt_is_Some_2 (vqs (mmio_conf v)) (Z.to_nat n)) as [mq Hmq]; [destruct Hwf; lia|].
  erewrite with_mmioq_eq; [|exact Hmq|lia]. cbn [returns]. intros Hearly Hlaid.
  pose proof (lookup_lt_Some _ _ _ Hq).
  apply (ring_laid_at v _ (Z.to_nat n)); [| |done]; simpl.
  - intros i Hi. by rewrite !list_lookup_insert_ne by done.
  - rewrite list_lookup_insert_eq by done. intros ? ? [= <-] _ Ha. simpl in Ha. by rewrite Hearly in Ha.
Qed.

(** One write: it panics only where [may_panic] says, and keeps the rings. *)
Lemma mmio_write_step v off x size :
  vnic_wf v ->
  match vnic_handle_mmio_write get_va map_vring v off x size with
  | Ok v' => num_early v (MmioWrite off x size) -> ring_laid v -> ring_laid v'
  | Panic => may_panic (MmioWrite off x size)
  | Undef => True
  end.
Proof.
  intros Hwf. pose proof (vw_sel v Hwf) as Hsel. unfold VNIC_QUEUE_MAX in Hsel.
  assert (Hq : forall f, (forall q, q_num (f q) = q_num q) ->
    match with_mmioq v (queue_sel (vdev v)) f with
    | Ok v' => num_early v (MmioWrite off x size) -> ring_laid v -> ring_laid v'
    | Panic => may_panic (MmioWrite off x size)
    | Undef => True
    end).
  { intros f Hf. pose proof (with_mmioq_laid v _ f Hf Hwf Hsel) as H. by destruct (with_mmioq _ _ _). }
  destruct (decide (off = 0x038 /\ size = 4)) as [[-> ->]|Hn38].
  { pose proof (queue_num_laid v x Hwf) as H. by destruct (vnic_handle_mmio_write get_va map_vring v 56 x 4). }
  unfold vnic_handle_mmio_write.
  destruct (Z.leb_spec 256 off) as [Hoff|_].
  { unfold virtio_config_write, may_panic. destruct (_ <? _); [done|].
    destruct (_ || _ || _) eqn:E; [|right; right; split; [done|lia]].
    destruct (mem_write _ _ _) eqn:Em; [intros _; by apply ring_laid_frame| |done].
    unfold mem_write in Em. by case_match. }
  destruct (Z.eqb_spec size 4) as [->|]; cbn [negb]; [|by intros _].
  repeat match goal with
  | |- context [match off with _ => _ end] => destruct off
  | |- context [match ?p with _ => _ end] => is_var p; destruct p
  end; try done; try (by apply Hq); try (exfalso; by apply Hn38).
  - unfold virtio_update_irq, virtio_notify_vector, vnic_kick_nw. intros _.
    destruct (negb (isr _ =? 0)); by apply ring_laid_frame.
  - destruct (mmio_write_queue_ready _ _ _ _) eqn:E; [intros _; by eapply queue_ready_laid|by right; left|done].
  - destruct (mmio_write_status _ _) eqn:E; [intros _; by eapply mmio_write_status_laid|by left|done].
  - destruct (x <? _); [|done]. unfold virtio_queue_notify, aget.
    destruct (_ <? 0); [done|]. destruct (_ !! _); [|done]. cbn [deref mbind outcome_bind].
    destruct (_ =? 0); [done|]. destruct (_ =? 0); [done|]. intros _. by apply ring_laid_frame.
  - destruct (x <? _); intros _; by apply ring_laid_frame.
  - unfold aset. destruct (_ || _); [done|]. intros _. by apply ring_laid_frame.
Qed.

Lemma mmio_read_step v off size :
  vnic_wf v ->
  match vnic_handle_mmio_read v off size with
  | Ok (_, v') => ring_laid v -> ring_laid v'
  | Panic => may_panic (MmioRead off size)
  | Undef => True
  end.
Proof.
  intros Hwf. pose proof (vw_sel v Hwf) as Hsel. unfold VNIC_QUEUE_MAX in Hsel.
  unfold vnic_handle_mmio_read.
  destruct (Z.leb_spec 256 off) as [Hoff|_].
  { unfold virtio_config_read, virtio_net_get_config.
    destruct (_ <? _); [done|]. rewrite (proj2 (vw_cfg v Hwf)). cbn [Z.eqb Pos.eqb negb].
    destruct (mem_write _ _ _) eqn:Ew; cbn [mbind outcome_bind]; [|unfold mem_write in Ew; by case_match|done].
    destruct (_ || _ || _) eqn:E; [|split; [done|lia]].
    destruct (mem_read _ _ _) eqn:Er; cbn [mbind outcome_bind]; [|unfold mem_read in Er; by case_match|done].
    by apply ring_laid_frame. }
  destruct (size =? 4); cbn [negb]; [|done].
  repeat match goal with
  | |- context [match off with _ => _ end] => destruct off
  | |- context [match ?p with _ => _ end] => is_var p; destruct p
  end; try done.
  - unfold virtio_queue_get_num.
    destruct (aget_in_range (vq (vdev v)) (queue_sel (vdev v))) as [q ->]; [destruct Hwf; lia|by cbn [mbind outcome_bind]].
  - destruct (aget_in_range (vqs (mmio_conf v)) (queue_sel (vdev v))) as [q ->]; [destruct Hwf; lia|by cbn [mbind outcome_bind]].
Qed.

(** What a run of accesses leaves, and why it stops. *)
Lemma mmio_run_spec l : forall v,
  vnic_wf v -> Forall access_ok l ->
  match mmio_run get_va map_vring l v with
  | Ok v' => vnic_wf v' /\ (ring_laid v -> nums_early get_va map_vring l v -> ring_laid v')
  | Panic => Exists may_panic l
  | Undef => False
  end.
Proof.
  induction l as [|[o x s|o s] l IH]; intros v Hwf Hall; [done| |];
    apply Forall_cons in Hall as [Ha Hall]; cbn [mmio_run nums_early].
  - pose proof (mmio_write_wf v o x s Hwf) as Hw. pose proof (mmio_write_step v o x s Hwf) as Hs.
    destruct (vnic_handle_mmio_write _ _ _ _ _ _) as [v'| |]; [|by left|by apply Hw; destruct Ha].
    cbn [mbind outcome_bind]. destruct Ha as [Ho Hx]. specialize (IH v' (Hw Ho Hx) Hall).
    destruct (mmio_run _ _ l v'); [|by right|done]. destruct IH as [? IH]. split; [done|]. intros Hl [He1 He]. auto.
  - pose proof (mmio_read_wf v o s Hwf Ha) as Hw. pose proof (mmio_read_step v o s Hwf) as Hs.
    destruct (vnic_handle_mmio_read _ _ _) as [[r v']| |]; [|by left|done].
    cbn [mbind outcome_bind]. specialize (IH v' Hw Hall).
    destruct (mmio_run _ _ l v'); [|by right|done]. destruct IH as [? IH]. split; [done|]. intros Hl [He1 He]. auto.
Qed.
End Safety.

Lemma vnic_init_wf : vnic_wf vnic_state_init.
Proof.
  split; try done.
  split; [done|]. repeat constructor; vm_compute; try done; split_and!; done.
Qed.


(** The configuration space is read-only: whatever the normal world
    wrote to it, a read inside it returns the device's MAC address, link
    status, queue count and MTU, and a read that reaches outside returns 0. *)
Theorem vnic_config_read_only v off value wsize size v1 r v2 :
  vnic_wf v -> 0 <= off -> off + 4 <= MAX_U32 ->
  virtio_config_write v off value wsize = Ok v1 ->
  virtio_config_read v1 off size = Ok (r, v2) ->
  r = if 12 <? u32 (off + size) then 0
      else le_value (take (Z.to_nat size) (drop (Z.to_nat off) (virtio_net_config_bytes (vnet v)))).
Proof.
  intros Hwf Hoff Hmax Hw Hr.
  pose proof (config_write_spec v off value wsize Hwf Hoff Hmax) as Hwf1. rewrite Hw in Hwf1.
  pose proof (config_read_spec v1 off size Hwf1 Hoff Hmax) as Hspec. rewrite Hr in Hspec.
  destruct Hspec as (_ & _ & ->).
  assert (vnet v1 = vnet v) as ->; [|done].
  unfold virtio_config_write in Hw. destruct (_ <? _); [by simplify_eq|].
  destruct (_ || _ || _); [|done]. inv_ok. by subst.
Qed.

(** Writing 0 to the status register resets the device: the status, the
    pending interrupts, the queue selector, the negotiated features and both
    queues are back to their initial values, every queue is disabled, and
    what the device offers is unchanged. *)
Theorem vnic_status_reset get_va map_vring v :
  vnic_wf v ->
  exists v', vnic_handle_mmio_write get_va map_vring v 0x070 0 4 = Ok v' /\ vnic_wf v' /\
    status (vdev v') = 0 /\ isr (vdev v') = 0 /\ queue_sel (vdev v') = 0 /\
    guest_features (vdev v') = 0 /\ started (vdev v') = false /\
    host_features (vdev v') = host_features (vdev v) /\
    Forall (fun q => vring_addr q = 0 /\ last_avail_idx q = 0 /\
                     vr_num (vq_vring q) = vr_num_default (vq_vring q)) (vq (vdev v')) /\
    Forall (fun q => q_enabled q = 0) (vqs (mmio_conf v')).
Proof.
  intros Hwf. change (vnic_handle_mmio_write _ _ v 112 0 4) with (mmio_write_status v 0).
  assert (E : mmio_write_status v 0 =
    let '(_, v) := virtio_set_status v 0 in
    if status (vdev v) =? 0 then
      v ← virtio_reset v; Ok (v <| mmio_conf ::= virtio_mmio_soft_reset |>)
    else Ok v) by reflexivity.
  rewrite E. clear E. pose proof (set_status_spec v 0 Hwf) as (Hwf1 & _ & Hs1 & Hh1).
  destruct (virtio_set_status v 0) as [r v1]. cbn [snd] in *. rewrite Hs1. cbn [Z.eqb].
  pose proof (virtio_reset_spec v1 Hwf1) as Hr.
  destruct (virtio_reset v1) as [v2| |]; [|done|done]. destruct Hr as (Hwf2 & ? & ? & ? & ? & ? & ? & Hm & ?).
  eexists. split; [done|]. simpl. split_and!; try done; [|congruence|].
  - destruct Hwf2. split; simpl; rewrite ?length_map; done.
  - apply Forall_map. by apply Forall_true.
Qed.

(** Feature negotiation tests bit number 5 (the MAC feature) where it
    means VERSION_1, which is bit 32: a driver that accepts VERSION_1 but not
    MAC brings the secure world down with a register write, and one that
    declines VERSION_1 but takes MAC is accepted. *)
Theorem virtio_set_features_checks_wrong_bit v val :
  Z.land (status (vdev v)) VIRTIO_CONFIG_S_FEATURES_OK = 0 ->
  (Z.testbit (Z.land val (host_features (vdev v))) VIRTIO_NET_F_MAC = false <->
   virtio_set_features v val = Panic) /\
  (Z.testbit (Z.land val (host_features (vdev v))) VIRTIO_NET_F_MAC = true ->
   exists r v', virtio_set_features v val = Ok (r, v') /\
     guest_features (vdev v') = Z.land val (host_features (vdev v))).
Proof.
  intros Hs. unfold virtio_set_features. rewrite Hs. cbn [negb Z.eqb].
  rewrite set_features_nocheck_spec. unfold VIRTIO_NET_F_MAC.
  destruct (Z.testbit _ 5); (split; [split; done|]); intros H; [|done].
  eexists _, _. split; [done|]. done.
Qed.

(** The size of a queue can be changed after its ring has been set up: here
    to 256 entries on a ring that was laid out for 16. *)
Theorem queue_num_writable_after_ready :
  exists v q, mmio_run (fun pa => pa) (fun _ _ => None)
      [MmioWrite 0x038 16 4; MmioWrite 0x080 0x10000 4; MmioWrite 0x090 0x10100 4;
       MmioWrite 0x0a0 0x11000 4; MmioWrite 0x044 1 4; MmioWrite 0x038 256 4] vnic_state_init = Ok v /\
    vq (vdev v) !! 0%nat = Some q /\ vring_addr q <> 0 /\
    ring_slots v !! 0%nat = Some 16 /\ vr_num (vq_vring q) = 256.
Proof. eexists _, _. split; [vm_compute; reflexivity|]. split_and!; vm_compute; done. Qed.

(** ** Witnesses *)

Definition setup_accesses : list mmio_access :=
  [MmioWrite 0x038 16 4; MmioWrite 0x080 0x10000 4; MmioWrite 0x090 0x10100 4; MmioWrite 0x0a0 0x11000 4;
   MmioWrite 0x044 1 4; MmioRead 0x110 2; MmioWrite 0x030 7 4; MmioWrite 0x050 1 4].
Definition low_va (pa : Z) : Z := pa mod 2147483648.


Lemma vnic_config_read_only_witness :
  exists v1 r v2, virtio_config_write vnic_state_init 10 9000 2 = Ok v1 /\
    virtio_config_read v1 10 2 = Ok (r, v2) /\
    r = (if 12 <? u32 12 then 0
         else le_value (take 2 (drop 10 (virtio_net_config_bytes (vnet vnic_state_init))))).
Proof.
  assert (H1 : exists v1, virtio_config_write vnic_state_init 10 9000 2 = Ok v1) by (eexists; reflexivity).
  destruct H1 as [v1 H1].
  assert (H2 : exists r v2, virtio_config_read v1 10 2 = Ok (r, v2)).
  { vm_compute in H1. injection H1 as <-. eexists _, _. reflexivity. }
  destruct H2 as (r & v2 & H2). exists v1, r, v2. split; [exact H1|]. split; [exact H2|].
  refine (vnic_config_read_only vnic_state_init 10 9000 2 2 v1 r v2 vnic_init_wf _ _ H1 H2);
    vm_compute; discriminate.
Defined.

Lemma vnic_status_reset_witness :
  exists v', vnic_handle_mmio_write (fun _ => 0) (fun _ _ => None) vnic_state_init 0x070 0 4 = Ok v' /\ vnic_wf v' /\
    status (vdev v') = 0 /\ isr (vdev v') = 0 /\ queue_sel (vdev v') = 0 /\
    guest_features (vdev v') = 0 /\ started (vdev v') = false /\
    host_features (vdev v') = host_features (vdev vnic_state_init) /\
    Forall (fun q => vring_addr q = 0 /\ last_avail_idx q = 0 /\
                     vr_num (vq_vring q) = vr_num_default (vq_vring q)) (vq (vdev v')) /\
    Forall (fun q => q_enabled q = 0) (vqs (mmio_conf v')).
Proof. apply (vnic_status_reset (fun _ => 0) (fun _ _ => None) vnic_state_init vnic_init_wf). Defined.

Lemma virtio_set_features_checks_wrong_bit_witness :
  (false = false <-> virtio_set_features vnic_state_init (2 ^ 32) = Panic) /\
  (false = true -> exists r v', virtio_set_features vnic_state_init (2 ^ 32) = Ok (r, v') /\
     guest_features (vdev v') = Z.land (2 ^ 32) (host_features (vdev vnic_state_init))).
Proof. exact (virtio_set_features_checks_wrong_bit vnic_state_init (2 ^ 32) eq_refl). Defined.
