(* ===== verification/Napi.v ===== *)
(** * NAPI contexts, the worker loop and the notifier
    (nettrug/napi/napi.c, napi.h, notifier.c; worker_run of
    nettrug/pta/npf_router.c).

    A NAPI context is shared by producers (who schedule it), one worker
    thread (which polls while it is scheduled and sleeps otherwise), the
    notifier (which wakes sleeping workers) and a control thread (which
    disables and enables it).  [step] interleaves them, one critical section
    at a time.  The main theorems: a scheduled context is never left with its
    worker asleep and nobody to wake it; and a disabled context stays idle. *)

From S2P Require Import Prelude.

(** ** One NAPI context *)

Definition NAPI_STATE_SCHED : Z := 0.
Definition NAPI_STATE_MISSED : Z := 1.
Definition NAPI_STATE_DISABLE : Z := 2.
Definition NAPI_STATE_W_ACTIVE : Z := 3.

(** [state] is a bit set: [state |= 1 << b] is [Z.setbit], [state &= ~(1 << b)]
    is [Z.clearbit], [state & (1 << b)] is [Z.testbit]. *)
Record napi_struct := mk_napi {
  state : Z;
  is_waiting : bool;
  do_notify : bool
}.
#[global] Instance eta_napi : Settable napi_struct :=
  fun n => mk_napi (state n) (is_waiting n) (do_notify n).

Definition has (b : Z) (n : napi_struct) : bool := Z.testbit (state n) b.

(** What [netif_napi_add] leaves of these fields: disabled until enabled. *)
Definition napi_added : napi_struct :=
  mk_napi (Z.setbit 0 NAPI_STATE_DISABLE) false false.

Definition napi_schedule_prep_locked (n : napi_struct) : bool * napi_struct :=
  if has NAPI_STATE_DISABLE n then (false, n) else
  if has NAPI_STATE_SCHED n then
    (false, n <| state ::= fun s => Z.setbit s NAPI_STATE_MISSED |>)
  else
    (true, n <| state ::= fun s => Z.clearbit (Z.setbit s NAPI_STATE_SCHED) NAPI_STATE_MISSED |>).

Definition napi_schedule_locked (n : napi_struct) : napi_struct := n <| do_notify := true |>.

Definition napi_schedule (n : napi_struct) : napi_struct :=
  let '(kick, n) := napi_schedule_prep_locked n in
  if kick then napi_schedule_locked n else n.

(** Returns whether the poll is over; on [false] it has to run again. *)
Definition napi_complete_done (n : napi_struct) : bool * napi_struct :=
  if negb (has NAPI_STATE_DISABLE n) && has NAPI_STATE_MISSED n then
    (false, n <| state ::= fun s => Z.clearbit s NAPI_STATE_MISSED |>)
  else (true, n <| state ::= fun s => Z.clearbit s NAPI_STATE_SCHED |>).

Definition napi_enable (n : napi_struct) : outcome napi_struct :=
  if negb (has NAPI_STATE_DISABLE n) then Panic else
  if has NAPI_STATE_SCHED n then Panic else
  Ok (n <| state ::= fun s => Z.clearbit s NAPI_STATE_DISABLE |>).

(** [napi_disable], up to its loop. *)
Definition napi_disable_begin (n : napi_struct) : outcome napi_struct :=
  if has NAPI_STATE_DISABLE n then Panic else
  Ok (n <| state ::= fun s => Z.setbit s NAPI_STATE_DISABLE |>).

(** One round of its loop: whether the loop ends. *)
Definition napi_disable_round (n : napi_struct) : bool * napi_struct :=
  if negb (has NAPI_STATE_W_ACTIVE n) then
    (true, n <| state ::= fun s => Z.clearbit s NAPI_STATE_SCHED |>)
  else if has NAPI_STATE_SCHED n then (false, n)
  else (true, n).

(** ** The worker loop and the notifier: their critical sections *)

Definition worker_begin (n : napi_struct) : napi_struct :=
  n <| state ::= fun s => Z.setbit s NAPI_STATE_W_ACTIVE |>.

(** Looks whether to poll; if so, a pending kick is not needed any more. *)
Definition worker_grab (n : napi_struct) : bool * napi_struct :=
  if has NAPI_STATE_SCHED n then (true, n <| do_notify := false |>) else (false, n).

Definition worker_end (n : napi_struct) : napi_struct :=
  n <| state ::= fun s => Z.clearbit s NAPI_STATE_W_ACTIVE |>.

(** The notifier takes the pending kick of a waiting device. *)
Definition notifier_take (n : napi_struct) : bool * napi_struct :=
  (do_notify n, n <| do_notify := false |>).

(** One pass over the device list.  A device comes with whether its mutex
    could be taken; the result says for each device whether it was signalled. *)
Fixpoint bstgw_notifier_wakeup_check (l : list (bool * napi_struct)) : bool * list (bool * napi_struct) :=
  match l with
  | [] => (false, [])
  | (free, n) :: l' =>
      let '(k, r) := bstgw_notifier_wakeup_check l' in
      if negb free then (k, (false, n) :: r) else
      if negb (is_waiting n) then (k, (false, n) :: r) else
      let '(signal_poll, n) := notifier_take n in
      (signal_poll || k, (signal_poll, n) :: r)
  end.

(** The state of [bstgw_notifier_loop] that survives an iteration. *)
Record notifier_loop := mk_nloop { run_idle : bool; idle_func_sleep : Z; cnt_flag : bool }.

(** One iteration, given whether a device was kicked; [idle_func] is the
    configured idle function, called with nothing, whose result is the time
    to its next call. *)
Definition bstgw_notifier_loop_iter (check_period_ms : Z) (idle_func : option Z) (kicked : bool)
    (s : notifier_loop) : bool * notifier_loop :=
  let run := run_idle s || kicked in
  match idle_func with
  | Some r =>
      if run then
        let sleep := idle_func_sleep s - (check_period_ms + 10) in
        if sleep <=? 0 then (true, mk_nloop run r (if r <? 0 then false else cnt_flag s))
        else (false, mk_nloop run sleep (cnt_flag s))
      else (false, mk_nloop run (idle_func_sleep s) (cnt_flag s))
  | None => (false, mk_nloop run (idle_func_sleep s) (cnt_flag s))
  end.

(** ** The threads *)

(** Where the worker is in [worker_run]. *)
Inductive wpc :=
| WIdle      (** not in [worker_run] *)
| WStart     (** entered; about to try the mutex *)
| WCheck     (** holds the mutex; about to look at SCHED *)
| WWillWait  (** holds the mutex; SCHED was clear *)
| WAsleep    (** in [condvar_wait], the mutex released *)
| WAwake     (** signalled; about to take the mutex again *)
| WWillPoll  (** holds the mutex; SCHED was set *)
| WPoll      (** runs [napi->poll], again at once if it used its budget up *)
| WCycle     (** in the loop that watches SCHED before sleeping *)
| WLock      (** gave up watching; about to try the mutex *)
| WOut.      (** leaves [worker_run] *)

(** Where the notifier is with this device. *)
Inductive npc := NOff | NLocked | NSignal (signal_poll : bool).

(** Where the control thread is: enabled, disabling, disabled. *)
Inductive dpc := DOn | DWait | DOff.

Inductive owner := OWorker | ONotifier.

Record sys := mk_sys { nap : napi_struct; wp : wpc; np : npc; dp : dpc; mtx : option owner }.
#[global] Instance eta_sys : Settable sys :=
  fun s => mk_sys (nap s) (wp s) (np s) (dp s) (mtx s).

(** Who takes a step. *)
Inductive actor := Producer | Worker | Notifier | Control.

(** [condvar_wait] releases the mutex and sleeps in one step; [condvar_signal]
    wakes the one thread that waits. *)
Inductive step : actor -> sys -> sys -> Prop :=
(* producers *)
| st_schedule s : step Producer s (s <| nap ::= napi_schedule |>)
(* worker *)
| st_w_enter s : wp s = WIdle -> step Worker s (s <| nap ::= worker_begin |> <| wp := WStart |>)
| st_w_start_lock s : wp s = WStart -> mtx s = None -> step Worker s (s <| mtx := Some OWorker |> <| wp := WCheck |>)
| st_w_start_busy s : wp s = WStart -> mtx s <> None -> step Worker s (s <| wp := WCycle |>)
| st_w_check_poll s n : wp s = WCheck -> worker_grab (nap s) = (true, n) ->
    step Worker s (s <| nap := n |> <| wp := WWillPoll |>)
| st_w_check_wait s n : wp s = WCheck -> worker_grab (nap s) = (false, n) ->
    step Worker s (s <| nap := n |> <| wp := WWillWait |>)
| st_w_sleep s : wp s = WWillWait ->
    step Worker s (s <| nap ::= fun n => n <| is_waiting := true |> |> <| mtx := None |> <| wp := WAsleep |>)
| st_w_relock s : wp s = WAwake -> mtx s = None -> step Worker s (s <| mtx := Some OWorker |> <| wp := WCheck |>)
| st_w_poll s : wp s = WWillPoll ->
    step Worker s (s <| nap ::= fun n => n <| is_waiting := false |> |> <| mtx := None |> <| wp := WPoll |>)
| st_w_complete s r n : wp s = WPoll -> napi_complete_done (nap s) = (r, n) -> step Worker s (s <| nap := n |>)
| st_w_poll_err s : wp s = WPoll -> step Worker s (s <| wp := WOut |>)
| st_w_poll_done s : wp s = WPoll -> step Worker s (s <| wp := WCycle |>)
| st_w_cycle_poll s n : wp s = WCycle -> worker_grab (nap s) = (true, n) ->
    step Worker s (s <| nap := n |> <| wp := WPoll |>)
| st_w_cycle_end s n : wp s = WCycle -> worker_grab (nap s) = (false, n) ->
    step Worker s (s <| nap := n |> <| wp := WLock |>)
| st_w_lock s : wp s = WLock -> mtx s = None -> step Worker s (s <| mtx := Some OWorker |> <| wp := WCheck |>)
| st_w_lock_busy s : wp s = WLock -> mtx s <> None -> step Worker s (s <| wp := WCycle |>)
| st_w_out s : wp s = WOut -> step Worker s (s <| nap ::= worker_end |> <| wp := WIdle |>)
(* notifier *)
| st_n_lock s : np s = NOff -> mtx s = None -> step Notifier s (s <| mtx := Some ONotifier |> <| np := NLocked |>)
| st_n_skip s : np s = NLocked -> is_waiting (nap s) = false ->
    step Notifier s (s <| mtx := None |> <| np := NOff |>)
| st_n_take s b n : np s = NLocked -> is_waiting (nap s) = true -> notifier_take (nap s) = (b, n) ->
    step Notifier s (s <| nap := n |> <| np := NSignal b |>)
| st_n_signal s : np s = NSignal true ->
    step Notifier s (s <| wp ::= fun w => match w with WAsleep => WAwake | _ => w end |>
              <| mtx := None |> <| np := NOff |>)
| st_n_quiet s : np s = NSignal false -> step Notifier s (s <| mtx := None |> <| np := NOff |>)
(* control *)
| st_d_begin s n : dp s = DOn -> napi_disable_begin (nap s) = Ok n -> step Control s (s <| nap := n |> <| dp := DWait |>)
| st_d_round s n : dp s = DWait -> napi_disable_round (nap s) = (true, n) ->
    step Control s (s <| nap := n |> <| dp := DOff |>)
| st_d_again s n : dp s = DWait -> napi_disable_round (nap s) = (false, n) -> step Control s (s <| nap := n |>)
| st_d_enable s n : dp s = DOff -> napi_enable (nap s) = Ok n -> step Control s (s <| nap := n |> <| dp := DOn |>).

(** After [netif_napi_add]: disabled, no thread inside. *)
Definition sys_init : sys := mk_sys napi_added WIdle NOff DOff None.

(** ** The invariant *)

Definition w_holds (w : wpc) : bool :=
  match w with WCheck | WWillWait | WWillPoll => true | _ => false end.

(** Asleep, or committed to sleep. *)
Definition w_sleeps (w : wpc) : bool := match w with WAsleep | WWillWait => true | _ => false end.

Definition n_holds (p : npc) : bool := match p with NOff => false | _ => true end.

Record sys_inv (s : sys) : Prop := {
  si_mtx : mtx s = if w_holds (wp s) then Some OWorker else if n_holds (np s) then Some ONotifier else None;
  si_excl : w_holds (wp s) = true -> n_holds (np s) = false;
  (** a kick is pending for a sleeping (or about to sleep) worker of a scheduled context *)
  si_wake : w_sleeps (wp s) = true -> has NAPI_STATE_SCHED (nap s) = true ->
            do_notify (nap s) = true \/ np s = NSignal true;
  si_wait : wp s = WAsleep -> is_waiting (nap s) = true;
  (** SCHED cannot be cleared behind the back of a worker that saw it *)
  si_poll : wp s = WWillPoll -> has NAPI_STATE_SCHED (nap s) = true;
  si_dis : has NAPI_STATE_DISABLE (nap s) = match dp s with DOn => false | _ => true end;
  si_off : dp s = DOff -> has NAPI_STATE_SCHED (nap s) = false;
  si_act : has NAPI_STATE_W_ACTIVE (nap s) = match wp s with WIdle => false | _ => true end
}.

(** What the notifier and the worker can do on their own. *)
Definition nw_step (s s' : sys) : Prop := step Notifier s s' \/ step Worker s s'.

Definition any_step (s s' : sys) : Prop := exists a, step a s s'.

(** ** Bits *)

Lemma has_set n b c :
  0 <= b -> has c (n <| state ::= fun s => Z.setbit s b |>) = (b =? c) || has c n.
Proof. intros H. apply Z.setbit_eqb, H. Qed.

Lemma has_clear n b c :
  has c (n <| state ::= fun s => Z.clearbit s b |>) = has c n && negb (b =? c).
Proof. apply Z.clearbit_eqb. Qed.

Lemma has_set_clear n b b' c :
  0 <= b -> has c (n <| state ::= fun s => Z.clearbit (Z.setbit s b) b' |>) = ((b =? c) || has c n) && negb (b' =? c).
Proof. intros H. unfold has. rewrite <- Z.setbit_eqb by exact H. apply Z.clearbit_eqb. Qed.

(** Evaluates the bits of a context after an operation. *)
Ltac napi_bits :=
  repeat first
    [ rewrite has_set_clear in * by (vm_compute; congruence)
    | rewrite has_set in * by (vm_compute; congruence)
    | rewrite has_clear in * ];
  unfold NAPI_STATE_SCHED, NAPI_STATE_MISSED, NAPI_STATE_DISABLE, NAPI_STATE_W_ACTIVE in *;
  cbn [Z.eqb Pos.eqb orb andb negb] in *;
  rewrite ?andb_true_r, ?andb_false_r, ?orb_false_r in *.

Lemma has_notify n b v : has b (n <| do_notify := v |>) = has b n.
Proof. reflexivity. Qed.

Lemma has_waiting n b v : has b (n <| is_waiting := v |>) = has b n.
Proof. reflexivity. Qed.

#[export] Hint Rewrite has_notify has_waiting : tgw.

(** [napi_schedule], seen through the bits. *)
Lemma napi_schedule_spec n :
  has NAPI_STATE_DISABLE (napi_schedule n) = has NAPI_STATE_DISABLE n /\
  has NAPI_STATE_W_ACTIVE (napi_schedule n) = has NAPI_STATE_W_ACTIVE n /\
  is_waiting (napi_schedule n) = is_waiting n /\
  has NAPI_STATE_SCHED (napi_schedule n) = has NAPI_STATE_SCHED n || negb (has NAPI_STATE_DISABLE n) /\
  do_notify (napi_schedule n) = do_notify n || (negb (has NAPI_STATE_DISABLE n) && negb (has NAPI_STATE_SCHED n)) /\
  (has NAPI_STATE_DISABLE n = false -> has NAPI_STATE_SCHED n = true ->
   has NAPI_STATE_MISSED (napi_schedule n) = true).
Proof.
  unfold napi_schedule, napi_schedule_prep_locked, napi_schedule_locked.
  destruct (has NAPI_STATE_DISABLE n) eqn:D; [|destruct (has NAPI_STATE_SCHED n) eqn:S];
    rewrite ?has_notify; napi_bits; rewrite ?D, ?S; cbn; rewrite ?orb_false_r, ?orb_true_r;
    repeat split; congruence.
Qed.

(** A round of [napi_disable] that ends leaves the context unscheduled; it
    clears SCHED only when no worker is inside. *)
Lemma napi_disable_round_spec n e n' :
  napi_disable_round n = (e, n') ->
  has NAPI_STATE_DISABLE n' = has NAPI_STATE_DISABLE n /\
  has NAPI_STATE_W_ACTIVE n' = has NAPI_STATE_W_ACTIVE n /\
  is_waiting n' = is_waiting n /\ do_notify n' = do_notify n /\
  (e = true -> has NAPI_STATE_SCHED n' = false) /\
  (has NAPI_STATE_W_ACTIVE n = true -> has NAPI_STATE_SCHED n' = has NAPI_STATE_SCHED n).
Proof.
  unfold napi_disable_round. destruct (has NAPI_STATE_W_ACTIVE n) eqn:A; cbn [negb].
  - destruct (has NAPI_STATE_SCHED n) eqn:S; intros [= <- <-]; repeat split; congruence.
  - intros [= <- <-]. napi_bits. repeat split; congruence.
Qed.

Lemma napi_complete_done_spec n r n' :
  napi_complete_done n = (r, n') ->
  has NAPI_STATE_DISABLE n' = has NAPI_STATE_DISABLE n /\
  has NAPI_STATE_W_ACTIVE n' = has NAPI_STATE_W_ACTIVE n /\
  is_waiting n' = is_waiting n /\ do_notify n' = do_notify n /\
  r = negb (negb (has NAPI_STATE_DISABLE n) && has NAPI_STATE_MISSED n) /\
  has NAPI_STATE_SCHED n' = has NAPI_STATE_SCHED n && negb r.
Proof.
  unfold napi_complete_done. destruct (negb _ && _) eqn:C; intros [= <- <-];
    napi_bits; repeat split; congruence.
Qed.

Lemma worker_grab_spec n b n' :
  worker_grab n = (b, n') ->
  state n' = state n /\ is_waiting n' = is_waiting n /\ b = has NAPI_STATE_SCHED n /\
  (b = false -> do_notify n' = do_notify n).
Proof.
  unfold worker_grab. destruct (has NAPI_STATE_SCHED n); intros [= <- <-]; repeat split; congruence.
Qed.

Lemma worker_begin_spec n :
  has NAPI_STATE_DISABLE (worker_begin n) = has NAPI_STATE_DISABLE n /\
  has NAPI_STATE_W_ACTIVE (worker_begin n) = true /\
  has NAPI_STATE_SCHED (worker_begin n) = has NAPI_STATE_SCHED n.
Proof. unfold worker_begin. napi_bits. auto. Qed.

Lemma worker_end_spec n :
  has NAPI_STATE_DISABLE (worker_end n) = has NAPI_STATE_DISABLE n /\
  has NAPI_STATE_W_ACTIVE (worker_end n) = false /\
  has NAPI_STATE_SCHED (worker_end n) = has NAPI_STATE_SCHED n.
Proof. unfold worker_end. napi_bits. auto. Qed.

Lemma napi_disable_begin_spec n n' :
  napi_disable_begin n = Ok n' ->
  has NAPI_STATE_DISABLE n' = true /\ has NAPI_STATE_W_ACTIVE n' = has NAPI_STATE_W_ACTIVE n /\
  has NAPI_STATE_SCHED n' = has NAPI_STATE_SCHED n /\ is_waiting n' = is_waiting n /\ do_notify n' = do_notify n.
Proof.
  unfold napi_disable_begin. destruct (has NAPI_STATE_DISABLE n); intros [= <-]. napi_bits. auto.
Qed.

Lemma napi_enable_spec n n' :
  napi_enable n = Ok n' ->
  has NAPI_STATE_DISABLE n' = false /\ has NAPI_STATE_W_ACTIVE n' = has NAPI_STATE_W_ACTIVE n /\
  has NAPI_STATE_SCHED n' = has NAPI_STATE_SCHED n /\ is_waiting n' = is_waiting n /\ do_notify n' = do_notify n.
Proof.
  unfold napi_enable. destruct (negb (has NAPI_STATE_DISABLE n)); [discriminate|].
  destruct (has NAPI_STATE_SCHED n) eqn:S; intros [= <-]. napi_bits. auto.
Qed.

(** ** The invariant holds in every interleaving *)

(** Brings the specifications of the operations a step performs into scope. *)
Ltac napi_specs :=
  repeat match goal with
  | H : napi_disable_round _ = _ |- _ => apply napi_disable_round_spec in H
  | H : napi_complete_done _ = _ |- _ => apply napi_complete_done_spec in H
  | H : worker_grab _ = _ |- _ => apply worker_grab_spec in H
  | H : napi_disable_begin _ = _ |- _ => apply napi_disable_begin_spec in H
  | H : napi_enable _ = _ |- _ => apply napi_enable_spec in H
  | H : notifier_take _ = _ |- _ => injection H as <- <-
  end.

Lemma sys_init_inv : sys_inv sys_init.
Proof. split; cbn; intuition congruence. Qed.

Lemma has_state b n n' : state n' = state n -> has b n' = has b n.
Proof. unfold has. congruence. Qed.

(** Uses the implications whose premise evaluates to [x = x]. *)
Ltac forward :=
  repeat match goal with
  | H : ?x = ?x -> _ |- _ => specialize (H eq_refl)
  | H : has ?b ?n = ?v -> _, E : has ?b ?n = ?v |- _ => specialize (H E)
  | H : _ \/ _ |- _ => destruct H
  end.

(** Closes one field of the invariant after a step. *)
Ltac inv_field :=
  cbn [upd nap wp np dp mtx is_waiting do_notify w_holds w_sleeps n_holds] in *;
  rewrite ?has_notify, ?has_waiting in *; intros; subst;
  cbn [w_holds w_sleeps n_holds] in *; try congruence; forward; try (intuition congruence).

Lemma schedule_inv s : sys_inv s -> sys_inv (s <| nap ::= napi_schedule |>).
Proof.
  intros [M X W I P D O A]. destruct s as [n w p d m].
  pose proof (napi_schedule_spec n) as (E1 & E2 & E3 & E4 & E5 & _).
  split; cbn [upd nap wp np dp mtx] in *; rewrite ?E1, ?E2, ?E3, ?E4, ?E5; auto; intros Hw.
  - destruct (has NAPI_STATE_SCHED n), (has NAPI_STATE_DISABLE n), (do_notify n); cbn; auto.
  - rewrite P by exact Hw. reflexivity.
  - rewrite O, D by exact Hw. subst d. reflexivity.
Qed.

Lemma worker_inv s s' : sys_inv s -> step Worker s s' -> sys_inv s'.
Proof.
  intros [M X W I P D O A] St.
  inversion St; subst; destruct s as [n0 w p d m]; cbn [nap wp np dp mtx w_holds w_sleeps] in *; subst; napi_specs.
  all: destruct_and?; try (match goal with H : state _ = state _ |- _ =>
         pose proof (has_state NAPI_STATE_SCHED _ _ H); pose proof (has_state NAPI_STATE_DISABLE _ _ H);
         pose proof (has_state NAPI_STATE_W_ACTIVE _ _ H) end).
  all: try (destruct (worker_begin_spec n0) as (? & ? & ?)).
  all: try (destruct (worker_end_spec n0) as (? & ? & ?)).
  all: destruct p; try (cbn in *; congruence).
  all: split; inv_field.
  all: match goal with O : has _ ?n0 = false, E : has _ ?n = has _ ?n0 && _ |- has _ ?n = _ =>
         rewrite E, O; reflexivity end.
Qed.

Lemma notifier_inv s s' : sys_inv s -> step Notifier s s' -> sys_inv s'.
Proof.
  intros [M X W I P D O A] St.
  inversion St; subst; destruct s as [n0 w p d m]; cbn [nap wp np dp mtx n_holds] in *; subst; napi_specs.
  all: destruct w; cbn [w_holds w_sleeps] in *; try (cbn in *; congruence); try (specialize (X eq_refl); congruence).
  all: split; inv_field.
Qed.

Lemma control_inv s s' : sys_inv s -> step Control s s' -> sys_inv s'.
Proof.
  intros [M X W I P D O A] St.
  inversion St; subst; destruct s as [n0 w p d m]; cbn [nap wp np dp mtx] in *; subst; napi_specs; destruct_and?.
  all: destruct w; cbn [w_holds w_sleeps] in *; forward.
  all: split; inv_field; destruct W; intuition congruence.
Qed.

Lemma step_inv a s s' : sys_inv s -> step a s s' -> sys_inv s'.
Proof.
  intros Hi St. destruct a.
  - inversion St; subst. apply schedule_inv, Hi.
  - eapply worker_inv; eassumption.
  - eapply notifier_inv; eassumption.
  - eapply control_inv; eassumption.
Qed.

Lemma reachable_inv s : rtc any_step sys_init s -> sys_inv s.
Proof.
  intros R. enough (forall s0, sys_inv s0 -> rtc any_step s0 s -> sys_inv s) by eauto using sys_init_inv.
  clear R. induction 2 as [|? ? ? [a St] _ IH]; eauto using step_inv.
Qed.

(** A signalled worker of a scheduled context gets to poll. *)
Lemma awake_polls n p d :
  p = NOff -> has NAPI_STATE_SCHED n = true ->
  exists s', rtc nw_step (mk_sys n WAwake p d None) s' /\ wp s' = WPoll.
Proof.
  intros -> S. eexists. split.
  - eapply rtc_l; [right; apply st_w_relock; reflexivity|].
    eapply rtc_l; [right; eapply st_w_check_poll; [reflexivity|unfold worker_grab; cbn [nap upd]; rewrite S; reflexivity]|].
    eapply rtc_l; [right; apply st_w_poll; reflexivity|]. apply rtc_refl.
  - reflexivity.
Qed.

(** A notifier that is at [NLocked] for a sleeping worker with a pending kick
    wakes it up. *)
Lemma take_wakes n d :
  is_waiting n = true -> do_notify n = true -> has NAPI_STATE_SCHED n = true ->
  exists s', rtc nw_step (mk_sys n WAsleep NLocked d (Some ONotifier)) s' /\ wp s' = WPoll.
Proof.
  intros Iw Dn S. destruct (awake_polls (n <| do_notify := false |>) NOff d) as (s' & R & E); [done..|].
  exists s'. split; [|exact E].
  eapply rtc_l; [left; eapply st_n_take; [reflexivity|exact Iw|unfold notifier_take; cbn [nap]; rewrite Dn; reflexivity]|].
  eapply rtc_l; [left; apply st_n_signal; reflexivity|]. exact R.
Qed.

(** A pass of the notifier signals exactly the devices it could lock that
    wait with a kick pending, takes their kicks, and touches no other. *)
Lemma wakeup_check_spec l k r :
  bstgw_notifier_wakeup_check l = (k, r) ->
  r = map (fun '(free, n) => if free && is_waiting n then (do_notify n, n <| do_notify := false |>)
                             else (false, n)) l /\
  k = existsb fst r.
Proof.
  revert k r. induction l as [|[free n] l IH]; cbn; intros k r; [intros [= <- <-]; auto|].
  destruct (bstgw_notifier_wakeup_check l) as [k' r']. destruct (IH k' r' eq_refl) as [-> ->].
  destruct free; cbn; [destruct (is_waiting n); cbn|]; intros [= <- <-]; auto.
Qed.

(** The idle function does not run before the first kick, and after a run
    that asked for [r] milliseconds it is not called again while the rounds
    since then account for less than that. *)
Lemma idle_func_waits period f kicked s :
  (run_idle s || kicked = false -> fst (bstgw_notifier_loop_iter period f kicked s) = false) /\
  (period + 10 < idle_func_sleep s -> fst (bstgw_notifier_loop_iter period f kicked s) = false /\
     idle_func_sleep s - (period + 10) <= idle_func_sleep (snd (bstgw_notifier_loop_iter period f kicked s)) \/ period + 10 < 0).
Proof.
  unfold bstgw_notifier_loop_iter. split.
  - intros ->. destruct f; reflexivity.
  - intros H. destruct f as [r|], (run_idle s || kicked); cbn; try lia.
    destruct (_ <=? 0) eqn:L; cbn; lia.
Qed.

(** ** Properties *)

(** C2. No lost wake-up.  In every interleaving of producers calling
    [napi_schedule], the worker loop, the notifier and a control thread
    disabling and enabling the context: whenever the worker sleeps although
    the context is scheduled, the notifier and the worker alone can go on to
    [napi->poll]: a kick is pending or under way, never consumed for nothing. *)
Theorem no_lost_wakeup s :
  rtc any_step sys_init s -> wp s = WAsleep -> has NAPI_STATE_SCHED (nap s) = true ->
  exists s', rtc nw_step s s' /\ wp s' = WPoll.
Proof.
  intros R Ew Es. apply reachable_inv in R as [M X W I P D O A].
  destruct s as [n w p d m]; cbn in *; subst w; cbn in *; subst m.
  specialize (W eq_refl Es). specialize (I eq_refl).
  destruct p as [| |b]; cbn.
  - destruct W as [W|W]; [|discriminate].
    destruct (take_wakes n d I W Es) as (s' & R & E). exists s'. split; [|exact E].
    eapply rtc_l; [left; apply st_n_lock; reflexivity|]. exact R.
  - destruct W as [W|W]; [|discriminate]. apply take_wakes; assumption.
  - destruct b; [|destruct W as [W|W]; [|discriminate]].
    + destruct (awake_polls n NOff d eq_refl Es) as (s' & R & E). exists s'. split; [|exact E].
      eapply rtc_l; [left; apply st_n_signal; reflexivity|]. exact R.
    + destruct (take_wakes n d I W Es) as (s' & R & E). exists s'. split; [|exact E].
      eapply rtc_l; [left; apply st_n_quiet; reflexivity|].
      eapply rtc_l; [left; apply st_n_lock; reflexivity|]. exact R.
Qed.

(** After [napi_disable] has returned, and until [napi_enable] is called,
    SCHED stays clear and the worker starts no poll, whatever producers, the
    notifier and the worker do in between. *)
Theorem disabled_stays_idle s a s' :
  rtc any_step sys_init s -> dp s = DOff -> step a s s' -> dp s' = DOff ->
  has NAPI_STATE_SCHED (nap s') = false /\ (wp s' = WPoll -> wp s = WPoll).
Proof.
  intros R Ed St Ed'. apply reachable_inv in R.
  pose proof (step_inv _ _ _ R St) as R'. destruct R, R'. split; [auto|].
  pose proof (si_off0 Ed) as Hs.
  destruct St; destruct s as [n0 w p d m]; cbn [upd nap wp np dp mtx] in *; try congruence.
  - intros _. rewrite si_poll0 in Hs by assumption. discriminate.
  - intros _. apply worker_grab_spec in H0 as (_ & _ & E & _). congruence.
  - destruct w; congruence.
Qed.

(** A [napi_schedule] that arrives while the context is being polled is
    remembered: the next [napi_complete_done] returns false and leaves the
    context scheduled, so the worker polls again. *)
Theorem schedule_during_poll_reruns n :
  has NAPI_STATE_DISABLE n = false -> has NAPI_STATE_SCHED n = true ->
  exists n', napi_complete_done (napi_schedule n) = (false, n') /\ has NAPI_STATE_SCHED n' = true.
Proof.
  intros D S. destruct (napi_schedule_spec n) as (E1 & _ & _ & E4 & _ & E6).
  destruct (napi_complete_done (napi_schedule n)) as [r n'] eqn:C.
  apply napi_complete_done_spec in C as (_ & _ & _ & _ & -> & Es).
  exists n'. rewrite Es, E4, E1, D, S, E6 by assumption. auto.
Qed.

(** A run in which a producer schedules between the worker's last look at
    SCHED and its going to sleep. *)
Definition race_state : sys :=
  mk_sys (mk_napi 9 true true) WAsleep NOff DOn None.

Lemma race_reachable : rtc any_step sys_init race_state.
Proof.
  eapply rtc_l; [exists Control; eapply st_d_enable; reflexivity|].
  eapply rtc_l; [exists Worker; apply st_w_enter; reflexivity|].
  eapply rtc_l; [exists Worker; apply st_w_start_lock; reflexivity|].
  eapply rtc_l; [exists Worker; eapply st_w_check_wait; reflexivity|].
  eapply rtc_l; [exists Producer; apply st_schedule|].
  eapply rtc_l; [exists Worker; apply st_w_sleep; reflexivity|].
  apply rtc_refl.
Qed.

Lemma no_lost_wakeup_witness : exists s', rtc nw_step race_state s' /\ wp s' = WPoll.
Proof. apply (no_lost_wakeup race_state); [apply race_reachable|reflexivity|reflexivity]. Defined.

Lemma disabled_stays_idle_witness :
  has NAPI_STATE_SCHED (napi_schedule napi_added) = false /\ (WIdle = WPoll -> WIdle = WPoll).
Proof.
  exact (disabled_stays_idle sys_init Producer (sys_init <| nap ::= napi_schedule |>)
           (rtc_refl _ _) eq_refl (st_schedule _) eq_refl).
Defined.

Lemma schedule_during_poll_reruns_witness :
  exists n', napi_complete_done (napi_schedule (mk_napi 9 false false)) = (false, n') /\
             has NAPI_STATE_SCHED n' = true.
Proof. apply (schedule_during_poll_reruns (mk_napi 9 false false)); reflexivity. Defined.
