(* ===== verification/Netdev.v ===== *)
(** * Network devices and their registry (nettrug/pta/if_netdev.c,
    if_bstgw.c, npf_bstgw_ops.c; [ifnet_t] of npf_router.h; [netif_napi_add]
    and [netif_napi_del] of nettrug/napi/napi.c).

    A device is named by an identifier in [devs]; the registry keeps the
    index-to-device table and the device list as the code does.  The hash map
    library behind the ARP caches is the class [ThMap]. *)

From stdpp Require Import strings.
From S2P Require Import Prelude Pktq EthBuf Napi.

(** ** The hash map interface

    [th_get] finds the value of a key.  [th_put] inserts unless the key is
    present; it says whether the value now stored is the one passed in (not
    so if there was one, or if memory ran out). *)
Class ThMap (T : Type) := {
  th_create : T;
  th_get : T -> list Z -> option (list Z);
  th_put : T -> list Z -> list Z -> bool * T;
  th_get_create k : th_get th_create k = None;
  th_put_spec t k v b t' : th_put t k v = (b, t') ->
    (b = true -> th_get t k = None /\ forall k', th_get t' k' = if decide (k = k') then Some v else th_get t k') /\
    (b = false -> forall k', th_get t' k' = th_get t k')
}.

(** A finite map implements the interface. *)
Definition gmap_put (t : gmap (list Z) (list Z)) (k v : list Z) : bool * gmap (list Z) (list Z) :=
  match t !! k with Some _ => (false, t) | None => (true, <[k := v]> t) end.

#[global] Program Instance gmap_thmap : ThMap (gmap (list Z) (list Z)) := {|
  th_create := ∅;
  th_get t k := t !! k;
  th_put := gmap_put
|}.
Next Obligation. intros k. apply lookup_empty. Qed.
Next Obligation.
  unfold gmap_put. intros t k v b t' H. destruct (t !! k) eqn:E; injection H as <- <-; split; try discriminate; auto.
  intros _. split; [auto|]. intros k'. destruct (decide (k = k')) as [->|N].
  - apply lookup_insert_eq.
  - apply lookup_insert_ne, N.
Qed.

(** ** Devices *)

Inductive bstgw_trust_t := BSTGW_IF_NONSEC | BSTGW_IF_EXTERNAL.

#[global] Instance trust_eq_dec : EqDecision bstgw_trust_t.
Proof. solve_decision. Defined.

Definition BSTGW_MAX_NETIF_NAPI : Z := 2.
Definition BSTGW_MAX_NETIF_IPS : Z := 2.
Definition MAX_IFNET_IDS : Z := 32.

(** Handlers are opaque: only whether one is installed. *)
Record ifnet_t (T : Type) := mk_ifnet {
  ifnet_idx : Z;
  hwaddr : list Z;
  trust_status : bstgw_trust_t;
  napis : list (option positive);
  napi_count : Z;
  xmit_handler : bool;
  egress_ntfy_handler : bool;
  name : string;
  workers : list (option nat);
  worker_count : Z;
  if_ips : list npf_addr_t;
  ips_cnt : Z;
  arg : Z;
  arp_cache : option T;
  egress_queue : option pktqueue_t
}.
Arguments mk_ifnet {T}. Arguments ifnet_idx {T}. Arguments hwaddr {T}. Arguments trust_status {T}.
Arguments napis {T}. Arguments napi_count {T}. Arguments xmit_handler {T}.
Arguments egress_ntfy_handler {T}. Arguments name {T}. Arguments workers {T}.
Arguments worker_count {T}. Arguments if_ips {T}. Arguments ips_cnt {T}. Arguments arg {T}.
Arguments arp_cache {T}. Arguments egress_queue {T}.

#[global] Instance eta_ifnet {T} : Settable (ifnet_t T) :=
  fun d => mk_ifnet (ifnet_idx d) (hwaddr d) (trust_status d) (napis d) (napi_count d)
             (xmit_handler d) (egress_ntfy_handler d) (name d) (workers d) (worker_count d)
             (if_ips d) (ips_cnt d) (arg d) (arp_cache d) (egress_queue d).

(** The registry: [netdev_list] (newest first), [ifnet_map], [next_if_idx],
    and the devices the pointers stand for. *)
Record netdevs (T : Type) := mk_netdevs {
  devs : gmap positive (ifnet_t T);
  netdev_list : list positive;
  ifnet_map : list (option positive);
  next_if_idx : Z
}.
Arguments mk_netdevs {T}. Arguments devs {T}. Arguments netdev_list {T}.
Arguments ifnet_map {T}. Arguments next_if_idx {T}.

#[global] Instance eta_netdevs {T} : Settable (netdevs T) :=
  fun n => mk_netdevs (devs n) (netdev_list n) (ifnet_map n) (next_if_idx n).

Section netdev.
Context {T : Type} `{ThMap T}.

Definition netdev_init (nd : netdevs T) : netdevs T :=
  nd <| netdev_list := [] |> <| next_if_idx := 1 |>.

(** Before [netdev_init]: static storage. *)
Definition netdev_static (ds : gmap positive (ifnet_t T)) : netdevs T :=
  mk_netdevs ds [] (replicate (Z.to_nat MAX_IFNET_IDS) None) 0.

(** [LIST_FOREACH] with an accumulator. *)
Fixpoint foreach_dev {A} (f : A -> ifnet_t T -> A) (nd : netdevs T) (l : list positive) (acc : A) : outcome A :=
  match l with
  | [] => Ok acc
  | p :: l' => d ← deref (devs nd !! p); foreach_dev f nd l' (f acc d)
  end.

Definition ifnet_napi_count (nd : netdevs T) : outcome Z :=
  foreach_dev (fun cnt d => u32 (cnt + napi_count d)) nd (netdev_list nd) 0.

Definition ifnet_dev_count (nd : netdevs T) : Z := u32 (next_if_idx nd - 1).

(** All zero, but for the egress queue, which starts stopped; [alloc] says
    whether the heap could serve it. *)
Definition ifnet_dev_init (alloc : bool) : Z * ifnet_t T :=
  let d := mk_ifnet 0 (replicate 6 0) BSTGW_IF_NONSEC [None; None] 0 false false EmptyString
             [None; None] 0 [replicate 16 0; replicate 16 0] 0 0 None None in
  if alloc then (0, d <| egress_queue := Some (netif_tx_stop_queue (mk_pktqueue false 0 0 0 0 [])) |>)
  else (-1, d).

Definition ifnet_dev_register (netdev : option positive) (nd : netdevs T) : outcome (Z * netdevs T) :=
  p ← assert_ptr netdev;
  if MAX_IFNET_IDS <? next_if_idx nd then Ok (-1, nd) else
  m ← aset (ifnet_map nd) (next_if_idx nd - 1) (Some p);
  d ← deref (devs nd !! p);
  Ok (0, nd <| netdev_list ::= cons p |> <| ifnet_map := m |>
            <| devs ::= <[p := d <| ifnet_idx := next_if_idx nd |>]> |>
            <| next_if_idx := u32 (next_if_idx nd + 1) |>).

(** The search of [ifnet_nametoindex] and [ifnet_getbyname]. *)
Fixpoint find_name (nd : netdevs T) (ifname : string) (l : list positive) : outcome (option (positive * ifnet_t T)) :=
  match l with
  | [] => Ok None
  | p :: l' =>
      d ← deref (devs nd !! p);
      if decide (name d = ifname) then Ok (Some (p, d)) else find_name nd ifname l'
  end.

Definition ifnet_nametoindex (nd : netdevs T) (ifname : option string) : outcome Z :=
  match ifname with
  | None => Ok 0
  | Some s =>
      r ← find_name nd s (netdev_list nd);
      match r with
      | None => Ok 0
      | Some (_, d) => c_assert (0 <=? i32 (ifnet_idx d));; Ok (u32 (i32 (ifnet_idx d)))
      end
  end.

Definition ifnet_getbyidx (nd : netdevs T) (idx : Z) : outcome (option positive) :=
  if (idx =? 0) || (next_if_idx nd <=? idx) then Ok None else aget (ifnet_map nd) (idx - 1).

Definition ifnet_getbyname (nd : netdevs T) (ifname : option string) : outcome (option positive) :=
  match ifname with
  | None => Ok None
  | Some s => r ← find_name nd s (netdev_list nd);
      match r with None => Ok None | Some (p, _) => Ok (Some p) end
  end.

(** Updates a device through a pointer to it. *)
Definition dev_upd (p : positive) (f : ifnet_t T -> ifnet_t T) (nd : netdevs T) : netdevs T :=
  nd <| devs ::= alter f p |>.

Definition ifnet_flush_arg (a : Z) (nd : netdevs T) : netdevs T :=
  foldl (fun nd p => dev_upd p (fun d => d <| arg := a |>) nd) nd (netdev_list nd).

(** ** Attaching a device to the router *)

(** [pkts]: what [malloc] returned for the queue's ring (its [tr_size] slots
    hold anything), [th]: whether [thmap_create] succeeded. *)
Definition ifnet_ifattach (roundup2 : Z -> Z -> Z) (heap : nat -> Z -> option chunk)
    (tr_size rt_size : Z) (th : bool) (pkts : Z -> option (list ebptr))
    (d : ifnet_t T) (pool : ethbuf_pool) : outcome (Z * ifnet_t T * ethbuf_pool) :=
  if negb th then Ok (-1, d <| arp_cache := None |>, pool) else
  let d := d <| arp_cache := Some th_create |> in
  q ← deref (egress_queue d);
  match pkts (u32 (4 * tr_size)) with
  | None => Ok (-1, d, pool)
  | Some ring =>
      let q := q <| pkt := ring |> <| Pktq.capacity := rt_size |> in
      pool ← bstgw_ethpool_increase roundup2 heap (Pktq.capacity q) pool;
      Ok (0, d <| egress_queue := Some q |>, pool)
  end.

(** The ring and the ARP cache are freed, their pointers kept: detaching a
    device once more frees them again. *)
Definition ifnet_ifdetach (d : ifnet_t T) : outcome (ifnet_t T) :=
  q ← deref (egress_queue d);
  '(_, q) ← bstgw_pktq_locked_drop_bufs q (count q);
  _ ← deref (arp_cache d);
  Ok (d <| egress_queue := Some (q <| Pktq.capacity := 0 |> <| pkt := [] |>) |> <| arp_cache := None |>).

(** ** NAPI contexts of a device *)

Definition netif_napi_add (napi_id : positive) (n : napi_struct) (d : ifnet_t T)
    : outcome (Z * napi_struct * ifnet_t T) :=
  if BSTGW_MAX_NETIF_NAPI <=? napi_count d then Panic else
  old ← aget (napis d) (napi_count d);
  match old with
  | Some _ => Panic
  | None =>
      let n := n <| is_waiting := false |> <| state := Z.setbit 0 NAPI_STATE_DISABLE |> in
      let idx := napi_count d in
      l ← aset (napis d) idx (Some napi_id);
      Ok (idx, n, d <| napis := l |> <| napi_count := u32 (napi_count d + 1) |>)
  end.

Definition netif_napi_del (idx : Z) (n : napi_struct) (d : ifnet_t T) : outcome (napi_struct * ifnet_t T) :=
  let d := d <| napi_count := u32 (napi_count d - 1) |> in
  l ← aset (napis d) idx None;
  Ok (n <| state := Z.setbit 0 NAPI_STATE_DISABLE |>, d <| napis := l |>).

(** ** The operations given to the firewall *)

Definition bstgw_ifop_getname (d : ifnet_t T) : string := name d.

Definition bstgw_ifop_lookup (nd : netdevs T) (ifname : option string) : outcome (option positive) :=
  idx ← ifnet_nametoindex nd ifname;
  if idx =? 0 then Ok None else ifnet_getbyidx nd idx.

Definition bstgw_ifop_flush (a : Z) (nd : netdevs T) : netdevs T := ifnet_flush_arg a nd.
Definition bstgw_ifop_getmeta (d : ifnet_t T) : Z := arg d.
Definition bstgw_ifop_setmeta (a : Z) (d : ifnet_t T) : ifnet_t T := d <| arg := a |>.

(** ** The registry's invariant *)

Record reg_wf (nd : netdevs T) : Prop := {
  rw_next : 1 <= next_if_idx nd <= MAX_IFNET_IDS + 1;
  rw_nodup : NoDup (netdev_list nd);
  rw_len : length (ifnet_map nd) = Z.to_nat MAX_IFNET_IDS;
  rw_list : forall p, p ∈ netdev_list nd -> exists d, devs nd !! p = Some d /\
    1 <= ifnet_idx d < next_if_idx nd /\ ifnet_map nd !! Z.to_nat (ifnet_idx d - 1) = Some (Some p);
  rw_map : forall i, 1 <= i < next_if_idx nd -> exists p,
    ifnet_map nd !! Z.to_nat (i - 1) = Some (Some p) /\ p ∈ netdev_list nd
}.

(** What happens to the registry: a device that is not in it is registered,
    or some field of a device other than its index is changed. *)
Inductive reg_step : netdevs T -> netdevs T -> Prop :=
| reg_register nd p nd' r :
    p ∉ netdev_list nd -> is_Some (devs nd !! p) ->
    ifnet_dev_register (Some p) nd = Ok (r, nd') -> reg_step nd nd'
| reg_update nd p f :
    (forall d, ifnet_idx (f d) = ifnet_idx d) -> reg_step nd (dev_upd p f nd).

Definition names_distinct (nd : netdevs T) : Prop :=
  forall p q d e, p ∈ netdev_list nd -> q ∈ netdev_list nd ->
    devs nd !! p = Some d -> devs nd !! q = Some e -> name d = name e -> p = q.

End netdev.

Definition bstgw_mbuf_alloc (pool : ethbuf_pool) : outcome (positive * ethbuf_pool) :=
  '(i, pool) ← bstgw_ethpool_buf_alloc pool;
  Ok (i, pool <| bufs ::= alter (fun e => e <| data_off := 2 + 6 |>) i |>).

Definition bstgw_mbuf_free (m0 : ebptr) (pool : ethbuf_pool) : outcome ethbuf_pool :=
  bstgw_ethpool_buf_free m0 pool.

Definition bstgw_mbuf_getdata (e : bstgw_ethbuf_t) : outcome (option Z) := bstgw_ethbuf_data_ptr e 0.
Definition bstgw_mbuf_getnext (e : bstgw_ethbuf_t) : ebptr := next e.
Definition bstgw_mbuf_getlen (e : bstgw_ethbuf_t) : Z := bstgw_ethbuf_data_len e.
Definition bstgw_mbuf_getchainlen (st : ebstore) (p : ebptr) : outcome Z := bstgw_ethbuf_total_pkt_len st p.

Definition bstgw_mbuf_ensure_contig (st : ebstore) (i : positive) (len : Z) : outcome (bool * ebstore) :=
  e ← deref (st !! i);
  if bstgw_ethbuf_data_len e <? len then
    '(r, st) ← bstgw_ethbuf_linearize st (Some i);
    if r <? 0 then Ok (false, st) else
    e ← deref (st !! i);
    Ok (len <=? bstgw_ethbuf_data_len e, st)
  else Ok (true, st).

(** ** Lemmas *)

Section netdev_lemmas.
Context {T : Type} `{ThMap T}.
Implicit Types nd : netdevs T.

Lemma netdev_init_wf (ds : gmap positive (ifnet_t T)) : reg_wf (netdev_init (netdev_static ds)).
Proof.
  split; cbn.
  - unfold MAX_IFNET_IDS. lia.
  - constructor.
  - reflexivity.
  - intros p Hp. by apply elem_of_nil in Hp.
  - intros i. lia.
Qed.

Lemma dev_upd_wf nd p f :
  (forall d, ifnet_idx (f d) = ifnet_idx d) -> reg_wf nd -> reg_wf (dev_upd p f nd).
Proof.
  intros Hf [Hn Hnd Hl Hls Hm]. split; cbn; try done.
  intros q Hq. destruct (Hls q Hq) as (d & Hd & Hi & He).
  destruct (decide (p = q)) as [->|N].
  - exists (f d). rewrite lookup_alter_eq, Hd, Hf. auto.
  - exists d. rewrite lookup_alter_ne by done. auto.
Qed.

(** A registration that is refused changes nothing; else the device gets the
    next index. *)
Lemma register_spec nd p d :
  reg_wf nd -> devs nd !! p = Some d ->
  ifnet_dev_register (Some p) nd =
    Ok (if MAX_IFNET_IDS <? next_if_idx nd then (-1, nd) else
        (0, mk_netdevs (<[p := d <| ifnet_idx := next_if_idx nd |>]> (devs nd)) (p :: netdev_list nd)
              (<[Z.to_nat (next_if_idx nd - 1) := Some p]> (ifnet_map nd)) (next_if_idx nd + 1))).
Proof.
  intros [Hn _ Hl _ _] Hd. unfold ifnet_dev_register, MAX_IFNET_IDS in *. cbn.
  destruct (Z.ltb_spec 32 (next_if_idx nd)); [done|].
  unfold aset. rewrite Hl. rewrite (proj2 (Z.ltb_ge _ _)), (proj2 (Z.leb_gt _ _)) by lia. cbn.
  rewrite Hd. cbn. rewrite u32_small by lia. done.
Qed.

Lemma register_wf nd p r nd' :
  reg_wf nd -> p ∉ netdev_list nd -> is_Some (devs nd !! p) ->
  ifnet_dev_register (Some p) nd = Ok (r, nd') -> reg_wf nd'.
Proof.
  intros Hwf Hp [d Hd]. rewrite (register_spec nd p d Hwf Hd).
  destruct (Z.ltb_spec MAX_IFNET_IDS (next_if_idx nd)); intros [= <- <-]; [done|].
  destruct Hwf as [Hn Hnd Hl Hls Hm]. unfold MAX_IFNET_IDS in *.
  split; cbn; rewrite ?length_insert; [unfold MAX_IFNET_IDS; lia|by constructor|done| |].
  - intros q [->|Hq]%elem_of_cons.
    + exists (d <| ifnet_idx := next_if_idx nd |>). rewrite lookup_insert_eq. split; [done|]. cbn.
      split; [lia|]. rewrite list_lookup_insert_eq by lia. done.
    + destruct (Hls q Hq) as (e & He & Hi & Hk). exists e.
      rewrite lookup_insert_ne by (intros ->; done). split; [done|]. split; [lia|].
      rewrite list_lookup_insert_ne by lia. done.
  - intros i Hi. destruct (decide (i = next_if_idx nd)) as [->|N].
    + exists p. rewrite list_lookup_insert_eq by lia. split; [done|set_solver].
    + destruct (Hm i) as (q & Hq & Hin); [lia|]. exists q.
      rewrite list_lookup_insert_ne by lia. split; [done|set_solver].
Qed.

(** A device on the heap, not yet registered. *)
Lemma reg_wf_new nd p d : reg_wf nd -> p ∉ netdev_list nd -> reg_wf (nd <| devs ::= <[p := d]> |>).
Proof.
  intros [Hn Hd Hl Hls Hm] Hni. split; cbn; try done. intros q Hq. rewrite lookup_insert_ne by (intros ->; done). by apply Hls.
Qed.

(** Its registration. *)
Lemma register_new nd p d :
  reg_wf nd -> next_if_idx nd <= MAX_IFNET_IDS -> p ∉ netdev_list nd ->
  exists nd', ifnet_dev_register (Some p) (nd <| devs ::= <[p := d]> |>) = Ok (0, nd') /\
    reg_wf nd' /\ netdev_list nd' = p :: netdev_list nd /\ next_if_idx nd' = next_if_idx nd + 1 /\
    (forall q, q <> p -> devs nd' !! q = devs nd !! q) /\ devs nd' !! p = Some (d <| ifnet_idx := next_if_idx nd |>).
Proof.
  intros Hreg Hnext Hni. pose proof (reg_wf_new nd p d Hreg Hni) as Hwf. set (nd0 := nd <| devs ::= <[p := d]> |>) in *.
  assert (Hd : devs nd0 !! p = Some d) by apply lookup_insert_eq.
  pose proof (register_spec nd0 p d Hwf Hd) as E. change (next_if_idx nd0) with (next_if_idx nd) in E.
  rewrite (proj2 (Z.ltb_ge _ _)) in E by done. eexists. split; [exact E|].
  split; [eapply register_wf; [exact Hwf|exact Hni|by eexists|exact E]|]. split; [done|]. split; [done|]. cbn. split; [|apply lookup_insert_eq].
  intros q Hq. by rewrite !lookup_insert_ne by done.
Qed.

Lemma reg_step_wf nd nd' : reg_wf nd -> reg_step nd nd' -> reg_wf nd'.
Proof. destruct 2; eauto using register_wf, dev_upd_wf. Qed.

Lemma getbyidx_spec nd idx :
  reg_wf nd -> 0 <= idx ->
  match ifnet_getbyidx nd idx with
  | Ok (Some p) => 1 <= idx < next_if_idx nd /\ p ∈ netdev_list nd /\
                   ifnet_map nd !! Z.to_nat (idx - 1) = Some (Some p)
  | Ok None => ~ (1 <= idx < next_if_idx nd)
  | _ => False
  end.
Proof.
  intros Hwf Hi. unfold ifnet_getbyidx.
  destruct ((idx =? 0) || (next_if_idx nd <=? idx)) eqn:E; [lia|].
  apply orb_false_iff in E as [E1 E2].
  destruct (rw_map nd Hwf idx) as (p & Hp & Hin); [lia|].
  unfold aget. rewrite (proj2 (Z.ltb_ge _ _)), Hp by lia. cbn. auto with lia.
Qed.

(** The device found by its index has that index. *)
Lemma getbyidx_dev nd idx p :
  reg_wf nd -> 0 <= idx -> ifnet_getbyidx nd idx = Ok (Some p) ->
  exists d, devs nd !! p = Some d /\ p ∈ netdev_list nd /\ 1 <= idx < next_if_idx nd.
Proof.
  intros Hwf Hi E. pose proof (getbyidx_spec nd idx Hwf Hi) as Hs. rewrite E in Hs.
  destruct Hs as (? & Hin & _). destruct (rw_list nd Hwf p Hin) as (d & ? & _). eauto.
Qed.

Lemma find_name_spec nd s l :
  reg_wf nd -> (forall p, p ∈ l -> p ∈ netdev_list nd) ->
  match find_name nd s l with
  | Ok (Some (p, d)) => p ∈ l /\ devs nd !! p = Some d /\ name d = s
  | Ok None => forall p d, p ∈ l -> devs nd !! p = Some d -> name d <> s
  | _ => False
  end.
Proof.
  intros Hwf. induction l as [|p l IH]; intros Hin; cbn.
  - intros p d Hp. by apply elem_of_nil in Hp.
  - destruct (rw_list nd Hwf p) as (d & Hd & _); [set_solver|]. rewrite Hd. cbn.
    destruct (decide (name d = s)) as [E|N]; [split; [set_solver|auto]|].
    specialize (IH ltac:(set_solver)). destruct (find_name nd s l) as [[[q e]|]| |]; try done.
    + destruct IH as (? & ? & ?). split; [set_solver|auto].
    + intros q e [->|Hq]%elem_of_cons He; [congruence|eauto].
Qed.

(** A registered device is found under its index and, if names are distinct,
    its name gives its index. *)
Lemma dev_lookup nd p d :
  reg_wf nd -> p ∈ netdev_list nd -> devs nd !! p = Some d ->
  1 <= ifnet_idx d <= MAX_IFNET_IDS /\ ifnet_getbyidx nd (ifnet_idx d) = Ok (Some p) /\
  (names_distinct nd -> ifnet_nametoindex nd (Some (name d)) = Ok (ifnet_idx d)).
Proof.
  intros Hwf Hp Hd. pose proof (rw_next nd Hwf) as Hn. unfold MAX_IFNET_IDS in *.
  destruct (rw_list nd Hwf p Hp) as (d' & Hd' & Hi & Hm). assert (d' = d) as -> by congruence.
  split; [lia|]. split.
  - pose proof (getbyidx_spec nd (ifnet_idx d) Hwf ltac:(lia)) as G.
    destruct (ifnet_getbyidx nd (ifnet_idx d)) as [[q|]| |]; try lia.
    destruct G as (_ & _ & G). congruence.
  - intros Hdist. unfold ifnet_nametoindex.
    pose proof (find_name_spec nd (name d) (netdev_list nd) Hwf (fun q Hq => Hq)) as F.
    destruct (find_name nd (name d) (netdev_list nd)) as [[[q e]|]| |]; try done; [|by destruct (F p d Hp Hd)].
    destruct F as (Hq & He & Hne). assert (q = p) as -> by eauto. assert (e = d) as -> by congruence.
    cbn. unfold i32. rewrite (Z.mod_small (_ + _)) by lia.
    rewrite (proj2 (Z.leb_le _ _)) by lia. cbn. rewrite u32_small by lia. f_equal. lia.
Qed.

Lemma dev_upd_ext nd p d f g :
  devs nd !! p = Some d -> f d = g d -> dev_upd p f nd = dev_upd p g nd.
Proof.
  intros Hd E. assert (A : alter f p (devs nd) = alter g p (devs nd)).
  { apply map_eq. intros q. destruct (decide (p = q)) as [<-|N].
    - rewrite !lookup_alter_eq, Hd. cbn. by rewrite E.
    - by rewrite !lookup_alter_ne. }
  unfold dev_upd, upd. by rewrite A.
Qed.

Lemma names_distinct_upd nd p f :
  (forall d, name (f d) = name d) -> names_distinct nd -> names_distinct (dev_upd p f nd).
Proof.
  intros Hf Hn x y d e Hx Hy Hd He Heq. cbn in *.
  apply lookup_alter_Some in Hd as [(-> & d0 & Hd & ->)|(_ & Hd)];
  apply lookup_alter_Some in He as [(-> & e0 & He & ->)|(_ & He)]; rewrite ?Hf in Heq; eauto.
Qed.

(** The device registry.  However devices are registered and updated:
    every registered device is found under its index; an index finds nothing
    exactly if it is 0 or above the number of devices; and if names are
    distinct, the firewall's interface lookup (name to index to device) finds
    each device under its name.  No lookup reads outside the table. *)
Theorem registry_sound (ds : gmap positive (ifnet_t T)) nd :
  rtc reg_step (netdev_init (netdev_static ds)) nd ->
  (forall p, p ∈ netdev_list nd -> exists d, devs nd !! p = Some d /\
     ifnet_getbyidx nd (ifnet_idx d) = Ok (Some p) /\
     (names_distinct nd -> bstgw_ifop_lookup nd (Some (bstgw_ifop_getname d)) = Ok (Some p))) /\
  (forall idx, 0 <= idx -> (ifnet_getbyidx nd idx = Ok None <-> idx = 0 \/ ifnet_dev_count nd < idx)).
Proof.
  intros R. assert (Hwf : reg_wf nd).
  { enough (forall n0, reg_wf n0 -> rtc reg_step n0 nd -> reg_wf nd) by eauto using netdev_init_wf.
    induction 2; eauto using reg_step_wf. }
  pose proof (rw_next nd Hwf) as Hn. unfold MAX_IFNET_IDS in Hn. split.
  - intros p Hp. destruct (rw_list nd Hwf p Hp) as (d & Hd & _). exists d.
    destruct (dev_lookup nd p d Hwf Hp Hd) as (Hr & G & N). split; [done|]. split; [done|].
    intros Hdist. unfold bstgw_ifop_lookup, bstgw_ifop_getname. rewrite (N Hdist). cbn.
    rewrite (proj2 (Z.eqb_neq _ _)) by lia. done.
  - intros idx Hi. pose proof (getbyidx_spec nd idx Hwf Hi) as G. unfold ifnet_dev_count. rewrite u32_small by lia.
    destruct (ifnet_getbyidx nd idx) as [[q|]| |]; try done; split; try lia; done.
Qed.

End netdev_lemmas.

(** Two devices registered in turn. *)
Definition netdevs_example : netdevs (gmap (list Z) (list Z)) :=
  netdev_static {[ 1%positive := (ifnet_dev_init true).2 <| name := "eth0"%string |>;
                   2%positive := (ifnet_dev_init true).2 <| name := "vnic0"%string |> ]}.

Lemma registry_example_reach :
  exists nd, rtc reg_step (netdev_init netdevs_example) nd /\ netdev_list nd = [2; 1]%positive.
Proof.
  eexists. split.
  - eapply rtc_l; [eapply (reg_register _ 1%positive); [set_solver|by eexists|reflexivity]|].
    eapply rtc_l; [eapply (reg_register _ 2%positive); [cbn; set_solver|by eexists|reflexivity]|].
    apply rtc_refl.
  - reflexivity.
Qed.

Lemma registry_sound_witness :
  exists nd : netdevs (gmap (list Z) (list Z)), netdev_list nd = [2; 1]%positive /\
  (forall p, p ∈ netdev_list nd -> exists d, devs nd !! p = Some d /\
     ifnet_getbyidx nd (ifnet_idx d) = Ok (Some p) /\
     (names_distinct nd -> bstgw_ifop_lookup nd (Some (bstgw_ifop_getname d)) = Ok (Some p))) /\
  (forall idx, 0 <= idx -> (ifnet_getbyidx nd idx = Ok None <-> idx = 0 \/ ifnet_dev_count nd < idx)).
Proof.
  destruct registry_example_reach as (nd & R & E). exists nd. split; [exact E|].
  exact (registry_sound _ nd R).
Defined.
