(* ===== verification/Route.v ===== *)
(** * The route table (nettrug/pta/route.c).

    The longest-prefix-match library behind it is the class [Lpm]. *)

From S2P Require Import Prelude Pktq EthBuf.

(** ** Prefixes and longest match *)

(** A byte string as a number, most significant byte first. *)
Definition be_bytes (a : list Z) : Z := foldl (fun acc b => acc * 256 + b) 0 a.

(** The first [plen] bits of [a] and [p] are the same. *)
Definition prefix_match (p : list Z) (plen : Z) (a : list Z) : bool :=
  (Nat.eqb (length p) (length a)) &&
  (Z.shiftr (be_bytes p) (8 * Z.of_nat (length a) - plen) =?
   Z.shiftr (be_bytes a) (8 * Z.of_nat (length a) - plen)).

(** The best entry for [a]: matching, the longest prefix, the earliest in the
    list among equals. *)
Fixpoint longest_match {V} (es : list (list Z * Z * V)) (a : list Z) : option (Z * V) :=
  match es with
  | [] => None
  | (p, plen, v) :: es' =>
      let r := longest_match es' a in
      if prefix_match p plen a then
        match r with
        | Some (l', v') => if plen <? l' then Some (l', v') else Some (plen, v)
        | None => Some (plen, v)
        end
      else r
  end.

(** ** The library's interface

    A table has entries (address, prefix length, value), newest first.
    Inserting adds one or fails for lack of memory and changes nothing;
    looking an address up gives the value of its longest matching prefix. *)
Class Lpm (L V : Type) := {
  lpm_create : L;
  lpm_insert : L -> list Z -> Z -> V -> option L;
  lpm_lookup : L -> list Z -> option V;
  lpm_entries : L -> list (list Z * Z * V);
  lpm_create_spec : lpm_entries lpm_create = [];
  lpm_insert_spec l a plen v l' :
    lpm_insert l a plen v = Some l' -> lpm_entries l' = (a, plen, v) :: lpm_entries l;
  lpm_lookup_spec l a : lpm_lookup l a = snd <$> longest_match (lpm_entries l) a
}.

(** The list of the entries implements the interface. *)
#[global] Program Instance list_lpm {V} : Lpm (list (list Z * Z * V)) V := {|
  lpm_create := [];
  lpm_insert l a plen v := Some ((a, plen, v) :: l);
  lpm_lookup l a := snd <$> longest_match l a;
  lpm_entries l := l
|}.
Next Obligation. reflexivity. Qed.
Next Obligation. cbn. congruence. Qed.
Next Obligation. reflexivity. Qed.

(** ** The table *)

Section route.
Context {L : Type} `{Lpm L route_info_t}.

Definition route_table_create (alloc : bool) : option L := if alloc then Some lpm_create else None.

(** [alloc]: whether the entry could be allocated. *)
Definition route_add (alloc : bool) (rtbl : L) (addr : list Z) (preflen : Z) (rt : route_info_t) : Z * L :=
  if negb alloc then (-1, rtbl) else
  match lpm_insert rtbl addr preflen rt with
  | None => (-1, rtbl)
  | Some l => (0, l)
  end.

Definition route_lookup (rtbl : L) (addr : list Z) : option route_info_t := lpm_lookup rtbl addr.

End route.
