(* ===== verification/Newlib.v ===== *)
(** * The C library routines of external/newlib that the router uses.

    A C string is a [string] (without its terminator).  [strsep] cuts a
    string in place; since the pieces do not overlap it is modelled as
    returning the token and the rest. *)

From Stdlib Require Import Ascii.
From stdpp Require Import strings.
From S2P Require Import Prelude.

#[local] Arguments String.append !_ _ / : simpl nomatch.

(** ** Characters *)

(** The value of a character as [unsigned char]. *)
Definition chr (c : ascii) : Z := Z.of_N (N_of_ascii c).

Definition isspace (c : ascii) : bool := ((9 <=? chr c) && (chr c <=? 13)) || (chr c =? 32).
Definition isdigit (c : ascii) : bool := (48 <=? chr c) && (chr c <=? 57).
Definition tolower (c : Z) : Z := if (65 <=? c) && (c <=? 90) then c + 32 else c.

(** The first character, 0 at the end of the string. *)
Definition head_chr (s : string) : Z := match s with EmptyString => 0 | String c _ => chr c end.

Definition str_tail (s : string) : string := match s with EmptyString => EmptyString | String _ s' => s' end.

(** [strchr(delim, c) != NULL] for a character that is not the terminator. *)
Fixpoint str_mem (c : ascii) (delim : string) : bool :=
  match delim with
  | EmptyString => false
  | String d ds => if ascii_dec c d then true else str_mem c ds
  end.

(** ** Tokens *)

(** The scan of [__strtok_r] after the first character of a token: the rest
    of the token, and what follows the delimiter (NULL at the end). *)
Fixpoint strtok_scan (delim s : string) : string * option string :=
  match s with
  | EmptyString => (EmptyString, None)
  | String c s' =>
      if str_mem c delim then (EmptyString, Some s')
      else let '(t, r) := strtok_scan delim s' in (String c t, r)
  end.

(** From the label [cont]. *)
Fixpoint strtok_cont (delim : string) (skip_leading_delim : bool) (s : string) : option string * option string :=
  match s with
  | EmptyString => (None, None)
  | String c s' =>
      if str_mem c delim then
        if skip_leading_delim then strtok_cont delim skip_leading_delim s'
        else (Some EmptyString, Some s')
      else let '(t, r) := strtok_scan delim s' in (Some (String c t), r)
  end.

(** The token and the new [*lasts]. *)
Definition strtok_r_internal (s : option string) (delim : string) (lasts : option string)
    (skip_leading_delim : bool) : option string * option string :=
  match s, lasts with
  | None, None => (None, lasts)
  | Some s, _ | None, Some s => strtok_cont delim skip_leading_delim s
  end.

Definition strtok_r (s : option string) (delim : string) (lasts : option string) : option string * option string :=
  strtok_r_internal s delim lasts true.

Definition strsep (source : option string) (delim : string) : option string * option string :=
  strtok_r_internal source delim source false.

(** The suffix of [s1] from its first character that is in [s2]. *)
Fixpoint strpbrk (s1 s2 : string) : option string :=
  match s1 with
  | EmptyString => None
  | String c s1' => if str_mem c s2 then Some s1 else strpbrk s1' s2
  end.

(** The difference of the first characters that differ, ignoring case. *)
Fixpoint strcasecmp (s1 s2 : string) : Z :=
  match s1, s2 with
  | String c1 s1', String c2 s2' =>
      let d := tolower (chr c1) - tolower (chr c2) in
      if negb (d =? 0) then d else strcasecmp s1' s2'
  | _, _ => tolower (head_chr s1) - tolower (head_chr s2)
  end.

(** ** Numbers *)

Definition LONG_MAX : Z := 2147483647.
Definition LONG_MIN : Z := -2147483648.

Fixpoint skip_space (s : string) : string :=
  match s with
  | String c s' => if isspace c then skip_space s' else s
  | EmptyString => EmptyString
  end.

(** The value of a digit in a base up to 36. *)
Definition digit_val (c : ascii) : option Z :=
  let c := chr c in
  if (48 <=? c) && (c <=? 57) then Some (c - 48) else
  if (65 <=? c) && (c <=? 90) then Some (c - (65 - 10)) else
  if (97 <=? c) && (c <=? 122) then Some (c - (97 - 10)) else None.

(** The conversion loop: [any], [acc] and the unread rest. *)
Fixpoint strtol_loop (base cutoff cutlim any acc : Z) (s : string) : Z * Z * string :=
  match s with
  | EmptyString => (any, acc, s)
  | String c s' =>
      match digit_val c with
      | None => (any, acc, s)
      | Some v =>
          if base <=? v then (any, acc, s) else
          if (any <? 0) || (cutoff <? acc) || ((acc =? cutoff) && (cutlim <? v)) then
            strtol_loop base cutoff cutlim (-1) acc s'
          else strtol_loop base cutoff cutlim 1 (u32 (u32 (acc * base) + v)) s'
      end
  end.

(** The result and [*endptr]. *)
Definition strtol (nptr : string) (base : Z) : Z * string :=
  if (base <? 0) || (base =? 1) || (36 <? base) then (0, nptr) else
  let s := skip_space nptr in
  let neg := head_chr s =? 45 in
  let s := if neg || (head_chr s =? 43) then str_tail s else s in
  let hex := ((base =? 0) || (base =? 16)) && (head_chr s =? 48) &&
             ((head_chr (str_tail s) =? 120) || (head_chr (str_tail s) =? 88)) in
  let s := if hex then str_tail (str_tail s) else s in
  let base := if hex then 16 else base in
  let base := if base =? 0 then (if head_chr s =? 48 then 8 else 10) else base in
  let cutoff := if neg then 2147483648 else LONG_MAX in
  let '(any, acc, rest) := strtol_loop base (cutoff / base) (cutoff mod base) 0 0 s in
  let acc := if any <? 0 then (if neg then u32 LONG_MIN else LONG_MAX) else
             if neg then u32 (- acc) else acc in
  (i32 acc, if any =? 0 then nptr else rest).

Definition atoi (s : string) : Z := i32 (fst (strtol s 10)).

(** ** Addresses *)

(** The loop of [inet_pton4] over the string; [tp] indexes [tmp]. *)
Fixpoint inet_pton4_loop (src : string) (tmp : list Z) (tp : Z) (saw_digit : bool) (octets : Z)
    : outcome (option (list Z)) :=
  match src with
  | EmptyString => Ok (if octets <? 4 then None else Some tmp)
  | String ch src' =>
      if isdigit ch then
        v ← aget tmp tp;
        let new := u32 (v * 10 + (chr ch - 48)) in
        if 255 <? new then Ok None else
        tmp ← aset tmp tp new;
        if negb saw_digit then
          if 4 <? octets + 1 then Ok None else inet_pton4_loop src' tmp tp true (octets + 1)
        else inet_pton4_loop src' tmp tp saw_digit octets
      else if (chr ch =? 46) && saw_digit then
        if octets =? 4 then Ok None else
        tmp ← aset tmp (tp + 1) 0;
        inet_pton4_loop src' tmp (tp + 1) false octets
      else Ok None
  end.

(** Returns 1 and the address, or 0.  [tmp0]: what the stack holds in [tmp]. *)
Definition inet_pton4 (tmp0 : list Z) (src : string) : outcome (option (list Z)) :=
  tmp ← aset tmp0 0 0;
  inet_pton4_loop src tmp 0 false 0.

Definition AF_INET : Z := 2.

(** ** What the routines compute *)

(** The pieces of a string between the characters of [delim]. *)
Fixpoint split_on (delim s : string) : list string :=
  match s with
  | EmptyString => [EmptyString]
  | String c s' =>
      if str_mem c delim then EmptyString :: split_on delim s'
      else match split_on delim s' with
           | [] => [String c EmptyString]
           | p :: ps => String c p :: ps
           end
  end.

Fixpoint all_digits (s : string) : bool :=
  match s with EmptyString => true | String c s' => isdigit c && all_digits s' end.

(** Decimal value of a digit string, continuing from [acc]. *)
Fixpoint dec_from (acc : Z) (s : string) : Z :=
  match s with EmptyString => acc | String c s' => dec_from (acc * 10 + (chr c - 48)) s' end.

(** A decimal octet, and a dotted quad of them. *)
Definition octet_from (acc : Z) (saw : bool) (s : string) : option Z :=
  if (saw || negb (bool_decide (s = EmptyString))) && all_digits s && (dec_from acc s <=? 255)
  then Some (dec_from acc s) else None.

Definition octet_of (s : string) : option Z := octet_from 0 false s.

Definition dotted_quad (s : string) : option (list Z) :=
  let ps := split_on "."%string s in
  if Nat.eqb (length ps) 4 then mapM octet_of ps else None.

(** ** Lemmas *)

Lemma chr_digit c : isdigit c = true -> 48 <= chr c <= 57.
Proof. unfold isdigit. lia. Qed.

Lemma dec_from_mono s : forall acc, 0 <= acc -> all_digits s = true -> acc <= dec_from acc s.
Proof.
  induction s as [|c s IH]; cbn; intros acc Ha Hd; [lia|].
  apply andb_true_iff in Hd as [Hc Hd]. apply chr_digit in Hc.
  specialize (IH (acc * 10 + (chr c - 48)) ltac:(lia) Hd). lia.
Qed.

Lemma split_on_cons delim s : exists p ps, split_on delim s = p :: ps.
Proof.
  induction s as [|c s (p & ps & E)]; cbn; [eauto|].
  destruct (str_mem c delim); [eauto|]. rewrite E. eauto.
Qed.

Lemma dot_mem c : str_mem c "."%string = (chr c =? 46).
Proof.
  cbn. destruct (ascii_dec c "."%char) as [->|N]; [done|]. symmetry. apply Z.eqb_neq. intros E. apply N.
  rewrite <- (ascii_N_embedding c). unfold chr in E. replace (N_of_ascii c) with 46%N by lia. done.
Qed.

Lemma digit_not_dot c : isdigit c = true -> str_mem c "."%string = false.
Proof. rewrite dot_mem. unfold isdigit. lia. Qed.

(** What the rest of the pieces must be, with [done] octets read. *)
Definition quad_rest (done : list Z) (cur : Z) (saw : bool) (ps : list string) : option (list Z) :=
  match ps with
  | [] => None
  | p :: ps =>
      if Nat.eqb (length done + 1 + length ps) 4 then
        v ← octet_from cur saw p; vs ← mapM octet_of ps; Some (done ++ v :: vs)
      else None
  end.

(** The part of the array up to [tp]. *)
Definition tmp_ok (tmp done : list Z) (cur : Z) : Prop :=
  length tmp = 4%nat /\ take (length done) tmp = done /\ tmp !! length done = Some cur.

Lemma octet_from_step cur saw c p :
  isdigit c = true -> octet_from cur saw (String c p) = octet_from (cur * 10 + (chr c - 48)) true p.
Proof. intros Hc. unfold octet_from. cbn. rewrite Hc, bool_decide_eq_false_2 by done. by destruct saw. Qed.

Lemma octet_from_big cur saw p : 255 < cur -> octet_from cur saw p = None.
Proof.
  intros Hc. unfold octet_from. destruct (all_digits p) eqn:Hd; [|by rewrite andb_false_r].
  pose proof (dec_from_mono p cur ltac:(lia) Hd). rewrite (proj2 (Z.leb_gt _ _)), andb_false_r by lia. done.
Qed.

Lemma quad_rest_bad done cur saw p ps :
  octet_from cur saw p = None -> quad_rest done cur saw (p :: ps) = None.
Proof. intros E. cbn. rewrite E. by destruct (Nat.eqb _ _). Qed.

Lemma tmp_ok_get tmp done cur : tmp_ok tmp done cur -> aget tmp (Z.of_nat (length done)) = Ok cur.
Proof.
  intros (_ & _ & E). unfold aget. rewrite (proj2 (Z.ltb_ge _ _)), Nat2Z.id, E by lia. done.
Qed.

Lemma tmp_ok_set tmp done cur new :
  tmp_ok tmp done cur ->
  exists tmp', aset tmp (Z.of_nat (length done)) new = Ok tmp' /\ tmp_ok tmp' done new.
Proof.
  intros (Hl & Ht & E). pose proof (lookup_lt_Some _ _ _ E). unfold aset.
  rewrite (proj2 (Z.ltb_ge _ _)), (proj2 (Z.leb_gt _ _)), Nat2Z.id by lia. eexists. split; [done|].
  split; [by rewrite length_insert|]. split; [|by apply list_lookup_insert_eq].
  rewrite take_insert_ge by lia. done.
Qed.

Lemma tmp_ok_next tmp done cur :
  tmp_ok tmp done cur -> (length done < 3)%nat ->
  exists tmp', aset tmp (Z.of_nat (length done) + 1) 0 = Ok tmp' /\ tmp_ok tmp' (done ++ [cur]) 0.
Proof.
  intros (Hl & Ht & E) H3. unfold aset.
  rewrite (proj2 (Z.ltb_ge _ _)), (proj2 (Z.leb_gt _ _)) by lia. cbn [orb].
  replace (Z.to_nat (Z.of_nat (length done) + 1)) with (S (length done)) by lia.
  eexists. split; [done|]. unfold tmp_ok. rewrite length_insert, length_app. cbn.
  replace (length done + 1)%nat with (S (length done)) by lia. split; [done|].
  split; [|apply list_lookup_insert_eq; lia].
  rewrite take_insert_ge by lia. rewrite (take_S_r _ _ cur) by done. by rewrite Ht.
Qed.

Lemma tmp_ok_full tmp done cur : tmp_ok tmp done cur -> length done = 3%nat -> tmp = done ++ [cur].
Proof.
  intros (Hl & Ht & E) H3. rewrite <- (take_drop 3 tmp), <- H3, Ht. f_equal.
  rewrite (drop_S _ cur) by done. f_equal. apply drop_ge. lia.
Qed.

Lemma pton4_loop_spec s : forall tmp done cur saw,
  tmp_ok tmp done cur -> 0 <= cur <= 255 -> (length done < 4)%nat ->
  inet_pton4_loop s tmp (Z.of_nat (length done)) saw (Z.of_nat (length done) + (if saw then 1 else 0))
    = Ok (quad_rest done cur saw (split_on "."%string s)).
Proof.
  induction s as [|c s IH]; intros tmp done cur saw Ht Hc Hd.
  - cbn. unfold octet_from. cbn. rewrite (proj2 (Z.leb_le cur 255)) by lia. destruct saw; cbn.
    + destruct (Z.ltb_spec (Z.of_nat (length done) + 1) 4), (Nat.eqb_spec (length done + 1 + 0) 4); try lia; [done|].
      rewrite (tmp_ok_full tmp done cur) by (done || lia). done.
    + rewrite (proj2 (Z.ltb_lt _ _)) by lia. by destruct (Nat.eqb _ _).
  - cbn [inet_pton4_loop split_on]. destruct (isdigit c) eqn:Hdig.
    + rewrite (tmp_ok_get _ _ _ Ht), digit_not_dot by done. cbn [mbind outcome_bind].
      destruct (split_on_cons "."%string s) as (p & ps & E). rewrite E.
      pose proof (chr_digit c Hdig). rewrite u32_small by lia.
      destruct (Z.ltb_spec 255 (cur * 10 + (chr c - 48))).
      { rewrite quad_rest_bad; [done|]. rewrite octet_from_step by done. by apply octet_from_big. }
      destruct (tmp_ok_set tmp done cur (cur * 10 + (chr c - 48)) Ht) as (tmp' & -> & Ht').
      specialize (IH tmp' done (cur * 10 + (chr c - 48)) true Ht' ltac:(lia) Hd). rewrite E in IH.
      assert (Q : quad_rest done cur saw (String c p :: ps) = quad_rest done (cur * 10 + (chr c - 48)) true (p :: ps))
        by (cbn; by rewrite octet_from_step).
      cbn [mbind outcome_bind]. rewrite Q, <- IH. destruct saw; cbn [negb]; [done|].
      rewrite (proj2 (Z.ltb_ge _ _)) by lia. f_equal. lia.
    + rewrite dot_mem. destruct (Z.eqb_spec (chr c) 46) as [Hdot|Hdot]; cbn [andb].
      * destruct saw; [|by rewrite quad_rest_bad].
        destruct (split_on_cons "."%string s) as (p & ps & E).
        destruct (Z.eqb_spec (Z.of_nat (length done) + 1) 4).
        { cbn. rewrite E. cbn. destruct (Nat.eqb_spec (length done + 1 + S (length ps)) 4); [lia|done]. }
        destruct (tmp_ok_next tmp done cur Ht) as (tmp' & -> & Ht'); [lia|]. cbn [mbind outcome_bind].
        specialize (IH tmp' (done ++ [cur]) 0 false Ht' ltac:(lia)). rewrite length_app in IH. cbn in IH.
        rewrite Nat2Z.inj_add in IH. rewrite Z.add_0_r in IH. change (Z.of_nat 1) with 1 in IH. rewrite IH by lia. f_equal.
        rewrite E. cbn. rewrite length_app. cbn. unfold octet_from at 2. cbn.
        rewrite (proj2 (Z.leb_le cur 255)) by lia. cbn.
        replace (length done + 1 + S (length ps))%nat with (length done + 1 + 1 + length ps)%nat by lia.
        destruct (Nat.eqb _ 4); [|done]. change (octet_of p) with (octet_from 0 false p). destruct (octet_from 0 false p); [|done]. cbn.
        destruct (mapM octet_of ps); [|done]. cbn. by rewrite <- app_assoc.
      * destruct (split_on_cons "."%string s) as (p & ps & ->). rewrite quad_rest_bad; [done|].
        unfold octet_from. cbn. by rewrite Hdig, andb_false_r.
Qed.

(** No decimal digit at the start. *)
Definition stops (s : string) : Prop :=
  match s with
  | EmptyString => True
  | String c _ => match digit_val c with None => True | Some v => 10 <= v end
  end.

Lemma digit_val_digit c : isdigit c = true -> digit_val c = Some (chr c - 48).
Proof. unfold digit_val, isdigit. by intros ->. Qed.

(** The accumulation of [strtol] on decimal digits up to a limit [m]: exact
    while the value is at most [m], and flagged beyond. *)
Lemma strtol_loop_spec m ds rest : forall any acc,
  0 <= acc <= m -> 0 <= any -> m < 4294967296 -> 10 <= m -> all_digits ds = true -> stops rest ->
  exists any' acc', strtol_loop 10 (m / 10) (m mod 10) any acc (String.append ds rest) = (any', acc', rest) /\
    if dec_from acc ds <=? m then acc' = dec_from acc ds /\ (any' = any /\ ds = EmptyString \/ any' = 1)
    else any' = -1.
Proof.
  pose proof (fun c (H : isdigit c = true) => conj (digit_val_digit c H) (chr_digit c H)) as Dg.
  assert (Neg : forall s acc, all_digits s = true -> stops rest ->
     exists acc', strtol_loop 10 (m / 10) (m mod 10) (-1) acc (String.append s rest) = (-1, acc', rest)).
  { induction s as [|c s IH]; cbn; intros acc Hs Hr.
    - exists acc. destruct rest as [|c r]; [done|]. cbn in *. destruct (digit_val c); [|done].
      rewrite (proj2 (Z.leb_le _ _)) by done. done.
    - apply andb_true_iff in Hs as [Hc Hs]. destruct (Dg c Hc) as [-> ?]. rewrite (proj2 (Z.leb_gt _ _)) by lia. auto. }
  induction ds as [|c ds IH]; cbn; intros any acc Ha Hy Hm1 Hm2 Hd Hr.
  - rewrite (proj2 (Z.leb_le acc m)) by lia. exists any, acc. split; [|auto].
    destruct rest as [|c r]; [done|]. cbn in *. destruct (digit_val c); [|done].
    rewrite (proj2 (Z.leb_le _ _)) by done. done.
  - apply andb_true_iff in Hd as [Hc Hd]. destruct (Dg c Hc) as [-> ?]. rewrite (proj2 (Z.leb_gt 10 _)) by lia.
    rewrite (proj2 (Z.ltb_ge any 0)) by lia. cbn.
    pose proof (Z.div_mod m 10 ltac:(lia)) as Em. pose proof (Z.mod_pos_bound m 10 ltac:(lia)).
    destruct ((m / 10 <? acc) || ((acc =? m / 10) && (m mod 10 <? chr c - 48))) eqn:Over.
    + destruct (Neg ds acc Hd Hr) as (acc' & ->). exists (-1), acc'. split; [done|].
      pose proof (dec_from_mono ds (acc * 10 + (chr c - 48)) ltac:(lia) Hd).
      rewrite (proj2 (Z.leb_gt _ _)) by lia. done.
    + rewrite !u32_small by (rewrite ?u32_small by lia; lia).
      destruct (IH 1 (acc * 10 + (chr c - 48)) ltac:(lia) ltac:(lia) Hm1 Hm2 Hd Hr) as (any' & acc' & -> & Hres).
      exists any', acc'. split; [done|]. destruct (_ <=? m); intuition.
Qed.

Lemma pton4_spec tmp0 s : length tmp0 = 4%nat -> inet_pton4 tmp0 s = Ok (dotted_quad s).
Proof.
  intros Hl. unfold inet_pton4. destruct tmp0 as [|x [|y [|z [|w []]]]]; try done.
  cbn. pose proof (pton4_loop_spec s [0; y; z; w] [] 0 false) as P. cbn [length] in P.
  change (Z.of_nat 0 + 0) with 0 in P. change (Z.of_nat 0) with 0 in P.
  change (aset [x; y; z; w] 0 0) with (Ok [0; y; z; w]). cbn [mbind outcome_bind].
  rewrite P; [|by split_and!|lia|cbn; lia].
  unfold dotted_quad. destruct (split_on_cons "."%string s) as (p & ps & ->). cbn.
  destruct (Nat.eqb (length ps) 3); [|done]. change (octet_of p) with (octet_from 0 false p).
  destruct (octet_from 0 false p); [|done]. cbn. by destruct (mapM octet_of ps).
Qed.

(** ** Properties *)

(** C34. [inet_pton4] accepts exactly the dotted quads, i.e. four non-empty
    decimal numbers up to 255 separated by dots, returns their values in
    order, and never touches memory outside its four-byte array, whatever the
    string and whatever the array held. *)
Theorem inet_pton4_dotted_quad tmp0 s :
  length tmp0 = 4%nat -> inet_pton4 tmp0 s = Ok (dotted_quad s).
Proof. apply pton4_spec. Qed.

Lemma inet_pton4_dotted_quad_witness :
  inet_pton4 [7; 7; 7; 7] "172.16.0.49"%string = Ok (Some [172; 16; 0; 49]).
Proof. rewrite (inet_pton4_dotted_quad [7; 7; 7; 7] "172.16.0.49"%string eq_refl). reflexivity. Defined.

(** [strtol] in base 10 on a non-empty run of decimal digits, ended by
    anything but a decimal digit: the result is the number, clamped to
    [LONG_MAX], or with a minus sign in front its negation, clamped to
    [LONG_MIN]; the end pointer is behind the last digit. *)
Theorem strtol_decimal ds rest :
  ds <> EmptyString -> all_digits ds = true -> stops rest ->
  strtol (String.append ds rest) 10 = (Z.min (dec_from 0 ds) LONG_MAX, rest) /\
  strtol (String "-"%char (String.append ds rest)) 10 = (Z.max (- dec_from 0 ds) LONG_MIN, rest).
Proof.
  intros Hne Hd Hr. destruct ds as [|c ds]; [done|].
  pose proof Hd as Hd'. cbn in Hd'. apply andb_true_iff in Hd' as [Hc _]. pose proof (chr_digit c Hc).
  assert (Hsp : isspace c = false) by (unfold isspace; lia).
  pose proof (dec_from_mono (String c ds) 0 ltac:(lia) Hd) as Hpos.
  set (s := String.append (String c ds) rest) in *.
  assert (Hs : skip_space s = s) by (cbn; by rewrite Hsp).
  assert (Hh : head_chr s = chr c) by done.
  unfold strtol. cbn [Z.ltb Z.eqb Z.compare orb andb Pos.compare Pos.compare_cont Pos.eqb]. split.
  - rewrite Hs, Hh, !(proj2 (Z.eqb_neq (chr c) _)) by lia. cbn [orb].
    destruct (strtol_loop_spec LONG_MAX (String c ds) rest 0 0) as (any & acc & E & Hv); try done; try (unfold LONG_MAX; lia).
    fold s in E. cbn [Z.eqb]. rewrite E. unfold LONG_MAX, i32 in *.
    destruct (Z.leb_spec (dec_from 0 (String c ds)) 2147483647).
    + destruct Hv as [-> [[_ ?]| ->]]; [done|]. cbn [Z.ltb Z.compare Z.eqb]. rewrite Z.mod_small by lia. f_equal. lia.
    + subst any. cbn [Z.ltb Z.compare Z.eqb]. rewrite Z.min_r by lia. done.
  - change (skip_space (String "-" s)) with (String "-" s). change (head_chr (String "-" s)) with 45. change (str_tail (String "-" s)) with s.
    cbn [Z.eqb Pos.eqb orb]. 
    destruct (strtol_loop_spec 2147483648 (String c ds) rest 0 0) as (any & acc & E & Hv); try done; try lia.
    fold s in E. rewrite E. unfold LONG_MIN, i32, u32 in *.
    destruct (Z.leb_spec (dec_from 0 (String c ds)) 2147483648).
    + destruct Hv as [-> [[_ ?]| ->]]; [done|]. cbn [Z.ltb Z.compare Z.eqb]. rewrite Z.max_l by lia. f_equal.
      destruct (Z.eq_dec (dec_from 0 (String c ds)) 0) as [->|]; [done|].
      replace (- dec_from 0 (String c ds)) with (4294967296 - dec_from 0 (String c ds) + (-1) * 4294967296) at 1 by lia.
      rewrite Z_mod_plus_full, (Z.mod_small (4294967296 - _)) by lia.
      destruct (Z.eq_dec (dec_from 0 (String c ds)) 2147483648) as [->|]; [done|].
      replace (4294967296 - dec_from 0 (String c ds) + 2147483648) with (2147483648 - dec_from 0 (String c ds) + 1 * 4294967296) by lia.
      rewrite Z_mod_plus_full, Z.mod_small by lia. lia.
    + subst any. cbn [Z.ltb Z.compare Z.eqb]. rewrite Z.max_r by lia. done.
Qed.

Lemma strtol_decimal_witness :
  strtol "4096 "%string 10 = (4096, " "%string) /\ strtol "-4096 "%string 10 = (-4096, " "%string).
Proof. apply (strtol_decimal "4096"%string " "%string); done. Defined.
