(* ===== verification/Inet6.v ===== *)
(** * IPv6 addresses (external/newlib/src/inet_pton.c).

    [inet_pton6] reads an address into an array of 16 bytes; a double colon
    is remembered as a position, and what follows it is moved to the end once
    the text has been read.  The gateway configures IPv4 only: nothing but
    [inet_pton] calls it. *)

From Stdlib Require Import Ascii String.
From S2P Require Import Prelude Newlib.

Definition NS_IN6ADDRSZ : Z := 16.
Definition AF_INET6 : Z := 10.

(** The value of a hexadecimal digit, in either of the two tables. *)
Definition xdigit (c : ascii) : option Z :=
  if isdigit c then Some (chr c - 48) else
  if (97 <=? chr c) && (chr c <=? 102) then Some (chr c - 87) else
  if (65 <=? chr c) && (chr c <=? 70) then Some (chr c - 55) else None.

(** What the loop ends with: [tmp], [tp] and [colonp] as indices into it,
    [saw_xdigit] and [val]. *)
Definition pton6_st : Type := list Z * Z * option Z * bool * Z.

(** Two bytes at [tp]. *)
Definition put_group (tmp : list Z) (tp val : Z) : outcome (list Z) :=
  tmp ← aset tmp tp (u8 (Z.shiftr val 8));
  aset tmp (tp + 1) (u8 val).

(** The loop; no state when 0 is returned.  [tmp0]: what the stack holds in
    the array of [inet_pton4]. *)
Fixpoint inet_pton6_loop (tmp0 : list Z) (src curtok : string) (tmp : list Z) (tp : Z) (colonp : option Z)
    (saw_xdigit : bool) (val : Z) : outcome (option pton6_st) :=
  match src with
  | EmptyString => Ok (Some (tmp, tp, colonp, saw_xdigit, val))
  | String ch src' =>
      match xdigit ch with
      | Some d =>
          let val := Z.lor (u32 (Z.shiftl val 4)) d in
          if 0xffff <? val then Ok None else inet_pton6_loop tmp0 src' curtok tmp tp colonp true val
      | None =>
          if chr ch =? 58 then
            if negb saw_xdigit then
              match colonp with
              | Some _ => Ok None
              | None => inet_pton6_loop tmp0 src' src' tmp tp (Some tp) saw_xdigit val
              end
            else if NS_IN6ADDRSZ <? tp + 2 then Ok None else
            tmp ← put_group tmp tp val;
            inet_pton6_loop tmp0 src' src' tmp (tp + 2) colonp false 0
          else if (chr ch =? 46) && (tp + 4 <=? NS_IN6ADDRSZ) then
            a ← inet_pton4 tmp0 curtok;
            match a with
            | None => Ok None
            | Some a => tmp ← mem_write tmp tp a; Ok (Some (tmp, tp + 4, colonp, false, val))
            end
          else Ok None
      end
  end.

(** The shift by hand, [k] rounds from round [i] on. *)
Fixpoint shift_loop (k : nat) (i n colonp : Z) (tmp : list Z) : outcome (list Z) :=
  match k with
  | O => Ok tmp
  | S k' =>
      v ← aget tmp (colonp + n - i);
      tmp ← aset tmp (NS_IN6ADDRSZ - i) v;
      tmp ← aset tmp (colonp + n - i) 0;
      shift_loop k' (i + 1) n colonp tmp
  end.

(** What follows the loop. *)
Definition pton6_finish (st : pton6_st) : outcome (option (list Z)) :=
  let '(tmp, tp, colonp, saw_xdigit, val) := st in
  if saw_xdigit && (NS_IN6ADDRSZ <? tp + 2) then Ok None else
  '(tmp, tp) ← (if (saw_xdigit : bool) then tmp ← put_group tmp tp val; Ok (tmp, tp + 2) else Ok (tmp, tp));
  '(tmp, tp) ← (match colonp with
                | Some c => tmp ← shift_loop (Z.to_nat (tp - c)) 1 (tp - c) c tmp; Ok (tmp, NS_IN6ADDRSZ)
                | None => Ok (tmp, tp)
                end);
  if negb (tp =? NS_IN6ADDRSZ) then Ok None else Ok (Some tmp).

Definition inet_pton6 (tmp0 : list Z) (src : string) : outcome (option (list Z)) :=
  let tmp := replicate (Z.to_nat NS_IN6ADDRSZ) 0 in
  let start src := st ← inet_pton6_loop tmp0 src src tmp 0 None false 0;
                   match st with None => Ok None | Some st => pton6_finish st end in
  match src with
  | String c src' =>
      if chr c =? 58 then
        match src' with
        | String c' _ => if chr c' =? 58 then start src' else Ok None
        | EmptyString => Ok None
        end
      else start src
  | EmptyString => start src
  end.

(** The result: 1 with the address, 0, or -1. *)
Definition inet_pton (af : Z) (tmp0 : list Z) (src : string) : outcome (Z * option (list Z)) :=
  if af =? AF_INET then a ← inet_pton4 tmp0 src; Ok (match a with Some _ => 1 | None => 0 end, a) else
  if af =? AF_INET6 then a ← inet_pton6 tmp0 src; Ok (match a with Some _ => 1 | None => 0 end, a) else
  Ok (-1, None).

(** ** No access outside the arrays *)

Lemma put_group_safe tmp tp val : length tmp = 16%nat -> 0 <= tp <= 14 -> exists t, put_group tmp tp val = Ok t /\ length t = 16%nat.
Proof.
  intros Hl Ht. unfold put_group. rewrite aset_ok by lia. cbn [mbind outcome_bind]. rewrite aset_ok by (rewrite length_insert; lia).
  eexists. split; [done|]. by rewrite !length_insert.
Qed.

Definition st_ok (st : pton6_st) : Prop :=
  let '(tmp, tp, colonp, _, _) := st in length tmp = 16%nat /\ 0 <= tp <= 16 /\ (forall c, colonp = Some c -> 0 <= c <= tp).

Lemma loop6_safe tmp0 src curtok tmp tp colonp saw val :
  length tmp0 = 4%nat -> st_ok (tmp, tp, colonp, saw, val) ->
  exists r, inet_pton6_loop tmp0 src curtok tmp tp colonp saw val = Ok r /\ forall st, r = Some st -> st_ok st.
Proof.
  intros H0. revert curtok tmp tp colonp saw val. induction src as [|ch src IH]; intros curtok tmp tp colonp saw val Hst; cbn [inet_pton6_loop].
  { eexists. split; [done|]. by intros st [= <-]. }
  assert (Hno : exists r : option pton6_st, Ok None = Ok r /\ forall st, r = Some st -> st_ok st) by (by eexists).
  destruct (xdigit ch); [case_match; [done|by apply IH]|]. destruct Hst as (Hl & Ht & Hc). case_match.
  - destruct saw; cbn [negb].
    + case_match eqn:Ee; [done|]. apply Z.ltb_ge in Ee. unfold NS_IN6ADDRSZ in *. destruct (put_group_safe tmp tp val) as (t & -> & Hl'); [done|lia|].
      apply IH. split; [done|]. split; [lia|]. intros c Hcc. specialize (Hc c Hcc). lia.
    + destruct colonp; [done|]. apply IH. split; [done|]. split; [done|]. intros c [= <-]. lia.
  - case_match eqn:Ee; [|done]. apply andb_true_iff in Ee as [_ Ee]. apply Z.leb_le in Ee. unfold NS_IN6ADDRSZ in *. rewrite pton4_spec by done. cbn [mbind outcome_bind].
    destruct (dotted_quad curtok) as [a|] eqn:Eq; [|done]. assert (length a = 4%nat) as Ha.
    { unfold dotted_quad in Eq. case_match eqn:E4; [|done]. apply Nat.eqb_eq in E4. rewrite <- E4. symmetry. by eapply length_mapM. }
    rewrite mem_write_ok by lia. eexists. split; [done|]. intros st [= <-]. split; [|split; [lia|intros c Hcc; specialize (Hc c Hcc); lia]].
    unfold blit. rewrite !length_app, length_take, length_drop. lia.
Qed.

Lemma shift_safe k i n c tmp : length tmp = 16%nat -> 1 <= i -> 0 <= c -> Z.of_nat k + i = n + 1 -> c + n <= 16 ->
  exists t, shift_loop k i n c tmp = Ok t /\ length t = 16%nat.
Proof.
  revert i tmp. induction k as [|k IH]; intros i tmp Hl Hi Hc Hk Hn; cbn [shift_loop]; [by eexists|].
  destruct (aget_in_range tmp (c + n - i)) as [v ->]; [lia|]. cbn [mbind outcome_bind]. unfold NS_IN6ADDRSZ. rewrite aset_ok by lia. cbn [mbind outcome_bind].
  rewrite aset_ok by (rewrite length_insert; lia). cbn [mbind outcome_bind]. apply IH; [by rewrite !length_insert|lia..].
Qed.

Lemma finish_safe st : st_ok st -> exists r, pton6_finish st = Ok r /\ forall a, r = Some a -> length a = 16%nat.
Proof.
  destruct st as [[[[tmp tp] colonp] saw] val]. intros (Hl & Ht & Hc). unfold pton6_finish, NS_IN6ADDRSZ.
  destruct (saw && (16 <? tp + 2)) eqn:Ee; [by eexists|].
  assert (exists t p, (if saw then tmp ← put_group tmp tp val; Ok (tmp, tp + 2) else Ok (tmp, tp)) = Ok (t, p) /\ length t = 16%nat /\ tp <= p <= 16) as (t & p & -> & Hl' & Hp).
  { destruct saw; [|exists tmp, tp; split; [done|lia]]. cbn in Ee. apply Z.ltb_ge in Ee. destruct (put_group_safe tmp tp val) as (t & -> & ?); [done|lia|]. exists t, (tp + 2). split; [done|lia]. }
  cbn [mbind outcome_bind]. destruct colonp as [c|].
  - specialize (Hc c eq_refl). destruct (shift_safe (Z.to_nat (p - c)) 1 (p - c) c t) as (t' & -> & ?); try done; try lia. cbn. eexists. split; [done|]. by intros a [= <-].
  - cbn. destruct (negb _); eexists; (split; [done|]); intros a; [done|by intros [= <-]].
Qed.

(** Whatever the text: 0 or an address of 16 bytes, and no access outside the
    array (nor to the text behind its end). *)
Theorem inet_pton6_safe tmp0 s : length tmp0 = 4%nat -> exists r, inet_pton6 tmp0 s = Ok r /\ forall a, r = Some a -> length a = 16%nat.
Proof.
  intros H0. assert (forall s, exists r, (st ← inet_pton6_loop tmp0 s s (replicate 16 0) 0 None false 0; match st with None => Ok None | Some st => pton6_finish st end) = Ok r /\
    forall a, r = Some a -> length a = 16%nat) as Hstart.
  { intros src. destruct (loop6_safe tmp0 src src (replicate 16 0) 0 None false 0 H0) as (r & -> & Hr); [by split_and!|]. cbn [mbind outcome_bind].
    destruct r as [st|]; [by apply finish_safe, Hr|by eexists]. }
  unfold inet_pton6. change (Z.to_nat NS_IN6ADDRSZ) with 16%nat. destruct s as [|c s]; [apply Hstart|]. case_match; [|apply Hstart].
  destruct s as [|c' s]; [by eexists|]. case_match; [apply Hstart|by eexists].
Qed.

(** ** What it reads *)

(** The value of a group of hexadecimal digits, continuing from [acc]. *)
Fixpoint hex_from (acc : Z) (s : string) : option Z :=
  match s with
  | EmptyString => Some acc
  | String c s' => d ← xdigit c; hex_from (16 * acc + d) s'
  end.

(** A group: digits, at least one, with a value of 16 bits. *)
Definition group (s : string) (v : Z) : Prop := s <> EmptyString /\ hex_from 0 s = Some v /\ v < 65536.

Definition colon : ascii := ":"%char.

(** Groups, each with a colon behind it. *)
Definition colons (gs : list string) (rest : string) : string := foldr (fun g acc => (g ++ String colon acc)%string) rest gs.

Fixpoint join_groups (gs : list string) : string :=
  match gs with
  | [] => EmptyString
  | [g] => g
  | g :: gs' => (g ++ String colon (join_groups gs'))%string
  end.

(** The text of an address with a double colon between two lists of groups. *)
Definition text6 (ls rs : list string) : string :=
  match ls with
  | [] => String colon (String colon (join_groups rs))
  | _ => colons ls (String colon (join_groups rs))
  end.

Definition group_bytes (vs : list Z) : list Z := vs ≫= fun v => [u8 (Z.shiftr v 8); u8 v].

Lemma length_group_bytes vs : length (group_bytes vs) = (2 * length vs)%nat.
Proof. induction vs as [|v vs IH]; [done|]. change (group_bytes (v :: vs)) with (group_bytes [v] ++ group_bytes vs). rewrite length_app, IH. cbn. lia. Qed.

Lemma append_empty s : (s ++ EmptyString)%string = s.
Proof. induction s as [|c s IH]; [done|]. change (String c s ++ EmptyString)%string with (String c (s ++ EmptyString)). by rewrite IH. Qed.

Lemma xdigit_range c d : xdigit c = Some d -> 0 <= d < 16.
Proof. unfold xdigit, isdigit. repeat case_match; intros [= <-]; lia. Qed.

Lemma hex_mono s acc v : hex_from acc s = Some v -> 0 <= acc -> acc <= v.
Proof.
  revert acc. induction s as [|c s IH]; intros acc; cbn; [intros [= ->]; lia|].
  destruct (xdigit c) as [d|] eqn:Ed; [|done]. cbn. intros Hv Ha. apply xdigit_range in Ed. specialize (IH _ Hv). lia.
Qed.

Lemma shl_digit v d : 0 <= v < 65536 -> 0 <= d < 16 -> Z.lor (u32 (Z.shiftl v 4)) d = 16 * v + d.
Proof.
  intros Hv Hd. rewrite Z.shiftl_mul_pow2 by lia. rewrite u32_small by lia. assert (Z.land (v * 2 ^ 4) d = 0) as Hz.
  { apply Z.bits_inj'. intros n Hn. rewrite Z.land_spec, Z.bits_0. destruct (Z.ltb_spec n 4); [by rewrite Z.mul_pow2_bits_low by lia|].
    rewrite <- (Z.mod_small d (2 ^ 4)) by lia. rewrite Z.mod_pow2_bits_high by lia. apply andb_false_r. }
  rewrite <- Z.lxor_lor, <- Z.add_nocarry_lxor by done. lia.
Qed.

Section read.
Context (tmp0 : list Z).

(** Reading the digits of a group. *)
Lemma loop6_digits g rest cur tmp tp colonp saw val v :
  hex_from val g = Some v -> 0 <= val -> v < 65536 ->
  inet_pton6_loop tmp0 (g ++ rest)%string cur tmp tp colonp saw val =
  inet_pton6_loop tmp0 rest cur tmp tp colonp (if bool_decide (g = EmptyString) then saw else true) v.
Proof.
  revert saw val. induction g as [|c g IH]; intros saw val; cbn [hex_from String.append]; [by intros [= ->]|].
  destruct (xdigit c) as [d|] eqn:Ed; [|done]. cbn [mbind option_bind]. intros Hv H0 Hm. pose proof (xdigit_range _ _ Ed) as Hd. pose proof (hex_mono _ _ _ Hv ltac:(lia)) as Hmo.
  change (String c g ++ rest)%string with (String c (g ++ rest)). cbn [inet_pton6_loop]. rewrite Ed, shl_digit by lia. rewrite (proj2 (Z.ltb_ge _ _)) by lia. rewrite (IH true _ Hv) by lia.
  rewrite (bool_decide_eq_false_2 (String c g = EmptyString)) by done. by destruct (bool_decide _).
Qed.

(** [done] has been stored, the rest of the array is zero. *)
Definition padded (done : list Z) : list Z := done ++ replicate (16 - length done) 0.

Lemma put_padded done v : (length done <= 14)%nat -> put_group (padded done) (Z.of_nat (length done)) v = Ok (padded (done ++ group_bytes [v])).
Proof.
  intros Hl. unfold put_group, padded. destruct (16 - length done)%nat as [|[|k]] eqn:E; [lia..|]. rewrite aset_ok by (rewrite length_app, length_replicate; lia). cbn [mbind outcome_bind].
  rewrite aset_ok by (rewrite length_insert, length_app, length_replicate; lia). f_equal. replace (Z.to_nat (Z.of_nat (length done) + 1)) with (length done + 1)%nat by lia. rewrite Nat2Z.id.
  rewrite <- (Nat.add_0_r (length done)) at 2. rewrite !insert_app_r. cbn. rewrite length_app. cbn [length]. replace (16 - (length done + 2))%nat with k by lia. by rewrite <- app_assoc.
Qed.

(** Reading groups that are followed by colons. *)
Lemma loop6_groups gs vs rest cur done colonp :
  Forall2 group gs vs -> (length done + 2 * length gs <= 16)%nat ->
  exists cur', inet_pton6_loop tmp0 (colons gs rest) cur (padded done) (Z.of_nat (length done)) colonp false 0 =
    inet_pton6_loop tmp0 rest cur' (padded (done ++ group_bytes vs)) (Z.of_nat (length (done ++ group_bytes vs))) colonp false 0.
Proof.
  intros Hg. revert cur done. induction Hg as [|g v gs vs [Hne [Hv Hm]] _ IH]; intros cur done Hl; cbn [colons foldr]; [exists cur; by rewrite app_nil_r|].
  rewrite (loop6_digits g _ _ _ _ _ _ _ v) by (done || lia). rewrite bool_decide_eq_false_2 by done. fold (colons gs rest). cbn [inet_pton6_loop length] in *.
  change (xdigit colon) with (@None Z). change (chr colon =? 58) with true. cbn [negb]. unfold NS_IN6ADDRSZ. rewrite (proj2 (Z.ltb_ge _ _)) by lia.
  rewrite put_padded by lia. cbn [mbind outcome_bind]. destruct (IH (colons gs rest) (done ++ group_bytes [v])) as (cur' & E); [rewrite length_app; cbn; lia|].
  exists cur'. change (group_bytes (v :: vs)) with (group_bytes [v] ++ group_bytes vs). rewrite app_assoc, <- E. f_equal. rewrite length_app. cbn. lia.
Qed.

Lemma join_colons gs g : join_groups (gs ++ [g]) = colons gs g.
Proof. induction gs as [|g' gs IH]; [done|]. cbn [colons foldr app]. change (foldr _ _ gs) with (colons gs g). rewrite <- IH. by destruct gs. Qed.

(** Reading the groups at the end. *)
Lemma loop6_join rs vs cur done colonp :
  Forall2 group rs vs -> (length done + 2 * length rs <= 16)%nat ->
  (st ← inet_pton6_loop tmp0 (join_groups rs) cur (padded done) (Z.of_nat (length done)) colonp false 0;
   match st with None => Ok None | Some st => pton6_finish st end) =
  pton6_finish (padded (done ++ group_bytes vs), Z.of_nat (length (done ++ group_bytes vs)), colonp, false, 0).
Proof.
  intros Hg Hl. destruct rs as [|g rs _] using rev_ind; [apply Forall2_nil_inv_l in Hg as ->; by rewrite app_nil_r|].
  apply Forall2_app_inv_l in Hg as (vs' & l & Hg & Hgl & ->). apply Forall2_cons_inv_l in Hgl as (v & l' & [Hne [Hv Hm]] & Hnil & ->). apply Forall2_nil_inv_l in Hnil as ->.
  rewrite length_app in Hl. cbn [length] in Hl. rewrite join_colons. destruct (loop6_groups rs vs' g cur done colonp Hg ltac:(lia)) as (cur' & ->).
  assert (length (done ++ group_bytes vs') <= 14)%nat as Hb.
  { rewrite length_app, length_group_bytes. apply Forall2_length in Hg. lia. }
  rewrite <- (append_empty g), (loop6_digits g _ _ _ _ _ _ _ v), bool_decide_eq_false_2 by (done || lia).
  cbn [inet_pton6_loop mbind outcome_bind]. unfold pton6_finish, NS_IN6ADDRSZ. rewrite (proj2 (Z.ltb_ge _ _)) by lia. cbn [andb]. rewrite put_padded by done. cbn [mbind outcome_bind].
  replace (group_bytes (vs' ++ [v])) with (group_bytes vs' ++ group_bytes [v]) by (unfold group_bytes; by rewrite bind_app). rewrite app_assoc, (length_app _ (group_bytes [v])).
  change (length (group_bytes [v])) with 2%nat. replace (Z.of_nat (length (done ++ group_bytes vs')) + 2) with (Z.of_nat (length (done ++ group_bytes vs') + 2)) by lia. done.
Qed.

End read.

(** A store to the element between two lists. *)
Lemma aset_middle (l1 l2 : list Z) x y i : i = Z.of_nat (length l1) -> aset (l1 ++ x :: l2) i y = Ok (l1 ++ y :: l2).
Proof. intros ->. rewrite aset_ok, Nat2Z.id by (rewrite length_app; cbn; lia). f_equal. by apply list_eq; intros; rewrite insert_app_r_alt, Nat.sub_diag by lia. Qed.

(** Moving [b] behind [k] zeros; [d] has been moved. *)
Lemma shift_moves a b k d : (length a + length b + k + length d = 16)%nat -> (1 <= k)%nat ->
  shift_loop (length b) (Z.of_nat (length d) + 1) (Z.of_nat (length b + length d)) (Z.of_nat (length a)) (a ++ b ++ replicate k 0 ++ d) =
  Ok (a ++ replicate k 0 ++ b ++ d).
Proof.
  revert d. induction b as [|x b IH] using rev_ind; intros d Hl Hk; [done|]. rewrite length_app in *. cbn [length] in *. rewrite Nat.add_1_r in *. cbn [shift_loop].
  replace (Z.of_nat (length a) + Z.of_nat (S (length b) + length d) - (Z.of_nat (length d) + 1)) with (Z.of_nat (length (a ++ b))) by (rewrite length_app; lia).
  destruct k as [|k]; [lia|]. replace (a ++ (b ++ [x]) ++ replicate (S k) 0 ++ d) with ((a ++ b) ++ x :: replicate k 0 ++ 0 :: d) by (rewrite replicate_S_end, <- !app_assoc; done).
  rewrite aget_lookup, Nat2Z.id, list_lookup_middle by (done || lia). cbn [deref mbind outcome_bind]. unfold NS_IN6ADDRSZ.
  replace ((a ++ b) ++ x :: replicate k 0 ++ 0 :: d) with (((a ++ b) ++ x :: replicate k 0) ++ 0 :: d) by (rewrite <- !app_assoc; done).
  rewrite aset_middle by (rewrite !length_app; cbn; rewrite length_replicate; lia). cbn [mbind outcome_bind]. rewrite <- app_assoc. cbn [app].
  rewrite aset_middle by done. cbn [mbind outcome_bind]. specialize (IH (x :: d) ltac:(cbn; lia) ltac:(lia)). cbn [length] in IH.
  replace (Z.of_nat (length d) + 1 + 1) with (Z.of_nat (S (length d)) + 1) by lia. replace (S (length b) + length d)%nat with (length b + S (length d))%nat by lia.
  rewrite <- app_assoc. change (0 :: replicate k 0 ++ x :: d) with (replicate (S k) 0 ++ x :: d). rewrite IH. by rewrite <- (app_assoc b).
Qed.

(** With no room to move, what follows the double colon is erased. *)
Lemma shift_erases a b k : (length a + length b + k = 16)%nat ->
  shift_loop (length b) (Z.of_nat k + 1) (Z.of_nat (length b + k)) (Z.of_nat (length a)) (a ++ b ++ replicate k 0) = Ok (a ++ replicate (length b + k) 0).
Proof.
  revert k. induction b as [|x b IH] using rev_ind; intros k Hl; [done|]. rewrite length_app in *. cbn [length] in *. rewrite Nat.add_1_r in *. cbn [shift_loop].
  replace (Z.of_nat (length a) + Z.of_nat (S (length b) + k) - (Z.of_nat k + 1)) with (Z.of_nat (length (a ++ b))) by (rewrite length_app; lia).
  replace (a ++ (b ++ [x]) ++ replicate k 0) with ((a ++ b) ++ x :: replicate k 0) by (by rewrite <- !app_assoc).
  rewrite aget_lookup, Nat2Z.id, list_lookup_middle by (done || lia). cbn [deref mbind outcome_bind]. unfold NS_IN6ADDRSZ.
  rewrite aset_middle by (rewrite length_app; lia). cbn [mbind outcome_bind]. rewrite aset_middle by done. cbn [mbind outcome_bind].
  specialize (IH (S k) ltac:(lia)). replace (Z.of_nat k + 1 + 1) with (Z.of_nat (S k) + 1) by lia. replace (S (length b) + k)%nat with (length b + S k)%nat by lia.
  rewrite <- app_assoc. exact IH.
Qed.

Lemma group_no_colon c g v : hex_from 0 (String c g) = Some v -> (chr c =? 58) = false.
Proof. intros Hv. apply Z.eqb_neq. intros Hc. revert Hv. cbn. unfold xdigit, isdigit. by rewrite Hc. Qed.

(** A text that does not start with a colon. *)
Lemma pton6_start tmp0 s : match s with String c _ => (chr c =? 58) = false | EmptyString => True end ->
  inet_pton6 tmp0 s = (st ← inet_pton6_loop tmp0 s s (replicate 16 0) 0 None false 0; match st with None => Ok None | Some st => pton6_finish st end).
Proof. unfold inet_pton6. destruct s as [|c s]; [done|]. by intros ->. Qed.

(** Reading an address with a double colon: the groups before it, then zeros,
    then the groups behind it.  With all eight groups given the double colon
    is accepted as well; it is not ignored then, as the comment of
    [inet_pton6] has it, but what follows it is replaced by zeros. *)
Theorem inet_pton6_reads tmp0 ls rs vl vr :
  Forall2 group ls vl -> Forall2 group rs vr -> (length ls + length rs <= 8)%nat ->
  inet_pton6 tmp0 (text6 ls rs) =
  Ok (Some (group_bytes vl ++
            if (length ls + length rs =? 8)%nat then replicate (2 * length rs) 0
            else replicate (16 - 2 * (length ls + length rs)) 0 ++ group_bytes vr)).
Proof.
  intros Hl Hr Hn. pose proof (Forall2_length _ _ _ Hl) as El. pose proof (Forall2_length _ _ _ Hr) as Er.
  assert (forall cur, (st ← inet_pton6_loop tmp0 (String colon (join_groups rs)) cur (padded (group_bytes vl)) (Z.of_nat (length (group_bytes vl))) None false 0;
    match st with None => Ok None | Some st => pton6_finish st end) =
    pton6_finish (padded (group_bytes vl ++ group_bytes vr), Z.of_nat (length (group_bytes vl ++ group_bytes vr)), Some (Z.of_nat (length (group_bytes vl))), false, 0)) as Hread.
  { intros cur. cbn [inet_pton6_loop]. change (xdigit colon) with (@None Z). change (chr colon =? 58) with true. cbn [negb]. apply loop6_join; [done|]. rewrite length_group_bytes. lia. }
  assert (inet_pton6 tmp0 (text6 ls rs) = pton6_finish (padded (group_bytes vl ++ group_bytes vr), Z.of_nat (length (group_bytes vl ++ group_bytes vr)), Some (Z.of_nat (length (group_bytes vl))), false, 0)) as ->.
  { destruct ls as [|g ls]; [apply Forall2_nil_inv_l in Hl as ->; exact (Hread _)|]. unfold text6. pose proof Hl as Hl'. apply Forall2_cons_inv_l in Hl' as (v & l' & [Hne [Hv _]] & _ & ->).
    destruct g as [|c g]; [done|]. pose proof (group_no_colon c g v Hv) as Hc.
    destruct (loop6_groups tmp0 (String c g :: ls) (v :: l') (String colon (join_groups rs)) (colons (String c g :: ls) (String colon (join_groups rs))) [] None Hl ltac:(cbn in *; lia)) as (cur & E).
    rewrite (pton6_start tmp0 (colons (String c g :: ls) _)) by exact Hc. change (replicate 16 0) with (padded []). change 0 with (Z.of_nat (length (@nil Z))) at 1. rewrite E. apply Hread. }
  unfold pton6_finish. cbn [andb mbind outcome_bind]. unfold padded. rewrite <- app_assoc, length_app. set (a := group_bytes vl). set (b := group_bytes vr).
  replace (Z.of_nat (length a + length b) - Z.of_nat (length a)) with (Z.of_nat (length b)) by lia. rewrite Nat2Z.id.
  assert (length a = 2 * length ls /\ length b = 2 * length rs)%nat as [Ha Hb] by (unfold a, b; rewrite !length_group_bytes; lia).
  destruct (Nat.eqb_spec (length ls + length rs) 8) as [E|E].
  - pose proof (shift_erases a b 0 ltac:(lia)) as Hs. rewrite Nat.add_0_r in Hs. change (Z.of_nat 0 + 1) with 1 in Hs. replace (16 - (length a + length b))%nat with 0%nat by lia. rewrite Hs. cbn. by rewrite Hb.
  - pose proof (shift_moves a b (16 - (length a + length b)) [] ltac:(cbn; lia) ltac:(lia)) as Hs. cbn [length] in Hs. rewrite Nat.add_0_r, !app_nil_r in Hs. change (Z.of_nat 0 + 1) with 1 in Hs.
    replace (16 - 2 * (length ls + length rs))%nat with (16 - (length a + length b))%nat by lia. by rewrite Hs.
Qed.

(** Reading an address of eight groups. *)
Theorem inet_pton6_reads_full tmp0 gs vs :
  Forall2 group gs vs -> length gs = 8%nat -> inet_pton6 tmp0 (join_groups gs) = Ok (Some (group_bytes vs)).
Proof.
  intros Hg Hl. pose proof (Forall2_length _ _ _ Hg) as El. rewrite pton6_start.
  - change (replicate 16 0) with (padded []). trans (pton6_finish (padded ([] ++ group_bytes vs), Z.of_nat (length ([] ++ group_bytes vs)), None, false, 0)); [apply (loop6_join tmp0 gs vs (join_groups gs) [] None Hg); cbn; lia|]. rewrite app_nil_l. unfold pton6_finish, padded. cbn [andb mbind outcome_bind].
    rewrite length_group_bytes, <- El, Hl. cbn. by rewrite app_nil_r.
  - destruct gs as [|[|c g] gs]; [done|by apply Forall2_cons_inv_l in Hg as (? & ? & [? _] & _)|]. apply Forall2_cons_inv_l in Hg as (v & l & [_ [Hv _]] & _ & _). destruct gs; [done|].
    change ((chr c =? 58) = false). by apply (group_no_colon c g v).
Qed.

Lemma inet_pton6_reads_witness :
  inet_pton6 [0; 0; 0; 0] "2001:db8::1"%string = Ok (Some [0x20; 0x01; 0x0d; 0xb8; 0; 0; 0; 0; 0; 0; 0; 0; 0; 0; 0; 1]) /\
  inet_pton6 [0; 0; 0; 0] "1:2:3:4:5:6:7::8"%string = Ok (Some [0; 1; 0; 2; 0; 3; 0; 4; 0; 5; 0; 6; 0; 7; 0; 0]).
Proof.
  split; [apply (inet_pton6_reads [0; 0; 0; 0] ["2001"; "db8"]%string ["1"%string] [0x2001; 0xdb8] [1])|
          apply (inet_pton6_reads [0; 0; 0; 0] ["1"; "2"; "3"; "4"; "5"; "6"; "7"]%string ["8"%string] [1; 2; 3; 4; 5; 6; 7] [8])].
  all: try (repeat constructor; done). all: cbn; lia.
Defined.

(** A colon behind the last of eight groups goes unnoticed. *)
Lemma trailing_colon_accepted :
  inet_pton6 [0; 0; 0; 0] "1:2:3:4:5:6:7:8:"%string = Ok (Some [0; 1; 0; 2; 0; 3; 0; 4; 0; 5; 0; 6; 0; 7; 0; 8]).
Proof. vm_compute. reflexivity. Qed.
