(* ===== verification/Config.v ===== *)
(** * The router configuration (nettrug/pta/config.c).

    The text is split into lines and tokens with [strsep]; each line is an
    [ifconfig] or a [route] command on the devices and the route table.  The
    prefix parser of the lpm library ([lpm_strtobin]) is an argument. *)

From Stdlib Require Import Ascii.
From stdpp Require Import strings pretty.
From S2P Require Import Prelude Pktq EthBuf Netdev Route Newlib.

#[local] Arguments String.append !_ _ / : simpl nomatch.

Definition newline : string := String (ascii_of_N 10) EmptyString.
Definition blanks : string := String " " (String (ascii_of_N 9) EmptyString).

(** ** Tokens *)

(** The loop of [str_tokenize]: [n] slots of [tokens] are left.  Each round
    of [strsep] consumes a character, so [fuel] beyond the length of the line
    is enough. *)
Fixpoint str_tokenize_loop (fuel : nat) (line : option string) (n : nat) : outcome (list string) :=
  match fuel with
  | O => Undef
  | S fuel' =>
      let '(token, line') := strsep line blanks in
      match token, n with
      | None, _ => Ok []
      | Some _, O => Ok []
      | Some t, S n' =>
          (* [*sep] is the first separator, never the terminator *)
          if (head_chr blanks =? 0) || bool_decide (is_Some (strpbrk t blanks)) then
            str_tokenize_loop fuel' line' n
          else ts ← str_tokenize_loop fuel' line' n'; Ok (t :: ts)
      end
  end.

Definition str_tokenize (line : string) (n : nat) : outcome (list string) :=
  str_tokenize_loop (String.length line + 2) (Some line) n.

(** ** Commands *)

(** [strtoul(s, NULL, 10)] of the C library. *)
Definition ULONG_MAX : Z := 4294967295.

Fixpoint digits_prefix (s : string) : string :=
  match s with
  | String c s' => if isdigit c then String c (digits_prefix s') else EmptyString
  | EmptyString => EmptyString
  end.

Definition strtoul (nptr : string) : Z :=
  let s := skip_space nptr in
  let neg := head_chr s =? 45 in
  let s := if neg || (head_chr s =? 43) then str_tail s else s in
  let v := dec_from 0 (digits_prefix s) in
  if ULONG_MAX <? v then ULONG_MAX else if neg then u32 (- v) else v.

(** What a configuration works on. *)
Record cfg (T L : Type) := mk_cfg { c_nd : netdevs T; c_rt : L }.
Arguments mk_cfg {T L}. Arguments c_nd {T L}. Arguments c_rt {T L}.
#[global] Instance eta_cfg {T L} : Settable (cfg T L) := fun c => mk_cfg (c_nd c) (c_rt c).

Section config.
Context {T : Type} `{ThMap T} {L : Type} `{Lpm L route_info_t}.

(** [lpm_strtobin]: the address and prefix length of a CIDR string.
    [stack]: what [inet_pton4] finds in its uninitialised array.
    [alloc]: whether the heap serves a route entry. *)
Context (lpm_strtobin : string -> option (list Z * Z)) (stack : list Z) (alloc : bool).

Definition rt_zero (if_idx : Z) : route_info_t := mk_route_info if_idx 0 (replicate 16 0) 0.

Definition cmd_route (tokens : list (option string)) (n : Z) (c : cfg T L) : outcome (Z * cfg T L) :=
  if n <? 3 then Ok (-1, c) else
  t1 ← aget tokens 1; t1 ← deref t1;
  match lpm_strtobin t1 with
  | None => Ok (-1, c)
  | Some (addr, plen) =>
      t2 ← aget tokens 2;
      if_idx ← ifnet_nametoindex (c_nd c) t2;
      if i32 if_idx <=? 0 then Ok (-1, c) else
      let add (rt : route_info_t) :=
        let '(r, l) := route_add alloc (c_rt c) addr plen rt in
        if r =? -1 then Ok (-1, c) else Ok (0, c <| c_rt := l |>) in
      if n <? 4 then add (rt_zero if_idx) else
      p ← ifnet_getbyidx (c_nd c) if_idx; p ← assert_ptr p;
      d ← deref (devs (c_nd c) !! p);
      t3 ← aget tokens 3; t3 ← deref t3;
      let idx := strtoul t3 in
      if ips_cnt d <=? idx then Ok (-1, c) else
      let rt := (rt_zero if_idx) <| rt_if_addr_idx := idx |> in
      if n <? 5 then add rt else
      t4 ← aget tokens 4; t4 ← deref t4;
      a ← inet_pton4 stack t4;
      let nh := match a with Some a => blit (rt_next_hop rt) 0 a | None => rt_next_hop rt end in
      add (rt <| rt_next_hop := nh |> <| rt_addr_len := 4 |>)
  end.

Definition cmd_ifconfig (tokens : list (option string)) (n : Z) (c : cfg T L) : outcome (Z * cfg T L) :=
  if n <? 2 then Ok (-1, c) else
  t1 ← aget tokens 1;
  if_idx ← ifnet_nametoindex (c_nd c) t1;
  if i32 if_idx <=? 0 then Ok (-1, c) else
  p ← ifnet_getbyidx (c_nd c) if_idx; p ← assert_ptr p;
  d ← deref (devs (c_nd c) !! p);
  if BSTGW_MAX_NETIF_IPS <=? ips_cnt d then Ok (-1, c) else
  old ← aget (if_ips d) (ips_cnt d);
  t2 ← aget tokens 2; t2 ← deref t2;
  a ← inet_pton4 stack t2;
  let ip := match a with Some a => blit old 0 a | None => old end in
  ips ← aset (if_ips d) (ips_cnt d) ip;
  Ok (0, c <| c_nd ::= dev_upd p (fun d => d <| if_ips := ips |> <| ips_cnt := u32 (ips_cnt d + 1) |>) |>).

Definition parse_command (tokens : list (option string)) (n : Z) (c : cfg T L) : outcome (Z * cfg T L) :=
  t0 ← aget tokens 0; t0 ← deref t0;
  if strcasecmp t0 "route" =? 0 then cmd_route tokens n c else
  if strcasecmp t0 "ifconfig" =? 0 then cmd_ifconfig tokens n c else
  Ok (-1, c).

(** The array [tokens[5]], NULL where no token was stored. *)
Definition token_array (ts : list string) : list (option string) :=
  map Some ts ++ replicate (5 - length ts) None.

(** The line loop; a round consumes a character at least. *)
Fixpoint parse_lines (fuel : nat) (rest : option string) (c : cfg T L) : outcome (Z * cfg T L) :=
  match fuel with
  | O => Undef
  | S fuel' =>
      match rest with
      | None => Ok (0, c)
      | Some _ =>
          let '(line, rest') := strsep rest newline in
          match line with
          | None => Ok (0, c)
          | Some line =>
              if head_chr line =? 35 then parse_lines fuel' rest' c else
              ts ← str_tokenize line 5;
              if Nat.eqb (length ts) 0 then parse_lines fuel' rest' c else
              '(r, c) ← parse_command (token_array ts) (Z.of_nat (length ts)) c;
              if r =? -1 then Ok (-1, c) else parse_lines fuel' rest' c
          end
      end
  end.

(** [dup]: whether [strdup] succeeded. *)
Definition parse_config (dup : bool) (config_str : string) (c : cfg T L) : outcome (Z * cfg T L) :=
  if negb dup then Ok (-1, c) else
  parse_lines (String.length config_str + 2) (Some config_str) c.

Definition router_config_str : string :=
  ("ifconfig NW 192.168.178.11" +:+ newline +:+
   "ifconfig NW 172.16.0.11" +:+ newline +:+
   "ifconfig imx6q-fec 192.168.178.49" +:+ newline +:+
   "ifconfig imx6q-fec 172.16.0.49" +:+ newline +:+
   "route 192.168.178.49/32 NW 0" +:+ newline +:+
   "route 172.16.0.49/32 NW 1" +:+ newline +:+
   "route 192.168.178.0/24 imx6q-fec 0" +:+ newline +:+
   "route 172.16.0.0/24 imx6q-fec 1" +:+ newline)%string.

Definition load_config (dup : bool) (c : cfg T L) : outcome (Z * cfg T L) :=
  parse_config dup router_config_str c.

(** ** Printing commands *)

(** The commands themselves, run in order up to the first that fails. *)
Fixpoint run_commands (cmds : list (list string)) (c : cfg T L) : outcome (Z * cfg T L) :=
  match cmds with
  | [] => Ok (0, c)
  | ts :: cmds' =>
      '(r, c) ← parse_command (token_array ts) (Z.of_nat (length ts)) c;
      if r =? -1 then Ok (-1, c) else run_commands cmds' c
  end.

End config.

Fixpoint join_tokens (ts : list string) : string :=
  match ts with
  | [] => EmptyString
  | [t] => t
  | t :: ts' => t +:+ String " " (join_tokens ts')
  end.

Fixpoint print_config (cmds : list (list string)) : string :=
  match cmds with
  | [] => EmptyString
  | ts :: cmds' => join_tokens ts +:+ newline +:+ print_config cmds'
  end.

(** Characters that may occur in a token. *)
Fixpoint plain (s : string) : bool :=
  match s with
  | EmptyString => true
  | String c s' => negb (str_mem c blanks) && negb (str_mem c newline) && plain s'
  end.

Definition token_ok (t : string) : Prop := t <> EmptyString /\ plain t = true.

Definition command_ok (ts : list string) : Prop :=
  (1 <= length ts <= 5)%nat /\ Forall token_ok ts /\ head_chr (join_tokens ts) <> 35.

(** ** Lemmas on tokens *)

Fixpoint avoids (delim s : string) : bool :=
  match s with
  | EmptyString => true
  | String c s' => negb (str_mem c delim) && avoids delim s'
  end.

Lemma plain_avoids s : plain s = true -> avoids blanks s = true /\ avoids newline s = true.
Proof.
  induction s as [|c s IH]; cbn [plain avoids]; [done|].
  rewrite !andb_true_iff. intros [[-> ->] Hs]. destruct (IH Hs). auto.
Qed.

Lemma avoids_app delim s s' : avoids delim (s +:+ s') = avoids delim s && avoids delim s'.
Proof. induction s as [|c s IH]; cbn; [done|]. by rewrite IH, andb_assoc. Qed.

Lemma scan_app delim t d r :
  avoids delim t = true -> str_mem d delim = true -> strtok_scan delim (t +:+ String d r) = (t, Some r).
Proof.
  intros Ht Hd. induction t as [|c t IH]; cbn in *; [by rewrite Hd|].
  apply andb_true_iff in Ht as [Hc Ht]. apply negb_true_iff in Hc. by rewrite Hc, IH.
Qed.

Lemma scan_end delim t : avoids delim t = true -> strtok_scan delim t = (t, None).
Proof.
  intros Ht. induction t as [|c t IH]; cbn in *; [done|].
  apply andb_true_iff in Ht as [Hc Ht]. apply negb_true_iff in Hc. by rewrite Hc, IH.
Qed.

(** [strsep] cuts a non-empty token at its delimiter, or at the end. *)
Lemma strsep_token delim t d r :
  t <> EmptyString -> avoids delim t = true -> str_mem d delim = true ->
  strsep (Some (t +:+ String d r)) delim = (Some t, Some r).
Proof.
  intros Hne Ht Hd. destruct t as [|c t]; [done|]. cbn in *.
  apply andb_true_iff in Ht as [Hc Ht]. apply negb_true_iff in Hc.
  rewrite Hc, scan_app by done. done.
Qed.

Lemma strsep_last delim t :
  t <> EmptyString -> avoids delim t = true -> strsep (Some t) delim = (Some t, None).
Proof.
  intros Hne Ht. destruct t as [|c t]; [done|]. cbn in *.
  apply andb_true_iff in Ht as [Hc Ht]. apply negb_true_iff in Hc. rewrite Hc, scan_end by done. done.
Qed.

Lemma strpbrk_avoids delim t : avoids delim t = true -> strpbrk t delim = None.
Proof.
  induction t as [|c t IH]; cbn; [done|]. rewrite andb_true_iff, negb_true_iff. intros [-> ?]. auto.
Qed.

Lemma join_tokens_cons t t' ts : join_tokens (t :: t' :: ts) = t +:+ String " " (join_tokens (t' :: ts)).
Proof. done. Qed.

Lemma join_tokens_ok ts :
  ts <> [] -> Forall token_ok ts -> join_tokens ts <> EmptyString /\ avoids newline (join_tokens ts) = true.
Proof.
  induction ts as [|t ts IH]; intros Hne Hall; [done|].
  apply Forall_cons in Hall as [[Ht Hp] Hall]. apply plain_avoids in Hp as [_ Hp].
  destruct ts as [|t' ts]; [done|]. rewrite join_tokens_cons. destruct (IH ltac:(done) Hall) as [_ Hj].
  split; [by destruct t|]. rewrite avoids_app, Hp. cbn [avoids]. by rewrite Hj.
Qed.

Lemma tokenize_join ts : forall fuel n,
  ts <> [] -> Forall token_ok ts -> (length ts <= n)%nat -> (length ts < fuel)%nat ->
  str_tokenize_loop fuel (Some (join_tokens ts)) n = Ok ts.
Proof.
  induction ts as [|t ts IH]; intros fuel n Hne Hall Hn Hf; [done|].
  apply Forall_cons in Hall as [[Ht Hp] Hall]. apply plain_avoids in Hp as [Hp _].
  destruct fuel as [|fuel]; [cbn in *; lia|]. destruct n as [|n]; [cbn in *; lia|].
  destruct ts as [|t' ts].
  - cbn [join_tokens str_tokenize_loop]. rewrite strsep_last, strpbrk_avoids by done.
    destruct fuel; [cbn in *; lia|]. reflexivity.
  - rewrite join_tokens_cons. cbn [str_tokenize_loop]. rewrite strsep_token, strpbrk_avoids by done.
    cbn in Hn, Hf. specialize (IH fuel n ltac:(done) Hall ltac:(cbn; lia) ltac:(cbn; lia)).
    rewrite IH. reflexivity.
Qed.

Lemma length_append s s' : String.length (s +:+ s') = (String.length s + String.length s')%nat.
Proof. induction s as [|c s IH]; cbn; [done|]. by rewrite IH. Qed.

Lemma join_length ts : Forall token_ok ts -> (length ts <= String.length (join_tokens ts))%nat.
Proof.
  induction ts as [|t ts IH]; intros Hall; [cbn; lia|]. apply Forall_cons in Hall as [[Ht _] Hall].
  specialize (IH Hall). destruct t as [|c t]; [done|]. destruct ts as [|t' ts]; [cbn; lia|].
  rewrite join_tokens_cons. cbn. rewrite length_append. cbn in *. lia.
Qed.

Section config_lemmas.
Context {T : Type} `{ThMap T} {L : Type} `{Lpm L route_info_t}.
Context (lpm_strtobin : string -> option (list Z * Z)) (stack : list Z) (alloc : bool).

Lemma parse_lines_print cmds : forall fuel (c : cfg T L),
  Forall command_ok cmds -> (length cmds < fuel)%nat ->
  parse_lines lpm_strtobin stack alloc fuel (Some (print_config cmds)) c
    = run_commands lpm_strtobin stack alloc cmds c.
Proof.
  induction cmds as [|ts cmds IH]; intros fuel c Hall Hf; (destruct fuel as [|fuel]; [cbn in *; lia|]).
  - done.
  - apply Forall_cons in Hall as [(Hlen & Htok & Hhead) Hall].
    assert (Hne : ts <> []) by (intros ->; cbn in *; lia).
    destruct (join_tokens_ok ts Hne Htok) as [Hj Hav].
    cbn [parse_lines run_commands print_config].
    change (newline +:+ print_config cmds) with (String (ascii_of_N 10) (print_config cmds)).
    rewrite strsep_token by done. rewrite (proj2 (Z.eqb_neq _ 35)) by done.
    unfold str_tokenize. pose proof (join_length ts Htok).
    rewrite tokenize_join by (done || lia). cbn [mbind outcome_bind].
    rewrite (proj2 (Nat.eqb_neq _ _)) by lia.
    destruct (parse_command _ _ _ _ _ _) as [[r c']| |]; [|done..]. cbn [mbind outcome_bind].
    destruct (r =? -1); [done|]. apply IH; [done|cbn in *; lia].
Qed.

Lemma print_config_length cmds : (length cmds <= String.length (print_config cmds))%nat.
Proof.
  induction cmds as [|ts cmds IH]; cbn; [lia|]. rewrite length_append. cbn. lia.
Qed.

(** ** Lemmas on commands *)

Record cfg_ok (c : cfg T L) : Prop := {
  co_reg : reg_wf (c_nd c);
  co_names : names_distinct (c_nd c);
  co_ips : forall p d, p ∈ netdev_list (c_nd c) -> devs (c_nd c) !! p = Some d ->
    length (if_ips d) = 2%nat /\ 0 <= ips_cnt d <= 2
}.

(** The device with one more address. *)
Definition add_ip (a : list Z) (d : ifnet_t T) : ifnet_t T :=
  d <| if_ips ::= alter (fun old => blit old 0 a) (Z.to_nat (ips_cnt d)) |> <| ips_cnt ::= fun n => n + 1 |>.

Lemma cmd_ifconfig_spec t0 s a p d c :
  length stack = 4%nat -> dotted_quad s = Some a ->
  cfg_ok c -> p ∈ netdev_list (c_nd c) -> devs (c_nd c) !! p = Some d -> ips_cnt d < 2 ->
  let c' := c <| c_nd ::= dev_upd p (add_ip a) |> in
  cmd_ifconfig stack [t0; Some (name d); Some s; None; None] 3 c = Ok (0, c') /\ cfg_ok c'.
Proof.
  intros Hst Ha [Hwf Hn Hips] Hp Hd Hc c'.
  destruct (dev_lookup _ p d Hwf Hp Hd) as (Hr & G & N). specialize (N Hn). unfold MAX_IFNET_IDS in Hr.
  destruct (Hips p d Hp Hd) as [Hl Hcnt]. split.
  - unfold cmd_ifconfig. change (3 <? 2) with false.
    change (aget [t0; Some (name d); Some s; None; None] 1) with (Ok (Some (name d))).
    change (aget [t0; Some (name d); Some s; None; None] 2) with (Ok (Some s)). cbn [mbind outcome_bind].
    rewrite N. cbn [mbind outcome_bind]. unfold i32. rewrite Z.mod_small, (proj2 (Z.leb_gt _ _)) by lia.
    rewrite G. cbn [mbind outcome_bind assert_ptr]. rewrite Hd. cbn [mbind outcome_bind deref].
    unfold BSTGW_MAX_NETIF_IPS. rewrite (proj2 (Z.leb_gt _ _)) by lia.
    destruct (aget_in_range (if_ips d) (ips_cnt d)) as [old Ho]; [lia|]. rewrite Ho. cbn [mbind outcome_bind].
    rewrite pton4_spec, Ha by done. cbn [mbind outcome_bind].
    unfold aset. rewrite (proj2 (Z.ltb_ge _ _)), (proj2 (Z.leb_gt _ _)) by lia. cbn [orb mbind outcome_bind].
    unfold c', upd. erewrite (dev_upd_ext _ p d); [reflexivity|done|].
    assert (A : alter (fun old => blit old 0 a) (Z.to_nat (ips_cnt d)) (if_ips d)
                = <[Z.to_nat (ips_cnt d) := blit old 0 a]> (if_ips d)).
    { apply aget_ok in Ho as [_ Ho]. apply list_eq. intros i.
      destruct (decide (i = Z.to_nat (ips_cnt d))) as [->|Hi].
      - rewrite list_lookup_insert_eq, list_lookup_alter_eq, Ho by lia. done.
      - by rewrite list_lookup_insert_ne, list_lookup_alter_ne by done. }
    unfold add_ip, upd. cbn. rewrite u32_small, A by lia. done.
  - split; [by apply dev_upd_wf|by apply names_distinct_upd|]. cbn. intros q e Hq He.
    apply lookup_alter_Some in He as [(<- & e0 & He & ->)|(_ & He)]; [|eauto].
    assert (e0 = d) as -> by congruence. cbn. rewrite length_alter. lia.
Qed.

Lemma cmd_route_spec t0 s addr plen si p d c l :
  alloc = true -> lpm_strtobin s = Some (addr, plen) -> strtoul si < ips_cnt d ->
  cfg_ok c -> p ∈ netdev_list (c_nd c) -> devs (c_nd c) !! p = Some d ->
  lpm_insert (c_rt c) addr plen ((rt_zero (ifnet_idx d)) <| rt_if_addr_idx := strtoul si |>) = Some l ->
  cmd_route lpm_strtobin stack alloc [t0; Some s; Some (name d); Some si; None] 4 c
    = Ok (0, c <| c_rt := l |>) /\ cfg_ok (c <| c_rt := l |>).
Proof.
  intros Hal Hs Hi [Hwf Hn Hips] Hp Hd Hl.
  destruct (dev_lookup _ p d Hwf Hp Hd) as (Hr & G & N). specialize (N Hn). unfold MAX_IFNET_IDS in Hr.
  split; [|by split]. unfold cmd_route. change (4 <? 3) with false. change (4 <? 4) with false. change (4 <? 5) with true.
  change (aget [t0; Some s; Some (name d); Some si; None] 1) with (Ok (Some s)).
  change (aget [t0; Some s; Some (name d); Some si; None] 2) with (Ok (Some (name d))).
  change (aget [t0; Some s; Some (name d); Some si; None] 3) with (Ok (Some si)).
  cbn [mbind outcome_bind deref]. rewrite Hs, N. cbn [mbind outcome_bind].
  unfold i32. rewrite Z.mod_small, (proj2 (Z.leb_gt _ _)) by lia.
  rewrite G. cbn [mbind outcome_bind assert_ptr]. rewrite Hd. cbn [mbind outcome_bind deref].
  rewrite (proj2 (Z.leb_gt _ _)) by lia. unfold route_add. rewrite Hal. cbn [negb]. rewrite Hl. done.
Qed.

(** What the built-in configuration is meant to say. *)
Definition default_routes (nw fec : Z) : list (list Z * Z * route_info_t) :=
  let rt i k := (rt_zero i) <| rt_if_addr_idx := k |> in
  [([192; 168; 178; 49], 32, rt nw 0); ([172; 16; 0; 49], 32, rt nw 1);
   ([192; 168; 178; 0], 24, rt fec 0); ([172; 16; 0; 0], 24, rt fec 1)].

Definition default_commands : list (list string) :=
  [["ifconfig"; "NW"; "192.168.178.11"]; ["ifconfig"; "NW"; "172.16.0.11"];
   ["ifconfig"; "imx6q-fec"; "192.168.178.49"]; ["ifconfig"; "imx6q-fec"; "172.16.0.49"];
   ["route"; "192.168.178.49/32"; "NW"; "0"]; ["route"; "172.16.0.49/32"; "NW"; "1"];
   ["route"; "192.168.178.0/24"; "imx6q-fec"; "0"]; ["route"; "172.16.0.0/24"; "imx6q-fec"; "1"]]%string.

Lemma default_commands_ok : Forall command_ok default_commands.
Proof.
  repeat constructor; cbn; try lia; try discriminate; vm_compute; congruence.
Qed.

Lemma router_config_print : router_config_str = print_config default_commands.
Proof. reflexivity. Qed.

(** One command of a list, from its own specification. *)
Lemma run_commands_ifconfig n s a cmds p d c :
  length stack = 4%nat -> dotted_quad s = Some a -> name d = n ->
  cfg_ok c -> p ∈ netdev_list (c_nd c) -> devs (c_nd c) !! p = Some d -> ips_cnt d < 2 ->
  run_commands lpm_strtobin stack alloc (["ifconfig"%string; n; s] :: cmds) c
    = run_commands lpm_strtobin stack alloc cmds (c <| c_nd ::= dev_upd p (add_ip a) |>) /\
  cfg_ok (c <| c_nd ::= dev_upd p (add_ip a) |>).
Proof.
  intros Hst Ha <- Hok Hp Hd Hc.
  destruct (cmd_ifconfig_spec (Some "ifconfig"%string) s a p d c Hst Ha Hok Hp Hd Hc) as [E Hok'].
  split; [|exact Hok']. cbn [run_commands]. unfold parse_command.
  change (token_array ["ifconfig"%string; name d; s]) with [Some "ifconfig"%string; Some (name d); Some s; None; None].
  change (Z.of_nat (length ["ifconfig"%string; name d; s])) with 3.
  change (aget (Some "ifconfig"%string :: ?l) 0) with (Ok (Some "ifconfig"%string)). cbn [mbind outcome_bind deref].
  change (strcasecmp "ifconfig" "route" =? 0) with false. change (strcasecmp "ifconfig" "ifconfig" =? 0) with true.
  rewrite E. done.
Qed.

Lemma run_commands_route n s addr plen si k cmds p d c l :
  alloc = true -> lpm_strtobin s = Some (addr, plen) -> strtoul si = k -> k < ips_cnt d -> name d = n ->
  cfg_ok c -> p ∈ netdev_list (c_nd c) -> devs (c_nd c) !! p = Some d ->
  lpm_insert (c_rt c) addr plen ((rt_zero (ifnet_idx d)) <| rt_if_addr_idx := k |>) = Some l ->
  run_commands lpm_strtobin stack alloc (["route"%string; s; n; si] :: cmds) c
    = run_commands lpm_strtobin stack alloc cmds (c <| c_rt := l |>) /\
  cfg_ok (c <| c_rt := l |>).
Proof.
  intros Hal Hs <- Hi <- Hok Hp Hd Hl.
  destruct (cmd_route_spec (Some "route"%string) s addr plen si p d c l Hal Hs Hi Hok Hp Hd Hl) as [E Hok'].
  split; [|exact Hok']. cbn [run_commands]. unfold parse_command.
  change (token_array ["route"%string; s; name d; si]) with [Some "route"%string; Some s; Some (name d); Some si; None].
  change (Z.of_nat (length ["route"%string; s; name d; si])) with 4.
  change (aget (Some "route"%string :: ?l) 0) with (Ok (Some "route"%string)). cbn [mbind outcome_bind deref].
  change (strcasecmp "route" "route" =? 0) with true.
  rewrite E. done.
Qed.

Lemma byte_match_32 a b c0 d x y z w :
  Forall (fun v => 0 <= v <= 255) [a; b; c0; d; x; y; z; w] ->
  prefix_match [a; b; c0; d] 32 [x; y; z; w] = bool_decide ([a; b; c0; d] = [x; y; z; w]).
Proof.
  rewrite !Forall_cons. intros (? & ? & ? & ? & ? & ? & ? & ? & _).
  unfold prefix_match. cbn [length Nat.eqb andb be_bytes foldl]. change (8 * Z.of_nat 4 - 32) with 0.
  rewrite !Z.shiftr_0_r. destruct (Z.eqb_spec ((((0 * 256 + a) * 256 + b) * 256 + c0) * 256 + d) ((((0 * 256 + x) * 256 + y) * 256 + z) * 256 + w));
    symmetry; [apply bool_decide_eq_true_2|apply bool_decide_eq_false_2].
  - assert (d = w) by lia. assert (c0 = z) by lia. assert (b = y) by lia. assert (a = x) by lia. congruence.
  - intros [= -> -> -> ->]. lia.
Qed.

Lemma byte_match_24 a b c0 d x y z w :
  Forall (fun v => 0 <= v <= 255) [a; b; c0; d; x; y; z; w] ->
  prefix_match [a; b; c0; d] 24 [x; y; z; w] = bool_decide ([a; b; c0] = [x; y; z]).
Proof.
  rewrite !Forall_cons. intros (? & ? & ? & ? & ? & ? & ? & ? & _).
  unfold prefix_match. cbn [length Nat.eqb andb be_bytes foldl]. change (8 * Z.of_nat 4 - 24) with 8.
  rewrite !Z.shiftr_div_pow2 by lia. change (2 ^ 8) with 256. rewrite !Z.div_add_l by lia. rewrite !(Z.div_small _ 256) by lia.
  destruct (Z.eqb_spec (((0 * 256 + a) * 256 + b) * 256 + c0 + 0) (((0 * 256 + x) * 256 + y) * 256 + z + 0));
    symmetry; [apply bool_decide_eq_true_2|apply bool_decide_eq_false_2].
  - assert (c0 = z) by lia. assert (b = y) by lia. assert (a = x) by lia. congruence.
  - intros [= -> -> ->]. lia.
Qed.

(** Routing by the default routes. *)
Lemma default_routes_lookup nw fec l x y z w :
  lpm_entries l = rev (default_routes nw fec) -> Forall (fun v => 0 <= v <= 255) [x; y; z; w] ->
  let rt i k := (rt_zero i) <| rt_if_addr_idx := k |> in
  route_lookup l [x; y; z; w] =
    if bool_decide ([x; y; z] = [192; 168; 178]) then Some (rt (if w =? 49 then nw else fec) 0) else
    if bool_decide ([x; y; z] = [172; 16; 0]) then Some (rt (if w =? 49 then nw else fec) 1) else None.
Proof.
  intros E Hb rt. unfold route_lookup. rewrite lpm_lookup_spec, E. unfold default_routes.
  cbn [rev app longest_match]. rewrite !Forall_cons in Hb.
  rewrite !byte_match_24, !byte_match_32 by (rewrite !Forall_cons; intuition lia).
  repeat case_bool_decide; simplify_eq/=; try done; try (rewrite (proj2 (Z.eqb_neq w 49)) by congruence; done).
Qed.

(** C33. Parsing inverts printing.  For every list of commands whose tokens are
    non-empty and free of blanks and newlines (1 to 5 tokens each, no line
    starting with #), reading the printed text executes exactly these commands
    with exactly these tokens, in order, up to the first one that fails. *)
Theorem parse_config_prints cmds (c : cfg T L) :
  Forall command_ok cmds ->
  parse_config lpm_strtobin stack alloc true (print_config cmds) c
    = run_commands lpm_strtobin stack alloc cmds c.
Proof.
  intros Hall. unfold parse_config. cbn [negb]. apply parse_lines_print; [done|].
  pose proof (print_config_length cmds). lia.
Qed.

(** The four [ifconfig] commands. *)
(** The registry after the [ifconfig] commands for devices [p1] and [p2]. *)
Definition default_nd (p1 p2 : positive) (nd : netdevs T) : netdevs T :=
  dev_upd p2 (add_ip [172; 16; 0; 49]) (dev_upd p2 (add_ip [192; 168; 178; 49])
    (dev_upd p1 (add_ip [172; 16; 0; 11]) (dev_upd p1 (add_ip [192; 168; 178; 11]) nd))).

Lemma default_ifconfigs (c : cfg T L) p1 d1 p2 d2 cmds :
  length stack = 4%nat -> cfg_ok c -> p1 <> p2 ->
  p1 ∈ netdev_list (c_nd c) -> devs (c_nd c) !! p1 = Some d1 -> name d1 = "NW"%string -> ips_cnt d1 = 0 ->
  p2 ∈ netdev_list (c_nd c) -> devs (c_nd c) !! p2 = Some d2 -> name d2 = "imx6q-fec"%string -> ips_cnt d2 = 0 ->
  exists c', run_commands lpm_strtobin stack alloc (take 4 default_commands ++ cmds) c
      = run_commands lpm_strtobin stack alloc cmds c' /\
    cfg_ok c' /\ c_rt c' = c_rt c /\ c_nd c' = default_nd p1 p2 (c_nd c) /\
    devs (c_nd c') !! p1 = Some (add_ip [172; 16; 0; 11] (add_ip [192; 168; 178; 11] d1)) /\
    devs (c_nd c') !! p2 = Some (add_ip [172; 16; 0; 49] (add_ip [192; 168; 178; 49] d2)).
Proof.
  intros Hst Hok Hne Hp1 Hd1 Hn1 Hc1 Hp2 Hd2 Hn2 Hc2. unfold default_commands. cbn [take app].
  match goal with |- context [run_commands _ _ _ (_ :: ?k) ?e] =>
    destruct (run_commands_ifconfig "NW" "192.168.178.11" [192; 168; 178; 11] k p1 d1 e) as [-> Hok1];
    [done..|lia|] end.
  match goal with |- context [run_commands _ _ _ (_ :: ?k) ?e] =>
    destruct (run_commands_ifconfig "NW" "172.16.0.11" [172; 16; 0; 11] k p1 (add_ip [192; 168; 178; 11] d1) e) as [-> Hok2];
    [done..|cbn; by rewrite lookup_alter_eq, Hd1|cbn; lia|] end.
  match goal with |- context [run_commands _ _ _ (_ :: ?k) ?e] =>
    destruct (run_commands_ifconfig "imx6q-fec" "192.168.178.49" [192; 168; 178; 49] k p2 d2 e) as [-> Hok3];
    [done..|cbn; by rewrite !lookup_alter_ne|lia|] end.
  match goal with |- context [run_commands _ _ _ (_ :: ?k) ?e] =>
    destruct (run_commands_ifconfig "imx6q-fec" "172.16.0.49" [172; 16; 0; 49] k p2 (add_ip [192; 168; 178; 49] d2) e) as [-> Hok4];
    [done..|cbn; by rewrite lookup_alter_eq, !lookup_alter_ne, Hd2|cbn; lia|] end.
  eexists. split; [done|]. split; [exact Hok4|]. cbn.
  split_and!; try done; rewrite ?lookup_alter_eq, ?lookup_alter_ne, ?lookup_alter_eq, ?Hd1, ?Hd2 by done; done.
Qed.

(** The four [route] commands. *)
Lemma default_routes_cmds (c : cfg T L) p1 d1 p2 d2 :
  (forall a b e f n : Z, Forall (fun v => 0 <= v <= 255) [a; b; e; f] -> 0 <= n <= 32 ->
     lpm_strtobin (pretty a +:+ "." +:+ pretty b +:+ "." +:+ pretty e +:+ "." +:+ pretty f +:+ "/" +:+ pretty n)%string
       = Some ([a; b; e; f], n)) ->
  (forall l a n v, is_Some (lpm_insert (L := L) (V := route_info_t) l a n v)) ->
  alloc = true -> cfg_ok c ->
  p1 ∈ netdev_list (c_nd c) -> devs (c_nd c) !! p1 = Some d1 -> name d1 = "NW"%string -> ips_cnt d1 = 2 ->
  p2 ∈ netdev_list (c_nd c) -> devs (c_nd c) !! p2 = Some d2 -> name d2 = "imx6q-fec"%string -> ips_cnt d2 = 2 ->
  exists l, run_commands lpm_strtobin stack alloc (drop 4 default_commands) c = Ok (0, c <| c_rt := l |>) /\
    lpm_entries l = rev (default_routes (ifnet_idx d1) (ifnet_idx d2)) ++ lpm_entries (c_rt c).
Proof.
  intros Hcidr Hins Hal Hok Hp1 Hd1 Hn1 Hc1 Hp2 Hd2 Hn2 Hc2.
  set (rt i k := (rt_zero i) <| rt_if_addr_idx := k |>).
  destruct (Hins (c_rt c) [192; 168; 178; 49] 32 (rt (ifnet_idx d1) 0)) as [l1 H1].
  destruct (Hins l1 [172; 16; 0; 49] 32 (rt (ifnet_idx d1) 1)) as [l2 H2].
  destruct (Hins l2 [192; 168; 178; 0] 24 (rt (ifnet_idx d2) 0)) as [l3 H3].
  destruct (Hins l3 [172; 16; 0; 0] 24 (rt (ifnet_idx d2) 1)) as [l4 H4].
  exists l4.
  destruct (run_commands_route "NW" "192.168.178.49/32" [192; 168; 178; 49] 32 "0" 0
    (drop 5 default_commands) p1 d1 c l1) as [E1 Hok1]; [done|apply (Hcidr 192 168 178 49 32); [repeat constructor; lia|lia]|done|lia|done..|].
  destruct (run_commands_route "NW" "172.16.0.49/32" [172; 16; 0; 49] 32 "1" 1
    (drop 6 default_commands) p1 d1 (c <| c_rt := l1 |>) l2) as [E2 Hok2]; [done|apply (Hcidr 172 16 0 49 32); [repeat constructor; lia|lia]|done|lia|done|exact Hok1|done..|].
  destruct (run_commands_route "imx6q-fec" "192.168.178.0/24" [192; 168; 178; 0] 24 "0" 0
    (drop 7 default_commands) p2 d2 (c <| c_rt := l1 |> <| c_rt := l2 |>) l3) as [E3 Hok3]; [done|apply (Hcidr 192 168 178 0 24); [repeat constructor; lia|lia]|done|lia|done|exact Hok2|done..|].
  destruct (run_commands_route "imx6q-fec" "172.16.0.0/24" [172; 16; 0; 0] 24 "1" 1
    (drop 8 default_commands) p2 d2 (c <| c_rt := l1 |> <| c_rt := l2 |> <| c_rt := l3 |>) l4) as [E4 Hok4]; [done|apply (Hcidr 172 16 0 0 24); [repeat constructor; lia|lia]|done|lia|done|exact Hok3|done..|].
  split; [etransitivity; [exact E1|]; etransitivity; [exact E2|]; etransitivity; [exact E3|]; exact E4|].
  rewrite (lpm_insert_spec _ _ _ _ _ H4), (lpm_insert_spec _ _ _ _ _ H3), (lpm_insert_spec _ _ _ _ _ H2), (lpm_insert_spec _ _ _ _ _ H1).
  done.
Qed.

Lemma default_config_ok (c : cfg T L) p1 d1 p2 d2 :
  (forall a b e f n : Z, Forall (fun v => 0 <= v <= 255) [a; b; e; f] -> 0 <= n <= 32 ->
     lpm_strtobin (pretty a +:+ "." +:+ pretty b +:+ "." +:+ pretty e +:+ "." +:+ pretty f +:+ "/" +:+ pretty n)%string
       = Some ([a; b; e; f], n)) ->
  (forall l a n v, is_Some (lpm_insert (L := L) (V := route_info_t) l a n v)) ->
  length stack = 4%nat -> alloc = true -> cfg_ok c -> lpm_entries (c_rt c) = [] ->
  p1 ∈ netdev_list (c_nd c) -> devs (c_nd c) !! p1 = Some d1 -> name d1 = "NW"%string -> ips_cnt d1 = 0 ->
  p2 ∈ netdev_list (c_nd c) -> devs (c_nd c) !! p2 = Some d2 -> name d2 = "imx6q-fec"%string -> ips_cnt d2 = 0 ->
  exists c', load_config lpm_strtobin stack alloc true c = Ok (0, c') /\ cfg_ok c' /\ c_nd c' = default_nd p1 p2 (c_nd c) /\
    devs (c_nd c') !! p1 = Some (add_ip [172; 16; 0; 11] (add_ip [192; 168; 178; 11] d1)) /\
    devs (c_nd c') !! p2 = Some (add_ip [172; 16; 0; 49] (add_ip [192; 168; 178; 49] d2)) /\
    forall x y z w, Forall (fun v => 0 <= v <= 255) [x; y; z; w] ->
      let rt i k := (rt_zero i) <| rt_if_addr_idx := k |> in
      route_lookup (c_rt c') [x; y; z; w] =
        if bool_decide ([x; y; z] = [192; 168; 178]) then Some (rt (if w =? 49 then ifnet_idx d1 else ifnet_idx d2) 0) else
        if bool_decide ([x; y; z] = [172; 16; 0]) then Some (rt (if w =? 49 then ifnet_idx d1 else ifnet_idx d2) 1) else None.
Proof.
  intros Hcidr Hins Hst Hal Hok He Hp1 Hd1 Hn1 Hc1 Hp2 Hd2 Hn2 Hc2.
  assert (Hne : p1 <> p2) by (intros ->; rewrite Hd1 in Hd2; injection Hd2 as <-; congruence).
  unfold load_config. rewrite router_config_print.
  unfold parse_config. cbn [negb]. rewrite parse_lines_print by (exact default_commands_ok || (vm_compute; lia)).
  change default_commands with (take 4 default_commands ++ drop 4 default_commands).
  destruct (default_ifconfigs c p1 d1 p2 d2 (drop 4 default_commands)) as (c4 & -> & Hok4 & Er & El & E1 & E2); try done.
  destruct (default_routes_cmds c4 p1 (add_ip [172; 16; 0; 11] (add_ip [192; 168; 178; 11] d1))
              p2 (add_ip [172; 16; 0; 49] (add_ip [192; 168; 178; 49] d2)) Hcidr Hins Hal Hok4) as (l & Hrun & Hl);
    [by rewrite El; cbn|exact E1|done|cbn; lia|by rewrite El; cbn|exact E2|done|cbn; lia|].
  rewrite Hrun. eexists. split; [done|]. split; [by destruct Hok4|]. split; [exact El|]. split; [exact E1|]. split; [exact E2|].
  intros x y z w Hb. apply default_routes_lookup; [|done]. rewrite Er, He, app_nil_r in Hl. exact Hl.
Qed.

(** The built-in configuration.  With the two devices NW and imx6q-fec
    registered and no address set, a prefix parser that reads CIDR notation
    and a route table whose inserts succeed, [load_config] returns 0, gives
    each device its two addresses in the order of the text, and leaves routes
    by which every IPv4 destination goes to NW exactly if it is one of the two
    .49 addresses, to imx6q-fec if it is another address of the two /24
    networks, and nowhere otherwise. *)
Theorem default_config_loads (c : cfg T L) p1 d1 p2 d2 :
  (forall a b e f n : Z, Forall (fun v => 0 <= v <= 255) [a; b; e; f] -> 0 <= n <= 32 ->
     lpm_strtobin (pretty a +:+ "." +:+ pretty b +:+ "." +:+ pretty e +:+ "." +:+ pretty f +:+ "/" +:+ pretty n)%string
       = Some ([a; b; e; f], n)) ->
  (forall l a n v, is_Some (lpm_insert (L := L) (V := route_info_t) l a n v)) ->
  length stack = 4%nat -> alloc = true -> cfg_ok c -> lpm_entries (c_rt c) = [] ->
  p1 ∈ netdev_list (c_nd c) -> devs (c_nd c) !! p1 = Some d1 -> name d1 = "NW"%string -> ips_cnt d1 = 0 ->
  p2 ∈ netdev_list (c_nd c) -> devs (c_nd c) !! p2 = Some d2 -> name d2 = "imx6q-fec"%string -> ips_cnt d2 = 0 ->
  exists c', load_config lpm_strtobin stack alloc true c = Ok (0, c') /\
    devs (c_nd c') !! p1 = Some (add_ip [172; 16; 0; 11] (add_ip [192; 168; 178; 11] d1)) /\
    devs (c_nd c') !! p2 = Some (add_ip [172; 16; 0; 49] (add_ip [192; 168; 178; 49] d2)) /\
    forall x y z w, Forall (fun v => 0 <= v <= 255) [x; y; z; w] ->
      let rt i k := (rt_zero i) <| rt_if_addr_idx := k |> in
      route_lookup (c_rt c') [x; y; z; w] =
        if bool_decide ([x; y; z] = [192; 168; 178]) then Some (rt (if w =? 49 then ifnet_idx d1 else ifnet_idx d2) 0) else
        if bool_decide ([x; y; z] = [172; 16; 0]) then Some (rt (if w =? 49 then ifnet_idx d1 else ifnet_idx d2) 1) else None.
Proof.
  intros Hcidr Hins Hst Hal Hok He Hp1 Hd1 Hn1 Hc1 Hp2 Hd2 Hn2 Hc2.
  destruct (default_config_ok c p1 d1 p2 d2) as (c' & E & _ & _ & Hd); try done. by exists c'.
Qed.

End config_lemmas.

(** ** Examples *)

(** A reader of CIDR notation. *)
Definition cidr_parse (s : string) : option (list Z * Z) :=
  match split_on "/" s with
  | [a; n] => match dotted_quad a with Some q => Some (q, dec_from 0 n) | None => None end
  | _ => None
  end.

Lemma split_on_app delim t d r :
  avoids delim t = true -> str_mem d delim = true ->
  split_on delim (t +:+ String d r) = t :: split_on delim r.
Proof.
  intros Ht Hd. induction t as [|c t IH]; cbn in *; [by rewrite Hd|].
  apply andb_true_iff in Ht as [Hc Ht]. apply negb_true_iff in Hc. by rewrite Hc, IH.
Qed.

Lemma split_on_last delim t : avoids delim t = true -> split_on delim t = [t].
Proof.
  intros Ht. induction t as [|c t IH]; cbn in *; [done|].
  apply andb_true_iff in Ht as [Hc Ht]. apply negb_true_iff in Hc. by rewrite Hc, IH.
Qed.

Lemma pretty_byte a :
  0 <= a <= 255 -> octet_of (pretty a) = Some a /\ avoids "." (pretty a) = true /\
    avoids "/" (pretty a) = true /\ dec_from 0 (pretty a) = a.
Proof.
  intros Ha. pose (ok a := bool_decide (octet_of (pretty a) = Some a /\ avoids "." (pretty a) = true /\
    avoids "/" (pretty a) = true /\ dec_from 0 (pretty a) = a)).
  assert (F : forallb ok (seqZ 0 256) = true) by (vm_compute; reflexivity).
  rewrite forallb_forall in F. specialize (F a). rewrite <- list_elem_of_In, elem_of_seqZ in F.
  specialize (F ltac:(lia)). by apply bool_decide_eq_true in F.
Qed.

Lemma string_app_assoc s1 s2 s3 : ((s1 +:+ s2) +:+ s3 = s1 +:+ s2 +:+ s3)%string.
Proof. induction s1 as [|c s1 IH]; cbn; [done|]. by rewrite IH. Qed.

Lemma cidr_parse_ok (a b e f n : Z) :
  Forall (fun v => 0 <= v <= 255) [a; b; e; f] -> 0 <= n <= 32 ->
  cidr_parse (pretty a +:+ "." +:+ pretty b +:+ "." +:+ pretty e +:+ "." +:+ pretty f +:+ "/" +:+ pretty n)%string
    = Some ([a; b; e; f], n).
Proof.
  rewrite !Forall_cons. intros (Ha & Hb & He & Hf & _) Hn.
  destruct (pretty_byte a Ha) as (Oa & Da & Sa & _). destruct (pretty_byte b Hb) as (Ob & Db & Sb & _).
  destruct (pretty_byte e He) as (Oe & De & Se & _). destruct (pretty_byte f Hf) as (Of & Df & Sf & _).
  destruct (pretty_byte n ltac:(lia)) as (_ & _ & Sn & Vn). unfold cidr_parse.
  replace (pretty a +:+ "." +:+ pretty b +:+ "." +:+ pretty e +:+ "." +:+ pretty f +:+ "/" +:+ pretty n)%string
    with ((pretty a +:+ String "." (pretty b +:+ String "." (pretty e +:+ String "." (pretty f)))) +:+ String "/" (pretty n))
    by (rewrite !string_app_assoc; cbn; rewrite !string_app_assoc; cbn; by rewrite !string_app_assoc).
  assert (Hq : avoids "/" (pretty a +:+ String "." (pretty b +:+ String "." (pretty e +:+ String "." (pretty f)))) = true)
    by (rewrite !avoids_app; cbn; rewrite !avoids_app; cbn; rewrite !avoids_app; cbn; by rewrite Sa, Sb, Se, Sf).
  rewrite split_on_app, split_on_last by done. unfold dotted_quad.
  rewrite !split_on_app, split_on_last by done. cbn. rewrite Oa, Ob, Oe, Of. cbn. by rewrite Vn.
Qed.

Definition cfg_dev (nm : string) (i : Z) : ifnet_t (gmap (list Z) (list Z)) :=
  (ifnet_dev_init true).2 <| name := nm |> <| ifnet_idx := i |>.

Definition cfg_example : cfg (gmap (list Z) (list Z)) (list (list Z * Z * route_info_t)) :=
  mk_cfg (mk_netdevs {[ 1%positive := cfg_dev "NW" 1; 2%positive := cfg_dev "imx6q-fec" 2 ]} [2; 1]%positive
            (Some 1%positive :: Some 2%positive :: replicate 30 None) 3) [].

Lemma cfg_example_ok : cfg_ok cfg_example.
Proof.
  split.
  - split; cbn; [unfold MAX_IFNET_IDS; lia|repeat constructor; set_solver|done| |].
    + intros p Hp. rewrite !elem_of_cons in Hp. destruct Hp as [->|[->|Hp]]; [..|by apply elem_of_nil in Hp];
        (eexists; split; [reflexivity|]; cbn; split; [lia|done]).
    + intros i Hi. assert (i = 1 \/ i = 2) as [->| ->] by lia; cbn; eexists; (split; [done|set_solver]).
  - intros p q d e Hp Hq. cbn in *. rewrite !elem_of_cons in Hp, Hq.
    destruct Hp as [->|[->|Hp]]; [..|by apply elem_of_nil in Hp];
    destruct Hq as [->|[->|Hq]]; try (by apply elem_of_nil in Hq); try done; intros [= <-] [= <-]; discriminate.
  - intros p d Hp. cbn in *. rewrite !elem_of_cons in Hp.
    destruct Hp as [->|[->|Hp]]; [..|by apply elem_of_nil in Hp]; intros [= <-]; cbn; (split; [done|vm_compute; split; discriminate]).
Qed.

Lemma parse_config_prints_witness :
  parse_config cidr_parse [0; 0; 0; 0] true true (print_config [["ifconfig"; "NW"; "10.0.0.1"]]%string) cfg_example
    = run_commands cidr_parse [0; 0; 0; 0] true [["ifconfig"; "NW"; "10.0.0.1"]]%string cfg_example.
Proof.
  apply (parse_config_prints cidr_parse [0; 0; 0; 0] true [["ifconfig"; "NW"; "10.0.0.1"]]%string cfg_example).
  repeat constructor; cbn; try lia; vm_compute; congruence.
Defined.

Lemma default_config_loads_witness :
  exists c' d1' d2', load_config cidr_parse [0; 0; 0; 0] true true cfg_example = Ok (0, c') /\
    devs (c_nd c') !! 1%positive = Some d1' /\ devs (c_nd c') !! 2%positive = Some d2'.
Proof.
  assert (I : forall l a n v, is_Some (lpm_insert (L := list (list Z * Z * route_info_t)) (V := route_info_t) l a n v))
    by (intros; eexists; reflexivity).
  destruct (default_config_loads cidr_parse [0; 0; 0; 0] true cfg_example 1 (cfg_dev "NW" 1) 2 (cfg_dev "imx6q-fec" 2)
    cidr_parse_ok I eq_refl eq_refl cfg_example_ok eq_refl
    ltac:(cbn; set_solver) eq_refl eq_refl eq_refl ltac:(cbn; set_solver) eq_refl eq_refl eq_refl)
    as (c' & E & E1 & E2 & _).
  exists c'. eexists _, _. split; [exact E|]. split; [exact E1|exact E2].
Defined.

(** ** What the parser accepts and rejects against its intention *)

(** A line [ifconfig NW] without an address passes the argument check and
    makes [inet_pton] read a NULL pointer. *)
Lemma ifconfig_without_address :
  parse_config cidr_parse [0; 0; 0; 0] true true (print_config [["ifconfig"; "NW"]]%string) cfg_example = Undef.
Proof. vm_compute. reflexivity. Qed.

(** A malformed address is accepted: [inet_pton] reports it with 0, the check
    is for -1; the interface gets the address 0.0.0.0. *)
Lemma ifconfig_bad_address :
  exists c', parse_config cidr_parse [0; 0; 0; 0] true true (print_config [["ifconfig"; "NW"; "10.0.0.256"]]%string) cfg_example
    = Ok (0, c') /\ ips_cnt <$> (devs (c_nd c') !! 1%positive) = Some 1 /\
      if_ips <$> (devs (c_nd c') !! 1%positive) = Some [replicate 16 0; replicate 16 0].
Proof. eexists. split; [vm_compute; reflexivity|]. split; reflexivity. Qed.

(** Two blanks between tokens make an empty token: the test that should skip
    it looks at the separator string instead of the token. *)
Lemma double_blank_rejected :
  exists c', parse_config cidr_parse [0; 0; 0; 0] true true ("ifconfig  NW 10.0.0.1" +:+ newline)%string cfg_example
    = Ok (-1, c').
Proof. eexists. vm_compute. reflexivity. Qed.
