(* ===== verification/Forward.v ===== *)
(** * The output path of the router: ARP and transmit queues
    (nettrug/pta/arp.c; router_if_output, pktq_* and router_pktq_tx of
    nettrug/pta/worker.c).

    [world] is what a worker shares with the rest of the router: the buffer
    pool, the devices with their queues and ARP caches, and a log of the
    egress notifications.  A buffer is handed around as its identifier. *)

From stdpp Require Import strings.
From S2P Require Import Prelude Pktq EthBuf Netdev.

Record world (T : Type) := mk_world {
  w_pool : ethbuf_pool;
  w_nd : netdevs T;
  w_kicks : list Z;   (** indexes of the devices notified, newest first *)
  w_npf : nat         (** number of calls into the firewall so far *)
}.
Arguments mk_world {T}. Arguments w_pool {T}. Arguments w_nd {T}. Arguments w_kicks {T}. Arguments w_npf {T}.

#[global] Instance eta_world {T} : Settable (world T) :=
  fun w => mk_world (w_pool w) (w_nd w) (w_kicks w) (w_npf w).

(** A state that contains a world: the world itself, or a driver's state
    with it. *)
Class HasWorld (T S : Type) := {
  wd : S -> world T;
  set_wd : world T -> S -> S;
  wd_set w s : wd (set_wd w s) = w
}.
#[global] Arguments set_wd : simpl never.
#[global] Program Instance world_self T : HasWorld T (world T) := {| wd w := w; set_wd w _ := w |}.
Next Obligation. done. Qed.

(** ** Frames

    Offsets of the fields of [struct rte_ether_hdr] and [struct rte_arp_hdr];
    a 16-bit field is read as the little-endian CPU does, [ntohs] swaps it. *)

Definition RTE_ETHER_HDR_LEN : Z := 14.
Definition RTE_ETHER_TYPE_IPV4 : Z := 2048.
Definition RTE_ETHER_TYPE_ARP : Z := 2054.
Definition RTE_ETHER_TYPE_IPV6 : Z := 34525.
Definition RTE_ARP_HDR_LEN : Z := 28.
Definition RTE_ARP_OP_REQUEST : Z := 1.
Definition RTE_ARP_OP_REPLY : Z := 2.

Definition ntohs (x : Z) : Z := (x mod 256) * 256 + x / 256.
Definition bytes_of_u16 (x : Z) : list Z := [x mod 256; x / 256].
Definition u16_of_bytes (l : list Z) : Z := match l with [a; b] => a + b * 256 | _ => 0 end.

Definition ether_broadcast : list Z := replicate 6 255.
Definition rte_is_broadcast_ether_addr (a : list Z) : bool := bool_decide (a = ether_broadcast).
Definition rte_is_zero_ether_addr (a : list Z) : bool := bool_decide (a = replicate 6 0).
Definition rte_is_same_ether_addr (a b : list Z) : bool := bool_decide (a = b).

Section forward.
Context {T : Type} `{ThMap T}.
Implicit Types w : world T.

(** Dereferencing a buffer pointer, and storing through it. *)
Definition buf_get (w : world T) (m : positive) : outcome bstgw_ethbuf_t := deref (bufs (w_pool w) !! m).
Definition buf_set (w : world T) (m : positive) (e : bstgw_ethbuf_t) : world T :=
  w <| w_pool ::= fun p => p <| bufs ::= <[m := e]> |> |>.
Definition dev_get (w : world T) (p : positive) : outcome (ifnet_t T) := deref (devs (w_nd w) !! p).
Definition dev_set (w : world T) (p : positive) (d : ifnet_t T) : world T :=
  w <| w_nd ::= fun nd => nd <| devs ::= <[p := d]> |> |>.

Definition buf_free (w : world T) (m : ebptr) : outcome (world T) :=
  p ← bstgw_ethpool_buf_free m (w_pool w); Ok (w <| w_pool := p |>).

(** ** The ARP cache *)

(** [alloc]: whether an entry could be allocated. *)
Definition arp_cache_add (alloc : bool) (d : ifnet_t T) (ipaddr hw : list Z) (allow_new : bool) : outcome (ifnet_t T) :=
  t ← deref (arp_cache d);
  match th_get t ipaddr with
  | Some _ => Ok d
  | None =>
      if negb allow_new || negb alloc then Ok d else
      Ok (d <| arp_cache := Some (th_put t ipaddr hw).2 |>)
  end.

Definition arp_cache_lookup (d : ifnet_t T) (ipaddr : list Z) : outcome (option (list Z)) :=
  t ← deref (arp_cache d); Ok (th_get t ipaddr).

(** ** Building a request *)

Definition arp_request (src_hwaddr src_addr target : list Z) (w : world T) : outcome (positive * world T) :=
  '(m, p) ← bstgw_ethpool_buf_alloc (w_pool w);
  let w := w <| w_pool := p |> in
  e ← buf_get w m;
  let eh := bstgw_ethbuf_head e in
  let e := e <| l2_len := RTE_ETHER_HDR_LEN |> <| l3_len := RTE_ARP_HDR_LEN |>
             <| data_len := RTE_ETHER_HDR_LEN + RTE_ARP_HDR_LEN |> in
  b ← mem_write (bytes e) eh (ether_broadcast ++ src_hwaddr ++ [8; 6]);
  ah ← bstgw_ethbuf_data_ptr e (l2_len e);
  ah ← deref ah;
  src_ip ← mem_read src_addr 0 4;
  tip ← mem_read target 0 4;
  b ← mem_write b ah ([0; 1; 8; 0; 6; 4; 0; 1] ++ src_hwaddr ++ src_ip ++ ether_broadcast ++ tip);
  Ok (m, buf_set w m (e <| bytes := b |>)).

(** ** Queueing *)

(** Frees [m_pool[i]] for [i] from the position on. *)
Fixpoint free_bufs (ms : list ebptr) (w : world T) : outcome (world T) :=
  match ms with
  | [] => Ok w
  | m :: ms' => w ← buf_free w m; free_bufs ms' w
  end.

(** [net_if]: the worker's own device. *)
Definition pktq_do_menqueue (net_if : positive) (out_if_idx : Z) (m_pool : list ebptr) (npkts : Z)
    (w : world T) : outcome (Z * world T) :=
  if npkts =? 0 then Ok (0, w) else
  p ← ifnet_getbyidx (w_nd w) out_if_idx;
  match p with
  | None => Ok (-1, w)
  | Some p =>
      d ← dev_get w p;
      pq ← deref (egress_queue d);
      '(negr, pq) ← bstgw_pktq_locked_bulk_add_buff pq m_pool npkts;
      let w := dev_set w p (d <| egress_queue := Some pq |>) in
      rest ← mem_read m_pool negr (npkts - negr);
      w ← free_bufs rest w;
      if negr =? 0 then Ok (0, w) else
      self ← dev_get w net_if;
      if ifnet_idx self =? out_if_idx then Ok (i32 negr, w) else
      if negb (egress_ntfy_handler d) then Undef else
      Ok (i32 negr, w <| w_kicks ::= cons out_if_idx |>)
  end.

(** ** Output; [prepare] ties the knot with [pktq_prepare_enqueue] *)

Definition pktq_enqueue_with (prepare : Z -> positive -> world T -> outcome (Z * world T))
    (net_if : positive) (out_if_idx : Z) (m : positive) (w : world T) : outcome (Z * world T) :=
  '(ret, w) ← prepare out_if_idx m w;
  if negb (ret =? 0) then Ok (ret, w) else
  '(ret, w) ← pktq_do_menqueue net_if out_if_idx [Some m] 1 w;
  Ok (if 0 <=? ret then 0 else ret, w).

(** The resolved address, or None for -1. *)
Definition arp_resolve_with (prepare : Z -> positive -> world T -> outcome (Z * world T))
    (net_if : positive) (rt : route_info_t) (w : world T) : outcome (option (list Z) * world T) :=
  addr ← mem_read (rt_next_hop rt) 0 4;
  p ← ifnet_getbyidx (w_nd w) (rt_if_idx rt);
  match p with
  | None => Ok (None, w)
  | Some p =>
      d ← dev_get w p;
      r ← arp_cache_lookup d addr;
      match r with
      | Some hw => Ok (Some hw, w)
      | None =>
          if ips_cnt d <=? rt_if_addr_idx rt then Panic else
          src ← aget (if_ips d) (rt_if_addr_idx rt);
          '(m, w) ← arp_request (hwaddr d) src addr w;
          '(_, w) ← pktq_enqueue_with prepare net_if (rt_if_idx rt) m w;
          Ok (None, w)
      end
  end.

Definition router_if_output_with (prepare : Z -> positive -> world T -> outcome (Z * world T))
    (net_if out_ifp m : positive) (w : world T) : outcome (Z * world T) :=
  e ← buf_get w m;
  minfo ← assert_ptr (priv_data e);
  if Z.land (flags minfo) MBUF_NPF_NEED_L2 =? 0 then Ok (0, w) else
  c_assert (l2_len e =? RTE_ETHER_HDR_LEN);;
  let '(eh, e) := bstgw_ethbuf_prepend e RTE_ETHER_HDR_LEN in
  match eh with
  | None => Ok (-1, w)
  | Some eh =>
      d ← dev_get w out_ifp;
      b ← mem_write (bytes e) (eh + 6) (hwaddr d);
      let w := buf_set w m (e <| bytes := b |>) in
      '(hw, w) ← arp_resolve_with prepare net_if (route minfo) w;
      match hw with
      | None => Ok (-1, w)
      | Some hw =>
          e ← buf_get w m;
          b ← mem_write (bytes e) eh hw;
          b ← mem_write b (eh + 12) (bytes_of_u16 (ether_type minfo));
          Ok (0, buf_set w m (e <| bytes := b |>))
      end
  end.

(** [fuel] bounds the nesting: the packet, and the ARP request it causes,
    which needs no link-layer header, so 2 levels are used at most. *)
Fixpoint pktq_prepare_enqueue (fuel : nat) (net_if : positive) (out_idx : Z) (m : positive) (w : world T)
    : outcome (Z * world T) :=
  match fuel with
  | O => Undef
  | S fuel' =>
      p ← ifnet_getbyidx (w_nd w) out_idx;
      match p with
      | None => Ok (-1, w)
      | Some out_ifp =>
          '(r, w) ← router_if_output_with (pktq_prepare_enqueue fuel' net_if) net_if out_ifp m w;
          if r =? -1 then Ok (-1, w) else
          e ← buf_get w m;
          minfo ← deref (priv_data e);
          Ok (0, buf_set w m (e <| priv_data := Some (minfo <| out_if_idx := out_idx |>) |>))
      end
  end.

Definition output_fuel : nat := 2.

Definition prepare_enqueue (net_if : positive) : Z -> positive -> world T -> outcome (Z * world T) :=
  pktq_prepare_enqueue output_fuel net_if.

Definition pktq_enqueue (net_if : positive) : Z -> positive -> world T -> outcome (Z * world T) :=
  pktq_enqueue_with (prepare_enqueue net_if) net_if.

Definition arp_resolve (net_if : positive) : route_info_t -> world T -> outcome (option (list Z) * world T) :=
  arp_resolve_with (prepare_enqueue net_if) net_if.

(** ** Transmitting a queue *)

(** [xmit]: the driver's transmit handler, given the first buffers of the
    queue; it frees those it sent and returns their number, or an error. *)
Definition router_pktq_tx {S} `{HasWorld T S} (xmit : positive -> list ebptr -> S -> outcome (Z * S))
    (ifp : positive) (s : S) : outcome (Z * S) :=
  d ← dev_get (wd s) ifp;
  pq ← assert_ptr (egress_queue d);
  c_assert (xmit_handler d);;
  if bool_decide (trust_status d = BSTGW_IF_EXTERNAL) && netif_tx_queue_stopped pq then Ok (0, s) else
  let pktburst := bstgw_pktq_locked_contig_bufs pq in
  if pktburst =? 0 then Ok (0, s) else
  ms ← mem_read (pkt pq) (next_read pq) pktburst;
  '(sent, s) ← xmit ifp ms s;
  if sent <=? 0 then Ok (sent, s) else
  d ← dev_get (wd s) ifp;
  pq ← deref (egress_queue d);
  '(r, pq) ← bstgw_pktq_locked_drop_bufs pq sent;
  if negb r then Panic else
  Ok (sent, set_wd (dev_set (wd s) ifp (d <| egress_queue := Some pq |>)) s).

(** ** Invariant: every buffer in use is in one place *)

Record dev_ok (d : ifnet_t T) : Prop := {
  dk_hw : length (hwaddr d) = 6%nat;
  dk_ips : length (if_ips d) = 2%nat /\ Forall (fun a => length a = 16%nat) (if_ips d);
  dk_cnt : 0 <= ips_cnt d <= 2;
  dk_arp : exists t, arp_cache d = Some t /\ forall k v, th_get t k = Some v -> length v = 6%nat;
  dk_queue : exists q, egress_queue d = Some q /\ pq_wf q /\ Forall is_Some (pq_abs q);
  dk_ntfy : egress_ntfy_handler d = true
}.

Definition queue_of (nd : netdevs T) (p : positive) : list positive :=
  match devs nd !! p with
  | Some d => match egress_queue d with Some q => omap id (pq_abs q) | None => [] end
  | None => []
  end.

(** The buffers in the egress queues of the registered devices. *)
Definition queued (w : world T) : list positive := concat (map (queue_of (w_nd w)) (netdev_list (w_nd w))).

Record world_ok (w : world T) : Prop := {
  wo_pool : pool_wf (w_pool w);
  wo_room : map_Forall (fun _ e => 2048 <= buf_cap e) (bufs (w_pool w));
  wo_reg : reg_wf (w_nd w);
  wo_devs : forall p d, p ∈ netdev_list (w_nd w) -> devs (w_nd w) !! p = Some d -> dev_ok d
}.

(** [l]: the buffers that are in use but in no egress queue. *)
Definition owned (w : world T) (l : list positive) : Prop :=
  world_ok w /\ inuse_list (w_pool w) ≡ₚ queued w ++ l.

End forward.

(** ** Lemmas on ownership *)

Section ownership.
Context {T : Type} `{ThMap T}.
Implicit Types w : world T.

Lemma lremove_perm i l k : l ≡ₚ k -> lremove i l ≡ₚ lremove i k.
Proof. intros E. unfold lremove. by rewrite E. Qed.

Lemma owned_inuse w l m : owned w l -> m ∈ l -> m ∈ inuse_list (w_pool w).
Proof. intros [_ E] Hm. rewrite E. set_solver. Qed.

Lemma owned_perm w l k : l ≡ₚ k -> owned w l -> owned w k.
Proof. intros E [Hok Hin]. split; [done|]. by rewrite Hin, E. Qed.

(** The log and the call counter do not matter. *)
Lemma owned_log w w' l : w_pool w' = w_pool w -> w_nd w' = w_nd w -> owned w l -> owned w' l.
Proof.
  intros E1 E2 [[Hp Hr Hg Hd] Hin]. unfold owned, queued. rewrite E1, E2.
  split; [split; rewrite ?E1, ?E2; done|done].
Qed.

(** A buffer in use: well formed, single, of the pool's size. *)
Lemma owned_buf w l m :
  owned w l -> m ∈ l -> exists e, bufs (w_pool w) !! m = Some e /\ eb_wf e /\ next e = None /\ 2048 <= buf_cap e.
Proof.
  intros Ho Hm. pose proof (owned_inuse _ _ _ Ho Hm) as Hi. destruct Ho as [[Hp Hr _ _] _].
  destruct (proj1 (pw_store _ Hp m)) as [e He]; [set_solver|].
  destruct (pw_bufs _ Hp m e He). exists e. split_and!; try done. by apply (Hr m).
Qed.

Lemma owned_buf_set w l m e :
  owned w l -> m ∈ l -> eb_wf e -> next e = None -> 2048 <= buf_cap e -> owned (buf_set w m e) l.
Proof.
  intros Ho Hm He Hn Hc. pose proof (owned_inuse _ _ _ Ho Hm) as Hi. destruct Ho as [[Hp Hr Hg Hd] Hin].
  split; [split|]; cbn; try done; [by apply pool_use_spec|]. by apply map_Forall_insert_2.
Qed.

Lemma owned_free w l m :
  owned w (m :: l) ->
  exists w' e', buf_free w (Some m) = Ok w' /\ owned w' l /\ w_nd w' = w_nd w /\ w_kicks w' = w_kicks w /\
    w_npf w' = w_npf w /\ bufs (w_pool w') = <[m := e']> (bufs (w_pool w)).
Proof.
  intros Ho. pose proof (owned_inuse _ _ m Ho ltac:(set_solver)) as Hi. destruct Ho as [[Hp Hr Hg Hd] Hin].
  destruct (pool_free_spec _ m Hp Hi) as (p' & e' & Hf & Hp' & _ & Hu & Hb & (e & He & Hc) & _).
  unfold buf_free. rewrite Hf. cbn. eexists _, e'. split; [done|]. split; [|done]. split; [split|]; cbn; try done.
  - rewrite Hb. apply map_Forall_insert_2; [|done]. rewrite Hc. by apply (Hr m).
  - assert (Hnd : NoDup (queued w ++ m :: l)).
    { rewrite <- Hin. destruct Hp as [Hnd _ _ _ _]. by apply NoDup_app in Hnd as (_ & _ & ?). }
    change (queued (w <| w_pool := p' |>)) with (queued w).
    rewrite Hu, (lremove_perm m _ _ Hin), lremove_app. rewrite <- Permutation_middle in Hnd.
    apply NoDup_cons in Hnd as [Hm _]. rewrite lremove_notin by set_solver. by rewrite lremove_head by set_solver.
Qed.

Lemma owned_free_bufs ms : forall w l,
  owned w (ms ++ l) ->
  exists w', free_bufs (Some <$> ms) w = Ok w' /\ owned w' l /\ w_nd w' = w_nd w /\ w_kicks w' = w_kicks w /\
    w_npf w' = w_npf w /\ (forall j, j ∉ ms -> bufs (w_pool w') !! j = bufs (w_pool w) !! j).
Proof.
  induction ms as [|m ms IH]; intros w l Ho; [by exists w|]. rewrite fmap_cons. cbn [free_bufs].
  destruct (owned_free w (ms ++ l) m Ho) as (w1 & e' & -> & Ho1 & Hn1 & Hk1 & Hc1 & Hb1). cbn.
  destruct (IH w1 l Ho1) as (w' & -> & Ho' & Hn' & Hk' & Hc' & Hb'). exists w'. split_and!; try done; try congruence.
  intros j [Hj1 Hj2]%not_elem_of_cons. rewrite Hb' by done. rewrite Hb1, lookup_insert_ne by done. done.
Qed.

(** The queues, seen from one device. *)
Lemma queued_split w p d :
  NoDup (netdev_list (w_nd w)) -> p ∈ netdev_list (w_nd w) ->
  exists rest, queued w ≡ₚ queue_of (w_nd w) p ++ rest /\
    queued (dev_set w p d) ≡ₚ queue_of (w_nd (dev_set w p d)) p ++ rest.
Proof.
  intros Hnd Hp. unfold queued. apply list_elem_of_split in Hp as (l1 & l2 & E). cbn. rewrite E in *.
  apply NoDup_app in Hnd as (_ & Hdis & Hnd). apply NoDup_cons in Hnd as [Hp2 _].
  exists (concat (map (queue_of (w_nd w)) l1) ++ concat (map (queue_of (w_nd w)) l2)).
  assert (Same : forall l, p ∉ l -> map (queue_of (w_nd (dev_set w p d))) l = map (queue_of (w_nd w)) l).
  { intros l Hl. apply map_ext_in. intros q Hq%list_elem_of_In. unfold queue_of. cbn.
    rewrite lookup_insert_ne by (intros ->; done). done. }
  rewrite !map_app, !concat_app. cbn. cbn in Same. rewrite !Same by (done || (intros Hl1; by apply (Hdis p Hl1); set_solver)).
  split; solve_Permutation.
Qed.

(** Changing a device other than its queue. *)
Lemma owned_dev_set w l p d d' :
  owned w l -> p ∈ netdev_list (w_nd w) -> devs (w_nd w) !! p = Some d ->
  dev_ok d' -> ifnet_idx d' = ifnet_idx d -> egress_queue d' = egress_queue d ->
  owned (dev_set w p d') l.
Proof.
  intros [[Hp Hr Hg Hd] Hin] Hpl Hdp Hok Hi Hq.
  destruct (queued_split w p d' (rw_nodup _ Hg) Hpl) as (rest & E1 & E2).
  assert (Eq : queue_of (w_nd (dev_set w p d')) p = queue_of (w_nd w) p).
  { unfold queue_of. cbn. by rewrite lookup_insert_eq, Hdp, Hq. }
  split; [split|]; cbn; try done.
  - destruct Hg as [Gn Gd Gl Gls Gm]. split; cbn; try done. intros q Hq'. destruct (Gls q Hq') as (e & He & Hei & Hem).
    destruct (decide (p = q)) as [<-|N].
    + exists d'. rewrite lookup_insert_eq. split; [done|]. assert (e = d) as -> by congruence. by rewrite Hi.
    + exists e. by rewrite lookup_insert_ne.
  - intros q e Hq' He. destruct (decide (p = q)) as [<-|N].
    + rewrite lookup_insert_eq in He. congruence.
    + rewrite lookup_insert_ne in He by done. eauto.
  - rewrite Hin, E1, E2, Eq. done.
Qed.

(** Moving buffers in and out of a device's queue. *)
Lemma owned_queue_change w l l' p d q q' :
  owned w l -> p ∈ netdev_list (w_nd w) -> devs (w_nd w) !! p = Some d -> egress_queue d = Some q ->
  pq_wf q' -> Forall is_Some (pq_abs q') -> omap id (pq_abs q) ++ l ≡ₚ omap id (pq_abs q') ++ l' ->
  owned (dev_set w p (d <| egress_queue := Some q' |>)) l'.
Proof.
  intros [[Hp Hr Hg Hd] Hin] Hpl Hdp Hq Hwf Hsome Hperm.
  set (d' := d <| egress_queue := Some q' |>).
  destruct (queued_split w p d' (rw_nodup _ Hg) Hpl) as (rest & E1 & E2).
  pose proof (Hd p d Hpl Hdp) as [K1 K2 K3 K4 K5 K6].
  assert (Eq : queue_of (w_nd w) p = omap id (pq_abs q)) by (unfold queue_of; by rewrite Hdp, Hq).
  assert (Eq' : queue_of (w_nd (dev_set w p d')) p = omap id (pq_abs q')) by (unfold queue_of; cbn; by rewrite lookup_insert_eq).
  split; [split|]; cbn; try done.
  - destruct Hg as [Gn Gd Gl Gls Gm]. split; cbn; try done. intros x Hx. destruct (Gls x Hx) as (e & He & Hei & Hem).
    destruct (decide (p = x)) as [<-|N].
    + exists d'. rewrite lookup_insert_eq. split; [done|]. assert (e = d) as -> by congruence. done.
    + exists e. by rewrite lookup_insert_ne.
  - intros x e Hx He. destruct (decide (p = x)) as [<-|N].
    + rewrite lookup_insert_eq in He. injection He as <-. split; try done. by exists q'.
    + rewrite lookup_insert_ne in He by done. eauto.
  - rewrite Hin, E1, E2, Eq, Eq'. rewrite (Permutation_app_comm _ rest), (Permutation_app_comm _ rest), <- !app_assoc. by rewrite Hperm.
Qed.

Lemma all_some (l : list ebptr) : Forall is_Some l -> l = Some <$> omap id l.
Proof. induction 1 as [|o l [m ->] _ IH]; cbn; [done|]. by f_equal. Qed.

(** A buffer in a queue. *)
Lemma owned_queued w l p d q m :
  owned w l -> p ∈ netdev_list (w_nd w) -> devs (w_nd w) !! p = Some d -> egress_queue d = Some q -> Some m ∈ pq_abs q ->
  exists e, bufs (w_pool w) !! m = Some e /\ eb_wf e /\ next e = None.
Proof.
  intros [[Hp _ _ _] Hin] Hpl Hd Hq Hm. destruct (proj1 (pw_store _ Hp m)) as [e He].
  - assert (m ∈ queued w); [|rewrite Hin; set_solver]. unfold queued. apply list_elem_of_In, in_concat.
    exists (queue_of (w_nd w) p). split; [apply in_map; by apply list_elem_of_In|].
    apply list_elem_of_In. unfold queue_of. rewrite Hd, Hq. apply list_elem_of_omap. by exists (Some m).
  - destruct (pw_bufs _ Hp m e He). by exists e.
Qed.

Lemma omap_id_some (ms : list positive) : omap id (Some <$> ms) = ms.
Proof. induction ms; cbn; [done|]. by f_equal. Qed.

Lemma owned_queue_set w l ms p d q q' :
  owned w (ms ++ l) -> p ∈ netdev_list (w_nd w) -> devs (w_nd w) !! p = Some d -> egress_queue d = Some q ->
  pq_wf q' -> pq_abs q' = pq_abs q ++ (Some <$> ms) ->
  owned (dev_set w p (d <| egress_queue := Some q' |>)) l.
Proof.
  intros Ho Hpl Hdp Hq Hwf Habs. pose proof Ho as [[_ _ _ Hd] _].
  pose proof (Hd p d Hpl Hdp) as [_ _ _ _ (q0 & K5 & _ & K5'') _]. assert (q0 = q) as -> by congruence.
  apply (owned_queue_change w (ms ++ l) l p d q q'); try done.
  - rewrite Habs. apply Forall_app. split; [done|]. apply Forall_fmap, Forall_true. intros; by eexists.
  - rewrite Habs, omap_app, omap_id_some, <- app_assoc. done.
Qed.

(** Taking buffers from the front. *)
Lemma owned_queue_drop w l ms p d q q' :
  owned w l -> p ∈ netdev_list (w_nd w) -> devs (w_nd w) !! p = Some d -> egress_queue d = Some q ->
  pq_wf q' -> pq_abs q = (Some <$> ms) ++ pq_abs q' ->
  owned (dev_set w p (d <| egress_queue := Some q' |>)) (ms ++ l).
Proof.
  intros Ho Hpl Hdp Hq Hwf Habs. pose proof Ho as [[_ _ _ Hd] _].
  pose proof (Hd p d Hpl Hdp) as [_ _ _ _ (q0 & K5 & _ & K5'') _]. assert (q0 = q) as -> by congruence.
  rewrite Habs in K5''. apply Forall_app in K5'' as [_ K5''].
  apply (owned_queue_change w l (ms ++ l) p d q q'); try done.
  rewrite Habs, omap_app, omap_id_some. solve_Permutation.
Qed.

(** ** The output path keeps ownership *)

(** The parts of the registry that no packet changes. *)
Definition nd_frame (nd nd' : netdevs T) : Prop :=
  netdev_list nd' = netdev_list nd /\ ifnet_map nd' = ifnet_map nd /\ next_if_idx nd' = next_if_idx nd.

Lemma nd_frame_refl nd : nd_frame nd nd.
Proof. done. Qed.

Lemma nd_frame_trans nd1 nd2 nd3 : nd_frame nd1 nd2 -> nd_frame nd2 nd3 -> nd_frame nd1 nd3.
Proof. unfold nd_frame. naive_solver congruence. Qed.

Lemma getbyidx_frame nd nd' idx : nd_frame nd nd' -> ifnet_getbyidx nd' idx = ifnet_getbyidx nd idx.
Proof. intros (_ & E2 & E3). unfold ifnet_getbyidx. by rewrite E2, E3. Qed.

Lemma owned_dev w l p : owned w l -> p ∈ netdev_list (w_nd w) -> exists d, devs (w_nd w) !! p = Some d /\ dev_ok d.
Proof.
  intros [[_ _ Hg Hd] _] Hp. destruct (rw_list _ Hg p Hp) as (d & Hdp & _). eauto.
Qed.

Lemma owned_getbyidx w l idx :
  owned w l -> 0 <= idx ->
  ifnet_getbyidx (w_nd w) idx = Ok None \/
  exists p d, ifnet_getbyidx (w_nd w) idx = Ok (Some p) /\ p ∈ netdev_list (w_nd w) /\
    devs (w_nd w) !! p = Some d /\ dev_ok d /\ 1 <= idx < next_if_idx (w_nd w).
Proof.
  intros Ho Hi. destruct Ho as [[? ? Hg Hd] Hin]. pose proof (getbyidx_spec _ idx Hg Hi) as G.
  destruct (ifnet_getbyidx (w_nd w) idx) as [[p|]| |] eqn:E; try done; [|by left].
  destruct G as (Hr & Hp & _). right. destruct (rw_list _ Hg p Hp) as (d & Hdp & _). exists p, d. eauto 10.
Qed.

(** [pktq_do_menqueue] takes every buffer it is given: the first ones, as
    many as fit, are at the end of the queue in order, the others are free. *)
Lemma menqueue_owned w l ms net_if idx p d q :
  owned w (ms ++ l) -> net_if ∈ netdev_list (w_nd w) -> Z.of_nat (length ms) <= MAX_I32 ->
  ifnet_getbyidx (w_nd w) idx = Ok (Some p) -> p ∈ netdev_list (w_nd w) ->
  devs (w_nd w) !! p = Some d -> egress_queue d = Some q ->
  exists r w' q', pktq_do_menqueue net_if idx (Some <$> ms) (Z.of_nat (length ms)) w = Ok (r, w') /\
    0 <= r /\ owned w' l /\ nd_frame (w_nd w) (w_nd w') /\
    (forall j, j ∉ ms -> bufs (w_pool w') !! j = bufs (w_pool w) !! j) /\
    devs (w_nd w') = <[p := d <| egress_queue := Some q' |>]> (devs (w_nd w)) /\
    pq_abs q' = fifo_push (Z.to_nat (Pktq.capacity q)) (Some <$> ms) (pq_abs q) /\
    (Z.of_nat (length ms) <= Pktq.capacity q - count q -> bufs (w_pool w') = bufs (w_pool w)).
Proof.
  intros Ho Hself Hmax Hg Hp Hd Hq. unfold pktq_do_menqueue.
  destruct (Z.eqb_spec (Z.of_nat (length ms)) 0) as [E0|N0].
  { destruct ms; [|done]. exists 0, w, q. split_and!; try done.
    - rewrite insert_id; [done|]. rewrite Hd. f_equal. destruct d; cbn in Hq; subst; done.
    - unfold fifo_push. rewrite fmap_nil, take_nil, app_nil_r. done. }
  rewrite Hg. cbn [mbind outcome_bind]. unfold dev_get. rewrite Hd. cbn [mbind outcome_bind deref]. rewrite Hq. cbn [deref mbind outcome_bind].
  destruct (owned_dev w _ p Ho Hp) as (d0 & Hd0 & Hok). assert (d0 = d) as -> by congruence.
  pose proof Hok as [_ _ _ _ (q0 & Hq0 & Hqwf & Hqs) Hnt]. assert (q0 = q) as -> by congruence.
  unfold MAX_I32 in Hmax.
  destruct (bulk_add_refines_fifo q (Some <$> ms) (Z.of_nat (length ms))) as (q' & -> & Hwf' & Hcap & Habs);
    [done|rewrite length_fmap; lia|unfold MAX_U32; lia|]. cbn [mbind outcome_bind].
  pose proof (pq_abs_length q Hqwf) as Hql. destruct (Hqwf) as [Hc1 Hc2 _ _ _].
  set (k := Z.min (Z.of_nat (length ms)) (Pktq.capacity q - count q)) in *.
  assert (Hk : 0 <= k <= Z.of_nat (length ms)) by lia.
  rewrite mem_read_ok by (rewrite ?length_fmap; lia). cbn [mbind outcome_bind].
  assert (Habs' : pq_abs q' = pq_abs q ++ (Some <$> take (Z.to_nat k) ms)).
  { rewrite Habs. unfold fifo_push. f_equal. rewrite Hql, fmap_take, take_take. unfold k.
    destruct (Z.le_gt_cases (Z.of_nat (length ms)) (Pktq.capacity q - count q)).
    - rewrite !take_ge by (rewrite length_fmap; lia). done.
    - f_equal. lia. }
  assert (Ho' : owned w (take (Z.to_nat k) ms ++ (drop (Z.to_nat k) ms ++ l))).
  { rewrite app_assoc, take_drop. done. }
  pose proof (owned_queue_set w _ _ p d q q' Ho' Hp Hd Hq Hwf' Habs') as Ho1.
  set (w1 := dev_set w p (d <| egress_queue := Some q' |>)) in *.
  rewrite <- fmap_drop. rewrite take_ge by (rewrite length_fmap, length_drop; lia).
  destruct (owned_free_bufs _ w1 l Ho1) as (w2 & Hfree & Ho2 & Hn2 & Hk2 & Hc2' & Hb2).
  rewrite Hfree. cbn [mbind outcome_bind].
  assert (Hdevs : devs (w_nd w2) = <[p := d <| egress_queue := Some q' |>]> (devs (w_nd w))) by by rewrite Hn2.
  assert (Hfr : nd_frame (w_nd w) (w_nd w2)) by by rewrite Hn2.
  assert (Hbufs : forall j, j ∉ ms -> bufs (w_pool w2) !! j = bufs (w_pool w) !! j).
  { intros j Hj. apply Hb2. intros Hj'. apply Hj. rewrite <- (take_drop (Z.to_nat k) ms). set_solver. }
  assert (Hfifo : pq_abs q' = fifo_push (Z.to_nat (Pktq.capacity q)) (Some <$> ms) (pq_abs q)).
  { rewrite Habs. f_equal. apply take_ge. rewrite length_fmap. lia. }
  assert (Hroom : Z.of_nat (length ms) <= Pktq.capacity q - count q -> bufs (w_pool w2) = bufs (w_pool w)).
  { intros Hr. rewrite drop_ge in Hfree by lia. cbn in Hfree. by injection Hfree as <-. }
  destruct (Z.eqb_spec k 0); [exists 0, w2, q'; done|].
  destruct (owned_dev w2 l net_if Ho2) as (ds & Hds & _); [by rewrite Hn2|].
  rewrite Hds. cbn [deref mbind outcome_bind].
  rewrite (i32_small k) by lia. destruct (ifnet_idx ds =? idx); [exists k, w2, q'; split_and!; done || lia|].
  rewrite Hnt. exists k, (w2 <| w_kicks ::= cons idx |>), q'.
  split_and!; first [done | lia | by apply (owned_log w2)].
Qed.

(** Taking a buffer from the pool. *)
Lemma owned_alloc w l m fl :
  owned w l -> free_list (w_pool w) = m :: fl ->
  exists p' e, bstgw_ethpool_buf_alloc (w_pool w) = Ok (m, p') /\ owned (w <| w_pool := p' |>) (m :: l) /\
    bufs p' = bufs (w_pool w) /\ free_list p' = fl /\ m ∉ inuse_list (w_pool w) /\
    bufs (w_pool w) !! m = Some e /\ eb_wf e /\ eb_clean e /\ 2048 <= buf_cap e.
Proof.
  intros [[Hp Hr Hg Hd] Hin] Hfl.
  destruct (pool_alloc_spec _ m fl Hp Hfl) as (p' & Ha & Hp' & Hfl' & Hin' & Hb' & _).
  assert (Hm : m ∈ free_list (w_pool w)) by (rewrite Hfl; set_solver).
  destruct (proj1 (pw_store _ Hp m)) as [e He]; [set_solver|].
  destruct (pw_bufs _ Hp m e He) as [Hwf _]. exists p', e. split_and!; try done; [|by intros Hi; apply (pool_inuse_not_free _ m Hp Hi)|by apply (pw_clean _ Hp m)|by apply (Hr m)].
  split; [split|]; cbn; try done; [by rewrite Hb'|]. rewrite Hin', Hin.
  change (queued (w <| w_pool := p' |>)) with (queued w). solve_Permutation.
Qed.

(** An ARP request takes a clean buffer; the others do not change. *)
Lemma arp_request_owned w l hw src tgt :
  owned w l -> length hw = 6%nat -> (4 <= length src)%nat -> (4 <= length tgt)%nat ->
  defined (arp_request hw src tgt w) (fun '(m, w') =>
    owned w' (m :: l) /\ w_nd w' = w_nd w /\ m ∉ inuse_list (w_pool w) /\
    (forall j, j ≠ m -> bufs (w_pool w') !! j = bufs (w_pool w) !! j) /\
    exists e pr, bufs (w_pool w') !! m = Some e /\ priv_data e = Some pr /\ flags pr = 0 /\
      eb_data e = ether_broadcast ++ hw ++ [8; 6] ++ [0; 1; 8; 0; 6; 4; 0; 1] ++ hw ++ take 4 src ++ ether_broadcast ++ take 4 tgt).
Proof.
  intros Ho Hh Hs Ht. unfold arp_request.
  destruct (free_list (w_pool w)) as [|m fl] eqn:Hfl; [by unfold bstgw_ethpool_buf_alloc; rewrite Hfl|].
  destruct (owned_alloc w l m fl Ho Hfl) as (p' & e & -> & Ho1 & Hb' & _ & Hfresh & He & [_ _ _ Hcap Hmax _] & (Hn & _ & _ & _ & Hoff & pr & Hpr & Hfg) & Hroom).
  cbn [mbind outcome_bind]. unfold buf_get. cbn [w_pool upd]. rewrite Hb', He. cbn [deref mbind outcome_bind].
  unfold bstgw_ethbuf_head, RTE_ETHER_HDR_LEN, RTE_ARP_HDR_LEN in *. unfold MAX_I32 in Hmax.
  rewrite mem_write_ok by (cbn; rewrite ?length_app, ?Hh; cbn; lia). cbn [mbind outcome_bind].
  set (e1 := e <| l2_len := 14 |> <| l3_len := 28 |> <| data_len := 14 + 28 |>).
  assert (Hw1 : eb_wf e1) by (unfold e1; split; cbn; unfold MAX_I32; try lia; rewrite Hpr; by eexists).
  change (l2_len e1) with 14. rewrite (data_ptr_spec e1 14 Hw1) by lia. cbn [mbind outcome_bind deref].
  change (14 <? data_len e1) with true. cbn [deref mbind outcome_bind]. change (data_off e1) with (data_off e). rewrite Hoff.
  rewrite !mem_read_ok by lia. cbn [mbind outcome_bind]. rewrite !drop_0.
  set (p1 := ether_broadcast ++ hw ++ [8; 6]). assert (Hl1 : length p1 = 14%nat) by (unfold p1; rewrite !length_app, Hh; done).
  set (p2 := [0; 1; 8; 0; 6; 4; 0; 1] ++ hw ++ take (Z.to_nat 4) src ++ ether_broadcast ++ take (Z.to_nat 4) tgt).
  assert (Hl2 : length p2 = 28%nat) by (unfold p2; rewrite !length_app, !length_take, Hh; cbn; lia).
  change (bytes e1) with (bytes e). change (Z.to_nat 0) with 0%nat.
  assert (Hlb : length (blit (bytes e) 0 p1) = length (bytes e)) by (apply length_blit; lia).
  rewrite mem_write_ok by lia. cbn [mbind outcome_bind].
  set (b2 := blit (blit (bytes e) 0 p1) (Z.to_nat (0 + 14)) p2).
  assert (Hlb2 : length b2 = length (bytes e)) by (unfold b2; rewrite length_blit by lia; done).
  assert (Hw2 : eb_wf (e1 <| bytes := b2 |>)) by (unfold e1; split; cbn; unfold MAX_I32; try lia; rewrite Hpr; by eexists).
  cbn. split; [by apply owned_buf_set; [exact Ho1|set_solver|..|cbn; lia]|]. split; [done|].
  split; [done|].
  split; [intros j Hj; cbn; by rewrite lookup_insert_ne, Hb' by done|].
  exists (e1 <| bytes := b2 |>), pr. cbn. rewrite lookup_insert_eq. split_and!; try done.
  unfold eb_data. cbn. rewrite Hoff. cbn [Z.to_nat]. rewrite drop_0. unfold b2, blit.
  change (Z.to_nat (0 + 14)) with 14%nat. cbn [Nat.add take app].
  change (take 0 (bytes e)) with (@nil Z). cbn [app].
  rewrite (take_app_le p1), (take_ge p1) by lia.
  change (Z.to_nat (14 + 28)) with 42%nat. rewrite app_assoc. rewrite take_app_le, take_ge by (rewrite length_app; lia).
  unfold p1, p2. rewrite <- !app_assoc. done.
Qed.

(** The three parts of a link-layer header, written one after the other. *)
Lemma blit_header (b x y z : list Z) o :
  length x = 6%nat -> length y = 6%nat -> length z = 2%nat -> (o + 14 <= length b)%nat ->
  blit (blit (blit b (o + 6) x) o y) (o + 12) z = blit b o (y ++ x ++ z).
Proof.
  intros Hx Hy Hz Hb. pose proof (length_blit b (o + 6) x ltac:(lia)) as H1.
  pose proof (length_blit (blit b (o + 6) x) o y ltac:(lia)) as H2.
  apply list_eq. intros i.
  rewrite !lookup_blit by (rewrite ?length_app; lia). rewrite !length_app, Hx, Hy, Hz.
  repeat case_decide; try lia; try done.
  - rewrite lookup_app_r, lookup_app_r by lia. f_equal. lia.
  - rewrite lookup_app_l by lia. f_equal.
  - rewrite lookup_app_r, lookup_app_l by lia. f_equal. lia.
Qed.

Lemma buf_set_set w m e1 e2 : buf_set (buf_set w m e1) m e2 = buf_set w m e2.
Proof. unfold buf_set, upd. cbn. by rewrite insert_insert_eq. Qed.

Lemma prepend_ok e n :
  eb_wf e -> 0 <= n <= data_off e ->
  bstgw_ethbuf_prepend e n = (Some (data_off e - n), e <| data_off := data_off e - n |> <| data_len := data_len e + n |>).
Proof.
  intros [] Hn. unfold bstgw_ethbuf_prepend, MAX_I32 in *.
  rewrite (proj2 (Z.ltb_ge _ _)), !u32_small by lia. done.
Qed.

(** A packet after a header has been written in front of it. *)
Lemma eb_data_prepend e h :
  eb_wf e -> Z.of_nat (length h) <= data_off e ->
  let off := data_off e - Z.of_nat (length h) in
  let e' := e <| data_off := off |> <| data_len := data_len e + Z.of_nat (length h) |>
              <| bytes := blit (bytes e) (Z.to_nat off) h |> in
  eb_wf e' /\ eb_data e' = h ++ eb_data e.
Proof.
  intros Hwf Hl off e'. destruct (Hwf) as [K1 K2 K3 K4 K5 K6]. unfold MAX_I32 in *. unfold e', off. split.
  - split; cbn; unfold MAX_I32; rewrite ?length_blit by lia; try lia; done.
  - unfold eb_data. cbn. unfold blit.
    rewrite drop_app_ge, length_take, (Nat.min_l _ (length (bytes e))), Nat.sub_diag by (rewrite ?length_take; lia).
    rewrite drop_0, take_app_ge by lia. f_equal. f_equal; [lia|f_equal; lia].
Qed.

Lemma prepare_unfold fuel net_if idx m w :
  pktq_prepare_enqueue (S fuel) net_if idx m w =
    (p ← ifnet_getbyidx (w_nd w) idx;
     match p with
     | None => Ok (-1, w)
     | Some out_ifp =>
         '(r, w) ← router_if_output_with (pktq_prepare_enqueue fuel net_if) net_if out_ifp m w;
         if r =? -1 then Ok (-1, w) else
         e ← buf_get w m;
         minfo ← deref (priv_data e);
         Ok (0, buf_set w m (e <| priv_data := Some (minfo <| out_if_idx := idx |>) |>))
     end).
Proof. reflexivity. Qed.

(** A packet that needs no link-layer header is only marked. *)
Lemma prepare_no_l2 fuel net_if idx m w e pr p :
  bufs (w_pool w) !! m = Some e -> priv_data e = Some pr -> Z.land (flags pr) MBUF_NPF_NEED_L2 = 0 ->
  ifnet_getbyidx (w_nd w) idx = Ok (Some p) ->
  pktq_prepare_enqueue (S fuel) net_if idx m w
    = Ok (0, buf_set w m (e <| priv_data := Some (pr <| out_if_idx := idx |>) |>)).
Proof.
  intros He Hpr Hf Hg. cbn [pktq_prepare_enqueue]. rewrite Hg. cbn [mbind outcome_bind].
  unfold router_if_output_with, buf_get. rewrite He. cbn [deref mbind outcome_bind]. rewrite Hpr. cbn [assert_ptr mbind outcome_bind].
  rewrite Hf. cbn [Z.eqb mbind outcome_bind]. rewrite He. cbn [deref mbind outcome_bind]. rewrite Hpr. done.
Qed.

Record rt_ok (rt : route_info_t) : Prop := {
  ro_hop : (4 <= length (rt_next_hop rt))%nat;
  ro_if : 0 <= rt_if_idx rt;
  ro_addr : 0 <= rt_if_addr_idx rt
}.

Lemma eb_wf_priv e pr : eb_wf e -> eb_wf (e <| priv_data := Some pr |>).
Proof. intros []. split; try done. Qed.

(** Resolving a next hop takes no buffer for good: a request it sends ends in
    a queue or is freed. *)
Lemma arp_resolve_owned fuel net_if rt w l :
  owned w l -> net_if ∈ netdev_list (w_nd w) -> rt_ok rt ->
  defined (arp_resolve_with (pktq_prepare_enqueue (S fuel) net_if) net_if rt w) (fun '(hw, w') =>
    owned w' l /\ nd_frame (w_nd w) (w_nd w') /\
    (forall j, j ∈ l -> bufs (w_pool w') !! j = bufs (w_pool w) !! j) /\
    forall h, hw = Some h -> length h = 6%nat).
Proof.
  intros Ho Hself [Hh Hi Ha]. unfold arp_resolve_with. rewrite mem_read_ok by lia. cbn [mbind outcome_bind].
  rewrite drop_0. change (Z.to_nat 4) with 4%nat.
  destruct (owned_getbyidx w l (rt_if_idx rt) Ho Hi) as [->|(p & d & Hg & Hp & Hd & Hok & _)]; [done|].
  rewrite Hg. cbn [mbind outcome_bind]. unfold dev_get. rewrite Hd. cbn [deref mbind outcome_bind].
  pose proof Hok as [K1 [K2 K2'] K3 (t & K4 & K4') (q & K5 & _) _].
  unfold arp_cache_lookup. rewrite K4. cbn [deref mbind outcome_bind].
  destruct (th_get t (take 4 (rt_next_hop rt))) as [h|] eqn:Et.
  { split_and!; try done. intros h' [= <-]. eauto. }
  destruct (Z.leb_spec (ips_cnt d) (rt_if_addr_idx rt)); [done|].
  destruct (aget_in_range (if_ips d) (rt_if_addr_idx rt)) as [src Hs]; [lia|]. rewrite Hs. cbn [mbind outcome_bind].
  assert (Hsl : length src = 16%nat) by (apply aget_ok in Hs as [_ Hs]; eapply Forall_lookup_1 in K2'; eauto).
  apply defined_bind. eapply defined_mono; [|apply (arp_request_owned w l); [done|done|lia|rewrite length_take; lia]].
  intros [m w1] (Ho1 & Hn1 & Hm & Hb1 & e & pr & He & Hpr & Hfl & _).
  unfold pktq_enqueue_with. rewrite (prepare_no_l2 fuel net_if _ m w1 e pr p He Hpr) by (rewrite ?Hfl, ?Hn1; done).
  cbn [mbind outcome_bind Z.eqb negb].
  destruct (owned_buf w1 _ m Ho1 ltac:(set_solver)) as (e0 & He0 & Hwf & Hnx & Hcap). assert (e0 = e) as -> by congruence.
  set (e' := e <| priv_data := Some (pr <| out_if_idx := rt_if_idx rt |>) |>).
  assert (Ho2 : owned (buf_set w1 m e') ([m] ++ l)) by (apply owned_buf_set; [done|set_solver|by apply eb_wf_priv|done|done]).
  destruct (menqueue_owned (buf_set w1 m e') l [m] net_if (rt_if_idx rt) p d q) as (r & w2 & q' & Em & _ & Ho3 & Hf3 & Hb3 & _);
    [done|cbn; by rewrite Hn1|cbn; unfold MAX_I32; lia|cbn; by rewrite Hn1|cbn; by rewrite Hn1|cbn; by rewrite Hn1|done|].
  change (pktq_do_menqueue net_if (rt_if_idx rt) [Some m] 1 (buf_set w1 m e') = Ok (r, w2)) in Em.
  rewrite Em. cbn [mbind outcome_bind defined]. split; [done|]. split.
  { eapply nd_frame_trans; [|exact Hf3]. cbn. by rewrite Hn1. }
  split; [|done]. intros j Hj. assert (j <> m) by (intros ->; apply Hm; eapply owned_inuse; eauto).
  rewrite Hb3 by set_solver. cbn. rewrite lookup_insert_ne by done. by apply Hb1.
Qed.

(** A packet with an address for its next hop gets its header: destination
    from the cache, source of the output device, the saved type. *)
Lemma if_output_hit prep net_if out m w e pr d pn dn t h :
  bufs (w_pool w) !! m = Some e -> eb_wf e -> priv_data e = Some pr ->
  Z.land (flags pr) MBUF_NPF_NEED_L2 <> 0 -> l2_len e = 14 -> 14 <= data_off e ->
  devs (w_nd w) !! out = Some d -> length (hwaddr d) = 6%nat ->
  (4 <= length (rt_next_hop (route pr)))%nat ->
  ifnet_getbyidx (w_nd w) (rt_if_idx (route pr)) = Ok (Some pn) -> devs (w_nd w) !! pn = Some dn ->
  arp_cache dn = Some t -> th_get t (take 4 (rt_next_hop (route pr))) = Some h -> length h = 6%nat ->
  exists e', router_if_output_with prep net_if out m w = Ok (0, buf_set w m e') /\
    eb_wf e' /\ next e' = next e /\ buf_cap e' = buf_cap e /\ priv_data e' = priv_data e /\
    eb_data e' = h ++ hwaddr d ++ bytes_of_u16 (ether_type pr) ++ eb_data e.
Proof.
  intros He Hwf Hpr Hf Hl2 Hoff Hd Hhw Hnh Hg Hdn Ht Hh Hl. unfold router_if_output_with, buf_get.
  rewrite He. cbn [deref mbind outcome_bind]. rewrite Hpr. cbn [assert_ptr mbind outcome_bind].
  rewrite (proj2 (Z.eqb_neq _ _)) by done. unfold RTE_ETHER_HDR_LEN. rewrite Hl2. cbn [Z.eqb Pos.eqb c_assert mbind outcome_bind].
  rewrite prepend_ok by (done || lia). unfold dev_get. rewrite Hd. cbn [deref mbind outcome_bind].
  destruct (Hwf) as [K1 K2 K3 K4 K5 K6]. unfold MAX_I32 in *.
  cbn [bytes upd]. rewrite mem_write_ok by (cbn; rewrite ?Hhw; lia). cbn [mbind outcome_bind].
  unfold arp_resolve_with. rewrite mem_read_ok by lia. cbn [mbind outcome_bind]. rewrite drop_0. change (Z.to_nat 4) with 4%nat.
  cbn [w_nd buf_set upd]. rewrite Hg. cbn [mbind outcome_bind]. unfold dev_get. cbn [w_nd buf_set upd]. rewrite Hdn. cbn [deref mbind outcome_bind].
  unfold arp_cache_lookup. rewrite Ht. cbn [deref mbind outcome_bind]. rewrite Hh. cbn [mbind outcome_bind].
  cbn [w_pool buf_set upd bufs]. rewrite lookup_insert_eq. cbn [deref mbind outcome_bind bytes upd].
  assert (Hlen : length (blit (bytes e) (Z.to_nat (data_off e - 14 + 6)) (hwaddr d)) = length (bytes e)) by (apply length_blit; lia).
  rewrite mem_write_ok by lia. cbn [mbind outcome_bind].
  rewrite mem_write_ok by (rewrite ?length_blit by lia; cbn; lia). cbn [mbind outcome_bind].
  replace (Z.to_nat (data_off e - 14 + 6)) with (Z.to_nat (data_off e - 14) + 6)%nat by lia.
  replace (Z.to_nat (data_off e - 14 + 12)) with (Z.to_nat (data_off e - 14) + 12)%nat by lia.
  rewrite blit_header by (done || lia).
  set (hdr := h ++ hwaddr d ++ bytes_of_u16 (ether_type pr)).
  assert (Hhdr : length hdr = 14%nat) by (unfold hdr; rewrite !length_app, Hl, Hhw; done).
  destruct (eb_data_prepend e hdr Hwf ltac:(lia)) as [Hw' Hdat]. rewrite Hhdr in Hw', Hdat.
  rewrite buf_set_set. eexists. split; [done|]. split; [exact Hw'|]. split_and!; try done.
  etransitivity; [exact Hdat|]. unfold hdr. by rewrite <- !app_assoc.
Qed.

(** Preparing a packet keeps it with its owner, and takes nothing else. *)
Lemma prepare_owned fuel net_if idx m w l e pr :
  owned w l -> net_if ∈ netdev_list (w_nd w) -> m ∈ l -> 0 <= idx ->
  bufs (w_pool w) !! m = Some e -> priv_data e = Some pr -> rt_ok (route pr) ->
  defined (pktq_prepare_enqueue (S (S fuel)) net_if idx m w) (fun '(r, w') =>
    owned w' l /\ nd_frame (w_nd w) (w_nd w') /\ (r = 0 \/ r = -1) /\
    (r = 0 -> ifnet_getbyidx (w_nd w) idx <> Ok None) /\
    forall j, j ∈ l -> j <> m -> bufs (w_pool w') !! j = bufs (w_pool w) !! j).
Proof.
  intros Ho Hself Hm Hidx He Hpr Hrt. cbn [pktq_prepare_enqueue].
  destruct (owned_getbyidx w l idx Ho Hidx) as [->|(p & d & Hg & Hp & Hd & Hok & _)]; [cbn; split_and!; auto; done|].
  rewrite Hg. cbn [mbind outcome_bind].
  destruct (owned_buf w l m Ho Hm) as (e0 & He0 & Hwf & Hnx & Hcap). assert (e0 = e) as -> by congruence.
  assert (Mark : forall w1, owned w1 l -> nd_frame (w_nd w) (w_nd w1) ->
     (forall j, j ∈ l -> j <> m -> bufs (w_pool w1) !! j = bufs (w_pool w) !! j) ->
     defined (e ← buf_get w1 m; minfo ← deref (priv_data e);
              Ok (0, buf_set w1 m (e <| priv_data := Some (minfo <| out_if_idx := idx |>) |>))) (fun '(r, w') =>
       owned w' l /\ nd_frame (w_nd w) (w_nd w') /\ (r = 0 \/ r = -1) /\ (r = 0 -> @Ok (option positive) (Some p) <> Ok None) /\
       forall j, j ∈ l -> j <> m -> bufs (w_pool w') !! j = bufs (w_pool w) !! j)).
  { intros w1 Ho1 Hf1 Hb1. destruct (owned_buf w1 l m Ho1 Hm) as (e1 & He1 & Hwf1 & Hnx1 & Hcap1).
    unfold buf_get. rewrite He1. cbn [deref mbind outcome_bind]. destruct (ebw_priv e1 Hwf1) as [pr1 Hpr1]. rewrite Hpr1.
    cbn. split; [by apply owned_buf_set; [..|apply eb_wf_priv| |]|]. split_and!; try done; [by left|].
    intros j Hj Hjm. cbn. rewrite lookup_insert_ne by done. auto. }
  apply defined_bind. unfold router_if_output_with. unfold buf_get. rewrite He. cbn [deref mbind outcome_bind].
  rewrite Hpr. cbn [assert_ptr mbind outcome_bind]. destruct (Z.land (flags pr) MBUF_NPF_NEED_L2 =? 0).
  { cbn [defined Z.eqb]. apply Mark; try done. }
  destruct (Z.eqb_spec (l2_len e) RTE_ETHER_HDR_LEN); [|done]. cbn [c_assert mbind outcome_bind].
  destruct (Hwf) as [K1 K2 K3 K4 K5 K6]. unfold MAX_I32 in *.
  destruct (Z.le_gt_cases 14 (data_off e)) as [Hoff|Hoff]; [rewrite prepend_ok by (done || (unfold RTE_ETHER_HDR_LEN; lia))|].
  2: { unfold bstgw_ethbuf_prepend. rewrite (proj2 (Z.ltb_lt _ _)) by (unfold RTE_ETHER_HDR_LEN; lia).
       cbn. split_and!; try done. by right. }
  unfold RTE_ETHER_HDR_LEN. unfold dev_get. rewrite Hd. cbn [deref mbind outcome_bind]. pose proof (dk_hw d Hok) as Hhw.
  cbn [bytes upd]. rewrite mem_write_ok by (cbn; lia). cbn [mbind outcome_bind].
  match goal with |- context [buf_set w m ?x] => set (e1 := x) end.
  assert (Hwf1 : eb_wf e1).
  { unfold e1. split; cbn; unfold MAX_I32; rewrite ?length_blit by lia; try lia; done. }
  assert (Ho1 : owned (buf_set w m e1) l) by (apply owned_buf_set; done).
  apply defined_bind. eapply defined_mono; [|apply (arp_resolve_owned fuel net_if (route pr) (buf_set w m e1) l); done].
  intros [hw w1] (Ho2 & Hf2 & Hb2 & Hl). destruct hw as [h|].
  2: { cbn. split; [done|]. split; [done|]. split; [by right|]. split; [done|].
       intros j Hj Hjm. rewrite Hb2 by done. cbn. by rewrite lookup_insert_ne. }
  rewrite (Hb2 m Hm). cbn [buf_set w_pool upd bufs]. rewrite lookup_insert_eq. cbn [deref mbind outcome_bind].
  specialize (Hl h eq_refl). assert (Hbl : length (bytes e1) = length (bytes e)) by (unfold e1; cbn; apply length_blit; lia).
  rewrite mem_write_ok by lia. cbn [mbind outcome_bind].
  rewrite mem_write_ok by (rewrite ?length_blit by lia; change (length (bytes_of_u16 (ether_type pr))) with 2%nat; lia).
  cbn [mbind outcome_bind defined Z.eqb].
  match goal with |- context [buf_set w1 m ?x] => set (e2 := x) end.
  apply Mark.
  - apply owned_buf_set; try done. unfold e2. destruct Hwf1. split; cbn in *; try done. rewrite !length_blit by (cbn; rewrite ?length_blit; lia). done.
  - exact Hf2.
  - intros j Hj Hjm. cbn. rewrite lookup_insert_ne by done. rewrite Hb2 by done. cbn. by rewrite lookup_insert_ne.
Qed.

(** ** Properties *)

(** C23. Forwarding rewrites the link-layer header and nothing else.  A routed
    packet whose next hop is in the ARP cache of the device the route names is
    prepared successfully: its bytes are the cached address, the output
    device's address, the packet's own type and then exactly the packet as it
    was; no other buffer and no device changes. *)
Theorem prepare_enqueue_forwards net_if idx m w l e pr p d pn dn t h :
  owned w l -> m ∈ l -> bufs (w_pool w) !! m = Some e -> priv_data e = Some pr ->
  Z.land (flags pr) MBUF_NPF_NEED_L2 <> 0 -> l2_len e = 14 -> 14 <= data_off e ->
  (4 <= length (rt_next_hop (route pr)))%nat ->
  ifnet_getbyidx (w_nd w) idx = Ok (Some p) -> devs (w_nd w) !! p = Some d -> dev_ok d ->
  ifnet_getbyidx (w_nd w) (rt_if_idx (route pr)) = Ok (Some pn) -> devs (w_nd w) !! pn = Some dn ->
  dev_ok dn -> arp_cache dn = Some t -> th_get t (take 4 (rt_next_hop (route pr))) = Some h ->
  exists e', prepare_enqueue net_if idx m w = Ok (0, buf_set w m e') /\
    owned (buf_set w m e') l /\
    eb_data e' = h ++ hwaddr d ++ bytes_of_u16 (ether_type pr) ++ eb_data e /\
    priv_data e' = Some (pr <| out_if_idx := idx |>).
Proof.
  intros Ho Hm He Hpr Hf Hl2 Hoff Hnh Hg Hd Hok Hgn Hdn Hokn Ht Hh.
  destruct (owned_buf w l m Ho Hm) as (e0 & He0 & Hwf & Hnx & Hcap). assert (e0 = e) as -> by congruence.
  pose proof (dk_arp dn Hokn) as (t0 & Ht0 & Hl). assert (t0 = t) as -> by congruence.
  unfold prepare_enqueue, output_fuel.
  destruct (if_output_hit (pktq_prepare_enqueue 1 net_if) net_if p m w e pr d pn dn t h) as (e1 & E1 & Hwf1 & Hn1 & Hc1 & Hpr1 & Hdat);
    try done; [by apply dk_hw|by eapply Hl|].
  rewrite prepare_unfold, Hg. cbn [mbind outcome_bind]. rewrite E1. cbn [mbind outcome_bind Z.eqb]. unfold buf_get. cbn [buf_set w_pool upd bufs]. rewrite lookup_insert_eq.
  cbn [deref mbind outcome_bind]. rewrite Hpr1, Hpr. cbn [deref mbind outcome_bind].
  eexists. rewrite buf_set_set. split; [done|]. split; [apply owned_buf_set; try done; [by apply eb_wf_priv|by cbn; rewrite Hn1|cbn; lia]|].
  split; [exact Hdat|done].
Qed.

(** The run of buffers at the front of a queue that is handed out. *)
Lemma pktq_tx_burst q :
  pq_wf q -> pq_abs q <> [] ->
  let n := bstgw_pktq_locked_contig_bufs q in
  0 < n <= count q /\ mem_read (pkt q) (next_read q) n = Ok (take (Z.to_nat n) (pq_abs q)).
Proof.
  intros Hwf Hne. destruct (contig_bufs_window q Hwf) as (Hn & Hpos & Hwin). pose proof (pq_abs_length q Hwf) as Hlen.
  set (n := bstgw_pktq_locked_contig_bufs q) in *.
  assert (Hcnt : count q <> 0) by (intros E; apply Hne, length_zero_iff_nil; rewrite Hlen, E; done). specialize (Hpos Hcnt).
  split; [lia|]. assert (Hfit : next_read q + n <= Z.of_nat (length (pkt q))).
  { apply (f_equal length) in Hwin. rewrite !length_take, length_drop in Hwin. destruct Hwf. lia. }
  rewrite mem_read_ok by (destruct Hwf; lia). by rewrite Hwin.
Qed.

(** What [router_pktq_tx] does with the driver's answer. *)
Lemma pktq_tx_drains {S} `{HasWorld T S} xmit ifp (s : S) l d q :
  owned (wd s) l -> ifp ∈ netdev_list (w_nd (wd s)) -> devs (w_nd (wd s)) !! ifp = Some d -> egress_queue d = Some q ->
  xmit_handler d = true -> (trust_status d = BSTGW_IF_EXTERNAL -> stopped q = false) -> pq_abs q <> [] ->
  exists ms, ms <> [] /\ ms `prefix_of` pq_abs q /\
    forall n s1 d1 q1, xmit ifp ms s = Ok (n, s1) -> devs (w_nd (wd s1)) !! ifp = Some d1 -> egress_queue d1 = Some q1 ->
      pq_wf q1 -> pq_abs q1 = pq_abs q -> n <= Z.of_nat (length ms) ->
      exists s2, router_pktq_tx xmit ifp s = Ok (n, s2) /\
        if n <=? 0 then s2 = s1 else
        exists q2, s2 = set_wd (dev_set (wd s1) ifp (d1 <| egress_queue := Some q2 |>)) s1 /\
          pq_wf q2 /\ pq_abs q2 = drop (Z.to_nat n) (pq_abs q).
Proof.
  intros Ho Hp Hd Hq Hx Hst Hne. destruct (owned_dev (wd s) l ifp Ho Hp) as (d0 & Hd0 & Hok). assert (d0 = d) as -> by congruence.
  destruct (dk_queue d Hok) as (q0 & Hq0 & Hwf & _). assert (q0 = q) as -> by congruence.
  destruct (pktq_tx_burst q Hwf Hne) as (Hn & Hrd). set (n := bstgw_pktq_locked_contig_bufs q) in *.
  pose proof (pq_abs_length q Hwf) as Hlen.
  exists (take (Z.to_nat n) (pq_abs q)). split; [intros E; apply (f_equal length) in E; rewrite length_take in E; cbn in E; lia|].
  split; [apply prefix_take|]. intros k s1 d1 q1 Hxm Hd1 Hq1 Hwf1 Habs1 Hk. rewrite length_take in Hk.
  unfold router_pktq_tx, dev_get. rewrite Hd. cbn [deref mbind outcome_bind]. rewrite Hq. cbn [assert_ptr mbind outcome_bind].
  rewrite Hx. cbn [c_assert mbind outcome_bind]. unfold netif_tx_queue_stopped.
  replace (bool_decide (trust_status d = BSTGW_IF_EXTERNAL) && stopped q) with false
    by (case_bool_decide; [by rewrite Hst|done]).
  fold n. rewrite (proj2 (Z.eqb_neq _ _)) by lia. rewrite Hrd. cbn [mbind outcome_bind]. rewrite Hxm. cbn [mbind outcome_bind].
  destruct (Z.leb_spec k 0); [by exists s1|].
  rewrite Hd1. cbn [deref mbind outcome_bind]. rewrite Hq1. cbn [deref mbind outcome_bind].
  pose proof (pq_abs_length q1 Hwf1) as Hlen1. rewrite Habs1, Hlen in Hlen1. destruct (Hwf) as [Hc1 Hc2 _ _ _], (Hwf1) as [Hc3 Hc4 _ _ _].
  destruct (drop_bufs_refines_fifo q1 k Hwf1 ltac:(lia)) as (q2 & -> & Hwf2 & _ & Habs). cbn [mbind outcome_bind negb].
  eexists. split; [done|]. exists q2. by rewrite Habs, Habs1.
Qed.

(** Transmission drains the egress queue in order.  On a device that is
    not stopped and whose queue is not empty, [router_pktq_tx] hands the
    driver a non-empty run of buffers from the front of the queue; if the
    driver reports [s] of them sent, exactly the first [s] leave the queue and
    [s] is returned; if it reports none or an error, that is returned and
    the queue is left alone. *)
Theorem router_pktq_tx_drains {S} `{HasWorld T S} xmit ifp (s : S) l d q :
  owned (wd s) l -> ifp ∈ netdev_list (w_nd (wd s)) -> devs (w_nd (wd s)) !! ifp = Some d -> egress_queue d = Some q ->
  xmit_handler d = true -> (trust_status d = BSTGW_IF_EXTERNAL -> stopped q = false) -> pq_abs q <> [] ->
  exists ms, ms <> [] /\ ms `prefix_of` pq_abs q /\
    forall n s1 d1 q1, xmit ifp ms s = Ok (n, s1) -> devs (w_nd (wd s1)) !! ifp = Some d1 -> egress_queue d1 = Some q1 ->
      pq_wf q1 -> pq_abs q1 = pq_abs q -> n <= Z.of_nat (length ms) ->
      exists s2, router_pktq_tx xmit ifp s = Ok (n, s2) /\
        if n <=? 0 then s2 = s1 else
        exists q2, s2 = set_wd (dev_set (wd s1) ifp (d1 <| egress_queue := Some q2 |>)) s1 /\
          pq_wf q2 /\ pq_abs q2 = drop (Z.to_nat n) (pq_abs q).
Proof. apply pktq_tx_drains. Qed.

End ownership.

(** ** An example: one device and one buffer *)

Definition ex_dev (q : pktqueue_t) : ifnet_t (gmap (list Z) (list Z)) :=
  mk_ifnet 1 [2; 0; 0; 0; 0; 1] BSTGW_IF_EXTERNAL [None; None] 0 true true "eth0"%string [None; None] 0
    [[10; 0; 0; 1] ++ replicate 12 0; replicate 16 0] 1 0
    (Some {[ [10; 0; 0; 9] := [2; 0; 0; 0; 0; 9] ]}) (Some q).

Definition ex_world_of (p : ethbuf_pool) (q : pktqueue_t) : world (gmap (list Z) (list Z)) :=
  mk_world p
    (mk_netdevs {[ 1%positive := ex_dev q ]} [1%positive] (Some 1%positive :: replicate 31 None) 2) [] 0.

Definition ex_world (e : bstgw_ethbuf_t) (q : pktqueue_t) : world (gmap (list Z) (list Z)) :=
  ex_world_of (mk_pool {[ 1%positive := e ]} [] [1%positive] 1) q.

Definition ex_queue (n : Z) (l : list ebptr) : pktqueue_t := mk_pktqueue false 0 n n 4 l.

Lemma ex_dev_ok q : pq_wf q -> Forall is_Some (pq_abs q) -> dev_ok (ex_dev q).
Proof.
  intros Hq Hs. split; cbn; try done.
  - split; [done|]. by repeat constructor.
  - eexists. split; [done|]. intros k v Hv. apply lookup_singleton_Some in Hv as [_ <-]. done.
  - by eexists.
Qed.

Lemma ex_world_of_ok p q :
  pool_wf p -> map_Forall (fun _ e => 2048 <= buf_cap e) (bufs p) -> pq_wf q -> Forall is_Some (pq_abs q) -> world_ok (ex_world_of p q).
Proof.
  intros Hp Hc Hq Hs. split; cbn; try done.
  - split; cbn; [unfold MAX_IFNET_IDS; lia|repeat constructor; set_solver|done| |].
    + intros i ->%list_elem_of_singleton. eexists. rewrite lookup_singleton_eq. split; [done|]. cbn. split; [lia|done].
    + intros i Hi. assert (i = 1) as -> by lia. exists 1%positive. split; [done|set_solver].
  - intros i d ->%list_elem_of_singleton. rewrite lookup_singleton_eq. intros [= <-]. by apply ex_dev_ok.
Qed.

Lemma ex_world_ok e q :
  eb_wf e -> next e = None -> 2048 <= buf_cap e -> pq_wf q -> Forall is_Some (pq_abs q) -> world_ok (ex_world e q).
Proof.
  intros He Hn Hc Hq Hs. apply ex_world_of_ok; [|by apply map_Forall_singleton|done|done].
  split; cbn; [repeat constructor; set_solver| |by apply map_Forall_singleton| |done].
  - intros i. rewrite list_elem_of_singleton, lookup_singleton_is_Some. done.
  - intros i e' Hi. by apply elem_of_nil in Hi.
Qed.

(** A routed packet: its link-layer header is cut off. *)
Definition ex_packet : bstgw_ethbuf_t :=
  mk_ethbuf None 31 14 0 (Some (mk_priv 1 8 (mk_route_info 1 4 ([10; 0; 0; 9] ++ replicate 12 0) 0) 0))
    46 14 2048 4096 (replicate 2048 7) 63 0 0 0.

Lemma ex_packet_wf : eb_wf ex_packet.
Proof. split; vm_compute; try discriminate. by eexists. Qed.

Lemma ex_queue_wf n l : (n = 0 \/ n = 1) -> length l = 4%nat -> pq_wf (ex_queue n l).
Proof. intros Hn Hl. split; cbn; unfold MAX_I32; try lia. rewrite Z.mod_small; lia. Qed.

Lemma ex_owned e l :
  eb_wf e -> next e = None -> 2048 <= buf_cap e -> length l = 4%nat -> owned (ex_world e (ex_queue 0 l)) [1%positive].
Proof.
  intros He Hn Hc Hl. split; [|done]. apply ex_world_ok; try done. apply ex_queue_wf; auto.
Qed.

Lemma prepare_enqueue_forwards_witness :
  exists e', prepare_enqueue 1 1 1 (ex_world ex_packet (ex_queue 0 [None; None; None; None]))
      = Ok (0, buf_set (ex_world ex_packet (ex_queue 0 [None; None; None; None])) 1 e') /\
    owned (buf_set (ex_world ex_packet (ex_queue 0 [None; None; None; None])) 1 e') [1%positive] /\
    eb_data e' = [2; 0; 0; 0; 0; 9] ++ [2; 0; 0; 0; 0; 1] ++ [8; 0] ++ eb_data ex_packet /\
    priv_data e' = Some (mk_priv 1 8 (mk_route_info 1 4 ([10; 0; 0; 9] ++ replicate 12 0) 0) 1).
Proof.
  apply (prepare_enqueue_forwards 1 1 1 (ex_world ex_packet (ex_queue 0 [None; None; None; None])) [1%positive]
    ex_packet (mk_priv 1 8 (mk_route_info 1 4 ([10; 0; 0; 9] ++ replicate 12 0) 0) 0)
    1 (ex_dev (ex_queue 0 [None; None; None; None])) 1 (ex_dev (ex_queue 0 [None; None; None; None]))
    {[ [10; 0; 0; 9] := [2; 0; 0; 0; 0; 9] ]} [2; 0; 0; 0; 0; 9]); try done.
  - apply ex_owned; [exact ex_packet_wf|done|cbn; lia|done].
  - set_solver.
  - cbn. lia.
  - apply ex_dev_ok; [apply ex_queue_wf; auto|constructor].
  - apply ex_dev_ok; [apply ex_queue_wf; auto|constructor].
Defined.

Lemma router_pktq_tx_drains_witness :
  let s := ex_world ex_packet (ex_queue 1 [Some 1%positive; None; None; None]) in
  exists ms, ms <> [] /\ ms `prefix_of` [Some 1%positive] /\
    forall n s1 d1 q1, (fun _ _ w => Ok (1, w)) 1%positive ms s = Ok (n, s1) -> devs (w_nd (wd s1)) !! 1%positive = Some d1 ->
      egress_queue d1 = Some q1 -> pq_wf q1 -> pq_abs q1 = [Some 1%positive] -> n <= Z.of_nat (length ms) ->
      exists s2, router_pktq_tx (fun _ _ w => Ok (1, w)) 1 s = Ok (n, s2) /\
        if n <=? 0 then s2 = s1 else
        exists q2, s2 = set_wd (dev_set (wd s1) 1%positive (d1 <| egress_queue := Some q2 |>)) s1 /\
          pq_wf q2 /\ pq_abs q2 = drop (Z.to_nat n) [Some 1%positive].
Proof.
  apply (router_pktq_tx_drains (fun _ _ w => Ok (1, w)) 1 (ex_world ex_packet (ex_queue 1 [Some 1%positive; None; None; None]))
    [] (ex_dev (ex_queue 1 [Some 1%positive; None; None; None])) (ex_queue 1 [Some 1%positive; None; None; None])); try done.
  - split; [|done]. apply ex_world_ok; [exact ex_packet_wf|done|cbn; lia|apply ex_queue_wf; auto|].
    repeat constructor. by eexists.
  - cbn. set_solver.
Defined.
