(* ===== verification/Router.v ===== *)
(** * The router instance (nettrug/pta/npf_router.c,
    optee_os_core_libs/bstgw/worker_storage.c).

    [init_trusted_router] creates the router, loads its configuration, gives
    every NAPI context of every registered device a worker and attaches the
    devices; afterwards the threads of the normal world bind to the workers.
    What it leaves is what the theorems on packet processing start from. *)

From stdpp Require Import strings.
From S2P Require Import Prelude Pktq EthBuf Napi Netdev Route Newlib Config Forward.

Definition TEE_SUCCESS : Z := 0.
Definition TEE_ERROR_GENERIC : Z := 0xFFFF0000.
Definition TEE_ERROR_ACCESS_DENIED : Z := 0xFFFF0001.
Definition TEE_ERROR_BAD_FORMAT : Z := 0xFFFF0005.
Definition TEE_ERROR_BAD_PARAMETERS : Z := 0xFFFF0006.
Definition TEE_ERROR_NOT_IMPLEMENTED : Z := 0xFFFF0009.
Definition TEE_ERROR_OUT_OF_MEMORY : Z := 0xFFFF000C.
Definition TEE_ERROR_SHORT_BUFFER : Z := 0xFFFF0010.

Definition BURST_SIZE : Z := 512.
Definition BSTGW_MAX_NETIF_WORKER : Z := BSTGW_MAX_NETIF_NAPI.

(** ** State *)

Inductive bind_stat_t := WORKER_UNBOUND | WORKER_IS_BOUND.

#[global] Instance bind_stat_eq_dec : EqDecision bind_stat_t.
Proof. solve_decision. Defined.

(** A worker.  [wk_router]: its router pointer is set (to the one router). *)
Record worker_t := mk_worker {
  worker_id : Z;
  ebr_tls : option Z;
  npf_stats_tls : option Z;
  wk_router : bool;
  bind_status : bind_stat_t;
  bind_sess : Z;
  net_if : option positive;
  napi_idx : Z
}.
#[global] Instance eta_worker : Settable worker_t :=
  fun w => mk_worker (worker_id w) (ebr_tls w) (npf_stats_tls w) (wk_router w) (bind_status w) (bind_sess w)
             (net_if w) (napi_idx w).

(** The router; a worker is named by the slot it was created for. *)
Record npf_router_t (L : Type) := mk_router {
  npf : bool;
  pktqueue_size : Z;
  rtable : option L;
  notfer : bool;
  r_worker_count : Z;
  worker : list (option nat)
}.
Arguments mk_router {L}. Arguments npf {L}. Arguments pktqueue_size {L}. Arguments rtable {L}. Arguments notfer {L}.
Arguments r_worker_count {L}. Arguments worker {L}.
#[global] Instance eta_router {L} : Settable (npf_router_t L) :=
  fun r => mk_router (npf r) (pktqueue_size r) (rtable r) (notfer r) (r_worker_count r) (worker r).

(** The union in a session's context, at offset 0, and the context. *)
Inductive sess_worker := NoWorker | RouterWorker (k : nat) | NpfWorker.

#[global] Instance sess_worker_eq_dec : EqDecision sess_worker.
Proof. solve_decision. Defined.

Record wrk_sess_t := mk_sess { sess_wk : sess_worker; sess_type : Z }.
#[global] Instance eta_sess : Settable wrk_sess_t := fun x => mk_sess (sess_wk x) (sess_type x).

(** Calls into the firewall library, as they are made. *)
Inductive npf_call :=
| npfk_sysinit | npfk_sysfini | npfk_destroy
| npfk_ifmap_attach (p : positive) | npfk_ifmap_detach (p : positive)
| npfk_thread_register | npfk_thread_unregister
| npfk_bind_npfworker | npfk_unbind_npfworker.

(** [trusted_router] is the pointer, [robj] what it points to (nothing once
    freed); [wks] the workers on the heap; [sessions] the open sessions of
    the pseudo TA; [npf_log] the calls so far, newest first. *)
Record rstate (T L : Type) := mk_rstate {
  r_world : world T;
  trusted_router : bool;
  robj : option (npf_router_t L);
  wks : gmap nat worker_t;
  sessions : gmap Z wrk_sess_t;
  npf_log : list npf_call
}.
Arguments mk_rstate {T L}. Arguments r_world {T L}. Arguments trusted_router {T L}. Arguments robj {T L}.
Arguments wks {T L}. Arguments sessions {T L}. Arguments npf_log {T L}.
#[global] Instance eta_rstate {T L} : Settable (rstate T L) :=
  fun s => mk_rstate (r_world s) (trusted_router s) (robj s) (wks s) (sessions s) (npf_log s).

(** What the libraries and the heap answer during initialisation. *)
Record init_env (T : Type) := mk_env {
  env_threads : Z;                                       (** CFG_NUM_THREADS *)
  env_router : bool;                                     (** calloc of the router *)
  env_npf : bool;                                        (** npf_dpdk_create *)
  env_icmp : Z;                                          (** npf_alg_icmp_init *)
  env_rtable : bool;                                     (** route_table_create *)
  env_worker : Z -> bool;                                (** calloc of worker i *)
  env_th : positive -> bool;                             (** thmap_create for a device *)
  env_ring : positive -> Z -> option (list ebptr);       (** malloc of a device's ring *)
  env_heap : option positive -> nat -> Z -> option chunk (** the pool's requests, for a device or at the end *)
}.
Arguments mk_env {T}. Arguments env_threads {T}. Arguments env_router {T}. Arguments env_npf {T}. Arguments env_icmp {T}.
Arguments env_rtable {T}. Arguments env_worker {T}. Arguments env_th {T}. Arguments env_ring {T}. Arguments env_heap {T}.

(** ** Operations *)

Section router.
Context {T : Type} `{ThMap T} {L : Type} `{Lpm L route_info_t}.
Context (lpm_strtobin : string -> option (list Z * Z)) (stack : list Z) (roundup2 : Z -> Z -> Z).
Implicit Types s : rstate T L.

(** The router, if the pointer is set. *)
Definition the_router s : outcome (option (npf_router_t L)) :=
  if trusted_router s then r ← deref (robj s); Ok (Some r) else Ok None.

Definition log (c : npf_call) s : rstate T L := s <| npf_log ::= cons c |>.

Definition wk_set (k : nat) (w : worker_t) s : rstate T L := s <| wks ::= <[k := w]> |>.

Definition worker_get_number s : outcome Z :=
  r ← the_router s;
  match r with None => Ok (-1) | Some r => Ok (i32 (r_worker_count r)) end.

(** For slot [i]; [mem]: whether the heap serves it. *)
Definition worker_init (mem : bool) (i : Z) s : outcome (Z * rstate T L) :=
  r ← the_router s;
  match r with
  | None => Ok (-1, s)
  | Some r =>
      wp ← aget (worker r) i;
      match wp with
      | Some _ => Ok (-1, s)
      | None =>
          if negb mem then Ok (-1, s) else
          l ← aset (worker r) i (Some (Z.to_nat i));
          Ok (0, wk_set (Z.to_nat i) (mk_worker 0 None None true WORKER_UNBOUND 0 None 0)
                   (s <| robj := Some (r <| worker := l |>) |>))
      end
  end.

Definition worker_fini (wp : option nat) s : outcome (Z * rstate T L) :=
  match wp with
  | None => Ok (0, s)
  | Some k =>
      if negb (trusted_router s) then Ok (-1, s) else
      w ← deref (wks s !! k);
      let s := if bool_decide (bind_status w = WORKER_IS_BOUND)
               then s <| sessions ::= alter (fun x => x <| sess_wk := NoWorker |>) (bind_sess w) |> else s in
      Ok (0, s <| wks ::= delete k |>)
  end.

(** The loop over the slots; [cur]: the current session. *)
Fixpoint bind_loop (l : list (option nat)) (cur : Z) s : outcome (option nat * rstate T L) :=
  match l with
  | [] => Ok (None, s)
  | None :: l' => bind_loop l' cur s
  | Some k :: l' =>
      w ← deref (wks s !! k);
      if bool_decide (bind_status w = WORKER_UNBOUND) then
        let s := wk_set k (w <| bind_status := WORKER_IS_BOUND |> <| bind_sess := cur |>) s in
        Ok (Some k, log npfk_thread_register (s <| sessions ::= alter (fun x => x <| sess_wk := RouterWorker k |>) cur |>))
      else bind_loop l' cur s
  end.

(** [cur]: the current session, if any; one without a context cannot bind. *)
Definition bind_to_worker (cur : option Z) s : outcome (option nat * rstate T L) :=
  r ← the_router s;
  match r, cur with
  | Some r, Some c =>
      match sessions s !! c with
      | None => Ok (None, s)
      | Some _ => bind_loop (worker r) c s
      end
  | _, _ => Ok (None, s)
  end.

Definition detach_nw_from_worker (wp : option nat) s : outcome (rstate T L) :=
  match wp with
  | None => Ok s
  | Some k =>
      w ← deref (wks s !! k);
      c_assert (wk_router w);;
      r ← deref (robj s);
      c_assert (npf r);;
      Ok (log npfk_thread_unregister (wk_set k (w <| bind_status := WORKER_UNBOUND |> <| bind_sess := 0 |>) s))
  end.

(** [free]: what [npfk_bind_npfworker] answers. *)
Definition bind_to_npfworker (free : bool) s : sess_worker * rstate T L :=
  if negb (trusted_router s) then (NoWorker, s) else
  (if free then NpfWorker else NoWorker, log npfk_bind_npfworker s).

Definition detach_nw_from_npfworker s : rstate T L :=
  if negb (trusted_router s) then s else log npfk_unbind_npfworker s.

(** [worker_run] up to its loop: the NAPI context the worker serves. *)
Definition worker_run_napi (wp : option nat) s : outcome (option positive) :=
  k ← assert_ptr wp;
  c_assert (trusted_router s);;
  w ← deref (wks s !! k);
  match net_if w with
  | None => Ok None
  | Some p => d ← dev_get (r_world s) p; n ← aget (napis d) (napi_idx w); n ← assert_ptr n; Ok (Some n)
  end.

(** *** Worker-local storage of the firewall library *)

(** The storage of the session's worker: it begins the worker.  [cur]: the
    context of the current session. *)
Definition get_worker_local_data (cur : option wrk_sess_t) : outcome (option sess_worker) :=
  match cur with
  | None => Ok None
  | Some x => match sess_wk x with NoWorker => Panic | k => Ok (Some k) end
  end.

(** The storage of the NPF worker is the library's own: [other]. *)
Definition get_worker_epoch (other : option Z) (cur : option wrk_sess_t) s : outcome (option Z) :=
  wls ← get_worker_local_data cur;
  wls ← assert_ptr wls;
  match wls with
  | RouterWorker k => w ← deref (wks s !! k); Ok (ebr_tls w)
  | _ => Ok other
  end.

Definition set_worker_epoch (t : option Z) (cur : option wrk_sess_t) s : outcome (Z * rstate T L) :=
  wls ← get_worker_local_data cur;
  wls ← assert_ptr wls;
  match wls with
  | RouterWorker k => w ← deref (wks s !! k); Ok (0, wk_set k (w <| ebr_tls := t |>) s)
  | _ => Ok (0, s)
  end.

Definition get_worker_stats (other : option Z) (cur : option wrk_sess_t) s : outcome (option Z) :=
  wls ← get_worker_local_data cur;
  wls ← assert_ptr wls;
  match wls with
  | RouterWorker k => w ← deref (wks s !! k); Ok (npf_stats_tls w)
  | _ => Ok other
  end.

Definition set_worker_stats (st : option Z) (cur : option wrk_sess_t) s : outcome (Z * rstate T L) :=
  wls ← get_worker_local_data cur;
  wls ← assert_ptr wls;
  match wls with
  | RouterWorker k => w ← deref (wks s !! k); Ok (0, wk_set k (w <| npf_stats_tls := st |>) s)
  | _ => Ok (0, s)
  end.

(** *** Creation and destruction *)

(** One worker of [router_destroy]'s loop. *)
Definition destroy_worker (k : nat) s : outcome (rstate T L) :=
  w ← deref (wks s !! k);
  s ← (match net_if w with
       | None => Ok s
       | Some p =>
           d ← dev_get (r_world s) p;
           d ← ifnet_ifdetach d;
           Ok (wk_set k (w <| net_if := None |>)
                 (log (npfk_ifmap_detach p) (s <| r_world ::= fun w => dev_set w p d |>)))
       end);
  '(_, s) ← worker_fini (Some k) s;
  Ok s.

Fixpoint destroy_workers (l : list (option nat)) s : outcome (rstate T L) :=
  match l with
  | [] => Ok s
  | None :: l' => destroy_workers l' s
  | Some k :: l' => s ← destroy_worker k s; destroy_workers l' s
  end.

Definition router_destroy (r : npf_router_t L) s : outcome (rstate T L) :=
  s ← destroy_workers (worker r) s;
  let s := if npf r then log npfk_destroy s else s in
  Ok ((log npfk_sysfini s) <| robj := None |>).

Definition router_create (e : init_env T) (nworkers : Z) s : outcome (option (npf_router_t L) * rstate T L) :=
  if u32 (env_threads e - 2) <? nworkers then Ok (None, s) else
  if negb (env_router e) then Ok (None, s) else
  let r := mk_router (env_npf e) BURST_SIZE None false nworkers (replicate (Z.to_nat nworkers) None) in
  let s := log npfk_sysinit s in
  if negb (env_npf e) || negb (env_icmp e =? 0) then s ← router_destroy r s; Ok (None, s) else
  match route_table_create (env_rtable e) with
  | None => s ← router_destroy r s; Ok (None, s)
  | Some t => Ok (Some (r <| rtable := Some t |>), s)
  end.

(** The workers of a device: NAPI contexts [j], [j + 1], ... get the workers
    [i], [i + 1], ...  Whether all could be initialised, and the next slot. *)
Fixpoint init_workers (e : init_env T) (n : nat) (p : positive) (i j : Z) s : outcome (bool * Z * rstate T L) :=
  match n with
  | O => Ok (true, i, s)
  | S n' =>
      '(r, s) ← worker_init (env_worker e i) i s;
      if r <? 0 then Ok (false, i, s) else
      d ← dev_get (r_world s) p;
      ws ← aset (workers d) j (Some (Z.to_nat i));
      w ← deref (wks s !! Z.to_nat i);
      let d := d <| workers := ws |> <| worker_count ::= fun c => u32 (c + 1) |> in
      let s := wk_set (Z.to_nat i) (w <| worker_id := i |> <| net_if := Some p |> <| napi_idx := j |>)
                 (s <| r_world ::= fun w => dev_set w p d |>) in
      init_workers e n' p (i + 1) (j + 1) s
  end.

(** The loop over the devices, from slot [i] on: the value to return at once,
    if any. *)
Fixpoint init_devs (e : init_env T) (l : list positive) (i : Z) s : outcome (option Z * rstate T L) :=
  match l with
  | [] => Ok (None, s)
  | p :: l' =>
      d ← dev_get (r_world s) p;
      r ← deref (robj s);
      if r_worker_count r <=? u32 (i + u32 (napi_count d - 1)) then Ok (None, s) else
      if BSTGW_MAX_NETIF_WORKER <? napi_count d then Ok (None, s) else
      '(ok, i, s) ← init_workers e (Z.to_nat (napi_count d)) p i 0 s;
      r ← deref (robj s);
      if negb ok then s ← router_destroy r s; Ok (Some TEE_ERROR_GENERIC, s) else
      d ← dev_get (r_world s) p;
      '(ret, d, pool) ← ifnet_ifattach roundup2 (env_heap e (Some p)) (pktqueue_size r) (pktqueue_size r)
                          (env_th e p) (env_ring e p) d (w_pool (r_world s));
      let s := s <| r_world ::= fun w => (dev_set w p d) <| w_pool := pool |> |> in
      if ret =? -1 then s ← router_destroy r s; Ok (Some TEE_ERROR_OUT_OF_MEMORY, s) else
      init_devs e l' i (log (npfk_ifmap_attach p) s)
  end.

Definition init_trusted_router (e : init_env T) (alloc dup : bool) s : outcome (Z * rstate T L) :=
  if trusted_router s then Ok (TEE_ERROR_GENERIC, s) else
  if ifnet_dev_count (w_nd (r_world s)) =? 0 then Ok (TEE_ERROR_GENERIC, s) else
  nnapi ← ifnet_napi_count (w_nd (r_world s));
  if nnapi =? 0 then Ok (TEE_ERROR_GENERIC, s) else
  '(r, s) ← router_create e nnapi s;
  match r with
  | None => Ok (TEE_ERROR_GENERIC, s)
  | Some r =>
      rt ← deref (rtable r);
      '(ret, c) ← load_config lpm_strtobin stack alloc dup (mk_cfg (w_nd (r_world s)) rt);
      let r := r <| rtable := Some (c_rt c) |> in
      let s := s <| trusted_router := true |> <| robj := Some r |> <| r_world ::= fun w => w <| w_nd := c_nd c |> |> in
      if ret =? -1 then s ← router_destroy r s; Ok (TEE_ERROR_GENERIC, s) else
      '(err, s) ← init_devs e (netdev_list (w_nd (r_world s))) 0 s;
      match err with
      | Some err => Ok (err, s)
      | None =>
          pool ← bstgw_ethpool_increase roundup2 (env_heap e None) (2 + 2 + 64) (w_pool (r_world s));
          r ← deref (robj s);
          Ok (TEE_SUCCESS, s <| r_world ::= fun w => w <| w_pool := pool |> |> <| robj := Some (r <| notfer := true |>) |>)
      end
  end.

End router.
