(* ===== verification/RouterInit.v ===== *)
(** * What the initialisation of the router establishes.

    Starting from the registered devices of the drivers, [init_trusted_router]
    leaves every device with its workers, address tables, an empty egress
    queue and buffers for it: the invariant of packet processing. *)

From stdpp Require Import strings pretty.
From S2P Require Import Prelude Pktq EthBuf Napi Netdev Route Newlib Config Forward Router.

Section init.
Context {T : Type} `{ThMap T} {L : Type} `{Lpm L route_info_t}.
Context (lpm_strtobin : string -> option (list Z * Z)) (stack : list Z) (roundup2 : Z -> Z -> Z).
Implicit Types s : rstate T L.

(** ** The slots of the router *)

(** The first [i] of the [n] slots are filled, with workers nobody is bound to. *)
Record slots (n i : nat) s : Prop := {
  sl_ptr : trusted_router s = true;
  sl_router : exists r, robj s = Some r /\ npf r = true /\ pktqueue_size r = BURST_SIZE /\ is_Some (rtable r) /\
    r_worker_count r = Z.of_nat n /\ length (worker r) = n /\
    (forall k, (k < i)%nat -> worker r !! k = Some (Some k)) /\ (forall k, (i <= k < n)%nat -> worker r !! k = Some None);
  sl_wks : forall k, (k < i)%nat -> exists w, wks s !! k = Some w /\ wk_router w = true /\ bind_status w = WORKER_UNBOUND
}.

(** Context [j] of device [p] has a worker, one of the first [i]. *)
Definition serves s (i : nat) (p : positive) (d : ifnet_t T) (j : nat) : Prop :=
  exists k w, (k < i)%nat /\ workers d !! j = Some (Some k) /\ wks s !! k = Some w /\ net_if w = Some p /\ napi_idx w = Z.of_nat j.

Lemma worker_init_ok n i s : slots n i s -> (i < n)%nat ->
  exists r l, worker_init true (Z.of_nat i) s =
      Ok (0, wk_set i (mk_worker 0 None None true WORKER_UNBOUND 0 None 0) (s <| robj := Some (r <| worker := l |>) |>)) /\
    robj s = Some r /\ l = <[i := Some i]> (worker r).
Proof.
  intros [Hp (r & Hr & _ & _ & _ & _ & Hl & _ & Hnone) _] Hi. exists r, (<[i := Some i]> (worker r)). split; [|done].
  unfold worker_init, the_router. rewrite Hp, Hr. cbn [mbind outcome_bind deref].
  rewrite aget_lookup, Nat2Z.id, Hnone by lia. cbn [mbind outcome_bind deref negb]. rewrite aset_ok by (rewrite Hl; lia).
  cbn [mbind outcome_bind]. by rewrite Nat2Z.id.
Qed.

(** A device's workers. *)
Lemma init_workers_ok e n p k : (forall i, env_worker e i = true) -> forall i j s d,
  slots n i s -> (i + k <= n)%nat -> devs (w_nd (r_world s)) !! p = Some d -> length (workers d) = 2%nat -> (j + k <= 2)%nat ->
  worker_count d = Z.of_nat j -> (forall j', (j' < j)%nat -> serves s i p d j') ->
  exists s' ws, init_workers e k p (Z.of_nat i) (Z.of_nat j) s = Ok (true, Z.of_nat (i + k), s') /\
    slots n (i + k) s' /\
    let d' := d <| workers := ws |> <| worker_count := Z.of_nat (j + k) |> in
    r_world s' = dev_set (r_world s) p d' /\ (forall j', (j' < j + k)%nat -> serves s' (i + k) p d' j') /\
    (forall k', (k' < i)%nat -> wks s' !! k' = wks s !! k').
Proof.
  intros Hw. induction k as [|k IH]; intros i j s d Hs Hn Hd Hlen Hj Hc Hserve; cbn [init_workers].
  { exists s, (workers d). rewrite !Nat.add_0_r. split; [done|]. split; [done|].
    assert (Ed : d <| workers := workers d |> <| worker_count := Z.of_nat j |> = d) by (rewrite <- Hc; by destruct d).
    cbv zeta. rewrite Ed. split_and!; [|done|done]. unfold dev_set. destruct (r_world s) as [? [] ? ?]. cbn in *. unfold upd. cbn. do 2 f_equal. by rewrite insert_id. }
  destruct (worker_init_ok n i s Hs ltac:(lia)) as (r & l & E & Hr & ->). rewrite Hw, E. cbn [mbind outcome_bind].
  change (0 <? 0) with false. cbv iota.
  match goal with |- context [dev_get (r_world ?s1) p] => change (r_world s1) with (r_world s); set (s0 := s1) end.
  unfold dev_get at 1. rewrite Hd. cbn [mbind outcome_bind deref]. rewrite aset_ok by (rewrite Hlen; lia). cbn [mbind outcome_bind].
  rewrite !Nat2Z.id. change (wks s0) with (<[i := mk_worker 0 None None true WORKER_UNBOUND 0 None 0]> (wks s)).
  rewrite lookup_insert_eq. cbn [mbind outcome_bind deref].
  set (d1 := d <| workers := _ |> <| worker_count ::= _ |>). set (s1 := wk_set i _ _).
  assert (Hs1 : slots n (S i) s1).
  { destruct Hs as [Hp (r' & Hr' & ? & ? & ? & ? & Hl & Hfull & Hnone) Hk]. assert (r' = r) as -> by congruence. split; [exact Hp| |].
    - exists (r <| worker := <[i := Some i]> (worker r) |>). cbn. rewrite length_insert. split_and!; try done.
      + intros k' Hk'. destruct (decide (k' = i)) as [->|]; [apply list_lookup_insert_eq; lia|]. rewrite list_lookup_insert_ne by done. apply Hfull. lia.
      + intros k' Hk'. rewrite list_lookup_insert_ne by lia. apply Hnone. lia.
    - intros k' Hk'. cbn. destruct (decide (k' = i)) as [->|]; [rewrite lookup_insert_eq; by eexists|].
      rewrite !lookup_insert_ne by done. apply Hk. lia. }
  destruct (IH (S i) (S j) s1 d1) as (s' & ws & E' & Hs' & Hw' & Hserve' & Hframe); try done; try lia.
  { cbn. apply lookup_insert_eq. }
  { cbn. by rewrite length_insert. }
  { cbn. rewrite Hc. unfold u32. rewrite Z.mod_small; lia. }
  { intros j' Hj'. destruct (decide (j' = j)) as [->|].
    - exists i. eexists. split; [lia|]. cbn. split; [apply list_lookup_insert_eq; lia|]. rewrite lookup_insert_eq. done.
    - destruct (Hserve j' ltac:(lia)) as (k' & w & ? & E1 & E2 & ?). exists k', w. split; [lia|]. cbn.
      rewrite list_lookup_insert_ne, !lookup_insert_ne by lia. done. }
  exists s', ws. replace (Z.of_nat i + 1) with (Z.of_nat (S i)) by lia. replace (Z.of_nat j + 1) with (Z.of_nat (S j)) by lia.
  replace (i + S k)%nat with (S i + k)%nat by lia. replace (j + S k)%nat with (S j + k)%nat by lia.
  split; [exact E'|]. split; [exact Hs'|]. cbv zeta in *. split_and!; [|exact Hserve'|].
  - rewrite Hw'. unfold dev_set. cbn. unfold upd. cbn. do 2 f_equal. by rewrite insert_insert_eq.
  - intros k' Hk'. rewrite Hframe by lia. cbn. by rewrite !lookup_insert_ne by lia.
Qed.

(** ** The devices *)

(** A device as its driver registered it, with or without addresses. *)
Record dev_raw (d : ifnet_t T) : Prop := {
  dr_hw : length (hwaddr d) = 6%nat;
  dr_ips : length (if_ips d) = 2%nat /\ Forall (fun a => length a = 16%nat) (if_ips d);
  dr_cnt : 0 <= ips_cnt d <= 2;
  dr_napi : 1 <= napi_count d <= 2;
  dr_workers : workers d = [None; None];
  dr_count : worker_count d = 0;
  dr_ntfy : egress_ntfy_handler d = true;
  dr_queue : exists st, egress_queue d = Some (mk_pktqueue st 0 0 0 0 [])
}.

(** A device the router can use, its queue of 512 entries empty, with a worker for each
    context, one of the first [i]. *)
Definition dev_ready s (i : nat) (p : positive) : Prop :=
  exists d, devs (w_nd (r_world s)) !! p = Some d /\ dev_ok d /\ queue_of (w_nd (r_world s)) p = [] /\
    capacity <$> egress_queue d = Some BURST_SIZE /\
    worker_count d = napi_count d /\ forall j, (j < Z.to_nat (napi_count d))%nat -> serves s i p d j.

(** The heap and the libraries serve every request; each block is a new one. *)
Record env_ok (e : init_env T) (pool : ethbuf_pool) : Prop := {
  eo_round : BSTGW_DEFAULT_BUF_SIZE <= roundup2 BSTGW_DEFAULT_BUF_SIZE BSTGW_CACHE_LINE < BSTGW_DEFAULT_BUF_SIZE + BSTGW_CACHE_LINE;
  eo_worker : forall i, env_worker e i = true;
  eo_th : forall p, env_th e p = true;
  eo_ring : forall p sz, 0 <= sz -> exists ring, env_ring e p (4 * sz) = Some ring /\ Z.of_nat (length ring) = sz;
  eo_chunk : forall o k sz, 0 <= sz -> exists ch, env_heap e o k sz = Some ch /\
    ch_priv_ok ch = true /\ 0 <= ch_addr ch /\ Z.of_nat (length (ch_raw ch)) = sz /\ bufs pool !! ch_id ch = None;
  eo_fresh : forall o o' k k' sz sz' ch ch', (o, k) <> (o', k') ->
    env_heap e o k sz = Some ch -> env_heap e o' k' sz' = Some ch' -> ch_id ch <> ch_id ch'
}.

(** The pool after the requests of the devices [done]. *)
Record grown (e : init_env T) (pool0 : ethbuf_pool) (done : list positive) (pool : ethbuf_pool) : Prop := {
  gr_wf : pool_wf pool;
  gr_inuse : inuse_list pool = inuse_list pool0;
  gr_cap : pool_capacity pool = pool_capacity pool0 + BURST_SIZE * Z.of_nat (length done);
  gr_room : map_Forall (fun _ e => BSTGW_DEFAULT_BUF_SIZE <= buf_cap e) (bufs pool);
  gr_from : forall i, is_Some (bufs pool !! i) -> is_Some (bufs pool0 !! i) \/
    exists p k sz ch, p ∈ done /\ env_heap e (Some p) k sz = Some ch /\ ch_id ch = i
}.

Lemma grown_heap e pool0 done pool o n :
  env_ok e pool0 -> grown e pool0 done pool -> (forall p, o = Some p -> p ∉ done) -> heap_ok roundup2 (env_heap e o) n pool.
Proof.
  intros [Hr _ _ _ Hc Hf] Hg Ho. split; [done| |].
  - intros k sz _ Hsz. destruct (Hc o k sz Hsz) as (ch & E & ? & ? & ? & Hnew). exists ch. split_and!; try done.
    destruct (bufs pool !! ch_id ch) as [b|] eqn:Eb; [|done].
    destruct (gr_from _ _ _ _ Hg (ch_id ch)) as [[? ?]|(p & k' & sz' & ch' & Hp & E' & Ei)]; [by eexists|congruence|].
    destruct (Hf (Some p) o k' k sz' sz ch' ch); [|done..]. intros [= <- _]. by apply (Ho p).
  - intros k k' sz sz' ch ch' _ _ Hne E E'. eapply Hf; [|exact E|exact E']. congruence.
Qed.

Lemma grown_step e pool0 done pool p pool' :
  grown e pool0 done pool -> increased BURST_SIZE pool pool' -> from_heap (env_heap e (Some p)) (Z.to_nat BURST_SIZE) pool pool' ->
  grown e pool0 (p :: done) pool'.
Proof.
  intros [Hw Hi Hc Hr Hf] (W & I & _ & C & _ & S) Hfrom. split; [done|congruence| |by apply S|].
  - rewrite C, Hc. cbn [length]. lia.
  - intros i Hi'. destruct (Hfrom i Hi') as [Hold|(k & sz & ch & _ & ? & ?)]; [|right; exists p, k, sz, ch; split; [set_solver|done]].
    destruct (Hf i Hold) as [|(q & k & sz & ch & ? & ?)]; [by left|right]. exists q, k, sz, ch. split; [set_solver|done].
Qed.

Lemma ifattach_ok e pool0 done pool p d :
  env_ok e pool0 -> grown e pool0 done pool -> p ∉ done -> pool_capacity pool + BURST_SIZE <= MAX_U32 ->
  length (hwaddr d) = 6%nat -> (length (if_ips d) = 2%nat /\ Forall (fun a => length a = 16%nat) (if_ips d)) -> 0 <= ips_cnt d <= 2 ->
  egress_ntfy_handler d = true -> (exists st, egress_queue d = Some (mk_pktqueue st 0 0 0 0 [])) ->
  exists t q pool', ifnet_ifattach roundup2 (env_heap e (Some p)) BURST_SIZE BURST_SIZE (env_th e p) (env_ring e p) d pool
      = Ok (0, d <| arp_cache := Some t |> <| egress_queue := Some q |>, pool') /\
    dev_ok (d <| arp_cache := Some t |> <| egress_queue := Some q |>) /\ pq_abs q = [] /\ capacity q = BURST_SIZE /\ grown e pool0 (p :: done) pool'.
Proof.
  intros He Hg Hp Hcap Hhw Hips Hcnt Hnt [st Hq]. unfold ifnet_ifattach. rewrite (eo_th _ _ He). cbn [negb].
  change (egress_queue (d <| arp_cache := _ |>)) with (egress_queue d). rewrite Hq. cbn [deref mbind outcome_bind].
  change (u32 (4 * BURST_SIZE)) with (4 * BURST_SIZE). destruct (eo_ring _ _ He p BURST_SIZE ltac:(done)) as (ring & -> & Hlen).
  match goal with |- context [bstgw_ethpool_increase _ _ ?c _] => change c with BURST_SIZE end.
  destruct (pool_increase_spec roundup2 (env_heap e (Some p)) BURST_SIZE pool (gr_wf _ _ _ _ Hg)) as (pool' & -> & Hinc & Hfrom);
    [by apply (grown_heap e pool0 done); try done; intros ? [= <-]|done|done|]. cbn [mbind outcome_bind].
  eexists th_create, (mk_pktqueue st 0 0 0 BURST_SIZE ring), pool'. split; [done|]. split; [|split; [done|split; [done|by eapply grown_step]]].
  split; cbn; try done.
  - exists th_create. split; [done|]. intros k v. by rewrite th_get_create.
  - eexists. split; [done|]. split; [|constructor]. by split.
Qed.

Definition napi_sum (nd : netdevs T) (l : list positive) : Z :=
  foldr (fun p acc => match devs nd !! p with Some d => napi_count d | None => 0 end + acc) 0 l.

(** Half way through the devices: [i] of the [n] slots used, the devices
    [done] ready, the devices [todo] as they came. *)
Record init_at (e : init_env T) (w0 : world T) (n : nat) (done todo : list positive) (i : nat) s : Prop := {
  ia_slots : slots n i s;
  ia_left : Z.of_nat i + napi_sum (w_nd w0) todo = Z.of_nat n;
  ia_pool : grown e (w_pool w0) done (w_pool (r_world s));
  ia_frame : nd_frame (w_nd w0) (w_nd (r_world s));
  ia_devs : forall q, (fun d => (ifnet_idx d, napi_count d, hwaddr d)) <$> devs (w_nd (r_world s)) !! q =
                      (fun d => (ifnet_idx d, napi_count d, hwaddr d)) <$> devs (w_nd w0) !! q;
  ia_done : forall p, p ∈ done -> dev_ready s i p;
  ia_todo : forall p, p ∈ todo -> exists d, devs (w_nd (r_world s)) !! p = Some d /\ dev_raw d
}.

Lemma dev_ready_mono s s' i i' p :
  dev_ready s i p -> (i <= i')%nat -> devs (w_nd (r_world s')) !! p = devs (w_nd (r_world s)) !! p ->
  (forall k, (k < i)%nat -> wks s' !! k = wks s !! k) -> dev_ready s' i' p.
Proof.
  intros (d & Hd & Hok & Hq & Hcap & Hc & Hs) Hi Ed Ek. exists d. unfold queue_of in *. rewrite Ed. split; [done|]. split; [done|]. split; [done|]. split; [done|]. split; [done|].
  intros j Hj. destruct (Hs j Hj) as (k & w & Hk & E1 & E2 & E3). exists k, w. split; [lia|]. split; [done|]. by rewrite Ek.
Qed.

(** The device at the head of the list. *)
Lemma init_dev_ok e w0 n done p todo i s :
  env_ok e (w_pool w0) -> init_at e w0 n done (p :: todo) i s -> p ∉ done -> p ∉ todo ->
  pool_capacity (w_pool w0) + BURST_SIZE * (Z.of_nat (length done) + 1) <= MAX_U32 -> (n < 1000)%nat -> 0 <= napi_sum (w_nd w0) todo ->
  exists i' s', init_devs roundup2 e (p :: todo) (Z.of_nat i) s = init_devs roundup2 e todo (Z.of_nat i') s' /\ init_at e w0 n (p :: done) todo i' s'.
Proof.
  intros He [Hsl Hleft Hpool Hfr Hdevs Hdone Htodo] Hpd Hpt Hcap Hn Hsum.
  destruct (Htodo p ltac:(set_solver)) as (d & Hd & [Hhw Hips Hcnt Hnapi Hwk Hwc Hnt Hq]).
  assert (Hleft' : Z.of_nat i + napi_count d + napi_sum (w_nd w0) todo = Z.of_nat n).
  { pose proof (Hdevs p) as Hp. rewrite Hd in Hp. destruct (devs (w_nd w0) !! p) as [d0|] eqn:E0; [|done]. injection Hp as _ En _.
    unfold napi_sum in *. cbn [foldr] in Hleft. rewrite E0 in Hleft. lia. }
  cbn [init_devs]. unfold dev_get. rewrite Hd. cbn [deref mbind outcome_bind].
  pose proof Hsl as [_ (r & Hr & Hnp & Hpq & _ & Hrc & _) _]. rewrite Hr. cbn [deref mbind outcome_bind]. rewrite Hrc.
  rewrite (u32_small (napi_count d - 1)), u32_small, (proj2 (Z.leb_gt _ _)) by lia.
  change BSTGW_MAX_NETIF_WORKER with 2. rewrite (proj2 (Z.ltb_ge _ _)) by lia.
  destruct (init_workers_ok e n p (Z.to_nat (napi_count d)) (eo_worker _ _ He) i 0 s d Hsl) as (s1 & ws & E1 & Hsl1 & Hw1 & Hserve & Hframe);
    [lia|done|by rewrite Hwk|lia|done|lia|]. change (Z.of_nat 0) with 0 in E1. rewrite E1. cbn [mbind outcome_bind negb].
  pose proof Hsl1 as [_ (r1 & Hr1 & _ & Hpq1 & _) _]. rewrite Hr1. cbn [deref mbind outcome_bind negb].
  set (d1 := d <| workers := ws |> <| worker_count := _ |>) in *.
  assert (Hd1 : devs (w_nd (r_world s1)) !! p = Some d1) by (rewrite Hw1; apply lookup_insert_eq).
  assert (Hpl1 : w_pool (r_world s1) = w_pool (r_world s)) by (by rewrite Hw1).
  rewrite Hd1. cbn [deref mbind outcome_bind]. rewrite Hpq1, Hpl1.
  destruct (ifattach_ok e (w_pool w0) done (w_pool (r_world s)) p d1) as (t & q & pool' & -> & Hok & Habs & Hqc & Hg); try done.
  { rewrite (gr_cap _ _ _ _ Hpool). lia. }
  cbn [mbind outcome_bind]. change (0 =? -1) with false. cbv iota.
  eexists (i + Z.to_nat (napi_count d))%nat, _. split; [reflexivity|]. split.
  - destruct Hsl1 as [S1 S2 S3]. by split.
  - lia.
  - exact Hg.
  - cbn. rewrite Hw1. exact Hfr.
  - intros q0. cbn. rewrite Hw1. cbn. destruct (decide (p = q0)) as [<-|]; [|rewrite !lookup_insert_ne by done; apply Hdevs].
    rewrite lookup_insert_eq. rewrite <- (Hdevs p), Hd. done.
  - intros p' [->|Hp']%elem_of_cons.
    + eexists. cbn. rewrite lookup_insert_eq. split; [done|]. split; [exact Hok|]. unfold queue_of. cbn. rewrite lookup_insert_eq. cbn. rewrite Habs, Hqc.
      split; [done|]. split; [done|]. split; [lia|]. exact Hserve.
    + eapply dev_ready_mono; [by apply Hdone|lia| |exact Hframe]. cbn. rewrite Hw1. cbn. by rewrite !lookup_insert_ne by (intros ->; done).
  - intros p' Hp'. destruct (Htodo p' ltac:(set_solver)) as (d' & Hd' & Hraw). exists d'. split; [|done]. cbn. rewrite Hw1. cbn.
    by rewrite !lookup_insert_ne by (intros ->; done).
Qed.

Lemma init_devs_ok e w0 n : env_ok e (w_pool w0) -> (n < 1000)%nat -> forall todo done i s,
  init_at e w0 n done todo i s -> (forall k, 0 <= napi_sum (w_nd w0) (drop k todo)) -> NoDup (done ++ todo) ->
  pool_capacity (w_pool w0) + BURST_SIZE * Z.of_nat (length (done ++ todo)) <= MAX_U32 ->
  exists s', init_devs roundup2 e todo (Z.of_nat i) s = Ok (None, s') /\ init_at e w0 n (rev todo ++ done) [] n s'.
Proof.
  intros He Hn. induction todo as [|p todo IH]; intros done i s Hat Hsum Hnd Hcap.
  { exists s. split; [done|]. assert (i = n) as -> by (pose proof (ia_left _ _ _ _ _ _ _ Hat) as Hl; cbn in Hl; lia). done. }
  apply NoDup_app in Hnd as (Hd1 & Hdis & Hd2). apply NoDup_cons in Hd2 as [Hpt Hd2].
  assert (Hpd : p ∉ done) by (intros Hp; apply (Hdis p Hp); set_solver). rewrite length_app in Hcap. cbn [length] in Hcap.
  destruct (init_dev_ok e w0 n done p todo i s He Hat Hpd Hpt) as (i' & s1 & -> & Hat1); [unfold BURST_SIZE in *; lia|done|exact (Hsum 1%nat)|].
  destruct (IH (p :: done) i' s1 Hat1 (fun k => Hsum (S k))) as (s' & E & Hend).
  - cbn. apply NoDup_cons. split; [rewrite elem_of_app; naive_solver|]. apply NoDup_app. split; [done|]. split; [|done]. set_solver.
  - rewrite length_app. cbn [length]. unfold BURST_SIZE in *. lia.
  - exists s'. split; [done|]. cbn [rev]. by rewrite <- app_assoc.
Qed.

(** ** From the registry to the loop *)

Lemma napi_count_sum nd l acc :
  (forall p, p ∈ l -> exists d, devs nd !! p = Some d /\ 0 <= napi_count d <= 2) -> 0 <= acc -> acc + 2 * Z.of_nat (length l) <= MAX_U32 ->
  foreach_dev (fun cnt d => u32 (cnt + napi_count d)) nd l acc = Ok (acc + napi_sum nd l) /\ 0 <= napi_sum nd l <= 2 * Z.of_nat (length l).
Proof.
  revert acc. induction l as [|p l IH]; intros acc Hl Ha Hm; [cbn; split; [f_equal; lia|lia]|].
  destruct (Hl p ltac:(set_solver)) as (d & Hd & Hn). cbn [length] in Hm. cbn [foreach_dev]. rewrite Hd. cbn [deref mbind outcome_bind].
  unfold MAX_U32 in *. rewrite u32_small by lia.
  destruct (IH (acc + napi_count d)) as [-> Hs]; [intros; apply Hl; set_solver|lia|lia|]. unfold napi_sum in *. cbn [foldr length]. rewrite Hd.
  split; [f_equal; lia|lia].
Qed.

Lemma napi_sum_pos nd l p d :
  (forall p, p ∈ l -> exists d, devs nd !! p = Some d /\ 0 <= napi_count d <= 2) -> p ∈ l -> devs nd !! p = Some d -> napi_count d <= napi_sum nd l.
Proof.
  intros Hl Hp Hd. assert (Hnn : forall k, (forall q, q ∈ k -> q ∈ l) -> 0 <= napi_sum nd k).
  { induction k as [|q k IH]; intros Hk; [done|]. destruct (Hl q (Hk q ltac:(set_solver))) as (d' & Hd' & ?).
    pose proof (IH ltac:(set_solver)). unfold napi_sum in *. cbn [foldr]. rewrite Hd'. lia. }
  revert Hp Hnn Hl. induction l as [|q l IH]; intros Hp Hnn Hl; [set_solver|]. destruct (Hl q ltac:(set_solver)) as (d' & Hd' & ?).
  pose proof (Hnn l ltac:(set_solver)) as Hpos. unfold napi_sum in *. cbn [foldr]. rewrite Hd'. apply elem_of_cons in Hp as [->|Hp].
  - rewrite Hd in Hd'. injection Hd' as ->. lia.
  - pose proof (IH Hp ltac:(set_solver) ltac:(set_solver)). lia.
Qed.

(** The registries differ in the addresses of the devices only. *)
Definition ips_only (nd nd' : netdevs T) : Prop :=
  nd_frame nd nd' /\ forall q,
    match devs nd !! q, devs nd' !! q with
    | Some d, Some d' => exists ips n, d' = d <| if_ips := ips |> <| ips_cnt := n |> /\
        (Forall (fun a => length a = 16%nat) (if_ips d) -> Forall (fun a => length a = 16%nat) ips)
    | None, None => True
    | _, _ => False
    end.

Lemma ips_only_trans nd1 nd2 nd3 : ips_only nd1 nd2 -> ips_only nd2 nd3 -> ips_only nd1 nd3.
Proof.
  intros [F1 D1] [F2 D2]. split; [by eapply nd_frame_trans|]. intros q. specialize (D1 q). specialize (D2 q).
  destruct (devs nd1 !! q) as [d1|], (devs nd2 !! q) as [d2|], (devs nd3 !! q) as [d3|]; try done.
  destruct D1 as (ips & n & -> & H1), D2 as (ips' & n' & -> & H2). exists ips', n'. split; [done|]. intros Hf. by apply H2, H1.
Qed.

Lemma ips_only_add p a nd : length a = 4%nat -> ips_only nd (dev_upd p (add_ip a) nd).
Proof.
  intros Ha. split; [done|]. intros q. cbn. destruct (decide (p = q)) as [->|].
  - rewrite lookup_alter_eq. destruct (devs nd !! q) as [d|]; [|done]. cbn.
    eexists (alter (fun old => blit old 0 a) (Z.to_nat (ips_cnt d)) (if_ips d)), (ips_cnt d + 1). split; [done|].
    intros Hf. apply Forall_alter; [done|]. intros x _ Hx. rewrite length_blit; [done|lia].
  - rewrite lookup_alter_ne by done. destruct (devs nd !! q) as [d|]; [|done]. exists (if_ips d), (ips_cnt d). by destruct d.
Qed.

Lemma default_nd_ips p1 p2 nd : ips_only nd (default_nd p1 p2 nd).
Proof. unfold default_nd. do 3 (eapply ips_only_trans; [|by apply ips_only_add]). by apply ips_only_add. Qed.

Lemma ips_only_napi nd nd' l : ips_only nd nd' -> napi_sum nd' l = napi_sum nd l.
Proof.
  intros [_ Hd]. induction l as [|p l IH]; [done|]. unfold napi_sum in *. cbn [foldr]. rewrite IH. specialize (Hd p).
  destruct (devs nd !! p) as [d|], (devs nd' !! p) as [d'|]; try done. by destruct Hd as (? & ? & -> & _).
Qed.

Lemma ips_only_raw nd nd' p d :
  ips_only nd nd' -> devs nd !! p = Some d -> dev_raw d ->
  (forall d', devs nd' !! p = Some d' -> length (if_ips d') = 2%nat /\ 0 <= ips_cnt d' <= 2) ->
  exists d', devs nd' !! p = Some d' /\ dev_raw d'.
Proof.
  intros [_ Hd] E [Hhw [_ Hips] _ Hn Hw Hc Hnt Hq] Hlen. specialize (Hd p). rewrite E in Hd.
  destruct (devs nd' !! p) as [d'|]; [|done]. destruct Hd as (ips & n & -> & Hf). destruct (Hlen _ eq_refl) as [Hl Hcnt].
  eexists. split; [done|]. split; try done. split; [done|]. by apply Hf.
Qed.

Lemma reg_wf_same (nd nd' : netdevs T) :
  reg_wf nd -> nd_frame nd nd' -> (forall q, ifnet_idx <$> devs nd' !! q = ifnet_idx <$> devs nd !! q) -> reg_wf nd'.
Proof.
  intros [Hn Hd Hl Hls Hm] (E1 & E2 & E3) Hq. split; rewrite ?E1, ?E2, ?E3; try done.
  intros p Hp. destruct (Hls p Hp) as (d & Hdp & Hi). pose proof (Hq p) as Hqp. rewrite Hdp in Hqp.
  destruct (devs nd' !! p) as [d'|]; [|done]. injection Hqp as Ei. exists d'. split; [done|]. by rewrite Ei.
Qed.

(** The devices of the drivers, as they are registered before the router
    starts: NW and imx6q-fec among them, none with an address yet. *)
Record start_ok (e : init_env T) s p1 d1 p2 d2 : Prop := {
  so_null : trusted_router s = false;
  so_reg : reg_wf (w_nd (r_world s));
  so_names : names_distinct (w_nd (r_world s));
  so_len : (length (netdev_list (w_nd (r_world s))) <= 32)%nat;
  so_raw : forall p d, p ∈ netdev_list (w_nd (r_world s)) -> devs (w_nd (r_world s)) !! p = Some d -> dev_raw d;
  so_nw : p1 ∈ netdev_list (w_nd (r_world s)) /\ devs (w_nd (r_world s)) !! p1 = Some d1 /\ name d1 = "NW"%string /\ ips_cnt d1 = 0;
  so_fec : p2 ∈ netdev_list (w_nd (r_world s)) /\ devs (w_nd (r_world s)) !! p2 = Some d2 /\ name d2 = "imx6q-fec"%string /\ ips_cnt d2 = 0;
  so_pool : pool_wf (w_pool (r_world s));
  so_cap : pool_capacity (w_pool (r_world s)) <= 1000000;
  so_room : map_Forall (fun _ e => BSTGW_DEFAULT_BUF_SIZE <= buf_cap e) (bufs (w_pool (r_world s)));
  so_env : env_ok e (w_pool (r_world s));
  so_libs : env_router e = true /\ env_npf e = true /\ env_icmp e = 0 /\ env_rtable e = true;
  so_threads : napi_sum (w_nd (r_world s)) (netdev_list (w_nd (r_world s))) + 2 <= env_threads e <= MAX_U32
}.

Lemma devs_found s e p1 d1 p2 d2 p :
  start_ok e s p1 d1 p2 d2 -> p ∈ netdev_list (w_nd (r_world s)) -> exists d, devs (w_nd (r_world s)) !! p = Some d /\ dev_raw d.
Proof. intros Hs Hp. destruct (rw_list _ (so_reg _ _ _ _ _ _ Hs) p Hp) as (d & Hd & _). exists d. split; [done|]. by eapply so_raw. Qed.

Lemma router_create_ok e n s : env_router e = true -> env_npf e = true -> env_icmp e = 0 -> env_rtable e = true ->
  0 <= n -> n + 2 <= env_threads e <= MAX_U32 ->
  router_create e n s = Ok (Some (mk_router true BURST_SIZE (Some lpm_create) false n (replicate (Z.to_nat n) None)), log npfk_sysinit s).
Proof.
  intros E1 E2 E3 E4 Hn Ht. unfold router_create, MAX_U32 in *. rewrite u32_small, (proj2 (Z.ltb_ge _ _)) by lia. by rewrite E1, E2, E3, E4.
Qed.

(** The first state of the loop over the devices. *)
Lemma init_at_start e s p1 d1 p2 d2 rt :
  start_ok e s p1 d1 p2 d2 -> let nd := w_nd (r_world s) in let nd' := default_nd p1 p2 nd in
  (forall p d, p ∈ netdev_list nd' -> devs nd' !! p = Some d -> length (if_ips d) = 2%nat /\ 0 <= ips_cnt d <= 2) ->
  let n := napi_sum nd (netdev_list nd) in
  let r := mk_router true BURST_SIZE (Some rt) false n (replicate (Z.to_nat n) None) in
  let w0 := (r_world s) <| w_nd := nd' |> in
  init_at e w0 (Z.to_nat n) [] (netdev_list nd') 0
    ((log npfk_sysinit s) <| trusted_router := true |> <| robj := Some r |> <| r_world ::= fun w => w <| w_nd := nd' |> |>).
Proof.
  intros Hs nd nd' Hok n r w0. pose proof (default_nd_ips p1 p2 nd) as Hips. pose proof Hips as [(El & Em & En) _].
  assert (Hn : 0 <= n <= 2 * Z.of_nat (length (netdev_list nd))).
  { pose proof (so_len _ _ _ _ _ _ Hs) as Hlen. fold nd in Hlen. apply (napi_count_sum nd (netdev_list nd) 0); [|lia|unfold MAX_U32; lia].
    intros p Hp. destruct (devs_found _ _ _ _ _ _ p Hs Hp) as (d & Hd & [_ _ _ Hna _ _ _ _]). exists d. split; [done|lia]. }
  split; cbn.
  - split; cbn; [done| |intros; lia]. exists r. cbn. split_and!; try done; [lia|by rewrite length_replicate|intros; lia|].
    intros k Hk. rewrite lookup_replicate. split; [done|lia].
  - pose proof (ips_only_napi nd nd' (netdev_list nd) Hips) as E. fold n in E. change (napi_sum nd' (netdev_list nd) = Z.of_nat (Z.to_nat n)). lia.
  - destruct Hs. split; try done; [cbn; lia|]. intros i Hi. by left.
  - done.
  - done.
  - set_solver.
  - intros p Hp. destruct (devs_found _ _ _ _ _ _ p Hs Hp) as (d & Hd & Hraw).
    eapply (ips_only_raw nd nd'); [done|exact Hd|done|]. intros d' Hd'. by apply (Hok p).
Qed.

(** The last state: all devices ready, and the pool's last buffers added. *)
Lemma init_at_end e w0 n s pool :
  reg_wf (w_nd w0) -> init_at e w0 n (rev (netdev_list (w_nd w0)) ++ []) [] n s -> increased 68 (w_pool (r_world s)) pool ->
  let w := (r_world s) <| w_pool := pool |> in
  owned w (inuse_list (w_pool w0)) /\ netdev_list (w_nd w) = netdev_list (w_nd w0) /\ (forall p, p ∈ netdev_list (w_nd w0) -> dev_ready s n p) /\
  (forall q, hwaddr <$> devs (w_nd w) !! q = hwaddr <$> devs (w_nd w0) !! q).
Proof.
  intros Hreg [Hsl _ Hg Hfr Hdevs Hdone _] (W & I & _ & _ & _ & R) w. pose proof Hfr as (El & _ & _). rewrite app_nil_r in *.
  assert (Hready : forall p, p ∈ netdev_list (w_nd w0) -> dev_ready s n p) by (intros p Hp; apply Hdone; rewrite list_elem_of_In in Hp |- *; by apply -> in_rev).
  split; [|split; [done|split; [done|]]].
  2: { intros q. specialize (Hdevs q). cbn. destruct (devs (w_nd (r_world s)) !! q), (devs (w_nd w0) !! q); cbn in *; congruence. }
  split; [split|].
  - exact W.
  - apply R. apply (gr_room _ _ _ _ Hg).
  - eapply (reg_wf_same (w_nd w0)); [done|exact Hfr|]. intros q. specialize (Hdevs q). cbn.
    destruct (devs (w_nd (r_world s)) !! q), (devs (w_nd w0) !! q); cbn in *; congruence.
  - cbn. rewrite El. intros p d Hp Hd. destruct (Hready p Hp) as (d' & Hd' & Hok & _). by simplify_eq.
  - cbn. rewrite I, (gr_inuse _ _ _ _ Hg). unfold queued. cbn. rewrite El.
    assert (E : concat (map (queue_of (w_nd (r_world s))) (netdev_list (w_nd w0))) = []); [|by rewrite E].
    clear - Hready. induction (netdev_list (w_nd w0)) as [|p l IH]; [done|]. cbn. destruct (Hready p ltac:(set_solver)) as (d & _ & _ & -> & _).
    apply IH. intros q Hq. apply Hready. set_solver.
Qed.

(** The rest of the initialisation, from the loop on. *)
Lemma init_finish e w0 n s1 :
  env_ok e (w_pool w0) -> init_at e w0 n [] (netdev_list (w_nd w0)) 0 s1 -> (n < 1000)%nat -> reg_wf (w_nd w0) ->
  (forall k, 0 <= napi_sum (w_nd w0) (drop k (netdev_list (w_nd w0)))) -> (length (netdev_list (w_nd w0)) <= 32)%nat ->
  pool_capacity (w_pool w0) <= 1000000 ->
  exists s', ('(err, s) ← init_devs roundup2 e (netdev_list (w_nd w0)) 0 s1;
      match err with
      | Some err => Ok (err, s)
      | None =>
          pool ← bstgw_ethpool_increase roundup2 (env_heap e None) (2 + 2 + 64) (w_pool (r_world s));
          r ← deref (robj s);
          Ok (TEE_SUCCESS, s <| r_world ::= fun w => w <| w_pool := pool |> |> <| robj := Some (r <| notfer := true |>) |>)
      end) = Ok (TEE_SUCCESS, s') /\
    owned (r_world s') (inuse_list (w_pool w0)) /\ netdev_list (w_nd (r_world s')) = netdev_list (w_nd w0) /\ slots n n s' /\
    (forall p, p ∈ netdev_list (w_nd w0) -> dev_ready s' n p) /\
    (forall q, hwaddr <$> devs (w_nd (r_world s')) !! q = hwaddr <$> devs (w_nd w0) !! q) /\
    pool_capacity (w_pool (r_world s')) = pool_capacity (w_pool w0) + 512 * Z.of_nat (length (netdev_list (w_nd w0))) + 68.
Proof.
  intros Henv Hat Hn Hreg Hsum Hlen Hcap.
  destruct (init_devs_ok e w0 n Henv Hn (netdev_list (w_nd w0)) [] 0 s1 Hat Hsum) as (s2 & E2 & Hat2); [exact (rw_nodup _ Hreg)| |].
  { cbn [app]. unfold BURST_SIZE, MAX_U32. lia. }
  change (Z.of_nat 0) with 0 in E2. rewrite E2. cbn [mbind outcome_bind]. replace (2 + 2 + 64) with 68 by done.
  pose proof (ia_pool _ _ _ _ _ _ _ Hat2) as Hg.
  assert (Hlen2 : length (rev (netdev_list (w_nd w0)) ++ []) = length (netdev_list (w_nd w0))) by (by rewrite app_nil_r, length_rev).
  destruct (pool_increase_spec roundup2 (env_heap e None) 68 (w_pool (r_world s2)) (gr_wf _ _ _ _ Hg)) as (pool & -> & Hinc & _).
  { by apply (grown_heap e (w_pool w0) (rev (netdev_list (w_nd w0)) ++ [])). }
  { lia. }
  { rewrite (gr_cap _ _ _ _ Hg), Hlen2. unfold BURST_SIZE, MAX_U32. lia. }
  cbn [mbind outcome_bind]. pose proof (ia_slots _ _ _ _ _ _ _ Hat2) as [S1 (r & Hr & S2) S3]. rewrite Hr. cbn [deref mbind outcome_bind].
  destruct (init_at_end e w0 n s2 pool Hreg Hat2 Hinc) as (Ho & El & Hready & Hhw).
  eexists. split; [done|]. split; [exact Ho|]. split; [exact El|]. split; [|split; [|split; [exact Hhw|]]].
  - split; [exact S1| |exact S3]. exists (r <| notfer := true |>). split; [done|exact S2].
  - intros p Hp. destruct (Hready p Hp) as (d & Hd & ?). by exists d.
  - destruct Hinc as (_ & _ & _ & C & _). cbn. by rewrite C, (gr_cap _ _ _ _ Hg), Hlen2.
Qed.

Lemma dev_count_pos (nd : netdevs T) p : reg_wf nd -> p ∈ netdev_list nd -> ifnet_dev_count nd <> 0.
Proof.
  intros Hreg Hp. destruct (rw_list _ Hreg p Hp) as (d0 & _ & Hidx & _). pose proof (rw_next _ Hreg) as Hnext. unfold MAX_IFNET_IDS in Hnext.
  unfold ifnet_dev_count. rewrite u32_small; lia.
Qed.

(** The steps before the loop over the devices. *)
Lemma init_unfold e s n r s1 rt c :
  trusted_router s = false -> ifnet_dev_count (w_nd (r_world s)) <> 0 -> ifnet_napi_count (w_nd (r_world s)) = Ok n -> n <> 0 ->
  router_create e n s = Ok (Some r, s1) -> rtable r = Some rt ->
  load_config lpm_strtobin stack true true (mk_cfg (w_nd (r_world s1)) rt) = Ok (0, c) ->
  let s2 := s1 <| trusted_router := true |> <| robj := Some (r <| rtable := Some (c_rt c) |>) |>
              <| r_world ::= fun w => w <| w_nd := c_nd c |> |> in
  init_trusted_router lpm_strtobin stack roundup2 e true true s =
    ('(err, s) ← init_devs roundup2 e (netdev_list (c_nd c)) 0 s2;
      match err with
      | Some err => Ok (err, s)
      | None =>
          pool ← bstgw_ethpool_increase roundup2 (env_heap e None) (2 + 2 + 64) (w_pool (r_world s));
          r ← deref (robj s);
          Ok (TEE_SUCCESS, s <| r_world ::= fun w => w <| w_pool := pool |> |> <| robj := Some (r <| notfer := true |>) |>)
      end).
Proof.
  intros H1 H2 H3 H4 H5 H6 H7 s2. unfold init_trusted_router. rewrite H1, (proj2 (Z.eqb_neq _ _) H2), H3, ok_bind. cbv beta.
  rewrite (proj2 (Z.eqb_neq _ _) H4), H5, ok_bind. cbv beta iota. rewrite H6, (eq_refl : deref (Some rt) = Ok rt), ok_bind. cbv beta. rewrite H7, ok_bind. cbv beta iota.
  reflexivity.
Qed.

(** When the configuration does not load, the router is freed, but the
    pointer to it stays: the next caller reads freed memory. *)
Lemma init_config_dangles e s n r s1 rt k c alloc dup :
  trusted_router s = false -> ifnet_dev_count (w_nd (r_world s)) <> 0 -> ifnet_napi_count (w_nd (r_world s)) = Ok n -> n <> 0 ->
  router_create e n s = Ok (Some r, s1) -> rtable r = Some rt -> worker r = replicate k None ->
  load_config lpm_strtobin stack alloc dup (mk_cfg (w_nd (r_world s1)) rt) = Ok (-1, c) ->
  exists s', init_trusted_router lpm_strtobin stack roundup2 e alloc dup s = Ok (TEE_ERROR_GENERIC, s') /\ worker_get_number s' = Undef.
Proof.
  intros H1 H2 H3 H4 H5 Hrt Hwk H6. assert (Hd : forall j (x : rstate T L), destroy_workers (replicate j None) x = Ok x) by (induction j as [|j IH]; intros x; [done|apply IH]).
  unfold init_trusted_router. rewrite H1, (proj2 (Z.eqb_neq _ _) H2), H3, ok_bind. cbv beta.
  rewrite (proj2 (Z.eqb_neq _ _) H4), H5, ok_bind. cbv beta iota. rewrite Hrt, (eq_refl : deref (Some rt) = Ok rt), ok_bind. cbv beta. rewrite H6, ok_bind. cbv beta iota.
  rewrite (eq_refl : (-1 =? -1) = true). unfold router_destroy.
  change (worker (r <| rtable := Some (c_rt c) |>)) with (worker r). rewrite Hwk, Hd, !ok_bind. eexists. split; [reflexivity|].
  destruct (npf _); reflexivity.
Qed.

(** The whole initialisation. *)
Lemma init_router_ok e s p1 d1 p2 d2 :
  (forall a b e f n : Z, Forall (fun v => 0 <= v <= 255) [a; b; e; f] -> 0 <= n <= 32 ->
     lpm_strtobin (pretty a +:+ "." +:+ pretty b +:+ "." +:+ pretty e +:+ "." +:+ pretty f +:+ "/" +:+ pretty n)%string
       = Some ([a; b; e; f], n)) ->
  (forall l a n v, is_Some (lpm_insert (L := L) (V := route_info_t) l a n v)) ->
  length stack = 4%nat -> start_ok e s p1 d1 p2 d2 ->
  let l := netdev_list (w_nd (r_world s)) in
  let n := Z.to_nat (napi_sum (w_nd (r_world s)) l) in
  exists s', init_trusted_router lpm_strtobin stack roundup2 e true true s = Ok (TEE_SUCCESS, s') /\
    owned (r_world s') (inuse_list (w_pool (r_world s))) /\ netdev_list (w_nd (r_world s')) = l /\ slots n n s' /\ (forall p, p ∈ l -> dev_ready s' n p) /\
    (forall q, hwaddr <$> devs (w_nd (r_world s')) !! q = hwaddr <$> devs (w_nd (r_world s)) !! q) /\
    pool_capacity (w_pool (r_world s')) = pool_capacity (w_pool (r_world s)) + 512 * Z.of_nat (length l) + 68.
Proof.
  intros Hcidr Hins Hst Hs l n. pose proof Hs as [Hnull Hreg Hnames Hlen Hraw (Hp1 & Hd1 & Hn1 & Hc1) (Hp2 & Hd2 & Hn2 & Hc2) Hpool Hcap Hroom Henv (L1 & L2 & L3 & L4) Hthr].
  assert (Hfound : forall p, p ∈ l -> exists d, devs (w_nd (r_world s)) !! p = Some d /\ 0 <= napi_count d <= 2).
  { intros p Hp. destruct (devs_found _ _ _ _ _ _ p Hs Hp) as (d & Hd & [_ _ _ Hna _ _ _ _]). exists d. split; [done|lia]. }
  destruct (napi_count_sum (w_nd (r_world s)) l 0 Hfound) as [Ecnt Hsum]; [lia|unfold MAX_U32; subst l; lia|].
  pose proof (napi_sum_pos (w_nd (r_world s)) l p1 d1 Hfound Hp1 Hd1) as Hpos. destruct (Hraw p1 d1 Hp1 Hd1) as [_ _ _ Hna1 _ _ _ _].
  assert (Hcfg : cfg_ok (mk_cfg (w_nd (r_world s)) (lpm_create (L := L)))).
  { split; cbn; [done|done|]. intros p d Hp Hd. destruct (Hraw p d Hp Hd) as [_ [? _] ? _ _ _ _ _]. done. }
  destruct (default_config_ok lpm_strtobin stack true (mk_cfg (w_nd (r_world s)) (lpm_create (L := L))) p1 d1 p2 d2) as (c & Eload & Hcok & Ec & _);
    try done; [apply lpm_create_spec|].
  assert (Ecreate := router_create_ok e (napi_sum (w_nd (r_world s)) l) s L1 L2 L3 L4 ltac:(lia) Hthr).
  rewrite (init_unfold e s _ _ _ lpm_create c Hnull (dev_count_pos _ p1 Hreg Hp1) Ecnt ltac:(lia) Ecreate eq_refl Eload).
  cbn [c_nd] in Ec. rewrite Ec.
  pose proof (init_at_start e s p1 d1 p2 d2 (c_rt c) Hs) as Hat. cbv zeta in Hat. pose proof (co_ips _ Hcok) as Hips. rewrite Ec in Hips. specialize (Hat Hips).
  set (w0 := (r_world s) <| w_nd := default_nd p1 p2 (w_nd (r_world s)) |>) in *. fold l in Hat.
  assert (Hn : (n < 1000)%nat) by (unfold n, l in *; lia).
  destruct (init_finish e w0 n _ Henv Hat) as (s' & E & Ho & El & Hsl & Hready & Hhw & Hc).
  - exact Hn.
  - pose proof (co_reg _ Hcok) as Hr0. rewrite Ec in Hr0. exact Hr0.
  - intros k. change (w_nd w0) with (default_nd p1 p2 (w_nd (r_world s))). rewrite (ips_only_napi _ _ _ (default_nd_ips p1 p2 (w_nd (r_world s)))).
    apply (napi_count_sum _ _ 0); [|lia|rewrite length_drop; unfold MAX_U32; cbn; lia].
    intros p Hp. apply Hfound. change (netdev_list _) with l in Hp. rewrite <- (take_drop k l). set_solver.
  - exact Hlen.
  - exact Hcap.
  - exists s'. split; [exact E|]. split_and!; try done. intros q. rewrite Hhw. destruct (default_nd_ips p1 p2 (w_nd (r_world s))) as [_ Hq].
    specialize (Hq q). change (w_nd w0) with (default_nd p1 p2 (w_nd (r_world s))). destruct (devs (w_nd (r_world s)) !! q), (devs (default_nd p1 p2 (w_nd (r_world s))) !! q); try done.
    by destruct Hq as (? & ? & -> & _).
Qed.

(** ** Properties *)

(** C12. The initialisation of the router.  From the devices registered by the
    drivers, NW and imx6q-fec among them, and with the libraries and the heap
    serving every request, [init_trusted_router] succeeds and leaves the
    invariant that packet processing starts from: every device has its
    tables, an empty egress queue of 512 entries and a worker of its own for
    each of its NAPI contexts, and keeps its hardware address; all workers are unbound; no
    further buffer is in use and the pool has 512 buffers for each device and 68 more. *)
Theorem init_trusted_router_ready e s p1 d1 p2 d2 :
  (forall a b e f n : Z, Forall (fun v => 0 <= v <= 255) [a; b; e; f] -> 0 <= n <= 32 ->
     lpm_strtobin (pretty a +:+ "." +:+ pretty b +:+ "." +:+ pretty e +:+ "." +:+ pretty f +:+ "/" +:+ pretty n)%string
       = Some ([a; b; e; f], n)) ->
  (forall l a n v, is_Some (lpm_insert (L := L) (V := route_info_t) l a n v)) ->
  length stack = 4%nat -> start_ok e s p1 d1 p2 d2 ->
  let l := netdev_list (w_nd (r_world s)) in
  let n := Z.to_nat (napi_sum (w_nd (r_world s)) l) in
  exists s', init_trusted_router lpm_strtobin stack roundup2 e true true s = Ok (TEE_SUCCESS, s') /\
    owned (r_world s') (inuse_list (w_pool (r_world s))) /\ netdev_list (w_nd (r_world s')) = l /\ slots n n s' /\ (forall p, p ∈ l -> dev_ready s' n p) /\
    (forall q, hwaddr <$> devs (w_nd (r_world s')) !! q = hwaddr <$> devs (w_nd (r_world s)) !! q) /\
    pool_capacity (w_pool (r_world s')) = pool_capacity (w_pool (r_world s)) + 512 * Z.of_nat (length l) + 68.
Proof. exact (init_router_ok e s p1 d1 p2 d2). Qed.

End init.

(** ** Example: the two devices, an empty pool *)

Definition ex_env : init_env (gmap (list Z) (list Z)) :=
  mk_env 8 true true 0 true (fun _ => true) (fun _ => true) (fun _ sz => Some (replicate (Z.to_nat (sz / 4)) None))
    (fun o k sz => Some (mk_chunk (xO (encode (o, k))) 0 (replicate (Z.to_nat sz) 0) true)).
Definition ex_new_dev (idx n : Z) (nm : string) : ifnet_t (gmap (list Z) (list Z)) :=
  mk_ifnet idx [2; 0; 0; 0; 0; idx] BSTGW_IF_EXTERNAL [Some 1%positive; None] n true true nm [None; None] 0
    [replicate 16 0; replicate 16 0] 0 0 None (Some (mk_pktqueue true 0 0 0 0 [])).
Definition ex_start : rstate (gmap (list Z) (list Z)) (list (list Z * Z * route_info_t)) :=
  mk_rstate (mk_world (mk_pool ∅ [] [] 0)
    (mk_netdevs {[ 1%positive := ex_new_dev 1 1 "NW"%string; 2%positive := ex_new_dev 2 2 "imx6q-fec"%string ]} [2%positive; 1%positive]
       ([Some 1%positive; Some 2%positive] ++ replicate 30 None) 3) [] 0) false None ∅ ∅ [].
Definition ex_roundup (x m : Z) : Z := (x + m - 1) / m * m.

Lemma ex_env_ok : env_ok ex_roundup ex_env (mk_pool ∅ [] [] 0).
Proof.
  split; [vm_compute; split; [discriminate|reflexivity]|done|done| | |].
  - intros p sz Hsz. eexists. split; [done|]. rewrite length_replicate. replace (4 * sz / 4) with sz by (rewrite Z.mul_comm, Z.div_mul; lia). lia.
  - intros o k sz Hsz. eexists. split; [done|]. cbn. split; [done|]. split; [lia|]. split; [rewrite length_replicate; lia|apply lookup_empty].
  - intros o o' k k' sz sz' ch ch' Hne [= <-] [= <-]. cbn. by intros [= ?%(inj encode)].
Qed.

Lemma ex_new_dev_raw idx n nm : 1 <= n <= 2 -> dev_raw (ex_new_dev idx n nm).
Proof. intros Hn. split; cbn; try done; [split; [done|]; repeat constructor|by eexists]. Qed.

Lemma ex_start_reg : reg_wf (w_nd (r_world ex_start)).
Proof.
  split; [vm_compute; split; discriminate|repeat constructor; set_solver|done| |].
  - intros p [->|[->|Hp%elem_of_nil]%elem_of_cons]%elem_of_cons; [..|done]; eexists; (split; [reflexivity|]); cbn; (split; [lia|done]).
  - intros i Hi. change (next_if_idx (w_nd (r_world ex_start))) with 3 in Hi.
    assert (i = 1 \/ i = 2) as [-> | ->] by lia; eexists; (split; [reflexivity|]); cbn; set_solver.
Qed.

Lemma ex_start_ok : start_ok ex_roundup ex_env ex_start 1 (ex_new_dev 1 1 "NW"%string) 2 (ex_new_dev 2 2 "imx6q-fec"%string).
Proof.
  assert (Hl : forall p d, p ∈ netdev_list (w_nd (r_world ex_start)) -> devs (w_nd (r_world ex_start)) !! p = Some d ->
    (p = 1%positive /\ d = ex_new_dev 1 1 "NW"%string) \/ (p = 2%positive /\ d = ex_new_dev 2 2 "imx6q-fec"%string)).
  { intros p d [->|[->|Hp%elem_of_nil]%elem_of_cons]%elem_of_cons; [..|done]; intros [= <-]; [by right|by left]. }
  split.
  - done.
  - exact ex_start_reg.
  - intros p q d e Hp Hq Hd He. destruct (Hl p d Hp Hd) as [[-> ->]|[-> ->]], (Hl q e Hq He) as [[-> ->]|[-> ->]]; try done.
  - vm_compute. lia.
  - intros p d Hp Hd. destruct (Hl p d Hp Hd) as [[_ ->]|[_ ->]]; apply ex_new_dev_raw; lia.
  - split; [cbn; set_solver|done].
  - split; [cbn; set_solver|done].
  - split; cbn; [constructor|intros i; rewrite lookup_empty; split; [by intros ?%elem_of_nil|by intros [? ?]]|apply map_Forall_empty|by intros ? ? ?%elem_of_nil|done].
  - vm_compute. discriminate.
  - apply map_Forall_empty.
  - exact ex_env_ok.
  - done.
  - vm_compute. split; discriminate.
Qed.

Lemma init_trusted_router_ready_witness :
  exists s', init_trusted_router cidr_parse [0; 0; 0; 0] ex_roundup ex_env true true ex_start = Ok (TEE_SUCCESS, s') /\
    owned (r_world s') [] /\ netdev_list (w_nd (r_world s')) = [2%positive; 1%positive] /\ slots 3 3 s' /\
    (forall p, p ∈ [2%positive; 1%positive] -> dev_ready s' 3 p) /\
    (forall q, hwaddr <$> devs (w_nd (r_world s')) !! q = hwaddr <$> devs (w_nd (r_world ex_start)) !! q) /\
    pool_capacity (w_pool (r_world s')) = 0 + 512 * 2 + 68.
Proof.
  apply (init_trusted_router_ready cidr_parse [0; 0; 0; 0] ex_roundup ex_env ex_start 1 (ex_new_dev 1 1 "NW"%string) 2 (ex_new_dev 2 2 "imx6q-fec"%string)).
  - exact cidr_parse_ok.
  - intros. by eexists.
  - reflexivity.
  - exact ex_start_ok.
Defined.
