(* ===== verification/Pta.v ===== *)
(** * The pseudo TA of the router (nettrug/pta/trust_router.c, the device
    descriptions of if_netdev.c).

    The normal world opens sessions to run the workers and the cleaner of
    the firewall; the ConfigService TA opens one to pass on configuration
    requests.  A worker is bound to at most one session, and only the
    ConfigService reaches the firewall. *)

From stdpp Require Import strings pretty.
From S2P Require Import Prelude Pktq EthBuf Napi Netdev Route Newlib Config Forward Router RouterInit.

(** ** The interface of the TEE *)

Definition TEE_PARAM_TYPE_NONE : Z := 0.
Definition TEE_PARAM_TYPE_VALUE_INPUT : Z := 1.
Definition TEE_PARAM_TYPE_VALUE_OUTPUT : Z := 2.
Definition TEE_PARAM_TYPE_MEMREF_INPUT : Z := 5.
Definition TEE_PARAM_TYPE_MEMREF_OUTPUT : Z := 6.
Definition TEE_PARAM_TYPE_MEMREF_INOUT : Z := 7.
Definition TEE_PARAM_TYPES (t0 t1 t2 t3 : Z) : Z :=
  Z.lor (Z.lor t0 (Z.shiftl t1 4)) (Z.lor (Z.shiftl t2 8) (Z.shiftl t3 12)).

(** A parameter: its first value, or a buffer with its size. *)
Record tee_param := mk_param { value_a : Z; memref_buffer : option (list Z); memref_size : Z }.
#[global] Instance eta_param : Settable tee_param :=
  fun p => mk_param (value_a p) (memref_buffer p) (memref_size p).

Definition BSTGW_TRUST_ROUTER_UNBOUND_SESSION : Z := 0.
Definition BSTGW_TRUST_ROUTER_CLEANER_SESSION : Z := 1.
Definition BSTGW_TRUST_ROUTER_WORKER_SESSION : Z := 2.
Definition BSTGW_PTA_TRUST_ROUTER_CMD_CONFIG : Z := 0.
Definition BSTGW_PTA_TRUST_ROUTER_CMD_GET_NWORKERS : Z := 1.
Definition BSTGW_PTA_TRUST_ROUTER_CMD_RUN_CLEANER : Z := 2.
Definition BSTGW_PTA_TRUST_ROUTER_CMD_RUN_WORKER : Z := 3.
Definition BSTGW_PTA_TRUST_ROUTER_GET_STATS : Z := 4.

(** A TEE_UUID, field by field. *)
Definition uuid : Type := Z * Z * Z * list Z.
Definition BSTGW_TA_WEB_STUB_UUID : uuid :=
  (0x0b9d11c7, 0x2281, 0x4b24, [0xb5; 0xf0; 0x6c; 0x15; 0xe1; 0x08; 0x85; 0xfb]).

(** Who called: nobody's session, or one with a context that is a user TA or
    not, and its UUID. *)
Record caller := mk_caller { is_user_ta : bool; ctx_uuid : uuid }.

(** ** The name-value lists of requests and responses (libnv) *)

Class NvList (NV : Type) := {
  nvlist_create : NV;
  nvlist_unpack : list Z -> option NV;
  nvlist_pack : NV -> option (list Z);
  nvlist_error : NV -> Z;
  dnvlist_get_number : NV -> string -> Z -> Z;
  nvlist_add_number : NV -> string -> Z -> NV;
  nvlist_add_string : NV -> string -> string -> NV;
  nvlist_add_null : NV -> string -> NV;
  nvlist_move_nvlist : NV -> string -> NV -> NV
}.

Definition UINT64_MAX : Z := 18446744073709551615.

(** ** Sessions *)

Section pta.
Context {T : Type} `{ThMap T} {L : Type} `{Lpm L route_info_t}.
Implicit Types s : rstate T L.

(** [mem]: whether the context could be allocated; [npf_free]: what
    [npfk_bind_npfworker] answers.  [free(sess_ctx)] frees the address of the
    caller's pointer, which was never allocated. *)
Definition open_session (mem npf_free : bool) (sid param_types : Z) (params : list tee_param) s : outcome (Z * rstate T L) :=
  let exp_param_types := TEE_PARAM_TYPES TEE_PARAM_TYPE_VALUE_INPUT TEE_PARAM_TYPE_NONE TEE_PARAM_TYPE_NONE TEE_PARAM_TYPE_NONE in
  if negb (param_types =? exp_param_types) then Ok (TEE_ERROR_BAD_PARAMETERS, s) else
  p0 ← aget params 0;
  let ty := i32 (value_a p0) in
  if negb ((ty =? BSTGW_TRUST_ROUTER_UNBOUND_SESSION) || (ty =? BSTGW_TRUST_ROUTER_CLEANER_SESSION) ||
           (ty =? BSTGW_TRUST_ROUTER_WORKER_SESSION)) then Ok (TEE_ERROR_BAD_PARAMETERS, s) else
  if negb mem then Ok (TEE_ERROR_OUT_OF_MEMORY, s) else
  let s := s <| sessions ::= <[sid := mk_sess NoWorker ty]> |> in
  if ty =? BSTGW_TRUST_ROUTER_WORKER_SESSION then
    '(_, s) ← bind_to_worker (Some sid) s;
    x ← deref (sessions s !! sid);
    if bool_decide (sess_wk x = NoWorker) then Undef else Ok (TEE_SUCCESS, s)
  else if ty =? BSTGW_TRUST_ROUTER_CLEANER_SESSION then
    let '(wk, s) := bind_to_npfworker npf_free s in
    if bool_decide (wk = NoWorker) then Undef
    else Ok (TEE_SUCCESS, s <| sessions ::= alter (fun x => x <| sess_wk := wk |>) sid |>)
  else Ok (TEE_SUCCESS, s).

Definition close_session (sid : Z) s : outcome (rstate T L) :=
  match sessions s !! sid with
  | None => Ok s
  | Some x =>
      s ← (if sess_type x =? BSTGW_TRUST_ROUTER_UNBOUND_SESSION then Ok s else
           if sess_type x =? BSTGW_TRUST_ROUTER_CLEANER_SESSION then
             match sess_wk x with NoWorker => Ok s | _ => Ok (detach_nw_from_npfworker s) end
           else if sess_type x =? BSTGW_TRUST_ROUTER_WORKER_SESSION then
             match sess_wk x with
             | NoWorker => Ok s
             | RouterWorker k => detach_nw_from_worker (Some k) s
             | NpfWorker => Undef
             end
           else Ok s);
      Ok (s <| sessions ::= delete sid |>)
  end.

(** ** Configuration *)

Context {NV : Type} `{NvList NV} {F : Type}.

(** [run_op]: [npfctl_run_op], on the state of the firewall.  [cr_list],
    [cr_dev], [cr_ip]: whether the lists could be created. *)
Context (run_op : Z -> NV -> NV -> F -> NV * F).
Context (IOC_BSTGW_QUERY_NETIFS NPF_VERSION : Z) (cr_list : bool) (cr_dev : positive -> bool) (cr_ip : positive -> Z -> bool).

Definition bstgw_called_by_trusted_app (who : option caller) (ref_ta_uuid : uuid) : Z :=
  match who with
  | None => TEE_ERROR_ACCESS_DENIED
  | Some c =>
      if negb (is_user_ta c) then TEE_ERROR_ACCESS_DENIED else
      if bool_decide (ctx_uuid c = ref_ta_uuid) then TEE_SUCCESS else TEE_ERROR_ACCESS_DENIED
  end.

(** The address as a number of the (little-endian) machine. *)
Definition ip4_nbo (a : list Z) : outcome Z :=
  b ← mem_read a 0 4;
  Ok (foldr (fun x acc => x + 256 * acc) 0 b).

Fixpoint descr_ips (fuel : nat) (p : positive) (d : ifnet_t T) (ip_idx : Z) (descr : NV) : outcome NV :=
  match fuel with
  | O => Ok descr
  | S fuel' =>
      if negb (cr_ip p ip_idx) then Ok descr else
      a ← aget (if_ips d) ip_idx;
      n ← ip4_nbo a;
      let next_addr := nvlist_add_number (nvlist_add_number nvlist_create "addr_type" AF_INET) "ip_addr_nbo" n in
      descr_ips fuel' p d (ip_idx + 1) (nvlist_move_nvlist descr ("ip" +:+ pretty ip_idx)%string next_addr)
  end.

Definition ifnet_dev_get_description (p : positive) (d : ifnet_t T) : outcome (option NV) :=
  if negb (cr_dev p) then Ok None else
  let descr := nvlist_add_number (nvlist_add_string nvlist_create "name" (name d)) "idx" (ifnet_idx d) in
  descr ← descr_ips (Z.to_nat BSTGW_MAX_NETIF_IPS) p d 0 descr;
  Ok (Some descr).

Fixpoint descr_devs (w : world T) (l : list positive) (descr_list : NV) : outcome (option NV) :=
  match l with
  | [] => Ok (Some descr_list)
  | p :: l' =>
      d ← dev_get w p;
      descr ← ifnet_dev_get_description p d;
      match descr with
      | None => Ok None
      | Some descr => descr_devs w l' (nvlist_move_nvlist descr_list (name d) descr)
      end
  end.

(** libnv's [nvlist_error] counts a NULL list as an error. *)
Definition ifnet_get_descr_list (w : world T) : outcome (option NV) :=
  if negb cr_list then Ok None else
  l ← descr_devs w (netdev_list (w_nd w)) (nvlist_add_null nvlist_create "ifs_list");
  match l with
  | None => Ok None
  | Some l => if nvlist_error l =? 0 then Ok (Some l) else Ok None
  end.

Definition bstgw_npfctl_cmd (op : Z) (req resp : NV) s (fw : F) : outcome (Z * NV * F) :=
  r ← the_router s;
  match r with
  | None => Ok (-1, resp, fw)
  | Some r =>
      if negb (npf r) then Ok (-1, resp, fw) else
      if op =? IOC_BSTGW_QUERY_NETIFS then
        let resp := nvlist_add_number resp "version" NPF_VERSION in
        l ← ifnet_get_descr_list (r_world s);
        match l with
        | None => Ok (-1, nvlist_add_number resp "errno" (u64 (-1)), fw)
        | Some l =>
            let resp := nvlist_move_nvlist resp "ifs_list" l in
            if negb (nvlist_error resp =? 0) then Ok (-1, nvlist_add_number resp "errno" (u64 (-1)), fw)
            else Ok (0, nvlist_add_number resp "errno" 0, fw)
        end
      else let '(resp, fw) := run_op op req resp fw in Ok (0, resp, fw)
  end.

(** [resp_mem]: whether the response could be created. *)
Definition bstgw_firewall_config (resp_mem : bool) (who : option caller) (param_types : Z) (params : list tee_param)
    s (fw : F) : outcome (Z * list tee_param * F) :=
  let res := bstgw_called_by_trusted_app who BSTGW_TA_WEB_STUB_UUID in
  if negb (res =? TEE_SUCCESS) then Ok (res, params, fw) else
  let exp_param_types := TEE_PARAM_TYPES TEE_PARAM_TYPE_MEMREF_INPUT TEE_PARAM_TYPE_MEMREF_OUTPUT TEE_PARAM_TYPE_NONE TEE_PARAM_TYPE_NONE in
  if negb (param_types =? exp_param_types) then Ok (TEE_ERROR_BAD_PARAMETERS, params, fw) else
  p0 ← aget params 0;
  p1 ← aget params 1;
  req_buf ← deref (memref_buffer p0);
  req_bytes ← mem_read req_buf 0 (memref_size p0);
  match nvlist_unpack req_bytes with
  | None => Ok (TEE_ERROR_BAD_FORMAT, params, fw)
  | Some req =>
      if negb resp_mem then Ok (TEE_ERROR_OUT_OF_MEMORY, params, fw) else
      let op := dnvlist_get_number req "operation" UINT64_MAX in
      '(ret, resp, fw) ← bstgw_npfctl_cmd op req nvlist_create s fw;
      if negb (ret =? 0) then Ok (TEE_ERROR_GENERIC, params, fw) else
      match nvlist_pack resp with
      | None => Ok (TEE_ERROR_OUT_OF_MEMORY, params, fw)
      | Some packed =>
          let len := Z.of_nat (length packed) in
          if memref_size p1 <? len then Ok (TEE_ERROR_SHORT_BUFFER, params, fw) else
          resp_buf ← deref (memref_buffer p1);
          resp_buf ← mem_write resp_buf 0 packed;
          params ← aset params 1 (p1 <| memref_buffer := Some resp_buf |> <| memref_size := len |>);
          Ok (TEE_SUCCESS, params, fw)
      end
  end.

Definition cmd_get_nworkers (param_types : Z) (params : list tee_param) s : outcome (Z * list tee_param) :=
  let exp_param_types := TEE_PARAM_TYPES TEE_PARAM_TYPE_VALUE_OUTPUT TEE_PARAM_TYPE_NONE TEE_PARAM_TYPE_NONE TEE_PARAM_TYPE_NONE in
  if negb (param_types =? exp_param_types) then Ok (TEE_ERROR_BAD_PARAMETERS, params) else
  p0 ← aget params 0;
  n ← worker_get_number s;
  params ← aset params 0 (p0 <| value_a := u32 n |>);
  Ok (TEE_SUCCESS, params).

Definition bstgw_get_some_stats (param_types : Z) (params : list tee_param) : outcome (Z * list tee_param) :=
  let exp_param_types := TEE_PARAM_TYPES TEE_PARAM_TYPE_VALUE_OUTPUT TEE_PARAM_TYPE_NONE TEE_PARAM_TYPE_NONE TEE_PARAM_TYPE_NONE in
  if negb (param_types =? exp_param_types) then Ok (TEE_ERROR_BAD_PARAMETERS, params) else
  p0 ← aget params 0;
  params ← aset params 0 (p0 <| value_a := 0 |>);
  Ok (TEE_SUCCESS, params).

(** What a thread that invoked a command does: it returns, or runs the loop of
    the notifier, or that of a worker for a NAPI context (for none: it returns
    at once, with success). *)
Inductive invoked := Returned (res : Z) (params : list tee_param) (fw : F) | RunsNotifier | RunsWorker (napi : option positive).

(** [sess]: the context of the session. *)
Definition invoke_command (resp_mem : bool) (who : option caller) (sess : option wrk_sess_t) (cmd_id param_types : Z)
    (params : list tee_param) s (fw : F) : outcome invoked :=
  let no_params_type := TEE_PARAM_TYPES TEE_PARAM_TYPE_NONE TEE_PARAM_TYPE_NONE TEE_PARAM_TYPE_NONE TEE_PARAM_TYPE_NONE in
  match sess with
  | None => Ok (Returned TEE_ERROR_GENERIC params fw)
  | Some x =>
      if cmd_id =? BSTGW_PTA_TRUST_ROUTER_CMD_CONFIG then
        if negb (sess_type x =? BSTGW_TRUST_ROUTER_UNBOUND_SESSION) then Ok (Returned TEE_ERROR_ACCESS_DENIED params fw) else
        '(r, params, fw) ← bstgw_firewall_config resp_mem who param_types params s fw; Ok (Returned r params fw)
      else if cmd_id =? BSTGW_PTA_TRUST_ROUTER_CMD_GET_NWORKERS then
        if negb (sess_type x =? BSTGW_TRUST_ROUTER_UNBOUND_SESSION) then Ok (Returned TEE_ERROR_ACCESS_DENIED params fw) else
        '(r, params) ← cmd_get_nworkers param_types params s; Ok (Returned r params fw)
      else if cmd_id =? BSTGW_PTA_TRUST_ROUTER_GET_STATS then
        if negb (sess_type x =? BSTGW_TRUST_ROUTER_UNBOUND_SESSION) then Ok (Returned TEE_ERROR_ACCESS_DENIED params fw) else
        '(r, params) ← bstgw_get_some_stats param_types params; Ok (Returned r params fw)
      else if cmd_id =? BSTGW_PTA_TRUST_ROUTER_CMD_RUN_CLEANER then
        if negb (sess_type x =? BSTGW_TRUST_ROUTER_CLEANER_SESSION) then Ok (Returned TEE_ERROR_ACCESS_DENIED params fw) else
        if negb (param_types =? no_params_type) then Ok (Returned TEE_ERROR_BAD_PARAMETERS params fw) else
        c_assert (trusted_router s);; Ok RunsNotifier
      else if cmd_id =? BSTGW_PTA_TRUST_ROUTER_CMD_RUN_WORKER then
        if negb (sess_type x =? BSTGW_TRUST_ROUTER_WORKER_SESSION) then Ok (Returned TEE_ERROR_ACCESS_DENIED params fw) else
        if negb (param_types =? no_params_type) then Ok (Returned TEE_ERROR_BAD_PARAMETERS params fw) else
        match sess_wk x with
        | RouterWorker k => n ← worker_run_napi (Some k) s; Ok (RunsWorker n)
        | NoWorker => n ← worker_run_napi None s; Ok (RunsWorker n)
        | NpfWorker => Undef
        end
      else Ok (Returned TEE_ERROR_NOT_IMPLEMENTED params fw)
  end.

End pta.

(** ** Sessions and workers *)

Section sessions.
Context {T : Type} `{ThMap T} {L : Type} `{Lpm L route_info_t}.
Implicit Types s : rstate T L.

(** A router with [n] workers, and the sessions: a session for a worker has
    one, which is bound to it; a bound worker is bound to a session that has
    it. *)
Record pta_inv (n : nat) s : Prop := {
  pi_router : trusted_router s = true /\ exists r, robj s = Some r /\ npf r = true /\ worker r = Some <$> seq 0 n;
  pi_wks : forall k, (k < n)%nat -> exists w, wks s !! k = Some w /\ wk_router w = true;
  pi_bound : forall k w, (k < n)%nat -> wks s !! k = Some w -> bind_status w = WORKER_IS_BOUND ->
    sessions s !! bind_sess w = Some (mk_sess (RouterWorker k) BSTGW_TRUST_ROUTER_WORKER_SESSION);
  pi_sess : forall sid x, sessions s !! sid = Some x ->
    (sess_type x = BSTGW_TRUST_ROUTER_WORKER_SESSION /\ exists k w, (k < n)%nat /\ sess_wk x = RouterWorker k /\ wks s !! k = Some w /\
       bind_status w = WORKER_IS_BOUND /\ bind_sess w = sid) \/
    (sess_type x = BSTGW_TRUST_ROUTER_CLEANER_SESSION /\ sess_wk x = NpfWorker) \/
    (sess_type x = BSTGW_TRUST_ROUTER_UNBOUND_SESSION /\ sess_wk x = NoWorker)
}.

(** What happens to sessions and workers. *)
Inductive pta_step : rstate T L -> rstate T L -> Prop :=
| ps_open mem npf_free sid types params s r s' :
    sessions s !! sid = None -> open_session mem npf_free sid types params s = Ok (r, s') -> pta_step s s'
| ps_close sid s s' : is_Some (sessions s !! sid) -> close_session sid s = Ok s' -> pta_step s s'
| ps_epoch t cur s r s' : set_worker_epoch t cur s = Ok (r, s') -> pta_step s s'
| ps_stats t cur s r s' : set_worker_stats t cur s = Ok (r, s') -> pta_step s s'.

Lemma slots_inv n s : slots n n s -> sessions s = ∅ -> pta_inv n s.
Proof.
  intros [Hp (r & Hr & Hn & _ & _ & _ & Hl & Hfull & _) Hw] Hs. split.
  - split; [done|]. exists r. split_and!; try done. apply list_eq_same_length with n; [by rewrite length_fmap, length_seq|done|].
    intros k x y Hk. rewrite (Hfull k Hk), list_lookup_fmap, lookup_seq_lt by done. cbn. congruence.
  - intros k Hk. destruct (Hw k Hk) as (w & ? & ? & _). by exists w.
  - intros k w Hk Ew Hb. destruct (Hw k Hk) as (w' & ? & _ & ?). congruence.
  - intros sid x. by rewrite Hs, lookup_empty.
Qed.

(** Looking for a worker: the first that is unbound, if there is one. *)
Lemma bind_loop_spec n s sid m i : (forall k, (k < n)%nat -> is_Some (wks s !! k)) -> (i + m = n)%nat ->
  (exists k w, (i <= k < n)%nat /\ wks s !! k = Some w /\ bind_status w = WORKER_UNBOUND /\
     bind_loop (Some <$> seq i m) sid s = Ok (Some k, log npfk_thread_register
       ((wk_set k (w <| bind_status := WORKER_IS_BOUND |> <| bind_sess := sid |>) s) <| sessions ::= alter (fun x => x <| sess_wk := RouterWorker k |>) sid |>))) \/
  ((forall k w, (i <= k < n)%nat -> wks s !! k = Some w -> bind_status w = WORKER_IS_BOUND) /\ bind_loop (Some <$> seq i m) sid s = Ok (None, s)).
Proof.
  intros Hinv. revert i. induction m as [|m IH]; intros i Hi; cbn [seq fmap list_fmap bind_loop]; [right; split; [intros; lia|done]|].
  destruct (Hinv i ltac:(lia)) as (w & Hw). rewrite Hw. cbn [deref mbind outcome_bind].
  destruct (bind_status w) eqn:Hb.
  - left. exists i, w. split; [lia|]. rewrite bool_decide_eq_true_2 by done. done.
  - rewrite bool_decide_eq_false_2 by done. destruct (IH (S i) ltac:(lia)) as [(k & w' & ? & ?)|[Hall E]].
    + left. exists k, w'. split; [lia|done].
    + right. split; [|exact E]. intros k w' Hk Hk'. destruct (decide (k = i)) as [->|]; [congruence|]. apply (Hall k); [lia|done].
Qed.

(** A new session without a worker, or with the library's. *)
Lemma inv_plain n s sid x l :
  pta_inv n s -> sessions s !! sid = None ->
  (sess_type x = BSTGW_TRUST_ROUTER_CLEANER_SESSION /\ sess_wk x = NpfWorker) \/
  (sess_type x = BSTGW_TRUST_ROUTER_UNBOUND_SESSION /\ sess_wk x = NoWorker) ->
  pta_inv n (s <| sessions ::= <[sid := x]> |> <| npf_log := l |>).
Proof.
  intros [Hr Hw Hb Hs] Hnew Hx. split; cbn; [done|done| |].
  - intros k w Hk Ew Eb. rewrite lookup_insert_ne; [by apply Hb|]. intros ->. pose proof (Hb k w Hk Ew Eb). congruence.
  - intros sid' x'. destruct (decide (sid' = sid)) as [->|]; [rewrite lookup_insert_eq; intros [= <-]; by right|].
    rewrite lookup_insert_ne by done. apply Hs.
Qed.

(** A new session and the worker bound to it. *)
Lemma inv_bind n s sid k w l :
  pta_inv n s -> sessions s !! sid = None -> (k < n)%nat -> wks s !! k = Some w -> bind_status w = WORKER_UNBOUND ->
  pta_inv n (s <| sessions ::= <[sid := mk_sess (RouterWorker k) BSTGW_TRUST_ROUTER_WORKER_SESSION]> |>
               <| wks ::= <[k := w <| bind_status := WORKER_IS_BOUND |> <| bind_sess := sid |>]> |> <| npf_log := l |>).
Proof.
  intros [Hr Hw Hb Hs] Hnew Hk Ew Eb. split; cbn; [done| | |].
  - intros k' Hk'. destruct (decide (k' = k)) as [->|]; [|rewrite lookup_insert_ne by done; by apply Hw].
    rewrite lookup_insert_eq. destruct (Hw k Hk) as (w' & ? & ?). simplify_eq. by eexists.
  - intros k' w' Hk'. destruct (decide (k' = k)) as [->|]; [rewrite lookup_insert_eq; intros [= <-] _; apply lookup_insert_eq|].
    rewrite !lookup_insert_ne by done. intros Ew' Eb'. rewrite lookup_insert_ne; [by apply Hb|]. intros ->. pose proof (Hb k' w' Hk' Ew' Eb'). congruence.
  - intros sid' x'. destruct (decide (sid' = sid)) as [->|].
    + rewrite lookup_insert_eq. intros [= <-]. left. split; [done|]. eexists k, _. cbn. by rewrite lookup_insert_eq.
    + rewrite lookup_insert_ne by done. intros Hx. destruct (Hs sid' x' Hx) as [(? & k' & w' & ? & ? & Ew' & Eb' & ?)|]; [left|by right].
      split; [done|]. exists k', w'. split_and!; try done. rewrite lookup_insert_ne; [done|]. intros ->. congruence.
Qed.

Lemma bind_new n s sid :
  pta_inv n s -> sessions s !! sid = None ->
  let s1 := s <| sessions ::= <[sid := mk_sess NoWorker BSTGW_TRUST_ROUTER_WORKER_SESSION]> |> in
  (exists k w s', (k < n)%nat /\ wks s !! k = Some w /\ bind_status w = WORKER_UNBOUND /\ bind_to_worker (Some sid) s1 = Ok (Some k, s') /\
     sessions s' !! sid = Some (mk_sess (RouterWorker k) BSTGW_TRUST_ROUTER_WORKER_SESSION) /\ pta_inv n s') \/
  ((forall k w, (k < n)%nat -> wks s !! k = Some w -> bind_status w = WORKER_IS_BOUND) /\ bind_to_worker (Some sid) s1 = Ok (None, s1)).
Proof.
  intros Hinv Hnew s1. pose proof Hinv as [(Hp & r & Hr & Hn & Hl) Hw _ _].
  unfold bind_to_worker, the_router. change (trusted_router s1) with (trusted_router s). change (robj s1) with (robj s).
  rewrite Hp, Hr. cbn [deref mbind outcome_bind]. change (sessions s1) with (<[sid := mk_sess NoWorker BSTGW_TRUST_ROUTER_WORKER_SESSION]> (sessions s)).
  rewrite lookup_insert_eq, Hl.
  destruct (bind_loop_spec n s1 sid n 0) as [(k & w & Hk & Ew & Eb & E)|[Hall E]]; [intros k Hk; destruct (Hw k Hk) as (w & ? & _); by eexists|lia| |].
  - left. exists k, w. eexists. split; [lia|]. split; [done|]. split; [done|]. split; [exact E|]. cbn.
    split; [by rewrite lookup_alter_eq, lookup_insert_eq|]. pose proof (inv_bind n s sid k w (npfk_thread_register :: npf_log s) Hinv Hnew ltac:(lia) Ew Eb) as Hi.
    destruct s. cbn in *. unfold upd in *. cbn in *. by rewrite alter_insert_eq.
  - right. split; [intros k w ?; apply Hall; lia|exact E].
Qed.

Lemma open_inv n mem npf_free sid types params s r s' :
  pta_inv n s -> sessions s !! sid = None -> open_session mem npf_free sid types params s = Ok (r, s') -> pta_inv n s'.
Proof.
  intros Hinv Hnew. unfold open_session. case_match; [by intros [= <- <-]|].
  destruct (aget params 0) as [p0| |]; [cbn [mbind outcome_bind]|done|done].
  case_match eqn:Hty; [by intros [= <- <-]|]. destruct mem; [cbn [negb]|by intros [= <- <-]].
  destruct (i32 (value_a p0) =? BSTGW_TRUST_ROUTER_WORKER_SESSION) eqn:E2.
  - apply Z.eqb_eq in E2. rewrite E2. destruct (bind_new n s sid Hinv Hnew) as [(k & w & t & _ & _ & _ & -> & Ht & Hi)|[_ ->]]; cbn [mbind outcome_bind].
    + rewrite Ht. cbn [deref mbind outcome_bind]. rewrite bool_decide_eq_false_2 by done. by intros [= _ <-].
    + cbn. by rewrite lookup_insert_eq.
  - destruct (i32 (value_a p0) =? BSTGW_TRUST_ROUTER_CLEANER_SESSION) eqn:E1.
    + apply Z.eqb_eq in E1. rewrite E1. unfold bind_to_npfworker. destruct (trusted_router _); [|done]. cbn [negb]. destruct npf_free; [|done].
      rewrite bool_decide_eq_false_2 by done. intros [= <- <-].
      pose proof (inv_plain n s sid (mk_sess NpfWorker BSTGW_TRUST_ROUTER_CLEANER_SESSION) (npfk_bind_npfworker :: npf_log s) Hinv Hnew ltac:(by left)) as Hi.
      destruct s. unfold log, upd in *. cbn in *. by rewrite alter_insert_eq.
    + intros [= <- <-]. assert (i32 (value_a p0) = BSTGW_TRUST_ROUTER_UNBOUND_SESSION) as -> by (apply negb_false_iff, orb_true_iff in Hty as [[Hty|Hty]%orb_true_iff|Hty]; [by apply Z.eqb_eq in Hty|congruence|congruence]).
      pose proof (inv_plain n s sid (mk_sess NoWorker BSTGW_TRUST_ROUTER_UNBOUND_SESSION) (npf_log s) Hinv Hnew ltac:(by right)) as Hi. by destruct s.
Qed.

(** A session that ends, its worker unbound. *)
Lemma close_spec n sid x s :
  pta_inv n s -> sessions s !! sid = Some x ->
  exists s', close_session sid s = Ok s' /\ pta_inv n s' /\ sessions s' = delete sid (sessions s) /\
    forall k, sess_wk x = RouterWorker k -> exists w, wks s' !! k = Some w /\ bind_status w = WORKER_UNBOUND.
Proof.
  intros Hinv Hx. pose proof Hinv as [Hr Hw Hb Hs]. pose proof Hr as (Hp & r & Er & Hn & _). unfold close_session. rewrite Hx.
  destruct (Hs sid x Hx) as [(-> & k & w & Hk & -> & Ew & Eb & Ec)|Hplain].
  - cbn. rewrite Ew. destruct (Hw k Hk) as (w' & ? & Hwr). simplify_eq. cbn. rewrite Hwr, Er. cbn. rewrite Hn. cbn.
    eexists. split; [done|]. cbn. split; [|split; [done|intros k' [= <-]; rewrite lookup_insert_eq; by eexists]]. split; cbn.
    + done.
    + intros k' Hk'. destruct (decide (k' = k)) as [->|]; [rewrite lookup_insert_eq; by eexists|rewrite lookup_insert_ne by done; by apply Hw].
    + intros k' w'' Hk'. destruct (decide (k' = k)) as [->|]; [rewrite lookup_insert_eq; by intros [= <-]|].
      rewrite lookup_insert_ne by done. intros Ew' Eb'. pose proof (Hb k' w'' Hk' Ew' Eb') as Hl. rewrite lookup_delete_ne; [done|].
      intros Heq. rewrite <- Heq in Hl. pose proof (Hb k w Hk Ew Eb). congruence.
    + intros sid' x'. rewrite lookup_delete_Some. intros [Hne Hx']. destruct (Hs sid' x' Hx') as [(? & k' & w'' & ? & ? & Ew' & ? & ?)|]; [left|by right].
      split; [done|]. exists k', w''. split_and!; try done. rewrite lookup_insert_ne; [done|]. intros ->. congruence.
  - assert (exists l, (if sess_type x =? BSTGW_TRUST_ROUTER_UNBOUND_SESSION then Ok s else
        if sess_type x =? BSTGW_TRUST_ROUTER_CLEANER_SESSION then match sess_wk x with NoWorker => Ok s | _ => Ok (detach_nw_from_npfworker s) end
        else if sess_type x =? BSTGW_TRUST_ROUTER_WORKER_SESSION then match sess_wk x with
          | NoWorker => Ok s | RouterWorker k => detach_nw_from_worker (Some k) s | NpfWorker => Undef end else Ok s) = Ok (s <| npf_log := l |>)) as [l ->].
    { destruct Hplain as [[-> ->]|[-> ->]]; cbn; [unfold detach_nw_from_npfworker; rewrite Hp|]; destruct s; by eexists. }
    eexists. split; [done|]. cbn. split; [|split; [done|intros k E; destruct Hplain as [[_ E']|[_ E']]; congruence]]. split; cbn; try done.
    + intros k w Hk Ew Eb. pose proof (Hb k w Hk Ew Eb) as Hl. rewrite lookup_delete_ne; [done|]. intros ->. rewrite Hx in Hl. injection Hl as ->. cbn in Hplain. naive_solver.
    + intros sid' x'. rewrite lookup_delete_Some. intros [_ Hx']. by apply Hs.
Qed.

Lemma tls_inv n k w w' s :
  pta_inv n s -> wks s !! k = Some w -> wk_router w' = wk_router w -> bind_status w' = bind_status w -> bind_sess w' = bind_sess w ->
  pta_inv n (wk_set k w' s).
Proof.
  intros [Hr Hw Hb Hs] Ew E1 E2 E3. split; cbn; [done| | |].
  - intros k' Hk. destruct (decide (k' = k)) as [->|]; [|rewrite lookup_insert_ne by done; by apply Hw].
    rewrite lookup_insert_eq. destruct (Hw k Hk) as (w'' & ? & ?). simplify_eq. exists w'. split; congruence.
  - intros k' w'' Hk. destruct (decide (k' = k)) as [->|]; [|rewrite lookup_insert_ne by done; by apply Hb].
    rewrite lookup_insert_eq. intros [= <-] Eb. rewrite E3. apply Hb; congruence.
  - intros sid x Hx. destruct (Hs sid x Hx) as [(? & k' & w'' & ? & ? & ? & ? & ?)|]; [left|by right]. split; [done|].
    destruct (decide (k' = k)) as [->|]; [|exists k', w''; by rewrite lookup_insert_ne].
    exists k, w'. rewrite lookup_insert_eq. simplify_eq. split_and!; congruence.
Qed.

Lemma pta_step_inv n s s' : pta_step s s' -> pta_inv n s -> pta_inv n s'.
Proof.
  intros [mem nf sid types params t r t' Hnew E|sid t t' [x Hx] E|e cur t r t' E|e cur t r t' E] Hinv.
  - by eapply open_inv.
  - destruct (close_spec n sid x t Hinv Hx) as (t'' & E' & Hi & _). congruence.
  - revert E. unfold set_worker_epoch. destruct (get_worker_local_data cur) as [[[]|]| |]; cbn; try done; [by intros [= <- <-]| |by intros [= <- <-]].
    destruct (wks t !! k) eqn:Ew; [|done]. cbn. intros [= <- <-]. by eapply tls_inv.
  - revert E. unfold set_worker_stats. destruct (get_worker_local_data cur) as [[[]|]| |]; cbn; try done; [by intros [= <- <-]| |by intros [= <- <-]].
    destruct (wks t !! k) eqn:Ew; [|done]. cbn. intros [= <- <-]. by eapply tls_inv.
Qed.

Lemma pta_steps_inv n s s' : rtc pta_step s s' -> pta_inv n s -> pta_inv n s'.
Proof. induction 1; eauto using pta_step_inv. Qed.

Lemma worker_owner n s sid1 sid2 x1 x2 k :
  pta_inv n s -> sessions s !! sid1 = Some x1 -> sessions s !! sid2 = Some x2 ->
  sess_wk x1 = RouterWorker k -> sess_wk x2 = RouterWorker k -> sid1 = sid2.
Proof.
  intros [_ _ _ Hs] H1 H2 E1 E2.
  destruct (Hs _ _ H1) as [(_ & k1 & w1 & _ & ? & ? & _ & ?)|[[_ ?]|[_ ?]]]; [|congruence..].
  destruct (Hs _ _ H2) as [(_ & k2 & w2 & _ & ? & ? & _ & ?)|[[_ ?]|[_ ?]]]; [|congruence..].
  congruence.
Qed.

Lemma open_worker n nf sid p rest s :
  pta_inv n s -> sessions s !! sid = None -> i32 (value_a p) = BSTGW_TRUST_ROUTER_WORKER_SESSION ->
  (exists k w s', (k < n)%nat /\ wks s !! k = Some w /\ bind_status w = WORKER_UNBOUND /\
     open_session true nf sid (TEE_PARAM_TYPES TEE_PARAM_TYPE_VALUE_INPUT 0 0 0) (p :: rest) s = Ok (TEE_SUCCESS, s') /\
     sessions s' !! sid = Some (mk_sess (RouterWorker k) BSTGW_TRUST_ROUTER_WORKER_SESSION)) \/
  ((forall k w, (k < n)%nat -> wks s !! k = Some w -> bind_status w = WORKER_IS_BOUND) /\
   open_session true nf sid (TEE_PARAM_TYPES TEE_PARAM_TYPE_VALUE_INPUT 0 0 0) (p :: rest) s = Undef).
Proof.
  intros Hinv Hnew Hty. unfold open_session. rewrite Z.eqb_refl. cbn [negb].
  change (aget (p :: rest) 0) with (Ok p). rewrite ok_bind. cbv beta. rewrite Hty. cbn [Z.eqb orb negb BSTGW_TRUST_ROUTER_WORKER_SESSION].
  change (2 =? 2) with true. cbv iota.
  destruct (bind_new n s sid Hinv Hnew) as [(k & w & t & Hk & Ew & Eb & E & Ht & _)|[Hall E]]; [left|right]; fold BSTGW_TRUST_ROUTER_WORKER_SESSION; rewrite E.
  - exists k, w, t. cbn. rewrite Ht. by split_and!.
  - split; [done|]. cbn. by rewrite lookup_insert_eq.
Qed.

(** C14. Sessions and workers: from the router as initialisation leaves it
    (every one of its [n] workers unbound, no session open), after any
    sequence of sessions opened, closed and used, two sessions never have the
    same worker; closing a session always succeeds, forgets the session and
    leaves its worker unbound; opening one for a worker gives it a worker
    that was unbound if there is one, and otherwise is undefined behaviour:
    the error path of [open_session] frees a pointer that was never
    allocated. *)
Theorem pta_sessions_sound n s0 s :
  slots n n s0 -> sessions s0 = ∅ -> rtc pta_step s0 s ->
  (forall sid1 sid2 x1 x2 k, sessions s !! sid1 = Some x1 -> sessions s !! sid2 = Some x2 ->
     sess_wk x1 = RouterWorker k -> sess_wk x2 = RouterWorker k -> sid1 = sid2) /\
  (forall sid x, sessions s !! sid = Some x -> exists s', close_session sid s = Ok s' /\ sessions s' = delete sid (sessions s) /\
     forall k, sess_wk x = RouterWorker k -> exists w, wks s' !! k = Some w /\ bind_status w = WORKER_UNBOUND) /\
  (forall nf sid p rest, sessions s !! sid = None -> i32 (value_a p) = BSTGW_TRUST_ROUTER_WORKER_SESSION ->
     (exists k w s', (k < n)%nat /\ wks s !! k = Some w /\ bind_status w = WORKER_UNBOUND /\
        open_session true nf sid (TEE_PARAM_TYPES TEE_PARAM_TYPE_VALUE_INPUT 0 0 0) (p :: rest) s = Ok (TEE_SUCCESS, s') /\
        sessions s' !! sid = Some (mk_sess (RouterWorker k) BSTGW_TRUST_ROUTER_WORKER_SESSION)) \/
     ((forall k w, (k < n)%nat -> wks s !! k = Some w -> bind_status w = WORKER_IS_BOUND) /\
      open_session true nf sid (TEE_PARAM_TYPES TEE_PARAM_TYPE_VALUE_INPUT 0 0 0) (p :: rest) s = Undef)).
Proof.
  intros Hsl Hno Hst. pose proof (pta_steps_inv n s0 s Hst (slots_inv n s0 Hsl Hno)) as Hinv. split_and!.
  - intros *. by apply worker_owner with n.
  - intros sid x Hx. destruct (close_spec n sid x s Hinv Hx) as (s' & ? & _ & ? & ?). by exists s'.
  - intros nf sid p rest. by apply open_worker.
Qed.

End sessions.

(** ** Who reaches the firewall *)

Section config.
Context {T : Type} `{ThMap T} {L : Type} `{Lpm L route_info_t} {NV : Type} `{NvList NV} {F : Type}.
Context (run_op : Z -> NV -> NV -> F -> NV * F).
Context (IOC_BSTGW_QUERY_NETIFS NPF_VERSION : Z) (cr_list : bool) (cr_dev : positive -> bool) (cr_ip : positive -> Z -> bool).
Implicit Types s : rstate T L.

#[local] Abbreviation firewall_config := (bstgw_firewall_config run_op IOC_BSTGW_QUERY_NETIFS NPF_VERSION cr_list cr_dev cr_ip).
#[local] Abbreviation invoke := (invoke_command run_op IOC_BSTGW_QUERY_NETIFS NPF_VERSION cr_list cr_dev cr_ip).

Lemma called_by_iff who u : bstgw_called_by_trusted_app who u = TEE_SUCCESS <-> who = Some (mk_caller true u).
Proof.
  unfold bstgw_called_by_trusted_app. destruct who as [[[] u']|]; cbn; [case_bool_decide; naive_solver|done|done].
Qed.

Lemma firewall_config_caller resp_mem who types params s fw r ps fw' :
  firewall_config resp_mem who types params s fw = Ok (r, ps, fw') ->
  (r = TEE_ERROR_ACCESS_DENIED /\ ps = params /\ fw' = fw) \/ who = Some (mk_caller true BSTGW_TA_WEB_STUB_UUID).
Proof.
  unfold bstgw_firewall_config. destruct (decide (bstgw_called_by_trusted_app who BSTGW_TA_WEB_STUB_UUID = TEE_SUCCESS)) as [E|E]; [right; by apply called_by_iff|left].
  rewrite (proj2 (Z.eqb_neq _ _) E) in *. cbn [negb] in *. simplify_eq. split; [|done].
  revert E. unfold bstgw_called_by_trusted_app. repeat case_match; done.
Qed.

(** C15. Only the ConfigService configures the firewall: whatever command is
    invoked on whatever session by whatever caller, if it returns with the
    firewall's state or a parameter changed, then either it only reported a
    number (of workers, or of statistics) on an unbound session, or it was a
    configuration command on an unbound session whose caller is the user TA
    with the UUID of the web stub. *)
Theorem pta_firewall_guarded resp_mem who sess cmd types params s fw r ps fw' :
  invoke resp_mem who sess cmd types params s fw = Ok (Returned r ps fw') ->
  (fw' = fw /\ ps = params) \/
  ((exists x, sess = Some x /\ sess_type x = BSTGW_TRUST_ROUTER_UNBOUND_SESSION) /\
   ((fw' = fw /\ (cmd = BSTGW_PTA_TRUST_ROUTER_CMD_GET_NWORKERS \/ cmd = BSTGW_PTA_TRUST_ROUTER_GET_STATS)) \/
    (cmd = BSTGW_PTA_TRUST_ROUTER_CMD_CONFIG /\ who = Some (mk_caller true BSTGW_TA_WEB_STUB_UUID)))).
Proof.
  unfold invoke_command. destruct sess as [x|]; [|intros [= _ <- <-]; by left].
  destruct (sess_type x =? BSTGW_TRUST_ROUTER_UNBOUND_SESSION) eqn:Ex; cbn [negb].
  - apply Z.eqb_eq in Ex. destruct (cmd =? BSTGW_PTA_TRUST_ROUTER_CMD_CONFIG) eqn:E0; [apply Z.eqb_eq in E0|].
    { intros Hc. apply bind_ok in Hc as ([[r' ps'] fw''] & E & [= <- <- <-]). apply firewall_config_caller in E as [(_ & -> & ->)| ->]; [by left|]. right. split; [by exists x|by right]. }
    destruct (cmd =? BSTGW_PTA_TRUST_ROUTER_CMD_GET_NWORKERS) eqn:E1; [apply Z.eqb_eq in E1|].
    { intros Hc. apply bind_ok in Hc as ([r' ps'] & E & [= <- <- <-]). right. split; [by exists x|]. left. split; [done|auto]. }
    destruct (cmd =? BSTGW_PTA_TRUST_ROUTER_GET_STATS) eqn:E4; [apply Z.eqb_eq in E4|].
    { intros Hc. apply bind_ok in Hc as ([r' ps'] & E & [= <- <- <-]). right. split; [by exists x|]. left. split; [done|auto]. }
    intros Hc. left. revert Hc. repeat case_match; try (by intros [= _ <- <-]); try done; intros Hc; apply bind_ok in Hc as (? & _ & ?); done.
  - intros Hc. left. revert Hc. repeat case_match; try (by intros [= _ <- <-]); try done; intros Hc; apply bind_ok in Hc as (? & _ & ?); done.
Qed.

(** The buffers of a configuration request, as the TEE maps them. *)
Definition memref_ok (p : tee_param) (b : list Z) : Prop :=
  memref_buffer p = Some b /\ 0 <= memref_size p <= Z.of_nat (length b).

Lemma config_reply n s x p0 p1 rest b0 b1 req resp out fw fw' :
  pta_inv n s -> sess_type x = BSTGW_TRUST_ROUTER_UNBOUND_SESSION -> memref_ok p0 b0 -> memref_ok p1 b1 ->
  nvlist_unpack (take (Z.to_nat (memref_size p0)) b0) = Some req ->
  dnvlist_get_number req "operation" UINT64_MAX <> IOC_BSTGW_QUERY_NETIFS ->
  run_op (dnvlist_get_number req "operation" UINT64_MAX) req nvlist_create fw = (resp, fw') -> nvlist_pack resp = Some out ->
  invoke true (Some (mk_caller true BSTGW_TA_WEB_STUB_UUID)) (Some x) BSTGW_PTA_TRUST_ROUTER_CMD_CONFIG
    (TEE_PARAM_TYPES TEE_PARAM_TYPE_MEMREF_INPUT TEE_PARAM_TYPE_MEMREF_OUTPUT TEE_PARAM_TYPE_NONE TEE_PARAM_TYPE_NONE) (p0 :: p1 :: rest) s fw =
  Ok (if memref_size p1 <? Z.of_nat (length out) then Returned TEE_ERROR_SHORT_BUFFER (p0 :: p1 :: rest) fw'
      else Returned TEE_SUCCESS (p0 :: mk_param (value_a p1) (Some (out ++ drop (length out) b1)) (Z.of_nat (length out)) :: rest) fw').
Proof.
  intros [(Hp & r & Er & Hn & _) _ _ _] Hx [Eb0 Hs0] [Eb1 Hs1] Hreq Hop Hrun Hpk.
  unfold invoke_command. rewrite Hx. cbn [Z.eqb negb BSTGW_PTA_TRUST_ROUTER_CMD_CONFIG BSTGW_TRUST_ROUTER_UNBOUND_SESSION].
  unfold bstgw_firewall_config. rewrite (proj2 (called_by_iff _ _) eq_refl), !Z.eqb_refl. cbn [negb].
  change (aget (p0 :: p1 :: rest) 0) with (Ok p0). change (aget (p0 :: p1 :: rest) 1) with (Ok p1). rewrite !ok_bind. cbv beta.
  rewrite Eb0. cbn [deref]. rewrite ok_bind. cbv beta.
  assert (mem_read b0 0 (memref_size p0) = Ok (take (Z.to_nat (memref_size p0)) b0)) as -> by (unfold mem_read; rewrite (proj2 (Z.leb_le 0 (memref_size p0))), (proj2 (Z.leb_le (0 + _) _)) by lia; done).
  rewrite ok_bind. cbv beta. rewrite Hreq. unfold bstgw_npfctl_cmd, the_router. rewrite Hp, Er. cbn [deref]. rewrite !ok_bind. cbv beta iota.
  rewrite Hn. cbn [negb]. rewrite (proj2 (Z.eqb_neq _ _) Hop), Hrun. rewrite ok_bind. cbv beta iota. cbn [Z.eqb negb]. rewrite Hpk.
  destruct (memref_size p1 <? Z.of_nat (length out)) eqn:El; [by rewrite ok_bind|]. apply Z.ltb_ge in El.
  rewrite Eb1. cbn [deref]. rewrite ok_bind. cbv beta.
  assert (mem_write b1 0 out = Ok (out ++ drop (length out) b1)) as ->.
  { unfold mem_write. rewrite (proj2 (Z.leb_le (0 + _) _)) by lia. done. }
  assert (forall v, aset (p0 :: p1 :: rest) 1 v = Ok (p0 :: v :: rest)) as Ha.
  { intros v. unfold aset. cbn [length]. rewrite (proj2 (Z.leb_gt _ 1)) by lia. done. }
  rewrite ok_bind. cbv beta. by rewrite Ha.
Qed.

(** The answer to a configuration request: a request of the ConfigService
    whose operation is one of the firewall's runs it on the firewall's state;
    the packed response is written to the start of the caller's buffer, the
    rest of which stays, and its size reported.  When the buffer is too small
    the call reports that instead, with the parameters as they were, although
    the operation has been carried out. *)
Theorem pta_config_replies n s x p0 p1 rest b0 b1 req resp out fw fw' :
  pta_inv n s -> sess_type x = BSTGW_TRUST_ROUTER_UNBOUND_SESSION -> memref_ok p0 b0 -> memref_ok p1 b1 ->
  nvlist_unpack (take (Z.to_nat (memref_size p0)) b0) = Some req ->
  dnvlist_get_number req "operation" UINT64_MAX <> IOC_BSTGW_QUERY_NETIFS ->
  run_op (dnvlist_get_number req "operation" UINT64_MAX) req nvlist_create fw = (resp, fw') -> nvlist_pack resp = Some out ->
  invoke true (Some (mk_caller true BSTGW_TA_WEB_STUB_UUID)) (Some x) BSTGW_PTA_TRUST_ROUTER_CMD_CONFIG
    (TEE_PARAM_TYPES TEE_PARAM_TYPE_MEMREF_INPUT TEE_PARAM_TYPE_MEMREF_OUTPUT TEE_PARAM_TYPE_NONE TEE_PARAM_TYPE_NONE) (p0 :: p1 :: rest) s fw =
  Ok (if memref_size p1 <? Z.of_nat (length out) then Returned TEE_ERROR_SHORT_BUFFER (p0 :: p1 :: rest) fw'
      else Returned TEE_SUCCESS (p0 :: mk_param (value_a p1) (Some (out ++ drop (length out) b1)) (Z.of_nat (length out)) :: rest) fw').
Proof. apply config_reply. Qed.

End config.

(** ** Examples *)

(** Name-value lists of numbers only; on the wire, the operation. *)
#[local] Instance ex_nvlist : NvList (list (string * Z)) := {
  nvlist_create := [];
  nvlist_unpack b := match b with [op] => Some [("operation"%string, op)] | _ => None end;
  nvlist_pack l := Some (l.*2);
  nvlist_error _ := 0;
  dnvlist_get_number l k dflt := match list_find (fun x => x.1 = k) l with Some (_, (_, v)) => v | None => dflt end;
  nvlist_add_number l k v := l ++ [(k, v)];
  nvlist_add_string l k _ := l ++ [(k, 0)];
  nvlist_add_null l k := l ++ [(k, 0)];
  nvlist_move_nvlist l k l' := l ++ l'
}.

(** A firewall that counts the operations it ran. *)
Definition ex_run_op (op : Z) (req resp : list (string * Z)) (fw : Z) : list (string * Z) * Z :=
  ([("errno"%string, 0); ("ran"%string, op)], fw + 1).

Definition ex_one : rstate (gmap (list Z) (list Z)) (list (list Z * Z * route_info_t)) :=
  mk_rstate (r_world ex_start) true (Some (mk_router true BURST_SIZE (Some []) true 1 [Some 0%nat]))
    {[ 0%nat := mk_worker 0 None None true WORKER_UNBOUND 0 (Some 1%positive) 0 ]} ∅ [].

Lemma ex_one_slots : slots 1 1 ex_one.
Proof.
  split; [done| |].
  - eexists. split; [done|]. split; [done|]. split; [done|]. split; [by eexists|]. split; [done|]. split; [done|].
    split; intros k Hk; [|lia]. assert (k = 0%nat) as -> by lia. done.
  - intros [|k] Hk; [by eexists|lia].
Qed.

Definition ex_worker_param : list tee_param := [mk_param BSTGW_TRUST_ROUTER_WORKER_SESSION None 0].

Definition ex_bound : rstate (gmap (list Z) (list Z)) (list (list Z * Z * route_info_t)) :=
  match open_session true true 7 (TEE_PARAM_TYPES TEE_PARAM_TYPE_VALUE_INPUT 0 0 0) ex_worker_param ex_one with
  | Ok (_, s) => s
  | _ => ex_one
  end.

Lemma ex_bound_reached : rtc pta_step ex_one ex_bound.
Proof. apply rtc_once. apply (ps_open true true 7 (TEE_PARAM_TYPES TEE_PARAM_TYPE_VALUE_INPUT 0 0 0) ex_worker_param _ TEE_SUCCESS); reflexivity. Qed.

Lemma pta_sessions_sound_witness :
  sessions ex_bound !! 7 = Some (mk_sess (RouterWorker 0) BSTGW_TRUST_ROUTER_WORKER_SESSION) /\
  (exists s', close_session 7 ex_bound = Ok s' /\ sessions s' = delete 7 (sessions ex_bound) /\
     exists w, wks s' !! 0%nat = Some w /\ bind_status w = WORKER_UNBOUND) /\
  open_session true true 8 (TEE_PARAM_TYPES TEE_PARAM_TYPE_VALUE_INPUT 0 0 0) ex_worker_param ex_bound = Undef.
Proof.
  destruct (pta_sessions_sound 1 ex_one ex_bound ex_one_slots eq_refl ex_bound_reached) as (_ & Hc & Ho).
  split; [reflexivity|]. split.
  - destruct (Hc 7 _ eq_refl) as (s' & ? & ? & Hw). exists s'. split; [done|]. split; [done|]. by apply Hw.
  - destruct (Ho true 8 (mk_param BSTGW_TRUST_ROUTER_WORKER_SESSION None 0) [] eq_refl eq_refl) as [(k & w & s' & Hk & Hw & Hb & _)|[_ E]]; [|exact E].
    assert (k = 0%nat) as -> by lia. vm_compute in Hw. injection Hw as <-. discriminate.
Defined.

#[local] Abbreviation ex_invoke := (invoke_command ex_run_op 99 4 true (fun _ => true) (fun _ _ => true)).
#[local] Abbreviation ex_types := (TEE_PARAM_TYPES TEE_PARAM_TYPE_MEMREF_INPUT TEE_PARAM_TYPE_MEMREF_OUTPUT TEE_PARAM_TYPE_NONE TEE_PARAM_TYPE_NONE).
#[local] Abbreviation ex_unbound := (mk_sess NoWorker BSTGW_TRUST_ROUTER_UNBOUND_SESSION).

Lemma pta_firewall_guarded_witness :
  exists who r ps, ex_invoke true who (Some ex_unbound) BSTGW_PTA_TRUST_ROUTER_CMD_CONFIG ex_types
    [mk_param 0 (Some [3; 9]) 1; mk_param 0 (Some [5; 5; 5]) 3] ex_one 0 = Ok (Returned r ps 1) /\
  who = Some (mk_caller true BSTGW_TA_WEB_STUB_UUID).
Proof.
  exists (Some (mk_caller true BSTGW_TA_WEB_STUB_UUID)). exists TEE_SUCCESS, [mk_param 0 (Some [3; 9]) 1; mk_param 0 (Some [0; 3; 5]) 2].
  split; [reflexivity|].
  pose proof (pta_firewall_guarded ex_run_op 99 4 true (fun _ => true) (fun _ _ => true) true (Some (mk_caller true BSTGW_TA_WEB_STUB_UUID)) (Some ex_unbound)
    BSTGW_PTA_TRUST_ROUTER_CMD_CONFIG ex_types [mk_param 0 (Some [3; 9]) 1; mk_param 0 (Some [5; 5; 5]) 3] ex_one 0
    TEE_SUCCESS [mk_param 0 (Some [3; 9]) 1; mk_param 0 (Some [0; 3; 5]) 2] 1) as Hg.
  destruct (Hg eq_refl) as [[E _]|[_ [[E _]|[_ E]]]]; [discriminate E|discriminate E|exact E].
Defined.

Lemma pta_config_replies_witness :
  ex_invoke true (Some (mk_caller true BSTGW_TA_WEB_STUB_UUID)) (Some ex_unbound) BSTGW_PTA_TRUST_ROUTER_CMD_CONFIG ex_types
    [mk_param 0 (Some [3; 9]) 1; mk_param 0 (Some [5; 5; 5]) 3] ex_one 0 =
  Ok (Returned TEE_SUCCESS [mk_param 0 (Some [3; 9]) 1; mk_param 0 (Some [0; 3; 5]) 2] 1).
Proof.
  apply (pta_config_replies ex_run_op 99 4 true (fun _ => true) (fun _ _ => true) 1 ex_one ex_unbound
    (mk_param 0 (Some [3; 9]) 1) (mk_param 0 (Some [5; 5; 5]) 3) [] [3; 9] [5; 5; 5] [("operation"%string, 3)]
    [("errno"%string, 0); ("ran"%string, 3)] [0; 3] 0 1).
  - by apply slots_inv; [exact ex_one_slots|].
  - done.
  - split; [done|]. cbn. lia.
  - split; [done|]. cbn. lia.
  - done.
  - done.
  - done.
  - done.
Defined.
