(* ===== verification/RouterHost.v ===== *)
(** * The router's process in the normal world (nettrug/host).

    The process opens the sessions that lend the workers and the cleaner of
    the router their threads: one session without a worker for its questions,
    one for the cleaner, and as many for workers as the router says it has,
    each with a thread of its own, pinned to its own CPU when there are
    enough of them.  Its calls reach the pseudo TA of [Pta]. *)

From stdpp Require Import strings.
From S2P Require Import Prelude EthBuf Netdev Route Router RouterInit Pta.

(** ** CPU masks *)

(** A [cpu_set_t], as a number: bit [c] for CPU [c]. *)
Definition CPU_SETSIZE : Z := 1024.
Definition CPU_ZERO : Z := 0.
Definition CPU_ISSET (c m : Z) : bool := (c <? CPU_SETSIZE) && Z.testbit m c.
Definition CPU_SET (c m : Z) : Z := if c <? CPU_SETSIZE then Z.setbit m c else m.
Definition CPU_CLR (c m : Z) : Z := if c <? CPU_SETSIZE then Z.clearbit m c else m.
Definition CPU_XOR : Z -> Z -> Z := Z.lxor.
Definition CPU_COUNT (m : Z) : Z := Z.of_nat (length (filter (fun c => CPU_ISSET c m) (seqZ 0 CPU_SETSIZE))).

(** ** State *)

(** A thread of the router: its session.  The heap names the threads by the
    order they were requested in. *)
Record bstgw_rtr_thread := mk_thread { thread_sess : Z }.

(** The router's process: its session, its cleaner and its workers, newest
    first. *)
Record bstgw_router := mk_nwrouter { rtr_sess : Z; npf_cleaner : option nat; worker_list : list nat }.
#[global] Instance eta_nwrouter : Settable bstgw_router :=
  fun r => mk_nwrouter (rtr_sess r) (npf_cleaner r) (worker_list r).

(** The state of the TEE, the heap's threads, the affinities set and how many
    objects with a session have been requested. *)
Record host (T L : Type) := mk_host {
  h_tee : rstate T L;
  h_threads : gmap nat bstgw_rtr_thread;
  h_affinity : gmap nat Z;
  h_new : nat
}.
Arguments mk_host {T L}. Arguments h_tee {T L}. Arguments h_threads {T L}. Arguments h_affinity {T L}. Arguments h_new {T L}.
#[global] Instance eta_host {T L} : Settable (host T L) :=
  fun h => mk_host (h_tee h) (h_threads h) (h_affinity h) (h_new h).

(** What the system answers, to the request of that number. *)
Record host_env := mk_henv {
  he_mem : nat -> bool;       (** malloc *)
  he_ctx : nat -> bool;       (** TEEC_InitializeContext *)
  he_sid : nat -> Z;          (** the session's id in the TEE *)
  he_sess_mem : nat -> bool;  (** the pseudo TA's malloc *)
  he_npf : bool;              (** npfk_bind_npfworker *)
  he_create : nat -> bool;    (** pthread_create *)
  he_pin : nat -> bool;       (** pthread_setaffinity_np *)
  he_parent : option Z;       (** sched_getaffinity *)
  he_nproc : Z                (** sysconf(_SC_NPROCESSORS_ONLN) *)
}.

(** [prepare_cpu_masks]: the masks of the cleaner and of the workers. *)
Definition prepare_cpu_masks (env : host_env) : option (Z * Z) :=
  let clnr := CPU_ZERO in
  let wrkr := CPU_ZERO in
  match he_parent env with
  | None => None
  | Some parent_mask =>
      if he_nproc env =? 1 then Some (CPU_XOR clnr parent_mask, CPU_XOR wrkr parent_mask)
      else Some (CPU_SET 0 clnr, CPU_CLR 0 (CPU_XOR wrkr parent_mask))
  end.

(** The loop over the CPUs from [c] on: the one of the mask that makes up the
    required number of hits. *)
Fixpoint pick_cpu (fuel : nat) (c req_cpu_hits mask : Z) : option Z :=
  match fuel with
  | O => None
  | S fuel' =>
      if CPU_ISSET c mask then
        if req_cpu_hits - 1 =? 0 then Some c else pick_cpu fuel' (c + 1) (req_cpu_hits - 1) mask
      else pick_cpu fuel' (c + 1) req_cpu_hits mask
  end.

(** The mask of worker [i]. *)
Definition worker_mask (env : host_env) (split_mask : bool) (i mask : Z) : Z :=
  if negb split_mask then CPU_XOR CPU_ZERO mask else
  match pick_cpu (Z.to_nat (he_nproc env)) 0 (i + 1) mask with
  | Some c => CPU_SET c CPU_ZERO
  | None => CPU_XOR CPU_ZERO mask
  end.

Section host.
Context {T : Type} `{ThMap T} {L : Type} `{Lpm L route_info_t} {NV : Type} `{NvList NV} {F : Type}.
Context (run_op : Z -> NV -> NV -> F -> NV * F).
Context (IOC_BSTGW_QUERY_NETIFS NPF_VERSION : Z) (cr_list : bool) (cr_dev : positive -> bool) (cr_ip : positive -> Z -> bool).
Context (env : host_env).
Implicit Types h : host T L.

#[local] Abbreviation invoke := (invoke_command run_op IOC_BSTGW_QUERY_NETIFS NPF_VERSION cr_list cr_dev cr_ip).

(** The parameters of a [TEEC_Operation] that was zeroed. *)
Definition op_params (a : Z) : list tee_param := mk_param a None 0 :: replicate 3 (mk_param 0 None 0).

(** ** Sessions *)

(** [malloc], [TEEC_InitializeContext] and [TEEC_OpenSession], as
    [nw_init_router] and [nw_init_router_thread] make them: the session, or
    none, with everything released. *)
Definition nw_open (type : Z) h : outcome (option Z * host T L) :=
  let k := h_new h in
  let h := h <| h_new := S k |> in
  if negb (he_mem env k) then Ok (None, h) else
  if negb (he_ctx env k) then Ok (None, h) else
  '(res, s) ← open_session (he_sess_mem env k) (he_npf env) (he_sid env k)
    (TEE_PARAM_TYPES TEE_PARAM_TYPE_VALUE_INPUT TEE_PARAM_TYPE_NONE TEE_PARAM_TYPE_NONE TEE_PARAM_TYPE_NONE)
    (op_params (u32 type)) (h_tee h);
  let h := h <| h_tee := s |> in
  if negb (res =? TEE_SUCCESS) then Ok (None, h) else Ok (Some (he_sid env k), h).

Definition nw_init_router h : outcome (option bstgw_router * host T L) :=
  '(sess, h) ← nw_open BSTGW_TRUST_ROUTER_UNBOUND_SESSION h;
  match sess with
  | None => Ok (None, h)
  | Some sess => Ok (Some (mk_nwrouter sess None []), h)
  end.

Definition nw_fini_router (rtr : option bstgw_router) h : outcome (Z * host T L) :=
  match rtr with
  | None => Ok (-1, h)
  | Some rtr => s ← close_session (rtr_sess rtr) (h_tee h); Ok (0, h <| h_tee := s |>)
  end.

Definition nw_init_router_thread (type : Z) h : outcome (option nat * host T L) :=
  let k := h_new h in
  '(sess, h) ← nw_open type h;
  match sess with
  | None => Ok (None, h)
  | Some sess => Ok (Some k, h <| h_threads ::= <[k := mk_thread sess]> |>)
  end.

Definition nw_fini_router_thread (rthrd : option nat) h : outcome (Z * host T L) :=
  match rthrd with
  | None => Ok (-1, h)
  | Some k =>
      t ← deref (h_threads h !! k);
      s ← close_session (thread_sess t) (h_tee h);
      Ok (0, h <| h_tee := s |> <| h_threads ::= delete k |>)
  end.

(** A question to the pseudo TA that is answered with a number. *)
Definition get_thread_number (rtr : option bstgw_router) (cmd : Z) (fw : F) h : outcome Z :=
  match rtr with
  | None => Ok (-1)
  | Some rtr =>
      r ← invoke true None (sessions (h_tee h) !! rtr_sess rtr) cmd
        (TEE_PARAM_TYPES TEE_PARAM_TYPE_VALUE_OUTPUT TEE_PARAM_TYPE_NONE TEE_PARAM_TYPE_NONE TEE_PARAM_TYPE_NONE)
        (op_params 0) (h_tee h) fw;
      match r with
      | Returned res params _ =>
          if negb (res =? TEE_SUCCESS) then Ok (-1) else p0 ← aget params 0; Ok (i32 (value_a p0))
      | _ => Undef
      end
  end.

Definition router_stats (fw : F) h : outcome (Z * host T L) :=
  '(rtr, h) ← nw_init_router h;
  match rtr with
  | None => Ok (-1, h)
  | Some rtr =>
      _ ← get_thread_number (Some rtr) BSTGW_PTA_TRUST_ROUTER_GET_STATS fw h;
      '(_, h) ← nw_fini_router (Some rtr) h;
      Ok (0, h)
  end.

(** ** Starting *)

Definition spawn_router_thread (type : Z) h : outcome (option nat * host T L) :=
  '(rthrd, h) ← nw_init_router_thread type h;
  match rthrd with
  | None => Ok (None, h)
  | Some k =>
      if negb (he_create env k) then '(_, h) ← nw_fini_router_thread (Some k) h; Ok (None, h)
      else Ok (Some k, h)
  end.

(** [pthread_setaffinity_np], for a thread that exists. *)
Definition set_affinity (k : nat) (mask : Z) h : outcome (host T L) :=
  _ ← deref (h_threads h !! k);
  Ok (if he_pin env k then h <| h_affinity ::= <[k := mask]> |> else h).

Definition start_npf_cleaner (rtr : bstgw_router) (mask : Z) h : outcome (Z * bstgw_router * host T L) :=
  match npf_cleaner rtr with
  | Some _ => Ok (-1, rtr, h)
  | None =>
      '(c, h) ← spawn_router_thread BSTGW_TRUST_ROUTER_CLEANER_SESSION h;
      let rtr := rtr <| npf_cleaner := c |> in
      match c with
      | None => Ok (-1, rtr, h)
      | Some k => h ← set_affinity k mask h; Ok (0, rtr, h)
      end
  end.

Definition get_nworkers (rtr : option bstgw_router) (fw : F) h : outcome Z :=
  get_thread_number rtr BSTGW_PTA_TRUST_ROUTER_CMD_GET_NWORKERS fw h.

(** The loop of [start_workers] from worker [i] on, [fuel] of them; one that
    does not start aborts the process. *)
Fixpoint start_loop (fuel : nat) (split_mask : bool) (i mask : Z) (rtr : bstgw_router) h : outcome (bstgw_router * host T L) :=
  match fuel with
  | O => Ok (rtr, h)
  | S fuel' =>
      '(rthrd, h) ← spawn_router_thread BSTGW_TRUST_ROUTER_WORKER_SESSION h;
      match rthrd with
      | None => Panic
      | Some k =>
          h ← set_affinity k (worker_mask env split_mask i mask) h;
          start_loop fuel' split_mask (i + 1) mask (rtr <| worker_list ::= cons k |>) h
      end
  end.

Definition start_workers (rtr : bstgw_router) (mask : Z) (fw : F) h : outcome (Z * bstgw_router * host T L) :=
  nworkers ← get_nworkers (Some rtr) fw h;
  if nworkers <=? 0 then Ok (-1, rtr, h) else
  let split_mask := nworkers <=? CPU_COUNT mask in
  '(rtr, h) ← start_loop (Z.to_nat nworkers) split_mask 0 mask rtr h;
  Ok (0, rtr, h).

(** ** Running *)

(** [nw_runloop_router] until it waits. *)
Definition nw_start_router (rtr : bstgw_router) (fw : F) h : outcome (bstgw_router * host T L) :=
  match prepare_cpu_masks env with
  | None => Panic
  | Some (cleaner_mask, wrk_mask) =>
      '(ret, rtr, h) ← start_npf_cleaner rtr cleaner_mask h;
      if negb (ret =? 0) then Panic else
      '(ret, rtr, h) ← start_workers rtr wrk_mask fw h;
      if negb (ret =? 0) then Panic else Ok (rtr, h)
  end.

(** The loop over the workers, each of which has ended: [SLIST_FOREACH]
    reads the next pointer of a thread once its body is done with it. *)
Fixpoint join_workers (l : list nat) h : outcome (host T L) :=
  match l with
  | [] => Ok h
  | k :: l' =>
      _ ← deref (h_threads h !! k);
      '(_, h) ← nw_fini_router_thread (Some k) h;
      _ ← deref (h_threads h !! k);
      join_workers l' h
  end.

Definition nw_runloop_router (rtr : option bstgw_router) (fw : F) h : outcome (Z * option bstgw_router * host T L) :=
  match rtr with
  | None => Ok (-1, None, h)
  | Some rtr =>
      '(rtr, h) ← nw_start_router rtr fw h;
      h ← join_workers (worker_list rtr) h;
      k ← deref (npf_cleaner rtr);
      _ ← deref (h_threads h !! k);
      '(_, h) ← nw_fini_router_thread (Some k) h;
      Ok (0, Some (rtr <| npf_cleaner := None |>), h)
  end.

Definition EXIT_SUCCESS : Z := 0.
Definition EXIT_FAILURE : Z := 1.

(** [args]: the arguments after the program's name. *)
Definition nw_main (args : list string) (fw : F) h : outcome (Z * host T L) :=
  match args with
  | a :: _ => if String.eqb a "stats" then router_stats fw h else Ok (EXIT_FAILURE, h)
  | [] =>
      '(rtr, h) ← nw_init_router h;
      match rtr with
      | None => Ok (EXIT_FAILURE, h)
      | Some rtr =>
          '(_, rtr, h) ← nw_runloop_router (Some rtr) fw h;
          '(_, h) ← nw_fini_router rtr h;
          Ok (EXIT_SUCCESS, h)
      end
  end.

(** What a thread does in the TEE each time round, until the process is told
    to stop ([stop], asked before each call) or a call fails.  [hs]: the
    state a call finds, with what the other threads did; [looped]: what the
    TEE's own loop returns when it ends. *)
Fixpoint run_thread (fuel : nat) (cmd : Z) (stop : nat -> bool) (looped : nat -> Z) (rthrd : nat) (fw : F)
    (hs : nat -> host T L) : outcome (list (invoked (F := F))) :=
  match fuel with
  | O => Ok []
  | S fuel' =>
      if stop fuel' then Ok [] else
      t ← deref (h_threads (hs fuel') !! rthrd);
      r ← invoke true None (sessions (h_tee (hs fuel')) !! thread_sess t) cmd
        (TEE_PARAM_TYPES TEE_PARAM_TYPE_NONE TEE_PARAM_TYPE_NONE TEE_PARAM_TYPE_NONE TEE_PARAM_TYPE_NONE)
        (op_params 0) (h_tee (hs fuel')) fw;
      let res := match r with Returned res _ _ => res | _ => looped fuel' end in
      if negb (res =? TEE_SUCCESS) then Ok [r] else
      l ← run_thread fuel' cmd stop looped rthrd fw hs; Ok (r :: l)
  end.

Definition run_worker (fuel : nat) (stop : nat -> bool) (looped : nat -> Z) (rthrd : nat) (fw : F) (hs : nat -> host T L) : outcome (list invoked) :=
  run_thread fuel BSTGW_PTA_TRUST_ROUTER_CMD_RUN_WORKER stop looped rthrd fw hs.

Definition run_cleaner (fuel : nat) (stop : nat -> bool) (looped : nat -> Z) (rthrd : nat) (fw : F) (hs : nat -> host T L) : outcome (list invoked) :=
  run_thread fuel BSTGW_PTA_TRUST_ROUTER_CMD_RUN_CLEANER stop looped rthrd fw hs.

End host.

(** ** The CPUs *)

Definition cpus (m k : Z) : list Z := filter (fun c => CPU_ISSET c m) (seqZ 0 k).

Lemma pick_cpu_nth m fuel c i :
  pick_cpu fuel c (Z.of_nat i + 1) m = filter (fun c => CPU_ISSET c m) (seqZ c (Z.of_nat fuel)) !! i.
Proof.
  revert c i. induction fuel as [|fuel IH]; intros c i; cbn [pick_cpu]; [done|].
  rewrite seqZ_cons by lia. replace (Z.pred (Z.of_nat (S fuel))) with (Z.of_nat fuel) by lia. rewrite filter_cons.
  destruct (CPU_ISSET c m); [rewrite decide_True by done|rewrite decide_False by (by intros [])]; [|apply IH].
  destruct i as [|i]; [done|]. rewrite (proj2 (Z.eqb_neq _ 0)) by lia. cbn [lookup list_lookup].
  replace (Z.of_nat (S i) + 1 - 1) with (Z.of_nat i + 1) by lia. apply IH.
Qed.

(** CPUs from [a] on are not in the mask. *)
Lemma cpus_upto m a b : 0 <= a <= b -> (forall c, a <= c -> CPU_ISSET c m = false) -> cpus m b = cpus m a.
Proof.
  intros Hab Hno. unfold cpus. replace b with (a + (b - a)) by lia. rewrite seqZ_app, filter_app by lia.
  assert (filter (fun c => CPU_ISSET c m) (seqZ (0 + a) (b - a)) = []) as ->; [|apply app_nil_r].
  destruct (filter _ _) as [|c l] eqn:E; [done|]. assert (c ∈ filter (fun c => CPU_ISSET c m) (seqZ (0 + a) (b - a))) as Hc by (rewrite E; left).
  apply list_elem_of_filter in Hc as [Hc Hr]. apply elem_of_seqZ in Hr. rewrite Hno in Hc by lia. done.
Qed.

Lemma cpus_online m k : 0 <= k -> (forall c, CPU_ISSET c m = true -> c < k) -> Z.of_nat (length (cpus m k)) = CPU_COUNT m.
Proof.
  intros Hk Hon. unfold CPU_COUNT. fold (cpus m CPU_SETSIZE). assert (forall c, Z.min k CPU_SETSIZE <= c -> CPU_ISSET c m = false) as Hno.
  { intros c Hc. destruct (CPU_ISSET c m) eqn:E; [|done]. pose proof (Hon c E). unfold CPU_ISSET in E. apply andb_true_iff in E as [E _]. apply Z.ltb_lt in E. lia. }
  assert (0 <= CPU_SETSIZE) by done. rewrite (cpus_upto m (Z.min k CPU_SETSIZE) k), (cpus_upto m (Z.min k CPU_SETSIZE) CPU_SETSIZE) by (done || lia). done.
Qed.

(** With enough CPUs, worker [i] has the [i]-th of the mask. *)
Lemma worker_mask_own env m n i :
  0 <= he_nproc env -> (forall c, CPU_ISSET c m = true -> c < he_nproc env) -> Z.of_nat n <= CPU_COUNT m -> (i < n)%nat ->
  exists c, cpus m (he_nproc env) !! i = Some c /\ worker_mask env true (Z.of_nat i) m = CPU_SET c CPU_ZERO.
Proof.
  intros Hp Hon Hn Hi. rewrite <- (cpus_online m (he_nproc env)) in Hn by done.
  destruct (lookup_lt_is_Some_2 (cpus m (he_nproc env)) i) as [c Hc]; [lia|]. exists c. split; [done|].
  unfold worker_mask. cbn [negb]. rewrite pick_cpu_nth, Z2Nat.id by done. fold (cpus m (he_nproc env)). by rewrite Hc.
Qed.

Lemma cpu_set_inj c c' : 0 <= c < CPU_SETSIZE -> 0 <= c' < CPU_SETSIZE -> CPU_SET c CPU_ZERO = CPU_SET c' CPU_ZERO -> c = c'.
Proof.
  unfold CPU_SET. intros Hc Hc'. rewrite !(proj2 (Z.ltb_lt _ _)) by lia. intros E.
  assert (Z.testbit (Z.setbit 0 c') c = true) as Hb by (unfold CPU_ZERO in E; rewrite <- E; apply Z.setbit_eq; lia).
  apply Z.setbit_iff in Hb as [?|Hb]; [done| |lia]. by rewrite Z.bits_0 in Hb.
Qed.

Lemma cpu_clr_isset c m : CPU_ISSET c (CPU_CLR 0 m) = true -> CPU_ISSET c m = true /\ 0 < c < CPU_SETSIZE.
Proof.
  unfold CPU_ISSET, CPU_CLR. change (0 <? CPU_SETSIZE) with true. cbv iota. rewrite !andb_true_iff. intros [Hc Hb].
  apply Z.clearbit_iff in Hb as [Hb Hne]. split; [done|]. apply Z.ltb_lt in Hc. split; [|done].
  destruct (Z.lt_trichotomy c 0) as [?|[?|?]]; [by rewrite Z.testbit_neg_r in Hb|congruence|done].
Qed.

(** ** Opening *)

Section opening.
Context {T : Type} `{ThMap T} {L : Type} `{Lpm L route_info_t}.
Context (env : host_env) `{!Inj (=) (=) (he_sid env)}.
Implicit Types (h : host T L) (s : rstate T L).

(** What a session that is opened leaves alone. *)
Lemma bind_loop_frame l sid s r s' : bind_loop l sid s = Ok (r, s') ->
  robj s' = robj s /\ forall sid', sid' <> sid -> sessions s' !! sid' = sessions s !! sid'.
Proof.
  induction l as [|[k|] l IH]; cbn [bind_loop]; [by intros [= <- <-]| |done].
  intros E. apply bind_ok in E as (w & _ & E). case_bool_decide; [|by apply IH]. injection E as <- <-. cbn.
  split; [done|]. intros sid' Hne. by rewrite lookup_alter_ne.
Qed.

Lemma open_frame mem nf sid types params s r s' : open_session mem nf sid types params s = Ok (r, s') ->
  robj s' = robj s /\ forall sid', sid' <> sid -> sessions s' !! sid' = sessions s !! sid'.
Proof.
  unfold open_session. case_match; [by intros [= <- <-]|]. intros E. apply bind_ok in E as (p0 & _ & E).
  case_match; [by injection E as <- <-|]. case_match; [by injection E as <- <-|]. case_match; [|case_match].
  - apply bind_ok in E as ([wp s1] & Eb & E). apply bind_ok in E as (x & _ & E). case_bool_decide; [done|]. injection E as <- <-.
    revert Eb. unfold bind_to_worker. intros Eb. apply bind_ok in Eb as (ro & _ & Eb). cbn in Eb. rewrite lookup_insert_eq in Eb.
    destruct ro; [apply bind_loop_frame in Eb as [-> Hs]|injection Eb as <- <-; cbn]; (split; [done|]); intros sid' Hne; rewrite ?Hs by done; cbn; by rewrite lookup_insert_ne.
  - destruct (bind_to_npfworker nf _) as [wk s1] eqn:Eb. case_bool_decide; [done|]. injection E as <- <-.
    revert Eb. unfold bind_to_npfworker. case_match; intros [= <- <-]; cbn; (split; [done|]); intros sid' Hne; by rewrite lookup_alter_ne, lookup_insert_ne.
  - injection E as <- <-. cbn. split; [done|]. intros sid' Hne. by rewrite lookup_insert_ne.
Qed.

(** The state of the TEE is that of a router with [n] workers, and the
    sessions are among those opened so far. *)
Record host_ok (n : nat) h : Prop := {
  ho_inv : pta_inv n (h_tee h);
  ho_count : exists r, robj (h_tee h) = Some r /\ r_worker_count r = Z.of_nat n;
  ho_sids : forall sid x, sessions (h_tee h) !! sid = Some x -> exists k, (k < h_new h)%nat /\ sid = he_sid env k
}.

(** Every request is served. *)
Record served : Prop := {
  sv_mem : forall k, he_mem env k = true;
  sv_ctx : forall k, he_ctx env k = true;
  sv_sess : forall k, he_sess_mem env k = true;
  sv_npf : he_npf env = true;
  sv_create : forall k, he_create env k = true;
  sv_pin : forall k, he_pin env k = true
}.

Definition free_worker (n : nat) s : Prop := exists k w, (k < n)%nat /\ wks s !! k = Some w /\ bind_status w = WORKER_UNBOUND.

(** A session of type [ty] more. *)
Record opened (n : nat) (ty : Z) h h' : Prop := {
  op_ok : host_ok n h';
  op_new : h_new h' = S (h_new h);
  op_aff : h_affinity h' = h_affinity h;
  op_sess : exists wk, sessions (h_tee h') !! he_sid env (h_new h) = Some (mk_sess wk ty);
  op_rest : forall sid, sid <> he_sid env (h_new h) -> sessions (h_tee h') !! sid = sessions (h_tee h) !! sid
}.

Definition session_type (ty : Z) : Prop :=
  ty = BSTGW_TRUST_ROUTER_UNBOUND_SESSION \/ ty = BSTGW_TRUST_ROUTER_CLEANER_SESSION \/ ty = BSTGW_TRUST_ROUTER_WORKER_SESSION.

Lemma open_succeeds n sid ty s :
  pta_inv n s -> sessions s !! sid = None -> session_type ty -> (ty = BSTGW_TRUST_ROUTER_WORKER_SESSION -> free_worker n s) ->
  exists s' wk, open_session true true sid (TEE_PARAM_TYPES TEE_PARAM_TYPE_VALUE_INPUT 0 0 0) (op_params (u32 ty)) s = Ok (TEE_SUCCESS, s') /\
    sessions s' !! sid = Some (mk_sess wk ty).
Proof.
  intros Hinv Hnew Hty Hfree. unfold op_params. destruct Hty as [->|[->|Hw]].
  - eexists _, NoWorker. split; [done|]. cbn. apply lookup_insert_eq.
  - pose proof Hinv as [[Hp _] _ _ _]. eexists _, NpfWorker. split.
    + unfold open_session. cbn. unfold bind_to_npfworker. cbn. rewrite Hp. done.
    + cbn. by rewrite lookup_alter_eq, lookup_insert_eq.
  - destruct (Hfree Hw) as (k0 & w0 & Hk0 & Ew0 & Eb0). rewrite Hw.
    destruct (open_worker n true sid (mk_param (u32 BSTGW_TRUST_ROUTER_WORKER_SESSION) None 0) (replicate 3 (mk_param 0 None 0)) s Hinv Hnew eq_refl)
      as [(k & w & s' & _ & _ & _ & E & Es)|[Hall _]]; [by exists s', (RouterWorker k)|].
    pose proof (Hall k0 w0 Hk0 Ew0). congruence.
Qed.

Lemma nw_open_ok n ty h : host_ok n h -> served -> session_type ty ->
  (ty = BSTGW_TRUST_ROUTER_WORKER_SESSION -> free_worker n (h_tee h)) ->
  exists h', nw_open env ty h = Ok (Some (he_sid env (h_new h)), h') /\ opened n ty h h' /\ h_threads h' = h_threads h.
Proof.
  intros [Hinv Hc Hsids] [Hm Hx Hs Hnpf _ _] Hty Hfree. assert (sessions (h_tee h) !! he_sid env (h_new h) = None) as Hnew.
  { destruct (sessions (h_tee h) !! he_sid env (h_new h)) as [x|] eqn:E; [|done]. destruct (Hsids _ _ E) as (k & Hk & Ek). apply (inj _) in Ek. lia. }
  destruct (open_succeeds n _ ty (h_tee h) Hinv Hnew Hty Hfree) as (s' & wk & E & Es).
  unfold nw_open. rewrite Hm, Hx, Hs, Hnpf. cbn [negb]. cbn [h_tee]. unfold TEE_PARAM_TYPE_NONE. cbn. rewrite E. cbn.
  eexists. split; [done|]. split; [|done]. pose proof (open_frame _ _ _ _ _ _ _ _ E) as [Er Hrest]. split; cbn; [|done|done|by exists wk|exact Hrest].
  split; cbn; [by eapply open_inv|by rewrite Er|]. intros sid x Hsid. destruct (decide (sid = he_sid env (h_new h))) as [->|Hne]; [exists (h_new h); split; [lia|done]|].
  rewrite Hrest in Hsid by done. destruct (Hsids _ _ Hsid) as (k & Hk & ->). exists k. split; [lia|done].
Qed.

Lemma spawn_ok n ty h : host_ok n h -> served -> session_type ty ->
  (ty = BSTGW_TRUST_ROUTER_WORKER_SESSION -> free_worker n (h_tee h)) ->
  exists h', spawn_router_thread env ty h = Ok (Some (h_new h), h') /\ opened n ty h h' /\
    h_threads h' = <[h_new h := mk_thread (he_sid env (h_new h))]> (h_threads h).
Proof.
  intros Hok Hsv Hty Hfree. destruct (nw_open_ok n ty h Hok Hsv Hty Hfree) as (h1 & E & Ho & Et).
  unfold spawn_router_thread, nw_init_router_thread. rewrite E. cbn. rewrite (sv_create Hsv). cbn.
  eexists. split; [done|]. split; [|cbn; by rewrite Et]. destruct Ho as [[] ? ? ? ?]. by split; [split|..].
Qed.

End opening.

(** ** Starting the threads *)

Section starting.
Context {T : Type} `{ThMap T} {L : Type} `{Lpm L route_info_t} {NV : Type} `{NvList NV} {F : Type}.
Context (run_op : Z -> NV -> NV -> F -> NV * F).
Context (IOC_BSTGW_QUERY_NETIFS NPF_VERSION : Z) (cr_list : bool) (cr_dev : positive -> bool) (cr_ip : positive -> Z -> bool).
Context (env : host_env) `{!Inj (=) (=) (he_sid env)}.
Implicit Types (h : host T L) (s : rstate T L).

#[local] Abbreviation the_nworkers := (get_nworkers run_op IOC_BSTGW_QUERY_NETIFS NPF_VERSION cr_list cr_dev cr_ip).
#[local] Abbreviation start_router := (nw_start_router run_op IOC_BSTGW_QUERY_NETIFS NPF_VERSION cr_list cr_dev cr_ip env).
#[local] Abbreviation runloop := (nw_runloop_router run_op IOC_BSTGW_QUERY_NETIFS NPF_VERSION cr_list cr_dev cr_ip env).
#[local] Abbreviation worker_thread := (run_worker run_op IOC_BSTGW_QUERY_NETIFS NPF_VERSION cr_list cr_dev cr_ip).

(** Thread [t] has a session of worker [w]. *)
Definition lends h (t w : nat) : Prop :=
  h_threads h !! t = Some (mk_thread (he_sid env t)) /\
  sessions (h_tee h) !! he_sid env t = Some (mk_sess (RouterWorker w) BSTGW_TRUST_ROUTER_WORKER_SESSION).

(** [j] worker threads run, numbered from [base]; [ws]: their workers. *)
Record loop_inv (n base : nat) (split : bool) (mask : Z) (j : nat) (ws : list nat) (rtr : bstgw_router) h : Prop := {
  li_ok : host_ok env n h;
  li_new : h_new h = (base + j)%nat;
  li_list : worker_list rtr = reverse (seq base j);
  li_len : length ws = j;
  li_nodup : NoDup ws;
  li_ws : forall i w, ws !! i = Some w -> (w < n)%nat /\ lends h (base + i) w /\ h_affinity h !! (base + i)%nat = Some (worker_mask env split (Z.of_nat i) mask);
  li_only : forall sid x, sessions (h_tee h) !! sid = Some x -> sess_type x = BSTGW_TRUST_ROUTER_WORKER_SESSION -> exists i, (i < j)%nat /\ sid = he_sid env (base + i)%nat
}.

(** The first [base] threads keep what they have. *)
Definition kept (base : nat) h h' : Prop := forall t, (t < base)%nat ->
  h_threads h' !! t = h_threads h !! t /\ h_affinity h' !! t = h_affinity h !! t /\
  sessions (h_tee h') !! he_sid env t = sessions (h_tee h) !! he_sid env t.

Lemma bound_worker n s sid wk : pta_inv n s -> sessions s !! sid = Some (mk_sess wk BSTGW_TRUST_ROUTER_WORKER_SESSION) ->
  exists k w, (k < n)%nat /\ wk = RouterWorker k /\ wks s !! k = Some w /\ bind_status w = WORKER_IS_BOUND.
Proof. intros [_ _ _ Hs] E. destruct (Hs _ _ E) as [(_ & k & w & ? & ? & ? & ? & _)|[[? _]|[? _]]]; [by exists k, w|done|done]. Qed.

(** Fewer threads than workers: one of the workers is unbound. *)
Lemma loop_free n base split mask j ws rtr h : loop_inv n base split mask j ws rtr h -> (j < n)%nat -> free_worker n (h_tee h).
Proof.
  intros [[Hinv _ _] _ _ Hlen _ Hws Honly] Hj. pose proof Hinv as [_ Hw Hb _].
  destruct (decide (Exists (fun k => k ∉ ws) (seq 0 n))) as [Hex|Hno].
  - apply Exists_exists in Hex as (k & Hk & Hout). apply elem_of_seq in Hk. destruct (Hw k ltac:(lia)) as (w & Ew & _). exists k, w.
    split; [lia|]. split; [done|]. destruct (bind_status w) eqn:Eb; [done|]. destruct Hout.
    pose proof (Hb k w ltac:(lia) Ew Eb) as Es. destruct (Honly _ _ Es eq_refl) as (i & Hi & Ei).
    destruct (lookup_lt_is_Some_2 ws i) as [w' Ew']; [lia|]. destruct (Hws i w' Ew') as (_ & [_ El] & _).
    rewrite <- Ei, Es in El. injection El as ->. by apply list_elem_of_lookup_2 with i.
  - exfalso. assert (length (seq 0 n) <= length ws)%nat as Hle; [|rewrite length_seq in Hle; lia].
    apply submseteq_length, NoDup_submseteq; [apply NoDup_seq|]. intros k Hk. destruct (decide (k ∈ ws)) as [|Hout]; [done|].
    destruct Hno. apply Exists_exists. by exists k.
Qed.

Lemma loop_step n base split mask j ws rtr h :
  loop_inv n base split mask j ws rtr h -> served env -> (j < n)%nat ->
  exists w h1 h2, spawn_router_thread env BSTGW_TRUST_ROUTER_WORKER_SESSION h = Ok (Some (base + j)%nat, h1) /\
    set_affinity env (base + j) (worker_mask env split (Z.of_nat j) mask) h1 = Ok h2 /\
    loop_inv n base split mask (S j) (ws ++ [w]) (rtr <| worker_list ::= cons (base + j)%nat |>) h2 /\ kept base h h2.
Proof.
  intros Hli Hsv Hj. pose proof (loop_free _ _ _ _ _ _ _ _ Hli Hj) as Hfree. destruct Hli as [Hok Hnew Hl Hlen Hnd Hws Honly].
  destruct (spawn_ok env n _ h Hok Hsv ltac:(by do 2 right) (fun _ => Hfree)) as (h1 & E & Ho & Et). rewrite Hnew in *.
  destruct Ho as [Hok1 Hnew1 Haff [wk Es] Hrest]. rewrite Hnew in *.
  destruct (bound_worker n (h_tee h1) _ wk (ho_inv _ _ _ Hok1) Es) as (w & wd & Hwn & -> & _ & _).
  assert (forall t, t <> (base + j)%nat -> he_sid env t <> he_sid env (base + j)%nat) as Hne by (intros t Ht Hc; by apply (inj _) in Hc).
  assert (w ∉ ws) as Hfresh.
  { intros Hin. apply list_elem_of_lookup in Hin as (i & Ei). pose proof (lookup_lt_Some _ _ _ Ei). destruct (Hws i w Ei) as (_ & [_ El] & _).
    rewrite <- Hrest in El by (apply Hne; lia). pose proof (worker_owner n _ _ _ _ _ w (ho_inv _ _ _ Hok1) El Es eq_refl eq_refl) as Hc. apply (inj _) in Hc. lia. }
  exists w, h1. eexists. split; [done|]. unfold set_affinity. rewrite Et, lookup_insert_eq. cbn. rewrite (sv_pin _ Hsv). split; [done|]. split.
  - split; cbn.
    + destruct Hok1. by split.
    + lia.
    + rewrite Hl. trans (reverse (seq base (S j))); [by rewrite seq_S, reverse_app|done].
    + rewrite length_app. cbn. lia.
    + apply NoDup_app. split; [done|]. split; [|apply NoDup_singleton]. intros x Hx Hc. apply list_elem_of_singleton in Hc as ->. done.
    + intros i x Hi. rewrite Haff. destruct (decide (i = j)) as [->|Hij].
      * rewrite lookup_app_r, Hlen, Nat.sub_diag in Hi by lia. cbn in Hi. injection Hi as <-. unfold lends. cbn. rewrite Et, !lookup_insert_eq. by rewrite Es.
      * assert (ws !! i = Some x) as Ei by (pose proof (lookup_lt_Some _ _ _ Hi) as Hil; rewrite length_app in Hil; cbn in Hil; by rewrite lookup_app_l in Hi by lia).
        destruct (Hws i x Ei) as (? & [Et' Es'] & ?). split; [done|]. unfold lends. cbn. rewrite Et, !lookup_insert_ne by lia. by rewrite Hrest by (apply Hne; lia).
    + intros sid x Hx Hty. destruct (decide (sid = he_sid env (base + j)%nat)) as [->|Hs]; [exists j; split; [lia|done]|].
      rewrite Hrest in Hx by done. destruct (Honly _ _ Hx Hty) as (i & ? & ->). exists i. split; [lia|done].
  - intros t Ht. cbn. rewrite Et, Haff, !lookup_insert_ne, Hrest by (apply Hne || lia; lia). done.
Qed.

Lemma start_loop_ok n base split mask m j ws rtr h :
  loop_inv n base split mask j ws rtr h -> served env -> (j + m = n)%nat ->
  exists ws' rtr' h', start_loop env m split (Z.of_nat j) mask rtr h = Ok (rtr', h') /\ loop_inv n base split mask n ws' rtr' h' /\
    kept base h h' /\ npf_cleaner rtr' = npf_cleaner rtr /\ rtr_sess rtr' = rtr_sess rtr.
Proof.
  revert j ws rtr h. induction m as [|m IH]; intros j ws rtr h Hli Hsv Hn; cbn [start_loop].
  - assert (j = n) as -> by lia. exists ws, rtr, h. by split_and!.
  - destruct (loop_step _ _ _ _ _ _ _ _ Hli Hsv ltac:(lia)) as (w & h1 & h2 & -> & E & Hli' & Hk). cbn [mbind outcome_bind]. rewrite E. cbn [mbind outcome_bind].
    replace (Z.of_nat j + 1) with (Z.of_nat (S j)) by lia. destruct (IH _ _ _ _ Hli' Hsv ltac:(lia)) as (ws' & rtr' & h' & -> & Hli2 & Hk' & Ec & Er).
    exists ws', rtr', h'. split_and!; try done. intros t Ht. destruct (Hk t Ht) as (? & ? & ?), (Hk' t Ht) as (? & ? & ?). split_and!; congruence.
Qed.

(** Once there are as many threads as workers, every worker has one. *)
Lemma loop_all n base split mask ws rtr h w :
  loop_inv n base split mask n ws rtr h -> (w < n)%nat -> exists i, ws !! i = Some w.
Proof.
  intros [_ _ _ Hlen Hnd Hws _] Hw. apply list_elem_of_lookup. apply list_elem_of_In.
  apply (NoDup_length_incl (l := ws) (l' := seq 0 n)); [by apply NoDup_ListNoDup|by rewrite length_seq, Hlen| |apply in_seq; lia].
  intros x Hx. apply list_elem_of_In, list_elem_of_lookup in Hx as (i & Hi). apply in_seq. destruct (Hws i x Hi). lia.
Qed.

Lemma nworkers_ok n rtr fw h : host_ok env n h -> Z.of_nat n <= MAX_I32 ->
  sessions (h_tee h) !! rtr_sess rtr = Some (mk_sess NoWorker BSTGW_TRUST_ROUTER_UNBOUND_SESSION) ->
  the_nworkers (Some rtr) fw h = Ok (Z.of_nat n).
Proof.
  unfold MAX_I32. intros [[[Hp _] _ _ _] (r & Hr & Hc) _] Hn Hs. unfold get_nworkers, get_thread_number. rewrite Hs.
  unfold invoke_command, cmd_get_nworkers, worker_get_number, the_router. cbn. rewrite Hp, Hr. cbn. rewrite Hc.
  rewrite Z.eqb_refl, (i32_small (Z.of_nat n)), u32_small by lia. apply (f_equal Ok), (i32_small (Z.of_nat n)). lia.
Qed.

(** The cleaner's thread runs, and the session of the router is open. *)
Lemma start_cleaner_ok n rtr mask h : host_ok env n h -> served env -> npf_cleaner rtr = None ->
  exists h', start_npf_cleaner env rtr mask h = Ok (0, mk_nwrouter (rtr_sess rtr) (Some (h_new h)) (worker_list rtr), h') /\ opened env n BSTGW_TRUST_ROUTER_CLEANER_SESSION h (h' <| h_affinity := h_affinity h |>) /\
    h_threads h' !! h_new h = Some (mk_thread (he_sid env (h_new h))) /\ h_affinity h' !! h_new h = Some mask.
Proof.
  intros Hok Hsv Hc. destruct (spawn_ok env n BSTGW_TRUST_ROUTER_CLEANER_SESSION h Hok Hsv ltac:(by right; left) ltac:(done)) as (h1 & E & Ho & Et).
  unfold start_npf_cleaner. rewrite Hc, E. cbn. unfold set_affinity. rewrite Et, lookup_insert_eq. cbn. rewrite (sv_pin _ Hsv). eexists. split; [done|].
  split; [|cbn; by rewrite Et, !lookup_insert_eq]. destruct Ho as [[] ? ? ? ?]. by split; [split|..].
Qed.

(** What the process has started: a thread for each of the [n] workers, with
    the session the worker is bound to, and one for the cleaner. *)
Record started (n : nat) (mask : Z) (rtr : bstgw_router) h : Prop := {
  sd_count : length (worker_list rtr) = n;
  sd_worker : forall w, (w < n)%nat -> exists t c, t ∈ worker_list rtr /\ lends h t w /\
    h_affinity h !! t = Some (CPU_SET c CPU_ZERO) /\ CPU_ISSET c mask = true /\ c <> 0;
  sd_apart : forall t t' a, t ∈ worker_list rtr -> t' ∈ worker_list rtr -> h_affinity h !! t = Some a -> h_affinity h !! t' = Some a -> t = t';
  sd_cleaner : exists t, npf_cleaner rtr = Some t /\ (t ∉ worker_list rtr) /\ h_threads h !! t = Some (mk_thread (he_sid env t)) /\
    sessions (h_tee h) !! he_sid env t = Some (mk_sess NpfWorker BSTGW_TRUST_ROUTER_CLEANER_SESSION) /\
    h_affinity h !! t = Some (CPU_SET 0 CPU_ZERO)
}.

(** What the process finds: online CPUs numbered from 0, more than one, and
    enough of them for the workers beside the first. *)
Record cpus_ok (n : nat) (mask : Z) : Prop := {
  co_parent : he_parent env = Some mask;
  co_nproc : 1 < he_nproc env;
  co_online : forall c, CPU_ISSET c mask = true -> c < he_nproc env;
  co_enough : Z.of_nat n <= CPU_COUNT (CPU_CLR 0 mask)
}.

Lemma start_router_ok n mask s0 fw :
  slots n n s0 -> sessions s0 = ∅ -> (1 <= n)%nat -> Z.of_nat n <= MAX_I32 -> served env -> cpus_ok n mask ->
  exists rtr0 h0 rtr h, nw_init_router env (mk_host s0 ∅ ∅ 0) = Ok (Some rtr0, h0) /\ start_router rtr0 fw h0 = Ok (rtr, h) /\
    (exists ws, loop_inv n 2 true (CPU_CLR 0 mask) n ws rtr h) /\ npf_cleaner rtr = Some 1%nat /\
    h_threads h !! 1%nat = Some (mk_thread (he_sid env 1%nat)) /\
    sessions (h_tee h) !! he_sid env 1%nat = Some (mk_sess NpfWorker BSTGW_TRUST_ROUTER_CLEANER_SESSION) /\
    h_affinity h !! 1%nat = Some (CPU_SET 0 CPU_ZERO).
Proof.
  intros Hsl Hno Hn1 Hn2 Hsv [Hpar Hnp Hon Hen].
  assert (host_ok env n (mk_host s0 ∅ ∅ 0)) as Hok0.
  { split; cbn; [by apply slots_inv| |intros sid x; by rewrite Hno, lookup_empty]. destruct Hsl as [_ (r & ? & _ & _ & _ & ? & _) _]. by exists r. }
  destruct (nw_open_ok env n BSTGW_TRUST_ROUTER_UNBOUND_SESSION _ Hok0 Hsv ltac:(by left) ltac:(done)) as (h0 & E0 & [Hok1 Hnew1 _ [wk0 Es0] Hr0] & _).
  cbn [h_new h_tee] in *. assert (wk0 = NoWorker) as -> by (destruct (pi_sess _ _ (ho_inv _ _ _ Hok1) _ _ Es0) as [[? _]|[[? _]|[_ ?]]]; done).
  unfold nw_init_router. rewrite E0. cbn [mbind outcome_bind]. eexists _, h0.
  destruct (start_cleaner_ok n (mk_nwrouter (he_sid env 0%nat) None []) (CPU_SET 0 CPU_ZERO) h0 Hok1 Hsv eq_refl) as (h1 & E1 & [Hok2 Hnew2 _ [wk1 Es1] Hr1] & Et1 & Ea1).
  rewrite Hnew1 in *. cbn [h_new h_tee rtr_sess worker_list] in *.
  assert (host_ok env n h1) as Hok2' by (destruct Hok2; by split).
  assert (wk1 = NpfWorker) as -> by (destruct (pi_sess _ _ (ho_inv _ _ _ Hok2') _ _ Es1) as [[? _]|[[_ ?]|[? _]]]; done).
  assert (sessions (h_tee h1) !! he_sid env 0%nat = Some (mk_sess NoWorker BSTGW_TRUST_ROUTER_UNBOUND_SESSION)) as Es0'.
  { change (h_tee h1) with (h_tee (h1 <| h_affinity := h_affinity h0 |>)). rewrite Hr1; [done|]. intros Hc. by apply (inj _) in Hc. }
  assert (loop_inv n 2 true (CPU_CLR 0 mask) 0 [] (mk_nwrouter (he_sid env 0%nat) (Some 1%nat) []) h1) as Hli.
  { split; try done; [apply NoDup_nil_2|]. intros sid x Hx Hty. destruct (ho_sids _ _ _ Hok2' _ _ Hx) as (k & Hk & ->).
    assert (k = 0 \/ k = 1)%nat as [-> | ->] by (change (h_new h1) with (h_new (h1 <| h_affinity := h_affinity h0 |>)) in Hk; lia).
    - rewrite Es0' in Hx. by injection Hx as <-.
    - change (h_tee h1) with (h_tee (h1 <| h_affinity := h_affinity h0 |>)) in Hx. rewrite Es1 in Hx. by injection Hx as <-. }
  destruct (start_loop_ok n 2 true (CPU_CLR 0 mask) n 0 [] _ h1 Hli Hsv eq_refl) as (ws & rtr & h & E2 & Hli' & Hk & Ec & _).
  exists rtr, h. split; [done|]. destruct (Hk 1%nat ltac:(lia)) as (-> & -> & ->). split; [|by split_and!; [exists ws|..]].
  unfold nw_start_router, prepare_cpu_masks. rewrite Hpar, (proj2 (Z.eqb_neq _ 1)) by lia.
  rewrite E1. cbn [mbind outcome_bind Z.eqb negb]. unfold start_workers. rewrite (nworkers_ok n (mk_nwrouter (he_sid env 0%nat) (Some 1%nat) []) fw h1 Hok2' Hn2 Es0'). cbn [mbind outcome_bind].
  rewrite (proj2 (Z.leb_gt _ 0)), Nat2Z.id by lia. change (CPU_XOR CPU_ZERO mask) with mask.
  rewrite (proj2 (Z.leb_le _ _) Hen). change (Z.of_nat 0) with 0 in E2. rewrite E2. done.
Qed.

Lemma started_of_loop n mask ws rtr h :
  cpus_ok n mask -> loop_inv n 2 true (CPU_CLR 0 mask) n ws rtr h -> npf_cleaner rtr = Some 1%nat ->
  h_threads h !! 1%nat = Some (mk_thread (he_sid env 1%nat)) ->
  sessions (h_tee h) !! he_sid env 1%nat = Some (mk_sess NpfWorker BSTGW_TRUST_ROUTER_CLEANER_SESSION) ->
  h_affinity h !! 1%nat = Some (CPU_SET 0 CPU_ZERO) -> started n mask rtr h.
Proof.
  intros [_ Hnp Hon Hen] Hli Hc Ht Hs Ha.
  assert (forall t, t ∈ worker_list rtr <-> (2 <= t < 2 + n)%nat) as Hin by (intros t; rewrite (li_list _ _ _ _ _ _ _ _ Hli), elem_of_reverse, elem_of_seq; done).
  assert (forall i, (i < n)%nat -> exists w c, ws !! i = Some w /\ cpus (CPU_CLR 0 mask) (he_nproc env) !! i = Some c /\ lends h (2 + i) w /\
    h_affinity h !! (2 + i)%nat = Some (CPU_SET c CPU_ZERO) /\ CPU_ISSET c mask = true /\ 0 < c < CPU_SETSIZE) as Hth.
  { intros i Hi. destruct (lookup_lt_is_Some_2 ws i) as [w Ew]; [by rewrite (li_len _ _ _ _ _ _ _ _ Hli)|].
    destruct (worker_mask_own env (CPU_CLR 0 mask) n i) as (c & Ec & Em); [lia|intros c Hcc; apply Hon; by apply cpu_clr_isset|done|done|].
    destruct (li_ws _ _ _ _ _ _ _ _ Hli i w Ew) as (_ & Hl & Haf). exists w, c. rewrite Em in Haf.
    pose proof (list_elem_of_lookup_2 _ _ _ Ec) as Hcf. apply list_elem_of_filter in Hcf as [Hcf _]. apply Is_true_true, cpu_clr_isset in Hcf as [? ?]. split_and!; (done || lia). }
  split.
  - rewrite (li_list _ _ _ _ _ _ _ _ Hli), length_reverse. apply length_seq.
  - intros w Hw. destruct (loop_all _ _ _ _ _ _ _ _ Hli Hw) as (i & Ei). assert (i < n)%nat as Hi by (rewrite <- (li_len _ _ _ _ _ _ _ _ Hli); by eapply lookup_lt_Some).
    destruct (Hth i Hi) as (w' & c & Ew & _ & Hl & Haf & Hm & Hcr). simplify_eq. exists (2 + i)%nat, c. split; [apply Hin; lia|]. split_and!; try done. lia.
  - intros t t' a [Ht1 Ht2]%Hin [Hu1 Hu2]%Hin Ea Ea'.
    destruct (Hth (t - 2)%nat ltac:(lia)) as (_ & c & _ & Ec & _ & Haf & _ & Hcr), (Hth (t' - 2)%nat ltac:(lia)) as (_ & c' & _ & Ec' & _ & Haf' & _ & Hcr').
    replace (2 + (t - 2))%nat with t in Haf by lia. replace (2 + (t' - 2))%nat with t' in Haf' by lia.
    rewrite Haf in Ea. rewrite Haf' in Ea'. simplify_eq. assert (c' = c) as -> by (apply cpu_set_inj; [lia|lia|congruence]).
    assert (t - 2 = t' - 2)%nat; [|lia]. eapply NoDup_lookup; [|exact Ec|exact Ec']. apply NoDup_filter, NoDup_seqZ.
  - exists 1%nat. split_and!; try done. rewrite Hin. lia.
Qed.

(** A thread with a worker's session runs that worker. *)
Lemma worker_turn h t w looped fw : h_threads h !! t = Some (mk_thread (he_sid env t)) ->
  sessions (h_tee h) !! he_sid env t = Some (mk_sess (RouterWorker w) BSTGW_TRUST_ROUTER_WORKER_SESSION) ->
  worker_thread 1 (fun _ => false) looped t fw (fun _ => h) = (p ← worker_run_napi (Some w) (h_tee h); Ok [RunsWorker p]).
Proof.
  intros Et Es. unfold run_worker. cbn [run_thread]. rewrite Et. cbn [deref mbind outcome_bind thread_sess]. rewrite Es.
  unfold invoke_command. cbn [sess_type sess_wk]. rewrite Z.eqb_refl. generalize (worker_run_napi (Some w) (h_tee h)). intros [p| |]; [|done|done].
  cbn. by destruct (negb _).
Qed.

(** Once the first thread has been freed, its list entry is read. *)
Lemma join_uaf n ws split mask rtr h : loop_inv n 2 split mask n ws rtr h -> (1 <= n)%nat -> join_workers (worker_list rtr) h = Undef.
Proof.
  intros Hli Hn. destruct n as [|n]; [lia|]. rewrite (li_list _ _ _ _ _ _ _ _ Hli), seq_S, reverse_app. cbn [reverse rev_append app].
  destruct (lookup_lt_is_Some_2 ws n) as [w Ew]; [rewrite (li_len _ _ _ _ _ _ _ _ Hli); lia|].
  destruct (li_ws _ _ _ _ _ _ _ _ Hli n w Ew) as (_ & [Et Es] & _).
  destruct (close_spec (S n) _ _ (h_tee h) (ho_inv _ _ _ (li_ok _ _ _ _ _ _ _ _ Hli)) Es) as (s' & Ec & _).
  change (reverse [(2 + n)%nat]) with [(2 + n)%nat]. cbn [app join_workers]. unfold nw_fini_router_thread. rewrite Et. cbn [deref mbind outcome_bind thread_sess].
  rewrite Ec. cbn. by rewrite lookup_delete_eq.
Qed.

(** C13. The process lends every worker of the router a thread: from the
    router as initialisation leaves it, with no session open, when the system
    serves every request and has a CPU for each of the [n] workers beside the
    first, the process opens its session, asks for the number of workers and
    starts exactly [n] worker threads and one cleaner.  Every worker is bound
    to the session of one of these threads, which then runs the loop of that
    very worker; each worker thread is pinned to a CPU of the process's mask,
    never to CPU 0, no two to the same; the cleaner has CPU 0.  The
    shutdown that follows, once the threads end, reads the list entry of a
    thread it has just freed. *)
Theorem host_starts_workers n mask s0 fw :
  slots n n s0 -> sessions s0 = ∅ -> (1 <= n)%nat -> Z.of_nat n <= MAX_I32 -> served env -> cpus_ok n mask ->
  exists rtr0 h0 rtr h, nw_init_router env (mk_host s0 ∅ ∅ 0) = Ok (Some rtr0, h0) /\ start_router rtr0 fw h0 = Ok (rtr, h) /\
    started n mask rtr h /\ pta_inv n (h_tee h) /\
    (forall t w looped, lends h t w ->
       worker_thread 1 (fun _ => false) looped t fw (fun _ => h) = (p ← worker_run_napi (Some w) (h_tee h); Ok [RunsWorker p])) /\
    runloop (Some rtr0) fw h0 = Undef.
Proof.
  intros Hsl Hno Hn1 Hn2 Hsv Hcpu. destruct (start_router_ok n mask s0 fw Hsl Hno Hn1 Hn2 Hsv Hcpu) as (rtr0 & h0 & rtr & h & E0 & E1 & [ws Hli] & Hc & Ht & Hs & Ha).
  exists rtr0, h0, rtr, h. split; [done|]. split; [done|]. split; [by apply (started_of_loop n mask ws)|]. split; [by apply (ho_inv env), (li_ok _ _ _ _ _ _ _ _ Hli)|]. split.
  - intros t w looped [Et Es]. apply worker_turn; done.
  - unfold nw_runloop_router. rewrite E1. cbn [mbind outcome_bind]. rewrite (join_uaf n ws true (CPU_CLR 0 mask) rtr h Hli Hn1). done.
Qed.

End starting.

(** ** Example: one worker, three CPUs *)

Definition ex_henv : host_env :=
  mk_henv (fun _ => true) (fun _ => true) (fun k => Z.of_nat k + 7) (fun _ => true) true (fun _ => true) (fun _ => true) (Some 7) 3.

Lemma ex_henv_served : served ex_henv.
Proof. by split. Qed.

Lemma ex_henv_cpus : cpus_ok ex_henv 1 7.
Proof.
  split; [done|done| |vm_compute; discriminate]. intros c. unfold CPU_ISSET. rewrite andb_true_iff. intros [_ Hb].
  destruct (Z.le_gt_cases 3 c); [|done]. rewrite Z.bits_above_log2 in Hb; [done|done|]. change (Z.log2 7) with 2. lia.
Qed.

#[local] Existing Instance ex_nvlist.

#[local] Instance ex_henv_inj : Inj (=) (=) (he_sid ex_henv).
Proof. intros x y. cbn. lia. Qed.

#[local] Abbreviation ex_host := (mk_host ex_one ∅ ∅ 0).

Lemma host_starts_workers_witness :
  exists rtr0 h0 rtr h, nw_init_router ex_henv ex_host = Ok (Some rtr0, h0) /\
    nw_start_router ex_run_op 99 4 true (fun _ => true) (fun _ _ => true) ex_henv rtr0 0 h0 = Ok (rtr, h) /\ started ex_henv 1 7 rtr h /\
    nw_runloop_router ex_run_op 99 4 true (fun _ => true) (fun _ _ => true) ex_henv (Some rtr0) 0 h0 = Undef.
Proof.
  destruct (host_starts_workers ex_run_op 99 4 true (fun _ => true) (fun _ _ => true) ex_henv 1 7 ex_one 0 ex_one_slots eq_refl ltac:(lia) ltac:(by vm_compute)
    ex_henv_served ex_henv_cpus) as (rtr0 & h0 & rtr & h & E0 & E1 & Hst & _ & _ & Hu).
  by exists rtr0, h0, rtr, h.
Defined.
