(* ===== verification/RespQueue.v ===== *)
(** * The queue of response chunks (configservice/ta/response_queue.c).

    A response is a linked list of chunks on the heap of the TA, each with a
    buffer it may own.  [queue] reads such a list off the heap; the
    operations are shown to be those of a list of chunks, except for
    [free_resp_queue], which frees its head again and again. *)

From S2P Require Import Prelude.

(** ** The heap *)

(** A pointer to bytes: a string literal, or an allocated block. *)
Inductive bufptr := Lit (b : list Z) | Mem (p : positive).

Record resp_chunk := mk_resp_chunk {
  rc_buf : option bufptr;
  rc_len : Z;
  rc_offset : Z;
  take_ownership : bool;
  rc_next : option positive
}.
#[global] Instance eta_resp_chunk : Settable resp_chunk :=
  fun c => mk_resp_chunk (rc_buf c) (rc_len c) (rc_offset c) (take_ownership c) (rc_next c).

(** The live chunks and byte blocks.  [answers i]: what the allocator does on
    request number [i]: nothing, or a block with these bytes in it. *)
Record heap := mk_heap {
  chunks : gmap positive resp_chunk;
  blocks : gmap positive (list Z);
  answers : nat -> option (nat -> Z);
  asked : nat
}.
#[global] Instance eta_heap : Settable heap := fun h => mk_heap (chunks h) (blocks h) (answers h) (asked h).

(** The next answer of the allocator. *)
Definition ask (h : heap) : option (nat -> Z) * heap := (answers h (asked h), h <| asked ::= S |>).

Definition malloc (sz : Z) (h : heap) : option positive * heap :=
  let '(a, h) := ask h in
  match a with
  | None => (None, h)
  | Some junk => let p := fresh (dom (blocks h)) in (Some p, h <| blocks ::= <[p := junk <$> seq 0 (Z.to_nat sz)]> |>)
  end.

Definition free (b : bufptr) (h : heap) : outcome heap :=
  match b with
  | Lit _ => Undef
  | Mem p => _ ← deref (blocks h !! p); Ok (h <| blocks ::= delete p |>)
  end.

(** The little-endian word at offset [off] of what the allocator returned. *)
Definition word (junk : nat -> Z) (off : nat) : Z :=
  u32 (junk off + 256 * (junk (S off) + 256 * (junk (S (S off)) + 256 * junk (S (S (S off)))))).

(** A chunk nothing has been written to. *)
Definition malloc_chunk (h : heap) : option positive * heap :=
  let '(a, h) := ask h in
  match a with
  | None => (None, h)
  | Some junk =>
      let p := fresh (dom (chunks h)) in
      (Some p, h <| chunks ::= <[p := mk_resp_chunk None (word junk 4) (word junk 8) (negb (word junk 12 =? 0)) None]> |>)
  end.

(** [n] bytes from offset [off] on. *)
Definition buf_read (h : heap) (b : bufptr) (off n : Z) : outcome (list Z) :=
  match b with
  | Lit d => mem_read d off n
  | Mem p => d ← deref (blocks h !! p); mem_read d off n
  end.

(** ** The operations *)

(** The loop of [free_resp_queue]; its fuel only runs out after a second
    round has read the chunk the first one freed. *)
Fixpoint free_loop (fuel : nat) (q : positive) (curr : option positive) (h : heap) : outcome heap :=
  match curr, fuel with
  | None, _ => Ok h
  | Some _, O => Undef
  | Some _, S fuel' =>
      c ← deref (chunks h !! q);
      h ← (match rc_buf c with
           | Some b => if take_ownership c then free b h else Ok h
           | None => Ok h
           end);
      free_loop fuel' q (rc_next c) (h <| chunks ::= delete q |>)
  end.

Definition free_resp_queue (q : option positive) (h : heap) : outcome heap :=
  match q with None => Ok h | Some p => free_loop 2 p q h end.

(** The last chunk of a list; the fuel is the number of chunks, and only a
    cyclic list exhausts it (the C loop would not end either). *)
Fixpoint last_chunk (fuel : nat) (p : positive) (h : heap) : outcome positive :=
  c ← deref (chunks h !! p);
  match rc_next c, fuel with
  | None, _ => Ok p
  | Some _, O => Undef
  | Some q, S fuel' => last_chunk fuel' q h
  end.

(** The new head of the queue, and the heap. *)
Definition append_resp_queue (qp entry : option positive) (h : heap) : outcome (option positive * heap) :=
  match entry with
  | None => Ok (qp, h)
  | Some e =>
      '(qp, h) ← (match qp with
                  | None => Ok (Some e, h)
                  | Some q => t ← last_chunk (size (chunks h)) q h;
                              Ok (Some q, h <| chunks ::= alter (fun c => c <| rc_next := Some e |>) t |>)
                  end);
      c ← deref (chunks h !! e);
      Ok (qp, h <| chunks ::= <[e := c <| rc_next := None |>]> |>)
  end.

Definition delete_head_resp_queue (qp : option positive) (h : heap) : outcome (option positive * heap) :=
  match qp with
  | None => Ok (None, h)
  | Some q =>
      c ← deref (chunks h !! q);
      h ← free_resp_queue (Some q) (h <| chunks ::= <[q := c <| rc_next := None |>]> |>);
      Ok (rc_next c, h)
  end.

Definition pack_into_resp_chunk (buf : option bufptr) (len : Z) (h : heap) : option positive * heap :=
  match buf with
  | None => (None, h)
  | Some b =>
      let '(d, h) := malloc_chunk h in
      match d with
      | None => (None, h)
      | Some p => (Some p, h <| chunks ::= <[p := mk_resp_chunk (Some b) len 0 false None]> |>)
      end
  end.

(** ** The list a queue stands for *)

(** The chunks in order; their own [rc_next] is of no account here. *)
Fixpoint queue (h : heap) (q : option positive) (l : list (positive * resp_chunk)) : Prop :=
  match l with
  | [] => q = None
  | (p, c) :: l' => q = Some p /\ exists nx, chunks h !! p = Some (c <| rc_next := nx |>) /\ queue h nx l'
  end.

(** The block a chunk owns. *)
Definition owns (c : resp_chunk) : option positive :=
  if take_ownership c then match rc_buf c with Some (Mem p) => Some p | _ => None end else None.

(** What a chunk refers to is there, and not shared with a chunk that owns it:
    [shared] are the blocks chunks may refer to without owning them. *)
Record chunk_ok (h : heap) (shared : list positive) (c : resp_chunk) : Prop := {
  ck_len : 0 <= rc_offset c <= rc_len c /\ rc_len c <= MAX_I32;
  ck_buf : match rc_buf c with
           | None => take_ownership c = false
           | Some (Lit b) => take_ownership c = false /\ rc_len c <= Z.of_nat (length b)
           | Some (Mem p) => (exists b, blocks h !! p = Some b /\ rc_len c <= Z.of_nat (length b)) /\ (take_ownership c = negb (bool_decide (p ∈ shared)))
           end
}.

(** What is left to send of a chunk, and of a queue. *)
Definition chunk_rest (h : heap) (c : resp_chunk) : list Z :=
  match rc_buf c with
  | None => []
  | Some (Lit b) => take (Z.to_nat (rc_len c - rc_offset c)) (drop (Z.to_nat (rc_offset c)) b)
  | Some (Mem p) => take (Z.to_nat (rc_len c - rc_offset c)) (drop (Z.to_nat (rc_offset c)) (default [] (blocks h !! p)))
  end.

Definition pending (h : heap) (l : list (positive * resp_chunk)) : list Z := concat (chunk_rest h <$> l.*2).

Record qwf (h : heap) (shared : list positive) (q : option positive) (l : list (positive * resp_chunk)) : Prop := {
  qw_queue : queue h q l;
  qw_nodup : NoDup l.*1;
  qw_chunks : Forall (chunk_ok h shared) l.*2;
  qw_owned : NoDup (omap owns l.*2)
}.

(** ** Lemmas *)

Lemma queue_frame h h' q l : (forall p, p ∈ l.*1 -> chunks h' !! p = chunks h !! p) -> queue h q l -> queue h' q l.
Proof.
  revert q. induction l as [|[p c] l IH]; intros q Hf; [done|]. intros (-> & nx & E & Hq). split; [done|].
  exists nx. split; [rewrite Hf; [done|set_solver]|]. apply IH; [set_solver|done].
Qed.

Lemma queue_live h q l p : queue h q l -> p ∈ l.*1 -> is_Some (chunks h !! p).
Proof.
  revert q. induction l as [|[p' c] l IH]; intros q; [set_solver|]. intros (-> & nx & E & Hq) [->|Hp]%elem_of_cons; [by eexists|eauto].
Qed.

Lemma queue_size h q l : queue h q l -> NoDup l.*1 -> (length l <= size (chunks h))%nat.
Proof.
  intros Hq Hnd. rewrite <- size_dom, <- (length_fmap fst l), <- (size_list_to_set (C := gset positive) l.*1) by done.
  apply subseteq_size. intros p Hp%elem_of_list_to_set. apply elem_of_dom. by eapply queue_live.
Qed.

Lemma last_chunk_ok h p c l fuel t ct :
  queue h (Some p) ((p, c) :: l) -> last ((p, c) :: l) = Some (t, ct) -> (length l <= fuel)%nat -> last_chunk fuel p h = Ok t.
Proof.
  revert p c fuel. induction l as [|[p' c'] l IH]; intros p c fuel (_ & nx & E & Hq) Hl Hf; cbn in Hq.
  - subst nx. injection Hl as -> _. destruct fuel; cbn; by rewrite E.
  - destruct Hq as (-> & Hq). cbn [length] in Hf. destruct fuel as [|fuel]; [lia|]. cbn. rewrite E. cbn.
    apply (IH p' c'); [by split|exact Hl|lia].
Qed.

Lemma queue_snoc h q l e ce t ct :
  queue h q (l ++ [(t, ct)]) -> NoDup ((l ++ [(t, ct)]).*1) -> e ∉ (l ++ [(t, ct)]).*1 ->
  queue (h <| chunks ::= alter (fun c => c <| rc_next := Some e |>) t |> <| chunks ::= <[e := ce <| rc_next := None |>]> |>) q ((l ++ [(t, ct)]) ++ [(e, ce)]).
Proof.
  revert q. induction l as [|[p c] l IH]; intros q; cbn.
  - intros (-> & nx & E & ->) Hnd He. split; [done|]. exists (Some e). assert (t <> e) by set_solver.
    rewrite lookup_insert_ne, lookup_alter_eq, E by done. split; [done|]. split; [done|]. exists None. by rewrite lookup_insert_eq.
  - intros (-> & nx & E & Hq) [Hp Hnd]%NoDup_cons He. split; [done|]. exists nx.
    assert (p <> e) by set_solver. assert (p <> t) by (rewrite fmap_app in Hp; set_solver).
    rewrite lookup_insert_ne, lookup_alter_ne by done. split; [done|].
    apply IH; [done|done|]. intros Hin. apply He, elem_of_cons. by right.
Qed.

Lemma chunk_ok_blocks h h' shared c : blocks h' = blocks h -> chunk_ok h shared c -> chunk_ok h' shared c.
Proof. intros E [? Hb]. split; [done|]. by rewrite E. Qed.

Lemma qwf_snoc h shared q l e c :
  NoDup l.*1 -> Forall (chunk_ok h shared) l.*2 -> NoDup (omap owns l.*2) -> e ∉ l.*1 -> chunk_ok h shared c ->
  (forall p, owns c = Some p -> p ∉ omap owns l.*2) -> queue h q (l ++ [(e, c)]) -> qwf h shared q (l ++ [(e, c)]).
Proof.
  intros Hnd Hck Hown He Hc Ho Hq. split; [done|rewrite fmap_app..].
  - apply NoDup_app. split; [done|]. split; [set_solver|apply NoDup_singleton].
  - apply Forall_app. by repeat constructor; try apply Hc.
  - rewrite omap_app. apply NoDup_app. split; [done|]. cbn. destruct (owns c) as [p|] eqn:Ep; cbn; [|split; [set_solver|constructor]].
    split; [|apply NoDup_singleton]. intros p' Hp' ->%list_elem_of_singleton. by apply (Ho p eq_refl).
Qed.

(** A chunk on the heap that is not in the queue is appended to it. *)
Lemma append_spec h shared q l e c :
  qwf h shared q l -> e ∉ l.*1 -> chunks h !! e = Some c -> chunk_ok h shared c -> (forall p, owns c = Some p -> p ∉ omap owns l.*2) ->
  exists q' h', append_resp_queue q (Some e) h = Ok (q', h') /\ qwf h' shared q' (l ++ [(e, c)]) /\ blocks h' = blocks h /\
    answers h' = answers h /\ asked h' = asked h /\ (forall p, p ∉ l.*1 -> p <> e -> chunks h' !! p = chunks h !! p).
Proof.
  intros [Hq Hnd Hck Hown] He Ee Hc Ho.
  destruct l as [|[t ct] l _] using rev_ind.
  - cbn in Hq. subst q. eexists _, _. split; [cbn; rewrite Ee; done|]. cbn. split_and!; try done; [|intros p _ Hp; by rewrite lookup_insert_ne].
    apply (qwf_snoc _ _ _ []); try done; [by apply (chunk_ok_blocks h)|]. cbn. split; [done|]. exists None. by rewrite lookup_insert_eq.
  - assert (exists p c' l', l ++ [(t, ct)] = (p, c') :: l') as (p & c' & l' & E) by (destruct l as [|[]]; cbn; eauto).
    assert (q = Some p) as -> by (rewrite E in Hq; by destruct Hq).
    assert (Hl : last_chunk (size (chunks h)) p h = Ok t).
    { rewrite E in Hq. apply (last_chunk_ok h p c' l' _ t ct); [done|by rewrite <- E, last_snoc|].
      pose proof (queue_size h (Some p) (l ++ [(t, ct)]) ltac:(by rewrite E) Hnd) as Hsz. rewrite E in Hsz. cbn in Hsz. lia. }
    assert (t <> e) by (rewrite fmap_app in He; set_solver).
    eexists _, _. split; [cbn [append_resp_queue]; rewrite Hl; cbn; rewrite lookup_alter_ne, Ee by done; done|]. split_and!; try done.
    + apply qwf_snoc; try done; [|by apply (chunk_ok_blocks h)|by apply (queue_snoc h)].
      eapply Forall_impl; [exact Hck|]. intros c''. by apply chunk_ok_blocks.
    + cbn. intros p' Hp' Hne. rewrite lookup_insert_ne, lookup_alter_ne; [done| |done]. rewrite fmap_app in Hp'. set_solver.
Qed.

Lemma pending_concat h l l' : pending h (l ++ l') = pending h l ++ pending h l'.
Proof. unfold pending. by rewrite !fmap_app, concat_app. Qed.

Lemma pending_blocks h h' l : blocks h' = blocks h -> pending h' l = pending h l.
Proof.
  intros E. unfold pending. f_equal. apply list_fmap_ext. intros _ c _. unfold chunk_rest. by rewrite E.
Qed.

(** Freeing the only chunk of a list. *)
Lemma free_one h shared p c :
  chunks h !! p = Some c -> rc_next c = None -> chunk_ok h shared c ->
  free_resp_queue (Some p) h = Ok (h <| blocks ::= (match owns c with Some b => delete b | None => id end) |> <| chunks ::= delete p |>).
Proof.
  intros E Hn [_ Hb]. unfold free_resp_queue. cbn [free_loop]. rewrite E. cbn [deref mbind outcome_bind]. rewrite Hn. unfold owns.
  destruct (rc_buf c) as [[b|b]|]; [destruct Hb as [-> _]; by destruct h| |rewrite Hb; by destruct h].
  destruct Hb as [(d & Eb & _) _]. destruct (take_ownership c); [|by destruct h]. cbn. by rewrite Eb.
Qed.

(** A list of two or more: the first round frees the head and goes on to the
    second chunk, with the head gone. *)
Lemma free_first h shared p c p' c' l :
  qwf h shared (Some p) ((p, c) :: (p', c') :: l) ->
  exists h', (forall n, free_loop (S n) p (Some p) h = free_loop n p (Some p') h') /\ chunks h' !! p = None.
Proof.
  intros [(_ & nx & E & (-> & _)) _ Hc _]. apply Forall_cons in Hc as [[_ Hb] _]. cbn in Hb.
  exists ((match rc_buf c with
           | Some b => if take_ownership c then match b with Mem q => h <| blocks ::= delete q |> | Lit _ => h end else h
           | None => h
           end) <| chunks ::= delete p |>). split; [|by cbn; rewrite lookup_delete_eq].
  intros n. cbn [free_loop]. rewrite E. cbn [deref mbind outcome_bind upd rc_buf take_ownership rc_next]. revert Hb.
  destruct (rc_buf c) as [[b|b]|]; intros Hb; [by destruct Hb as [-> _]| |done].
  destruct Hb as [(d & Eb & _) _]. destruct (take_ownership c); [|done]. cbn. by rewrite Eb.
Qed.

(** The second round reads the head again. *)
Lemma free_two h shared p c p' c' l :
  qwf h shared (Some p) ((p, c) :: (p', c') :: l) -> free_resp_queue (Some p) h = Undef.
Proof.
  intros (h' & E & Hn)%free_first. unfold free_resp_queue. rewrite E. cbn. by rewrite Hn.
Qed.

(** The block of another chunk goes: this one keeps its own. *)
Lemma chunk_ok_delete h h' shared c c' b :
  owns c = Some b -> chunk_ok h shared c -> chunk_ok h shared c' -> owns c' <> Some b -> blocks h' = delete b (blocks h) ->
  chunk_ok h' shared c' /\ chunk_rest h' c' = chunk_rest h c'.
Proof.
  unfold owns. intros Ec [_ Hc] [Hl Hc'] Ho Eb. destruct (take_ownership c) eqn:Et; [|done]. destruct (rc_buf c) as [[]|]; try done. injection Ec as ->.
  destruct Hc as [_ Hs]. apply eq_sym, negb_true_iff, bool_decide_eq_false in Hs. unfold chunk_rest. destruct (rc_buf c') as [[d|b']|] eqn:E'; [split; [split|]; by rewrite ?E'| |split; [split|]; by rewrite ?E'].
  assert (b' <> b) as Hne.
  { intros ->. destruct Hc' as [_ Hs']. rewrite (bool_decide_eq_false_2 _ Hs) in Hs'. rewrite Hs' in Ho. done. }
  rewrite Eb, lookup_delete_ne by done. split; [|done]. split; [done|]. by rewrite E', Eb, lookup_delete_ne.
Qed.

Lemma rest_ok_delete h h' shared c l :
  chunk_ok h shared c -> Forall (chunk_ok h shared) l.*2 -> NoDup (omap owns (c :: l.*2)) ->
  blocks h' = match owns c with Some b => delete b (blocks h) | None => blocks h end ->
  Forall (chunk_ok h' shared) l.*2 /\ pending h' l = pending h l.
Proof.
  intros Hc Hck Hown Eb. unfold pending. induction l as [|[p' c'] l IH]; [done|]. cbn in *. apply Forall_cons in Hck as [Hc' Hck].
  assert (chunk_ok h' shared c' /\ chunk_rest h' c' = chunk_rest h c') as [H1 H2].
  { destruct (owns c) as [b|] eqn:Eo; [|split; [by apply (chunk_ok_blocks h)|unfold chunk_rest; by rewrite Eb]].
    apply (chunk_ok_delete h h' shared c c' b); try done. intros Eo'. rewrite Eo' in Hown. apply NoDup_cons in Hown as [Hin _]. set_solver. }
  destruct IH as [H3 H4]; [done| |split; [by constructor|by rewrite H2, H4]].
  destruct (owns c); [|destruct (owns c'); [by apply NoDup_cons in Hown as [_ ?]|done]].
  apply NoDup_cons in Hown as [Hin Hown]. apply NoDup_cons. destruct (owns c'); [split; [set_solver|by apply NoDup_cons in Hown as [_ ?]]|done].
Qed.

Lemma qwf_cons h shared q p c l :
  qwf h shared q ((p, c) :: l) ->
  q = Some p /\ (exists nx, chunks h !! p = Some (c <| rc_next := nx |>) /\ queue h nx l) /\ (p ∉ l.*1) /\ NoDup (l.*1) /\
  chunk_ok h shared c /\ Forall (chunk_ok h shared) l.*2 /\ NoDup (omap owns (c :: l.*2)).
Proof.
  intros [(-> & nx & E & Hq) Hnd Hck Hown]. change (NoDup (p :: l.*1)) in Hnd. change (Forall (chunk_ok h shared) (c :: l.*2)) in Hck.
  apply NoDup_cons in Hnd as [Hp Hnd]. apply Forall_cons in Hck as [Hc Hck]. split; [done|]. split; [by exists nx|]. done.
Qed.

(** Removing the head: its own block goes with it. *)
Lemma delete_head_spec h shared p c l :
  qwf h shared (Some p) ((p, c) :: l) ->
  exists q' h', delete_head_resp_queue (Some p) h = Ok (q', h') /\ chunks h !! p = Some (c <| rc_next := q' |>) /\
    qwf h' shared q' l /\ pending h' l = pending h l /\
    blocks h' = match owns c with Some b => delete b (blocks h) | None => blocks h end /\
    answers h' = answers h /\ asked h' = asked h /\ chunks h' = delete p (chunks h).
Proof.
  intros (_ & (nx & E & Hq) & Hp & Hnd & Hc & Hck & Hown)%qwf_cons.
  set (h1 := h <| chunks ::= <[p := c <| rc_next := nx |> <| rc_next := None |>]> |>).
  set (h2 := h1 <| blocks ::= (match owns c with Some b => delete b | None => id end) |> <| chunks ::= delete p |>).
  assert (Hf : free_resp_queue (Some p) h1 = Ok h2).
  { rewrite (free_one h1 shared p (c <| rc_next := None |>)); [done|by apply lookup_insert_eq|done|]. apply (chunk_ok_blocks h); [done|]. destruct Hc. by split. }
  assert (Eb : blocks h2 = match owns c with Some b => delete b (blocks h) | None => blocks h end) by (cbn; by destruct (owns c)).
  destruct (rest_ok_delete h h2 shared c l) as [H1 H2]; try done.
  exists nx, h2. split; [cbn [delete_head_resp_queue]; rewrite E; cbn [deref mbind outcome_bind]; fold h1; rewrite Hf; done|].
  split; [done|]. split; [split; try done|split_and!; try done].
  - eapply queue_frame; [|done]. intros p' Hp'. cbn. assert (p' <> p) by congruence. by rewrite lookup_delete_ne, lookup_insert_ne.
  - cbn in Hown. destruct (owns c); [by apply NoDup_cons in Hown as [_ ?]|done].
  - cbn. by rewrite delete_insert_eq.
Qed.

(** ** Allocation *)

Lemma malloc_spec sz h o h' :
  malloc sz h = (o, h') -> chunks h' = chunks h /\
  match o with
  | None => blocks h' = blocks h
  | Some p => blocks h !! p = None /\ exists b, length b = Z.to_nat sz /\ blocks h' = <[p := b]> (blocks h)
  end.
Proof.
  unfold malloc, ask. destruct (answers h (asked h)) as [junk|]; intros [= <- <-]; [|done]. split; [done|].
  split; [apply not_elem_of_dom, (is_fresh (dom (blocks h) : gset positive))|]. exists (junk <$> seq 0 (Z.to_nat sz)).
  split; [by rewrite length_fmap, length_seq|done].
Qed.

Lemma pack_spec b len h o h' :
  pack_into_resp_chunk (Some b) len h = (o, h') -> blocks h' = blocks h /\
  match o with
  | None => chunks h' = chunks h
  | Some p => chunks h !! p = None /\ chunks h' = <[p := mk_resp_chunk (Some b) len 0 false None]> (chunks h)
  end.
Proof.
  unfold pack_into_resp_chunk, malloc_chunk, ask. destruct (answers h (asked h)) as [junk|]; intros [= <- <-]; [|done]. split; [done|].
  split; [apply not_elem_of_dom, (is_fresh (dom (chunks h) : gset positive))|]. cbn. by rewrite insert_insert_eq.
Qed.

(** An allocator that always answers. *)
Lemma malloc_answers sz h o h' : malloc sz h = (o, h') -> answers h' = answers h /\ (is_Some (answers h (asked h)) -> is_Some o).
Proof. unfold malloc, ask. destruct (answers h (asked h)); intros [= <- <-]; [|done]. split; [done|by eexists]. Qed.

Lemma pack_answers b len h o h' :
  pack_into_resp_chunk (Some b) len h = (o, h') -> answers h' = answers h /\ (is_Some (answers h (asked h)) -> is_Some o).
Proof. unfold pack_into_resp_chunk, malloc_chunk, ask. destruct (answers h (asked h)); intros [= <- <-]; [|done]. split; [done|by eexists]. Qed.

Lemma chunk_ok_mono h h' shared c : blocks h ⊆ blocks h' -> chunk_ok h shared c -> chunk_ok h' shared c /\ chunk_rest h' c = chunk_rest h c.
Proof.
  intros Hs [Hl Hb]. unfold chunk_rest. destruct (rc_buf c) as [[d|p]|] eqn:E; [split; [split|]; by rewrite ?E| |split; [split|]; by rewrite ?E].
  destruct Hb as [(b & Eb & Hlen) Ho]. pose proof (lookup_weaken _ _ _ _ Eb Hs) as Eb'. rewrite Eb, Eb'. split; [|done].
  split; [done|]. rewrite E. split; [by exists b|done].
Qed.

(** A queue survives allocations. *)
Lemma qwf_mono h h' shared q l :
  (forall p, p ∈ l.*1 -> chunks h' !! p = chunks h !! p) -> blocks h ⊆ blocks h' -> qwf h shared q l ->
  qwf h' shared q l /\ pending h' l = pending h l.
Proof.
  intros Hc Hb [Hq Hnd Hck Hown]. split.
  - split; [by eapply queue_frame|done| |done]. eapply Forall_impl; [exact Hck|]. intros c Hcc. by apply (chunk_ok_mono h).
  - unfold pending. f_equal. clear Hq Hnd Hown Hc. induction l as [|[p c] l IH]; [done|]. cbn in *. apply Forall_cons in Hck as [H1 H2].
    f_equal; [by apply (chunk_ok_mono h h' shared)|by apply IH].
Qed.

(** ** Sending *)

Lemma chunk_read h shared c b :
  chunk_ok h shared c -> rc_buf c = Some b ->
  buf_read h b (rc_offset c) (rc_len c - rc_offset c) = Ok (chunk_rest h c) /\ Z.of_nat (length (chunk_rest h c)) = rc_len c - rc_offset c.
Proof.
  intros [[[H1 H2] H3] Hb] E. unfold chunk_rest, buf_read. rewrite E in *.
  assert (forall d : list Z, rc_len c <= Z.of_nat (length d) -> mem_read d (rc_offset c) (rc_len c - rc_offset c) =
    Ok (take (Z.to_nat (rc_len c - rc_offset c)) (drop (Z.to_nat (rc_offset c)) d)) /\
    Z.of_nat (length (take (Z.to_nat (rc_len c - rc_offset c)) (drop (Z.to_nat (rc_offset c)) d))) = rc_len c - rc_offset c) as Hd.
  { intros d Hd. unfold mem_read. rewrite !(proj2 (Z.leb_le _ _)) by lia. split; [done|]. rewrite length_take, length_drop. lia. }
  destruct b as [d|p]; [apply Hd; by destruct Hb|]. destruct Hb as [(d & Ed & Hl) _]. rewrite Ed. cbn. by apply Hd.
Qed.

(** Part of the head has been sent. *)
Lemma qwf_partial h shared p c cc l n :
  qwf h shared (Some p) ((p, c) :: l) -> chunks h !! p = Some cc -> 0 <= n <= rc_len c - rc_offset c ->
  let h' := h <| chunks ::= <[p := cc <| rc_offset := rc_offset c + n |>]> |> in
  let c' := c <| rc_offset := rc_offset c + n |> in
  qwf h' shared (Some p) ((p, c') :: l) /\ pending h' ((p, c') :: l) = drop (Z.to_nat n) (chunk_rest h c) ++ pending h l.
Proof.
  intros Hq Ec Hn h' c'. pose proof (qwf_cons _ _ _ _ _ _ Hq) as (_ & (nx & E & Hq') & Hp & Hnd & Hc & Hck & Hown). rewrite Ec in E. injection E as ->.
  assert (Hc' : chunk_ok h' shared c') by (destruct Hc as [Hl Hb]; split; [cbn; lia|done]). split.
  - split; [|by apply (qw_nodup _ _ _ _ Hq)| |exact Hown].
    + split; [done|]. exists nx. split; [apply lookup_insert_eq|]. eapply queue_frame; [|done]. intros p' Hp'. apply lookup_insert_ne. congruence.
    + constructor; [done|]. eapply Forall_impl; [exact Hck|]. intros c0. by apply chunk_ok_blocks.
  - unfold pending. cbn [fmap list_fmap snd concat]. f_equal. destruct Hc as [[? ?] _]. unfold chunk_rest. cbn.
    replace (Z.to_nat (rc_offset c + n)) with (Z.to_nat (rc_offset c) + Z.to_nat n)%nat by lia.
    replace (Z.to_nat (rc_len c - (rc_offset c + n))) with (Z.to_nat (rc_len c - rc_offset c) - Z.to_nat n)%nat by lia.
    destruct (rc_buf c) as [[d|b]|]; [by rewrite skipn_firstn_comm, drop_drop|by rewrite skipn_firstn_comm, drop_drop|by rewrite drop_nil].
Qed.
