(* ===== verification/Https.v ===== *)
(** * The HTTPS server of the ConfigService TA (configservice/ta/secure_ta.c,
    parser_utils.c, sw_crt_mng.c and sw_fileio.c).

    Bytes that mbedTLS decrypts are collected in the client's request buffer,
    parsed, and dispatched to the handlers of GET and POST requests; the
    responses go to the client's queue and out through mbedTLS.  mbedTLS, the
    HTTP parser and the calls to another TA are interfaces. *)

From stdpp Require Import strings pretty.
From S2P Require Import Prelude Ringbuf RespQueue Router Pta.

(** ** The interfaces *)

(** The rings the transport callbacks work on: received, to be sent. *)
Abbreviation rings := (sw_buff_t * sw_buff_t)%type.

(** mbedTLS: a configuration, the context of a connection.  A certificate is
    its DER encoding.  [ssl_setup] depends on whether there is memory;
    [ssl_read] gives its return value and the bytes it
    put into the buffer; [x509_crt_parse] its return value and the first
    certificate; [base64_encode] its return value and the text, for a
    destination of the given size. *)
Class MbedTLS (CONF SSL : Type) := {
  ssl_setup : CONF -> option (nat -> Z) -> Z * SSL;
  ssl_handshake : CONF -> rings -> SSL -> outcome (Z * SSL * rings);
  ssl_read : CONF -> rings -> SSL -> Z -> outcome (Z * list Z * SSL * rings);
  ssl_write : CONF -> rings -> SSL -> list Z -> outcome (Z * SSL * rings);
  ssl_close_notify : CONF -> rings -> SSL -> outcome (Z * SSL * rings);
  ssl_get_verify_result : SSL -> Z;
  ssl_get_peer_cert : SSL -> option (list Z);
  x509_crt_parse : list Z -> Z * list Z;
  base64_encode : Z -> list Z -> Z * list Z
}.

Definition MBEDTLS_X509_BADCERT_MISSING : Z := 0x40.
Definition MBEDTLS_X509_BADCERT_SKIP_VERIFY : Z := 0x80.
Definition MBEDTLS_ERR_SSL_PEER_VERIFY_FAILED : Z := -0x7800.
Definition MBEDTLS_ERR_SSL_PEER_CLOSE_NOTIFY : Z := -0x7880.

(** picohttpparser: its return value (-1: malformed, -2: incomplete, else the
    length of the request line and headers), and what it found; the second
    argument is the number of headers there is room for. *)
Record phr_result := mk_phr { phr_ret : Z; phr_method : list Z; phr_path : list Z; phr_headers : list (list Z * list Z) }.
Class HttpParser := phr_parse_request : list Z -> Z -> phr_result.

(** Sessions with other TAs. *)
Class TeeClient (P : Type) := {
  TEE_OpenTASession : uuid -> Z -> list tee_param -> P -> outcome (Z * Z * P);
  TEE_InvokeTACommand : Z -> Z -> Z -> list tee_param -> P -> outcome (Z * list tee_param * P);
  TEE_CloseTASession : Z -> P -> outcome P
}.

Definition BSTGW_PTA_TRUST_ROUTER_UUID : uuid :=
  (0x0d976d02, 0xc3d0, 0x4709, [0x9e; 0x41; 0xdb; 0xe5; 0xea; 0xbd; 0x4f; 0x40]).

(** ** State *)

Inductive client_type := USER | ADMIN | MASTER | PENDING | INVALID.

#[global] Instance client_type_eq_dec : EqDecision client_type.
Proof. solve_decision. Defined.

(** [sizeof(http_req_buffer.buffer)] *)
Definition HTTP_BUFFER_SIZE : Z := 4096.

Definition bytes (s : string) : list Z := (fun c => Z.of_N (Ascii.N_of_ascii c)) <$> String.list_ascii_of_string s.

Record parsing_info := mk_pinfo {
  nparsed : Z;
  method : list Z;
  path : list Z;
  headers : list (list Z * list Z);
  body : option Z;   (** an offset into the request buffer *)
  body_len : Z
}.

(** What a client's requests work on: the client itself ([conf] is empty once
    the server's configuration is freed) and the TA's heap and global
    variables; [pta] is the rest of the system, behind [TeeClient]. *)
Record hst (CONF SSL P : Type) := mk_hst {
  conf : option CONF;
  ssl : SSL;
  rxtx : option rings;
  req_buffer : list Z;
  req_next : Z;
  is_partial_request : bool;
  resp_buffer : option positive;
  hp : heap;
  master : option (list Z);
  allowlist : list (list Z);
  user_app : option positive;
  admin_app : option positive;
  master_app : option positive;
  pending_app : option positive;
  pta : P
}.
Arguments mk_hst {CONF SSL P}. Arguments conf {CONF SSL P}. Arguments ssl {CONF SSL P}. Arguments rxtx {CONF SSL P}.
Arguments req_buffer {CONF SSL P}. Arguments req_next {CONF SSL P}. Arguments is_partial_request {CONF SSL P}.
Arguments resp_buffer {CONF SSL P}. Arguments hp {CONF SSL P}. Arguments master {CONF SSL P}. Arguments allowlist {CONF SSL P}.
Arguments user_app {CONF SSL P}. Arguments admin_app {CONF SSL P}. Arguments master_app {CONF SSL P}.
Arguments pending_app {CONF SSL P}. Arguments pta {CONF SSL P}.
#[global] Instance eta_hst {CONF SSL P} : Settable (hst CONF SSL P) :=
  fun s => mk_hst (conf s) (ssl s) (rxtx s) (req_buffer s) (req_next s) (is_partial_request s) (resp_buffer s) (hp s)
             (master s) (allowlist s) (user_app s) (admin_app s) (master_app s) (pending_app s) (pta s).

(** ** Parsing helpers *)

Fixpoint find_header (nm : list Z) (l : list (list Z * list Z)) : option (list Z) :=
  match l with
  | [] => None
  | (n, v) :: l' => if bool_decide (n = nm) then Some v else find_header nm l'
  end.

Definition csrf_hdr : list Z := bytes "BstGw-no-csrf".

Definition has_csrf_header (pi : parsing_info) : bool := bool_decide (is_Some (find_header csrf_hdr (headers pi))).

Definition has_body (pi : parsing_info) : bool :=
  negb (bool_decide (body pi = None) || (body_len pi <=? 0)).

Definition has_expected_content_type (pi : parsing_info) (exp_type : list Z) : bool :=
  match find_header (bytes "Content-Type") (headers pi) with
  | None => false
  | Some v => bool_decide (v = exp_type)
  end.

Definition ULONG_MAX : Z := 4294967295.

Fixpoint ul_skip (l : list Z) : list Z :=
  match l with
  | c :: l' => if ((9 <=? c) && (c <=? 13)) || (c =? 32) then ul_skip l' else l
  | [] => []
  end.

Fixpoint ul_digits (acc : Z) (l : list Z) : Z :=
  match l with
  | c :: l' => if (48 <=? c) && (c <=? 57) then ul_digits (10 * acc + (c - 48)) l' else acc
  | [] => acc
  end.

(** [strtoul(s, NULL, 10)] *)
Definition strtoul (l : list Z) : Z :=
  let '(neg, l) := match ul_skip l with 43 :: l' => (false, l') | 45 :: l' => (true, l') | l' => (false, l') end in
  let v := ul_digits 0 l in
  if ULONG_MAX <? v then ULONG_MAX else if neg then u32 (- v) else v.

(** The scan for the length of the body: nothing when the number cannot be
    read (-1 is returned), else the body and its length. *)
Definition content_length (bp n : Z) (hs : list (list Z * list Z)) : outcome (option (option Z * Z)) :=
  match find_header (bytes "Content-Length") hs with
  | None => Ok (Some (None, 0))
  | Some v =>
      if 10 <? Z.of_nat (length v) then Panic else
      let len := strtoul v in
      if (len =? ULONG_MAX) || ((len =? 0) && negb (bool_decide (v !! 0%nat = Some 48))) then Ok None
      else Ok (Some (Some (bp + n), len))
  end.

(** [strlen]: the bytes before the terminator. *)
Fixpoint c_string (l : list Z) : outcome (list Z) :=
  match l with
  | [] => Undef
  | c :: l' => if c =? 0 then Ok [] else r ← c_string l'; Ok (c :: r)
  end.

(** ** The operations *)

Section https.
Context {CONF SSL P : Type} `{MbedTLS CONF SSL} `{TeeClient P} `{HttpParser}.
Implicit Types s : hst CONF SSL P.

(** *** Calls of mbedTLS for the client *)

Definition tls_read (n : Z) s : outcome (Z * list Z * hst CONF SSL P) :=
  cf ← deref (conf s);
  rg ← assert_ptr (rxtx s);
  '(r, d, x, rg) ← ssl_read cf rg (ssl s) n;
  Ok (r, d, s <| ssl := x |> <| rxtx := Some rg |>).

Definition tls_write (d : list Z) s : outcome (Z * hst CONF SSL P) :=
  cf ← deref (conf s);
  rg ← assert_ptr (rxtx s);
  '(r, x, rg) ← ssl_write cf rg (ssl s) d;
  Ok (r, s <| ssl := x |> <| rxtx := Some rg |>).

Definition tls_close_notify s : outcome (hst CONF SSL P) :=
  cf ← deref (conf s);
  rg ← assert_ptr (rxtx s);
  '(_, x, rg) ← ssl_close_notify cf rg (ssl s);
  Ok (s <| ssl := x |> <| rxtx := Some rg |>).

(** *** Who the client is *)

Definition TEST_MASTER_CERT_PEM : list Z :=
  bytes "-----BEGIN CERTIFICATE-----" ++ [10] ++ bytes "-----END CERTIFICATE-----" ++ [10].

Definition load_master_cert s : Z * hst CONF SSL P :=
  match master s with
  | Some _ => (-1, s)
  | None =>
      let '(ret, crt) := x509_crt_parse (TEST_MASTER_CERT_PEM ++ [0]) in
      (ret, if ret =? 0 then s <| master := Some crt |> else s)
  end.

Definition get_master_cert s : option (list Z) * hst CONF SSL P :=
  match master s with
  | Some m => (Some m, s)
  | None => let '(ret, s) := load_master_cert s in (if ret =? 0 then master s else None, s)
  end.

Definition get_cert_type (crt : list Z) s : outcome (client_type * hst CONF SSL P) :=
  let '(mstr, s) := get_master_cert s in
  match mstr with
  | None => Panic
  | Some m =>
      if bool_decide (crt = m) then Ok (MASTER, s) else
      if bool_decide (crt ∈ allowlist s) then Ok (ADMIN, s) else Ok (PENDING, s)
  end.

Definition get_client_type s : outcome (client_type * hst CONF SSL P) :=
  let v := ssl_get_verify_result (ssl s) in
  if v =? MBEDTLS_X509_BADCERT_MISSING then Ok (USER, s) else
  if v =? MBEDTLS_X509_BADCERT_SKIP_VERIFY then Ok (USER, s) else
  if v =? 0 then
    match ssl_get_peer_cert (ssl s) with
    | None => Ok (INVALID, s)
    | Some adm_crt => get_cert_type adm_crt s
    end
  else Ok (INVALID, s).

Definition allow_admin_cert (crt : list Z) s : Z * hst CONF SSL P := (0, s <| allowlist ::= fun l => l ++ [crt] |>).

Definition print_user_type (ty : client_type) : outcome unit :=
  match ty with INVALID => Panic | _ => Ok tt end.

Definition get_web_app (ty : client_type) s : option positive :=
  match ty with
  | USER => user_app s
  | ADMIN => admin_app s
  | MASTER => master_app s
  | PENDING => pending_app s
  | INVALID => None
  end.

(** *** Responses *)

(** Sending what is left of chunk [p], which is [c]: the value to return, if
    the queue is not to be sent any further. *)
Definition flush_chunk (p : positive) (c : resp_chunk) s : outcome (option Z * hst CONF SSL P) :=
  let to_sent := i32 (rc_len c - rc_offset c) in
  match rc_buf c with
  | Some b =>
      if to_sent <=? 0 then Ok (None, s) else
      d ← buf_read (hp s) b (rc_offset c) to_sent;
      '(nsent, s) ← tls_write d s;
      if nsent <? 0 then Ok (Some nsent, s) else
      if negb (nsent =? to_sent) then
        Ok (Some MBEDTLS_ERR_SSL_WANT_WRITE,
            s <| hp ::= fun h => h <| chunks ::= <[p := c <| rc_offset := u32 (rc_offset c + nsent) |>]> |> |>)
      else if nsent =? 0 then Panic else Ok (None, s)
  | None => Ok (None, s)
  end.

(** The loop of [flush_resp_queue]; the fuel is the number of chunks. *)
Fixpoint flush_loop (fuel : nat) (curr : option positive) s : outcome (Z * hst CONF SSL P) :=
  match curr, fuel with
  | None, _ => Ok (0, s)
  | Some _, O => Undef
  | Some p, S fuel' =>
      c ← deref (chunks (hp s) !! p);
      '(early, s) ← flush_chunk p c s;
      match early with
      | Some r => Ok (r, s)
      | None =>
          '(q, h) ← delete_head_resp_queue (resp_buffer s) (hp s);
          flush_loop fuel' (rc_next c) (s <| resp_buffer := q |> <| hp := h |>)
      end
  end.

Definition flush_resp_queue s : outcome (Z * hst CONF SSL P) := flush_loop (size (chunks (hp s))) (resp_buffer s) s.

Definition crlf : list Z := [13; 10].

Definition http_resp_tmplt : list Z :=
  bytes "HTTP/1.1 %d %s" ++ crlf ++ bytes "Content-Length: %ld" ++ crlf ++ bytes "ContentType: %s" ++ crlf ++ crlf.

(** What [snprintf] makes of the template. *)
Definition resp_header (code : Z) (status : string) (blen : Z) (type : string) : list Z :=
  bytes "HTTP/1.1 " ++ bytes (pretty code) ++ bytes " " ++ bytes status ++ crlf ++
  bytes "Content-Length: " ++ bytes (pretty (i32 blen)) ++ crlf ++ bytes "ContentType: " ++ bytes type ++ crlf ++ crlf.

Definition send_http_resp (code : Z) (status : string) (datalen : Z) (body_chunk : option positive) (data_type : string)
    s : outcome (Z * hst CONF SSL P) :=
  let outlen := Z.of_nat (length http_resp_tmplt) - 12 + 100 in
  let '(outbuf, h) := malloc outlen (hp s) in
  match outbuf with
  | None => Ok (-1, s <| hp := h |>)
  | Some ob =>
      let '(blen, type) := match body_chunk with
                           | Some _ => if 0 <? datalen then (datalen, data_type) else (0, EmptyString)
                           | None => (0, EmptyString)
                           end in
      let hdr := resp_header code status blen type in
      let nsent := Z.of_nat (length hdr) in
      mem ← deref (blocks h !! ob);
      mem ← mem_write mem 0 (take (Z.to_nat (outlen - 1)) hdr ++ [0]);
      let h := h <| blocks ::= <[ob := mem]> |> in
      let '(hdr_chunk, h) := pack_into_resp_chunk (Some (Mem ob)) nsent h in
      match hdr_chunk with
      | None => h ← free (Mem ob) h; Ok (-1, s <| hp := h |>)
      | Some hc =>
          let h := h <| chunks ::= alter (fun c => c <| take_ownership := true |>) hc |> in
          '(q, h) ← append_resp_queue (resp_buffer s) (Some hc) h;
          '(q, h) ← append_resp_queue q body_chunk h;
          flush_resp_queue (s <| resp_buffer := q |> <| hp := h |>)
      end
  end.

Definition send_http_err_resp (err : Z) (msg : string) s : outcome (Z * hst CONF SSL P) :=
  if (err =? 204) || (err =? 304) || ((100 <=? err) && (err <=? 199)) then Panic else
  send_http_resp err msg 0 None EmptyString s.

(** *** GET *)

Definition handle_get_request (pi : parsing_info) s : outcome (Z * hst CONF SSL P) :=
  '(user_type, s) ← get_client_type s;
  if negb (bool_decide (path pi = bytes "/")) then send_http_err_resp 404 "Not Found" s else
  match get_web_app user_type s with
  | None => send_http_err_resp 403 "Forbidden" s
  | Some webapp =>
      mem ← deref (blocks (hp s) !! webapp);
      text ← c_string mem;
      let len := Z.of_nat (length text) in
      let '(webapp_chunk, h) := pack_into_resp_chunk (Some (Mem webapp)) len (hp s) in
      match webapp_chunk with
      | None => Ok (-1, s <| hp := h |>)
      | Some _ => send_http_resp 200 "OK" len webapp_chunk "text/html" (s <| hp := h |>)
      end
  end.

(** *** POST *)

Definition dummy_handler (pi : parsing_info) s : outcome (Z * hst CONF SSL P) :=
  send_http_resp 200 "OK" 0 None EmptyString s.

Definition MAX_NVLIST_RESP : Z := 8192.

(** The body of the request: [body] points into the request buffer. *)
Definition body_bytes (pi : parsing_info) s : outcome (list Z) :=
  off ← deref (body pi);
  mem_read (req_buffer s) off (body_len pi).

Definition zero_param : tee_param := mk_param 0 None 0.

Definition npfctl_fail (resp_buffer : positive) s : outcome (Z * hst CONF SSL P) :=
  h ← free (Mem resp_buffer) (hp s);
  send_http_err_resp 500 "Internal Server Error" (s <| hp := h |>).

Definition post_npfctl_cmd (pi : parsing_info) s : outcome (Z * hst CONF SSL P) :=
  if body_len pi =? 0 then Ok (-1, s) else
  let '(buf, h) := malloc MAX_NVLIST_RESP (hp s) in
  let s := s <| hp := h |> in
  match buf with
  | None => send_http_err_resp 500 "Internal Server Error" s
  | Some rb =>
      let param_types := TEE_PARAM_TYPES TEE_PARAM_TYPE_VALUE_INPUT TEE_PARAM_TYPE_NONE TEE_PARAM_TYPE_NONE TEE_PARAM_TYPE_NONE in
      '(r, sess, x) ← TEE_OpenTASession BSTGW_PTA_TRUST_ROUTER_UUID param_types
                        [mk_param BSTGW_TRUST_ROUTER_UNBOUND_SESSION None 0; zero_param; zero_param; zero_param] (pta s);
      let s := s <| pta := x |> in
      if negb (r =? TEE_SUCCESS) then npfctl_fail rb s else
      let param_types := TEE_PARAM_TYPES TEE_PARAM_TYPE_MEMREF_INPUT TEE_PARAM_TYPE_MEMREF_OUTPUT TEE_PARAM_TYPE_NONE TEE_PARAM_TYPE_NONE in
      req ← body_bytes pi s;
      resp ← deref (blocks (hp s) !! rb);
      '(res, params, x) ← TEE_InvokeTACommand sess BSTGW_PTA_TRUST_ROUTER_CMD_CONFIG param_types
                            [mk_param 0 (Some req) (body_len pi); mk_param 0 (Some resp) MAX_NVLIST_RESP; zero_param; zero_param] (pta s);
      p1 ← aget params 1;
      resp ← deref (memref_buffer p1);
      x ← TEE_CloseTASession sess x;
      let s := s <| pta := x |> <| hp ::= fun h => h <| blocks ::= <[rb := resp]> |> |> in
      if negb (res =? TEE_SUCCESS) then npfctl_fail rb s else
      let '(resp, h) := pack_into_resp_chunk (Some (Mem rb)) (memref_size p1) (hp s) in
      let s := s <| hp := h |> in
      match resp with
      | None => npfctl_fail rb s
      | Some c =>
          let s := s <| hp ::= fun h => h <| chunks ::= alter (fun c => c <| take_ownership := true |>) c |> |> in
          send_http_resp 200 "OK" (memref_size p1) resp "application/octet-stream" s
      end
  end.

Definition post_register_admin (pi : parsing_info) s : outcome (Z * hst CONF SSL P) :=
  let '(crt, h) := ask (hp s) in
  let s := s <| hp := h |> in
  match crt with
  | None => send_http_err_resp 500 "Internal Server Error" s
  | Some _ =>
      req ← body_bytes pi s;
      let '(ret, raw) := x509_crt_parse req in
      if ret <? 0 then
        let '(c, h) := pack_into_resp_chunk (Some (Lit (bytes "FAIL"))) 4 (hp s) in
        send_http_resp 200 "OK" 4 c "text/plain" (s <| hp := h |>)
      else
        let '(ret, s) := allow_admin_cert raw s in
        if negb (ret =? 0) then
          let '(c, h) := pack_into_resp_chunk (Some (Lit (bytes "FAIL"))) 4 (hp s) in
          send_http_resp 200 "OK" 4 c "text/plain" (s <| hp := h |>)
        else
          let '(c, h) := pack_into_resp_chunk (Some (Lit (bytes "REGISTERED"))) 10 (hp s) in
          send_http_resp 200 "OK" 10 c "text/plain" (s <| hp := h |>)
  end.

(** The certificates from [l] on: the list so far, its length.  The buffer is
    allocated with the length an uninitialised chunk happens to have. *)
Fixpoint adminlist_loop (l : list (list Z)) (lst : option positive) (len_out : Z) (h : heap)
    : outcome (option positive * Z * heap) :=
  match l with
  | [] => Ok (lst, len_out, h)
  | raw :: l' =>
      let '(crt, h) := malloc_chunk h in
      match crt with
      | None => Ok (lst, len_out, h)
      | Some p =>
          c ← deref (chunks h !! p);
          let mem_len := u32 (Z.of_nat (length raw) * 4) / 2 in
          let '(buf, h) := malloc (rc_len c) h in
          match buf with
          | None => Ok (lst, len_out, h <| chunks ::= delete p |>)
          | Some b =>
              let '(ret, text) := base64_encode mem_len raw in
              if negb (ret =? 0) then h ← free (Mem b) h; Ok (lst, len_out, h <| chunks ::= delete p |>) else
              mem ← deref (blocks h !! b);
              mem ← mem_write mem 0 (text ++ [0]);
              let olen := Z.of_nat (length text) in
              let h := h <| blocks ::= <[b := mem]> |> <| chunks ::= <[p := mk_resp_chunk (Some (Mem b)) olen 0 true None]> |> in
              '(lst, h) ← append_resp_queue lst (Some p) h;
              adminlist_loop l' lst (i32 (len_out + olen)) h
          end
      end
  end.

Definition get_adminlist s : outcome (option positive * Z * heap) := adminlist_loop (allowlist s) None 0 (hp s).

Definition post_get_adminlist (pi : parsing_info) s : outcome (Z * hst CONF SSL P) :=
  '(admin_list, list_len, h) ← get_adminlist s;
  let s := s <| hp := h |> in
  match admin_list with
  | None => send_http_resp 200 "OK" 0 None "text/plain" s
  | Some _ => send_http_resp 200 "OK" (u32 list_len) admin_list "text/plain" s
  end.

Inductive handler_fct := Post_npfctl_cmd | Post_register_admin | Post_get_adminlist | Dummy_handler.

Definition run_handler (f : handler_fct) : parsing_info -> hst CONF SSL P -> outcome (Z * hst CONF SSL P) :=
  match f with
  | Post_npfctl_cmd => post_npfctl_cmd
  | Post_register_admin => post_register_admin
  | Post_get_adminlist => post_get_adminlist
  | Dummy_handler => dummy_handler
  end.

Record req_handler := mk_handler {
  rh_path : list Z;
  allowed_clients : list client_type;
  needs_body : bool;
  exp_content_type : list Z;
  rh_handler : handler_fct
}.

Definition post_handler_list : list req_handler := [
  mk_handler (bytes "/trustconf") [ADMIN; MASTER] true (bytes "application/octet-stream") Post_npfctl_cmd;
  mk_handler (bytes "/register-admin") [USER] true (bytes "text/plain") Post_register_admin;
  mk_handler (bytes "/adminlist") [MASTER] false (bytes "text/plain") Post_get_adminlist;
  mk_handler (bytes "trustroute") [ADMIN; MASTER] true (bytes "application/octet-stream") Dummy_handler
].

Fixpoint get_req_handler (l : list req_handler) (path : list Z) : option req_handler :=
  match l with
  | [] => None
  | h :: l' => if bool_decide (rh_path h = path) then Some h else get_req_handler l' path
  end.

Definition handle_post_request (pi : parsing_info) s : outcome (Z * hst CONF SSL P) :=
  if negb (has_csrf_header pi) then Ok (-1, s) else
  match get_req_handler post_handler_list (path pi) with
  | None => send_http_err_resp 404 "Not Found" s
  | Some hndl =>
      '(user_type, s) ← get_client_type s;
      if negb (bool_decide (user_type ∈ allowed_clients hndl)) then send_http_err_resp 403 "Forbidden" s else
      if needs_body hndl && negb (has_body pi) then send_http_err_resp 404 "Not Found" s else
      if negb (has_expected_content_type pi (exp_content_type hndl)) then send_http_err_resp 415 "Unsupported Media Type" s else
      run_handler (rh_handler hndl) pi s
  end.

(** *** Reading and dispatching requests *)

Definition RequestIsTooLongError : Z := -3000.

(** [MOVE_REST_TO_BUF_HEAD], after which [bp] is the start of the buffer. *)
Definition move_rest (bp data_len : Z) s : outcome (hst CONF SSL P) :=
  if bp =? 0 then Ok s else
  d ← mem_read (req_buffer s) bp data_len;
  b ← mem_write (req_buffer s) 0 d;
  Ok (s <| req_buffer := b |> <| req_next := u32 data_len |>).

(** A round of the loop ends with a return, or with [bp] (as an offset) and
    [data_len] for the next one. *)
Inductive round := Return (ret : Z) s | Continue (bp data_len : Z) s.

(** Receiving more, when nothing or only part of a request is buffered. *)
Definition receive_more (bp data_len : Z) s : outcome round :=
  if negb (data_len =? req_next s) || negb (bp =? 0) then Panic else
  '(ret, d, s) ← tls_read (u32 (HTTP_BUFFER_SIZE - req_next s)) s;
  b ← mem_write (req_buffer s) (req_next s) d;
  let s := s <| req_buffer := b |> in
  if ret <=? 0 then
    s ← (if ret =? MBEDTLS_ERR_SSL_PEER_CLOSE_NOTIFY then tls_close_notify s else Ok s);
    Ok (Return ret s)
  else
    let n := u32 (req_next s + ret) in
    Ok (Continue 0 n (s <| req_next := n |>)).

(** The request is dispatched on its method. *)
Definition dispatch (pi : parsing_info) s : outcome (Z * hst CONF SSL P) :=
  if bool_decide (method pi = bytes "GET") then handle_get_request pi s
  else if bool_decide (method pi = bytes "POST") then handle_post_request pi s
  else send_http_err_resp 405 "Method Not Allowed" s.

(** A complete request: what follows it is left for the next round. *)
Definition handle_request (pi : parsing_info) (data_len : Z) s : outcome round :=
  let bp := u32 (nparsed pi + body_len pi) in
  let data_len := u32 (data_len - (nparsed pi + body_len pi)) in
  '(ret, s) ← dispatch pi (s <| is_partial_request := false |>);
  if negb (ret =? 0) then s ← move_rest bp data_len s; Ok (Return ret s) else
  if data_len =? 0 then Ok (Continue 0 data_len (s <| req_next := 0 |>)) else Ok (Continue bp data_len s).

(** Parsing what is buffered. *)
Definition parse_buffered (bp data_len : Z) s : outcome round :=
  data ← mem_read (req_buffer s) bp data_len;
  let prs := phr_parse_request data 20 in
  if phr_ret prs =? -1 then
    '(_, s) ← send_http_err_resp 400 "Bad Request" s;
    s ← tls_close_notify s;
    Ok (Return (-1) s)
  else if phr_ret prs =? -2 then
    s ← move_rest bp data_len s;
    Ok (Continue 0 data_len (s <| is_partial_request := true |>))
  else
    c_assert (0 <? phr_ret prs);;
    cl ← content_length bp (phr_ret prs) (phr_headers prs);
    match cl with
    | None => Ok (Return (-1) s)
    | Some (body, blen) =>
        if bool_decide (is_Some body) && ((0 <? blen) && (u32 (data_len - phr_ret prs) <? blen)) then
          if HTTP_BUFFER_SIZE <? u32 (data_len + blen) then Ok (Return RequestIsTooLongError s) else
          s ← move_rest bp data_len (s <| is_partial_request := true |>);
          Ok (Continue 0 data_len s)
        else
          handle_request (mk_pinfo (phr_ret prs) (phr_method prs) (phr_path prs) (phr_headers prs) body blen) data_len s
    end.

Definition one_round (bp data_len : Z) s : outcome round :=
  if (data_len =? 0) || is_partial_request s then
    r ← receive_more bp data_len s;
    match r with
    | Return ret s => Ok (Return ret s)
    | Continue bp data_len s => parse_buffered bp data_len s
    end
  else parse_buffered bp data_len s.

(** The loop; without an end to what is received it has none. *)
Fixpoint read_loop (fuel : nat) (bp data_len : Z) s : outcome (Z * hst CONF SSL P) :=
  match fuel with
  | O => Undef
  | S fuel' =>
      r ← one_round bp data_len s;
      match r with
      | Return ret s => Ok (ret, s)
      | Continue bp data_len s => read_loop fuel' bp data_len s
      end
  end.

Definition sw_read_https_req_data (fuel : nat) s : outcome (Z * hst CONF SSL P) :=
  '(ty, s) ← get_client_type s;
  if bool_decide (ty = INVALID) then Ok (-1, s) else
  match resp_buffer s with
  | Some _ =>
      '(ret, s) ← flush_resp_queue s;
      if negb (ret =? 0) then Ok (ret, s) else
      c_assert (bool_decide (resp_buffer s = None));;
      read_loop fuel 0 (req_next s) s
  | None => read_loop fuel 0 (req_next s) s
  end.

Definition sw_do_handshake_cli s : outcome (Z * hst CONF SSL P) :=
  cf ← deref (conf s);
  rg ← assert_ptr (rxtx s);
  '(ret, x, rg) ← ssl_handshake cf rg (ssl s);
  let s := s <| ssl := x |> <| rxtx := Some rg |> in
  if ret =? 0 then
    let vrfy := i32 (ssl_get_verify_result (ssl s)) in
    '(ret, s) ← (if (vrfy =? 0) || (vrfy =? MBEDTLS_X509_BADCERT_MISSING) then Ok (ret, s)
                 else if vrfy =? -1 then c_assert (ret <? 0);; Ok (ret, s)
                 else if vrfy =? MBEDTLS_X509_BADCERT_SKIP_VERIFY then Ok (ret, s)
                 else s ← tls_close_notify s; Ok (MBEDTLS_ERR_SSL_PEER_VERIFY_FAILED, s));
    '(ty, s) ← get_client_type s;
    print_user_type ty;;
    Ok (ret, s)
  else Ok (ret, s).

End https.
