(* ===== verification/HttpsAuth.v ===== *)
(** * Who may do what over HTTPS (configservice/ta/secure_ta.c, sw_crt_mng.c).

    [trace] relates the states before and after any of the server's
    functions: the client stays who it is, the rest of the system is only
    reached for administrators and the master, and certificates are only
    added for clients without one. *)

From stdpp Require Import strings.
From S2P Require Import Prelude Ringbuf RespQueue Router Pta Https.

Section auth.
Context {CONF SSL P : Type} `{MbedTLS CONF SSL} `{TeeClient P} `{HttpParser}.
Implicit Types s : hst CONF SSL P.

(** Reading and writing do not change what the handshake found out about the
    peer (there is no renegotiation). *)
Definition same_peer (x x' : SSL) : Prop :=
  ssl_get_verify_result x' = ssl_get_verify_result x /\ ssl_get_peer_cert x' = ssl_get_peer_cert x.

Record peer_laws : Prop := {
  pl_read : forall cf rg x n r d x' rg', ssl_read cf rg x n = Ok (r, d, x', rg') -> same_peer x x';
  pl_write : forall cf rg x d r x' rg', ssl_write cf rg x d = Ok (r, x', rg') -> same_peer x x';
  pl_close : forall cf rg x r x' rg', ssl_close_notify cf rg x = Ok (r, x', rg') -> same_peer x x'
}.

(** The master's certificate, loaded or to be loaded. *)
Definition master_cert s : option (list Z) :=
  match master s with
  | Some m => Some m
  | None => let '(ret, crt) := x509_crt_parse (TEST_MASTER_CERT_PEM ++ [0]) in if ret =? 0 then Some crt else None
  end.

(** The client showed no certificate. *)
Definition is_user s : Prop :=
  ssl_get_verify_result (ssl s) = MBEDTLS_X509_BADCERT_MISSING \/ ssl_get_verify_result (ssl s) = MBEDTLS_X509_BADCERT_SKIP_VERIFY.

(** The client showed a certificate that was verified, the master's or one
    that has been registered. *)
Definition is_master s : Prop :=
  ssl_get_verify_result (ssl s) = 0 /\ exists crt, ssl_get_peer_cert (ssl s) = Some crt /\ master_cert s = Some crt.
Definition is_admin s : Prop :=
  ssl_get_verify_result (ssl s) = 0 /\ exists crt, ssl_get_peer_cert (ssl s) = Some crt /\ crt ∈ allowlist s.

Record trace s s' : Prop := {
  tr_peer : same_peer (ssl s) (ssl s');
  tr_master : master_cert s' = master_cert s;
  tr_allow : exists l, allowlist s' = allowlist s ++ l /\ (l = [] \/ is_user s);
  tr_pta : pta s' = pta s \/ is_admin s \/ is_master s
}.

Lemma not_both s : is_user s -> ssl_get_verify_result (ssl s) <> 0.
Proof. intros [E|E]; by rewrite E. Qed.

Lemma trace_refl s : trace s s.
Proof. split; [done|done|exists []; by rewrite app_nil_r; auto|by left]. Qed.

Lemma trace_trans s s' s'' : trace s s' -> trace s' s'' -> trace s s''.
Proof.
  intros [[Ev Ep] Em (l & El & Hl) Hp] [[Ev' Ep'] Em' (l' & El' & Hl') Hp'].
  assert (Hu : is_user s' -> is_user s) by (unfold is_user; by rewrite Ev).
  split; [by split; congruence|congruence|exists (l ++ l'); rewrite El', El, app_assoc; split; [done|]; destruct Hl as [->|], Hl' as [->|]; auto|].
  assert (is_master s' -> is_master s) by (unfold is_master; by rewrite Ev, Ep, Em).
  assert (is_admin s' -> is_admin s).
  { intros [Hv (crt & Ec & Hin)]. rewrite Ev in Hv. split; [done|]. exists crt. rewrite <- Ep. split; [done|].
    rewrite El in Hin. destruct Hl as [->|Hu']; [by rewrite app_nil_r in Hin|]. by apply not_both in Hu'. }
  destruct Hp' as [->|[|]]; auto.
Qed.

(** Changes that are of no account. *)
Lemma trace_same s s' :
  ssl s' = ssl s -> master s' = master s -> allowlist s' = allowlist s -> pta s' = pta s -> trace s s'.
Proof.
  intros E1 E2 E3 E4. split; [by rewrite E1|unfold master_cert; by rewrite E2|exists []; rewrite E3, app_nil_r; auto|by left].
Qed.

Lemma trace_ssl s s' :
  same_peer (ssl s) (ssl s') -> master s' = master s -> allowlist s' = allowlist s -> pta s' = pta s -> trace s s'.
Proof.
  intros E1 E2 E3 E4. split; [done|unfold master_cert; by rewrite E2|exists []; rewrite E3, app_nil_r; auto|by left].
Qed.

Lemma trace_user s s' l :
  is_user s -> ssl s' = ssl s -> master s' = master s -> allowlist s' = allowlist s ++ l -> pta s' = pta s -> trace s s'.
Proof.
  intros Hu E1 E2 E3 E4. split; [by rewrite E1|unfold master_cert; by rewrite E2|exists l; auto|by left].
Qed.

Lemma trace_config s s' :
  is_admin s \/ is_master s -> ssl s' = ssl s -> master s' = master s -> allowlist s' = allowlist s -> trace s s'.
Proof.
  intros Hu E1 E2 E3. split; [by rewrite E1|unfold master_cert; by rewrite E2|exists []; rewrite E3, app_nil_r; auto|by right].
Qed.

(** What the type of a client says about it. *)
Definition typed (ty : client_type) s : Prop :=
  match ty with
  | USER => is_user s
  | ADMIN => is_admin s
  | MASTER => is_master s
  | _ => True
  end.

Lemma get_client_type_trace s ty s' : get_client_type s = Ok (ty, s') -> trace s s' /\ typed ty s'.
Proof.
  unfold get_client_type. destruct (_ =? MBEDTLS_X509_BADCERT_MISSING) eqn:E1; [intros [= <- <-]; split; [apply trace_refl|left; by apply Z.eqb_eq]|].
  destruct (_ =? MBEDTLS_X509_BADCERT_SKIP_VERIFY) eqn:E2; [intros [= <- <-]; split; [apply trace_refl|right; by apply Z.eqb_eq]|].
  destruct (_ =? 0) eqn:E3; [|intros [= <- <-]; split; [apply trace_refl|done]]. apply Z.eqb_eq in E3.
  destruct (ssl_get_peer_cert (ssl s)) as [crt|] eqn:Ec; [|intros [= <- <-]; split; [apply trace_refl|done]].
  unfold get_cert_type, get_master_cert, load_master_cert.
  assert (forall s1 m, ssl s1 = ssl s -> allowlist s1 = allowlist s -> pta s1 = pta s -> master_cert s = Some m -> master s1 = Some m ->
    (if bool_decide (crt = m) then Ok (MASTER, s1) else if bool_decide (crt ∈ allowlist s1) then Ok (ADMIN, s1) else Ok (PENDING, s1)) = Ok (ty, s') ->
    trace s s' /\ typed ty s') as Hgo.
  { intros s1 m F1 F2 F3 F4 F5 E. assert (Ht : trace s s1).
    { split; [by rewrite F1|unfold master_cert at 1; by rewrite F5, F4|exists []; rewrite F2, app_nil_r; auto|by left]. }
    assert (Hm1 : master_cert s1 = Some m) by (unfold master_cert; by rewrite F5).
    case_bool_decide; [|case_bool_decide]; injection E as <- <-; (split; [done|]); cbn; try done; (split; [by rewrite F1|]); exists crt; rewrite F1; by subst. }
  destruct (master s) as [m|] eqn:Em; [apply Hgo; try done; unfold master_cert; by rewrite Em|].
  destruct (x509_crt_parse _) as [ret m] eqn:Ex. destruct (ret =? 0) eqn:Er; [|done]. cbn [master upd].
  apply Hgo; try done. unfold master_cert. by rewrite Em, Ex, Er.
Qed.

Context (Hlaws : peer_laws).

Lemma tls_write_trace d s r s' : tls_write d s = Ok (r, s') -> trace s s' /\ hp s' = hp s /\ resp_buffer s' = resp_buffer s.
Proof.
  unfold tls_write. intros E. apply bind_ok in E as (cf & _ & E). apply bind_ok in E as (rg & _ & E).
  apply bind_ok in E as ([[n x] rg'] & Ex & [= <- <-]). split; [|done]. apply trace_ssl; try done. by eapply pl_write.
Qed.

Lemma tls_close_trace s s' : tls_close_notify s = Ok s' -> trace s s'.
Proof.
  unfold tls_close_notify. intros E. apply bind_ok in E as (cf & _ & E). apply bind_ok in E as (rg & _ & E).
  apply bind_ok in E as ([[n x] rg'] & Ex & [= <-]). apply trace_ssl; try done. by eapply pl_close.
Qed.

Lemma tls_read_trace n s r d s' : tls_read n s = Ok (r, d, s') -> trace s s'.
Proof.
  unfold tls_read. intros E. apply bind_ok in E as (cf & _ & E). apply bind_ok in E as (rg & _ & E).
  apply bind_ok in E as ([[[m x1] x] rg'] & Ex & [= <- <- <-]). apply trace_ssl; try done. by eapply pl_read.
Qed.

Lemma flush_trace fuel curr s r s' : flush_loop fuel curr s = Ok (r, s') -> trace s s'.
Proof.
  revert curr s. induction fuel as [|fuel IH]; intros [p|] s; cbn [flush_loop]; try (by intros [= <- <-]; apply trace_refl).
  intros E. apply bind_ok in E as (c & _ & E). apply bind_ok in E as ([early s1] & E1 & E).
  assert (trace s s1) as Ht.
  { clear E. unfold flush_chunk in E1. destruct (rc_buf c) as [b|]; [|injection E1 as <- <-; apply trace_refl]. case_match; [injection E1 as <- <-; apply trace_refl|].
    apply bind_ok in E1 as (d & _ & E1). apply bind_ok in E1 as ([n s2] & E2 & E1). apply tls_write_trace in E2 as [Ht _].
    repeat case_match; simplify_eq; try done. eapply trace_trans; [exact Ht|]. by apply trace_same. }
  destruct early; [by injection E as <- <-|]. apply bind_ok in E as ([q h] & _ & E).
  eapply trace_trans; [exact Ht|]. eapply trace_trans; [|by eapply IH]. by apply trace_same.
Qed.

Lemma send_trace code status n c ty s r s' : send_http_resp code status n c ty s = Ok (r, s') -> trace s s'.
Proof.
  unfold send_http_resp. destruct (malloc _ _) as [[ob|] h]; [|intros [= <- <-]; by apply trace_same].
  destruct (match c with Some _ => _ | None => _ end) as [blen tp]. intros E. apply bind_ok in E as (m & _ & E). apply bind_ok in E as (m' & _ & E).
  destruct (pack_into_resp_chunk _ _ _) as [[hc|] h']; [|apply bind_ok in E as (h2 & _ & [= <- <-]); by apply trace_same].
  apply bind_ok in E as ([q h2] & _ & E). apply bind_ok in E as ([q' h3] & _ & E).
  eapply trace_trans; [|by eapply flush_trace]. by apply trace_same.
Qed.

Lemma send_err_trace code msg s r s' : send_http_err_resp code msg s = Ok (r, s') -> trace s s'.
Proof. unfold send_http_err_resp. case_match; [done|]. apply send_trace. Qed.

Lemma get_trace pi s r s' : handle_get_request pi s = Ok (r, s') -> trace s s'.
Proof.
  unfold handle_get_request. intros E. apply bind_ok in E as ([ty s1] & E1 & E). apply get_client_type_trace in E1 as [Ht _].
  eapply trace_trans; [exact Ht|]. case_match; [by eapply send_err_trace|]. destruct (get_web_app ty s1); [|by eapply send_err_trace].
  apply bind_ok in E as (m & _ & E). apply bind_ok in E as (t & _ & E). destruct (pack_into_resp_chunk _ _ _) as [[c|] h].
  - eapply trace_trans; [|by eapply send_trace]. by apply trace_same.
  - injection E as <- <-. by apply trace_same.
Qed.

Lemma npfctl_fail_trace rb s r s' : npfctl_fail rb s = Ok (r, s') -> trace s s'.
Proof. unfold npfctl_fail. intros E. apply bind_ok in E as (h & _ & E). eapply trace_trans; [|by eapply send_err_trace]. by apply trace_same. Qed.

Lemma npfctl_trace pi s r s' : is_admin s \/ is_master s -> post_npfctl_cmd pi s = Ok (r, s') -> trace s s'.
Proof.
  intros Hu. unfold post_npfctl_cmd. case_match; [intros [= <- <-]; apply trace_refl|].
  destruct (malloc _ _) as [[rb|] h]; [|intros E; eapply trace_trans; [|by eapply send_err_trace]; by apply trace_same].
  intros E. apply bind_ok in E as ([[r1 sess] x] & _ & E). case_match; [eapply trace_trans; [|by eapply npfctl_fail_trace]; by apply trace_config|].
  apply bind_ok in E as (req & _ & E). apply bind_ok in E as (resp & _ & E). apply bind_ok in E as ([[res params] y] & _ & E).
  apply bind_ok in E as (p1 & _ & E). apply bind_ok in E as (resp' & _ & E). apply bind_ok in E as (z & _ & E).
  case_match; [eapply trace_trans; [|by eapply npfctl_fail_trace]; by apply trace_config|].
  destruct (pack_into_resp_chunk _ _ _) as [[c|] h']; (eapply trace_trans; [|first [by eapply npfctl_fail_trace|by eapply send_trace]]); by apply trace_config.
Qed.

Lemma register_trace pi s r s' : is_user s -> post_register_admin pi s = Ok (r, s') -> trace s s'.
Proof.
  intros Hu. unfold post_register_admin. destruct (ask (hp s)) as [[j|] h]; [|intros E; eapply trace_trans; [|by eapply send_err_trace]; by apply trace_same].
  intros E. apply bind_ok in E as (req & _ & E). destruct (x509_crt_parse req) as [ret raw]. case_match.
  - destruct (pack_into_resp_chunk _ _ _) as [c h']. eapply trace_trans; [|by eapply send_trace]. by apply trace_same.
  - cbn [allow_admin_cert Z.eqb negb] in E. destruct (pack_into_resp_chunk _ _ _) as [c h']. eapply trace_trans; [|by eapply send_trace]. by apply trace_user with [raw].
Qed.

Lemma adminlist_trace pi s r s' : post_get_adminlist pi s = Ok (r, s') -> trace s s'.
Proof.
  unfold post_get_adminlist. intros E. apply bind_ok in E as ([[l n] h] & _ & E).
  destruct l; (eapply trace_trans; [|by eapply send_trace]); by apply trace_same.
Qed.

Lemma post_handlers hndl pth : get_req_handler post_handler_list pth = Some hndl -> hndl ∈ post_handler_list.
Proof.
  generalize post_handler_list. induction l as [|h l IH]; cbn; [done|]. case_bool_decide; [intros [= <-]; by left|right; auto].
Qed.

Lemma post_trace pi s r s' : handle_post_request pi s = Ok (r, s') -> trace s s'.
Proof.
  unfold handle_post_request. case_match; [intros [= <- <-]; apply trace_refl|].
  destruct (get_req_handler _ _) as [hndl|] eqn:Eh; [|apply send_err_trace]. apply post_handlers in Eh.
  intros E. apply bind_ok in E as ([ty s1] & E1 & E). apply get_client_type_trace in E1 as [Ht Hty]. eapply trace_trans; [exact Ht|].
  case_match eqn:Ea; [by eapply send_err_trace|]. apply negb_false_iff, bool_decide_eq_true in Ea.
  case_match; [by eapply send_err_trace|]. case_match; [by eapply send_err_trace|].
  repeat (apply elem_of_cons in Eh as [->|Eh]); [..|by apply elem_of_nil in Eh]; cbn in Ea, E.
  - apply (npfctl_trace pi s1 r s'); [|done]. repeat (apply elem_of_cons in Ea as [->|Ea]); [by left|by right|by apply elem_of_nil in Ea].
  - apply (register_trace pi s1 r s'); [|done]. apply elem_of_cons in Ea as [->|Ea]; [done|by apply elem_of_nil in Ea].
  - by eapply adminlist_trace.
  - by eapply send_trace.
Qed.

Lemma dispatch_trace pi s r s' : dispatch pi s = Ok (r, s') -> trace s s'.
Proof. unfold dispatch. case_match; [apply get_trace|]. case_match; [apply post_trace|apply send_err_trace]. Qed.

Lemma move_rest_trace bp n s s' : move_rest bp n s = Ok s' -> trace s s'.
Proof.
  unfold move_rest. case_match; [intros [= <-]; apply trace_refl|]. intros E. apply bind_ok in E as (d & _ & E).
  apply bind_ok in E as (b & _ & [= <-]). by apply trace_same.
Qed.

(** The state a round ends in. *)
Definition round_st (r : round) : hst CONF SSL P := match r with Return _ s => s | Continue _ _ s => s end.

Lemma receive_trace bp n s r : receive_more bp n s = Ok r -> trace s (round_st r).
Proof.
  unfold receive_more. case_match; [done|]. intros E. apply bind_ok in E as ([[ret d] s1] & E1 & E). apply tls_read_trace in E1.
  eapply trace_trans; [exact E1|]. apply bind_ok in E as (b & _ & E). case_match.
  - apply bind_ok in E as (s2 & E2 & [= <-]). cbn. case_match; [|injection E2 as <-; by apply trace_same].
    apply tls_close_trace in E2. eapply trace_trans; [|exact E2]. by apply trace_same.
  - injection E as <-. by apply trace_same.
Qed.

Lemma handle_trace pi n s r : handle_request pi n s = Ok r -> trace s (round_st r).
Proof.
  unfold handle_request. intros E. apply bind_ok in E as ([ret s1] & E1 & E). apply dispatch_trace in E1.
  eapply trace_trans; [|eapply trace_trans; [exact E1|]]; [by apply trace_same|]. case_match.
  - apply bind_ok in E as (s2 & E2 & [= <-]). by apply move_rest_trace in E2.
  - case_match; injection E as <-; by apply trace_same.
Qed.

Lemma parse_trace bp n s r : parse_buffered bp n s = Ok r -> trace s (round_st r).
Proof.
  unfold parse_buffered. intros E. apply bind_ok in E as (data & _ & E). case_match.
  { apply bind_ok in E as ([x s1] & E1 & E). apply bind_ok in E as (s2 & E2 & [= <-]).
    apply send_err_trace in E1. apply tls_close_trace in E2. by eapply trace_trans. }
  case_match.
  { apply bind_ok in E as (s1 & E1 & [= <-]). apply move_rest_trace in E1. eapply trace_trans; [exact E1|]. by apply trace_same. }
  apply bind_ok in E as ([] & _ & E). apply bind_ok in E as ([[bd blen]|] & _ & E); [|injection E as <-; apply trace_refl].
  case_match; [|by apply handle_trace in E]. case_match; [injection E as <-; apply trace_refl|].
  apply bind_ok in E as (s1 & E1 & [= <-]). apply move_rest_trace in E1. eapply trace_trans; [|exact E1]. by apply trace_same.
Qed.

Lemma one_round_trace bp n s r : one_round bp n s = Ok r -> trace s (round_st r).
Proof.
  unfold one_round. case_match; [|apply parse_trace]. intros E. apply bind_ok in E as ([ret s1|bp1 n1 s1] & E1 & E); apply receive_trace in E1.
  - injection E as <-. done.
  - apply parse_trace in E. by eapply trace_trans.
Qed.

Lemma read_loop_trace fuel bp n s ret s' : read_loop fuel bp n s = Ok (ret, s') -> trace s s'.
Proof.
  revert bp n s. induction fuel as [|fuel IH]; [done|]. intros bp n s. cbn [read_loop]. intros E.
  apply bind_ok in E as ([r1 s1|bp1 n1 s1] & E1 & E); apply one_round_trace in E1.
  - by injection E as <- <-.
  - apply IH in E. by eapply trace_trans.
Qed.

Lemma read_trace fuel s ret s' : sw_read_https_req_data fuel s = Ok (ret, s') -> trace s s'.
Proof.
  unfold sw_read_https_req_data. intros E. apply bind_ok in E as ([ty s1] & E1 & E). apply get_client_type_trace in E1 as [Ht _].
  eapply trace_trans; [exact Ht|]. case_match; [injection E as <- <-; apply trace_refl|].
  destruct (resp_buffer s1); [|by apply read_loop_trace in E]. apply bind_ok in E as ([r2 s2] & E2 & E). apply flush_trace in E2.
  eapply trace_trans; [exact E2|]. case_match; [injection E as <- <-; apply trace_refl|].
  apply bind_ok in E as ([] & _ & E). by apply read_loop_trace in E.
Qed.

(** C16. Access control of the configuration interface: whatever a client
    sends and however mbedTLS cuts it up, processing it leaves the rest of
    the system (the router and its firewall, behind the calls to the pseudo
    TA) as it was, unless the client has shown a certificate that mbedTLS
    verified and that is the master's or registered as an administrator's;
    and it adds certificates to the registered ones only for a client that
    showed none.  The library is assumed to keep the verified peer of a
    connection. *)
Theorem https_access_control fuel s ret s' :
  sw_read_https_req_data fuel s = Ok (ret, s') ->
  (pta s' = pta s \/ is_admin s \/ is_master s) /\
  (exists l, allowlist s' = allowlist s ++ l /\ (l = [] \/ is_user s)).
Proof. intros [_ _ ? ?]%read_trace. done. Qed.

End auth.

(** ** Example: a library that passes bytes on as they are *)

(** A connection: what it will deliver, what was sent, and who the peer is. *)
Record ex_ssl := mk_ex_ssl { ex_in : list Z; ex_out : list Z; ex_verify : Z; ex_cert : option (list Z) }.

(** At most 100 bytes are accepted at a time. *)
Definition ex_mbedtls : MbedTLS unit ex_ssl := {|
  ssl_setup _ _ := (0, mk_ex_ssl [] [] MBEDTLS_X509_BADCERT_MISSING None);
  ssl_handshake _ rg x := Ok (0, x, rg);
  ssl_read _ rg x n :=
    match ex_in x with
    | [] => Ok (MBEDTLS_ERR_SSL_WANT_READ, [], x, rg)
    | i => let d := take (Z.to_nat n) i in
           Ok (Z.of_nat (length d), d, mk_ex_ssl (drop (Z.to_nat n) i) (ex_out x) (ex_verify x) (ex_cert x), rg)
    end;
  ssl_write _ rg x d :=
    let n := Nat.min 100 (length d) in Ok (Z.of_nat n, mk_ex_ssl (ex_in x) (ex_out x ++ take n d) (ex_verify x) (ex_cert x), rg);
  ssl_close_notify _ rg x := Ok (0, x, rg);
  ssl_get_verify_result := ex_verify;
  ssl_get_peer_cert := ex_cert;
  x509_crt_parse b := (0, b);
  base64_encode _ l := (0, l)
|}.

(** Requests of one letter, with the body of a POST after it. *)
Definition ex_parser : HttpParser := fun data _ =>
  match data with
  | [] => mk_phr (-2) [] [] []
  | 71 :: _ => mk_phr 1 (bytes "GET") (bytes "/") []
  | 80 :: _ => mk_phr 1 (bytes "POST") (bytes "/trustconf")
                 [(csrf_hdr, []); (bytes "Content-Length", bytes "2"); (bytes "Content-Type", bytes "application/octet-stream")]
  | _ => mk_phr (-1) [] [] []
  end.

(** The rest of the system counts the commands it gets, and answers with one
    byte. *)
Definition ex_tee : TeeClient Z := {|
  TEE_OpenTASession _ _ _ x := Ok (TEE_SUCCESS, 1, x);
  TEE_InvokeTACommand _ _ _ ps x :=
    match ps with
    | p0 :: p1 :: rest => Ok (TEE_SUCCESS, p0 :: p1 <| memref_size := Z.min 1 (Z.of_nat (length (default [] (memref_buffer p1)))) |> :: rest, x + 1)
    | _ => Ok (TEE_ERROR_GENERIC, ps, x)
    end;
  TEE_CloseTASession _ x := Ok x
|}.
#[local] Existing Instances ex_mbedtls ex_parser ex_tee.

Definition ex_heap : heap := mk_heap ∅ ∅ (fun _ => Some (fun _ => 0)) 0.

Definition ex_rings : rings := let r := mk_sw_buff (replicate 2048 0) 0 0 0 in (r, r).

(** A client with nothing pending that has sent [i]; [7] is a registered
    certificate. *)
Definition ex_client (i : list Z) (vrfy : Z) (crt : option (list Z)) : hst unit ex_ssl Z :=
  mk_hst (Some tt) (mk_ex_ssl i [] vrfy crt) (Some ex_rings) (replicate 4096 0) 0 false None ex_heap (Some [9]) [[7]] None None None None 0.

Lemma ex_peer_laws : peer_laws (CONF := unit) (SSL := ex_ssl).
Proof.
  split; cbn.
  - intros cf rg x n r d x' rg'. destruct (ex_in x); by intros [= <- <- <- <-].
  - intros cf rg x d r x' rg'. by intros [= <- <- <-].
  - intros cf rg x r x' rg'. by intros [= <- <- <-].
Qed.

(** What processing leaves. *)
Definition ex_after (s : hst unit ex_ssl Z) : hst unit ex_ssl Z := match sw_read_https_req_data 20 s with Ok (_, s') => s' | _ => s end.

(** An administrator's command reaches the rest of the system. *)
Lemma ex_command : sw_read_https_req_data 20 (ex_client [80; 1; 2] 0 (Some [7])) = Ok (MBEDTLS_ERR_SSL_WANT_READ, ex_after (ex_client [80; 1; 2] 0 (Some [7]))).
Proof. vm_compute. reflexivity. Qed.

Lemma https_access_control_witness :
  pta (ex_after (ex_client [80; 1; 2] 0 (Some [7]))) = 1 /\ is_admin (ex_client [80; 1; 2] 0 (Some [7])).
Proof.
  split; [vm_compute; reflexivity|].
  destruct (https_access_control ex_peer_laws 20 _ _ _ ex_command) as [[E|[Ha|(_ & c & Hc & Hm)]] _].
  - vm_compute in E. discriminate E.
  - exact Ha.
  - cbn in Hc, Hm. congruence.
Defined.
