(* ===== verification/HttpsSafe.v ===== *)
(** * Safety and termination of request processing (configservice/ta/secure_ta.c).

    [hinv] is what holds of a client and of the TA's heap between calls.
    Under the documented behaviour of mbedTLS ([tls_laws]), of the TEE's
    client calls ([tee_laws]) and of the HTTP parser ([phr_law]), sending the
    queued responses transmits exactly the queued bytes, and processing
    whatever a client sends is free of undefined behaviour and ends. *)

From stdpp Require Import strings pretty.
From S2P Require Import Prelude Ringbuf RespQueue Router Pta Https HttpsAuth.

(** ** The length of a response header *)

Lemma length_bytes t : length (bytes t) = String.length t.
Proof. unfold bytes. rewrite length_fmap. induction t as [|c t IH]; cbn; [done|by rewrite IH]. Qed.

Lemma pretty_N_go_len k n t : (n < 10 ^ N.of_nat k)%N -> (String.length (pretty_N_go n t) <= k + String.length t)%nat.
Proof.
  revert n t. induction k as [|k IH]; intros n t Hn.
  - assert (n = 0%N) as -> by (cbn in Hn; lia). by rewrite pretty_N_go_0.
  - destruct (decide (n = 0%N)) as [->|]; [rewrite pretty_N_go_0; lia|]. rewrite pretty_N_go_step by lia.
    etransitivity; [apply IH|cbn; lia]. rewrite Nat2N.inj_succ, N.pow_succ_r in Hn by lia. apply N.Div0.div_lt_upper_bound. lia.
Qed.

Lemma pretty_i32_len n : (String.length (pretty (i32 n)) <= 11)%nat.
Proof.
  assert (-2147483648 <= i32 n <= 2147483647) by (unfold i32; pose proof (Z.mod_pos_bound (n + 2147483648) 4294967296); lia).
  assert (forall p, Z.pos p <= 2147483648 -> (String.length (pretty (N.pos p)) <= 10)%nat) as Hp.
  { intros p Hp. unfold pretty, pretty_N. rewrite decide_False by done. etransitivity; [apply (pretty_N_go_len 10)|cbn; lia]. cbn. lia. }
  destruct (i32 n) as [|p|p]; [cbn; lia|..]; unfold pretty, pretty_Z.
  - etransitivity; [apply Hp; lia|lia].
  - pose proof (Hp p ltac:(lia)). change (S (String.length (pretty (N.pos p))) <= 11)%nat. lia.
Qed.

Lemma resp_header_len code status n type :
  (String.length (pretty code) + String.length status + String.length type <= 80)%nat -> (length (resp_header code status n type) <= 143)%nat.
Proof.
  intros Hl. pose proof (pretty_i32_len n). unfold resp_header. rewrite !length_app, !length_bytes. cbn [String.length length crlf]. lia.
Qed.

(** The web applications that are loaded, in the blocks [l], end in a zero
    byte.  A server without web applications satisfies this; the loader means
    to establish it, but writes the terminator elsewhere (sw_fileio.c). *)
Definition webapps_ok (h : heap) (l : list positive) : Prop :=
  forall p, p ∈ l -> exists b t, blocks h !! p = Some b /\ c_string b = Ok t /\ Z.of_nat (length b) <= MAX_I32.

Section safe.
Context {CONF SSL P : Type} `{MbedTLS CONF SSL} `{TeeClient P} `{HttpParser}.
Implicit Types s : hst CONF SSL P.

(** [tls_inv]: what the library needs of a connection and its rings;
    [tls_left]: how many bytes it can still deliver from what has been
    received; [tls_sent]: the bytes handed to it for sending. *)
Context (tls_inv : CONF -> rings -> SSL -> Prop) (tls_left : rings -> SSL -> nat) (tls_sent : SSL -> list Z) (pta_ok : P -> Prop).

Record tls_laws : Prop := {
  tl_read cf rg x n : tls_inv cf rg x -> 0 <= n ->
    defined (ssl_read cf rg x n) (fun '(r, d, x', rg') =>
      tls_inv cf rg' x' /\ same_peer x x' /\ Z.of_nat (length d) <= n /\ (0 < r -> Z.of_nat (length d) = r) /\
      (tls_left rg' x' + Z.to_nat r <= tls_left rg x)%nat /\ tls_sent x' = tls_sent x);
  tl_write cf rg x d : tls_inv cf rg x ->
    defined (ssl_write cf rg x d) (fun '(r, x', rg') =>
      tls_inv cf rg' x' /\ same_peer x x' /\ r <= Z.of_nat (length d) /\ (tls_left rg' x' <= tls_left rg x)%nat /\
      tls_sent x' = tls_sent x ++ take (Z.to_nat r) d);
  tl_close cf rg x : tls_inv cf rg x ->
    defined (ssl_close_notify cf rg x) (fun '(r, x', rg') =>
      tls_inv cf rg' x' /\ same_peer x x' /\ (tls_left rg' x' <= tls_left rg x)%nat /\ tls_sent x' = tls_sent x)
}.

(** What a flush leaves alone. *)
Record frame s s' : Prop := {
  fr_conf : conf s' = conf s;
  fr_req : req_buffer s' = req_buffer s /\ req_next s' = req_next s /\ is_partial_request s' = is_partial_request s;
  fr_ta : master s' = master s /\ allowlist s' = allowlist s /\ pta s' = pta s;
  fr_apps : user_app s' = user_app s /\ admin_app s' = admin_app s /\ master_app s' = master_app s /\ pending_app s' = pending_app s
}.

Lemma frame_refl s : frame s s. Proof. by split. Qed.
Lemma frame_trans s s' s'' : frame s s' -> frame s' s'' -> frame s s''.
Proof. intros [? (? & ? & ?) (? & ? & ?) (? & ? & ? & ?)] [? (? & ? & ?) (? & ? & ?) (? & ? & ? & ?)]. split; [|split_and!..]; congruence. Qed.

(** The connection of a client. *)
Definition link cf rg s : Prop := conf s = Some cf /\ rxtx s = Some rg /\ tls_inv cf rg (ssl s).

(** The connection goes on: same peer, nothing more to read. *)
Definition linked cf rg s s' : Prop :=
  exists rg', link cf rg' s' /\ same_peer (ssl s) (ssl s') /\ (tls_left rg' (ssl s') <= tls_left rg (ssl s))%nat.

Lemma same_peer_trans x y z : same_peer x y -> same_peer y z -> same_peer x z.
Proof. intros [? ?] [? ?]. split; congruence. Qed.

Context (Htls : tls_laws).

Lemma tls_write_spec cf rg d s : link cf rg s ->
  defined (tls_write d s) (fun '(r, s') =>
    linked cf rg s s' /\ frame s s' /\ hp s' = hp s /\ resp_buffer s' = resp_buffer s /\ r <= Z.of_nat (length d) /\
    tls_sent (ssl s') = tls_sent (ssl s) ++ take (Z.to_nat r) d).
Proof.
  intros (Ec & Er & Hi). unfold tls_write. rewrite Ec, Er. cbn [deref assert_ptr]. rewrite !ok_bind. apply defined_bind.
  eapply defined_mono; [|by apply (tl_write Htls)]. intros [[r x'] rg'] (Hi' & Hp & Hr & Hl & Hs). cbn. split_and!; try done.
  by exists rg'.
Qed.

(** What a flush of the queue [l] does. *)
Definition flushed cf rg (shared : list positive) s l (r : Z * hst CONF SSL P) : Prop :=
  let '(ret, s') := r in
  linked cf rg s s' /\ frame s s' /\ ret <= 0 /\ (forall p, p ∈ shared -> blocks (hp s') !! p = blocks (hp s) !! p) /\
  exists l', qwf (hp s') shared (resp_buffer s') l' /\ tls_sent (ssl s') ++ pending (hp s') l' = tls_sent (ssl s) ++ pending (hp s) l /\
    (ret = 0 -> l' = []).

Lemma linked_refl cf rg s : link cf rg s -> linked cf rg s s.
Proof. intros Hl. by exists rg. Qed.

Lemma linked_trans cf rg rg' s s' s'' : link cf rg' s' -> same_peer (ssl s) (ssl s') -> (tls_left rg' (ssl s') <= tls_left rg (ssl s))%nat ->
  linked cf rg' s' s'' -> linked cf rg s s''.
Proof. intros _ Hp Hl (r & ? & ? & ?). exists r. split; [done|]. split; [by eapply same_peer_trans|lia]. Qed.

(** The head is gone: the rest of the flush. *)
Lemma flushed_step cf rg rg' shared s s1 s2 l c r :
  link cf rg' s1 -> same_peer (ssl s) (ssl s1) -> (tls_left rg' (ssl s1) <= tls_left rg (ssl s))%nat -> frame s s1 ->
  tls_sent (ssl s1) ++ pending (hp s2) l = tls_sent (ssl s) ++ c ++ pending (hp s) l -> ssl s2 = ssl s1 -> rxtx s2 = rxtx s1 -> frame s1 s2 ->
  (forall p, p ∈ shared -> blocks (hp s2) !! p = blocks (hp s) !! p) ->
  flushed cf rg' shared s2 l r -> forall cs, pending (hp s) cs = c ++ pending (hp s) l -> flushed cf rg shared s cs r.
Proof.
  intros Hl Hp Hle Hf Hs Es Er Hf2 Hb. destruct r as [ret s']. intros (Hlk & Hf' & Hr & Hb' & l' & Hq & Hs' & Hz) cs Ecs. split; [|split; [|split; [done|split]]].
  - destruct Hlk as (rg2 & ? & Hp2 & Hl2). rewrite Es in Hp2, Hl2. exists rg2. split; [done|]. split; [by eapply same_peer_trans|lia].
  - eapply frame_trans; [exact Hf|]. eapply frame_trans; [exact Hf2|exact Hf'].
  - intros p Hin. rewrite Hb', Hb by done. done.
  - exists l'. split; [done|]. split; [|done]. by rewrite Hs', Es, Hs, Ecs.
Qed.

(** One chunk: all of it is sent, or the flush ends. *)
Lemma flush_chunk_spec cf rg shared s p c cc l :
  link cf rg s -> resp_buffer s = Some p -> qwf (hp s) shared (Some p) ((p, c) :: l) -> chunks (hp s) !! p = Some cc ->
  defined (flush_chunk p cc s) (fun '(early, s1) =>
    match early with
    | Some r => flushed cf rg shared s ((p, c) :: l) (r, s1)
    | None => linked cf rg s s1 /\ frame s s1 /\ hp s1 = hp s /\ resp_buffer s1 = resp_buffer s /\
              tls_sent (ssl s1) = tls_sent (ssl s) ++ chunk_rest (hp s) c
    end).
Proof.
  intros Hl Eq Hq Ec. pose proof (qwf_cons _ _ _ _ _ _ Hq) as (_ & (nx & Ec' & _) & _ & _ & Hc & _ & _).
  rewrite Ec in Ec'. injection Ec' as ->. pose proof Hc as [[[Ho1 Ho2] Ho3] _]. unfold MAX_I32 in Ho3. unfold flush_chunk. cbn [upd rc_len rc_offset rc_buf rc_next].
  replace (i32 (rc_len c - rc_offset c)) with (rc_len c - rc_offset c) by (symmetry; unfold i32; rewrite Z.mod_small; lia).
  assert (Hnone : chunk_rest (hp s) c = [] -> linked cf rg s s /\ frame s s /\ hp s = hp s /\ resp_buffer s = resp_buffer s /\
    tls_sent (ssl s) = tls_sent (ssl s) ++ chunk_rest (hp s) c).
  { intros ->. rewrite app_nil_r. split; [by apply linked_refl|]. by split; [apply frame_refl|]. }
  destruct (rc_buf c) as [b|] eqn:Eb; [|apply Hnone; unfold chunk_rest; by rewrite Eb].
  destruct (chunk_read (hp s) shared c b Hc Eb) as [Hr Hlen].
  destruct (rc_len c - rc_offset c <=? 0) eqn:Ez; [apply Z.leb_le in Ez; apply Hnone, nil_length_inv; lia|apply Z.leb_gt in Ez].
  rewrite Hr, ok_bind. cbv beta. apply defined_bind. eapply defined_mono; [|by apply (tls_write_spec cf rg)].
  intros [r s1] (Hlk & Hf & Eh & Erb & Hle & Hs).
  destruct (r <? 0) eqn:E0; [apply Z.ltb_lt in E0|apply Z.ltb_ge in E0].
  - split; [done|]. split; [done|]. split; [lia|]. rewrite Eh. split; [done|]. exists ((p, c) :: l). rewrite Erb, Eq, Hs.
    replace (Z.to_nat r) with 0%nat by lia. rewrite app_nil_r. split; [done|]. split; [done|lia].
  - destruct (r =? rc_len c - rc_offset c) eqn:E1; cbn [negb].
    + apply Z.eqb_eq in E1. rewrite (proj2 (Z.eqb_neq r 0)) by lia. cbn. split_and!; try done. rewrite Hs. f_equal. rewrite take_ge by lia. done.
    + apply Z.eqb_neq in E1. replace (u32 (rc_offset c + r)) with (rc_offset c + r) by (symmetry; apply u32_small; lia).
      destruct (qwf_partial (hp s) shared p c _ l r Hq Ec) as [Hq' Hpd]; [lia|].
      split; [destruct Hlk as (rg' & ? & ? & ?); by exists rg'|]. split; [by destruct Hf|]. split; [done|]. split; [intros p' _; cbn; by rewrite Eh|].
      eexists. cbn [hp resp_buffer upd ssl]. rewrite Erb, Eq, Eh. split; [exact Hq'|]. split; [|done].
      rewrite Hpd, Hs. unfold pending. cbn [fmap list_fmap snd concat]. rewrite <- !app_assoc. f_equal. rewrite app_assoc, take_drop. done.
Qed.

Lemma flush_loop_spec l : forall fuel s cf rg shared,
  (length l <= fuel)%nat -> link cf rg s -> qwf (hp s) shared (resp_buffer s) l ->
  defined (flush_loop fuel (resp_buffer s) s) (flushed cf rg shared s l).
Proof.
  induction l as [|[p c] l IH]; intros fuel s cf rg shared Hf Hl Hq.
  { pose proof (qw_queue _ _ _ _ Hq) as E. cbn in E. rewrite E. destruct fuel; cbn; (split; [by apply linked_refl|]; split; [apply frame_refl|]; split; [lia|]; split; [done|]);
      by exists []. }
  cbn [length] in Hf. destruct fuel as [|fuel]; [lia|].
  pose proof (qwf_cons _ _ _ _ _ _ Hq) as (Eq & (nx & Ec & _) & Hp & _ & Hc & _ & _). rewrite Eq in Hq. rewrite Eq at 1. cbn [flush_loop].
  rewrite Ec. cbn [deref]. rewrite ok_bind. cbv beta. apply defined_bind.
  eapply defined_mono; [|by eapply (flush_chunk_spec cf rg)]. intros [[r|] s1]; [done|]. intros ((rg1 & Hlk & Hsp & Hle) & Hfr & Eh & Erb & Hs).
  destruct (delete_head_spec (hp s) shared p c l Hq) as (q' & h' & Ed & En & Hq' & Hpd & Eblk & _). rewrite Ec in En. injection En as ->.
  rewrite Erb, Eq, Eh, Ed, ok_bind. cbv beta iota. cbn [rc_next upd].
  match goal with |- defined (flush_loop _ _ ?t) _ => set (s2 := t) end.
  eapply defined_mono; [|apply (IH fuel s2 cf rg1 shared); [lia|by destruct Hlk as (? & ? & ?)|exact Hq']].
  intros r Hr. eapply (flushed_step cf rg rg1 shared s s1 s2 l (chunk_rest (hp s) c)); try done.
  - cbn. rewrite Hs, Hpd, <- app_assoc. done.
  - intros p' Hin. cbn. rewrite Eblk. destruct (owns c) as [b|] eqn:Eo; [|done]. rewrite lookup_delete_ne; [done|]. intros ->.
    unfold owns in Eo. destruct (take_ownership c) eqn:Et; [|done]. destruct (rc_buf c) as [[]|] eqn:Eb; try done. injection Eo as ->.
    destruct Hc as [_ Hb]. rewrite Eb in Hb. destruct Hb as [_ Hb]. rewrite bool_decide_eq_true_2 in Hb by done. by rewrite Et in Hb.
Qed.

Lemma flush_spec cf rg shared s l : link cf rg s -> qwf (hp s) shared (resp_buffer s) l -> defined (flush_resp_queue s) (flushed cf rg shared s l).
Proof. intros Hl Hq. apply flush_loop_spec; [|done|done]. by eapply queue_size; apply Hq. Qed.

(** C21. Sending the queued responses: what mbedTLS accepts of the queue is a
    prefix of its bytes, in order, and exactly the rest stays queued, also
    when a chunk is only accepted in part; the result is never positive, and
    0 only when the queue has been sent and is empty.  There is no access to
    freed memory, and the loop ends. *)
Theorem flush_resp_queue_sends cf rg shared s l :
  link cf rg s -> qwf (hp s) shared (resp_buffer s) l ->
  defined (flush_resp_queue s) (fun '(ret, s') => ret <= 0 /\ exists l', qwf (hp s') shared (resp_buffer s') l' /\
    tls_sent (ssl s') ++ pending (hp s') l' = tls_sent (ssl s) ++ pending (hp s) l /\ (ret = 0 -> resp_buffer s' = None)).
Proof.
  intros Hl Hq. eapply defined_mono; [|by apply (flush_spec cf rg shared s l)]. intros [ret s'] (_ & _ & Hr & _ & l' & Hq' & Hs & Hz).
  split; [done|]. exists l'. split; [done|]. split; [done|]. intros E. rewrite (Hz E) in Hq'. apply (qw_queue _ _ _ _ Hq').
Qed.

(** ** The invariant of a client *)

Definition apps s : list positive := omap id [user_app s; admin_app s; master_app s; pending_app s].

(** The request buffer, the connection, the queue [l], the web apps
    (terminated strings) and the rest of the system. *)
Record hinv cf rg l s : Prop := {
  hi_buf : Z.of_nat (length (req_buffer s)) = HTTP_BUFFER_SIZE;
  hi_next : 0 <= req_next s <= HTTP_BUFFER_SIZE;
  hi_link : link cf rg s;
  hi_queue : qwf (hp s) (apps s) (resp_buffer s) l;
  hi_apps : webapps_ok (hp s) (apps s);
  hi_pta : pta_ok (pta s)
}.

(** A chunk outside the queue, ready to be appended. *)
Definition loose (h : heap) (shared : list positive) (l : list (positive * resp_chunk)) (o : option positive) : Prop :=
  forall p, o = Some p -> (p ∉ l.*1) /\ exists c, chunks h !! p = Some c /\ chunk_ok h shared c /\ (forall b, owns c = Some b -> b ∉ omap owns l.*2).

(** What serving a request changes of the client, and what not. *)
Record kept s s' : Prop := {
  kp_peer : same_peer (ssl s) (ssl s');
  kp_master : master_cert s' = master_cert s;
  kp_req : req_buffer s' = req_buffer s /\ req_next s' = req_next s /\ is_partial_request s' = is_partial_request s
}.

Definition served cf rg s s' : Prop :=
  exists rg' l', hinv cf rg' l' s' /\ (tls_left rg' (ssl s') <= tls_left rg (ssl s))%nat /\ kept s s'.

Lemma served_kept_trans s s' s'' : kept s s' -> kept s' s'' -> kept s s''.
Proof.
  intros [? ? (? & ? & ?)] [? ? (? & ? & ?)]. split; [by eapply same_peer_trans|congruence|split_and!; congruence].
Qed.

Lemma served_trans cf rg rg' l' s s' s'' :
  hinv cf rg' l' s' -> (tls_left rg' (ssl s') <= tls_left rg (ssl s))%nat -> kept s s' -> served cf rg' s' s'' -> served cf rg s s''.
Proof. intros _ Hl Hk (rg2 & l2 & ? & ? & ?). exists rg2, l2. split; [done|]. split; [lia|]. by eapply served_kept_trans. Qed.

Lemma flush_served cf rg l s : hinv cf rg l s -> defined (flush_resp_queue s) (fun '(_, s') => served cf rg s s').
Proof.
  intros [Hb Hn Hl Hq Ha Hp]. eapply defined_mono; [|by apply (flush_spec cf rg (apps s) s l)].
  intros [ret s'] ((rg' & Hl' & Hsp & Hle) & [Fc (F1 & F2 & F3) (F4 & F5 & F6) (F7 & F8 & F9 & F10)] & _ & Hblk & l' & Hq' & _ & _).
  assert (apps s' = apps s) as Eapps by (unfold apps; congruence).
  exists rg', l'. split; [split|split; [done|split; [done|unfold master_cert; by rewrite F4|done]]].
  - by rewrite F1.
  - by rewrite F2.
  - done.
  - by rewrite Eapps.
  - intros p Hin. rewrite Eapps in Hin. rewrite (Hblk p Hin). by apply Ha.
  - by rewrite F6.
Qed.

(** The heap may grow. *)
Lemma hinv_heap cf rg l s h :
  hinv cf rg l s -> (forall p, p ∈ l.*1 -> chunks h !! p = chunks (hp s) !! p) -> blocks (hp s) ⊆ blocks h -> hinv cf rg l (s <| hp := h |>).
Proof.
  intros [Hb Hn Hl Hq Ha Hp] Hc Hs. split; cbn; try done; [by apply (qwf_mono (hp s))|].
  intros p Hin. destruct (Ha p Hin) as (b & t & Eb & ?). exists b, t. split; [|done]. by eapply lookup_weaken.
Qed.

(** The header is put into a block of its own. *)
Lemma header_block cf rg l s hdr ob h :
  hinv cf rg l s -> (length hdr <= 143)%nat -> malloc (Z.of_nat (length http_resp_tmplt) - 12 + 100) (hp s) = (Some ob, h) ->
  exists d m, blocks h !! ob = Some d /\ mem_write d 0 (take (Z.to_nat (Z.of_nat (length http_resp_tmplt) - 12 + 100 - 1)) hdr ++ [0]) = Ok m /\
    Z.of_nat (length m) = 144 /\ take (length hdr) m = hdr /\ blocks (hp s) !! ob = None /\ chunks h = chunks (hp s) /\ <[ob := m]> (blocks h) = <[ob := m]> (blocks (hp s)).
Proof.
  intros Hinv Hh E. change (Z.of_nat (length http_resp_tmplt) - 12 + 100) with 144 in *.
  apply malloc_spec in E as (Ec & En & d & Hd & Eb). exists d. change (Z.to_nat 144) with 144%nat in Hd. change (Z.to_nat (144 - 1)) with 143%nat.
  rewrite (take_ge hdr) by lia. exists (blit d 0 (hdr ++ [0])). split; [by rewrite Eb, lookup_insert_eq|]. split.
  { unfold mem_write. rewrite length_app. cbn [length]. rewrite !(proj2 (Z.leb_le _ _)) by lia. cbn [andb]. done. }
  split; [unfold blit; rewrite !length_app, length_take, length_drop; cbn [length]; lia|].
  split; [unfold blit; rewrite take_0, app_nil_l, <- app_assoc; by apply take_app_length|].
  split; [done|]. split; [done|]. by rewrite Eb, insert_insert_eq.
Qed.

Lemma owned_live h shared q l b : qwf h shared q l -> b ∈ omap owns l.*2 -> is_Some (blocks h !! b).
Proof.
  intros [_ _ Hck _] (c & Hc & Eo)%list_elem_of_omap. pose proof (proj1 (Forall_forall _ _) Hck c Hc) as [_ Hb]. unfold owns in Eo.
  destruct (take_ownership c); [|done]. destruct (rc_buf c) as [[]|]; try done. injection Eo as ->. destruct Hb as [(d & ? & _) _]. by exists d.
Qed.

(** What is to be sent of a chunk outside the queue. *)
Definition body_rest (h : heap) (c : option positive) : list Z :=
  match c with Some p => match chunks h !! p with Some ck => chunk_rest h ck | None => [] end | None => [] end.

(** A fresh block for the header and its chunk: appended to the queue. *)
Lemma append_header cf rg l s h ob m hc n :
  hinv cf rg l s -> blocks (hp s) !! ob = None -> chunks (hp s) !! hc = None -> 0 <= n <= Z.of_nat (length m) -> n <= MAX_I32 ->
  blocks h = <[ob := m]> (blocks (hp s)) -> chunks h = <[hc := mk_resp_chunk (Some (Mem ob)) n 0 true None]> (chunks (hp s)) ->
  forall c, loose (hp s) (apps s) l c ->
  exists q h', append_resp_queue (resp_buffer s) (Some hc) h = Ok (q, h') /\
    qwf h' (apps s) q (l ++ [(hc, mk_resp_chunk (Some (Mem ob)) n 0 true None)]) /\ blocks h' = blocks h /\
    pending h' (l ++ [(hc, mk_resp_chunk (Some (Mem ob)) n 0 true None)]) = pending (hp s) l ++ take (Z.to_nat n) m /\
    body_rest h' c = body_rest (hp s) c /\ loose h' (apps s) (l ++ [(hc, mk_resp_chunk (Some (Mem ob)) n 0 true None)]) c.
Proof.
  intros [_ _ _ Hq Ha _] Hob Hhc Hn Hn' Eb Ec c Hloose.
  assert (Hsub : blocks (hp s) ⊆ blocks h) by (rewrite Eb; by apply insert_subseteq).
  assert (Hoa : ob ∉ apps s) by (intros (d & t & E & _)%Ha; congruence).
  assert (Hhl : hc ∉ l.*1) by (intros Hin; destruct (queue_live _ _ _ _ (qw_queue _ _ _ _ Hq) Hin); congruence).
  destruct (qwf_mono (hp s) h (apps s) (resp_buffer s) l) as [Hq' Hpd]; [intros p Hp; rewrite Ec; apply lookup_insert_ne; congruence|done|done|].
  destruct (append_spec h (apps s) (resp_buffer s) l hc (mk_resp_chunk (Some (Mem ob)) n 0 true None)) as (q & h' & E & Hq2 & Eb2 & _ & _ & Hfr); try done.
  - by rewrite Ec, lookup_insert_eq.
  - split; cbn; [lia|]. split; [exists m; split; [by rewrite Eb, lookup_insert_eq|lia]|by rewrite bool_decide_eq_false_2].
  - cbn. intros p [= <-] Hin. destruct (owned_live _ _ _ _ _ Hq Hin). congruence.
  - exists q, h'. split; [done|]. split; [done|]. split; [done|].
    split; [rewrite pending_concat; rewrite (pending_blocks h h' l Eb2); rewrite Hpd; f_equal; unfold pending, chunk_rest; cbn; rewrite Eb2, Eb, lookup_insert_eq, app_nil_r, Z.sub_0_r; done|].
    destruct c as [p|]; [|done]. destruct (Hloose p eq_refl) as (Hp & ck & Eck & Hck & Hown). assert (p <> hc) by congruence.
    assert (Ep : chunks h' !! p = Some ck) by (rewrite Hfr by done; by rewrite Ec, lookup_insert_ne).
    destruct (chunk_ok_mono (hp s) h' (apps s) ck) as [Hck' Hrest]; [by rewrite Eb2|done|].
    split; [cbn; by rewrite Ep, Eck|]. intros p' [= <-]. rewrite fmap_app. split; [rewrite elem_of_app; cbn; set_solver|]. exists ck. split; [done|]. split; [done|].
    intros b Eo. rewrite fmap_app, omap_app, elem_of_app. intros [Hin|Hin]; [by apply (Hown b Eo)|]. cbn in Hin. apply list_elem_of_singleton in Hin as ->.
    unfold owns in Eo. destruct Hck as [_ Hck]. destruct (take_ownership ck); [|done]. destruct (rc_buf ck) as [[]|]; try done. injection Eo as ->.
    destruct Hck as [(d & Ed & _) _]. congruence.
Qed.

Lemma append_body h shared q l c :
  qwf h shared q l -> loose h shared l c -> exists q' h' l', append_resp_queue q c h = Ok (q', h') /\ qwf h' shared q' l' /\ blocks h' = blocks h /\
    pending h' l' = pending h l ++ body_rest h c.
Proof.
  intros Hq Hc. destruct c as [p|]; [|exists q, h, l; cbn; by rewrite app_nil_r]. destruct (Hc p eq_refl) as (Hp & ck & E & Hck & Ho).
  destruct (append_spec h shared q l p ck Hq Hp E Hck Ho) as (q' & h' & ? & ? & ? & _). exists q', h', (l ++ [(p, ck)]).
  split_and!; try done. rewrite pending_concat, !(pending_blocks h h' _ ltac:(done)). f_equal. cbn. rewrite E. unfold pending. cbn. by rewrite app_nil_r.
Qed.

(** Length and type in the header of a response. *)
Definition resp_body (c : option positive) (n : Z) (type : string) : Z * string :=
  match c with Some _ => if 0 <? n then (n, type) else (0, EmptyString) | None => (0, EmptyString) end.

(** A response: the allocator fails, or header and body are queued and the
    queue is flushed. *)
Lemma send_queues cf rg l s code status n c type :
  hinv cf rg l s -> loose (hp s) (apps s) l c ->
  (String.length (pretty code) + String.length status + String.length type <= 80)%nat ->
  (exists h, send_http_resp code status n c type s = Ok (-1, s <| hp := h |>) /\ hinv cf rg l (s <| hp := h |>) /\ exists i, answers (hp s) i = None) \/
  (exists q h l', send_http_resp code status n c type s = flush_resp_queue (s <| resp_buffer := q |> <| hp := h |>) /\
     hinv cf rg l' (s <| resp_buffer := q |> <| hp := h |>) /\
     pending h l' = pending (hp s) l ++ resp_header code status (resp_body c n type).1 (resp_body c n type).2 ++ body_rest (hp s) c).
Proof.
  intros Hinv Hc Hlen. unfold send_http_resp.
  destruct (malloc _ (hp s)) as [[ob|] h] eqn:Em.
  2: { left. exists h. split; [done|]. pose proof Em as Em'. unfold malloc, ask in Em'. apply malloc_spec in Em as [Ec Eb].
       split; [apply hinv_heap; [done|by rewrite Ec|by rewrite Eb]|]. exists (asked (hp s)). by destruct (answers (hp s) (asked (hp s))). }
  change (match c with Some _ => _ | None => _ end) with (resp_body c n type). destruct (resp_body c n type) as [blen ty] eqn:Ebt. cbn [fst snd].
  assert (Hh : (length (resp_header code status blen ty) <= 143)%nat).
  { apply resp_header_len. unfold resp_body in Ebt. destruct c; [destruct (0 <? n)|]; injection Ebt as _ <-; cbn [String.length]; lia. }
  destruct (header_block cf rg l s _ ob h Hinv Hh Em) as (d & m & Ed & Ew & Hm & Htk & Hob & Ech & Ebl). rewrite Ed. cbn [deref]. rewrite ok_bind. cbv beta.
  rewrite Ew, ok_bind. cbv beta zeta. destruct (pack_into_resp_chunk _ _ _) as [hc h2] eqn:Ep. pose proof Ep as Ep'.
  apply pack_spec in Ep as [Eb2 Ep]. cbn [blocks chunks upd] in Eb2, Ep. rewrite Ebl in Eb2. rewrite Ech in Ep. destruct hc as [hc|].
  - right. destruct Ep as [Hhc Ep].
    destruct (append_header cf rg l s (h2 <| chunks ::= alter (fun c => c <| take_ownership := true |>) hc |>) ob m hc (Z.of_nat (length (resp_header code status blen ty)))
      Hinv Hob Hhc) with (c := c) as (q1 & h3 & -> & Hq3 & Eb3 & Hp3 & Hr3 & Hl3); [lia|unfold MAX_I32; lia|done|cbn; by rewrite Ep, alter_insert_eq|done|].
    rewrite ok_bind. cbv beta iota. destruct (append_body h3 (apps s) q1 _ c Hq3 Hl3) as (q4 & h4 & l4 & -> & Hq4 & Eb4 & Hp4). rewrite ok_bind. cbv beta iota.
    exists q4, h4, l4. split; [done|]. split; [|by rewrite Hp4, Hp3, Hr3, Nat2Z.id, Htk, app_assoc].
    destruct Hinv as [I1 I2 I3 I4 I5 I6]. split; try done. intros p Hin. destruct (I5 p Hin) as (b & t & E & ?). exists b, t. split; [|done].
    cbn. rewrite Eb4, Eb3. cbn. rewrite Eb2, lookup_insert_ne; [done|]. congruence.
  - left. cbn [free]. rewrite Eb2, lookup_insert_eq. cbn [deref]. rewrite !ok_bind. eexists. split; [done|]. split.
    + apply hinv_heap; [done|intros p _; cbn; by rewrite Ep|]. cbn. by rewrite Eb2, delete_insert_id.
    + unfold malloc, ask in Em. destruct (answers (hp s) (asked (hp s))); [|done]. injection Em as _ <-.
      exists (S (asked (hp s))). unfold pack_into_resp_chunk, malloc_chunk, ask in Ep'. cbn in Ep'. by destruct (answers (hp s) (S (asked (hp s)))).
Qed.

Lemma send_spec cf rg l s code status n c type :
  hinv cf rg l s -> loose (hp s) (apps s) l c ->
  (String.length (pretty code) + String.length status + String.length type <= 80)%nat ->
  defined (send_http_resp code status n c type s) (fun '(_, s') => served cf rg s s').
Proof.
  intros Hinv Hc Hlen. destruct (send_queues cf rg l s code status n c type Hinv Hc Hlen) as [(h & -> & Hi & _)|(q & h & l' & -> & Hi & _)].
  - exists rg, l. split; [done|]. split; [done|by split].
  - eapply defined_mono; [|by apply (flush_served cf rg l')]. intros [r s'] Hs. by eapply (served_trans cf rg rg l').
Qed.

Lemma loose_none h shared l : loose h shared l None. Proof. by intros p. Qed.

(** The error responses the server uses. *)
Definition err_resp (code : Z) (msg : string) : Prop :=
  (String.length (pretty code) + String.length msg <= 80)%nat /\ (code =? 204) || (code =? 304) || ((100 <=? code) && (code <=? 199)) = false.

Lemma send_err_spec cf rg l s code msg :
  hinv cf rg l s -> err_resp code msg -> defined (send_http_err_resp code msg s) (fun '(_, s') => served cf rg s s').
Proof.
  intros Hi [Hl Hc]. unfold send_http_err_resp. rewrite Hc. apply (send_spec cf rg l); [done|apply loose_none|]. cbn [String.length]. lia.
Qed.

Lemma served_step cf rg l s s1 s' : hinv cf rg l s1 -> ssl s1 = ssl s -> kept s s1 -> served cf rg s1 s' -> served cf rg s s'.
Proof. intros Hi Es Hk Hs. apply (served_trans cf rg rg l s s1 s'); [done|by rewrite Es|done|done]. Qed.

Lemma served_after cf rg l s s1 (o : outcome (Z * hst CONF SSL P)) :
  hinv cf rg l s1 -> ssl s1 = ssl s -> kept s s1 -> defined o (fun '(_, s') => served cf rg s1 s') -> defined o (fun '(_, s') => served cf rg s s').
Proof. intros Hi Es Hk Ho. eapply defined_mono; [|exact Ho]. intros [r s'] Hs. by eapply (served_step cf rg l). Qed.

Lemma client_type_spec cf rg l s :
  hinv cf rg l s -> defined (get_client_type s) (fun '(ty, s1) => hinv cf rg l s1 /\ kept s s1 /\ ssl s1 = ssl s /\ apps s1 = apps s /\ typed ty s1).
Proof.
  intros Hi. destruct (get_client_type s) as [[ty s1]| |] eqn:E; [|done|].
  - destruct (get_client_type_trace s ty s1 E) as [Ht Hty].
    assert (s1 = s \/ exists m, s1 = s <| master := m |>) as Hs1.
    { revert E. unfold get_client_type, get_cert_type, get_master_cert, load_master_cert. repeat case_match; intros; simplify_eq; eauto. }
    assert (ssl s1 = ssl s /\ apps s1 = apps s /\ req_buffer s1 = req_buffer s /\ req_next s1 = req_next s /\ is_partial_request s1 = is_partial_request s /\ hinv cf rg l s1)
      as (? & ? & ? & ? & ? & ?) by (destruct Hs1 as [->|[m ->]]; [done|]; destruct Hi; by split_and!).
    split; [done|]. split; [|done]. destruct Ht. by split.
  - revert E. unfold get_client_type, get_cert_type, get_master_cert, load_master_cert. repeat case_match; done.
Qed.

Lemma c_string_len b t : c_string b = Ok t -> (length t <= length b)%nat.
Proof.
  revert t. induction b as [|x b IH]; cbn; intros t; [done|]. case_match; [intros [= <-]; cbn; lia|].
  intros (r & E & [= <-])%bind_ok. apply IH in E. cbn. lia.
Qed.

Lemma web_app_in ty s p : get_web_app ty s = Some p -> p ∈ apps s.
Proof.
  unfold get_web_app, apps. intros E. apply list_elem_of_omap. exists (Some p). split; [|done].
  destruct ty; rewrite E || done; repeat (by left) || right; set_solver.
Qed.

(** A new chunk is not in the queue. *)
Lemma pack_loose cf rg l s b n hc h :
  hinv cf rg l s -> pack_into_resp_chunk (Some b) n (hp s) = (hc, h) -> chunk_ok (hp s) (apps s) (mk_resp_chunk (Some b) n 0 false None) ->
  hinv cf rg l (s <| hp := h |>) /\ loose h (apps s) l hc.
Proof.
  intros Hi E Hc. apply pack_spec in E as [Eb Ec]. pose proof (hi_queue _ _ _ _ Hi) as Hq.
  assert (forall p, hc = Some p -> p ∉ l.*1) as Hne.
  { intros p -> Hin. destruct Ec as [Ec _]. destruct (queue_live _ _ _ _ (qw_queue _ _ _ _ Hq) Hin). congruence. }
  split.
  - apply hinv_heap; [done| |by rewrite Eb]. intros p Hp. destruct hc as [q|]; [|by rewrite Ec]. destruct Ec as [_ ->]. apply lookup_insert_ne. intros ->. by apply (Hne p).
  - intros p ->. split; [by apply Hne|]. destruct Ec as [_ Ec]. eexists. split; [by rewrite Ec, lookup_insert_eq|]. split; [by apply (chunk_ok_blocks (hp s))|]. by intros.
Qed.

Lemma get_spec cf rg l s pi : hinv cf rg l s -> defined (handle_get_request pi s) (fun '(_, s') => served cf rg s s').
Proof.
  intros Hi. unfold handle_get_request. apply defined_bind. eapply defined_mono; [|by apply (client_type_spec cf rg l)].
  intros [ty s1] (Hi1 & Hk & Es & Ea & _).
  apply (served_after cf rg l s s1); [done..|]. case_match; [by apply (send_err_spec cf rg l); [|vm_compute; split; [lia|]]|].
  destruct (get_web_app ty s1) as [p|] eqn:Ew; [|by apply (send_err_spec cf rg l); [|vm_compute; split; [lia|]]].
  apply web_app_in in Ew. destruct (hi_apps _ _ _ _ Hi1 p Ew) as (b & t & Eb & Et & Hlen). rewrite Eb. cbn [deref]. rewrite ok_bind. cbv beta.
  rewrite Et, ok_bind. cbv beta zeta. destruct (pack_into_resp_chunk _ _ _) as [hc h] eqn:Ep. apply c_string_len in Et.
  destruct (pack_loose cf rg l s1 (Mem p) (Z.of_nat (length t)) hc h Hi1 Ep) as [Hi2 Hl2].
  { split; cbn; [lia|]. split; [exists b; split; [done|lia]|]. by rewrite bool_decide_eq_true_2. }
  destruct hc as [hc|]; [|exists rg, l; split; [done|]; split; [done|by split]].
  apply (served_after cf rg l s1 (s1 <| hp := h |>)); [done..|by split|]. by apply (send_spec cf rg l); [..|vm_compute; lia].
Qed.

(** What the TEE promises of calls into another TA: the output buffer keeps
    its length, and on success its size is one it has. *)
Record tee_laws : Prop := {
  te_open u t ps x : pta_ok x -> defined (TEE_OpenTASession u t ps x) (fun '(_, _, x') => pta_ok x');
  te_invoke sess cmd t p0 p1 b1 rest x : pta_ok x -> memref_buffer p1 = Some b1 ->
    defined (TEE_InvokeTACommand sess cmd t (p0 :: p1 :: rest) x) (fun '(res, ps, x') => pta_ok x' /\
      exists q1 b1', aget ps 1 = Ok q1 /\ memref_buffer q1 = Some b1' /\ length b1' = length b1 /\
        (res = TEE_SUCCESS -> 0 <= memref_size q1 <= Z.of_nat (length b1)));
  te_close sess x : pta_ok x -> defined (TEE_CloseTASession sess x) pta_ok
}.
Context (Htee : tee_laws).

(** The body of a request lies in the request buffer. *)
Definition pinfo_ok (pi : parsing_info) : Prop :=
  forall off, body pi = Some off -> 0 <= off /\ 0 <= body_len pi /\ off + body_len pi <= HTTP_BUFFER_SIZE.

Lemma body_bytes_ok cf rg l s pi : hinv cf rg l s -> pinfo_ok pi -> has_body pi = true -> exists d, body_bytes pi s = Ok d.
Proof.
  intros Hi Hp Hb. unfold has_body in Hb. apply negb_true_iff, orb_false_iff in Hb as [Hb _]. unfold body_bytes.
  destruct (body pi) as [off|] eqn:E; [|by rewrite bool_decide_eq_true_2 in Hb]. destruct (Hp off E) as (? & ? & ?). cbn. unfold mem_read.
  rewrite (hi_buf _ _ _ _ Hi), !(proj2 (Z.leb_le _ _)) by lia. by eexists.
Qed.

Lemma hinv_pta cf rg l s x : hinv cf rg l s -> pta_ok x -> hinv cf rg l (s <| pta := x |>).
Proof. intros [? ? ? ? ? ?] ?. by split. Qed.

(** A state with one more block than [s], which nobody refers to. *)
Definition extra cf rg l s rb s1 : Prop :=
  exists x h d, s1 = s <| pta := x |> <| hp := h |> /\ pta_ok x /\ blocks (hp s) !! rb = None /\ blocks h = <[rb := d]> (blocks (hp s)) /\
    chunks h = chunks (hp s) /\ hinv cf rg l s.

Lemma extra_fail cf rg l s rb s1 : extra cf rg l s rb s1 -> defined (npfctl_fail rb s1) (fun '(_, s') => served cf rg s s').
Proof.
  intros (x & h & d & -> & Hx & Hrb & Eb & Ec & Hi). unfold npfctl_fail. cbn [free hp upd]. rewrite Eb, lookup_insert_eq. cbn [deref]. rewrite !ok_bind. cbv beta.
  set (h' := h <| blocks ::= delete rb |>). assert (hinv cf rg l ((s <| pta := x |>) <| hp := h' |>)) as Hi'.
  { apply (hinv_heap cf rg l (s <| pta := x |>) h'); [by apply hinv_pta|by intros p _; cbn; rewrite Ec|]. cbn. by rewrite Eb, delete_insert_id. }
  apply (served_after cf rg l s ((s <| pta := x |>) <| hp := h' |>)); [done|done|by split|]. apply (send_err_spec cf rg l); [done|]. vm_compute. split; [lia|done].
Qed.

(** The block becomes the body of a response. *)
Lemma extra_ready cf rg l s rb s1 n hc h1 d :
  extra cf rg l s rb s1 -> blocks (hp s1) !! rb = Some d -> 0 <= n <= Z.of_nat (length d) -> n <= MAX_I32 ->
  pack_into_resp_chunk (Some (Mem rb)) n (hp s1) = (Some hc, h1) ->
  let s2 := s1 <| hp := h1 |> <| hp ::= fun h => h <| chunks ::= alter (fun c => c <| take_ownership := true |>) hc |> |> in
  hinv cf rg l s2 /\ kept s s2 /\ ssl s2 = ssl s /\ loose (hp s2) (apps s2) l (Some hc) /\
  pending (hp s2) l = pending (hp s) l /\ body_rest (hp s2) (Some hc) = take (Z.to_nat n) d.
Proof.
  intros (x & h & d' & -> & Hx & Hrb & Eb & Ec & Hi) Ed Hn Hn' Ep s2. cbn [hp upd] in Ed, Ep. rewrite Eb, lookup_insert_eq in Ed. injection Ed as ->.
  apply pack_spec in Ep as [Eb1 [Hhc Ec1]]. rewrite Ec in Hhc, Ec1. rewrite Eb in Eb1. pose proof (hi_queue _ _ _ _ Hi) as Hq.
  set (h2 := h1 <| chunks ::= alter (fun c => c <| take_ownership := true |>) hc |>). change (hp s2) with h2.
  assert (E2 : chunks h2 = <[hc := mk_resp_chunk (Some (Mem rb)) n 0 true None]> (chunks (hp s))) by (cbn; by rewrite Ec1, alter_insert_eq).
  assert (Hne : hc ∉ l.*1) by (intros Hin; destruct (queue_live _ _ _ _ (qw_queue _ _ _ _ Hq) Hin); congruence).
  assert (Hch : forall p, p ∈ l.*1 -> chunks h2 !! p = chunks (hp s) !! p) by (intros p Hp; rewrite E2, lookup_insert_ne by congruence; done).
  assert (Hsub : blocks (hp s) ⊆ blocks h2) by (cbn; rewrite Eb1; by apply insert_subseteq).
  split; [|split; [by split|split; [done|split; [|split]]]].
  - change s2 with ((s <| pta := x |>) <| hp := h2 |>). apply (hinv_heap cf rg l (s <| pta := x |>) h2); [by apply hinv_pta|done|done].
  - intros p [= <-]. split; [done|]. eexists. rewrite E2, lookup_insert_eq. split; [done|]. split.
    + split; cbn; [lia|]. rewrite Eb1. split; [exists d; rewrite lookup_insert_eq; split; [done|lia]|]. rewrite bool_decide_eq_false_2; [done|].
      intros (b & t & E & _)%(hi_apps _ _ _ _ Hi). congruence.
    + intros b [= <-] Hin. destruct (owned_live _ _ _ _ _ Hq Hin). congruence.
  - by eapply (qwf_mono (hp s)).
  - unfold body_rest. rewrite E2, lookup_insert_eq. unfold chunk_rest. cbn. rewrite Eb1, lookup_insert_eq, Z.sub_0_r. done.
Qed.

Lemma extra_send cf rg l s rb s1 n hc h1 d :
  extra cf rg l s rb s1 -> blocks (hp s1) !! rb = Some d -> 0 <= n <= Z.of_nat (length d) -> n <= MAX_I32 ->
  pack_into_resp_chunk (Some (Mem rb)) n (hp s1) = (Some hc, h1) ->
  defined (send_http_resp 200 "OK" n (Some hc) "application/octet-stream"
    (s1 <| hp := h1 |> <| hp ::= fun h => h <| chunks ::= alter (fun c => c <| take_ownership := true |>) hc |> |>)) (fun '(_, s') => served cf rg s s').
Proof.
  intros He Ed Hn Hn' Ep. destruct (extra_ready cf rg l s rb s1 n hc h1 d He Ed Hn Hn' Ep) as (Hi2 & Hk & Es & Hl & _).
  eapply (served_after cf rg l); [exact Hi2|exact Es|exact Hk|]. by apply (send_spec cf rg l); [..|vm_compute; lia].
Qed.

Lemma npfctl_spec cf rg l s pi :
  hinv cf rg l s -> pinfo_ok pi -> has_body pi = true -> defined (post_npfctl_cmd pi s) (fun '(_, s') => served cf rg s s').
Proof.
  intros Hi Hpi Hb. unfold post_npfctl_cmd. destruct (body_len pi =? 0); [exists rg, l; split; [done|]; split; [done|by split]|].
  destruct (malloc MAX_NVLIST_RESP (hp s)) as [[rb|] h] eqn:Em; cbv zeta; apply malloc_spec in Em as [Ec Em].
  2: { assert (hinv cf rg l (s <| hp := h |>)) as Hi1 by (apply hinv_heap; [done|by rewrite Ec|by rewrite Em]).
       apply (served_after cf rg l s (s <| hp := h |>)); [done|done|by split|]. apply (send_err_spec cf rg l); [done|]. vm_compute. split; [lia|done]. }
  destruct Em as (Hrb & d & Hd & Eb). apply defined_bind. cbn [pta upd]. eapply defined_mono; [|apply (te_open Htee), (hi_pta _ _ _ _ Hi)].
  intros [[r sess] x] Hx.
  assert (Hex : extra cf rg l s rb (s <| hp := h |> <| pta := x |>)) by (by exists x, h, d).
  case_match; [by apply (extra_fail cf rg l)|].
  destruct (body_bytes_ok cf rg l s pi Hi Hpi Hb) as [req Ereq]. change (body_bytes pi (s <| hp := h |> <| pta := x |>)) with (body_bytes pi s).
  rewrite Ereq, ok_bind. cbv beta. cbn [hp upd pta]. rewrite Eb, lookup_insert_eq. cbn [deref]. rewrite ok_bind. cbv beta. apply defined_bind.
  eapply defined_mono; [|by apply (te_invoke Htee)]. intros [[res ps] y] (Hy & q1 & b1 & Eq & Eb1 & Hl1 & Hsz). rewrite Eq, ok_bind. cbv beta. rewrite Eb1. cbn [deref]. rewrite ok_bind. cbv beta.
  apply defined_bind. eapply defined_mono; [|by apply (te_close Htee)]. intros z Hz.
  match goal with |- defined (if _ then _ ?t else _) _ => set (s2 := t) end.
  assert (Hex2 : extra cf rg l s rb s2) by (exists z, (h <| blocks ::= <[rb := b1]> |>), b1; split_and!; try done; cbn; by rewrite Eb, insert_insert_eq).
  destruct (res =? TEE_SUCCESS) eqn:Er; cbn [negb]; [apply Z.eqb_eq in Er|by apply (extra_fail cf rg l)].
  match goal with |- context [pack_into_resp_chunk ?a ?b ?c] => change (pack_into_resp_chunk a b c) with (pack_into_resp_chunk a b (hp s2)) end.
  destruct (pack_into_resp_chunk _ _ (hp s2)) as [[hc|] h3] eqn:Ep.
  - apply (extra_send cf rg l s rb s2 (memref_size q1) hc h3 b1); try done; [cbn; by rewrite lookup_insert_eq|specialize (Hsz Er); lia|].
    specialize (Hsz Er). unfold MAX_NVLIST_RESP in Hd. unfold MAX_I32. lia.
  - apply (extra_fail cf rg l). apply pack_spec in Ep as [Eb3 Ec3]. destruct Hex2 as (x2 & h2 & d2 & E2 & ? & ? & Eh2 & Ec2 & _).
    exists z, h3, b1. split_and!; try done; [rewrite Eb3; cbn; by rewrite Eb, insert_insert_eq|by rewrite Ec3].
Qed.

(** A response with a short literal. *)
Lemma literal_spec cf rg l s t n hc h :
  hinv cf rg l s -> pack_into_resp_chunk (Some (Lit t)) n (hp s) = (hc, h) -> 0 <= n <= Z.of_nat (length t) -> n <= 10 ->
  defined (send_http_resp 200 "OK" n hc "text/plain" (s <| hp := h |>)) (fun '(_, s') => served cf rg s s').
Proof.
  intros Hi Ep Hn Hn'. destruct (pack_loose cf rg l s (Lit t) n hc h Hi Ep) as [Hi2 Hl2]; [split; cbn; unfold MAX_I32; lia|].
  apply (served_after cf rg l s (s <| hp := h |>)); [done|done|by split|]. apply (send_spec cf rg l); [done|done|vm_compute; lia].
Qed.

Lemma register_admin_spec cf rg l s pi :
  hinv cf rg l s -> pinfo_ok pi -> has_body pi = true -> defined (post_register_admin pi s) (fun '(_, s') => served cf rg s s').
Proof.
  intros Hi Hpi Hb. unfold post_register_admin. destruct (ask (hp s)) as [o h] eqn:Ea. cbv zeta.
  assert (hinv cf rg l (s <| hp := h |>)) as Hi1 by (injection Ea as <- <-; by apply hinv_heap).
  apply (served_after cf rg l s (s <| hp := h |>)); [done|done|by split|].
  destruct o; [|apply (send_err_spec cf rg l); [done|]; vm_compute; split; [lia|done]].
  destruct (body_bytes_ok cf rg l _ pi Hi1 Hpi Hb) as [req ->]. rewrite ok_bind. cbv beta. destruct (x509_crt_parse req) as [ret raw]. case_match.
  - destruct (pack_into_resp_chunk _ _ _) as [hc h2] eqn:Ep. by apply (literal_spec cf rg l _ (bytes "FAIL") 4); [..|vm_compute; split; discriminate|].
  - cbn [allow_admin_cert Z.eqb negb]. set (s1 := upd allowlist _ _). assert (hinv cf rg l s1) as Hi2 by (by destruct Hi1).
    apply (served_after cf rg l _ s1); [done|done|by split|]. destruct (pack_into_resp_chunk _ _ _) as [hc h2] eqn:Ep.
    by apply (literal_spec cf rg l s1 (bytes "REGISTERED") 10); [..|vm_compute; split; discriminate|].
Qed.

Lemma kept_master s s1 : kept s s1 -> is_master s1 -> is_master s.
Proof. intros [[Ev Ep] Em _]. unfold is_master. by rewrite Ev, Ep, Em. Qed.

Lemma post_spec cf rg l s pi :
  hinv cf rg l s -> ~ is_master s -> pinfo_ok pi -> defined (handle_post_request pi s) (fun '(_, s') => served cf rg s s').
Proof.
  intros Hi Hm Hpi. unfold handle_post_request. case_match; [exists rg, l; split; [done|]; split; [done|by split]|].
  destruct (get_req_handler _ _) as [hndl|] eqn:Eh; [|apply (send_err_spec cf rg l); [done|]; vm_compute; split; [lia|done]]. apply post_handlers in Eh.
  apply defined_bind. eapply defined_mono; [|by apply (client_type_spec cf rg l)]. intros [ty s1] (Hi1 & Hk & Es & _ & Hty).
  apply (served_after cf rg l s s1); [done..|].
  case_match eqn:Ea; [apply (send_err_spec cf rg l); [done|]; vm_compute; split; [lia|done]|]. apply negb_false_iff, bool_decide_eq_true in Ea.
  case_match eqn:Eb; [apply (send_err_spec cf rg l); [done|]; vm_compute; split; [lia|done]|].
  case_match; [apply (send_err_spec cf rg l); [done|]; vm_compute; split; [lia|done]|].
  repeat (apply elem_of_cons in Eh as [->|Eh]); [..|by apply elem_of_nil in Eh]; cbn in Ea, Eb; cbn [run_handler rh_handler].
  - apply (npfctl_spec cf rg l); [done|done|by apply negb_false_iff].
  - apply (register_admin_spec cf rg l); [done|done|by apply negb_false_iff].
  - apply elem_of_cons in Ea as [->|Ea]; [|by apply elem_of_nil in Ea]. by destruct Hm; apply (kept_master s s1).
  - apply (send_spec cf rg l); [done|apply loose_none|vm_compute; lia].
Qed.

Lemma dispatch_spec cf rg l s pi :
  hinv cf rg l s -> ~ is_master s -> pinfo_ok pi -> defined (dispatch pi s) (fun '(_, s') => served cf rg s s').
Proof.
  intros Hi Hm Hpi. unfold dispatch. case_match; [by apply (get_spec cf rg l)|]. case_match; [by apply (post_spec cf rg l)|].
  apply (send_err_spec cf rg l); [done|]. vm_compute. split; [lia|done].
Qed.

(** ** The rounds *)

(** The parser never takes more than it is given. *)
Definition phr_law : Prop := forall data n, phr_ret (phr_parse_request data n) <= Z.of_nat (length data).
Context (Hphr : phr_law).

(** Between two rounds: what is left to handle lies within what has been
    received, and is all of it when a round is about to receive more. *)
Record rinv cf rg l bp n s : Prop := {
  ri_inv : hinv cf rg l s;
  ri_range : 0 <= bp /\ 0 <= n /\ bp + n <= req_next s;
  ri_start : bp = 0 -> n = req_next s;
  ri_more : n = 0 \/ is_partial_request s = true -> bp = 0
}.

(** Bounds the rounds: the bytes still to come and those not yet handled. *)
Definition todo rg n s : nat := 3 * tls_left rg (ssl s) + 2 * Z.to_nat n.
Definition measure rg n s : nat := todo rg n s + (if is_partial_request s then 0 else 1).

(** A round ends with a return, or with less than [m] left to do. *)
Definition round_ok cf (m : nat) (r : round) : Prop :=
  match r with
  | Return _ s' => exists rg' l', hinv cf rg' l' s' /\ ~ is_master s'
  | Continue bp n s' => exists rg' l', rinv cf rg' l' bp n s' /\ ~ is_master s' /\ (measure rg' n s' < m)%nat
  end.

Lemma hinv_req cf rg l s b n :
  hinv cf rg l s -> Z.of_nat (length b) = HTTP_BUFFER_SIZE -> 0 <= n <= HTTP_BUFFER_SIZE -> hinv cf rg l (s <| req_buffer := b |> <| req_next := n |>).
Proof. intros [? ? ? ? ? ?] ? ?. by split. Qed.

Lemma hinv_partial cf rg l s p : hinv cf rg l s -> hinv cf rg l (s <| is_partial_request := p |>).
Proof. intros [? ? ? ? ? ?]. by split. Qed.

(** The rest is at the front afterwards. *)
Lemma move_rest_spec cf rg l bp n s :
  hinv cf rg l s -> 0 <= bp -> 0 <= n -> bp + n <= req_next s ->
  exists s', move_rest bp n s = Ok s' /\ hinv cf rg l s' /\ ssl s' = ssl s /\ is_partial_request s' = is_partial_request s /\ master_cert s' = master_cert s /\
    (bp = 0 /\ s' = s \/ req_next s' = n).
Proof.
  intros Hi Hb Hn Hr. unfold move_rest. destruct (bp =? 0) eqn:E; [apply Z.eqb_eq in E; exists s; by split_and!; auto|].
  pose proof (hi_buf _ _ _ _ Hi) as Hl. pose proof (hi_next _ _ _ _ Hi) as Hx. unfold mem_read. rewrite Hl, !(proj2 (Z.leb_le _ _)) by lia. cbn [andb]. rewrite ok_bind. cbv beta.
  set (d := take _ _). assert (Z.of_nat (length d) = n) as Hd by (subst d; rewrite length_take, length_drop; lia).
  unfold mem_write. rewrite Hl, Hd, !(proj2 (Z.leb_le _ _)) by lia. cbn [andb]. rewrite ok_bind. cbv beta. unfold HTTP_BUFFER_SIZE in *.
  rewrite u32_small by lia. eexists. split; [done|]. split; [|split_and!; auto].
  apply hinv_req; [done| |unfold HTTP_BUFFER_SIZE; lia]. unfold blit, HTTP_BUFFER_SIZE. rewrite !length_app, length_take, length_drop. lia.
Qed.

Lemma not_master_same s s' : ~ is_master s -> ssl s' = ssl s -> master_cert s' = master_cert s -> ~ is_master s'.
Proof. intros Hm E1 E2 Hm'. apply Hm. unfold is_master in *. by rewrite <- E1, <- E2. Qed.

Lemma strtoul_range v : 0 <= strtoul v <= ULONG_MAX.
Proof.
  unfold strtoul. match goal with |- context [let '(_, _) := ?t in _] => destruct t as [neg l] end. assert (forall acc, 0 <= acc -> 0 <= ul_digits acc l) as Hd.
  { induction l as [|c l IH]; cbn; intros acc Ha; [done|]. case_match; [apply IH|done]. lia. }
  specialize (Hd 0 ltac:(lia)). unfold ULONG_MAX in *. case_match; [lia|]. destruct neg; [|lia]. unfold u32. pose proof (Z.mod_pos_bound (- ul_digits 0 l) 4294967296). lia.
Qed.

(** A complete request. *)
Lemma handle_spec cf rg l bp n s pi :
  hinv cf rg l s -> ~ is_master s -> 0 <= bp -> bp + n <= req_next s -> 0 < nparsed pi -> 0 <= body_len pi -> nparsed pi + body_len pi <= n ->
  pinfo_ok pi -> defined (handle_request pi n s) (round_ok cf (S (todo rg n s))).
Proof.
  intros Hi Hm Hb Hn Hp Hbl Hle Hpi. pose proof (hi_next _ _ _ _ Hi) as Hx. unfold HTTP_BUFFER_SIZE in Hx. unfold handle_request.
  rewrite !u32_small by lia. apply defined_bind.
  eapply defined_mono; [|apply (dispatch_spec cf rg l); [by apply hinv_partial|exact Hm|done]].
  intros [ret s1] (rg1 & l1 & Hi1 & Hle1 & Hk).
  assert (Hm1 : ~ is_master s1) by (intros Hm1; exact (Hm (kept_master _ s1 Hk Hm1))).
  destruct Hk as [_ _ (Eb & En & Ep)]. cbn in Hle1, Eb, En, Ep.
  set (m := nparsed pi + body_len pi) in *. case_match.
  - destruct (move_rest_spec cf rg1 l1 m (n - m) s1) as (s2 & -> & Hi2 & Es & _ & Em & _); [done|lia|lia|rewrite En; cbn; lia|].
    rewrite ok_bind. exists rg1, l1. split; [done|]. by apply (not_master_same s1).
  - unfold todo in *. destruct (n - m =? 0) eqn:E; [apply Z.eqb_eq in E|apply Z.eqb_neq in E]; exists rg1, l1; (split; [|split; [done|]]).
    + split; [|cbn; lia|cbn; lia|done]. pose proof (hinv_req cf rg1 l1 s1 (req_buffer s1) 0 Hi1 (hi_buf _ _ _ _ Hi1) ltac:(unfold HTTP_BUFFER_SIZE; lia)) as Hr. by destruct s1.
    + unfold measure, todo. cbn. rewrite Ep. cbn in *. lia.
    + split; [done|rewrite En; cbn; lia|lia|]. rewrite Ep. intros [?|?]; [lia|done].
    + unfold measure, todo. rewrite Ep. cbn in *. lia.
Qed.

(** The body the headers announce. *)
Lemma content_length_spec bp n hs :
  defined (content_length bp n hs) (fun r => forall bd len, r = Some (bd, len) -> 0 <= len <= ULONG_MAX /\ (bd = None /\ len = 0 \/ bd = Some (bp + n))).
Proof.
  unfold content_length. destruct (find_header _ hs) as [v|]; [|intros bd len [= <- <-]; unfold ULONG_MAX; split; [lia|by left]].
  case_match; [done|]. case_match; [done|]. intros bd len [= <- <-]. split; [apply strtoul_range|by right].
Qed.

Lemma tls_close_spec cf rg l s : hinv cf rg l s -> defined (tls_close_notify s) (fun s' => served cf rg s s').
Proof.
  intros [Hb Hn (Ec & Er & Hl) Hq Ha Hp]. unfold tls_close_notify. rewrite Ec, Er. cbn [deref assert_ptr]. rewrite !ok_bind. apply defined_bind.
  eapply defined_mono; [|by apply (tl_close Htls)]. intros [[r x] rg'] (Hl' & Hpe & Hle & _). exists rg', l. split; [by split|]. split; [done|by split].
Qed.

(** Keeping what there is for the next round. *)
Lemma keep_spec cf rg l bp n s s1 :
  hinv cf rg l s -> ~ is_master s -> 0 <= bp -> 0 < n -> bp + n <= req_next s -> (bp = 0 -> n = req_next s) ->
  move_rest bp n s = Ok s1 -> forall s2, s2 = s1 <| is_partial_request := true |> -> round_ok cf (S (todo rg n s)) (Continue 0 n s2).
Proof.
  intros Hi Hm Hb Hn Hr H0' E s2 ->. destruct (move_rest_spec cf rg l bp n s) as (s' & E' & Hi' & Es & _ & Em & Hc); [done|lia..|].
  rewrite E in E'. injection E' as <-. exists rg, l. split; [|split; [by apply (not_master_same s)|unfold measure, todo; cbn; rewrite Es; lia]].
  assert (req_next s1 = n) as En by (destruct Hc as [[-> ->]|?]; [by rewrite H0'|done]).
  split; [by apply hinv_partial|cbn; lia|by cbn|done].
Qed.

Lemma parse_spec cf rg l bp n s :
  hinv cf rg l s -> ~ is_master s -> 0 <= bp -> 0 < n -> bp + n <= req_next s -> (bp = 0 -> n = req_next s) ->
  defined (parse_buffered bp n s) (round_ok cf (S (todo rg n s))).
Proof.
  intros Hi Hm Hb Hn Hr H0'. pose proof (hi_next _ _ _ _ Hi) as Hx. unfold parse_buffered, mem_read.
  rewrite (hi_buf _ _ _ _ Hi), !(proj2 (Z.leb_le _ _)) by lia. cbn [andb]. rewrite ok_bind. cbv beta zeta.
  set (data := take _ _). assert (Z.of_nat (length data) = n) as Hd.
  { subst data. rewrite length_take, length_drop. pose proof (hi_buf _ _ _ _ Hi). lia. }
  pose proof (Hphr data 20) as Hret. set (prs := phr_parse_request data 20) in *. unfold HTTP_BUFFER_SIZE in *. case_match.
  { apply defined_bind. eapply defined_mono; [|apply (send_err_spec cf rg l); [done|vm_compute; split; [lia|done]]]. intros [r s1] (rg1 & l1 & Hi1 & _ & Hk1).
    apply defined_bind. eapply defined_mono; [|by apply (tls_close_spec cf rg1 l1)]. intros s2 (rg2 & l2 & Hi2 & _ & Hk2). exists rg2, l2. split; [done|].
    intros Hm2. by apply Hm, (kept_master s s1), (kept_master s1 s2). }
  case_match.
  { destruct (move_rest_spec cf rg l bp n s) as (s1 & E1 & _); [done|lia..|]. rewrite E1, ok_bind. by apply (keep_spec cf rg l bp n s s1). }
  destruct (0 <? phr_ret prs) eqn:Ep; [cbn [c_assert]; rewrite ok_bind; cbv beta; apply Z.ltb_lt in Ep|done].
  apply defined_bind. eapply defined_mono; [|apply content_length_spec]. intros [[bd len]|] Hcl; [|by exists rg, l].
  destruct (Hcl bd len eq_refl) as [Hlen Hbd]. clear Hcl. unfold ULONG_MAX in Hlen. case_match eqn:Emiss.
  - case_match; [by exists rg, l|].
    destruct (move_rest_spec cf rg l bp n (s <| is_partial_request := true |>)) as (s1 & E1 & Hi1 & Es & Epa & Em & Hc); [by apply hinv_partial|lia|lia|exact Hr|]. rewrite E1, ok_bind.
    exists rg, l. cbn in Es, Epa, Em. split; [|split; [by apply (not_master_same s)|unfold measure, todo; rewrite Epa, Es; lia]].
    assert (req_next s1 = n) as En by (destruct Hc as [[-> ->]|?]; [cbn; by rewrite H0'|done]). split; [done|lia|done|done].
  - assert (len <= n - phr_ret prs) as Hfit.
    { destruct Hbd as [[-> ->]| ->]; [lia|]. rewrite bool_decide_eq_true_2 in Emiss by (by eexists). rewrite u32_small in Emiss by lia. cbn [andb] in Emiss.
      apply andb_false_iff in Emiss as [E|E]; apply Z.ltb_ge in E; lia. }
    apply (handle_spec cf rg l bp n s); cbn; try done; try lia. intros off E. destruct Hbd as [[-> _]| ->]; [done|]. injection E as <-. cbn. unfold HTTP_BUFFER_SIZE. lia.
Qed.

Lemma receive_spec cf rg l bp n s :
  rinv cf rg l bp n s -> ~ is_master s -> n = 0 \/ is_partial_request s = true ->
  defined (receive_more bp n s) (fun r => match r with
    | Return _ s' => exists rg' l', hinv cf rg' l' s' /\ ~ is_master s'
    | Continue bp' n' s' => exists rg', hinv cf rg' l s' /\ ~ is_master s' /\ bp' = 0 /\ n' = req_next s' /\ 0 < n' /\ (todo rg' n' s' < todo rg n s)%nat
    end).
Proof.
  intros [Hi (Hb & Hn & Hr) H0' Hmore] Hm Hgo. pose proof (Hmore Hgo) as E0. specialize (H0' E0). subst bp n. unfold receive_more. rewrite !Z.eqb_refl. cbn [negb orb].
  pose proof Hi as [Hbuf Hx (Ec & Er & Hl) Hq Ha Hp]. unfold HTTP_BUFFER_SIZE in *. unfold tls_read. rewrite Ec, Er. cbn [deref assert_ptr]. rewrite !ok_bind. cbv beta.
  rewrite u32_small by lia. apply defined_bind, defined_bind. eapply defined_mono; [|apply (tl_read Htls); [exact Hl|lia]].
  intros [[[r d] x] rg'] (Hl' & Hpe & Hlen & Hrd & Hle & _). cbn [defined].
  set (s1 := s <| ssl := x |> <| rxtx := Some rg' |>). assert (hinv cf rg' l s1) as Hi1 by (by split).
  assert (Hm1 : ~ is_master s1) by (intros Hm1; apply Hm; apply (kept_master s s1); [by split|done]).
  change (req_buffer s1) with (req_buffer s). change (req_next s1) with (req_next s). unfold mem_write. rewrite Hbuf. rewrite (proj2 (Z.leb_le 0 (req_next s))), (proj2 (Z.leb_le (_ + _) _)) by lia. cbn [andb]. rewrite ok_bind. cbv beta.
  set (b := blit _ _ _). assert (Z.of_nat (length b) = 4096) as Hb' by (subst b; unfold blit; rewrite !length_app, length_take, length_drop; lia).
  case_match eqn:E; [apply Z.leb_le in E|apply Z.leb_gt in E].
  - assert (hinv cf rg' l (s1 <| req_buffer := b |>)) as Hi2 by (pose proof (hinv_req cf rg' l s1 b (req_next s) Hi1 Hb' Hx) as Hr'; by destruct s).
    apply defined_bind. case_match; [|by exists rg', l]. eapply defined_mono; [|by apply (tls_close_spec cf rg' l)]. intros s2 (rg2 & l2 & Hi3 & _ & Hk). exists rg2, l2. split; [done|].
    intros Hm2. exact (Hm1 (kept_master _ s2 Hk Hm2)).
  - change (req_next (s1 <| req_buffer := b |>)) with (req_next s). rewrite u32_small by (specialize (Hrd E); lia). specialize (Hrd E). exists rg'. split; [|split; [done|]].
    + apply (hinv_req cf rg' l s1 b (req_next s + r)); [done|done|unfold HTTP_BUFFER_SIZE; lia].
    + split_and!; [done|done|lia|]. unfold todo. cbn. lia.
Qed.

Lemma round_spec cf rg l bp n s :
  rinv cf rg l bp n s -> ~ is_master s -> defined (one_round bp n s) (round_ok cf (measure rg n s)).
Proof.
  intros Hri Hm. unfold one_round. destruct ((n =? 0) || is_partial_request s) eqn:E.
  - assert (n = 0 \/ is_partial_request s = true) as Hgo by (apply orb_true_iff in E as [E|E]; [left; by apply Z.eqb_eq|by right]).
    apply defined_bind. eapply defined_mono; [|by apply (receive_spec cf rg l)]. intros [ret s'|bp' n' s']; [done|].
    intros (rg' & Hi' & Hm' & -> & -> & Hn' & Hlt). eapply defined_mono; [|by apply (parse_spec cf rg' l 0 (req_next s') s'); [..|lia|]].
    intros [ret s2|bp2 n2 s2]; [done|]. intros (rg2 & l2 & ? & ? & ?). exists rg2, l2. split; [done|]. split; [done|]. unfold measure at 2. lia.
  - apply orb_false_iff in E as [E1 E2]. apply Z.eqb_neq in E1. destruct Hri as [Hi (Hb & Hn & Hr) H0' _].
    unfold measure. rewrite E2, Nat.add_1_r. apply (parse_spec cf rg l); [done|done|done|lia|done|done].
Qed.

Lemma read_loop_spec cf fuel : forall rg l bp n s,
  rinv cf rg l bp n s -> ~ is_master s -> (measure rg n s < fuel)%nat ->
  defined (read_loop fuel bp n s) (fun '(_, s') => exists rg' l', hinv cf rg' l' s').
Proof.
  induction fuel as [|fuel IH]; intros rg l bp n s Hri Hm Hf; [lia|]. cbn [read_loop]. apply defined_bind.
  eapply defined_mono; [|by apply (round_spec cf rg l)]. intros [ret s'|bp' n' s'].
  - intros (rg' & l' & ? & _). by exists rg', l'.
  - intros (rg' & l' & Hri' & Hm' & Hlt). apply (IH rg' l'); [done|done|lia].
Qed.

Lemma read_data_spec cf rg l s fuel :
  hinv cf rg l s -> ~ is_master s -> (3 * tls_left rg (ssl s) + 2 * Z.to_nat (req_next s) + 1 < fuel)%nat ->
  defined (sw_read_https_req_data fuel s) (fun '(_, s') => exists rg' l', hinv cf rg' l' s').
Proof.
  intros Hi Hm Hf. unfold sw_read_https_req_data. apply defined_bind. eapply defined_mono; [|by apply (client_type_spec cf rg l)].
  intros [ty s1] (Hi1 & Hk1 & Es1 & _ & _).
  assert (forall rg' l' s', hinv cf rg' l' s' -> (tls_left rg' (ssl s') <= tls_left rg (ssl s1))%nat -> kept s1 s' ->
    defined (read_loop fuel 0 (req_next s') s') (fun '(_, s') => exists rg' l', hinv cf rg' l' s')) as Hloop.
  { intros rg' l' s' Hi' Hle Hk'. pose proof (hi_next _ _ _ _ Hi'). apply (read_loop_spec cf fuel rg' l').
    - split; [done|lia|done|done].
    - intros Hm'. by apply Hm, (kept_master s s1), (kept_master s1 s').
    - unfold measure, todo. rewrite Es1 in Hle. destruct Hk1 as [_ _ (_ & E1 & _)], Hk' as [_ _ (_ & E2 & _)]. rewrite E2, E1. destruct (is_partial_request s'); lia. }
  case_match; [by exists rg, l|]. destruct (resp_buffer s1); [|by apply (Hloop rg l)].
  apply defined_bind. eapply defined_mono; [|by apply (flush_served cf rg l)]. intros [ret s2] (rg2 & l2 & Hi2 & Hle & Hk2). case_match; [by exists rg2, l2|].
  destruct (bool_decide (resp_buffer s2 = None)); [cbn [c_assert]; rewrite ok_bind|done]. by apply (Hloop rg2 l2).
Qed.

(** The condition on web applications is needed: sending one that does not
    end in a zero byte reads beyond its block. *)
Lemma get_unterminated_app pi s ty s1 p b :
  get_client_type s = Ok (ty, s1) -> path pi = bytes "/" -> get_web_app ty s1 = Some p -> blocks (hp s1) !! p = Some b -> (0 ∉ b) ->
  handle_get_request pi s = Undef.
Proof.
  intros Et Ep Ew Eb Hb. unfold handle_get_request. rewrite Et, ok_bind, Ep, bool_decide_eq_true_2 by done. cbn [negb]. rewrite Ew, Eb. cbn [deref]. rewrite ok_bind.
  assert (c_string b = Undef) as ->; [|done]. clear Eb. induction b as [|c b IH]; [done|]. apply not_elem_of_cons in Hb as [Hc Hb]. cbn [c_string].
  rewrite (proj2 (Z.eqb_neq _ _)) by done. by rewrite IH.
Qed.

(** C17. Processing what a client sends is safe and ends: for any client that
    is not the master, any received bytes and any way of cutting them up, any
    pattern of allocation failures and any responses still queued, with one
    round of fuel for every bound the bytes give (three for each byte mbedTLS
    can still deliver, two for each that is buffered), the call returns or
    deliberately aborts: no access outside a buffer or to freed memory, no
    double free, no endless loop, and the client's invariant holds again.
    What this takes: the web applications that are loaded end in a zero byte
    ([webapps_ok]: none is loaded, as the loader never establishes it for
    one); mbedTLS keeps its laws on the rings the TA shares with the normal
    world, which include that nobody else changes them during the call; and
    the HTTP parser and the PTA keep theirs. *)
Theorem https_read_safe cf rg l s fuel :
  hinv cf rg l s -> ~ is_master s -> (3 * tls_left rg (ssl s) + 2 * Z.to_nat (req_next s) + 1 < fuel)%nat ->
  defined (sw_read_https_req_data fuel s) (fun '(_, s') => exists rg' l', hinv cf rg' l' s').
Proof. apply read_data_spec. Qed.

End safe.

(** ** Examples *)

#[local] Existing Instances ex_mbedtls ex_parser ex_tee.

#[local] Abbreviation ex_tls_inv := (fun (_ : unit) (_ : rings) (_ : ex_ssl) => True).
#[local] Abbreviation ex_left := (fun (_ : rings) (x : ex_ssl) => length (ex_in x)).
#[local] Abbreviation ex_pta_ok := (fun _ : Z => True).

(** A property of rings and connections that the library's calls keep. *)
Definition ex_closed (T : rings -> ex_ssl -> Prop) : Prop :=
  forall rg x x', same_peer x x' -> (length (ex_in x') <= length (ex_in x))%nat -> T rg x -> T rg x'.

Lemma ex_tls_laws T : ex_closed T -> tls_laws (fun _ : unit => T) ex_left ex_out.
Proof.
  intros HT. split.
  - intros cf rg x n Hx Hn. cbn [ssl_read ex_mbedtls]. destruct (ex_in x) as [|b i] eqn:E; cbn [defined].
    + split; [done|]. split; [done|]. split; [cbn; lia|]. split; [|split; [by rewrite E|done]]. unfold MBEDTLS_ERR_SSL_WANT_READ. lia.
    + split; [apply (HT rg x); [done|cbn; rewrite E, length_drop; lia|done]|]. split; [done|]. cbn [ex_in]. rewrite length_take, length_drop. split; [lia|]. split; [done|]. split; [lia|done].
  - intros cf rg x d Hx. cbn [ssl_write ex_mbedtls defined ex_in ex_out]. split; [by apply (HT rg x)|]. split; [done|]. split; [lia|]. split; [done|]. by rewrite Nat2Z.id.
  - by intros cf rg x Hx.
Qed.

Lemma ex_closed_True : ex_closed (fun _ _ => True).
Proof. done. Qed.

Lemma ex_tee_laws : tee_laws ex_pta_ok.
Proof.
  split; cbn; [done| |done]. intros sess cmd t p0 p1 b1 rest x _ Eb. split; [done|]. eexists _, b1. split; [done|]. split; [exact Eb|]. split; [done|].
  intros _. rewrite Eb. cbn. lia.
Qed.

Lemma ex_phr_law : phr_law.
Proof.
  intros data n. unfold phr_parse_request, ex_parser. destruct data as [|b d]; [cbn; lia|]. repeat case_match; cbn [phr_ret length]; lia.
Qed.

Lemma ex_client_inv i v c : hinv ex_tls_inv ex_pta_ok tt ex_rings [] (ex_client i v c).
Proof.
  split.
  - reflexivity.
  - split; vm_compute; discriminate.
  - done.
  - split; [done|constructor..].
  - intros p Hp. by apply elem_of_nil in Hp.
  - done.
Qed.

(** A client without certificate asks twice; both requests are refused, then
    there is nothing left. *)
Lemma https_read_safe_witness :
  sw_read_https_req_data 20 (ex_client [71; 71] MBEDTLS_X509_BADCERT_MISSING None) <> Undef /\
  defined (sw_read_https_req_data 20 (ex_client [71; 71] MBEDTLS_X509_BADCERT_MISSING None))
    (fun '(_, s') => exists rg' l', hinv ex_tls_inv ex_pta_ok tt rg' l' s').
Proof.
  assert (defined (sw_read_https_req_data 20 (ex_client [71; 71] MBEDTLS_X509_BADCERT_MISSING None))
    (fun '(_, s') => exists rg' l', hinv ex_tls_inv ex_pta_ok tt rg' l' s')) as Hd.
  { apply (https_read_safe ex_tls_inv ex_left ex_out ex_pta_ok (ex_tls_laws _ ex_closed_True) ex_tee_laws ex_phr_law tt ex_rings []).
    - apply ex_client_inv.
    - intros [Hv _]. cbn in Hv. discriminate Hv.
    - cbn. lia. }
  split; [|exact Hd]. intros E. by rewrite E in Hd.
Defined.

(** A literal of 150 bytes is queued; 100 of them are sent. *)
Definition ex_queued : hst unit ex_ssl Z :=
  (ex_client [] 0 None) <| resp_buffer := Some 1%positive |>
    <| hp := ex_heap <| chunks := {[ 1%positive := mk_resp_chunk (Some (Lit (replicate 150 65))) 150 0 false None ]} |> |>.

Lemma ex_queued_ok : qwf (hp ex_queued) [] (resp_buffer ex_queued) [(1%positive, mk_resp_chunk (Some (Lit (replicate 150 65))) 150 0 false None)].
Proof.
  split; cbn.
  - split; [done|]. by exists None.
  - apply NoDup_singleton.
  - repeat constructor; cbn; unfold MAX_I32; try lia.
  - constructor.
Qed.

Lemma flush_resp_queue_sends_witness :
  defined (flush_resp_queue ex_queued) (fun '(ret, s') => ret <= 0 /\ exists l', qwf (hp s') [] (resp_buffer s') l' /\
    ex_out (ssl s') ++ pending (hp s') l' = replicate 150 65).
Proof.
  eapply defined_mono; [|apply (flush_resp_queue_sends ex_tls_inv ex_left ex_out (ex_tls_laws _ ex_closed_True) tt ex_rings [] ex_queued
    [(1%positive, mk_resp_chunk (Some (Lit (replicate 150 65))) 150 0 false None)])].
  - intros [ret s'] (Hr & l' & Hq & Hs & _). split; [exact Hr|]. exists l'. split; [exact Hq|]. rewrite Hs. reflexivity.
  - split; [reflexivity|]. split; [reflexivity|exact I].
  - exact ex_queued_ok.
Defined.
