(* ===== verification/HttpsConfig.v ===== *)
(** * From an HTTPS request to the firewall and back (configservice/ta/secure_ta.c,
    nettrug/pta/trust_router.c).

    The calls of the ConfigService TA end in the pseudo TA of the router:
    [pta_client] implements the interface the HTTPS server is written
    against with the operations of [Pta].  An administrator's request is
    followed from the parsed HTTP request to the bytes of the response. *)

From stdpp Require Import strings pretty.
From S2P Require Import Prelude Ringbuf EthBuf Netdev Route Forward RespQueue Router RouterInit Pta Https HttpsAuth HttpsSafe.

Section config.
Context {T : Type} `{ThMap T} {L : Type} `{Lpm L route_info_t} {NV : Type} `{NvList NV} {F : Type}.
Context (run_op : Z -> NV -> NV -> F -> NV * F).
Context (IOC_BSTGW_QUERY_NETIFS NPF_VERSION : Z) (cr_list : bool) (cr_dev : positive -> bool) (cr_ip : positive -> Z -> bool).

(** The router, the firewall, and the next session of the pseudo TA. *)
Record sys := mk_sys { sys_rs : rstate T L; sys_fw : F; sys_next : Z }.
#[global] Instance eta_sys : Settable sys := fun x => mk_sys (sys_rs x) (sys_fw x) (sys_next x).

(** Calls from the ConfigService TA: the TEE opens a session of the pseudo TA
    and passes the caller's identity along with its commands. *)
Definition pta_client : TeeClient sys := {|
  TEE_OpenTASession u types params x :=
    if negb (bool_decide (u = BSTGW_PTA_TRUST_ROUTER_UUID)) then Ok (TEE_ERROR_GENERIC, 0, x) else
    '(r, s) ← open_session true true (sys_next x) types params (sys_rs x);
    Ok (r, sys_next x, x <| sys_rs := s |> <| sys_next ::= Z.succ |>);
  TEE_InvokeTACommand sess cmd types params x :=
    o ← invoke_command run_op IOC_BSTGW_QUERY_NETIFS NPF_VERSION cr_list cr_dev cr_ip true (Some (mk_caller true BSTGW_TA_WEB_STUB_UUID))
          (sessions (sys_rs x) !! sess) cmd types params (sys_rs x) (sys_fw x);
    match o with
    | Returned r params fw => Ok (r, params, x <| sys_fw := fw |>)
    | _ => Undef
    end;
  TEE_CloseTASession sess x := s ← close_session sess (sys_rs x); Ok (x <| sys_rs := s |>)
|}.
#[local] Existing Instance pta_client.

(** A router with its workers, and session numbers that are free. *)
Definition sys_ok (n : nat) (x : sys) : Prop := pta_inv n (sys_rs x) /\ forall k, sys_next x <= k -> sessions (sys_rs x) !! k = None.

Lemma open_unbound n x rest :
  sys_ok n x ->
  TEE_OpenTASession BSTGW_PTA_TRUST_ROUTER_UUID (TEE_PARAM_TYPES TEE_PARAM_TYPE_VALUE_INPUT TEE_PARAM_TYPE_NONE TEE_PARAM_TYPE_NONE TEE_PARAM_TYPE_NONE)
    (mk_param BSTGW_TRUST_ROUTER_UNBOUND_SESSION None 0 :: rest) x =
  Ok (TEE_SUCCESS, sys_next x, x <| sys_rs ::= fun s => s <| sessions ::= <[sys_next x := mk_sess NoWorker BSTGW_TRUST_ROUTER_UNBOUND_SESSION]> |> |> <| sys_next ::= Z.succ |>).
Proof. intros _. reflexivity. Qed.

Lemma close_unbound n x x' :
  sys_ok n x -> sys_rs x' = (sys_rs x) <| sessions ::= <[sys_next x := mk_sess NoWorker BSTGW_TRUST_ROUTER_UNBOUND_SESSION]> |> ->
  TEE_CloseTASession (sys_next x) x' = Ok (x' <| sys_rs := sys_rs x |>).
Proof.
  intros [_ Hf] E. specialize (Hf (sys_next x) ltac:(lia)). cbn. unfold close_session. rewrite E. cbn. rewrite lookup_insert_eq. cbn. destruct x as [[] fw nx]. cbn in *. unfold upd. cbn. by rewrite delete_insert_id.
Qed.

(** The request as the pseudo TA sees it. *)
Definition firewall_answers (b : list Z) (fw : F) (out : list Z) (fw' : F) : Prop :=
  exists req resp, nvlist_unpack b = Some req /\ dnvlist_get_number req "operation" UINT64_MAX <> IOC_BSTGW_QUERY_NETIFS /\
    run_op (dnvlist_get_number req "operation" UINT64_MAX) req nvlist_create fw = (resp, fw') /\ nvlist_pack resp = Some out.

Lemma invoke_config n x x1 b d rest out fw' :
  sys_ok n x -> sys_rs x1 = (sys_rs x) <| sessions ::= <[sys_next x := mk_sess NoWorker BSTGW_TRUST_ROUTER_UNBOUND_SESSION]> |> ->
  firewall_answers b (sys_fw x1) out fw' ->
  TEE_InvokeTACommand (sys_next x) BSTGW_PTA_TRUST_ROUTER_CMD_CONFIG
    (TEE_PARAM_TYPES TEE_PARAM_TYPE_MEMREF_INPUT TEE_PARAM_TYPE_MEMREF_OUTPUT TEE_PARAM_TYPE_NONE TEE_PARAM_TYPE_NONE)
    (mk_param 0 (Some b) (Z.of_nat (length b)) :: mk_param 0 (Some d) (Z.of_nat (length d)) :: rest) x1 =
  Ok (if Z.of_nat (length d) <? Z.of_nat (length out)
      then (TEE_ERROR_SHORT_BUFFER, mk_param 0 (Some b) (Z.of_nat (length b)) :: mk_param 0 (Some d) (Z.of_nat (length d)) :: rest, x1 <| sys_fw := fw' |>)
      else (TEE_SUCCESS, mk_param 0 (Some b) (Z.of_nat (length b)) :: mk_param 0 (Some (out ++ drop (length out) d)) (Z.of_nat (length out)) :: rest, x1 <| sys_fw := fw' |>)).
Proof.
  intros [Hinv Hf] E. specialize (Hf (sys_next x) ltac:(lia)). intros (req & resp & Hu & Hop & Hrun & Hpk). cbn [TEE_InvokeTACommand pta_client].
  assert (Hinv1 : pta_inv n (sys_rs x1)).
  { rewrite E. pose proof (inv_plain n (sys_rs x) (sys_next x) (mk_sess NoWorker BSTGW_TRUST_ROUTER_UNBOUND_SESSION) (npf_log (sys_rs x)) Hinv Hf ltac:(by right)) as Hi. by destruct (sys_rs x). }
  assert (sessions (sys_rs x1) !! sys_next x = Some (mk_sess NoWorker BSTGW_TRUST_ROUTER_UNBOUND_SESSION)) as -> by (rewrite E; apply lookup_insert_eq).
  rewrite (config_reply run_op IOC_BSTGW_QUERY_NETIFS NPF_VERSION cr_list cr_dev cr_ip n (sys_rs x1) _ _ _ rest b d req resp out (sys_fw x1) fw'); try done.
  - cbn [memref_size value_a]. cbn [mbind outcome_bind]. by destruct (_ <? _).
  - split; cbn; [done|lia].
  - split; cbn; [done|lia].
  - cbn. rewrite Nat2Z.id, firstn_all. done.
Qed.

(** ** The request *)

Context {CONF SSL : Type} `{MbedTLS CONF SSL}.
Context (tls_inv : CONF -> rings -> SSL -> Prop) (tls_left : rings -> SSL -> nat) (tls_sent : SSL -> list Z).
Context (Htls : tls_laws tls_inv tls_left tls_sent).
Implicit Types s : hst CONF SSL sys.

(** A complete configuration request with body [b], of an administrator or
    the master; nothing stands in the way of an answer. *)
Record config_request s (pi : parsing_info) (b : list Z) : Prop := {
  cr_path : path pi = bytes "/trustconf";
  cr_csrf : is_Some (find_header csrf_hdr (headers pi));
  cr_type : find_header (bytes "Content-Type") (headers pi) = Some (bytes "application/octet-stream");
  cr_body : exists off, body pi = Some off /\ mem_read (req_buffer s) off (body_len pi) = Ok b /\ body_len pi = Z.of_nat (length b) /\ b <> [];
  cr_peer : ssl_get_verify_result (ssl s) = 0 /\
            exists crt m, ssl_get_peer_cert (ssl s) = Some crt /\ master s = Some m /\ (crt = m \/ crt ∈ allowlist s);
  cr_mem : forall i, is_Some (answers (hp s) i)
}.

Lemma config_client s pi b : config_request s pi b -> exists ty, get_client_type s = Ok (ty, s) /\ ty ∈ [ADMIN; MASTER].
Proof.
  intros [_ _ _ _ (Hv & crt & m & Ep & Em & Hc) _]. unfold get_client_type. rewrite Hv. cbn. rewrite Ep. unfold get_cert_type, get_master_cert. rewrite Em.
  case_bool_decide; [exists MASTER; split; [done|set_solver]|]. destruct Hc as [|Hc]; [done|]. rewrite bool_decide_eq_true_2 by done. exists ADMIN. split; [done|set_solver].
Qed.

(** The response to a configuration request whose packed answer is [out]:
    one that does not fit the buffer of the ConfigService is an error. *)
Definition config_response (out : list Z) : list Z :=
  if MAX_NVLIST_RESP <? Z.of_nat (length out) then resp_header 500 "Internal Server Error" 0 EmptyString
  else resp_header 200 "OK" (Z.of_nat (length out)) (match out with [] => EmptyString | _ => "application/octet-stream"%string end) ++ out.

(** The system, and what the client has got or will get. *)
Definition answered s l (x : sys) (resp : list Z) s' : Prop :=
  sys_fw (pta s') = sys_fw x /\ sys_rs (pta s') = sys_rs x /\ exists l', qwf (hp s') (apps s') (resp_buffer s') l' /\
  tls_sent (ssl s') ++ pending (hp s') l' = tls_sent (ssl s) ++ pending (hp s) l ++ resp.

(** With memory, a response is queued and what can be sent is sent. *)
Lemma send_answered n cf rg l s code status len c type :
  hinv tls_inv (sys_ok n) cf rg l s -> loose (hp s) (apps s) l c -> (forall i, is_Some (answers (hp s) i)) ->
  (String.length (pretty code) + String.length status + String.length type <= 80)%nat ->
  defined (send_http_resp code status len c type s) (fun '(_, s') =>
    answered s l (pta s) (resp_header code status (resp_body c len type).1 (resp_body c len type).2 ++ body_rest (hp s) c) s').
Proof.
  intros Hi Hl Hm Hlen.
  destruct (send_queues tls_inv tls_left tls_sent (sys_ok n) Htls cf rg l s code status len c type Hi Hl Hlen)
    as [(h4 & _ & _ & i & Hnone)|(q & h4 & l4 & -> & Hi4 & Hp4)]; [destruct (Hm i); congruence|].
  eapply defined_mono; [|apply (flush_spec tls_inv tls_left tls_sent Htls cf rg (apps s)); [apply (hi_link _ _ _ _ _ _ Hi4)|apply (hi_queue _ _ _ _ _ _ Hi4)]].
  intros [ret s'] (_ & [_ _ (_ & _ & Fp) Fa] & _ & _ & l' & Hq' & Hs' & _). split; [by rewrite Fp|]. split; [by rewrite Fp|]. exists l'.
  destruct Fa as (F1 & F2 & F3 & F4). split; [unfold apps; rewrite F1, F2, F3, F4; exact Hq'|]. rewrite Hs'. cbn [hp upd ssl]. by rewrite Hp4.
Qed.

(** The block for the answer goes with an error. *)
Lemma fail_answered n cf rg l s rb s1 :
  extra tls_inv (sys_ok n) cf rg l s rb s1 -> (forall i, is_Some (answers (hp s1) i)) ->
  defined (npfctl_fail rb s1) (fun '(_, s') => answered s l (pta s1) (resp_header 500 "Internal Server Error" 0 EmptyString) s').
Proof.
  intros (x & h & d & -> & Hx & Hrb & Eb & Ec & Hi) Hm. unfold npfctl_fail. cbn [free hp upd]. rewrite Eb, lookup_insert_eq. cbn [deref]. rewrite !ok_bind. cbv beta.
  set (h' := h <| blocks ::= delete rb |>). assert (Hb' : blocks h' = blocks (hp s)) by (cbn; by rewrite Eb, delete_insert_id).
  assert (hinv tls_inv (sys_ok n) cf rg l ((s <| pta := x |>) <| hp := h' |>)) as Hi'.
  { apply (hinv_heap tls_inv (sys_ok n) cf rg l (s <| pta := x |>) h'); [by apply hinv_pta|by intros p _; cbn; rewrite Ec|cbn; by rewrite Eb, delete_insert_id]. }
  unfold send_http_err_resp. cbn [Z.eqb Z.leb Z.compare orb andb Pos.eqb Pos.compare Pos.compare_cont].
  match goal with |- defined (send_http_resp _ _ _ _ _ ?t) _ => set (s2 := t) in * end.
  eapply defined_mono; [|apply (send_answered n cf rg l s2); [exact Hi'|apply loose_none|exact Hm|vm_compute; lia]].
  intros [ret s'] (Hf & Hr & l' & Hq & Hs). split; [done|]. split; [done|]. exists l'. split; [done|]. rewrite Hs. cbn [resp_body fst snd body_rest]. rewrite app_nil_r.
  f_equal. f_equal. unfold pending. subst s2. cbn [hp upd]. f_equal. apply list_fmap_ext. intros i c _. unfold chunk_rest. by rewrite Hb'.
Qed.

Lemma npfctl_answers n cf rg l s pi b out fw' :
  hinv tls_inv (sys_ok n) cf rg l s -> config_request s pi b -> firewall_answers b (sys_fw (pta s)) out fw' ->
  defined (post_npfctl_cmd pi s) (fun '(ret, s') => answered s l ((pta s) <| sys_fw := fw' |>) (config_response out) s').
Proof.
  intros Hi [_ _ _ (off & Eoff & Eb & Elen & Hb) _ Hmem] Hfw. unfold post_npfctl_cmd.
  assert (0 < Z.of_nat (length b)) by (destruct b; [done|cbn; lia]).
  rewrite (proj2 (Z.eqb_neq (body_len pi) 0)) by lia.
  destruct (malloc MAX_NVLIST_RESP (hp s)) as [o h] eqn:Em. destruct (malloc_answers _ _ _ _ Em) as [Ha Hsome]. destruct (Hsome (Hmem _)) as [rb ->].
  apply malloc_spec in Em as (Ec & Hrb & d & Hd & Ebl). cbv zeta. cbn [pta upd].
  pose proof (hi_pta _ _ _ _ _ _ Hi) as Hok. rewrite (open_unbound n _ _ Hok), ok_bind. cbv beta iota zeta. cbn [Z.eqb negb TEE_SUCCESS].
  match goal with |- defined (body_bytes _ ?t ≫= _) _ => set (s1 := t) end.
  assert (body_bytes pi s1 = Ok b) as -> by (unfold body_bytes; rewrite Eoff; exact Eb). rewrite ok_bind. cbv beta.
  change (blocks (hp s1)) with (blocks h). rewrite Ebl, lookup_insert_eq. cbn [deref]. rewrite ok_bind. cbv beta. rewrite Elen.
  assert (Hd' : Z.of_nat (length d) = MAX_NVLIST_RESP) by (rewrite Hd; done). unfold config_response. rewrite <- Hd'.
  rewrite (invoke_config n (pta s) (pta s1) b d _ out fw' Hok eq_refl Hfw), ok_bind.
  assert (E1 : sys_rs ((pta s1) <| sys_fw := fw' |>) = (sys_rs (pta s)) <| sessions ::= <[sys_next (pta s) := mk_sess NoWorker BSTGW_TRUST_ROUTER_UNBOUND_SESSION]> |>) by reflexivity.
  assert (Hok' : forall x, sys_rs x = sys_rs (pta s) -> sys_next x = Z.succ (sys_next (pta s)) -> sys_ok n x).
  { destruct Hok as [Hok1 Hok2]. intros x Ex En. split; [by rewrite Ex|]. intros k Hk. rewrite Ex. apply Hok2. lia. }
  destruct (_ <? _) eqn:El; cbv beta iota;
    (match goal with |- defined (aget (_ :: ?q :: _) 1 ≫= _) _ => change (aget (_ :: q :: _) 1) with (Ok q) end);
    rewrite ok_bind; cbv beta; cbn [memref_buffer memref_size deref]; rewrite ok_bind; cbv beta;
    rewrite (close_unbound n (pta s) _ Hok E1), ok_bind; cbv beta iota zeta.
  - cbn [Z.eqb negb TEE_SUCCESS TEE_ERROR_SHORT_BUFFER].
    match goal with |- defined (npfctl_fail _ ?t) _ => set (s2 := t) end.
    eapply defined_mono; [|apply (fail_answered n cf rg l s rb s2); [|intros i; cbn; rewrite Ha; apply Hmem]].
    + intros [ret s'] HA. exact HA.
    + exists (pta s2), (h <| blocks ::= <[rb := d]> |>), d. split_and!; try done; [by apply Hok'|cbn; by rewrite Ebl, insert_insert_eq].
  - apply Z.ltb_ge in El. cbn [Z.eqb negb TEE_SUCCESS].
    match goal with |- context [pack_into_resp_chunk _ _ (hp ?t)] => set (s2 := t) end.
    set (resp := out ++ drop (length out) d) in *. assert (Hresp : length resp = length d) by (subst resp; rewrite length_app, length_drop; lia).
    assert (Hex : extra tls_inv (sys_ok n) cf rg l s rb s2).
    { exists (pta s2), (h <| blocks ::= <[rb := resp]> |>), resp. split_and!; try done; [by apply Hok'|cbn; by rewrite Ebl, insert_insert_eq]. }
    destruct (pack_into_resp_chunk _ _ (hp s2)) as [o h3] eqn:Ep. destruct (pack_answers _ _ _ _ _ Ep) as [Ha3 Hs3].
    destruct Hs3 as [hc ->]; [cbn; rewrite Ha; apply Hmem|].
    destruct (extra_ready tls_inv (sys_ok n) cf rg l s rb s2 (Z.of_nat (length out)) hc h3 resp Hex) as (Hi3 & _ & Es3 & Hl3 & Hp3 & Hb3);
      [cbn; by rewrite lookup_insert_eq|rewrite Hresp; lia|unfold MAX_I32, MAX_NVLIST_RESP in *; lia|exact Ep|].
    rewrite Nat2Z.id in Hb3. subst resp. rewrite take_app_length in Hb3.
    match goal with |- defined (send_http_resp _ _ _ _ _ ?t) _ => set (s3 := t) in * end.
    eapply defined_mono; [|apply (send_answered n cf rg l s3); [exact Hi3|exact Hl3|intros i; cbn; rewrite Ha3; cbn; rewrite Ha; apply Hmem|vm_compute; lia]].
    intros [ret s'] (Hf & Hr & l' & Hq & Hs). split; [done|]. split; [done|]. exists l'. split; [done|]. rewrite Hs, Es3, Hp3, Hb3.
    destruct out; reflexivity.
Qed.

(** C18. A configuration request, end to end: an administrator or the master
    posts a request for one of the firewall's own operations (not the listing
    of the network interfaces), whose body the firewall's library can read
    and whose answer it can pack, and no allocation fails; the client's state
    and mbedTLS are as in [https_read_safe].  Then the firewall carries out its operation exactly once, the router and its sessions are
    as before, and what has been sent to the client and what is still queued
    for it grows by exactly one HTTP response.  That response has the packed
    answer if this is at most 8192 bytes long; for a longer one it is an
    internal server error, although the operation has been carried out. *)
Theorem https_config_end_to_end n cf rg l s pi b out fw' :
  hinv tls_inv (sys_ok n) cf rg l s -> config_request s pi b -> firewall_answers b (sys_fw (pta s)) out fw' ->
  defined (handle_post_request pi s) (fun '(ret, s') =>
    sys_fw (pta s') = fw' /\ sys_rs (pta s') = sys_rs (pta s) /\ exists l', qwf (hp s') (apps s') (resp_buffer s') l' /\
    tls_sent (ssl s') ++ pending (hp s') l' = tls_sent (ssl s) ++ pending (hp s) l ++ config_response out).
Proof.
  intros Hi Hr Hfw. destruct (config_client s pi b Hr) as (ty & Ety & Hty). pose proof Hr as [Epath Hcsrf Hct (off & Eoff & _ & Elen & Hb) _ _].
  unfold handle_post_request, has_csrf_header. rewrite bool_decide_eq_true_2 by done. cbn [negb]. rewrite Epath.
  assert (get_req_handler post_handler_list (bytes "/trustconf") =
    Some (mk_handler (bytes "/trustconf") [ADMIN; MASTER] true (bytes "application/octet-stream") Post_npfctl_cmd)) as -> by (vm_compute; reflexivity).
  rewrite Ety, ok_bind. cbv beta iota. cbn [allowed_clients needs_body exp_content_type rh_handler]. rewrite bool_decide_eq_true_2 by done. cbn [negb].
  assert (has_body pi = true) as ->.
  { unfold has_body. rewrite Eoff, bool_decide_eq_false_2 by done. cbn. rewrite Elen. destruct b; [done|]. rewrite (proj2 (Z.leb_gt _ 0)) by (cbn; lia). done. }
  unfold has_expected_content_type. rewrite Hct, bool_decide_eq_true_2 by done. cbn [negb andb].
  eapply defined_mono; [|by apply (npfctl_answers n cf rg l s pi b)]. by intros [ret s'] HA.
Qed.

End config.

(** ** Example: one worker, one registered administrator *)

#[local] Existing Instances ex_nvlist ex_mbedtls.

#[local] Abbreviation ex_sys_t := (sys (T := gmap (list Z) (list Z)) (L := list (list Z * Z * route_info_t)) (F := Z)).
#[local] Abbreviation ex_pta := (pta_client (T := gmap (list Z) (list Z)) (L := list (list Z * Z * route_info_t)) ex_run_op 99 4 true (fun _ => true) (fun _ _ => true)).

Definition ex_sys : ex_sys_t := mk_sys ex_one 0 1.

(** The buffer holds a request with the one-byte body [3]. *)
Definition ex_admin : hst unit ex_ssl ex_sys_t :=
  mk_hst (Some tt) (mk_ex_ssl [] [] 0 (Some [7])) (Some ex_rings) (80 :: 3 :: replicate 4094 0) 2 false None ex_heap (Some [9]) [[7]] None None None None ex_sys.

Definition ex_post : parsing_info :=
  mk_pinfo 1 (bytes "POST") (bytes "/trustconf")
    [(csrf_hdr, []); (bytes "Content-Length", bytes "1"); (bytes "Content-Type", bytes "application/octet-stream")] (Some 1) 1.

Lemma ex_admin_inv : hinv (fun _ _ _ => True) (sys_ok 1) tt ex_rings [] ex_admin.
Proof.
  split.
  - reflexivity.
  - split; vm_compute; discriminate.
  - done.
  - split; [done|constructor..].
  - intros p Hp. by apply elem_of_nil in Hp.
  - split; [by apply slots_inv; [exact ex_one_slots|]|]. intros k _. apply lookup_empty.
Qed.

Lemma ex_config_request : config_request ex_admin ex_post [3].
Proof.
  split.
  - reflexivity.
  - vm_compute. by eexists.
  - vm_compute. reflexivity.
  - exists 1. split; [done|]. split; [vm_compute; reflexivity|done].
  - split; [reflexivity|]. exists [7], [9]. split; [done|]. split; [done|right]. by left.
  - intros i. by eexists.
Qed.

Lemma https_config_end_to_end_witness :
  defined (handle_post_request (H0 := ex_pta) ex_post ex_admin) (fun '(_, s') => sys_fw (pta s') = 1 /\ exists l',
    ex_out (ssl s') ++ pending (hp s') l' = resp_header 200 "OK" 2 "application/octet-stream" ++ [0; 3]).
Proof.
  eapply defined_mono; [|apply (https_config_end_to_end ex_run_op 99 4 true (fun _ => true) (fun _ _ => true) (fun _ _ _ => True) (fun _ x => length (ex_in x)) ex_out (ex_tls_laws _ ex_closed_True)
    1 tt ex_rings [] ex_admin ex_post [3] [0; 3] 1)].
  - intros [ret s'] (Hf & _ & l' & _ & Hs). split; [exact Hf|]. exists l'. rewrite Hs. reflexivity.
  - exact ex_admin_inv.
  - exact ex_config_request.
  - exists [("operation"%string, 3)], [("errno"%string, 0); ("ran"%string, 3)]. split; [reflexivity|]. split; [discriminate|]. split; reflexivity.
Defined.
