(* ===== verification/WebStub.v ===== *)
(** * The entry points of the ConfigService TA (configservice/ta/web_stub_ta.c,
    with the set-up functions of secure_ta.c, sw_mbedtls_util.c and
    sw_fileio.c).

    A server session sets up the TLS configuration and loads the web apps; a
    client session stands for one connection: its TLS context, its HTTP
    buffers, then handshake steps and requests, whose bytes travel in rings
    the normal world passes as parameters. *)

From stdpp Require Import strings.
From S2P Require Import Prelude Ringbuf RespQueue Router Pta Https HttpsAuth HttpsSafe.

(** ** mbedTLS, for the server

    A chain of certificates, a private key, the parts of a configuration; the
    outcome of seeding the random number generator depends on the entropy
    there is at the [n]-th time. *)
Class MbedServer (CONF CHAIN PK : Type) := {
  mbedtls_test_srv_crt : list Z;
  mbedtls_test_cas_pem : list Z;
  mbedtls_test_srv_key : list Z;
  x509_chain_parse : list Z -> Z * CHAIN;
  pk_parse_key : list Z -> Z * PK;
  ctr_drbg_seed : list Z -> nat -> Z;
  ssl_config_init : CONF;
  ssl_config_defaults : Z -> Z -> Z -> CONF -> Z * CONF;
  ssl_conf_rng : CONF -> CONF;
  ssl_conf_ca_chain : CHAIN -> CONF -> CONF;
  ssl_conf_own_cert : CHAIN -> PK -> CONF -> Z * CONF;
  ssl_conf_authmode : Z -> CONF -> CONF
}.

Definition MBEDTLS_SSL_IS_SERVER : Z := 1.
Definition MBEDTLS_SSL_TRANSPORT_STREAM : Z := 0.
Definition MBEDTLS_SSL_PRESET_DEFAULT : Z := 0.
Definition MBEDTLS_SSL_VERIFY_OPTIONAL : Z := 1.

(** ** Constants *)

Definition BSTGW_WEBSTUB_SERVER_SESSION : Z := 0.
Definition BSTGW_WEBSTUB_CLIENT_SESSION : Z := 1.
Definition BSTGW_TA_WEB_STUB_CMD_INIT_HTTPS_SERVER : Z := 0.
Definition BSTGW_TA_WEB_STUB_CMD_FINI_HTTPS_SERVER : Z := 1.
Definition BSTGW_TA_WEB_STUB_CMD_LOAD_WEBAPP_FILE : Z := 2.
Definition BSTGW_TA_WEB_STUB_CMD_INIT_TLS_CLIENT : Z := 10.
Definition BSTGW_TA_WEB_STUB_CMD_FINI_TLS_CLIENT : Z := 11.
Definition BSTGW_TA_WEB_STUB_CMD_INIT_HTTP_CLI : Z := 12.
Definition BSTGW_TA_WEB_STUB_CMD_FINI_HTTP_CLI : Z := 13.
Definition BSTGW_TA_WEB_STUB_CMD_DO_HANDSHAKE : Z := 14.
Definition BSTGW_TA_WEB_STUB_CMD_PROCESS_REQUEST : Z := 15.

(** ** State *)

(** A session: its type, and the union of [srv] and [cli]. *)
Record sess_t := mk_sess { sess_type : Z; sess_ptr : option positive }.
#[global] Instance eta_sess : Settable sess_t := fun x => mk_sess (sess_type x) (sess_ptr x).

(** The part of a client that [sw_init_http_cli] initialises. *)
Record sw_http_client := mk_http { http_next : Z; http_partial : bool; http_resp : option positive }.

(** A client; [cl_http] is empty as long as that part was never written. *)
Record sw_cli_t (SSL : Type) := mk_cli {
  cl_config : positive;
  cl_ssl : SSL;
  cl_rxtx : option rings;
  cl_buffer : list Z;
  cl_http : option sw_http_client
}.
Arguments mk_cli {SSL}. Arguments cl_config {SSL}. Arguments cl_ssl {SSL}. Arguments cl_rxtx {SSL}. Arguments cl_buffer {SSL}.
Arguments cl_http {SSL}.
#[global] Instance eta_cli {SSL} : Settable (sw_cli_t SSL) :=
  fun c => mk_cli (cl_config c) (cl_ssl c) (cl_rxtx c) (cl_buffer c) (cl_http c).

(** A server: its configuration, and whether its key context was initialised. *)
Record sw_srv_t (CONF : Type) := mk_srv { srv_conf : CONF; srv_pkey : bool }.
Arguments mk_srv {CONF}. Arguments srv_conf {CONF}. Arguments srv_pkey {CONF}.
#[global] Instance eta_srv {CONF} : Settable (sw_srv_t CONF) := fun v => mk_srv (srv_conf v) (srv_pkey v).

(** The TA: [webstub_ta] (empty before the TA is created) with the server
    configuration in use, the live sessions, servers and clients, the next
    address to give to one of them, the number of times the generator was
    seeded, and the heap and global variables of the HTTPS server. *)
Record ta (CONF SSL P : Type) := mk_ta {
  webstub_ta : option (option positive);
  sessions : gmap positive sess_t;
  servers : gmap positive (sw_srv_t CONF);
  clients : gmap positive (sw_cli_t SSL);
  next_addr : positive;
  seeds : nat;
  ta_hp : heap;
  ta_master : option (list Z);
  ta_allowlist : list (list Z);
  ta_user_app : option positive;
  ta_admin_app : option positive;
  ta_master_app : option positive;
  ta_pending_app : option positive;
  ta_pta : P
}.
Arguments mk_ta {CONF SSL P}. Arguments webstub_ta {CONF SSL P}. Arguments sessions {CONF SSL P}. Arguments servers {CONF SSL P}.
Arguments clients {CONF SSL P}. Arguments next_addr {CONF SSL P}. Arguments seeds {CONF SSL P}. Arguments ta_hp {CONF SSL P}.
Arguments ta_master {CONF SSL P}. Arguments ta_allowlist {CONF SSL P}. Arguments ta_user_app {CONF SSL P}.
Arguments ta_admin_app {CONF SSL P}. Arguments ta_master_app {CONF SSL P}. Arguments ta_pending_app {CONF SSL P}.
Arguments ta_pta {CONF SSL P}.
#[global] Instance eta_ta {CONF SSL P} : Settable (ta CONF SSL P) :=
  fun t => mk_ta (webstub_ta t) (sessions t) (servers t) (clients t) (next_addr t) (seeds t) (ta_hp t) (ta_master t)
             (ta_allowlist t) (ta_user_app t) (ta_admin_app t) (ta_master_app t) (ta_pending_app t) (ta_pta t).

(** ** Rings in shared memory: 2048 bytes, then three words *)

Definition SIZEOF_SW_BUFF : Z := 2060.

Definition read_ring (b : list Z) : outcome sw_buff_t :=
  d ← mem_read b 0 2048;
  hd ← mem_read b 2048 4;
  tl ← mem_read b 2052 4;
  fl ← mem_read b 2056 4;
  Ok (mk_sw_buff d (le_value hd) (le_value tl) (le_value fl)).

Definition ring_bytes (r : sw_buff_t) : list Z :=
  buffer r ++ le_bytes 4 (head r) ++ le_bytes 4 (tail r) ++ le_bytes 4 (full r).

Definition write_ring (r : sw_buff_t) (b : list Z) : outcome (list Z) := mem_write b 0 (ring_bytes r).

(** ** The operations *)

Section webstub.
Context {CONF SSL P CHAIN PK : Type} `{MbedTLS CONF SSL} `{MbedServer CONF CHAIN PK} `{TeeClient P} `{HttpParser}.
Implicit Types t : ta CONF SSL P.

(** *** mbedTLS objects of the server *)

(** [mbedtls_pk_free] of a context that was never initialised frees whatever
    the memory holds. *)
Definition sw_fini_mbedtls_srv (v : sw_srv_t CONF) : outcome Z :=
  if srv_pkey v then Ok 0 else Undef.

Definition pers : list Z := bytes "sw_server".

(** The return value and the server, at the [n]-th seeding. *)
Definition sw_init_mbedtls_srv (n : nat) : outcome (Z * sw_srv_t CONF) :=
  let v := mk_srv ssl_config_init false in
  let '(ret, srvcert) := x509_chain_parse mbedtls_test_srv_crt in
  if negb (ret =? 0) then _ ← sw_fini_mbedtls_srv v; Ok (ret, v) else
  let '(ret, cachain) := x509_chain_parse mbedtls_test_cas_pem in
  if negb (ret =? 0) then _ ← sw_fini_mbedtls_srv v; Ok (ret, v) else
  let v := v <| srv_pkey := true |> in
  let '(ret, pkey) := pk_parse_key mbedtls_test_srv_key in
  if negb (ret =? 0) then _ ← sw_fini_mbedtls_srv v; Ok (ret, v) else
  let ret := ctr_drbg_seed pers n in
  if negb (ret =? 0) then _ ← sw_fini_mbedtls_srv v; Ok (ret, v) else
  let '(ret, cf) := ssl_config_defaults MBEDTLS_SSL_IS_SERVER MBEDTLS_SSL_TRANSPORT_STREAM MBEDTLS_SSL_PRESET_DEFAULT (srv_conf v) in
  let v := v <| srv_conf := cf |> in
  if negb (ret =? 0) then _ ← sw_fini_mbedtls_srv v; Ok (ret, v) else
  let v := v <| srv_conf ::= ssl_conf_rng |> <| srv_conf ::= ssl_conf_ca_chain cachain |> in
  let '(ret, cf) := ssl_conf_own_cert srvcert pkey (srv_conf v) in
  let v := v <| srv_conf := cf |> in
  if negb (ret =? 0) then _ ← sw_fini_mbedtls_srv v; Ok (ret, v) else
  Ok (0, v <| srv_conf ::= ssl_conf_authmode MBEDTLS_SSL_VERIFY_OPTIONAL |>).

(** *** Web apps *)

Definition free_app (app : option positive) (h : heap) : outcome heap :=
  match app with None => Ok h | Some p => free (Mem p) h end.

Definition cleanup_webapps t : outcome (ta CONF SSL P) :=
  h ← free_app (ta_user_app t) (ta_hp t);
  h ← free_app (ta_admin_app t) h;
  h ← free_app (ta_master_app t) h;
  h ← free_app (ta_pending_app t) h;
  Ok (t <| ta_hp := h |> <| ta_user_app := None |> <| ta_admin_app := None |> <| ta_master_app := None |> <| ta_pending_app := None |>).

(** [storage]: the variable a file goes to. *)
Definition app_storage (file_id : Z) t : option (option positive * (option positive -> ta CONF SSL P -> ta CONF SSL P)) :=
  if file_id =? 0 then Some (ta_user_app t, fun p t => t <| ta_user_app := p |>) else
  if file_id =? 1 then Some (ta_admin_app t, fun p t => t <| ta_admin_app := p |>) else
  if file_id =? 2 then Some (ta_master_app t, fun p t => t <| ta_master_app := p |>) else
  if file_id =? 3 then Some (ta_pending_app t, fun p t => t <| ta_pending_app := p |>) else None.

(** The terminator is written to [storage[file_len]]: an element of the
    array of one pointer that [storage] points to. *)
Definition sw_init_webapp_file (file_buffer : option (list Z)) (file_len file_id : Z) (sign_buffer : option (list Z)) t
    : outcome (Z * ta CONF SSL P) :=
  match file_buffer, sign_buffer with
  | Some file, Some _ =>
      if file_len =? 0 then Ok (-1, t) else
      match app_storage file_id t with
      | None => Ok (-1, t)
      | Some (Some _, _) => Ok (-1, t)
      | Some (None, store) =>
          let '(p, h) := malloc (u32 (file_len + 1)) (ta_hp t) in
          let t := store p (t <| ta_hp := h |>) in
          match p with
          | None => Ok (-1, t)
          | Some a =>
              d ← mem_read file 0 file_len;
              mem ← deref (blocks h !! a);
              mem ← mem_write mem 0 d;
              storage ← aset [Some a] file_len None;
              p ← aget storage 0;
              Ok (0, store p (t <| ta_hp ::= fun h => h <| blocks ::= <[a := mem]> |> |>))
          end
      end
  | _, _ => Ok (-1, t)
  end.

(** *** Servers *)

(** The return value, and what is left in [*srvp]. *)
Definition sw_init_tls_srv t : outcome (Z * option positive * ta CONF SSL P) :=
  let '(a, h) := ask (ta_hp t) in
  let t := t <| ta_hp := h |> in
  match a with
  | None => Ok (-1, None, t)
  | Some _ =>
      let p := next_addr t in
      '(ret, v) ← sw_init_mbedtls_srv (seeds t);
      let t := t <| next_addr ::= Pos.succ |> <| seeds ::= S |> in
      if negb (ret =? 0) then Ok (-1, Some p, t) else Ok (0, Some p, t <| servers ::= <[p := v]> |>)
  end.

Definition sw_fini_tls_srv (srvp : option positive) t : outcome (Z * ta CONF SSL P) :=
  match srvp with
  | None => Ok (-1, t)
  | Some p =>
      v ← deref (servers t !! p);
      _ ← sw_fini_mbedtls_srv v;
      t ← cleanup_webapps (t <| servers ::= delete p |>);
      Ok (0, t)
  end.

Definition get_tls_srv_conf (srvp : option positive) : option positive := srvp.

(** *** Clients *)

(** The context, ready for the transport callbacks; nothing when setting it
    up fails, for which the allocations in there (the answer [a]) count. *)
Definition sw_init_mbedtls_cli (cf : CONF) (a : option (nat -> Z)) : option SSL :=
  let '(ret, x) := ssl_setup cf a in if negb (ret =? 0) then None else Some x.

(** The return value, and what is left in [*clip]. *)
Definition sw_init_tls_cli (srv_config : option positive) t : outcome (Z * option positive * ta CONF SSL P) :=
  match srv_config with
  | None => Ok (-1, None, t)
  | Some cfg =>
      let '(a, h) := ask (ta_hp t) in
      match a with
      | None => Ok (-1, None, t <| ta_hp := h |>)
      | Some junk =>
          let p := next_addr t in
          let '(a, h) := ask h in
          let t := t <| ta_hp := h |> <| next_addr ::= Pos.succ |> in
          v ← deref (servers t !! cfg);
          match sw_init_mbedtls_cli (srv_conf v) a with
          | None => Ok (-1, Some p, t)
          | Some x => Ok (0, Some p, t <| clients ::= <[p := mk_cli cfg x None (junk <$> seq 0 (Z.to_nat HTTP_BUFFER_SIZE)) None]> |>)
          end
      end
  end.

Definition sw_fini_tls_cli (clip : option positive) t : outcome (Z * ta CONF SSL P) :=
  match clip with
  | None => Ok (-1, t)
  | Some p => _ ← deref (clients t !! p); Ok (0, t <| clients ::= delete p |>)
  end.

Definition set_rxtx_buffers (clip : option positive) (rx tx : sw_buff_t) t : outcome (Z * ta CONF SSL P) :=
  match clip with
  | None => Ok (-1, t)
  | Some p => c ← deref (clients t !! p); Ok (0, t <| clients ::= <[p := c <| cl_rxtx := Some (rx, tx) |>]> |>)
  end.

Definition clear_rxtx_buffers (clip : option positive) t : outcome (Z * ta CONF SSL P) :=
  match clip with
  | None => Ok (-1, t)
  | Some p => c ← deref (clients t !! p); Ok (0, t <| clients ::= <[p := c <| cl_rxtx := None |>]> |>)
  end.

Definition sw_init_http_cli (clip : option positive) t : outcome (Z * ta CONF SSL P) :=
  match clip with
  | None => Ok (-1, t)
  | Some p => c ← deref (clients t !! p); Ok (0, t <| clients ::= <[p := c <| cl_http := Some (mk_http 0 false None) |>]> |>)
  end.

(** The queue is freed; the client keeps the pointer to it. *)
Definition sw_fini_http_cli (clip : option positive) t : outcome (Z * ta CONF SSL P) :=
  match clip with
  | None => Ok (-1, t)
  | Some p =>
      c ← deref (clients t !! p);
      hc ← deref (cl_http c);
      h ← free_resp_queue (http_resp hc) (ta_hp t);
      Ok (0, t <| ta_hp := h |>)
  end.

(** What the functions of the HTTPS server work on, and back. *)
Definition enter (c : sw_cli_t SSL) t : hst CONF SSL P :=
  let hc := default (mk_http 0 false None) (cl_http c) in
  mk_hst (srv_conf <$> servers t !! cl_config c) (cl_ssl c) (cl_rxtx c) (cl_buffer c) (http_next hc) (http_partial hc) (http_resp hc)
    (ta_hp t) (ta_master t) (ta_allowlist t) (ta_user_app t) (ta_admin_app t) (ta_master_app t) (ta_pending_app t) (ta_pta t).

Definition leave (p : positive) (c : sw_cli_t SSL) (s : hst CONF SSL P) t : ta CONF SSL P :=
  t <| clients ::= <[p := mk_cli (cl_config c) (ssl s) (rxtx s) (req_buffer s)
         ((fun _ => mk_http (req_next s) (is_partial_request s) (resp_buffer s)) <$> cl_http c)]> |>
    <| ta_hp := hp s |> <| ta_master := master s |> <| ta_allowlist := allowlist s |> <| ta_user_app := user_app s |>
    <| ta_admin_app := admin_app s |> <| ta_master_app := master_app s |> <| ta_pending_app := pending_app s |> <| ta_pta := pta s |>.

Definition handshake_cli (clip : option positive) t : outcome (Z * ta CONF SSL P) :=
  match clip with
  | None => Ok (-1, t)
  | Some p => c ← deref (clients t !! p); '(ret, s) ← sw_do_handshake_cli (enter c t); Ok (ret, leave p c s t)
  end.

(** Without initialised HTTP part only the check of the client's type is
    defined. *)
Definition read_https_cli (fuel : nat) (clip : option positive) t : outcome (Z * ta CONF SSL P) :=
  match clip with
  | None => Ok (-1000, t)
  | Some p =>
      c ← deref (clients t !! p);
      match cl_http c with
      | Some _ => '(ret, s) ← sw_read_https_req_data fuel (enter c t); Ok (ret, leave p c s t)
      | None => '(ty, s) ← get_client_type (enter c t); if bool_decide (ty = INVALID) then Ok (-1, leave p c s t) else Undef
      end
  end.

(** *** Entry points and commands *)

Definition TA_CreateEntryPoint t : Z * ta CONF SSL P :=
  let '(a, h) := ask (ta_hp t) in
  match a with
  | None => (TEE_ERROR_OUT_OF_MEMORY, t <| ta_hp := h |> <| webstub_ta := None |>)
  | Some _ => (TEE_SUCCESS, t <| ta_hp := h |> <| webstub_ta := Some None |>)
  end.

Definition TA_DestroyEntryPoint t : ta CONF SSL P := t <| webstub_ta := None |>.

(** The result, and the session if there is one. *)
Definition TA_OpenSessionEntryPoint (param_types : Z) (params : list tee_param) t : outcome (Z * option positive * ta CONF SSL P) :=
  let exp_param_types := TEE_PARAM_TYPES TEE_PARAM_TYPE_VALUE_INPUT TEE_PARAM_TYPE_NONE TEE_PARAM_TYPE_NONE TEE_PARAM_TYPE_NONE in
  if negb (param_types =? exp_param_types) then Ok (TEE_ERROR_BAD_PARAMETERS, None, t) else
  p0 ← aget params 0;
  let sess_type := i32 (value_a p0) in
  if negb ((sess_type =? BSTGW_WEBSTUB_SERVER_SESSION) || (sess_type =? BSTGW_WEBSTUB_CLIENT_SESSION))
  then Ok (TEE_ERROR_BAD_PARAMETERS, None, t) else
  let '(a, h) := ask (ta_hp t) in
  let t := t <| ta_hp := h |> in
  match a with
  | None => Ok (TEE_ERROR_OUT_OF_MEMORY, None, t)
  | Some _ =>
      let p := next_addr t in
      Ok (TEE_SUCCESS, Some p, t <| next_addr ::= Pos.succ |> <| sessions ::= <[p := mk_sess sess_type None]> |>)
  end.

Definition TA_CloseSessionEntryPoint (sess_ctx : option positive) t : outcome (ta CONF SSL P) :=
  match sess_ctx with
  | None => Ok t
  | Some p => _ ← deref (sessions t !! p); Ok (t <| sessions ::= delete p |>)
  end.

(** The commands get the session's address [sp] and the session [sess]. *)
Definition cmd_init_https_server (sp : positive) (sess : sess_t) t : outcome (Z * ta CONF SSL P) :=
  cfg ← deref (webstub_ta t);
  match cfg with
  | Some _ => Ok (TEE_ERROR_GENERIC, t)
  | None =>
      '(ret, srv, t) ← sw_init_tls_srv t;
      let t := t <| sessions ::= <[sp := sess <| sess_ptr := srv |>]> |> in
      if negb (ret =? 0) then Ok (TEE_ERROR_GENERIC, t) else
      let t := t <| webstub_ta := Some (get_tls_srv_conf srv) |> in
      c_assert (bool_decide (get_tls_srv_conf srv <> None));;
      Ok (TEE_SUCCESS, t)
  end.

Definition cmd_fini_https_server (sess : sess_t) t : outcome (Z * ta CONF SSL P) :=
  '(ret, t) ← sw_fini_tls_srv (sess_ptr sess) t;
  _ ← deref (webstub_ta t);
  let t := t <| webstub_ta := Some None |> in
  if negb (ret =? 0) then Ok (TEE_ERROR_GENERIC, t) else Ok (TEE_SUCCESS, t).

Definition cmd_init_tls_client (sp : positive) (sess : sess_t) t : outcome (Z * ta CONF SSL P) :=
  cfg ← deref (webstub_ta t);
  match cfg with
  | None => Ok (TEE_ERROR_GENERIC, t)
  | Some _ =>
      '(ret, cli, t) ← sw_init_tls_cli cfg t;
      let t := t <| sessions ::= <[sp := sess <| sess_ptr := cli |>]> |> in
      if negb (ret =? 0) then Ok (TEE_ERROR_GENERIC, t) else Ok (TEE_SUCCESS, t)
  end.

Definition cmd_fini_tls_client (sess : sess_t) t : outcome (Z * ta CONF SSL P) :=
  '(ret, t) ← sw_fini_tls_cli (sess_ptr sess) t;
  if negb (ret =? 0) then Ok (TEE_ERROR_GENERIC, t) else Ok (TEE_SUCCESS, t).

Definition cmd_init_http_cli (sess : sess_t) t : outcome (Z * ta CONF SSL P) :=
  '(ret, t) ← sw_init_http_cli (sess_ptr sess) t;
  if negb (ret =? 0) then Ok (TEE_ERROR_GENERIC, t) else Ok (TEE_SUCCESS, t).

Definition cmd_fini_http_cli (sess : sess_t) t : outcome (Z * ta CONF SSL P) :=
  '(ret, t) ← sw_fini_http_cli (sess_ptr sess) t;
  if negb (ret =? 0) then Ok (TEE_ERROR_GENERIC, t) else Ok (TEE_SUCCESS, t).

Definition ringbuffer_param_check (param_types : Z) (params : list tee_param) : outcome Z :=
  let exp_param_types := TEE_PARAM_TYPES TEE_PARAM_TYPE_VALUE_OUTPUT TEE_PARAM_TYPE_MEMREF_INOUT TEE_PARAM_TYPE_MEMREF_INOUT TEE_PARAM_TYPE_NONE in
  if negb (param_types =? exp_param_types) then Ok TEE_ERROR_BAD_PARAMETERS else
  p1 ← aget params 1;
  p2 ← aget params 2;
  if (memref_size p1 <? SIZEOF_SW_BUFF) || bool_decide (memref_buffer p1 = None)
     || (memref_size p2 <? SIZEOF_SW_BUFF) || bool_decide (memref_buffer p2 = None)
  then Ok TEE_ERROR_BAD_PARAMETERS else Ok TEE_SUCCESS.

(** The rings of the parameters, and the parameters with the rings as they
    are after the call. *)
Definition param_ring (params : list tee_param) (i : Z) : outcome sw_buff_t :=
  p ← aget params i; b ← deref (memref_buffer p); read_ring b.

Definition put_param_ring (r : sw_buff_t) (i : Z) (params : list tee_param) : outcome (list tee_param) :=
  p ← aget params i; b ← deref (memref_buffer p); b ← write_ring r b; aset params i (p <| memref_buffer := Some b |>).

(** [op] on the rings of the parameters: its return value goes to
    [params[0].value.a]. *)
Definition with_rings (op : option positive -> ta CONF SSL P -> outcome (Z * ta CONF SSL P)) (sess : sess_t) (params : list tee_param) t
    : outcome (Z * list tee_param * ta CONF SSL P) :=
  rx ← param_ring params 1;
  tx ← param_ring params 2;
  '(ret, t) ← set_rxtx_buffers (sess_ptr sess) rx tx t;
  if negb (ret =? 0) then Ok (TEE_ERROR_BAD_PARAMETERS, params, t) else
  '(ret, t) ← op (sess_ptr sess) t;
  p0 ← aget params 0;
  params ← aset params 0 (p0 <| value_a := u32 ret |>);
  p ← deref (sess_ptr sess);
  c ← deref (clients t !! p);
  '(rx, tx) ← deref (cl_rxtx c);
  params ← put_param_ring rx 1 params;
  params ← put_param_ring tx 2 params;
  '(_, t) ← clear_rxtx_buffers (sess_ptr sess) t;
  Ok (TEE_SUCCESS, params, t).

Definition cmd_do_handshake (sess : sess_t) (param_types : Z) (params : list tee_param) t : outcome (Z * list tee_param * ta CONF SSL P) :=
  ret ← ringbuffer_param_check param_types params;
  if negb (ret =? TEE_SUCCESS) then Ok (ret, params, t) else with_rings handshake_cli sess params t.

Definition cmd_process_request (fuel : nat) (sess : sess_t) (param_types : Z) (params : list tee_param) t
    : outcome (Z * list tee_param * ta CONF SSL P) :=
  ret ← ringbuffer_param_check param_types params;
  if negb (ret =? TEE_SUCCESS) then Ok (ret, params, t) else with_rings (read_https_cli fuel) sess params t.

Definition cmd_load_webapp_file (param_types : Z) (params : list tee_param) t : outcome (Z * ta CONF SSL P) :=
  let exp_param_types := TEE_PARAM_TYPES TEE_PARAM_TYPE_MEMREF_INPUT TEE_PARAM_TYPE_VALUE_INPUT TEE_PARAM_TYPE_MEMREF_INPUT TEE_PARAM_TYPE_NONE in
  if negb (param_types =? exp_param_types) then Ok (TEE_ERROR_BAD_PARAMETERS, t) else
  p0 ← aget params 0;
  p1 ← aget params 1;
  p2 ← aget params 2;
  '(ret, t) ← sw_init_webapp_file (memref_buffer p0) (memref_size p0) (value_a p1) (memref_buffer p2) t;
  if negb (ret =? 0) then Ok (TEE_ERROR_GENERIC, t) else Ok (TEE_SUCCESS, t).

(** Commands that leave the parameters alone. *)
Definition plain_cmd (params : list tee_param) (o : outcome (Z * ta CONF SSL P)) : outcome (Z * list tee_param * ta CONF SSL P) :=
  '(res, t) ← o; Ok (res, params, t).

Definition TA_InvokeCommandEntryPoint (fuel : nat) (sess_ctx : option positive) (cmd_id param_types : Z) (params : list tee_param) t
    : outcome (Z * list tee_param * ta CONF SSL P) :=
  match sess_ctx with
  | None => Ok (TEE_ERROR_GENERIC, params, t)
  | Some sp =>
      let no_params_type := TEE_PARAM_TYPES TEE_PARAM_TYPE_NONE TEE_PARAM_TYPE_NONE TEE_PARAM_TYPE_NONE TEE_PARAM_TYPE_NONE in
      sess ← deref (sessions t !! sp);
      let server k := if negb (sess_type sess =? BSTGW_WEBSTUB_SERVER_SESSION) then Ok (TEE_ERROR_ACCESS_DENIED, params, t) else k in
      let client k := if negb (sess_type sess =? BSTGW_WEBSTUB_CLIENT_SESSION) then Ok (TEE_ERROR_ACCESS_DENIED, params, t) else k in
      let no_params k := if negb (param_types =? no_params_type) then Ok (TEE_ERROR_BAD_PARAMETERS, params, t) else plain_cmd params k in
      if cmd_id =? BSTGW_TA_WEB_STUB_CMD_INIT_HTTPS_SERVER then server (no_params (cmd_init_https_server sp sess t)) else
      if cmd_id =? BSTGW_TA_WEB_STUB_CMD_FINI_HTTPS_SERVER then server (no_params (cmd_fini_https_server sess t)) else
      if cmd_id =? BSTGW_TA_WEB_STUB_CMD_LOAD_WEBAPP_FILE then server (plain_cmd params (cmd_load_webapp_file param_types params t)) else
      if cmd_id =? BSTGW_TA_WEB_STUB_CMD_INIT_TLS_CLIENT then client (no_params (cmd_init_tls_client sp sess t)) else
      if cmd_id =? BSTGW_TA_WEB_STUB_CMD_FINI_TLS_CLIENT then client (no_params (cmd_fini_tls_client sess t)) else
      if cmd_id =? BSTGW_TA_WEB_STUB_CMD_INIT_HTTP_CLI then client (no_params (cmd_init_http_cli sess t)) else
      if cmd_id =? BSTGW_TA_WEB_STUB_CMD_FINI_HTTP_CLI then client (no_params (cmd_fini_http_cli sess t)) else
      if cmd_id =? BSTGW_TA_WEB_STUB_CMD_DO_HANDSHAKE then client (cmd_do_handshake sess param_types params t) else
      if cmd_id =? BSTGW_TA_WEB_STUB_CMD_PROCESS_REQUEST then client (cmd_process_request fuel sess param_types params t) else
      Ok (TEE_ERROR_BAD_PARAMETERS, params, t)
  end.

End webstub.

(** ** Rings survive the way through shared memory *)

Definition ring_ok (r : sw_buff_t) : Prop := sw_wf r /\ 0 <= full r <= MAX_U32.

(** Reading between two known parts. *)
Lemma mem_read_mid {A} (x y z : list A) off n :
  off = Z.of_nat (length x) -> n = Z.of_nat (length y) -> mem_read (x ++ y ++ z) off n = Ok y.
Proof.
  intros -> ->. rewrite mem_read_ok by (rewrite ?length_app; lia). by rewrite !Nat2Z.id, drop_app_length, take_app_length.
Qed.

Lemma ring_roundtrip r b :
  ring_ok r -> SIZEOF_SW_BUFF <= Z.of_nat (length b) ->
  exists b', write_ring r b = Ok b' /\ length b' = length b /\ read_ring b' = Ok r.
Proof.
  intros [[Hl Hh Ht Hf] Hu] Hb. unfold SIZEOF_SW_BUFF, SW_BUFFER_SIZE, MAX_U32 in *. unfold write_ring.
  assert (length (ring_bytes r) = 2060%nat) as Hn by (unfold ring_bytes; rewrite !length_app, !length_le_bytes; lia).
  rewrite mem_write_ok by lia. eexists. split; [done|]. split; [apply length_blit; lia|].
  unfold blit, read_ring, ring_bytes. cbn [Z.to_nat]. rewrite take_0, app_nil_l, <- !app_assoc.
  set (z := drop _ b). set (h := le_bytes 4 (head r)). set (t := le_bytes 4 (tail r)). set (f := le_bytes 4 (full r)).
  pose proof (mem_read_mid [] (buffer r) (h ++ t ++ f ++ z) 0 2048) as E0. rewrite app_nil_l in E0. rewrite E0, ok_bind by (cbn; lia). clear E0.
  rewrite (mem_read_mid (buffer r) h _ 2048 4), ok_bind by (unfold h; rewrite ?length_le_bytes; lia).
  rewrite (app_assoc (buffer r) h), (mem_read_mid (buffer r ++ h) t _ 2052 4), ok_bind by (unfold h, t; rewrite ?length_app, ?length_le_bytes; lia).
  rewrite (app_assoc (buffer r ++ h) t), (mem_read_mid ((buffer r ++ h) ++ t) f _ 2056 4), ok_bind by (unfold h, t, f; rewrite ?length_app, ?length_le_bytes; lia).
  unfold h, t, f. rewrite !le_value_bytes by (cbn; lia). by destruct r.
Qed.
