(* ===== verification/WebProtocol.v ===== *)
(** * Client sessions of the ConfigService TA (configservice/ta/web_stub_ta.c).

    The TA does not check in which order the normal world calls it.  A client
    session goes through phases; in the order [proto] gives, which is the
    one of configservice/host/client.c, no call has undefined behaviour and
    the TA is as the next phase needs it.  Outside of that order a session
    uses freed memory. *)

From stdpp Require Import strings.
From S2P Require Import Prelude Ringbuf RespQueue Router Pta Https HttpsAuth HttpsSafe WebStub.

(** ** The protocol *)

(** A session was opened; its TLS context is set up; its HTTP buffers too; they
    were freed; all was freed. *)
Inductive phase := Opened | TlsUp | HttpUp | HttpDown | Gone.

(** The phase after command [cmd], where it is allowed. *)
Definition proto (ph : phase) (cmd : Z) : option phase :=
  match ph with
  | Opened => if cmd =? BSTGW_TA_WEB_STUB_CMD_INIT_TLS_CLIENT then Some TlsUp else None
  | TlsUp =>
      if cmd =? BSTGW_TA_WEB_STUB_CMD_DO_HANDSHAKE then Some TlsUp else
      if cmd =? BSTGW_TA_WEB_STUB_CMD_INIT_HTTP_CLI then Some HttpUp else
      if cmd =? BSTGW_TA_WEB_STUB_CMD_FINI_TLS_CLIENT then Some Gone else None
  | HttpUp =>
      if cmd =? BSTGW_TA_WEB_STUB_CMD_PROCESS_REQUEST then Some HttpUp else
      if cmd =? BSTGW_TA_WEB_STUB_CMD_FINI_HTTP_CLI then Some HttpDown else None
  | HttpDown => if cmd =? BSTGW_TA_WEB_STUB_CMD_FINI_TLS_CLIENT then Some Gone else None
  | Gone => None
  end.

Definition is_ring_cmd (cmd : Z) : bool :=
  (cmd =? BSTGW_TA_WEB_STUB_CMD_DO_HANDSHAKE) || (cmd =? BSTGW_TA_WEB_STUB_CMD_PROCESS_REQUEST).

(** The parameter types of a command (web_stub_ta.h). *)
Definition types_of (cmd : Z) : Z :=
  if is_ring_cmd cmd
  then TEE_PARAM_TYPES TEE_PARAM_TYPE_VALUE_OUTPUT TEE_PARAM_TYPE_MEMREF_INOUT TEE_PARAM_TYPE_MEMREF_INOUT TEE_PARAM_TYPE_NONE
  else TEE_PARAM_TYPES TEE_PARAM_TYPE_NONE TEE_PARAM_TYPE_NONE TEE_PARAM_TYPE_NONE TEE_PARAM_TYPE_NONE.

(** A parameter holds a ring. *)
Definition ring_param (q : tee_param) (r : sw_buff_t) : Prop :=
  exists b, memref_buffer q = Some b /\ memref_size q = Z.of_nat (length b) /\ SIZEOF_SW_BUFF <= Z.of_nat (length b) /\ read_ring b = Ok r /\ ring_ok r.

Definition ring_params (ps : list tee_param) (rg : rings) : Prop :=
  exists p0 p1 p2 rest, ps = p0 :: p1 :: p2 :: rest /\ ring_param p1 rg.1 /\ ring_param p2 rg.2.

Definition rings_ok (rg : rings) : Prop := ring_ok rg.1 /\ ring_ok rg.2.

Section protocol.
Context {CONF SSL P CHAIN PK : Type} `{MbedTLS CONF SSL} `{MbedServer CONF CHAIN PK} `{TeeClient P} `{HttpParser}.
Context (tls_inv : CONF -> rings -> SSL -> Prop) (tls_left : rings -> SSL -> nat) (tls_sent : SSL -> list Z) (pta_ok : P -> Prop).
Implicit Types t : ta CONF SSL P.

(** What else mbedTLS promises: a context that was set up is fit for use, a
    handshake keeps it so, and it only touches the rings through the
    callbacks, so that it works with any well-formed rings and leaves them
    well formed. *)
Record conn_laws : Prop := {
  cn_setup cf a x rg : ssl_setup cf a = (0, x) -> rings_ok rg -> tls_inv cf rg x;
  cn_handshake cf rg x : tls_inv cf rg x -> defined (ssl_handshake cf rg x) (fun '(_, x', rg') => tls_inv cf rg' x');
  cn_rings cf rg rg' x : tls_inv cf rg x -> rings_ok rg' -> tls_inv cf rg' x;
  cn_wf cf rg x : tls_inv cf rg x -> rings_ok rg
}.

Definition ta_apps t : list positive := omap id [ta_user_app t; ta_admin_app t; ta_master_app t; ta_pending_app t].

(** The server is up with configuration [cf], and the global state is sound. *)
Record ta_ok (cfg : positive) (cf : CONF) t : Prop := {
  to_srv : webstub_ta t = Some (Some cfg);
  to_conf : exists v, servers t !! cfg = Some v /\ srv_conf v = cf;
  to_apps : webapps_ok (ta_hp t) (ta_apps t);
  to_pta : pta_ok (ta_pta t)
}.

Definition conn_ok (cf : CONF) (c : sw_cli_t SSL) : Prop :=
  (forall rg, rings_ok rg -> tls_inv cf rg (cl_ssl c)) /\ Z.of_nat (length (cl_buffer c)) = HTTP_BUFFER_SIZE.

Definition http_ok (ph : phase) (c : sw_cli_t SSL) t : Prop :=
  match ph with
  | TlsUp => cl_http c = None
  | HttpUp => exists hc l, cl_http c = Some hc /\ 0 <= http_next hc <= HTTP_BUFFER_SIZE /\ qwf (ta_hp t) (ta_apps t) (http_resp hc) l
  | _ => True
  end.

(** What holds of the TA when session [sp] is in phase [ph]. *)
Definition in_phase (sp cfg : positive) (cf : CONF) (ph : phase) t : Prop :=
  ta_ok cfg cf t /\
  match ph with
  | Opened => sessions t !! sp = Some (mk_sess BSTGW_WEBSTUB_CLIENT_SESSION None)
  | Gone => exists p, sessions t !! sp = Some (mk_sess BSTGW_WEBSTUB_CLIENT_SESSION p)
  | _ => exists p c, sessions t !! sp = Some (mk_sess BSTGW_WEBSTUB_CLIENT_SESSION (Some p)) /\ clients t !! p = Some c /\
           cl_config c = cfg /\ conn_ok cf c /\ http_ok ph c t
  end.

(** The client of session [sp]. *)
Definition client_of (sp : positive) t : option (sw_cli_t SSL) :=
  match sessions t !! sp with
  | Some (mk_sess _ (Some p)) => clients t !! p
  | _ => None
  end.

(** What a call needs: rings for a handshake step or a request; a request is
    not from the master, and there is fuel for its bytes; not more than one
    chunk is queued when the queue is freed. *)
Definition call_ok (sp : positive) (cmd : Z) (fuel : nat) (ps : list tee_param) t : Prop :=
  (is_ring_cmd cmd = true -> exists rg, ring_params ps rg /\
    (cmd = BSTGW_TA_WEB_STUB_CMD_PROCESS_REQUEST -> forall c, client_of sp t = Some c ->
      ~ is_master (enter c t) /\ (3 * tls_left rg (cl_ssl c) + 2 * Z.to_nat HTTP_BUFFER_SIZE + 1 < fuel)%nat)) /\
  (cmd = BSTGW_TA_WEB_STUB_CMD_FINI_HTTP_CLI -> forall c hc l, client_of sp t = Some c -> cl_http c = Some hc ->
    qwf (ta_hp t) (ta_apps t) (http_resp hc) l -> (length l <= 1)%nat).

Context (Htls : tls_laws tls_inv tls_left tls_sent) (Htee : tee_laws pta_ok) (Hphr : phr_law) (Hconn : conn_laws).

(** ** Handshakes and requests *)

(** The session's client [p], with the rings [rg] in place. *)
Definition ready (sp cfg : positive) (cf : CONF) (ph : phase) (rg : rings) (p : positive) t : Prop :=
  ta_ok cfg cf t /\ exists c, sessions t !! sp = Some (mk_sess BSTGW_WEBSTUB_CLIENT_SESSION (Some p)) /\ clients t !! p = Some c /\
    cl_config c = cfg /\ conn_ok cf c /\ http_ok ph c t /\ cl_rxtx c = Some rg.

Lemma enter_hinv cfg cf ph rg c t :
  ta_ok cfg cf t -> cl_config c = cfg -> conn_ok cf c -> http_ok ph c t -> ph = TlsUp \/ ph = HttpUp -> cl_rxtx c = Some rg -> rings_ok rg ->
  exists l, hinv tls_inv pta_ok cf rg l (enter c t).
Proof.
  intros [_ (v & Ev & <-) Ha Hp] <- [Hi Hb] Hh Hph Er Hr.
  assert (link tls_inv (srv_conf v) rg (enter c t)) as Hl by (split; [cbn; by rewrite Ev|]; split; [done|by apply Hi]).
  destruct Hph as [->| ->]; cbn in Hh.
  - exists []. split; try done; unfold enter; rewrite Hh; cbn [default req_next http_next resp_buffer http_resp]; [unfold HTTP_BUFFER_SIZE; lia|].
    split; [done|constructor..].
  - destruct Hh as (hc & l & Eh & Hn & Hq). exists l. split; try done; unfold enter; rewrite Eh; done.
Qed.

(** Back from the HTTPS server. *)
Lemma leave_ready sp cfg cf ph rg rg' l c s p t :
  ready sp cfg cf ph rg p t -> clients t !! p = Some c -> ph = TlsUp \/ ph = HttpUp -> hinv tls_inv pta_ok cf rg' l s ->
  rings_ok rg' /\ ready sp cfg cf ph rg' p (leave p c s t).
Proof.
  intros [[Hs Hc _ _] (c' & Es & Ec & Ecf & _ & Hh & _)] Ec' Hph [Hb Hn (Hcf & Hr & Hi) Hq Ha Hp]. rewrite Ec' in Ec. injection Ec as <-.
  split; [by eapply (cn_wf Hconn)|]. split; [by split|]. eexists. split; [done|]. split; [cbn; by rewrite lookup_insert_eq|]. cbn [cl_config].
  split; [done|]. split; [split; [|done]; intros rg2 ?; by eapply (cn_rings Hconn)|]. split; [|done].
  destruct Hph as [->| ->]; cbn in *; [by rewrite Hh|]. destruct Hh as (hc & _ & -> & _). exists (mk_http (req_next s) (is_partial_request s) (resp_buffer s)), l. done.
Qed.

Lemma handshake_inv cf rg l s :
  hinv tls_inv pta_ok cf rg l s -> defined (sw_do_handshake_cli s) (fun '(_, s') => exists rg', hinv tls_inv pta_ok cf rg' l s').
Proof.
  intros Hi. destruct (hi_link _ _ _ _ _ _ Hi) as (Ec & Er & Ht). unfold sw_do_handshake_cli. rewrite Ec, Er. cbn [deref assert_ptr]. rewrite !ok_bind.
  apply defined_bind. eapply defined_mono; [|by apply (cn_handshake Hconn)]. intros [[ret x] rg1] Hx.
  assert (Hi1 : hinv tls_inv pta_ok cf rg1 l (s <| ssl := x |> <| rxtx := Some rg1 |>)) by (destruct Hi; by split). revert Hi1.
  generalize (s <| ssl := x |> <| rxtx := Some rg1 |>). clear s Hi Ec Er Ht. intros s Hi. case_match; [|by exists rg1].
  apply defined_bind. eapply (defined_mono _ (fun '(_, s1) => exists rg', hinv tls_inv pta_ok cf rg' l s1)).
  - intros [r s1] [rg' Hi1]. apply defined_bind. eapply defined_mono; [|by apply (client_type_spec tls_inv pta_ok cf rg' l)].
    intros [ty s2] (Hi2 & _). destruct ty; cbn; try done; by exists rg'.
  - case_match; [by exists rg1|]. case_match; [destruct (ret <? 0); [by exists rg1|done]|]. case_match; [by exists rg1|].
    destruct (hi_link _ _ _ _ _ _ Hi) as (Ec & Er & Ht1). unfold tls_close_notify. rewrite Ec, Er. cbn [deref assert_ptr]. rewrite !ok_bind.
    apply defined_bind, defined_bind. eapply defined_mono; [|by apply (tl_close _ _ _ Htls)]. intros [[r2 x2] rg2] (Hx2 & _). exists rg2. destruct Hi; by split.
Qed.

Lemma handshake_ready sp cfg cf ph rg p t :
  ready sp cfg cf ph rg p t -> ph = TlsUp \/ ph = HttpUp -> rings_ok rg ->
  defined (handshake_cli (Some p) t) (fun '(_, t') => exists rg', rings_ok rg' /\ ready sp cfg cf ph rg' p t').
Proof.
  intros Hr Hph Hrg. pose proof Hr as [Ht (c & Es & Ec & Ecf & Hcn & Hh & Er)]. unfold handshake_cli. rewrite Ec. cbn [deref]. rewrite ok_bind.
  destruct (enter_hinv cfg cf ph rg c t) as [l Hi]; try done. apply defined_bind. eapply defined_mono; [|by apply (handshake_inv cf rg l)].
  intros [ret s] [rg' Hi']. exists rg'. by apply (leave_ready sp cfg cf ph rg rg' l).
Qed.

Lemma read_ready sp cfg cf rg p fuel t :
  ready sp cfg cf HttpUp rg p t -> rings_ok rg ->
  (forall c, clients t !! p = Some c -> ~ is_master (enter c t) /\ (3 * tls_left rg (cl_ssl c) + 2 * Z.to_nat HTTP_BUFFER_SIZE + 1 < fuel)%nat) ->
  defined (read_https_cli fuel (Some p) t) (fun '(_, t') => exists rg', rings_ok rg' /\ ready sp cfg cf HttpUp rg' p t').
Proof.
  intros Hr Hrg Hf. pose proof Hr as [Ht (c & Es & Ec & Ecf & Hcn & Hh & Er)]. destruct (Hf c Ec) as [Hm Hfuel].
  unfold read_https_cli. rewrite Ec. cbn [deref]. rewrite ok_bind.
  destruct (enter_hinv cfg cf HttpUp rg c t) as [l Hi]; try done; [by right|]. pose proof (hi_next _ _ _ _ _ _ Hi).
  destruct Hh as (hc & _ & Eh & _). rewrite Eh. apply defined_bind.
  eapply defined_mono; [|apply (read_data_spec tls_inv tls_left tls_sent pta_ok Htls Htee Hphr cf rg l); [done|done|]].
  - intros [ret s] (rg' & l' & Hi'). exists rg'. apply (leave_ready sp cfg cf HttpUp rg rg' l'); auto.
  - unfold HTTP_BUFFER_SIZE in *. change (ssl (enter c t)) with (cl_ssl c). lia.
Qed.

(** ** The rings of the parameters *)

Lemma param_ring_ok ps i q r : aget ps i = Ok q -> ring_param q r -> param_ring ps i = Ok r.
Proof. intros E (b & Eb & _ & _ & Er & _). unfold param_ring. rewrite E, ok_bind, Eb. cbn [deref]. by rewrite ok_bind. Qed.

Lemma put_param_ring_ok ps i q r r' :
  aget ps i = Ok q -> ring_param q r -> ring_ok r' -> exists q', put_param_ring r' i ps = aset ps i q' /\ ring_param q' r'.
Proof.
  intros E (b & Eb & Es & Hb & _ & _) Hr. destruct (ring_roundtrip r' b Hr Hb) as (b' & Ew & El & Ed). exists (q <| memref_buffer := Some b' |>).
  split; [|exists b'; cbn; rewrite El; by split_and!]. unfold put_param_ring. rewrite E, ok_bind, Eb. cbn [deref]. by rewrite ok_bind, Ew, ok_bind.
Qed.

Lemma with_rings_spec sp cfg cf ph p c ps rg op t :
  ta_ok cfg cf t -> sessions t !! sp = Some (mk_sess BSTGW_WEBSTUB_CLIENT_SESSION (Some p)) -> clients t !! p = Some c -> cl_config c = cfg ->
  conn_ok cf c -> http_ok ph c t -> ring_params ps rg -> (ph = TlsUp \/ ph = HttpUp) ->
  (forall t', ready sp cfg cf ph rg p t' -> t' = t <| clients ::= <[p := c <| cl_rxtx := Some rg |>]> |> ->
    defined (op (Some p) t') (fun '(_, t'') => exists rg', rings_ok rg' /\ ready sp cfg cf ph rg' p t'')) ->
  defined (with_rings op (mk_sess BSTGW_WEBSTUB_CLIENT_SESSION (Some p)) ps t) (fun '(res, ps', t') =>
    res = TEE_SUCCESS /\ (exists rg', ring_params ps' rg') /\ in_phase sp cfg cf ph t').
Proof.
  intros Ht Es Ec Ecf Hcn Hh (p0 & p1 & p2 & rest & -> & Hq1' & Hq2') Hph Hop. unfold with_rings.
  rewrite (param_ring_ok _ 1 p1 rg.1), ok_bind, (param_ring_ok _ 2 p2 rg.2), ok_bind by done. cbn [sess_ptr set_rxtx_buffers]. rewrite Ec. cbn [deref]. rewrite !ok_bind.
  change (negb (0 =? 0)) with false. cbv iota. replace (rg.1, rg.2) with rg by (by destruct rg). apply defined_bind.
  eapply defined_mono; [|apply Hop; [|done]].
  - intros [ret t1] ([rx tx] & [Hrx Htx] & Ht1 & c1 & Es1 & Ec1 & Ecf1 & Hcn1 & Hh1 & Er1).
    destruct (put_param_ring_ok (p0 <| value_a := u32 ret |> :: p1 :: p2 :: rest) 1 p1 rg.1 rx) as (q1 & E1 & Hq1); [done..|].
    destruct (put_param_ring_ok (p0 <| value_a := u32 ret |> :: q1 :: p2 :: rest) 2 p2 rg.2 tx) as (q2 & E2 & Hq2); [done..|].
    change (aget (p0 :: p1 :: p2 :: rest) 0) with (Ok p0). rewrite ok_bind, aset_ok, ok_bind by (cbn; lia). cbn [deref]. rewrite ok_bind.
    rewrite Ec1. cbn [deref]. rewrite !ok_bind, Er1. cbn [deref]. rewrite ok_bind.
    change (<[Z.to_nat 0:=_]> _) with (p0 <| value_a := u32 ret |> :: p1 :: p2 :: rest). rewrite E1, aset_ok by (cbn; lia). rewrite ok_bind. change (<[Z.to_nat 1:=_]> _) with (p0 <| value_a := u32 ret |> :: q1 :: p2 :: rest).
    rewrite E2, aset_ok by (cbn; lia). rewrite ok_bind. cbn [clear_rxtx_buffers]. rewrite Ec1. cbn [deref]. rewrite !ok_bind. split; [done|].
    split; [by exists (rx, tx), (p0 <| value_a := u32 ret |>), q1, q2, rest|]. split; [by destruct Ht1|].
    destruct Hph as [->| ->]; exists p, (c1 <| cl_rxtx := None |>); cbn; rewrite lookup_insert_eq; by split_and!.
  - split; [by destruct Ht|]. exists (c <| cl_rxtx := Some rg |>). cbn. rewrite lookup_insert_eq. by destruct Hph as [->| ->]; split_and!.
Qed.

(** ** The other commands *)

#[local] Abbreviation cli p := (mk_sess BSTGW_WEBSTUB_CLIENT_SESSION p).

(** The phase after a command that succeeded, and after a failed one. *)
Definition after (sp cfg : positive) (cf : CONF) (ph : phase) (may_fail : bool) (r : Z * list tee_param * ta CONF SSL P) : Prop :=
  let '(res, _, t) := r in in_phase sp cfg cf (if res =? TEE_SUCCESS then ph else Gone) t /\ (may_fail = false -> res = TEE_SUCCESS).

Lemma init_tls_spec sp cfg cf ps t :
  in_phase sp cfg cf Opened t -> defined (plain_cmd ps (cmd_init_tls_client sp (cli None) t)) (after sp cfg cf TlsUp true).
Proof.
  intros [[Hs (v & Ev & Ecf) Ha Hp] Es]. unfold webapps_ok in Ha. unfold plain_cmd, cmd_init_tls_client. rewrite Hs. cbn [deref]. rewrite ok_bind. cbn [sw_init_tls_cli].
  destruct (ask (ta_hp t)) as [a h] eqn:E1. assert (Hb1 : blocks h = blocks (ta_hp t)) by (unfold ask in E1; by injection E1 as <- <-).
  destruct a as [junk|].
  - destruct (ask h) as [a2 h2] eqn:E2. assert (Hb2 : blocks h2 = blocks (ta_hp t)) by (unfold ask in E2; injection E2 as <- <-; exact Hb1).
    cbn [servers upd]. rewrite Ev. cbn [deref]. rewrite ok_bind. unfold sw_init_mbedtls_cli. destruct (ssl_setup (srv_conf v) a2) as [ret x] eqn:Ex.
    destruct (ret =? 0) eqn:Er; cbn [negb]; rewrite !ok_bind; cbn; rewrite ?ok_bind; cbn.
    + apply Z.eqb_eq in Er as ->. split; [|done]. split; [split; cbn; unfold webapps_ok; rewrite ?Hb2; eauto|]. exists (next_addr t). eexists.
      cbn. rewrite !lookup_insert_eq. split; [done|]. split; [done|]. split; [done|]. split; [|done]. split; [|cbn [cl_buffer]; by rewrite length_fmap, length_seq].
      intros rg. rewrite <- Ecf. by apply (cn_setup Hconn _ a2).
    + split; [|done]. split; [split; cbn; unfold webapps_ok; rewrite ?Hb2; eauto|]. eexists. cbn. by rewrite lookup_insert_eq.
  - rewrite !ok_bind. cbn. split; [|done]. split; [split; cbn; unfold webapps_ok; rewrite ?Hb1; eauto|]. eexists. cbn. by rewrite lookup_insert_eq.
Qed.

Lemma init_http_spec sp cfg cf ps p t :
  in_phase sp cfg cf TlsUp t -> sessions t !! sp = Some (cli p) -> defined (plain_cmd ps (cmd_init_http_cli (cli p) t)) (after sp cfg cf HttpUp false).
Proof.
  intros [[Hs Hc Ha Hp] (p' & c & Es & Ec & Ecf & Hcn & Hh)] Es'. rewrite Es in Es'. injection Es' as <-.
  unfold plain_cmd, cmd_init_http_cli. cbn [sess_ptr sw_init_http_cli]. rewrite Ec. cbn [deref]. rewrite !ok_bind. cbn.
  split; [|done]. split; [by split|]. exists p'. eexists. cbn. rewrite lookup_insert_eq. split; [done|]. split; [done|]. split; [done|]. split; [done|].
  exists (mk_http 0 false None), []. split; [done|]. split; [unfold HTTP_BUFFER_SIZE; cbn; lia|]. split; [done|constructor..].
Qed.

Lemma fini_tls_spec sp cfg cf ps p c t :
  ta_ok cfg cf t -> sessions t !! sp = Some (cli (Some p)) -> clients t !! p = Some c -> defined (plain_cmd ps (cmd_fini_tls_client (cli (Some p)) t)) (after sp cfg cf Gone false).
Proof.
  intros [Hs Hc Ha Hp] Es Ec. unfold plain_cmd, cmd_fini_tls_client. cbn [sess_ptr sw_fini_tls_cli]. rewrite Ec. cbn [deref]. rewrite !ok_bind. cbn.
  split; [|done]. split; [by split|]. by exists (Some p).
Qed.

(** The queue holds at most one chunk. *)
Lemma fini_http_spec sp cfg cf ps p c hc l t :
  in_phase sp cfg cf HttpUp t -> sessions t !! sp = Some (cli (Some p)) -> clients t !! p = Some c -> cl_http c = Some hc ->
  qwf (ta_hp t) (ta_apps t) (http_resp hc) l -> (length l <= 1)%nat ->
  defined (plain_cmd ps (cmd_fini_http_cli (cli (Some p)) t)) (after sp cfg cf HttpDown false).
Proof.
  intros [[Hs Hc Ha Hp] (p' & c' & Es & Ec & Ecf & Hcn & _)] Es' Ec' Eh [Hq _ Hck _] Hl. rewrite Es in Es'. injection Es' as ->. rewrite Ec in Ec'. injection Ec' as ->.
  unfold plain_cmd, cmd_fini_http_cli. cbn [sess_ptr sw_fini_http_cli]. rewrite Ec. cbn [deref]. rewrite ok_bind, Eh. cbn [deref]. rewrite ok_bind.
  destruct l as [|[q d] [|]]; [| |cbn in Hl; lia].
  - cbn in Hq. rewrite Hq. cbn. split; [|done]. split; [by split|]. by exists p, c.
  - destruct Hq as (-> & nx & Eq & ->). apply Forall_cons in Hck as [Hd _]. cbn [snd] in Hd.
    rewrite (free_one _ (ta_apps t) q (d <| rc_next := None |>)) by (done || (destruct Hd; by split)). rewrite !ok_bind. cbn.
    split; [|done]. split; [|by exists p, c]. split; unfold webapps_ok; cbn; try done. intros p1 Hin. destruct (Ha p1 Hin) as (b & u & Eb & ?). exists b, u. split; [|done].
    replace (owns (d <| rc_next := None |>)) with (owns d) by done. destruct (owns d) as [b1|] eqn:Eo; [|done]. rewrite lookup_delete_ne; [done|]. intros ->.
    destruct Hd as [_ Hd]. unfold owns in Eo. destruct (take_ownership d) eqn:Et; [|done]. destruct (rc_buf d) as [[]|]; try done. injection Eo as ->.
    destruct Hd as [_ Hd]. symmetry in Hd. apply negb_true_iff, bool_decide_eq_false in Hd. done.
Qed.

(** ** The protocol is safe *)

Lemma phase_client sp cfg cf ph t :
  in_phase sp cfg cf ph t -> ph = TlsUp \/ ph = HttpUp \/ ph = HttpDown ->
  ta_ok cfg cf t /\ exists p c, sessions t !! sp = Some (cli (Some p)) /\ clients t !! p = Some c /\ cl_config c = cfg /\ conn_ok cf c /\ http_ok ph c t /\
    client_of sp t = Some c.
Proof.
  intros [Ht Hp] Hph. split; [done|].
  assert (exists p c, sessions t !! sp = Some (cli (Some p)) /\ clients t !! p = Some c /\ cl_config c = cfg /\ conn_ok cf c /\ http_ok ph c t)
    as (p & c & Es & Ec & ?) by (by destruct Hph as [->|[->| ->]]).
  exists p, c. split_and!; try tauto. unfold client_of. by rewrite Es.
Qed.

Lemma ring_check_ok ps rg cmd : is_ring_cmd cmd = true -> ring_params ps rg -> ringbuffer_param_check (types_of cmd) ps = Ok TEE_SUCCESS.
Proof.
  intros Hc (p0 & p1 & p2 & rest & -> & (b1 & E1 & Hs1 & Hl1 & _) & (b2 & E2 & Hs2 & Hl2 & _)). unfold ringbuffer_param_check, types_of. rewrite Hc.
  rewrite Z.eqb_refl. cbn [negb]. change (aget (p0 :: p1 :: p2 :: rest) 1) with (Ok p1). change (aget (p0 :: p1 :: p2 :: rest) 2) with (Ok p2). rewrite !ok_bind.
  rewrite E1, E2, Hs1, Hs2. rewrite !(bool_decide_eq_false_2 (Some _ = None)) by done.
  by rewrite (proj2 (Z.ltb_ge (Z.of_nat (length b1)) SIZEOF_SW_BUFF)), (proj2 (Z.ltb_ge (Z.of_nat (length b2)) SIZEOF_SW_BUFF)).
Qed.

(** A handshake step or a request, from the entry point on. *)
Lemma ring_cmd_spec sp cfg cf ph cmd fuel ps rg t :
  in_phase sp cfg cf ph t -> proto ph cmd = Some ph -> is_ring_cmd cmd = true -> ring_params ps rg ->
  (cmd = BSTGW_TA_WEB_STUB_CMD_PROCESS_REQUEST -> forall c, client_of sp t = Some c ->
      ~ is_master (enter c t) /\ (3 * tls_left rg (cl_ssl c) + 2 * Z.to_nat HTTP_BUFFER_SIZE + 1 < fuel)%nat) ->
  defined (TA_InvokeCommandEntryPoint fuel (Some sp) cmd (types_of cmd) ps t) (fun '(res, ps', t') =>
    res = TEE_SUCCESS /\ (exists rg', ring_params ps' rg') /\ in_phase sp cfg cf ph t').
Proof.
  intros Hin Hpr Hc Hps Hf. assert (Hrg : rings_ok rg) by (destruct Hps as (? & ? & ? & ? & _ & (? & _ & _ & _ & _ & ?) & (? & _ & _ & _ & _ & ?)); done).
  assert (Hph : ph = TlsUp /\ cmd = BSTGW_TA_WEB_STUB_CMD_DO_HANDSHAKE \/ ph = HttpUp /\ cmd = BSTGW_TA_WEB_STUB_CMD_PROCESS_REQUEST).
  { destruct ph; cbn [proto] in Hpr; repeat case_match; simplify_eq; auto.
    - left. split; [done|by apply Z.eqb_eq].
    - right. split; [done|by apply Z.eqb_eq]. }
  destruct (phase_client sp cfg cf ph t Hin) as (Ht & p & c & Es & Ec & Ecf & Hcn & Hh & Hof); [destruct Hph as [[-> _]|[-> _]]; auto|].
  unfold TA_InvokeCommandEntryPoint. rewrite Es. cbn [deref]. rewrite ok_bind. destruct Hph as [[-> ->]|[-> ->]].
  - change (defined (cmd_do_handshake (cli (Some p)) (types_of BSTGW_TA_WEB_STUB_CMD_DO_HANDSHAKE) ps t)
      (fun '(res, ps', t') => res = TEE_SUCCESS /\ (exists rg', ring_params ps' rg') /\ in_phase sp cfg cf TlsUp t')).
    unfold cmd_do_handshake. rewrite (ring_check_ok ps rg), ok_bind by done. change (negb (TEE_SUCCESS =? TEE_SUCCESS)) with false. cbv iota.
    apply (with_rings_spec sp cfg cf TlsUp p c ps rg); auto. intros t' Hr ->. apply (handshake_ready sp cfg cf TlsUp rg); auto.
  - change (defined (cmd_process_request fuel (cli (Some p)) (types_of BSTGW_TA_WEB_STUB_CMD_PROCESS_REQUEST) ps t)
      (fun '(res, ps', t') => res = TEE_SUCCESS /\ (exists rg', ring_params ps' rg') /\ in_phase sp cfg cf HttpUp t')).
    unfold cmd_process_request. rewrite (ring_check_ok ps rg), ok_bind by done. change (negb (TEE_SUCCESS =? TEE_SUCCESS)) with false. cbv iota.
    apply (with_rings_spec sp cfg cf HttpUp p c ps rg); auto. intros t' Hr Et'. apply (read_ready sp cfg cf rg); [done|done|]. intros c' Ec'.
    subst t'. cbn in Ec'. rewrite lookup_insert_eq in Ec'. injection Ec' as <-. destruct (Hf eq_refl c Hof) as [Hm Hfu]. split; [exact Hm|exact Hfu].
Qed.

Lemma session_step sp cfg cf ph ph' cmd fuel ps t :
  in_phase sp cfg cf ph t -> proto ph cmd = Some ph' -> call_ok sp cmd fuel ps t ->
  defined (TA_InvokeCommandEntryPoint fuel (Some sp) cmd (types_of cmd) ps t) (fun '(res, ps', t') =>
    in_phase sp cfg cf (if res =? TEE_SUCCESS then ph' else Gone) t' /\
    (cmd <> BSTGW_TA_WEB_STUB_CMD_INIT_TLS_CLIENT -> res = TEE_SUCCESS) /\
    (is_ring_cmd cmd = true -> exists rg', ring_params ps' rg')).
Proof.
  intros Hin Hpr [Hrings Hfini]. destruct (is_ring_cmd cmd) eqn:Hc.
  - destruct (Hrings eq_refl) as (rg & Hps & Hf). assert (ph' = ph) as -> by (destruct ph; cbn [proto] in Hpr; repeat case_match; simplify_eq; try done; exfalso;
      unfold is_ring_cmd in Hc; match goal with E : (cmd =? _) = true |- _ => apply Z.eqb_eq in E as -> end; done).
    eapply defined_mono; [|by apply (ring_cmd_spec sp cfg cf ph cmd fuel ps rg)]. by intros [[res ps'] t'] (-> & Hr & Hin').
  - eapply (defined_mono _ (after sp cfg cf ph' (cmd =? BSTGW_TA_WEB_STUB_CMD_INIT_TLS_CLIENT))); [intros [[res ps'] t'] [? Hf]; split; [done|]; split; [|done]; intros Hn; by apply Hf, Z.eqb_neq|]. unfold TA_InvokeCommandEntryPoint.
    assert (Hcases : ph = Opened /\ cmd = BSTGW_TA_WEB_STUB_CMD_INIT_TLS_CLIENT /\ ph' = TlsUp \/ ph = TlsUp /\ cmd = BSTGW_TA_WEB_STUB_CMD_INIT_HTTP_CLI /\ ph' = HttpUp \/
      (ph = TlsUp \/ ph = HttpDown) /\ cmd = BSTGW_TA_WEB_STUB_CMD_FINI_TLS_CLIENT /\ ph' = Gone \/ ph = HttpUp /\ cmd = BSTGW_TA_WEB_STUB_CMD_FINI_HTTP_CLI /\ ph' = HttpDown).
    { unfold is_ring_cmd in Hc. apply orb_false_iff in Hc as [Hc1 Hc2]. destruct ph; cbn [proto] in Hpr; rewrite ?Hc1, ?Hc2 in Hpr; repeat case_match; simplify_eq;
        match goal with E : (cmd =? _) = true |- _ => apply Z.eqb_eq in E as -> end; tauto. }
    destruct Hcases as [(-> & -> & ->)|[(-> & -> & ->)|[(Hph & -> & ->)|(-> & -> & ->)]]].
    + pose proof Hin as [_ Es]. rewrite Es. by apply init_tls_spec.
    + pose proof Hin as (_ & p & c & Es & _). rewrite Es. by apply init_http_spec.
    + destruct (phase_client sp cfg cf ph t Hin) as (Ht & p & c & Es & Ec & _); [tauto|]. rewrite Es. by apply (fini_tls_spec sp cfg cf ps p c).
    + destruct (phase_client sp cfg cf HttpUp t Hin) as (Ht & p & c & Es & Ec & _ & _ & (hc & l & Eh & _ & Hq) & Hof); [tauto|]. rewrite Es.
      apply (fini_http_spec sp cfg cf ps p c hc l); try done. by apply (Hfini eq_refl c hc l).
Qed.


(** ** Outside of the protocol *)

Lemma fini_tls_frees fuel sp ps ps' t t' :
  TA_InvokeCommandEntryPoint fuel (Some sp) BSTGW_TA_WEB_STUB_CMD_FINI_TLS_CLIENT (types_of BSTGW_TA_WEB_STUB_CMD_FINI_TLS_CLIENT) ps t = Ok (TEE_SUCCESS, ps', t') ->
  exists p, sessions t' !! sp = Some (cli (Some p)) /\ clients t' !! p = None.
Proof.
  intros E. apply bind_ok in E as ([ty q] & Es & E). destruct (sessions t !! sp) as [se|] eqn:Ese; [injection Es as ->|done].
  change ((if negb (ty =? BSTGW_WEBSTUB_CLIENT_SESSION) then Ok (TEE_ERROR_ACCESS_DENIED, ps, t) else plain_cmd ps (cmd_fini_tls_client (mk_sess ty q) t))
    = Ok (TEE_SUCCESS, ps', t')) in E.
  destruct (ty =? BSTGW_WEBSTUB_CLIENT_SESSION) eqn:Et; [apply Z.eqb_eq in Et as ->|done]. cbn [negb] in E. unfold plain_cmd, cmd_fini_tls_client in E.
  destruct q as [q|]; [|done]. cbn [sess_ptr sw_fini_tls_cli] in E. destruct (clients t !! q); [|done]. cbn in E. injection E as <- <-.
  exists q. split; [exact Ese|]. cbn. by rewrite lookup_delete_eq.
Qed.

(** C36. Nothing remembers that a client was freed: once a session's client
    has been freed, every further client command of that session with valid
    parameters (freeing it again, setting up or freeing its HTTP part, a
    handshake step, a request) works on freed memory.  The normal world
    chooses the order of the commands. *)
Theorem fini_client_dangles fuel fuel' sp cmd ps ps' ps2 t t' :
  TA_InvokeCommandEntryPoint fuel (Some sp) BSTGW_TA_WEB_STUB_CMD_FINI_TLS_CLIENT (types_of BSTGW_TA_WEB_STUB_CMD_FINI_TLS_CLIENT) ps t = Ok (TEE_SUCCESS, ps', t') ->
  cmd ∈ [BSTGW_TA_WEB_STUB_CMD_FINI_TLS_CLIENT; BSTGW_TA_WEB_STUB_CMD_INIT_HTTP_CLI; BSTGW_TA_WEB_STUB_CMD_FINI_HTTP_CLI;
         BSTGW_TA_WEB_STUB_CMD_DO_HANDSHAKE; BSTGW_TA_WEB_STUB_CMD_PROCESS_REQUEST] ->
  (is_ring_cmd cmd = true -> exists rg, ring_params ps2 rg) ->
  TA_InvokeCommandEntryPoint fuel' (Some sp) cmd (types_of cmd) ps2 t' = Undef.
Proof.
  intros (p & Es & Ec)%fini_tls_frees Hcmd Hps. unfold TA_InvokeCommandEntryPoint. rewrite Es. cbn [deref]. rewrite ok_bind.
  assert (Hring : is_ring_cmd cmd = true -> forall op, (r ← ringbuffer_param_check (types_of cmd) ps2;
    if negb (r =? TEE_SUCCESS) then Ok (r, ps2, t') else with_rings op (cli (Some p)) ps2 t') = Undef).
  { intros Hr op. destruct (Hps Hr) as [rg Hrg]. rewrite (ring_check_ok ps2 rg), ok_bind by done. destruct Hrg as (p0 & p1 & p2 & rest & -> & Hp1 & Hp2).
    change (negb (TEE_SUCCESS =? TEE_SUCCESS)) with false. cbv iota. unfold with_rings. rewrite (param_ring_ok _ 1 p1 rg.1), ok_bind, (param_ring_ok _ 2 p2 rg.2), ok_bind by done.
    cbn [sess_ptr set_rxtx_buffers]. by rewrite Ec. }
  repeat (apply elem_of_cons in Hcmd as [->|Hcmd]); [..|by apply elem_of_nil in Hcmd].
  - cbn -[types_of]. by rewrite Ec.
  - cbn -[types_of]. by rewrite Ec.
  - cbn -[types_of]. by rewrite Ec.
  - by apply (Hring eq_refl handshake_cli).
  - by apply (Hring eq_refl (read_https_cli fuel')).
Qed.

(** Loading a web app never succeeds: what is not refused writes its
    terminator outside of the variable it is meant for. *)
Lemma webapp_never_loaded fuel sp pt ps t ps' t' :
  TA_InvokeCommandEntryPoint fuel sp BSTGW_TA_WEB_STUB_CMD_LOAD_WEBAPP_FILE pt ps t <> Ok (TEE_SUCCESS, ps', t').
Proof.
  destruct sp as [sp|]; [|done]. intros E. apply bind_ok in E as (se & _ & E).
  change ((if negb (sess_type se =? BSTGW_WEBSTUB_SERVER_SESSION) then Ok (TEE_ERROR_ACCESS_DENIED, ps, t) else plain_cmd ps (cmd_load_webapp_file pt ps t))
    = Ok (TEE_SUCCESS, ps', t')) in E.
  case_match; [done|]. apply bind_ok in E as ([res t1] & E & [= -> _ _]). unfold cmd_load_webapp_file in E. case_match; [done|].
  apply bind_ok in E as (p0 & _ & E). apply bind_ok in E as (p1 & _ & E). apply bind_ok in E as (p2 & _ & E). apply bind_ok in E as ([r t2] & E & Er).
  destruct (r =? 0) eqn:E0; [apply Z.eqb_eq in E0 as ->|done]. clear Er. unfold sw_init_webapp_file in E.
  destruct (memref_buffer p0), (memref_buffer p2); try done. destruct (memref_size p0 =? 0) eqn:El; [done|]. apply Z.eqb_neq in El.
  destruct (app_storage _ _) as [[[] store]|]; try done. destruct (malloc _ _) as [[a|] h]; [|done].
  apply bind_ok in E as (d & Ed & E). apply bind_ok in E as (m & _ & E). apply bind_ok in E as (m' & _ & E). apply bind_ok in E as (st & Est & _).
  apply mem_read_inv in Ed as (? & ? & _). unfold aset in Est. cbn [length] in Est. destruct (_ || _) eqn:Eo; [done|]. apply orb_false_iff in Eo as [_ Eo%Z.leb_gt]. lia.
Qed.

End protocol.

(** ** Examples *)

Definition ex_server : MbedServer unit unit unit := {|
  mbedtls_test_srv_crt := []; mbedtls_test_cas_pem := []; mbedtls_test_srv_key := [];
  x509_chain_parse _ := (0, tt); pk_parse_key _ := (0, tt); ctr_drbg_seed _ _ := 0; ssl_config_init := tt;
  ssl_config_defaults _ _ _ _ := (0, tt); ssl_conf_rng _ := tt; ssl_conf_ca_chain _ _ := tt; ssl_conf_own_cert _ _ _ := (0, tt);
  ssl_conf_authmode _ _ := tt |}.

#[local] Existing Instances ex_mbedtls ex_parser ex_tee ex_server.

Definition ex_ring : sw_buff_t := mk_sw_buff (replicate 2048 0) 0 0 0.

Definition ex_params : list tee_param :=
  let q := mk_param 0 (Some (ring_bytes ex_ring)) 2060 in [mk_param 0 None 0; q; q; mk_param 0 None 0].

(** A server; session 2 with client 3, whose HTTP part is set up and who has
    sent two bytes. *)
Definition ex_ta : ta unit ex_ssl Z :=
  mk_ta (Some (Some 1%positive)) {[ 2%positive := mk_sess BSTGW_WEBSTUB_CLIENT_SESSION (Some 3%positive) ]} {[ 1%positive := mk_srv tt true ]}
    {[ 3%positive := mk_cli 1%positive (mk_ex_ssl [71; 71] [] MBEDTLS_X509_BADCERT_MISSING None) None (replicate 4096 0) (Some (mk_http 0 false None)) ]}
    4 1 ex_heap None [] None None None None 0.

#[local] Abbreviation ex_inv := (fun (_ : unit) (rg : rings) (_ : ex_ssl) => rings_ok rg).
#[local] Abbreviation ex_left := (fun (_ : rings) (x : ex_ssl) => length (ex_in x)).

Lemma ex_closed_rings : ex_closed (fun rg _ => rings_ok rg).
Proof. by intros ? ? ?. Qed.

Lemma ex_conn_laws : conn_laws ex_inv.
Proof. by split. Qed.

Lemma ex_ring_ok : ring_ok ex_ring.
Proof. split; [split; cbn; unfold SW_BUFFER_SIZE; try lia; by rewrite ?length_replicate|cbn; unfold MAX_U32; lia]. Qed.

Lemma ex_ring_params : ring_params ex_params (ex_ring, ex_ring).
Proof.
  exists (mk_param 0 None 0), (mk_param 0 (Some (ring_bytes ex_ring)) 2060), (mk_param 0 (Some (ring_bytes ex_ring)) 2060), [mk_param 0 None 0].
  assert (ring_param (mk_param 0 (Some (ring_bytes ex_ring)) 2060) ex_ring); [|done].
  exists (ring_bytes ex_ring). split; [done|]. split; [by vm_compute|]. split; [by vm_compute|]. split; [by vm_compute|apply ex_ring_ok].
Qed.

Lemma ex_ta_phase : in_phase ex_inv (fun _ => True) 2 1 tt HttpUp ex_ta.
Proof.
  split.
  - split; [done|by exists (mk_srv tt true)| |done]. intros p Hp. by apply elem_of_nil in Hp.
  - exists 3%positive. eexists. split; [done|]. split; [done|]. split; [done|]. split; [split; [done|by cbn [cl_buffer]; rewrite length_replicate]|].
    exists (mk_http 0 false None), []. split; [done|]. split; [split; vm_compute; discriminate|]. split; [done|constructor..].
Qed.


(** Freeing the client a second time. *)
Lemma fini_client_dangles_witness :
  exists t', TA_InvokeCommandEntryPoint 0 (Some 2%positive) BSTGW_TA_WEB_STUB_CMD_FINI_TLS_CLIENT (types_of BSTGW_TA_WEB_STUB_CMD_FINI_TLS_CLIENT) [] ex_ta = Ok (TEE_SUCCESS, [], t') /\
    TA_InvokeCommandEntryPoint 0 (Some 2%positive) BSTGW_TA_WEB_STUB_CMD_FINI_TLS_CLIENT (types_of BSTGW_TA_WEB_STUB_CMD_FINI_TLS_CLIENT) [] t' = Undef.
Proof.
  eexists. split; [reflexivity|]. eapply (fini_client_dangles 0 0 2 BSTGW_TA_WEB_STUB_CMD_FINI_TLS_CLIENT [] [] [] ex_ta); [reflexivity|left|discriminate].
Defined.
