(* ===== verification/ConfigHost.v ===== *)
(** * The host application of the ConfigService (configservice/host/client.c,
    server.c, shm_rb.c and webapp_loading.c).

    The normal world accepts a connection, opens a client session with the
    TA, and moves bytes between the socket and the rings it shares with the
    TA, as the TA's return values ask for it.  One connection is served at a
    time.  A call of the TEE client library is a call of the TA's entry
    point; sockets and files are interfaces. *)

From stdpp Require Import strings.
From S2P Require Import Prelude Ringbuf RespQueue Router Pta Https HttpsAuth HttpsSafe WebStub WebProtocol.

(** ** Interfaces *)

(** A connected socket: [send] returns the number of bytes taken (or an
    error), [recv] that and the bytes. *)
Class Socket (S : Type) := {
  sock_send : list Z -> S -> Z * S;
  sock_recv : Z -> S -> Z * list Z * S
}.

(** What the host's own allocations and the set-up calls of the TEE client
    library do, and what the rings hold when they are allocated. *)
Record host_env := mk_host_env {
  he_malloc : bool;
  he_context : bool;
  he_shm_rx : option sw_buff_t;
  he_shm_tx : option sw_buff_t;
  he_thread : bool
}.

(** ** State *)

(** A connection, with the TA it talks to. *)
Record bstgw_http_conn (CONF SSL P S : Type) := mk_conn {
  nw_ta : ta CONF SSL P;
  nw_sess : option positive;
  rx_buffer : sw_buff_t;
  tx_buffer : sw_buff_t;
  cli_fd : S
}.
Arguments mk_conn {CONF SSL P S}. Arguments nw_ta {CONF SSL P S}. Arguments nw_sess {CONF SSL P S}. Arguments rx_buffer {CONF SSL P S}.
Arguments tx_buffer {CONF SSL P S}. Arguments cli_fd {CONF SSL P S}.
#[global] Instance eta_conn {CONF SSL P S} : Settable (bstgw_http_conn CONF SSL P S) :=
  fun c => mk_conn (nw_ta c) (nw_sess c) (rx_buffer c) (tx_buffer c) (cli_fd c).

(** ** Rings in shared memory *)

Definition init_shm_rb (shm : option sw_buff_t) : option sw_buff_t := init_sw_buffer <$> shm.

(** A whole shared memory block as a parameter. *)
Definition shm_param (r : sw_buff_t) : tee_param := mk_param 0 (Some (ring_bytes r)) SIZEOF_SW_BUFF.

(** ** The client *)

Section host.
Context {CONF SSL P CHAIN PK S : Type} `{MbedTLS CONF SSL} `{MbedServer CONF CHAIN PK} `{TeeClient P} `{HttpParser} `{Socket S}.
Implicit Types t : ta CONF SSL P.
Implicit Types c : bstgw_http_conn CONF SSL P S.

(** The fuel of the TA for one request. *)
Context (ta_fuel : nat).

(** A command without parameters: whether it succeeded. *)
Definition invoke_plain (sess : option positive) (cmd : Z) t : outcome (bool * ta CONF SSL P) :=
  '(res, _, t) ← TA_InvokeCommandEntryPoint ta_fuel sess cmd
                   (TEE_PARAM_TYPES TEE_PARAM_TYPE_NONE TEE_PARAM_TYPE_NONE TEE_PARAM_TYPE_NONE TEE_PARAM_TYPE_NONE)
                   [zero_param; zero_param; zero_param; zero_param] t;
  Ok (res =? TEE_SUCCESS, t).

(** Opening a session: the session, if it succeeded. *)
Definition teec_open_session (type : Z) t : outcome (option (option positive) * ta CONF SSL P) :=
  '(res, sess, t) ← TA_OpenSessionEntryPoint
                      (TEE_PARAM_TYPES TEE_PARAM_TYPE_VALUE_INPUT TEE_PARAM_TYPE_NONE TEE_PARAM_TYPE_NONE TEE_PARAM_TYPE_NONE)
                      [mk_param type None 0; zero_param; zero_param; zero_param] t;
  Ok (if res =? TEE_SUCCESS then Some sess else None, t).

(** The connection (or NULL), and the TA. *)
Definition nw_init_tls_client (e : host_env) (fd : S) t : outcome (option (bstgw_http_conn CONF SSL P S) * ta CONF SSL P) :=
  if negb (he_malloc e) then Ok (None, t) else
  if negb (he_context e) then Ok (None, t) else
  match init_shm_rb (he_shm_rx e), init_shm_rb (he_shm_tx e) with
  | Some rx, Some tx =>
      '(sess, t) ← teec_open_session BSTGW_WEBSTUB_CLIENT_SESSION t;
      match sess with
      | None => Ok (None, t)
      | Some sess =>
          '(ok, t) ← invoke_plain sess BSTGW_TA_WEB_STUB_CMD_INIT_TLS_CLIENT t;
          if negb ok then t ← TA_CloseSessionEntryPoint sess t; Ok (None, t)
          else Ok (Some (mk_conn t sess rx tx fd), t)
      end
  | _, _ => Ok (None, t)
  end.

(** What it returns is freed; the TA is what is left. *)
Definition nw_fini_tls_client c : outcome (ta CONF SSL P) :=
  '(_, t) ← invoke_plain (nw_sess c) BSTGW_TA_WEB_STUB_CMD_FINI_TLS_CLIENT (nw_ta c);
  TA_CloseSessionEntryPoint (nw_sess c) t.

(** The loop that sends [p]; a value it returns with early. *)
Fixpoint send_loop (fuel : nat) (p : list Z) (fd : S) : option Z * S :=
  match p, fuel with
  | [], _ | _, O => (None, fd)
  | _, Datatypes.S fuel' =>
      let '(nsent, fd) := sock_send p fd in
      if nsent <=? 0 then (Some nsent, fd) else send_loop fuel' (drop (Z.to_nat nsent) p) fd
  end.

Definition nw_flush_tx_data c : outcome (Z * bstgw_http_conn CONF SSL P S) :=
  let dataleft := dataleft_sw_buffer (tx_buffer c) in
  let blen := if dataleft <? 2048 then dataleft else 2048 in
  c_assert (dataleft <=? blen);;
  c_assert (0 <? dataleft);;
  '(buf, tx) ← get_sw_buffer (tx_buffer c) blen;
  let c := c <| tx_buffer := tx |> in
  let ret := Z.of_nat (length buf) in
  if negb (ret =? blen) then Ok (-1, c) else
  let '(early, fd) := send_loop (length buf) buf (cli_fd c) in
  Ok (default ret early, c <| cli_fd := fd |>).

Definition nw_push_rx_data c : outcome (Z * bstgw_http_conn CONF SSL P S) :=
  let spaceleft := spaceleft_sw_buffer (rx_buffer c) in
  let blen := if spaceleft <? 1500 then spaceleft else 1500 in
  c_assert (0 <? spaceleft);;
  let '(nread, buf, fd) := sock_recv blen (cli_fd c) in
  let c := c <| cli_fd := fd |> in
  if nread <=? 0 then Ok (nread, c) else
  '(ret, rx) ← put_sw_buffer (rx_buffer c) buf nread;
  let c := c <| rx_buffer := rx |> in
  if negb (ret =? nread) then Ok (-1, c) else Ok (ret, c).

Definition call_sw_process_runtime (cmd_id : Z) c : outcome (Z * bstgw_http_conn CONF SSL P S) :=
  '(tee_ret, ps, t) ← TA_InvokeCommandEntryPoint ta_fuel (nw_sess c) cmd_id
    (TEE_PARAM_TYPES TEE_PARAM_TYPE_VALUE_OUTPUT TEE_PARAM_TYPE_MEMREF_INOUT TEE_PARAM_TYPE_MEMREF_INOUT TEE_PARAM_TYPE_NONE)
    [zero_param; shm_param (rx_buffer c); shm_param (tx_buffer c); zero_param] (nw_ta c);
  rx ← param_ring ps 1;
  tx ← param_ring ps 2;
  let c := c <| nw_ta := t |> <| rx_buffer := rx |> <| tx_buffer := tx |> in
  if negb (tee_ret =? TEE_SUCCESS) then Ok (-0x4711, c) else
  p0 ← aget ps 0;
  Ok (i32 (value_a p0), c).

(** The loops: no value when [fuel] rounds have not ended them. *)
Fixpoint nw_do_handshake_cli (fuel : nat) c : outcome (option Z * bstgw_http_conn CONF SSL P S) :=
  match fuel with
  | O => Ok (None, c)
  | Datatypes.S fuel' =>
      '(sw_ret, c) ← call_sw_process_runtime BSTGW_TA_WEB_STUB_CMD_DO_HANDSHAKE c;
      if sw_ret =? 0 then Ok (Some 0, c) else
      if (sw_ret <? 0) && negb (sw_ret =? MBEDTLS_ERR_SSL_WANT_WRITE) && negb (sw_ret =? MBEDTLS_ERR_SSL_WANT_READ) then Ok (Some (-1), c) else
      '(ret, c) ← (if 0 <? dataleft_sw_buffer (tx_buffer c) then nw_flush_tx_data c else Ok (1, c));
      if ret <=? 0 then Ok (Some (-1), c) else
      if sw_ret =? MBEDTLS_ERR_SSL_WANT_WRITE then nw_do_handshake_cli fuel' c else
      if sw_ret =? MBEDTLS_ERR_SSL_WANT_READ then
        '(ret, c) ← nw_push_rx_data c;
        if ret <=? 0 then Ok (Some (-1), c) else nw_do_handshake_cli fuel' c
      else Ok (Some (-1), c)
  end.

Fixpoint nw_process_https_requests (fuel : nat) c : outcome (option Z * bstgw_http_conn CONF SSL P S) :=
  match fuel with
  | O => Ok (None, c)
  | Datatypes.S fuel' =>
      '(sw_ret, c) ← call_sw_process_runtime BSTGW_TA_WEB_STUB_CMD_PROCESS_REQUEST c;
      if sw_ret =? 0 then Ok (Some 0, c) else
      if (sw_ret <? 0) && negb (sw_ret =? MBEDTLS_ERR_SSL_WANT_WRITE) && negb (sw_ret =? MBEDTLS_ERR_SSL_WANT_READ)
         && negb (sw_ret =? MBEDTLS_ERR_SSL_PEER_CLOSE_NOTIFY) then Ok (Some sw_ret, c) else
      '(ret, c) ← (if 0 <? dataleft_sw_buffer (tx_buffer c) then nw_flush_tx_data c else Ok (0, c));
      if ret <? 0 then Ok (Some (-1), c) else
      if sw_ret =? MBEDTLS_ERR_SSL_WANT_WRITE then nw_process_https_requests fuel' c else
      if sw_ret =? MBEDTLS_ERR_SSL_WANT_READ then
        '(ret, c) ← nw_push_rx_data c;
        if ret =? 0 then Ok (Some 0, c) else if ret <? 0 then Ok (Some (-1), c) else nw_process_https_requests fuel' c
      else if sw_ret =? MBEDTLS_ERR_SSL_PEER_CLOSE_NOTIFY then Ok (Some 0, c)
      else if sw_ret =? 1 then nw_process_https_requests fuel' c
      else Ok (Some (-1), c)
  end.

Definition nw_init_http_cli c : outcome (Z * bstgw_http_conn CONF SSL P S) :=
  '(ok, t) ← invoke_plain (nw_sess c) BSTGW_TA_WEB_STUB_CMD_INIT_HTTP_CLI (nw_ta c);
  Ok (if (ok : bool) then 0 else -1, c <| nw_ta := t |>).

Definition nw_fini_http_cli c : outcome (Z * bstgw_http_conn CONF SSL P S) :=
  '(ok, t) ← invoke_plain (nw_sess c) BSTGW_TA_WEB_STUB_CMD_FINI_HTTP_CLI (nw_ta c);
  Ok (if (ok : bool) then 0 else -1, c <| nw_ta := t |>).

(** A connection up to the end of its requests: [inl] what is returned when
    it does not get there, [inr] what the requests ended with. *)
Definition handle_requests (fuel : nat) c : outcome (option (Z + Z) * bstgw_http_conn CONF SSL P S) :=
  '(ret, c) ← nw_do_handshake_cli fuel c;
  match ret with
  | None => Ok (None, c)
  | Some ret =>
      if ret <? 0 then Ok (Some (inl (-1)), c) else
      '(ret, c) ← nw_init_http_cli c;
      if ret <? 0 then Ok (Some (inl (-1)), c) else
      '(ret, c) ← nw_process_https_requests fuel c;
      Ok (option_map inr ret, c)
  end.

Definition nw_handle_client_conn (fuel : nat) c : outcome (option Z * bstgw_http_conn CONF SSL P S) :=
  '(r, c) ← handle_requests fuel c;
  match r with
  | None => Ok (None, c)
  | Some (inl ret) => Ok (Some ret, c)
  | Some (inr _) => '(_, c) ← nw_fini_http_cli c; Ok (Some 0, c)
  end.

(** One round of the server's loop, for an accepted connection: no value when
    the connection has not ended.  When the thread cannot be created the
    connection is used after it was freed. *)
Definition serve_client (e : host_env) (fuel : nat) (fd : S) t : outcome (option (ta CONF SSL P)) :=
  '(cli, t) ← nw_init_tls_client e fd t;
  match cli with
  | None => Ok (Some t)
  | Some cli =>
      if negb (he_thread e) then _ ← nw_fini_tls_client cli; Undef else
      '(ret, cli) ← nw_handle_client_conn fuel cli;
      match ret with
      | None => Ok None
      | Some _ => t ← nw_fini_tls_client cli; Ok (Some t)
      end
  end.

(** ** The server *)

(** The server's loop, until it is told to stop: what each [accept] gives (no
    connection when it fails), with what the system does for the connection.
    [sigact]: what [sigaction] returned.  No TA when a connection has not
    ended. *)
Fixpoint listen_loop (fuel : nat) (l : list (option (host_env * S))) t : outcome (option (ta CONF SSL P)) :=
  match l with
  | [] => Ok (Some t)
  | None :: l' => listen_loop fuel l' t
  | Some (e, fd) :: l' =>
      r ← serve_client e fuel fd t;
      match r with
      | None => Ok None
      | Some t => listen_loop fuel l' t
      end
  end.

Definition nw_loop_http_listening (sigact : Z) (fuel : nat) (l : list (option (host_env * S))) t : outcome (Z * option (ta CONF SSL P)) :=
  if sigact =? 1 then Ok (-1, Some t) else
  r ← listen_loop fuel l t; Ok (0, r).

(** The contents of the four files; [None] when one cannot be read. *)
Definition bootstrap (sess : option positive) (file : option (list Z)) (type : client_type) t : outcome (Z * ta CONF SSL P) :=
  match file with
  | None | Some [] => Ok (-1, t)
  | Some buf =>
      let id := match type with USER => 0 | ADMIN => 1 | MASTER => 2 | PENDING => 3 | INVALID => 4 end in
      '(res, _, t) ← TA_InvokeCommandEntryPoint ta_fuel sess BSTGW_TA_WEB_STUB_CMD_LOAD_WEBAPP_FILE
        (TEE_PARAM_TYPES TEE_PARAM_TYPE_MEMREF_INPUT TEE_PARAM_TYPE_VALUE_INPUT TEE_PARAM_TYPE_MEMREF_INPUT TEE_PARAM_TYPE_NONE)
        [mk_param 0 (Some buf) (u32 (Z.of_nat (length buf))); mk_param id None 0; mk_param 0 (Some (bytes "0xdeadbeef")) 10; zero_param] t;
      Ok (if res =? TEE_SUCCESS then 0 else -1, t)
  end.

Definition bootstrap_webapps (sess : option positive) (files : client_type -> option (list Z)) t : outcome (Z * ta CONF SSL P) :=
  '(ret, t) ← bootstrap sess (files USER) USER t;
  if negb (ret =? 0) then Ok (-1, t) else
  '(ret, t) ← bootstrap sess (files ADMIN) ADMIN t;
  if negb (ret =? 0) then Ok (-1, t) else
  '(ret, t) ← bootstrap sess (files MASTER) MASTER t;
  if negb (ret =? 0) then Ok (-1, t) else
  '(ret, t) ← bootstrap sess (files PENDING) PENDING t;
  if negb (ret =? 0) then Ok (-1, t) else Ok (0, t).

Definition nw_fini_https_server (sess : option positive) t : outcome (ta CONF SSL P) :=
  '(_, t) ← invoke_plain sess BSTGW_TA_WEB_STUB_CMD_FINI_HTTPS_SERVER t;
  TA_CloseSessionEntryPoint sess t.

(** The session of the server (or NULL), and the TA. *)
Definition nw_init_https_server (e : host_env) (files : client_type -> option (list Z)) t : outcome (option (option positive) * ta CONF SSL P) :=
  if negb (he_malloc e) then Ok (None, t) else
  if negb (he_context e) then Ok (None, t) else
  '(sess, t) ← teec_open_session BSTGW_WEBSTUB_SERVER_SESSION t;
  match sess with
  | None => Ok (None, t)
  | Some sess =>
      '(ok, t) ← invoke_plain sess BSTGW_TA_WEB_STUB_CMD_INIT_HTTPS_SERVER t;
      if negb ok then t ← TA_CloseSessionEntryPoint sess t; Ok (None, t) else
      '(ret, t) ← bootstrap_webapps sess files t;
      if negb (ret =? 0) then t ← nw_fini_https_server sess t; Ok (None, t) else Ok (Some sess, t)
  end.

End host.
(** ** Rings stay well formed *)

Lemma get_ring_ok b len : ring_ok b -> 0 < dataleft_sw_buffer b -> 0 <= len -> exists d b', get_sw_buffer b len = Ok (d, b') /\ ring_ok b'.
Proof.
  intros [Hw Hf] Hd Hl. destruct (get_sw_buffer_takes b len Hw Hd Hl) as (b' & E & Hw' & _). exists (take (Z.to_nat (Z.min len (dataleft_sw_buffer b))) (sw_abs b)), b'.
  split; [done|]. split; [done|]. unfold get_sw_buffer in E. case_match; [done|]. case_match; [done|]. apply bind_ok in E as (out & _ & [= _ <-]). cbn.
  destruct (0 <? _); [unfold MAX_U32; lia|done].
Qed.

Lemma put_ring_ok b d len : ring_ok b -> 0 < spaceleft_sw_buffer b -> 0 <= len <= Z.of_nat (length d) ->
  exists n b', put_sw_buffer b d len = Ok (n, b') /\ ring_ok b'.
Proof.
  intros [Hw Hf] Hs Hl. assert (E0 : full b = 0).
  { destruct Hw as [_ _ _ Hfull]. unfold spaceleft_sw_buffer in Hs. destruct (full b =? 0) eqn:E; [by apply Z.eqb_eq|]. apply Z.eqb_neq in E.
    rewrite (proj2 (Z.eqb_eq _ _) (Hfull E)) in Hs. cbn in Hs. lia. }
  destruct (put_steps b d len Hw E0 Hl) as (b' & E & Hw' & _ & H1' & H2' & _). eexists _, b'. split; [exact E|]. split; [done|].
  unfold MAX_U32. destruct (Z_le_gt_dec len (spaceleft_sw_buffer b)); [rewrite H1'|rewrite H2']; lia.
Qed.

Lemma shm_ring_param r : ring_ok r -> ring_param (shm_param r) r.
Proof.
  intros Hr. assert (Hl : Z.of_nat (length (ring_bytes r)) = SIZEOF_SW_BUFF).
  { destruct Hr as [[Hl _ _ _] _]. unfold ring_bytes, SIZEOF_SW_BUFF, SW_BUFFER_SIZE in *. rewrite !length_app, !length_le_bytes. lia. }
  exists (ring_bytes r). split; [done|]. split; [by rewrite Hl|]. split; [by rewrite Hl|]. split; [|done].
  destruct (ring_roundtrip r (ring_bytes r) Hr) as (b' & Ew & _ & Er); [by rewrite Hl|]. unfold write_ring in Ew.
  rewrite mem_write_ok in Ew by lia. injection Ew as <-. unfold blit in Er. cbn [Z.to_nat] in Er.
  rewrite take_0, app_nil_l, drop_ge, app_nil_r in Er by (cbn; lia). done.
Qed.

(** ** The master's certificate is the built-in one *)

Lemma defined_ok {A} (o : outcome A) (Q R : A -> Prop) : defined o Q -> (forall a, o = Ok a -> Q a -> R a) -> defined o R.
Proof. destruct o; cbn; auto. Qed.

Section master.
Context {CONF SSL P CHAIN PK : Type} `{MbedTLS CONF SSL} `{MbedServer CONF CHAIN PK} `{TeeClient P} `{HttpParser}.
Implicit Types t : ta CONF SSL P.

Definition builtin_master : option (list Z) :=
  let '(ret, crt) := x509_crt_parse (TEST_MASTER_CERT_PEM ++ [0]) in if ret =? 0 then Some crt else None.

(** The certificate a client is compared with: the TA loads the built-in one
    when it first needs it. *)
Definition ta_master_cert t : option (list Z) := match ta_master t with Some m => Some m | None => builtin_master end.

Context (Hpeers : peer_laws (CONF := CONF) (SSL := SSL)).

Lemma handshake_master (s : hst CONF SSL P) r s' : sw_do_handshake_cli s = Ok (r, s') -> master_cert s' = master_cert s.
Proof.
  unfold sw_do_handshake_cli. intros E. apply bind_ok in E as (cf & _ & E). apply bind_ok in E as (rg & _ & E). apply bind_ok in E as ([[ret x] rg'] & _ & E).
  cbv zeta in E. destruct (ret =? 0); [|by simplify_eq]. apply bind_ok in E as ([ret1 s1] & E1 & E).
  assert (Hm1 : master_cert s1 = master_cert s).
  { destruct (_ || _); [by simplify_eq|]. destruct (_ =? -1); [apply bind_ok in E1 as (u & _ & E1); by simplify_eq|].
    destruct (_ =? MBEDTLS_X509_BADCERT_SKIP_VERIFY); [by simplify_eq|]. apply bind_ok in E1 as (s2 & E2%(tls_close_trace Hpeers) & E1).
    injection E1 as _ <-. by rewrite (tr_master _ _ E2). }
  apply bind_ok in E as ([ty s2] & [Ht _]%get_client_type_trace & E). apply bind_ok in E as (u & _ & E). injection E as _ <-.
  by rewrite (tr_master _ _ Ht).
Qed.

Lemma handshake_cli_master p t r t' : handshake_cli p t = Ok (r, t') -> ta_master_cert t' = ta_master_cert t.
Proof.
  unfold handshake_cli. destruct p as [p|]; [|by intros [= _ <-]]. intros E. apply bind_ok in E as (c & _ & E).
  apply bind_ok in E as ([ret s] & E1%handshake_master & E). injection E as _ <-. exact E1.
Qed.

Lemma read_cli_master fuel p t r t' : read_https_cli fuel p t = Ok (r, t') -> ta_master_cert t' = ta_master_cert t.
Proof.
  unfold read_https_cli. destruct p as [p|]; [|by intros [= _ <-]]. intros E. apply bind_ok in E as (c & _ & E). destruct (cl_http c) as [hc|].
  - apply bind_ok in E as ([ret s] & E1%(read_trace Hpeers) & E). injection E as _ <-. exact (tr_master _ _ E1).
  - apply bind_ok in E as ([ty s] & [E1 _]%get_client_type_trace & E). destruct (bool_decide _); [|done]. injection E as _ <-. exact (tr_master _ _ E1).
Qed.

Lemma with_rings_master op sess ps t res ps' t' :
  (forall p t1 r t2, op p t1 = Ok (r, t2) -> ta_master_cert t2 = ta_master_cert t1) ->
  with_rings op sess ps t = Ok (res, ps', t') -> ta_master_cert t' = ta_master_cert t.
Proof.
  intros Hop E. unfold with_rings in E. apply bind_ok in E as (rx & _ & E). apply bind_ok in E as (tx & _ & E).
  apply bind_ok in E as ([ret t1] & E1 & E).
  assert (Hm1 : ta_master_cert t1 = ta_master_cert t).
  { unfold set_rxtx_buffers in E1. destruct (sess_ptr sess); [|by simplify_eq]. apply bind_ok in E1 as (c & _ & E1). by simplify_eq. }
  destruct (negb _); [by simplify_eq|]. apply bind_ok in E as ([ret2 t2] & E2%Hop & E). apply bind_ok in E as (p0 & _ & E). apply bind_ok in E as (q0 & _ & E).
  apply bind_ok in E as (p & _ & E). apply bind_ok in E as (c & _ & E). apply bind_ok in E as ([rx2 tx2] & _ & E). apply bind_ok in E as (q1 & _ & E).
  apply bind_ok in E as (q2 & _ & E). apply bind_ok in E as ([ret3 t3] & E3 & E). injection E as _ _ <-. rewrite <- Hm1, <- E2.
  unfold clear_rxtx_buffers in E3. destruct (sess_ptr sess); [|by simplify_eq]. apply bind_ok in E3 as (c3 & _ & E3). by simplify_eq.
Qed.

Lemma plain_cmd_master ps (o : outcome (Z * ta CONF SSL P)) t res ps' t' :
  (forall r t1, o = Ok (r, t1) -> ta_master t1 = ta_master t) -> plain_cmd ps o = Ok (res, ps', t') -> ta_master_cert t' = ta_master_cert t.
Proof.
  intros Ho E. unfold plain_cmd in E. apply bind_ok in E as ([r t1] & E1%Ho & E). injection E as _ _ <-. unfold ta_master_cert. by rewrite E1.
Qed.

Lemma init_tls_master sp se t r t' : cmd_init_tls_client sp se t = Ok (r, t') -> ta_master t' = ta_master t.
Proof.
  unfold cmd_init_tls_client. intros E. apply bind_ok in E as (cfg & _ & E). destruct cfg as [cfg|]; [|by simplify_eq].
  apply bind_ok in E as ([[ret cl] t1] & E1 & E). assert (Hm1 : ta_master t1 = ta_master t); [|by destruct (negb _); simplify_eq].
  unfold sw_init_tls_cli in E1. destruct (ask _) as [[junk|] h]; [|by simplify_eq]. destruct (ask h) as [a2 h2]. apply bind_ok in E1 as (v & _ & E1).
  generalize dependent (junk <$> seq 0 (Z.to_nat HTTP_BUFFER_SIZE)). intros buf E1.
  destruct (sw_init_mbedtls_cli _ _); injection E1 as _ _ <-; reflexivity.
Qed.

(** No command of a client session changes it. *)
Lemma invoke_master fuel sp se cmd pt ps t res ps' t' :
  sessions t !! sp = Some se -> sess_type se = BSTGW_WEBSTUB_CLIENT_SESSION ->
  TA_InvokeCommandEntryPoint fuel (Some sp) cmd pt ps t = Ok (res, ps', t') -> ta_master_cert t' = ta_master_cert t.
Proof.
  intros Es Ht E. unfold TA_InvokeCommandEntryPoint in E. rewrite Es in E. cbn [deref] in E. rewrite ok_bind, Ht in E.
  change (negb (BSTGW_WEBSTUB_CLIENT_SESSION =? BSTGW_WEBSTUB_SERVER_SESSION)) with true in E.
  change (negb (BSTGW_WEBSTUB_CLIENT_SESSION =? BSTGW_WEBSTUB_CLIENT_SESSION)) with false in E. cbv iota in E.
  do 3 (destruct (cmd =? _); [by simplify_eq|]).
  destruct (cmd =? _); [destruct (negb _); [by simplify_eq|]; eapply plain_cmd_master; [|exact E]; intros r t1; apply init_tls_master|].
  do 3 (destruct (cmd =? _); [destruct (negb _); [by simplify_eq|]; eapply plain_cmd_master; [|exact E]; intros r t1;
    unfold cmd_fini_tls_client, cmd_init_http_cli, cmd_fini_http_cli, sw_fini_tls_cli, sw_init_http_cli, sw_fini_http_cli;
    destruct (sess_ptr se); [|by intros [= _ <-]]; intros E'; inv_ok; by simplify_eq/=|]).
  do 2 (destruct (cmd =? _); [unfold cmd_do_handshake, cmd_process_request in E; apply bind_ok in E as (ck & _ & E); destruct (negb _); [by simplify_eq|];
    eapply with_rings_master; [|exact E]; eauto using handshake_cli_master, read_cli_master|]).
  by simplify_eq.
Qed.

End master.

(** ** The host keeps the protocol *)

Section safe.
Context {CONF SSL P CHAIN PK S : Type} `{MbedTLS CONF SSL} `{MbedServer CONF CHAIN PK} `{TeeClient P} `{HttpParser} `{Socket S}.
Context (tls_inv : CONF -> rings -> SSL -> Prop) (tls_left : rings -> SSL -> nat) (tls_sent : SSL -> list Z) (pta_ok : P -> Prop) (ta_fuel : nat).
Context (Htls : tls_laws tls_inv tls_left tls_sent) (Htee : tee_laws pta_ok) (Hphr : phr_law) (Hconn : conn_laws tls_inv).
Context (Hpeers : peer_laws (CONF := CONF) (SSL := SSL)).
Implicit Types t : ta CONF SSL P.
Implicit Types c : bstgw_http_conn CONF SSL P S.

(** [recv] gives at most as many bytes as it was asked for. *)
Definition sock_law : Prop := forall blen fd n d fd', sock_recv blen fd = (n, d, fd') -> 0 < n -> n = Z.of_nat (length d) /\ n <= blen.

(** The peers: none has shown the built-in certificate of the master, verified,
    and what a connection can hold is bounded. *)
Record peer_env : Prop := {
  pe_master cf rg x : tls_inv cf rg x ->
    ~ (ssl_get_verify_result x = 0 /\ exists crt, ssl_get_peer_cert x = Some crt /\ builtin_master = Some crt);
  pe_bound cf rg x : tls_inv cf rg x -> (3 * tls_left rg x + 2 * Z.to_nat HTTP_BUFFER_SIZE + 1 < ta_fuel)%nat
}.
Context (Hsock : sock_law) (Hpeer : peer_env).

(** The TA between two connections. *)
Definition host_ok (cfg : positive) (cf : CONF) t : Prop := ta_ok pta_ok cfg cf t /\ ta_master_cert t = builtin_master.

(** A connection whose session is in phase [ph]. *)
Record conn_inv (sp cfg : positive) (cf : CONF) (ph : phase) c : Prop := {
  ci_phase : in_phase tls_inv pta_ok sp cfg cf ph (nw_ta c);
  ci_sess : nw_sess c = Some sp;
  ci_master : ta_master_cert (nw_ta c) = builtin_master;
  ci_rx : ring_ok (rx_buffer c);
  ci_tx : ring_ok (tx_buffer c)
}.

Lemma flush_inv sp cfg cf ph c : conn_inv sp cfg cf ph c -> defined (nw_flush_tx_data c) (fun '(_, c') => conn_inv sp cfg cf ph c').
Proof.
  intros [Hp Hs Hm Hr Ht]. unfold nw_flush_tx_data. destruct (_ <=? _); [|done]. cbn [c_assert]. rewrite ok_bind. destruct (0 <? _) eqn:E; [|done]. apply Z.ltb_lt in E.
  cbn [c_assert]. rewrite ok_bind. set (blen := if _ <? 2048 then _ else _). destruct (get_ring_ok (tx_buffer c) blen Ht E) as (d & tx & Eg & Htx).
  { unfold blen. case_match; lia. }
  rewrite Eg, ok_bind. case_match; [done|]. destruct (send_loop _ _ _) as [early fd]. by split.
Qed.

Lemma push_inv sp cfg cf ph c : conn_inv sp cfg cf ph c -> defined (nw_push_rx_data c) (fun '(_, c') => conn_inv sp cfg cf ph c').
Proof.
  intros [Hp Hs Hm Hr Ht]. unfold nw_push_rx_data. destruct (0 <? _) eqn:E; [|done]. apply Z.ltb_lt in E. cbn [c_assert]. rewrite ok_bind.
  destruct (sock_recv _ _) as [[n d] fd] eqn:Es. destruct (n <=? 0) eqn:En; [done|]. apply Z.leb_gt in En. destruct (Hsock _ _ _ _ _ Es En) as [Hn _].
  destruct (put_ring_ok (rx_buffer c) d n Hr E) as (m & rx & Ep & Hrx); [lia|]. cbn [rx_buffer upd]. rewrite Ep, ok_bind. destruct (negb _); by split.
Qed.

Lemma phase_session sp cfg cf ph t :
  in_phase tls_inv pta_ok sp cfg cf ph t -> exists p, sessions t !! sp = Some (mk_sess BSTGW_WEBSTUB_CLIENT_SESSION p).
Proof. intros [_ Hp]. destruct ph; [by exists None|destruct Hp as (p & ? & ? & _); by exists (Some p)..|done]. Qed.

Lemma call_inv sp cfg cf ph cmd c :
  conn_inv sp cfg cf ph c -> proto ph cmd = Some ph -> is_ring_cmd cmd = true ->
  defined (call_sw_process_runtime ta_fuel cmd c) (fun '(_, c') => conn_inv sp cfg cf ph c').
Proof.
  intros [Hp Hs Hm Hr Ht] Hpr Hc. unfold call_sw_process_runtime. rewrite Hs.
  replace (TEE_PARAM_TYPES _ _ _ _) with (types_of cmd) by (unfold types_of; by rewrite Hc).
  set (ps := [_; _; _; _]). assert (Hps : ring_params ps (rx_buffer c, tx_buffer c)).
  { eexists _, _, _, _. split; [done|]. split; by apply shm_ring_param. }
  destruct (phase_session _ _ _ _ _ Hp) as [q Eq].
  apply defined_bind. eapply defined_ok; [apply (ring_cmd_spec tls_inv tls_left tls_sent pta_ok Htls Htee Hphr Hconn sp cfg cf ph cmd ta_fuel ps _ (nw_ta c) Hp Hpr Hc Hps)|].
  - intros Ecmd cl Ecl. assert (Ht' : forall rg, rings_ok rg -> tls_inv cf rg (cl_ssl cl)).
    { destruct (phase_client tls_inv pta_ok sp cfg cf ph (nw_ta c) Hp) as (_ & p & cl' & _ & _ & _ & [Hcn _] & _ & Hof); [|rewrite Ecl in Hof; by injection Hof as ->].
      subst cmd. destruct ph; cbn in Hpr; try done; auto. }
    split; [|apply (pe_bound Hpeer cf); by apply Ht']. intros (Hv & crt & Ec & Em).
    apply (pe_master Hpeer cf (rx_buffer c, tx_buffer c) (cl_ssl cl)); [by apply Ht'|]. split; [done|]. exists crt. split; [done|]. by rewrite <- Hm.
  - intros [[res ps'] t'] E (-> & (rg' & p0 & p1 & p2 & rest & -> & Hr1 & Hr2) & Hp').
    rewrite (param_ring_ok _ 1 p1 rg'.1), ok_bind, (param_ring_ok _ 2 p2 rg'.2), ok_bind by done.
    destruct Hr1 as (? & _ & _ & _ & _ & ?), Hr2 as (? & _ & _ & _ & _ & ?). split; try done. cbn.
    by rewrite (invoke_master Hpeers _ _ _ _ _ _ _ _ _ _ Eq eq_refl E).
Qed.

Lemma handshake_inv_host sp cfg cf fuel c :
  conn_inv sp cfg cf TlsUp c -> defined (nw_do_handshake_cli ta_fuel fuel c) (fun '(_, c') => conn_inv sp cfg cf TlsUp c').
Proof.
  revert c. induction fuel as [|fuel IH]; intros c Hc; [done|]. cbn [nw_do_handshake_cli]. apply defined_bind.
  eapply defined_mono; [|by apply (call_inv sp cfg cf TlsUp)]. intros [sw_ret c1] H1'. case_match; [done|]. case_match; [done|]. apply defined_bind.
  eapply (defined_mono _ (fun '(_, c') => conn_inv sp cfg cf TlsUp c')); [|case_match; [by apply flush_inv|done]]. intros [ret c2] H2'.
  case_match; [done|]. case_match; [by apply IH|]. case_match; [|done]. apply defined_bind. eapply defined_mono; [|by apply push_inv].
  intros [ret3 c3] H3'. case_match; [done|by apply IH].
Qed.

Lemma process_inv sp cfg cf fuel c :
  conn_inv sp cfg cf HttpUp c -> defined (nw_process_https_requests ta_fuel fuel c) (fun '(_, c') => conn_inv sp cfg cf HttpUp c').
Proof.
  revert c. induction fuel as [|fuel IH]; intros c Hc; [done|]. cbn [nw_process_https_requests]. apply defined_bind.
  eapply defined_mono; [|by apply (call_inv sp cfg cf HttpUp)]. intros [sw_ret c1] H1'. case_match; [done|]. case_match; [done|]. apply defined_bind.
  eapply (defined_mono _ (fun '(_, c') => conn_inv sp cfg cf HttpUp c')); [|case_match; [by apply flush_inv|done]]. intros [ret c2] H2'.
  case_match; [done|]. case_match; [by apply IH|]. case_match.
  - apply defined_bind. eapply defined_mono; [|by apply push_inv]. intros [ret3 c3] H3'. case_match; [done|]. case_match; [done|by apply IH].
  - case_match; [done|]. case_match; [by apply IH|done].
Qed.

(** At most one chunk is queued for the session's client. *)
Definition drained (sp : positive) t : Prop :=
  forall cl hc l, client_of sp t = Some cl -> cl_http cl = Some hc -> qwf (ta_hp t) (ta_apps t) (http_resp hc) l -> (length l <= 1)%nat.

Lemma plain_inv sp cfg cf ph ph' cmd t :
  in_phase tls_inv pta_ok sp cfg cf ph t -> proto ph cmd = Some ph' -> is_ring_cmd cmd = false -> (cmd = BSTGW_TA_WEB_STUB_CMD_FINI_HTTP_CLI -> drained sp t) ->
  defined (invoke_plain ta_fuel (Some sp) cmd t) (fun '(ok, t') =>
    in_phase tls_inv pta_ok sp cfg cf (if ok then ph' else Gone) t' /\ (cmd <> BSTGW_TA_WEB_STUB_CMD_INIT_TLS_CLIENT -> ok = true) /\
    ta_master_cert t' = ta_master_cert t).
Proof.
  intros Hp Hpr Hc Hd. unfold invoke_plain. replace (TEE_PARAM_TYPES _ _ _ _) with (types_of cmd) by (unfold types_of; by rewrite Hc).
  destruct (phase_session _ _ _ _ _ Hp) as [q Eq].
  apply defined_bind. eapply defined_ok; [apply (session_step tls_inv tls_left tls_sent pta_ok Htls Htee Hphr Hconn sp cfg cf ph ph' cmd); [done|done|]|].
  - split; [by rewrite Hc|]. intros Ecmd. by apply Hd.
  - intros [[res ps'] t'] E (Hp' & Hs & _). split; [done|]. split; [intros Hn; by rewrite Hs|].
    by apply (invoke_master Hpeers _ _ _ _ _ _ _ _ _ _ Eq eq_refl E).
Qed.

Lemma handle_inv sp cfg cf fuel c :
  conn_inv sp cfg cf TlsUp c ->
  defined (handle_requests ta_fuel fuel c) (fun '(r, c') => match r with Some (inr _) => conn_inv sp cfg cf HttpUp c' | Some (inl _) => conn_inv sp cfg cf TlsUp c' | None => True end).
Proof.
  intros Hc. unfold handle_requests. apply defined_bind. eapply defined_mono; [|by apply (handshake_inv_host sp cfg cf)]. intros [[ret|] c1] [Hp1 Hs1 Hm1 Hr1 Ht1]; [|done].
  case_match; [done|]. apply defined_bind. unfold nw_init_http_cli. rewrite Hs1. apply defined_bind.
  eapply defined_mono; [|by apply (plain_inv sp cfg cf TlsUp HttpUp BSTGW_TA_WEB_STUB_CMD_INIT_HTTP_CLI)]. intros [ok t2] (Hp2 & Hok & Hm2). rewrite (Hok ltac:(done)) in *. cbn [defined].
  change (0 <? 0) with false. cbv iota. apply defined_bind.
  eapply defined_mono; [|apply (process_inv sp cfg cf); split; try done; cbn; congruence]. by intros [[r|] c3] Hc3.
Qed.

(** The TA after a client is gone. *)
Lemma fini_inv sp cfg cf ph c :
  conn_inv sp cfg cf ph c -> ph = TlsUp \/ ph = HttpDown -> defined (nw_fini_tls_client ta_fuel c) (host_ok cfg cf).
Proof.
  intros [Hp Hs Hm _ _] Hph. unfold nw_fini_tls_client. rewrite Hs. apply defined_bind.
  eapply defined_mono; [|by apply (plain_inv sp cfg cf ph Gone BSTGW_TA_WEB_STUB_CMD_FINI_TLS_CLIENT); [|destruct Hph as [->| ->]|..]].
  intros [ok t1] (Hp1 & Hok & Hm1). rewrite (Hok ltac:(done)) in Hp1. destruct Hp1 as [[? ? ? ?] (p & Es)]. cbn [TA_CloseSessionEntryPoint]. rewrite Es. cbn [deref]. rewrite ok_bind.
  split; [by split|]. cbn. by rewrite <- Hm, <- Hm1.
Qed.

Lemma init_inv e cfg cf fd t :
  host_ok cfg cf t -> (forall r, he_shm_rx e = Some r \/ he_shm_tx e = Some r -> Z.of_nat (length (buffer r)) = SW_BUFFER_SIZE) ->
  defined (nw_init_tls_client ta_fuel e fd t) (fun '(cli, t') =>
    match cli with None => host_ok cfg cf t' | Some cli => exists sp, conn_inv sp cfg cf TlsUp cli end).
Proof.
  intros [Ht Hm] He. assert (Hring : forall r, he_shm_rx e = Some r \/ he_shm_tx e = Some r -> ring_ok (init_sw_buffer r)).
  { intros r Hr. split; [split; cbn; unfold SW_BUFFER_SIZE in *; try lia; by apply He|cbn; unfold MAX_U32; lia]. }
  unfold nw_init_tls_client. case_match; [done|]. case_match; [done|]. unfold init_shm_rb. destruct (he_shm_rx e) as [rx|], (he_shm_tx e) as [tx|]; try done. cbn [fmap option_fmap option_map].
  unfold teec_open_session. destruct (TA_OpenSessionEntryPoint _ _ t) as [[[res sess] t1]| |] eqn:Eo; [|done|].
  2:{ revert Eo. unfold TA_OpenSessionEntryPoint. cbn -[ask]. by destruct (ask (ta_hp t)) as [[]]. }
  assert (Ho : ta_ok pta_ok cfg cf t1 /\ ta_master_cert t1 = builtin_master /\ (res = TEE_SUCCESS -> exists sp, sess = Some sp /\ in_phase tls_inv pta_ok sp cfg cf Opened t1)).
  { revert Eo. unfold TA_OpenSessionEntryPoint. cbn -[ask]. destruct (ask (ta_hp t)) as [a h] eqn:Ea. assert (Hb : blocks h = blocks (ta_hp t)) by (by injection Ea as <- <-).
    assert (Hok : ta_ok pta_ok cfg cf (t <| ta_hp := h |>)) by (destruct Ht; split; cbn; unfold webapps_ok; by rewrite ?Hb). destruct a as [j|]; intros [= <- <- <-]; split; try done; [by destruct Hok|].
    split; [exact Hm|]. intros _. exists (next_addr t). split; [done|]. split; [by destruct Hok|]. cbn. by rewrite lookup_insert_eq. }
  destruct Ho as (Ht1 & Hm1 & Hs). rewrite !ok_bind. destruct (res =? TEE_SUCCESS) eqn:Er; [|done]. apply Z.eqb_eq in Er. destruct (Hs Er) as (sp & -> & Hp). apply defined_bind.
  eapply defined_mono; [|by apply (plain_inv sp cfg cf Opened TlsUp BSTGW_TA_WEB_STUB_CMD_INIT_TLS_CLIENT)]. intros [ok t2] (Hp2 & _ & Hm2). destruct ok; cbn [negb].
  - exists sp. split; [done|done|cbn; congruence|apply Hring; auto..].
  - destruct Hp2 as [[? ? ? ?] (p & Es)]. cbn [TA_CloseSessionEntryPoint]. rewrite Es. cbn [deref]. rewrite !ok_bind. split; [by split|]. cbn. by rewrite <- Hm1, <- Hm2.
Qed.

(** What a connection needs: its thread starts, the rings have their size and,
    where the requests end, no more than one chunk is left in the queue. *)
Record good_round (fuel : nat) (e : host_env) (fd : S) t : Prop := {
  gr_thread : he_thread e = true;
  gr_shm : forall r, he_shm_rx e = Some r \/ he_shm_tx e = Some r -> Z.of_nat (length (buffer r)) = SW_BUFFER_SIZE;
  gr_drained : forall cli t1 v c sp, nw_init_tls_client ta_fuel e fd t = Ok (Some cli, t1) -> handle_requests ta_fuel fuel cli = Ok (Some (inr v), c) ->
    nw_sess c = Some sp -> drained sp (nw_ta c)
}.

(** The same for every round, in the state the round finds. *)
Fixpoint good_rounds (fuel : nat) (l : list (option (host_env * S))) t : Prop :=
  match l with
  | [] => True
  | None :: l' => good_rounds fuel l' t
  | Some (e, fd) :: l' => good_round fuel e fd t /\ forall t', serve_client ta_fuel e fuel fd t = Ok (Some t') -> good_rounds fuel l' t'
  end.

Lemma serve_inv e fuel fd cfg cf t :
  host_ok cfg cf t -> good_round fuel e fd t ->
  defined (serve_client ta_fuel e fuel fd t) (fun r => match r with Some t' => host_ok cfg cf t' | None => True end).
Proof.
  intros Ht [Hth He Hd]. unfold serve_client. pose proof (init_inv e cfg cf fd t Ht He) as Hi. destruct (nw_init_tls_client ta_fuel e fd t) as [[[cli|] t1]| |] eqn:Ei; try done.
  destruct Hi as [sp Hc]. rewrite ok_bind, Hth. cbn [negb]. pose proof (handle_inv sp cfg cf fuel cli Hc) as Hh. apply defined_bind. unfold nw_handle_client_conn.
  destruct (handle_requests ta_fuel fuel cli) as [[[[v|v]|] c]| |] eqn:Eh; try done; rewrite ok_bind; cbn [defined] in Hh |- *.
  - apply defined_bind. eapply defined_mono; [|by apply (fini_inv sp cfg cf TlsUp c); auto]. by intros t'.
  - pose proof Hh as [Hp Hs Hm Hr Htx]. apply defined_bind. unfold nw_fini_http_cli. rewrite Hs. apply defined_bind.
    eapply defined_mono; [|apply (plain_inv sp cfg cf HttpUp HttpDown BSTGW_TA_WEB_STUB_CMD_FINI_HTTP_CLI); [done..|]; intros _; by apply (Hd cli t1 v c sp)].
    intros [ok t2] (Hp2 & Hok & Hm2). rewrite (Hok ltac:(done)) in *. cbn [defined]. apply defined_bind.
    eapply defined_mono; [|apply (fini_inv sp cfg cf HttpDown); [split; try done; cbn; congruence|by right]]. by intros t'.
Qed.

Lemma listen_inv fuel l cfg cf t :
  host_ok cfg cf t -> good_rounds fuel l t ->
  defined (listen_loop ta_fuel fuel l t) (fun r => match r with Some t' => host_ok cfg cf t' | None => True end).
Proof.
  revert t. induction l as [|[[e fd]|] l IH]; intros t Ht Hl; cbn [listen_loop]; [done| |by apply IH]. destruct Hl as [Hr Hl].
  pose proof (serve_inv e fuel fd cfg cf t Ht Hr) as Hs. destruct (serve_client ta_fuel e fuel fd t) as [[t'|]| |] eqn:E; try done.
  apply IH; [done|by apply Hl].
Qed.

(** C20. Host and TA together: the server's loop, over any connections it
    accepts one after the other, causes no undefined behaviour in the TA or
    the host, whatever the peers send and however the network cuts it up, for
    any number of rounds of the host's loops (an assertion may still stop the
    TA); and if every connection ends, the TA is left ready for the next one.
    What this takes: the thread of every connection starts; where the requests
    of a connection end, at most one chunk is left in the TA's response queue
    (the TA frees a longer one twice); no peer shows the built-in certificate
    of the master, whose listing of administrators reads uninitialised memory;
    the web applications that are loaded end in a zero byte ([to_apps]), which,
    as loading one never succeeds ([webapp_never_loaded]), means for the code
    as it is a server without web applications;
    mbedTLS, the HTTP parser, the PTA and [recv] keep to their laws. *)
Theorem host_serves_client sigact fuel l cfg cf t :
  host_ok cfg cf t -> good_rounds fuel l t ->
  defined (nw_loop_http_listening ta_fuel sigact fuel l t) (fun '(_, r) => match r with Some t' => host_ok cfg cf t' | None => True end).
Proof.
  intros Ht Hl. unfold nw_loop_http_listening. destruct (sigact =? 1); [done|]. apply defined_bind.
  eapply defined_mono; [|by apply (listen_inv fuel l cfg cf)]. by intros r.
Qed.

End safe.

(** With more than one chunk queued the HTTP part cannot be freed. *)
Lemma fini_http_frees_twice {CONF SSL P CHAIN PK : Type} `{MbedTLS CONF SSL} `{MbedServer CONF CHAIN PK} `{TeeClient P} `{HttpParser} fuel sp shared ps (t : ta CONF SSL P) cl hc q c q' c' l :
  match sessions t !! sp with Some se => sess_type se = BSTGW_WEBSTUB_CLIENT_SESSION | None => False end -> client_of sp t = Some cl -> cl_http cl = Some hc ->
  qwf (ta_hp t) shared (http_resp hc) ((q, c) :: (q', c') :: l) ->
  TA_InvokeCommandEntryPoint fuel (Some sp) BSTGW_TA_WEB_STUB_CMD_FINI_HTTP_CLI (types_of BSTGW_TA_WEB_STUB_CMD_FINI_HTTP_CLI) ps t = Undef.
Proof.
  intros Ht Hc Eh Hq. unfold client_of in Hc. unfold TA_InvokeCommandEntryPoint. destruct (sessions t !! sp) as [[ty [p|]]|]; try done. cbn in Ht. subst ty.
  cbn [deref]. rewrite ok_bind. change (plain_cmd ps (cmd_fini_http_cli (mk_sess BSTGW_WEBSTUB_CLIENT_SESSION (Some p)) t) = Undef).
  unfold plain_cmd, cmd_fini_http_cli. cbn [sess_ptr sw_fini_http_cli]. rewrite Hc. cbn [deref]. rewrite ok_bind, Eh. cbn [deref]. rewrite ok_bind.
  assert (E : http_resp hc = Some q) by (destruct Hq as [[E _] _ _ _]; exact E). rewrite E in *. by rewrite (free_two _ _ _ _ _ _ _ Hq).
Qed.

(** A peer can make the TA free its response queue twice. *)
Section reset.
Context {CONF SSL P CHAIN PK S : Type} `{MbedTLS CONF SSL} `{MbedServer CONF CHAIN PK} `{TeeClient P} `{HttpParser} `{Socket S}.

(** C37. The end of a connection frees the TA's response queue twice over: if
    the requests of a connection end, for whatever reason, with two or more
    chunks still queued for its client (a header and a body, say, that a peer
    which reset the connection has not taken), the TA's loop that frees the
    queue frees the first chunk and then goes on with that same chunk, so
    that serving the connection is undefined. *)
Theorem peer_reset_frees_twice ta_fuel fuel e (fd : S) (t t1 : ta CONF SSL P) cli v c sp se cl hc q d q' d' l :
  he_thread e = true -> nw_init_tls_client ta_fuel e fd t = Ok (Some cli, t1) ->
  handle_requests ta_fuel fuel cli = Ok (Some (inr v), c) ->
  nw_sess c = Some sp -> sessions (nw_ta c) !! sp = Some se -> sess_type se = BSTGW_WEBSTUB_CLIENT_SESSION ->
  client_of sp (nw_ta c) = Some cl -> cl_http cl = Some hc ->
  qwf (ta_hp (nw_ta c)) (ta_apps (nw_ta c)) (http_resp hc) ((q, d) :: (q', d') :: l) ->
  (exists h1, (forall n, free_loop (1 + n) q (Some q) (ta_hp (nw_ta c)) = free_loop n q (Some q') h1) /\ chunks h1 !! q = None) /\
  serve_client ta_fuel e fuel fd t = Undef.
Proof.
  intros Hth Ei Eh Es Ese Hty Ecl Ehc Hq. split.
  - assert (E : http_resp hc = Some q) by (destruct Hq as [[E _] _ _ _]; exact E). rewrite E in Hq. by apply free_first in Hq.
  - unfold serve_client. rewrite Ei, ok_bind, Hth. cbn [negb]. unfold nw_handle_client_conn. rewrite Eh, ok_bind. unfold nw_fini_http_cli, invoke_plain. rewrite Es.
    match goal with |- context [TA_InvokeCommandEntryPoint _ _ _ _ ?ps _] =>
      pose proof (fini_http_frees_twice ta_fuel sp (ta_apps (nw_ta c)) ps (nw_ta c) cl hc q d q' d' l) as Hu end.
    rewrite Ese in Hu. specialize (Hu Hty Ecl Ehc Hq). change (types_of _) with (TEE_PARAM_TYPES TEE_PARAM_TYPE_NONE TEE_PARAM_TYPE_NONE TEE_PARAM_TYPE_NONE TEE_PARAM_TYPE_NONE) in Hu. by rewrite Hu.
Qed.

End reset.

(** ** Examples *)

(** A peer that sends the next of some packets at each [recv], and takes
    everything as long as it is there. *)
Record ex_sock := mk_ex_sock { ex_packets : list (list Z); ex_there : bool }.
Definition ex_socket : Socket ex_sock := {|
  sock_send p s := (if ex_there s then Z.of_nat (length p) else -1, s);
  sock_recv n s :=
    match ex_packets s with
    | [] => (0, [], s)
    | d :: l => let d := take (Z.to_nat n) d in (Z.of_nat (length d), d, mk_ex_sock l (ex_there s))
    end
|}.

Definition ex_host : host_env := mk_host_env true true (Some ex_ring) (Some ex_ring) true.

(** The library passes bytes on through the transport callbacks, at most 50
    at a time.  The handshake takes one byte: 0 for a client without a
    certificate, else the certificate. *)
Record thru_ssl := mk_thru { th_sent : list Z; th_cert : option (list Z) }.

Definition thru_recv (rg : rings) (n : Z) : outcome (Z * list Z * rings) :=
  '(d, rx) ← bstgw_mbedtls_net_recv (Some rg.1) true n;
  match d with
  | inl e => Ok (e, [], (default rg.1 rx, rg.2))
  | inr d => Ok (Z.of_nat (length d), d, (default rg.1 rx, rg.2))
  end.

Definition thru_mbedtls : MbedTLS unit thru_ssl := {|
  ssl_setup _ _ := (0, mk_thru [] None);
  ssl_handshake _ rg x :=
    '(r, d, rg) ← thru_recv rg 1;
    match d with
    | [] => Ok (r, x, rg)
    | b :: _ => Ok (0, mk_thru (th_sent x) (if b =? 0 then None else Some [b]), rg)
    end;
  ssl_read _ rg x n := '(r, d, rg) ← thru_recv rg n; Ok (r, d, x, rg);
  ssl_write _ rg x d :=
    '(n, tx) ← bstgw_mbedtls_net_send (Some rg.2) (Some d) (Z.min 50 (Z.of_nat (length d)));
    Ok (n, mk_thru (th_sent x ++ take (Z.to_nat n) d) (th_cert x), (rg.1, default rg.2 tx));
  ssl_close_notify _ rg x := Ok (0, x, rg);
  ssl_get_verify_result x := match th_cert x with Some _ => 0 | None => MBEDTLS_X509_BADCERT_MISSING end;
  ssl_get_peer_cert := th_cert;
  x509_crt_parse b := (0, b);
  base64_encode _ l := (0, l)
|}.

(** A request is one letter: the registration of a certificate of one byte, or
    a command of two bytes. *)
Definition thru_parser : HttpParser := fun data _ =>
  match data with
  | [] => mk_phr (-2) [] [] []
  | 80 :: _ => mk_phr 1 (bytes "POST") (bytes "/trustconf")
           [(csrf_hdr, []); (bytes "Content-Length", bytes "2"); (bytes "Content-Type", bytes "application/octet-stream")]
  | _ => mk_phr 1 (bytes "POST") (bytes "/register-admin")
           [(csrf_hdr, []); (bytes "Content-Length", bytes "1"); (bytes "Content-Type", bytes "text/plain")]
  end.

(** A server without clients. *)
Definition thru_up : ta unit thru_ssl Z :=
  mk_ta (Some (Some 1%positive)) ∅ {[ 1%positive := mk_srv tt true ]} ∅ 4 1 ex_heap None [] None None None None 0.

(** Rounds of the TA's loops: more than it needs for a full ring. *)
Definition thru_fuel : nat := Z.to_nat 15000.

#[local] Existing Instances thru_mbedtls thru_parser ex_tee ex_server ex_socket.

(** No certificate, or one of one byte. *)
#[local] Abbreviation thru_inv := (fun (_ : unit) (rg : rings) (x : thru_ssl) => rings_ok rg /\ (forall c, th_cert x = Some c -> length c = 1%nat)).
#[local] Abbreviation thru_left := (fun (rg : rings) (_ : thru_ssl) => length (sw_abs rg.1)).

Lemma sw_abs_len b : sw_wf b -> Z.of_nat (length (sw_abs b)) = dataleft_sw_buffer b.
Proof.
  intros Hw. pose proof (sw_counts b Hw) as (? & ? & ? & _). destruct Hw as [Hl Hh _ _]. unfold sw_abs, SW_BUFFER_SIZE in *. rewrite length_window; lia.
Qed.

Lemma thru_recv_spec rg n : rings_ok rg -> 0 <= n ->
  exists r d rg', thru_recv rg n = Ok (r, d, rg') /\ rings_ok rg' /\ Z.of_nat (length d) <= n /\ (0 < r -> Z.of_nat (length d) = r) /\
    (length (sw_abs rg'.1) + Z.to_nat r <= length (sw_abs rg.1))%nat.
Proof.
  intros [Hr Ht] Hn. unfold thru_recv, bstgw_mbedtls_net_recv. cbn [assert_ptr]. rewrite ok_bind. destruct (n =? 0).
  { rewrite ok_bind. eexists 0, [], _. split; [done|]. split; [done|]. cbn. lia. }
  cbn [negb]. destruct (_ =? 0) eqn:E.
  { rewrite ok_bind. eexists MBEDTLS_ERR_SSL_WANT_READ, [], _. split; [done|]. split; [done|]. unfold MBEDTLS_ERR_SSL_WANT_READ. cbn. lia. }
  apply Z.eqb_neq in E. pose proof (sw_counts _ (proj1 Hr)) as (? & _). destruct (get_ring_ok rg.1 n Hr ltac:(lia) Hn) as (d & b' & Eg & Hb').
  destruct (get_sw_buffer_takes rg.1 n (proj1 Hr) ltac:(lia) Hn) as (b2 & Eg2 & _ & Ea). rewrite Eg in Eg2. injection Eg2 as -> <-.
  rewrite Eg, !ok_bind. eexists _, _, _. split; [done|]. split; [by split|]. cbn [fst snd default from_option id]. rewrite Ea, length_drop, length_take.
  pose proof (sw_abs_len _ (proj1 Hr)). split; [lia|]. split; [lia|]. lia.
Qed.

Lemma thru_tls_laws : tls_laws thru_inv thru_left th_sent.
Proof.
  split.
  - intros cf rg x n [Hr Hx] Hn. cbn [ssl_read thru_mbedtls]. destruct (thru_recv_spec rg n Hr Hn) as (r & d & rg' & E & Hr' & Hd & Hp & Hl).
    rewrite E, ok_bind. done.
  - intros cf rg x d [[Hr Ht] Hx]. cbn [ssl_write thru_mbedtls]. unfold bstgw_mbedtls_net_send. cbn [assert_ptr]. rewrite ok_bind. set (len := Z.min 50 _).
    destruct (len =? 0) eqn:E0. { rewrite ok_bind. cbn [defined default]. split_and!; [done|done|done|lia|done|done]. }
    destruct (full rg.2 =? 0) eqn:Ef; cbn [negb].
    2:{ rewrite ok_bind. cbn [defined default]. unfold MBEDTLS_ERR_SSL_WANT_WRITE. split_and!; [done|done|done|lia|done|done]. }
    apply Z.eqb_eq in Ef. destruct (put_steps rg.2 d len (proj1 Ht) Ef ltac:(lia)) as (b' & E & Hw & _ & Hf1 & Hf2 & _).
    rewrite E, !ok_bind. cbn [defined default]. split_and!; [|done|done|lia|done|done]. split; [done|]. cbn. split; [done|].
    unfold MAX_U32. destruct (Z_le_gt_dec len (spaceleft_sw_buffer rg.2)); [rewrite Hf1|rewrite Hf2]; lia.
  - by intros cf rg x Hx.
Qed.

Lemma thru_conn_laws : conn_laws thru_inv.
Proof.
  split.
  - intros cf a x rg [= <-] Hr. by split.
  - intros cf rg x [Hr Hx]. cbn [ssl_handshake thru_mbedtls]. destruct (thru_recv_spec rg 1 Hr ltac:(lia)) as (r & d & rg' & E & Hr' & _).
    rewrite E, ok_bind. destruct d as [|b d]; [by split|]. split; [done|]. cbn. destruct (b =? 0); [done|]. by intros c [= <-].
  - by intros cf rg rg' x [_ ?] Hr.
  - by intros cf rg x [? _].
Qed.

Lemma thru_peer_laws : peer_laws (CONF := unit) (SSL := thru_ssl).
Proof.
  split; cbn [ssl_read ssl_write ssl_close_notify thru_mbedtls].
  - intros cf rg x n r d x' rg' E. apply bind_ok in E as ([[? ?] ?] & _ & E). by injection E as _ _ <- _.
  - intros cf rg x d r x' rg' E. apply bind_ok in E as ([? ?] & _ & E). by injection E as _ <- _.
  - intros cf rg x r x' rg' E. by injection E as _ <- _.
Qed.

Lemma thru_peer_env : peer_env thru_inv thru_left thru_fuel.
Proof.
  split.
  - intros cf rg x [_ Hx] (_ & crt & Ec & Em). apply Hx in Ec. vm_compute in Em. injection Em as <-. discriminate Ec.
  - intros cf rg x [[[Hr _] _] _]. pose proof (sw_counts _ Hr) as (? & ? & ? & _). pose proof (sw_abs_len _ Hr). unfold SW_BUFFER_SIZE in *.
    apply (Nat.le_lt_trans _ (3 * Z.to_nat 2048 + 2 * Z.to_nat HTTP_BUFFER_SIZE + 1)); [lia|]. apply Nat.ltb_lt. vm_compute. reflexivity.
Qed.

Lemma thru_phr_law : phr_law.
Proof. intros data n. unfold phr_parse_request, thru_parser. destruct data as [|b d]; [cbn; lia|]. repeat case_match; cbn [phr_ret length]; lia. Qed.

Lemma ex_sock_law : sock_law.
Proof.
  intros n s m d s'. cbn. destruct (ex_packets s) as [|p l]; intros [= <- <- <-]; [lia|]. intros Hp. split; [done|]. rewrite length_take in *. lia.
Qed.

Lemma thru_up_ok : host_ok (fun _ : Z => True) 1 tt thru_up.
Proof. split; [|done]. split; [done|by exists (mk_srv tt true)| |done]. intros p Hp. by apply elem_of_nil in Hp. Qed.

(** A client without a certificate registers one, an [accept] fails, and an
    administrator with that certificate sends a command. *)
Definition thru_visits : list (option (host_env * ex_sock)) :=
  [Some (ex_host, mk_ex_sock [[0]; [82]; [65]] true); None; Some (ex_host, mk_ex_sock [[65]; [80; 1]; [2]] true)].

(** What the first client leaves. *)
Definition thru_mid : ta unit thru_ssl Z :=
  match serve_client thru_fuel ex_host 20 (mk_ex_sock [[0]; [82]; [65]] true) thru_up with Ok (Some t) => t | _ => thru_up end.
Definition thru_end : ta unit thru_ssl Z :=
  match serve_client thru_fuel ex_host 20 (mk_ex_sock [[65]; [80; 1]; [2]] true) thru_mid with Ok (Some t) => t | _ => thru_up end.

(** Where the requests of a client have ended, nothing is queued. *)
Definition thru_idle (fd : ex_sock) (t : ta unit thru_ssl Z) : bool :=
  match nw_init_tls_client thru_fuel ex_host fd t with
  | Ok (Some cli, _) =>
      match handle_requests thru_fuel 20 cli with
      | Ok (Some (inr _), c) =>
          match nw_sess c ≫= fun sp => client_of sp (nw_ta c) with
          | Some cl => match cl_http cl with Some hc => match http_resp hc with None => true | Some _ => false end | None => true end
          | None => true
          end
      | _ => true
      end
  | _ => true
  end.

Lemma thru_good fd t : thru_idle fd t = true -> good_round thru_fuel 20 ex_host fd t.
Proof.
  intros Hi. split; [reflexivity|intros r [[= <-]|[= <-]]; reflexivity|].
  intros cli t1 v c sp Ei Eh Es cl hc l Ecl Ehc [Hq _ _ _]. unfold thru_idle in Hi. rewrite Ei, Eh, Es in Hi. cbn [mbind option_bind] in Hi. rewrite Ecl, Ehc in Hi.
  destruct (http_resp hc); [done|]. destruct l as [|[q d] l]; [cbn; lia|]. destruct Hq as [Hq _]. discriminate Hq.
Qed.

Lemma host_serves_client_witness :
  ta_allowlist thru_end = [[65]] /\ ta_pta thru_end = 1 /\
  nw_loop_http_listening thru_fuel 0 20 thru_visits thru_up = Ok (0, Some thru_end) /\ host_ok (fun _ => True) 1 tt thru_end.
Proof.
  assert (E : nw_loop_http_listening thru_fuel 0 20 thru_visits thru_up = Ok (0, Some thru_end)) by (vm_compute; reflexivity).
  split; [vm_compute; reflexivity|]. split; [vm_compute; reflexivity|]. split; [exact E|].
  pose proof (host_serves_client thru_inv thru_left th_sent (fun _ => True) thru_fuel thru_tls_laws ex_tee_laws thru_phr_law thru_conn_laws thru_peer_laws ex_sock_law thru_peer_env
    0 20 thru_visits 1 tt thru_up thru_up_ok) as Hs.
  rewrite E in Hs. apply Hs. cbn [good_rounds thru_visits]. split; [apply thru_good; vm_compute; reflexivity|].
  intros t1 E1. replace t1 with thru_mid by (unfold thru_mid; by rewrite E1). split; [apply thru_good; vm_compute; reflexivity|done].
Defined.

(** A peer asks for the registration of a certificate and resets the
    connection: the host's side when it has connected, when its requests have
    ended, and the TA's queue then. *)
Definition gone_sock : ex_sock := mk_ex_sock [[0]; [82]; [65]] false.
Definition gone_cli : bstgw_http_conn unit thru_ssl Z ex_sock :=
  match nw_init_tls_client thru_fuel ex_host gone_sock thru_up with Ok (Some cli, _) => cli | _ => mk_conn thru_up None ex_ring ex_ring gone_sock end.
Definition gone_end : Z * bstgw_http_conn unit thru_ssl Z ex_sock :=
  match handle_requests thru_fuel 20 gone_cli with Ok (Some (inr v), c) => (v, c) | _ => (0, gone_cli) end.
Definition gone_client : sw_cli_t thru_ssl :=
  match nw_sess gone_end.2 ≫= fun sp => client_of sp (nw_ta gone_end.2) with Some cl => cl | None => mk_cli 1 (mk_thru [] None) None [] None end.

Definition gone_header : resp_chunk := mk_resp_chunk (Some (Mem 1)) 64 50 true None.
Definition gone_body : resp_chunk := mk_resp_chunk (Some (Lit (bytes "REGISTERED"))) 10 0 false None.

Lemma gone_queue : qwf (ta_hp (nw_ta gone_end.2)) (ta_apps (nw_ta gone_end.2)) (Some 2%positive) [(2%positive, gone_header); (1%positive, gone_body)].
Proof.
  split.
  - split; [reflexivity|]. exists (Some 1%positive). split; [vm_compute; reflexivity|]. split; [reflexivity|]. exists None. split; [vm_compute; reflexivity|reflexivity].
  - apply (bool_decide_unpack _). vm_compute. exact I.
  - apply Forall_cons. split; [|apply Forall_cons; split; [|by apply Forall_nil]]; (split; [cbn; unfold MAX_I32; lia|]); cbn.
    + split; [|by vm_compute]. eexists. split; [vm_compute; reflexivity|]. apply Z.leb_le. vm_compute. reflexivity.
    + split; [done|]. apply Z.leb_le. vm_compute. reflexivity.
  - apply (bool_decide_unpack _). vm_compute. exact I.
Qed.

Lemma peer_reset_frees_twice_witness :
  gone_end.1 = -1 /\ serve_client thru_fuel ex_host 20 gone_sock thru_up = Undef.
Proof.
  split; [vm_compute; reflexivity|].
  refine (proj2 (peer_reset_frees_twice thru_fuel 20 ex_host gone_sock thru_up (nw_ta gone_cli) gone_cli gone_end.1 gone_end.2 4
    (mk_sess BSTGW_WEBSTUB_CLIENT_SESSION (Some 5%positive)) gone_client (mk_http 0 false (Some 2%positive)) 2 gone_header 1 gone_body []
    _ _ _ _ _ _ _ _ gone_queue)); vm_compute; reflexivity.
Defined.
