(* ===== verification/Worker.v ===== *)
(** * The packet pipeline of a router worker (nettrug/pta/worker.c and the
    input half of nettrug/pta/arp.c).

    A burst of received frames goes through link-layer input (with ARP), the
    inbound firewall, routing, the outbound firewall and the output path of
    [Forward]; the frames for each device are then queued together.  The
    firewall (NPF) and the route table are arguments. *)

From stdpp Require Import strings.
From S2P Require Import Prelude Pktq EthBuf Netdev Route Forward.

Definition RTE_PTYPE_L3_IPV4 : Z := 16.
Definition RTE_PTYPE_L3_IPV6 : Z := 64.
Definition PFIL_IN : Z := 1.
Definition PFIL_OUT : Z := 2.

(** ** ARP headers *)

(** [struct rte_arp_hdr]: its fields as bytes in memory order. *)
Record arp_hdr := mk_arp_hdr {
  arp_hardware : list Z;
  arp_protocol : list Z;
  arp_hlen : Z;
  arp_plen : Z;
  arp_opcode : list Z;
  arp_sha : list Z;
  arp_sip : list Z;
  arp_tha : list Z;
  arp_tip : list Z
}.
#[global] Instance eta_arp_hdr : Settable arp_hdr :=
  fun a => mk_arp_hdr (arp_hardware a) (arp_protocol a) (arp_hlen a) (arp_plen a) (arp_opcode a)
             (arp_sha a) (arp_sip a) (arp_tha a) (arp_tip a).

Definition arp_of_bytes (l : list Z) : arp_hdr :=
  mk_arp_hdr (take 2 l) (take 2 (drop 2 l)) (nth 4 l 0) (nth 5 l 0) (take 2 (drop 6 l))
    (take 6 (drop 8 l)) (take 4 (drop 14 l)) (take 6 (drop 18 l)) (take 4 (drop 24 l)).

Definition arp_bytes (a : arp_hdr) : list Z :=
  arp_hardware a ++ arp_protocol a ++ [arp_hlen a; arp_plen a] ++ arp_opcode a ++
  arp_sha a ++ arp_sip a ++ arp_tha a ++ arp_tip a.

(** [htons] of a constant, in memory. *)
Definition be16 (x : Z) : list Z := [x / 256; x mod 256].

Section worker.
Context {T : Type} `{ThMap T} {L : Type} `{Lpm L route_info_t}.

(** [npfk_packet_handler]: the [n]-th call, for a direction, a device index
    and a packet, returns an error code and the packet, possibly rewritten,
    or no packet if NPF consumed it (it then freed it with its [free]
    operation).  [alloc], [arp_alloc]: whether the heap serves the arrays of a
    burst and an ARP cache entry.  [net_if]: the worker's device. *)
Context (npf : nat -> Z -> Z -> bstgw_ethbuf_t -> Z * option bstgw_ethbuf_t).
Context (rtable : L) (alloc arp_alloc : bool) (net_if : positive).

Definition is_same_ip (ip : list Z) (a : arp_hdr) : bool := bool_decide (take 4 ip = arp_tip a).

(** Whether the packet concerns the device, and [*targeted]. *)
Definition arp_is_interesting (a : arp_hdr) (ifp : ifnet_t T) : bool * bool :=
  let tha := arp_tha a in
  let ucast := rte_is_same_ether_addr (hwaddr ifp) tha in
  let bcast := rte_is_broadcast_ether_addr tha || rte_is_zero_ether_addr tha in
  let untrusted := bool_decide (trust_status ifp = BSTGW_IF_NONSEC) in
  if ucast || bcast || untrusted then
    (true, if untrusted then true
           else existsb (fun ip => is_same_ip ip a) (take (Z.to_nat (ips_cnt ifp)) (if_ips ifp)))
  else (false, false).

(** Drops [m]: frees it and returns -1. *)
Definition drop_pkt (m : positive) (w : world T) : outcome (Z * world T) :=
  w ← buf_free w (Some m); Ok (-1, w).

(** The request [ah] at [ahp] of the buffer turned into the reply, and queued. *)
Definition arp_reply (ifp : ifnet_t T) (ah : arp_hdr) (ahp : Z) (e : bstgw_ethbuf_t) (m : positive)
    (w : world T) : outcome (Z * world T) :=
  let ipaddr := arp_tip ah in
  let ah := ah <| arp_opcode := be16 RTE_ARP_OP_REPLY |>
               <| arp_tha := arp_sha ah |> <| arp_tip := arp_sip ah |>
               <| arp_sha := hwaddr ifp |> <| arp_sip := ipaddr |> in
  b ← mem_write (bytes e) ahp (arp_bytes ah);
  eh ← bstgw_ethbuf_data_ptr e 0;
  eh ← deref eh;
  s_addr ← mem_read b (eh + 6) 6;
  b ← mem_write b eh s_addr;
  b ← mem_write b (eh + 6) (hwaddr ifp);
  let w := buf_set w m (e <| bytes := b |>) in
  '(r, w) ← pktq_enqueue net_if (ifnet_idx ifp) m w;
  if r =? -1 then drop_pkt m w else Ok (1, w).

Definition arp_input (m : positive) (w : world T) : outcome (Z * world T) :=
  ifp ← dev_get w net_if;
  e ← buf_get w m;
  ahp ← bstgw_ethbuf_data_ptr e (l2_len e);
  ahp ← deref ahp;
  b ← mem_read (bytes e) ahp RTE_ARP_HDR_LEN;
  let ah := arp_of_bytes b in
  if negb (bool_decide (arp_hardware ah = be16 1)) || negb (arp_hlen ah =? 6) || negb (arp_plen ah =? 4) then
    drop_pkt m w else
  let '(interesting, targeted) := arp_is_interesting ah ifp in
  if negb interesting then drop_pkt m w else
  ifp ← arp_cache_add arp_alloc ifp (arp_sip ah) (arp_sha ah) targeted;
  let w := dev_set w net_if ifp in
  if targeted && bool_decide (arp_opcode ah = be16 RTE_ARP_OP_REQUEST)
  then arp_reply ifp ah ahp e m w
  else drop_pkt m w.

(** Non-zero: the packet is consumed. *)
Definition l2_input (m : positive) (w : world T) : outcome (Z * world T) :=
  e ← buf_get w m;
  if Z.land (packet_type e) RTE_PTYPE_L2_MASK =? 0 then Panic else
  eh ← bstgw_ethbuf_data_ptr e 0;
  eh ← deref eh;
  ty ← mem_read (bytes e) (eh + 12) 2;
  minfo ← deref (priv_data e);
  let minfo := minfo <| ether_type := u16_of_bytes ty |> in
  let e := e <| priv_data := Some minfo |> <| l2_len := RTE_ETHER_HDR_LEN |> in
  let w := buf_set w m e in
  let t := ntohs (u16_of_bytes ty) in
  if t =? RTE_ETHER_TYPE_ARP then arp_input m w else
  if t =? RTE_ETHER_TYPE_IPV4 then
    let e := e <| packet_type := Z.lor (packet_type e) RTE_PTYPE_L3_IPV4 |> in
    let '(cut, e) := bstgw_ethbuf_precut e RTE_ETHER_HDR_LEN in
    match cut with
    | None => Panic
    | Some _ =>
        let minfo := minfo <| flags := Z.lor (flags minfo) MBUF_NPF_NEED_L2 |> in
        Ok (0, buf_set w m (e <| priv_data := Some minfo |>))
    end
  else drop_pkt m w.

(** Whether to go on with the packet; if not, it is consumed or dropped. *)
Definition firewall_process (m : positive) (ifp di : Z) (w : world T) : outcome (bool * world T) :=
  e ← buf_get w m;
  let '(error, r) := npf (w_npf w) di ifp e in
  let w := w <| w_npf ::= S |> in
  match r with
  | None => p ← bstgw_mbuf_free (Some m) (w_pool w); Ok (false, w <| w_pool := p |>)
  | Some e' =>
      let w := buf_set w m e' in
      if negb (error =? 0) then w ← buf_free w (Some m); Ok (false, w)
      else Ok (true, w)
  end.

(** The index of the output device, or -1. *)
Definition router_ip_route (m : positive) (w : world T) : outcome (Z * world T) :=
  e ← buf_get w m;
  minfo ← deref (priv_data e);
  if negb (Z.land (packet_type e) RTE_PTYPE_L3_IPV4 =? 0) then
    ip4 ← bstgw_ethbuf_data_ptr e 0;
    ip4 ← deref ip4;
    addr ← mem_read (bytes e) (ip4 + 16) 4;
    ttl ← aget (bytes e) (ip4 + 8);
    if ttl <=? 1 then Ok (-1, w) else
    match route_lookup rtable addr with
    | None => Ok (-1, w)
    | Some rt =>
        let rt := if rt_addr_len rt =? 0
                  then rt <| rt_next_hop := blit (rt_next_hop rt) 0 addr |> <| rt_addr_len := 4 |>
                  else rt in
        Ok (i32 (rt_if_idx rt), buf_set w m (e <| priv_data := Some (minfo <| route := rt |>) |>))
    end
  else Ok (-1, w).

Definition router_ip_output (m : positive) (out : Z) (w : world T) : outcome (Z * world T) :=
  p ← ifnet_getbyidx (w_nd w) out;
  match p with
  | None => drop_pkt m w
  | Some p =>
      ifp ← dev_get w p;
      '(pass, w) ← firewall_process m (ifnet_idx ifp) PFIL_OUT w;
      if negb pass then Ok (-1, w) else
      '(r, w) ← prepare_enqueue net_if out m w;
      if r =? -1 then drop_pkt m w else Ok (0, w)
  end.

(** The state of the routing loop: the bitmap [egr_idx], [out_arr] as a flat
    array of [npkts] slots per device, and [ptr_arr] as offsets into it. *)
Record route_st := mk_route_st { egr_idx : Z; out_arr : list ebptr; ptr_arr : list Z }.

(** One packet of the loop: what becomes of [pkts[i]], and the new state. *)
Definition route_one (m : ebptr) (st : route_st) (w : world T) : outcome (ebptr * route_st * world T) :=
  m ← deref m;
  '(r, w) ← l2_input m w;
  if negb (r =? 0) then Ok (None, st, w) else
  self ← dev_get w net_if;
  '(pass, w) ← firewall_process m (ifnet_idx self) PFIL_IN w;
  if negb pass then Ok (None, st, w) else
  '(out, w) ← router_ip_route m w;
  if out =? -1 then w ← buf_free w (Some m); Ok (None, st, w) else
  '(r, w) ← router_ip_output m (u32 out) w;
  if r <? 0 then Ok (None, st, w) else
  let egr := u8 (Z.lor (egr_idx st) (Z.shiftl 1 out)) in
  pos ← aget (ptr_arr st) (out - 1);
  arr ← aset (out_arr st) pos (Some m);
  ptrs ← aset (ptr_arr st) (out - 1) (pos + 1);
  Ok (Some m, mk_route_st egr arr ptrs, w).

Fixpoint route_loop (pkts : list ebptr) (st : route_st) (w : world T)
    : outcome (list ebptr * route_st * world T) :=
  match pkts with
  | [] => Ok ([], st, w)
  | m :: pkts' =>
      '(m', st, w) ← route_one m st w;
      '(ms, st, w) ← route_loop pkts' st w;
      Ok (m' :: ms, st, w)
  end.

(** The batch enqueue for the devices [j], [j + 1], ... ([k] of them). *)
Fixpoint enqueue_loop (k : nat) (j : Z) (npkts : Z) (st : route_st) (w : world T) : outcome (world T) :=
  match k with
  | O => Ok w
  | S k' =>
      if Z.land (egr_idx st) (Z.shiftl 1 j) =? 0 then enqueue_loop k' (j + 1) npkts st w else
      pos ← aget (ptr_arr st) (j - 1);
      let n := pos - (j - 1) * npkts in
      ms ← mem_read (out_arr st) ((j - 1) * npkts) n;
      '(_, w) ← pktq_do_menqueue net_if j ms (u32 n) w;
      enqueue_loop k' (j + 1) npkts st w
  end.

(** The caller's array afterwards, and the world. *)
Definition router_if_input (pkts : list ebptr) (w : world T) : outcome (list ebptr * world T) :=
  let npkts := Z.of_nat (length pkts) in
  if npkts =? 0 then Ok (pkts, w) else
  let dev_count := ifnet_dev_count (w_nd w) in
  if negb alloc then w ← free_bufs pkts w; Ok (pkts, w) else
  let out_arr := replicate (Z.to_nat (npkts * dev_count)) None in
  let ptr_arr := map (fun i => Z.of_nat i * npkts) (seq 0 (Z.to_nat dev_count)) in
  '(pkts, st, w) ← route_loop pkts (mk_route_st 0 out_arr ptr_arr) w;
  w ← enqueue_loop (Z.to_nat dev_count) 1 npkts st w;
  Ok (pkts, w).

End worker.

(** ** What the pipeline is given *)

(** NPF rewrites a packet in place: only its bytes may change. *)
Definition npf_in_place (npf : nat -> Z -> Z -> bstgw_ethbuf_t -> Z * option bstgw_ethbuf_t) : Prop :=
  forall n di ifp e err e', npf n di ifp e = (err, Some e') ->
    exists b, e' = e <| bytes := b |> /\ length b = length (bytes e).

(** A received frame: more than a link-layer header, not at the far end of
    its buffer, not yet through the pipeline. *)
Record frame_ok (e : bstgw_ethbuf_t) : Prop := {
  fo_len : 15 <= data_len e;
  fo_off : data_off e <= 1024;
  fo_flags : forall pr, priv_data e = Some pr -> flags pr = 0
}.

(** A packet between link-layer input and output. *)
Record ip_ok (e : bstgw_ethbuf_t) : Prop := {
  io_len : 1 <= data_len e;
  io_off : data_off e <= 1038
}.

Section pipeline.
Context {T : Type} `{ThMap T} {L : Type} `{Lpm L route_info_t}.
Context (npf : nat -> Z -> Z -> bstgw_ethbuf_t -> Z * option bstgw_ethbuf_t).
Context (rtable : L) (alloc arp_alloc : bool) (net_if : positive).
Implicit Types w : world T.

(** The effect of a step on the rest of the world, [l] being the buffers held
    elsewhere. *)
Definition rest_same (w w' : world T) (l : list positive) : Prop :=
  nd_frame (w_nd w) (w_nd w') /\ forall j, j ∈ l -> bufs (w_pool w') !! j = bufs (w_pool w) !! j.

Lemma rest_same_refl w l : rest_same w w l.
Proof. done. Qed.

Lemma rest_same_trans w1 w2 w3 l : rest_same w1 w2 l -> rest_same w2 w3 l -> rest_same w1 w3 l.
Proof.
  intros [F1 B1] [F2 B2]. split; [by eapply nd_frame_trans|]. intros j Hj. rewrite B2, B1; done.
Qed.

(** A pending buffer is none of the others. *)
Lemma owned_ne w l m j : owned w (m :: l) -> j ∈ l -> j <> m.
Proof.
  intros [[Hp _ _ _] Hin] Hj ->. destruct Hp as [Hnd _ _ _ _]. apply NoDup_app in Hnd as (_ & _ & Hnd).
  rewrite Hin in Hnd. rewrite <- Permutation_middle in Hnd. apply NoDup_cons in Hnd as [Hm _]. set_solver.
Qed.

Lemma rest_same_set w m e l : owned w (m :: l) -> rest_same w (buf_set w m e) l.
Proof.
  intros Ho. split; [done|]. intros j Hj. cbn. rewrite lookup_insert_ne; [done|].
  intros ->. by eapply (owned_ne w l j j).
Qed.

(** Dropping the pending packet. *)
Lemma drop_owned w l m :
  owned w (m :: l) ->
  exists w', drop_pkt m w = Ok (-1, w') /\ buf_free w (Some m) = Ok w' /\ owned w' l /\ rest_same w w' l.
Proof.
  intros Ho. destruct (owned_free w l m Ho) as (w' & e' & E & Ho' & Hn & _ & _ & Hb).
  exists w'. unfold drop_pkt. rewrite E. split; [done|]. split; [done|]. split; [done|]. split; [by rewrite Hn|].
  intros j Hj. rewrite Hb, lookup_insert_ne; [done|]. intros ->. by eapply (owned_ne w l j j).
Qed.

Lemma arp_bytes_length l : length l = 28%nat ->
  length (arp_sha (arp_of_bytes l)) = 6%nat /\ length (arp_sip (arp_of_bytes l)) = 4%nat /\
  length (arp_tip (arp_of_bytes l)) = 4%nat /\ length (arp_hardware (arp_of_bytes l)) = 2%nat /\
  length (arp_protocol (arp_of_bytes l)) = 2%nat.
Proof. intros Hl. cbn. rewrite !length_take, !length_drop. lia. Qed.

Lemma arp_cache_add_ok d ip hw b :
  dev_ok d -> length hw = 6%nat ->
  exists d', arp_cache_add arp_alloc d ip hw b = Ok d' /\ dev_ok d' /\ ifnet_idx d' = ifnet_idx d /\
    egress_queue d' = egress_queue d /\ hwaddr d' = hwaddr d /\
    exists t t', arp_cache d = Some t /\ arp_cache d' = Some t' /\
      (forall k h, th_get t k = Some h -> th_get t' k = Some h) /\
      (forall k h, th_get t' k = Some h -> th_get t k = Some h \/ b = true /\ k = ip /\ h = hw).
Proof.
  intros Hok Hl. pose proof Hok as [K1 K2 K3 (t & K4 & K4') K5 K6]. unfold arp_cache_add. rewrite K4. cbn [deref mbind outcome_bind].
  assert (Hsame : dev_ok d /\ ifnet_idx d = ifnet_idx d /\ egress_queue d = egress_queue d /\ hwaddr d = hwaddr d /\
    exists t t', arp_cache d = Some t /\ arp_cache d = Some t' /\
      (forall k h, th_get t k = Some h -> th_get t' k = Some h) /\
      (forall k h, th_get t' k = Some h -> th_get t k = Some h \/ b = true /\ k = ip /\ h = hw)) by naive_solver.
  destruct (th_get t ip) eqn:E; [exists d; split; [done|by rewrite <- K4]|]. destruct b; [|exists d; split; [done|by rewrite <- K4]]. destruct arp_alloc; [cbn [negb orb]|exists d; split; [done|by rewrite <- K4]].
  destruct (th_put t ip hw) as [r t'] eqn:Ep.
  assert (Hget : forall k v, th_get t' k = Some v -> th_get t k = Some v \/ k = ip /\ v = hw).
  { intros k v Hv. destruct (th_put_spec _ _ _ _ _ Ep) as [P1 P2]. destruct r; [|rewrite P2 in Hv by done; auto].
    destruct (P1 eq_refl) as [_ P]. rewrite P in Hv. destruct (decide (ip = k)); [right; naive_solver|auto]. }
  eexists. split; [done|]. split_and!; try done.
  - split; try done. exists t'. split; [done|]. intros k v Hv. destruct (Hget k v Hv) as [?|[_ ->]]; [by eapply K4'|done].
  - exists t, t'. split; [done|]. split; [done|]. split.
    + intros k v Hv. destruct (th_put_spec _ _ _ _ _ Ep) as [P1 P2]. destruct r; [|by rewrite P2].
      destruct (P1 eq_refl) as [_ ->]. rewrite decide_False; congruence.
    + intros k v Hv. destruct (Hget k v Hv) as [?|[-> ->]]; auto.
Qed.

(** The reply to a request from [ah]'s sender. *)
Definition arp_answer (hw : list Z) (ah : arp_hdr) : arp_hdr :=
  mk_arp_hdr (arp_hardware ah) (arp_protocol ah) (arp_hlen ah) (arp_plen ah) (be16 RTE_ARP_OP_REPLY)
    hw (arp_tip ah) (arp_sha ah) (arp_sip ah).

Lemma arp_answer_length hw b :
  length b = 28%nat -> length hw = 6%nat -> length (arp_bytes (arp_answer hw (arp_of_bytes b))) = 28%nat.
Proof.
  intros Hb Hh. destruct (arp_bytes_length b Hb) as (Bsha & Bsip & Btip & Bhw & Bpr).
  unfold arp_bytes. cbn [arp_answer arp_hardware arp_protocol arp_opcode arp_sha arp_sip arp_tha arp_tip].
  rewrite !length_app, Bhw, Bpr, Hh, Btip, Bsha, Bsip. done.
Qed.

(** [n] bytes of a buffer from offset [o] of its packet on. *)
Definition pkt_bytes (e : bstgw_ethbuf_t) (o n : nat) : list Z := take n (drop (Z.to_nat (data_off e) + o) (bytes e)).

(** The three writes of the reply, in the order of the code. *)
Lemma reply_bytes (b A hw : list Z) o :
  length A = 28%nat -> length hw = 6%nat -> (o + 42 <= length b)%nat ->
  let b1 := blit b (o + 14) A in
  take 42 (drop o (blit (blit b1 o (take 6 (drop (o + 6) b1))) (o + 6) hw))
    = take 6 (drop (o + 6) b) ++ hw ++ take 2 (drop (o + 12) b) ++ A.
Proof.
  intros HA Hh Hb b1.
  destruct (cut_at o b) as (p & b' & -> & Hp); [lia|]. rewrite length_app in Hb.
  destruct (cut_at 6 b') as (dd & b'' & -> & Hd); [lia|]. rewrite length_app in Hb.
  destruct (cut_at 6 b'') as (ss & b3 & -> & Hs); [lia|]. rewrite length_app in Hb.
  destruct (cut_at 2 b3) as (tt & b4 & -> & Ht); [lia|]. rewrite length_app in Hb.
  destruct (cut_at 28 b4) as (aa & r & -> & Ha); [lia|].
  assert (E1 : b1 = p ++ dd ++ ss ++ tt ++ A ++ r).
  { unfold b1. replace (p ++ dd ++ ss ++ tt ++ aa ++ r) with ((p ++ dd ++ ss ++ tt) ++ aa ++ r) by (by rewrite <- !app_assoc).
    rewrite blit_mid by (rewrite ?length_app; lia). by rewrite <- !app_assoc. }
  assert (S1 : forall x, take 6 (drop (o + 6) (p ++ dd ++ ss ++ x)) = ss).
  { intros x. rewrite (app_assoc p), drop_app_length' by (rewrite length_app; lia). by rewrite take_app_length'. }
  rewrite E1, !S1, blit_mid by lia.
  replace (p ++ ss ++ ss ++ tt ++ A ++ r) with ((p ++ ss) ++ ss ++ (tt ++ A ++ r)) by (by rewrite <- !app_assoc).
  rewrite blit_mid by (rewrite ?length_app; lia). rewrite <- (app_assoc p ss), drop_app_length' by lia.
  replace (ss ++ hw ++ tt ++ A ++ r) with ((ss ++ hw ++ tt ++ A) ++ r) by (by rewrite <- !app_assoc).
  rewrite take_app_length' by (rewrite !length_app; lia). do 2 f_equal.
  replace (p ++ dd ++ ss ++ tt ++ aa ++ r) with ((p ++ dd ++ ss) ++ tt ++ (aa ++ r)) by (by rewrite <- !app_assoc).
  rewrite drop_app_length' by (rewrite !length_app; lia). by rewrite take_app_length'.
Qed.

(** The reply to a request in a buffer held by the worker: it is queued on the
    device the request came from, or freed if the queue is full. *)
Lemma arp_reply_owned w l m e d q ah :
  owned w (m :: l) -> net_if ∈ netdev_list (w_nd w) -> bufs (w_pool w) !! m = Some e -> frame_ok e ->
  devs (w_nd w) !! net_if = Some d -> dev_ok d -> egress_queue d = Some q ->
  length (arp_bytes (arp_answer (hwaddr d) ah)) = 28%nat ->
  exists w' q' e', arp_reply net_if d ah (data_off e + 14) e m w = Ok (1, w') /\ owned w' l /\ rest_same w w' l /\
    devs (w_nd w') = <[net_if := d <| egress_queue := Some q' |>]> (devs (w_nd w)) /\
    pq_abs q' = fifo_push (Z.to_nat (Pktq.capacity q)) [Some m] (pq_abs q) /\
    (count q < Pktq.capacity q -> bufs (w_pool w') !! m = Some e') /\
    data_off e' = data_off e /\ data_len e' = data_len e /\
    pkt_bytes e' 0 42 = pkt_bytes e 6 6 ++ hwaddr d ++ pkt_bytes e 12 2 ++ arp_bytes (arp_answer (hwaddr d) ah).
Proof.
  intros Ho Hself He [Flen Foff Ffl] Hd Hok Hq Hah.
  destruct (owned_buf w _ m Ho ltac:(set_solver)) as (e0 & He0 & Hwf & Hnx & Hcap). assert (e0 = e) as -> by congruence.
  destruct (Hwf) as [K1 K2 K3 K4 K5 K6]. unfold MAX_I32 in *. pose proof (dk_hw d Hok) as Hhl.
  unfold arp_reply. change (arp_bytes (_ <| arp_sip := _ |>)) with (arp_bytes (arp_answer (hwaddr d) ah)).
  set (A := arp_bytes (arp_answer (hwaddr d) ah)) in *.
  rewrite mem_write_ok by lia. cbn [mbind outcome_bind]. rewrite (data_ptr_spec e 0) by (done || lia). cbn [mbind outcome_bind].
  rewrite (proj2 (Z.ltb_lt 0 (data_len e))) by lia. cbn [deref mbind outcome_bind]. rewrite Z.add_0_r.
  pose proof (length_blit (bytes e) (Z.to_nat (data_off e + 14)) A ltac:(lia)) as Hb1.
  rewrite mem_read_ok by lia. cbn [mbind outcome_bind].
  set (b1 := blit (bytes e) (Z.to_nat (data_off e + 14)) A) in *.
  assert (Hsa : length (take (Z.to_nat 6) (drop (Z.to_nat (data_off e + 6)) b1)) = 6%nat) by (rewrite length_take, length_drop; lia).
  rewrite mem_write_ok by lia. cbn [mbind outcome_bind].
  rewrite mem_write_ok by (rewrite ?length_blit; lia). cbn [mbind outcome_bind].
  match goal with |- context [buf_set w m ?x] => set (e1 := x) end.
  assert (Hwf1 : eb_wf e1).
  { unfold e1. split; cbn; unfold MAX_I32; rewrite ?length_blit by (rewrite ?length_blit; lia); try lia; done. }
  pose proof Ho as [[_ _ Hg _] _]. destruct (dev_lookup _ net_if d Hg Hself Hd) as (Hir & Hgi & _).
  destruct (ebw_priv e Hwf) as [pr Hpr]. specialize (Ffl pr Hpr).
  unfold pktq_enqueue, pktq_enqueue_with, prepare_enqueue, output_fuel.
  rewrite (prepare_no_l2 1 net_if (ifnet_idx d) m _ e1 pr net_if) by (cbn; rewrite ?lookup_insert_eq, ?Ffl; done).
  cbn [mbind outcome_bind Z.eqb negb]. rewrite buf_set_set.
  set (e2 := e1 <| priv_data := Some (pr <| out_if_idx := ifnet_idx d |>) |>).
  assert (Ho3 : owned (buf_set w m e2) ([m] ++ l)) by (apply owned_buf_set; [done|set_solver|by apply eb_wf_priv|done|done]).
  destruct (menqueue_owned (buf_set w m e2) l [m] net_if (ifnet_idx d) net_if d q) as (r & w2 & q' & Em & Hr & Ho4 & Hf4 & Hb4 & Hd4 & Hq4 & Hroom);
    [done|done|cbn; unfold MAX_I32; lia|done|done|done|done|].
  change (pktq_do_menqueue net_if (ifnet_idx d) [Some m] 1 (buf_set w m e2) = Ok (r, w2)) in Em.
  rewrite Em. cbn [mbind outcome_bind]. rewrite (proj2 (Z.leb_le 0 r)) by lia. cbn [Z.eqb].
  exists w2, q', e2. split_and!; try done.
  - split; [done|]. intros j Hj. rewrite Hb4 by (pose proof (owned_ne _ _ _ _ Ho Hj); set_solver).
    by apply (rest_same_set w m e2 l Ho).
  - intros Hc. rewrite Hroom by (cbn; lia). cbn. by rewrite lookup_insert_eq.
  - unfold pkt_bytes. cbn. rewrite Nat.add_0_r. unfold b1.
    replace (Z.to_nat (data_off e + 14)) with (Z.to_nat (data_off e) + 14)%nat by lia.
    replace (Z.to_nat (data_off e + 6)) with (Z.to_nat (data_off e) + 6)%nat by lia.
    apply reply_bytes; [done|done|lia].
Qed.

(** ARP input takes the packet: it is freed, or queued as a reply. *)
Lemma arp_input_owned w l m e :
  owned w (m :: l) -> net_if ∈ netdev_list (w_nd w) -> bufs (w_pool w) !! m = Some e ->
  l2_len e = 14 -> frame_ok e ->
  defined (arp_input arp_alloc net_if m w) (fun '(r, w') => r <> 0 /\ owned w' l /\ rest_same w w' l).
Proof.
  intros Ho Hself He Hl2 Hfr. pose proof Hfr as [Flen Foff _].
  destruct (drop_owned w l m Ho) as (wd & Ed & _ & Hod & Hrd).
  destruct (owned_dev w _ net_if Ho Hself) as (d & Hd & Hok).
  destruct (owned_buf w _ m Ho ltac:(set_solver)) as (e0 & He0 & Hwf & Hnx & Hcap). assert (e0 = e) as -> by congruence.
  destruct (Hwf) as [K1 K2 K3 K4 K5 K6]. unfold MAX_I32 in *.
  unfold arp_input, dev_get, buf_get. rewrite Hd, He. cbn [deref mbind outcome_bind]. rewrite Hl2, (data_ptr_spec e 14) by (done || lia).
  cbn [mbind outcome_bind]. rewrite (proj2 (Z.ltb_lt 14 (data_len e))) by lia. cbn [deref mbind outcome_bind].
  unfold RTE_ARP_HDR_LEN. rewrite mem_read_ok by lia. cbn [mbind outcome_bind].
  set (b := take (Z.to_nat 28) (drop (Z.to_nat (data_off e + 14)) (bytes e))).
  assert (Hb : length b = 28%nat) by (unfold b; rewrite length_take, length_drop; lia).
  destruct (_ || _ || _); [rewrite Ed; done|].
  destruct (arp_is_interesting (arp_of_bytes b) d) as [int tgt]. destruct int; [|rewrite Ed; done]. cbn [negb].
  destruct (arp_cache_add_ok d (arp_sip (arp_of_bytes b)) (arp_sha (arp_of_bytes b)) tgt Hok ltac:(by apply arp_bytes_length))
    as (d' & -> & Hok' & Hidx & Hq & Hhw & _). cbn [mbind outcome_bind].
  assert (Ho1 : owned (dev_set w net_if d') (m :: l)) by (eapply owned_dev_set; eauto).
  set (w1 := dev_set w net_if d') in *.
  assert (R1 : rest_same w w1 l) by done.
  destruct (tgt && _).
  2: { destruct (drop_owned w1 l m Ho1) as (w2 & -> & _ & Ho2 & R2). cbn. split; [done|]. split; [done|]. by eapply rest_same_trans. }
  destruct (dk_queue d' Hok') as (q & Hq' & _).
  destruct (arp_reply_owned w1 l m e d' q (arp_of_bytes b)) as (w' & q' & e' & -> & Ho' & R' & _);
    [done|done|done|done|cbn; by rewrite lookup_insert_eq|done|done| |].
  { by apply arp_answer_length, dk_hw. }
  split; [done|]. split; [done|]. by eapply rest_same_trans.
Qed.

(** A packet in the pipeline: pending, with a buffer that satisfies [P]. *)
Definition pending (P : bstgw_ethbuf_t -> Prop) (w : world T) (m : positive) (l : list positive) : Prop :=
  owned w (m :: l) /\ exists e, bufs (w_pool w) !! m = Some e /\ P e.

Lemma l2_input_owned w l m :
  pending frame_ok w m l -> net_if ∈ netdev_list (w_nd w) ->
  defined (l2_input arp_alloc net_if m w) (fun '(r, w') =>
    rest_same w w' l /\ if r =? 0 then pending ip_ok w' m l else owned w' l).
Proof.
  intros (Ho & e & He & Fo) Hself. pose proof Fo as [Flen Foff Ffl].
  destruct (owned_buf w _ m Ho ltac:(set_solver)) as (e0 & He0 & Hwf & Hnx & Hcap). assert (e0 = e) as -> by congruence.
  destruct (Hwf) as [K1 K2 K3 K4 K5 [pr Hpr]]. unfold MAX_I32 in *.
  unfold l2_input, buf_get. rewrite He. cbn [deref mbind outcome_bind]. destruct (_ =? 0); [done|].
  rewrite (data_ptr_spec e 0) by (done || lia). cbn [mbind outcome_bind]. rewrite (proj2 (Z.ltb_lt 0 (data_len e))) by lia.
  cbn [deref mbind outcome_bind]. rewrite mem_read_ok by lia. cbn [mbind outcome_bind]. rewrite Hpr. cbn [deref mbind outcome_bind].
  set (ty := u16_of_bytes _). set (pr1 := pr <| ether_type := ty |>).
  set (e1 := e <| priv_data := Some pr1 |> <| l2_len := RTE_ETHER_HDR_LEN |>).
  assert (Hwf1 : eb_wf e1) by (unfold e1; split; cbn; unfold MAX_I32; try lia; by eexists).
  assert (Ho1 : owned (buf_set w m e1) (m :: l)) by (apply owned_buf_set; [done|set_solver|done..]).
  assert (R1 : rest_same w (buf_set w m e1) l) by (by apply rest_same_set).
  destruct (ntohs ty =? RTE_ETHER_TYPE_ARP).
  { eapply defined_mono; [|apply (arp_input_owned (buf_set w m e1) l m e1); try done].
    - intros [r w'] (Hr & Ho' & R'). split; [by eapply rest_same_trans|]. by rewrite (proj2 (Z.eqb_neq _ _)).
    - cbn. by rewrite lookup_insert_eq.
    - split; cbn; try done. intros pr' [= <-]. cbn. auto. }
  destruct (ntohs ty =? RTE_ETHER_TYPE_IPV4).
  2: { destruct (drop_owned _ l m Ho1) as (w2 & -> & _ & Ho2 & R2). cbn. split; [by eapply rest_same_trans|done]. }
  set (e2 := e1 <| packet_type := Z.lor (packet_type e1) RTE_PTYPE_L3_IPV4 |>).
  assert (Hwf2 : eb_wf e2) by (destruct Hwf1; unfold e2; by split).
  destruct (precut_spec e2 RTE_ETHER_HDR_LEN Hwf2) as (C1 & C2 & C3 & C4 & C5 & _); [unfold RTE_ETHER_HDR_LEN; cbn; lia|].
  destruct (bstgw_ethbuf_precut e2 RTE_ETHER_HDR_LEN) as [cut e3] eqn:Ec. cbn [fst snd] in *. subst cut. cbn [defined].
  unfold RTE_ETHER_HDR_LEN in *.
  assert (Hc3 : buf_cap e3 = buf_cap e).
  { unfold bstgw_ethbuf_precut in Ec. destruct (_ <? _); injection Ec as _ <-; done. }
  rewrite buf_set_set. split; [by apply rest_same_set|]. cbn [Z.eqb]. split.
  - apply owned_buf_set; [done|set_solver|by apply eb_wf_priv|by cbn; rewrite C3|cbn; lia].
  - eexists. cbn. rewrite lookup_insert_eq. split; [done|]. cbn in C4, C5. split; cbn; lia.
Qed.

Lemma firewall_owned w l m ifp di :
  npf_in_place npf -> pending ip_ok w m l ->
  exists pass w', firewall_process npf m ifp di w = Ok (pass, w') /\ rest_same w w' l /\
    if pass then
      pending ip_ok w' m l /\ exists e e', bufs (w_pool w) !! m = Some e /\ bufs (w_pool w') !! m = Some e' /\ priv_data e' = priv_data e
    else owned w' l.
Proof.
  intros Hnpf (Ho & e & He & Hip). unfold firewall_process, buf_get. rewrite He. cbn [deref mbind outcome_bind].
  destruct (owned_buf w _ m Ho ltac:(set_solver)) as (e0 & He0 & Hwf & Hnx & Hcap). assert (e0 = e) as -> by congruence.
  destruct (npf (w_npf w) di ifp e) as [err r] eqn:En.
  assert (Ho1 : owned (w <| w_npf ::= S |>) (m :: l)) by (by apply (owned_log w)).
  destruct r as [e'|].
  - destruct (Hnpf _ _ _ _ _ _ En) as (b & -> & Hb).
    assert (Hwf' : eb_wf (e <| bytes := b |>)) by (destruct Hwf; split; cbn; try done; lia).
    assert (Ho2 : owned (buf_set (w <| w_npf ::= S |>) m (e <| bytes := b |>)) (m :: l))
      by (apply owned_buf_set; [done|set_solver|done..]).
    assert (R2 : rest_same w (buf_set (w <| w_npf ::= S |>) m (e <| bytes := b |>)) l) by (by apply (rest_same_set _ m _ l Ho1)).
    destruct (negb (err =? 0)).
    + destruct (drop_owned _ l m Ho2) as (w3 & _ & -> & Ho3 & R3). cbn. exists false, w3. split; [done|].
      split; [by eapply rest_same_trans|done].
    + eexists true, _. split; [done|]. split; [done|]. destruct Hip. split; [split; [done|]|].
      * eexists. cbn. rewrite lookup_insert_eq. split; [done|]. by split.
      * eexists e, _. cbn. rewrite lookup_insert_eq. done.
  - destruct (drop_owned _ l m Ho1) as (w3 & _ & E & Ho3 & R3). unfold buf_free in E.
    unfold bstgw_mbuf_free. change (w_pool (w <| w_npf ::= S |>)) with (w_pool w) in *.
    destruct (bstgw_ethpool_buf_free (Some m) (w_pool w)) as [p'| |]; [|done..]. cbn in *. injection E as <-.
    eexists false, _. split; [done|]. split; [exact R3|exact Ho3].
Qed.

(** The routes of the table name devices that could exist. *)
Definition rtable_ok : Prop :=
  forall a rt, route_lookup rtable a = Some rt -> rt_ok rt /\ rt_if_idx rt <= MAX_I32.

Lemma ip_route_owned w l m :
  rtable_ok -> pending ip_ok w m l ->
  exists out w', router_ip_route rtable m w = Ok (out, w') /\ rest_same w w' l /\
    (out = -1 \/ 0 <= out <= MAX_I32) /\
    pending (fun e => ip_ok e /\ (0 <= out -> exists pr, priv_data e = Some pr /\ rt_ok (route pr))) w' m l.
Proof.
  intros Hrt (Ho & e & He & Hip). pose proof Hip as [I1 I2]. unfold router_ip_route, buf_get. rewrite He. cbn [deref mbind outcome_bind].
  destruct (owned_buf w _ m Ho ltac:(set_solver)) as (e0 & He0 & Hwf & Hnx & Hcap). assert (e0 = e) as -> by congruence.
  pose proof Hwf as [K1 K2 K3 K4 K5 [pr Hpr]]. unfold MAX_I32 in *. rewrite Hpr. cbn [deref mbind outcome_bind].
  assert (Fail : rest_same w w l /\ (-1 = -1 \/ 0 <= -1 <= 2147483647) /\
    pending (fun e => ip_ok e /\ (0 <= -1 -> exists pr, priv_data e = Some pr /\ rt_ok (route pr))) w m l).
  { split; [done|]. split; [by left|]. split; [done|]. exists e. split; [done|]. split; [done|lia]. }
  destruct (negb _); [|by exists (-1), w].
  rewrite (data_ptr_spec e 0) by (done || lia). cbn [mbind outcome_bind]. rewrite (proj2 (Z.ltb_lt 0 (data_len e))) by lia.
  cbn [deref mbind outcome_bind]. rewrite mem_read_ok by lia. cbn [mbind outcome_bind].
  destruct (aget_in_range (bytes e) (data_off e + 0 + 8)) as [ttl ->]; [lia|]. cbn [mbind outcome_bind].
  destruct (ttl <=? 1); [by exists (-1), w|].
  set (addr := take _ _). assert (Hal : length addr = 4%nat) by (unfold addr; rewrite length_take, length_drop; lia).
  destruct (route_lookup rtable addr) as [rt|] eqn:Er; [|by exists (-1), w].
  destruct (Hrt addr rt Er) as [[R1 R2 R3] R4]. unfold MAX_I32 in R4. clear Fail.
  match goal with |- context [i32 (rt_if_idx ?x)] => set (rt' := x) end.
  assert (Hok' : rt_ok rt' /\ rt_if_idx rt' = rt_if_idx rt).
  { unfold rt'. destruct (rt_addr_len rt =? 0); [|by repeat split]. repeat split; cbn; try done. rewrite length_blit; lia. }
  destruct Hok' as [Hok' Hi']. rewrite Hi', i32_small by lia.
  eexists _, _. split; [done|]. split; [by apply rest_same_set|]. split; [right; lia|]. split.
  - apply owned_buf_set; [done|set_solver|by apply eb_wf_priv|done|done].
  - eexists. cbn. rewrite lookup_insert_eq. split; [done|]. split; [by split|]. intros _. eexists. split; [done|]. done.
Qed.

Lemma ip_output_owned w l m out :
  npf_in_place npf -> net_if ∈ netdev_list (w_nd w) -> 0 <= out <= MAX_I32 ->
  pending (fun e => ip_ok e /\ exists pr, priv_data e = Some pr /\ rt_ok (route pr)) w m l ->
  defined (router_ip_output npf net_if m out w) (fun '(r, w') => rest_same w w' l /\
    if r <? 0 then owned w' l else owned w' (m :: l) /\ 1 <= out < next_if_idx (w_nd w)).
Proof.
  intros Hnpf Hself Hout (Ho & e & He & Hip & pr & Hpr & Hrt). unfold router_ip_output.
  destruct (owned_getbyidx w _ out Ho ltac:(lia)) as [->|(p & d & Hg & Hp & Hd & Hok & Hrange)].
  { cbn [mbind outcome_bind]. destruct (drop_owned w l m Ho) as (w2 & -> & _ & Ho2 & R2). cbn. done. }
  rewrite Hg. cbn [mbind outcome_bind]. unfold dev_get. rewrite Hd. cbn [deref mbind outcome_bind].
  destruct (firewall_owned w l m (ifnet_idx d) PFIL_OUT Hnpf) as (pass & w1 & -> & R1 & Hpass); [by split; [|eauto]|].
  cbn [mbind outcome_bind]. destruct pass; cbn [negb]; [|by cbn].
  destruct Hpass as [(Ho1 & e1 & He1 & Hip1) (e' & e1' & He' & He1' & Hpre)].
  assert (e' = e) as -> by congruence. assert (e1' = e1) as -> by congruence.
  apply defined_bind. unfold prepare_enqueue, output_fuel. eapply defined_mono; [|apply (prepare_owned 0 net_if out m w1 (m :: l) e1 pr)].
  - intros [r w2] (Ho2 & F2 & Hr & _ & B2).
    assert (R2 : rest_same w1 w2 l).
    { split; [done|]. intros j Hj. apply B2; [set_solver|]. by eapply owned_ne. }
    destruct Hr as [->| ->]; cbn [Z.eqb].
    + cbn. split; [by eapply rest_same_trans|done].
    + cbn [Z.eqb Pos.eqb]. destruct (drop_owned w2 l m Ho2) as (w3 & -> & _ & Ho3 & R3). cbn.
      split; [|done]. eapply rest_same_trans; [exact R1|]. by eapply rest_same_trans.
  - done.
  - destruct R1 as [(El & _) _]. by rewrite El.
  - set_solver.
  - lia.
  - done.
  - by rewrite Hpre.
  - done.
Qed.

(** ** The arrays of a burst

    [acc] is what the arrays stand for: the packets for each of the [k]
    devices, in order. *)
Record arrays_ok (n : Z) (k : nat) (st : route_st) (acc : list (list positive)) : Prop := {
  ao_ptr : length (ptr_arr st) = k;
  ao_acc : length acc = k;
  ao_out : Z.of_nat (length (out_arr st)) = n * Z.of_nat k;
  ao_all : Z.of_nat (length (concat acc)) <= n;
  ao_seg : forall j ms, acc !! j = Some ms ->
    ptr_arr st !! j = Some (Z.of_nat j * n + Z.of_nat (length ms)) /\
    take (length ms) (drop (Z.to_nat (Z.of_nat j * n)) (out_arr st)) = Some <$> ms /\
    Z.testbit (egr_idx st) (Z.of_nat j + 1) = negb (bool_decide (ms = []))
}.

Lemma length_concat_lookup {A} (acc : list (list A)) j ms :
  acc !! j = Some ms -> (length ms <= length (concat acc))%nat.
Proof.
  revert j. induction acc as [|x acc IH]; intros [|j] E; cbn in *; [done|done|..]; rewrite length_app.
  - injection E as ->. lia.
  - specialize (IH j E). lia.
Qed.

Lemma concat_insert {A} (acc : list (list A)) j ms m :
  acc !! j = Some ms -> concat (<[j := ms ++ [m]]> acc) ≡ₚ m :: concat acc.
Proof.
  revert j. induction acc as [|x acc IH]; intros [|j] E; cbn in *; [done|done|..].
  - injection E as ->. rewrite <- app_assoc. cbn. by rewrite Permutation_middle.
  - rewrite (IH j E). by rewrite Permutation_middle.
Qed.

Lemma arrays_push n k st acc j ms m :
  arrays_ok n k st acc -> acc !! j = Some ms -> (k <= 7)%nat -> 0 <= egr_idx st < 256 ->
  Z.of_nat (length (concat acc)) < n ->
  exists arr ptrs, aset (out_arr st) (Z.of_nat j * n + Z.of_nat (length ms)) (Some m) = Ok arr /\
    aget (ptr_arr st) (Z.of_nat j) = Ok (Z.of_nat j * n + Z.of_nat (length ms)) /\
    aset (ptr_arr st) (Z.of_nat j) (Z.of_nat j * n + Z.of_nat (length ms) + 1) = Ok ptrs /\
    arrays_ok n k (mk_route_st (u8 (Z.lor (egr_idx st) (Z.shiftl 1 (Z.of_nat j + 1)))) arr ptrs)
      (<[j := ms ++ [m]]> acc).
Proof.
  intros [Ap Aa Ao Al As] Hj Hk He Hn. pose proof (length_concat_lookup acc j ms Hj) as Hlj. pose proof (lookup_lt_Some _ _ _ Hj) as Hlt.
  destruct (As j ms Hj) as (Sp & Sd & Sb).
  assert (Hseg : 0 <= Z.of_nat j * n /\ Z.of_nat j * n + n <= n * Z.of_nat k) by nia.
  assert (Hpos : 0 <= Z.of_nat j * n + Z.of_nat (length ms) < Z.of_nat (length (out_arr st))) by lia.
  eexists _, _. split; [by apply aset_ok|]. split; [apply aget_ok; split; [lia|by rewrite Nat2Z.id]|].
  split; [apply aset_ok; lia|]. rewrite Nat2Z.id. split; cbn [ptr_arr out_arr egr_idx]; rewrite ?length_insert; try done.
  { rewrite (Permutation_length (concat_insert acc j ms m Hj)). cbn [length]. lia. }
  intros i ms' Hi. destruct (decide (i = j)) as [->|N].
  - rewrite list_lookup_insert_eq in Hi by lia. injection Hi as <-. rewrite length_app. cbn [length]. split; [|split].
    + rewrite list_lookup_insert_eq by lia. f_equal. lia.
    + replace (Z.to_nat (Z.of_nat j * n + Z.of_nat (length ms))) with (Z.to_nat (Z.of_nat j * n) + length ms)%nat by nia.
      rewrite drop_insert_ge by lia. replace (Z.to_nat (Z.of_nat j * n) + length ms - Z.to_nat (Z.of_nat j * n))%nat with (length ms) by lia.
      replace (length ms + 1)%nat with (S (length ms)) by lia.
      rewrite (take_S_r _ _ (Some m)) by (apply list_lookup_insert_eq; rewrite length_drop; lia).
      rewrite take_insert_ge by lia. by rewrite Sd, fmap_app.
    + rewrite bool_decide_eq_false_2 by (by destruct ms). unfold u8. change 256 with (2 ^ 8).
      rewrite Z.mod_pow2_bits_low, Z.lor_spec, Z.shiftl_spec by lia. rewrite Z.sub_diag, Z.bit0_odd. apply orb_true_r.
  - rewrite list_lookup_insert_ne in Hi by done. destruct (As i ms' Hi) as (Sp' & Sd' & Sb').
    pose proof (lookup_lt_Some _ _ _ Hi) as Hlt'. split; [by rewrite list_lookup_insert_ne|]. split.
    + pose proof (length_concat_lookup acc i ms' Hi) as Hli. rewrite <- Sd'.
      destruct (Nat.lt_ge_cases i j).
      * rewrite drop_insert_ge, take_insert_ge by nia. done.
      * rewrite drop_insert_lt by nia. done.
    + unfold u8. change 256 with (2 ^ 8).
      rewrite Z.mod_pow2_bits_low, Z.lor_spec, Z.shiftl_spec by lia.
      replace (Z.testbit 1 (Z.of_nat i + 1 - (Z.of_nat j + 1))) with false; [by rewrite orb_false_r|].
      symmetry. destruct (Z.lt_ge_cases (Z.of_nat i + 1 - (Z.of_nat j + 1)) 0); [by apply Z.testbit_neg_r|].
      apply (Z.bits_above_log2 1); cbn; lia.
Qed.

(** One packet: dropped or consumed, or put into the array of its device. *)
Lemma route_one_owned w l m n k st acc :
  npf_in_place npf -> rtable_ok -> net_if ∈ netdev_list (w_nd w) ->
  next_if_idx (w_nd w) = Z.of_nat k + 1 -> (k <= 7)%nat -> pending frame_ok w m l ->
  arrays_ok n k st acc -> 0 <= egr_idx st < 256 -> Z.of_nat (length (concat acc)) < n ->
  defined (route_one npf rtable arp_alloc net_if (Some m) st w) (fun '(m', st', w') =>
    rest_same w w' l /\ 0 <= egr_idx st' < 256 /\
    exists acc', arrays_ok n k st' acc' /\
      (m' = None /\ acc' = acc /\ owned w' l \/
       m' = Some m /\ concat acc' ≡ₚ m :: concat acc /\ owned w' (m :: l))).
Proof.
  intros Hnpf Hrt Hself Hnext Hk Hpend Harr Hegr Hlen. unfold route_one. cbn [deref mbind outcome_bind].
  apply defined_bind. eapply defined_mono; [|by apply l2_input_owned]. intros [r w1] [R1 H1].
  destruct (Z.eqb_spec r 0); cbn [negb]; [|cbn; split; [done|]; split; [done|]; exists acc; auto 10].
  pose proof R1 as [F1 _]. assert (Hself1 : net_if ∈ netdev_list (w_nd w1)) by (destruct F1 as [-> _]; done).
  destruct (owned_dev w1 _ net_if (proj1 H1) Hself1) as (d & Hd & Hok). unfold dev_get. rewrite Hd. cbn [deref mbind outcome_bind].
  destruct (firewall_owned w1 l m (ifnet_idx d) PFIL_IN Hnpf H1) as (pass & w2 & -> & R2 & H2). cbn [mbind outcome_bind].
  pose proof (rest_same_trans _ _ _ _ R1 R2) as R12.
  destruct pass; cbn [negb]; [|cbn; split; [done|]; split; [done|]; exists acc; auto 10]. destruct H2 as [H2 _].
  destruct (ip_route_owned w2 l m Hrt H2) as (out & w3 & -> & R3 & Hout & H3). cbn [mbind outcome_bind].
  pose proof (rest_same_trans _ _ _ _ R12 R3) as R13. destruct (Z.eqb_spec out (-1)) as [->|Hne].
  { destruct (drop_owned w3 l m (proj1 H3)) as (w4 & _ & -> & Ho4 & R4). cbn.
    split; [by eapply rest_same_trans|]. split; [done|]. exists acc. auto 10. }
  destruct Hout as [|Hout]; [done|]. unfold MAX_I32 in Hout. rewrite (u32_small out) by lia.
  pose proof R13 as [F3 _]. apply defined_bind. eapply defined_mono; [|apply (ip_output_owned w3 l m out)]; try done.
  2: { destruct F3 as [-> _]. done. }
  2: { destruct H3 as (Ho3 & e3 & He3 & Hip & Hpr). split; [done|]. exists e3. split; [done|]. split; [done|]. apply Hpr. lia. }
  intros [r4 w4] [R4 H4]. pose proof (rest_same_trans _ _ _ _ R13 R4) as R14.
  destruct (r4 <? 0); [cbn; split; [done|]; split; [done|]; exists acc; auto 10|].
  destruct H4 as [Ho4 Hr4]. destruct F3 as (_ & _ & F3). rewrite F3, Hnext in Hr4.
  assert (Hj : exists j ms, out = Z.of_nat j + 1 /\ acc !! j = Some ms).
  { destruct (lookup_lt_is_Some_2 acc (Z.to_nat (out - 1))) as [ms Hms]; [rewrite (ao_acc _ _ _ _ Harr); lia|].
    exists (Z.to_nat (out - 1)), ms. split; [lia|done]. }
  destruct Hj as (j & ms & -> & Hms). replace (Z.of_nat j + 1 - 1) with (Z.of_nat j) by lia.
  destruct (arrays_push n k st acc j ms m Harr Hms Hk Hegr Hlen) as (arr & ptrs & E1 & E2 & E3 & Harr').
  rewrite E2. cbn [mbind outcome_bind]. rewrite E1. cbn [mbind outcome_bind]. rewrite E3. cbn [mbind outcome_bind defined].
  split; [done|]. split; [cbn; unfold u8; apply Z.mod_pos_bound; lia|]. eexists. split; [exact Harr'|]. right.
  split; [done|]. split; [by apply concat_insert|done].
Qed.

Lemma route_loop_owned ms : forall w l n k st acc,
  npf_in_place npf -> rtable_ok -> net_if ∈ netdev_list (w_nd w) ->
  next_if_idx (w_nd w) = Z.of_nat k + 1 -> (k <= 7)%nat ->
  owned w (ms ++ concat acc ++ l) -> Forall (fun m => exists e, bufs (w_pool w) !! m = Some e /\ frame_ok e) ms ->
  arrays_ok n k st acc -> 0 <= egr_idx st < 256 -> Z.of_nat (length (concat acc) + length ms) <= n ->
  defined (route_loop npf rtable arp_alloc net_if (Some <$> ms) st w) (fun '(_, st', w') =>
    nd_frame (w_nd w) (w_nd w') /\ exists acc', arrays_ok n k st' acc' /\ owned w' (concat acc' ++ l)).
Proof.
  induction ms as [|m ms IH]; intros w l n k st acc Hnpf Hrt Hself Hnext Hk Ho Hall Harr Hegr Hlen.
  - cbn. split; [done|]. exists acc. done.
  - rewrite fmap_cons. cbn [route_loop]. apply Forall_cons in Hall as [Hm Hall]. cbn [length] in Hlen.
    apply defined_bind. eapply defined_mono; [|apply (route_one_owned w (ms ++ concat acc ++ l) m n k st acc); try done; try lia].
    intros [[m' st1] w1] [[F1 B1] [Hegr1 (acc1 & Harr1 & Hcase)]].
    assert (Hall1 : Forall (fun m => exists e, bufs (w_pool w1) !! m = Some e /\ frame_ok e) ms).
    { eapply Forall_impl; [apply Forall_and; split; [exact Hall|apply Forall_forall; intros x Hx; exact Hx]|].
      intros x [(e & He & Hf) Hx]. exists e. rewrite B1 by set_solver. done. }
    assert (Hstep : owned w1 (ms ++ concat acc1 ++ l) /\ Z.of_nat (length (concat acc1) + length ms) <= n).
    { destruct Hcase as [(_ & -> & Ho1)|(_ & Hp & Ho1)]; [split; [done|lia]|]. split.
      - eapply owned_perm; [|exact Ho1]. rewrite Hp. solve_Permutation.
      - rewrite (Permutation_length Hp). cbn [length]. lia. }
    destruct Hstep as [Ho1 Hlen1]. apply defined_bind.
    eapply defined_mono; [|apply (IH w1 l n k st1 acc1); try done].
    + intros [[ms' st2] w2] [F2 Hres]. cbn. split; [by eapply nd_frame_trans|done].
    + destruct F1 as [-> _]. done.
    + destruct F1 as (_ & _ & ->). done.
Qed.

Lemma land_bit_zero x j : 0 <= j -> (Z.land x (Z.shiftl 1 j) =? 0) = negb (Z.testbit x j).
Proof.
  intros Hj. rewrite Z.shiftl_1_l. destruct (Z.testbit x j) eqn:E.
  - apply Z.eqb_neq. intros E0. apply (f_equal (fun y => Z.testbit y j)) in E0.
    rewrite Z.land_spec, E, Z.pow2_bits_true, Z.bits_0 in E0 by lia. done.
  - apply Z.eqb_eq. apply Z.bits_inj'. intros i Hi. rewrite Z.land_spec, Z.pow2_bits_eqb, Z.bits_0 by lia.
    destruct (Z.eqb_spec j i) as [->|]; [by rewrite E|by rewrite andb_false_r].
Qed.

Lemma enqueue_loop_owned k : forall j w l n K st acc,
  1 <= j -> (Z.to_nat (j - 1) + k)%nat = K -> n <= MAX_I32 -> arrays_ok n K st acc ->
  net_if ∈ netdev_list (w_nd w) -> next_if_idx (w_nd w) = Z.of_nat K + 1 ->
  owned w (concat (drop (Z.to_nat (j - 1)) acc) ++ l) ->
  exists w', enqueue_loop net_if k j n st w = Ok w' /\ owned w' l.
Proof.
  induction k as [|k IH]; intros j w l n K st acc Hj HK Hn Harr Hself Hnext Ho.
  - exists w. split; [done|]. rewrite drop_ge in Ho by (rewrite (ao_acc _ _ _ _ Harr); lia). done.
  - cbn [enqueue_loop]. rewrite land_bit_zero by lia.
    destruct (lookup_lt_is_Some_2 acc (Z.to_nat (j - 1))) as [ms Hms]; [rewrite (ao_acc _ _ _ _ Harr); lia|].
    destruct (ao_seg _ _ _ _ Harr _ _ Hms) as (Sp & Sd & Sb).
    replace (Z.of_nat (Z.to_nat (j - 1)) + 1) with j in Sb by lia.
    replace (Z.of_nat (Z.to_nat (j - 1))) with (j - 1) in Sp, Sd by lia. rewrite Sb, negb_involutive.
    rewrite (drop_S _ _ _ Hms) in Ho. cbn [concat] in Ho. rewrite <- app_assoc in Ho.
    replace (S (Z.to_nat (j - 1))) with (Z.to_nat (j + 1 - 1)) in Ho by lia.
    case_bool_decide as Em.
    { subst ms. apply (IH (j + 1) w l n K st acc); try done; lia. }
    pose proof (length_concat_lookup acc _ ms Hms) as Hl. pose proof (ao_all _ _ _ _ Harr) as Hall.
    rewrite aget_lookup, Sp by lia. cbn [deref mbind outcome_bind].
    replace ((j - 1) * n + Z.of_nat (length ms) - (j - 1) * n) with (Z.of_nat (length ms)) by lia.
    assert (Hrd : mem_read (out_arr st) ((j - 1) * n) (Z.of_nat (length ms)) = Ok (Some <$> ms)).
    { rewrite mem_read_ok, Nat2Z.id, Sd; [done|nia|lia|].
      rewrite (ao_out _ _ _ _ Harr). nia. }
    rewrite Hrd. cbn [mbind outcome_bind]. unfold MAX_I32 in Hn. rewrite u32_small by lia.
    pose proof Ho as [[_ _ Hg _] _]. pose proof (getbyidx_spec _ j Hg ltac:(lia)) as G. rewrite Hnext in G.
    destruct (ifnet_getbyidx (w_nd w) j) as [[p|]| |] eqn:Eg; try lia. destruct G as (_ & Hp & _).
    destruct (owned_dev w _ p Ho Hp) as (d & Hd & Hok). destruct (dk_queue d Hok) as (q & Hq & _).
    destruct (menqueue_owned w (concat (drop (Z.to_nat (j + 1 - 1)) acc) ++ l) ms net_if j p d q)
      as (r & w1 & q' & Em1 & _ & Ho1 & (F1 & _ & F3) & _); try done; [unfold MAX_I32; lia|].
    rewrite Em1. cbn [mbind outcome_bind]. apply (IH (j + 1) w1 l n K st acc); try done; [lia|lia|by rewrite F1|by rewrite F3].
Qed.

Lemma arrays_init n k :
  0 <= n ->
  arrays_ok n k (mk_route_st 0 (replicate (Z.to_nat (n * Z.of_nat k)) None)
                   (map (fun i => Z.of_nat i * n) (seq 0 k))) (replicate k []).
Proof.
  intros Hn. split; cbn [ptr_arr out_arr egr_idx].
  - by rewrite length_map, length_seq.
  - apply length_replicate.
  - rewrite length_replicate. nia.
  - assert (E : concat (replicate k (@nil positive)) = []) by (induction k; done). rewrite E. cbn. lia.
  - intros j ms Hj. apply lookup_replicate in Hj as [-> Hj]. split; [|split]; try done.
    + rewrite list_lookup_fmap, lookup_seq_lt by done. cbn. f_equal. lia.
    + by rewrite Z.bits_0.
Qed.

Lemma router_if_input_owned ms w l :
  npf_in_place npf -> rtable_ok -> net_if ∈ netdev_list (w_nd w) ->
  next_if_idx (w_nd w) <= 8 -> Z.of_nat (length ms) <= MAX_I32 ->
  owned w (ms ++ l) -> Forall (fun m => exists e, bufs (w_pool w) !! m = Some e /\ frame_ok e) ms ->
  defined (router_if_input npf rtable alloc arp_alloc net_if (Some <$> ms) w) (fun '(_, w') => owned w' l).
Proof.
  intros Hnpf Hrt Hself Hnext Hlen Ho Hall. unfold router_if_input. rewrite length_fmap.
  destruct (Z.eqb_spec (Z.of_nat (length ms)) 0); [by destruct ms|].
  pose proof Ho as [[_ _ Hg _] _]. pose proof (rw_next _ Hg) as Hr.
  destruct alloc; cbn [negb].
  2: { destruct (owned_free_bufs ms w l Ho) as (w' & -> & Ho' & _). done. }
  unfold ifnet_dev_count. rewrite u32_small by lia.
  set (k := Z.to_nat (next_if_idx (w_nd w) - 1)).
  replace (next_if_idx (w_nd w) - 1) with (Z.of_nat k) by lia.
  assert (E : concat (replicate k (@nil positive)) = []) by (induction k; done).
  apply defined_bind. eapply defined_mono; [|apply (route_loop_owned ms w l (Z.of_nat (length ms)) k _ (replicate k []));
    [done|done|done|lia|lia|by rewrite E|done|apply arrays_init; lia|cbn; lia|rewrite E; cbn; lia]].
  intros [[pk st] w1] [F1 (acc & Harr & Ho1)].
  destruct (enqueue_loop_owned k 1 w1 l (Z.of_nat (length ms)) k st acc) as (w2 & -> & Ho2); try done; try lia.
  - destruct F1 as [-> _]. done.
  - destruct F1 as (_ & _ & ->). lia.
Qed.

(** ** Properties *)

(** C1. Safety and conservation of the packet pipeline.  For up to seven
    devices, a firewall that rewrites packets in place or consumes them, and
    any burst of received frames longer than a link-layer header: routing the
    burst never reads or writes outside a buffer, an array or a queue and
    never uses a freed buffer; afterwards every buffer in use is in exactly
    one egress queue or with the owner it had before (so each frame of the
    burst, and each ARP request sent on the way, was queued once or freed
    once); the pool, the registry and the queues are well formed. *)
Theorem router_if_input_conserves ms w l :
  npf_in_place npf -> rtable_ok -> net_if ∈ netdev_list (w_nd w) ->
  next_if_idx (w_nd w) <= 8 -> Z.of_nat (length ms) <= MAX_I32 ->
  owned w (ms ++ l) -> Forall (fun m => exists e, bufs (w_pool w) !! m = Some e /\ frame_ok e) ms ->
  defined (router_if_input npf rtable alloc arp_alloc net_if (Some <$> ms) w) (fun '(_, w') => owned w' l).
Proof. apply router_if_input_owned. Qed.

(** C24. How ARP requests are answered.  A well-formed request in a received
    frame that targets the device (its own address, or any request on the
    interface to the normal world), with room in the device's transmit queue:
    the frame itself becomes the reply (addressed to the sender of the frame,
    from the device; sender and target of the request exchanged, the requested
    address now bound to the device's own) and is the last packet of that
    device's queue.  An entry of the ARP cache is never changed: what a sender
    says about an address already in the cache is ignored, although the
    comment above the call asks for an update.  The only entry that can be new
    is the sender's own claim. *)
Theorem arp_input_replies w l m e d q :
  owned w (m :: l) -> net_if ∈ netdev_list (w_nd w) -> bufs (w_pool w) !! m = Some e ->
  l2_len e = 14 -> frame_ok e -> devs (w_nd w) !! net_if = Some d -> egress_queue d = Some q ->
  count q < Pktq.capacity q ->
  let ah := arp_of_bytes (pkt_bytes e 14 28) in
  arp_hardware ah = be16 1 -> arp_hlen ah = 6 -> arp_plen ah = 4 -> arp_opcode ah = be16 RTE_ARP_OP_REQUEST ->
  arp_is_interesting ah d = (true, true) ->
  exists w' d' q' e' t t', arp_input arp_alloc net_if m w = Ok (1, w') /\ owned w' l /\
    devs (w_nd w') !! net_if = Some d' /\ egress_queue d' = Some q' /\ pq_abs q' = pq_abs q ++ [Some m] /\
    bufs (w_pool w') !! m = Some e' /\ data_len e' = data_len e /\
    pkt_bytes e' 0 42 = pkt_bytes e 6 6 ++ hwaddr d ++ pkt_bytes e 12 2 ++ arp_bytes (arp_answer (hwaddr d) ah) /\
    arp_cache d = Some t /\ arp_cache d' = Some t' /\
    (forall k h, th_get t k = Some h -> th_get t' k = Some h) /\
    (forall k h, th_get t' k = Some h -> th_get t k = Some h \/ k = arp_sip ah /\ h = arp_sha ah).
Proof.
  intros Ho Hself He Hl2 Hfr Hd Hq Hroom ah H1 H2 H3 H4 H5. pose proof Hfr as [Flen Foff _].
  destruct (owned_dev w _ net_if Ho Hself) as (d0 & Hd0 & Hok). assert (d0 = d) as -> by congruence.
  destruct (owned_buf w _ m Ho ltac:(set_solver)) as (e0 & He0 & Hwf & Hnx & Hcap). assert (e0 = e) as -> by congruence.
  destruct (dk_queue d Hok) as (q0 & Hq0 & Hqwf & _). assert (q0 = q) as -> by congruence. pose proof (pq_abs_length q Hqwf) as Hql.
  destruct (Hwf) as [K1 K2 K3 K4 K5 K6]. unfold MAX_I32 in *.
  assert (Hb : length (pkt_bytes e 14 28) = 28%nat) by (unfold pkt_bytes; rewrite length_take, length_drop; lia).
  unfold arp_input, dev_get, buf_get. rewrite Hd, He. cbn [deref mbind outcome_bind]. rewrite Hl2, (data_ptr_spec e 14) by (done || lia).
  cbn [mbind outcome_bind]. rewrite (proj2 (Z.ltb_lt 14 (data_len e))) by lia. cbn [deref mbind outcome_bind].
  unfold RTE_ARP_HDR_LEN. rewrite mem_read_ok by lia. cbn [mbind outcome_bind].
  replace (take (Z.to_nat 28) (drop (Z.to_nat (data_off e + 14)) (bytes e))) with (pkt_bytes e 14 28)
    by (unfold pkt_bytes; do 2 f_equal; lia).
  fold ah. rewrite bool_decide_true, H2, H3, H5, (bool_decide_true (arp_opcode ah = _)) by done. cbn [negb orb andb Z.eqb].
  destruct (arp_cache_add_ok d (arp_sip ah) (arp_sha ah) true Hok ltac:(by apply arp_bytes_length))
    as (d' & -> & Hok' & Hidx & Hq' & Hhw & t & t' & Ht & Ht' & Hold & Hnew). cbn [mbind outcome_bind Pos.eqb negb orb].
  assert (Ho1 : owned (dev_set w net_if d') (m :: l)) by (eapply owned_dev_set; eauto).
  destruct (arp_reply_owned (dev_set w net_if d') l m e d' q ah) as (w' & q' & e' & -> & Ho' & _ & Hd2 & Hq2 & Hb2 & _ & Hlen & Hpk);
    [done|done|done|done|cbn; by rewrite lookup_insert_eq|done|congruence|by apply arp_answer_length, dk_hw|].
  exists w', (d' <| egress_queue := Some q' |>), q', e', t, t'. rewrite Hd2, lookup_insert_eq, Hhw in *.
  split_and!; try done; [|by apply Hb2|naive_solver].
  rewrite Hq2. unfold fifo_push. f_equal. apply take_ge. destruct Hqwf. cbn [length]. lia.
Qed.

End pipeline.

(** ** An example: frames received by the device of [ex_world] *)

Definition ex_frame (l2 : Z) (frame : list Z) : bstgw_ethbuf_t :=
  mk_ethbuf None 15 l2 0 (Some (mk_priv 0 0 (mk_route_info 0 0 (replicate 16 0) 0) 0))
    64 0 2048 4096 (frame ++ replicate (2048 - length frame) 0) 63 0 0 0.

Lemma ex_frame_wf l2 frame : (length frame <= 64)%nat -> eb_wf (ex_frame l2 frame).
Proof.
  intros Hl. split; cbn -[Z.of_nat replicate]; unfold MAX_I32; rewrite ?length_app, ?length_replicate; try lia. by eexists.
Qed.

Lemma ex_frame_ok l2 frame : frame_ok (ex_frame l2 frame).
Proof. split; cbn; [lia|lia|]. by intros pr [= <-]. Qed.

(** Who has 10.0.0.1? asks 10.0.0.9. *)
Definition ex_arp : list Z :=
  replicate 6 255 ++ [2; 0; 0; 0; 0; 9] ++ [8; 6] ++
  [0; 1; 8; 0; 6; 4; 0; 1] ++ [2; 0; 0; 0; 0; 9] ++ [10; 0; 0; 9] ++ replicate 6 0 ++ [10; 0; 0; 1].

(** An IPv4 packet to 10.0.0.9. *)
Definition ex_ip : list Z :=
  [2; 0; 0; 0; 0; 1] ++ [2; 0; 0; 0; 0; 7] ++ [8; 0] ++
  [69; 0; 0; 28; 0; 0; 0; 0; 64; 17; 0; 0] ++ [10; 0; 1; 7] ++ [10; 0; 0; 9].

Definition ex_routes : list (list Z * Z * route_info_t) :=
  [([10; 0; 0; 0], 24, mk_route_info 1 0 (replicate 16 0) 0)].

Lemma ex_routes_ok : rtable_ok ex_routes.
Proof.
  intros a rt. unfold route_lookup. cbn. destruct (prefix_match _ _ _); [|done]. intros [= <-].
  split; [split; cbn; lia|cbn; unfold MAX_I32; lia].
Qed.

Lemma router_if_input_conserves_witness :
  defined (router_if_input (fun _ _ _ e => (0, Some e)) ex_routes true true 1 [Some 1%positive]
             (ex_world (ex_frame 0 ex_ip) (ex_queue 0 (replicate 4 None))))
    (fun '(_, w') => owned w' []).
Proof.
  apply (router_if_input_conserves (fun _ _ _ e => (0, Some e)) ex_routes true true 1 [1%positive]).
  - intros n di ifp e err e' [= <- <-]. exists (bytes e). split; [by destruct e|done].
  - exact ex_routes_ok.
  - cbn. set_solver.
  - cbn. lia.
  - unfold MAX_I32. cbn. lia.
  - apply ex_owned; [apply ex_frame_wf; cbn; lia|done|cbn; lia|done].
  - repeat constructor. exists (ex_frame 0 ex_ip). split; [done|apply ex_frame_ok].
Defined.

Lemma arp_input_replies_witness :
  exists w' d' q' e' t t',
    arp_input true 1 1 (ex_world (ex_frame 14 ex_arp) (ex_queue 0 (replicate 4 None))) = Ok (1, w') /\ owned w' [] /\
    devs (w_nd w') !! 1%positive = Some d' /\ egress_queue d' = Some q' /\ pq_abs q' = [] ++ [Some 1%positive] /\
    bufs (w_pool w') !! 1%positive = Some e' /\ data_len e' = 64 /\
    pkt_bytes e' 0 42 = [2; 0; 0; 0; 0; 9] ++ [2; 0; 0; 0; 0; 1] ++ [8; 6] ++
      arp_bytes (arp_answer [2; 0; 0; 0; 0; 1] (arp_of_bytes (pkt_bytes (ex_frame 14 ex_arp) 14 28))) /\
    Some {[ [10; 0; 0; 9] := [2; 0; 0; 0; 0; 9] ]} = Some t /\ arp_cache d' = Some t' /\
    (forall k h, th_get t k = Some h -> th_get t' k = Some h) /\
    (forall k h, th_get t' k = Some h -> th_get t k = Some h \/ k = [10; 0; 0; 9] /\ h = [2; 0; 0; 0; 0; 9]).
Proof.
  apply (arp_input_replies true 1 (ex_world (ex_frame 14 ex_arp) (ex_queue 0 (replicate 4 None))) []
    1 (ex_frame 14 ex_arp) (ex_dev (ex_queue 0 (replicate 4 None))) (ex_queue 0 (replicate 4 None))); try done.
  - apply ex_owned; [apply ex_frame_wf; cbn; lia|done|cbn; lia|done].
  - cbn. set_solver.
  - apply ex_frame_ok.
Defined.
