(* ===== verification/VirtioNet.v ===== *)
(** * The data path of the virtual network card (virtio-nic/vnic/src/virtio-net.c
    and the handlers of vnic.c; bstgw_generic_rx_handler of
    nettrug/napi/napi.c; router_in_burst_size of nettrug/pta/npf_router.c).

    Frames of the normal world are copied off the transmit virtqueue into
    secure buffers and handed to the router ([virtio_net_flush_tx]); frames
    queued for the normal world are copied into the buffers it offers on the
    receive virtqueue ([virtio_net_receive]); [vnic_poll] drives both.

    [vstate] is the device with its two rings, normal-world memory, the NAPI
    context and the router's world.  The normal world runs concurrently: the
    rings are functions of the read counter (see [Vqueue]), and [nw_turn] is
    what it does to its own memory before each copy. *)

From stdpp Require Import strings.
From S2P Require Import Prelude Pktq EthBuf Iovec Vqueue VirtioDev Napi Netdev Route Forward Worker.

Definition VIRTIO_NET_RX_QUEUE_DEFAULT_SIZE : Z := 256.
Definition VIRTIO_NET_TX_QUEUE_DEFAULT_SIZE : Z := 256.
Definition VIRTIO_NAPI_RETRY : Z := -47.
Definition VIRTIO_NO_AVAIL : Z := -48.
Definition VIRTIO_NET_HDR_GSO_NONE : Z := 0.
Definition MAX_RX_IOVS : Z := 1.
Definition MAX_TX_IOVS : Z := 4.

(** [sizeof(struct virtio_net_hdr_v1)]; its first two bytes are [flags] and
    [gso_type], its last two [num_buffers]. *)
Definition VNET_HDR_LEN : Z := 12.

(** The two queues: [vq[0]] towards the normal world, [vq[1]] from it. *)
Definition RX_VQ : Z := 0.
Definition TX_VQ : Z := 1.

Record vstate (T : Type) := mk_vstate {
  vn : vnic_t;
  rx_shm : vring_shm;
  tx_shm : vring_shm;
  reads : nat;              (** reads of shared ring memory so far *)
  nw_mem : list Z;          (** normal-world memory, by virtual address *)
  vnapi : napi_struct;
  fec_ifp : option positive;
  vworld : world T
}.
Arguments mk_vstate {T}. Arguments vn {T}. Arguments rx_shm {T}. Arguments tx_shm {T}. Arguments reads {T}.
Arguments nw_mem {T}. Arguments vnapi {T}. Arguments fec_ifp {T}. Arguments vworld {T}.

#[global] Instance eta_vstate {T} : Settable (vstate T) :=
  fun s => mk_vstate (vn s) (rx_shm s) (tx_shm s) (reads s) (nw_mem s) (vnapi s) (fec_ifp s) (vworld s).

#[global] Program Instance vstate_world T : HasWorld T (vstate T) :=
  {| wd s := vworld s; set_wd w s := s <| vworld := w |> |}.
Next Obligation. done. Qed.

(** The caller's vector arrays ([memset], then the counts and pointers); the
    entries are set before they are used. *)
Definition no_iovs : vqueue_iovs := mk_iovs 0 0 0 [] [].
Definition stack_iovs (n : Z) : vqueue_iovs :=
  mk_iovs n 0 0 (replicate (Z.to_nat n) 0) (replicate (Z.to_nat n) (mk_iovec None 0)).
Definition tx_buf : vqueue_buf := mk_vqbuf 0 (stack_iovs MAX_TX_IOVS) no_iovs.
Definition rx_buf : vqueue_buf := mk_vqbuf 0 no_iovs (stack_iovs MAX_RX_IOVS).

(** The header of [virtio_net_receive]: no flags, no GSO, one buffer. *)
Definition rx_vnet_hdr : list Z := [0; VIRTIO_NET_HDR_GSO_NONE; 0; 0; 0; 0; 0; 0; 0; 0; 1; 0].

(** How an iteration of the transmit loop ends: leave the loop, return an
    error, or go on with the buffer returned to the normal world (with the
    frame kept, or dropped). *)
Inductive tx_result := TxBreak | TxReturn (ret : Z) | TxDrop | TxFrame (m : positive).

(** How an iteration of the receive loop ends: leave it, [continue] with the
    packet counted as processed, or the packet delivered. *)
Inductive rx_result := RxBreak | RxSkip | RxSent.

#[global] Instance rx_result_eq_dec : EqDecision rx_result.
Proof. solve_decision. Defined.

Section net.
Context {T : Type} `{ThMap T}.
Implicit Types s : vstate T.

(** The platform's address translation; the normal world between two copies. *)
Context (get_va : Z -> Z) (nw_turn : nat -> list Z -> list Z).

(** ** The router behind the card *)

Definition queue_room (p : positive) (w : world T) : outcome Z :=
  d ← dev_get w p; q ← deref (egress_queue d); Ok (u32 (capacity q - count q)).

(** [trusted_router]: its [pktqueue_size], if the router exists. *)
Definition router_in_burst_size (trusted_router : option Z) (ndev : positive) (dst_if : option positive)
    (w : world T) : outcome Z :=
  pktqueue_size ← assert_ptr trusted_router;
  match dst_if with
  | Some p => queue_room p w
  | None =>
      d ← dev_get w ndev;
      match trust_status d with
      | BSTGW_IF_NONSEC =>
          fec_ndev ← ifnet_getbyname (w_nd w) (Some "imx6q-fec"%string);
          match fec_ndev with None => Panic | Some p => queue_room p w end
      | BSTGW_IF_EXTERNAL => Ok (pktqueue_size / 2)
      end
  end.

(** [input]: [router_if_input] for the device's first worker. *)
Definition bstgw_generic_rx_handler (input : list ebptr -> world T -> outcome (list ebptr * world T))
    (net_dev : positive) (pkts : list ebptr) (w : world T) : outcome (Z * world T) :=
  d ← dev_get w net_dev;
  if worker_count d =? 0 then Ok (-1, w) else
  wk ← aget (workers d) 0;
  match wk with
  | None => Ok (-1, w)
  | Some _ => '(_, w) ← input pkts w; Ok (0, w)
  end.

(** ** Callbacks of the queues *)

Definition vnic_vq (s : vstate T) (n : Z) : outcome vqueue := aget (vq (vdev (vn s))) n.

(** [!flags & VRING_AVAIL_F_NO_INTERRUPT]: the negation binds tighter. *)
Definition vnic_vq_kick_cb (q : vqueue) (m : vring_shm) (s : vstate T) : outcome (vstate T) :=
  if vr_avail (vq_vring q) =? 0 then Undef else
  let not_flags := if avail_flags_at m (reads s) =? 0 then 1 else 0 in
  let s := s <| reads ::= S |> in
  if negb (Z.land not_flags VRING_AVAIL_F_NO_INTERRUPT =? 0) then Ok (s <| vn ::= virtio_notify |>) else Ok s.

Definition vnic_vq_notify_cb (n : Z) (s : vstate T) : outcome (vstate T) :=
  q ← vnic_vq s n;
  s ← (if n =? RX_VQ then m ← vqueue_napi_signal_avail q (rx_shm s); Ok (s <| rx_shm := m |>)
       else m ← vqueue_napi_signal_avail q (tx_shm s); Ok (s <| tx_shm := m |>));
  Ok (s <| vnapi ::= napi_schedule |>).

Definition vnic_egr_ntfy_handler (s : vstate T) : Z * vstate T := (0, s <| vnapi ::= napi_schedule |>).

(** Normal-world memory when the next copy is made. *)
Definition nw_now (s : vstate T) : list Z := nw_turn (reads s) (nw_mem s).

Definition free_frame (m : positive) (s : vstate T) : outcome (vstate T) :=
  w ← buf_free (vworld s) (Some m); Ok (s <| vworld := w |>).

(** ** From the normal world to the router *)

(** [drop:] unmaps the vectors and returns the buffer. *)
Definition tx_done (total_pckt_len : Z) (r : tx_result) (q : vqueue) (b : vqueue_buf) (s : vstate T)
    : outcome (tx_result * vqueue_buf * vstate T) :=
  v ← vqueue_unmap_iovs (in_iovs b);
  let b := b <| in_iovs := v |> in
  '(_, m) ← vqueue_add_buf q (tx_shm s) b (u32 (VNET_HDR_LEN + total_pckt_len));
  Ok (r, b, s <| tx_shm := m |>).

(** [tx_error:] unmaps the vectors; the caller frees the frames so far. *)
Definition tx_error (ret : Z) (b : vqueue_buf) (s : vstate T) : outcome (tx_result * vqueue_buf * vstate T) :=
  v ← vqueue_unmap_iovs (in_iovs b);
  Ok (TxReturn ret, b <| in_iovs := v |>, s).

(** The copies of header and data, after the size checks. *)
Definition tx_copy (total_pckt_len : Z) (m : positive) (q : vqueue) (b : vqueue_buf) (s : vstate T)
    : outcome (tx_result * vqueue_buf * vstate T) :=
  let iovs := iv_iovs (in_iovs b) in
  let used := iv_used (in_iovs b) in
  '(n, vnet_hdr) ← kern_iovec_to_membuf (nw_now s) (replicate (Z.to_nat VNET_HDR_LEN) 0) (Some 0) VNET_HDR_LEN iovs used;
  let s := s <| nw_mem := nw_now s |> <| reads ::= S |> in
  if negb (u32 n =? VNET_HDR_LEN) then s ← free_frame m s; tx_error ERR_INVALID_ARGS b s else
  hdr_flags ← aget vnet_hdr 0;
  gso_type ← aget vnet_hdr 1;
  if negb (hdr_flags =? 0) || negb (gso_type =? VIRTIO_NET_HDR_GSO_NONE)
  then s ← free_frame m s; tx_error ERR_INVALID_ARGS b s else
  e ← buf_get (vworld s) m;
  let e := e <| data_len := total_pckt_len |> in
  p ← bstgw_ethbuf_data_ptr e 0;
  '(n, data) ← kern_iovec_to_membuf_skip_begin (nw_now s) (bytes e) p total_pckt_len iovs used VNET_HDR_LEN;
  let s := s <| nw_mem := nw_now s |> <| reads ::= S |> <| vworld ::= fun w => buf_set w m (e <| bytes := data |>) |> in
  if negb (u32 n =? total_pckt_len) then s ← free_frame m s; tx_error ERROR_GENERIC b s else
  tx_done total_pckt_len (TxFrame m) q b s.

(** A buffer taken off the ring: its vectors are mapped, the sizes checked. *)
Definition tx_msg (m : positive) (q : vqueue) (b : vqueue_buf) (s : vstate T)
    : outcome (tx_result * vqueue_buf * vstate T) :=
  if iv_used (in_iovs b) <? 1 then s ← free_frame m s; Ok (TxReturn ERR_INVALID_ARGS, b, s) else
  '(ret, iv) ← vqueue_map_iovs get_va (in_iovs b);
  let b := b <| in_iovs := iv |> in
  if negb (ret =? NO_ERROR) then s ← free_frame m s; Ok (TxReturn ret, b, s) else
  let total_pckt_len := u32 (iv_len (in_iovs b) - VNET_HDR_LEN) in
  first ← aget (iv_iovs (in_iovs b)) 0;
  if (iov_len first <? VNET_HDR_LEN) || (total_pckt_len =? 0) || (total_pckt_len <? 42) ||
     (BSTGW_DEFAULT_BUF_SIZE - 2 <? total_pckt_len)
  then s ← free_frame m s; tx_done total_pckt_len TxDrop q b s
  else tx_copy total_pckt_len m q b s.

(** One iteration of the loop. *)
Definition tx_one (b : vqueue_buf) (s : vstate T) : outcome (tx_result * vqueue_buf * vstate T) :=
  '(m, p) ← bstgw_ethpool_buf_alloc (w_pool (vworld s));
  let s := s <| vworld ::= fun w => w <| w_pool := p |> |> in
  e ← buf_get (vworld s) m;
  let s := s <| vworld ::= fun w => buf_set w m (e <| data_off := 2 |> <| packet_type := RTE_PTYPE_L2_MASK |>) |> in
  q ← vnic_vq s TX_VQ;
  '(ret, q, b, t) ← vqueue_get_avail_buf q (tx_shm s) (reads s) b;
  v ← with_vq (vn s) TX_VQ (fun _ => Ok q);
  let s := s <| vn := v |> <| reads := t |> in
  if ret =? ERR_NOT_ENOUGH_BUFFER then s ← free_frame m s; Ok (TxBreak, b, s) else
  if negb (ret =? NO_ERROR) then s ← free_frame m s; Ok (TxReturn ret, b, s) else
  tx_msg m q b s.

(** The loop: [frames[0 .. to_be_sent - 1]] are the frames so far.  Returns
    the value to return at once, if any.  [fuel] bounds the iterations; each
    one that goes on counts a packet, up to [burst]. *)
Fixpoint flush_tx_loop (fuel : nat) (burst num_packets : Z) (frames : list ebptr) (to_be_sent : Z)
    (b : vqueue_buf) (s : vstate T) : outcome (option Z * Z * list ebptr * Z * vstate T) :=
  match fuel with
  | O => Undef
  | S fuel' =>
      '(r, b, s) ← tx_one b s;
      match r with
      | TxBreak => Ok (None, num_packets, frames, to_be_sent, s)
      | TxReturn ret =>
          ms ← mem_read frames 0 to_be_sent;
          w ← free_bufs ms (vworld s);
          Ok (Some ret, num_packets, frames, to_be_sent, s <| vworld := w |>)
      | TxDrop =>
          if burst <=? num_packets + 1 then Ok (None, num_packets + 1, frames, to_be_sent, s)
          else flush_tx_loop fuel' burst (num_packets + 1) frames to_be_sent b s
      | TxFrame m =>
          frames ← aset frames to_be_sent (Some m);
          if burst <=? num_packets + 1 then Ok (None, num_packets + 1, frames, to_be_sent + 1, s)
          else flush_tx_loop fuel' burst (num_packets + 1) frames (to_be_sent + 1) b s
      end
  end.

(** Gives the frames to the router and the normal world a kick. *)
Definition flush_tx_deliver (rx_handler : list ebptr -> world T -> outcome (Z * world T))
    (num_packets : Z) (frames : list ebptr) (to_be_sent : Z) (s : vstate T) : outcome (Z * vstate T) :=
  q ← vnic_vq s TX_VQ;
  s ← (if 0 <? num_packets then vnic_vq_kick_cb q (tx_shm s) s else Ok s);
  s ← (if 0 <? to_be_sent then
         ms ← mem_read frames 0 to_be_sent;
         '(_, w) ← rx_handler ms (vworld s);
         Ok (s <| vworld := w |>)
       else Ok s);
  Ok (num_packets, s).

(** [frames_ok]: whether the array of frames could be allocated. *)
Definition virtio_net_flush_tx (trusted_router : option Z) (ndev : positive) (frames_ok : bool)
    (rx_handler : list ebptr -> world T -> outcome (Z * world T)) (s : vstate T) : outcome (Z * vstate T) :=
  if Z.land (status (vdev (vn s))) VIRTIO_CONFIG_S_DRIVER_OK =? 0 then Ok (0, s) else
  q ← vnic_vq s TX_VQ;
  '(data_avail, t) ← vqueue_num_of_avail_buf q (tx_shm s) (reads s);
  let s := s <| reads := t |> in
  if data_avail =? 0 then Ok (VIRTIO_NO_AVAIL, s) else
  fi ← (match fec_ifp s with
        | Some p => Ok (Some p)
        | None => ifnet_getbyname (w_nd (vworld s)) (Some "imx6q-fec"%string)
        end);
  let s := s <| fec_ifp := fi |> in
  ref_burst ← router_in_burst_size trusted_router ndev fi (vworld s);
  if ref_burst <? VIRTIO_NET_TX_QUEUE_DEFAULT_SIZE / 2 then Ok (VIRTIO_NAPI_RETRY, s) else
  let burst := if tx_burst (vnet (vn s)) <=? ref_burst then tx_burst (vnet (vn s)) else ref_burst in
  let burst := if data_avail <? burst then data_avail else burst in
  if negb frames_ok then Ok (ERR_NO_MEMORY, s) else
  '(ret, num_packets, frames, to_be_sent, s) ←
    flush_tx_loop (S (Z.to_nat burst)) burst 0 (replicate (Z.to_nat burst) None) 0 tx_buf s;
  match ret with
  | Some ret => Ok (ret, s)
  | None => flush_tx_deliver rx_handler num_packets frames to_be_sent s
  end.

(** ** From the router to the normal world *)

Definition virtio_net_can_receive (s : vstate T) (q : vqueue) : bool :=
  negb (vring_addr q =? 0) && negb (Z.land (status (vdev (vn s))) VIRTIO_CONFIG_S_DRIVER_OK =? 0).

(** The buffer goes back empty; the loop ends. *)
Definition rx_giveup (q : vqueue) (b : vqueue_buf) (s : vstate T) : outcome (rx_result * vqueue_buf * vstate T) :=
  '(_, m) ← vqueue_add_buf q (rx_shm s) b 0;
  Ok (RxBreak, b, s <| rx_shm := m |>).

Definition rx_unmap_giveup (q : vqueue) (b : vqueue_buf) (s : vstate T)
    : outcome (rx_result * vqueue_buf * vstate T) :=
  v ← vqueue_unmap_iovs (out_iovs b);
  rx_giveup q (b <| out_iovs := v |>) s.

(** The copies into a mapped buffer, and its return. *)
Definition rx_copy (m : positive) (e : bstgw_ethbuf_t) (p : Z) (q : vqueue) (b : vqueue_buf) (s : vstate T)
    : outcome (rx_result * vqueue_buf * vstate T) :=
  let size := bstgw_ethbuf_data_len e in
  let iovs := iv_iovs (out_iovs b) in
  '(n, mem) ← membuf_to_kern_iovec iovs 1 (nw_now s) rx_vnet_hdr (Some 0) VNET_HDR_LEN;
  let s := s <| nw_mem := mem |> <| reads ::= S |> in
  if negb (u32 n =? VNET_HDR_LEN) then rx_unmap_giveup q b s else
  '(n, mem) ← membuf_to_kern_iovec_skip_begin iovs 1 (nw_now s) (bytes e) (Some p) size VNET_HDR_LEN;
  let s := s <| nw_mem := mem |> <| reads ::= S |> in
  if negb (u32 n =? size) then rx_unmap_giveup q b s else
  v ← vqueue_unmap_iovs (out_iovs b);
  let b := b <| out_iovs := v |> in
  '(_, sh) ← vqueue_add_buf q (rx_shm s) b (u32 (VNET_HDR_LEN + size));
  s ← free_frame m (s <| rx_shm := sh |>);
  Ok (RxSent, b, s).

(** One iteration of the loop, for an entry of the array. *)
Definition rx_one (next_buf : ebptr) (b : vqueue_buf) (s : vstate T) : outcome (rx_result * vqueue_buf * vstate T) :=
  match next_buf with
  | None => Ok (RxSkip, b, s)
  | Some m =>
      '(r, st) ← bstgw_ethbuf_linearize (bufs (w_pool (vworld s))) (Some m);
      let s := s <| vworld ::= fun w => w <| w_pool ::= fun p => p <| bufs := st |> |> |> in
      if negb (r =? 0) then s ← free_frame m s; Ok (RxSkip, b, s) else
      e ← buf_get (vworld s) m;
      if bstgw_ethbuf_data_len e =? 0 then s ← free_frame m s; Ok (RxSkip, b, s) else
      p ← bstgw_ethbuf_data_ptr e 0;
      p ← assert_ptr p;
      q ← vnic_vq s RX_VQ;
      '(ret, q, b, t) ← vqueue_get_avail_buf q (rx_shm s) (reads s) b;
      v ← with_vq (vn s) RX_VQ (fun _ => Ok q);
      let s := s <| vn := v |> <| reads := t |> in
      if negb (ret =? NO_ERROR) then Ok (RxBreak, b, s) else
      if iv_used (out_iovs b) <? 1 then rx_giveup q b s else
      first ← aget (iv_iovs (out_iovs b)) 0;
      if iov_len first <? u32 (VNET_HDR_LEN + bstgw_ethbuf_data_len e) then rx_giveup q b s else
      '(ret, iv) ← vqueue_map_iovs get_va (out_iovs b);
      let b := b <| out_iovs := iv |> in
      if negb (ret =? NO_ERROR) then rx_giveup q b s else
      rx_copy m e p q b s
  end.

(** The loop over the packets; [processed] and [enqueued] are its counters. *)
Fixpoint receive_loop (ethbufs : list ebptr) (processed enqueued : Z) (b : vqueue_buf) (s : vstate T)
    : outcome (Z * Z * vstate T) :=
  match ethbufs with
  | [] => Ok (processed, enqueued, s)
  | next_buf :: rest =>
      '(r, b, s) ← rx_one next_buf b s;
      match r with
      | RxBreak => Ok (processed, enqueued, s)
      | RxSkip => receive_loop rest (processed + 1) enqueued b s
      | RxSent =>
          if rx_burst (vnet (vn s)) <=? processed + 1 then Ok (processed + 1, enqueued + 1, s)
          else receive_loop rest (processed + 1) (enqueued + 1) b s
      end
  end.

Definition virtio_net_receive (ethbufs : list ebptr) (s : vstate T) : outcome (Z * vstate T) :=
  q ← vnic_vq s RX_VQ;
  if negb (virtio_net_can_receive s q) then Ok (-1, s) else
  '(space, t) ← vqueue_num_of_avail_buf q (rx_shm s) (reads s);
  let s := s <| reads := t |> in
  if space =? 0 then Ok (VIRTIO_NO_AVAIL, s) else
  if space <? VIRTIO_NET_RX_QUEUE_DEFAULT_SIZE / 2 then Ok (VIRTIO_NAPI_RETRY, s) else
  '(processed, enqueued, s) ← receive_loop ethbufs 0 0 rx_buf s;
  q ← vnic_vq s RX_VQ;
  s ← (if 0 <? enqueued then vnic_vq_kick_cb q (rx_shm s) s else Ok s);
  Ok (processed, s).

Definition vnic_xmit_handler (pkts : list ebptr) (s : vstate T) : outcome (Z * vstate T) :=
  q ← vnic_vq s TX_VQ;
  if vring_addr q =? 0 then Ok (0, s) else virtio_net_receive pkts s.

(** ** The poll function *)

Definition no_notify (q : vqueue) (m : vring_shm) : outcome vring_shm :=
  if vr_used (vq_vring q) =? 0 then Undef
  else Ok (m <| used_flags ::= fun f => Z.lor f VRING_USED_F_NO_NOTIFY |>).

(** An idle round: NAPI is completed, notifications are enabled again, and
    the rings looked at once more.  [ret]: what the transmission returned. *)
Definition poll_idle (ret : Z) (s : vstate T) : outcome (vstate T) :=
  let '(complete, n) := napi_complete_done (vnapi s) in
  let s := s <| vnapi := n |> in
  if negb complete then Ok s else
  tx ← vnic_vq s TX_VQ;
  '(avail, m, t) ← vqueue_num_of_avail_buf_and_notify tx (tx_shm s) (reads s);
  let s := s <| tx_shm := m |> <| reads := t |> in
  if negb (avail =? 0) then Ok (s <| vnapi ::= napi_schedule |>) else
  if ret =? VIRTIO_NO_AVAIL then
    rx ← vnic_vq s RX_VQ;
    '(avail, m, t) ← vqueue_num_of_avail_buf_and_notify rx (rx_shm s) (reads s);
    let s := s <| rx_shm := m |> <| reads := t |> in
    if negb (avail =? 0) then Ok (s <| vnapi ::= napi_schedule |>) else Ok s
  else Ok s.

Definition is_event (ret : Z) : bool := (0 <? ret) || (ret =? VIRTIO_NAPI_RETRY).

(** [flush], [transmit]: [virtio_net_flush_tx] and [router_pktq_tx] of the
    card.  The loop waits for other threads while either of them asks for a
    retry, so it has no bound of its own: [None] when [fuel] iterations were
    not enough. *)
Fixpoint poll_loop (flush transmit : vstate T -> outcome (Z * vstate T)) (fuel : nat) (budget pkts : Z)
    (s : vstate T) : outcome (option Z * vstate T) :=
  match fuel with
  | O => Ok (None, s)
  | S fuel' =>
      '(r1, s) ← flush s;
      let pkts := if 0 <? r1 then pkts + r1 else pkts in
      '(r2, s) ← transmit s;
      if negb (is_event r1 || is_event r2) then s ← poll_idle r2 s; Ok (Some pkts, s)
      else if pkts <? budget then poll_loop flush transmit fuel' budget pkts s
      else Ok (Some pkts, s)
  end.

Definition vnic_poll (flush transmit : vstate T -> outcome (Z * vstate T)) (fuel : nat) (budget : Z)
    (s : vstate T) : outcome (option Z * vstate T) :=
  rx ← vnic_vq s RX_VQ;
  m ← no_notify rx (rx_shm s);
  let s := s <| rx_shm := m |> in
  tx ← vnic_vq s TX_VQ;
  m ← no_notify tx (tx_shm s);
  let s := s <| tx_shm := m |> in
  poll_loop flush transmit fuel budget 0 s.

End net.

(** ** What is asked of the normal world

    Its rings may show anything at any time, except that the length of a
    descriptor does not change and every descriptor is for memory of its own
    ([size] bytes, seen through [get_va]) of at most 2^28 bytes.  Chains may
    be cyclic, flags and indices may change between two reads. *)

Definition vec_ok (get_va : Z -> Z) (size : Z) (pl : Z * Z) : Prop :=
  0 <= pl.2 <= 268435456 /\ 0 < get_va pl.1 /\ get_va pl.1 + pl.2 <= size.

Record nw_honest (get_va : Z -> Z) (size : Z) (m : vring_shm) : Prop := {
  nh_typed : shm_typed m;
  nh_len : forall t t' i, d_len (desc_at m t i) = d_len (desc_at m t' i);
  nh_vec : forall t t' i, vec_ok get_va size (u32 (d_addr (desc_at m t i)), d_len (desc_at m t' i))
}.

Definition vecs_len (l : list (Z * Z)) : Z := foldr (fun pl a => pl.2 + a) 0 l.

(** Vectors taken from such a ring. *)
Definition iovs_honest (get_va : Z -> Z) (size cnt : Z) (v : vqueue_iovs) : Prop :=
  iovs_ok v /\ iv_cnt v = cnt /\ Forall (vec_ok get_va size) (iovs_content v) /\
  iv_len v = u32 (vecs_len (iovs_content v)).

(** A queue that is set up, over ring memory [m]. *)
Record ring_ok (get_va : Z -> Z) (size : Z) (q : vqueue) (m : vring_shm) : Prop := {
  ro_ptrs : vq_ptrs_ok q;
  ro_addr : vring_addr q <> 0;
  ro_num : vq_num_ok q m;
  ro_avail : 0 <= last_avail_idx q;
  ro_used : 0 <= used_idx m;
  ro_nw : nw_honest get_va size m
}.

(** ** Lemmas on rings and vectors *)

Lemma iovs_push_content m t i v v' :
  iovs_ok v -> iovs_push m t i v = Ok v' ->
  iovs_ok v' /\ iv_cnt v' = iv_cnt v /\
  iovs_content v' = iovs_content v ++ [(u32 (d_addr (desc_at m (t + 2) i)), d_len (desc_at m (t + 1) i))] /\
  iv_len v' = u32 (iv_len v + d_len (desc_at m (t + 4) i)).
Proof.
  intros Hv H. destruct (Hv) as [Hc Hi Hp Hu].
  assert (Hlt : iv_used v < iv_cnt v).
  { unfold iovs_push in H. apply bind_ok in H as (old & Ho & _). apply aget_ok in Ho as [_ Ho].
    apply lookup_lt_Some in Ho. lia. }
  pose proof (iovs_push_safe m t i v Hv Hlt) as Hs. rewrite H in Hs. destruct Hs as (Hok & Hcnt & _).
  split; [done|]. split; [done|]. unfold iovs_push in H.
  apply bind_ok in H as (old & _ & H). rewrite !aset_ok in H by lia. cbn [mbind outcome_bind] in H.
  apply bind_ok in H as (? & _ & H). injection H as <-. cbn. split; [|done].
  unfold iovs_content. cbn. rewrite u32_small by (unfold MAX_I32 in *; lia).
  replace (Z.to_nat (iv_used v + 1)) with (S (Z.to_nat (iv_used v))) by lia.
  rewrite !take_S_insert, fmap_app by lia. rewrite zip_with_app; [done|]. rewrite length_fmap, !length_take. lia.
Qed.

Lemma vecs_len_app l l' : vecs_len (l ++ l') = vecs_len l + vecs_len l'.
Proof. induction l; cbn in *; [done|]. unfold vecs_len in *. lia. Qed.

Lemma iovs_push_honest get_va size cnt m t i v v' :
  nw_honest get_va size m -> iovs_honest get_va size cnt v -> iovs_push m t i v = Ok v' ->
  iovs_honest get_va size cnt v'.
Proof.
  intros Hm (Hok & Hc & Hf & Hl) H. destruct (iovs_push_content m t i v v' Hok H) as (Hok' & Hc' & Hco & Hl').
  split; [done|]. split; [congruence|]. rewrite Hco, Hl', Hl. split.
  - apply Forall_app. split; [done|]. apply Forall_singleton. apply (nh_vec _ _ _ Hm).
  - rewrite vecs_len_app. cbn. rewrite (nh_len _ _ _ Hm (t + 4) (t + 1) i). unfold u32.
    rewrite Z.add_mod_idemp_l by lia. f_equal. lia.
Qed.

Lemma iovs_reset_honest get_va size cnt v :
  iovs_honest get_va size cnt v -> iovs_honest get_va size cnt (v <| iv_used := 0 |> <| iv_len := 0 |>).
Proof. intros (Hok & Hc & _). split; [by apply iovs_reset_ok|]. split; [done|]. by split; [apply Forall_nil|]. Qed.

Lemma get_avail_buf_vq vq m t b r vq' b' t' :
  vqueue_get_avail_buf vq m t b = Ok (r, vq', b', t') ->
  vq' = vq \/ vq' = vq <| last_avail_idx := u16 (last_avail_idx vq + 1) |>.
Proof.
  intros H. unfold vqueue_get_avail_buf in H.
  repeat (match type of H with (if ?c then _ else _) = _ => destruct c end; try (by simplify_eq; left)).
  apply bind_ok in H as ([[r1 b1] t1] & E & H). simplify_eq. by right.
Qed.

Lemma ring_ok_vq get_va size q m i :
  ring_ok get_va size q m -> ring_ok get_va size (q <| last_avail_idx := u16 i |>) m.
Proof. intros [? ? ? ? ? ?]. split; try done. cbn. pose proof (u16_range i). lia. Qed.

Lemma get_avail_buf_honest get_va size ci co q m t b :
  ring_ok get_va size q m -> iovs_honest get_va size ci (in_iovs b) -> iovs_honest get_va size co (out_iovs b) ->
  defined (vqueue_get_avail_buf q m t b) (fun '(r, q', b', _) =>
    ring_ok get_va size q' m /\ iovs_honest get_va size ci (in_iovs b') /\ iovs_honest get_va size co (out_iovs b') /\
    vq_vring q' = vq_vring q /\ (r = NO_ERROR -> 0 <= vb_head b' < vr_num (vq_vring q))).
Proof.
  intros Hr Hi Ho.
  pose proof (get_avail_buf_safe q m t b (ro_ptrs _ _ _ _ Hr) (ro_num _ _ _ _ Hr) (nh_typed _ _ _ (ro_nw _ _ _ _ Hr))
    (conj (proj1 Hi) (proj1 Ho)) (ro_avail _ _ _ _ Hr)) as Hs.
  destruct (vqueue_get_avail_buf q m t b) as [[[[r q'] b'] t']| |] eqn:E; [|done|done].
  destruct (get_avail_buf_inv (iovs_honest get_va size ci) (iovs_honest get_va size co) q m t b r q' b' t') as [Hi' Ho'];
    try done; try (by intros; eapply iovs_push_honest; [apply (ro_nw _ _ _ _ Hr)| |]); try by apply iovs_reset_honest.
  destruct Hs as (_ & _ & Hv & _ & Hn). cbn. split_and!; try done; [|by intros; apply Hn].
  destruct (get_avail_buf_vq _ _ _ _ _ _ _ _ E) as [->| ->]; [done|by apply ring_ok_vq].
Qed.

Lemma add_buf_ok get_va size q m b len :
  ring_ok get_va size q m -> 0 <= vb_head b < vr_num (vq_vring q) ->
  exists m', vqueue_add_buf q m b len = Ok (NO_ERROR, m') /\ ring_ok get_va size q m' /\
    m' = m <| used_idx := u16 (used_idx m + 1) |>
           <| used_ring ::= <[Z.to_nat (used_idx m mod vr_num (vq_vring q)) := mk_used_elem (vb_head b) len]> |>.
Proof.
  intros [Hp Ha [Hn Hl] Hav Hu Hm] Hh. unfold vqueue_add_buf. rewrite (proj2 (Z.eqb_neq _ _) Ha), (proj2 (Z.leb_gt _ _)) by lia.
  assert (Hused : vr_used (vq_vring q) <> 0) by (unfold vq_ptrs_ok in Hp; rewrite (proj2 (Z.eqb_neq _ _) Ha) in Hp; by destruct Hp as (_ & _ & ?)).
  rewrite (proj2 (Z.eqb_neq _ _) Hused), (proj2 (Z.eqb_neq (vr_num _) 0)) by lia. cbn [orb].
  pose proof (Z.mod_pos_bound (used_idx m) (vr_num (vq_vring q)) ltac:(lia)).
  rewrite aset_ok by lia. cbn [mbind outcome_bind]. eexists. split; [done|]. split; [|by destruct m].
  split; try done; [split; cbn; [done|by rewrite length_insert]|cbn; pose proof (u16_range (used_idx m + 1)); lia|].
  destruct Hm as [H1 H2 H3]. by split.
Qed.

(** Mapped vectors of an honest normal world. *)
Lemma mapped_ok get_va size mem l :
  Forall (vec_ok get_va size) l -> size = Z.of_nat (length mem) ->
  Forall (iov_ok mem) (map_vec get_va <$> l) /\ iov_total (map_vec get_va <$> l) = vecs_len l /\
  0 <= vecs_len l <= 268435456 * Z.of_nat (length l) /\ Forall (fun io => is_Some (base io)) (map_vec get_va <$> l).
Proof.
  intros H Hs. induction H as [|[pa len] l (H1 & H2 & H3) _ (IH1 & IH2 & IH3 & IH4)]; [cbn; split_and!; try done; lia|].
  cbn [fst snd] in *. rewrite fmap_cons. cbn [iov_total foldr vecs_len length iov_len map_vec fst snd].
  fold (iov_total (map_vec get_va <$> l)) (vecs_len l). rewrite IH2. split_and!; try lia.
  - apply Forall_cons. split; [|done]. split; [cbn; lia|]. exists (get_va pa). cbn. split_and!; try done; lia.
  - apply Forall_cons. split; [by eexists|done].
Qed.

Lemma map_honest get_va size cnt v :
  iovs_honest get_va size cnt v ->
  exists l, vqueue_map_iovs get_va v = Ok (NO_ERROR, v <| iv_iovs := l |>) /\ iovs_ok (v <| iv_iovs := l |>) /\
    take (Z.to_nat (iv_used v)) l = map_vec get_va <$> iovs_content v /\
    iovs_content (v <| iv_iovs := l |>) = iovs_content v /\ iovs_honest get_va size cnt (v <| iv_iovs := l |>).
Proof.
  intros (Hok & Hc & Hf & Hl). destruct (map_iovs_ok get_va v Hok) as (l & E & Hok' & Ht).
  { eapply Forall_impl; [exact Hf|]. intros pl (_ & ? & _). lia. }
  exists l. split; [done|]. split; [done|]. split; [done|].
  assert (Hco : iovs_content (v <| iv_iovs := l |>) = iovs_content v).
  { unfold iovs_content at 1. cbn. rewrite Ht. rewrite <- list_fmap_compose.
    apply list_eq. intros j. rewrite lookup_zip_with, list_lookup_fmap, lookup_content. case_decide as Hj.
    - rewrite lookup_take_lt by lia.
      destruct (iv_phys v !! j); [|done]. cbn. by destruct (iv_iovs v !! j).
    - by rewrite lookup_take_ge by lia. }
  split; [done|]. split; [done|]. split; [done|]. by rewrite Hco.
Qed.

(** Storing a queue. *)
Definition set_vq (n : Z) (q : vqueue) (v : vnic_t) : vnic_t := v <| vdev ::= fun d => d <| vq ::= <[Z.to_nat n := q]> |> |>.

Lemma with_vq_set {T} (s : vstate T) n q0 q :
  vnic_vq s n = Ok q0 ->
  with_vq (vn s) n (fun _ => Ok q) = Ok (set_vq n q (vn s)) /\ vnic_vq (s <| vn ::= set_vq n q |>) n = Ok q /\
  forall n', n' <> n -> 0 <= n' -> vnic_vq (s <| vn ::= set_vq n q |>) n' = vnic_vq s n'.
Proof.
  unfold vnic_vq, with_vq. intros Hq. apply aget_ok in Hq as Hq'. destruct Hq' as [Hn Hl]. apply lookup_lt_Some in Hl.
  rewrite Hq. cbn [mbind outcome_bind]. rewrite aset_ok by lia. cbn [mbind outcome_bind]. split; [done|]. cbn. split.
  - apply aget_ok. split; [done|]. by apply list_lookup_insert_eq.
  - intros n' Hne Hn'. rewrite !aget_lookup by lia. by rewrite list_lookup_insert_ne by lia.
Qed.

Lemma ring_ok_avail get_va size q m : ring_ok get_va size q m -> vr_avail (vq_vring q) <> 0 /\ vr_used (vq_vring q) <> 0.
Proof.
  intros [Hp Ha _ _ _ _]. unfold vq_ptrs_ok in Hp. rewrite (proj2 (Z.eqb_neq _ _) Ha) in Hp. by destruct Hp as (_ & ? & ?).
Qed.

(** A kick only raises an interrupt. *)
Lemma virtio_notify_frame v :
  vq (vdev (virtio_notify v)) = vq (vdev v) /\ vnet (virtio_notify v) = vnet v /\
  status (vdev (virtio_notify v)) = status (vdev v).
Proof.
  unfold virtio_notify, virtio_notify_vector, vnic_kick_nw, virtio_set_isr.
  destruct v as [? [] ? ? ?]. cbn -[Z.land Z.lor]. repeat (case_match; cbn -[Z.land Z.lor] in *; try done).
Qed.

Lemma kick_ok {T} q m (s : vstate T) :
  vr_avail (vq_vring q) <> 0 ->
  exists s', vnic_vq_kick_cb q m s = Ok s' /\ vworld s' = vworld s /\ nw_mem s' = nw_mem s /\ tx_shm s' = tx_shm s /\
    rx_shm s' = rx_shm s /\ vq (vdev (vn s')) = vq (vdev (vn s)) /\ vnet (vn s') = vnet (vn s) /\
    status (vdev (vn s')) = status (vdev (vn s)).
Proof.
  intros Ha. unfold vnic_vq_kick_cb. rewrite (proj2 (Z.eqb_neq _ _) Ha). destruct (virtio_notify_frame (vn s)) as (E1 & E2 & E3).
  destruct (negb _); eexists; (split; [done|]); cbn; by split_and!.
Qed.

(** Ring indices, modulo 2^16. *)
Lemma u16_sub x y : u16 (u16 x - y) = u16 (x - y).
Proof. unfold u16. by rewrite Zminus_mod_idemp_l. Qed.
Lemma u16_add x y : u16 (u16 x + y) = u16 (x + y).
Proof. unfold u16. by rewrite Zplus_mod_idemp_l. Qed.


Lemma u16_ahead x n : 0 < n < 65536 -> u16 (u16 (x + n) - x) = n /\ x <> u16 (x + n).
Proof.
  intros Hn. assert (E : u16 (u16 (x + n) - x) = n) by (rewrite u16_sub; replace (x + n - x) with n by lia; by apply u16_small; lia).
  split; [done|]. intros E2. replace (u16 (x + n) - x) with 0 in E by lia. change (u16 0) with 0 in E. lia.
Qed.
