(* ===== verification/VirtioTx.v ===== *)
(** * Frames from the normal world: what [virtio_net_flush_tx] does.

    Against a normal world that may change its rings and its memory at any
    time, within the limits of [nw_honest], the loop stays inside its buffers
    and loses none; against one that leaves a well-formed ring alone, it hands
    the router exactly the frames offered.  Without the limit on lengths it
    writes outside its buffer. *)

From stdpp Require Import strings.
From S2P Require Import Prelude Pktq EthBuf Iovec Vqueue VirtioDev Napi Netdev Route Forward Worker VirtioNet.

Section tx.
Context {T : Type} `{ThMap T}.
Context (get_va : Z -> Z) (nw_turn : nat -> list Z -> list Z).
Implicit Types s : vstate T.

Definition turn_ok : Prop := forall t m, length (nw_turn t m) = length m.

(** The buffer with a frame in it, behind the two bytes of alignment. *)
Definition frame_of (e : bstgw_ethbuf_t) (data : list Z) : bstgw_ethbuf_t :=
  e <| data_len := Z.of_nat (length data) |> <| bytes := blit (bytes e) 2 data |>.

(** Header fields the copy accepts. *)
Definition hdr_plain (hdr : list Z) : bool := (nth 0 hdr 0 =? 0) && (nth 1 hdr 0 =? VIRTIO_NET_HDR_GSO_NONE).

(** The transmit queue of a device and what the loop relies on; [size] is the
    extent of normal-world memory. *)
Definition tx_ok (size : Z) (s : vstate T) : Prop :=
  size = Z.of_nat (length (nw_mem s)) /\
  exists q, vnic_vq s TX_VQ = Ok q /\ ring_ok get_va size q (tx_shm s).

Definition txb_ok (size : Z) (b : vqueue_buf) : Prop :=
  iovs_honest get_va size MAX_TX_IOVS (in_iovs b) /\ iovs_honest get_va size 0 (out_iovs b).

Lemma blit_whole (d l : list Z) : length d = length l -> blit l 0 d = d.
Proof. intros E. unfold blit. cbn. by rewrite drop_ge, app_nil_r by lia. Qed.

(** The copies of a packet, given its mapped vectors. *)
Lemma tx_copy_eq total m q b s e c :
  turn_ok -> Forall (vec_ok get_va (Z.of_nat (length (nw_mem s)))) c -> (length c <= 4)%nat ->
  iv_used (in_iovs b) = Z.of_nat (length c) -> take (length c) (iv_iovs (in_iovs b)) = map_vec get_va <$> c ->
  vecs_len c = total + 12 -> 42 <= total <= 2046 ->
  bufs (w_pool (vworld s)) !! m = Some e -> eb_wf e -> data_off e = 2 -> 2048 <= buf_cap e ->
  let mem1 := nw_now nw_turn s in
  let mem2 := nw_turn (S (reads s)) mem1 in
  tx_copy nw_turn total m q b s =
    if hdr_plain (take 12 (gather mem1 (map_vec get_va <$> c)))
    then tx_done total (TxFrame m) q b
           (s <| nw_mem := mem2 |> <| reads := S (S (reads s)) |>
              <| vworld ::= fun w => buf_set w m (frame_of e (drop 12 (gather mem2 (map_vec get_va <$> c)))) |>)
    else s ← free_frame m (s <| nw_mem := mem1 |> <| reads := S (reads s) |>); tx_error ERR_INVALID_ARGS b s.
Proof.
  intros Hturn Hc H4 Hu Ht Htot Hr He [? ? ? ? ? ?] Hoff Hcap mem1 mem2. unfold tx_copy.
  assert (L1 : length mem1 = length (nw_mem s)) by apply Hturn. assert (L2 : length mem2 = length (nw_mem s)) by (unfold mem2; by rewrite Hturn).
  destruct (mapped_ok get_va (Z.of_nat (length (nw_mem s))) mem1 c Hc) as (F1 & T1 & B1 & _); [lia|].
  destruct (mapped_ok get_va (Z.of_nat (length (nw_mem s))) mem2 c Hc) as (F2 & T2 & _ & _); [lia|].
  set (iov := map_vec get_va <$> c) in *. assert (Li : length iov = length c) by apply length_fmap.
  destruct (length_gather mem1 iov F1) as [G1 _]. destruct (length_gather mem2 iov F2) as [G2 _].
  unfold VNET_HDR_LEN. rewrite Hu, <- (kern_iovec_to_membuf_take (nw_now nw_turn s)), Nat2Z.id, Ht, <- Li.
  fold mem1. rewrite kern_iovec_to_membuf_spec by (unfold MAX_I32; try done; cbn; lia).
  cbn [mbind outcome_bind]. rewrite Z.min_l by lia. change (u32 12 =? 12) with true. cbn [negb].
  change (Z.to_nat 0) with 0%nat. change (Z.to_nat 12) with 12%nat. set (hdr := take 12 (gather mem1 iov)).
  assert (Hh : length hdr = 12%nat) by (unfold hdr; rewrite length_take; lia).
  rewrite blit_whole by (by rewrite length_replicate). destruct hdr as [|h0 [|h1 hdr']]; [done|done|].
  change (aget (h0 :: h1 :: hdr') 0) with (Ok h0). change (aget (h0 :: h1 :: hdr') 1) with (Ok h1). cbn [mbind outcome_bind].
  unfold hdr_plain. cbn [nth]. rewrite <- negb_andb.
  destruct ((h0 =? 0) && (h1 =? VIRTIO_NET_HDR_GSO_NONE)); cbn [negb]; [|done].
  assert (Hg : buf_get (vworld (s <| nw_mem := mem1 |> <| reads ::= S |>)) m = Ok e) by (unfold buf_get; cbn; by rewrite He).
  rewrite Hg. cbn [mbind outcome_bind].
  assert (Hp : bstgw_ethbuf_data_ptr (e <| data_len := total |>) 0 = Ok (Some 2)).
  { unfold bstgw_ethbuf_data_ptr. cbn. rewrite (proj2 (Z.leb_gt total 0)), Hoff by lia. change (u32 (2 + 0)) with 2.
    by rewrite (proj2 (Z.ltb_lt 2 (buf_cap e))) by lia. }
  rewrite Hp. cbn [mbind outcome_bind].
  rewrite <- (kern_iovec_to_membuf_skip_begin_take _ _ _ _ (iv_iovs (in_iovs b))), Nat2Z.id, Li, Ht. fold iov. rewrite <- Li.
  change (nw_now nw_turn _) with mem2. replace total with (iov_total iov - 12) by lia.
  rewrite skip_begin_whole by (unfold MAX_I32; try done; cbn; lia). cbn [mbind outcome_bind].
  rewrite u32_small, Z.eqb_refl by lia. cbn [negb].
  assert (Hlen : Z.of_nat (length (drop 12 (gather mem2 iov))) = iov_total iov - 12) by (rewrite length_drop; lia).
  unfold frame_of. rewrite Hlen. done.
Qed.

(** What a step leaves alone: the devices, the parameters of the card and
    the buffers [l] held elsewhere. *)
Definition kept (l : list positive) (s s' : vstate T) : Prop :=
  w_nd (vworld s') = w_nd (vworld s) /\ vnet (vn s') = vnet (vn s) /\ status (vdev (vn s')) = status (vdev (vn s)) /\
  forall j, j ∈ l -> bufs (w_pool (vworld s')) !! j = bufs (w_pool (vworld s)) !! j.

(** What an iteration leaves: a frame for the router, or no new buffer. *)
Definition tx_post (size : Z) (l : list positive) (s : vstate T) (r : tx_result) (b' : vqueue_buf) (s' : vstate T) : Prop :=
  tx_ok size s' /\ txb_ok size b' /\ kept l s s' /\
  match r with
  | TxFrame m => owned (vworld s') (m :: l) /\ exists e, bufs (w_pool (vworld s')) !! m = Some e /\ frame_ok e
  | _ => owned (vworld s') l
  end.

Lemma kept_refl l s : kept l s s.
Proof. by split_and!. Qed.

Lemma kept_trans l s1 s2 s3 : kept l s1 s2 -> kept l s2 s3 -> kept l s1 s3.
Proof. intros (A1 & A2 & A3 & A4) (B1 & B2 & B3 & B4). split_and!; try congruence. intros j Hj. rewrite B4, A4; done. Qed.

Lemma free_frame_ok m l s :
  owned (vworld s) (m :: l) ->
  exists w', free_frame m s = Ok (s <| vworld := w' |>) /\ owned w' l /\ kept l s (s <| vworld := w' |>).
Proof.
  intros Ho. destruct (owned_free _ l m Ho) as (w' & e' & E & Ho' & Hn & _ & _ & Hb).
  exists w'. unfold free_frame. rewrite E. split; [done|]. split; [done|]. split_and!; try done.
  intros j Hj. cbn. rewrite Hb, lookup_insert_ne; [done|]. intros ->. by eapply (owned_ne _ l j j).
Qed.

Lemma tx_ok_shm size s m :
  (forall q, vnic_vq s TX_VQ = Ok q -> ring_ok get_va size q m) -> tx_ok size s -> tx_ok size (s <| tx_shm := m |>).
Proof. intros Hq (Hs & q & Hv & _). split; [done|]. exists q. split; [done|]. by apply Hq. Qed.

Lemma unmap_honest size cnt v :
  iovs_honest get_va size cnt v -> take (Z.to_nat (iv_used v)) (iv_iovs v) = map_vec get_va <$> iovs_content v ->
  exists l, vqueue_unmap_iovs v = Ok (v <| iv_iovs := l |>) /\ iovs_honest get_va size cnt (v <| iv_iovs := l |>).
Proof.
  intros (Hok & Hc & Hf & Hl) Ht. destruct (unmap_iovs_ok v Hok) as (l & E & Hok' & Hco).
  - rewrite Ht. apply Forall_fmap. by apply Forall_true; intros; eexists.
  - exists l. split; [done|]. split; [done|]. split; [done|]. by rewrite Hco.
Qed.

Lemma tx_error_ok size l s s1 b ret :
  tx_ok size s1 -> txb_ok size b -> kept l s s1 -> owned (vworld s1) l ->
  take (Z.to_nat (iv_used (in_iovs b))) (iv_iovs (in_iovs b)) = map_vec get_va <$> iovs_content (in_iovs b) ->
  defined (tx_error ret b s1) (fun '(r, b', s') => tx_post size l s r b' s').
Proof.
  intros Htx [Hi Ho] Hk Hw Ht. unfold tx_error. destruct (unmap_honest size MAX_TX_IOVS (in_iovs b) Hi Ht) as (k & -> & Hh).
  cbn. split; [done|]. split; [by split|]. by split.
Qed.

Lemma tx_done_ok size l s s1 b q total r :
  tx_ok size s1 -> txb_ok size b -> kept l s s1 -> vnic_vq s1 TX_VQ = Ok q -> 0 <= vb_head b < vr_num (vq_vring q) ->
  take (Z.to_nat (iv_used (in_iovs b))) (iv_iovs (in_iovs b)) = map_vec get_va <$> iovs_content (in_iovs b) ->
  match r with
  | TxFrame m => owned (vworld s1) (m :: l) /\ exists e, bufs (w_pool (vworld s1)) !! m = Some e /\ frame_ok e
  | _ => owned (vworld s1) l
  end ->
  defined (tx_done total r q b s1) (fun '(r, b', s') => tx_post size l s r b' s').
Proof.
  intros Htx [Hi Ho] Hk Hq Hh Ht Hw. unfold tx_done. destruct (unmap_honest size MAX_TX_IOVS (in_iovs b) Hi Ht) as (k & -> & Hhon).
  cbn [mbind outcome_bind]. pose proof Htx as (Hs & q' & Hq' & Hr). assert (q' = q) as -> by congruence.
  match goal with |- context [vqueue_add_buf q _ ?b' ?n] =>
    destruct (add_buf_ok get_va size q (tx_shm s1) b' n Hr Hh) as (m' & -> & Hr' & _) end. cbn. split; [|split; [by split|done]].
  apply tx_ok_shm; [|done]. intros q2 Hq2. assert (q2 = q) as -> by congruence. done.
Qed.

(** A buffer for the next frame. *)
Lemma tx_alloc_ok w l :
  owned w l ->
  defined (bstgw_ethpool_buf_alloc (w_pool w)) (fun '(m, p) => exists e,
    buf_get (w <| w_pool := p |>) m = Ok e /\
    let e1 := e <| data_off := 2 |> <| packet_type := RTE_PTYPE_L2_MASK |> in
    let w1 := buf_set (w <| w_pool := p |>) m e1 in
    owned w1 (m :: l) /\ bufs (w_pool w1) !! m = Some e1 /\ eb_wf e1 /\ next e1 = None /\ 2048 <= buf_cap e1 /\
    (forall pr, priv_data e1 = Some pr -> flags pr = 0) /\ w_nd w1 = w_nd w /\
    forall j, j ∈ l -> bufs (w_pool w1) !! j = bufs (w_pool w) !! j).
Proof.
  intros Ho. destruct (free_list (w_pool w)) as [|m fl] eqn:Hfl; [unfold bstgw_ethpool_buf_alloc; by rewrite Hfl|].
  destruct (owned_alloc w l m fl Ho Hfl) as (p & e & -> & Ho1 & Hb & _ & Hm & He & Hwf & Hcl & Hcap). cbn [defined].
  exists e. split; [unfold buf_get; cbn; by rewrite Hb, He|].
  set (e1 := e <| data_off := 2 |> <| packet_type := RTE_PTYPE_L2_MASK |>). set (w1 := buf_set _ m e1). destruct Hcl as (Hn & _ & _ & Hl & _ & pr & Hpr & Hfl').
  assert (Hwf1 : eb_wf e1) by (destruct Hwf; split; cbn; try done; lia).
  split; [by apply owned_buf_set; [done|set_solver|..]|]. cbn. rewrite lookup_insert_eq. split_and!; try done.
  - intros pr' ?. by simplify_eq.
  - intros j Hj. rewrite lookup_insert_ne, Hb; [done|]. intros <-. by apply Hm, (owned_inuse w l m Ho).
Qed.

Lemma frame_data e data :
  data_off e = 2 -> (2 <= length (bytes e))%nat -> eb_data (frame_of e data) = data.
Proof.
  intros Hoff Hb. unfold eb_data, frame_of. cbn. rewrite Hoff, Nat2Z.id. unfold blit. change (Z.to_nat 2) with 2%nat.
  rewrite drop_app_ge; rewrite length_take; [|lia]. replace (2 - _)%nat with 0%nat by lia. rewrite drop_0. by apply take_app_length.
Qed.

Lemma frame_of_ok e data :
  eb_wf e -> next e = None -> data_off e = 2 -> 2048 <= buf_cap e -> (forall pr, priv_data e = Some pr -> flags pr = 0) ->
  42 <= Z.of_nat (length data) <= 2046 ->
  eb_wf (frame_of e data) /\ next (frame_of e data) = None /\ buf_cap (frame_of e data) = buf_cap e /\
  frame_ok (frame_of e data).
Proof.
  intros [? ? ? ? ? ?] Hn Hoff Hcap Hfl Hlen. split_and!; try done.
  - split; cbn; rewrite ?length_blit; try done; lia.
  - split; cbn; try done; lia.
Qed.

(** A prepared buffer, in a state where it is owned. *)
Definition fresh_frame (l : list positive) (m : positive) (e : bstgw_ethbuf_t) (s : vstate T) : Prop :=
  owned (vworld s) (m :: l) /\ bufs (w_pool (vworld s)) !! m = Some e /\ eb_wf e /\ next e = None /\ 2048 <= buf_cap e /\
  data_off e = 2 /\ forall pr, priv_data e = Some pr -> flags pr = 0.

Lemma free_post size l s0 s m r b :
  tx_ok size s -> txb_ok size b -> kept l s0 s -> owned (vworld s) (m :: l) ->
  match r with TxFrame _ => False | _ => True end ->
  defined (s ← free_frame m s; Ok (r, b, s)) (fun '(r, b', s') => tx_post size l s0 r b' s').
Proof.
  intros Htx Hb Hk Ho Hr. destruct (free_frame_ok m l s Ho) as (w' & -> & Ho' & Hk'). cbn.
  split; [done|]. split; [done|]. split; [by eapply kept_trans|by destruct r].
Qed.

(** The total of the vectors, as the code computes it. *)
Lemma total_eq size v :
  iovs_honest get_va size MAX_TX_IOVS v -> 12 <= vecs_len (iovs_content v) ->
  u32 (iv_len v - VNET_HDR_LEN) = vecs_len (iovs_content v) - 12 /\ (length (iovs_content v) <= 4)%nat /\
  iv_used v = Z.of_nat (length (iovs_content v)).
Proof.
  intros (Hok & Hc & Hf & Hl) H12. destruct Hok as [? ? ? ?]. unfold MAX_TX_IOVS in *.
  assert (Hlen : length (iovs_content v) = Z.to_nat (iv_used v)).
  { unfold iovs_content. rewrite length_zip_with_l_eq; rewrite ?length_fmap, !length_take; lia. }
  destruct (mapped_ok get_va size (replicate (Z.to_nat size) 0) _ Hf) as (_ & _ & Hb & _).
  { destruct (iovs_content v) as [|pl k]; [cbn in H12; lia|]. apply Forall_cons in Hf as [(? & ? & ?) _]. rewrite length_replicate. lia. }
  split; [|lia]. rewrite Hl. unfold VNET_HDR_LEN. rewrite !u32_small by (rewrite ?u32_small; lia). done.
Qed.

Lemma vecs_len_first l pa len : Forall (vec_ok get_va pa) ((len : Z * Z) :: l) -> len.2 <= vecs_len (len :: l).
Proof.
  intros [_ Hf]%Forall_cons. cbn. enough (0 <= vecs_len l) by (unfold vecs_len in *; lia).
  induction Hf as [|x k (? & _) _ IH]; cbn; [lia|]. unfold vecs_len in *. lia.
Qed.

Lemma tx_msg_ok size l m e q b s0 s :
  turn_ok -> tx_ok size s -> txb_ok size b -> kept l s0 s -> fresh_frame l m e s ->
  vnic_vq s TX_VQ = Ok q -> 0 <= vb_head b < vr_num (vq_vring q) ->
  defined (tx_msg get_va nw_turn m q b s) (fun '(r, b', s') => tx_post size l s0 r b' s').
Proof.
  intros Hturn Htx [Hbi Hbo] Hk (Ho & He & Hwf & Hn & Hcap & Hoff & Hfl) Hq Hh. unfold tx_msg.
  destruct (Z.ltb_spec (iv_used (in_iovs b)) 1) as [|Hused]; [by apply free_post|].
  destruct (map_honest get_va size MAX_TX_IOVS (in_iovs b) Hbi) as (k & -> & Hok' & Hmap & Hco & Hhon). cbn [mbind outcome_bind].
  set (v := (in_iovs b) <| iv_iovs := k |>) in *. set (b1 := upd in_iovs _ b). change (NO_ERROR =? NO_ERROR) with true. cbn [negb].
  assert (Hb1 : txb_ok size b1) by (by split). change (in_iovs b1) with v.
  rewrite <- Hco in Hmap. change k with (iv_iovs v) in Hmap at 1. change (iv_used (in_iovs b)) with (iv_used v) in Hmap, Hused.
  set (c := iovs_content v) in *. destruct (Hok') as [? ? ? ?].
  assert (Hlen : length c = Z.to_nat (iv_used v)) by (rewrite <- (length_fmap (map_vec get_va)), <- Hmap, length_take; lia).
  assert (exists c0 c', c = c0 :: c') as (c0 & c' & Ec) by (destruct c; [cbn [length] in Hlen; lia|by eauto]).
  assert (Hfirst : aget (iv_iovs v) 0 = Ok (map_vec get_va c0)).
  { apply aget_ok. split; [lia|]. rewrite <- (lookup_take_lt (iv_iovs v) (Z.to_nat (iv_used v))) by lia. by rewrite Hmap, Ec. }
  rewrite Hfirst. cbn [mbind outcome_bind]. change (iov_len (map_vec get_va c0)) with (c0.2).
  set (total := u32 (iv_len v - VNET_HDR_LEN)).
  assert (Hdrop : defined (s ← free_frame m s; tx_done total TxDrop q b1 s) (fun '(r, b', s') => tx_post size l s0 r b' s')).
  { destruct (free_frame_ok m l s Ho) as (w' & -> & Ho' & Hk'). cbn [mbind outcome_bind].
    apply tx_done_ok; try done. by eapply kept_trans. }
  destruct ((c0.2 <? VNET_HDR_LEN) || _ || _ || _) eqn:Echk; [done|]. clear Hdrop.
  apply orb_false_iff in Echk as [[[E1%Z.ltb_ge E2%Z.eqb_neq]%orb_false_iff E3%Z.ltb_ge]%orb_false_iff E4%Z.ltb_ge].
  unfold VNET_HDR_LEN, BSTGW_DEFAULT_BUF_SIZE in *. destruct Hhon as (_ & Hcnt & Hf & Hl). fold c in Hf.
  assert (Hge : c0.2 <= vecs_len c) by (rewrite Ec in *; by apply (vecs_len_first c' size)).
  destruct (total_eq size v) as (Ht & H4 & Hu); [by split|fold c; lia|]. fold c in Ht, H4, Hu.
  unfold VNET_HDR_LEN in Ht. fold total in Ht. destruct (Htx) as (Hsz & _).
  rewrite (tx_copy_eq total m q b1 s e c); try done; try lia; [|by rewrite <- Hsz|cbn; by rewrite <- Hmap, Hlen].
  set (mem1 := nw_now nw_turn s). set (mem2 := nw_turn (S (reads s)) mem1). cbv zeta.
  assert (Hl2 : size = Z.of_nat (length mem2)) by (unfold mem2, mem1, nw_now; by rewrite !Hturn).
  destruct (hdr_plain _).
  - set (data := drop 12 _). assert (Hdata : Z.of_nat (length data) = total).
    { destruct (mapped_ok get_va size mem2 c) as (F & Htot & _); [done|done|]. destruct (length_gather mem2 _ F) as [G _].
      unfold data. rewrite length_drop. lia. }
    destruct (frame_of_ok e data) as (Hwf' & Hn' & Hc' & Hf'); try done; try lia.
    apply tx_done_ok; try done.
    + split; [done|]. by destruct Htx as [_ ?].
    + destruct Hk as (K1 & K2 & K3 & K4). split_and!; try done. intros j Hj. cbn. rewrite lookup_insert_ne; [by apply K4|].
      intros <-. by eapply (owned_ne _ l m m).
    + cbn. split; [apply owned_buf_set; try done; set_solver|]. exists (frame_of e data). by rewrite lookup_insert_eq.
  - match goal with |- context [free_frame m ?s1] => destruct (free_frame_ok m l s1 Ho) as (w' & -> & Ho' & Hk') end.
    cbn [mbind outcome_bind]. apply tx_error_ok; try done; [|by eapply kept_trans].
    split; [cbn; unfold mem1, nw_now; by rewrite Hturn|]. by destruct Htx as [_ ?].
Qed.

(** One iteration, whatever an honest normal world does. *)
Lemma tx_one_ok size l b s :
  turn_ok -> tx_ok size s -> txb_ok size b -> owned (vworld s) l ->
  defined (tx_one get_va nw_turn b s) (fun '(r, b', s') => tx_post size l s r b' s').
Proof.
  intros Hturn Htx Hb Ho. pose proof Htx as (Hsz & q & Hq & Hr). pose proof Hb as [Hbi Hbo]. unfold tx_one. apply defined_bind.
  eapply defined_mono; [|apply (tx_alloc_ok (vworld s) l Ho)]. intros [m p] (e & He & Ha).
  match goal with |- context [buf_get ?w m] => change w with ((vworld s) <| w_pool := p |>) end. rewrite He. cbn [mbind outcome_bind].
  set (e1 := e <| data_off := 2 |> <| packet_type := RTE_PTYPE_L2_MASK |>) in *. destruct Ha as (Ho1 & Hl1 & Hwf1 & Hn1 & Hc1 & Hp1 & Hnd1 & Hk1).
  set (w1 := buf_set ((vworld s) <| w_pool := p |>) m e1) in *.
  set (s1 := upd vworld _ (upd vworld _ s)). assert (Hs1 : s1 = s <| vworld := w1 |>) by (by destruct s). clearbody s1. subst s1.
  change (vnic_vq (s <| vworld := w1 |>) TX_VQ) with (vnic_vq s TX_VQ). rewrite Hq. cbn [mbind outcome_bind]. apply defined_bind.
  eapply defined_mono; [|apply (get_avail_buf_honest get_va size MAX_TX_IOVS 0 q _ _ b Hr Hbi Hbo)].
  intros [[[ret q'] b'] t'] (Hr' & Hbi' & Hbo' & Hv' & Hhd).
  match goal with |- context [with_vq (vn ?s1)] => destruct (with_vq_set s1 TX_VQ q q' Hq) as (-> & Hq1 & _) end.
  cbn [mbind outcome_bind].
  set (s2 := upd reads _ (upd vn _ _)).
  assert (Htx2 : tx_ok size s2) by (split; [done|]; by exists q').
  assert (Hk2 : kept l s s2) by (split_and!; done).
  destruct (ret =? ERR_NOT_ENOUGH_BUFFER); [by apply free_post|].
  destruct (Z.eqb_spec ret NO_ERROR) as [->|]; cbn [negb]; [|by apply free_post].
  apply (tx_msg_ok size l m e1); try done; rewrite Hv'; by apply Hhd.
Qed.

(** Frames collected for the router. *)
Definition frames_ok (w : world T) (ms : list positive) : Prop :=
  Forall (fun m => exists e, bufs (w_pool w) !! m = Some e /\ frame_ok e) ms.

Lemma frames_ok_kept l ms s s' :
  kept l s s' -> (forall m, m ∈ ms -> m ∈ l) -> frames_ok (vworld s) ms -> frames_ok (vworld s') ms.
Proof.
  intros (_ & _ & _ & Hk) Hin Hf. apply Forall_forall. intros m Hm. rewrite Hk by auto.
  by apply (proj1 (Forall_forall _ _) Hf).
Qed.

(** [frames] holds [ms] in its first entries. *)
Definition frames_hold (frames : list ebptr) (ms : list positive) : Prop :=
  exists rest, frames = (Some <$> ms) ++ rest.

Lemma frames_read frames ms :
  frames_hold frames ms -> mem_read frames 0 (Z.of_nat (length ms)) = Ok (Some <$> ms).
Proof.
  intros [rest ->]. rewrite mem_read_ok by (rewrite ?length_app, ?length_fmap; lia).
  rewrite Nat2Z.id, drop_0, take_app_length' by (by rewrite length_fmap). done.
Qed.

Lemma frames_push frames ms m :
  frames_hold frames ms -> (length ms < length frames)%nat ->
  exists frames', aset frames (Z.of_nat (length ms)) (Some m) = Ok frames' /\ frames_hold frames' (ms ++ [m]) /\
    length frames' = length frames.
Proof.
  intros [rest ->] Hl. rewrite length_app, length_fmap in Hl. rewrite aset_ok by (rewrite length_app, length_fmap; lia).
  eexists. split; [done|]. rewrite length_insert. split; [|done]. destruct rest as [|r rest]; [cbn in Hl; lia|].
  exists rest. rewrite Nat2Z.id, fmap_app, <- app_assoc. rewrite <- (length_fmap Some ms), insert_app_r_alt, Nat.sub_diag by done. done.
Qed.

Lemma owned_disjoint (w : world T) ms l j : owned w (ms ++ l) -> j ∈ ms -> j ∈ l -> False.
Proof.
  intros [[[Hnd _ _ _ _] _ _ _] Hin] Hm Hl. apply NoDup_app in Hnd as (_ & _ & Hnd). rewrite Hin in Hnd.
  apply NoDup_app in Hnd as (_ & _ & Hnd). apply NoDup_app in Hnd as (_ & Hd & _). by apply (Hd j).
Qed.

(** What the loop leaves: nothing more than before when it returns at once,
    and otherwise the frames collected. *)
Definition loop_post (size burst : Z) (l : list positive) (s : vstate T) (r : option Z) (num : Z) (frames : list ebptr)
    (sent : Z) (s' : vstate T) : Prop :=
  tx_ok size s' /\ kept l s s' /\ num <= burst /\
  match r with
  | Some _ => owned (vworld s') l
  | None => exists ms, sent = Z.of_nat (length ms) /\ sent <= num /\ frames_hold frames ms /\
              owned (vworld s') (ms ++ l) /\ frames_ok (vworld s') ms
  end.

Lemma flush_tx_loop_ok size burst l : turn_ok -> forall fuel num frames ms b s0 s,
  tx_ok size s -> txb_ok size b -> kept l s0 s -> owned (vworld s) (ms ++ l) -> frames_ok (vworld s) ms ->
  frames_hold frames ms -> Z.of_nat (length frames) = burst -> Z.of_nat (length ms) <= num < burst ->
  (Z.to_nat (burst - num) <= fuel)%nat ->
  defined (flush_tx_loop get_va nw_turn fuel burst num frames (Z.of_nat (length ms)) b s)
    (fun '(r, num', frames', sent, s') => loop_post size burst l s0 r num' frames' sent s').
Proof.
  intros Hturn. induction fuel as [|fuel IH]; intros num frames ms b s0 s Htx Hb Hk Ho Hfr Hhold Hlen Hnum Hfuel; [lia|].
  cbn [flush_tx_loop]. apply defined_bind. eapply defined_mono; [|apply (tx_one_ok size (ms ++ l) b s Hturn Htx Hb Ho)].
  intros [[r b'] s'] (Htx' & Hb' & Hk' & Hr).
  assert (Hkl : kept l s0 s').
  { eapply kept_trans; [exact Hk|]. destruct Hk' as (A1 & A2 & A3 & A4). split_and!; try done. intros j Hj. apply A4. set_solver. }
  assert (Hfr' : frames_ok (vworld s') ms) by (eapply frames_ok_kept; [exact Hk'|set_solver|done]).
  destruct r as [|ret| |m].
  - cbn. split; [done|]. split; [done|]. split; [lia|]. exists ms. split_and!; try done; lia.
  - rewrite (frames_read frames ms Hhold). cbn [mbind outcome_bind].
    destruct (owned_free_bufs ms (vworld s') l Hr) as (w' & -> & Ho' & Hn & _ & _ & Hj). cbn.
    split; [done|]. split; [|by split; [lia|]].
    destruct Hkl as (A1 & A2 & A3 & A4). split_and!; cbn; try done; [congruence|]. intros j Hjl.
    rewrite Hj; [by apply A4|]. intros Hjm. by eapply owned_disjoint.
  - destruct (Z.leb_spec burst (num + 1)).
    + cbn. split; [done|]. split; [done|]. split; [lia|]. exists ms. split_and!; try done; lia.
    + apply IH; try done; lia.
  - destruct Hr as [Hr He]. assert (Ho' : owned (vworld s') ((ms ++ [m]) ++ l)) by (eapply owned_perm; [|exact Hr]; solve_Permutation).
    assert (Hfr2 : frames_ok (vworld s') (ms ++ [m])) by (apply Forall_app; split; [done|by apply Forall_singleton]).
    destruct (frames_push frames ms m Hhold) as (frames' & -> & Hhold' & Hlen'); [lia|]. cbn [mbind outcome_bind].
    replace (Z.of_nat (length ms) + 1) with (Z.of_nat (length (ms ++ [m]))) by (rewrite length_app; cbn; lia).
    assert (Z.of_nat (length (ms ++ [m])) <= num + 1) by (rewrite length_app; cbn; lia).
    destruct (Z.leb_spec burst (num + 1)).
    + cbn. split; [done|]. split; [done|]. split; [lia|]. by exists (ms ++ [m]).
    + apply IH; try done; lia.
Qed.

Lemma tx_ok_frame size s s' :
  nw_mem s' = nw_mem s -> tx_shm s' = tx_shm s -> vq (vdev (vn s')) = vq (vdev (vn s)) -> tx_ok size s -> tx_ok size s'.
Proof. intros E1 E2 E3 (Hs & q & Hq & Hr). unfold tx_ok, vnic_vq in *. rewrite E1, E2, E3. split; [done|]. by exists q. Qed.

(** What the router must do with a burst: each frame ends in an egress queue
    or is freed. *)
Definition router_takes (rx_handler : list ebptr -> world T -> outcome (Z * world T)) (nd : netdevs T) (l : list positive) : Prop :=
  forall ms w, w_nd w = nd -> Z.of_nat (length ms) <= 65536 -> owned w (ms ++ l) -> frames_ok w ms ->
    defined (rx_handler (Some <$> ms) w) (fun '(_, w') => owned w' l).

Lemma flush_tx_deliver_ok size l rx_handler num frames sent s ms :
  tx_ok size s -> router_takes rx_handler (w_nd (vworld s)) l -> sent = Z.of_nat (length ms) -> sent <= 65536 ->
  frames_hold frames ms -> owned (vworld s) (ms ++ l) -> frames_ok (vworld s) ms ->
  defined (flush_tx_deliver rx_handler num frames sent s) (fun '(_, s') => tx_ok size s' /\ owned (vworld s') l).
Proof.
  intros Htx Hrt -> Hlen Hh Ho Hf. pose proof Htx as (_ & q & Hq & Hr). destruct (ring_ok_avail _ _ _ _ Hr) as [Hav _].
  unfold flush_tx_deliver. rewrite Hq. cbn [mbind outcome_bind].
  assert (exists s1, (if 0 <? num then vnic_vq_kick_cb q (tx_shm s) s else Ok s) = Ok s1 /\ tx_ok size s1 /\ vworld s1 = vworld s)
    as (s1 & -> & Htx1 & Hw1).
  { destruct (0 <? num); [|by exists s]. destruct (kick_ok q (tx_shm s) s Hav) as (s1 & -> & E1 & E2 & E3 & _ & E4 & _).
    exists s1. split; [done|]. split; [by eapply tx_ok_frame|done]. }
  cbn [mbind outcome_bind]. destruct (Z.ltb_spec 0 (Z.of_nat (length ms))).
  - rewrite (frames_read frames ms Hh). cbn [mbind outcome_bind]. rewrite Hw1. specialize (Hrt ms (vworld s) eq_refl Hlen Ho Hf).
    destruct (rx_handler (Some <$> ms) (vworld s)) as [[r w']| |]; done.
  - cbn. split; [done|]. rewrite Hw1. by destruct ms; [|cbn in *; lia].
Qed.

(** The room the code finds in the queue of the Ethernet controller. *)
Lemma router_room w l tr ndev fi :
  owned w l -> ndev ∈ netdev_list (w_nd w) -> (forall p, fi = Some p -> p ∈ netdev_list (w_nd w)) ->
  defined (router_in_burst_size tr ndev fi w) (fun _ => True).
Proof.
  intros Ho Hn Hfi. assert (Hroom : forall p, p ∈ netdev_list (w_nd w) -> defined (queue_room p w) (fun _ => True)).
  { intros p Hp. destruct (owned_dev w l p Ho Hp) as (d & Hd & Hok). destruct (dk_queue d Hok) as (q & Hq & _).
    unfold queue_room, dev_get. rewrite Hd. cbn. by rewrite Hq. }
  unfold router_in_burst_size. destruct tr as [n|]; [|done]. cbn [assert_ptr mbind outcome_bind].
  destruct fi as [p|]; [by apply Hroom, Hfi|]. destruct (owned_dev w l ndev Ho Hn) as (d & Hd & _).
  unfold dev_get. rewrite Hd. cbn [deref mbind outcome_bind]. destruct (trust_status d); [|done].
  pose proof (find_name_spec (w_nd w) "imx6q-fec"%string (netdev_list (w_nd w)) (wo_reg _ (proj1 Ho)) (fun q Hq => Hq)) as F.
  unfold ifnet_getbyname. destruct (find_name _ _ _) as [[[p d']|]| |]; try done. apply Hroom. by destruct F.
Qed.

Lemma tx_buf_ok size : txb_ok size tx_buf.
Proof. by split; (split; [split; vm_compute; try done; by split|]); split_and!; try done; apply Forall_nil. Qed.

Lemma flush_tx_ok size l tr ndev alloc rx_handler s :
  turn_ok -> tx_ok size s -> owned (vworld s) l -> 1 <= tx_burst (vnet (vn s)) -> ndev ∈ netdev_list (w_nd (vworld s)) ->
  (forall p, fec_ifp s = Some p -> p ∈ netdev_list (w_nd (vworld s))) -> router_takes rx_handler (w_nd (vworld s)) l ->
  defined (virtio_net_flush_tx get_va nw_turn tr ndev alloc rx_handler s) (fun '(_, s') => tx_ok size s' /\ owned (vworld s') l).
Proof.
  intros Hturn Htx Ho Hb Hn Hfi Hrt. pose proof Htx as (Hsz & q & Hq & Hr). destruct (ring_ok_avail _ _ _ _ Hr) as [Hav _].
  unfold virtio_net_flush_tx. destruct (_ =? 0); [done|]. rewrite Hq. cbn [mbind outcome_bind].
  unfold vqueue_num_of_avail_buf. rewrite (proj2 (Z.eqb_neq _ _) Hav). cbn [mbind outcome_bind].
  set (avail := u16 _). pose proof (u16_range (avail_idx_at (tx_shm s) (reads s) - last_avail_idx q)) as Hrange. fold avail in Hrange.
  set (s1 := upd reads _ s). destruct (Z.eqb_spec avail 0); [done|].
  assert (exists fi, match fec_ifp s1 with Some p => Ok (Some p) | None => ifnet_getbyname (w_nd (vworld s1)) (Some "imx6q-fec"%string) end = Ok fi /\
    forall p, fi = Some p -> p ∈ netdev_list (w_nd (vworld s))) as (fi & -> & Hfi').
  { cbn. destruct (fec_ifp s) as [p|] eqn:Ef; [exists (Some p); split; [done|]; intros; simplify_eq; auto|].
    pose proof (find_name_spec (w_nd (vworld s)) "imx6q-fec"%string _ (wo_reg _ (proj1 Ho)) (fun p Hp => Hp)) as F.
    destruct (find_name _ _ _) as [[[p d']|]| |]; try done; eexists; (split; [done|]); [|done]. intros ? [= <-]. by destruct F. }
  cbn [mbind outcome_bind]. set (s2 := upd fec_ifp _ s1). pose proof (router_room (vworld s2) l tr ndev fi Ho Hn Hfi') as Hroom.
  destruct (router_in_burst_size _ _ _ _) as [ref| |]; [|done|done]. cbn [mbind outcome_bind]. unfold VIRTIO_NET_TX_QUEUE_DEFAULT_SIZE.
  change (256 / 2) with 128. destruct (Z.ltb_spec ref 128); [done|]. change (vnet (vn s2)) with (vnet (vn s)).
  set (burst := if avail <? _ then _ else _).
  assert (Hburst : 1 <= burst <= 65535).
  { unfold burst. destruct (Z.leb_spec (tx_burst (vnet (vn s))) ref), (Z.ltb_spec avail (tx_burst (vnet (vn s)))), (Z.ltb_spec avail ref); lia. }
  clearbody burst. destruct alloc; cbn [negb]; [|done]. apply defined_bind.
  eapply defined_mono; [|apply (flush_tx_loop_ok size burst l Hturn (S (Z.to_nat burst)) 0 (replicate (Z.to_nat burst) None) [] tx_buf s2 s2 Htx (tx_buf_ok size)
    (kept_refl l s2) Ho (Forall_nil_2 _) (ex_intro _ _ eq_refl)); [rewrite length_replicate|cbn|]; lia].
  intros [[[[r num] frames] sent] s3] (Htx3 & Hk3 & Hnum & Hpost). destruct r as [ret|]; [done|].
  destruct Hpost as (ms & -> & Hle & Hh & Ho3 & Hf3). eapply flush_tx_deliver_ok; try done; [|lia].
  destruct Hk3 as (-> & _). done.
Qed.

(** ** A well-formed ring that is left alone *)

(** The vectors of a chain, mapped, and the packet behind its header. *)
Definition chain_iovs (ds : list vring_desc) : list iovec_kern_t := map_vec get_va <$> (desc_vec <$> ds).
Definition payload (mem : list Z) (ds : list vring_desc) : list Z := drop 12 (gather mem (chain_iovs ds)).

(** A packet offered at descriptor [i]: device-readable descriptors, at most
    four, the first one holding the whole header, which asks for nothing. *)
Record offered (size : Z) (mem : list Z) (D : Z -> vring_desc) (num i : Z) (ds : list vring_desc) : Prop := {
  of_chain : desc_chain D num i ds;
  of_write : write_descs ds = [];
  of_cnt : (length ds <= 4)%nat;
  of_addr : Forall (fun d => 0 <= d_addr d <= MAX_U32) ds;
  of_vecs : Forall (vec_ok get_va size) (desc_vec <$> ds);
  of_first : exists d ds', ds = d :: ds' /\ 12 <= d_len d;
  of_len : 42 <= descs_len ds - 12 <= 2046;
  of_hdr : hdr_plain (take 12 (gather mem (chain_iovs ds))) = true
}.

Lemma read_write_descs ds : write_descs ds = [] -> read_descs ds = ds.
Proof.
  induction ds as [|d ds IH]; [done|]. rewrite (proj1 (rw_descs_cons d ds)), (proj2 (rw_descs_cons d ds)).
  destruct (is_write d); [done|]. cbn. intros E. by rewrite IH.
Qed.

Lemma vecs_len_descs ds : vecs_len (desc_vec <$> ds) = descs_len ds.
Proof. induction ds as [|d ds IH]; [done|]. cbn in *. unfold vecs_len in IH. by rewrite IH. Qed.

(** The state after the packet at [i] was taken into buffer [m]. *)
Definition after_frame (s : vstate T) (q : vqueue) (p' : ethbuf_pool) (m : positive) (e : bstgw_ethbuf_t) (t : nat)
    (i len : Z) : vstate T :=
  s <| vn ::= set_vq TX_VQ (q <| last_avail_idx := u16 (last_avail_idx q + 1) |>) |> <| reads := t |>
    <| vworld := buf_set ((vworld s) <| w_pool := p' |>) m e |>
    <| tx_shm := (tx_shm s) <| used_idx := u16 (used_idx (tx_shm s) + 1) |>
         <| used_ring ::= <[Z.to_nat (used_idx (tx_shm s) mod vr_num (vq_vring q)) := mk_used_elem i len]> |> |>.

Lemma tx_msg_quiet size m e q b s D i ds :
  (forall t l, nw_turn t l = l) -> tx_ok size s -> txb_ok size b -> offered size (nw_mem s) D (vr_num (vq_vring q)) i ds ->
  iovs_content (in_iovs b) = desc_vec <$> ds -> vb_head b = i -> vnic_vq s TX_VQ = Ok q ->
  bufs (w_pool (vworld s)) !! m = Some e -> eb_wf e -> data_off e = 2 -> 2048 <= buf_cap e ->
  exists b', tx_msg get_va nw_turn m q b s = Ok (TxFrame m, b',
    s <| reads := S (S (reads s)) |> <| vworld ::= fun w => buf_set w m (frame_of e (payload (nw_mem s) ds)) |>
      <| tx_shm := (tx_shm s) <| used_idx := u16 (used_idx (tx_shm s) + 1) |>
           <| used_ring ::= <[Z.to_nat (used_idx (tx_shm s) mod vr_num (vq_vring q)) := mk_used_elem i (descs_len ds)]> |> |>).
Proof.
  intros Hid Htx [Hbi _] Hof Hco Hh Hq He Hwf Hoff Hcap. unfold tx_msg.
  destruct Hof as [Hch _ Hcnt _ Hv (d0 & ds' & Eds & Hd0) Hlen Hhdr]. assert (Hi : 0 <= i < vr_num (vq_vring q)) by (by destruct Hch).
  assert (H12 : 12 <= vecs_len (iovs_content (in_iovs b))) by (rewrite Hco, vecs_len_descs; lia).
  destruct (total_eq size (in_iovs b) Hbi H12) as (Htot & _ & Hu). rewrite Hco, length_fmap in Hu.
  rewrite (proj2 (Z.ltb_ge _ _)) by (rewrite Hu, Eds; cbn; lia).
  destruct (map_honest get_va size MAX_TX_IOVS (in_iovs b) Hbi) as (k & -> & Hok' & Hmap & Hco' & Hhon). cbn [mbind outcome_bind].
  set (v := (in_iovs b) <| iv_iovs := k |>) in *. set (b1 := upd in_iovs _ b). change (NO_ERROR =? NO_ERROR) with true. cbn [negb].
  change (in_iovs b1) with v. change (iv_len v) with (iv_len (in_iovs b)). rewrite Htot, Hco, vecs_len_descs.
  rewrite Hco in Hmap. rewrite Hu, Nat2Z.id in Hmap.
  assert (Hfirst : aget (iv_iovs v) 0 = Ok (map_vec get_va (desc_vec d0))).
  { apply aget_ok. split; [lia|]. change (Z.to_nat 0) with 0%nat. rewrite <- (lookup_take_lt (iv_iovs v) (length ds)) by (rewrite Eds; cbn; lia).
    change (iv_iovs v) with k. rewrite Hmap, Eds. done. }
  rewrite Hfirst. cbn [mbind outcome_bind]. change (iov_len (map_vec get_va (desc_vec d0))) with (d_len d0).
  unfold VNET_HDR_LEN, BSTGW_DEFAULT_BUF_SIZE.
  rewrite (proj2 (Z.ltb_ge _ _)), (proj2 (Z.eqb_neq _ _)), (proj2 (Z.ltb_ge _ 42)), (proj2 (Z.ltb_ge (2048 - 2) _)) by lia. cbn [orb].
  destruct (Htx) as (Hsz & q0 & Hq0 & Hr). assert (q0 = q) as -> by congruence.
  rewrite (tx_copy_eq _ m q b1 s e (desc_vec <$> ds)); rewrite ?length_fmap; try done; try lia;
    [|by intros t l0; rewrite Hid|by rewrite <- Hsz|rewrite vecs_len_descs; lia].
  unfold nw_now. rewrite !Hid. fold (chain_iovs ds) (payload (nw_mem s) ds). rewrite Hhdr. unfold tx_done.
  destruct (unmap_honest size MAX_TX_IOVS v Hhon) as (k2 & Hun & _); [rewrite Hco', Hco; change (iv_used v) with (iv_used (in_iovs b)); by rewrite Hu, Nat2Z.id|].
  change (in_iovs b1) with v. rewrite Hun. cbn [mbind outcome_bind].
  match goal with |- context [vqueue_add_buf q ?m0 ?b' ?n] =>
    destruct (add_buf_ok get_va size q m0 b' n Hr) as (m' & -> & _ & ->); [change (vb_head b') with (vb_head b); lia|change (vb_head b') with (vb_head b)] end.
  cbn [mbind outcome_bind]. rewrite Hh, u32_small by (unfold VNET_HDR_LEN; lia).
  unfold VNET_HDR_LEN. replace (12 + (descs_len ds - 12)) with (descs_len ds) by lia. eexists. destruct s. done.
Qed.

(** The packets [ps] wait on the ring, in order; nothing changes meanwhile. *)
Record ring_offers (size : Z) (mem : list Z) (D : Z -> vring_desc) (q : vqueue) (m : vring_shm)
    (ps : list (Z * list vring_desc)) : Prop := {
  rf_quiet : shm_quiet m D;
  rf_idx : forall t, avail_idx_at m t = u16 (last_avail_idx q + Z.of_nat (length ps));
  rf_room : Z.of_nat (length ps) <= vr_num (vq_vring q) < 65536;
  rf_ring : forall j i ds, ps !! j = Some (i, ds) ->
    offered size mem D (vr_num (vq_vring q)) i ds /\
    forall t, avail_ring_at m t (u16 (last_avail_idx q + Z.of_nat j) mod vr_num (vq_vring q)) = i
}.

Lemma offers_avail size mem D q m p ps t :
  ring_offers size mem D q m (p :: ps) ->
  u16 (avail_idx_at m t - last_avail_idx q) = Z.of_nat (length (p :: ps)) /\ last_avail_idx q <> avail_idx_at m t.
Proof. intros [_ Hidx Hroom _]. rewrite Hidx. apply u16_ahead. cbn [length] in *. lia. Qed.

Lemma offers_tail size mem D q m p ps u r :
  ring_offers size mem D q m (p :: ps) -> 0 <= last_avail_idx q < 65536 ->
  ring_offers size mem D (q <| last_avail_idx := u16 (last_avail_idx q + 1) |>)
    (m <| used_idx := u |> <| used_ring := r |>) ps.
Proof.
  intros [Hq Hidx Hroom Hring] Hl. split; [done|..].
  - intros t. cbn. rewrite Hidx, u16_add. cbn [length]. f_equal. lia.
  - cbn [length] in Hroom. cbn. lia.
  - intros j i ds Hj. destruct (Hring (S j) i ds Hj) as [Ho Hr]. split; [done|]. intros t. cbn.
    rewrite u16_add. rewrite <- (Hr t). do 3 f_equal. lia.
Qed.

Lemma tx_one_quiet size l m fl b q s D i ds ps :
  (forall t l, nw_turn t l = l) -> tx_ok size s -> txb_ok size b -> vnic_vq s TX_VQ = Ok q -> last_avail_idx q < 65536 ->
  ring_offers size (nw_mem s) D q (tx_shm s) ((i, ds) :: ps) ->
  owned (vworld s) l -> free_list (w_pool (vworld s)) = m :: fl ->
  exists b' p' e t, tx_one get_va nw_turn b s = Ok (TxFrame m, b', after_frame s q p' m e t i (descs_len ds)) /\
    eb_data e = payload (nw_mem s) ds /\ free_list p' = fl /\ bufs p' = bufs (w_pool (vworld s)).
Proof.
  intros Hid Htx Hb Hq Hlast Hoff Ho Hfl. pose proof Htx as (Hsz & q0 & Hq0 & Hr). assert (q0 = q) as -> by congruence. pose proof Hb as [Hbi Hbo].
  destruct (owned_alloc (vworld s) l m fl Ho Hfl) as (p' & e & Ha & Ho1 & Hbp & Hfl' & Hm & He & Hwf & Hcl & Hcap).
  unfold tx_one. rewrite Ha. cbn [mbind outcome_bind].
  assert (Hg : buf_get ((vworld s) <| w_pool := p' |>) m = Ok e) by (unfold buf_get; cbn; by rewrite Hbp, He).
  match goal with |- context [buf_get ?w m] => change w with ((vworld s) <| w_pool := p' |>) end. rewrite Hg. cbn [mbind outcome_bind].
  set (e1 := e <| data_off := 2 |> <| packet_type := RTE_PTYPE_L2_MASK |>). destruct Hcl as (Hn & _ & _ & Hdl & _).
  assert (Hwf1 : eb_wf e1) by (destruct Hwf; split; cbn; try done; lia).
  set (w1 := buf_set ((vworld s) <| w_pool := p' |>) m e1) in *.
  set (s1 := upd vworld _ (upd vworld _ s)). assert (Hs1 : s1 = s <| vworld := w1 |>) by (by destruct s). clearbody s1. subst s1.
  change (vnic_vq (s <| vworld := w1 |>) TX_VQ) with (vnic_vq s TX_VQ). rewrite Hq. cbn [mbind outcome_bind].
  destruct (offers_avail _ _ _ _ _ _ _ (reads s) Hoff) as [Hav _]. destruct (offers_avail _ _ _ _ _ _ _ (reads s + 1)%nat Hoff) as [_ Hne].
  destruct (rf_ring _ _ _ _ _ _ Hoff 0%nat i ds eq_refl) as [Hof Hslot]. pose proof (rf_room _ _ _ _ _ _ Hoff) as Hroom.
  assert (Hslot' : avail_ring_at (tx_shm s) (reads s + 2) (last_avail_idx q mod vr_num (vq_vring q)) = i).
  { rewrite <- (Hslot (reads s + 2)%nat). rewrite Z.add_0_r, u16_small; [done|]. pose proof (ro_avail _ _ _ _ Hr). lia. }
  assert (Hrd : read_descs ds = ds) by (apply read_write_descs, Hof).
  destruct (get_avail_buf_chain q (tx_shm s) (reads s) b D ds (ro_ptrs _ _ _ _ Hr) (ro_addr _ _ _ _ Hr) (ro_num _ _ _ _ Hr)
    (rf_quiet _ _ _ _ _ _ Hoff) (conj (proj1 Hbi) (proj1 Hbo))) as (b' & t' & Hget & Hhd & Hci & Hco & _).
  { rewrite Hav. rewrite u16_small by lia. cbn [length] in *. lia. }
  { done. }
  { rewrite Hslot'. apply Hof. }
  { apply Hof. }
  { rewrite Hrd. destruct Hbi as (_ & -> & _). unfold MAX_TX_IOVS. pose proof (of_cnt _ _ _ _ _ _ Hof). lia. }
  { rewrite (of_write _ _ _ _ _ _ Hof). destruct Hbo as (_ & -> & _). done. }
  change (tx_shm (s <| vworld := w1 |>)) with (tx_shm s). change (reads (s <| vworld := w1 |>)) with (reads s).
  pose proof (get_avail_buf_honest get_va size MAX_TX_IOVS 0 q _ (reads s) b Hr Hbi Hbo) as Hhon. rewrite Hget in Hhon.
  destruct Hhon as (Hr' & Hbi' & Hbo' & _ & _). rewrite Hget. cbn [mbind outcome_bind].
  match goal with |- context [with_vq (vn ?s1)] => destruct (with_vq_set s1 TX_VQ q (q <| last_avail_idx := u16 (last_avail_idx q + 1) |>) Hq) as (-> & Hq1 & _) end.
  cbn [mbind outcome_bind]. change (NO_ERROR =? ERR_NOT_ENOUGH_BUFFER) with false. change (NO_ERROR =? NO_ERROR) with true. cbn [negb].
  set (s2 := upd reads _ (upd vn _ _)). rewrite Hrd in Hci. rewrite Hslot' in Hhd.
  destruct (tx_msg_quiet size m e1 (q <| last_avail_idx := u16 (last_avail_idx q + 1) |>) b' s2 D i ds) as (b2 & Hmsg); try done.
  { split; [done|]. by exists (q <| last_avail_idx := u16 (last_avail_idx q + 1) |>). }
  { cbn. by rewrite lookup_insert_eq. }
  rewrite Hmsg. exists b2, p', (frame_of e1 (payload (nw_mem s) ds)), (S (S (reads s2))). split; [|split; [|by split]].
  - do 2 f_equal. unfold after_frame, s2. rewrite <- (buf_set_set _ m e1). fold w1. by destruct s.
  - apply frame_data; [done|]. pose proof (ebw_cap _ Hwf). change (bytes e1) with (bytes e). lia.
Qed.

(** Entries added to the used ring, in order: head and length of each chain. *)
Fixpoint publish (num : Z) (es : list (Z * Z)) (m : vring_shm) : vring_shm :=
  match es with
  | [] => m
  | (i, len) :: es' =>
      publish num es' (m <| used_idx := u16 (used_idx m + 1) |>
                         <| used_ring ::= <[Z.to_nat (used_idx m mod num) := mk_used_elem i len]> |>)
  end.

Definition used_entry (p : Z * list vring_desc) : Z * Z := (p.1, descs_len p.2).

(** Buffers [ms] carry the packets [ps]. *)
Definition carries (mem : list Z) (w : world T) (ms : list positive) (ps : list (Z * list vring_desc)) : Prop :=
  Forall2 (fun m p => exists e, bufs (w_pool w) !! m = Some e /\ eb_data e = payload mem p.2) ms ps.

Lemma carries_kept mem l ms ps s s' :
  kept l s s' -> (forall m, m ∈ ms -> m ∈ l) -> carries mem (vworld s) ms ps -> carries mem (vworld s') ms ps.
Proof.
  intros (_ & _ & _ & Hk) Hin Hf. induction Hf as [|m p ms ps Hm Hf IH]; constructor; [rewrite Hk by set_solver; done|].
  apply IH. set_solver.
Qed.

Lemma flush_tx_loop_quiet size burst l D : (forall t l, nw_turn t l = l) ->
  forall k fuel num frames ms done0 b s q ps,
  tx_ok size s -> txb_ok size b -> vnic_vq s TX_VQ = Ok q -> last_avail_idx q < 65536 ->
  ring_offers size (nw_mem s) D q (tx_shm s) ps -> owned (vworld s) (ms ++ l) -> frames_ok (vworld s) ms ->
  frames_hold frames ms -> Z.of_nat (length frames) = burst -> num = Z.of_nat (length ms) -> (0 < k)%nat -> Z.of_nat k = burst - num ->
  (k <= fuel)%nat -> (k <= length ps)%nat -> (k <= length (free_list (w_pool (vworld s))))%nat ->
  carries (nw_mem s) (vworld s) ms done0 ->
  exists ms' frames' s', flush_tx_loop get_va nw_turn fuel burst num frames (Z.of_nat (length ms)) b s
      = Ok (None, burst, frames', burst, s') /\ length ms' = Z.to_nat burst /\ frames_hold frames' ms' /\
    carries (nw_mem s) (vworld s') ms' (done0 ++ take k ps) /\ owned (vworld s') (ms' ++ l) /\ frames_ok (vworld s') ms' /\
    tx_ok size s' /\ kept l s s' /\ nw_mem s' = nw_mem s /\
    tx_shm s' = publish (vr_num (vq_vring q)) (used_entry <$> take k ps) (tx_shm s) /\
    vnic_vq s' TX_VQ = Ok (q <| last_avail_idx := u16 (last_avail_idx q + Z.of_nat k) |>).
Proof.
  intros Hid. assert (Hturn : turn_ok) by (intros t m; by rewrite Hid).
  induction k as [|k IH]; intros fuel num frames ms done0 b s q ps Htx Hb Hq Hlast Hoff Ho Hfr Hhold Hlen Hnum Hk Hbk Hfuel Hps Hfree Hcar; [lia|].
  destruct fuel as [|fuel]; [lia|]. destruct ps as [|[i ds] ps]; [cbn in Hps; lia|].
  destruct (free_list (w_pool (vworld s))) as [|m fl] eqn:Hfl; [cbn in Hfree; lia|].
  destruct (tx_one_quiet size (ms ++ l) m fl b q s D i ds ps Hid Htx Hb Hq Hlast Hoff Ho Hfl) as (b' & p' & e & t & Hone & Hdata & Hfl' & Hbufs).
  pose proof (tx_one_ok size (ms ++ l) b s Hturn Htx Hb Ho) as Hpost. rewrite Hone in Hpost. destruct Hpost as (Htx' & Hb' & Hk' & Ho' & Hfe).
  set (s' := after_frame s q p' m e t i (descs_len ds)) in *.
  assert (Ho2 : owned (vworld s') ((ms ++ [m]) ++ l)) by (eapply owned_perm; [|exact Ho']; solve_Permutation).
  assert (Hfr2 : frames_ok (vworld s') (ms ++ [m])).
  { apply Forall_app. split; [eapply frames_ok_kept; [exact Hk'|set_solver|done]|by apply Forall_singleton]. }
  destruct (frames_push frames ms m Hhold) as (frames' & Hset & Hhold' & Hlen'); [lia|].
  assert (Hcar2 : carries (nw_mem s) (vworld s') (ms ++ [m]) (done0 ++ [(i, ds)])).
  { apply Forall2_app; [by eapply carries_kept; [exact Hk'|set_solver|]|]. constructor; [|done]. exists e. split; [|done]. cbn. by rewrite lookup_insert_eq. }
  assert (Hkl : kept l s s') by (destruct Hk' as (A1 & A2 & A3 & A4); split_and!; try done; intros j Hj; apply A4; set_solver).
  cbn [flush_tx_loop]. rewrite Hone. cbn [mbind outcome_bind]. rewrite Hset. cbn [mbind outcome_bind].
  assert (Hms : Z.of_nat (length (ms ++ [m])) = num + 1) by (rewrite length_app; cbn; lia).
  assert (Hq' : vnic_vq s' TX_VQ = Ok (q <| last_avail_idx := u16 (last_avail_idx q + 1) |>)) by (apply (with_vq_set s TX_VQ q _ Hq)).
  destruct (decide (k = 0%nat)) as [->|Hk0].
  - rewrite (proj2 (Z.leb_le _ _)) by lia. exists (ms ++ [m]), frames', s'. rewrite <- Hnum. split; [by replace (num + 1) with burst by lia|].
    split; [lia|]. split_and!; try done.
  - rewrite (proj2 (Z.leb_gt _ _)) by lia. rewrite <- Hnum. rewrite <- Hms.
    destruct (IH fuel (num + 1) frames' (ms ++ [m]) (done0 ++ [(i, ds)]) b' s' (q <| last_avail_idx := u16 (last_avail_idx q + 1) |>) ps)
      as (ms' & fr' & s2 & Hloop & H1 & H2 & H3 & H4 & H5 & H6 & H7 & H8 & H9 & H10); try done; try lia.
    { cbn. apply u16_range. }
    { apply offers_tail with (p := (i, ds)); [done|]. pose proof Htx as (_ & q0 & Hq0 & Hr). assert (q0 = q) as -> by congruence.
      pose proof (ro_avail _ _ _ _ Hr). lia. }
    { cbn in Hps. lia. }
    { cbn. rewrite Hfl'. cbn in Hfree. lia. }
    exists ms', fr', s2. rewrite Hms. rewrite <- Hms at 2. split; [exact Hloop|].
    split_and!; try done; [by rewrite <- app_assoc in H3|by eapply kept_trans|].
    rewrite H10. f_equal. destruct q. cbn. unfold upd. cbn. f_equal. rewrite u16_add. f_equal. lia.
Qed.

(** *** Lengths that wrap around *)

(** A chain of at most four readable descriptors whose lengths add up, modulo
    2^32, to those of a small packet, while the first alone is longer than any
    packet; its header asks for nothing. *)
Record wraps (mem : list Z) (D : Z -> vring_desc) (num i : Z) (d0 : vring_desc) (ds : list vring_desc) : Prop := {
  wr_chain : desc_chain D num i (d0 :: ds);
  wr_read : write_descs (d0 :: ds) = [];
  wr_cnt : (length (d0 :: ds) <= 4)%nat;
  wr_addr : Forall (fun d => 0 <= d_addr d <= MAX_U32) (d0 :: ds);
  wr_map : Forall (fun d => get_va (d_addr d) <> 0) (d0 :: ds);
  wr_first : 0 < get_va (d_addr d0) /\ get_va (d_addr d0) + d_len d0 <= Z.of_nat (length mem) /\ d_len d0 <= MAX_U32;
  wr_long : 2046 < d_len d0 - 12;
  wr_sum : 42 <= u32 (descs_len (d0 :: ds) - 12) <= 2046;
  wr_hdr : hdr_plain (slice mem (get_va (d_addr d0)) 12) = true
}.

(** The header of such a chain is the beginning of its first vector. *)
Lemma wraps_header mem va len rest n :
  0 <= va -> 12 <= len -> va + len <= Z.of_nat (length mem) -> 0 < n ->
  kern_iovec_to_membuf mem (replicate 12 0) (Some 0) 12 (mk_iovec (Some va) len :: rest) n = Ok (12, slice mem va 12).
Proof.
  intros Hva Hlen Hm Hn. unfold kern_iovec_to_membuf. rewrite (proj2 (Z.eqb_neq n 0)) by lia. cbn [orb Z.eqb].
  destruct (Z.to_nat n) as [|k] eqn:Ek; [lia|]. cbn [kern_to_membuf_loop hd_error deref mbind outcome_bind iov_len base].
  rewrite (proj2 (Z.ltb_ge len 12)) by lia. cbn [Z.eqb]. rewrite mem_read_ok by lia. cbn [mbind outcome_bind].
  set (d := take _ _). assert (Hd : length d = 12%nat) by (unfold d; rewrite length_take, length_drop; lia).
  rewrite mem_write_ok by (rewrite ?length_replicate; lia). cbn [mbind outcome_bind].
  change (u32 (12 - 12) =? 0) with true. cbv iota. change (Z.to_nat 0) with 0%nat. by rewrite blit_whole by done.
Qed.

(** The copy of the data moves all of the first vector behind the header,
    not the [total] bytes that were checked. *)
Lemma wraps_copy mem dst va len rest n total :
  0 <= va -> 12 < len <= MAX_U32 -> va + len <= Z.of_nat (length mem) -> 0 < n -> 0 < total <= MAX_I32 -> total < len - 12 ->
  kern_iovec_to_membuf_skip_begin mem dst (Some 2) total (mk_iovec (Some va) len :: rest) n 12 =
    if 2 + (len - 12) <=? Z.of_nat (length dst) then Ok (total, blit dst 2 (slice mem (va + 12) (len - 12))) else Undef.
Proof.
  intros Hva Hlen Hm Hn Ht Hlt. unfold kern_iovec_to_membuf_skip_begin, MAX_U32, MAX_I32 in *. cbn [Z.eqb].
  rewrite (proj2 (Z.eqb_neq n 0)), (proj2 (Z.eqb_neq total 0)) by lia. cbn [orb].
  destruct (Z.to_nat n) as [|k] eqn:Ek; [lia|]. cbn [kern_to_membuf_skip_loop hd_error deref mbind outcome_bind iov_len base].
  rewrite Z.add_0_l, (u32_small len), (proj2 (Z.ltb_ge len 12)), (u32_small (len - 12)) by lia.
  rewrite (proj2 (Z.ltb_lt 0 (len - 12))), (proj2 (Z.ltb_lt total (len - 12))), Z.eqb_refl by lia.
  replace (len - (len - 12)) with 12 by lia. rewrite (u32_small 12), mem_read_ok by lia. cbn [mbind outcome_bind].
  unfold mem_write. set (d := take _ _).
  assert (Hd : Z.of_nat (length d) = len - 12) by (unfold d; rewrite length_take, length_drop; lia). rewrite Hd. change (0 <=? 2) with true. cbn [andb].
  destruct (_ <=? _); [|done]. cbn [mbind outcome_bind]. rewrite i32_small by (unfold MAX_I32; lia). done.
Qed.

Lemma tx_msg_wraps m e q b s D i d0 ds :
  (forall t l, nw_turn t l = l) -> iovs_ok (in_iovs b) -> wraps (nw_mem s) D (vr_num (vq_vring q)) i d0 ds ->
  iovs_content (in_iovs b) = desc_vec <$> (d0 :: ds) -> u32 (iv_len (in_iovs b)) = u32 (descs_len (d0 :: ds)) ->
  bufs (w_pool (vworld s)) !! m = Some e -> data_off e = 2 -> 2048 <= buf_cap e ->
  Z.of_nat (length (bytes e)) < 2 + (d_len d0 - 12) ->
  tx_msg get_va nw_turn m q b s = Undef.
Proof.
  intros Hid Hok Hw Hco Hl He Hoff Hcap Hshort. unfold tx_msg.
  destruct Hw as [_ _ Hcnt _ Hmap (Hva & Hin & Hmax) Hlong Hsum Hhdr]. unfold MAX_U32 in Hmax.
  assert (Hu : iv_used (in_iovs b) = Z.of_nat (length (d0 :: ds))).
  { destruct Hok. rewrite <- (length_fmap desc_vec (d0 :: ds)), <- Hco. unfold iovs_content.
    rewrite length_zip_with_l_eq; rewrite ?length_fmap, !length_take; lia. }
  rewrite (proj2 (Z.ltb_ge _ _)) by (rewrite Hu; cbn; lia).
  destruct (map_iovs_ok get_va (in_iovs b) Hok) as (k & -> & Hok' & Hk).
  { rewrite Hco. apply Forall_fmap. exact Hmap. }
  cbn [mbind outcome_bind]. change (NO_ERROR =? NO_ERROR) with true. cbn [negb].
  set (b1 := upd in_iovs _ b). change (iv_iovs (in_iovs b1)) with k. change (iv_len (in_iovs b1)) with (iv_len (in_iovs b)).
  rewrite Hco, Hu, Nat2Z.id in Hk. cbn [length take fmap list_fmap] in Hk.
  destruct k as [|v0 k]; [done|]. injection Hk as -> Hk. change (aget (map_vec get_va (desc_vec d0) :: k) 0) with (Ok (map_vec get_va (desc_vec d0))).
  cbn [mbind outcome_bind]. change (iov_len (map_vec get_va (desc_vec d0))) with (d_len d0).
  assert (Htot : u32 (iv_len (in_iovs b) - VNET_HDR_LEN) = u32 (descs_len (d0 :: ds) - 12)).
  { unfold VNET_HDR_LEN, u32 in *. rewrite Zminus_mod, Hl, <- Zminus_mod. done. }
  rewrite Htot. set (total := u32 (descs_len (d0 :: ds) - 12)) in *.
  unfold VNET_HDR_LEN, BSTGW_DEFAULT_BUF_SIZE.
  rewrite (proj2 (Z.ltb_ge _ 12)), (proj2 (Z.eqb_neq _ _)), (proj2 (Z.ltb_ge _ 42)), (proj2 (Z.ltb_ge (2048 - 2) _)) by lia. cbn [orb].
  unfold tx_copy. change (iv_iovs (in_iovs b1)) with (map_vec get_va (desc_vec d0) :: k). change (iv_used (in_iovs b1)) with (iv_used (in_iovs b)).
  change (map_vec get_va (desc_vec d0)) with (mk_iovec (Some (get_va (d_addr d0))) (d_len d0)).
  unfold VNET_HDR_LEN. change (Z.to_nat 12) with 12%nat. unfold nw_now. rewrite !Hid.
  rewrite wraps_header by (rewrite ?Hu; cbn; lia). cbn [mbind outcome_bind]. change (u32 12 =? 12) with true. cbn [negb].
  assert (Hh : length (slice (nw_mem s) (get_va (d_addr d0)) 12) = 12%nat) by (unfold slice; rewrite length_take, length_drop; lia).
  destruct (slice _ _ _) as [|h0 [|h1 hdr]]; [done|done|].
  change (aget (h0 :: h1 :: hdr) 0) with (Ok h0). change (aget (h0 :: h1 :: hdr) 1) with (Ok h1). cbn [mbind outcome_bind].
  unfold hdr_plain in Hhdr. cbn [nth] in Hhdr. rewrite <- negb_andb, Hhdr. cbn [negb].
  match goal with |- context [buf_get ?w m] => assert (Hg : buf_get w m = Ok e) by (unfold buf_get; cbn; by rewrite He) end.
  rewrite Hg. cbn [mbind outcome_bind].
  assert (Hp : bstgw_ethbuf_data_ptr (e <| data_len := total |>) 0 = Ok (Some 2)).
  { unfold bstgw_ethbuf_data_ptr. cbn. rewrite (proj2 (Z.leb_gt total 0)), Hoff by lia. change (u32 (2 + 0)) with 2.
    by rewrite (proj2 (Z.ltb_lt 2 (buf_cap e))) by lia. }
  rewrite Hp. cbn [mbind outcome_bind]. cbn [upd reads nw_mem].
  rewrite wraps_copy by (rewrite ?Hu; unfold MAX_I32, MAX_U32; cbn; lia).
  change (bytes (e <| data_len := total |>)) with (bytes e). by rewrite (proj2 (Z.leb_gt _ _)) by lia.
Qed.

(** The ring shows one thing all the time, with chain [i] next. *)
Record ring_shows (D : Z -> vring_desc) (q : vqueue) (m : vring_shm) (i : Z) : Prop := {
  rs_ptrs : vq_ptrs_ok q;
  rs_addr : vring_addr q <> 0;
  rs_num : vq_num_ok q m;
  rs_quiet : shm_quiet m D;
  rs_typed : shm_typed m;
  rs_last : 0 <= last_avail_idx q < 65536;
  rs_avail : forall t, 0 < u16 (avail_idx_at m t - last_avail_idx q) <= u16 (vr_num (vq_vring q));
  rs_next : forall t, avail_ring_at m t (last_avail_idx q mod vr_num (vq_vring q)) = i
}.

Lemma tx_one_wraps l m fl q s D i d0 ds e :
  (forall t l, nw_turn t l = l) -> vnic_vq s TX_VQ = Ok q -> ring_shows D q (tx_shm s) i ->
  wraps (nw_mem s) D (vr_num (vq_vring q)) i d0 ds ->
  owned (vworld s) l -> free_list (w_pool (vworld s)) = m :: fl -> bufs (w_pool (vworld s)) !! m = Some e ->
  Z.of_nat (length (bytes e)) < 2 + (d_len d0 - 12) ->
  tx_one get_va nw_turn tx_buf s = Undef.
Proof.
  intros Hid Hq [Hptr Haddr Hnum Hquiet Hty Hlast Hav Hnext] Hw Ho Hfl He Hshort.
  destruct (owned_alloc (vworld s) l m fl Ho Hfl) as (p' & e0 & Ha & Ho1 & Hbp & _ & _ & He0 & Hwf & _ & Hcap).
  assert (e0 = e) as -> by congruence. unfold tx_one. rewrite Ha. cbn [mbind outcome_bind].
  assert (Hg : buf_get ((vworld s) <| w_pool := p' |>) m = Ok e) by (unfold buf_get; cbn; by rewrite Hbp, He).
  match goal with |- context [buf_get ?w m] => change w with ((vworld s) <| w_pool := p' |>) end. rewrite Hg. cbn [mbind outcome_bind].
  set (e1 := e <| data_off := 2 |> <| packet_type := RTE_PTYPE_L2_MASK |>).
  match goal with |- context [vnic_vq ?s1 TX_VQ] => set (s1' := s1); change (vnic_vq s1' TX_VQ) with (vnic_vq s TX_VQ) end.
  rewrite Hq. cbn [mbind outcome_bind]. change (tx_shm s1') with (tx_shm s). change (reads s1') with (reads s).
  assert (Hrd : read_descs (d0 :: ds) = d0 :: ds) by (apply read_write_descs, Hw).
  pose proof (tx_buf_ok 0) as [(Hbi & Hci & _) (Hbo & Hco & _)].
  destruct (get_avail_buf_chain q (tx_shm s) (reads s) tx_buf D (d0 :: ds) Hptr Haddr Hnum Hquiet (conj Hbi Hbo))
    as (b' & t' & Hget & _ & Hcont & _ & Hlen & _).
  { apply Hav. }
  { intros E. specialize (Hav (reads s + 1)%nat). rewrite E, Z.sub_diag in Hav. by destruct Hav. }
  { rewrite Hnext. apply Hw. }
  { apply Hw. }
  { rewrite Hrd, Hci. pose proof (wr_cnt _ _ _ _ _ _ Hw). unfold MAX_TX_IOVS. lia. }
  { rewrite (wr_read _ _ _ _ _ _ Hw), Hco. done. }
  pose proof (get_avail_buf_safe q (tx_shm s) (reads s) tx_buf Hptr Hnum Hty (conj Hbi Hbo) ltac:(lia)) as Hsafe. rewrite Hget in Hsafe.
  destruct Hsafe as (_ & [Hok _] & _). rewrite Hget. cbn [mbind outcome_bind].
  destruct (with_vq_set s1' TX_VQ q (q <| last_avail_idx := u16 (last_avail_idx q + 1) |>) Hq) as (-> & _ & _).
  cbn [mbind outcome_bind]. change (NO_ERROR =? ERR_NOT_ENOUGH_BUFFER) with false. change (NO_ERROR =? NO_ERROR) with true. cbn [negb].
  rewrite Hrd in Hcont, Hlen. apply (tx_msg_wraps _ e1 _ _ _ D i d0 ds); try done. cbn. by rewrite lookup_insert_eq.
Qed.

(** ** Properties *)

(** C39. A frame longer than its buffer, for every chain that has it.  The
    size check of [virtio_net_flush_tx] uses the sum of the descriptor lengths
    modulo 2^32.  When that sum is the one of a packet of 42 to 2046 bytes
    while the first descriptor alone is longer, the copy of the data moves all
    of the first descriptor behind the header, whatever its length: into a
    destination with room for it it would do so, and for a buffer of the pool
    that is shorter it writes outside the buffer, so that the call is
    undefined.  The normal world needs nothing but such a chain at the head of
    its transmit ring, mapped memory and a plain header. *)
Theorem virtio_net_flush_tx_length_wraps l m fl e D tr ndev rx_handler s q i d0 ds p d fq :
  (forall t m, nw_turn t m = m) -> vnic_vq s TX_VQ = Ok q -> ring_shows D q (tx_shm s) i ->
  wraps (nw_mem s) D (vr_num (vq_vring q)) i d0 ds ->
  Z.land (status (vdev (vn s))) VIRTIO_CONFIG_S_DRIVER_OK <> 0 -> is_Some tr ->
  fec_ifp s = Some p -> devs (w_nd (vworld s)) !! p = Some d -> egress_queue d = Some fq ->
  128 <= capacity fq - count fq <= MAX_U32 -> owned (vworld s) l ->
  free_list (w_pool (vworld s)) = m :: fl -> bufs (w_pool (vworld s)) !! m = Some e ->
  Z.of_nat (length (bytes e)) < 2 + (d_len d0 - 12) ->
  let total := u32 (descs_len (d0 :: ds) - 12) in
  let first := get_va (d_addr d0) in
  (forall dst, kern_iovec_to_membuf_skip_begin (nw_mem s) dst (Some 2) total (chain_iovs (d0 :: ds))
       (Z.of_nat (length (d0 :: ds))) 12 =
     if 2 + (d_len d0 - 12) <=? Z.of_nat (length dst)
     then Ok (total, blit dst 2 (slice (nw_mem s) (first + 12) (d_len d0 - 12))) else Undef) /\
  virtio_net_flush_tx get_va nw_turn tr ndev true rx_handler s = Undef.
Proof.
  intros Hid Hq Hr Hw Hst [psz ->] Hfec Hd Hfq Hroom Ho Hfl He Hshort total first. pose proof Hw as [_ _ _ _ _ (Hva & Hin & Hmax) Hlong Hsum _].
  split.
  - intros dst. apply wraps_copy; try (cbn; lia); unfold MAX_I32, total in *; lia.
  - unfold virtio_net_flush_tx. rewrite (proj2 (Z.eqb_neq _ _) Hst), Hq. cbn [mbind outcome_bind].
    destruct Hr as [Hptr Haddr Hnum Hquiet Hty Hlast Hav Hnext]. pose proof (Hav (reads s)) as Hav0.
    unfold vqueue_num_of_avail_buf. rewrite (proj2 (Z.eqb_neq (vr_avail _) 0))
      by (unfold vq_ptrs_ok in Hptr; rewrite (proj2 (Z.eqb_neq _ _) Haddr) in Hptr; apply Hptr). cbn [mbind outcome_bind].
    rewrite (proj2 (Z.eqb_neq (u16 _) 0)) by lia. set (s1 := upd reads _ s). change (fec_ifp s1) with (fec_ifp s). rewrite Hfec.
    cbn [mbind outcome_bind]. set (s2 := upd fec_ifp _ s1).
    assert (Hbs : router_in_burst_size (Some psz) ndev (Some p) (vworld s2) = Ok (capacity fq - count fq)).
    { unfold router_in_burst_size, queue_room, dev_get. cbn. rewrite Hd. cbn. rewrite Hfq. cbn. by rewrite u32_small by (unfold MAX_U32 in *; lia). }
    rewrite Hbs. cbn [mbind outcome_bind]. change (VIRTIO_NET_TX_QUEUE_DEFAULT_SIZE / 2) with 128.
    rewrite (proj2 (Z.ltb_ge _ _)) by lia. cbn [negb flush_tx_loop].
    rewrite (tx_one_wraps l m fl q s2 D i d0 ds e); try done.
Qed.

(** C6. From the normal world to the router.  While the normal world leaves
    its memory and a well-formed ring alone, the driver is ready and the
    Ethernet controller's queue has room for half a ring: one call takes the
    next packets off the transmit queue, as many as the burst, the room and
    the ring allow; it copies each packet behind its virtio header, unchanged
    and in order, into a buffer of its own, returns each descriptor chain on
    the used ring with its length, and hands exactly these buffers to the
    receive handler. *)
Theorem virtio_net_flush_tx_forwards size l D tr ndev rx_handler s q ps p d fq :
  (forall t m, nw_turn t m = m) -> tx_ok size s -> vnic_vq s TX_VQ = Ok q -> last_avail_idx q < 65536 ->
  ring_offers size (nw_mem s) D q (tx_shm s) ps -> ps <> [] ->
  Z.land (status (vdev (vn s))) VIRTIO_CONFIG_S_DRIVER_OK <> 0 -> is_Some tr -> 0 < tx_burst (vnet (vn s)) ->
  fec_ifp s = Some p -> devs (w_nd (vworld s)) !! p = Some d -> egress_queue d = Some fq ->
  128 <= capacity fq - count fq <= MAX_U32 -> owned (vworld s) l ->
  let k := Z.min (tx_burst (vnet (vn s))) (Z.min (capacity fq - count fq) (Z.of_nat (length ps))) in
  k <= Z.of_nat (length (free_list (w_pool (vworld s)))) ->
  exists ms s', virtio_net_flush_tx get_va nw_turn tr ndev true rx_handler s
      = ('(_, w) ← rx_handler (Some <$> ms) (vworld s'); Ok (k, s' <| vworld := w |>)) /\
    Z.of_nat (length ms) = k /\ carries (nw_mem s) (vworld s') ms (take (Z.to_nat k) ps) /\ owned (vworld s') (ms ++ l) /\
    tx_shm s' = publish (vr_num (vq_vring q)) (used_entry <$> take (Z.to_nat k) ps) (tx_shm s) /\
    vnic_vq s' TX_VQ = Ok (q <| last_avail_idx := u16 (last_avail_idx q + k) |>).
Proof.
  intros Hid Htx Hq Hlast Hoff Hps Hst [psz ->] Hb Hfec Hd Hfq Hroom Ho k Hfree. unfold MAX_U32 in *.
  destruct ps as [|p0 ps]; [done|]. destruct (offers_avail _ _ _ _ _ _ _ (reads s) Hoff) as [Hav _].
  pose proof Htx as (Hsz & q0 & Hq0 & Hr). assert (q0 = q) as -> by congruence. destruct (ring_ok_avail _ _ _ _ Hr) as [Hava _].
  unfold virtio_net_flush_tx. rewrite (proj2 (Z.eqb_neq _ _) Hst), Hq. cbn [mbind outcome_bind].
  unfold vqueue_num_of_avail_buf. rewrite (proj2 (Z.eqb_neq _ _) Hava), Hav. cbn [mbind outcome_bind].
  rewrite (proj2 (Z.eqb_neq _ 0)) by (cbn; lia). set (s1 := upd reads _ s). change (fec_ifp s1) with (fec_ifp s). rewrite Hfec.
  cbn [mbind outcome_bind]. set (s2 := upd fec_ifp _ s1).
  assert (Hbs : router_in_burst_size (Some psz) ndev (Some p) (vworld s2) = Ok (capacity fq - count fq)).
  { unfold router_in_burst_size, queue_room, dev_get. cbn. rewrite Hd. cbn. rewrite Hfq. cbn. by rewrite u32_small by lia. }
  rewrite Hbs. cbn [mbind outcome_bind]. change (VIRTIO_NET_TX_QUEUE_DEFAULT_SIZE / 2) with 128.
  rewrite (proj2 (Z.ltb_ge _ _)) by lia. change (vnet (vn s2)) with (vnet (vn s)).
  set (burst := if _ <? _ then _ else _). assert (Hk : burst = k).
  { unfold burst, k. destruct (Z.leb_spec (tx_burst (vnet (vn s))) (capacity fq - count fq)); (destruct (Z.ltb_spec (Z.of_nat (length (p0 :: ps))) (tx_burst (vnet (vn s)))) || idtac);
      destruct (Z.ltb_spec (Z.of_nat (length (p0 :: ps))) (capacity fq - count fq)); lia. }
  clearbody burst. subst burst. cbn [negb]. assert (Hk1 : 1 <= k <= Z.of_nat (length (p0 :: ps))) by (unfold k; cbn [length]; lia). clearbody k.
  destruct (flush_tx_loop_quiet size k l D Hid (Z.to_nat k) (S (Z.to_nat k)) 0 (replicate (Z.to_nat k) None) [] [] tx_buf s2 q (p0 :: ps))
    as (ms & fr & s3 & Hloop & H1 & H2 & H3 & H4 & H5 & H6 & H7 & H8 & H9 & H10); try done; try lia.
  { apply Forall_nil_2. } { by eexists. } { rewrite length_replicate. lia. } { change (vworld s2) with (vworld s). lia. } { constructor. }
  change (Z.of_nat (length [])) with 0 in Hloop. rewrite Hloop. cbn [mbind outcome_bind]. unfold flush_tx_deliver. rewrite H10. cbn [mbind outcome_bind].
  rewrite (proj2 (Z.ltb_lt 0 k)) by lia. rewrite Z2Nat.id in H10 by lia.
  match goal with |- context [vnic_vq_kick_cb ?q' _ _] =>
    destruct (kick_ok q' (tx_shm s3) s3 Hava) as (s4 & -> & E1 & E2 & E3 & E4 & E5 & E6 & E7) end. cbn [mbind outcome_bind].
  assert (Hrd : mem_read fr 0 k = Ok (Some <$> ms)) by (rewrite <- (frames_read fr ms H2); f_equal; lia).
  rewrite Hrd. cbn [mbind outcome_bind]. exists ms, s4. unfold vnic_vq in *. rewrite E1, E3, E5.
  split; [|split_and!; try done; lia]. destruct (rx_handler _ _) as [[r w]| |]; done.
Qed.

End tx.

Section routed.
Context {T : Type} `{ThMap T} {L : Type} `{Lpm L route_info_t}.
Context (npf : nat -> Z -> Z -> bstgw_ethbuf_t -> Z * option bstgw_ethbuf_t).
Context (rtable : L) (alloc arp_alloc : bool) (net_if : positive).
Implicit Types s : vstate T.

(** The handler the card is registered with. *)
Definition vnic_rx_handler : list ebptr -> world T -> outcome (Z * world T) :=
  bstgw_generic_rx_handler (router_if_input npf rtable alloc arp_alloc net_if) net_if.

(** A worker was registered for the device. *)
Definition has_worker (d : ifnet_t T) : Prop :=
  worker_count d <> 0 /\ exists k, hd_error (workers d) = Some (Some k).

Lemma vnic_rx_handler_takes nd d l :
  npf_in_place npf -> rtable_ok rtable -> net_if ∈ netdev_list nd -> next_if_idx nd <= 8 ->
  devs nd !! net_if = Some d -> has_worker d -> router_takes vnic_rx_handler nd l.
Proof.
  intros Hnpf Hrt Hin Hnx Hd [Hc [k Hk]] ms w Hw Hlen Ho Hf. unfold vnic_rx_handler, bstgw_generic_rx_handler, dev_get. rewrite Hw, Hd.
  cbn [deref mbind outcome_bind]. rewrite (proj2 (Z.eqb_neq _ _) Hc). destruct (workers d) as [|wk ws]; [done|]. cbn in Hk. simplify_eq.
  change (aget (Some k :: ws) 0) with (Ok (Some k)). cbn [mbind outcome_bind].
  pose proof (router_if_input_owned npf rtable alloc arp_alloc net_if ms w l Hnpf Hrt Hin Hnx ltac:(unfold MAX_I32; lia) Ho Hf) as Hr.
  destruct (router_if_input _ _ _ _ _ _ _) as [[? ?]| |]; done.
Qed.

(** C3. No buffer is lost between the normal world and the router.  Whatever
    the normal world does to the ring and to its memory while a call runs,
    with three exceptions (it does not change the length of a descriptor,
    point one outside its own memory, or give one more than 2^28 bytes; what
    longer ones do is [virtio_net_flush_tx_length_wraps]), for a ring of the
    size its memory was laid out for, a worker registered for the card, at
    most seven interfaces and a firewall that rewrites packets in place or
    consumes them: [virtio_net_flush_tx] together with the router's pipeline
    terminates without undefined behaviour, though it may panic; when it
    returns, every buffer it took from
    the pool is in an egress queue or back in the pool, on the error paths
    too, and the queue is as fit for the next call. *)
Theorem virtio_net_flush_tx_conserves get_va nw_turn size l tr frames_alloc s d :
  turn_ok nw_turn -> tx_ok get_va size s -> owned (vworld s) l -> 1 <= tx_burst (vnet (vn s)) ->
  npf_in_place npf -> rtable_ok rtable -> net_if ∈ netdev_list (w_nd (vworld s)) -> next_if_idx (w_nd (vworld s)) <= 8 ->
  devs (w_nd (vworld s)) !! net_if = Some d -> has_worker d ->
  (forall p, fec_ifp s = Some p -> p ∈ netdev_list (w_nd (vworld s))) ->
  defined (virtio_net_flush_tx get_va nw_turn tr net_if frames_alloc vnic_rx_handler s)
    (fun '(_, s') => tx_ok get_va size s' /\ owned (vworld s') l).
Proof. intros. apply flush_tx_ok; try done. by eapply vnic_rx_handler_takes. Qed.

End routed.

(** ** Examples *)

Notation ex_T := (gmap (list Z) (list Z)).

(** A ring of four entries with one packet: a header and 60 bytes. *)
Definition ex_tx_desc (i : Z) : vring_desc :=
  if i =? 1 then mk_desc 100 12 VRING_DESC_F_NEXT 3 else mk_desc 200 60 0 0.
Definition ex_tx_shm (D : Z -> vring_desc) : vring_shm :=
  mk_shm 4 (fun _ => 0) (fun _ => 6) (fun _ _ => 1) (fun _ => D) 0 65535 (replicate 4 (mk_used_elem 0 0)).

Definition ex_wide_queue : pktqueue_t := mk_pktqueue false 0 0 0 128 (replicate 128 None).
Definition ex_free_buf : bstgw_ethbuf_t :=
  mk_ethbuf None 0 0 0 (Some priv_zero) 0 0 2048 4096 (replicate 2048 0) 63 0 0 0.
Definition ex_card_dev : ifnet_t ex_T :=
  (ex_dev ex_wide_queue) <| workers := [Some 0%nat; None] |> <| worker_count := 1 |>.
Definition ex_card_world : world ex_T :=
  dev_set (ex_world_of (mk_pool {[ 1%positive := ex_free_buf ]} [1%positive] [] 1) ex_wide_queue) 1%positive ex_card_dev.
Definition ex_vnic : vnic_t :=
  vnic_state_init <| vdev ::= fun d => d <| status := 4 |> <| vq := [ex_vq; ex_vq] |> |>.
Definition ex_vstate (D : Z -> vring_desc) (mem : list Z) : vstate ex_T :=
  mk_vstate ex_vnic (ex_tx_shm D) (ex_tx_shm D) 0 mem napi_added (Some 1%positive) ex_card_world.

(** ** Witnesses *)

Lemma ex_wide_queue_wf : pq_wf ex_wide_queue.
Proof. split; vm_compute; try done; try discriminate; split; discriminate. Qed.

Lemma ex_card_owned : owned ex_card_world [].
Proof.
  unfold ex_card_world. apply (owned_dev_set _ [] 1%positive (ex_dev ex_wide_queue)); try done; [|set_solver|].
  - split; [|done]. apply ex_world_of_ok; [|by apply map_Forall_singleton|exact ex_wide_queue_wf|by vm_compute].
    split; cbn; [repeat constructor; set_solver| |apply map_Forall_singleton| |done].
    + intros i. rewrite list_elem_of_singleton, lookup_singleton_is_Some. done.
    + split; [|done]. split; vm_compute; try discriminate. by eexists.
    + intros i e ->%list_elem_of_singleton. rewrite lookup_singleton_eq. intros [= <-]. split_and!; try done. by eexists.
  - destruct (ex_dev_ok ex_wide_queue ex_wide_queue_wf) as [? ? ? ? ? ?]; [by vm_compute|]. by split.
Qed.

Lemma ex_tx_honest : nw_honest (fun pa => pa) 300 (ex_tx_shm ex_tx_desc).
Proof.
  split.
  - intros t i. cbn. unfold ex_tx_desc. destruct (i =? 1); cbn; lia.
  - done.
  - intros t t' i. unfold vec_ok. cbn. unfold ex_tx_desc. destruct (i =? 1); cbn; unfold u32; split_and!; try lia;
      rewrite ?Z.mod_small; lia.
Qed.

Lemma ex_tx_ok : tx_ok (fun pa => pa) 300 (ex_vstate ex_tx_desc (replicate 300 0)).
Proof.
  split; [done|]. exists ex_vq. split; [done|].
  split; [exact ex_vq_ptrs_ok|done|exact ex_num_ok|cbn; lia|cbn; lia|exact ex_tx_honest].
Qed.

Lemma ex_tx_offers :
  ring_offers (fun pa => pa) 300 (replicate 300 0) ex_tx_desc ex_vq (ex_tx_shm ex_tx_desc) [(1, [ex_tx_desc 1; ex_tx_desc 3])].
Proof.
  split; [done|done|cbn; lia|]. intros [|j] i ds; [|done]. intros [= <- <-]. split; [|done]. split; try done.
  - apply chain_next; [cbn; lia|done|]. apply chain_last; [cbn; lia|done].
  - cbn. lia.
  - repeat constructor; vm_compute; discriminate.
  - repeat constructor; vm_compute; discriminate.
  - eexists _, _. split; [done|]. vm_compute. discriminate.
Qed.

Lemma virtio_net_flush_tx_forwards_witness :
  exists ms s', virtio_net_flush_tx (fun pa => pa) (fun _ m => m) (Some 256) 1 true (fun _ w => Ok (0, w))
        (ex_vstate ex_tx_desc (replicate 300 0)) = Ok (1, s') /\
    carries (fun pa => pa) (replicate 300 0) (vworld s') ms [(1, [ex_tx_desc 1; ex_tx_desc 3])] /\ owned (vworld s') ms.
Proof.
  destruct (virtio_net_flush_tx_forwards (fun pa => pa) (fun _ m => m) 300 [] ex_tx_desc (Some 256) 1 (fun _ w => Ok (0, w))
    (ex_vstate ex_tx_desc (replicate 300 0)) ex_vq [(1, [ex_tx_desc 1; ex_tx_desc 3])] 1%positive ex_card_dev ex_wide_queue)
    as (ms & s' & E & _ & Hc & Ho & _).
  - reflexivity.
  - exact ex_tx_ok.
  - reflexivity.
  - reflexivity.
  - exact ex_tx_offers.
  - discriminate.
  - discriminate.
  - by eexists.
  - reflexivity.
  - reflexivity.
  - reflexivity.
  - reflexivity.
  - vm_compute. split; discriminate.
  - exact ex_card_owned.
  - vm_compute. discriminate.
  - exists ms, s'. split; [|split; [exact Hc|rewrite app_nil_r in Ho; exact Ho]]. rewrite E. destruct s'. reflexivity.
Defined.

Lemma virtio_net_flush_tx_conserves_witness :
  defined (virtio_net_flush_tx (fun pa => pa) (fun t m => replicate (length m) (Z.of_nat t mod 2)) (Some 256) 1 true
             (vnic_rx_handler (fun _ _ _ e => (0, Some e)) ex_routes true true 1) (ex_vstate ex_tx_desc (replicate 300 0)))
    (fun '(_, s') => tx_ok (fun pa => pa) 300 s' /\ owned (vworld s') []).
Proof.
  apply (virtio_net_flush_tx_conserves (fun _ _ _ e => (0, Some e)) ex_routes true true 1 (fun pa => pa)
    (fun t m => replicate (length m) (Z.of_nat t mod 2)) 300 [] (Some 256) true (ex_vstate ex_tx_desc (replicate 300 0)) ex_card_dev).
  - intros t m. apply length_replicate.
  - exact ex_tx_ok.
  - exact ex_card_owned.
  - vm_compute. discriminate.
  - intros n di ifp e err e' [= <- <-]. exists (bytes e). split; [by destruct e|done].
  - exact ex_routes_ok.
  - cbn. set_solver.
  - vm_compute. discriminate.
  - reflexivity.
  - split; [discriminate|]. by exists 0%nat.
  - intros p [= <-]. cbn. set_solver.
Defined.

(** A header and 5000 bytes in the first descriptor, and a second one that
    makes the sum of the lengths 54. *)
Definition ex_wrap_desc (i : Z) : vring_desc :=
  if i =? 1 then mk_desc 100 5012 VRING_DESC_F_NEXT 3 else mk_desc 200 4294962338 0 0.

Lemma virtio_net_flush_tx_length_wraps_witness :
  descs_len [ex_wrap_desc 1; ex_wrap_desc 3] = 4294967350 /\
  (forall dst, kern_iovec_to_membuf_skip_begin (replicate 6000 0) dst (Some 2) 42 (chain_iovs (fun pa => pa) [ex_wrap_desc 1; ex_wrap_desc 3]) 2 12 =
     if 2 + 5000 <=? Z.of_nat (length dst) then Ok (42, blit dst 2 (slice (replicate 6000 0) 112 5000)) else Undef) /\
  virtio_net_flush_tx (fun pa => pa) (fun _ m => m) (Some 256) 1 true (fun _ w => Ok (0, w))
    (ex_vstate ex_wrap_desc (replicate 6000 0)) = Undef.
Proof.
  split; [reflexivity|].
  apply (virtio_net_flush_tx_length_wraps (fun pa => pa) (fun _ m => m) [] 1%positive [] ex_free_buf ex_wrap_desc (Some 256) 1
    (fun _ w => Ok (0, w)) (ex_vstate ex_wrap_desc (replicate 6000 0)) ex_vq 1 (ex_wrap_desc 1) [ex_wrap_desc 3]
    1%positive ex_card_dev ex_wide_queue).
  - reflexivity.
  - reflexivity.
  - split; [exact ex_vq_ptrs_ok|discriminate|exact ex_num_ok|done| |cbn; lia|intros t; vm_compute; split; [reflexivity|discriminate]|reflexivity].
    intros t i. cbn. unfold ex_wrap_desc. destruct (i =? 1); cbn; lia.
  - split; [apply chain_next; [cbn; lia|done|]; apply chain_last; [cbn; lia|done]|reflexivity|cbn; lia|..].
    + repeat constructor; vm_compute; discriminate.
    + repeat constructor; vm_compute; discriminate.
    + vm_compute. split; [reflexivity|split; discriminate].
    + reflexivity.
    + vm_compute. split; discriminate.
    + reflexivity.
  - discriminate.
  - by eexists.
  - reflexivity.
  - reflexivity.
  - reflexivity.
  - vm_compute. split; discriminate.
  - exact ex_card_owned.
  - reflexivity.
  - reflexivity.
  - reflexivity.
Defined.
