(* ===== verification/VirtioRx.v ===== *)
(** * Frames for the normal world: what [virtio_net_receive] and the
    transmission of the card's egress queue do.

    A packet leaves the egress queue exactly when its buffer is freed, and
    what the normal world finds in its buffer is the header, the packet and,
    up to the length it chose, the bytes that follow the packet in secure
    memory. *)

From stdpp Require Import strings.
From S2P Require Import Prelude Pktq EthBuf Iovec Vqueue VirtioDev Napi Netdev Route Forward Worker VirtioNet VirtioTx.

Section rx.
Context {T : Type} `{ThMap T}.
Context (get_va : Z -> Z) (nw_turn : nat -> list Z -> list Z).
Implicit Types s : vstate T.

(** The receive queue, over [size] bytes of normal-world memory, with buffers
    of at most [lim] bytes. *)
Definition rx_ok (size lim : Z) (s : vstate T) : Prop :=
  size = Z.of_nat (length (nw_mem s)) /\ (forall t i, d_len (desc_at (rx_shm s) t i) <= lim) /\
  exists q, vnic_vq s RX_VQ = Ok q /\ ring_ok get_va size q (rx_shm s).

(** Vectors of at most [lim] bytes. *)
Definition rxb_ok (size lim : Z) (b : vqueue_buf) : Prop :=
  iovs_honest get_va size 0 (in_iovs b) /\ iovs_honest get_va size MAX_RX_IOVS (out_iovs b) /\
  Forall (fun pl => pl.2 <= lim) (iovs_content (out_iovs b)).

(** A packet whose buffer has [lim - 12] bytes from its start on. *)
Record rx_pkt (lim : Z) (e : bstgw_ethbuf_t) : Prop := {
  rp_wf : eb_wf e;
  rp_next : next e = None;
  rp_room : data_off e + (lim - 12) <= Z.of_nat (length (bytes e))
}.

(** Normal-world memory after a packet was put into a buffer of [len] bytes. *)
Definition delivered (mem1 : list Z) (turn : list Z -> list Z) (va len : Z) (e : bstgw_ethbuf_t) : list Z :=
  blit (turn (blit mem1 (Z.to_nat va) rx_vnet_hdr)) (Z.to_nat (va + 12)) (slice (bytes e) (data_off e) (len - 12)).

Lemma rx_copy_eq m e q b s va len :
  (forall t mem, length (nw_turn t mem) = length mem) -> iv_iovs (out_iovs b) = [mk_iovec (Some va) len] ->
  0 < va -> va + len <= Z.of_nat (length (nw_mem s)) -> len <= 268435456 -> 12 + data_len e <= len ->
  rx_pkt len e -> 0 < data_len e ->
  rx_copy nw_turn m e (data_off e) q b s =
    (v ← vqueue_unmap_iovs (out_iovs b);
     let b := b <| out_iovs := v |> in
     '(_, sh) ← vqueue_add_buf q (rx_shm s) b (u32 (VNET_HDR_LEN + data_len e));
     s ← free_frame m (s <| nw_mem := delivered (nw_now nw_turn s) (nw_turn (S (reads s))) va len e |>
                         <| reads := S (S (reads s)) |> <| rx_shm := sh |>);
     Ok (RxSent, b, s)).
Proof.
  intros Hturn Hio Hva Hfit Hlen Hsz [[? ? ? ? ? ?] _ Hroom] Hpos. unfold rx_copy, VNET_HDR_LEN, bstgw_ethbuf_data_len. rewrite Hio.
  assert (L1 : length (nw_now nw_turn s) = length (nw_mem s)) by apply Hturn.
  set (v := mk_iovec (Some va) len). assert (Hok : iov_ok (nw_now nw_turn s) v) by (split; [cbn; lia|]; exists va; cbn; split_and!; try done; lia).
  change 1 with (Z.of_nat (length [v])) at 1. rewrite membuf_to_kern_iovec_spec by (unfold MAX_I32; try done; try (by apply Forall_singleton); cbn; lia).
  cbn [mbind outcome_bind iov_total foldr v iov_len]. rewrite Z.min_l by lia. change (u32 12 =? 12) with true. cbn [negb].
  assert (Hsc : scatter (nw_now nw_turn s) [v] (slice rx_vnet_hdr 0 12) = blit (nw_now nw_turn s) (Z.to_nat va) rx_vnet_hdr).
  { cbn [scatter default base v iov_len]. f_equal. change (slice rx_vnet_hdr 0 12) with rx_vnet_hdr. apply take_ge. cbn. lia. }
  rewrite Hsc. set (mem1 := blit _ _ rx_vnet_hdr).
  change (Z.of_nat (length [v])) with 1.
  match goal with |- context [membuf_to_kern_iovec_skip_begin [v] 1 ?m2] => change m2 with (nw_turn (S (reads s)) mem1) end.
  rewrite (membuf_skip_one _ _ _ _ v va 12); try done; cbn [v iov_len]; unfold MAX_I32; try lia.
  2: { split; [cbn; lia|]. exists va. cbn. split_and!; try done; [lia|]. rewrite Hturn. unfold mem1. rewrite length_blit; rewrite ?L1; cbn; lia. }
  rewrite (proj2 (Z.leb_le _ _)) by lia. cbn [mbind outcome_bind]. rewrite u32_small, Z.eqb_refl by lia. cbn [negb].
  destruct (vqueue_unmap_iovs _) as [v'| |]; try done.
Qed.

Lemma rx_take_ok size lim q m t b :
  ring_ok get_va size q m -> (forall t i, d_len (desc_at m t i) <= lim) -> rxb_ok size lim b ->
  defined (vqueue_get_avail_buf q m t b) (fun '(r, q', b', _) =>
    ring_ok get_va size q' m /\ rxb_ok size lim b' /\ vq_vring q' = vq_vring q /\
    (r = NO_ERROR -> 0 <= vb_head b' < vr_num (vq_vring q))).
Proof.
  intros Hr Hlim (Hi & Ho & Hl). pose proof (get_avail_buf_honest get_va size 0 MAX_RX_IOVS q m t b Hr Hi Ho) as Hs.
  destruct (vqueue_get_avail_buf q m t b) as [[[[r q'] b'] t']| |] eqn:E; [|done|done].
  destruct Hs as (H1 & H2 & H3 & H4 & H5). cbn. split_and!; try done; try by apply H5.
  eapply (get_avail_buf_inv (fun _ => True) (fun v => iovs_ok v /\ Forall (fun pl => pl.2 <= lim) (iovs_content v))) in E as [_ [_ E]];
    [done|done| |done|by split; [apply Ho|]|done|].
  - intros t0 i v v' [Hok Hv] Hp. destruct (iovs_push_content m t0 i v v' Hok Hp) as (Hok' & _ & -> & _).
    split; [done|]. apply Forall_app. split; [done|]. apply Forall_singleton. apply Hlim.
  - split; [apply iovs_reset_ok, Ho|]. apply Forall_nil_2.
Qed.

(** What an iteration leaves: the packet is freed, or nothing happened to it. *)
Definition rx_post (size lim : Z) (m : positive) (s : vstate T) (r : rx_result) (b' : vqueue_buf) (s' : vstate T) : Prop :=
  rx_ok size lim s' /\ rxb_ok size lim b' /\ vnet (vn s') = vnet (vn s) /\
  match r with RxBreak => vworld s' = vworld s | _ => buf_free (vworld s) (Some m) = Ok (vworld s') end.

Lemma rx_giveup_ok size lim m q b s0 s :
  rx_ok size lim s -> rxb_ok size lim b -> vnet (vn s) = vnet (vn s0) -> vworld s = vworld s0 -> vnic_vq s RX_VQ = Ok q ->
  0 <= vb_head b < vr_num (vq_vring q) ->
  defined (rx_giveup q b s) (fun '(r, b', s') => rx_post size lim m s0 r b' s').
Proof.
  intros (Hsz & Hlim & q0 & Hq0 & Hr) Hb Hn Hw Hq Hh. assert (q0 = q) as -> by congruence. unfold rx_giveup.
  destruct (add_buf_ok get_va size q (rx_shm s) b 0 Hr Hh) as (m' & -> & Hr' & ->). cbn. split; [|by split_and!].
  split; [done|]. split; [done|]. by exists q.
Qed.

Lemma linearize_single p m e :
  bufs p !! m = Some e -> next e = None -> bstgw_ethbuf_linearize (bufs p) (Some m) = Ok (0, bufs p).
Proof. intros He Hn. cbn. rewrite He. cbn. by rewrite Hn. Qed.

(** A chain of one buffer has at most one vector. *)
Lemma rx_vector size lim b :
  rxb_ok size lim b -> 1 <= iv_used (out_iovs b) ->
  exists pa len io, iovs_content (out_iovs b) = [(pa, len)] /\ iv_iovs (out_iovs b) = [io] /\ iov_len io = len /\
    iv_used (out_iovs b) = 1 /\ vec_ok get_va size (pa, len) /\ len <= lim.
Proof.
  intros (_ & ([? Hi Hp ?] & Hc & Hf & _) & Hl) Hu. unfold MAX_RX_IOVS in *. assert (Hu1 : iv_used (out_iovs b) = 1) by lia.
  destruct (iv_iovs (out_iovs b)) as [|io [|]] eqn:Ei; cbn in Hi; try lia.
  destruct (iv_phys (out_iovs b)) as [|pa [|]] eqn:Ep; cbn in Hp; try lia.
  assert (Hco : iovs_content (out_iovs b) = [(pa, iov_len io)]) by (unfold iovs_content; by rewrite Hu1, Ei, Ep).
  rewrite Hco in Hf, Hl. apply Forall_cons in Hf as [Hf _]. apply Forall_cons in Hl as [Hl _]. exists pa, (iov_len io), io. exact (conj Hco (conj eq_refl (conj eq_refl (conj Hu1 (conj Hf Hl))))).
Qed.

Lemma rx_one_ok size lim m e b s :
  (forall t mem, length (nw_turn t mem) = length mem) -> rx_ok size lim s -> rxb_ok size lim b -> pool_wf (w_pool (vworld s)) ->
  m ∈ inuse_list (w_pool (vworld s)) -> bufs (w_pool (vworld s)) !! m = Some e -> rx_pkt lim e ->
  defined (rx_one get_va nw_turn (Some m) b s) (fun '(r, b', s') => rx_post size lim m s r b' s').
Proof.
  intros Hturn Hrx Hb Hp Hm He Hpk. pose proof Hpk as [Hwf Hn Hroom]. pose proof Hrx as (Hsz & Hlim & q & Hq & Hr).
  destruct (pool_free_spec _ m Hp Hm) as (p' & e' & Hfree & _).
  assert (Hbf : buf_free (vworld s) (Some m) = Ok ((vworld s) <| w_pool := p' |>)) by (unfold buf_free; by rewrite Hfree).
  unfold rx_one. rewrite (linearize_single _ m e He Hn). cbn [mbind outcome_bind]. change (0 =? 0) with true. cbn [negb].
  set (s1 := upd vworld _ s). assert (Hs1 : s1 = s) by (by destruct s as [? ? ? ? ? ? ? [[] ? ? ?]]). rewrite Hs1. clear s1 Hs1.
  unfold buf_get at 1. rewrite He. cbn [deref mbind outcome_bind]. unfold bstgw_ethbuf_data_len.
  destruct (Z.eqb_spec (data_len e) 0) as [|Hne].
  { unfold free_frame. rewrite Hbf. by split_and!. }
  rewrite (data_ptr_spec e 0 Hwf), Z.add_0_r by lia. rewrite (proj2 (Z.ltb_lt 0 (data_len e))) by (pose proof (ebw_len _ Hwf); lia).
  cbn [assert_ptr mbind outcome_bind]. rewrite Hq. cbn [mbind outcome_bind]. apply defined_bind.
  eapply defined_mono; [|apply (rx_take_ok size lim q _ (reads s) b Hr Hlim Hb)]. intros [[[ret q'] b'] t'] (Hr' & Hb' & Hv' & Hhd).
  destruct (with_vq_set s RX_VQ q q' Hq) as (-> & Hq1 & _). cbn [mbind outcome_bind]. set (s2 := upd reads _ (upd vn _ s)).
  assert (Hrx2 : rx_ok size lim s2) by (split; [done|]; split; [done|]; by exists q').
  destruct (Z.eqb_spec ret NO_ERROR) as [->|]; cbn [negb]; [|by split_and!]. specialize (Hhd eq_refl). rewrite <- Hv' in Hhd.
  destruct (Z.ltb_spec (iv_used (out_iovs b')) 1) as [|Hused]; [by apply rx_giveup_ok|].
  destruct (rx_vector size lim b' Hb' Hused) as (pa & len & io & Hco & Hio & Hlen & Hu1 & (Hv1 & Hv2 & Hv3) & Hl). cbn [fst snd] in *.
  rewrite Hio. change (aget [io] 0) with (Ok io). cbn [mbind outcome_bind]. unfold VNET_HDR_LEN. rewrite Hlen.
  destruct (Z.ltb_spec len (u32 (12 + data_len e))) as [|Hfit]; [by apply rx_giveup_ok|].
  destruct Hb' as (Hbi' & Hbo' & Hbl'). destruct (map_honest get_va size MAX_RX_IOVS (out_iovs b') Hbo') as (k & -> & Hok' & Hmap & Hco' & Hhon).
  cbn [mbind outcome_bind]. set (b2 := upd out_iovs _ b'). change (NO_ERROR =? NO_ERROR) with true. cbn [negb].
  rewrite Hu1, Hco in Hmap. assert (Hk : k = [mk_iovec (Some (get_va pa)) len]).
  { destruct Hok' as [_ Hk1 _ _]. cbn in Hk1. destruct Hbo' as (_ & Hcnt & _). rewrite Hcnt in Hk1. destruct k as [|k0 [|]]; cbn in Hk1; try (unfold MAX_RX_IOVS in *; lia). exact Hmap. }
  destruct Hwf as [W1 W2 W3 W4 W5 W6]. unfold MAX_I32 in *. rewrite u32_small in Hfit by lia.
  rewrite (rx_copy_eq m e q' b2 s2 (get_va pa) len); try done; try lia; [|by cbn; rewrite <- Hsz|by split; [split|done|lia]].
  destruct (unmap_iovs_ok (out_iovs b2)) as (k2 & Hun & Hok2 & Hco2).
  { done. } { cbn. rewrite Hk. rewrite Hu1. by repeat constructor; eexists. }
  rewrite Hun. cbn [mbind outcome_bind].
  match goal with |- context [vqueue_add_buf q' _ ?b3 ?n] =>
    destruct (add_buf_ok get_va size q' (rx_shm s2) b3 n Hr' Hhd) as (m' & -> & Hr2 & ->) end. cbn [mbind outcome_bind].
  unfold free_frame. match goal with |- context [buf_free ?w0 _] => change w0 with (vworld s) end.
  rewrite Hbf. cbn [mbind outcome_bind]. split; [|split; [|by split]].
  - split; [|split; [done|by exists q']]. cbn. unfold delivered.
    assert (L1 : length (nw_now nw_turn s2) = length (nw_mem s)) by apply Hturn.
    rewrite length_blit; rewrite Hturn, length_blit; rewrite ?L1; cbn; rewrite ?length_slice; lia.
  - destruct Hhon as (_ & Hc2 & Hf2 & Hl2).
    change (iovs_content (out_iovs b2)) with (iovs_content ((out_iovs b') <| iv_iovs := k |>)) in Hco2. rewrite <- Hco2 in Hf2, Hl2. rewrite <- Hco', <- Hco2 in Hbl'. by split_and!.
Qed.

(** The pool after some of its buffers were given back; [l] are the buffers
    still in use. *)
Definition pool_left (p p' : ethbuf_pool) (l : list positive) : Prop :=
  pool_wf p' /\ inuse_list p' ≡ₚ l /\
  (map_Forall (fun _ e => 2048 <= buf_cap e) (bufs p) -> map_Forall (fun _ e => 2048 <= buf_cap e) (bufs p')).

Definition rx_pkts (lim : Z) (p : ethbuf_pool) (ms : list positive) : Prop :=
  Forall (fun m => exists e, bufs p !! m = Some e /\ rx_pkt lim e) ms.

Lemma pool_left_free p m l :
  pool_wf p -> inuse_list p ≡ₚ m :: l ->
  exists p' e', bstgw_ethpool_buf_free (Some m) p = Ok p' /\ pool_left p p' l /\ bufs p' = <[m := e']> (bufs p) /\ m ∉ l.
Proof.
  intros Hp Hin. assert (Hm : m ∈ inuse_list p) by (rewrite Hin; set_solver).
  destruct (pool_free_spec p m Hp Hm) as (p' & e' & Hf & Hp' & _ & Hi & Hb & (e & He & Hc) & _).
  destruct Hp as [Hnd _ _ _ _]. apply NoDup_app in Hnd as (_ & _ & Hnd). rewrite Hin in Hnd. apply NoDup_cons in Hnd as [Hml _].
  exists p', e'. split; [done|]. split; [|done]. split; [done|]. split.
  - rewrite Hi, (lremove_perm m _ _ Hin), lremove_head by done. done.
  - intros Hcap. rewrite Hb. apply map_Forall_insert_2; [rewrite Hc; by apply (Hcap m)|done].
Qed.

(** Another pool with the same buffers in use. *)
Lemma owned_pool (w : world T) l l' p' k :
  owned w l -> pool_left (w_pool w) p' k -> k ≡ₚ queued w ++ l' -> owned (w <| w_pool := p' |>) l'.
Proof.
  intros [[Hp Hr Hg Hd] Hin] (Hp' & Hi & Hc) Hk. split; [split; cbn; auto|].
  change (queued (w <| w_pool := p' |>)) with (queued w). cbn. by rewrite Hi.
Qed.

(** [n] of the packets [ms] were processed: their buffers, and only those, are
    back in the pool, and nothing else of the world has changed. *)
Definition rx_left (size lim : Z) (ms l : list positive) (s : vstate T) (n : Z) (s' : vstate T) : Prop :=
  rx_ok size lim s' /\ n <= Z.of_nat (length ms) /\
  exists p', vworld s' = (vworld s) <| w_pool := p' |> /\ pool_left (w_pool (vworld s)) p' (drop (Z.to_nat n) ms ++ l).

Lemma rx_left_none size lim ms l s n s' :
  rx_ok size lim s' -> vworld s' = vworld s -> n <= 0 -> pool_wf (w_pool (vworld s)) -> inuse_list (w_pool (vworld s)) ≡ₚ ms ++ l ->
  rx_left size lim ms l s n s'.
Proof.
  intros Hrx Hw Hn Hp Hin. split; [done|]. split; [lia|]. exists (w_pool (vworld s)). rewrite Hw. split; [by destruct (vworld s)|].
  by replace (Z.to_nat n) with 0%nat by lia.
Qed.

Lemma rx_left_cons size lim m ms l s s1 n s2 :
  pool_left (w_pool (vworld s)) (w_pool (vworld s1)) (ms ++ l) -> vworld s1 = (vworld s) <| w_pool := w_pool (vworld s1) |> ->
  rx_left size lim ms l s1 n s2 -> 0 <= n -> rx_left size lim (m :: ms) l s (n + 1) s2.
Proof.
  intros (_ & _ & Hc1) Hw1 (Hrx & Hn & p' & Hw & Hp' & Hi & Hc) H0. split; [done|]. split; [cbn; lia|]. exists p'.
  replace (Z.to_nat (n + 1)) with (S (Z.to_nat n)) by lia. cbn. split; [by rewrite Hw, Hw1|]. split; [done|]. split; [done|]. auto.
Qed.

Lemma receive_loop_ok size lim : (forall t mem, length (nw_turn t mem) = length mem) -> forall ms l processed enqueued b s,
  rx_ok size lim s -> rxb_ok size lim b -> pool_wf (w_pool (vworld s)) -> inuse_list (w_pool (vworld s)) ≡ₚ ms ++ l ->
  rx_pkts lim (w_pool (vworld s)) ms ->
  defined (receive_loop get_va nw_turn (Some <$> ms) processed enqueued b s) (fun '(pr, _, s') =>
    processed <= pr /\ rx_left size lim ms l s (pr - processed) s').
Proof.
  intros Hturn. induction ms as [|m ms IH]; intros l processed enqueued b s Hrx Hb Hp Hin Hpk.
  { cbn. split; [lia|]. apply rx_left_none; try done; lia. }
  apply Forall_cons in Hpk as [(e & He & Hpe) Hpk]. rewrite fmap_cons. cbn [receive_loop].
  assert (Hm : m ∈ inuse_list (w_pool (vworld s))) by (rewrite Hin; set_solver).
  pose proof (rx_one_ok size lim m e b s Hturn Hrx Hb Hp Hm He Hpe) as Hone.
  destruct (rx_one get_va nw_turn (Some m) b s) as [[[r b'] s']| |]; [|done|done]. cbn [mbind outcome_bind].
  destruct Hone as (Hrx' & Hb' & _ & Hw).
  destruct (decide (r = RxBreak)) as [->|Hr]; [split; [lia|]; apply rx_left_none; try done; lia|].
  assert (Hfree : buf_free (vworld s) (Some m) = Ok (vworld s')) by (by destruct r). clear Hw.
  destruct (pool_left_free (w_pool (vworld s)) m (ms ++ l) Hp Hin) as (p1 & e1 & Hf & Hpl & Hb1 & Hml).
  unfold buf_free in Hfree. rewrite Hf in Hfree. cbn in Hfree. injection Hfree as Hw1.
  assert (Ep : w_pool (vworld s') = p1) by (by rewrite <- Hw1). rewrite <- Ep in Hpl, Hb1, Hw1.
  assert (Hpk1 : rx_pkts lim (w_pool (vworld s')) ms).
  { apply Forall_forall. intros j Hj. rewrite Hb1, lookup_insert_ne by (intros ->; apply Hml; set_solver). by apply (proj1 (Forall_forall _ _) Hpk). }
  pose proof Hpl as (Hp1 & Hi1 & _).
  assert (Hrec : forall en, defined (receive_loop get_va nw_turn (Some <$> ms) (processed + 1) en b' s') (fun '(pr, _, s') =>
    processed <= pr /\ rx_left size lim (m :: ms) l s (pr - processed) s')).
  { intros en. eapply defined_mono; [|by apply (IH l (processed + 1) en b' s')]. intros [[pr ?] s2] [Hle Hl]. split; [lia|].
    replace (pr - processed) with (pr - (processed + 1) + 1) by lia. eapply rx_left_cons; try done; lia. }
  destruct r; [done|apply Hrec|]. destruct (_ <=? processed + 1); [|apply Hrec]. cbn. split; [lia|].
  replace (processed + 1 - processed) with (0 + 1) by lia. eapply rx_left_cons; [exact Hpl|done|by apply rx_left_none|lia].
Qed.

Lemma rx_buf_ok size lim : rxb_ok size lim rx_buf.
Proof.
  split; [|split]; try (split; [split; vm_compute; try done; by split|]); try apply Forall_nil_2; split_and!; try done; apply Forall_nil_2.
Qed.

Lemma rx_ok_frame size lim s s' :
  nw_mem s' = nw_mem s -> rx_shm s' = rx_shm s -> vq (vdev (vn s')) = vq (vdev (vn s)) -> rx_ok size lim s -> rx_ok size lim s'.
Proof. intros E1 E2 E3. unfold rx_ok, vnic_vq. by rewrite E1, E2, E3. Qed.

Lemma xmit_ok size lim ms l s :
  (forall t mem, length (nw_turn t mem) = length mem) -> rx_ok size lim s -> is_Some (vq (vdev (vn s)) !! 1%nat) ->
  pool_wf (w_pool (vworld s)) -> inuse_list (w_pool (vworld s)) ≡ₚ ms ++ l -> rx_pkts lim (w_pool (vworld s)) ms ->
  defined (vnic_xmit_handler get_va nw_turn (Some <$> ms) s) (fun '(n, s') => rx_left size lim ms l s n s').
Proof.
  intros Hturn Hrx [qt Hqt] Hp Hin Hpk. pose proof Hrx as (Hsz & Hlim & q & Hq & Hr).
  unfold vnic_xmit_handler, vnic_vq at 1. rewrite aget_lookup by (unfold TX_VQ; lia). change (Z.to_nat TX_VQ) with 1%nat. rewrite Hqt. cbn [deref mbind outcome_bind].
  destruct (vring_addr qt =? 0); [by apply rx_left_none|]. unfold virtio_net_receive. rewrite Hq. cbn [mbind outcome_bind].
  destruct (virtio_net_can_receive s q); cbn [negb]; [|by apply rx_left_none].
  destruct (ring_ok_avail _ _ _ _ Hr) as [Hav _]. unfold vqueue_num_of_avail_buf. rewrite (proj2 (Z.eqb_neq _ _) Hav). cbn [mbind outcome_bind].
  destruct (_ =? 0); [by apply rx_left_none|]. destruct (_ <? _); [by apply rx_left_none|]. set (s1 := upd reads _ s). apply defined_bind.
  eapply defined_mono; [|apply (receive_loop_ok size lim Hturn ms l 0 0 rx_buf s1 Hrx (rx_buf_ok size lim) Hp Hin Hpk)].
  intros [[pr en] s2] [Hle Hl]. rewrite Z.sub_0_r in Hl. pose proof Hl as ((_ & _ & q2 & Hq2 & Hr2) & _). rewrite Hq2. cbn [mbind outcome_bind].
  destruct (ring_ok_avail _ _ _ _ Hr2) as [Hav2 _]. destruct (0 <? en); [|done].
  destruct (kick_ok q2 (rx_shm s2) s2 Hav2) as (s3 & -> & E1 & E2 & _ & E3 & E4 & _). cbn. destruct Hl as (Hrx2 & Hn & p' & Hw & Hpl).
  split; [by eapply rx_ok_frame|]. split; [done|]. exists p'. by rewrite E1.
Qed.

(** ** A well-formed ring that is left alone *)

(** Buffers [bs] wait on the receive ring: for each, the index of its
    descriptor and the descriptor, a writable one that is a chain by itself. *)
Record rx_offers (D : Z -> vring_desc) (q : vqueue) (m : vring_shm) (bs : list (Z * vring_desc)) : Prop := {
  xf_quiet : shm_quiet m D;
  xf_idx : forall t, avail_idx_at m t = u16 (last_avail_idx q + Z.of_nat (length bs));
  xf_room : Z.of_nat (length bs) <= vr_num (vq_vring q) < 65536;
  xf_ring : forall j i d, bs !! j = Some (i, d) ->
    d = D i /\ 0 <= i < vr_num (vq_vring q) /\ is_write d = true /\ Z.land (d_flags d) VRING_DESC_F_NEXT = 0 /\
    0 <= d_addr d <= MAX_U32 /\
    forall t, avail_ring_at m t (u16 (last_avail_idx q + Z.of_nat j) mod vr_num (vq_vring q)) = i
}.

Lemma rx_offers_avail D q m p bs t :
  rx_offers D q m (p :: bs) ->
  u16 (avail_idx_at m t - last_avail_idx q) = Z.of_nat (length (p :: bs)) /\ last_avail_idx q <> avail_idx_at m t.
Proof. intros [_ Hidx Hroom _]. rewrite Hidx. apply u16_ahead. cbn [length] in *. lia. Qed.

Lemma rx_offers_tail D q m p bs u r :
  rx_offers D q m (p :: bs) -> 0 <= last_avail_idx q < 65536 ->
  rx_offers D (q <| last_avail_idx := u16 (last_avail_idx q + 1) |>) (m <| used_idx := u |> <| used_ring := r |>) bs.
Proof.
  intros [Hq Hidx Hroom Hring] Hl. split; [done|..].
  - intros t. cbn. rewrite Hidx, u16_add. cbn [length]. f_equal. lia.
  - cbn [length] in Hroom. cbn. lia.
  - intros j i d Hj. destruct (Hring (S j) i d Hj) as (H1 & H2 & H3 & H4 & H5 & Hr). split; [done|]. split; [done|]. split; [done|]. split; [done|]. split; [done|]. intros t. cbn.
    rewrite u16_add. rewrite <- (Hr t). do 3 f_equal. lia.
Qed.

(** The state after a packet was put into the buffer at [i]. *)
Definition after_packet (s : vstate T) (q : vqueue) (t : nat) (w : world T) (e : bstgw_ethbuf_t) (i : Z) (d : vring_desc) : vstate T :=
  s <| vn ::= set_vq RX_VQ (q <| last_avail_idx := u16 (last_avail_idx q + 1) |>) |> <| reads := t |>
    <| nw_mem := delivered (nw_mem s) id (get_va (d_addr d)) (d_len d) e |> <| vworld := w |>
    <| rx_shm := publish (vr_num (vq_vring q)) [(i, 12 + data_len e)] (rx_shm s) |>.

Lemma rx_one_quiet size lim m e b q s D i d bs w' :
  (forall t l, nw_turn t l = l) -> rx_ok size lim s -> rxb_ok size lim b -> vnic_vq s RX_VQ = Ok q -> last_avail_idx q < 65536 ->
  rx_offers D q (rx_shm s) ((i, d) :: bs) -> bufs (w_pool (vworld s)) !! m = Some e -> rx_pkt lim e ->
  0 < data_len e -> 12 + data_len e <= d_len d -> buf_free (vworld s) (Some m) = Ok w' ->
  exists b' t, rx_one get_va nw_turn (Some m) b s = Ok (RxSent, b', after_packet s q t w' e i d).
Proof.
  intros Hid Hrx Hb Hq Hlast Hoff He Hpk Hpos Hfit Hbf. pose proof Hpk as [Hwf Hn Hroom]. pose proof Hrx as (Hsz & Hlim & q0 & Hq0 & Hr).
  assert (q0 = q) as -> by congruence. pose proof Hb as (Hbi & Hbo & _).
  unfold rx_one. rewrite (linearize_single _ m e He Hn). cbn [mbind outcome_bind]. change (0 =? 0) with true. cbn [negb].
  set (s1 := upd vworld _ s). assert (Hs1 : s1 = s) by (by destruct s as [? ? ? ? ? ? ? [[] ? ? ?]]). rewrite Hs1. clear s1 Hs1.
  unfold buf_get at 1. rewrite He. cbn [deref mbind outcome_bind]. unfold bstgw_ethbuf_data_len. rewrite (proj2 (Z.eqb_neq _ 0)) by lia.
  rewrite (data_ptr_spec e 0 Hwf), Z.add_0_r, (proj2 (Z.ltb_lt 0 (data_len e))) by lia. cbn [assert_ptr mbind outcome_bind]. rewrite Hq. cbn [mbind outcome_bind].
  destruct (rx_offers_avail _ _ _ _ _ (reads s) Hoff) as [Hav _]. destruct (rx_offers_avail _ _ _ _ _ (reads s + 1)%nat Hoff) as [_ Hne].
  destruct (xf_ring _ _ _ _ Hoff 0%nat i d eq_refl) as (Hd & Hi & Hw & Hnext & Ha & Hslot). pose proof (xf_room _ _ _ _ Hoff) as Hrm.
  assert (Hslot' : avail_ring_at (rx_shm s) (reads s + 2) (last_avail_idx q mod vr_num (vq_vring q)) = i).
  { rewrite <- (Hslot (reads s + 2)%nat). rewrite Z.add_0_r, u16_small; [done|]. pose proof (ro_avail _ _ _ _ Hr). lia. }
  assert (Hwd : write_descs [d] = [d] /\ read_descs [d] = []) by (unfold write_descs, read_descs; rewrite !filter_cons, Hw; done).
  destruct (get_avail_buf_chain q (rx_shm s) (reads s) b D [d] (ro_ptrs _ _ _ _ Hr) (ro_addr _ _ _ _ Hr) (ro_num _ _ _ _ Hr)
    (xf_quiet _ _ _ _ Hoff) (conj (proj1 Hbi) (proj1 Hbo))) as (b' & t' & Hget & Hhd & Hci & Hco & _); try done.
  { rewrite Hav, u16_small by lia. cbn [length] in *. lia. }
  { rewrite Hslot', Hd. apply chain_last; [done|by rewrite <- Hd]. }
  { by apply Forall_singleton. }
  { rewrite (proj2 Hwd). by destruct Hbi as (_ & -> & _). }
  { rewrite (proj1 Hwd). by destruct Hbo as (_ & -> & _). }
  pose proof (rx_take_ok size lim q _ (reads s) b Hr Hlim Hb) as Htk. rewrite Hget in *. destruct Htk as (Hr' & Hb' & _ & _). cbn [mbind outcome_bind].
  rewrite (proj1 Hwd) in Hco. cbn in Hco. rewrite Hslot' in Hhd.
  destruct (with_vq_set s RX_VQ q (q <| last_avail_idx := u16 (last_avail_idx q + 1) |>) Hq) as (-> & Hq1 & _). cbn [mbind outcome_bind].
  change (NO_ERROR =? NO_ERROR) with true. cbn [negb]. set (s2 := upd reads _ (upd vn _ s)).
  assert (Hu : 1 <= iv_used (out_iovs b')).
  { destruct (Z.ltb_spec (iv_used (out_iovs b')) 1) as [Hlt|]; [|lia]. unfold iovs_content in Hco. replace (Z.to_nat (iv_used (out_iovs b'))) with 0%nat in Hco by lia. done. }
  rewrite (proj2 (Z.ltb_ge _ 1)) by lia.
  destruct (rx_vector size lim b' Hb' Hu) as (pa & len & io & Hco' & Hio & Hlen & Hu1 & (Hv1 & Hv2 & Hv3) & Hl). rewrite Hco in Hco'. injection Hco' as <- <-. cbn [fst snd] in *.
  rewrite Hio. change (aget [io] 0) with (Ok io). cbn [mbind outcome_bind]. unfold VNET_HDR_LEN. rewrite Hlen.
  destruct (Hwf) as [W1 W2 W3 W4 W5 W6]. unfold MAX_I32 in *. rewrite u32_small, (proj2 (Z.ltb_ge _ _)) by lia.
  destruct Hb' as (Hbi' & Hbo' & Hbl'). destruct (map_honest get_va size MAX_RX_IOVS (out_iovs b') Hbo') as (k & -> & Hok' & Hmap & Hcok & Hhon).
  cbn [mbind outcome_bind]. set (b2 := upd out_iovs _ b'). change (NO_ERROR =? NO_ERROR) with true. cbn [negb].
  rewrite Hu1, Hco in Hmap. assert (Hk : k = [mk_iovec (Some (get_va (d_addr d))) (d_len d)]).
  { destruct Hok' as [_ Hk1 _ _]. cbn in Hk1. destruct Hbo' as (_ & Hcnt & _). rewrite Hcnt in Hk1. destruct k as [|k0 [|]]; cbn in Hk1; try (unfold MAX_RX_IOVS in *; lia). exact Hmap. }
  assert (Hturn : forall t mem, length (nw_turn t mem) = length mem) by (intros; by rewrite Hid).
  rewrite (rx_copy_eq m e _ b2 s2 (get_va (d_addr d)) (d_len d)); try done; try lia; [|by cbn; rewrite <- Hsz|by split; [|done|lia]].
  destruct (unmap_iovs_ok (out_iovs b2)) as (k2 & Hun & Hok2 & Hco2).
  { done. } { cbn. rewrite Hk. rewrite Hu1. by repeat constructor; eexists. }
  rewrite Hun. cbn [mbind outcome_bind].
  match goal with |- context [vqueue_add_buf ?q' _ ?b3 ?n] =>
    destruct (add_buf_ok get_va size q' (rx_shm s2) b3 n Hr') as (m' & -> & _ & ->); [change (vb_head b3) with (vb_head b'); by rewrite Hhd|change (vb_head b3) with (vb_head b')] end.
  cbn [mbind outcome_bind]. unfold free_frame. match goal with |- context [buf_free ?w0 _] => change w0 with (vworld s) end.
  rewrite Hbf, Hhd, u32_small by (unfold VNET_HDR_LEN; lia). cbn [mbind outcome_bind]. eexists _, _. do 2 f_equal.
  unfold after_packet, delivered, nw_now. rewrite !Hid. by destruct s.
Qed.

(** Normal-world memory after packets [es] were put into buffers [bs]. *)
Fixpoint deliver_all (bs : list (Z * vring_desc)) (es : list bstgw_ethbuf_t) (mem : list Z) : list Z :=
  match bs, es with
  | (_, d) :: bs', e :: es' => deliver_all bs' es' (delivered mem id (get_va (d_addr d)) (d_len d) e)
  | _, _ => mem
  end.

(** The used entries for them: descriptor, and bytes written. *)
Definition rx_entries (bs : list (Z * vring_desc)) (es : list bstgw_ethbuf_t) : list (Z * Z) :=
  zip_with (fun b e => (b.1, 12 + data_len e)) bs es.

(** The packets, each with a buffer it fits in. *)
Inductive rx_fits (lim : Z) (p : ethbuf_pool) : list positive -> list bstgw_ethbuf_t -> list (Z * vring_desc) -> Prop :=
| fits_nil bs : rx_fits lim p [] [] bs
| fits_cons m ms e es i d bs :
    bufs p !! m = Some e -> rx_pkt lim e -> 0 < data_len e -> 12 + data_len e <= d_len d ->
    rx_fits lim p ms es bs -> rx_fits lim p (m :: ms) (e :: es) ((i, d) :: bs).

Lemma rx_fits_ext lim p p' ms es bs :
  (forall j, j ∈ ms -> bufs p' !! j = bufs p !! j) -> rx_fits lim p ms es bs -> rx_fits lim p' ms es bs.
Proof. intros Hj Hf. induction Hf; constructor; try done; [rewrite Hj by set_solver; done|apply IHHf; set_solver]. Qed.

Lemma receive_loop_quiet size lim D : (forall t l, nw_turn t l = l) -> forall ms es bs l pr en b s q,
  rx_ok size lim s -> rxb_ok size lim b -> vnic_vq s RX_VQ = Ok q -> last_avail_idx q < 65536 -> rx_offers D q (rx_shm s) bs ->
  pool_wf (w_pool (vworld s)) -> inuse_list (w_pool (vworld s)) ≡ₚ ms ++ l -> rx_fits lim (w_pool (vworld s)) ms es bs ->
  pr + Z.of_nat (length ms) <= rx_burst (vnet (vn s)) ->
  exists s', receive_loop get_va nw_turn (Some <$> ms) pr en b s = Ok (pr + Z.of_nat (length ms), en + Z.of_nat (length ms), s') /\
    nw_mem s' = deliver_all bs es (nw_mem s) /\ rx_shm s' = publish (vr_num (vq_vring q)) (rx_entries bs es) (rx_shm s) /\
    vnic_vq s' RX_VQ = Ok (q <| last_avail_idx := u16 (last_avail_idx q + Z.of_nat (length ms)) |>) /\
    exists p', vworld s' = (vworld s) <| w_pool := p' |> /\ pool_left (w_pool (vworld s)) p' l.
Proof.
  intros Hid. assert (Hturn : forall t mem, length (nw_turn t mem) = length mem) by (intros; by rewrite Hid).
  intros ms es bs l. revert ms es bs. induction ms as [|m ms IH]; intros es bs pr en b s q Hrx Hb Hq Hlast Hoff Hp Hin Hfits Hburst.
  { inversion Hfits; subst. exists s. cbn [fmap list_fmap receive_loop length]. change (Z.of_nat 0) with 0. rewrite !Z.add_0_r. split; [done|]. split; [by destruct bs as [|[]]|]. split; [by destruct bs|].
    split; [|exists (w_pool (vworld s)); split; [by destruct (vworld s)|by split_and!]].
    rewrite Hq. f_equal. pose proof Hrx as (_ & _ & q0 & Hq0 & Hr). assert (q0 = q) as -> by congruence. pose proof (ro_avail _ _ _ _ Hr).
    rewrite u16_small by lia. by destruct q. }
  inversion Hfits as [|m0 ms0 e es0 i d bs0 He Hpk Hpos Hfit Hfits']; subst.
  destruct (pool_left_free (w_pool (vworld s)) m (ms ++ l) Hp Hin) as (p1 & e1 & Hf & Hpl & Hb1 & Hml).
  assert (Hbf : buf_free (vworld s) (Some m) = Ok ((vworld s) <| w_pool := p1 |>)) by (unfold buf_free; by rewrite Hf).
  destruct (rx_one_quiet size lim m e b q s D i d bs0 _ Hid Hrx Hb Hq Hlast Hoff He Hpk Hpos Hfit Hbf) as (b' & t & Hone).
  assert (Hm : m ∈ inuse_list (w_pool (vworld s))) by (rewrite Hin; set_solver).
  pose proof (rx_one_ok size lim m e b s Hturn Hrx Hb Hp Hm He Hpk) as Hpost. rewrite Hone in Hpost. destruct Hpost as (Hrx' & Hb' & Hvn & _).
  rewrite fmap_cons. cbn [receive_loop]. rewrite Hone. cbn [mbind outcome_bind]. set (s' := after_packet s q t _ e i d) in *.
  assert (Hq' : vnic_vq s' RX_VQ = Ok (q <| last_avail_idx := u16 (last_avail_idx q + 1) |>)) by (apply (with_vq_set s RX_VQ q _ Hq)).
  pose proof Hpl as (Hp1 & Hi1 & Hc1). rewrite Hvn.
  assert (Hfits1 : rx_fits lim p1 ms es0 bs0).
  { eapply rx_fits_ext; [|exact Hfits']. intros j Hj. rewrite Hb1, lookup_insert_ne; [done|]. intros ->. apply Hml. set_solver. }
  destruct (Z.leb_spec (rx_burst (vnet (vn s))) (pr + 1)) as [Hlast1|Hmore].
  - destruct ms as [|m2 ms]; [|cbn [length] in Hburst; lia]. exists s'. inversion Hfits1; subst. cbn [length deliver_all rx_entries zip_with].
    split; [done|]. split; [by destruct bs0 as [|[]]|]. split; [by destruct bs0|]. split; [done|]. by exists p1.
  - destruct (IH es0 bs0 (pr + 1) (en + 1) b' s' (q <| last_avail_idx := u16 (last_avail_idx q + 1) |>)) as (s2 & Hl & H1 & H2 & H3 & p2 & Hw2 & P1 & P2 & P3); try done.
    { cbn. apply u16_range. }
    { apply rx_offers_tail with (p := (i, d)); [done|]. pose proof Hrx as (_ & _ & q0 & Hq0 & Hr). assert (q0 = q) as -> by congruence. pose proof (ro_avail _ _ _ _ Hr). lia. }
    { rewrite Hvn. cbn [length] in Hburst. lia. }
    exists s2. split; [rewrite Hl; cbn [length]; do 3 f_equal; lia|]. split; [done|]. split; [done|]. split.
    + rewrite H3. f_equal. destruct q. cbn -[Z.of_nat]. unfold upd. cbn -[Z.of_nat]. f_equal. rewrite u16_add. f_equal. cbn [length]. lia.
    + exists p2. split; [by rewrite Hw2|]. split; [done|]. split; [done|]. intros Hc. by apply P3, Hc1.
Qed.

(** ** Properties *)


(** C7. From the egress queue to the normal world.  Whatever the normal world
    does to the ring and to its memory (within the limits of [nw_honest], and
    with buffers no longer than what follows a packet in its own buffer), a
    transmission of the card terminates without undefined behaviour; if it
    reports [n], exactly the first [n] packets have left the egress queue and
    their buffers are back in the pool; the others are still queued, in order,
    and every buffer in use keeps its one owner. *)
Theorem vnic_transmit_conserves size lim ndev s l d q :
  (forall t mem, length (nw_turn t mem) = length mem) -> rx_ok size lim s -> is_Some (vq (vdev (vn s)) !! 1%nat) ->
  owned (vworld s) l -> ndev ∈ netdev_list (w_nd (vworld s)) -> devs (w_nd (vworld s)) !! ndev = Some d ->
  egress_queue d = Some q -> xmit_handler d = true ->
  (forall m e, Some m ∈ pq_abs q -> bufs (w_pool (vworld s)) !! m = Some e -> data_off e + (lim - 12) <= Z.of_nat (length (bytes e))) ->
  defined (router_pktq_tx (fun _ => vnic_xmit_handler get_va nw_turn) ndev s) (fun '(n, s') =>
    rx_ok size lim s' /\ owned (vworld s') l /\
    exists d' q', devs (w_nd (vworld s')) !! ndev = Some d' /\ egress_queue d' = Some q' /\ pq_abs q' = drop (Z.to_nat n) (pq_abs q)).
Proof.
  intros Hturn Hrx Hqt Ho Hn Hd Hq Hx Hpk. destruct (owned_dev _ l ndev Ho Hn) as (d0 & Hd0 & Hdok). assert (d0 = d) as -> by congruence.
  destruct (dk_queue d Hdok) as (q0 & Hq0 & Hwf & Hsome). assert (q0 = q) as -> by congruence.
  assert (Hidle : rx_ok size lim s /\ owned (vworld s) l /\ exists d' q', devs (w_nd (vworld s)) !! ndev = Some d' /\ egress_queue d' = Some q' /\
    pq_abs q' = drop (Z.to_nat 0) (pq_abs q)) by (split; [done|]; split; [done|]; by exists d, q).
  unfold router_pktq_tx, dev_get. cbn [wd vstate_world]. rewrite Hd. cbn [deref mbind outcome_bind]. rewrite Hq. cbn [assert_ptr mbind outcome_bind].
  rewrite Hx. cbn [c_assert mbind outcome_bind]. destruct (bool_decide _ && _); [done|].
  destruct (Z.eqb_spec (bstgw_pktq_locked_contig_bufs q) 0) as [|Hc0]; [done|].
  pose proof (pq_abs_length q Hwf) as Hlen. assert (Hne : pq_abs q <> []).
  { intros E. rewrite E in Hlen. cbn in Hlen. apply Hc0. unfold bstgw_pktq_locked_contig_bufs, bstgw_pktq_locked_is_empty.
    destruct Hwf. by rewrite (proj2 (Z.eqb_eq (count q) 0)) by lia. }
  destruct (pktq_tx_burst q Hwf Hne) as (Hb & Hrd). rewrite Hrd. cbn [mbind outcome_bind].
  set (k := Z.to_nat (bstgw_pktq_locked_contig_bufs q)) in *. pose proof (all_some _ Hsome) as Eall. set (ids := omap id (pq_abs q)) in *.
  assert (Hk : (k <= length ids)%nat) by (rewrite Eall, length_fmap in Hlen; unfold k; lia).
  replace (take k (pq_abs q)) with (Some <$> take k ids) by (by rewrite Eall, fmap_take).
  destruct (queued_split (vworld s) ndev d (rw_nodup _ (wo_reg _ (proj1 Ho))) Hn) as (rest & Eq & _).
  assert (Eqo : queue_of (w_nd (vworld s)) ndev = ids) by (unfold queue_of; by rewrite Hd, Hq). rewrite Eqo in Eq.
  assert (Hin : inuse_list (w_pool (vworld s)) ≡ₚ take k ids ++ (drop k ids ++ rest ++ l)).
  { destruct Ho as [_ ->]. rewrite Eq. rewrite <- (take_drop k ids) at 1. solve_Permutation. }
  assert (Hpkts : rx_pkts lim (w_pool (vworld s)) (take k ids)).
  { apply Forall_forall. intros m Hm. assert (Hmq : Some m ∈ pq_abs q).
    { rewrite Eall. apply list_elem_of_fmap_2. by eapply elem_of_take in Hm as (? & ? & _); eapply list_elem_of_lookup_2. }
    destruct (owned_queued _ l ndev d q m Ho Hn Hd Hq Hmq) as (e & He & Hew & Hen). exists e. split; [done|]. split; [done|done|by apply (Hpk m)]. }
  apply defined_bind. eapply defined_mono; [|apply (xmit_ok size lim (take k ids) (drop k ids ++ rest ++ l) s Hturn Hrx Hqt (wo_pool _ (proj1 Ho)) Hin Hpkts)].
  intros [n s1] (Hrx1 & Hnk & p' & Hw1 & Hpl). rewrite length_take in Hnk.
  assert (Hpl' : pool_left (w_pool (vworld s)) p' (drop (Z.to_nat n) ids ++ rest ++ l)).
  { destruct Hpl as (P1 & P2 & P3). split; [done|]. split; [|done]. rewrite P2. rewrite <- (take_drop k ids) at 3.
    rewrite drop_app_le by (rewrite length_take; lia). solve_Permutation. }
  clear Hpl. cbn [wd vstate_world set_wd]. rewrite Hw1. destruct (Z.leb_spec n 0) as [Hn0|Hn0].
  - cbn. split; [done|]. rewrite Hw1. replace (Z.to_nat n) with 0%nat in * by lia. split; [|by exists d, q].
    apply (owned_pool _ l _ _ _ Ho Hpl'). rewrite Eq. solve_Permutation.
  - cbn [w_nd upd]. cbn. rewrite Hd. cbn [deref mbind outcome_bind]. rewrite Hq. cbn [deref mbind outcome_bind].
    rewrite Eall, length_fmap in Hlen.
    destruct (drop_bufs_refines_fifo q n Hwf ltac:(destruct Hwf; lia)) as (q2 & -> & Hwf2 & _ & Habs). cbn [mbind outcome_bind negb].
    unfold set_wd. cbn [vstate_world]. match goal with |- context [s1 <| vworld := ?w2 |>] => change (vworld (s1 <| vworld := w2 |>)) with w2 end.
    split; [by eapply rx_ok_frame; [..|exact Hrx1]|].
    split; [|exists (d <| egress_queue := Some q2 |>), q2; split; [apply lookup_insert_eq|done]].
    assert (Ho2 : owned (dev_set (vworld s) ndev (d <| egress_queue := Some q2 |>)) (take (Z.to_nat n) ids ++ l)).
    { apply (owned_queue_drop _ _ _ _ _ q); try done. by rewrite fmap_take, <- Eall, Habs, take_drop. }
    apply (owned_pool _ _ l p' _ Ho2 Hpl'). destruct Ho2 as [_ Hin2]. apply (Permutation_app_inv_l (take (Z.to_nat n) ids)).
    transitivity (inuse_list (w_pool (vworld s))); [rewrite Hin|rewrite Hin2; solve_Permutation].
    rewrite app_assoc, take_drop, (app_assoc (take k ids)), take_drop. done.
Qed.

End rx.

(** ** Example: 128 buffers on the receive ring, one packet to deliver *)

Definition ex_rx_desc : vring_desc := mk_desc 100 100 VRING_DESC_F_WRITE 0.
Definition ex_rx_vq : vqueue := mk_vqueue 0 (mk_vring 256 256 1000 6000 8000) 1000 0 4096 0.
Definition ex_rx_shm : vring_shm :=
  mk_shm 256 (fun _ => 0) (fun _ => 128) (fun _ i => i mod 256) (fun _ _ => ex_rx_desc) 0 0 (replicate 256 (mk_used_elem 0 0)).
Definition ex_rx_bufs : list (Z * vring_desc) := (fun j => (Z.of_nat j, ex_rx_desc)) <$> seq 0 128.
Definition ex_egress : pktqueue_t := ex_queue 1 [Some 1%positive; None; None; None].
Definition ex_rx_world : world ex_T := ex_world ex_packet ex_egress.
Definition ex_rx_state : vstate ex_T :=
  mk_vstate (ex_vnic <| vdev ::= fun d => d <| vq := [ex_rx_vq; ex_vq] |> |>) ex_rx_shm (ex_tx_shm ex_tx_desc) 0 (replicate 300 0)
    napi_added (Some 1%positive) ex_rx_world.

Lemma ex_vrx_ok : rx_ok (fun pa => pa) 300 100 ex_rx_state.
Proof.
  split; [done|]. split; [done|]. exists ex_rx_vq. split; [done|]. split; [done|done|done|done|done|]. split.
  - intros t i. split; [|done]. change (0 <= i mod 256). apply Z.mod_pos_bound. lia.
  - done.
  - intros t t' i. unfold vec_ok. change (u32 (d_addr (desc_at (rx_shm ex_rx_state) t i))) with 100.
    change (d_len (desc_at (rx_shm ex_rx_state) t' i)) with 100. cbn. lia.
Qed.

Lemma ex_rx_offers : rx_offers (fun _ => ex_rx_desc) ex_rx_vq ex_rx_shm ex_rx_bufs.
Proof.
  split; [done|done|done|]. intros j i d Hj. unfold ex_rx_bufs in Hj. rewrite list_lookup_fmap in Hj.
  destruct (seq 0 128 !! j) as [k|] eqn:Ek; [|done]. apply lookup_seq in Ek as [-> Hk]. cbn [fmap option_fmap option_map] in Hj. injection Hj as <- <-.
  split; [done|]. change (vr_num (vq_vring ex_rx_vq)) with 256. split; [lia|]. split; [done|]. split; [done|]. split; [vm_compute; split; discriminate|].
  intros t. change (u16 (0 + Z.of_nat j) mod 256 mod 256 = Z.of_nat (0 + j)). rewrite u16_small by lia. rewrite Z.mod_mod, Z.mod_small by lia. lia.
Qed.

Lemma ex_rx_owned : owned ex_rx_world [].
Proof.
  split; [|done]. apply ex_world_ok; [exact ex_packet_wf|done|cbn; lia|apply ex_queue_wf; auto|]. repeat constructor. by eexists.
Qed.

Lemma ex_rx_fits : rx_fits 100 (w_pool ex_rx_world) [1%positive] [ex_packet] ex_rx_bufs.
Proof.
  apply (fits_cons 100 _ 1%positive [] ex_packet [] 0 ex_rx_desc (drop 1 ex_rx_bufs)).
  - reflexivity.
  - split; [exact ex_packet_wf|done|vm_compute; discriminate].
  - vm_compute. reflexivity.
  - vm_compute. discriminate.
  - constructor.
Qed.


Lemma vnic_transmit_conserves_witness :
  defined (router_pktq_tx (fun _ => vnic_xmit_handler (fun pa => pa) (fun t m => replicate (length m) (Z.of_nat t mod 2))) 1 ex_rx_state)
    (fun '(n, s') => rx_ok (fun pa => pa) 300 100 s' /\ owned (vworld s') [] /\
      exists d' q', devs (w_nd (vworld s')) !! 1%positive = Some d' /\ egress_queue d' = Some q' /\
        pq_abs q' = drop (Z.to_nat n) (pq_abs ex_egress)).
Proof.
  apply (vnic_transmit_conserves (fun pa => pa) (fun t m => replicate (length m) (Z.of_nat t mod 2)) 300 100 1 ex_rx_state [] (ex_dev ex_egress)).
  - intros t m. apply length_replicate.
  - exact ex_vrx_ok.
  - by eexists.
  - exact ex_rx_owned.
  - cbn. set_solver.
  - reflexivity.
  - reflexivity.
  - reflexivity.
  - intros m e Hm He. change (pq_abs ex_egress) with [Some 1%positive] in Hm. apply list_elem_of_singleton in Hm. injection Hm as ->.
    injection He as <-. vm_compute. discriminate.
Defined.
