(* ===== verification/VirtioPoll.v ===== *)
(** * The poll function of the virtual card (virtio-nic/vnic/src/vnic.c).

    [vnic_poll] moves packets both ways until it runs out of its budget or
    of work.  Before it goes idle it enables the notifications of the
    transmit queue and looks at it once more: a packet the normal world
    offers meanwhile either is seen, and the card is scheduled again, or its
    notification is not suppressed. *)

From stdpp Require Import strings.
From S2P Require Import Prelude Pktq EthBuf Iovec Vqueue VirtioDev Napi Netdev Route Forward Worker VirtioNet VirtioTx VirtioRx.

(** A queue is set up: its ring pointers are set, its indices are 16-bit. *)
Record wired_vq (q : vqueue) (m : vring_shm) : Prop := {
  wq_avail : vr_avail (vq_vring q) <> 0;
  wq_used : vr_used (vq_vring q) <> 0;
  wq_last : 0 <= last_avail_idx q < 65536;
  wq_idx : forall t, 0 <= avail_idx_at m t < 65536
}.

(** Notifications of the queue are enabled, and it was found empty at a read
    between [t0] and [t1], after they were. *)
Definition armed (q : vqueue) (m : vring_shm) (t0 t1 : nat) : Prop :=
  Z.land (used_flags m) VRING_USED_F_NO_NOTIFY = 0 /\ exists t, (t0 < t < t1)%nat /\ avail_idx_at m t = last_avail_idx q.

(** The normal world took its offer back: of two reads one after the other
    the first shows a buffer, the second none. *)
Definition taken_back (q : vqueue) (m : vring_shm) (t0 t1 : nat) : Prop :=
  exists t, (t0 < t)%nat /\ (S t < t1)%nat /\ avail_idx_at m t <> last_avail_idx q /\ avail_idx_at m (S t) = last_avail_idx q.

(** The queue is left to the next notification. *)
Definition rests (q : vqueue) (m : vring_shm) (t0 t1 : nat) : Prop := armed q m t0 t1 \/ taken_back q m t0 t1.

Section poll.
Context {T : Type} `{ThMap T}.
Implicit Types s : vstate T.

(** Both queues are set up. *)
Definition wired (s : vstate T) : Prop :=
  exists tx rx, vnic_vq s TX_VQ = Ok tx /\ wired_vq tx (tx_shm s) /\ vnic_vq s RX_VQ = Ok rx /\ wired_vq rx (rx_shm s).

(** How a poll may end: the card is scheduled again, or is being disabled, or
    waits with the transmit queue armed, and the receive queue too if there
    were packets without a buffer to put them in. *)
Definition poll_end (no_avail : Prop) (t0 : nat) (s : vstate T) : Prop :=
  has NAPI_STATE_SCHED (vnapi s) = true \/ has NAPI_STATE_DISABLE (vnapi s) = true \/
  (exists tx, vnic_vq s TX_VQ = Ok tx /\ rests tx (tx_shm s) t0 (reads s)) /\
  (no_avail -> exists rx, vnic_vq s RX_VQ = Ok rx /\ rests rx (rx_shm s) t0 (reads s)).

(** The state in which the loop of [vnic_poll] starts. *)
Definition masked (s : vstate T) : vstate T :=
  s <| rx_shm ::= fun m => m <| used_flags ::= fun f => Z.lor f VRING_USED_F_NO_NOTIFY |> |>
    <| tx_shm ::= fun m => m <| used_flags ::= fun f => Z.lor f VRING_USED_F_NO_NOTIFY |> |>.

(** [n] rounds of a poll, in each of which one of the two directions moved
    packets or asked for a retry. *)
Inductive busy_rounds (flush transmit : vstate T -> outcome (Z * vstate T)) : nat -> vstate T -> vstate T -> Prop :=
| busy_none s : busy_rounds flush transmit 0 s s
| busy_more n s r1 s1 r2 s2 s3 : flush s = Ok (r1, s1) -> transmit s1 = Ok (r2, s2) -> is_event r1 || is_event r2 = true ->
    busy_rounds flush transmit n s2 s3 -> busy_rounds flush transmit (S n) s s3.

(** A step keeps what a poll relies on: the NAPI state, the ring pointers and
    the ranges of the indices. *)
Definition vq_kept (q q' : vqueue) : Prop :=
  vq_vring q' = vq_vring q /\ (0 <= last_avail_idx q < 65536 -> 0 <= last_avail_idx q' < 65536).
Record kept_wired (s s' : vstate T) : Prop := {
  kw_napi : vnapi s' = vnapi s;
  kw_tx : avail_idx_at (tx_shm s') = avail_idx_at (tx_shm s);
  kw_rx : avail_idx_at (rx_shm s') = avail_idx_at (rx_shm s);
  kw_vq : Forall2 vq_kept (vq (vdev (vn s))) (vq (vdev (vn s')))
}.

Lemma rests_mono q m t0 t1 t0' t1' : (t0' <= t0)%nat -> (t1 <= t1')%nat -> rests q m t0 t1 -> rests q m t0' t1'.
Proof.
  intros H0 H1 [[Hf (t & Ht & E)]|(t & Ht & Ht1 & E)]; [left; split; [done|]|right]; exists t; split_and!; try lia; try done; by destruct E.
Qed.

Lemma avail_and_notify_spec q m t : wired_vq q m ->
  exists n f t', vqueue_num_of_avail_buf_and_notify q m t = Ok (n, m <| used_flags := f |>, t') /\
    (t <= t')%nat /\ (n = 0 -> rests q (m <| used_flags := f |>) t t').
Proof.
  intros [Ha Hu Hl Hi]. unfold vqueue_num_of_avail_buf_and_notify.
  rewrite (proj2 (Z.eqb_neq _ _) Ha), (proj2 (Z.eqb_neq _ _) Hu). cbn [orb].
  assert (Hz : forall t, u16 (avail_idx_at m t - last_avail_idx q) = 0 -> avail_idx_at m t = last_avail_idx q).
  { intros t1. specialize (Hi t1). unfold u16. intros E. apply Z.mod_divide in E as [k E]; [|lia]. lia. }
  destruct (Z.eqb_spec (u16 (avail_idx_at m t - last_avail_idx q)) 0) as [E0|E0]; [|do 3 eexists; split; [done|]; split; [lia|done]].
  set (m1 := m <| used_flags ::= _ |>). change (avail_idx_at m1) with (avail_idx_at m).
  destruct (Z.eqb_spec (last_avail_idx q) (avail_idx_at m (t + 1))) as [E1|E1].
  - eexists 0, _, _. split; [done|]. split; [lia|]. intros _. left. split; [|exists (t + 1)%nat; split; [lia|done]].
    cbn. by rewrite <- Z.land_assoc, Z.land_comm.
  - do 3 eexists. split; [done|]. split; [lia|]. intros E2%Hz. right. exists (t + 1)%nat.
    split; [lia|]. split; [lia|]. split; [by apply not_eq_sym|]. change (S (t + 1)) with (1 + (t + 1))%nat.
    by replace (1 + (t + 1))%nat with (t + 2)%nat by lia.
Qed.

Lemma schedule_end n : has NAPI_STATE_SCHED (napi_schedule n) = true \/ has NAPI_STATE_DISABLE (napi_schedule n) = true.
Proof. destruct (napi_schedule_spec n) as (-> & _ & _ & -> & _). destruct (has NAPI_STATE_DISABLE n); [by right|left; apply orb_true_r]. Qed.

(** *** A round keeps the queues set up *)

Lemma kept_wired_refl s : kept_wired s s.
Proof. split; try done. induction (vq (vdev (vn s))); by constructor. Qed.

Lemma kept_wired_trans s1 s2 s3 : kept_wired s1 s2 -> kept_wired s2 s3 -> kept_wired s1 s3.
Proof.
  intros [? ? ? H1] [? ? ? H2]. split; try congruence. eapply Forall2_trans; [|exact H1|exact H2].
  intros q1 q2 q3 [? ?] [? ?]. split; [congruence|auto].
Qed.

(** Steps that leave the queues, the indices and the NAPI state alone. *)
Lemma kept_wired_same s s' :
  vnapi s' = vnapi s -> avail_idx_at (tx_shm s') = avail_idx_at (tx_shm s) ->
  avail_idx_at (rx_shm s') = avail_idx_at (rx_shm s) -> vq (vdev (vn s')) = vq (vdev (vn s)) -> kept_wired s s'.
Proof. intros H1 H2 H3 H4. split; try done. rewrite H4. apply (kw_vq s s), kept_wired_refl. Qed.

Lemma wired_kept s s' : kept_wired s s' -> wired s -> wired s'.
Proof.
  intros [_ Ht Hr Hq] (tx & rx & Htx & Ht1 & Hrx & Hr1). unfold vnic_vq in *. apply aget_ok in Htx as [_ Htx], Hrx as [_ Hrx].
  destruct (Forall2_lookup_l _ _ _ _ _ Hq Htx) as (tx' & Htx' & Etx & Ltx).
  destruct (Forall2_lookup_l _ _ _ _ _ Hq Hrx) as (rx' & Hrx' & Erx & Lrx).
  exists tx', rx'. split_and!; try (by apply aget_ok).
  - destruct Ht1. split; rewrite ?Etx, ?Ht; auto.
  - destruct Hr1. split; rewrite ?Erx, ?Hr; auto.
Qed.

Lemma add_buf_kept q m b n r m' : vqueue_add_buf q m b n = Ok (r, m') -> avail_idx_at m' = avail_idx_at m.
Proof.
  unfold vqueue_add_buf. intros E.
  repeat match type of E with (if ?c then _ else _) = _ => destruct c; [by simplify_eq|] end. inv_ok. by simplify_eq.
Qed.

Lemma get_avail_kept q m t b r q' b' t' : vqueue_get_avail_buf q m t b = Ok (r, q', b', t') -> vq_kept q q'.
Proof.
  unfold vqueue_get_avail_buf. cbv zeta. intros E.
  repeat (match type of E with (if ?c then _ else _) = _ => destruct c end; [by simplify_eq|]).
  apply bind_ok in E as ([[? ?] ?] & _ & E). simplify_eq. split; [done|]. intros _.
  apply (Z.mod_pos_bound _ 65536). lia.
Qed.

Lemma with_vq_kept s n q q' v t :
  vnic_vq s n = Ok q -> vq_kept q q' -> with_vq (vn s) n (fun _ => Ok q') = Ok v -> kept_wired s (s <| vn := v |> <| reads := t |>).
Proof.
  unfold vnic_vq, with_vq. intros Hq Hk. rewrite Hq. cbn [mbind outcome_bind]. intros E. inv_ok. subst v.
  unfold aset in E0. destruct (_ || _); [done|]. injection E0 as <-. split; try done. cbn.
  apply aget_ok in Hq as [_ Hq]. rewrite <- (list_insert_id _ _ _ Hq) at 1. apply Forall2_insert; [|done].
  apply (kw_vq s s), kept_wired_refl.
Qed.

Ltac kept_same := apply kept_wired_same; reflexivity.

Lemma free_frame_kept m s s' : free_frame m s = Ok s' -> kept_wired s s'.
Proof. unfold free_frame. intros E. apply bind_ok in E as (w & _ & E). injection E as <-. kept_same. Qed.

Section handlers.
Context (get_va : Z -> Z) (nw_turn : nat -> list Z -> list Z).

Lemma tx_done_kept len r q b s r' b' s' : tx_done len r q b s = Ok (r', b', s') -> kept_wired s s'.
Proof.
  unfold tx_done. cbv zeta. intros E. apply bind_ok in E as (v & _ & E). apply bind_ok in E as ([x m] & E1%add_buf_kept & E).
  injection E as _ _ <-. by apply kept_wired_same.
Qed.

Lemma tx_error_kept ret b s r' b' s' : tx_error ret b s = Ok (r', b', s') -> kept_wired s s'.
Proof. unfold tx_error. intros E. apply bind_ok in E as (v & _ & E). injection E as _ _ <-. apply kept_wired_refl. Qed.

Lemma free_error_kept m ret b s r' b' s' :
  (s ← free_frame m s; tx_error ret b s) = Ok (r', b', s') -> kept_wired s s'.
Proof. intros E. apply bind_ok in E as (s1 & E1%free_frame_kept & E%tx_error_kept). by eapply kept_wired_trans. Qed.

Lemma tx_copy_kept len m q b s r' b' s' : tx_copy nw_turn len m q b s = Ok (r', b', s') -> kept_wired s s'.
Proof.
  unfold tx_copy. cbv zeta. intros E. apply bind_ok in E as ([n hdr] & _ & E).
  destruct (negb _); [apply free_error_kept in E; by eapply kept_wired_trans; [|exact E]; kept_same|].
  apply bind_ok in E as (f & _ & E). apply bind_ok in E as (g & _ & E).
  destruct (_ || _); [apply free_error_kept in E; by eapply kept_wired_trans; [|exact E]; kept_same|].
  apply bind_ok in E as (e & _ & E). apply bind_ok in E as (p & _ & E). apply bind_ok in E as ([n2 data] & _ & E).
  destruct (negb _); [apply free_error_kept in E|apply tx_done_kept in E]; (eapply kept_wired_trans; [|exact E]); kept_same.
Qed.

Lemma tx_msg_kept m q b s r' b' s' : tx_msg get_va nw_turn m q b s = Ok (r', b', s') -> kept_wired s s'.
Proof.
  unfold tx_msg. cbv zeta. intros E. destruct (_ <? 1).
  { apply bind_ok in E as (s1 & E1%free_frame_kept & E). by simplify_eq. }
  apply bind_ok in E as ([ret iv] & _ & E). destruct (negb _).
  { apply bind_ok in E as (s1 & E1%free_frame_kept & E). by simplify_eq. }
  apply bind_ok in E as (first & _ & E). destruct (_ || _); [|by eapply tx_copy_kept].
  apply bind_ok in E as (s1 & E1%free_frame_kept & E%tx_done_kept). by eapply kept_wired_trans.
Qed.

Lemma tx_one_kept b s r' b' s' : tx_one get_va nw_turn b s = Ok (r', b', s') -> kept_wired s s'.
Proof.
  unfold tx_one. cbv zeta. intros E. apply bind_ok in E as ([m p] & _ & E). apply bind_ok in E as (e & _ & E).
  apply bind_ok in E as (q & Hq & E). apply bind_ok in E as ([[[ret q'] b1] t] & Hk%get_avail_kept & E).
  apply bind_ok in E as (v & Hv & E).
  pose proof (with_vq_kept _ _ _ _ _ t Hq Hk Hv) as Hs.
  eapply kept_wired_trans; [|eapply kept_wired_trans; [exact Hs|]]; [kept_same|].
  destruct (_ =? _); [apply bind_ok in E as (s1 & E1%free_frame_kept & E); by simplify_eq|].
  destruct (negb _); [apply bind_ok in E as (s1 & E1%free_frame_kept & E); by simplify_eq|].
  by eapply tx_msg_kept.
Qed.

Lemma flush_tx_loop_kept burst fuel : forall num frames sent b s r num' frames' sent' s',
  flush_tx_loop get_va nw_turn fuel burst num frames sent b s = Ok (r, num', frames', sent', s') -> kept_wired s s'.
Proof.
  induction fuel as [|fuel IH]; intros num frames sent b s r num' frames' sent' s' E; [done|]. cbn [flush_tx_loop] in E.
  apply bind_ok in E as ([[r1 b1] s1] & E1%tx_one_kept & E). eapply kept_wired_trans; [exact E1|]. destruct r1.
  - simplify_eq. apply kept_wired_refl.
  - apply bind_ok in E as (ms & _ & E). apply bind_ok in E as (w & _ & E). simplify_eq. kept_same.
  - destruct (_ <=? _); [simplify_eq; apply kept_wired_refl|by eapply IH].
  - apply bind_ok in E as (fs & _ & E). destruct (_ <=? _); [simplify_eq; apply kept_wired_refl|by eapply IH].
Qed.

Lemma kick_kept q m s s' : vnic_vq_kick_cb q m s = Ok s' -> kept_wired s s'.
Proof.
  unfold vnic_vq_kick_cb. cbv zeta. destruct (_ =? 0); [done|]. destruct (negb _); intros [= <-]; [|kept_same].
  unfold virtio_notify, virtio_notify_vector, vnic_kick_nw, virtio_set_isr. apply kept_wired_same; cbn; try done.
  by repeat (case_match; cbn).
Qed.

Lemma flush_tx_kept tr ndev alloc rx_handler s r s' :
  virtio_net_flush_tx get_va nw_turn tr ndev alloc rx_handler s = Ok (r, s') -> kept_wired s s'.
Proof.
  unfold virtio_net_flush_tx. cbv zeta. intros E. destruct (_ =? 0); [simplify_eq; apply kept_wired_refl|].
  apply bind_ok in E as (q & _ & E). apply bind_ok in E as ([n t] & _ & E). destruct (_ =? 0); [simplify_eq; kept_same|].
  apply bind_ok in E as (fi & _ & E). apply bind_ok in E as (room & _ & E). destruct (_ <? _); [simplify_eq; kept_same|].
  destruct (negb _); [simplify_eq; kept_same|].
  apply bind_ok in E as ([[[[ret num] frames] sent] s1] & E1%flush_tx_loop_kept & E).
  eapply kept_wired_trans; [|eapply kept_wired_trans; [exact E1|]]; [kept_same|].
  destruct ret; [simplify_eq; apply kept_wired_refl|]. unfold flush_tx_deliver in E.
  apply bind_ok in E as (q1 & _ & E). apply bind_ok in E as (s2 & E2 & E). apply bind_ok in E as (s3 & E3 & E). injection E as <- <-.
  apply (kept_wired_trans _ s2).
  - destruct (0 <? num); [by eapply kick_kept|simplify_eq; apply kept_wired_refl].
  - destruct (0 <? sent); [|simplify_eq; apply kept_wired_refl].
    apply bind_ok in E3 as (ms & _ & E3). apply bind_ok in E3 as ([x w] & _ & E3). simplify_eq. kept_same.
Qed.

Lemma rx_giveup_kept q b s r b' s' : rx_giveup q b s = Ok (r, b', s') -> kept_wired s s'.
Proof. unfold rx_giveup. intros E. apply bind_ok in E as ([x m] & E1%add_buf_kept & E). simplify_eq. by apply kept_wired_same. Qed.

Lemma rx_unmap_giveup_kept q b s r b' s' : rx_unmap_giveup q b s = Ok (r, b', s') -> kept_wired s s'.
Proof. unfold rx_unmap_giveup. intros E. apply bind_ok in E as (v & _ & E). by eapply rx_giveup_kept. Qed.

Lemma rx_copy_kept m e p q b s r b' s' : rx_copy nw_turn m e p q b s = Ok (r, b', s') -> kept_wired s s'.
Proof.
  unfold rx_copy. cbv zeta. intros E. apply bind_ok in E as ([n mem] & _ & E).
  destruct (negb _); [apply rx_unmap_giveup_kept in E; by eapply kept_wired_trans; [|exact E]; kept_same|].
  apply bind_ok in E as ([n2 mem2] & _ & E).
  destruct (negb _); [apply rx_unmap_giveup_kept in E; by eapply kept_wired_trans; [|exact E]; kept_same|].
  apply bind_ok in E as (v & _ & E). apply bind_ok in E as ([x sh] & E1%add_buf_kept & E).
  apply bind_ok in E as (s1 & E2%free_frame_kept & E). simplify_eq.
  eapply kept_wired_trans; [|exact E2]. by apply kept_wired_same.
Qed.

Lemma rx_one_kept nb b s r b' s' : rx_one get_va nw_turn nb b s = Ok (r, b', s') -> kept_wired s s'.
Proof.
  unfold rx_one. destruct nb as [m|]; [|intros; simplify_eq; apply kept_wired_refl]. cbv zeta. intros E.
  apply bind_ok in E as ([x st] & _ & E). set (s0 := s <| vworld ::= _ |>) in E.
  apply (kept_wired_trans _ s0); [kept_same|]. generalize dependent s0. intros s0 E. clear s.
  destruct (negb _); [apply bind_ok in E as (s1 & E1%free_frame_kept & E); by simplify_eq|].
  apply bind_ok in E as (e & _ & E).
  destruct (_ =? 0); [apply bind_ok in E as (s1 & E1%free_frame_kept & E); by simplify_eq|].
  apply bind_ok in E as (p & _ & E). apply bind_ok in E as (p' & _ & E). apply bind_ok in E as (q & Hq & E).
  apply bind_ok in E as ([[[ret q'] b1] t] & Hk%get_avail_kept & E). apply bind_ok in E as (v & Hv & E).
  eapply kept_wired_trans; [exact (with_vq_kept _ _ _ _ _ t Hq Hk Hv)|].
  destruct (negb _); [simplify_eq; apply kept_wired_refl|]. destruct (_ <? 1); [by eapply rx_giveup_kept|].
  apply bind_ok in E as (f & _ & E). destruct (_ <? _); [by eapply rx_giveup_kept|].
  apply bind_ok in E as ([ret2 iv] & _ & E). destruct (negb _); [by eapply rx_giveup_kept|by eapply rx_copy_kept].
Qed.

Lemma receive_loop_kept ms : forall pr en b s pr' en' s',
  receive_loop get_va nw_turn ms pr en b s = Ok (pr', en', s') -> kept_wired s s'.
Proof.
  induction ms as [|m ms IH]; intros pr en b s pr' en' s' E; cbn [receive_loop] in E; [simplify_eq; apply kept_wired_refl|].
  apply bind_ok in E as ([[r b1] s1] & E1%rx_one_kept & E). eapply kept_wired_trans; [exact E1|]. destruct r.
  - simplify_eq. apply kept_wired_refl.
  - by eapply IH.
  - destruct (_ <=? _); [simplify_eq; apply kept_wired_refl|by eapply IH].
Qed.

Lemma xmit_kept ms s r s' : vnic_xmit_handler get_va nw_turn ms s = Ok (r, s') -> kept_wired s s'.
Proof.
  unfold vnic_xmit_handler, virtio_net_receive. cbv zeta. intros E. apply bind_ok in E as (q & _ & E).
  destruct (_ =? 0); [simplify_eq; apply kept_wired_refl|]. apply bind_ok in E as (q1 & _ & E).
  destruct (negb _); [simplify_eq; apply kept_wired_refl|]. apply bind_ok in E as ([space t] & _ & E).
  destruct (_ =? 0); [simplify_eq; kept_same|]. destruct (_ <? _); [simplify_eq; kept_same|].
  apply bind_ok in E as ([[pr en] s1] & E1%receive_loop_kept & E). apply bind_ok in E as (q2 & _ & E).
  apply bind_ok in E as (s2 & E2 & E). injection E as <- <-.
  eapply kept_wired_trans; [|eapply kept_wired_trans; [exact E1|]]; [kept_same|].
  destruct (0 <? en); [by eapply kick_kept|simplify_eq; apply kept_wired_refl].
Qed.

Lemma pktq_tx_kept ndev s r s' :
  router_pktq_tx (fun _ => vnic_xmit_handler get_va nw_turn) ndev s = Ok (r, s') -> kept_wired s s'.
Proof.
  unfold router_pktq_tx. cbv zeta. intros E. apply bind_ok in E as (d & _ & E). apply bind_ok in E as (pq & _ & E).
  apply bind_ok in E as (u & _ & E). destruct (_ && _); [simplify_eq; apply kept_wired_refl|].
  destruct (_ =? 0); [simplify_eq; apply kept_wired_refl|]. apply bind_ok in E as (ms & _ & E).
  apply bind_ok in E as ([sent s1] & E1%xmit_kept & E). eapply kept_wired_trans; [exact E1|].
  destruct (_ <=? 0); [simplify_eq; apply kept_wired_refl|]. apply bind_ok in E as (d1 & _ & E).
  apply bind_ok in E as (pq1 & _ & E). apply bind_ok in E as ([x pq2] & _ & E). destruct (negb x); [done|].
  simplify_eq. kept_same.
Qed.
End handlers.

(** *** The idle round *)

Lemma poll_idle_end r s : wired s -> has NAPI_STATE_SCHED (vnapi s) = true ->
  exists s', poll_idle r s = Ok s' /\ poll_end (r = VIRTIO_NO_AVAIL) (reads s) s'.
Proof.
  intros (tx & rx & Htx & Htm & Hrx & Hrm) Hs. unfold poll_idle.
  destruct (napi_complete_done (vnapi s)) as [c n] eqn:Ec. destruct (napi_complete_done_spec _ _ _ Ec) as (_ & _ & _ & _ & _ & Hn).
  destruct c; cbn [negb]; [|eexists; split; [done|]; left; change (has NAPI_STATE_SCHED n = true); by rewrite Hn, Hs].
  change (vnic_vq (s <| vnapi := n |>) TX_VQ) with (vnic_vq s TX_VQ). rewrite Htx. cbn [mbind outcome_bind].
  change (tx_shm (s <| vnapi := n |>)) with (tx_shm s). change (reads (s <| vnapi := n |>)) with (reads s).
  destruct (avail_and_notify_spec tx (tx_shm s) (reads s) Htm) as (a & f & t & -> & Hle & Ha). cbn [mbind outcome_bind].
  destruct (Z.eqb_spec a 0) as [Ea|Ea]; cbn [negb]; [|eexists; split; [done|]; destruct (schedule_end n); [by left|by right; left]].
  specialize (Ha Ea). set (s1 := s <| vnapi := n |> <| tx_shm := _ |> <| reads := _ |>).
  destruct (Z.eqb_spec r VIRTIO_NO_AVAIL) as [Er|Er].
  2:{ eexists. split; [done|]. right. right. split; [exists tx; split; [exact Htx|exact Ha]|done]. }
  change (vnic_vq s1 RX_VQ) with (vnic_vq s RX_VQ). rewrite Hrx. cbn [mbind outcome_bind].
  change (rx_shm s1) with (rx_shm s). change (reads s1) with t.
  destruct (avail_and_notify_spec rx (rx_shm s) t Hrm) as (a2 & f2 & t2 & -> & Hle2 & Ha2). cbn [mbind outcome_bind].
  destruct (Z.eqb_spec a2 0) as [Ea2|Ea2]; cbn [negb]; [|eexists; split; [done|]; destruct (schedule_end n); [by left|by right; left]].
  specialize (Ha2 Ea2). eexists. split; [done|]. right. right. split.
  - exists tx. split; [exact Htx|]. by eapply rests_mono; [| |exact Ha].
  - intros _. exists rx. split; [exact Hrx|]. by eapply rests_mono; [| |exact Ha2].
Qed.

(** *** The loop *)

Section loop.
Context (flush transmit : vstate T -> outcome (Z * vstate T)).
Context (Hflush : forall s r s', flush s = Ok (r, s') -> kept_wired s s').
Context (Htransmit : forall s r s', transmit s = Ok (r, s') -> kept_wired s s').

(** Every outcome of the loop. *)
Definition loop_outcome (fuel : nat) (budget : Z) (s : vstate T) (o : outcome (option Z * vstate T)) : Prop :=
  match o with
  | Ok (Some n, s') => budget <= n \/
      exists k s0 r1 s1 r2 s2, busy_rounds flush transmit k s s0 /\ flush s0 = Ok (r1, s1) /\ transmit s1 = Ok (r2, s2) /\
        is_event r1 || is_event r2 = false /\ poll_end (r2 = VIRTIO_NO_AVAIL) (reads s2) s'
  | Ok (None, s') => busy_rounds flush transmit fuel s s'
  | _ => exists k s0, busy_rounds flush transmit k s s0 /\
      match flush s0 with Ok (_, s1) => match transmit s1 with Ok _ => False | _ => True end | _ => True end
  end.

Lemma poll_loop_outcome budget : forall fuel pkts s,
  wired s -> has NAPI_STATE_SCHED (vnapi s) = true -> loop_outcome fuel budget s (poll_loop flush transmit fuel budget pkts s).
Proof.
  induction fuel as [|fuel IH]; intros pkts s Hw Hs; [apply busy_none|]. cbn [poll_loop].
  destruct (flush s) as [[r1 s1]| |] eqn:E1; cbn [mbind outcome_bind];
    [|exists 0%nat, s; split; [apply busy_none|by rewrite E1]..].
  destruct (transmit s1) as [[r2 s2]| |] eqn:E2; cbn [mbind outcome_bind];
    [|exists 0%nat, s; split; [apply busy_none|by rewrite E1, E2]..].
  assert (Hk : kept_wired s s2) by eauto using kept_wired_trans.
  assert (Hw2 : wired s2) by (by eapply wired_kept).
  assert (Hs2 : has NAPI_STATE_SCHED (vnapi s2) = true) by (by rewrite (kw_napi _ _ Hk)).
  destruct (is_event r1 || is_event r2) eqn:Ee; cbn [negb].
  - set (p := if 0 <? r1 then pkts + r1 else pkts). destruct (Z.ltb_spec p budget); [|by left].
    specialize (IH p s2 Hw2 Hs2). unfold loop_outcome in *.
    destruct (poll_loop _ _ _ _ _ _) as [[[n|] s']| |];
      [destruct IH as [|(k & s0 & r1' & s1' & r2' & s2' & Hb & Hrest)]; [by left|right]|..].
    + exists (S k), s0, r1', s1', r2', s2'. split; [by eapply busy_more|done].
    + by eapply busy_more.
    + destruct IH as (k & s0 & Hb & Hrest). exists (S k), s0. split; [by eapply busy_more|done].
    + destruct IH as (k & s0 & Hb & Hrest). exists (S k), s0. split; [by eapply busy_more|done].
  - destruct (poll_idle_end r2 s2 Hw2 Hs2) as (s3 & -> & Hend). cbn [mbind outcome_bind]. right.
    exists 0%nat, s, r1, s1, r2, s2. split; [apply busy_none|done].
Qed.

Lemma vnic_poll_masks fuel budget s : wired s ->
  vnic_poll flush transmit fuel budget s = poll_loop flush transmit fuel budget 0 (masked s).
Proof.
  intros (tx & rx & Htx & Ht & Hrx & Hr). unfold vnic_poll. rewrite Hrx.
  cbn [mbind outcome_bind]. unfold no_notify. rewrite (proj2 (Z.eqb_neq _ _) (wq_used _ _ Hr)). cbn [mbind outcome_bind].
  match goal with |- context [vnic_vq ?s1 TX_VQ] => change (vnic_vq s1 TX_VQ) with (vnic_vq s TX_VQ) end. rewrite Htx.
  cbn [mbind outcome_bind]. by rewrite (proj2 (Z.eqb_neq _ _) (wq_used _ _ Ht)).
Qed.

Lemma wired_masked s : wired s -> wired (masked s).
Proof. apply wired_kept. kept_same. Qed.

End loop.

(** ** Properties *)

Section card.
Context (get_va : Z -> Z) (nw_turn : nat -> list Z -> list Z).
Context (trusted_router : option Z) (ndev : positive) (frames_ok : bool).
Context (rx_handler : list ebptr -> world T -> outcome (Z * world T)).

(** What the poll function calls: [virtio_net_flush_tx], and [router_pktq_tx]
    with the card's transmit handler. *)
Definition card_flush : vstate T -> outcome (Z * vstate T) :=
  virtio_net_flush_tx get_va nw_turn trusted_router ndev frames_ok rx_handler.
Definition card_transmit : vstate T -> outcome (Z * vstate T) :=
  router_pktq_tx (fun _ => vnic_xmit_handler get_va nw_turn) ndev.

(** C9. The poll function of the card, with the transmissions it really runs,
    loses no kick.  For a scheduled card whose queues are set up, and whatever
    the normal world shows in the rings: when a poll returns without having
    used up its budget, its last round moved nothing and asked for no retry,
    and then the card is scheduled again or is being disabled, or it waits
    with the notifications of the transmit queue enabled, having found it
    empty after enabling them, and the same for the receive queue if the last
    transmission had no buffer for its packets; the one exception is a normal
    world that takes back a buffer it has just offered.  The function fails
    to return only while every round had an event, and misbehaves only where
    one of the two transmissions does.  That it returns is not claimed: see
    [vnic_poll_spins]. *)
Theorem vnic_poll_loses_no_kick fuel budget s :
  wired s -> has NAPI_STATE_SCHED (vnapi s) = true ->
  loop_outcome card_flush card_transmit fuel budget (masked s) (vnic_poll card_flush card_transmit fuel budget s).
Proof.
  intros Hw Hs. rewrite vnic_poll_masks by done. apply poll_loop_outcome.
  - intros ? ? ?. apply flush_tx_kept.
  - intros ? ? ?. apply pktq_tx_kept.
  - by apply wired_masked.
  - done.
Qed.

(** The card as it waits for receive buffers: nothing to take from the normal
    world, packets for it, and some buffers, but fewer than 128. *)
Record short_of_buffers (s : vstate T) : Prop := {
  sb_wired : wired s;
  sb_ok : Z.land (status (vdev (vn s))) VIRTIO_CONFIG_S_DRIVER_OK <> 0;
  sb_tx : forall tx, vnic_vq s TX_VQ = Ok tx -> vring_addr tx <> 0 /\ forall t, avail_idx_at (tx_shm s) t = last_avail_idx tx;
  sb_rx : forall rx, vnic_vq s RX_VQ = Ok rx -> vring_addr rx <> 0 /\
    forall t, 0 < u16 (avail_idx_at (rx_shm s) t - last_avail_idx rx) < VIRTIO_NET_RX_QUEUE_DEFAULT_SIZE / 2;
  sb_dev : exists d q, devs (w_nd (vworld s)) !! ndev = Some d /\ egress_queue d = Some q /\ xmit_handler d = true /\
    bool_decide (trust_status d = BSTGW_IF_EXTERNAL) && netif_tx_queue_stopped q = false /\ pq_wf q /\ pq_abs q <> []
}.

Lemma short_round s : short_of_buffers s ->
  card_flush s = Ok (VIRTIO_NO_AVAIL, s <| reads := S (reads s) |>) /\
  card_transmit (s <| reads := S (reads s) |>) = Ok (VIRTIO_NAPI_RETRY, s <| reads := S (S (reads s)) |>).
Proof.
  intros [(tx & rx & Htx & Ht & Hrx & Hr) Hok Htxe Hrxe (d & q & Hd & Hq & Hx & Hst & Hwf & Hne)].
  destruct (Htxe tx Htx) as [Hta Hte], (Hrxe rx Hrx) as [Hra Hre]. split.
  - unfold card_flush, virtio_net_flush_tx. rewrite (proj2 (Z.eqb_neq _ _) Hok), Htx. cbn [mbind outcome_bind].
    unfold vqueue_num_of_avail_buf. rewrite (proj2 (Z.eqb_neq _ _) (wq_avail _ _ Ht)), Hte, Z.sub_diag. done.
  - unfold card_transmit, router_pktq_tx, dev_get. cbn [wd vstate_world].
    change (vworld (s <| reads := S (reads s) |>)) with (vworld s). rewrite Hd. cbn [deref mbind outcome_bind].
    rewrite Hq. cbn [assert_ptr mbind outcome_bind]. rewrite Hx. cbn [c_assert mbind outcome_bind]. rewrite Hst.
    destruct (pktq_tx_burst q Hwf Hne) as (Hb & Hrd). rewrite (proj2 (Z.eqb_neq (bstgw_pktq_locked_contig_bufs q) 0)) by lia.
    rewrite Hrd. cbn [mbind outcome_bind]. unfold vnic_xmit_handler, virtio_net_receive, virtio_net_can_receive.
    change (vnic_vq (s <| reads := S (reads s) |>)) with (vnic_vq s). rewrite Htx, Hrx. cbn [mbind outcome_bind].
    rewrite (proj2 (Z.eqb_neq _ _) Hta), (proj2 (Z.eqb_neq _ _) Hra).
    change (status (vdev (vn (s <| reads := S (reads s) |>)))) with (status (vdev (vn s))).
    rewrite (proj2 (Z.eqb_neq _ _) Hok). cbn [negb andb]. unfold vqueue_num_of_avail_buf.
    rewrite (proj2 (Z.eqb_neq _ _) (wq_avail _ _ Hr)).
    change (rx_shm (s <| reads := S (reads s) |>)) with (rx_shm s).
    specialize (Hre (reads (s <| reads := S (reads s) |>))). cbn [mbind outcome_bind].
    rewrite (proj2 (Z.eqb_neq _ 0)), (proj2 (Z.ltb_lt _ _)) by lia. done.
Qed.

Lemma poll_loop_spins fuel budget : forall s, short_of_buffers s -> 0 < budget ->
  poll_loop card_flush card_transmit fuel budget 0 s = Ok (None, s <| reads := (reads s + 2 * fuel)%nat |>).
Proof.
  induction fuel as [|fuel IH]; intros s Hs Hb; [by rewrite Nat.add_0_r; destruct s|].
  cbn [poll_loop]. destruct (short_round s Hs) as [-> E]. cbn [mbind outcome_bind]. rewrite E. cbn [mbind outcome_bind].
  change (negb (is_event VIRTIO_NO_AVAIL || is_event VIRTIO_NAPI_RETRY)) with false.
  change (if 0 <? VIRTIO_NO_AVAIL then 0 + VIRTIO_NO_AVAIL else 0) with 0. rewrite (proj2 (Z.ltb_lt 0 budget)) by done.
  rewrite IH; [|by destruct Hs; split|done]. cbn [upd reads].
  replace (S (S (reads s)) + 2 * fuel)%nat with (reads s + 2 * S fuel)%nat by lia. done.
Qed.

(** C40. The poll function can spin for ever.  When the normal world has
    nothing to send, a packet waits for it, and its receive ring shows at
    least one buffer but fewer than 128, each round asks for a retry without
    moving anything: however many rounds the card is given, it does not
    return, and nothing changes but the count of ring reads.  The polling
    thread waits for the normal world, which may never add a buffer. *)
Theorem vnic_poll_spins fuel budget s :
  short_of_buffers s -> 0 < budget ->
  vnic_poll card_flush card_transmit fuel budget s = Ok (None, masked s <| reads := (reads s + 2 * fuel)%nat |>).
Proof.
  intros Hs Hb. rewrite vnic_poll_masks by (by apply sb_wired). apply (poll_loop_spins fuel budget (masked s)); [|done].
  destruct Hs. split; try done. by apply wired_masked.
Qed.
End card.

(** A normal world that sets [DRIVER_OK] without giving the addresses of the
    rings has the card write through a null pointer when it is scheduled. *)
Lemma vnic_poll_null_ring flush transmit fuel budget s rx :
  vnic_vq s RX_VQ = Ok rx -> vr_used (vq_vring rx) = 0 -> vnic_poll flush transmit fuel budget s = Undef.
Proof. intros E Hu. unfold vnic_poll, no_notify. rewrite E. cbn [mbind outcome_bind]. by rewrite Hu. Qed.

End poll.

(** ** Examples *)

(** One packet on the transmit queue, nothing to deliver. *)
Definition ex_polled : vstate ex_T :=
  (ex_vstate ex_tx_desc (replicate 300 0)) <| vnapi := mk_napi 1 false false |>.
Definition ex_take (_ : list ebptr) (w : world ex_T) : outcome (Z * world ex_T) := Ok (0, w).

Lemma ex_wired q m l : vr_avail (vq_vring q) <> 0 -> vr_used (vq_vring q) <> 0 -> last_avail_idx q = l -> 0 <= l < 65536 ->
  (forall t, 0 <= avail_idx_at m t < 65536) -> wired_vq q m.
Proof. intros Ha Hu <- Hr Hi. by split. Qed.

Lemma vnic_poll_loses_no_kick_witness :
  exists n s', vnic_poll (card_flush (fun pa => pa) (fun _ m => m) (Some 256) 1 true ex_take)
      (card_transmit (fun pa => pa) (fun _ m => m) 1) 2 64 ex_polled = Ok (Some n, s') /\ n = 1 /\
    loop_outcome (card_flush (fun pa => pa) (fun _ m => m) (Some 256) 1 true ex_take)
      (card_transmit (fun pa => pa) (fun _ m => m) 1) 2 64 (masked ex_polled) (Ok (Some n, s')).
Proof.
  assert (H := vnic_poll_loses_no_kick (fun pa => pa) (fun _ m => m) (Some 256) 1 true ex_take 2 64 ex_polled).
  destruct (vnic_poll _ _ 2 64 ex_polled) as [[[n|] s']| |] eqn:E; [|vm_compute in E; discriminate E..].
  exists n, s'. split; [reflexivity|]. split; [vm_compute in E; injection E as <- _; reflexivity|]. apply H.
  - eexists ex_vq, ex_vq. split; [reflexivity|].
    split; [eapply ex_wired; [discriminate|discriminate|reflexivity|cbn; lia|intros t; cbn; lia]|]. split; [reflexivity|].
    eapply ex_wired; [discriminate|discriminate|reflexivity|cbn; lia|intros t; cbn; lia].
  - reflexivity.
Defined.

(** One packet for the normal world, which shows 100 receive buffers. *)
Definition ex_short : vstate ex_T :=
  ex_rx_state <| rx_shm ::= fun m => m <| avail_idx_at := fun _ => 100 |> |>
              <| tx_shm ::= fun m => m <| avail_idx_at := fun _ => 5 |> |> <| vnapi := mk_napi 1 false false |>.

Lemma vnic_poll_spins_witness :
  vnic_poll (card_flush (fun pa => pa) (fun _ m => m) (Some 256) 1 true ex_take)
    (card_transmit (fun pa => pa) (fun _ m => m) 1) 1000 64 ex_short
  = Ok (None, masked ex_short <| reads := 2000%nat |>).
Proof.
  apply (vnic_poll_spins (fun pa => pa) (fun _ m => m) (Some 256) 1 true ex_take 1000 64 ex_short); [|lia]. split.
  - exists ex_vq, ex_rx_vq. split; [reflexivity|].
    split; [eapply ex_wired; [discriminate|discriminate|reflexivity|cbn; lia|intros t; cbn; lia]|]. split; [reflexivity|].
    eapply ex_wired; [discriminate|discriminate|reflexivity|cbn; lia|intros t; cbn; lia].
  - discriminate.
  - intros tx E. injection E as <-. split; [discriminate|reflexivity].
  - intros rx E. injection E as <-. split; [discriminate|intros t; vm_compute; split; reflexivity].
  - eexists _, ex_egress. split; [reflexivity|]. split; [reflexivity|]. split; [reflexivity|]. split; [reflexivity|].
    split; [apply ex_queue_wf; auto|vm_compute; discriminate].
Defined.
