(* ===== verification/Fec.v ===== *)
(** * The Ethernet controller driver
    (fec_drivers/bstgw/imx_fec.c, skbuff_stub.c; fec_drivers/include/imx_fec.h,
    skbuff_stub.h, sw_fec_state.h).

    The controller and the driver share two rings of buffer descriptors; a
    descriptor pointer is an address, as in the code.  The driver has one
    receive and one transmit queue ([FEC_ENET_MAX_TX_QS] is 1).  Register
    accesses are logged; what a read returns is the hardware's choice, the
    parameter [hw].  [drv] is the driver's state with the world it works in. *)

From S2P Require Import Prelude Pktq EthBuf Napi Netdev Route Forward Worker.

(** ** Constants *)

Definition FEC_IEVENT : Z := 0x004.
Definition FEC_IMASK : Z := 0x008.
Definition FEC_R_DES_ACTIVE_0 : Z := 0x010.
Definition FEC_X_DES_ACTIVE_0 : Z := 0x014.
Definition FEC_ECNTRL : Z := 0x024.
Definition FEC_MII_DATA : Z := 0x040.
Definition FEC_MII_SPEED : Z := 0x044.
Definition FEC_MIB_CTRLSTAT : Z := 0x064.
Definition FEC_R_CNTRL : Z := 0x084.
Definition FEC_X_CNTRL : Z := 0x0c4.
Definition FEC_ADDR_LOW : Z := 0x0e4.
Definition FEC_ADDR_HIGH : Z := 0x0e8.
Definition FEC_OPD : Z := 0x0ec.
Definition FEC_HASH_TABLE_HIGH : Z := 0x118.
Definition FEC_HASH_TABLE_LOW : Z := 0x11c.
Definition FEC_GRP_HASH_TABLE_HIGH : Z := 0x120.
Definition FEC_GRP_HASH_TABLE_LOW : Z := 0x124.
Definition FEC_X_WMRK : Z := 0x144.
Definition FEC_R_DES_START_0 : Z := 0x180.
Definition FEC_X_DES_START_0 : Z := 0x184.
Definition FEC_R_BUFF_SIZE_0 : Z := 0x188.
Definition FEC_R_FIFO_RSFL : Z := 0x190.
Definition FEC_R_FIFO_RSEM : Z := 0x194.
Definition FEC_R_FIFO_RAEM : Z := 0x198.
Definition FEC_R_FIFO_RAFL : Z := 0x19c.
Definition FEC_FTRL : Z := 0x1b0.
Definition FEC_RACC : Z := 0x1c4.

Definition BD_SC_WRAP : Z := 0x2000.
Definition BD_ENET_RX_EMPTY : Z := 0x8000.
Definition BD_ENET_RX_LAST : Z := 0x0800.
Definition BD_ENET_RX_LG : Z := 0x0020.
Definition BD_ENET_RX_NO : Z := 0x0010.
Definition BD_ENET_RX_SH : Z := 0x0008.
Definition BD_ENET_RX_CR : Z := 0x0004.
Definition BD_ENET_RX_OV : Z := 0x0002.
Definition BD_ENET_RX_CL : Z := 0x0001.
Definition BD_ENET_TX_READY : Z := 0x8000.
Definition BD_ENET_TX_INTR : Z := 0x1000.
Definition BD_ENET_TX_LAST : Z := 0x0800.
Definition BD_ENET_TX_TC : Z := 0x0400.
Definition BD_ENET_TX_INT : Z := 0x40000000.
Definition BD_ENET_TX_PINS : Z := 0x10000000.
Definition BD_ENET_TX_IINS : Z := 0x08000000.
Definition BD_ENET_RX_INT : Z := 0x00800000.
Definition FLAG_RX_CSUM_ENABLED : Z := 0x30.
Definition FLAG_RX_CSUM_ERROR : Z := 0x30.

Definition FEC_ENET_GRA : Z := 0x10000000.
Definition FEC_ENET_TXF_0 : Z := 0x08000000.
Definition FEC_ENET_RXF_0 : Z := 0x02000000.
Definition FEC_ENET_MII : Z := 0x00800000.
Definition FEC_ENET_TXF : Z := 0x08000088.
Definition FEC_ENET_RXF : Z := 0x02000022.
Definition FEC_DEFAULT_IMASK : Z := 0x0a8000aa.
Definition FEC_NAPI_IMASK : Z := FEC_ENET_MII.
Definition FEC_RX_DISABLED_IMASK : Z := 0x08800088.
Definition FEC_ENET_ETHEREN : Z := 2.
Definition FEC_ENET_FCE : Z := 0x20.
Definition FEC_ENET_RSEM_V : Z := 0x84.
Definition FEC_ENET_RSFL_V : Z := 16.
Definition FEC_ENET_RAEM_V : Z := 8.
Definition FEC_ENET_RAFL_V : Z := 8.
Definition FEC_ENET_OPD_V : Z := 0xfff0.

Definition FEC_QUIRK_ENET_MAC : Z := 0x1.
Definition FEC_QUIRK_HAS_BUFDESC_EX : Z := 0x10.
Definition FEC_QUIRK_HAS_CSUM : Z := 0x20.
Definition FEC_QUIRK_HAS_RACC : Z := 0x1000.
Definition FEC_QUIRK_ERR006687 : Z := 0x4000.
(** [fec_devtype[BSTGW_IMX6Q_FEC].driver_data], and what [fec_probe] makes of
    it. *)
Definition imx6q_driver_data : Z := 0x110e9.
Definition imx6q_quirks : Z := Z.lor imx6q_driver_data FEC_QUIRK_ERR006687.
Definition FEC_RACC_OPTIONS : Z := 6.
Definition FEC_RACC_SHIFT16 : Z := 0x80.

Definition PKT_MAXBUF_SIZE : Z := 1984.
Definition OPT_FRAME_SIZE : Z := Z.shiftl PKT_MAXBUF_SIZE 16.
Definition COPYBREAK_DEFAULT : Z := 1518.
Definition FEC_ENET_RX_FRSIZE : Z := 2048.
Definition FEC_ENET_TX_FRSIZE : Z := 2048.
Definition RX_RING_SIZE : Z := 512.
Definition TX_RING_SIZE : Z := 512.
Definition BSTGW_RX_BURST_SZ : Z := 32.
Definition BSTGW_RX_BUDGET : Z := 96.
Definition BSTGW_TXC_BUDGET : Z := 128.
Definition NETDEV_TX_OK : Z := 0.
Definition NETDEV_TX_BUSY : Z := 16.
Definition CHECKSUM_UNNECESSARY : Z := 1.
Definition CHECKSUM_PARTIAL : Z := 3.
Definition ENOMEM : Z := 12.

(** ** Data *)

(** [struct bufdesc], and the fields of [struct bufdesc_ex]. *)
Record bufdesc := mk_bufdesc {
  cbd_datlen : Z; cbd_sc : Z; cbd_bufaddr : Z;
  cbd_esc : Z; cbd_prot : Z; cbd_bdu : Z
}.
#[global] Instance eta_bufdesc : Settable bufdesc :=
  fun d => mk_bufdesc (cbd_datlen d) (cbd_sc d) (cbd_bufaddr d) (cbd_esc d) (cbd_prot d) (cbd_bdu d).

Record bufdesc_prop := mk_bd {
  bd_base : Z; bd_last : Z; bd_cur : Z;
  reg_desc_active : Z;
  dma : Z;
  ring_size : Z;
  dsize : Z;
  dsize_log2 : Z
}.
#[global] Instance eta_bufdesc_prop : Settable bufdesc_prop :=
  fun b => mk_bd (bd_base b) (bd_last b) (bd_cur b) (reg_desc_active b) (dma b) (ring_size b) (dsize b) (dsize_log2 b).

(** A bounce buffer is its aligned address and its bytes. *)
Record fec_enet_priv_tx_q := mk_txq {
  tx_bd : bufdesc_prop;
  tx_ring : list bufdesc;
  caligned_tx_bounce : list (option (Z * list Z));
  tx_skbuff : list ebptr;
  tx_stop_threshold : Z;
  tx_wake_threshold : Z;
  pending_tx : Z
}.
#[global] Instance eta_txq : Settable fec_enet_priv_tx_q :=
  fun q => mk_txq (tx_bd q) (tx_ring q) (caligned_tx_bounce q) (tx_skbuff q) (tx_stop_threshold q) (tx_wake_threshold q) (pending_tx q).

Record fec_enet_priv_rx_q := mk_rxq {
  rx_bd : bufdesc_prop;
  rx_ring : list bufdesc;
  rx_skbuff : list ebptr
}.
#[global] Instance eta_rxq : Settable fec_enet_priv_rx_q :=
  fun q => mk_rxq (rx_bd q) (rx_ring q) (rx_skbuff q).

Inductive sfec_prist_t :=
| SFEC_PRI_ERROR | SFEC_PRI_UNINIT | SFEC_PRI_PROBED | SFEC_PRI_OPENING | SFEC_PRI_POST_OPEN
| SFEC_PRI_RESTARTED | SFEC_PRI_STOPPED | SFEC_PRI_RUNNING | SFEC_PRI_SHUTTING_DOWN | SFEC_PRI_SHUT_DOWN.
#[global] Instance prist_eq_dec : EqDecision sfec_prist_t.
Proof. solve_decision. Defined.

Inductive sfec_subst_t :=
| SFEC_SUB_NONE
| SFEC_SUB_RESTART_RESET | SFEC_SUB_RESTART_INIT | SFEC_SUB_RESTART_MII_MODE | SFEC_SUB_RESTART_MII_SPEED
| SFEC_SUB_RESTART_FCE_EN | SFEC_SUB_RESTART_R_CNTRL | SFEC_SUB_RESTART_ECNTRL
| SFEC_SUB_RESTART_IMASK_RUN | SFEC_SUB_RESTART_IMASK_MII
| SFEC_SUB_STOP_GET_RMII | SFEC_SUB_STOP_XMIT_STOP | SFEC_SUB_STOP_GET_IEVENT | SFEC_SUB_STOP_RESET
| SFEC_SUB_STOP_MII_IMASK | SFEC_SUB_STOP_MII_SPEED | SFEC_SUB_STOP_ECNTRL.
#[global] Instance subst_eq_dec : EqDecision sfec_subst_t.
Proof. solve_decision. Defined.

Record sfec_state_t := mk_sfec {
  primary_st : sfec_prist_t; sub_st : sfec_subst_t;
  rcntl : Z; ecntl : Z; rmii_mode : Z
}.
#[global] Instance eta_sfec : Settable sfec_state_t :=
  fun s => mk_sfec (primary_st s) (sub_st s) (rcntl s) (ecntl s) (rmii_mode s).

Inductive io_event := IoRead (addr val : Z) | IoWrite (addr val : Z).

Record fec_enet_private := mk_fec {
  hwp : Z;
  sfec_state : sfec_state_t;
  in_queue : pktqueue_t;
  no_kick : bool;
  tx_queue : fec_enet_priv_tx_q;
  rx_queue : fec_enet_priv_rx_q;
  events : Z;
  bufdesc_ex : bool;
  quirks : Z;
  rx_napi : napi_struct;
  route_tx_napi : napi_struct;
  csum_flags : Z;
  tx_align : Z;
  rx_align : Z;
  rx_copybreak : Z;
  io : list io_event;     (** register accesses, newest first *)
  nreads : nat;           (** number of reads among them *)
  irqs_passed : nat       (** interrupts raised in the normal world *)
}.
#[global] Instance eta_fec : Settable fec_enet_private :=
  fun f => mk_fec (hwp f) (sfec_state f) (in_queue f) (no_kick f) (tx_queue f) (rx_queue f) (events f) (bufdesc_ex f)
    (quirks f) (rx_napi f) (route_tx_napi f) (csum_flags f) (tx_align f) (rx_align f) (rx_copybreak f) (io f) (nreads f)
    (irqs_passed f).

(** The driver with the world it works in. *)
Record drv (T : Type) := mk_drv { fep : fec_enet_private; env : world T }.
Arguments mk_drv {T}. Arguments fep {T}. Arguments env {T}.
#[global] Instance eta_drv {T} : Settable (drv T) := fun s => mk_drv (fep s) (env s).
#[global] Program Instance drv_world T : HasWorld T (drv T) := {| wd := env; set_wd w s := s <| env := w |> |}.
Next Obligation. done. Qed.

(** ** Descriptor pointers *)

Definition fec_enet_get_nextdesc (bdp : Z) (bd : bufdesc_prop) : Z :=
  if bd_last bd <=? bdp then bd_base bd else bdp + dsize bd.

Definition fec_enet_get_bd_index (bdp : Z) (bd : bufdesc_prop) : Z :=
  Z.shiftr (bdp - bd_base bd) (dsize_log2 bd).

(** Dereferencing a descriptor pointer into the array at [bd_base]. *)
Definition bd_get (bd : bufdesc_prop) (ring : list bufdesc) (bdp : Z) : outcome bufdesc :=
  if (bdp - bd_base bd) mod dsize bd =? 0 then aget ring ((bdp - bd_base bd) / dsize bd) else Undef.
Definition bd_set (bd : bufdesc_prop) (ring : list bufdesc) (bdp : Z) (d : bufdesc) : outcome (list bufdesc) :=
  if (bdp - bd_base bd) mod dsize bd =? 0 then aset ring ((bdp - bd_base bd) / dsize bd) d else Undef.

Definition wrap_of (bd : bufdesc_prop) (bdp : Z) : Z := if bdp =? bd_last bd then BD_SC_WRAP else 0.

Definition fec_enet_get_free_txdesc_num (txq : fec_enet_priv_tx_q) : Z :=
  let bd := tx_bd txq in
  let entries := Z.shiftr (pending_tx txq - bd_cur bd) (dsize_log2 bd) - 1 in
  if 0 <=? entries then entries else entries + ring_size bd.

(** ** The packet buffer under its Linux name (skbuff_stub.h, skbuff_stub.c) *)

(** An address. *)
Definition skb_data (e : bstgw_ethbuf_t) : Z := buf e + data_off e.

(** The buffers chained behind the first, an [unsigned char]. *)
Fixpoint frags_loop (fuel : nat) (p : ethbuf_pool) (b : ebptr) (n : Z) : outcome Z :=
  match b with
  | None => Ok n
  | Some i =>
      match fuel with
      | O => Undef
      | S fuel' => e ← deref (bufs p !! i); frags_loop fuel' p (next e) (u8 (n + 1))
      end
  end.
Definition skb_nr_frags (p : ethbuf_pool) (e : bstgw_ethbuf_t) : outcome Z :=
  frags_loop (S (size (bufs p))) p (next e) 0.

Definition skb_reserve (e : bstgw_ethbuf_t) (len : Z) : outcome bstgw_ethbuf_t :=
  c_assert (data_len e =? 0);;
  let cap := i32 (bstgw_ethbuf_buf_capacity e) in
  if u32 len <=? u32 (cap - data_off e) then Panic else
  Ok (e <| data_off := u32 (data_off e + len) |>).

(** The buffer, and the pointer to the added bytes (unused by the driver). *)
Definition skb_put (e : bstgw_ethbuf_t) (len : Z) : outcome bstgw_ethbuf_t :=
  let rem_space := u32 (buf_cap e - u32 (data_off e + data_len e)) in
  if rem_space <? len then Panic else
  let old_len := data_len e in
  let e := e <| data_len := u32 (data_len e + len) |> in
  _ ← bstgw_ethbuf_data_ptr e old_len;
  Ok e.

(** ** The driver *)

Section driver.
Context {T : Type} `{ThMap T}.

(** [hw n a]: what the [n]-th register read returns, from address [a].
    [virt_to_phys]: 0 if there is no mapping.  [cache_clean],
    [cache_invalidate]: whether [cache_operation] succeeds on an address
    range.  [asserts]: whether [assert] is compiled in. *)
Context (hw : nat -> Z -> Z) (virt_to_phys : Z -> Z).
Context (cache_clean cache_invalidate : Z -> Z -> bool) (asserts : bool).
(** The network device of the driver. *)
Context (ndev : positive).
Implicit Types s : drv T.

Definition io_write32 (addr val : Z) (f : fec_enet_private) : fec_enet_private :=
  f <| io ::= cons (IoWrite addr val) |>.
Definition io_read32 (addr : Z) (f : fec_enet_private) : Z * fec_enet_private :=
  let v := u32 (hw (nreads f) addr) in
  (v, f <| io ::= cons (IoRead addr v) |> <| nreads ::= S |>).

Definition netdev_alloc_skb (length : Z) (w : world T) : outcome (positive * world T) :=
  (if asserts then c_assert (length =? BSTGW_DEFAULT_BUF_SIZE) else Ok tt);;
  '(m, p) ← bstgw_ethpool_buf_alloc (w_pool w);
  Ok (m, w <| w_pool := p |>).

Definition dev_kfree_skb_any (m : ebptr) (s : drv T) : outcome (drv T) :=
  w ← buf_free (env s) m; Ok (s <| env := w |>).

(** The egress queue of the device, and an update of it. *)
Definition netdev_get_tx_queue (s : drv T) : outcome pktqueue_t :=
  d ← dev_get (env s) ndev; deref (egress_queue d).
Definition set_tx_queue (q : pktqueue_t) (s : drv T) : outcome (drv T) :=
  d ← dev_get (env s) ndev; Ok (s <| env ::= fun w => dev_set w ndev (d <| egress_queue := Some q |>) |>).

(** *** Transmission *)

Definition fec_trigger_tx (cbd_sc0 first_bdp next_bdp : Z) (skb : positive) (index : Z)
    (f : fec_enet_private) : outcome fec_enet_private :=
  let txq := tx_queue f in
  skbs ← aset (tx_skbuff txq) index (Some skb);
  d ← bd_get (tx_bd txq) (tx_ring txq) first_bdp;
  ring ← bd_set (tx_bd txq) (tx_ring txq) first_bdp (d <| cbd_sc := cbd_sc0 |>);
  let txq := txq <| tx_skbuff := skbs |> <| tx_ring := ring |>
                 <| tx_bd ::= fun b => b <| bd_cur := next_bdp |> |> in
  Ok (io_write32 (reg_desc_active (tx_bd txq)) 0 (f <| tx_queue := txq |>)).

Definition is_ipv4_pkt (e : bstgw_ethbuf_t) : outcome bool :=
  ip4 ← bstgw_ethbuf_data_ptr e (l2_len e);
  if Z.land (packet_type e) RTE_PTYPE_L3_IPV4 =? 0 then Ok false else
  match ip4 with
  | None => Ok false
  | Some a => b ← aget (bytes e) a; Ok (Z.shiftr b 4 =? 4)
  end.

Definition fec_enet_clear_csum (e : bstgw_ethbuf_t) : outcome bstgw_ethbuf_t :=
  if negb (ip_summed e =? CHECKSUM_PARTIAL) then Ok e else
  ip4 ← bstgw_ethbuf_data_ptr e (l2_len e);
  is4 ← is_ipv4_pkt e;
  e ← (if (is4 : bool) then
         a ← deref ip4; b ← mem_write (bytes e) (a + 10) [0; 0]; Ok (e <| bytes := b |>)
       else Ok e);
  b ← mem_write (bytes e) (csum_start e + csum_offset e) [0; 0];
  Ok (e <| bytes := b |>).

(** The bounce copy if the packet is not aligned: the address to transmit
    from. *)
Definition tx_bounce_copy (e : bstgw_ethbuf_t) (index buflen : Z) (f : fec_enet_private)
    : outcome (Z * fec_enet_private) :=
  let txq := tx_queue f in
  if Z.land (skb_data e) (tx_align f) =? 0 then Ok (skb_data e, f) else
  b ← aget (caligned_tx_bounce txq) index;
  '(addr, mem) ← deref b;
  d ← mem_read (bytes e) (data_off e) buflen;
  mem ← mem_write mem 0 d;
  bs ← aset (caligned_tx_bounce txq) index (Some (addr, mem));
  Ok (addr, f <| tx_queue := txq <| caligned_tx_bounce := bs |> |>).

Definition fec_enet_txq_submit_skb (skb : positive) (s : drv T) : outcome (Z * drv T) :=
  e ← buf_get (env s) skb;
  nr_frags ← skb_nr_frags (w_pool (env s)) e;
  let entries_free := fec_enet_get_free_txdesc_num (tx_queue (fep s)) in
  if entries_free <? 1 then Ok (NETDEV_TX_BUSY, s) else
  e ← fec_enet_clear_csum e;
  let s := s <| env ::= fun w => buf_set w skb e |> in
  let bdp := bd_cur (tx_bd (tx_queue (fep s))) in
  let buflen := u16 (data_len e) in
  let index := fec_enet_get_bd_index bdp (tx_bd (tx_queue (fep s))) in
  '(bufaddr, f) ← tx_bounce_copy e index buflen (fep s);
  let s := s <| fep := f |> in
  let addr := virt_to_phys bufaddr in
  if (addr =? 0) || negb (cache_clean bufaddr buflen) then
    s ← dev_kfree_skb_any (Some skb) s; Ok (NETDEV_TX_OK, s) else
  let txq := tx_queue f in
  let status := Z.lor (Z.lor BD_ENET_TX_TC BD_ENET_TX_READY) (wrap_of (tx_bd txq) bdp) in
  if negb (nr_frags =? 0) then Panic else
  let status := Z.lor status (Z.lor BD_ENET_TX_INTR BD_ENET_TX_LAST) in
  d ← bd_get (tx_bd txq) (tx_ring txq) bdp;
  let d := d <| cbd_bufaddr := u32 addr |> <| cbd_datlen := buflen |> in
  let d := if bufdesc_ex f then
             d <| cbd_bdu := 0 |>
               <| cbd_esc := Z.lor BD_ENET_TX_INT (if ip_summed e =? CHECKSUM_PARTIAL
                                                   then Z.lor BD_ENET_TX_PINS BD_ENET_TX_IINS else 0) |>
           else d in
  ring ← bd_set (tx_bd txq) (tx_ring txq) bdp d;
  f ← fec_trigger_tx status bdp (fec_enet_get_nextdesc bdp (tx_bd txq)) skb index
        (f <| tx_queue := txq <| tx_ring := ring |> |>);
  Ok (NETDEV_TX_OK, s <| fep := f |>).

Definition fec_enet_start_xmit (skb : positive) (s : drv T) : outcome (Z * drv T) :=
  '(ret, s) ← fec_enet_txq_submit_skb skb s;
  if negb (ret =? 0) then Ok (ret, s) else
  if fec_enet_get_free_txdesc_num (tx_queue (fep s)) <=? tx_stop_threshold (tx_queue (fep s)) then
    pq ← netdev_get_tx_queue s;
    s ← set_tx_queue (netif_tx_stop_queue pq) s;
    Ok (NETDEV_TX_OK, s)
  else Ok (NETDEV_TX_OK, s).

Fixpoint fec_xmit_handler (pkts : list ebptr) (processed : Z) (s : drv T) : outcome (Z * drv T) :=
  match pkts with
  | [] => Ok (processed, s)
  | m :: pkts' =>
      m ← deref m;
      '(ret, s) ← fec_enet_start_xmit m s;
      if ret =? NETDEV_TX_OK then fec_xmit_handler pkts' (processed + 1) s else
      if ret =? NETDEV_TX_BUSY then Ok (processed, s) else Panic
  end.

(** *** Notifications *)

Definition bstgw_fec_schedule_xmit (f : fec_enet_private) : fec_enet_private :=
  if no_kick f then f else f <| no_kick := true |> <| route_tx_napi ::= napi_schedule |>.

Definition fec_egr_ntfy_handler (s : drv T) : outcome (drv T) :=
  q ← netdev_get_tx_queue s;
  if netif_tx_queue_stopped q then Ok s else Ok (s <| fep ::= bstgw_fec_schedule_xmit |>).

(** [netif_tx_wake_queue] for this device. *)
Definition fec_wake_queue (s : drv T) : outcome (drv T) :=
  q ← netdev_get_tx_queue s;
  let '(was_stopped, q) := netif_tx_wake_queue q in
  s ← set_tx_queue q s;
  if (was_stopped : bool) then fec_egr_ntfy_handler s else Ok s.

(** *** Completion of transmissions *)

(** One descriptor the controller is done with: taken out of the ring and its
    buffer freed. *)
Definition txq_complete (bdp : Z) (d : bufdesc) (s : drv T) : outcome (drv T) :=
  let txq := tx_queue (fep s) in
  let bd := tx_bd txq in
  let index := fec_enet_get_bd_index bdp bd in
  skb ← aget (tx_skbuff txq) index;
  skbs ← aset (tx_skbuff txq) index None;
  ring ← bd_set bd (tx_ring txq) bdp (d <| cbd_sc := wrap_of bd bdp |> <| cbd_bufaddr := 0 |>);
  let s := s <| fep ::= fun f => f <| tx_queue := txq <| tx_skbuff := skbs |> <| tx_ring := ring |> |> |> in
  s ← (match skb with None => Ok s | Some m => dev_kfree_skb_any (Some m) s end);
  let s := s <| fep ::= fun f => f <| tx_queue ::= fun q => q <| pending_tx := fec_enet_get_nextdesc bdp bd |> |> |> in
  pq ← netdev_get_tx_queue s;
  if netif_tx_queue_stopped pq &&
     (tx_wake_threshold (tx_queue (fep s)) <=? fec_enet_get_free_txdesc_num (tx_queue (fep s)))
  then fec_wake_queue s else Ok s.

(** The loop of [fec_txq]; [budget]: what is left of [BSTGW_TXC_BUDGET]. *)
Fixpoint fec_txq_loop (budget : nat) (s : drv T) : outcome (Z * drv T) :=
  match budget with
  | O => Ok (0, s)
  | S budget' =>
      let txq := tx_queue (fep s) in
      let bdp := pending_tx txq in
      if bdp =? bd_cur (tx_bd txq) then Ok (0, s) else
      d ← bd_get (tx_bd txq) (tx_ring txq) bdp;
      if negb (Z.land (cbd_sc d) BD_ENET_TX_READY =? 0) then
        let '(v, f) := io_read32 (reg_desc_active (tx_bd txq)) (fep s) in
        Ok (0, s <| fep := if v =? 0 then io_write32 (reg_desc_active (tx_bd txq)) 0 f else f |>)
      else
        s ← txq_complete bdp d s;
        '(n, s) ← fec_txq_loop budget' s;
        Ok (n + 1, s)
  end.

Definition fec_txq (s : drv T) : outcome (Z * drv T) := fec_txq_loop (Z.to_nat BSTGW_TXC_BUDGET) s.

(** *** Reception *)

(** The copy of the received frame, or None if it is too long. *)
Definition fec_enet_copybreak (skb : positive) (length : Z) (s : drv T) : outcome (option (positive * drv T)) :=
  if rx_copybreak (fep s) <? length then Ok None else
  '(new_skb, w) ← netdev_alloc_skb length (env s);
  e ← buf_get w skb;
  e' ← buf_get w new_skb;
  d ← mem_read (bytes e) (data_off e) length;
  b ← mem_write (bytes e') (data_off e') d;
  Ok (Some (new_skb, s <| env := buf_set w new_skb (e' <| bytes := b |>) |>)).

Definition rx_error_bits : Z :=
  Z.lor (Z.lor (Z.lor BD_ENET_RX_LG BD_ENET_RX_SH) (Z.lor BD_ENET_RX_NO BD_ENET_RX_CR))
        (Z.lor BD_ENET_RX_OV (Z.lor BD_ENET_RX_LAST BD_ENET_RX_CL)).

(** A frame without errors: the buffer for the router. *)
Definition rxq_frame (bdp : Z) (d : bufdesc) (s : drv T) : outcome (positive * drv T) :=
  let f := fep s in
  let rxq := rx_queue f in
  let pkt_len := cbd_datlen d in
  skb ← aget (rx_skbuff rxq) (fec_enet_get_bd_index bdp (rx_bd rxq));
  skb ← deref skb;
  r ← fec_enet_copybreak skb (u32 (pkt_len - 4)) s;
  match r with
  | None => Panic
  | Some (m, s) =>
      e ← buf_get (env s) m;
      e ← skb_put e (u32 (pkt_len - 4));
      let e := if negb (Z.land (quirks f) FEC_QUIRK_HAS_RACC =? 0) then (bstgw_ethbuf_precut e 2).2 else e in
      let e := if bufdesc_ex f && negb (Z.land (csum_flags f) FLAG_RX_CSUM_ENABLED =? 0)
                  && (Z.land (cbd_esc d) FLAG_RX_CSUM_ERROR =? 0)
               then e <| ip_summed := CHECKSUM_UNNECESSARY |> else e in
      let e := e <| packet_type := RTE_PTYPE_L2_MASK |> in
      Ok (m, s <| env ::= fun w => buf_set w m e |>)
  end.

(** The descriptor goes back to the controller. *)
Definition rxq_release (bdp : Z) (s : drv T) : outcome (drv T) :=
  let f := fep s in
  let rxq := rx_queue f in
  d ← bd_get (rx_bd rxq) (rx_ring rxq) bdp;
  let d := if bufdesc_ex f then d <| cbd_esc := BD_ENET_RX_INT |> <| cbd_prot := 0 |> <| cbd_bdu := 0 |> else d in
  ring ← bd_set (rx_bd rxq) (rx_ring rxq) bdp
           (d <| cbd_sc := Z.lor BD_ENET_RX_EMPTY (wrap_of (rx_bd rxq) bdp) |>);
  Ok (s <| fep := io_write32 (reg_desc_active (rx_bd rxq)) 0 (f <| rx_queue := rxq <| rx_ring := ring |> |>) |>).

(** A burst goes to the input queue; what does not fit is freed. *)
Definition rxq_flush (burst : list ebptr) (s : drv T) : outcome (drv T) :=
  '(nbufs, pq) ← bstgw_pktq_locked_bulk_add_buff (in_queue (fep s)) burst (Z.of_nat (length burst));
  rest ← mem_read burst nbufs (Z.of_nat (length burst) - nbufs);
  w ← free_bufs rest (env s);
  Ok (mk_drv (bstgw_fec_schedule_xmit ((fep s) <| in_queue := pq |>)) w).

(** The loop of [fec_rxq]; [left]: what is left of the budget. *)
Fixpoint fec_rxq_loop (left : nat) (burst_sz : Z) (bdp : Z) (burst : list ebptr) (s : drv T)
    : outcome (Z * Z * list ebptr * drv T) :=
  let rxq := rx_queue (fep s) in
  d ← bd_get (rx_bd rxq) (rx_ring rxq) bdp;
  let status := cbd_sc d in
  if negb (Z.land status BD_ENET_RX_EMPTY =? 0) then Ok (0, bdp, burst, s) else
  match left with
  | O => Ok (0, bdp, burst, s)
  | S left' =>
      '(burst, s) ←
        (if negb (Z.land (Z.lxor status BD_ENET_RX_LAST) rx_error_bits =? 0) then Ok (burst, s) else
         '(m, s) ← rxq_frame bdp d s;
         if Z.of_nat (length burst) <? 2 * BSTGW_RX_BURST_SZ then Ok (burst ++ [Some m], s) else Undef);
      s ← rxq_release bdp s;
      let bdp := fec_enet_get_nextdesc bdp (rx_bd (rx_queue (fep s))) in
      '(burst, s) ← (if burst_sz <=? Z.of_nat (length burst)
                     then s ← rxq_flush burst s; Ok ([], s) else Ok (burst, s));
      '(n, bdp, burst, s) ← fec_rxq_loop left' burst_sz bdp burst s;
      Ok (n + 1, bdp, burst, s)
  end.

Definition fec_rxq (budget : Z) (s : drv T) : outcome (Z * drv T) :=
  if budget <? 0 then Ok (0, s) else
  let burst_sz := Z.min budget BSTGW_RX_BURST_SZ in
  '(n, bdp, burst, s) ← fec_rxq_loop (Z.to_nat budget) burst_sz (bd_cur (rx_bd (rx_queue (fep s)))) [] s;
  s ← (match burst with [] => Ok s | _ => rxq_flush burst s end);
  Ok (n, s <| fep ::= fun f => f <| rx_queue ::= fun q => q <| rx_bd ::= fun b => b <| bd_cur := bdp |> |> |> |>).

(** *** Interrupts *)

Inductive irq_return := ITRR_NONE | ITRR_HANDLED.

Definition fec_enet_interrupt (f : fec_enet_private) : irq_return * fec_enet_private :=
  let '(eir, f) := io_read32 (hwp f + FEC_IEVENT) f in
  let '(imask, f) := io_read32 (hwp f + FEC_IMASK) f in
  let int_events := Z.land eir imask in
  if int_events =? 0 then (ITRR_HANDLED, f) else
  let '(ret, int_events, f) :=
    if negb (Z.land int_events (Z.lor FEC_ENET_RXF FEC_ENET_TXF) =? 0) then
      let '(ok, n) := napi_schedule_prep_locked (rx_napi f) in
      if (ok : bool) then
        let f := io_write32 (hwp f + FEC_IMASK) FEC_NAPI_IMASK (f <| rx_napi := napi_schedule_locked n |>) in
        (ITRR_HANDLED, Z.ldiff int_events (Z.lor FEC_ENET_RXF FEC_ENET_TXF), f)
      else (ITRR_NONE, int_events, f <| rx_napi := n |> <| events := Z.lor (events f) int_events |>)
    else (ITRR_NONE, int_events, f) in
  if int_events =? 0 then (ret, f) else
  let f := io_write32 (hwp f + FEC_IEVENT) int_events f in
  let f := if negb (Z.land int_events FEC_ENET_MII =? 0) then f <| irqs_passed ::= S |> else f in
  (ITRR_HANDLED, f).

(** *** Resetting the rings *)

(** The first [n] slots of the transmit ring, from [i] and [bdp] on. *)
Fixpoint reset_tx_loop (n : nat) (i bdp : Z) (s : drv T) : outcome (drv T) :=
  match n with
  | O => Ok s
  | S n' =>
      let txq := tx_queue (fep s) in
      let bd := tx_bd txq in
      d ← bd_get bd (tx_ring txq) bdp;
      skb ← aget (tx_skbuff txq) i;
      s ← (match skb with None => Ok s | Some m => dev_kfree_skb_any (Some m) s end);
      skbs ← aset (tx_skbuff txq) i None;
      ring ← bd_set bd (tx_ring txq) bdp (d <| cbd_bufaddr := 0 |> <| cbd_sc := wrap_of bd bdp |>);
      reset_tx_loop n' (i + 1) (fec_enet_get_nextdesc bdp bd)
        (s <| fep ::= fun f => f <| tx_queue := txq <| tx_skbuff := skbs |> <| tx_ring := ring |> |> |>)
  end.

Definition reset_tx_queue (s : drv T) : outcome (drv T) :=
  let base := bd_base (tx_bd (tx_queue (fep s))) in
  reset_tx_loop (Z.to_nat (ring_size (tx_bd (tx_queue (fep s))))) 0 base
    (s <| fep ::= fun f => f <| tx_queue ::= fun q => q <| tx_bd ::= fun b => b <| bd_cur := base |> |> <| pending_tx := base |> |> |>).

Fixpoint bd_init_loop (n : nat) (bdp : Z) (bd : bufdesc_prop) (ring : list bufdesc) : outcome (list bufdesc) :=
  match n with
  | O => Ok ring
  | S n' =>
      d ← bd_get bd ring bdp;
      let status := Z.lor (if cbd_bufaddr d =? 0 then 0 else BD_ENET_RX_EMPTY) (wrap_of bd bdp) in
      ring ← bd_set bd ring bdp (d <| cbd_sc := status |>);
      bd_init_loop n' (fec_enet_get_nextdesc bdp bd) bd ring
  end.

Definition fec_enet_bd_init (s : drv T) : outcome (drv T) :=
  let rxq := rx_queue (fep s) in
  let bd := rx_bd rxq in
  ring ← bd_init_loop (Z.to_nat (ring_size bd)) (bd_base bd) bd (rx_ring rxq);
  reset_tx_queue (s <| fep ::= fun f => f <| rx_queue := rxq <| rx_ring := ring |> <| rx_bd := bd <| bd_cur := bd_base bd |> |> |> |>).

Definition fec_enet_active_rxring (f : fec_enet_private) : fec_enet_private :=
  io_write32 (reg_desc_active (rx_bd (rx_queue f))) 0 f.

Definition fec_enet_enable_ring (f : fec_enet_private) : fec_enet_private :=
  let f := io_write32 (hwp f + FEC_R_DES_START_0) (dma (rx_bd (rx_queue f))) f in
  let f := io_write32 (hwp f + FEC_R_BUFF_SIZE_0) PKT_MAXBUF_SIZE f in
  io_write32 (hwp f + FEC_X_DES_START_0) (dma (tx_bd (tx_queue f))) f.

Fixpoint reset_skb_loop (n : nat) (j : Z) (s : drv T) : outcome (drv T) :=
  match n with
  | O => Ok s
  | S n' =>
      skb ← aget (tx_skbuff (tx_queue (fep s))) j;
      match skb with
      | None => reset_skb_loop n' (j + 1) s
      | Some m =>
          s ← dev_kfree_skb_any (Some m) s;
          skbs ← aset (tx_skbuff (tx_queue (fep s))) j None;
          reset_skb_loop n' (j + 1) (s <| fep ::= fun f => f <| tx_queue ::= fun q => q <| tx_skbuff := skbs |> |> |>)
      end
  end.

Definition fec_enet_reset_skb (s : drv T) : outcome (drv T) :=
  reset_skb_loop (Z.to_nat (ring_size (tx_bd (tx_queue (fep s))))) 0 s.

(** *** The driver's part of a restart *)

Definition fec_restart_sw_0 (f : fec_enet_private) : fec_enet_private :=
  f <| sfec_state ::= fun st => st <| rcntl := Z.lor OPT_FRAME_SIZE 4 |> <| ecntl := FEC_ENET_ETHEREN |> |>.

(** [be32 a b c d]: the big-endian word of four bytes in memory. *)
Definition be32 (a b c d : Z) : Z := Z.lor (Z.lor (Z.shiftl a 24) (Z.shiftl b 16)) (Z.lor (Z.shiftl c 8) d).

(** [junk]: the two bytes of [temp_mac] behind the address. *)
Definition fec_restart_sw_1 (junk : Z * Z) (mac : list Z) (f : fec_enet_private) : fec_enet_private :=
  let byte i := nth i mac 0 in
  let f := io_write32 (hwp f + FEC_ADDR_LOW) (be32 (byte 0%nat) (byte 1%nat) (byte 2%nat) (byte 3%nat)) f in
  io_write32 (hwp f + FEC_ADDR_HIGH) (be32 (byte 4%nat) (byte 5%nat) junk.1 junk.2) f.

Definition fec_restart_sw_2 (s : drv T) : outcome (drv T) :=
  s ← fec_enet_bd_init s;
  fec_enet_reset_skb (s <| fep ::= fec_enet_enable_ring |>).

Definition fec_restart_sw_3 (f : fec_enet_private) : fec_enet_private :=
  let f := if negb (Z.land (quirks f) FEC_QUIRK_HAS_RACC =? 0) then
             let '(val, f) := io_read32 (hwp f + FEC_RACC) f in
             let val := Z.lor val FEC_RACC_SHIFT16 in
             let val := if negb (Z.land (csum_flags f) FLAG_RX_CSUM_ENABLED =? 0)
                        then Z.lor val FEC_RACC_OPTIONS else Z.ldiff val FEC_RACC_OPTIONS in
             let f := io_write32 (hwp f + FEC_RACC) val f in
             io_write32 (hwp f + FEC_FTRL) PKT_MAXBUF_SIZE f
           else f in
  io_write32 (hwp f + FEC_FTRL) PKT_MAXBUF_SIZE f.

Definition fec_restart_sw_4_opt (f : fec_enet_private) : fec_enet_private :=
  let f := io_write32 (hwp f + FEC_R_FIFO_RSFL) FEC_ENET_RSFL_V f in
  let f := io_write32 (hwp f + FEC_R_FIFO_RAEM) FEC_ENET_RAEM_V f in
  let f := io_write32 (hwp f + FEC_R_FIFO_RAFL) FEC_ENET_RAFL_V f in
  io_write32 (hwp f + FEC_OPD) FEC_ENET_OPD_V f.

Definition set_multicast_list (f : fec_enet_private) : fec_enet_private :=
  let '(tmp, f) := io_read32 (hwp f + FEC_R_CNTRL) f in
  let f := io_write32 (hwp f + FEC_R_CNTRL) (Z.ldiff tmp 8) f in
  let f := io_write32 (hwp f + FEC_GRP_HASH_TABLE_HIGH) 0 f in
  io_write32 (hwp f + FEC_GRP_HASH_TABLE_LOW) 0 f.

Definition fec_restart_sw_5 (f : fec_enet_private) : fec_enet_private :=
  let f := set_multicast_list f in
  let f := io_write32 (hwp f + FEC_HASH_TABLE_HIGH) 0 f in
  let f := io_write32 (hwp f + FEC_HASH_TABLE_LOW) 0 f in
  let f := if negb (Z.land (quirks f) FEC_QUIRK_ENET_MAC =? 0) then
             io_write32 (hwp f + FEC_X_WMRK) (Z.shiftl 1 8)
               (f <| sfec_state ::= fun st => st <| ecntl ::= fun e => Z.lor e (Z.shiftl 1 8) |> |>)
           else f in
  let f := if bufdesc_ex f then f <| sfec_state ::= fun st => st <| ecntl ::= fun e => Z.lor e (Z.shiftl 1 4) |> |> else f in
  io_write32 (hwp f + FEC_MIB_CTRLSTAT) 0 f.

Definition fec_restart_sw_6 (f : fec_enet_private) : fec_enet_private := fec_enet_active_rxring f.

(** *** Link changes *)

(** [napi_disable] as its caller sees it: if the worker is polling, the loop
    ends when the worker completes the poll. *)
Definition napi_disable (n : napi_struct) : outcome napi_struct :=
  n ← napi_disable_begin n;
  let '(done, n) := napi_disable_round n in
  if (done : bool) then Ok n else
  let '(_, n) := napi_complete_done n in
  Ok (napi_disable_round n).2.

Definition napis_disable (f : fec_enet_private) : outcome fec_enet_private :=
  n1 ← napi_disable (rx_napi f);
  n2 ← napi_disable (route_tx_napi f);
  Ok (f <| rx_napi := n1 |> <| route_tx_napi := n2 |>).

Definition napis_enable (f : fec_enet_private) : outcome fec_enet_private :=
  n2 ← napi_enable (route_tx_napi f);
  n1 ← napi_enable (rx_napi f);
  Ok (f <| rx_napi := n1 |> <| route_tx_napi := n2 |>).

Definition stop_tx_queue (s : drv T) : outcome (drv T) :=
  pq ← netdev_get_tx_queue s; set_tx_queue (netif_tx_stop_queue pq) s.

Definition fec_enet_adjust_link_sw_restart_pre (s : drv T) : outcome (drv T) :=
  s ← stop_tx_queue s; f ← napis_disable (fep s); Ok (s <| fep := f |>).

Definition fec_enet_adjust_link_sw_restart_post (s : drv T) : outcome (drv T) :=
  f ← napis_enable (fep s); fec_wake_queue (s <| fep := f |>).

(** In both cases of the source the egress queue is stopped. *)
Definition fec_enet_adjust_link_sw_stop_pre (s : drv T) : outcome (drv T) :=
  s ← stop_tx_queue s; f ← napis_disable (fep s); Ok (s <| fep := f |>).

Definition fec_enet_adjust_link_sw_stop_post (s : drv T) : outcome (drv T) :=
  if bool_decide (primary_st (sfec_state (fep s)) = SFEC_PRI_SHUTTING_DOWN) then Ok s else
  f ← napis_enable (fep s); Ok (s <| fep := f |>).

Definition fec_enet_open_sw (s : drv T) : outcome (drv T) :=
  f ← napis_enable (fep s);
  let s := s <| fep := f |> in
  pq ← netdev_get_tx_queue s; set_tx_queue (netif_tx_start_queue pq) s.

(** *** The poll functions *)

(** Until nothing is pending or the budget is used up; the loop runs as often
    as the controller reports events, [fuel] bounds it. *)
Fixpoint fec_enet_napi_q1 (fuel : nat) (budget pkts : Z) (s : drv T) : outcome (Z * drv T) :=
  match fuel with
  | O => Undef
  | S fuel' =>
      let '(ev, f) := io_read32 (hwp (fep s) + FEC_IEVENT) (fep s) in
      let ev := Z.lor ev (events f) in
      let f := f <| events := 0 |> in
      let ev := Z.land ev (Z.lor FEC_ENET_RXF_0 FEC_ENET_TXF_0) in
      if ev =? 0 then
        if budget =? 0 then Ok (pkts, s <| fep := f |>) else
        let '(done, n) := napi_complete_done (rx_napi f) in
        let f := f <| rx_napi := n |> in
        Ok (pkts, s <| fep := if (done : bool) then io_write32 (hwp f + FEC_IMASK) FEC_DEFAULT_IMASK f else f |>)
      else
      let s := s <| fep := io_write32 (hwp f + FEC_IEVENT) ev f |> in
      '(nrecv, s) ← fec_rxq BSTGW_RX_BUDGET s;
      let pkts := pkts + nrecv in
      let s := if BSTGW_RX_BUDGET <=? nrecv
               then s <| fep ::= fun f => f <| events ::= fun e => Z.lor e FEC_ENET_RXF_0 |> |> else s in
      s ← (if Z.land ev FEC_ENET_TXF_0 =? 0 then Ok s else
           '(nfreed, s) ← fec_txq s;
           Ok (if BSTGW_TXC_BUDGET <=? nfreed
               then s <| fep ::= fun f => f <| events ::= fun e => Z.lor e FEC_ENET_TXF_0 |> |> else s));
      if pkts <? budget then fec_enet_napi_q1 fuel' budget pkts s else
      Ok (pkts, s <| fep ::= fun f => f <| events ::= fun e => Z.lor e FEC_ENET_RXF_0 |> |>)
  end.

Section routing.
(** The router's parameters, as in [router_if_input]; [junk]: the value of the
    uninitialised [is_empty]. *)
Context {L : Type} `{Lpm L route_info_t}.
Context (npf : nat -> Z -> Z -> bstgw_ethbuf_t -> Z * option bstgw_ethbuf_t).
Context (rtable : L) (alloc arp_alloc junk : bool).

(** The result, the caller's array afterwards, and the state. *)
Definition fec_rx_handler (pkts : list ebptr) (s : drv T) : outcome (Z * list ebptr * drv T) :=
  d ← dev_get (env s) ndev;
  if (worker_count d <? 2) || bool_decide (workers d !! 1%nat = Some None) then Ok (-1, pkts, s) else
  '(pkts, w) ← router_if_input npf rtable alloc arp_alloc ndev pkts (env s);
  Ok (0, pkts, s <| env := w |>).

(** The receive part of a round: what [rx_handler] returned. *)
Definition route_receive (s : drv T) : outcome (Z * drv T) :=
  let pq := in_queue (fep s) in
  let pktburst := bstgw_pktq_locked_contig_bufs pq in
  if pktburst =? 0 then Ok (0, s) else
  let pktburst := Z.min pktburst (3 * BSTGW_RX_BURST_SZ) in
  ms ← mem_read (pkt pq) (next_read pq) pktburst;
  '(nrcv, ms, s) ← fec_rx_handler ms s;
  let pq := in_queue (fep s) in
  ps ← mem_write (pkt pq) (next_read pq) ms;
  '(_, pq) ← bstgw_pktq_locked_drop_bufs (pq <| pkt := ps |>) pktburst;
  Ok (nrcv, s <| fep ::= fun f => f <| in_queue := pq |> |>).

Fixpoint route_xmit_loop (fuel : nat) (no_input no_egress : bool) (pkts : Z) (s : drv T) : outcome (Z * drv T) :=
  match fuel with
  | O => Undef
  | S fuel' =>
      '(nrcv, no_input, s) ← (if no_input then Ok (0, false, s) else
                              '(n, s) ← route_receive s; Ok (n, n =? 0, s));
      let pkts := pkts + nrcv in
      '(nsent, no_egress, s) ← (if no_egress then Ok (0, false, s) else
                                '(n, s) ← router_pktq_tx (fun _ ms => fec_xmit_handler ms 0) ndev s;
                                if n <? 0 then Panic else Ok (n, n =? 0, s));
      let pkts := pkts + nsent in
      if (nrcv =? 0) && (nsent =? 0) then Ok (pkts, s) else route_xmit_loop fuel' no_input no_egress pkts s
  end.

Definition fec_route_xmit_napi (fuel : nat) (s : drv T) : outcome (Z * drv T) :=
  '(pkts, s) ← route_xmit_loop fuel false false 0 s;
  let '(done, n) := napi_complete_done (route_tx_napi (fep s)) in
  let s := s <| fep ::= fun f => f <| route_tx_napi := n |> |> in
  if negb done then Ok (pkts, s <| fep ::= fun f => f <| no_kick := true |> |>) else
  let s := s <| fep ::= fun f => f <| no_kick := false |> |> in
  q ← netdev_get_tx_queue s;
  if negb (netif_tx_queue_stopped q) && negb (junk || bstgw_pktq_locked_is_empty q)
     || negb (bstgw_pktq_locked_is_empty (in_queue (fep s)))
  then Ok (pkts, s <| fep ::= bstgw_fec_schedule_xmit |>) else Ok (pkts, s).

End routing.

End driver.

(** ** Rings *)

(** [n]: the number of descriptors. *)
Record ring_wf (bd : bufdesc_prop) (n : nat) : Prop := {
  rg_n : (1 < n)%nat;
  rg_size : ring_size bd = Z.of_nat n;
  rg_log : 0 <= dsize_log2 bd;
  rg_dsize : dsize bd = 2 ^ dsize_log2 bd;
  rg_last : bd_last bd = bd_base bd + (Z.of_nat n - 1) * dsize bd
}.

(** The pointer to slot [i]. *)
Definition slot_ptr (bd : bufdesc_prop) (i : nat) : Z := bd_base bd + Z.of_nat i * dsize bd.

Section ring.
Context (bd : bufdesc_prop) (n : nat) (Hwf : ring_wf bd n).

Lemma dsize_pos : 0 < dsize bd.
Proof using Hwf. destruct Hwf as [_ _ Hl -> _]. by apply Z.pow_pos_nonneg. Qed.

Lemma next_slot i : (i < n)%nat -> fec_enet_get_nextdesc (slot_ptr bd i) bd = slot_ptr bd (S i mod n).
Proof using Hwf.
  intros Hi. pose proof dsize_pos. unfold fec_enet_get_nextdesc, slot_ptr. rewrite (rg_last _ _ Hwf). pose proof (rg_n _ _ Hwf).
  destruct (decide (S i = n)) as [<-|].
  - rewrite Nat.Div0.mod_same, (proj2 (Z.leb_le _ _)) by nia. lia.
  - rewrite Nat.mod_small, (proj2 (Z.leb_gt _ _)) by nia. lia.
Qed.

Lemma index_slot i : fec_enet_get_bd_index (slot_ptr bd i) bd = Z.of_nat i.
Proof using Hwf.
  pose proof dsize_pos. unfold fec_enet_get_bd_index, slot_ptr.
  rewrite Z.shiftr_div_pow2, <- (rg_dsize _ _ Hwf) by apply (rg_log _ _ Hwf).
  replace (bd_base bd + Z.of_nat i * dsize bd - bd_base bd) with (Z.of_nat i * dsize bd) by lia.
  apply Z.div_mul. lia.
Qed.

Lemma slot_offset i : (slot_ptr bd i - bd_base bd) mod dsize bd = 0 /\ (slot_ptr bd i - bd_base bd) / dsize bd = Z.of_nat i.
Proof using Hwf.
  pose proof dsize_pos. unfold slot_ptr.
  replace (bd_base bd + Z.of_nat i * dsize bd - bd_base bd) with (Z.of_nat i * dsize bd) by lia.
  split; [apply Z.mod_mul; lia|apply Z.div_mul; lia].
Qed.

Lemma get_slot ring i d : ring !! i = Some d -> bd_get bd ring (slot_ptr bd i) = Ok d.
Proof using Hwf.
  intros Hi. unfold bd_get. destruct (slot_offset i) as [-> ->]. cbn [Z.eqb].
  apply aget_ok. split; [lia|]. by rewrite Nat2Z.id.
Qed.

Lemma set_slot ring i d : (i < length ring)%nat -> bd_set bd ring (slot_ptr bd i) d = Ok (<[i := d]> ring).
Proof using Hwf.
  intros Hi. unfold bd_set. destruct (slot_offset i) as [-> ->]. cbn [Z.eqb].
  rewrite aset_ok by lia. by rewrite Nat2Z.id.
Qed.

Lemma slot_ptr_inj i j : slot_ptr bd i = slot_ptr bd j -> i = j.
Proof using Hwf. pose proof dsize_pos. unfold slot_ptr. nia. Qed.

Lemma last_slot i : (i < n)%nat -> (slot_ptr bd i =? bd_last bd) = bool_decide (S i = n).
Proof using Hwf.
  intros Hi. pose proof dsize_pos. unfold slot_ptr. rewrite (rg_last _ _ Hwf).
  case_bool_decide; [apply Z.eqb_eq|apply Z.eqb_neq]; nia.
Qed.

(** The distance of two pointers, as [fec_enet_get_free_txdesc_num] takes it:
    [u] slots are used from slot [p] on. *)
Lemma free_slots (p u : nat) :
  (p < n)%nat -> (u < n)%nat ->
  let entries := Z.shiftr (slot_ptr bd p - slot_ptr bd ((p + u) mod n)) (dsize_log2 bd) - 1 in
  (if 0 <=? entries then entries else entries + ring_size bd) = Z.of_nat n - 1 - Z.of_nat u.
Proof using Hwf.
  intros Hp Hu. pose proof dsize_pos. cbv zeta. rewrite Z.shiftr_div_pow2, <- (rg_dsize _ _ Hwf) by apply (rg_log _ _ Hwf).
  unfold slot_ptr. set (c := ((p + u) mod n)%nat).
  replace (bd_base bd + Z.of_nat p * dsize bd - (bd_base bd + Z.of_nat c * dsize bd)) with ((Z.of_nat p - Z.of_nat c) * dsize bd) by lia.
  rewrite Z.div_mul by lia. rewrite (rg_size _ _ Hwf).
  assert (Hc : (c = p + u \/ c + n = p + u)%nat).
  { unfold c. destruct (decide (p + u < n)%nat); [left; apply Nat.mod_small; lia|right].
    replace (p + u)%nat with (p + u - n + 1 * n)%nat at 1 by lia.
    rewrite Nat.Div0.mod_add, Nat.mod_small by lia. lia. }
  destruct (Z.leb_spec 0 (Z.of_nat p - Z.of_nat c - 1)); lia.
Qed.

End ring.
