(* ===== verification/FecTx.v ===== *)
(** * Transmission by the Ethernet controller driver, verified
    (fec_drivers/bstgw/imx_fec.c).

    The transmit ring refines a queue of packets: submission appends,
    completion removes from the front what the controller has completed, and
    between the egress queue of the router and the ring no packet is lost or
    duplicated. *)

From S2P Require Import Prelude Pktq EthBuf Napi Netdev Route Forward Worker Fec.

(** ** The transmit ring *)

(** The ring from slot [p] on: the descriptors of the packets [ms], handed to
    the controller and not yet completed, then free ones, which the
    controller must not process. *)
Record tx_ok (q : fec_enet_priv_tx_q) (n p : nat) (ms : list positive) : Prop := {
  to_ring : ring_wf (tx_bd q) n;
  to_len : length (tx_ring q) = n;
  to_skb : length (tx_skbuff q) = n;
  to_bounce : length (caligned_tx_bounce q) = n /\
    Forall (fun b => exists a mem, b = Some (a, mem) /\ Z.of_nat (length mem) = FEC_ENET_TX_FRSIZE) (caligned_tx_bounce q);
  to_p : (p < n)%nat;
  to_u : (length ms < n)%nat;
  to_pend : pending_tx q = slot_ptr (tx_bd q) p;
  to_cur : bd_cur (tx_bd q) = slot_ptr (tx_bd q) ((p + length ms) mod n);
  to_slots : forall i, (i < n)%nat -> tx_skbuff q !! ((p + i) mod n)%nat = Some (ms !! i);
  to_idle : forall i d, (length ms <= i < n)%nat -> tx_ring q !! ((p + i) mod n)%nat = Some d ->
            Z.land (cbd_sc d) BD_ENET_TX_READY = 0
}.

(** A packet the driver can transmit. *)
Record tx_pkt (e : bstgw_ethbuf_t) : Prop := {
  tp_wf : eb_wf e;
  tp_next : next e = None;
  tp_len : data_len e <= FEC_ENET_TX_FRSIZE;
  tp_csum : ip_summed e <> CHECKSUM_PARTIAL
}.

Section transmit.
Context {T : Type} `{ThMap T}.
Context (hw : nat -> Z -> Z) (virt_to_phys : Z -> Z) (cache_clean : Z -> Z -> bool) (ndev : positive).
Implicit Types s : drv T.

(** Secure memory is mapped and can be cleaned. *)
Definition dma_ok : Prop := forall a l, virt_to_phys a <> 0 /\ cache_clean a l = true.

(** Slot [i] of the ring describes the packet [e] and belongs to the
    controller. *)
Definition tx_desc (f : fec_enet_private) (n i : nat) (e : bstgw_ethbuf_t) : Prop :=
  exists d, tx_ring (tx_queue f) !! i = Some d /\
    cbd_sc d = Z.lor 0x9c00 (if bool_decide (S i = n) then BD_SC_WRAP else 0) /\
    cbd_datlen d = data_len e /\
    ((Z.land (skb_data e) (tx_align f) = 0 /\ cbd_bufaddr d = u32 (virt_to_phys (skb_data e))) \/
     exists a mem, caligned_tx_bounce (tx_queue f) !! i = Some (Some (a, mem)) /\
       take (Z.to_nat (data_len e)) mem = eb_data e /\ cbd_bufaddr d = u32 (virt_to_phys a)).

Lemma buf_set_id (w : world T) m e : bufs (w_pool w) !! m = Some e -> buf_set w m e = w.
Proof. intros He. destruct w as [[b fl il c] nd k np]. cbn in *. unfold buf_set, upd. cbn. by rewrite insert_id. Qed.

Lemma nr_frags_0 p e : next e = None -> skb_nr_frags p e = Ok 0.
Proof. intros He. unfold skb_nr_frags. rewrite He. done. Qed.

(** The state of the transmit queue after a submission: slot [i] taken. *)
Lemma tx_push q n p ms m d bs :
  tx_ok q n p ms -> (S (length ms) < n)%nat ->
  let i := ((p + length ms) mod n)%nat in
  length bs = n ->
  Forall (fun b => exists a mem, b = Some (a, mem) /\ Z.of_nat (length mem) = FEC_ENET_TX_FRSIZE) bs ->
  tx_ok (q <| tx_skbuff ::= <[i := Some m]> |> <| tx_ring ::= <[i := d]> |> <| caligned_tx_bounce := bs |>
           <| tx_bd ::= fun b => b <| bd_cur := fec_enet_get_nextdesc (bd_cur (tx_bd q)) (tx_bd q) |> |>) n p (ms ++ [m]).
Proof.
  intros [Hr Hl Hs Hb Hp Hu Hpe Hc Hsl Hid] Hlt i Hbl Hbf.
  assert (Hi : (i < n)%nat) by (apply Nat.mod_upper_bound; lia).
  assert (Hne : forall j, (j < n)%nat -> j <> length ms -> ((p + j) mod n)%nat <> i).
  { intros j Hj Hn E. apply Hn. by eapply ring_index_inj; [| |exact E]. }
  split; cbn; rewrite ?length_insert, ?length_app; cbn; try done; try lia.
  - by destruct Hr; split.
  - rewrite Hc, (next_slot _ n) by done. unfold i, slot_ptr. cbn. do 2 f_equal. f_equal.
    rewrite <- Nat.add_1_l, Nat.Div0.add_mod_idemp_r. f_equal. lia.
  - intros j Hj. destruct (decide (j = length ms)) as [->|Hn].
    + rewrite list_lookup_insert_eq by lia. by rewrite lookup_app_r, Nat.sub_diag by lia.
    + rewrite list_lookup_insert_ne by (intros E; by eapply Hne). rewrite Hsl by done.
      destruct (decide (j < length ms)%nat); [by rewrite lookup_app_l|].
      rewrite lookup_app_r, lookup_ge_None_2 by lia. by rewrite lookup_ge_None_2 by (cbn; lia).
  - intros j d' Hj. rewrite list_lookup_insert_ne by (intros E; eapply Hne; [..|exact (eq_sym E)]; lia). apply Hid. lia.
Qed.

Lemma tx_bounce_copy_ok f n i e :
  length (caligned_tx_bounce (tx_queue f)) = n ->
  Forall (fun b => exists a mem, b = Some (a, mem) /\ Z.of_nat (length mem) = FEC_ENET_TX_FRSIZE) (caligned_tx_bounce (tx_queue f)) ->
  (i < n)%nat -> tx_pkt e ->
  exists a bs, tx_bounce_copy e (Z.of_nat i) (data_len e) f = Ok (a, f <| tx_queue ::= fun q => q <| caligned_tx_bounce := bs |> |>) /\
    length bs = n /\
    Forall (fun b => exists a mem, b = Some (a, mem) /\ Z.of_nat (length mem) = FEC_ENET_TX_FRSIZE) bs /\
    (forall j, j <> i -> bs !! j = caligned_tx_bounce (tx_queue f) !! j) /\
    ((Z.land (skb_data e) (tx_align f) = 0 /\ a = skb_data e) \/
     exists mem, bs !! i = Some (Some (a, mem)) /\ take (Z.to_nat (data_len e)) mem = eb_data e).
Proof.
  intros Hl Hf Hi [[K1 K2 K3 K4 K5 K6] Hn Hlen Hcs]. unfold tx_bounce_copy. destruct (Z.eqb_spec (Z.land (skb_data e) (tx_align f)) 0) as [Ha|Ha].
  { exists (skb_data e), (caligned_tx_bounce (tx_queue f)). split_and!; auto.
    destruct f as [? ? ? ? []]; done. }
  destruct (lookup_lt_is_Some_2 (caligned_tx_bounce (tx_queue f)) i) as [b Hb]; [lia|].
  destruct (Forall_lookup_1 _ _ _ _ Hf Hb) as (a & mem & -> & Hm).
  rewrite (proj2 (aget_ok _ _ (Some (a, mem)))) by (rewrite Nat2Z.id; split; [lia|done]). cbn [deref mbind outcome_bind].
  unfold FEC_ENET_TX_FRSIZE in *. rewrite mem_read_ok by lia. cbn [mbind outcome_bind].
  change (take (Z.to_nat (data_len e)) (drop (Z.to_nat (data_off e)) (bytes e))) with (eb_data e).
  assert (Hd : length (eb_data e) = Z.to_nat (data_len e)) by (unfold eb_data; rewrite length_take, length_drop; lia).
  rewrite mem_write_ok by lia. cbn [mbind outcome_bind]. rewrite aset_ok by lia. cbn [mbind outcome_bind]. rewrite Nat2Z.id.
  pose proof (length_blit mem 0 (eb_data e) ltac:(lia)) as Hbl.
  eexists a, _. split; [done|]. rewrite length_insert. split_and!; [done| | |right].
  - apply Forall_insert; [done|]. eexists a, _. split; [done|]. change (Z.to_nat 0) with 0%nat. lia.
  - intros j Hj. by rewrite list_lookup_insert_ne.
  - eexists. rewrite list_lookup_insert_eq by lia. split; [done|]. change (Z.to_nat 0) with 0%nat. unfold blit. rewrite take_0, app_nil_l.
    apply take_app_length'. lia.
Qed.

Lemma trigger_ok f n i sc nx m d1 :
  ring_wf (tx_bd (tx_queue f)) n -> tx_ring (tx_queue f) !! i = Some d1 -> length (tx_skbuff (tx_queue f)) = n -> (i < n)%nat ->
  fec_trigger_tx sc (slot_ptr (tx_bd (tx_queue f)) i) nx m (Z.of_nat i) f
    = Ok (io_write32 (reg_desc_active (tx_bd (tx_queue f))) 0
            (f <| tx_queue ::= fun q => q <| tx_skbuff ::= <[i := Some m]> |> <| tx_ring ::= <[i := d1 <| cbd_sc := sc |>]> |>
                                          <| tx_bd ::= fun b => b <| bd_cur := nx |> |> |>)).
Proof.
  intros Hr Hd Hl Hi. unfold fec_trigger_tx. rewrite aset_ok by lia. cbn [mbind outcome_bind]. rewrite Nat2Z.id.
  rewrite (get_slot _ n Hr _ i d1) by done. cbn [mbind outcome_bind].
  apply lookup_lt_Some in Hd. by rewrite (set_slot _ n Hr).
Qed.

(** What a submission does to the driver. *)
Definition submitted (f f' : fec_enet_private) (n i : nat) (e : bstgw_ethbuf_t) : Prop :=
  (exists q', f' = io_write32 (reg_desc_active (tx_bd (tx_queue f))) 0 (f <| tx_queue := q' |>)) /\
  tx_desc f' n i e /\
  (forall j, j <> i -> tx_ring (tx_queue f') !! j = tx_ring (tx_queue f) !! j /\
                       caligned_tx_bounce (tx_queue f') !! j = caligned_tx_bounce (tx_queue f) !! j).

Lemma submit_ok s n p ms m e :
  dma_ok -> tx_ok (tx_queue (fep s)) n p ms -> (S (length ms) < n)%nat ->
  bufs (w_pool (env s)) !! m = Some e -> tx_pkt e ->
  exists f', fec_enet_txq_submit_skb virt_to_phys cache_clean m s = Ok (0, s <| fep := f' |>) /\
    tx_ok (tx_queue f') n p (ms ++ [m]) /\ submitted (fep s) f' n ((p + length ms) mod n) e /\
    tx_stop_threshold (tx_queue f') = tx_stop_threshold (tx_queue (fep s)).
Proof.
  intros Hdma Hok Hlt He Hpkt. pose proof Hpkt as [Hwf Hnx Hlen Hcs]. pose proof Hok as [Hr Hl Hs [Hb Hbf] Hp Hu Hpe Hc _ _].
  pose proof Hwf as [K1 K2 K3 K4 K5 K6]. unfold fec_enet_txq_submit_skb, buf_get. rewrite He. cbn [deref mbind outcome_bind].
  rewrite nr_frags_0 by done. cbn [mbind outcome_bind]. unfold fec_enet_get_free_txdesc_num.
  rewrite Hpe, Hc, (free_slots _ n) by done. rewrite (proj2 (Z.ltb_ge (Z.of_nat n - 1 - Z.of_nat (length ms)) 1)) by lia.
  unfold fec_enet_clear_csum. rewrite (proj2 (Z.eqb_neq (ip_summed e) CHECKSUM_PARTIAL)) by done. cbn [negb mbind outcome_bind].
  set (i := ((p + length ms) mod n)%nat) in *. assert (Hi : (i < n)%nat) by (apply Nat.mod_upper_bound; lia).
  unfold FEC_ENET_TX_FRSIZE in Hlen. rewrite u16_small by lia.
  replace (s <| env ::= fun w => buf_set w m e |>) with s by (destruct s; unfold upd; cbn in *; by rewrite buf_set_id).
  rewrite Hc, (index_slot _ n) by done.
  destruct (tx_bounce_copy_ok (fep s) n i e Hb Hbf Hi Hpkt) as (a & bs & -> & Hbl & Hbf' & Hbo & Ha). cbn [mbind outcome_bind].
  destruct (Hdma a (data_len e)) as [Hv ->]. rewrite (proj2 (Z.eqb_neq _ _)) by done. cbn [negb orb Z.eqb].
  match goal with |- context [s <| fep := ?x |>] => set (f1 := x) end. change (tx_bd (tx_queue f1)) with (tx_bd (tx_queue (fep s))).
  change (tx_ring (tx_queue f1)) with (tx_ring (tx_queue (fep s))).
  destruct (lookup_lt_is_Some_2 (tx_ring (tx_queue (fep s))) i) as [d Hd]; [lia|].
  rewrite (get_slot _ n Hr _ _ d) by done. cbn [mbind outcome_bind].
  match goal with |- context [bd_set _ _ _ ?x] => set (d1 := x) end.
  assert (Hd1 : cbd_bufaddr d1 = u32 (virt_to_phys a) /\ cbd_datlen d1 = data_len e) by (unfold d1; destruct (bufdesc_ex _); done).
  clearbody d1. rewrite (set_slot _ n Hr) by lia. cbn [mbind outcome_bind].
  match goal with |- context [fec_trigger_tx _ _ _ _ _ ?x] => set (f2 := x) end. change (tx_bd (tx_queue (fep s))) with (tx_bd (tx_queue f2)).
  rewrite (trigger_ok f2 n i _ _ m d1) by first [done | apply list_lookup_insert_eq; lia].
  cbn [mbind outcome_bind]. set (d2 := d1 <| cbd_sc := _ |>).
  eexists. split; [done|].
  match goal with |- context [io_write32 ?r 0 ?x] => set (f3 := io_write32 r 0 x) end.
  assert (Hq : tx_queue f3 = (tx_queue (fep s)) <| tx_skbuff ::= <[i := Some m]> |> <| tx_ring ::= <[i := d2]> |> <| caligned_tx_bounce := bs |>
           <| tx_bd ::= fun b => b <| bd_cur := fec_enet_get_nextdesc (bd_cur (tx_bd (tx_queue (fep s)))) (tx_bd (tx_queue (fep s))) |> |>).
  { unfold f3, f2, f1, io_write32, upd. cbn. by rewrite list_insert_insert_eq, Hc. }
  split; [|split; [split; [|split]|]].
  - rewrite Hq. by apply tx_push.
  - by eexists.
  - exists d2. rewrite Hq. cbn [tx_ring upd caligned_tx_bounce]. split; [apply list_lookup_insert_eq; lia|]. split; [|split; [apply Hd1|]].
    + unfold d2. cbn [cbd_sc upd]. unfold wrap_of, upd. cbn [cbd_sc]. rewrite (last_slot _ n) by done. by case_bool_decide.
    + change (cbd_bufaddr d2) with (cbd_bufaddr d1). destruct Hd1 as [-> _]. destruct Ha as [[Ha ->]|(mem & Hm & Ht)]; [by left|right].
      by exists a, mem.
  - intros j Hj. rewrite Hq. split; [by apply list_lookup_insert_ne|by apply Hbo].
  - by rewrite Hq.
Qed.


(** The world with the device's egress queue stopped or not. *)
Definition with_stopped (w : world T) (d : ifnet_t T) (q : pktqueue_t) (b : bool) : world T :=
  dev_set w ndev (d <| egress_queue := Some (q <| stopped := b |>) |>).

Lemma with_stopped_id w d q :
  devs (w_nd w) !! ndev = Some d -> egress_queue d = Some q -> with_stopped w d q (stopped q) = w.
Proof.
  intros Hd Hq. unfold with_stopped. replace (d <| egress_queue := _ |>) with d by (destruct d; cbn in Hq; subst; by destruct q).
  destruct w as [p [ds l im nx] k np]. unfold dev_set, upd. cbn in *. by rewrite insert_id.
Qed.

Lemma with_stopped_twice w d q b b' :
  with_stopped (with_stopped w d q b) (d <| egress_queue := Some (q <| stopped := b |>) |>) (q <| stopped := b |>) b' = with_stopped w d q b'.
Proof. unfold with_stopped, dev_set, upd. cbn. by rewrite insert_insert_eq. Qed.

Lemma start_xmit_ok s n p ms m e d q :
  dma_ok -> tx_ok (tx_queue (fep s)) n p ms -> bufs (w_pool (env s)) !! m = Some e -> tx_pkt e ->
  devs (w_nd (env s)) !! ndev = Some d -> egress_queue d = Some q ->
  if decide (S (length ms) < n)%nat then
    exists f' b, fec_enet_start_xmit virt_to_phys cache_clean ndev m s = Ok (0, mk_drv f' (with_stopped (env s) d q b)) /\
      tx_ok (tx_queue f') n p (ms ++ [m]) /\ submitted (fep s) f' n ((p + length ms) mod n) e
  else fec_enet_start_xmit virt_to_phys cache_clean ndev m s = Ok (NETDEV_TX_BUSY, s).
Proof.
  intros Hdma Hok He Hpkt Hd Hq. unfold fec_enet_start_xmit. case_decide as Hlt.
  - destruct (submit_ok s n p ms m e) as (f' & -> & Hok' & Hsub & _); try done. cbn [mbind outcome_bind Z.eqb negb].
    destruct (_ <=? _).
    + unfold netdev_get_tx_queue, set_tx_queue, dev_get. cbn [env upd]. unfold upd. cbn [env]. rewrite Hd. cbn [deref mbind outcome_bind]. rewrite Hq.
      cbn [deref mbind outcome_bind]. exists f', true. done.
    + exists f', (stopped q). rewrite with_stopped_id by done. done.
  - unfold fec_enet_txq_submit_skb, buf_get. rewrite He. cbn [deref mbind outcome_bind].
    destruct Hok as [Hr _ _ _ Hp Hu Hpe Hc _ _]. rewrite nr_frags_0 by apply Hpkt. cbn [mbind outcome_bind]. unfold fec_enet_get_free_txdesc_num.
    rewrite Hpe, Hc, (free_slots _ n) by done. rewrite (proj2 (Z.ltb_lt (Z.of_nat n - 1 - Z.of_nat (length ms)) 1)) by lia. done.
Qed.

Lemma tx_desc_frame f f' n i e :
  tx_desc f n i e -> tx_align f' = tx_align f -> tx_ring (tx_queue f') !! i = tx_ring (tx_queue f) !! i ->
  caligned_tx_bounce (tx_queue f') !! i = caligned_tx_bounce (tx_queue f) !! i -> tx_desc f' n i e.
Proof. intros (d & Hd & H1 & H2 & H3) Ha Hr Hb. exists d. by rewrite Hr, Hb, Ha. Qed.

(** Slot [(p + i) mod n] is the [i]-th from slot [p] on. *)
Lemma xmit_loop_ok pkts : forall s n p ms d q done0,
  dma_ok -> tx_ok (tx_queue (fep s)) n p ms ->
  Forall (fun m => exists e, bufs (w_pool (env s)) !! m = Some e /\ tx_pkt e) pkts ->
  devs (w_nd (env s)) !! ndev = Some d -> egress_queue d = Some q ->
  let k := Nat.min (length pkts) (n - 1 - length ms) in
  exists f' b, fec_xmit_handler virt_to_phys cache_clean ndev (Some <$> pkts) done0 s
      = Ok (done0 + Z.of_nat k, mk_drv f' (with_stopped (env s) d q b)) /\
    tx_ok (tx_queue f') n p (ms ++ take k pkts) /\ tx_align f' = tx_align (fep s) /\
    (forall i m e, take k pkts !! i = Some m -> bufs (w_pool (env s)) !! m = Some e -> tx_desc f' n ((p + (length ms + i)) mod n) e) /\
    (forall i, (i < length ms)%nat -> tx_ring (tx_queue f') !! ((p + i) mod n)%nat = tx_ring (tx_queue (fep s)) !! ((p + i) mod n)%nat /\
       caligned_tx_bounce (tx_queue f') !! ((p + i) mod n)%nat = caligned_tx_bounce (tx_queue (fep s)) !! ((p + i) mod n)%nat).
Proof.
  induction pkts as [|m pkts IH]; intros s n p ms d q done0 Hdma Hok Hall Hd Hq; cbn [fmap list_fmap fec_xmit_handler].
  { exists (fep s), (stopped q). rewrite with_stopped_id by done. cbn. rewrite Z.add_0_r, app_nil_r. by destruct s. }
  apply Forall_cons in Hall as [(e & He & Hpkt) Hall]. cbn [deref mbind outcome_bind].
  pose proof (start_xmit_ok s n p ms m e d q Hdma Hok He Hpkt Hd Hq) as Hx. pose proof (to_u _ _ _ _ Hok) as Hu. pose proof (to_p _ _ _ _ Hok) as Hp.
  destruct (decide (S (length ms) < n)%nat) as [Hlt|Hlt].
  - destruct Hx as (f1 & b1 & -> & Hok1 & (q1' & Ef1) & Hd1 & Hfr1). cbn [mbind outcome_bind Z.eqb NETDEV_TX_OK].
    destruct (IH (mk_drv f1 (with_stopped (env s) d q b1)) n p (ms ++ [m]) (d <| egress_queue := Some (q <| stopped := b1 |>) |>) (q <| stopped := b1 |>) (done0 + 1))
      as (f2 & b2 & -> & Hok2 & Hal & Hds & Hfr2); [done|done|done|cbn; by rewrite lookup_insert_eq|done|].
    cbn [env fep] in *. rewrite with_stopped_twice, length_app in *. cbn [length] in *.
    replace (Nat.min (S (length pkts)) (n - 1 - length ms)) with (S (Nat.min (length pkts) (n - 1 - (length ms + 1)))) by lia.
    exists f2, b2. split; [by rewrite Nat2Z.inj_succ, <- Z.add_1_l, Z.add_assoc|]. cbn [take]. split; [by rewrite <- app_assoc in Hok2|].
    assert (Hal1 : tx_align f1 = tx_align (fep s)) by by rewrite Ef1.
    split; [congruence|]. split.
    + intros [|i] m' e' Hi He'; cbn in Hi.
      * simplify_eq. rewrite Nat.add_0_r. eapply tx_desc_frame; [exact Hd1|done|apply Hfr2; lia|apply Hfr2; lia].
      * replace (length ms + S i)%nat with (length ms + 1 + i)%nat by lia. by eapply Hds.
    + intros i Hi. destruct (Hfr2 i) as [-> ->]; [lia|]. apply Hfr1.
      intros E. apply ring_index_inj in E; lia.
  - rewrite Hx. cbn [mbind outcome_bind]. replace (Nat.min (length (m :: pkts)) (n - 1 - length ms)) with 0%nat by lia.
    exists (fep s), (stopped q). rewrite with_stopped_id by done. cbn. rewrite Z.add_0_r, app_nil_r. by destruct s.
Qed.

Lemma tx_pop q n p m ms d :
  tx_ok q n p (m :: ms) -> Z.land (cbd_sc d) BD_ENET_TX_READY = 0 ->
  tx_ok (q <| tx_skbuff ::= <[p := None]> |> <| tx_ring ::= <[p := d]> |>
           <| pending_tx := fec_enet_get_nextdesc (pending_tx q) (tx_bd q) |>) n (S p mod n) ms.
Proof.
  intros [Hr Hl Hs Hb Hp Hu Hpe Hc Hsl Hid] Hrd. cbn [length] in *. pose proof (rg_n _ _ Hr).
  assert (Hsh : forall i, (((S p mod n) + i) mod n = (p + S i) mod n)%nat).
  { intros i. rewrite Nat.Div0.add_mod_idemp_l. f_equal. lia. }
  assert (Hlast : ((p + S (n - 1)) mod n)%nat = p).
  { replace (p + S (n - 1))%nat with (p + 1 * n)%nat by lia. rewrite Nat.Div0.mod_add, Nat.mod_small; lia. }
  assert (Hne : forall i, (S i < n)%nat -> ((p + S i) mod n)%nat <> p).
  { intros i Hi E. assert (0 = S i)%nat as [=]. eapply (ring_index_inj p 0 (S i) n); [lia|lia|]. rewrite Nat.add_0_r, Nat.mod_small by lia. done. }
  split; cbn; rewrite ?length_insert; try done; try lia.
  - apply Nat.mod_upper_bound. lia.
  - rewrite Hpe. by apply (next_slot _ n).
  - rewrite Hc, Hsh. do 3 f_equal.
  - intros i Hi. rewrite Hsh. destruct (decide (S i < n)%nat) as [Hi'|].
    + rewrite list_lookup_insert_ne by (intros E; by eapply Hne). by rewrite Hsl.
    + assert (i = n - 1)%nat as -> by lia. rewrite Hlast, list_lookup_insert_eq by lia. by rewrite lookup_ge_None_2 by lia.
  - intros i d' Hi. rewrite Hsh. destruct (decide (S i < n)%nat) as [Hi'|].
    + rewrite list_lookup_insert_ne by (intros E; by eapply Hne). apply Hid. lia.
    + assert (i = n - 1)%nat as -> by lia. rewrite Hlast, list_lookup_insert_eq by lia. by intros [= <-].
Qed.

Lemma wrap_not_ready bd bdp : Z.land (wrap_of bd bdp) BD_ENET_TX_READY = 0.
Proof. unfold wrap_of. by destruct (_ =? _). Qed.

Lemma owned_stopped w l d q b :
  owned w l -> ndev ∈ netdev_list (w_nd w) -> devs (w_nd w) !! ndev = Some d -> egress_queue d = Some q ->
  owned (with_stopped w d q b) l.
Proof.
  intros Ho Hn Hd Hq. destruct (owned_dev w l ndev Ho Hn) as (d0 & Hd0 & Hok). assert (d0 = d) as -> by congruence.
  destruct (dk_queue d Hok) as (q0 & Hq0 & Hwf & _). assert (q0 = q) as -> by congruence.
  apply (owned_queue_set w l [] ndev d q); try done; [by destruct Hwf; split|by rewrite app_nil_r].
Qed.

Lemma txq_complete_ok s n p m ms l d :
  tx_ok (tx_queue (fep s)) n p (m :: ms) -> tx_ring (tx_queue (fep s)) !! p = Some d ->
  owned (env s) (m :: l) -> ndev ∈ netdev_list (w_nd (env s)) ->
  exists s', txq_complete ndev (pending_tx (tx_queue (fep s))) d s = Ok s' /\
    tx_ok (tx_queue (fep s')) n (S p mod n) ms /\ owned (env s') l /\ nd_frame (w_nd (env s)) (w_nd (env s')) /\
    (forall j, j <> p -> tx_ring (tx_queue (fep s')) !! j = tx_ring (tx_queue (fep s)) !! j).
Proof.
  intros Hok Hd Ho Hn. pose proof Hok as [Hr Hl Hs _ Hp Hu Hpe Hc Hsl _]. unfold txq_complete. rewrite Hpe, (index_slot _ n) by done.
  assert (Hm : tx_skbuff (tx_queue (fep s)) !! p = Some (Some m)).
  { specialize (Hsl 0%nat). rewrite Nat.add_0_r, Nat.mod_small in Hsl by done. apply Hsl. lia. }
  rewrite (proj2 (aget_ok _ (Z.of_nat p) (Some m))) by (rewrite Nat2Z.id; split; [lia|done]). cbn [mbind outcome_bind].
  rewrite aset_ok, Nat2Z.id by lia. cbn [mbind outcome_bind]. rewrite (set_slot _ n) by (done || lia). cbn [mbind outcome_bind].
  unfold dev_kfree_skb_any. destruct (owned_free (env s) l m Ho) as (w' & e' & Hf & Ho' & Hnd & _). match goal with |- context [buf_free ?w _] => change w with (env s) end. rewrite Hf.
  cbn [mbind outcome_bind]. rewrite <- Hpe.
  pose proof (tx_pop _ n p m ms (d <| cbd_sc := wrap_of (tx_bd (tx_queue (fep s))) (pending_tx (tx_queue (fep s))) |> <| cbd_bufaddr := 0 |>)
    Hok (wrap_not_ready _ _)) as Hok'.
  match type of Hok' with tx_ok ?x _ _ _ => set (q1 := x) in Hok' end.
  match goal with |- context [netdev_get_tx_queue ndev ?x] => set (s1 := x) end.
  assert (E1 : tx_queue (fep s1) = q1) by done. assert (E2 : env s1 = w') by done.
  assert (Hfr : forall j, j <> p -> tx_ring q1 !! j = tx_ring (tx_queue (fep s)) !! j) by (intros j Hj; by apply list_lookup_insert_ne).
  rewrite <- E1 in Hok', Hfr. rewrite <- E2 in Ho', Hnd. clearbody s1. clear E1 E2 q1 Hf w' e'.
  assert (Hn1 : ndev ∈ netdev_list (w_nd (env s1))) by by rewrite Hnd.
  destruct (owned_dev (env s1) l ndev Ho' Hn1) as (dv & Hdv & Hdok). destruct (dk_queue dv Hdok) as (q & Hq & _).
  unfold netdev_get_tx_queue, dev_get. rewrite Hdv. cbn [deref mbind outcome_bind]. rewrite Hq. cbn [deref mbind outcome_bind].
  destruct (_ && _).
  2: { exists s1. split; [done|]. split; [done|]. split; [done|]. split; [by rewrite Hnd|done]. }
  unfold fec_wake_queue, netdev_get_tx_queue, dev_get. rewrite Hdv. cbn [deref mbind outcome_bind]. rewrite Hq. cbn [deref mbind outcome_bind].
  unfold netif_tx_wake_queue, set_tx_queue, dev_get. destruct (stopped q) eqn:Est.
  - rewrite Hdv. cbn [deref mbind outcome_bind]. unfold fec_egr_ntfy_handler, netdev_get_tx_queue, dev_get. cbn. rewrite lookup_insert_eq.
    cbn. eexists. split; [done|]. split; [cbn; unfold bstgw_fec_schedule_xmit; by destruct (no_kick _)|].
    split; [exact (owned_stopped _ l dv q false Ho' Hn1 Hdv Hq)|]. split; [by rewrite <- Hnd|].
    intros j Hj. rewrite <- (Hfr j Hj). cbn. unfold bstgw_fec_schedule_xmit. by destruct (no_kick _).
  - rewrite Hdv. cbn [deref mbind outcome_bind]. eexists. split; [done|]. cbn. split; [done|]. rewrite <- (with_stopped_id (env s1) dv q Hdv Hq) at 1.
    split; [|split; [by rewrite <- Hnd|done]].
    pose proof (owned_stopped _ l dv q (stopped q) Ho' Hn1 Hdv Hq) as Ho2. unfold with_stopped in *.
    replace (q <| stopped := stopped q |>) with q in * by (by destruct q). unfold dev_set, upd in *. cbn in *. by rewrite insert_insert_eq.
Qed.

(** The number of descriptors from slot [p] on, at most [u], that the
    controller has completed. *)
Fixpoint completed (ring : list bufdesc) (n p u : nat) : nat :=
  match u with
  | O => O
  | S u' =>
      match ring !! p with
      | Some d => if Z.land (cbd_sc d) BD_ENET_TX_READY =? 0 then S (completed ring n (S p mod n) u') else O
      | None => O
      end
  end.

Lemma completed_ext r r' n u : forall p,
  (forall i, (i < u)%nat -> r !! ((p + i) mod n)%nat = r' !! ((p + i) mod n)%nat) -> (p < n)%nat ->
  completed r n p u = completed r' n p u.
Proof.
  induction u as [|u IH]; intros p Hi Hp; cbn [completed]; [done|].
  assert (E : r !! p = r' !! p) by (specialize (Hi 0%nat); rewrite Nat.add_0_r, Nat.mod_small in Hi by done; apply Hi; lia).
  rewrite E. destruct (r' !! p); [|done]. destruct (_ =? _); [|done]. f_equal. apply IH; [|apply Nat.mod_upper_bound; lia].
  intros i Hlt. rewrite Nat.Div0.add_mod_idemp_l. replace (S p + i)%nat with (p + S i)%nat by lia. apply Hi. lia.
Qed.

Lemma txq_loop_ok n l budget : forall s p ms,
  tx_ok (tx_queue (fep s)) n p ms -> owned (env s) (ms ++ l) -> ndev ∈ netdev_list (w_nd (env s)) ->
  let k := Nat.min budget (completed (tx_ring (tx_queue (fep s))) n p (length ms)) in
  exists s', fec_txq_loop hw ndev budget s = Ok (Z.of_nat k, s') /\
    tx_ok (tx_queue (fep s')) n ((p + k) mod n) (drop k ms) /\ owned (env s') (drop k ms ++ l).
Proof.
  induction budget as [|budget IH]; intros s p ms Hok Ho Hn; cbn [fec_txq_loop]; pose proof (to_p _ _ _ _ Hok) as Hp.
  { exists s. rewrite Nat.min_0_l, Nat.add_0_r, Nat.mod_small by done. done. }
  pose proof Hok as [Hr Hl _ _ _ Hu Hpe Hc _ _]. rewrite Hpe, Hc.
  destruct ms as [|m ms].
  { cbn [length completed]. rewrite Nat.min_0_r, Nat.add_0_r, Nat.mod_small, Z.eqb_refl by done. by exists s. }
  rewrite (proj2 (Z.eqb_neq _ _)).
  2: { intros E%(slot_ptr_inj _ n Hr). rewrite <- (Nat.mod_small p n) in E at 1 by done. rewrite <- (Nat.add_0_r p) in E at 1.
       apply ring_index_inj in E; cbn in *; lia. }
  destruct (lookup_lt_is_Some_2 (tx_ring (tx_queue (fep s))) p) as [d Hd]; [lia|]. rewrite (get_slot _ n Hr _ _ d Hd). cbn [mbind outcome_bind].
  cbn [length completed]. rewrite Hd. destruct (Z.land (cbd_sc d) BD_ENET_TX_READY =? 0); cbn [negb].
  - rewrite <- Hpe. destruct (txq_complete_ok s n p m ms (ms ++ l) d) as (s1 & -> & Hok1 & Ho1 & Hf1 & Hr1); [done..|]. cbn [mbind outcome_bind].
    destruct (IH s1 (S p mod n)%nat ms Hok1 Ho1) as (s2 & -> & Hok2 & Ho2); [destruct Hf1 as (-> & _); done|]. cbn [mbind outcome_bind].
    assert (Ec : completed (tx_ring (tx_queue (fep s1))) n (S p mod n) (length ms) = completed (tx_ring (tx_queue (fep s))) n (S p mod n) (length ms)).
    { apply completed_ext; [|apply Nat.mod_upper_bound; lia]. intros i Hi. apply Hr1. rewrite Nat.Div0.add_mod_idemp_l.
      intros E. rewrite <- (Nat.mod_small p n) in E at 2 by done. rewrite <- (Nat.add_0_r p) in E at 2.
      replace (S p + i)%nat with (p + S i)%nat in E by lia. apply ring_index_inj in E; cbn in *; lia. }
    rewrite Ec in *. set (c := completed _ _ _ _) in *. exists s2. rewrite <- Nat.succ_min_distr. split; [do 2 f_equal; lia|].
    rewrite Nat.Div0.add_mod_idemp_l in Hok2. replace (p + S (Nat.min budget c))%nat with (S p + Nat.min budget c)%nat by lia. done.
  - rewrite Nat.min_0_r, Nat.add_0_r, Nat.mod_small by done. unfold io_read32. destruct (_ =? 0); eexists; done.
Qed.

End transmit.

(** ** Properties of transmission *)

Section transmit_props.
Context {T : Type} `{ThMap T}.
Context (hw : nat -> Z -> Z) (virt_to_phys : Z -> Z) (cache_clean : Z -> Z -> bool) (ndev : positive).
Implicit Types s : drv T.

(** C26. Handing packets to the controller.  Given a burst, the driver accepts
    as many packets as the ring has free descriptors (one stays free), in
    order, and says how many: the ring then holds the packets it held and the
    accepted ones, each described by its own descriptor (its length, the
    address of its bytes or of a bounce buffer with a copy of them, ready, the
    last descriptor marked as such), nothing else of the world changes but the
    stop flag of the device's queue, and no write is outside the ring or a
    bounce buffer. *)
Theorem fec_xmit_handler_submits pkts s n p ms d q :
  dma_ok virt_to_phys cache_clean -> tx_ok (tx_queue (fep s)) n p ms ->
  Forall (fun m => exists e, bufs (w_pool (env s)) !! m = Some e /\ tx_pkt e) pkts ->
  devs (w_nd (env s)) !! ndev = Some d -> egress_queue d = Some q ->
  let k := Nat.min (length pkts) (n - 1 - length ms) in
  exists f' b, fec_xmit_handler virt_to_phys cache_clean ndev (Some <$> pkts) 0 s
      = Ok (Z.of_nat k, mk_drv f' (with_stopped ndev (env s) d q b)) /\
    tx_ok (tx_queue f') n p (ms ++ take k pkts) /\
    (forall i m e, take k pkts !! i = Some m -> bufs (w_pool (env s)) !! m = Some e ->
       tx_desc virt_to_phys f' n ((p + (length ms + i)) mod n) e).
Proof.
  intros Hdma Hok Hall Hd Hq. destruct (xmit_loop_ok virt_to_phys cache_clean ndev pkts s n p ms d q 0) as (f' & b & E & Hok' & _ & Hds & _); try done.
  exists f', b. rewrite E. done.
Qed.

(** Completing transmissions.  [fec_txq] frees exactly the oldest
    descriptors the controller has completed, up to its budget, each packet
    once, in the order they were submitted, and returns their number; a packet
    whose descriptor the controller still owns is not freed.  The freed
    buffers are back in the pool and no other buffer changes hands. *)
Theorem fec_txq_completes s n p ms l :
  tx_ok (tx_queue (fep s)) n p ms -> owned (env s) (ms ++ l) -> ndev ∈ netdev_list (w_nd (env s)) ->
  let k := Nat.min (Z.to_nat BSTGW_TXC_BUDGET) (completed (tx_ring (tx_queue (fep s))) n p (length ms)) in
  exists s', fec_txq hw ndev s = Ok (Z.of_nat k, s') /\
    tx_ok (tx_queue (fep s')) n ((p + k) mod n) (drop k ms) /\ owned (env s') (drop k ms ++ l).
Proof. intros Hok Ho Hn. by apply txq_loop_ok. Qed.

(** C25. From the egress queue to the wire.  On a started device with packets
    queued and a descriptor free, [router_pktq_tx] moves a non-empty run of
    packets from the front of the egress queue to the transmit ring, in order,
    and returns its length: each packet leaves the queue exactly when it
    enters the ring, so no packet is lost, sent twice or freed on the way. *)
Theorem fec_transmit_moves s n p ms l d q :
  dma_ok virt_to_phys cache_clean -> tx_ok (tx_queue (fep s)) n p ms -> owned (env s) (ms ++ l) ->
  ndev ∈ netdev_list (w_nd (env s)) -> devs (w_nd (env s)) !! ndev = Some d -> egress_queue d = Some q ->
  xmit_handler d = true -> stopped q = false -> pq_abs q <> [] -> (S (length ms) < n)%nat ->
  (forall m e, Some m ∈ pq_abs q -> bufs (w_pool (env s)) !! m = Some e -> data_len e <= FEC_ENET_TX_FRSIZE /\ ip_summed e <> CHECKSUM_PARTIAL) ->
  exists sent s', sent <> [] /\ (Some <$> sent) `prefix_of` pq_abs q /\
    router_pktq_tx (fun _ ms => fec_xmit_handler virt_to_phys cache_clean ndev ms 0) ndev s = Ok (Z.of_nat (length sent), s') /\
    tx_ok (tx_queue (fep s')) n p (ms ++ sent) /\ owned (env s') (ms ++ sent ++ l).
Proof.
  intros Hdma Hok Ho Hn Hd Hq Hx Hst Hne Hroom Hpk.
  destruct (owned_dev (env s) _ ndev Ho Hn) as (d0 & Hd0 & Hdok). assert (d0 = d) as -> by congruence.
  destruct (dk_queue d Hdok) as (q0 & Hq0 & Hqwf & Hsome). assert (q0 = q) as -> by congruence.
  destruct (pktq_tx_drains (fun _ ms => fec_xmit_handler virt_to_phys cache_clean ndev ms 0) ndev s (ms ++ l) d q) as (b & Hb & [rest Hrest] & Htx); try done.
  pose proof Hsome as Hsome'. rewrite Hrest in Hsome'. apply Forall_app in Hsome' as [Hbs _]. apply all_some in Hbs. set (ids := omap id b) in *. rewrite Hbs in *. clearbody ids. clear b Hbs.
  destruct (xmit_loop_ok virt_to_phys cache_clean ndev ids s n p ms d q 0) as (f' & bb & E & Hok' & _ & _ & _); try done.
  { apply Forall_forall. intros m Hm. assert (Hm' : Some m ∈ pq_abs q) by (rewrite Hrest; apply elem_of_app; left; by apply list_elem_of_fmap_2).
    destruct (owned_queued (env s) _ ndev d q m Ho Hn Hd Hq Hm') as (e & He & Hwf & Hnx). destruct (Hpk m e Hm' He). exists e. by split. }
  assert (Hids : ids <> []) by (intros ->; done).
  assert (Hk : (0 < Nat.min (length ids) (n - 1 - length ms))%nat) by (assert (length ids <> 0%nat) by (by destruct ids); lia). set (k := Nat.min _ _) in *.
  assert (Hlen : length (take k ids) = k) by (rewrite length_take; lia).
  destruct (Htx (Z.of_nat k) (mk_drv f' (with_stopped ndev (env s) d q bb)) (d <| egress_queue := Some (q <| stopped := bb |>) |>) (q <| stopped := bb |>)) as (s2 & E2 & Hs2);
    [exact E|cbn; by rewrite lookup_insert_eq|done|by destruct Hqwf; split|done|rewrite length_fmap; lia|].
  rewrite (proj2 (Z.leb_gt _ _)) in Hs2 by lia. destruct Hs2 as (q2 & -> & Hwf2 & Habs2). rewrite Nat2Z.id in Habs2.
  exists (take k ids), (mk_drv f' (dev_set (with_stopped ndev (env s) d q bb) ndev ((d <| egress_queue := Some (q <| stopped := bb |>) |>) <| egress_queue := Some q2 |>))).
  split; [intros E0; rewrite E0 in Hlen; cbn in Hlen; lia|]. rewrite fmap_take. split; [etransitivity; [apply prefix_take|by exists rest]|].
  rewrite Hlen. split; [exact E2|]. split; [exact Hok'|].
  assert (Ho2 : owned (dev_set (with_stopped ndev (env s) d q bb) ndev ((d <| egress_queue := Some (q <| stopped := bb |>) |>) <| egress_queue := Some q2 |>)) (take k ids ++ ms ++ l)).
  { apply (owned_queue_drop _ _ _ _ _ (q <| stopped := bb |>)); [by apply owned_stopped|done|cbn; by rewrite lookup_insert_eq|done|done|].
    change (pq_abs (q <| stopped := bb |>)) with (pq_abs q). rewrite Habs2, Hrest, fmap_take. rewrite <- (take_drop k ((Some <$> ids) ++ rest)) at 1. rewrite take_app_le by (rewrite length_fmap; lia). done. }
  eapply owned_perm; [|exact Ho2]. solve_Permutation.
Qed.

End transmit_props.

(** ** An example: a ring of four descriptors *)

Definition ex_bd (base cur : Z) : bufdesc_prop := mk_bd base (base + 24) cur 16 base 4 8 3.

Lemma ex_bd_wf base cur : ring_wf (ex_bd base cur) 4.
Proof. split; cbn; lia. Qed.

Definition ex_txq (d0 : bufdesc) (m0 : ebptr) (cur : Z) : fec_enet_priv_tx_q :=
  mk_txq (ex_bd 4096 cur) (d0 :: replicate 3 (mk_bufdesc 0 0 0 0 0 0)) (replicate 4 (Some (64, replicate 2048 0)))
    (m0 :: replicate 3 None) 0 2 4096.

Definition ex_rxq (ring : list bufdesc) (skbs : list ebptr) : fec_enet_priv_rx_q := mk_rxq (ex_bd 8192 8192) ring skbs.

Definition ex_fec (t : fec_enet_priv_tx_q) (r : fec_enet_priv_rx_q) : fec_enet_private :=
  mk_fec 0 (mk_sfec SFEC_PRI_RUNNING SFEC_SUB_NONE 0 0 0) (ex_queue 0 (replicate 4 None)) false t r 0 false imx6q_quirks
    napi_added napi_added FLAG_RX_CSUM_ENABLED 15 15 COPYBREAK_DEFAULT [] 0 0.

(** Nothing is pending. *)
Lemma ex_txq_empty : tx_ok (ex_txq (mk_bufdesc 0 0 0 0 0 0) None 4096) 4 0 [].
Proof.
  split; cbn; try done; try lia; [apply ex_bd_wf| | |].
  - split; [done|]. repeat constructor; by eexists _, _.
  - intros i Hi. do 4 (destruct i as [|i]; [done|]). lia.
  - intros i d Hi. do 4 (destruct i as [|i]; [by intros [= <-]|]). lia.
Qed.

(** Buffer 1 was transmitted: its descriptor is not ready any more. *)
Lemma ex_txq_sent : tx_ok (ex_txq (mk_bufdesc 60 0x1c00 4096 0 0 0) (Some 1%positive) 4104) 4 0 [1%positive].
Proof.
  split; cbn; try done; try lia; [apply ex_bd_wf| | |].
  - split; [done|]. repeat constructor; by eexists _, _.
  - intros i Hi. do 4 (destruct i as [|i]; [done|]). lia.
  - intros i d Hi. destruct i as [|i]; [lia|]. do 3 (destruct i as [|i]; [by intros [= <-]|]). lia.
Qed.

Lemma ex_packet_tx : tx_pkt ex_packet.
Proof. split; [exact ex_packet_wf|done|vm_compute; discriminate|done]. Qed.

Definition ex_drv (t : fec_enet_priv_tx_q) (q : pktqueue_t) : drv (gmap (list Z) (list Z)) :=
  mk_drv (ex_fec t (ex_rxq [] [])) (ex_world ex_packet q).

Lemma ex_dma_ok : dma_ok (Z.max 1) (fun _ _ => true).
Proof. intros a l. split; [lia|done]. Qed.

Lemma fec_xmit_handler_submits_witness :
  let s := ex_drv (ex_txq (mk_bufdesc 0 0 0 0 0 0) None 4096) (ex_queue 0 (replicate 4 None)) in
  exists f' b, fec_xmit_handler (Z.max 1) (fun _ _ => true) 1 [Some 1%positive] 0 s
      = Ok (1, mk_drv f' (with_stopped 1 (env s) (ex_dev (ex_queue 0 (replicate 4 None))) (ex_queue 0 (replicate 4 None)) b)) /\
    tx_ok (tx_queue f') 4 0 [1%positive] /\
    (forall i m e, [1%positive] !! i = Some m -> bufs (w_pool (env s)) !! m = Some e ->
       tx_desc (Z.max 1) f' 4 ((0 + (0 + i)) mod 4) e).
Proof.
  intros s. apply (fec_xmit_handler_submits (Z.max 1) (fun _ _ => true) 1 [1%positive] s 4 0 []
    (ex_dev (ex_queue 0 (replicate 4 None))) (ex_queue 0 (replicate 4 None))); try done.
  - exact ex_dma_ok.
  - exact ex_txq_empty.
  - repeat constructor. exists ex_packet. split; [done|exact ex_packet_tx].
Defined.

Lemma fec_txq_completes_witness :
  let s := ex_drv (ex_txq (mk_bufdesc 60 0x1c00 4096 0 0 0) (Some 1%positive) 4104) (ex_queue 0 (replicate 4 None)) in
  exists s', fec_txq (fun _ _ => 0) 1 s = Ok (1, s') /\ tx_ok (tx_queue (fep s')) 4 1 [] /\ owned (env s') [].
Proof.
  intros s. apply (fec_txq_completes (fun _ _ => 0) 1 s 4 0 [1%positive] []).
  - exact ex_txq_sent.
  - apply ex_owned; [exact ex_packet_wf|done|cbn; lia|done].
  - cbn. set_solver.
Defined.

Lemma fec_transmit_moves_witness :
  let s := ex_drv (ex_txq (mk_bufdesc 0 0 0 0 0 0) None 4096) (ex_queue 1 [Some 1%positive; None; None; None]) in
  exists sent s', sent <> [] /\ (Some <$> sent) `prefix_of` [Some 1%positive] /\
    router_pktq_tx (fun _ ms => fec_xmit_handler (Z.max 1) (fun _ _ => true) 1 ms 0) 1 s = Ok (Z.of_nat (length sent), s') /\
    tx_ok (tx_queue (fep s')) 4 0 ([] ++ sent) /\ owned (env s') ([] ++ sent ++ []).
Proof.
  intros s. apply (fec_transmit_moves (Z.max 1) (fun _ _ => true) 1 s 4 0 [] []
    (ex_dev (ex_queue 1 [Some 1%positive; None; None; None])) (ex_queue 1 [Some 1%positive; None; None; None])); try done.
  - exact ex_dma_ok.
  - exact ex_txq_empty.
  - split; [|done]. apply ex_world_ok; [exact ex_packet_wf|done|cbn; lia|apply ex_queue_wf; auto|]. repeat constructor. by eexists.
  - cbn. set_solver.
  - cbn. lia.
  - intros m e [= ->]%list_elem_of_singleton He. injection He as <-. split; [vm_compute; discriminate|done].
Defined.
