(* ===== verification/FecRx.v ===== *)
(** * Reception by the Ethernet controller driver, verified
    (fec_drivers/bstgw/imx_fec.c).

    The frames the controller has put into the receive ring are copied, in
    order, into fresh buffers and queued for the router; frames with errors
    are skipped, frames that do not fit into the queue are dropped; every
    descriptor goes back to the controller. *)

From S2P Require Import Prelude Pktq EthBuf Napi Netdev Route Forward Worker Fec FecTx.

(** ** The receive ring *)

(** [rxs]: the buffers the controller receives into, one per descriptor. *)
Record rx_ok (q : fec_enet_priv_rx_q) (n : nat) (rxs : list positive) : Prop := {
  ro_ring : ring_wf (rx_bd q) n;
  ro_len : length (rx_ring q) = n;
  ro_skb : rx_skbuff q = Some <$> rxs;
  ro_rxs : length rxs = n
}.

(** The frame in the buffer of a descriptor: its length counts the two bytes
    of padding in front and the checksum behind. *)
Definition rx_bytes (d : bufdesc) (e : bstgw_ethbuf_t) : list Z :=
  take (Z.to_nat (cbd_datlen d - 6)) (drop (Z.to_nat (data_off e) + 2) (bytes e)).

Definition rx_empty (d : bufdesc) : bool := negb (Z.land (cbd_sc d) BD_ENET_RX_EMPTY =? 0).
Definition rx_error (d : bufdesc) : bool := negb (Z.land (Z.lxor (cbd_sc d) BD_ENET_RX_LAST) rx_error_bits =? 0).

Section receive.
Context {T : Type} `{ThMap T}.
Implicit Types s : drv T.

(** What is in slot [i]: a frame with an error (None), or a good one. *)
Definition rx_slot (s : drv T) (rxs : list positive) (i : nat) (fr : option (list Z)) : Prop :=
  exists d, rx_ring (rx_queue (fep s)) !! i = Some d /\ rx_empty d = false /\
    match fr with
    | None => rx_error d = true
    | Some b => rx_error d = false /\ 6 <= cbd_datlen d /\ cbd_datlen d - 4 <= rx_copybreak (fep s) /\
        exists m e, rxs !! i = Some m /\ bufs (w_pool (env s)) !! m = Some e /\
          data_off e + (cbd_datlen d - 4) <= Z.of_nat (length (bytes e)) /\ b = rx_bytes d e
    end.

(** Buffer [m] holds the received frame [b] and nothing else. *)
Definition delivered (s : drv T) (m : positive) (b : list Z) : Prop :=
  exists e, bufs (w_pool (env s)) !! m = Some e /\ eb_data e = b /\ packet_type e = RTE_PTYPE_L2_MASK.

(** ** One frame *)

Lemma skb_put_ok e len :
  eb_wf e -> data_off e = 0 -> data_len e = 0 -> 0 <= len <= buf_cap e -> skb_put e len = Ok (e <| data_len := len |>).
Proof.
  intros Hwf Hoff Hdl Hlen. pose proof Hwf as [_ _ _ Hcap Hmax Hpr]. unfold MAX_I32 in *. unfold skb_put. rewrite Hoff, Hdl, Z.add_0_l.
  rewrite !u32_small by (rewrite ?u32_small; lia). rewrite (proj2 (Z.ltb_ge _ _)) by lia.
  rewrite data_ptr_spec; [done| |lia]. split; cbn; unfold MAX_I32; try lia; done.
Qed.

Lemma rxq_frame_ok s n rxs i d l m fl b :
  rx_ok (rx_queue (fep s)) n rxs -> owned (env s) l -> free_list (w_pool (env s)) = m :: fl -> rxs ⊆ l ->
  rx_copybreak (fep s) <= 2048 -> negb (Z.land (quirks (fep s)) FEC_QUIRK_HAS_RACC =? 0) = true ->
  rx_ring (rx_queue (fep s)) !! i = Some d -> rx_slot s rxs i (Some b) ->
  exists w', rxq_frame false (slot_ptr (rx_bd (rx_queue (fep s))) i) d s = Ok (m, s <| env := w' |>) /\
    owned w' (m :: l) /\ delivered (s <| env := w' |>) m b /\ m ∉ inuse_list (w_pool (env s)) /\
    (forall j, j <> m -> bufs (w_pool w') !! j = bufs (w_pool (env s)) !! j) /\ free_list (w_pool w') = fl /\ w_nd w' = w_nd (env s).
Proof.
  intros [Hr Hl Hs Hn] Ho Hfl Hin Hcb Hrc Hd (d' & Hd' & _ & _ & Hlo & Hhi & m0 & e0 & Hm0 & He0 & Hfit & ->).
  assert (d' = d) as -> by congruence. clear Hd'.
  destruct (owned_alloc (env s) l m fl Ho Hfl) as (p' & e & Ha & Ho1 & Hb' & Hfl' & Hfresh & He & [_ _ _ Hcap Hmax Hpr] & (Hnx & _ & _ & Hdl & Hoff & _) & Hroom).
  assert (Hmi : m0 ∈ inuse_list (w_pool (env s))) by (eapply owned_inuse; [done|]; apply Hin; by eapply list_elem_of_lookup_2).
  unfold rxq_frame. rewrite (index_slot _ n Hr), Hs.
  rewrite (proj2 (aget_ok _ (Z.of_nat i) (Some m0))) by (rewrite Nat2Z.id, list_lookup_fmap, Hm0; split; [lia|done]).
  cbn [deref mbind outcome_bind]. unfold MAX_I32 in *. rewrite !(u32_small (cbd_datlen d - 4)) by lia.
  unfold fec_enet_copybreak. rewrite (proj2 (Z.ltb_ge _ _)) by done. unfold netdev_alloc_skb. cbn [mbind outcome_bind]. rewrite Ha. cbn [mbind outcome_bind].
  assert (m0 <> m) by (intros ->; done). destruct (owned_buf _ _ m0 Ho ltac:(apply Hin; by eapply list_elem_of_lookup_2)) as (e0' & He0' & [L1 L2 _ _ _ _] & _).
  assert (e0' = e0) as -> by congruence.
  unfold buf_get. change (w_pool ((env s) <| w_pool := p' |>)) with p'. rewrite Hb', He0, He. cbn [deref mbind outcome_bind].
  rewrite mem_read_ok by lia. cbn [mbind outcome_bind]. rewrite Hoff. set (fr := take _ _).
  assert (Hfr : length fr = Z.to_nat (cbd_datlen d - 4)) by (unfold fr; rewrite length_take, length_drop; lia).
  rewrite mem_write_ok by lia. cbn [mbind outcome_bind]. change (Z.to_nat 0) with 0%nat. set (nb := blit (bytes e) 0 fr).
  assert (Hnb : length nb = length (bytes e)) by (apply length_blit; lia).
  set (e1 := e <| bytes := nb |>). match goal with |- context [buf_set ?w m e1] => set (w1 := w) end.
  unfold buf_get. match goal with |- context [bufs (w_pool (env ?x)) !! m] => change (bufs (w_pool (env x))) with (<[m := e1]> (bufs p')) end.
  rewrite lookup_insert_eq. cbn [deref mbind outcome_bind].
  assert (Hw1 : eb_wf e1) by (unfold e1; split; cbn; unfold MAX_I32; try lia; done).
  rewrite (skb_put_ok e1 (cbd_datlen d - 4)) by (cbn; try lia; done). cbn [mbind outcome_bind]. rewrite Hrc.
  set (e2 := e1 <| data_len := cbd_datlen d - 4 |>).
  assert (Hw2 : eb_wf e2) by (unfold e2, e1; split; cbn; unfold MAX_I32; try lia; done).
  destruct (precut_spec e2 2 Hw2) as (_ & Hw3 & Hn3 & _ & _ & Hd3); [cbn; lia|].
  assert (Hdat : eb_data (bstgw_ethbuf_precut e2 2).2 = rx_bytes d e0).
  { rewrite Hd3. unfold eb_data. cbn. rewrite Hoff. cbn [Z.to_nat]. rewrite drop_0. unfold nb, blit. rewrite take_0, app_nil_l, take_app_length' by lia.
    unfold fr, rx_bytes. change (Z.to_nat 2) with 2%nat. rewrite skipn_firstn_comm, drop_drop. f_equal. lia. }
  assert (Hc3 : buf_cap (bstgw_ethbuf_precut e2 2).2 = buf_cap e) by (unfold bstgw_ethbuf_precut; by destruct (_ <? _)).
  assert (Hn3' : next (bstgw_ethbuf_precut e2 2).2 = None) by (rewrite Hn3; exact Hnx). clear Hd3. set (e3 := (bstgw_ethbuf_precut e2 2).2) in *. clearbody e3.
  match goal with |- context [buf_set _ m (?x <| packet_type := _ |>)] => set (e4 := x <| packet_type := RTE_PTYPE_L2_MASK |>) end.
  assert (H4 : eb_wf e4 /\ next e4 = next e3 /\ buf_cap e4 = buf_cap e3 /\ eb_data e4 = eb_data e3)
    by (unfold e4; destruct (_ && _); split_and!; try done; destruct Hw3; by split).
  destruct H4 as (W4 & N4 & C4 & D4).
  exists (buf_set w1 m e4). split; [by rewrite <- (buf_set_set w1 m e1 e4)|]. split; [|split; [|split; [done|split; [|done]]]].
  - apply owned_buf_set; [done|set_solver|done|congruence|lia].
  - exists e4. cbn. rewrite lookup_insert_eq. split; [done|]. split; [congruence|done].
  - intros j Hj. cbn. by rewrite lookup_insert_ne, Hb'.
Qed.


(** The descriptor back to the controller. *)
Lemma rxq_release_ok s n rxs i :
  rx_ok (rx_queue (fep s)) n rxs -> (i < n)%nat ->
  exists f', rxq_release (slot_ptr (rx_bd (rx_queue (fep s))) i) s = Ok (s <| fep := f' |>) /\
    rx_ok (rx_queue f') n rxs /\ rx_bd (rx_queue f') = rx_bd (rx_queue (fep s)) /\
    (exists d, rx_ring (rx_queue f') !! i = Some d /\ rx_empty d = true) /\
    (forall j, j <> i -> rx_ring (rx_queue f') !! j = rx_ring (rx_queue (fep s)) !! j) /\
    in_queue f' = in_queue (fep s) /\ rx_copybreak f' = rx_copybreak (fep s) /\ quirks f' = quirks (fep s).
Proof.
  intros [Hr Hl Hs Hn] Hi. unfold rxq_release.
  destruct (lookup_lt_is_Some_2 (rx_ring (rx_queue (fep s))) i) as [d Hd]; [lia|].
  rewrite (get_slot _ n Hr _ _ d Hd). cbn [mbind outcome_bind]. rewrite (set_slot _ n Hr) by lia. cbn [mbind outcome_bind].
  eexists. split; [done|]. split; [split; cbn; rewrite ?length_insert; done|]. split; [done|]. split; [|split; [|done]].
  - eexists. split; [apply list_lookup_insert_eq; lia|]. unfold rx_empty, wrap_of. by destruct (_ =? bd_last _).
  - intros j Hj. by apply list_lookup_insert_ne.
Qed.

(** Freeing gives room in the pool. *)
Lemma free_bufs_room ms : forall (w : world T) l w',
  owned w (ms ++ l) -> free_bufs (Some <$> ms) w = Ok w' ->
  (length (free_list (w_pool w)) <= length (free_list (w_pool w')))%nat.
Proof.
  induction ms as [|m ms IH]; intros w l w' Ho; [intros [= <-]; done|]. rewrite fmap_cons. cbn [free_bufs].
  pose proof (owned_inuse w _ m Ho ltac:(set_solver)) as Hi. pose proof Ho as [[Hp _ _ _] _].
  destruct (owned_free w (ms ++ l) m Ho) as (w1 & e & E & Ho1 & _). rewrite E. cbn [mbind outcome_bind]. intros E'.
  specialize (IH w1 l w' Ho1 E'). unfold buf_free in E.
  destruct (pool_free_spec _ m Hp Hi) as (p' & e' & Hf & _ & Hfl & _). rewrite Hf in E. injection E as <-. cbn in IH. rewrite Hfl in IH. cbn in IH. lia.
Qed.

(** A burst to the input queue: [l] holds everything else. *)
Lemma rxq_flush_ok s q0 bs l :
  owned (env s) (bs ++ q0 ++ l) -> pq_wf (in_queue (fep s)) -> pq_abs (in_queue (fep s)) = Some <$> q0 ->
  Z.of_nat (length bs) <= MAX_U32 ->
  let kept := take (Z.to_nat (Pktq.capacity (in_queue (fep s))) - length q0) bs in
  exists s', rxq_flush (Some <$> bs) s = Ok s' /\ owned (env s') ((q0 ++ kept) ++ l) /\
    pq_wf (in_queue (fep s')) /\ Pktq.capacity (in_queue (fep s')) = Pktq.capacity (in_queue (fep s)) /\
    pq_abs (in_queue (fep s')) = Some <$> (q0 ++ kept) /\
    rx_queue (fep s') = rx_queue (fep s) /\ rx_copybreak (fep s') = rx_copybreak (fep s) /\ quirks (fep s') = quirks (fep s) /\
    w_nd (env s') = w_nd (env s) /\
    (forall j, j ∉ drop (Z.to_nat (Pktq.capacity (in_queue (fep s))) - length q0) bs -> bufs (w_pool (env s')) !! j = bufs (w_pool (env s)) !! j) /\
    (length (free_list (w_pool (env s))) <= length (free_list (w_pool (env s'))))%nat.
Proof.
  intros Ho Hwf Habs Hmax kept. pose proof (pq_abs_length _ Hwf) as Hlen. rewrite Habs, length_fmap in Hlen. pose proof Hwf as [Hc1 Hc2 _ _ _].
  unfold rxq_flush. rewrite length_fmap.
  destruct (bulk_add_refines_fifo (in_queue (fep s)) (Some <$> bs) (Z.of_nat (length bs)) Hwf) as (pq' & -> & Hwf' & Hcap & Habs');
    [rewrite length_fmap; lia|done|]. cbn [mbind outcome_bind].
  set (k := (Z.to_nat (Pktq.capacity (in_queue (fep s))) - length q0)%nat) in *.
  set (z := Z.min _ _). assert (Hz : z = Z.of_nat (Nat.min (length bs) k)) by (unfold z, k; lia). rewrite Hz. clearbody z. clear z Hz.
  rewrite mem_read_ok by (rewrite ?length_fmap; lia). cbn [mbind outcome_bind]. rewrite <- fmap_drop, Nat2Z.id.
  rewrite take_ge by (rewrite length_fmap, length_drop; lia).
  replace (drop (Nat.min (length bs) k) bs) with (drop k bs) by (destruct (Nat.min_spec (length bs) k) as [[? ->]|[? ->]]; [rewrite !drop_ge by lia|]; done).
  assert (Ho' : owned (env s) (drop k bs ++ ((q0 ++ kept) ++ l))).
  { eapply owned_perm; [|exact Ho]. rewrite <- (take_drop k bs) at 1. fold kept. solve_Permutation. }
  destruct (owned_free_bufs _ _ _ Ho') as (w' & Hf & Ho2 & Hnd & _ & _ & Hb). rewrite Hf. cbn [mbind outcome_bind].
  eexists. split; [done|]. cbn [env fep]. unfold bstgw_fec_schedule_xmit.
  assert (Hkept : pq_abs pq' = Some <$> (q0 ++ kept)).
  { rewrite Habs', Habs. unfold fifo_push. unfold kept. rewrite length_fmap, fmap_app, fmap_take. f_equal.
    rewrite (take_ge (Some <$> bs)) by (rewrite length_fmap; lia). done. }
  pose proof (free_bufs_room _ _ _ _ Ho' Hf). destruct (no_kick _); split_and!; done.
Qed.

Lemma owned_nodup (w : world T) l : owned w l -> NoDup l.
Proof.
  intros [[[Hnd _ _ _ _] _ _ _] Hin]. apply NoDup_app in Hnd as (_ & _ & Hnd). rewrite Hin in Hnd. by apply NoDup_app in Hnd as (_ & _ & ?).
Qed.

Lemma delivered_frame s s' m b :
  bufs (w_pool (env s')) !! m = bufs (w_pool (env s)) !! m -> delivered s m b -> delivered s' m b.
Proof. intros E (e & He & ?). exists e. by rewrite E. Qed.

Lemma all_delivered_frame s s' ms bs :
  (forall m, m ∈ ms -> bufs (w_pool (env s')) !! m = bufs (w_pool (env s)) !! m) ->
  Forall2 (delivered s) ms bs -> Forall2 (delivered s') ms bs.
Proof.
  intros Hsame. induction 1 as [|m b ms bs Hm _ IH]; constructor.
  - eapply delivered_frame; [|done]. apply Hsame. set_solver.
  - apply IH. intros x Hx. apply Hsame. set_solver.
Qed.

Lemma rx_slot_frame s s' rxs i fr :
  rx_ring (rx_queue (fep s')) !! i = rx_ring (rx_queue (fep s)) !! i -> rx_copybreak (fep s') = rx_copybreak (fep s) ->
  (forall m, m ∈ rxs -> bufs (w_pool (env s')) !! m = bufs (w_pool (env s)) !! m) ->
  rx_slot s rxs i fr -> rx_slot s' rxs i fr.
Proof.
  intros Hr Hc Hb (d & Hd & He & Hfr). exists d. rewrite Hr, Hc. split; [done|]. split; [done|].
  destruct fr; [|done]. destruct Hfr as (? & ? & ? & m & e & Hm & He' & ?). split_and!; try done. exists m, e.
  rewrite Hb by (by eapply list_elem_of_lookup_2). done.
Qed.

(** ** The loop *)

Section loop.
Context (n : nat) (rxs l q0 : list positive) (cap : Z).
Definition room : nat := (Z.to_nat cap - length q0)%nat.

(** The frames [Fp] were queued, as far as there was room, as [pushed]; the
    frames [Fb] wait in [bs]. *)
Record rx_inv (s : drv T) (pushed : list positive) (Fp : list (list Z)) (bs : list positive) (Fb : list (list Z)) : Prop := {
  ri_rx : rx_ok (rx_queue (fep s)) n rxs;
  ri_own : owned (env s) (rxs ++ bs ++ (q0 ++ take room pushed) ++ l);
  ri_pq : pq_wf (in_queue (fep s));
  ri_cap : Pktq.capacity (in_queue (fep s)) = cap;
  ri_abs : pq_abs (in_queue (fep s)) = Some <$> (q0 ++ take room pushed);
  ri_len : length pushed = length Fp;
  ri_pushed : Forall2 (delivered s) (take room pushed) (take room Fp);
  ri_bs : Forall2 (delivered s) bs Fb;
  ri_cb : rx_copybreak (fep s) <= 2048;
  ri_racc : negb (Z.land (quirks (fep s)) FEC_QUIRK_HAS_RACC =? 0) = true
}.

(** The [k] descriptors from slot [c] on belong to the controller. *)
Definition given_back (c k : nat) (s : drv T) : Prop :=
  forall j, (j < k)%nat -> exists d, rx_ring (rx_queue (fep s)) !! ((c + j) mod n)%nat = Some d /\ rx_empty d = true.

Lemma rx_inv_good s pushed Fp bs Fb i d b m fl :
  rx_inv s pushed Fp bs Fb -> rx_ring (rx_queue (fep s)) !! i = Some d -> rx_slot s rxs i (Some b) ->
  free_list (w_pool (env s)) = m :: fl ->
  exists w', rxq_frame false (slot_ptr (rx_bd (rx_queue (fep s))) i) d s = Ok (m, s <| env := w' |>) /\
    rx_inv (s <| env := w' |>) pushed Fp (bs ++ [m]) (Fb ++ [b]) /\ free_list (w_pool w') = fl /\
    (forall j, j ∈ rxs -> bufs (w_pool w') !! j = bufs (w_pool (env s)) !! j).
Proof.
  intros [Hrx Ho Hpq Hcap Habs Hlen Hpu Hbs Hcb Hra] Hd Hsl Hfl.
  destruct (rxq_frame_ok s n rxs i d _ m fl b Hrx Ho Hfl) as (w' & E & Ho' & Hdel & Hfresh & Hb & Hfl' & _); [set_solver|done..|].
  assert (Hne : forall j, j ∈ rxs ++ bs ++ (q0 ++ take room pushed) ++ l -> bufs (w_pool w') !! j = bufs (w_pool (env s)) !! j).
  { intros j Hj. apply Hb. intros ->. apply Hfresh. by eapply owned_inuse. }
  exists w'. split; [done|]. split; [|split; [done|intros j Hj; apply Hne; set_solver]]. split; try done.
  - eapply owned_perm; [|exact Ho']. solve_Permutation.
  - eapply all_delivered_frame; [|exact Hpu]. intros j Hj. apply Hne. set_solver.
  - apply Forall2_app; [|by constructor]. eapply all_delivered_frame; [|exact Hbs]. intros j Hj. apply Hne. set_solver.
Qed.

Lemma rx_inv_release s pushed Fp bs Fb i :
  rx_inv s pushed Fp bs Fb -> (i < n)%nat ->
  exists f', rxq_release (slot_ptr (rx_bd (rx_queue (fep s))) i) s = Ok (s <| fep := f' |>) /\
    rx_inv (s <| fep := f' |>) pushed Fp bs Fb /\ rx_bd (rx_queue f') = rx_bd (rx_queue (fep s)) /\
    (exists d, rx_ring (rx_queue f') !! i = Some d /\ rx_empty d = true) /\
    (forall j, j <> i -> rx_ring (rx_queue f') !! j = rx_ring (rx_queue (fep s)) !! j) /\ rx_copybreak f' = rx_copybreak (fep s).
Proof.
  intros [Hrx Ho Hpq Hcap Habs Hlen Hpu Hbs Hcb Hra] Hi.
  destruct (rxq_release_ok s n rxs i Hrx Hi) as (f' & E & Hrx' & Hbd & Hemp & Hr & Hq & Hc & Hqk).
  exists f'. split; [done|]. split; [|done]. split; cbn; try done; by rewrite ?Hq, ?Hc, ?Hqk.
Qed.

Lemma take_app_room {A} (r : nat) (x y : list A) : take r (x ++ y) = take r x ++ take (r - length (take r x)) y.
Proof.
  rewrite take_app, length_take. f_equal. destruct (Nat.le_gt_cases r (length x)).
  - rewrite !(Nat.min_l r) by lia. replace (r - length x)%nat with 0%nat by lia. by rewrite Nat.sub_diag.
  - rewrite Nat.min_r by lia. done.
Qed.

Lemma rx_inv_flush s pushed Fp bs Fb :
  rx_inv s pushed Fp bs Fb -> Z.of_nat (length bs) <= MAX_U32 ->
  exists s', rxq_flush (Some <$> bs) s = Ok s' /\ rx_inv s' (pushed ++ bs) (Fp ++ Fb) [] [] /\
    rx_queue (fep s') = rx_queue (fep s) /\ rx_copybreak (fep s') = rx_copybreak (fep s) /\
    (forall j, j ∈ rxs -> bufs (w_pool (env s')) !! j = bufs (w_pool (env s)) !! j) /\
    (length (free_list (w_pool (env s))) <= length (free_list (w_pool (env s'))))%nat.
Proof.
  intros [Hrx Ho Hpq Hcap Habs Hlen Hpu Hbs Hcb Hra] Hmax.
  destruct (rxq_flush_ok s (q0 ++ take room pushed) bs (rxs ++ l)) as (s' & E & Ho' & Hpq' & Hcap' & Habs' & Hrx' & Hcb' & Hra' & _ & Hb & Hfl); [|done..|].
  { eapply owned_perm; [|exact Ho]. solve_Permutation. }
  set (k := (Z.to_nat _ - _)%nat) in *.
  assert (Hk : k = (room - length (take room pushed))%nat) by (unfold k, room; rewrite Hcap, length_app; lia).
  assert (Hkept : (q0 ++ take room pushed) ++ take k bs = q0 ++ take room (pushed ++ bs)) by (by rewrite <- app_assoc, Hk, <- take_app_room).
  rewrite Hkept in *. pose proof (owned_nodup _ _ Ho) as Hnd.
  assert (Hne : forall j, j ∈ rxs ++ take k bs ++ (q0 ++ take room pushed) ++ l -> bufs (w_pool (env s')) !! j = bufs (w_pool (env s)) !! j).
  { intros j Hj. apply Hb. intros Hj'. rewrite <- (take_drop k bs) in Hnd.
    assert (P : rxs ++ (take k bs ++ drop k bs) ++ (q0 ++ take room pushed) ++ l ≡ₚ drop k bs ++ (rxs ++ take k bs ++ (q0 ++ take room pushed) ++ l)) by solve_Permutation.
    rewrite P in Hnd. apply NoDup_app in Hnd as (_ & Hdis & _). by apply (Hdis j). }
  exists s'. split; [done|]. split; [|split_and!; try done; intros j Hj; apply Hne; set_solver].
  split; cbn; try (by rewrite ?Hrx', ?Hcap', ?Hcb', ?Hra'); try done.
  - eapply owned_perm; [|exact Ho']. solve_Permutation.
  - rewrite !length_app, Hlen, (Forall2_length _ _ _ Hbs). done.
  - pose proof (Forall2_length _ _ _ Hpu) as Hl2. rewrite !take_app_room, <- Hl2, <- Hk. apply Forall2_app.
    + eapply all_delivered_frame; [|exact Hpu]. intros j Hj. apply Hne. set_solver.
    + eapply all_delivered_frame; [intros j Hj; apply Hne; set_solver|]. by apply Forall2_take.
Qed.

(** The frame of a slot: into the burst, or skipped. *)
Lemma rx_inv_step s pushed Fp bs Fb c d fr frs :
  rx_inv s pushed Fp bs Fb -> rx_ring (rx_queue (fep s)) !! c = Some d -> rx_slot s rxs c fr -> Z.of_nat (length bs) < 64 ->
  (length (omap id (fr :: frs)) <= length (free_list (w_pool (env s))))%nat ->
  exists s1 bs1 Fb1,
    (if negb (Z.land (Z.lxor (cbd_sc d) BD_ENET_RX_LAST) rx_error_bits =? 0) then Ok (Some <$> bs, s) else
       '(m, s) ← rxq_frame false (slot_ptr (rx_bd (rx_queue (fep s))) c) d s;
       if Z.of_nat (length (Some <$> bs)) <? 2 * BSTGW_RX_BURST_SZ then Ok ((Some <$> bs) ++ [Some m], s) else Undef) = Ok (Some <$> bs1, s1) /\
    rx_inv s1 pushed Fp bs1 Fb1 /\ Fb1 = Fb ++ omap id [fr] /\ fep s1 = fep s /\ (length bs1 <= S (length bs))%nat /\
    (forall j, j ∈ rxs -> bufs (w_pool (env s1)) !! j = bufs (w_pool (env s)) !! j) /\
    (length (omap id frs) <= length (free_list (w_pool (env s1))))%nat.
Proof.
  intros Hinv Hd Hfr Hbl Hroom. pose proof Hfr as (d' & Hd' & _ & Hcase). assert (d' = d) as -> by congruence.
  destruct fr as [b|]; unfold rx_error in Hcase.
  - destruct Hcase as [-> _]. destruct (free_list (w_pool (env s))) as [|m fl] eqn:Efl; [cbn in Hroom; lia|].
    destruct (rx_inv_good _ _ _ _ _ c d b m fl Hinv Hd Hfr Efl) as (w' & -> & Hinv' & Hfl' & Hb). cbn [mbind outcome_bind].
    rewrite length_fmap. unfold BSTGW_RX_BURST_SZ. rewrite (proj2 (Z.ltb_lt _ _)) by lia.
    exists (s <| env := w' |>), (bs ++ [m]), (Fb ++ [b]). rewrite fmap_app. split_and!; try done; [rewrite length_app; cbn; lia|].
    cbn. rewrite Hfl'. cbn in Hroom. lia.
  - rewrite Hcase. exists s, bs, Fb. cbn. rewrite app_nil_r. split_and!; try done. lia.
Qed.

(** After the descriptor is released: the burst is flushed if it is full. *)
Lemma rx_inv_round s pushed Fp bs Fb (burst_sz : Z) :
  rx_inv s pushed Fp bs Fb -> 0 < burst_sz <= 32 -> Z.of_nat (length bs) <= burst_sz ->
  exists s' pushed' Fp' bs' Fb',
    (if burst_sz <=? Z.of_nat (length (Some <$> bs)) then s ← rxq_flush (Some <$> bs) s; Ok ([], s) else Ok (Some <$> bs, s))
      = Ok (Some <$> bs', s') /\
    rx_inv s' pushed' Fp' bs' Fb' /\ Fp' ++ Fb' = Fp ++ Fb /\ Z.of_nat (length bs') < burst_sz /\
    rx_queue (fep s') = rx_queue (fep s) /\ rx_copybreak (fep s') = rx_copybreak (fep s) /\
    (forall j, j ∈ rxs -> bufs (w_pool (env s')) !! j = bufs (w_pool (env s)) !! j) /\
    (length (free_list (w_pool (env s))) <= length (free_list (w_pool (env s'))))%nat.
Proof.
  intros Hinv Hb Hle. rewrite length_fmap. destruct (Z.leb_spec burst_sz (Z.of_nat (length bs))).
  - destruct (rx_inv_flush _ _ _ _ _ Hinv) as (s' & -> & Hinv' & Hq & Hc & Hbf & Hfl); [unfold MAX_U32; lia|]. cbn [mbind outcome_bind].
    exists s', (pushed ++ bs), (Fp ++ Fb), [], []. rewrite app_nil_r. split_and!; try done. cbn. lia.
  - exists s, pushed, Fp, bs, Fb. split_and!; done.
Qed.

Lemma rx_loop_ok (burst_sz : Z) left : forall s c frs pushed Fp bs Fb,
  rx_inv s pushed Fp bs Fb -> 0 < burst_sz <= 32 -> Z.of_nat (length bs) < burst_sz ->
  (c < n)%nat -> (length frs <= left)%nat -> (length frs < n)%nat ->
  (forall j fr, frs !! j = Some fr -> rx_slot s rxs ((c + j) mod n) fr) ->
  ((length frs < left)%nat -> exists d, rx_ring (rx_queue (fep s)) !! ((c + length frs) mod n)%nat = Some d /\ rx_empty d = true) ->
  (length (omap id frs) <= length (free_list (w_pool (env s))))%nat ->
  exists s' pushed' Fp' bs' Fb',
    fec_rxq_loop false left burst_sz (slot_ptr (rx_bd (rx_queue (fep s))) c) (Some <$> bs) s
      = Ok (Z.of_nat (length frs), slot_ptr (rx_bd (rx_queue (fep s))) ((c + length frs) mod n), Some <$> bs', s') /\
    rx_inv s' pushed' Fp' bs' Fb' /\ Fp' ++ Fb' = Fp ++ Fb ++ omap id frs /\ Z.of_nat (length bs') < burst_sz /\
    rx_bd (rx_queue (fep s')) = rx_bd (rx_queue (fep s)) /\ given_back c (length frs) s' /\
    (forall i, (forall j, (j < length frs)%nat -> i <> ((c + j) mod n)%nat) -> rx_ring (rx_queue (fep s')) !! i = rx_ring (rx_queue (fep s)) !! i).
Proof.
  induction left as [|left IH]; intros s c frs pushed Fp bs Fb Hinv Hbz Hbl Hc Hfl Hfn Hsl Hend Hroom; cbn [fec_rxq_loop];
    pose proof (ri_rx _ _ _ _ _ Hinv) as [Hr Hl _ _]; destruct (lookup_lt_is_Some_2 (rx_ring (rx_queue (fep s))) c) as [d Hd]; try lia;
    rewrite (get_slot _ n Hr _ _ d Hd); cbn [mbind outcome_bind].
  { destruct frs; [|cbn in Hfl; lia]. exists s, pushed, Fp, bs, Fb. cbn [length omap]. rewrite Nat.add_0_r, Nat.mod_small, !app_nil_r by done.
    destruct (negb _); split_and!; try done; by intros j; lia. }
  destruct frs as [|fr frs].
  { destruct Hend as (d' & Hd' & He); [cbn; lia|]. cbn [length] in Hd'. rewrite Nat.add_0_r, Nat.mod_small in Hd' by done.
    assert (d' = d) as -> by congruence. unfold rx_empty in He. rewrite He. exists s, pushed, Fp, bs, Fb. cbn [length omap].
    rewrite Nat.add_0_r, Nat.mod_small, !app_nil_r by done. split_and!; try done. by intros j; lia. }
  pose proof (Hsl 0%nat fr eq_refl) as Hfr. rewrite Nat.add_0_r, Nat.mod_small in Hfr by done. pose proof Hfr as (d' & Hd' & He & Hcase).
  assert (d' = d) as -> by congruence. unfold rx_empty in He. rewrite He. cbn [length] in *.
  destruct (rx_inv_step s pushed Fp bs Fb c d fr frs Hinv Hd Hfr) as (s1 & bs1 & Fb1 & -> & Hinv1 & -> & Ef & Hl1 & Hb1 & Hroom1); [lia|done|].
  cbn [mbind outcome_bind].
  destruct (rx_inv_release s1 _ _ _ _ c Hinv1 Hc) as (f2 & E2 & Hinv2 & Hbd2 & Hemp2 & Hr2 & Hcb2). rewrite Ef in E2, Hbd2, Hr2, Hcb2. rewrite E2. cbn [mbind outcome_bind].
  change (fep (s1 <| fep := f2 |>)) with f2. rewrite Hbd2, (next_slot _ n Hr) by done.
  destruct (rx_inv_round _ _ _ _ _ burst_sz Hinv2 Hbz) as (s3 & pushed3 & Fp3 & bs3 & Fb3 & -> & Hinv3 & EF3 & Hbl3 & Eq3 & Ecb3 & Hb3 & Hfl3); [lia|].
  cbn [mbind outcome_bind]. change (fep (s1 <| fep := f2 |>)) with f2 in *. change (env (s1 <| fep := f2 |>)) with (env s1) in *.
  rewrite <- Hbd2. rewrite <- Eq3.
  assert (Hsh : forall j, ((S c mod n + j) mod n = (c + S j) mod n)%nat) by (intros j; rewrite Nat.Div0.add_mod_idemp_l; f_equal; lia).
  assert (Hother : forall j, (S j < n)%nat -> ((c + S j) mod n)%nat <> c).
  { intros j Hj E. rewrite <- (Nat.mod_small c n) in E at 2 by done. rewrite <- (Nat.add_0_r c) in E at 2. apply ring_index_inj in E; lia. }
  destruct (IH s3 (S c mod n)%nat frs pushed3 Fp3 bs3 Fb3) as (s4 & pushed4 & Fp4 & bs4 & Fb4 & -> & Hinv4 & EF4 & Hbl4 & Ebd4 & Hgb4 & Hfr4); try done; try lia.
  - apply Nat.mod_upper_bound. lia.
  - intros j fr' Hj. rewrite Hsh. apply (rx_slot_frame s); [rewrite Eq3; apply Hr2; apply Hother; apply lookup_lt_Some in Hj; lia|congruence| |by apply Hsl].
    intros m Hm. by rewrite Hb3, Hb1.
  - intros Hlt. rewrite Hsh. destruct Hend as (d' & Hd2 & He2); [lia|]. exists d'. rewrite Eq3, Hr2; [done|]. apply Hother. lia.
  - cbn [mbind outcome_bind]. exists s4, pushed4, Fp4, bs4, Fb4. rewrite Hsh. split; [do 3 f_equal; f_equal; lia|].
    split; [done|]. split; [rewrite EF4, app_assoc, EF3, <- !app_assoc; do 2 f_equal; by destruct fr|]. split; [done|]. split; [congruence|]. split.
    + intros [|j] Hj; [|rewrite <- Hsh; apply Hgb4; lia]. rewrite Nat.add_0_r, Nat.mod_small by done.
      rewrite Hfr4, Eq3; [done|]. intros j' Hj'. rewrite Hsh. apply not_eq_sym, Hother. lia.
    + intros i Hi. rewrite Hfr4, Eq3, Hr2; [done| |].
      * intros ->. apply (Hi 0%nat); [lia|]. by rewrite Nat.add_0_r, Nat.mod_small.
      * intros j' Hj'. rewrite Hsh. apply Hi. lia.
Qed.

End loop.
(** ** Properties *)

(** C27. Reception, in a build without assertions (with them every good frame
    panics: [fec_rxq_assert_panics]).  If the next [length frs] descriptors of
    the receive ring hold frames, some of them with errors ([None]), the good
    ones no longer than the copy-break limit of the driver (longer ones panic:
    [fec_rxq_long_frame_panics]), and the one after them is empty (or the
    budget ends there), with buffers left in the pool for the good ones:
    [fec_rxq] returns their number; the good frames, without the padding in
    front and the checksum behind, are appended to the input queue in the
    order of their arrival, each in a buffer of its own, as far as the queue
    has room; the others are dropped and their buffers returned to the pool;
    each of the descriptors is marked empty again, which gives it back to the
    controller, the receive buffers stay where they are, and the next call
    goes on behind the last of them. *)
Theorem fec_rxq_delivers s n c rxs q0 l frs budget :
  rx_ok (rx_queue (fep s)) n rxs -> bd_cur (rx_bd (rx_queue (fep s))) = slot_ptr (rx_bd (rx_queue (fep s))) c -> (c < n)%nat ->
  pq_wf (in_queue (fep s)) -> pq_abs (in_queue (fep s)) = Some <$> q0 -> owned (env s) (rxs ++ q0 ++ l) ->
  rx_copybreak (fep s) <= 2048 -> negb (Z.land (quirks (fep s)) FEC_QUIRK_HAS_RACC =? 0) = true ->
  0 < budget -> Z.of_nat (length frs) <= budget -> (length frs < n)%nat ->
  (forall j fr, frs !! j = Some fr -> rx_slot s rxs ((c + j) mod n) fr) ->
  (Z.of_nat (length frs) < budget -> exists d, rx_ring (rx_queue (fep s)) !! ((c + length frs) mod n)%nat = Some d /\ rx_empty d = true) ->
  (length (omap id frs) <= length (free_list (w_pool (env s))))%nat ->
  let room := (Z.to_nat (Pktq.capacity (in_queue (fep s))) - length q0)%nat in
  exists s' ids, fec_rxq false budget s = Ok (Z.of_nat (length frs), s') /\
    pq_wf (in_queue (fep s')) /\ pq_abs (in_queue (fep s')) = Some <$> (q0 ++ ids) /\
    Forall2 (delivered s') ids (take room (omap id frs)) /\
    owned (env s') (rxs ++ (q0 ++ ids) ++ l) /\ rx_ok (rx_queue (fep s')) n rxs /\
    bd_cur (rx_bd (rx_queue (fep s'))) = slot_ptr (rx_bd (rx_queue (fep s'))) ((c + length frs) mod n) /\
    given_back n c (length frs) s'.
Proof.
  intros Hrx Hcur Hc Hpq Habs Ho Hcb Hra Hbud Hfl Hfn Hsl Hend Hroom rm. unfold fec_rxq. rewrite (proj2 (Z.ltb_ge _ _)) by lia. rewrite Hcur.
  set (cap := Pktq.capacity (in_queue (fep s))) in *.
  assert (Hinv : rx_inv n rxs l q0 cap s [] [] [] []).
  { split; try done; rewrite ?take_nil, ?app_nil_r; try done. }
  change (@nil ebptr) with (Some <$> @nil positive).
  destruct (rx_loop_ok n rxs l q0 cap (Z.min budget BSTGW_RX_BURST_SZ) (Z.to_nat budget) s c frs [] [] [] [] Hinv)
    as (s1 & pushed & Fp & bs & Fb & -> & Hinv1 & EF & Hbl & Ebd & Hgb & _); try done; unfold BSTGW_RX_BURST_SZ in *; cbn [length]; try lia.
  { intros Hlt. apply Hend. lia. }
  cbn [mbind outcome_bind]. cbn in EF.
  assert (Hflush : exists s2, match Some <$> bs with [] => Ok s1 | _ => rxq_flush (Some <$> bs) s1 end = Ok s2 /\
    rx_inv n rxs l q0 cap s2 (pushed ++ bs) (Fp ++ Fb) [] [] /\ rx_queue (fep s2) = rx_queue (fep s1)).
  { destruct bs as [|b0 bs].
    - exists s1. rewrite app_nil_r. pose proof (ri_bs _ _ _ _ _ _ _ _ _ _ Hinv1) as Hf. apply Forall2_nil_inv_l in Hf as ->. by rewrite app_nil_r.
    - destruct (rx_inv_flush n rxs l q0 cap _ _ _ _ _ Hinv1) as (s2 & E & Hinv2 & Eq & _); [unfold MAX_U32; lia|]. by exists s2. }
  destruct Hflush as (s2 & -> & [I1 I2 I3 I4 I5 I6 I7 _ _ _] & Eq2). cbn [mbind outcome_bind]. rewrite EF in I7.
  eexists _, _. split; [done|]. cbn. split; [exact I3|]. split; [exact I5|]. split; [exact I7|]. split; [exact I2|].
  split; [destruct I1 as [[] ? ? ?]; by repeat split|]. rewrite Eq2. cbn. split; [unfold slot_ptr; cbn; by rewrite Ebd|]. intros j Hj. cbn. rewrite Eq2. by apply Hgb.
Qed.

(** With assertions the copy of a received frame panics: the buffer is asked
    for with the length of the frame, and the assertion wants 2048. *)
Lemma fec_rxq_assert_panics s n c rxs d budget :
  rx_ok (rx_queue (fep s)) n rxs -> bd_cur (rx_bd (rx_queue (fep s))) = slot_ptr (rx_bd (rx_queue (fep s))) c -> (c < n)%nat ->
  rx_copybreak (fep s) = COPYBREAK_DEFAULT -> 0 < budget ->
  rx_ring (rx_queue (fep s)) !! c = Some d -> rx_empty d = false -> rx_error d = false ->
  4 <= cbd_datlen d <= 1522 ->
  fec_rxq (T := T) true budget s = Panic.
Proof.
  intros [Hr Hl Hs Hn] Hcur Hc Hcb Hbud Hd He Her Hlen. unfold rx_empty, rx_error in *. unfold fec_rxq. rewrite (proj2 (Z.ltb_ge _ _)) by lia. rewrite Hcur.
  destruct (Z.to_nat budget) as [|k] eqn:Ek; [lia|]. cbn [fec_rxq_loop]. rewrite (get_slot _ n Hr _ _ d Hd). cbn [mbind outcome_bind].
  rewrite He, Her. unfold rxq_frame. rewrite (index_slot _ n Hr), Hs.
  destruct (lookup_lt_is_Some_2 rxs c) as [m Hm]; [lia|].
  rewrite (proj2 (aget_ok _ (Z.of_nat c) (Some m))) by (rewrite Nat2Z.id, list_lookup_fmap, Hm; split; [lia|done]).
  cbn [deref mbind outcome_bind]. unfold fec_enet_copybreak. rewrite Hcb, u32_small by lia. unfold COPYBREAK_DEFAULT.
  rewrite (proj2 (Z.ltb_ge 1518 (cbd_datlen d - 4))) by lia. unfold netdev_alloc_skb, BSTGW_DEFAULT_BUF_SIZE.
  by rewrite (proj2 (Z.eqb_neq (cbd_datlen d - 4) 2048)) by lia.
Qed.

(** C35. A long frame stops the gateway (here: built without assertions, of
    which one stops it on every good frame).  The controller accepts frames of up to
    1984 bytes, but the driver panics on the first good frame of more than 1522
    bytes, the two bytes of padding and the checksum included (a full frame
    with a VLAN tag is one): any station on the external network can stop the
    secure world with one packet. *)
Theorem fec_rxq_long_frame_panics s n c rxs d budget :
  rx_ok (rx_queue (fep s)) n rxs -> bd_cur (rx_bd (rx_queue (fep s))) = slot_ptr (rx_bd (rx_queue (fep s))) c -> (c < n)%nat ->
  rx_copybreak (fep s) = COPYBREAK_DEFAULT -> 0 < budget ->
  rx_ring (rx_queue (fep s)) !! c = Some d -> rx_empty d = false -> rx_error d = false ->
  1522 < cbd_datlen d <= PKT_MAXBUF_SIZE ->
  fec_rxq (T := T) false budget s = Panic.
Proof.
  intros [Hr Hl Hs Hn] Hcur Hc Hcb Hbud Hd He Her Hlen. unfold PKT_MAXBUF_SIZE, rx_empty, rx_error in *. unfold fec_rxq. rewrite (proj2 (Z.ltb_ge _ _)) by lia. rewrite Hcur.
  destruct (Z.to_nat budget) as [|k] eqn:Ek; [lia|]. cbn [fec_rxq_loop]. rewrite (get_slot _ n Hr _ _ d Hd). cbn [mbind outcome_bind].
  rewrite He, Her. unfold rxq_frame. rewrite (index_slot _ n Hr), Hs.
  destruct (lookup_lt_is_Some_2 rxs c) as [m Hm]; [lia|].
  rewrite (proj2 (aget_ok _ (Z.of_nat c) (Some m))) by (rewrite Nat2Z.id, list_lookup_fmap, Hm; split; [lia|done]).
  cbn [deref mbind outcome_bind]. unfold fec_enet_copybreak. rewrite Hcb, u32_small by lia. unfold COPYBREAK_DEFAULT.
  rewrite (proj2 (Z.ltb_lt 1518 (cbd_datlen d - 4))) by lia. done.
Qed.

End receive.

(** ** An example: one frame received, one descriptor empty *)

Definition ex_rx_buf : bstgw_ethbuf_t := mk_ethbuf None 0 0 0 (Some priv_zero) 0 0 2048 4096 (replicate 2048 7) 63 0 0 0.

Definition ex_rx_pool : ethbuf_pool :=
  mk_pool (list_to_map ((fun i => (i, ex_rx_buf)) <$> [1; 2; 3; 4; 5]%positive)) [1%positive] [2; 3; 4; 5]%positive 5.

Lemma ex_rx_pool_wf : pool_wf ex_rx_pool.
Proof.
  assert (Hwf : eb_wf ex_rx_buf) by (split; vm_compute; try discriminate; by eexists).
  assert (Hall : forall i e, bufs ex_rx_pool !! i = Some e -> e = ex_rx_buf).
  { intros i e Hi%elem_of_list_to_map_2. set_unfold. naive_solver. }
  split; [|intros i|intros i e Hi|intros i e _ Hi|done].
  - cbn. repeat (apply NoDup_cons; split; [set_solver|]). constructor.
  - rewrite <- elem_of_dom. unfold ex_rx_pool at 3. cbn [bufs]. rewrite dom_list_to_map_L. set_solver.
  - rewrite (Hall i e Hi). done.
  - rewrite (Hall i e Hi). repeat split. by eexists.
Qed.

(** The first descriptor holds a frame of 60 bytes and its checksum. *)
Definition ex_rx_drv (datlen : Z) : drv (gmap (list Z) (list Z)) :=
  mk_drv (ex_fec (ex_txq (mk_bufdesc 0 0 0 0 0 0) None 4096)
            (ex_rxq (mk_bufdesc datlen BD_ENET_RX_LAST 4096 0 0 0 :: replicate 3 (mk_bufdesc 0 BD_ENET_RX_EMPTY 4096 0 0 0))
               (Some <$> [2; 3; 4; 5]%positive)))
    (ex_world_of ex_rx_pool (ex_queue 0 (replicate 4 None))).

Lemma ex_rx_ok datlen : rx_ok (rx_queue (fep (ex_rx_drv datlen))) 4 [2; 3; 4; 5]%positive.
Proof. split; [apply ex_bd_wf|done..]. Qed.

Lemma fec_rxq_delivers_witness :
  exists s' ids, fec_rxq false 96 (ex_rx_drv 66) = Ok (1, s') /\
    pq_wf (in_queue (fep s')) /\ pq_abs (in_queue (fep s')) = Some <$> ([] ++ ids) /\
    Forall2 (delivered s') ids [replicate 60 7] /\
    owned (env s') ([2; 3; 4; 5]%positive ++ ([] ++ ids) ++ []) /\ rx_ok (rx_queue (fep s')) 4 [2; 3; 4; 5]%positive /\
    bd_cur (rx_bd (rx_queue (fep s'))) = slot_ptr (rx_bd (rx_queue (fep s'))) 1 /\
    given_back 4 0 1 s'.
Proof.
  apply (fec_rxq_delivers (ex_rx_drv 66) 4 0 [2; 3; 4; 5]%positive [] [] [Some (replicate 60 7)] 96); try done.
  - apply ex_rx_ok.
  - cbn. lia.
  - split; [|done]. apply ex_world_of_ok; [exact ex_rx_pool_wf| |apply ex_queue_wf; auto|constructor].
    intros i e Hi%elem_of_list_to_map_2. set_unfold. assert (e = ex_rx_buf) as -> by naive_solver. cbn. lia.
  - cbn. lia.
  - intros [|j] fr; [|done]. intros [= <-]. eexists. split; [done|]. split; [done|]. split; [done|]. cbn.
    split; [lia|]. split; [unfold COPYBREAK_DEFAULT; lia|]. exists 2%positive, ex_rx_buf. split; [done|]. split; [done|].
    split; [vm_compute; discriminate|done].
  - intros _. by eexists.
Defined.

Lemma fec_rxq_long_frame_panics_witness : fec_rxq false 96 (ex_rx_drv 1524) = Panic.
Proof.
  apply (fec_rxq_long_frame_panics (ex_rx_drv 1524) 4 0 [2; 3; 4; 5]%positive (mk_bufdesc 1524 BD_ENET_RX_LAST 4096 0 0 0) 96); try done.
  - apply ex_rx_ok.
  - lia.
Defined.
