(* ===== verification/FecReset.v ===== *)
(** * Resetting the rings of the Ethernet controller driver
    (fec_drivers/bstgw/imx_fec.c: fec_enet_bd_init, fec_enet_reset_skb).

    A reset frees every packet that waits in the transmit ring, once, empties
    that ring and hands every receive descriptor back to the controller. *)

From S2P Require Import Prelude Pktq EthBuf Napi Netdev Route Forward Worker Fec FecTx FecRx.

(** The descriptor of slot [j] of a reset receive ring. *)
Definition rx_fresh (bd : bufdesc_prop) (j : nat) (d : bufdesc) : bufdesc :=
  d <| cbd_sc := Z.lor (if cbd_bufaddr d =? 0 then 0 else BD_ENET_RX_EMPTY) (wrap_of bd (slot_ptr bd j)) |>.

Section reset.
Context {T : Type} `{ThMap T}.
Implicit Types s : drv T.

(** The packets in the slots of a transmit ring. *)
Lemma tx_ok_slots q n p ms : tx_ok q n p ms -> omap id (tx_skbuff q) ≡ₚ ms.
Proof.
  intros [Hr Hl Hs _ Hp Hu _ _ Hsl _]. pose proof (rg_n _ _ Hr).
  assert (E : drop p (tx_skbuff q) ++ take p (tx_skbuff q) = (Some <$> ms) ++ replicate (n - length ms) None).
  { apply list_eq_same_length with n; [rewrite length_app, length_fmap, length_replicate; lia|rewrite length_app, length_drop, length_take; lia|].
    intros i x y Hi Hx Hy. specialize (Hsl i Hi).
    assert (Hx' : tx_skbuff q !! ((p + i) mod n)%nat = Some x).
    { rewrite <- Hx. destruct (decide (p + i < n)%nat).
      - rewrite Nat.mod_small, lookup_app_l, lookup_drop by (rewrite ?length_drop; lia). done.
      - replace (p + i)%nat with (p + i - n + 1 * n)%nat by lia. rewrite Nat.Div0.mod_add, Nat.mod_small by lia.
        rewrite lookup_app_r, length_drop, lookup_take_lt by (rewrite ?length_drop; lia). f_equal. lia. }
    rewrite Hx' in Hsl. injection Hsl as ->.
    destruct (decide (i < length ms)%nat).
    - rewrite lookup_app_l in Hy by (rewrite length_fmap; lia). rewrite list_lookup_fmap in Hy. destruct (ms !! i); by simplify_eq/=.
    - rewrite lookup_app_r in Hy by (rewrite length_fmap; lia). apply lookup_replicate in Hy as [-> _]. apply lookup_ge_None. lia. }
  rewrite <- (take_drop p (tx_skbuff q)) at 1. rewrite omap_app, Permutation_app_comm, <- omap_app, E, omap_app, omap_id_some.
  replace (omap id (replicate (n - length ms) None)) with (@nil positive); [by rewrite app_nil_r|].
  clear. induction (n - length ms)%nat as [|j IH]; [done|exact IH].
Qed.

(** The memory of a transmit queue: its arrays, and the packets [ms] in its
    slots, wherever its pointers are. *)
Record tx_mem (q : fec_enet_priv_tx_q) (n : nat) (ms : list positive) : Prop := {
  tm_ring : ring_wf (tx_bd q) n;
  tm_len : length (tx_ring q) = n;
  tm_skb : length (tx_skbuff q) = n;
  tm_bounce : length (caligned_tx_bounce q) = n /\
    Forall (fun b => exists a mem, b = Some (a, mem) /\ Z.of_nat (length mem) = FEC_ENET_TX_FRSIZE) (caligned_tx_bounce q);
  tm_slots : omap id (tx_skbuff q) ≡ₚ ms
}.

Lemma tx_ok_mem q n p ms : tx_ok q n p ms -> tx_mem q n ms.
Proof. intros Hok. pose proof (tx_ok_slots _ _ _ _ Hok). by destruct Hok. Qed.

Lemma reset_tx_loop_ok n k : forall i s l,
  ring_wf (tx_bd (tx_queue (fep s))) n -> length (tx_ring (tx_queue (fep s))) = n -> length (tx_skbuff (tx_queue (fep s))) = n ->
  (i + k)%nat = n -> owned (env s) (omap id (drop i (tx_skbuff (tx_queue (fep s)))) ++ l) ->
  exists s' ring', reset_tx_loop k (Z.of_nat i) (slot_ptr (tx_bd (tx_queue (fep s))) (i mod n)) s = Ok s' /\
    fep s' = (fep s) <| tx_queue ::= fun q => q <| tx_skbuff := take i (tx_skbuff q) ++ replicate k None |> <| tx_ring := ring' |> |> /\
    owned (env s') l /\ w_nd (env s') = w_nd (env s) /\ length ring' = n /\
    (forall j, (j < i)%nat -> ring' !! j = tx_ring (tx_queue (fep s)) !! j) /\
    (forall j d, (i <= j)%nat -> ring' !! j = Some d -> Z.land (cbd_sc d) BD_ENET_TX_READY = 0 /\ cbd_bufaddr d = 0).
Proof.
  induction k as [|k IH]; intros i s l Hr Hl Hs Hik Ho.
  - exists s, (tx_ring (tx_queue (fep s))). split; [done|]. rewrite drop_ge in Ho by lia. split_and!; try done.
    + destruct s as [f w]. destruct f as [? ? ? ? q]. destruct q. unfold upd. cbn in *. by rewrite app_nil_r, take_ge by lia.
    + intros j d Hj Hd. apply lookup_lt_Some in Hd. lia.
  - pose proof (rg_n _ _ Hr). cbn [reset_tx_loop]. rewrite Nat.mod_small by lia.
    destruct (lookup_lt_is_Some_2 (tx_ring (tx_queue (fep s))) i) as [d Hd]; [lia|].
    destruct (lookup_lt_is_Some_2 (tx_skbuff (tx_queue (fep s))) i) as [b Hb]; [lia|].
    rewrite (get_slot _ n Hr _ i d) by done. cbn [mbind outcome_bind].
    rewrite (proj2 (aget_ok _ (Z.of_nat i) b)) by (rewrite Nat2Z.id; split; [lia|done]). cbn [mbind outcome_bind].
    assert (Hfree : exists w', match b with None => Ok s | Some m => dev_kfree_skb_any (Some m) s end = Ok (s <| env := w' |>) /\
      owned w' (omap id (drop (S i) (tx_skbuff (tx_queue (fep s)))) ++ l) /\ w_nd w' = w_nd (env s)).
    { rewrite (drop_S _ b) in Ho by done. destruct b as [m|]; cbn in Ho.
      - destruct (owned_free (env s) _ m Ho) as (w' & e' & Hf & Ho' & Hnd & _). exists w'. unfold dev_kfree_skb_any. by rewrite Hf.
      - exists (env s). by destruct s. }
    destruct Hfree as (w' & -> & Ho' & Hnd). cbn [mbind outcome_bind]. rewrite aset_ok, Nat2Z.id by lia. cbn [mbind outcome_bind].
    rewrite (set_slot _ n Hr) by lia. cbn [mbind outcome_bind]. rewrite (next_slot _ n Hr) by lia.
    replace (Z.of_nat i + 1) with (Z.of_nat (S i)) by lia.
    match goal with |- context [reset_tx_loop k _ _ ?x] => set (s1 := x) end.
    destruct (IH (S i) s1 l) as (s' & ring' & E & Hf & Ho2 & Hnd2 & Hrl & Hlo & Hhi).
    { done. } { cbn. by rewrite length_insert. } { cbn. by rewrite length_insert. } { lia. }
    { cbn. by rewrite drop_insert_lt by lia. }
    exists s', ring'. split; [exact E|]. split; [|split_and!; try done].
    + rewrite Hf. unfold s1, upd. cbn. f_equal. f_equal. rewrite (take_S_r _ i None) by (apply list_lookup_insert_eq; lia).
      by rewrite take_insert_ge, <- app_assoc by lia.
    + by rewrite Hnd2.
    + intros j Hj. rewrite Hlo by lia. cbn. apply list_lookup_insert_ne. lia.
    + intros j d' Hj Hd'. destruct (decide (i = j)) as [<-|]; [|apply (Hhi j); [lia|done]].
      rewrite Hlo in Hd' by lia. cbn in Hd'. rewrite list_lookup_insert_eq in Hd' by lia. injection Hd' as <-. split; [apply wrap_not_ready|done].
Qed.

Lemma reset_tx_queue_ok s n ms l :
  tx_mem (tx_queue (fep s)) n ms -> owned (env s) (ms ++ l) ->
  exists s' q', reset_tx_queue s = Ok s' /\ fep s' = (fep s) <| tx_queue := q' |> /\ tx_ok q' n 0 [] /\
    dma (tx_bd q') = dma (tx_bd (tx_queue (fep s))) /\ owned (env s') l /\ w_nd (env s') = w_nd (env s).
Proof.
  intros [Hr Hl Hs Hb Hp] Ho.
  pose proof (rg_n _ _ Hr). unfold reset_tx_queue. rewrite (rg_size _ _ Hr), Nat2Z.id.
  match goal with |- context [reset_tx_loop n 0 _ ?x] => set (s1 := x) end.
  assert (Hr1 : ring_wf (tx_bd (tx_queue (fep s1))) n) by (by destruct Hr; split).
  destruct (reset_tx_loop_ok n n 0 s1 l Hr1 Hl Hs ltac:(lia)) as (s' & ring' & E & Hf & Ho' & Hnd & Hrl & _ & Hhi).
  { eapply owned_perm; [|exact Ho]. apply Permutation_app_tail. by symmetry. }
  replace (bd_base (tx_bd (tx_queue (fep s)))) with (slot_ptr (tx_bd (tx_queue (fep s1))) (0 mod n)).
  2: { rewrite Nat.mod_small by lia. unfold slot_ptr. cbn. lia. }
  eexists s', _. split; [exact E|]. split; [exact Hf|]. split_and!; try done. cbn. split; cbn; try done; try lia.
  - by rewrite take_0, app_nil_l, length_replicate.
  - unfold slot_ptr. cbn. lia.
  - rewrite Nat.mod_small by lia. unfold slot_ptr. cbn. lia.
  - intros i Hi. rewrite take_0, app_nil_l, Nat.mod_small by lia. by apply lookup_replicate_2.
  - intros i d Hi Hd. by apply (Hhi (i mod n)%nat d); [lia|].
Qed.

Lemma bd_init_loop_ok bd n k : forall i ring,
  ring_wf bd n -> length ring = n -> (i + k)%nat = n ->
  exists ring', bd_init_loop k (slot_ptr bd (i mod n)) bd ring = Ok ring' /\ length ring' = n /\
    (forall j, (j < i)%nat -> ring' !! j = ring !! j) /\
    (forall j, (i <= j < n)%nat -> ring' !! j = rx_fresh bd j <$> ring !! j).
Proof.
  induction k as [|k IH]; intros i ring Hr Hl Hik.
  { exists ring. split_and!; try done. intros; lia. }
  pose proof (rg_n _ _ Hr). cbn [bd_init_loop]. rewrite Nat.mod_small by lia.
  destruct (lookup_lt_is_Some_2 ring i) as [d Hd]; [lia|]. rewrite (get_slot _ n Hr _ i d) by done. cbn [mbind outcome_bind].
  rewrite (set_slot _ n Hr) by lia. cbn [mbind outcome_bind]. rewrite (next_slot _ n Hr) by lia.
  match goal with |- context [bd_init_loop k _ _ ?x] => set (r1 := x) end.
  destruct (IH (S i) r1 Hr ltac:(unfold r1; by rewrite length_insert) ltac:(lia)) as (ring' & E & Hrl & Hlo & Hhi).
  exists ring'. split; [exact E|]. split; [done|]. split.
  - intros j Hj. rewrite Hlo by lia. apply list_lookup_insert_ne. lia.
  - intros j Hj. destruct (decide (i = j)) as [<-|].
    + rewrite Hlo, Hd by lia. apply list_lookup_insert_eq. lia.
    + rewrite Hhi by lia. unfold r1. by rewrite list_lookup_insert_ne.
Qed.

Lemma reset_skb_none s n k : forall i,
  tx_skbuff (tx_queue (fep s)) = replicate n None -> (i + k <= n)%nat -> reset_skb_loop k (Z.of_nat i) s = Ok s.
Proof.
  induction k as [|k IH]; intros i Hn Hi; [done|]. cbn [reset_skb_loop].
  rewrite Hn, (proj2 (aget_ok _ (Z.of_nat i) (None : ebptr))) by (rewrite Nat2Z.id, lookup_replicate; split; [lia|split; [done|lia]]).
  cbn [mbind outcome_bind]. replace (Z.of_nat i + 1) with (Z.of_nat (S i)) by lia. apply IH; [done|lia].
Qed.

(** A transmit ring without packets has only empty slots. *)
Lemma tx_ok_empty q n : tx_ok q n 0 [] -> tx_skbuff q = replicate n None.
Proof.
  intros [Hr _ Hs _ _ _ _ _ Hsl _]. pose proof (rg_n _ _ Hr). apply list_eq_same_length with n; [by rewrite length_replicate|done|].
  intros i x y Hi Hx Hy. apply lookup_replicate in Hy as [-> _]. specialize (Hsl i Hi).
  rewrite Nat.add_0_l, Nat.mod_small, Hx in Hsl by lia. by injection Hsl.
Qed.

(** [fec_restart_sw_2]. *)
Lemma restart_sw_2_ok s n ms m rxs l :
  tx_mem (tx_queue (fep s)) n ms -> rx_ok (rx_queue (fep s)) m rxs -> owned (env s) (ms ++ l) ->
  exists s' tq rq, fec_restart_sw_2 s = Ok s' /\
    fep s' = fec_enet_enable_ring ((fep s) <| rx_queue := rq |> <| tx_queue := tq |>) /\
    tx_ok tq n 0 [] /\ rx_ok rq m rxs /\
    bd_cur (rx_bd rq) = bd_base (rx_bd (rx_queue (fep s))) /\
    (forall j, rx_ring rq !! j = rx_fresh (rx_bd (rx_queue (fep s))) j <$> rx_ring (rx_queue (fep s)) !! j) /\
    dma (tx_bd tq) = dma (tx_bd (tx_queue (fep s))) /\ dma (rx_bd rq) = dma (rx_bd (rx_queue (fep s))) /\
    reg_desc_active (rx_bd rq) = reg_desc_active (rx_bd (rx_queue (fep s))) /\ owned (env s') l /\ w_nd (env s') = w_nd (env s).
Proof.
  intros Ht [Rr Rl Rs Rn] Ho. unfold fec_restart_sw_2, fec_enet_bd_init. rewrite (rg_size _ _ Rr), Nat2Z.id. pose proof (rg_n _ _ Rr).
  destruct (bd_init_loop_ok _ m m 0 _ Rr Rl ltac:(lia)) as (ring' & E & Hrl & _ & Hhi).
  replace (slot_ptr _ _) with (bd_base (rx_bd (rx_queue (fep s)))) in E by (rewrite Nat.mod_small by lia; unfold slot_ptr; lia).
  rewrite E. cbn [mbind outcome_bind].
  match goal with |- context [reset_tx_queue ?x] => set (s1 := x) end.
  destruct (reset_tx_queue_ok s1 n ms l Ht Ho) as (s2 & tq & E2 & Hf & Hok & Hdma & Ho' & Hnd). rewrite E2. cbn [mbind outcome_bind].
  pose proof (tx_ok_empty tq n Hok) as Hnone. unfold fec_enet_reset_skb.
  match goal with |- context [reset_skb_loop _ 0 ?x] => set (s3 := x) end.
  assert (Ef : fep s3 = fec_enet_enable_ring ((fep s1) <| tx_queue := tq |>)) by (unfold s3; by rewrite <- Hf).
  rewrite (rg_size _ n) by (rewrite Ef; apply Hok). rewrite Nat2Z.id. change 0 with (Z.of_nat 0). rewrite (reset_skb_none s3 n n 0) by (rewrite ?Ef; done || lia).
  eexists s3, tq, _. split; [done|]. split; [exact Ef|]. split_and!; try done.
  - destruct Rr; split; cbn; try done.
  - intros j. cbn. destruct (decide (j < m)%nat); [apply Hhi; lia|]. rewrite !lookup_ge_None_2 by lia. done.
Qed.

End reset.
