(* ===== verification/FecTraps.v ===== *)
(** * The normal world's accesses to the Ethernet controller
    (fec_drivers/bstgw/nw_mmio_traps.c).

    The normal world keeps a driver for the link management of the
    controller.  Its register accesses trap; the handler follows the sequences
    of that driver, does the secure driver's part of each step, corrects the
    value and panics on anything else.  Whatever the normal world does, only
    harmless values reach the controller. *)

From S2P Require Import Prelude Pktq EthBuf Napi Netdev Route Forward Worker Fec FecTx FecRx.

(** ** The trap handler *)

(** [enum emu_state] of the trap framework: a write before it is done, a read
    before and after. *)
Inductive emu_state := EMU_STATE_WRITE | EMU_STATE_READ_BEFORE | EMU_STATE_READ_AFTER.
#[global] Instance emu_state_eq_dec : EqDecision emu_state.
Proof. solve_decision. Defined.

(** The values of the enumeration, which the handler compares. *)
Definition sub_num (x : sfec_subst_t) : Z :=
  match x with
  | SFEC_SUB_NONE => 0
  | SFEC_SUB_RESTART_RESET => 0x10 | SFEC_SUB_RESTART_INIT => 0x11 | SFEC_SUB_RESTART_MII_MODE => 0x12
  | SFEC_SUB_RESTART_MII_SPEED => 0x13 | SFEC_SUB_RESTART_FCE_EN => 0x14 | SFEC_SUB_RESTART_R_CNTRL => 0x15
  | SFEC_SUB_RESTART_ECNTRL => 0x16 | SFEC_SUB_RESTART_IMASK_RUN => 0x17 | SFEC_SUB_RESTART_IMASK_MII => 0x18
  | SFEC_SUB_STOP_GET_RMII => 0x20 | SFEC_SUB_STOP_XMIT_STOP => 0x21 | SFEC_SUB_STOP_GET_IEVENT => 0x22
  | SFEC_SUB_STOP_RESET => 0x23 | SFEC_SUB_STOP_MII_IMASK => 0x24 | SFEC_SUB_STOP_MII_SPEED => 0x25
  | SFEC_SUB_STOP_ECNTRL => 0x26
  end.
Definition in_restart (x : sfec_subst_t) : bool :=
  (sub_num SFEC_SUB_RESTART_RESET <=? sub_num x) && (sub_num x <=? sub_num SFEC_SUB_RESTART_IMASK_MII).
Definition in_stop (x : sfec_subst_t) : bool :=
  (sub_num SFEC_SUB_STOP_GET_RMII <=? sub_num x) && (sub_num x <=? sub_num SFEC_SUB_STOP_ECNTRL).

Definition FEC_MMFR_DATA (v : Z) : Z := Z.land v 0xffff.

Section traps.
Context {T : Type} `{ThMap T}.
(** [hw]: the controller's registers, as in the driver.  [junk]: the two bytes
    behind the address in [fec_restart_sw_1]. *)
Context (hw : nat -> Z -> Z) (junk : Z * Z) (ndev : positive).
Implicit Types s : drv T.

Definition set_st (g : sfec_state_t -> sfec_state_t) (s : drv T) : drv T :=
  s <| fep ::= fun f => f <| sfec_state ::= g |> |>.
Definition set_sub (x : sfec_subst_t) : drv T -> drv T := set_st (fun st => st <| sub_st := x |>).
Definition set_pri (x : sfec_prist_t) : drv T -> drv T := set_st (fun st => st <| primary_st := x |>).

(** What is left in [*value], and the state.  ([fec_state_panic] is [Panic].) *)
Definition _fec_emulate_fec_restart (offset : Z) (state : emu_state) (value : Z) (s : drv T) : outcome (Z * drv T) :=
  let st := sfec_state (fep s) in
  c_assert (in_restart (sub_st st));;
  if negb (bool_decide (state = EMU_STATE_WRITE)) then Panic else
  match sub_st st with
  | SFEC_SUB_RESTART_RESET =>
      if negb (offset =? FEC_IEVENT) || negb (value =? 0xffffffff) then Panic else
      d ← dev_get (env s) ndev;
      let s := s <| fep ::= fec_restart_sw_1 junk (hwaddr d) |> in
      Ok (value, set_sub SFEC_SUB_RESTART_INIT s)
  | SFEC_SUB_RESTART_INIT =>
      if negb (offset =? FEC_X_CNTRL) || (negb (value =? 4) && negb (value =? 0)) then Panic else
      s ← fec_restart_sw_2 s;
      let s := if value =? 0 then set_st (fun st => st <| rcntl ::= fun r => Z.lor r 2 |>) s else s in
      Ok (value, set_sub SFEC_SUB_RESTART_MII_MODE s)
  | SFEC_SUB_RESTART_MII_MODE =>
      if negb (offset =? FEC_MII_SPEED) then Panic else
      Ok (value, set_sub SFEC_SUB_RESTART_MII_SPEED s)
  | SFEC_SUB_RESTART_MII_SPEED | SFEC_SUB_RESTART_FCE_EN =>
      if negb (offset =? FEC_R_FIFO_RSEM) && negb (offset =? FEC_R_CNTRL) then Panic else
      if bool_decide (sub_st st = SFEC_SUB_RESTART_MII_SPEED) && (offset =? FEC_R_FIFO_RSEM) then
        if negb (value =? FEC_ENET_RSEM_V) then Panic else Ok (value, set_sub SFEC_SUB_RESTART_FCE_EN s)
      else
      if negb (offset =? FEC_R_CNTRL) then Panic else
      let s := s <| fep ::= fec_restart_sw_3 hw |> in
      let s := set_st (fun st => st <| rcntl ::= fun r => Z.lor r (Z.lor 0x40000000 0x20) |>) s in
      let s := if bool_decide (sub_st st = SFEC_SUB_RESTART_MII_SPEED)
               then set_st (fun st => st <| rcntl ::= fun r => Z.ldiff r FEC_ENET_FCE |>) s
               else set_st (fun st => st <| rcntl ::= fun r => Z.lor r FEC_ENET_FCE |>) s
                      <| fep ::= fec_restart_sw_4_opt |> in
      let value := Z.land value (Z.lor (Z.lor (Z.shiftl 1 6) (Z.shiftl 1 8)) (Z.shiftl 1 9)) in
      let value := Z.lor value (rcntl (sfec_state (fep s))) in
      Ok (value, set_sub SFEC_SUB_RESTART_R_CNTRL (set_st (fun st => st <| rcntl := 0 |>) s))
  | SFEC_SUB_RESTART_R_CNTRL =>
      if negb (offset =? FEC_ECNTRL) then Panic else
      let s := s <| fep ::= fec_restart_sw_5 hw |> in
      let value := Z.lor (Z.land value (Z.shiftl 1 5)) (ecntl (sfec_state (fep s))) in
      Ok (value, set_sub SFEC_SUB_RESTART_ECNTRL (set_st (fun st => st <| ecntl := 0 |>) s))
  | SFEC_SUB_RESTART_ECNTRL =>
      if negb (offset =? FEC_IMASK) || (negb (value =? FEC_DEFAULT_IMASK) && negb (value =? FEC_ENET_MII)) then Panic else
      let s := s <| fep ::= fec_restart_sw_6 |> in
      if bool_decide (primary_st st = SFEC_PRI_OPENING) then
        Ok (value, set_sub (if value =? FEC_DEFAULT_IMASK then SFEC_SUB_RESTART_IMASK_RUN else SFEC_SUB_RESTART_IMASK_MII)
                     (set_pri SFEC_PRI_POST_OPEN s))
      else
        let s := set_sub SFEC_SUB_NONE (set_pri SFEC_PRI_RUNNING s) in
        if negb (value =? FEC_DEFAULT_IMASK) then Panic else
        s ← fec_enet_adjust_link_sw_restart_post ndev s;
        Ok (value, s)
  | _ => Panic
  end.

Definition _fec_emulate_fec_stop (offset : Z) (state : emu_state) (value : Z) (s : drv T) : outcome (Z * drv T) :=
  let st := sfec_state (fep s) in
  c_assert (in_stop (sub_st st));;
  let write := bool_decide (state = EMU_STATE_WRITE) in
  match sub_st st with
  | SFEC_SUB_STOP_GET_RMII | SFEC_SUB_STOP_GET_IEVENT =>
      if negb write then Panic else
      if (offset =? FEC_X_CNTRL) && (value =? 1) && bool_decide (sub_st st = SFEC_SUB_STOP_GET_RMII) then
        Ok (value, set_sub SFEC_SUB_STOP_XMIT_STOP s)
      else
      if negb (offset =? FEC_ECNTRL) || negb (value =? 1) then Panic else
      Ok (value, set_sub SFEC_SUB_STOP_RESET s)
  | SFEC_SUB_STOP_XMIT_STOP =>
      if negb (offset =? FEC_IEVENT) || write then Panic else
      if bool_decide (state = EMU_STATE_READ_BEFORE) then Ok (value, s) else
      Ok (Z.land value FEC_ENET_GRA, set_sub SFEC_SUB_STOP_GET_IEVENT s)
  | SFEC_SUB_STOP_RESET =>
      if negb (offset =? FEC_IMASK) || negb (value =? FEC_ENET_MII) || negb write then Panic else
      Ok (value, set_sub SFEC_SUB_STOP_MII_IMASK s)
  | SFEC_SUB_STOP_MII_IMASK =>
      if negb (offset =? FEC_MII_SPEED) || negb write then Panic else
      Ok (value, set_sub SFEC_SUB_STOP_MII_SPEED s)
  | SFEC_SUB_STOP_MII_SPEED =>
      if negb (offset =? FEC_ECNTRL) || negb (value =? 2) || negb write then Panic else
      Ok (value, set_sub SFEC_SUB_STOP_ECNTRL s)
  | SFEC_SUB_STOP_ECNTRL =>
      if negb (offset =? FEC_R_CNTRL) || negb write then Panic else
      if negb (value =? rmii_mode st) then Panic else
      let s := set_st (fun st => st <| rmii_mode := 0 |>) s in
      s ← fec_enet_adjust_link_sw_stop_post s;
      let pri := if bool_decide (primary_st (sfec_state (fep s)) = SFEC_PRI_SHUTTING_DOWN)
                 then SFEC_PRI_SHUT_DOWN else SFEC_PRI_STOPPED in
      Ok (value, set_sub SFEC_SUB_NONE (set_pri pri s))
  | _ => Panic
  end.

(** The case of a running, restarted or stopped controller. *)
Definition emu_runtime (offset : Z) (state : emu_state) (value : Z) (s : drv T) : outcome (bool * Z * drv T) :=
  let st := sfec_state (fep s) in
  let write := bool_decide (state = EMU_STATE_WRITE) in
  if bool_decide (sub_st st = SFEC_SUB_NONE) then
    if (offset =? FEC_X_WMRK) && (value =? 48) && write then Ok (false, value, set_pri SFEC_PRI_SHUTTING_DOWN s) else
    if offset =? FEC_R_CNTRL then
      if bool_decide (state = EMU_STATE_READ_BEFORE) then Ok (true, value, s) else
      if negb (bool_decide (state = EMU_STATE_READ_AFTER)) then Panic else
      s ← fec_enet_adjust_link_sw_stop_pre ndev s;
      let value := Z.land value (Z.shiftl 1 8) in
      Ok (true, value, set_sub SFEC_SUB_STOP_GET_RMII (set_st (fun st => st <| rmii_mode := value |>) s))
    else
    if (offset =? FEC_ECNTRL) && (value =? 1) && write && negb (bool_decide (primary_st st = SFEC_PRI_SHUTTING_DOWN)) then
      s ← fec_enet_adjust_link_sw_restart_pre ndev s;
      let s := s <| fep ::= fec_restart_sw_0 |> in
      Ok (true, value, set_sub SFEC_SUB_RESTART_RESET s)
    else Panic
  else if in_stop (sub_st st) then
    '(value, s) ← _fec_emulate_fec_stop offset state value s; Ok (true, value, s)
  else if bool_decide (primary_st st = SFEC_PRI_SHUTTING_DOWN) then Panic
  else if in_restart (sub_st st) then
    '(value, s) ← _fec_emulate_fec_restart offset state value s; Ok (true, value, s)
  else Panic.

(** Whether the access is allowed, what is left in [*value], and the state;
    [base]: the start of the trapped region. *)
Definition fec_emu_check (base address : Z) (state : emu_state) (value size : Z) (s : drv T) : outcome (bool * Z * drv T) :=
  let offset := address - base in
  let st := sfec_state (fep s) in
  let write := bool_decide (state = EMU_STATE_WRITE) in
  if negb (size =? 4) then Ok (false, value, s) else
  if bool_decide (primary_st st = SFEC_PRI_ERROR) || bool_decide (primary_st st = SFEC_PRI_SHUT_DOWN) then Ok (false, value, s) else
  if bool_decide (primary_st st = SFEC_PRI_PROBED) && (offset =? FEC_MII_SPEED) && write then Ok (true, value, s) else
  if offset =? FEC_MII_DATA then
    if write || bool_decide (state = EMU_STATE_READ_BEFORE) then Ok (true, value, s) else Ok (true, FEC_MMFR_DATA value, s)
  else
  if (offset =? FEC_IEVENT) && negb write && negb (bool_decide (sub_st st = SFEC_SUB_STOP_XMIT_STOP)) then
    if bool_decide (state = EMU_STATE_READ_BEFORE) then Ok (true, value, s) else Ok (true, Z.land value FEC_ENET_MII, s)
  else
  match primary_st st with
  | SFEC_PRI_PROBED =>
      if negb (bool_decide (sub_st st = SFEC_SUB_NONE)) || negb (offset =? FEC_ECNTRL) || negb (value =? 1) || negb write then Panic else
      let s := s <| fep ::= fec_restart_sw_0 |> in
      Ok (true, value, set_sub SFEC_SUB_RESTART_RESET (set_pri SFEC_PRI_OPENING s))
  | SFEC_PRI_RESTARTED | SFEC_PRI_STOPPED | SFEC_PRI_RUNNING =>
      emu_runtime offset state value s
  | SFEC_PRI_OPENING =>
      if (sub_num (sub_st st) <? sub_num SFEC_SUB_RESTART_RESET) || (sub_num SFEC_SUB_RESTART_IMASK_MII <? sub_num (sub_st st)) then Panic else
      '(value, s) ← _fec_emulate_fec_restart offset state value s; Ok (true, value, s)
  | SFEC_PRI_POST_OPEN =>
      if negb (offset =? FEC_X_WMRK) || negb (value =? 47) || negb write then Panic else
      pri ← (match sub_st st with
             | SFEC_SUB_RESTART_IMASK_RUN => Ok SFEC_PRI_RUNNING
             | SFEC_SUB_RESTART_IMASK_MII => Ok SFEC_PRI_RESTARTED
             | _ => Panic
             end);
      s ← fec_enet_open_sw ndev (set_sub SFEC_SUB_NONE (set_pri pri s));
      Ok (false, value, s)
  | _ => Panic
  end.

End traps.

(** ** Confinement *)

(** What may reach the controller by a write of the normal world: management
    of the PHY, reset and enable with the driver's settings, the masks the
    driver itself uses.  The ring and address registers are not among them,
    and neither the loopback nor the promiscuous mode of [R_CNTRL] (bits 0
    and 3). *)
Definition nw_write_ok (off v : Z) : Prop :=
  off = FEC_MII_DATA \/ off = FEC_MII_SPEED \/
  off = FEC_IEVENT /\ v = 0xffffffff \/
  off = FEC_IMASK /\ (v = FEC_DEFAULT_IMASK \/ v = FEC_ENET_MII) \/
  off = FEC_X_CNTRL /\ (v = 0 \/ v = 1 \/ v = 4) \/
  off = FEC_R_FIFO_RSEM /\ v = FEC_ENET_RSEM_V \/
  off = FEC_ECNTRL /\ (v = 1 \/ Z.ldiff v 0x130 = FEC_ENET_ETHEREN) \/
  off = FEC_R_CNTRL /\ (v = 0 \/ v = 0x100 \/ Z.ldiff v 0x362 = Z.lor OPT_FRAME_SIZE 0x40000004).

(** What a read gives the normal world. *)
Definition nw_read_ok (off v : Z) : Prop :=
  off = FEC_MII_DATA /\ 0 <= v < 2 ^ 16 \/
  off = FEC_IEVENT /\ (v = 0 \/ v = FEC_ENET_MII \/ v = FEC_ENET_GRA) \/
  off = FEC_R_CNTRL /\ (v = 0 \/ v = 0x100).

Definition nw_access_ok (off : Z) (state : emu_state) (v : Z) : Prop :=
  match state with
  | EMU_STATE_WRITE => nw_write_ok off v
  | EMU_STATE_READ_BEFORE => off = FEC_MII_DATA \/ off = FEC_IEVENT \/ off = FEC_R_CNTRL
  | EMU_STATE_READ_AFTER => nw_read_ok off v
  end.

(** The registers collected for the next steps of a restart or stop. *)
Definition st_inv (st : sfec_state_t) : Prop :=
  match sub_st st with
  | SFEC_SUB_RESTART_RESET | SFEC_SUB_RESTART_INIT => rcntl st = Z.lor OPT_FRAME_SIZE 4 /\ ecntl st = FEC_ENET_ETHEREN
  | SFEC_SUB_RESTART_MII_MODE | SFEC_SUB_RESTART_MII_SPEED | SFEC_SUB_RESTART_FCE_EN =>
      (rcntl st = Z.lor OPT_FRAME_SIZE 4 \/ rcntl st = Z.lor OPT_FRAME_SIZE 6) /\ ecntl st = FEC_ENET_ETHEREN
  | SFEC_SUB_RESTART_R_CNTRL => ecntl st = FEC_ENET_ETHEREN
  | x => in_stop x = true -> rmii_mode st = 0 \/ rmii_mode st = 0x100
  end.

(** Takes the branch of the handler that does not panic. *)
Ltac trap_guards E :=
  repeat match type of E with
  | context [?a =? ?b] => destruct (Z.eqb_spec a b); subst; cbn [negb orb andb] in E; try discriminate E
  | context [bool_decide ?P] => destruct (bool_decide_reflect P); subst; cbn [negb orb andb] in E; try discriminate E
  end.

Lemma land_bit v k : 0 <= k -> Z.land v (2 ^ k) = 0 \/ Z.land v (2 ^ k) = 2 ^ k.
Proof.
  intros Hk. destruct (Z.testbit v k) eqn:E; [right|left]; apply Z.bits_inj'; intros i Hi;
    rewrite Z.land_spec, Z.pow2_bits_eqb by done; rewrite ?Z.bits_0; destruct (Z.eqb_spec k i) as [->|]; by rewrite ?E, ?andb_false_r.
Qed.

Lemma ldiff_lor_l a b c : Z.ldiff (Z.lor a b) c = Z.lor (Z.ldiff a c) (Z.ldiff b c).
Proof. by rewrite !Z.ldiff_land, Z.land_lor_distr_l. Qed.

(** The bits of [R_CNTRL] the normal world does not choose. *)
Lemma rcntl_masked v r (fce : bool) :
  r = Z.lor OPT_FRAME_SIZE 4 \/ r = Z.lor OPT_FRAME_SIZE 6 ->
  Z.ldiff (Z.lor (Z.land v (Z.lor (Z.lor (Z.shiftl 1 6) (Z.shiftl 1 8)) (Z.shiftl 1 9)))
             ((if fce then fun x => Z.lor x FEC_ENET_FCE else fun x => Z.ldiff x FEC_ENET_FCE) (Z.lor r (Z.lor 0x40000000 0x20)))) 0x362
  = Z.lor OPT_FRAME_SIZE 0x40000004.
Proof.
  intros Hr. rewrite ldiff_lor_l, (Z.ldiff_land (Z.land v _)), <- Z.land_assoc.
  change (Z.land _ (Z.lnot 0x362)) with 0. rewrite Z.land_0_r, Z.lor_0_l. by destruct Hr as [-> | ->], fce.
Qed.

Lemma ok_pair {A B} (a c : A) (b d : B) : Ok (a, b) = Ok (c, d) -> c = a /\ d = b.
Proof. by intros [= -> ->]. Qed.

Section confine.
Context {T : Type} `{ThMap T}.
Context (hw : nat -> Z -> Z) (junk : Z * Z) (ndev : positive).
Implicit Types s : drv T.

(** The parts of the driver the handler calls leave its state alone. *)
Lemma kfree_st m s s' : dev_kfree_skb_any m s = Ok s' -> fep s' = fep s.
Proof. unfold dev_kfree_skb_any. intros E. by inv_ok; subst. Qed.

Lemma reset_tx_loop_st k : forall i bdp s s', reset_tx_loop k i bdp s = Ok s' -> sfec_state (fep s') = sfec_state (fep s).
Proof.
  induction k as [|k IH]; intros i bdp s s' E; cbn [reset_tx_loop] in E; [by injection E as <-|].
  inv_ok. apply IH in E. rewrite E. cbn. destruct a0; [by erewrite kfree_st by done|by simplify_eq].
Qed.

Lemma reset_skb_loop_st k : forall j s s', reset_skb_loop k j s = Ok s' -> sfec_state (fep s') = sfec_state (fep s).
Proof.
  induction k as [|k IH]; intros i s s' E; cbn [reset_skb_loop] in E; [by injection E as <-|].
  inv_ok. destruct a; [|by eapply IH]. inv_ok. apply IH in E. rewrite E. cbn. by erewrite kfree_st by done.
Qed.

Lemma restart_sw_2_st s s' : fec_restart_sw_2 s = Ok s' -> sfec_state (fep s') = sfec_state (fep s).
Proof.
  unfold fec_restart_sw_2, fec_enet_bd_init, reset_tx_queue, fec_enet_reset_skb. intros E. inv_ok.
  apply reset_skb_loop_st in E. apply reset_tx_loop_st in E0. rewrite E. exact E0.
Qed.

Lemma napis_disable_st f f' : napis_disable f = Ok f' -> sfec_state f' = sfec_state f.
Proof. unfold napis_disable. intros E. by inv_ok; subst. Qed.
Lemma napis_enable_st f f' : napis_enable f = Ok f' -> sfec_state f' = sfec_state f.
Proof. unfold napis_enable. intros E. by inv_ok; subst. Qed.

Lemma set_tx_queue_st q s s' : set_tx_queue ndev q s = Ok s' -> fep s' = fep s.
Proof. unfold set_tx_queue. intros E. by inv_ok; subst. Qed.

Lemma stop_tx_queue_st s s' : stop_tx_queue ndev s = Ok s' -> fep s' = fep s.
Proof. unfold stop_tx_queue. intros E. inv_ok. by eapply set_tx_queue_st. Qed.

Lemma restart_post_st s s' : fec_enet_adjust_link_sw_restart_post ndev s = Ok s' -> sfec_state (fep s') = sfec_state (fep s).
Proof.
  unfold fec_enet_adjust_link_sw_restart_post, fec_wake_queue. intros E. inv_ok. apply napis_enable_st in E0.
  destruct (netif_tx_wake_queue _) as [b q]. inv_ok. match goal with K : set_tx_queue _ _ _ = Ok ?x |- _ => apply set_tx_queue_st in K; rename K into K1, x into s1 end.
  rewrite <- E0. cbn in K1. rewrite <- K1. destruct b; [|by injection E as <-]. unfold fec_egr_ntfy_handler in E. inv_ok.
  destruct (netif_tx_queue_stopped _); injection E as <-; [done|]. cbn. unfold bstgw_fec_schedule_xmit. by destruct (no_kick _).
Qed.

Lemma link_pre_st s s' : fec_enet_adjust_link_sw_restart_pre ndev s = Ok s' -> sfec_state (fep s') = sfec_state (fep s).
Proof.
  unfold fec_enet_adjust_link_sw_restart_pre. intros E. inv_ok. subst. cbn. erewrite napis_disable_st by done. by erewrite stop_tx_queue_st by done.
Qed.

Lemma stop_post_st s s' : fec_enet_adjust_link_sw_stop_post s = Ok s' -> sfec_state (fep s') = sfec_state (fep s).
Proof.
  unfold fec_enet_adjust_link_sw_stop_post. case_bool_decide; intros E; inv_ok; subst; [done|]. cbn. by erewrite napis_enable_st by done.
Qed.

Lemma open_sw_st s s' : fec_enet_open_sw ndev s = Ok s' -> sfec_state (fep s') = sfec_state (fep s).
Proof.
  unfold fec_enet_open_sw. intros E. inv_ok. erewrite set_tx_queue_st by done. cbn. by erewrite napis_enable_st by done.
Qed.

Lemma restart_sw_3_st f : sfec_state (fec_restart_sw_3 hw f) = sfec_state f.
Proof. unfold fec_restart_sw_3. by destruct (negb _). Qed.

Lemma restart_sw_5_st f : exists e, sfec_state (fec_restart_sw_5 hw f) = (sfec_state f) <| ecntl := Z.lor (ecntl (sfec_state f)) e |> /\ Z.ldiff e 0x130 = 0.
Proof.
  unfold fec_restart_sw_5, set_multicast_list, io_read32. cbv zeta.
  exists (Z.lor (if negb (Z.land (quirks f) FEC_QUIRK_ENET_MAC =? 0) then 0x100 else 0) (if bufdesc_ex f then 0x10 else 0)).
  cbn -[Z.lor Z.land FEC_QUIRK_ENET_MAC Z.ldiff].
  destruct (negb (Z.land (quirks f) FEC_QUIRK_ENET_MAC =? 0)); cbn -[Z.lor Z.land FEC_QUIRK_ENET_MAC Z.ldiff]; destruct (bufdesc_ex f); (split; [|done]).
  all: unfold upd; cbn -[Z.lor]; rewrite ?Z.lor_assoc, ?Z.lor_0_r; try done.
  all: by destruct (sfec_state f).
Qed.

Lemma restart_confines off state v s v' s' :
  _fec_emulate_fec_restart hw junk ndev off state v s = Ok (v', s') -> st_inv (sfec_state (fep s)) ->
  state = EMU_STATE_WRITE /\ nw_write_ok off v' /\ st_inv (sfec_state (fep s')).
Proof.
  unfold _fec_emulate_fec_restart. intros E Hst. inv_ok. case_bool_decide as Hw; [|done]. cbn [negb] in E. split; [done|].
  unfold st_inv in Hst. destruct (sub_st (sfec_state (fep s))) eqn:Hs; try discriminate E0; try discriminate E; cbn in Hst.
  - trap_guards E. inv_ok. split; [unfold nw_write_ok; naive_solver|]. by subst.
  - destruct Hst as [Hr He]. trap_guards E; try lia; inv_ok; simplify_eq.
    all: match goal with K : fec_restart_sw_2 _ = Ok _ |- _ => apply restart_sw_2_st in K end.
    all: split; [unfold nw_write_ok; naive_solver|]; unfold st_inv; cbn; rewrite E1, Hr, He; auto.
  - trap_guards E. simplify_eq. split; [unfold nw_write_ok; naive_solver|done].
  - destruct Hst as [Hr He]. destruct (Z.eqb_spec off FEC_R_FIFO_RSEM); [|destruct (Z.eqb_spec off FEC_R_CNTRL)]; subst; cbn [negb andb] in E.
    + rewrite bool_decide_true in E by done. cbn [andb] in E. destruct (Z.eqb_spec v FEC_ENET_RSEM_V); [|done]. injection E as <- <-.
      split; [unfold nw_write_ok; naive_solver|done].
    + rewrite bool_decide_true in E by done. apply ok_pair in E as [-> ->]. split; [|unfold st_inv; cbn -[fec_restart_sw_3]; by rewrite restart_sw_3_st].
      do 7 right. split; [done|]. do 2 right. cbn -[Z.lor Z.land Z.ldiff fec_restart_sw_3]. rewrite restart_sw_3_st. by apply (rcntl_masked v _ false).
    + done.
  - destruct Hst as [Hr He]. destruct (Z.eqb_spec off FEC_R_CNTRL); subst; [|by rewrite andb_true_r in E; destruct (negb _)].
    cbn [negb andb] in E. rewrite bool_decide_false in E by done. cbn [andb] in E. apply ok_pair in E as [-> ->].
    split; [|unfold st_inv; cbn -[fec_restart_sw_3]; by rewrite restart_sw_3_st].
    do 7 right. split; [done|]. do 2 right. cbn -[Z.lor Z.land Z.ldiff fec_restart_sw_3]. rewrite restart_sw_3_st. by apply (rcntl_masked v _ true).
  - destruct (Z.eqb_spec off FEC_ECNTRL); [|done]. cbn [negb] in E. apply ok_pair in E as [-> ->]. subst.
    destruct (restart_sw_5_st (fep s)) as (e & He & Hm).
    change (fep s <| fep ::= _ |>) with (fec_restart_sw_5 hw (fep s)). revert He. generalize (fec_restart_sw_5 hw (fep s)). intros f He.
    split; [|done].
    do 6 right. left. split; [done|]. right. rewrite He. cbn -[Z.lor Z.land Z.ldiff].
    rewrite Hst, !ldiff_lor_l, Hm, Z.ldiff_land, <- Z.land_assoc. change (Z.land (1 ≪ 5) (Z.lnot 304)) with 0. by rewrite Z.land_0_r.
  - destruct (Z.eqb_spec off FEC_IMASK); [|done]. subst. cbn [negb orb] in E.
    assert (Hv : v = FEC_DEFAULT_IMASK \/ v = FEC_ENET_MII) by (trap_guards E; auto). 
    destruct (negb _ && negb _); [done|]. destruct (bool_decide _).
    + apply ok_pair in E as [-> ->]. split; [do 3 right; by left|]. unfold st_inv. cbn. by destruct (v =? FEC_DEFAULT_IMASK).
    + destruct (negb _); [done|]. inv_ok. simplify_eq. apply restart_post_st in E1. split; [do 3 right; by left|].
      unfold st_inv. rewrite E1. cbn. done.
Qed.

Lemma stop_confines off state v s v' s' :
  _fec_emulate_fec_stop off state v s = Ok (v', s') -> st_inv (sfec_state (fep s)) ->
  nw_access_ok off state v' /\ st_inv (sfec_state (fep s')).
Proof.
  unfold _fec_emulate_fec_stop, nw_access_ok. intros E Hst. inv_ok.
  unfold st_inv in Hst. destruct (sub_st (sfec_state (fep s))) eqn:Hs; try discriminate E0; specialize (Hst eq_refl).
  2: { destruct (Z.eqb_spec off FEC_IEVENT) as [->|]; [|done]. destruct state; [done|..]; apply ok_pair in E as [-> ->].
       - split; [auto|]. unfold st_inv. rewrite Hs. by intros _.
       - split; [right; left; split; [done|]; change FEC_ENET_GRA with (2 ^ 28); destruct (land_bit v 28) as [->| ->]; auto; lia|]. intros _. exact Hst. }
  all: destruct state; [cbn in E|by rewrite ?orb_true_r in E..].
  - trap_guards E; apply ok_pair in E as [-> ->]; (split; [unfold nw_write_ok; naive_solver|by intros _]).
  - trap_guards E; apply ok_pair in E as [-> ->]; (split; [unfold nw_write_ok; naive_solver|by intros _]).
  - trap_guards E; apply ok_pair in E as [-> ->]; (split; [unfold nw_write_ok; naive_solver|by intros _]).
  - trap_guards E; apply ok_pair in E as [-> ->]; (split; [unfold nw_write_ok; naive_solver|by intros _]).
  - destruct (Z.eqb_spec off FEC_ECNTRL) as [->|]; [|done]. destruct (Z.eqb_spec v 2) as [->|]; [|done]. apply ok_pair in E as [-> ->].
    split; [do 6 right; left; auto|by intros _].
  - destruct (Z.eqb_spec off FEC_R_CNTRL) as [->|]; [|done]. destruct (Z.eqb_spec v (rmii_mode (sfec_state (fep s)))) as [->|]; [|done].
    cbn [negb orb] in E. rewrite bool_decide_true in E by done. cbn [negb orb] in E. inv_ok. simplify_eq. split; [do 7 right; split; [done|]; tauto|done].
Qed.

Lemma runtime_confines off state v s ok v' s' :
  emu_runtime hw junk ndev off state v s = Ok (ok, v', s') -> st_inv (sfec_state (fep s)) ->
  (ok = true -> nw_access_ok off state v') /\ st_inv (sfec_state (fep s')).
Proof.
  unfold emu_runtime. intros E Hst. case_bool_decide as Hs.
  - destruct (_ && _ && _) eqn:Ew.
    { simplify_eq. split; [done|]. unfold st_inv. cbn. by rewrite Hs. }
    clear Ew. destruct (Z.eqb_spec off FEC_R_CNTRL) as [->|].
    + destruct state; repeat (case_bool_decide; try done); cbn [negb] in E; inv_ok; simplify_eq; [split; [intros _; by right; right|exact Hst]|].
      assert (Hb : Z.land v 256 = 0 \/ Z.land v 256 = 256) by exact (land_bit v 8 ltac:(lia)).
      split; [intros _; right; right; by split|]. intros _. exact Hb.
    + destruct (bool_decide_reflect (state = EMU_STATE_WRITE)) as [->|]; [|by rewrite andb_false_r in E].
      destruct (Z.eqb_spec off FEC_ECNTRL) as [->|]; [|done]. destruct (Z.eqb_spec v 1) as [->|]; [|done].
      destruct (_ && _); [|done]. inv_ok. simplify_eq. split; [intros _; do 6 right; left; auto|done].
  - destruct (in_stop _); [|destruct (bool_decide _); [done|]; destruct (in_restart _); [|done]]; inv_ok; destruct a as [v1 s1]; simplify_eq.
    + apply stop_confines in E0; tauto.
    + apply restart_confines in E0 as (-> & ? & ?); auto.
Qed.

Lemma emu_check_confines base addr state v sz s ok v' s' :
  fec_emu_check hw junk ndev base addr state v sz s = Ok (ok, v', s') -> st_inv (sfec_state (fep s)) ->
  (ok = true -> nw_access_ok (addr - base) state v') /\ st_inv (sfec_state (fep s')).
Proof.
  unfold fec_emu_check. generalize (addr - base). intros off E Hst.
  destruct (negb (sz =? 4)); [by simplify_eq|]. destruct (_ || _); [by simplify_eq|].
  destruct (_ && _ && _) eqn:Ep.
  { simplify_eq. split; [|done]. intros _. apply andb_prop in Ep as [Ep Hw]. apply andb_prop in Ep as [_ Ho].
    apply bool_decide_eq_true in Hw as ->. apply Z.eqb_eq in Ho as ->. by right; left. }
  clear Ep. destruct (Z.eqb_spec off FEC_MII_DATA) as [Ho|_].
  { subst off. destruct state; simplify_eq/=; (split; [|done]); intros _; [by left..|]. left. split; [done|]. unfold FEC_MMFR_DATA.
    change 0xffff with (Z.ones 16). rewrite Z.land_ones by lia. apply Z.mod_pos_bound. lia. }
  destruct (_ && _ && _) eqn:Ei.
  { apply andb_prop in Ei as [Ei _]. apply andb_prop in Ei as [Ho Hw]. apply Z.eqb_eq in Ho as ->.
    destruct state; simplify_eq/=; (split; [|done]); intros _; [by right; left|]. right. left. split; [done|].
    change FEC_ENET_MII with (2 ^ 23). destruct (land_bit v 23) as [->| ->]; auto; lia. }
  clear Ei. unfold nw_access_ok. destruct (primary_st (sfec_state (fep s))) eqn:Hp; try discriminate E.
  - destruct (bool_decide_reflect (state = EMU_STATE_WRITE)) as [->|]; [|by rewrite !orb_true_r in E].
    trap_guards E. simplify_eq. split; [intros _; do 6 right; left; auto|done].
  - destruct (_ || _); [done|]. inv_ok. destruct a as [v1 s1]. simplify_eq. apply restart_confines in E0 as (-> & ? & ?); auto.
  - destruct (_ || _); [done|]. inv_ok. simplify_eq. split; [done|].
    match goal with K : fec_enet_open_sw _ _ = Ok _ |- _ => apply open_sw_st in K; unfold st_inv; by rewrite K end.
  - exact (runtime_confines _ _ _ _ _ _ _ E Hst).
  - exact (runtime_confines _ _ _ _ _ _ _ E Hst).
  - exact (runtime_confines _ _ _ _ _ _ _ E Hst).
Qed.

(** The states the driver can be in once it has been probed: the normal world
    accesses registers, any access in any order, and in between the driver
    works, which leaves [sfec_state] alone. *)
Inductive traps_reach : drv T -> Prop :=
| reach_probed s : sfec_state (fep s) = mk_sfec SFEC_PRI_PROBED SFEC_SUB_NONE 0 0 0 -> traps_reach s
| reach_access s base addr state v sz ok v' s' :
    traps_reach s -> fec_emu_check hw junk ndev base addr state v sz s = Ok (ok, v', s') -> traps_reach s'
| reach_driver s s' : traps_reach s -> sfec_state (fep s') = sfec_state (fep s) -> traps_reach s'.

Lemma traps_reach_inv s : traps_reach s -> st_inv (sfec_state (fep s)).
Proof.
  induction 1 as [s ->|s base addr state v sz ok v' s' _ IH E|s s' _ IH ->]; [done| |done].
  by eapply emu_check_confines.
Qed.

(** C28. Confinement of the normal world.  In every state reachable from the
    probed driver by any register accesses, a write the trap handler lets
    through to the controller is one of these, and nothing else: the PHY data
    and PHY speed registers with any value; the event register with all ones;
    the interrupt mask with one of the two masks the driver uses; transmit
    control with 0, 1 or 4; the receive FIFO threshold with the driver's
    value; the control register with a reset or with the enable bit and a
    choice of the bits 0x130; receive control with 0, with the RMII bit
    alone, or with the driver's frame size and flags and a choice of the mode
    bits 0x362.  A read gives nothing but
    PHY data, the PHY or stop event, or the RMII bit.  Ring addresses, the MAC
    address, the receive filters, loopback and promiscuous mode are out of
    reach. *)
Theorem fec_traps_confine s base addr state v sz v' s' :
  traps_reach s -> fec_emu_check hw junk ndev base addr state v sz s = Ok (true, v', s') ->
  nw_access_ok (addr - base) state v'.
Proof. intros Hs E. eapply emu_check_confines in E as [Hok _]; [auto|by apply traps_reach_inv]. Qed.

End confine.

(** ** An example: a probed driver *)

Definition ex_probed : drv (gmap (list Z) (list Z)) :=
  (ex_rx_drv 66) <| fep ::= fun f => f <| sfec_state := mk_sfec SFEC_PRI_PROBED SFEC_SUB_NONE 0 0 0 |> |>.

Lemma fec_traps_confine_witness : nw_access_ok (0x2188024 - 0x2188000) EMU_STATE_WRITE 1.
Proof.
  apply (fec_traps_confine (fun _ _ => 0) (0, 0) 1 ex_probed 0x2188000 0x2188024 EMU_STATE_WRITE 1 4 1
    (set_sub SFEC_SUB_RESTART_RESET (set_pri SFEC_PRI_OPENING (ex_probed <| fep ::= fec_restart_sw_0 |>)))); [|done].
  by apply reach_probed.
Defined.
