(* ===== verification/FecLink.v ===== *)
(** * The normal world's link management, through the trap
    (fec_drivers/nw_linux/bstgw_fec_main.c with
    fec_drivers/bstgw/nw_mmio_traps.c).

    The driver of the normal world as the sequence of register accesses it
    makes.  Run through the trap handler, its restart and stop sequences are
    accepted and, together with what the secure driver adds, program the
    controller completely; its shutdown sequence is not accepted. *)

From S2P Require Import Prelude Pktq EthBuf Napi Netdev Route Forward Worker Fec FecTx FecRx FecReset FecTraps.

(** ** The normal world's driver *)

(** Its register accesses: [Writel val off], and [Readl off] with what it does
    with the value. *)
Inductive nw := NwDone | Writel (val off : Z) (k : nw) | Readl (off : Z) (k : Z -> nw).

Inductive phy_interface_t := PHY_RGMII | PHY_RMII | PHY_OTHER.

(** What the normal world's driver knows of the link; [phydev]: speed and
    pause of the PHY, if it is connected. *)
Record nw_fec := mk_nw_fec {
  full_duplex : Z; phy_speed : Z; phy_interface : phy_interface_t;
  phydev : option (Z * bool); pause_flag : Z; link : bool; nw_quirks : Z;
  fep_speed : Z; mii_timeout : bool
}.
#[global] Instance eta_nw_fec : Settable nw_fec :=
  fun c => mk_nw_fec (full_duplex c) (phy_speed c) (phy_interface c) (phydev c) (pause_flag c) (link c) (nw_quirks c)
    (fep_speed c) (mii_timeout c).

Definition DUPLEX_FULL : Z := 1.
Definition FEC_PAUSE_FLAG_AUTONEG : Z := 1.
Definition FEC_PAUSE_FLAG_ENABLE : Z := 2.

(** The registers it computes: [rcntl] and [ecntl] of [fec_restart]. *)
Definition nw_cntl (c : nw_fec) : Z * Z :=
  if Z.land (nw_quirks c) FEC_QUIRK_ENET_MAC =? 0 then (0, 0) else
  let rcntl := match phy_interface c with PHY_RGMII => Z.shiftl 1 6 | PHY_RMII => Z.shiftl 1 8 | PHY_OTHER => 0 end in
  match phydev c with
  | None => (rcntl, 0)
  | Some (speed, _) =>
      if speed =? 1000 then (rcntl, Z.shiftl 1 5)
      else if speed =? 100 then (Z.ldiff rcntl (Z.shiftl 1 9), 0)
      else (Z.lor rcntl (Z.shiftl 1 9), 0)
  end.

Definition nw_pause (c : nw_fec) : bool :=
  negb (Z.land (pause_flag c) FEC_PAUSE_FLAG_ENABLE =? 0) ||
  (negb (Z.land (pause_flag c) FEC_PAUSE_FLAG_AUTONEG =? 0) && match phydev c with Some (_, pause) => pause | None => false end).

Definition nw_fec_restart (c : nw_fec) (k : nw) : nw :=
  Writel 1 FEC_ECNTRL $
  Writel 0xffffffff FEC_IEVENT $
  Writel (if full_duplex c =? DUPLEX_FULL then 4 else 0) FEC_X_CNTRL $
  Writel (phy_speed c) FEC_MII_SPEED $
  (if nw_pause c then Writel FEC_ENET_RSEM_V FEC_R_FIFO_RSEM else id) $
  Writel (nw_cntl c).1 FEC_R_CNTRL $
  Writel (nw_cntl c).2 FEC_ECNTRL $
  Writel (if link c then FEC_DEFAULT_IMASK else FEC_ENET_MII) FEC_IMASK k.

Definition nw_fec_stop (c : nw_fec) (k : nw) : nw :=
  Readl FEC_R_CNTRL $ fun v =>
  let rmii_mode := Z.land v (Z.shiftl 1 8) in
  (if link c then fun k => Writel 1 FEC_X_CNTRL $ Readl FEC_IEVENT $ fun _ => k else id) $
  Writel 1 FEC_ECNTRL $
  Writel FEC_ENET_MII FEC_IMASK $
  Writel (phy_speed c) FEC_MII_SPEED $
  if Z.land (nw_quirks c) FEC_QUIRK_ENET_MAC =? 0 then k else
  Writel 2 FEC_ECNTRL $
  Writel rmii_mode FEC_R_CNTRL k.

(** The PHY's state when the link callback is called. *)
Record phy_state := mk_phy { phy_halted : bool; phy_link : bool; phy_duplex : Z; phy_bitrate : Z; phy_pause : bool }.

Inductive link_action := LinkRestart | LinkStop | LinkNothing.

(** [fec_enet_adjust_link]: the driver's new idea of the link, and what it
    does to the controller. *)
Definition nw_adjust_link (c : nw_fec) (e : phy_state) : nw_fec * link_action :=
  let c := c <| phydev := Some (phy_bitrate e, phy_pause e) |> in
  if mii_timeout c && phy_halted e then (c, LinkNothing) else
  if phy_link e then
    let change := negb (link c) || negb (full_duplex c =? phy_duplex e) || negb (phy_bitrate e =? fep_speed c) in
    (c <| link := true |> <| full_duplex := phy_duplex e |> <| fep_speed := phy_bitrate e |>,
     if change then LinkRestart else LinkNothing)
  else if link c then (c <| link := false |>, LinkStop) else (c, LinkNothing).

(** Its register accesses; [c]: the driver before the call, [c']: after it
    (the stop is done before the link is marked as down). *)
Definition nw_link_accesses (c c' : nw_fec) (a : link_action) (k : nw) : nw :=
  match a with
  | LinkRestart => nw_fec_restart c' k
  | LinkStop => nw_fec_stop c k
  | LinkNothing => k
  end.

Definition FEC_MMFR (op mii_id regnum : Z) : Z :=
  Z.lor (Z.lor (Z.lor (Z.shiftl 1 30) (Z.shiftl op 28)) (Z.lor (Z.shiftl (Z.land mii_id 0x1f) 23) (Z.shiftl (Z.land regnum 0x1f) 18)))
        (Z.shiftl 2 16).

(** [timeout]: whether the completion was awaited in vain; [k] gets the
    register, [None] is [-ETIMEDOUT]. *)
Definition nw_mdio_read (timeout : bool) (mii_id regnum : Z) (k : option Z -> nw) : nw :=
  Writel (FEC_MMFR 2 mii_id regnum) FEC_MII_DATA $
  let data := Readl FEC_MII_DATA (fun v => k (Some (FEC_MMFR_DATA v))) in
  if timeout then Readl FEC_IEVENT (fun ev => if Z.land ev FEC_ENET_MII =? 0 then k None else data) else data.

Definition nw_mdio_write (mii_id regnum value : Z) (k : nw) : nw :=
  Writel (Z.lor (FEC_MMFR 1 mii_id regnum) (FEC_MMFR_DATA value)) FEC_MII_DATA k.

(** The PHY library's operations on the MDIO bus. *)
Inductive mdio_op := MdioRead (timeout : bool) (mii_id regnum : Z) | MdioWrite (mii_id regnum value : Z).
Fixpoint mdio_ops (ops : list mdio_op) (k : nw) : nw :=
  match ops with
  | [] => k
  | MdioRead timeout mii_id regnum :: ops => nw_mdio_read timeout mii_id regnum (fun _ => mdio_ops ops k)
  | MdioWrite mii_id regnum value :: ops => nw_mdio_write mii_id regnum value (mdio_ops ops k)
  end.

(** [fec_enet_open] and [fec_enet_close]; [probe]: the PHY library's
    accesses in [fec_enet_mii_probe] and [phy_start]. *)
Definition nw_fec_enet_open (c : nw_fec) (probe : list mdio_op) : nw :=
  nw_fec_restart c $ mdio_ops probe $ Writel 47 FEC_X_WMRK NwDone.
Definition nw_fec_enet_close (c : nw_fec) : nw :=
  Writel 48 FEC_X_WMRK $ nw_fec_stop c NwDone.

(** ** Through the trap *)

Section run.
Context {T : Type} `{ThMap T}.
Context (hw : nat -> Z -> Z) (junk : Z * Z) (ndev : positive).
Implicit Types s : drv T.

(** The accesses through the trap.  A write is committed if the handler allows
    it, with the value the handler leaves; a read is done if the handler
    allows it, and the handler then sees the value.  [blocked]: the value of a
    read that is not allowed. *)
Fixpoint nw_run (base blocked : Z) (p : nw) (s : drv T) : outcome (drv T) :=
  match p with
  | NwDone => Ok s
  | Writel val off k =>
      '(allowed, val, s) ← fec_emu_check hw junk ndev base (base + off) EMU_STATE_WRITE val 4 s;
      nw_run base blocked k (if (allowed : bool) then s <| fep ::= fun f => io_write32 (hwp f + off) val f |> else s)
  | Readl off k =>
      '(allowed, val, s) ← fec_emu_check hw junk ndev base (base + off) EMU_STATE_READ_BEFORE blocked 4 s;
      if negb allowed then nw_run base blocked (k val) s else
      let '(val, f) := io_read32 hw (hwp (fep s) + off) (fep s) in
      '(_, val, s) ← fec_emu_check hw junk ndev base (base + off) EMU_STATE_READ_AFTER val 4 (s <| fep := f |>);
      nw_run base blocked (k val) s
  end.

Lemma writel_ok base blocked v off k s v' s' :
  fec_emu_check hw junk ndev base (base + off) EMU_STATE_WRITE v 4 s = Ok (true, v', s') ->
  nw_run base blocked (Writel v off k) s = nw_run base blocked k (s' <| fep ::= fun f => io_write32 (hwp f + off) v' f |>).
Proof. intros E. unfold nw_run at 1. by rewrite E. Qed.

Lemma writel_refused base blocked v off k s v' s' :
  fec_emu_check hw junk ndev base (base + off) EMU_STATE_WRITE v 4 s = Ok (false, v', s') ->
  nw_run base blocked (Writel v off k) s = nw_run base blocked k s'.
Proof. intros E. unfold nw_run at 1. by rewrite E. Qed.

Lemma readl_ok base blocked off k s v' s' :
  fec_emu_check hw junk ndev base (base + off) EMU_STATE_READ_BEFORE blocked 4 s = Ok (true, blocked, s) ->
  (let '(v, f) := io_read32 hw (hwp (fep s) + off) (fep s) in
   fec_emu_check hw junk ndev base (base + off) EMU_STATE_READ_AFTER v 4 (s <| fep := f |>)) = Ok (true, v', s') ->
  nw_run base blocked (Readl off k) s = nw_run base blocked (k v') s'.
Proof. intros E1 E2. unfold nw_run at 1. rewrite E1. cbn [mbind outcome_bind negb]. destruct (io_read32 _ _ _). by rewrite E2. Qed.

(** ** A restart *)

Implicit Types f : fec_enet_private.

(** The register accesses of a whole restart, oldest first: those of the
    normal world's driver, with the bits the secure driver adds, and those of
    the secure driver. *)
Definition restart_log (f : fec_enet_private) (mac : list Z) (c : nw_fec) : list io_event :=
  let W off v := IoWrite (hwp f + off) v in
  let byte i := nth i mac 0 in
  let racc := u32 (hw (nreads f) (hwp f + FEC_RACC)) in
  let rc := u32 (hw (S (nreads f)) (hwp f + FEC_R_CNTRL)) in
  [ W FEC_ECNTRL 1;
    W FEC_ADDR_LOW (be32 (byte 0%nat) (byte 1%nat) (byte 2%nat) (byte 3%nat));
    W FEC_ADDR_HIGH (be32 (byte 4%nat) (byte 5%nat) junk.1 junk.2);
    W FEC_IEVENT 0xffffffff;
    W FEC_R_DES_START_0 (dma (rx_bd (rx_queue f)));
    W FEC_R_BUFF_SIZE_0 PKT_MAXBUF_SIZE;
    W FEC_X_DES_START_0 (dma (tx_bd (tx_queue f)));
    W FEC_X_CNTRL (if full_duplex c =? DUPLEX_FULL then 4 else 0);
    W FEC_MII_SPEED (phy_speed c) ] ++
  (if nw_pause c then [W FEC_R_FIFO_RSEM FEC_ENET_RSEM_V] else []) ++
  [ IoRead (hwp f + FEC_RACC) racc;
    W FEC_RACC (if Z.land (csum_flags f) FLAG_RX_CSUM_ENABLED =? 0
                then Z.ldiff (Z.lor racc FEC_RACC_SHIFT16) FEC_RACC_OPTIONS
                else Z.lor (Z.lor racc FEC_RACC_SHIFT16) FEC_RACC_OPTIONS);
    W FEC_FTRL PKT_MAXBUF_SIZE;
    W FEC_FTRL PKT_MAXBUF_SIZE ] ++
  (if nw_pause c then [W FEC_R_FIFO_RSFL FEC_ENET_RSFL_V; W FEC_R_FIFO_RAEM FEC_ENET_RAEM_V;
                       W FEC_R_FIFO_RAFL FEC_ENET_RAFL_V; W FEC_OPD FEC_ENET_OPD_V] else []) ++
  [ W FEC_R_CNTRL (Z.lor (nw_cntl c).1
      (Z.lor (Z.lor OPT_FRAME_SIZE 0x40000004) (Z.lor (if full_duplex c =? DUPLEX_FULL then 0 else 2) (if nw_pause c then FEC_ENET_FCE else 0))));
    IoRead (hwp f + FEC_R_CNTRL) rc;
    W FEC_R_CNTRL (Z.ldiff rc 8);
    W FEC_GRP_HASH_TABLE_HIGH 0; W FEC_GRP_HASH_TABLE_LOW 0;
    W FEC_HASH_TABLE_HIGH 0; W FEC_HASH_TABLE_LOW 0;
    W FEC_X_WMRK 0x100;
    W FEC_MIB_CTRLSTAT 0;
    W FEC_ECNTRL (Z.lor (nw_cntl c).2 0x102);
    IoWrite (reg_desc_active (rx_bd (rx_queue f))) 0;
    W FEC_IMASK (if link c then FEC_DEFAULT_IMASK else FEC_ENET_MII) ].

(** Evaluates the decisions between constants. *)
Ltac decide_closed :=
  repeat match goal with
  | |- context [@bool_decide ?P ?d] =>
      let b := eval vm_compute in (@bool_decide P d) in
      match b with true => idtac | false => idtac end; change (@bool_decide P d) with b
  end.

Definition running (x : sfec_prist_t) : Prop := x = SFEC_PRI_RESTARTED \/ x = SFEC_PRI_STOPPED \/ x = SFEC_PRI_RUNNING.
Definition restarting (x : sfec_prist_t) : Prop := x = SFEC_PRI_OPENING \/ running x.

(** A register write in the middle of a restart. *)
Lemma emu_restart base off v s :
  in_restart (sub_st (sfec_state (fep s))) = true -> (off =? FEC_MII_DATA) = false ->
  restarting (primary_st (sfec_state (fep s))) ->
  fec_emu_check hw junk ndev base (base + off) EMU_STATE_WRITE v 4 s =
    ('(v, s) ← _fec_emulate_fec_restart hw junk ndev off EMU_STATE_WRITE v s; Ok (true, v, s)).
Proof.
  intros Hs Ho Hp. unfold fec_emu_check. replace (base + off - base) with off by lia. rewrite Ho.
  assert (Hst : in_stop (sub_st (sfec_state (fep s))) = false /\ sub_st (sfec_state (fep s)) <> SFEC_SUB_NONE)
    by (by destruct (sub_st (sfec_state (fep s)))).
  destruct Hst as [Hst Hnone]. unfold emu_runtime. rewrite Hs, Hst, (bool_decide_false (_ = SFEC_SUB_NONE)) by done.
  assert ((sub_num (sub_st (sfec_state (fep s))) <? sub_num SFEC_SUB_RESTART_RESET) || (sub_num SFEC_SUB_RESTART_IMASK_MII <? sub_num (sub_st (sfec_state (fep s)))) = false) as ->
    by (unfold in_restart in Hs; lia).
  destruct Hp as [-> | [-> | [-> | ->]]]; decide_closed; cbn [negb andb orb Z.eqb Pos.eqb]; by rewrite andb_false_r.
Qed.

Section steps.
Context (base blocked : Z) (pri : sfec_prist_t) (Hpri : restarting pri).
Context (rm : Z).

(** The driver at step [x] of a restart, after the accesses [log]. *)
Definition at_step f x rc ec log n : fec_enet_private :=
  f <| sfec_state := mk_sfec pri x rc ec rm |> <| io ::= app log |> <| nreads ::= Nat.add n |>.

Lemma at_step_st f x rc ec log n : sfec_state (at_step f x rc ec log n) = mk_sfec pri x rc ec rm.
Proof. done. Qed.

Lemma hwp_at f x rc ec log n : hwp (at_step f x rc ec log n) = hwp f.
Proof. done. Qed.
Lemma quirks_at f x rc ec log n : quirks (at_step f x rc ec log n) = quirks f.
Proof. done. Qed.
Lemma bufdesc_ex_at f x rc ec log n : bufdesc_ex (at_step f x rc ec log n) = bufdesc_ex f.
Proof. done. Qed.
Lemma write_at f x rc ec log n a v :
  io_write32 a v (at_step f x rc ec log n) = at_step f x rc ec (IoWrite a v :: log) n.
Proof. done. Qed.
Lemma read_at f x rc ec log n a :
  io_read32 hw a (at_step f x rc ec log n)
  = (u32 (hw (n + nreads f)%nat a), at_step f x rc ec (IoRead a (u32 (hw (n + nreads f)%nat a)) :: log) (S n)).
Proof. done. Qed.
Lemma ecntl_at f x rc ec log n g :
  (at_step f x rc ec log n) <| sfec_state ::= fun st => st <| ecntl ::= g |> |> = at_step f x rc (g ec) log n.
Proof. done. Qed.

Lemma step_write off v k f w x rc ec log n v' s1 :
  in_restart x = true -> (off =? FEC_MII_DATA) = false ->
  _fec_emulate_fec_restart hw junk ndev off EMU_STATE_WRITE v (mk_drv (at_step f x rc ec log n) w) = Ok (v', s1) ->
  nw_run base blocked (Writel v off k) (mk_drv (at_step f x rc ec log n) w) =
  nw_run base blocked k (s1 <| fep ::= fun f => io_write32 (hwp f + off) v' f |>).
Proof. intros Hx Ho E. apply writel_ok. by rewrite emu_restart, E by done. Qed.

Lemma step_reset f w d k log :
  devs (w_nd w) !! ndev = Some d ->
  nw_run base blocked (Writel 0xffffffff FEC_IEVENT k) (mk_drv (at_step f SFEC_SUB_RESTART_RESET (Z.lor OPT_FRAME_SIZE 4) 2 log 0) w) =
  nw_run base blocked k (mk_drv (at_step f SFEC_SUB_RESTART_INIT (Z.lor OPT_FRAME_SIZE 4) 2
    ([IoWrite (hwp f + FEC_IEVENT) 0xffffffff;
      IoWrite (hwp f + FEC_ADDR_HIGH) (be32 (nth 4 (hwaddr d) 0) (nth 5 (hwaddr d) 0) junk.1 junk.2);
      IoWrite (hwp f + FEC_ADDR_LOW) (be32 (nth 0 (hwaddr d) 0) (nth 1 (hwaddr d) 0) (nth 2 (hwaddr d) 0) (nth 3 (hwaddr d) 0))] ++ log) 0) w).
Proof.
  intros Hd. erewrite step_write; [|done|done|].
  2: { unfold _fec_emulate_fec_restart. cbn [mbind outcome_bind]. unfold dev_get. cbn -[be32 nth]. rewrite Hd. reflexivity. }
  done.
Qed.

Lemma step_init f w (fd : bool) k log n ms m rxs l :
  tx_mem (tx_queue f) n ms -> rx_ok (rx_queue f) m rxs -> owned w (ms ++ l) ->
  exists w' tq rq,
    nw_run base blocked (Writel (if fd then 4 else 0) FEC_X_CNTRL k)
      (mk_drv (at_step f SFEC_SUB_RESTART_INIT (Z.lor OPT_FRAME_SIZE 4) 2 log 0) w) =
    nw_run base blocked k
      (mk_drv (at_step (f <| rx_queue := rq |> <| tx_queue := tq |>) SFEC_SUB_RESTART_MII_MODE
                 (Z.lor (Z.lor OPT_FRAME_SIZE 4) (if fd then 0 else 2)) 2
                 ([IoWrite (hwp f + FEC_X_CNTRL) (if fd then 4 else 0);
                   IoWrite (hwp f + FEC_X_DES_START_0) (dma (tx_bd (tx_queue f)));
                   IoWrite (hwp f + FEC_R_BUFF_SIZE_0) PKT_MAXBUF_SIZE;
                   IoWrite (hwp f + FEC_R_DES_START_0) (dma (rx_bd (rx_queue f)))] ++ log) 0) w') /\
    tx_ok tq n 0 [] /\ rx_ok rq m rxs /\
    bd_cur (rx_bd rq) = bd_base (rx_bd (rx_queue f)) /\ reg_desc_active (rx_bd rq) = reg_desc_active (rx_bd (rx_queue f)) /\
    (forall j, rx_ring rq !! j = rx_fresh (rx_bd (rx_queue f)) j <$> rx_ring (rx_queue f) !! j) /\
    owned w' l /\ w_nd w' = w_nd w.
Proof.
  intros Ht Hr Ho.
  destruct (restart_sw_2_ok (mk_drv (at_step f SFEC_SUB_RESTART_INIT (Z.lor OPT_FRAME_SIZE 4) 2 log 0) w) n ms m rxs l Ht Hr Ho)
    as ([f2 w'] & tq & rq & E & Hf & Htq & Hrq & Hcur & Hrx & Hd1 & Hd2 & Hact & Ho' & Hnd).
  cbn [fep env] in Hf, Ho', Hnd. exists w', tq, rq. split; [|done].
  cbn in Hd1, Hd2. destruct fd; (erewrite step_write; [|done|done|]).
  2, 4: unfold _fec_emulate_fec_restart; cbn [fep]; rewrite at_step_st; cbn [sub_st]; decide_closed; cbn [negb];
       change (c_assert (in_restart SFEC_SUB_RESTART_INIT)) with (Ok tt); cbn [mbind outcome_bind]; rewrite E; reflexivity.
  all: rewrite Hf, <- Hd1, <- Hd2; f_equal; f_equal. 
Qed.

(** One write of a restart whose handler's case is pure. *)
Ltac restart_step :=
  erewrite step_write; [|done|done|
    unfold _fec_emulate_fec_restart; cbn [fep]; rewrite at_step_st; cbn [sub_st]; decide_closed; cbn [negb];
    match goal with |- context [c_assert ?b] => change (c_assert b) with (Ok tt) end; cbn [mbind outcome_bind];
    cbn [Z.eqb Pos.eqb andb orb negb FEC_IEVENT FEC_X_CNTRL FEC_MII_SPEED FEC_R_FIFO_RSEM FEC_R_CNTRL FEC_ECNTRL FEC_IMASK FEC_ENET_RSEM_V]; reflexivity].

Lemma step_mii_mode f w k v rc log n :
  nw_run base blocked (Writel v FEC_MII_SPEED k) (mk_drv (at_step f SFEC_SUB_RESTART_MII_MODE rc 2 log n) w) =
  nw_run base blocked k (mk_drv (at_step f SFEC_SUB_RESTART_MII_SPEED rc 2 (IoWrite (hwp f + FEC_MII_SPEED) v :: log) n) w).
Proof. restart_step. done. Qed.

Lemma step_fce f w k rc log n :
  nw_run base blocked (Writel FEC_ENET_RSEM_V FEC_R_FIFO_RSEM k) (mk_drv (at_step f SFEC_SUB_RESTART_MII_SPEED rc 2 log n) w) =
  nw_run base blocked k (mk_drv (at_step f SFEC_SUB_RESTART_FCE_EN rc 2 (IoWrite (hwp f + FEC_R_FIFO_RSEM) FEC_ENET_RSEM_V :: log) n) w).
Proof. restart_step. done. Qed.

(** The accesses of [fec_restart_sw_3], newest first. *)
Definition sw_3_log f n : list io_event :=
  let racc := u32 (hw (n + nreads f) (hwp f + FEC_RACC)) in
  [ IoWrite (hwp f + FEC_FTRL) PKT_MAXBUF_SIZE; IoWrite (hwp f + FEC_FTRL) PKT_MAXBUF_SIZE;
    IoWrite (hwp f + FEC_RACC) (if Z.land (csum_flags f) FLAG_RX_CSUM_ENABLED =? 0
                                then Z.ldiff (Z.lor racc FEC_RACC_SHIFT16) FEC_RACC_OPTIONS
                                else Z.lor (Z.lor racc FEC_RACC_SHIFT16) FEC_RACC_OPTIONS);
    IoRead (hwp f + FEC_RACC) racc ].

Definition rcntl_bits v : Z := Z.land v (Z.lor (Z.lor (Z.shiftl 1 6) (Z.shiftl 1 8)) (Z.shiftl 1 9)).

Lemma sw_3_at f x rc ec log n :
  quirks f = imx6q_quirks -> fec_restart_sw_3 hw (at_step f x rc ec log n) = at_step f x rc ec (sw_3_log f n ++ log) (S n).
Proof.
  intros Hq. unfold fec_restart_sw_3. change (quirks (at_step f x rc ec log n)) with (quirks f). rewrite Hq.
  change (negb (Z.land imx6q_quirks FEC_QUIRK_HAS_RACC =? 0)) with true. unfold io_read32. cbv beta iota zeta.
  unfold sw_3_log. match goal with |- context [csum_flags ?a] => change (csum_flags a) with (csum_flags f) end. destruct (Z.land (csum_flags f) FLAG_RX_CSUM_ENABLED =? 0); reflexivity.
Qed.

(** Applies a function of the driver to the state of a step. *)
Ltac at_fun L :=
  match goal with |- context [(mk_drv ?a ?w) <| fep ::= ?g |>] => change ((mk_drv a w) <| fep ::= g |>) with (mk_drv (g a) w) end;
  rewrite L by done.

Lemma step_rcntl f w k v rc log n :
  quirks f = imx6q_quirks ->
  nw_run base blocked (Writel v FEC_R_CNTRL k) (mk_drv (at_step f SFEC_SUB_RESTART_MII_SPEED rc 2 log n) w) =
  nw_run base blocked k (mk_drv (at_step f SFEC_SUB_RESTART_R_CNTRL 0 2
    (IoWrite (hwp f + FEC_R_CNTRL) (Z.lor (rcntl_bits v) (Z.ldiff (Z.lor rc 0x40000020) FEC_ENET_FCE)) :: sw_3_log f n ++ log) (S n)) w).
Proof. intros Hq. restart_step. at_fun sw_3_at. done. Qed.

Definition sw_4_log f : list io_event :=
  [ IoWrite (hwp f + FEC_OPD) FEC_ENET_OPD_V; IoWrite (hwp f + FEC_R_FIFO_RAFL) FEC_ENET_RAFL_V;
    IoWrite (hwp f + FEC_R_FIFO_RAEM) FEC_ENET_RAEM_V; IoWrite (hwp f + FEC_R_FIFO_RSFL) FEC_ENET_RSFL_V ].

Lemma step_rcntl_fce f w k v rc log n :
  quirks f = imx6q_quirks ->
  nw_run base blocked (Writel v FEC_R_CNTRL k) (mk_drv (at_step f SFEC_SUB_RESTART_FCE_EN rc 2 log n) w) =
  nw_run base blocked k (mk_drv (at_step f SFEC_SUB_RESTART_R_CNTRL 0 2
    (IoWrite (hwp f + FEC_R_CNTRL) (Z.lor (rcntl_bits v) (Z.lor (Z.lor rc 0x40000020) FEC_ENET_FCE)) :: sw_4_log f ++ sw_3_log f n ++ log) (S n)) w).
Proof. intros Hq. restart_step. at_fun sw_3_at. done. Qed.

Definition sw_5_log f n : list io_event :=
  let rc := u32 (hw (n + nreads f) (hwp f + FEC_R_CNTRL)) in
  [ IoWrite (hwp f + FEC_MIB_CTRLSTAT) 0; IoWrite (hwp f + FEC_X_WMRK) 0x100;
    IoWrite (hwp f + FEC_HASH_TABLE_LOW) 0; IoWrite (hwp f + FEC_HASH_TABLE_HIGH) 0;
    IoWrite (hwp f + FEC_GRP_HASH_TABLE_LOW) 0; IoWrite (hwp f + FEC_GRP_HASH_TABLE_HIGH) 0;
    IoWrite (hwp f + FEC_R_CNTRL) (Z.ldiff rc 8); IoRead (hwp f + FEC_R_CNTRL) rc ].

Lemma sw_5_at f x rc log n :
  quirks f = imx6q_quirks -> bufdesc_ex f = false ->
  fec_restart_sw_5 hw (at_step f x rc 2 log n) = at_step f x rc 0x102 (sw_5_log f n ++ log) (S n).
Proof.
  intros Hq Hb. unfold fec_restart_sw_5, set_multicast_list. rewrite read_at. cbv beta iota zeta. repeat (rewrite write_at || rewrite hwp_at || rewrite quirks_at). rewrite Hq.
  change (negb (Z.land imx6q_quirks FEC_QUIRK_ENET_MAC =? 0)) with true. cbv iota.
  repeat (rewrite ecntl_at || rewrite write_at || rewrite hwp_at || rewrite bufdesc_ex_at). rewrite Hb, write_at, hwp_at. done.
Qed.

Lemma step_ecntrl f w k v log n :
  quirks f = imx6q_quirks -> bufdesc_ex f = false ->
  nw_run base blocked (Writel v FEC_ECNTRL k) (mk_drv (at_step f SFEC_SUB_RESTART_R_CNTRL 0 2 log n) w) =
  nw_run base blocked k (mk_drv (at_step f SFEC_SUB_RESTART_ECNTRL 0 0
    (IoWrite (hwp f + FEC_ECNTRL) (Z.lor (Z.land v (Z.shiftl 1 5)) 0x102) :: sw_5_log f n ++ log) (S n)) w).
Proof. intros Hq Hb. restart_step. at_fun sw_5_at. done. Qed.

Lemma nw_cntl_bits c : rcntl_bits (nw_cntl c).1 = (nw_cntl c).1 /\ Z.land (nw_cntl c).2 (Z.shiftl 1 5) = (nw_cntl c).2.
Proof.
  unfold nw_cntl. destruct (_ =? 0); [done|]. destruct (phydev c) as [[sp pa]|]; [|by destruct (phy_interface c)].
  destruct (sp =? 1000); [by destruct (phy_interface c)|]. destruct (sp =? 100); by destruct (phy_interface c).
Qed.

(** The steps between the reset and the interrupt mask. *)
Lemma restart_mid f w d c k n ms m rxs l :
  quirks f = imx6q_quirks -> bufdesc_ex f = false -> devs (w_nd w) !! ndev = Some d ->
  tx_mem (tx_queue f) n ms -> rx_ok (rx_queue f) m rxs -> owned w (ms ++ l) ->
  exists w' tq rq log,
    nw_run base blocked
      (Writel 0xffffffff FEC_IEVENT $
       Writel (if full_duplex c =? DUPLEX_FULL then 4 else 0) FEC_X_CNTRL $
       Writel (phy_speed c) FEC_MII_SPEED $
       (if nw_pause c then Writel FEC_ENET_RSEM_V FEC_R_FIFO_RSEM else id) $
       Writel (nw_cntl c).1 FEC_R_CNTRL $
       Writel (nw_cntl c).2 FEC_ECNTRL k)
      (mk_drv (at_step f SFEC_SUB_RESTART_RESET (Z.lor OPT_FRAME_SIZE 4) 2 [IoWrite (hwp f + FEC_ECNTRL) 1] 0) w) =
    nw_run base blocked k (mk_drv (at_step (f <| rx_queue := rq |> <| tx_queue := tq |>) SFEC_SUB_RESTART_ECNTRL 0 0 log 2) w') /\
    rev log ++ [IoWrite (reg_desc_active (rx_bd rq)) 0; IoWrite (hwp f + FEC_IMASK) (if link c then FEC_DEFAULT_IMASK else FEC_ENET_MII)]
      = restart_log f (hwaddr d) c /\
    tx_ok tq n 0 [] /\ rx_ok rq m rxs /\ bd_cur (rx_bd rq) = bd_base (rx_bd (rx_queue f)) /\
    (forall j, rx_ring rq !! j = rx_fresh (rx_bd (rx_queue f)) j <$> rx_ring (rx_queue f) !! j) /\
    owned w' l /\ w_nd w' = w_nd w.
Proof.
  intros Hq Hb Hd Ht Hr Ho. rewrite (step_reset f w d) by done.
  match goal with |- context [at_step f SFEC_SUB_RESTART_INIT _ _ ?x _] => set (log := x) end.
  destruct (step_init f w (full_duplex c =? DUPLEX_FULL)
    (Writel (phy_speed c) FEC_MII_SPEED $
     (if nw_pause c then Writel FEC_ENET_RSEM_V FEC_R_FIFO_RSEM else id) $
     Writel (nw_cntl c).1 FEC_R_CNTRL $ Writel (nw_cntl c).2 FEC_ECNTRL k) log n ms m rxs l Ht Hr Ho)
    as (w' & tq & rq & E & Htq & Hrq & Hcur & Hact & Hrx & Ho' & Hnd).
  rewrite E, step_mii_mode. clear E. destruct (nw_cntl_bits c) as [Hb1 Hb2]. unfold restart_log.
  destruct (nw_pause c).
  - eexists w', tq, rq, _. split; [rewrite step_fce, step_rcntl_fce, step_ecntrl by done; reflexivity|].
    split; [|done]. rewrite Hact, Hb1, Hb2. by destruct (full_duplex c =? DUPLEX_FULL).
  - eexists w', tq, rq, _. unfold id. split; [rewrite step_rcntl, step_ecntrl by done; reflexivity|].
    split; [|done]. rewrite Hact, Hb1, Hb2. by destruct (full_duplex c =? DUPLEX_FULL).
Qed.

End steps.

(** ** The driver around a restart *)

Definition enabled (n : napi_struct) : Prop := has NAPI_STATE_DISABLE n = false.
Definition disabled (n : napi_struct) : Prop := has NAPI_STATE_DISABLE n = true /\ has NAPI_STATE_SCHED n = false.

Lemma napi_disable_ok n : enabled n -> exists n', napi_disable n = Ok n' /\ disabled n'.
Proof.
  unfold enabled, disabled, napi_disable. intros Hn. destruct (napi_disable_begin n) as [n1| |] eqn:E1;
    try (unfold napi_disable_begin in E1; by rewrite Hn in E1).
  apply napi_disable_begin_spec in E1 as (D1 & _). cbn [mbind outcome_bind].
  destruct (napi_disable_round n1) as [[|] n2] eqn:E2; pose proof (napi_disable_round_spec _ _ _ E2) as (D2 & _ & _ & _ & S2 & _).
  { exists n2. split; [done|]. rewrite D2, S2 by done. auto. }
  destruct (napi_complete_done n2) as [r n3] eqn:E3. apply napi_complete_done_spec in E3 as (D3 & A3 & _ & _ & R3 & S3).
  rewrite D2, D1 in R3. cbn in R3. subst r. rewrite andb_false_r in S3.
  destruct (napi_disable_round n3) as [e4 n4] eqn:E4. exists n4. split; [done|].
  unfold napi_disable_round in E4. rewrite S3 in E4.
  assert (has NAPI_STATE_DISABLE n3 = true) by congruence.
  destruct (negb (has NAPI_STATE_W_ACTIVE n3)); injection E4 as _ <-; [napi_bits; auto|auto].
Qed.

Lemma napi_enable_ok n : disabled n -> exists n', napi_enable n = Ok n' /\ enabled n'.
Proof. intros [D S]. eexists. unfold napi_enable. rewrite D, S. split; [done|]. unfold enabled. napi_bits. done. Qed.

Lemma napis_disable_ok f :
  enabled (rx_napi f) -> enabled (route_tx_napi f) ->
  exists n1 n2, napis_disable f = Ok (f <| rx_napi := n1 |> <| route_tx_napi := n2 |>) /\ disabled n1 /\ disabled n2.
Proof.
  intros (n1 & E1 & D1)%napi_disable_ok (n2 & E2 & D2)%napi_disable_ok. exists n1, n2.
  unfold napis_disable. by rewrite E1, E2.
Qed.

Lemma napis_enable_ok f :
  disabled (rx_napi f) -> disabled (route_tx_napi f) ->
  exists n1 n2, napis_enable f = Ok (f <| rx_napi := n1 |> <| route_tx_napi := n2 |>) /\ enabled n1 /\ enabled n2.
Proof.
  intros (n1 & E1 & D1)%napi_enable_ok (n2 & E2 & D2)%napi_enable_ok. exists n1, n2.
  unfold napis_enable. by rewrite E2, E1.
Qed.

(** Stopping the queue and the NAPI instances. *)
Lemma link_pre_ok s d q :
  devs (w_nd (env s)) !! ndev = Some d -> egress_queue d = Some q -> enabled (rx_napi (fep s)) -> enabled (route_tx_napi (fep s)) ->
  exists n1 n2, fec_enet_adjust_link_sw_restart_pre ndev s =
      Ok (mk_drv ((fep s) <| rx_napi := n1 |> <| route_tx_napi := n2 |>) (with_stopped ndev (env s) d q true)) /\ disabled n1 /\ disabled n2.
Proof.
  intros Hd Hq H1 H2. destruct (napis_disable_ok (fep s) H1 H2) as (n1 & n2 & E & Hn). exists n1, n2. split; [|done].
  unfold fec_enet_adjust_link_sw_restart_pre, stop_tx_queue, set_tx_queue, netdev_get_tx_queue, dev_get.
  rewrite Hd. cbn [deref mbind outcome_bind]. rewrite Hq. cbn [deref mbind outcome_bind]. cbn [fep upd]. 
  match goal with |- context [napis_disable ?x] => change x with (fep s) end. rewrite E. done.
Qed.

(** Waking the queue again. *)
Lemma wake_queue_ok s d q :
  devs (w_nd (env s)) !! ndev = Some d -> egress_queue d = Some q -> stopped q = true ->
  fec_wake_queue ndev s = Ok (mk_drv (bstgw_fec_schedule_xmit (fep s)) (with_stopped ndev (env s) d q false)).
Proof.
  intros Hd Hq Hs. unfold fec_wake_queue, netdev_get_tx_queue, set_tx_queue, dev_get. rewrite Hd. cbn [deref mbind outcome_bind].
  rewrite Hq. cbn [deref mbind outcome_bind]. unfold netif_tx_wake_queue. rewrite Hs. cbn [deref mbind outcome_bind].
  unfold fec_egr_ntfy_handler, netdev_get_tx_queue, dev_get. cbn. rewrite lookup_insert_eq. done.
Qed.

(** The last access of a restart on a link change. *)
Lemma last_step base blocked pri (Hr : running pri) rm f w d q k log n :
  devs (w_nd w) !! ndev = Some d -> egress_queue d = Some q -> stopped q = true ->
  disabled (rx_napi f) -> disabled (route_tx_napi f) ->
  exists f', nw_run base blocked (Writel FEC_DEFAULT_IMASK FEC_IMASK k) (mk_drv (at_step pri rm f SFEC_SUB_RESTART_ECNTRL 0 0 log n) w)
      = nw_run base blocked k (mk_drv f' (with_stopped ndev w d q false)) /\
    io f' = IoWrite (hwp f + FEC_IMASK) FEC_DEFAULT_IMASK :: IoWrite (reg_desc_active (rx_bd (rx_queue f))) 0 :: log ++ io f /\
    sfec_state f' = mk_sfec SFEC_PRI_RUNNING SFEC_SUB_NONE 0 0 rm /\ tx_queue f' = tx_queue f /\ rx_queue f' = rx_queue f /\
    quirks f' = quirks f /\ bufdesc_ex f' = bufdesc_ex f /\ enabled (rx_napi f') /\ enabled (route_tx_napi f').
Proof.
  intros Hd Hq Hs D1 D2.
  set (f1 := at_step SFEC_PRI_RUNNING rm f SFEC_SUB_NONE 0 0 (IoWrite (reg_desc_active (rx_bd (rx_queue f))) 0 :: log) n).
  destruct (napis_enable_ok f1 D1 D2) as (n1 & n2 & E & N1 & N2).
  set (f2 := f1 <| rx_napi := n1 |> <| route_tx_napi := n2 |>) in *.
  assert (Ew : fec_enet_adjust_link_sw_restart_post ndev (mk_drv f1 w) = Ok (mk_drv (bstgw_fec_schedule_xmit f2) (with_stopped ndev w d q false))).
  { unfold fec_enet_adjust_link_sw_restart_post. cbn [fep]. rewrite E. cbn [mbind outcome_bind]. by rewrite (wake_queue_ok _ d q). }
  assert (Es : _fec_emulate_fec_restart hw junk ndev FEC_IMASK EMU_STATE_WRITE FEC_DEFAULT_IMASK
      (mk_drv (at_step pri rm f SFEC_SUB_RESTART_ECNTRL 0 0 log n) w)
    = Ok (FEC_DEFAULT_IMASK, mk_drv (bstgw_fec_schedule_xmit f2) (with_stopped ndev w d q false))).
  { unfold _fec_emulate_fec_restart. cbn [fep]. rewrite at_step_st. cbn [sub_st primary_st]. decide_closed. cbn [negb].
    change (c_assert (in_restart SFEC_SUB_RESTART_ECNTRL)) with (Ok tt). cbn [mbind outcome_bind].
    destruct Hr as [-> | [-> | ->]]; decide_closed; cbn [Z.eqb Pos.eqb negb orb andb FEC_IMASK FEC_DEFAULT_IMASK].
    all: match goal with |- context [fec_enet_adjust_link_sw_restart_post ndev ?x] => change x with (mk_drv f1 w) end; by rewrite Ew. }
  eexists. split.
  - rewrite (step_write _ _ pri (or_intror Hr) rm FEC_IMASK _ k f w SFEC_SUB_RESTART_ECNTRL _ _ _ _ _ _ eq_refl eq_refl Es). unfold upd. cbn [fep env]. reflexivity.
  - unfold bstgw_fec_schedule_xmit. split_and!; try (by destruct (no_kick f2)).
    destruct (no_kick f2); [done|]. change (has NAPI_STATE_DISABLE (napi_schedule n2) = false). destruct (napi_schedule_spec n2) as [-> _]. exact N2.
Qed.

(** ** MDIO *)

Definition mdio_access f (e : io_event) : Prop :=
  match e with
  | IoWrite a _ => a = hwp f + FEC_MII_DATA
  | IoRead a _ => a = hwp f + FEC_MII_DATA \/ a = hwp f + FEC_IEVENT
  end.

(** The driver after some register accesses. *)
Definition accessed log n s : drv T := s <| fep ::= fun f => f <| io ::= app log |> <| nreads ::= Nat.add n |> |>.

Definition accessible s : Prop :=
  primary_st (sfec_state (fep s)) <> SFEC_PRI_ERROR /\ primary_st (sfec_state (fep s)) <> SFEC_PRI_SHUT_DOWN /\
  sub_st (sfec_state (fep s)) <> SFEC_SUB_STOP_XMIT_STOP.

Lemma mii_data_ok base state v s :
  accessible s ->
  fec_emu_check hw junk ndev base (base + FEC_MII_DATA) state v 4 s
  = Ok (true, if bool_decide (state = EMU_STATE_READ_AFTER) then FEC_MMFR_DATA v else v, s).
Proof.
  intros (H1 & H2 & _). unfold fec_emu_check. replace (base + FEC_MII_DATA - base) with FEC_MII_DATA by lia.
  rewrite !(bool_decide_false (primary_st _ = _)) by done || idtac. change (FEC_MII_DATA =? FEC_MII_SPEED) with false.
  rewrite andb_false_r. by destruct state.
Qed.

Lemma ievent_ok base state v s :
  accessible s -> state <> EMU_STATE_WRITE ->
  fec_emu_check hw junk ndev base (base + FEC_IEVENT) state v 4 s
  = Ok (true, if bool_decide (state = EMU_STATE_READ_AFTER) then Z.land v FEC_ENET_MII else v, s).
Proof.
  intros (H1 & H2 & H3) Hs. unfold fec_emu_check. replace (base + FEC_IEVENT - base) with FEC_IEVENT by lia.
  rewrite !(bool_decide_false (primary_st _ = _)) by done || idtac. change (FEC_IEVENT =? FEC_MII_SPEED) with false.
  rewrite andb_false_r, (bool_decide_false (_ = SFEC_SUB_STOP_XMIT_STOP)) by done. by destruct state.
Qed.

Lemma mdio_data_ok base blocked k s :
  accessible s ->
  exists v log, nw_run base blocked (Readl FEC_MII_DATA k) s = nw_run base blocked (k v) (accessed log 1 s) /\ Forall (mdio_access (fep s)) log.
Proof.
  intros Ha. set (a := hwp (fep s) + FEC_MII_DATA). exists (FEC_MMFR_DATA (u32 (hw (nreads (fep s)) a))), [IoRead a (u32 (hw (nreads (fep s)) a))].
  split; [|apply Forall_singleton; by left].
  erewrite readl_ok; [|by rewrite mii_data_ok|]; [|unfold io_read32; rewrite mii_data_ok by done; reflexivity]. reflexivity.
Qed.

Lemma accessed_app log n log' n' s : accessed log n (accessed log' n' s) = accessed (log ++ log') (n + n') s.
Proof. unfold accessed, upd. cbn. by rewrite app_assoc, Nat.add_assoc. Qed.

(** Operations on the MDIO bus pass the trap handler at any time, except
    between the stop of the transmitter and the reading of its event. *)
Lemma mdio_ok base blocked ops k : forall s,
  accessible s ->
  exists log n, nw_run base blocked (mdio_ops ops k) s = nw_run base blocked k (accessed log n s) /\ Forall (mdio_access (fep s)) log.
Proof.
  induction ops as [|[timeout mii_id regnum|mii_id regnum value] ops IH]; intros s Ha.
  - exists [], 0%nat. split; [|constructor]. by destruct s as [f w], f.
  - cbn [mdio_ops]. unfold nw_mdio_read. erewrite writel_ok by by rewrite mii_data_ok.
    match goal with |- context [nw_run _ _ _ ?x] => change x with (accessed [IoWrite (hwp (fep s) + FEC_MII_DATA) (FEC_MMFR 2 mii_id regnum)] 0 s) end.
    set (w := IoWrite _ _). assert (Hw : Forall (mdio_access (fep s)) [w]) by by apply Forall_singleton.
    assert (Hdata : forall log2 n2 k2, Forall (mdio_access (fep s)) log2 -> (forall v, k2 v = mdio_ops ops k) ->
      exists log n, nw_run base blocked (Readl FEC_MII_DATA k2) (accessed log2 n2 s) = nw_run base blocked k (accessed log n s) /\ Forall (mdio_access (fep s)) log).
    { intros log2 n2 k2 Hl2 Hk. destruct (mdio_data_ok base blocked k2 (accessed log2 n2 s) Ha) as (v & log3 & -> & Hl3). rewrite Hk.
      destruct (IH (accessed log3 1 (accessed log2 n2 s)) Ha) as (log4 & n4 & -> & Hl4).
      eexists _, _. split; [rewrite !accessed_app; reflexivity|by rewrite !Forall_app]. }
    destruct timeout; [|by apply Hdata].
    set (s1 := accessed [w] 0 s). set (a := hwp (fep s) + FEC_IEVENT). set (v := u32 (hw (nreads (fep s)) a)).
    rewrite (readl_ok base blocked FEC_IEVENT _ s1 (Z.land v FEC_ENET_MII) (accessed [IoRead a v] 1 s1));
      [|rewrite ievent_ok by (exact Ha || done); reflexivity|unfold io_read32; rewrite ievent_ok by (exact Ha || done); reflexivity].
    unfold s1. rewrite accessed_app. assert (Hw2 : Forall (mdio_access (fep s)) ([IoRead a v] ++ [w])).
    { apply Forall_app. split; [apply Forall_singleton; by right|done]. }
    destruct (_ =? 0); [|by apply Hdata].
    destruct (IH (accessed ([IoRead a v] ++ [w]) (1 + 0) s) Ha) as (log4 & n4 & -> & Hl4).
    eexists _, _. split; [rewrite !accessed_app; reflexivity|by apply Forall_app].
  - cbn [mdio_ops]. unfold nw_mdio_write. erewrite writel_ok by by rewrite mii_data_ok.
    match goal with |- context [nw_run _ _ _ ?x] => change x with
      (accessed [IoWrite (hwp (fep s) + FEC_MII_DATA) (Z.lor (FEC_MMFR 1 mii_id regnum) (FEC_MMFR_DATA value))] 0 s) end.
    set (w := IoWrite _ _). assert (Hw : Forall (mdio_access (fep s)) [w]) by by apply Forall_singleton.
    destruct (IH (accessed [w] 0 s) Ha) as (log4 & n4 & -> & Hl4).
    eexists _, _. split; [rewrite !accessed_app; reflexivity|by rewrite !Forall_app].
Qed.

(** What a restart leaves: the registers programmed, the transmit ring empty
    and its packets freed, every receive descriptor with the controller.
    [l]: the buffers in use elsewhere; [mdio]: accesses after the restart. *)
Record restarted (f : fec_enet_private) (mac : list Z) (c : nw_fec) (n m : nat) (rxs l : list positive) (mdio : list io_event) (s' : drv T) : Prop := {
  rs_log : io (fep s') = mdio ++ rev (restart_log f mac c) ++ io f;
  rs_tx : tx_ok (tx_queue (fep s')) n 0 [];
  rs_rx : rx_ok (rx_queue (fep s')) m rxs;
  rs_cur : bd_cur (rx_bd (rx_queue (fep s'))) = bd_base (rx_bd (rx_queue f));
  rs_fresh : forall j, rx_ring (rx_queue (fep s')) !! j = rx_fresh (rx_bd (rx_queue f)) j <$> rx_ring (rx_queue f) !! j;
  rs_owned : owned (env s') l
}.

Section change.
Context (base blocked : Z) (c : nw_fec).
Context (s : drv T) (n m : nat) (ms rxs l : list positive) (d : ifnet_t T) (q : pktqueue_t).
Context (Hq : quirks (fep s) = imx6q_quirks) (Hb : bufdesc_ex (fep s) = false).
Context (Hn : ndev ∈ netdev_list (w_nd (env s))) (Hd : devs (w_nd (env s)) !! ndev = Some d) (He : egress_queue d = Some q).
Context (Htx : tx_mem (tx_queue (fep s)) n ms) (Hrx : rx_ok (rx_queue (fep s)) m rxs) (Ho : owned (env s) (ms ++ l)).

(** The first access of a restart on a link change. *)
Lemma first_step pri rc ec rm n1 n2 w1 :
  sfec_state (fep s) = mk_sfec pri SFEC_SUB_NONE rc ec rm -> running pri ->
  fec_enet_adjust_link_sw_restart_pre ndev s = Ok (mk_drv ((fep s) <| rx_napi := n1 |> <| route_tx_napi := n2 |>) w1) ->
  fec_emu_check hw junk ndev base (base + FEC_ECNTRL) EMU_STATE_WRITE 1 4 s =
  Ok (true, 1, mk_drv (at_step pri rm ((fep s) <| rx_napi := n1 |> <| route_tx_napi := n2 |>)
                         SFEC_SUB_RESTART_RESET (Z.lor OPT_FRAME_SIZE 4) 2 [] 0) w1).
Proof.
  intros Hst Hr E. unfold fec_emu_check, emu_runtime. replace (base + FEC_ECNTRL - base) with FEC_ECNTRL by lia.
  rewrite E, !Hst. cbn [primary_st sub_st mbind outcome_bind].
  destruct Hr as [-> | [-> | ->]]; decide_closed; cbn -[Z.lor]; unfold set_sub, set_st, at_step, fec_restart_sw_0, upd; cbn -[Z.lor]; by rewrite Hst.
Qed.

Lemma link_up_ok k :
  running (primary_st (sfec_state (fep s))) -> sub_st (sfec_state (fep s)) = SFEC_SUB_NONE -> link c = true ->
  enabled (rx_napi (fep s)) -> enabled (route_tx_napi (fep s)) ->
  exists s', nw_run base blocked (nw_fec_restart c k) s = nw_run base blocked k s' /\
    restarted (fep s) (hwaddr d) c n m rxs l [] s' /\
    sfec_state (fep s') = mk_sfec SFEC_PRI_RUNNING SFEC_SUB_NONE 0 0 (rmii_mode (sfec_state (fep s))) /\
    devs (w_nd (env s')) !! ndev = Some (d <| egress_queue := Some (q <| stopped := false |>) |>) /\
    quirks (fep s') = quirks (fep s) /\ bufdesc_ex (fep s') = bufdesc_ex (fep s) /\
    netdev_list (w_nd (env s')) = netdev_list (w_nd (env s)) /\
    enabled (rx_napi (fep s')) /\ enabled (route_tx_napi (fep s')).
Proof.
  intros Hr Hs Hl H1 H2. destruct (link_pre_ok s d q Hd He H1 H2) as (n1 & n2 & Epre & D1 & D2).
  destruct (sfec_state (fep s)) as [pri sub rc ec rm] eqn:Hst. cbn [primary_st sub_st rmii_mode] in *. subst sub.
  pose proof (first_step pri rc ec rm n1 n2 _ Hst Hr Epre) as Efirst. clear Epre.
  set (f1 := (fep s) <| rx_napi := n1 |> <| route_tx_napi := n2 |>) in *. set (w1 := with_stopped ndev (env s) d q true) in *.
  set (d1 := d <| egress_queue := Some (q <| stopped := true |>) |>).
  assert (Hd1 : devs (w_nd w1) !! ndev = Some d1) by apply lookup_insert_eq.
  assert (Ho1 : owned w1 (ms ++ l)) by by apply owned_stopped.
  destruct (restart_mid base blocked pri (or_intror Hr) rm f1 w1 d1 c
    (Writel (if link c then FEC_DEFAULT_IMASK else FEC_ENET_MII) FEC_IMASK k) n ms m rxs l Hq Hb Hd1 Htx Hrx Ho1)
    as (w2 & tq & rq & log & E & Hlog & Htq & Hrq & Hcur & Hfr & Ho2 & Hnd).
  unfold nw_fec_restart. rewrite (writel_ok _ _ _ _ _ _ _ _ Efirst). clear Efirst. cbn [mbind outcome_bind].
  match type of E with nw_run _ _ _ ?x = _ => match goal with |- context [nw_run _ _ _ ?y] => change y with x end end.
  rewrite E, Hl in *. clear E. rewrite <- Hnd in Hd1.
  destruct (last_step base blocked pri Hr rm (f1 <| rx_queue := rq |> <| tx_queue := tq |>) w2 d1 (q <| stopped := true |>) k log 2
    Hd1 eq_refl eq_refl ltac:(exact D1) ltac:(exact D2)) as (f' & El & Hio & Hst' & Ht' & Hr' & Hq' & Hb' & N1 & N2).
  eexists. split; [exact El|]. cbn [fep env]. split; [|split; [exact Hst'|split; [apply lookup_insert_eq|split_and!; try done; cbn; by rewrite Hnd]]].
  split; cbn [fep env]; rewrite ?Ht', ?Hr'; try done.
  - rewrite Hio. change (restart_log f1 (hwaddr d1) c) with (restart_log (fep s) (hwaddr d) c) in Hlog.
    rewrite <- Hlog, rev_app_distr, rev_involutive. done.
  - apply (owned_stopped ndev w2 l d1 _ false); try done. by rewrite Hnd.
Qed.

(** The accesses of a restart when the device is opened. *)
Lemma first_step_open rc ec rm :
  sfec_state (fep s) = mk_sfec SFEC_PRI_PROBED SFEC_SUB_NONE rc ec rm ->
  fec_emu_check hw junk ndev base (base + FEC_ECNTRL) EMU_STATE_WRITE 1 4 s =
  Ok (true, 1, mk_drv (at_step SFEC_PRI_OPENING rm (fep s) SFEC_SUB_RESTART_RESET (Z.lor OPT_FRAME_SIZE 4) 2 [] 0) (env s)).
Proof.
  intros Hst. unfold fec_emu_check. replace (base + FEC_ECNTRL - base) with FEC_ECNTRL by lia.
  rewrite !Hst. cbn [primary_st sub_st]. decide_closed. cbn -[Z.lor].
  unfold set_sub, set_pri, set_st, at_step, fec_restart_sw_0, upd; cbn -[Z.lor]; by rewrite Hst.
Qed.

Lemma last_step_open rm f w k log n' :
  nw_run base blocked (Writel (if link c then FEC_DEFAULT_IMASK else FEC_ENET_MII) FEC_IMASK k)
    (mk_drv (at_step SFEC_PRI_OPENING rm f SFEC_SUB_RESTART_ECNTRL 0 0 log n') w) =
  nw_run base blocked k
    (mk_drv (at_step SFEC_PRI_POST_OPEN rm f (if link c then SFEC_SUB_RESTART_IMASK_RUN else SFEC_SUB_RESTART_IMASK_MII) 0 0
       (IoWrite (hwp f + FEC_IMASK) (if link c then FEC_DEFAULT_IMASK else FEC_ENET_MII) ::
        IoWrite (reg_desc_active (rx_bd (rx_queue f))) 0 :: log) n') w).
Proof.
  destruct (link c); (erewrite (step_write _ _ _ (or_introl eq_refl)); [|done|done|]).
  2, 4: unfold _fec_emulate_fec_restart; cbn [fep]; rewrite at_step_st; cbn [sub_st primary_st]; decide_closed; cbn [negb];
    change (c_assert (in_restart SFEC_SUB_RESTART_ECNTRL)) with (Ok tt); cbn [mbind outcome_bind];
    cbn [Z.eqb Pos.eqb negb orb andb FEC_IMASK FEC_DEFAULT_IMASK FEC_ENET_MII]; reflexivity.
  all: reflexivity.
Qed.

Lemma open_restart_ok k rc ec rm :
  sfec_state (fep s) = mk_sfec SFEC_PRI_PROBED SFEC_SUB_NONE rc ec rm ->
  exists s', nw_run base blocked (nw_fec_restart c k) s = nw_run base blocked k s' /\
    restarted (fep s) (hwaddr d) c n m rxs l [] s' /\
    sfec_state (fep s') = mk_sfec SFEC_PRI_POST_OPEN (if link c then SFEC_SUB_RESTART_IMASK_RUN else SFEC_SUB_RESTART_IMASK_MII) 0 0 rm /\
    w_nd (env s') = w_nd (env s) /\ hwp (fep s') = hwp (fep s) /\ rx_napi (fep s') = rx_napi (fep s) /\ route_tx_napi (fep s') = route_tx_napi (fep s).
Proof.
  intros Hst. pose proof (first_step_open rc ec rm Hst) as Efirst.
  destruct (restart_mid base blocked SFEC_PRI_OPENING (or_introl eq_refl) rm (fep s) (env s) d c
    (Writel (if link c then FEC_DEFAULT_IMASK else FEC_ENET_MII) FEC_IMASK k) n ms m rxs l Hq Hb Hd Htx Hrx Ho)
    as (w2 & tq & rq & log & E & Hlog & Htq & Hrq & Hcur & Hfr & Ho2 & Hnd).
  unfold nw_fec_restart. rewrite (writel_ok _ _ _ _ _ _ _ _ Efirst).
  match type of E with nw_run _ _ _ ?x = _ => match goal with |- context [nw_run _ _ _ ?y] => change y with x end end.
  rewrite E, last_step_open. eexists. split; [reflexivity|]. split; [|done].
  split; try done. cbn [fep env]. rewrite <- Hlog, rev_app_distr, rev_involutive. done.
Qed.

(** Opening the device in the normal world: its restart sequence, any
    operations of the PHY library and the final virtual write pass the trap
    handler.  Afterwards the controller has seen exactly the register sequence
    of a restart, with the secure driver's ring addresses, MAC address and
    modes in it; the packets that waited for transmission have been freed,
    once each, the rings are reset, and the driver runs with its queue and
    both NAPI instances enabled.  The virtual write is not committed. *)
Theorem nw_open_starts probe rc ec rm :
  sfec_state (fep s) = mk_sfec SFEC_PRI_PROBED SFEC_SUB_NONE rc ec rm ->
  disabled (rx_napi (fep s)) -> disabled (route_tx_napi (fep s)) ->
  exists s' mdio, nw_run base blocked (nw_fec_enet_open c probe) s = Ok s' /\
    restarted (fep s) (hwaddr d) c n m rxs l mdio s' /\ Forall (mdio_access (fep s)) mdio /\
    sfec_state (fep s') = mk_sfec (if link c then SFEC_PRI_RUNNING else SFEC_PRI_RESTARTED) SFEC_SUB_NONE 0 0 rm /\
    devs (w_nd (env s')) !! ndev = Some (d <| egress_queue := Some (q <| stopped := false |>) |>) /\
    enabled (rx_napi (fep s')) /\ enabled (route_tx_napi (fep s')).
Proof.
  intros Hst D1 D2. unfold nw_fec_enet_open.
  destruct (open_restart_ok (mdio_ops probe (Writel 47 FEC_X_WMRK NwDone)) rc ec rm Hst) as (s1 & -> & [L1 L2 L3 L4 L5 L6] & Hst1 & Hnd & Hh & Hn1 & Hn2).
  destruct (mdio_ok base blocked probe (Writel 47 FEC_X_WMRK NwDone) s1) as (mdio & r & -> & Hm).
  { unfold accessible. rewrite Hst1. by destruct (link c). }
  set (s2 := accessed mdio r s1). set (pri := if link c then SFEC_PRI_RUNNING else SFEC_PRI_RESTARTED).
  rewrite <- Hn1 in D1. rewrite <- Hn2 in D2.
  set (f3 := (fep s2) <| sfec_state := mk_sfec pri SFEC_SUB_NONE 0 0 rm |>).
  destruct (napis_enable_ok f3 D1 D2) as (n1 & n2 & E & N1 & N2).
  set (f4 := f3 <| rx_napi := n1 |> <| route_tx_napi := n2 |>) in *.
  assert (Ew : fec_enet_open_sw ndev (mk_drv f3 (env s1)) = Ok (mk_drv f4 (with_stopped ndev (env s1) d q false))).
  { unfold fec_enet_open_sw, netdev_get_tx_queue, set_tx_queue, dev_get. cbn [fep]. rewrite E. cbn [mbind outcome_bind].
    change (env (upd _ _ _)) with (env s1). rewrite Hnd, Hd. cbn [deref mbind outcome_bind]. rewrite He. reflexivity. }
  assert (Hlast : fec_emu_check hw junk ndev base (base + FEC_X_WMRK) EMU_STATE_WRITE 47 4 s2 = Ok (false, 47, mk_drv f4 (with_stopped ndev (env s1) d q false))).
  { unfold fec_emu_check. replace (base + FEC_X_WMRK - base) with FEC_X_WMRK by lia. change (sfec_state (fep s2)) with (sfec_state (fep s1)).
    rewrite Hst1. cbn [primary_st sub_st]. decide_closed. cbn [negb orb andb Z.eqb Pos.eqb FEC_X_WMRK FEC_MII_DATA FEC_IEVENT].
    assert (Ep : (match (if link c then SFEC_SUB_RESTART_IMASK_RUN else SFEC_SUB_RESTART_IMASK_MII) with
      SFEC_SUB_RESTART_IMASK_RUN => Ok SFEC_PRI_RUNNING | SFEC_SUB_RESTART_IMASK_MII => Ok SFEC_PRI_RESTARTED | _ => Panic end) = Ok pri)
      by (unfold pri; by destruct (link c)).
    rewrite Ep. cbn [mbind outcome_bind].
    replace (set_sub SFEC_SUB_NONE (set_pri pri s2)) with (mk_drv f3 (env s1)) by (unfold f3, s2, set_sub, set_pri, set_st, accessed, upd; cbn; by rewrite Hst1).
    by rewrite Ew. }
  exists (mk_drv f4 (with_stopped ndev (env s1) d q false)), mdio. split; [exact (writel_refused _ _ _ _ _ _ _ _ Hlast)|]. cbn [fep env].
  split; [|split; [|split; [done|split; [apply lookup_insert_eq|done]]]].
  - split; cbn [fep env]; try done; [change (io f4) with (mdio ++ io (fep s1)); by rewrite L1|].
    apply (owned_stopped ndev _ l d q false); rewrite ?Hnd; done.
  - eapply Forall_impl; [exact Hm|]. intros e. unfold mdio_access. by rewrite Hh.
Qed.

End change.

(** ** A stop *)

(** The register accesses of a stop, oldest first. *)
Definition stop_log f (c : nw_fec) : list io_event :=
  let W off v := IoWrite (hwp f + off) v in
  let rc := u32 (hw (nreads f) (hwp f + FEC_R_CNTRL)) in
  [IoRead (hwp f + FEC_R_CNTRL) rc] ++
  (if link c then [W FEC_X_CNTRL 1; IoRead (hwp f + FEC_IEVENT) (u32 (hw (S (nreads f)) (hwp f + FEC_IEVENT)))] else []) ++
  [ W FEC_ECNTRL 1; W FEC_IMASK FEC_ENET_MII; W FEC_MII_SPEED (phy_speed c); W FEC_ECNTRL 2;
    W FEC_R_CNTRL (Z.land rc 0x100) ].

(** A register write in the middle of a stop. *)
Lemma emu_stop base off state v s :
  in_stop (sub_st (sfec_state (fep s))) = true -> (off =? FEC_MII_DATA) = false ->
  (off =? FEC_IEVENT) && negb (bool_decide (sub_st (sfec_state (fep s)) = SFEC_SUB_STOP_XMIT_STOP)) = false ->
  running (primary_st (sfec_state (fep s))) ->
  fec_emu_check hw junk ndev base (base + off) state v 4 s =
    ('(v, s) ← _fec_emulate_fec_stop off state v s; Ok (true, v, s)).
Proof.
  intros Hs Ho Hi Hp. unfold fec_emu_check. replace (base + off - base) with off by lia. rewrite Ho.
  assert (Hnone : sub_st (sfec_state (fep s)) <> SFEC_SUB_NONE) by (by destruct (sub_st (sfec_state (fep s)))).
  unfold emu_runtime. rewrite Hs, (bool_decide_false (_ = SFEC_SUB_NONE)) by done.
  assert (forall b, (off =? FEC_IEVENT) && b && negb (bool_decide (sub_st (sfec_state (fep s)) = SFEC_SUB_STOP_XMIT_STOP)) = false) as ->
    by (intros b; destruct (off =? FEC_IEVENT), b, (bool_decide _); done).
  destruct Hp as [-> | [-> | ->]]; decide_closed; done.
Qed.

Section stop_steps.
Context (base blocked : Z) (pri : sfec_prist_t) (Hpri : running pri) (rm rc ec : Z).

Lemma stop_write off v k f w x y log n :
  in_stop x = true -> (off =? FEC_MII_DATA) = false -> (off =? FEC_IEVENT) = false ->
  _fec_emulate_fec_stop off EMU_STATE_WRITE v (mk_drv (at_step pri rm f x rc ec log n) w) = Ok (v, mk_drv (at_step pri rm f y rc ec log n) w) ->
  nw_run base blocked (Writel v off k) (mk_drv (at_step pri rm f x rc ec log n) w) =
  nw_run base blocked k (mk_drv (at_step pri rm f y rc ec (IoWrite (hwp f + off) v :: log) n) w).
Proof. intros Hx Ho Hi E. erewrite writel_ok; [|rewrite emu_stop by (done || by rewrite Hi); rewrite E; reflexivity]. done. Qed.

(** The first access: the RMII bit is noted, queue and NAPI are stopped. *)
Lemma stop_first k s d q :
  sfec_state (fep s) = mk_sfec pri SFEC_SUB_NONE rc ec rm ->
  devs (w_nd (env s)) !! ndev = Some d -> egress_queue d = Some q -> enabled (rx_napi (fep s)) -> enabled (route_tx_napi (fep s)) ->
  let v := u32 (hw (nreads (fep s)) (hwp (fep s) + FEC_R_CNTRL)) in
  exists n1 n2, disabled n1 /\ disabled n2 /\
    nw_run base blocked (Readl FEC_R_CNTRL k) s =
    nw_run base blocked (k (Z.land v 0x100))
      (mk_drv (at_step pri (Z.land v 0x100) ((fep s) <| rx_napi := n1 |> <| route_tx_napi := n2 |>) SFEC_SUB_STOP_GET_RMII rc ec
                 [IoRead (hwp (fep s) + FEC_R_CNTRL) v] 1) (with_stopped ndev (env s) d q true)).
Proof.
  intros Hst Hd Hq H1 H2 v. set (s1 := accessed [IoRead (hwp (fep s) + FEC_R_CNTRL) v] 1 s).
  destruct (link_pre_ok s1 d q Hd Hq H1 H2) as (n1 & n2 & E & D1 & D2). exists n1, n2. split; [done|]. split; [done|].
  apply readl_ok.
  - unfold fec_emu_check, emu_runtime. replace (base + FEC_R_CNTRL - base) with FEC_R_CNTRL by lia. rewrite !Hst. cbn [primary_st sub_st].
    destruct Hpri as [-> | [-> | ->]]; decide_closed; done.
  - unfold io_read32. cbv beta iota zeta. change (s <| fep := _ |>) with s1. fold v. clearbody v.
    unfold fec_emu_check, emu_runtime. replace (base + FEC_R_CNTRL - base) with FEC_R_CNTRL by lia.
    change (sfec_state (fep s1)) with (sfec_state (fep s)). rewrite !Hst. cbn [primary_st sub_st].
    change (fec_enet_adjust_link_sw_stop_pre ndev s1) with (fec_enet_adjust_link_sw_restart_pre ndev s1). rewrite E.
    destruct Hpri as [-> | [-> | ->]]; decide_closed; cbn [negb orb andb mbind outcome_bind Z.eqb Pos.eqb FEC_R_CNTRL FEC_MII_DATA FEC_IEVENT FEC_X_WMRK FEC_MII_SPEED].
    all: change (1 ≪ 8) with 256; clear -Hst; destruct s as [f w]; destruct f; simpl in Hst; subst; reflexivity.
Qed.

(** Reading the event of the transmitter's stop. *)
Lemma stop_event k f w log n :
  let v := u32 (hw (n + nreads f) (hwp f + FEC_IEVENT)) in
  nw_run base blocked (Readl FEC_IEVENT k) (mk_drv (at_step pri rm f SFEC_SUB_STOP_XMIT_STOP rc ec log n) w) =
  nw_run base blocked (k (Z.land v FEC_ENET_GRA))
    (mk_drv (at_step pri rm f SFEC_SUB_STOP_GET_IEVENT rc ec (IoRead (hwp f + FEC_IEVENT) v :: log) (S n)) w).
Proof.
  intros v. apply readl_ok.
  - by rewrite emu_stop.
  - cbn [fep]. rewrite read_at. cbv beta iota zeta.
    change (upd fep _ _) with (mk_drv (at_step pri rm f SFEC_SUB_STOP_XMIT_STOP rc ec (IoRead (hwp f + FEC_IEVENT) v :: log) (S n)) w).
    by rewrite emu_stop.
Qed.

(** The last access: the NAPI instances run again. *)
Lemma stop_last k f w log n :
  disabled (rx_napi f) -> disabled (route_tx_napi f) ->
  exists n1 n2, enabled n1 /\ enabled n2 /\
    nw_run base blocked (Writel rm FEC_R_CNTRL k) (mk_drv (at_step pri rm f SFEC_SUB_STOP_ECNTRL rc ec log n) w) =
    nw_run base blocked k
      (mk_drv ((at_step SFEC_PRI_STOPPED 0 f SFEC_SUB_NONE rc ec (IoWrite (hwp f + FEC_R_CNTRL) rm :: log) n)
                 <| rx_napi := n1 |> <| route_tx_napi := n2 |>) w).
Proof.
  intros D1 D2. set (f1 := at_step pri 0 f SFEC_SUB_STOP_ECNTRL rc ec log n).
  destruct (napis_enable_ok f1 D1 D2) as (n1 & n2 & E & N1 & N2). exists n1, n2. split; [done|]. split; [done|].
  assert (Ep : fec_enet_adjust_link_sw_stop_post (mk_drv f1 w) = Ok (mk_drv (f1 <| rx_napi := n1 |> <| route_tx_napi := n2 |>) w)).
  { unfold fec_enet_adjust_link_sw_stop_post. cbn [fep]. rewrite E. unfold f1. rewrite at_step_st. cbn [primary_st].
    destruct Hpri as [-> | [-> | ->]]; decide_closed; done. }
  erewrite writel_ok; [|rewrite emu_stop by done; unfold _fec_emulate_fec_stop; cbn [fep]; rewrite at_step_st; cbn [sub_st rmii_mode]].
  2: { change (c_assert (in_stop SFEC_SUB_STOP_ECNTRL)) with (Ok tt). decide_closed. cbn [mbind outcome_bind negb orb].
       rewrite !Z.eqb_refl. cbn [negb orb]. match goal with |- context [fec_enet_adjust_link_sw_stop_post ?x] => change x with (mk_drv f1 w) end.
       rewrite Ep. cbn [mbind outcome_bind]. reflexivity. }
  destruct Hpri as [-> | [-> | ->]]; reflexivity.
Qed.

(** From the reset on. *)
Lemma stop_tail sp k f w x log n :
  x = SFEC_SUB_STOP_GET_RMII \/ x = SFEC_SUB_STOP_GET_IEVENT -> disabled (rx_napi f) -> disabled (route_tx_napi f) ->
  exists n1 n2, enabled n1 /\ enabled n2 /\
    nw_run base blocked
      (Writel 1 FEC_ECNTRL $ Writel FEC_ENET_MII FEC_IMASK $ Writel sp FEC_MII_SPEED $ Writel 2 FEC_ECNTRL $ Writel rm FEC_R_CNTRL k)
      (mk_drv (at_step pri rm f x rc ec log n) w) =
    nw_run base blocked k
      (mk_drv ((at_step SFEC_PRI_STOPPED 0 f SFEC_SUB_NONE rc ec
                  (IoWrite (hwp f + FEC_R_CNTRL) rm :: IoWrite (hwp f + FEC_ECNTRL) 2 :: IoWrite (hwp f + FEC_MII_SPEED) sp ::
                   IoWrite (hwp f + FEC_IMASK) FEC_ENET_MII :: IoWrite (hwp f + FEC_ECNTRL) 1 :: log) n)
                 <| rx_napi := n1 |> <| route_tx_napi := n2 |>) w).
Proof.
  intros Hx D1 D2.
  rewrite (stop_write FEC_ECNTRL 1 _ f w x SFEC_SUB_STOP_RESET) by (by destruct Hx as [-> | ->]).
  rewrite (stop_write FEC_IMASK _ _ f w _ SFEC_SUB_STOP_MII_IMASK) by done.
  rewrite (stop_write FEC_MII_SPEED _ _ f w _ SFEC_SUB_STOP_MII_SPEED) by done.
  rewrite (stop_write FEC_ECNTRL _ _ f w _ SFEC_SUB_STOP_ECNTRL) by done.
  match goal with |- context [at_step pri rm f _ rc ec ?lg n] => destruct (stop_last k f w lg n D1 D2) as (n1 & n2 & N1 & N2 & ->) end.
  by exists n1, n2.
Qed.

End stop_steps.

(** The stop sequence of the normal world's driver is accepted in every
    runtime state. *)
Lemma link_down_ok base blocked c s d q :
  running (primary_st (sfec_state (fep s))) -> sub_st (sfec_state (fep s)) = SFEC_SUB_NONE ->
  negb (Z.land (nw_quirks c) FEC_QUIRK_ENET_MAC =? 0) = true ->
  devs (w_nd (env s)) !! ndev = Some d -> egress_queue d = Some q -> enabled (rx_napi (fep s)) -> enabled (route_tx_napi (fep s)) ->
  exists s', nw_run base blocked (nw_fec_stop c NwDone) s = Ok s' /\
    io (fep s') = rev (stop_log (fep s) c) ++ io (fep s) /\
    primary_st (sfec_state (fep s')) = SFEC_PRI_STOPPED /\ sub_st (sfec_state (fep s')) = SFEC_SUB_NONE /\
    env s' = with_stopped ndev (env s) d q true /\ tx_queue (fep s') = tx_queue (fep s) /\ rx_queue (fep s') = rx_queue (fep s) /\
    quirks (fep s') = quirks (fep s) /\ bufdesc_ex (fep s') = bufdesc_ex (fep s) /\
    enabled (rx_napi (fep s')) /\ enabled (route_tx_napi (fep s')).
Proof.
  intros Hr Hs Hq Hd He H1 H2. destruct (sfec_state (fep s)) as [pri sub rc ec rm] eqn:Hst. cbn [primary_st sub_st] in *. subst sub.
  unfold nw_fec_stop. apply negb_true_iff in Hq. rewrite Hq.
  match goal with |- context [Readl FEC_R_CNTRL ?x] => destruct (stop_first base blocked pri Hr rm rc ec x s d q Hst Hd He H1 H2) as (n1 & n2 & D1 & D2 & ->) end.
  set (v := u32 (hw (nreads (fep s)) (hwp (fep s) + FEC_R_CNTRL))). cbv beta zeta.
  change (1 ≪ 8) with 256. rewrite <- Z.land_assoc, Z.land_diag.
  set (f1 := (fep s) <| rx_napi := n1 |> <| route_tx_napi := n2 |>). unfold stop_log. fold v.
  destruct (link c).
  - rewrite (stop_write base blocked pri Hr _ rc ec _ _ _ _ _ SFEC_SUB_STOP_GET_RMII SFEC_SUB_STOP_XMIT_STOP), stop_event by done.
    destruct (stop_tail base blocked pri Hr (Z.land v 256) rc ec (phy_speed c) NwDone f1 (with_stopped ndev (env s) d q true)
      SFEC_SUB_STOP_GET_IEVENT [IoRead (hwp f1 + FEC_IEVENT) (u32 (hw (1 + nreads f1) (hwp f1 + FEC_IEVENT)));
        IoWrite (hwp f1 + FEC_X_CNTRL) 1; IoRead (hwp (fep s) + FEC_R_CNTRL) v] 2 (or_intror eq_refl) ltac:(exact D1) ltac:(exact D2))
      as (m1 & m2 & N1 & N2 & ->).
    eexists. split; [reflexivity|]. done.
  - unfold id.
    destruct (stop_tail base blocked pri Hr (Z.land v 256) rc ec (phy_speed c) NwDone f1 (with_stopped ndev (env s) d q true)
      SFEC_SUB_STOP_GET_RMII [IoRead (hwp (fep s) + FEC_R_CNTRL) v] 1 (or_introl eq_refl) ltac:(exact D1) ltac:(exact D2))
      as (m1 & m2 & N1 & N2 & ->).
    eexists. split; [reflexivity|]. done.
Qed.

(** The driver between two accesses of the normal world, at runtime. *)
Record link_inv (s : drv T) (d : ifnet_t T) (n m p : nat) (ms rxs l : list positive) : Prop := {
  li_pri : running (primary_st (sfec_state (fep s)));
  li_sub : sub_st (sfec_state (fep s)) = SFEC_SUB_NONE;
  li_quirks : quirks (fep s) = imx6q_quirks;
  li_bd : bufdesc_ex (fep s) = false;
  li_ndev : ndev ∈ netdev_list (w_nd (env s));
  li_dev : devs (w_nd (env s)) !! ndev = Some d;
  li_queue : is_Some (egress_queue d);
  li_tx : tx_ok (tx_queue (fep s)) n p ms;
  li_rx : rx_ok (rx_queue (fep s)) m rxs;
  li_owned : owned (env s) (ms ++ l);
  li_napi : enabled (rx_napi (fep s)) /\ enabled (route_tx_napi (fep s))
}.

(** C29. The link callback of the normal world's driver, for every state of
    the PHY: its accesses are accepted by the trap handler, and the driver is
    then again in a runtime state with both NAPI instances enabled.  After a
    restart the controller has seen exactly the register sequence of a
    restart and the packets waiting for transmission have been freed, once
    each; after a stop it has seen the stop sequence with the RMII mode it
    had before, and the queue is stopped; otherwise nothing has changed. *)
Theorem nw_adjust_link_accepted base blocked c e s d n m p ms rxs l c' a :
  link_inv s d n m p ms rxs l -> negb (Z.land (nw_quirks c) FEC_QUIRK_ENET_MAC =? 0) = true ->
  nw_adjust_link c e = (c', a) ->
  exists s' d', nw_run base blocked (nw_link_accesses c c' a NwDone) s = Ok s' /\
    match a with
    | LinkRestart => link_inv s' d' n m 0 [] rxs l /\ restarted (fep s) (hwaddr d) c' n m rxs l [] s' /\
        primary_st (sfec_state (fep s')) = SFEC_PRI_RUNNING /\ stopped <$> egress_queue d' = Some false
    | LinkStop => link_inv s' d' n m p ms rxs l /\ io (fep s') = rev (stop_log (fep s) c) ++ io (fep s) /\
        primary_st (sfec_state (fep s')) = SFEC_PRI_STOPPED /\ stopped <$> egress_queue d' = Some true
    | LinkNothing => s' = s /\ d' = d
    end.
Proof.
  intros Hi Hq Ha. pose proof Hi as [L1 L2 L3 L4 L5 L6 [q L7] L8 L9 L10 [L11 L12]]. destruct a; cbn [nw_link_accesses].
  - assert (Hl : link c' = true).
    { unfold nw_adjust_link in Ha. cbv zeta in Ha. destruct (mii_timeout _ && _); [by simplify_eq|].
      destruct (phy_link e); [by injection Ha as <-|]. by destruct (link _); simplify_eq. }
    destruct (link_up_ok base blocked c' s n m ms rxs l d q L3 L4 L5 L6 L7 (tx_ok_mem _ _ _ _ L8) L9 L10 NwDone L1 L2 Hl L11 L12)
      as (s' & E & Hres & Hst & Hd & Hqq & Hbb & Hnl & N1 & N2).
    exists s', (d <| egress_queue := Some (q <| stopped := false |>) |>). split; [exact E|]. split; [|split; [exact Hres|split; [by rewrite Hst|done]]].
    destruct Hres as [_ R2 R3 _ _ R6]. split; rewrite ?Hst, ?Hqq, ?Hbb, ?Hnl; try done; right; by right.
  - destruct (link_down_ok base blocked c s d q L1 L2 Hq L6 L7 L11 L12) as (s' & E & Hio & Hp & Hs & Hen & Ht & Hr & Hqq & Hbb & N1 & N2).
    eexists s', (d <| egress_queue := Some (q <| stopped := true |>) |>). split; [exact E|]. split; [|done].
    split; rewrite ?Hp, ?Hs, ?Hqq, ?Hbb, ?Ht, ?Hr, ?Hen; try done; [right; by left|apply lookup_insert_eq|by apply owned_stopped].
  - by eexists s, d.
Qed.

(** C38. Closing the device in the normal world panics the secure world: the
    handler has no case for the state [SFEC_PRI_SHUTTING_DOWN] which it enters
    on the virtual shutdown write, so the stop sequence that follows it is
    answered with a panic. *)
Theorem nw_close_panics base blocked c s :
  running (primary_st (sfec_state (fep s))) -> sub_st (sfec_state (fep s)) = SFEC_SUB_NONE ->
  nw_run base blocked (nw_fec_enet_close c) s = Panic.
Proof.
  intros Hr Hs. unfold nw_fec_enet_close.
  assert (E : fec_emu_check hw junk ndev base (base + FEC_X_WMRK) EMU_STATE_WRITE 48 4 s = Ok (false, 48, set_pri SFEC_PRI_SHUTTING_DOWN s)).
  { unfold fec_emu_check, emu_runtime. replace (base + FEC_X_WMRK - base) with FEC_X_WMRK by lia. rewrite Hs.
    destruct Hr as [-> | [-> | ->]]; decide_closed; done. }
  rewrite (writel_refused _ _ _ _ _ _ _ _ E).
  assert (E2 : fec_emu_check hw junk ndev base (base + FEC_R_CNTRL) EMU_STATE_READ_BEFORE blocked 4 (set_pri SFEC_PRI_SHUTTING_DOWN s) = Panic).
  { unfold fec_emu_check. replace (base + FEC_R_CNTRL - base) with FEC_R_CNTRL by lia.
    change (primary_st (sfec_state (fep (set_pri SFEC_PRI_SHUTTING_DOWN s)))) with SFEC_PRI_SHUTTING_DOWN. decide_closed. done. }
  unfold nw_fec_stop, nw_run. by rewrite E2.
Qed.

End run.

(** ** An example: a gigabit link *)

Definition ex_link : nw_fec := mk_nw_fec DUPLEX_FULL 13 PHY_RGMII (Some (1000, true)) FEC_PAUSE_FLAG_AUTONEG true 1 1000 false.

Definition ex_running : drv (gmap (list Z) (list Z)) :=
  (ex_rx_drv 66) <| fep ::= fun f => f <| rx_napi := mk_napi 0 false false |> <| route_tx_napi := mk_napi 0 false false |> |>.

Lemma ex_link_owned : owned (env (ex_rx_drv 66)) [2; 3; 4; 5]%positive.
Proof.
  split; [|done]. apply ex_world_of_ok; [exact ex_rx_pool_wf| |apply ex_queue_wf; auto|constructor].
  intros i e Hi%elem_of_list_to_map_2. set_unfold. assert (e = ex_rx_buf) as -> by naive_solver. cbn. lia.
Qed.

Lemma nw_open_starts_witness :
  exists s' mdio, nw_run (fun _ _ => 0) (0, 0) 1 0x2188000 0 (nw_fec_enet_open ex_link [MdioRead false 1 2; MdioWrite 1 0 0x8000]) ex_probed = Ok s' /\
    restarted (fun _ _ => 0) (0, 0) (fep ex_probed) [2; 0; 0; 0; 0; 1] ex_link 4 4 [2; 3; 4; 5]%positive [2; 3; 4; 5]%positive mdio s' /\
    Forall (mdio_access (fep ex_probed)) mdio /\
    sfec_state (fep s') = mk_sfec SFEC_PRI_RUNNING SFEC_SUB_NONE 0 0 0 /\
    devs (w_nd (env s')) !! 1%positive
      = Some ((ex_dev (ex_queue 0 (replicate 4 None))) <| egress_queue := Some ((ex_queue 0 (replicate 4 None)) <| stopped := false |>) |>) /\
    enabled (rx_napi (fep s')) /\ enabled (route_tx_napi (fep s')).
Proof.
  apply (nw_open_starts (fun _ _ => 0) (0, 0) 1 0x2188000 0 ex_link ex_probed 4 4 [] [2; 3; 4; 5]%positive [2; 3; 4; 5]%positive
    (ex_dev (ex_queue 0 (replicate 4 None))) (ex_queue 0 (replicate 4 None)) eq_refl eq_refl
    ltac:(cbn; set_solver) eq_refl eq_refl (tx_ok_mem _ _ _ _ ex_txq_empty) (ex_rx_ok 66) ex_link_owned
    [MdioRead false 1 2; MdioWrite 1 0 0x8000] 0 0 0); done.
Defined.

Lemma nw_close_panics_witness : nw_run (fun _ _ => 0) (0, 0) 1 0x2188000 0 (nw_fec_enet_close ex_link) ex_running = Panic.
Proof. apply (nw_close_panics (fun _ _ => 0) (0, 0) 1 0x2188000 0 ex_link ex_running); [right; by right|done]. Defined.

Lemma nw_adjust_link_accepted_witness :
  let e := mk_phy false true DUPLEX_FULL 100 true in let c' := ex_link <| phydev := Some (100, true) |> <| fep_speed := 100 |> in
  exists s' d', nw_run (fun _ _ => 0) (0, 0) 1 0x2188000 0 (nw_link_accesses ex_link c' LinkRestart NwDone) ex_running = Ok s' /\
    link_inv 1 s' d' 4 4 0 [] [2; 3; 4; 5]%positive [2; 3; 4; 5]%positive /\
    restarted (fun _ _ => 0) (0, 0) (fep ex_running) [2; 0; 0; 0; 0; 1] c' 4 4 [2; 3; 4; 5]%positive [2; 3; 4; 5]%positive [] s' /\
    primary_st (sfec_state (fep s')) = SFEC_PRI_RUNNING /\ stopped <$> egress_queue d' = Some false.
Proof.
  intros e c'. apply (nw_adjust_link_accepted (fun _ _ => 0) (0, 0) 1 0x2188000 0 ex_link e ex_running
    (ex_dev (ex_queue 0 (replicate 4 None))) 4 4 0 [] [2; 3; 4; 5]%positive [2; 3; 4; 5]%positive c' LinkRestart); try done.
  split; try done; [right; by right|cbn; set_solver|exact ex_txq_empty|exact (ex_rx_ok 66)|exact ex_link_owned].
Defined.
