(* ===== verification/FecInit.v ===== *)
(** * Probing the Ethernet controller
    (fec_drivers/bstgw/imx_fec.c: fec_probe and what it calls;
    fec_drivers/bstgw/utils.c, fec_drivers/include/utils.h;
    optee_os_core_libs/bstgw/dma_pool.c; the address checks of
    optee_os_core_libs/libdpdk/dpdk/rte_ether.h).

    What the heap, the memory management, the interrupt controller and the
    emulation layer answer is the record [probe_env].  A probe whose requests
    are all served leaves the state every other part of the driver starts
    from; one whose last step fails has freed a device that stays registered. *)

From stdpp Require Import strings.
From S2P Require Import Prelude Pktq EthBuf Napi Netdev Route Newlib Config Forward Router RouterInit Worker Fec FecTx FecRx FecReset FecTraps FecLink.

(** ** Helpers (utils.h, utils.c, dma_pool.c, rte_ether.h) *)

Definition FEC_IRQ_NUM : Z := 3.
Definition IF_NAMESIZE : Z := 16.

(** [__fls] with 32 bits per word: the test for [k] clear leading bits. *)
Definition fls_step (k : Z) (st : Z * Z) : Z * Z :=
  let '(num, word) := st in
  if Z.land word (u32 (Z.shiftl MAX_U32 (32 - k))) =? 0 then (num - k, u32 (Z.shiftl word k)) else (num, word).
Definition __fls (word : Z) : Z :=
  let st := fls_step 2 (fls_step 4 (fls_step 8 (fls_step 16 (31, word)))) in
  if Z.land st.2 (u32 (Z.shiftl MAX_U32 31)) =? 0 then st.1 - 1 else st.1.

(** A device of the device tree: its resources (address and size) and the
    number of its interrupts. *)
Record device := mk_device { resource_type : Z; resources : list (Z * Z); num_irqs : Z }.

Definition bstgw_platform_get_resource (dev : device) (type : Z) (idx : nat) : option (Z * Z) :=
  if negb (type =? resource_type dev) then None else resources dev !! idx.

(** [add_mapping], [get_va]: the core's memory mapping. *)
Definition bstgw_devm_ioremap_resource (add_mapping : Z -> Z -> bool) (get_va : Z -> Z) (res : Z * Z) : Z :=
  if negb (add_mapping res.1 res.2) then 0 else get_va res.1.

(** The virtual address (0 if there is none) and the physical one.
    [mm_alloc]: the physical address of a chunk of the DMA pool. *)
Definition bstgw_dma_alloc_coherent (mm_alloc : Z -> option Z) (phys_to_virt : Z -> Z) (len : Z) : Z * Z :=
  match mm_alloc len with
  | None => (0, 0)
  | Some pa => if phys_to_virt pa =? 0 then (0, 0) else (phys_to_virt pa, pa)
  end.

Definition rte_is_unicast_ether_addr (a : list Z) : bool := Z.land (nth 0 a 0) 1 =? 0.
Definition rte_is_valid_assigned_ether_addr (a : list Z) : bool :=
  rte_is_unicast_ether_addr a && negb (rte_is_zero_ether_addr a).

(** What [calloc] and [memset] leave. *)
Definition bufdesc_zero : bufdesc := mk_bufdesc 0 0 0 0 0 0.
Definition bd_zero : bufdesc_prop := mk_bd 0 0 0 0 0 0 0 0.
Definition napi_zero : napi_struct := mk_napi 0 false false.
Definition txq_zero : fec_enet_priv_tx_q :=
  mk_txq bd_zero [] (replicate (Z.to_nat TX_RING_SIZE) None) (replicate (Z.to_nat TX_RING_SIZE) None) 0 0 0.
Definition rxq_zero : fec_enet_priv_rx_q := mk_rxq bd_zero [] (replicate (Z.to_nat RX_RING_SIZE) None).

(** The private data; its queues are allocated later. *)
Definition fec_zero : fec_enet_private :=
  mk_fec 0 (mk_sfec SFEC_PRI_UNINIT SFEC_SUB_NONE 0 0 0) (mk_pktqueue false 0 0 0 0 []) false txq_zero rxq_zero 0 false 0
    napi_zero napi_zero 0 0 0 0 [] 0 0.

(** ** What the rest of the system answers *)

Record probe_env := mk_probe_env {
  pe_ndev : bool;                       (** the heap serves the device, *)
  pe_egress : bool;                     (** its egress queue, *)
  pe_priv : bool;                       (** its private data; *)
  pe_napi : bool -> bool * bool;        (** condition variable and mutex of the receive (false) and transmit (true) context; *)
  pe_inq : Z -> option (list ebptr);    (** the ring of the input queue; *)
  pe_txq : bool; pe_rxq : bool;         (** the queues; *)
  pe_bounce : nat -> Z -> option (Z * list Z);   (** the [i]-th bounce buffer, its address and contents; *)
  pe_heap : bool -> nat -> Z -> option chunk;    (** packet buffers for reception (false) and transmission (true). *)
  pe_dev : device;                      (** the device found in the tree *)
  pe_resource_mem : Z;                  (** the core's constant for memory *)
  pe_add_mapping : Z -> Z -> bool;
  pe_get_va : Z -> Z;
  pe_mm_alloc : Z -> option Z;
  pe_phys_to_virt : Z -> Z;
  pe_irq_add : Z -> Z;                  (** the results for the [i]-th interrupt *)
  pe_irq_enable : Z -> Z;
  pe_emu : bool                         (** whether [emu_add_region] succeeds *)
}.

(** The state of a probe: the private data (None: freed), the world, the
    interrupts that are enabled with [fec_enet_interrupt] as their handler,
    the emulated regions, the number of devices, and whether the bus protects
    the controller. *)
Record probe_st (T : Type) := mk_ps {
  ps_fep : option fec_enet_private; ps_env : world T; ps_irqs : list Z; ps_emu : list (Z * Z); ps_dev_id : Z; ps_csu : bool
}.
Arguments mk_ps {T}. Arguments ps_fep {T}. Arguments ps_env {T}. Arguments ps_irqs {T}. Arguments ps_emu {T}.
Arguments ps_dev_id {T}. Arguments ps_csu {T}.
#[global] Instance eta_probe_st {T} : Settable (probe_st T) :=
  fun s => mk_ps (ps_fep s) (ps_env s) (ps_irqs s) (ps_emu s) (ps_dev_id s) (ps_csu s).

Section probe.
Context {T : Type} `{ThMap T}.
(** As in [Fec]; [roundup2]: of the platform's headers.  [ndev]: the device
    that [malloc] returns; [rx_id], [tx_id]: its NAPI contexts. *)
Context (hw : nat -> Z -> Z) (virt_to_phys : Z -> Z) (cache_invalidate : Z -> Z -> bool) (asserts : bool).
Context (roundup2 : Z -> Z -> Z) (ndev rx_id tx_id : positive).
Implicit Types s : drv T.

(** ** The hardware address *)

(** [macaddr]: static, never assigned. *)
Definition macaddr : list Z := replicate 6 0.

Definition be_bytes (n : nat) (v : Z) : list Z := rev (le_bytes n v).

Definition fec_get_mac (f : fec_enet_private) (d : ifnet_t T) : outcome (fec_enet_private * ifnet_t T) :=
  let '(iap, f) :=
    if negb (rte_is_valid_assigned_ether_addr macaddr) then
      let '(low, f) := io_read32 hw (hwp f + FEC_ADDR_LOW) f in
      let '(high, f) := io_read32 hw (hwp f + FEC_ADDR_HIGH) f in
      (be_bytes 4 low ++ be_bytes 2 (Z.shiftr high 16), f)
    else (macaddr, f) in
  if negb (rte_is_valid_assigned_ether_addr iap) then Panic else
  Ok (f, d <| hwaddr := iap |>).

Definition EADDRNOTAVAIL : Z := 99.

Definition fec_set_mac_address (addr : option (list Z)) (f : fec_enet_private) (d : ifnet_t T) : Z * fec_enet_private * ifnet_t T :=
  let write d :=
    let byte i := nth i (hwaddr d) 0 in
    let f := io_write32 (hwp f + FEC_ADDR_LOW)
               (Z.lor (Z.lor (byte 3%nat) (Z.shiftl (byte 2%nat) 8)) (Z.lor (Z.shiftl (byte 1%nat) 16) (Z.shiftl (byte 0%nat) 24))) f in
    (0, io_write32 (hwp f + FEC_ADDR_HIGH) (Z.lor (Z.shiftl (byte 5%nat) 16) (Z.shiftl (byte 4%nat) 24)) f, d) in
  match addr with
  | Some a => if negb (rte_is_valid_assigned_ether_addr (take 6 a)) then (- EADDRNOTAVAIL, f, d) else write (d <| hwaddr := take 6 a |>)
  | None => write d
  end.

(** ** The buffers of the rings *)

Definition fec_enet_new_rxbdp (bdp : Z) (skb : positive) s : outcome (Z * drv T) :=
  let f := fep s in
  e ← buf_get (env s) skb;
  let off := Z.land (skb_data e) (rx_align f) in
  e ← (if off =? 0 then Ok e else skb_reserve e (rx_align f + 1 - off));
  let s := s <| env ::= fun w => buf_set w skb e |> in
  let dmabuf := virt_to_phys (skb_data e) in
  if (dmabuf =? 0) || negb (cache_invalidate (skb_data e) (FEC_ENET_RX_FRSIZE - rx_align f)) then Ok (- ENOMEM, s) else
  let rxq := rx_queue f in
  d ← bd_get (rx_bd rxq) (rx_ring rxq) bdp;
  ring ← bd_set (rx_bd rxq) (rx_ring rxq) bdp (d <| cbd_bufaddr := u32 dmabuf |>);
  Ok (0, s <| fep := f <| rx_queue := rxq <| rx_ring := ring |> |> |>).

Fixpoint free_rx_loop (n : nat) (i bdp : Z) s : outcome (drv T) :=
  match n with
  | O => Ok s
  | S n' =>
      let rxq := rx_queue (fep s) in
      let bd := rx_bd rxq in
      skb ← aget (rx_skbuff rxq) i;
      skbs ← aset (rx_skbuff rxq) i None;
      s ← (match skb with
           | None => Ok (s <| fep ::= fun f => f <| rx_queue := rxq <| rx_skbuff := skbs |> |> |>)
           | Some m =>
               d ← bd_get bd (rx_ring rxq) bdp;
               ring ← bd_set bd (rx_ring rxq) bdp (d <| cbd_bufaddr := 0 |>);
               dev_kfree_skb_any (Some m)
                 (s <| fep ::= fun f => f <| rx_queue := rxq <| rx_skbuff := skbs |> <| rx_ring := ring |> |> |>)
           end);
      free_rx_loop n' (i + 1) (fec_enet_get_nextdesc bdp bd) s
  end.

(** Every bounce buffer of the ring is freed. *)
Definition free_bounce (q : fec_enet_priv_tx_q) : fec_enet_priv_tx_q :=
  let n := Z.to_nat (ring_size (tx_bd q)) in
  q <| caligned_tx_bounce ::= fun l => replicate n None ++ drop n l |>.

Definition fec_enet_free_buffers s : outcome (drv T) :=
  let bd := rx_bd (rx_queue (fep s)) in
  s ← free_rx_loop (Z.to_nat (ring_size bd)) 0 (bd_base bd) s;
  s ← reset_tx_queue s;
  Ok (s <| fep ::= fun f => f <| tx_queue ::= free_bounce |> |>).

(** Whether all slots from [i] on got their buffer. *)
Fixpoint alloc_rx_loop (n : nat) (i bdp : Z) s : outcome (bool * drv T) :=
  match n with
  | O => Ok (true, s)
  | S n' =>
      '(skb, w) ← netdev_alloc_skb asserts FEC_ENET_RX_FRSIZE (env s);
      '(r, s) ← fec_enet_new_rxbdp bdp skb (s <| env := w |>);
      if negb (r =? 0) then s ← dev_kfree_skb_any (Some skb) s; Ok (false, s) else
      let rxq := rx_queue (fep s) in
      skbs ← aset (rx_skbuff rxq) i (Some skb);
      d ← bd_get (rx_bd rxq) (rx_ring rxq) bdp;
      let d := if bufdesc_ex (fep s) then d <| cbd_esc := BD_ENET_RX_INT |> else d in
      ring ← bd_set (rx_bd rxq) (rx_ring rxq) bdp (d <| cbd_sc := Z.lor BD_ENET_RX_EMPTY (wrap_of (rx_bd rxq) bdp) |>);
      alloc_rx_loop n' (i + 1) (fec_enet_get_nextdesc bdp (rx_bd rxq))
        (s <| fep ::= fun f => f <| rx_queue := rxq <| rx_skbuff := skbs |> <| rx_ring := ring |> |> |>)
  end.

Definition fec_enet_alloc_rxq_buffers (heap : nat -> Z -> option chunk) s : outcome (Z * drv T) :=
  let bd := rx_bd (rx_queue (fep s)) in
  p ← bstgw_ethpool_increase roundup2 heap (ring_size bd) (w_pool (env s));
  '(ok, s) ← alloc_rx_loop (Z.to_nat (ring_size bd)) 0 (bd_base bd) (s <| env ::= fun w => w <| w_pool := p |> |>);
  if (ok : bool) then Ok (0, s) else s ← fec_enet_free_buffers s; Ok (- ENOMEM, s).

(** The aligned bounce buffer: the bytes the driver uses. *)
Definition bounce_aligned (a : Z) (raw : list Z) : outcome (Z * list Z) :=
  let c := roundup2 a BSTGW_CACHE_LINE in
  if negb ((a <=? c) && (c + FEC_ENET_TX_FRSIZE <=? a + FEC_ENET_TX_FRSIZE + BSTGW_CACHE_LINE)) then Panic else
  Ok (c, take (Z.to_nat FEC_ENET_TX_FRSIZE) (drop (Z.to_nat (c - a)) raw)).

Fixpoint alloc_tx_loop (bounce : nat -> Z -> option (Z * list Z)) (n : nat) (i : nat) (bdp : Z) s : outcome (bool * drv T) :=
  match n with
  | O => Ok (true, s)
  | S n' =>
      let txq := tx_queue (fep s) in
      match bounce i (FEC_ENET_TX_FRSIZE + BSTGW_CACHE_LINE) with
      | None =>
          bs ← aset (caligned_tx_bounce txq) (Z.of_nat i) None;
          Ok (false, s <| fep ::= fun f => f <| tx_queue := txq <| caligned_tx_bounce := bs |> |> |>)
      | Some (a, raw) =>
          b ← bounce_aligned a raw;
          bs ← aset (caligned_tx_bounce txq) (Z.of_nat i) (Some b);
          d ← bd_get (tx_bd txq) (tx_ring txq) bdp;
          let d := d <| cbd_bufaddr := 0 |> in
          let d := if bufdesc_ex (fep s) then d <| cbd_esc := BD_ENET_TX_INT |> else d in
          ring ← bd_set (tx_bd txq) (tx_ring txq) bdp (d <| cbd_sc := wrap_of (tx_bd txq) bdp |>);
          alloc_tx_loop bounce n' (S i) (fec_enet_get_nextdesc bdp (tx_bd txq))
            (s <| fep ::= fun f => f <| tx_queue := txq <| caligned_tx_bounce := bs |> <| tx_ring := ring |> |> |>)
      end
  end.

Definition fec_enet_alloc_txq_buffers (heap : nat -> Z -> option chunk) (bounce : nat -> Z -> option (Z * list Z)) s
    : outcome (Z * drv T) :=
  let bd := tx_bd (tx_queue (fep s)) in
  p ← bstgw_ethpool_increase roundup2 heap (ring_size bd) (w_pool (env s));
  '(ok, s) ← alloc_tx_loop bounce (Z.to_nat (ring_size bd)) 0 (bd_base bd) (s <| env ::= fun w => w <| w_pool := p |> |>);
  if (ok : bool) then Ok (0, s) else s ← fec_enet_free_buffers s; Ok (- ENOMEM, s).

Definition fec_enet_alloc_buffers (pe : probe_env) s : outcome (Z * drv T) :=
  '(r, s) ← fec_enet_alloc_rxq_buffers (pe_heap pe false) s;
  if negb (r =? 0) then Ok (- ENOMEM, s) else
  '(r, s) ← fec_enet_alloc_txq_buffers (pe_heap pe true) (pe_bounce pe) s;
  if negb (r =? 0) then Ok (- ENOMEM, s) else Ok (0, s).

(** ** Initialisation *)

(** The queues, and the total sizes of the rings.  A queue that was not
    allocated, or was freed because the other was not, is None. *)
Definition fec_enet_alloc_queue (pe : probe_env)
    : Z * option (fec_enet_priv_tx_q * fec_enet_priv_rx_q) * Z * Z :=
  if negb (pe_txq pe) then (- ENOMEM, None, 0, 0) else
  let txq := txq_zero <| tx_bd ::= fun b => b <| ring_size := TX_RING_SIZE |> |> <| tx_stop_threshold := 0 |>
                      <| tx_wake_threshold := (TX_RING_SIZE - 0) / 2 |> in
  if negb (pe_rxq pe) then (- ENOMEM, None, TX_RING_SIZE, 0) else
  (0, Some (txq, rxq_zero <| rx_bd ::= fun b => b <| ring_size := RX_RING_SIZE |> |>), TX_RING_SIZE, RX_RING_SIZE).

(** A ring of descriptors at [base]. *)
Definition set_base (base pa dsize log reg : Z) (b : bufdesc_prop) : bufdesc_prop :=
  mk_bd base (base + dsize * ring_size b - dsize) base reg pa (ring_size b) dsize log.

Definition fec_enet_init (pe : probe_env) (f : fec_enet_private) (d : ifnet_t T)
    : outcome (Z * fec_enet_private * ifnet_t T) :=
  let dsize := if bufdesc_ex f then 32 else 8 in
  let dsize_log2 := __fls dsize in
  if negb (dsize =? Z.shiftl 1 dsize_log2) then Panic else
  let f := f <| rx_align := 0xf |> <| tx_align := 0xf |> in
  let '(_, queues, total_tx, total_rx) := fec_enet_alloc_queue pe in
  let bd_size := (total_tx + total_rx) * dsize in
  let '(cbd_base, bd_dma) := bstgw_dma_alloc_coherent (pe_mm_alloc pe) (pe_phys_to_virt pe) bd_size in
  if cbd_base =? 0 then Ok (- ENOMEM, f, d) else
  '(f, d) ← fec_get_mac f d;
  let '(_, f, d) := fec_set_mac_address None f d in
  '(txq, rxq) ← deref queues;
  let size := dsize * ring_size (rx_bd rxq) in
  let rxq := rxq <| rx_bd ::= set_base cbd_base bd_dma dsize dsize_log2 (hwp f + FEC_R_DES_ACTIVE_0) |>
                 <| rx_ring := replicate (Z.to_nat (ring_size (rx_bd rxq))) bufdesc_zero |> in
  let txq := txq <| tx_bd ::= set_base (cbd_base + size) (bd_dma + size) dsize dsize_log2 (hwp f + FEC_X_DES_ACTIVE_0) |>
                 <| tx_ring := replicate (Z.to_nat (ring_size (tx_bd txq))) bufdesc_zero |> in
  let f := io_write32 (hwp f + FEC_IMASK) FEC_RX_DISABLED_IMASK (f <| rx_queue := rxq |> <| tx_queue := txq |>) in
  '(_, n, d) ← netif_napi_add rx_id (rx_napi f) d;
  let f := f <| rx_napi := n |> in
  '(_, n, d) ← netif_napi_add tx_id (route_tx_napi f) d;
  let f := f <| route_tx_napi := n |> in
  let f := if negb (Z.land (quirks f) FEC_QUIRK_HAS_CSUM =? 0)
           then f <| csum_flags ::= fun c => Z.lor c FLAG_RX_CSUM_ENABLED |> else f in
  Ok (0, f, d).

Definition fec_setup_napi (alloc : bool * bool) : option napi_struct :=
  if negb alloc.1 then None else if negb alloc.2 then None else Some napi_zero.

Definition fec_setup_ingress_queue (pe : probe_env) (f : fec_enet_private) : option fec_enet_private :=
  let capacity := BSTGW_RX_BURST_SZ * 7 in
  match pe_inq pe (4 * capacity) with
  | None => None
  | Some ring => Some (f <| in_queue := mk_pktqueue false 0 0 0 capacity ring |> <| no_kick := false |>)
  end.

(** The device, with its private data. *)
Definition bstgw_alloc_etherdev (pe : probe_env) : option (ifnet_t T * fec_enet_private) :=
  if negb (pe_ndev pe) then None else
  let '(r, d) := ifnet_dev_init (pe_egress pe) in
  if negb (r =? 0) then None else
  if negb (pe_priv pe) then None else Some (d, fec_zero).

(** The interrupts from the [i]-th on; the last one is passed on to the normal
    world. *)
Fixpoint probe_irqs (pe : probe_env) (n : nat) (i : Z) (irqs : list Z) : Z * list Z :=
  match n with
  | O => (0, irqs)
  | S n' =>
      if i =? FEC_IRQ_NUM - 1 then probe_irqs pe n' (i + 1) irqs else
      if negb (pe_irq_add pe i =? 0) then (pe_irq_add pe i, irqs) else
      if negb (pe_irq_enable pe i =? 0) then (pe_irq_enable pe i, irqs) else
      probe_irqs pe n' (i + 1) (i :: irqs)
  end.

(** The device on the heap. *)
Definition put_dev (d : ifnet_t T) (w : world T) : world T := dev_set w ndev d.

(** The labels of the error path: [failed_napi_init] and those that fall
    through to it, and the ones from [failed_init] on. *)
Definition failed_napi_init (ps : probe_st T) : probe_st T :=
  ps <| ps_fep := None |> <| ps_env ::= fun w => w <| w_nd ::= fun nd => nd <| devs ::= delete ndev |> |> |>.
Definition failed_init (ps : probe_st T) : probe_st T :=
  failed_napi_init (ps <| ps_dev_id ::= fun n => n - 1 |>).

(** From the allocation of the buffers on. *)
Definition probe_finish (pe : probe_env) (r : Z * Z) (s : drv T) (ps : probe_st T) : outcome (Z * probe_st T) :=
  let with_drv s ps := ps <| ps_fep := Some (fep s) |> <| ps_env := env s |> in
  '(ret, s) ← fec_enet_alloc_buffers pe s;
  if negb (ret =? 0) then Ok (ret, failed_init (with_drv s ps)) else
  '(ret, nd) ← ifnet_dev_register (Some ndev) (w_nd (env s));
  let s := s <| env ::= fun w => w <| w_nd := nd |> |> in
  if negb (ret =? 0) then s ← fec_enet_free_buffers s; Ok (ret, failed_init (with_drv s ps)) else
  if negb (pe_emu pe) then Ok (ret, failed_init (with_drv s ps)) else
  Ok (0, (with_drv (s <| fep ::= fun f => f <| sfec_state ::= fun st => st <| primary_st := SFEC_PRI_PROBED |> |> |>) ps)
           <| ps_emu ::= cons r |> <| ps_csu := true |>).

(** [id]: the entry of [fec_devtype]. *)
Definition fec_probe (pe : probe_env) (id : string * Z) (ps : probe_st T) : outcome (Z * probe_st T) :=
  match bstgw_alloc_etherdev pe with
  | None => Ok (- ENOMEM, ps)
  | Some (d, f) =>
  let ps := ps <| ps_fep := Some f |> <| ps_env ::= put_dev d |> in
  let d := d <| trust_status := BSTGW_IF_EXTERNAL |> <| xmit_handler := true |> <| egress_ntfy_handler := true |> in
  match fec_setup_napi (pe_napi pe false), fec_setup_napi (pe_napi pe true), fec_setup_ingress_queue pe f with
  | None, _, _ | _, None, _ | _, _, None => Ok (0, failed_napi_init ps)
  | Some n1, Some n2, Some f =>
  let d := d <| name := String.substring 0 (Z.to_nat IF_NAMESIZE) id.1 |> in
  let f := f <| rx_napi := n1 |> <| route_tx_napi := n2 |> <| quirks := id.2 |>
             <| sfec_state := mk_sfec SFEC_PRI_UNINIT SFEC_SUB_NONE 0 0 0 |> in
  r ← assert_ptr (bstgw_platform_get_resource (pe_dev pe) (pe_resource_mem pe) 0);
  let f := f <| hwp := bstgw_devm_ioremap_resource (pe_add_mapping pe) (pe_get_va pe) r |> in
  if hwp f =? 0 then Ok (-1, failed_napi_init ps) else
  let ps := ps <| ps_dev_id ::= fun n => n + 1 |> in
  let f := f <| quirks ::= fun q => Z.lor q FEC_QUIRK_ERR006687 |> in
  let f := f <| bufdesc_ex := negb (Z.land (quirks f) FEC_QUIRK_HAS_BUFDESC_EX =? 0) |> in
  '(ret, f, d) ← fec_enet_init pe f d;
  if negb (ret =? 0) then Ok (ret, failed_init ps) else
  if negb (num_irqs (pe_dev pe) =? FEC_IRQ_NUM) then Panic else
  let '(ret, irqs) := probe_irqs pe (Z.to_nat FEC_IRQ_NUM) 0 (ps_irqs ps) in
  let ps := ps <| ps_irqs := irqs |> in
  if negb (ret =? 0) then Ok (ret, failed_init ps) else
  let f := f <| rx_copybreak := COPYBREAK_DEFAULT |> in
  probe_finish pe r (mk_drv f (put_dev d (ps_env ps))) ps
  end end.

End probe.

(** ** The receive descriptors of a probed controller *)

(** Every buffer of the pool starts at a cache line. *)
Definition pool_aligned (p : ethbuf_pool) : Prop :=
  map_Forall (fun _ e => Z.land (buf e) (BSTGW_CACHE_LINE - 1) = 0) (bufs p).

(** Descriptor [j] of the ring gives buffer [m] to the controller. *)
Definition rx_armed (virt_to_phys : Z -> Z) (bd : bufdesc_prop) (st : ebstore) (j : nat) (d : bufdesc) (m : positive) : Prop :=
  exists e, st !! m = Some e /\ data_off e = 0 /\ cbd_bufaddr d = u32 (virt_to_phys (buf e)) /\
    cbd_sc d = Z.lor BD_ENET_RX_EMPTY (wrap_of bd (slot_ptr bd j)).

(** ** Lemmas *)

(** The test of [__fls] for clear leading bits. *)
Lemma high_clear m w : 0 <= m < 32 -> 0 < w <= MAX_U32 -> (Z.land w (u32 (Z.shiftl MAX_U32 m)) =? 0) = (Z.log2 w <? m).
Proof.
  intros Hm Hw. change MAX_U32 with (Z.ones 32) in |- *. unfold MAX_U32 in Hw. pose proof (Z.log2_nonneg w) as Hl.
  assert (Hlt : Z.log2 w < 32) by (apply Z.log2_lt_pow2; lia).
  assert (Hmask : forall i, 0 <= i < 32 -> Z.testbit (u32 (Z.shiftl (Z.ones 32) m)) i = (m <=? i)).
  { intros i Hi. unfold u32. change 4294967296 with (2 ^ 32). rewrite Z.mod_pow2_bits_low, Z.shiftl_spec by lia. destruct (Z.leb_spec m i); [apply Z.ones_spec_low; lia|].
    apply Z.testbit_neg_r. lia. }
  destruct (Z.ltb_spec (Z.log2 w) m); [apply Z.eqb_eq|apply Z.eqb_neq].
  - apply Z.bits_inj'. intros i Hi. rewrite Z.land_spec, Z.bits_0. destruct (decide (i <= Z.log2 w)).
    + rewrite Hmask, (proj2 (Z.leb_gt _ _)) by lia. apply andb_false_r.
    + by rewrite Z.bits_above_log2 by lia.
  - intros E. apply (f_equal (fun x => Z.testbit x (Z.log2 w))) in E.
    rewrite Z.land_spec, Z.bits_0, Hmask, Z.bit_log2, (proj2 (Z.leb_le _ _)) in E by lia. done.
Qed.

Lemma fls_step_ok k num word w0 :
  0 < k < 32 -> 0 < word <= MAX_U32 -> Z.log2 w0 = Z.log2 word + num - 31 -> 31 - 2 * k < Z.log2 word ->
  let '(num', word') := fls_step k (num, word) in
  0 < word' <= MAX_U32 /\ Z.log2 w0 = Z.log2 word' + num' - 31 /\ 31 - k < Z.log2 word'.
Proof.
  intros Hk Hw Hn Hb. unfold fls_step. rewrite high_clear by lia. destruct (Z.ltb_spec (Z.log2 word) (32 - k)); [|lia].
  assert (Hlt : Z.shiftl word k < 2 ^ 32).
  { rewrite Z.shiftl_mul_pow2 by lia. replace (2 ^ 32) with (2 ^ (32 - k) * 2 ^ k) by (rewrite <- Z.pow_add_r by lia; f_equal; lia).
    apply Z.mul_lt_mono_pos_r; [apply Z.pow_pos_nonneg; lia|]. apply Z.log2_lt_pow2; lia. }
  assert (Hpos : 0 < Z.shiftl word k) by (rewrite Z.shiftl_mul_pow2 by lia; apply Z.mul_pos_pos; [lia|apply Z.pow_pos_nonneg; lia]).
  rewrite u32_small, Z.log2_shiftl by lia. unfold MAX_U32. lia.
Qed.

(** [__fls] finds the highest bit. *)
Lemma fls_log2 w : 0 < w <= MAX_U32 -> __fls w = Z.log2 w.
Proof.
  intros Hw. unfold __fls. pose proof (Z.log2_nonneg w).
  pose proof (fls_step_ok 16 31 w w ltac:(lia) Hw ltac:(lia) ltac:(lia)) as S1. destruct (fls_step 16 _) as [n1 w1]. destruct S1 as (W1 & E1 & B1).
  pose proof (fls_step_ok 8 n1 w1 w ltac:(lia) W1 E1 ltac:(lia)) as S2. destruct (fls_step 8 _) as [n2 w2]. destruct S2 as (W2 & E2 & B2).
  pose proof (fls_step_ok 4 n2 w2 w ltac:(lia) W2 E2 ltac:(lia)) as S3. destruct (fls_step 4 _) as [n3 w3]. destruct S3 as (W3 & E3 & B3).
  pose proof (fls_step_ok 2 n3 w3 w ltac:(lia) W3 E3 ltac:(lia)) as S4. destruct (fls_step 2 _) as [n4 w4]. destruct S4 as (W4 & E4 & B4).
  cbn [fst snd]. rewrite high_clear by lia. assert (Z.log2 w4 < 32) by (apply Z.log2_lt_pow2; unfold MAX_U32 in *; lia).
  destruct (Z.ltb_spec (Z.log2 w4) 31); lia.
Qed.

(** New buffers are aligned: [bstgw_ethbuf_align_check]. *)
Lemma increase_aligned roundup2 heap n p p' :
  bstgw_ethpool_increase roundup2 heap n p = Ok p' -> pool_aligned p -> pool_aligned p'.
Proof.
  unfold bstgw_ethpool_increase. intros (p1 & E & [= <-])%bind_ok. change (pool_aligned p -> pool_aligned p1).
  revert p E. induction (Z.to_nat n) as [|k IH]; intros p; cbn [ethpool_increase_loop]; [by intros [= <-]|].
  intros (r & Ea & ([i e] & Er & E)%bind_ok)%bind_ok Hp. destruct r as [ie|]; [|done]. injection Er as ->.
  apply (IH _ E). apply map_Forall_insert_2; [|done]. revert Ea. unfold bstgw_ethbuf_alloc_aligned. cbn [negb Z.eqb BSTGW_CACHE_LINE].
  destruct (heap _ _) as [ch|]; [|done]. intros (u & Ec & E1)%bind_ok. unfold bstgw_ethbuf_align_check in Ec.
  match type of Ec with (if ?b then _ else _) = _ => destruct b eqn:Hb; [|done] end. apply Z.eqb_eq in Hb.
  cbn [Z.ltb Z.compare BSTGW_PRIV_SIZE] in E1. destruct (negb _); [done|]. injection E1 as _ <-. exact Hb.
Qed.

Section probe_ok.
Context {T : Type} `{ThMap T}.
Context (hw : nat -> Z -> Z) (virt_to_phys : Z -> Z) (cache_invalidate : Z -> Z -> bool) (asserts : bool).
Context (roundup2 : Z -> Z -> Z) (ndev rx_id tx_id : positive).
Implicit Types s : drv T.

(** Secure memory is mapped and its cache lines can be invalidated. *)
Definition dma_rx_ok : Prop := forall a l, virt_to_phys a <> 0 /\ cache_invalidate a l = true.

Lemma new_rxbdp_ok s n i m e d :
  dma_rx_ok -> rx_align (fep s) = 15 -> ring_wf (rx_bd (rx_queue (fep s))) n -> rx_ring (rx_queue (fep s)) !! i = Some d ->
  bufs (w_pool (env s)) !! m = Some e -> data_off e = 0 -> Z.land (buf e) (BSTGW_CACHE_LINE - 1) = 0 ->
  fec_enet_new_rxbdp virt_to_phys cache_invalidate (slot_ptr (rx_bd (rx_queue (fep s))) i) m s =
    Ok (0, s <| fep ::= fun f => f <| rx_queue ::= fun q => q <| rx_ring ::= <[i := d <| cbd_bufaddr := u32 (virt_to_phys (buf e)) |>]> |> |> |>).
Proof.
  intros Hdma Hal Hr Hd He Ho Ha. unfold fec_enet_new_rxbdp, buf_get. rewrite He. cbn [deref mbind outcome_bind].
  assert (Hsk : skb_data e = buf e) by (unfold skb_data; lia).
  assert (H15 : Z.land (buf e) 15 = 0) by (change 15 with (Z.land (BSTGW_CACHE_LINE - 1) 15); by rewrite Z.land_assoc, Ha).
  rewrite Hsk, Hal, H15. cbn [Z.eqb mbind outcome_bind]. rewrite Hsk. destruct (Hdma (buf e) (FEC_ENET_RX_FRSIZE - 15)) as [Hv ->].
  rewrite (proj2 (Z.eqb_neq _ 0) Hv). cbn [negb orb]. rewrite (get_slot _ n Hr _ i d Hd). cbn [mbind outcome_bind].
  rewrite (set_slot _ n Hr) by (by eapply lookup_lt_Some). cbn [mbind outcome_bind]. destruct s as [f w]. unfold upd. cbn.
  by rewrite (buf_set_id w m e He).
Qed.

(** The receive buffers: [ms] are in place, [k] more follow. *)
Lemma alloc_rx_ok n k : dma_rx_ok -> forall s ms,
  ring_wf (rx_bd (rx_queue (fep s))) n -> length (rx_ring (rx_queue (fep s))) = n -> (length ms + k)%nat = n ->
  rx_skbuff (rx_queue (fep s)) = (Some <$> ms) ++ replicate k None -> rx_align (fep s) = 15 ->
  pool_wf (w_pool (env s)) -> pool_aligned (w_pool (env s)) -> (k <= length (free_list (w_pool (env s))))%nat ->
  exists p ms' ring, alloc_rx_loop virt_to_phys cache_invalidate asserts k (Z.of_nat (length ms))
      (slot_ptr (rx_bd (rx_queue (fep s))) (length ms mod n)) s =
      Ok (true, s <| env ::= fun w => w <| w_pool := p |> |>
                  <| fep ::= fun f => f <| rx_queue ::= fun q => q <| rx_skbuff := Some <$> (ms ++ ms') |> <| rx_ring := ring |> |> |>) /\
    length ms' = k /\ length ring = n /\ pool_wf p /\ bufs p = bufs (w_pool (env s)) /\ inuse_list p = rev ms' ++ inuse_list (w_pool (env s)) /\
    pool_capacity p = pool_capacity (w_pool (env s)) /\
    (forall j, (j < length ms)%nat -> ring !! j = rx_ring (rx_queue (fep s)) !! j) /\
    (forall j m, ms' !! j = Some m -> exists d, ring !! (length ms + j)%nat = Some d /\
       rx_armed virt_to_phys (rx_bd (rx_queue (fep s))) (bufs p) (length ms + j) d m).
Proof.
  intros Hdma. induction k as [|k IH]; intros s ms Hr Hl Hk Hs Hal Hp Ha Hf.
  { exists (w_pool (env s)), [], (rx_ring (rx_queue (fep s))). rewrite app_nil_r in *. split; [|split_and!; try done].
    destruct s as [f [? ? ? ?]], f as [? ? ? ? ? q]. destruct q. cbn in *. unfold upd. cbn. by rewrite Hs. }
  pose proof (rg_n _ _ Hr). set (i := length ms) in *. destruct (free_list (w_pool (env s))) as [|m fl] eqn:Hfl; [cbn in Hf; lia|].
  destruct (pool_alloc_spec _ m fl Hp Hfl) as (p1 & Ea & Hp1 & Hfl1 & Hin1 & Hb1 & Hc1).
  destruct (proj1 (pw_store _ Hp m)) as [e He]; [rewrite Hfl; set_solver|].
  destruct (pw_clean _ Hp m e ltac:(rewrite Hfl; set_solver) He) as (_ & _ & _ & _ & Hoff & _).
  destruct (lookup_lt_is_Some_2 (rx_ring (rx_queue (fep s))) i) as [d Hd]; [lia|].
  cbn [alloc_rx_loop]. rewrite Nat.mod_small by lia. unfold netdev_alloc_skb.
  replace (if asserts then c_assert (FEC_ENET_RX_FRSIZE =? BSTGW_DEFAULT_BUF_SIZE) else Ok tt) with (Ok tt) by (by destruct asserts).
  cbn [mbind outcome_bind]. rewrite Ea. cbn [mbind outcome_bind].
  match goal with |- context [fec_enet_new_rxbdp ?v ?c ?a m ?x] =>
    pose proof (new_rxbdp_ok x n i m e d Hdma Hal Hr Hd ltac:(cbn; by rewrite Hb1) Hoff (Ha m e He)) as Enew;
    match type of Enew with _ = ?r => replace (fec_enet_new_rxbdp v c a m x) with r by (symmetry; exact Enew) end end.
  cbn [mbind outcome_bind negb Z.eqb].
  match goal with |- context [aset (rx_skbuff ?q) _ _] => set (q1 := q) end.
  assert (Eq1 : rx_skbuff q1 = (Some <$> ms) ++ replicate (S k) None) by exact Hs.
  assert (Er1 : rx_ring q1 = <[i := d <| cbd_bufaddr := u32 (virt_to_phys (buf e)) |>]> (rx_ring (rx_queue (fep s)))) by done.
  rewrite aset_ok by (rewrite Eq1, length_app, length_fmap, length_replicate; lia). cbn [mbind outcome_bind]. rewrite Nat2Z.id.
  change (rx_bd q1) with (rx_bd (rx_queue (fep s))) in *.
  rewrite (get_slot _ n Hr _ i (d <| cbd_bufaddr := u32 (virt_to_phys (buf e)) |>)) by (rewrite Er1; apply list_lookup_insert_eq; lia).
  cbn [mbind outcome_bind]. rewrite (set_slot _ n Hr) by (rewrite Er1, length_insert; lia). cbn [mbind outcome_bind].
  rewrite (next_slot _ n Hr) by lia.
  match goal with |- context [alloc_rx_loop _ _ _ k _ _ ?x] => set (s1 := x) end.
  assert (Esk : <[i := Some m]> (rx_skbuff q1) = (Some <$> (ms ++ [m])) ++ replicate k None).
  { rewrite Eq1, fmap_app, <- app_assoc. replace i with (length (Some <$> ms) + 0)%nat by (rewrite length_fmap; unfold i; lia). by rewrite insert_app_r. }
  destruct (IH s1 (ms ++ [m])) as (p & ms' & ring & E & Hl' & Hrl & Hwp & Hbp & Hip & Hcp & Hlo & Hhi); try done.
  { cbn. rewrite !length_insert. exact Hl. } { rewrite length_app. cbn. lia. } { unfold pool_aligned. cbn. by rewrite Hb1. } { cbn. rewrite Hfl1. cbn in Hf. lia. }
  rewrite length_app in *. cbn [length] in *. replace (length ms + 1)%nat with (S i) in * by (unfold i; lia).
  replace (Z.of_nat i + 1) with (Z.of_nat (S i)) by lia.
  exists p, (m :: ms'), ring. split; [etransitivity; [exact E|by rewrite <- app_assoc]|].
  split_and!; try done; [cbn; lia|by rewrite Hbp|rewrite Hip; cbn; by rewrite Hin1, <- app_assoc|by rewrite Hcp|..].
  - intros j Hj. rewrite Hlo by lia. cbn. rewrite !list_lookup_insert_ne by lia. done.
  - intros [|j] m' Hj; cbn in Hj.
    + injection Hj as <-. rewrite Nat.add_0_r. rewrite Hlo by lia. cbn. rewrite list_lookup_insert_eq by (rewrite length_insert; lia).
      eexists. split; [done|]. exists e. rewrite Hbp. split; [by cbn; rewrite Hb1|]. by destruct (bufdesc_ex _).
    + destruct (Hhi j m' Hj) as (d' & Hd' & Harm). replace (i + S j)%nat with (S i + j)%nat by lia. eexists. split; [exact Hd'|exact Harm].
Qed.

(** A bounce buffer the driver can use. *)
Definition bounce_ok (b : option (Z * list Z)) : Prop := exists a mem, b = Some (a, mem) /\ Z.of_nat (length mem) = FEC_ENET_TX_FRSIZE.

(** The requests of a probe are served.  The memory of [malloc] has the size
    asked for; the packet buffers are new ones. *)
Definition serves_bounce (bounce : nat -> Z -> option (Z * list Z)) : Prop :=
  forall i len, 0 <= len -> exists a raw, bounce i len = Some (a, raw) /\ 0 <= a /\ Z.of_nat (length raw) = len.
Definition rounds_up : Prop := forall a, 0 <= a -> a <= roundup2 a BSTGW_CACHE_LINE < a + BSTGW_CACHE_LINE.

Lemma bounce_aligned_ok a raw :
  rounds_up -> 0 <= a -> Z.of_nat (length raw) = FEC_ENET_TX_FRSIZE + BSTGW_CACHE_LINE ->
  exists b, bounce_aligned roundup2 a raw = Ok b /\ bounce_ok (Some b).
Proof.
  intros Hr Ha Hl. specialize (Hr a Ha). unfold bounce_aligned, FEC_ENET_TX_FRSIZE, BSTGW_CACHE_LINE in *.
  rewrite (proj2 (Z.leb_le a _)), (proj2 (Z.leb_le (_ + 2048) _)) by lia. cbn [andb negb].
  eexists. split; [done|]. eexists _, _. split; [done|]. unfold FEC_ENET_TX_FRSIZE. rewrite length_take, length_drop. lia.
Qed.

(** The bounce buffers: [i] are in place, [k] more follow. *)
Lemma alloc_tx_ok bounce n k : rounds_up -> serves_bounce bounce -> forall i s,
  ring_wf (tx_bd (tx_queue (fep s))) n -> length (tx_ring (tx_queue (fep s))) = n -> (i + k)%nat = n ->
  length (caligned_tx_bounce (tx_queue (fep s))) = n -> Forall bounce_ok (take i (caligned_tx_bounce (tx_queue (fep s)))) ->
  exists bs ring, alloc_tx_loop roundup2 bounce k i (slot_ptr (tx_bd (tx_queue (fep s))) (i mod n)) s =
      Ok (true, s <| fep ::= fun f => f <| tx_queue ::= fun q => q <| caligned_tx_bounce := bs |> <| tx_ring := ring |> |> |>) /\
    length ring = n /\ length bs = n /\ Forall bounce_ok bs.
Proof.
  intros Hro Hb. induction k as [|k IH]; intros i s Hr Hl Hik Hbl Hbf.
  { exists (caligned_tx_bounce (tx_queue (fep s))), (tx_ring (tx_queue (fep s))). rewrite take_ge in Hbf by lia. split; [|done].
    destruct s as [f w], f as [? ? ? ? q]. by destruct q. }
  pose proof (rg_n _ _ Hr). cbn [alloc_tx_loop]. rewrite Nat.mod_small by lia.
  destruct (Hb i (FEC_ENET_TX_FRSIZE + BSTGW_CACHE_LINE)) as (a & raw & -> & Ha & Hraw); [done|].
  destruct (bounce_aligned_ok a raw Hro Ha Hraw) as (b & -> & Hbok). cbn [mbind outcome_bind].
  rewrite aset_ok, Nat2Z.id by lia. cbn [mbind outcome_bind].
  destruct (lookup_lt_is_Some_2 (tx_ring (tx_queue (fep s))) i) as [d Hd]; [lia|].
  rewrite (get_slot _ n Hr _ i d Hd). cbn [mbind outcome_bind]. rewrite (set_slot _ n Hr) by lia. cbn [mbind outcome_bind].
  rewrite (next_slot _ n Hr) by lia.
  match goal with |- context [alloc_tx_loop _ _ k _ _ ?x] => set (s1 := x) end.
  destruct (IH (S i) s1) as (bs & ring & E & Hrl & Hbs & Hbsf); try done.
  { cbn. by rewrite length_insert. } { lia. } { cbn. by rewrite length_insert. }
  { cbn. rewrite (take_S_r _ i (Some b)) by (apply list_lookup_insert_eq; lia). rewrite take_insert_ge by lia.
    apply Forall_app. split; [done|by constructor]. }
  exists bs, ring. split; [exact E|done].
Qed.

Lemma slot_ptr_0 bd n : (0 < n)%nat -> slot_ptr bd (0 mod n) = bd_base bd.
Proof. intros Hn. rewrite Nat.mod_small by done. unfold slot_ptr. lia. Qed.

(** Packet buffers for the [n] descriptors of both rings: the requests are
    served with blocks of their own. *)
Record serves_pool (heap : bool -> nat -> Z -> option chunk) (pool : ethbuf_pool) : Prop := {
  sp_chunk : forall b k sz, 0 <= sz -> exists ch, heap b k sz = Some ch /\
    ch_priv_ok ch = true /\ 0 <= ch_addr ch /\ Z.of_nat (length (ch_raw ch)) = sz /\ bufs pool !! ch_id ch = None;
  sp_fresh : forall b b' k k' sz sz' ch ch', (b, k) <> (b', k') ->
    heap b k sz = Some ch -> heap b' k' sz' = Some ch' -> ch_id ch <> ch_id ch'
}.

Lemma serves_heap heap pool b n : rounds_up -> serves_pool heap pool -> heap_ok roundup2 (heap b) n pool.
Proof.
  intros Hro [Hc Hf]. split; [by apply Hro| |].
  - intros k sz _ Hsz. exact (Hc b k sz Hsz).
  - intros k k' sz sz' ch ch' _ _ Hn. apply Hf. congruence.
Qed.

Lemma serves_after heap pool n p1 :
  rounds_up -> serves_pool heap pool -> from_heap (heap false) n pool p1 -> heap_ok roundup2 (heap true) n p1.
Proof.
  intros Hro Hs Hfrom. destruct (serves_heap heap pool true n Hro Hs) as [R C F]. split; [done| |done].
  intros k sz Hk Hsz. destruct (C k sz Hk Hsz) as (ch & E & ? & ? & ? & Hn). exists ch. split_and!; try done.
  apply eq_None_not_Some. intros [[e He]|(k' & sz' & ch' & _ & E' & Eid)]%Hfrom; [congruence|].
  by eapply (sp_fresh _ _ Hs true false); [..|exact E|exact E'|].
Qed.

(** What [fec_enet_alloc_buffers] needs of the queues. *)
Record rings_new (f : fec_enet_private) (n : nat) : Prop := {
  rn_rx : ring_wf (rx_bd (rx_queue f)) n;
  rn_rxl : length (rx_ring (rx_queue f)) = n;
  rn_rxs : rx_skbuff (rx_queue f) = replicate n None;
  rn_align : rx_align f = 15;
  rn_tx : ring_wf (tx_bd (tx_queue f)) n;
  rn_txl : length (tx_ring (tx_queue f)) = n;
  rn_txs : tx_skbuff (tx_queue f) = replicate n None;
  rn_bounce : caligned_tx_bounce (tx_queue f) = replicate n None
}.

(** [i] is one of the packet buffers a probe got from the heap. *)
Definition probe_chunk (pe : probe_env) (i : positive) : Prop :=
  exists b k sz ch, pe_heap pe b k sz = Some ch /\ ch_id ch = i.

Lemma alloc_buffers_ok pe s n :
  dma_rx_ok -> rounds_up -> serves_bounce (pe_bounce pe) -> serves_pool (pe_heap pe) (w_pool (env s)) ->
  rings_new (fep s) n -> pool_wf (w_pool (env s)) -> pool_aligned (w_pool (env s)) ->
  pool_capacity (w_pool (env s)) + 2 * Z.of_nat n <= MAX_U32 ->
  exists p rxs rq tq, fec_enet_alloc_buffers virt_to_phys cache_invalidate asserts roundup2 pe s =
      Ok (0, s <| env ::= fun w => w <| w_pool := p |> |> <| fep ::= fun f => f <| rx_queue := rq |> <| tx_queue := tq |> |>) /\
    rx_ok rq n rxs /\ tx_mem tq n [] /\ pool_wf p /\ pool_aligned p /\ inuse_list p = rev rxs ++ inuse_list (w_pool (env s)) /\
    pool_capacity p = pool_capacity (w_pool (env s)) + 2 * Z.of_nat n /\
    (map_Forall (fun _ e => BSTGW_DEFAULT_BUF_SIZE <= buf_cap e) (bufs (w_pool (env s))) ->
     map_Forall (fun _ e => BSTGW_DEFAULT_BUF_SIZE <= buf_cap e) (bufs p)) /\
    (forall j m, rxs !! j = Some m -> exists d, rx_ring rq !! j = Some d /\ rx_armed virt_to_phys (rx_bd rq) (bufs p) j d m) /\
    (forall i, is_Some (bufs p !! i) -> is_Some (bufs (w_pool (env s)) !! i) \/ probe_chunk pe i).
Proof.
  intros Hdma Hro Hbo Hsp [R1 R2 R3 R4 T1 T2 T3 T4] Hp Ha Hcap. unfold fec_enet_alloc_buffers, fec_enet_alloc_rxq_buffers.
  pose proof (rg_n _ _ R1). rewrite (rg_size _ _ R1), Nat2Z.id.
  destruct (pool_increase_spec roundup2 (pe_heap pe false) (Z.of_nat n) (w_pool (env s)) Hp) as (p1 & E1 & (W1 & I1 & F1 & C1 & O1 & S1) & H1);
    [by apply serves_heap|lia|lia|]. rewrite E1. cbn [mbind outcome_bind]. rewrite Nat2Z.id in H1.
  pose proof (increase_aligned _ _ _ _ _ E1 Ha) as A1.
  match goal with |- context [alloc_rx_loop _ _ _ _ _ _ ?x] => set (s1 := x) end.
  destruct (alloc_rx_ok n n Hdma s1 [] R1 R2 eq_refl R3 R4 W1 A1) as (p2 & rxs & rring & E2 & Hl & Hrl & W2 & B2 & I2 & C2 & _ & Harm).
  { change (w_pool (env s1)) with p1. lia. }
  change (length []) with 0%nat in E2. rewrite slot_ptr_0 in E2 by lia.
  change (bd_base (rx_bd (rx_queue (fep s1)))) with (bd_base (rx_bd (rx_queue (fep s)))) in E2.
  change (Z.of_nat 0) with 0 in E2. rewrite E2. cbn [mbind outcome_bind negb Z.eqb]. unfold fec_enet_alloc_txq_buffers.
  match goal with |- context [bstgw_ethpool_increase _ _ _ (w_pool (env ?x))] => set (s2 := x) end.
  change (tx_bd (tx_queue (fep s2))) with (tx_bd (tx_queue (fep s))). rewrite (rg_size _ _ T1), Nat2Z.id.
  change (w_pool (env s2)) with p2. change (w_pool (env s1)) with p1 in *.
  destruct (pool_increase_spec roundup2 (pe_heap pe true) (Z.of_nat n) p2 W2) as (p3 & E3 & (W3 & I3 & F3 & C3 & O3 & S3) & H3);
    [|lia|lia|]. { rewrite Nat2Z.id. apply (serves_after (pe_heap pe) (w_pool (env s)) n p2 Hro Hsp). unfold from_heap. rewrite B2. exact H1. }
  rewrite E3. cbn [mbind outcome_bind].
  assert (A3 : pool_aligned p3) by (eapply increase_aligned; [exact E3|]; unfold pool_aligned; rewrite B2; exact A1).
  match goal with |- context [alloc_tx_loop _ _ _ _ _ ?x] => set (s3 := x) end.
  destruct (alloc_tx_ok (pe_bounce pe) n n Hro Hbo 0 s3 T1 T2 eq_refl) as (bs & tring & E4 & Htl & Hbl & Hbf).
  { change (length (caligned_tx_bounce (tx_queue (fep s))) = n). by rewrite T4, length_replicate. } { constructor. }
  rewrite slot_ptr_0 in E4 by lia. change (bd_base (tx_bd (tx_queue (fep s3)))) with (bd_base (tx_bd (tx_queue (fep s)))) in E4. rewrite E4.
  cbn [mbind outcome_bind negb Z.eqb].
  eexists p3, rxs, ((rx_queue (fep s)) <| rx_skbuff := Some <$> rxs |> <| rx_ring := rring |>), _. split; [reflexivity|]. split_and!; try done.
  - split; cbn; try done. by rewrite T3, length_replicate. rewrite T3. clear. by induction n.
  - by rewrite I3, I2, I1.
  - lia.
  - intros Hall. apply S3. rewrite B2. by apply S1.
  - intros j m Hj. destruct (Harm j m Hj) as (d & Hd & e & He & Harmd). exists d. split; [exact Hd|]. exists e. split; [|exact Harmd].
    rewrite O3; [done|by eexists].
  - intros i [Hi|(k & sz & ch & _ & Hc)]%H3; [|right; by exists true, k, sz, ch].
    rewrite B2 in Hi. destruct (H1 i Hi) as [?|(k & sz & ch & _ & Hc)]; [by left|right; by exists false, k, sz, ch].
Qed.

(** What the boot loader left in the address registers of a controller mapped
    at [v], as [fec_get_mac] reads it. *)
Definition boot_mac (v : Z) : list Z :=
  be_bytes 4 (u32 (hw 0 (v + FEC_ADDR_LOW))) ++ be_bytes 2 (Z.shiftr (u32 (hw 1 (v + FEC_ADDR_HIGH))) 16).

Lemma length_boot_mac v : length (boot_mac v) = 6%nat.
Proof. unfold boot_mac, be_bytes. by rewrite length_app, !length_rev, !length_le_bytes. Qed.

(** Everything a probe asks for is there: memory, a controller mapped at [v]
    with its resource [r], descriptors at [base] and [pa], interrupts, and a
    valid hardware address. *)
Record probe_served (pe : probe_env) (v base pa : Z) (r : Z * Z) (ring : list ebptr) (pool : ethbuf_pool) : Prop := {
  sv_heap : pe_ndev pe = true /\ pe_egress pe = true /\ pe_priv pe = true /\ (forall b, pe_napi pe b = (true, true)) /\
            pe_txq pe = true /\ pe_rxq pe = true;
  sv_inq : pe_inq pe 896 = Some ring /\ length ring = 224%nat;
  sv_bounce : serves_bounce (pe_bounce pe);
  sv_pool : serves_pool (pe_heap pe) pool;
  sv_res : bstgw_platform_get_resource (pe_dev pe) (pe_resource_mem pe) 0 = Some r;
  sv_map : bstgw_devm_ioremap_resource (pe_add_mapping pe) (pe_get_va pe) r = v /\ v <> 0;
  sv_dma : bstgw_dma_alloc_coherent (pe_mm_alloc pe) (pe_phys_to_virt pe) 8192 = (base, pa) /\ base <> 0;
  sv_irqs : num_irqs (pe_dev pe) = 3 /\ (forall i, pe_irq_add pe i = 0 /\ pe_irq_enable pe i = 0);
  sv_mac : rte_is_valid_assigned_ether_addr (boot_mac v) = true
}.

(** The private data and the device when the buffers are allocated. *)
Definition new_ring (base pa reg : Z) : bufdesc_prop := mk_bd base (base + 4096 - 8) base reg pa 512 8 3.
Definition mac_written (v : Z) : list io_event :=
  let byte i := nth i (boot_mac v) 0 in
  [IoWrite (v + FEC_ADDR_HIGH) (Z.lor (Z.shiftl (byte 5%nat) 16) (Z.shiftl (byte 4%nat) 24));
   IoWrite (v + FEC_ADDR_LOW)
     (Z.lor (Z.lor (byte 3%nat) (Z.shiftl (byte 2%nat) 8)) (Z.lor (Z.shiftl (byte 1%nat) 16) (Z.shiftl (byte 0%nat) 24)))].
Definition new_fec (v base pa : Z) (ring : list ebptr) : fec_enet_private :=
  mk_fec v (mk_sfec SFEC_PRI_UNINIT SFEC_SUB_NONE 0 0 0) (mk_pktqueue false 0 0 0 224 ring) false
    (mk_txq (new_ring (base + 4096) (pa + 4096) (v + FEC_X_DES_ACTIVE_0)) (replicate 512 bufdesc_zero) (replicate 512 None) (replicate 512 None) 0 256 0)
    (mk_rxq (new_ring base pa (v + FEC_R_DES_ACTIVE_0)) (replicate 512 bufdesc_zero) (replicate 512 None))
    0 false imx6q_quirks napi_added napi_added FLAG_RX_CSUM_ENABLED 15 15 COPYBREAK_DEFAULT
    (IoWrite (v + FEC_IMASK) FEC_RX_DISABLED_IMASK :: mac_written v ++
     [IoRead (v + FEC_ADDR_HIGH) (u32 (hw 1 (v + FEC_ADDR_HIGH))); IoRead (v + FEC_ADDR_LOW) (u32 (hw 0 (v + FEC_ADDR_LOW)))]) 2 0.
Definition new_dev (v : Z) : ifnet_t T :=
  mk_ifnet 0 (boot_mac v) BSTGW_IF_EXTERNAL [Some rx_id; Some tx_id] 2 true true "imx6q-fec" [None; None] 0
    [replicate 16 0; replicate 16 0] 0 0 None (Some (mk_pktqueue true 0 0 0 0 [])).

Lemma get_mac_ok f (d : ifnet_t T) :
  nreads f = 0%nat -> rte_is_valid_assigned_ether_addr (boot_mac (hwp f)) = true ->
  fec_get_mac hw f d =
    Ok (f <| io ::= app [IoRead (hwp f + FEC_ADDR_HIGH) (u32 (hw 1 (hwp f + FEC_ADDR_HIGH)));
                         IoRead (hwp f + FEC_ADDR_LOW) (u32 (hw 0 (hwp f + FEC_ADDR_LOW)))] |> <| nreads := 2%nat |>,
        d <| hwaddr := boot_mac (hwp f) |>).
Proof.
  intros Hn Hm. unfold fec_get_mac, io_read32. change (negb (rte_is_valid_assigned_ether_addr macaddr)) with true.
  destruct f as [v st iq nk tq rq ev ex qk n1 n2 cs ta ra cb l nr ip]. cbn [nreads hwp] in *. subst nr. cbv beta iota zeta.
  match goal with |- (if negb (_ ?x) then _ else _) = _ => change x with (boot_mac v) end. by rewrite Hm.
Qed.

Lemma fec_init_ok pe v base pa r ring pool :
  probe_served pe v base pa r ring pool ->
  fec_enet_init hw rx_id tx_id pe
    (mk_fec v (mk_sfec SFEC_PRI_UNINIT SFEC_SUB_NONE 0 0 0) (mk_pktqueue false 0 0 0 224 ring) false txq_zero rxq_zero
       0 false imx6q_quirks napi_zero napi_zero 0 0 0 0 [] 0 0)
    ((new_dev v) <| hwaddr := replicate 6 0 |> <| napis := [None; None] |> <| napi_count := 0 |>) =
  Ok (0, (new_fec v base pa ring) <| rx_copybreak := 0 |>, new_dev v).
Proof.
  intros [(E1 & E2 & E3 & E4 & E5 & E6) _ _ _ _ _ [Ed Hb] _ Hmac]. unfold fec_enet_init, fec_enet_alloc_queue. rewrite E5, E6.
  cbn [bufdesc_ex negb]. change (__fls 8) with 3. change (8 =? Z.shiftl 1 3) with true. cbn [negb].
  change ((TX_RING_SIZE + RX_RING_SIZE) * 8) with 8192. rewrite Ed. rewrite (proj2 (Z.eqb_neq base 0) Hb). 
  rewrite get_mac_ok by done. cbn [mbind outcome_bind hwp upd]. reflexivity.
Qed.

Lemma probe_irqs_ok pe l : (forall i, pe_irq_add pe i = 0 /\ pe_irq_enable pe i = 0) -> probe_irqs pe 3 0 l = (0, [1; 0] ++ l).
Proof. intros Hi. destruct (Hi 0) as [A0 B0], (Hi 1) as [A1 B1]. cbv. cbv in A0, B0, A1, B1. by rewrite A0, B0, A1, B1. Qed.

Lemma probe_prepares pe v base pa r ring pool ps :
  probe_served pe v base pa r ring pool ->
  exists ps1, fec_probe hw virt_to_phys cache_invalidate asserts roundup2 ndev rx_id tx_id pe ("imx6q-fec"%string, imx6q_driver_data) ps =
      probe_finish virt_to_phys cache_invalidate asserts roundup2 ndev pe r
        (mk_drv (new_fec v base pa ring) (dev_set (ps_env ps) ndev (new_dev v))) ps1 /\
    ps_irqs ps1 = [1; 0] ++ ps_irqs ps /\ ps_emu ps1 = ps_emu ps /\ ps_dev_id ps1 = ps_dev_id ps + 1.
Proof.
  intros Hsv. pose proof Hsv as [(E1 & E2 & E3 & E4 & E5 & E6) [Eq _] _ _ Er [Em Hv] _ [En Ei] _].
  unfold fec_probe, bstgw_alloc_etherdev. rewrite E1, E2, E3. cbn [negb ifnet_dev_init Z.eqb]. unfold fec_setup_napi. rewrite !E4. cbn [fst snd negb].
  unfold fec_setup_ingress_queue. change (4 * (BSTGW_RX_BURST_SZ * 7)) with 896. rewrite Eq, Er. cbn [assert_ptr mbind outcome_bind]. rewrite Em.
  match goal with |- context [hwp ?f =? 0] => change (hwp f) with v end. rewrite (proj2 (Z.eqb_neq v 0) Hv).
  pose proof (fec_init_ok pe v base pa r ring pool Hsv) as Ei0.
  match goal with |- context [fec_enet_init ?h ?x ?y pe ?f ?d] => match type of Ei0 with _ = ?res =>
    replace (fec_enet_init h x y pe f d) with res by (symmetry; exact Ei0) end end.
  cbn [mbind outcome_bind Z.eqb negb]. rewrite En. change (3 =? FEC_IRQ_NUM) with true. cbn [negb].
  change (Z.to_nat FEC_IRQ_NUM) with 3%nat. rewrite (probe_irqs_ok pe _ Ei). cbn [Z.eqb negb].
  match goal with |- exists _, probe_finish _ _ _ _ _ _ _ _ ?x = _ /\ _ => exists x end. split; [|done].
  f_equal. unfold put_dev, dev_set, upd. cbn. by rewrite insert_insert_eq.
Qed.

(** The rings of a new device. *)
Lemma new_fec_rings v base pa ring : rings_new (new_fec v base pa ring) 512.
Proof.
  assert (Hwf : forall b a reg, ring_wf (new_ring b a reg) 512) by (intros; split; cbn; lia || done).
  split; try done; apply Hwf.
Qed.

(** A driver that waits for the normal world to open the device, with [n]
    descriptors in each ring. *)
Record probed (n : nat) (v : Z) (f : fec_enet_private) (rxs : list positive) (st : ebstore) : Prop := {
  pb_state : sfec_state f = mk_sfec SFEC_PRI_PROBED SFEC_SUB_NONE 0 0 0;
  pb_napi : disabled (rx_napi f) /\ disabled (route_tx_napi f);
  pb_tx : tx_mem (tx_queue f) n [];
  pb_rx : rx_ok (rx_queue f) n rxs;
  pb_armed : forall j m, rxs !! j = Some m -> exists d, rx_ring (rx_queue f) !! j = Some d /\
    rx_armed virt_to_phys (rx_bd (rx_queue f)) st j d m;
  pb_regs : hwp f = v /\ quirks f = imx6q_quirks /\ bufdesc_ex f = false /\ rx_copybreak f = COPYBREAK_DEFAULT;
  pb_inq : pq_wf (in_queue f) /\ pq_abs (in_queue f) = [] /\ no_kick f = false
}.

(** The pool and the registry after a probe: the receive ring holds [rxs];
    the device [d] is the first of the list. *)
Record probed_world (n : nat) (pe : probe_env) (w w' : world T) (mac : list Z) (rxs : list positive) (d : ifnet_t T) : Prop := {
  pw_pool : pool_wf (w_pool w') /\ pool_aligned (w_pool w');
  pw_inuse : inuse_list (w_pool w') = rev rxs ++ inuse_list (w_pool w);
  pw_capacity : pool_capacity (w_pool w') = pool_capacity (w_pool w) + 2 * Z.of_nat n;
  pw_room : map_Forall (fun _ e => BSTGW_DEFAULT_BUF_SIZE <= buf_cap e) (bufs (w_pool w'));
  pw_from : forall i, is_Some (bufs (w_pool w') !! i) -> is_Some (bufs (w_pool w) !! i) \/ probe_chunk pe i;
  pw_reg : reg_wf (w_nd w') /\ netdev_list (w_nd w') = ndev :: netdev_list (w_nd w);
  pw_others : forall q, q <> ndev -> devs (w_nd w') !! q = devs (w_nd w) !! q;
  pw_dev : devs (w_nd w') !! ndev = Some d /\ dev_raw d /\ name d = "imx6q-fec"%string /\ ips_cnt d = 0 /\
           hwaddr d = mac /\ napi_count d = 2 /\ trust_status d = BSTGW_IF_EXTERNAL
}.

(** A device of this driver that is not registered yet. *)
Record dev_new (mac : list Z) (d : ifnet_t T) : Prop := {
  dn_raw : dev_raw d;
  dn_name : name d = "imx6q-fec"%string;
  dn_ips : ips_cnt d = 0;
  dn_mac : hwaddr d = mac;
  dn_napi : napi_count d = 2;
  dn_trust : trust_status d = BSTGW_IF_EXTERNAL
}.

(** The pool and the registry before a probe. *)
Record world_start (n : nat) (w : world T) : Prop := {
  st_pool : pool_wf (w_pool w) /\ pool_aligned (w_pool w) /\ pool_capacity (w_pool w) + 2 * Z.of_nat n <= MAX_U32;
  st_room : map_Forall (fun _ e => BSTGW_DEFAULT_BUF_SIZE <= buf_cap e) (bufs (w_pool w));
  st_reg : reg_wf (w_nd w) /\ next_if_idx (w_nd w) <= MAX_IFNET_IDS /\ ndev ∉ netdev_list (w_nd w)
}.

(** From the allocation of the buffers on. *)
Lemma probe_finish_ok pe r n f d v mac ps1 (w : world T) :
  dma_rx_ok -> rounds_up -> serves_bounce (pe_bounce pe) -> serves_pool (pe_heap pe) (w_pool w) -> world_start n w ->
  rings_new f n -> sfec_state f = mk_sfec SFEC_PRI_UNINIT SFEC_SUB_NONE 0 0 0 -> disabled (rx_napi f) -> disabled (route_tx_napi f) ->
  hwp f = v /\ quirks f = imx6q_quirks /\ bufdesc_ex f = false /\ rx_copybreak f = COPYBREAK_DEFAULT ->
  pq_wf (in_queue f) /\ pq_abs (in_queue f) = [] /\ no_kick f = false -> dev_new mac d ->
  exists f' w' rxs d',
    probe_finish virt_to_phys cache_invalidate asserts roundup2 ndev pe r (mk_drv f (dev_set w ndev d)) ps1 =
      (if negb (pe_emu pe) then Ok (0, failed_init ndev (ps1 <| ps_fep := Some f' |> <| ps_env := w' |>)) else
       Ok (0, ps1 <| ps_fep := Some (f' <| sfec_state ::= fun st => st <| primary_st := SFEC_PRI_PROBED |> |>) |> <| ps_env := w' |>
                  <| ps_emu ::= cons r |> <| ps_csu := true |>)) /\
    probed n v (f' <| sfec_state ::= fun st => st <| primary_st := SFEC_PRI_PROBED |> |>) rxs (bufs (w_pool w')) /\
    probed_world n pe w w' mac rxs d'.
Proof.
  intros Hdma Hro Hbo Hsp [(Hp & Ha & Hc) Hroom (Hreg & Hnext & Hni)] Hrn Hst N1 N2 Hregs Hinq [D1 D2 D3 D4 D5 D6]. unfold probe_finish.
  set (s0 := mk_drv f (dev_set w ndev d)).
  destruct (alloc_buffers_ok pe s0 n Hdma Hro Hbo Hsp Hrn Hp Ha Hc) as (p & rxs & rq & tq & -> & Hrx & Htx & Hwp & Hap & Hin & Hcap & Hrm & Harm & Hfrom).
  cbn [mbind outcome_bind negb Z.eqb].
  destruct (register_new (w_nd w) ndev d Hreg Hnext Hni) as (nd' & E & Hreg' & Hl & _ & Ho & Hd).
  match goal with |- context [ifnet_dev_register ?a ?x] => replace (ifnet_dev_register a x) with (Ok (0, nd')) by (symmetry; exact E) end.
  cbn [mbind outcome_bind negb Z.eqb].
  exists (f <| rx_queue := rq |> <| tx_queue := tq |>), (w <| w_pool := p |> <| w_nd := nd' |>), rxs, (d <| ifnet_idx := next_if_idx (w_nd w) |>).
  split; [by destruct (pe_emu pe)|]. split.
  - split; [cbn; by rewrite Hst|by split|exact Htx|exact Hrx|exact Harm|exact Hregs|exact Hinq].
  - split; [done|exact Hin|exact Hcap|by apply Hrm|exact Hfrom|by split|exact Ho|]. split; [exact Hd|]. split; [by destruct D1; split|done].
Qed.

(** The conditions of a probe. *)
Record probe_start (pe : probe_env) (v base pa : Z) (r : Z * Z) (ring : list ebptr) (w : world T) : Prop := {
  st_served : probe_served pe v base pa r ring (w_pool w);
  st_round : rounds_up;
  st_dma : dma_rx_ok;
  st_world : world_start 512 w
}.

Lemma new_dev_ok v : dev_new (boot_mac v) (new_dev v).
Proof.
  split; try done. split; [exact (length_boot_mac v)|split; [done|repeat constructor]|cbn; lia|cbn; lia|done|done|done|by eexists].
Qed.


(** The whole probe, up to what [emu_add_region] answers. *)
Lemma probe_ok pe v base pa r ring ps :
  probe_start pe v base pa r ring (ps_env ps) ->
  exists f w rxs d ps1,
    fec_probe hw virt_to_phys cache_invalidate asserts roundup2 ndev rx_id tx_id pe ("imx6q-fec"%string, imx6q_driver_data) ps =
      (if negb (pe_emu pe) then Ok (0, failed_init ndev (ps1 <| ps_fep := Some f |> <| ps_env := w |>)) else
       Ok (0, ps1 <| ps_fep := Some (f <| sfec_state ::= fun st => st <| primary_st := SFEC_PRI_PROBED |> |>) |> <| ps_env := w |>
                  <| ps_emu ::= cons r |> <| ps_csu := true |>)) /\
    ps_irqs ps1 = [1; 0] ++ ps_irqs ps /\ ps_emu ps1 = ps_emu ps /\
    probed 512 v (f <| sfec_state ::= fun st => st <| primary_st := SFEC_PRI_PROBED |> |>) rxs (bufs (w_pool w)) /\
    probed_world 512 pe (ps_env ps) w (boot_mac v) rxs d.
Proof.
  intros [Hsv Hro Hdma Hw]. destruct (probe_prepares pe v base pa r ring _ ps Hsv) as (ps1 & -> & Hirq & Hemu & _).
  destruct (probe_finish_ok pe r 512 (new_fec v base pa ring) (new_dev v) v (boot_mac v) ps1 (ps_env ps) Hdma Hro (sv_bounce _ _ _ _ _ _ _ Hsv)
    (sv_pool _ _ _ _ _ _ _ Hsv) Hw (new_fec_rings v base pa ring)) as (f & w & rxs & d & E & Hpb & Hpw); try done.
  - split; [|done]. destruct (sv_inq _ _ _ _ _ _ _ Hsv) as [_ Hlen]. split; cbn; [unfold MAX_I32; lia|lia|lia|done|by rewrite Hlen].
  - apply new_dev_ok.
  - by exists f, w, rxs, d, ps1.
Qed.

(** ** Properties *)

(** C11. A probe whose requests are served succeeds and leaves what the rest of
    the driver and the router start from: every receive descriptor owns a
    packet buffer of its own, aligned and handed to the controller; the
    transmit ring is empty and has a bounce buffer for every descriptor; both
    NAPI contexts are disabled; the device carries the address the boot loader
    programmed and is registered; the register window is emulated, and the
    driver waits for the normal world to open the device. *)
Theorem fec_probe_ready pe v base pa r ring ps :
  probe_start pe v base pa r ring (ps_env ps) -> pe_emu pe = true ->
  exists ps' f rxs d,
    fec_probe hw virt_to_phys cache_invalidate asserts roundup2 ndev rx_id tx_id pe ("imx6q-fec"%string, imx6q_driver_data) ps = Ok (0, ps') /\
    ps_fep ps' = Some f /\ probed 512 v f rxs (bufs (w_pool (ps_env ps'))) /\
    probed_world 512 pe (ps_env ps) (ps_env ps') (boot_mac v) rxs d /\
    ps_irqs ps' = [1; 0] ++ ps_irqs ps /\ ps_emu ps' = r :: ps_emu ps /\ ps_csu ps' = true.
Proof.
  intros Hs He. destruct (probe_ok pe v base pa r ring ps Hs) as (f & w & rxs & d & ps1 & E & Hirq & Hemu & Hpb & Hpw).
  rewrite He in E. eexists _, _, rxs, d. split; [exact E|]. split; [done|]. split; [exact Hpb|]. split; [exact Hpw|].
  split; [exact Hirq|]. split; [|done]. cbn. by rewrite Hemu.
Qed.

(** A probe whose register window cannot be emulated reports success all
    the same, after it has freed the device and its private data: the device
    stays in the registry, so that counting the NAPI contexts, the first step
    of the router's initialisation, reads freed memory, and both interrupts
    stay enabled with the freed data as their argument. *)
Theorem fec_probe_dangles pe v base pa r ring ps :
  probe_start pe v base pa r ring (ps_env ps) -> pe_emu pe = false ->
  exists ps', fec_probe hw virt_to_phys cache_invalidate asserts roundup2 ndev rx_id tx_id pe ("imx6q-fec"%string, imx6q_driver_data) ps = Ok (0, ps') /\
    ps_fep ps' = None /\ devs (w_nd (ps_env ps')) !! ndev = None /\ ndev ∈ netdev_list (w_nd (ps_env ps')) /\
    ps_irqs ps' = [1; 0] ++ ps_irqs ps /\ ifnet_napi_count (w_nd (ps_env ps')) = Undef.
Proof.
  intros Hs He. destruct (probe_ok pe v base pa r ring ps Hs) as (f & w & rxs & d & ps1 & E & Hirq & Hemu & Hpb & [_ _ _ _ _ [_ Hl] _ _]).
  rewrite He in E. eexists. split; [exact E|]. split; [done|]. cbn. split; [apply lookup_delete_eq|].
  rewrite Hl. split; [set_solver|]. split; [exact Hirq|]. unfold ifnet_napi_count. cbn. by rewrite lookup_delete_eq.
Qed.

End probe_ok.

(** ** Example: a controller at 0x2188000, the device NW registered before it *)

Definition ex_hw (_ : nat) (_ : Z) : Z := 0x02000001.
Definition ex_pe (emu : bool) : probe_env :=
  mk_probe_env true true true (fun _ => (true, true)) (fun sz => Some (replicate (Z.to_nat (sz / 4)) None)) true true
    (fun _ len => Some (100, replicate (Z.to_nat len) 0))
    (fun b k sz => Some (mk_chunk (xI (encode (b, k))) 100 (replicate (Z.to_nat sz) 0) true))
    (mk_device 7 [(0x2188000, 0x4000)] 3) 7 (fun _ _ => true) (fun pa => pa) (fun _ => Some 0x10000) (fun pa => pa)
    (fun _ => 0) (fun _ => 0) emu.
Definition ex_boot_world : world (gmap (list Z) (list Z)) :=
  mk_world (mk_pool ∅ [] [] 0)
    (mk_netdevs {[ 1%positive := ex_new_dev 1 1 "NW"%string ]} [1%positive] (Some 1%positive :: replicate 31 None) 2) [] 0.
Definition ex_ps : probe_st (gmap (list Z) (list Z)) := mk_ps None ex_boot_world [] [] 0 false.

Lemma ex_rounds_up : rounds_up ex_roundup.
Proof. intros a Ha. unfold ex_roundup, BSTGW_CACHE_LINE. pose proof (Z.div_mod (a + 64 - 1) 64). pose proof (Z.mod_pos_bound (a + 64 - 1) 64). lia. Qed.

Lemma ex_probe_start emu :
  probe_start ex_hw (fun _ => 0x80000000) (fun _ _ => true) ex_roundup 2 (ex_pe emu) 0x2188000 0x10000 0x10000 (0x2188000, 0x4000)
    (replicate 224 None) ex_boot_world.
Proof.
  split; [split|exact ex_rounds_up|done|split].
  - done.
  - done.
  - intros i len Hlen. eexists _, _. split; [done|]. split; [done|]. rewrite length_replicate. lia.
  - split; [intros b k sz Hsz; eexists; split; [done|]; cbn; split; [done|]; split; [done|]; split; [rewrite length_replicate; lia|apply lookup_empty]|].
    intros b b' k k' sz sz' ch ch' Hne [= <-] [= <-]. cbn. by intros [= ?%(inj encode)].
  - done.
  - done.
  - done.
  - done.
  - done.
  - split; [|split; [apply map_Forall_empty|vm_compute; discriminate]].
    split; cbn; [constructor|intros i; rewrite lookup_empty; split; [by intros ?%elem_of_nil|by intros [? ?]]|apply map_Forall_empty|by intros ? ? ?%elem_of_nil|done].
  - apply map_Forall_empty.
  - split; [|split; [vm_compute; discriminate|cbn; set_solver]].
    split; [vm_compute; split; discriminate|repeat constructor; set_solver|done| |].
    + intros p [->|Hp%elem_of_nil]%elem_of_cons; [|done]; eexists; (split; [reflexivity|]); cbn; (split; [lia|done]).
    + intros i Hi. change (next_if_idx (w_nd ex_boot_world)) with 2 in Hi. assert (i = 1) as -> by lia.
      exists 1%positive. split; [done|]. cbn. set_solver.
Qed.

Lemma fec_probe_ready_witness :
  exists ps' f rxs d,
    fec_probe ex_hw (fun _ => 0x80000000) (fun _ _ => true) false ex_roundup 2 3 4 (ex_pe true) ("imx6q-fec"%string, imx6q_driver_data) ex_ps = Ok (0, ps') /\
    ps_fep ps' = Some f /\ probed (fun _ => 0x80000000) 512 0x2188000 f rxs (bufs (w_pool (ps_env ps'))) /\
    probed_world 2 512 (ex_pe true) ex_boot_world (ps_env ps') [2; 0; 0; 1; 2; 0] rxs d /\
    ps_irqs ps' = [1; 0] /\ ps_emu ps' = [(0x2188000, 0x4000)] /\ ps_csu ps' = true.
Proof.
  exact (fec_probe_ready ex_hw (fun _ => 0x80000000) (fun _ _ => true) false ex_roundup 2 3 4 (ex_pe true) 0x2188000 0x10000 0x10000
    (0x2188000, 0x4000) (replicate 224 None) ex_ps (ex_probe_start true) eq_refl).
Defined.

Lemma fec_probe_dangles_witness :
  exists ps', fec_probe ex_hw (fun _ => 0x80000000) (fun _ _ => true) false ex_roundup 2 3 4 (ex_pe false) ("imx6q-fec"%string, imx6q_driver_data) ex_ps = Ok (0, ps') /\
    ps_fep ps' = None /\ devs (w_nd (ps_env ps')) !! 2%positive = None /\ 2%positive ∈ netdev_list (w_nd (ps_env ps')) /\
    ps_irqs ps' = [1; 0] /\ ifnet_napi_count (w_nd (ps_env ps')) = Undef.
Proof.
  exact (fec_probe_dangles ex_hw (fun _ => 0x80000000) (fun _ _ => true) false ex_roundup 2 3 4 (ex_pe false) 0x2188000 0x10000 0x10000
    (0x2188000, 0x4000) (replicate 224 None) ex_ps (ex_probe_start false) eq_refl).
Defined.
