(* ===== verification/VnicInit.v ===== *)
(** * Starting the virtual network card (virtio-nic/vnic/src/vnic.c).

    [vnic_init] with the answers of the rest of the system as the record
    [vnic_env]: the card as the normal world finds it, its NAPI context and
    its network device, registered with the router. *)

From stdpp Require Import strings.
From S2P Require Import Prelude Pktq EthBuf Iovec Vqueue VirtioDev Napi Netdev Route Newlib Config Forward Router RouterInit.

Record vnic_env := mk_vnic_env {
  ve_size : Z;            (** [BSTGW_VNIC_SIZE], [BSTGW_VNIC_START]: the platform's configuration *)
  ve_start : Z;
  ve_get_va : Z -> Z;     (** the mapping of the configuration region, 0 if there is none *)
  ve_vnic : bool;         (** the heap serves the card, *)
  ve_irq : bool;          (** its interrupt descriptor, *)
  ve_config : bool;       (** its configuration, *)
  ve_vq : bool;           (** its queues, *)
  ve_cv : bool; ve_mtx : bool;   (** condition variable and mutex, *)
  ve_egress : bool;       (** and the egress queue. *)
  ve_fdt : Z;             (** address of the device tree *)
  ve_path : Z;            (** the interrupt controller's node *)
  ve_lookup : Z -> option Z;     (** the device of a node *)
  ve_chip : Z -> option Z;       (** its interrupt chip *)
  ve_emu : bool           (** whether [emu_add_region] succeeds *)
}.

Definition vnic_get_gic_irq_chip (ve : vnic_env) : option Z :=
  if ve_fdt ve =? 0 then None else
  if ve_path ve <? 0 then None else
  match ve_lookup ve (ve_path ve) with
  | None => None
  | Some chip_dev => ve_chip ve chip_dev
  end.

Definition vnic_init_vmmio (ve : vnic_env) : Z :=
  if negb (ve_irq ve) then TEE_ERROR_OUT_OF_MEMORY else
  match vnic_get_gic_irq_chip ve with
  | None => TEE_ERROR_OUT_OF_MEMORY
  | Some _ => TEE_SUCCESS
  end.

(** The state of the module: the card (None: not there), its NAPI context, the
    emulated regions and the world. *)
Record vnic_st (T : Type) := mk_vs { bstgw_vnic : option vnic_t; vs_napi : napi_struct; vs_emu : list (Z * Z); vs_world : world T }.
Arguments mk_vs {T}. Arguments bstgw_vnic {T}. Arguments vs_napi {T}. Arguments vs_emu {T}. Arguments vs_world {T}.
#[global] Instance eta_vnic_st {T} : Settable (vnic_st T) := fun s => mk_vs (bstgw_vnic s) (vs_napi s) (vs_emu s) (vs_world s).

Section vnic_init.
Context {T : Type} `{ThMap T}.
(** The device, which is a part of the card, and its NAPI context. *)
Context (ndev napi_id : positive).
Implicit Types s : vnic_st T.

(** The error path from [vnic_err9] on ends with freeing the card, and with it
    its device and its context. *)
Definition vnic_err (res : Z) s : outcome (Z * vnic_st T) :=
  let s := s <| bstgw_vnic := None |> <| vs_world ::= fun w => w <| w_nd ::= fun nd => nd <| devs ::= delete ndev |> |> |> in
  if res =? TEE_SUCCESS then Panic else Ok (res, s).

(** The tear-down of the queues on the error path from [vnic_err7] on. *)
Definition vnic_err7 (res : Z) (v : vnic_t) s : outcome (Z * vnic_st T) :=
  tx ← aget (vq (vdev v)) 1;
  _ ← vqueue_vring_teardown tx;
  rx ← aget (vq (vdev v)) 0;
  _ ← vqueue_vring_teardown rx;
  vnic_err res s.

(** The network device and NAPI. *)
Definition vnic_init_netdev (ve : vnic_env) (v : vnic_t) s : outcome (Z * vnic_st T) :=
  let '(r, d) := ifnet_dev_init (ve_egress ve) in
  if negb (r =? 0) then vnic_err7 TEE_ERROR_OUT_OF_MEMORY v s else
  let d := d <| hwaddr := [0xfa; 0xfa; 0xde; 0xad; 0xbe; 0xef] |> <| name := "NW"%string |> <| trust_status := BSTGW_IF_NONSEC |>
             <| xmit_handler := true |> <| egress_ntfy_handler := true |> in
  q ← deref (egress_queue d);
  let d := d <| egress_queue := Some (netif_tx_start_queue q) |> in
  '(_, n, d) ← netif_napi_add napi_id (mk_napi 0 false false) d;
  n ← napi_enable n;
  let s := s <| bstgw_vnic := Some v |> <| vs_napi := n |> <| vs_world ::= fun w => dev_set w ndev d |> in
  '(r, nd) ← ifnet_dev_register (Some ndev) (w_nd (vs_world s));
  let s := s <| vs_world ::= fun w => w <| w_nd := nd |> |> in
  if negb (r =? 0) then vnic_err7 TEE_ERROR_GENERIC v s else
  if negb (ve_emu ve) then vnic_err7 TEE_ERROR_OUT_OF_MEMORY v s else
  Ok (TEE_SUCCESS, s <| vs_emu ::= cons (ve_start ve, ve_size ve) |>).

Definition vnic_init (ve : vnic_env) s : outcome (Z * vnic_st T) :=
  if ve_size ve =? 0 then Ok (TEE_ERROR_SHORT_BUFFER, s) else
  if ve_get_va ve (ve_start ve) =? 0 then Ok (TEE_ERROR_GENERIC, s) else
  if negb (ve_vnic ve) then Ok (TEE_ERROR_OUT_OF_MEMORY, s <| bstgw_vnic := None |>) else
  let res := vnic_init_vmmio ve in
  if negb (res =? TEE_SUCCESS) then vnic_err res s else
  if negb (ve_config ve) then vnic_err TEE_ERROR_OUT_OF_MEMORY s else
  if negb (ve_vq ve) then vnic_err TEE_ERROR_OUT_OF_MEMORY s else
  if negb (ve_cv ve) || negb (ve_mtx ve) then vnic_err TEE_ERROR_OUT_OF_MEMORY s else
  vnic_init_netdev ve vnic_state_init s.

End vnic_init.

Section vnic_ready.
Context {T : Type} `{ThMap T}.
Context (ndev napi_id : positive).

(** The card's device before it is registered. *)
Definition vnic_dev : ifnet_t T :=
  mk_ifnet 0 [0xfa; 0xfa; 0xde; 0xad; 0xbe; 0xef] BSTGW_IF_NONSEC [Some napi_id; None] 1 true true "NW" [None; None] 0
    [replicate 16 0; replicate 16 0] 0 0 None (Some (mk_pktqueue false 0 0 0 0 [])).

(** Everything the card asks for is there. *)
Record vnic_served (ve : vnic_env) : Prop := {
  vv_region : ve_size ve <> 0 /\ ve_get_va ve (ve_start ve) <> 0;
  vv_heap : ve_vnic ve = true /\ ve_irq ve = true /\ ve_config ve = true /\ ve_vq ve = true /\ ve_cv ve = true /\ ve_mtx ve = true /\
            ve_egress ve = true;
  vv_chip : is_Some (vnic_get_gic_irq_chip ve);
  vv_emu : ve_emu ve = true
}.

(** The card's device and context. *)
Lemma vnic_netdev_ok ve v (s : vnic_st T) :
  ve_egress ve = true -> ve_emu ve = true ->
  reg_wf (w_nd (vs_world s)) -> next_if_idx (w_nd (vs_world s)) <= MAX_IFNET_IDS -> ndev ∉ netdev_list (w_nd (vs_world s)) ->
  exists nd', vnic_init_netdev ndev napi_id ve v s =
      Ok (TEE_SUCCESS, mk_vs (Some v) (mk_napi 0 false false) ((ve_start ve, ve_size ve) :: vs_emu s) ((vs_world s) <| w_nd := nd' |>)) /\
    reg_wf nd' /\ netdev_list nd' = ndev :: netdev_list (w_nd (vs_world s)) /\ next_if_idx nd' = next_if_idx (w_nd (vs_world s)) + 1 /\
    (forall q, q <> ndev -> devs nd' !! q = devs (w_nd (vs_world s)) !! q) /\
    devs nd' !! ndev = Some (vnic_dev <| ifnet_idx := next_if_idx (w_nd (vs_world s)) |>).
Proof.
  intros H7 He Hreg Hnext Hni. destruct (register_new (w_nd (vs_world s)) ndev vnic_dev Hreg Hnext Hni) as (nd' & E & HR).
  exists nd'. split; [|exact HR]. unfold vnic_init_netdev. rewrite H7.
  transitivity ('(r, nd) ← ifnet_dev_register (Some ndev) ((w_nd (vs_world s)) <| devs ::= <[ndev := vnic_dev]> |>);
    let s := mk_vs (Some v) (mk_napi 0 false false) (vs_emu s) ((vs_world s) <| w_nd := nd |>) in
    if negb (r =? 0) then vnic_err7 ndev TEE_ERROR_GENERIC v s else
    if negb (ve_emu ve) then vnic_err7 ndev TEE_ERROR_OUT_OF_MEMORY v s else
    Ok (TEE_SUCCESS, s <| vs_emu ::= cons (ve_start ve, ve_size ve) |>)); [reflexivity|].
  rewrite E. cbn [mbind outcome_bind Z.eqb negb]. rewrite He. reflexivity.
Qed.


Lemma vnic_dev_raw i : dev_raw (vnic_dev <| ifnet_idx := i |>).
Proof. split; cbn; [done|split; [done|repeat constructor]|lia|lia|done|done|done|by eexists]. Qed.

(** A card that is served starts: the normal world finds it in the state whose
    registers [vnic_mmio_safe] speaks of, its NAPI context is enabled, and its
    device is registered under the name NW, with its egress queue started. *)
Theorem vnic_init_ready ve (s : vnic_st T) :
  vnic_served ve -> reg_wf (w_nd (vs_world s)) -> next_if_idx (w_nd (vs_world s)) <= MAX_IFNET_IDS -> ndev ∉ netdev_list (w_nd (vs_world s)) ->
  exists s', vnic_init ndev napi_id ve s = Ok (TEE_SUCCESS, s') /\
    bstgw_vnic s' = Some vnic_state_init /\ vs_napi s' = mk_napi 0 false false /\
    vs_emu s' = (ve_start ve, ve_size ve) :: vs_emu s /\ w_pool (vs_world s') = w_pool (vs_world s) /\
    reg_wf (w_nd (vs_world s')) /\ netdev_list (w_nd (vs_world s')) = ndev :: netdev_list (w_nd (vs_world s)) /\
    next_if_idx (w_nd (vs_world s')) = next_if_idx (w_nd (vs_world s)) + 1 /\
    (forall q, q <> ndev -> devs (w_nd (vs_world s')) !! q = devs (w_nd (vs_world s)) !! q) /\
    devs (w_nd (vs_world s')) !! ndev = Some (vnic_dev <| ifnet_idx := next_if_idx (w_nd (vs_world s)) |>).
Proof.
  intros [[V1 V2] (H1 & H2 & H3 & H4 & H5 & H6 & H7) [chip Hc] He] Hreg Hnext Hni.
  destruct (vnic_netdev_ok ve vnic_state_init s H7 He Hreg Hnext Hni) as (nd' & E & R1 & R2 & R3 & R4 & R5).
  match type of E with _ = Ok (_, ?x) => exists x end. split; [|by split_and!].
  unfold vnic_init, vnic_init_vmmio. rewrite (proj2 (Z.eqb_neq _ 0) V1), (proj2 (Z.eqb_neq _ 0) V2), H1, H2, Hc, H3, H4, H5, H6. exact E.
Qed.

End vnic_ready.
