(* ===== verification/Boot.v ===== *)
(** * From boot to a running gateway

    The virtual card is started (VnicInit), the Ethernet controller is probed
    (FecInit), the router is initialised from the registered devices
    (RouterInit), the normal world opens the device through the trap handler
    (FecLink): each step establishes what the next one starts from. *)

From stdpp Require Import strings pretty.
From S2P Require Import Prelude Pktq EthBuf Napi Netdev Route Newlib Config Forward Router RouterInit Worker Fec FecTx FecRx FecReset FecTraps FecLink FecInit Iovec Vqueue VirtioDev VnicInit.

Section boot.
Context {T : Type} `{ThMap T} {L : Type} `{Lpm L route_info_t}.
Context (lpm_strtobin : string -> option (list Z * Z)) (stack : list Z) (roundup2 : Z -> Z -> Z).
Context (hw : nat -> Z -> Z) (virt_to_phys : Z -> Z) (cache_invalidate : Z -> Z -> bool) (asserts : bool) (junk : Z * Z).
Context (ndev rx_id tx_id nw_ndev vnapi_id : positive).

(** The system when the controller is probed: the other devices are
    registered, NW ([p1]) among them; the router has not been created.  Its
    requests will be served, with blocks the probe has not been given. *)
Record system_start (pe : probe_env) (e : init_env T) (rs : rstate T L) (w : world T) p1 d1 : Prop := {
  ss_null : trusted_router rs = false;
  ss_raw : forall p d, p ∈ netdev_list (w_nd w) -> devs (w_nd w) !! p = Some d -> dev_raw d /\ name d <> "imx6q-fec"%string;
  ss_names : names_distinct (w_nd w);
  ss_len : (length (netdev_list (w_nd w)) <= 31)%nat;
  ss_nw : p1 ∈ netdev_list (w_nd w) /\ devs (w_nd w) !! p1 = Some d1 /\ name d1 = "NW"%string /\ ips_cnt d1 = 0;
  ss_cap : pool_capacity (w_pool w) <= 500000;
  ss_env : env_ok roundup2 e (w_pool w);
  ss_apart : forall i o k sz ch, probe_chunk pe i -> env_heap e o k sz = Some ch -> ch_id ch <> i;
  ss_libs : env_router e = true /\ env_npf e = true /\ env_icmp e = 0 /\ env_rtable e = true;
  ss_threads : napi_sum (w_nd w) (netdev_list (w_nd w)) + 4 <= env_threads e <= MAX_U32
}.

Lemma napi_sum_others (nd nd' : netdevs T) l :
  (forall q, q ∈ l -> devs nd' !! q = devs nd !! q) -> napi_sum nd' l = napi_sum nd l.
Proof.
  induction l as [|p l IH]; intros Hl; [done|]. unfold napi_sum in *. cbn [foldr]. rewrite Hl by set_solver. rewrite IH by set_solver. done.
Qed.

(** After the probe the router can be initialised. *)
Lemma probed_start pe e rs w w' mac rxs d p1 d1 :
  system_start pe e rs w p1 d1 -> reg_wf (w_nd w) -> ndev ∉ netdev_list (w_nd w) -> probed_world ndev 512 pe w w' mac rxs d ->
  start_ok roundup2 e (rs <| r_world := w' |>) p1 d1 ndev d.
Proof.
  intros [S1 S2 S3 S4 (N1 & N2 & N3 & N4) S6 S7 S8 S9 S10] Hreg Hni [[P1 _] P2 P3 P4 P5 [P6 P7] P8 (D1 & D2 & D3 & D4 & _ & D5 & _)].
  assert (Hne : forall q, q ∈ netdev_list (w_nd w) -> q <> ndev) by (intros q Hq ->; done).
  assert (Hold : forall q d', q ∈ netdev_list (w_nd w) -> devs (w_nd w') !! q = Some d' -> devs (w_nd w) !! q = Some d')
    by (intros q d' Hq; by rewrite P8 by (by apply Hne)).
  split; cbn [r_world upd]; try done.
  - intros p q x y Hp Hq Hx Hy E. rewrite P7 in Hp, Hq. apply elem_of_cons in Hp as [->|Hp], Hq as [->|Hq].
    + done.
    + assert (x = d) as -> by congruence. destruct (S2 q y Hq (Hold q y Hq Hy)) as [_ Hnm]. congruence.
    + assert (y = d) as -> by congruence. destruct (S2 p x Hp (Hold p x Hp Hx)) as [_ Hnm]. congruence.
    + exact (S3 p q x y Hp Hq (Hold p x Hp Hx) (Hold q y Hq Hy) E).
  - rewrite P7. cbn. lia.
  - intros p x Hp Hx. rewrite P7 in Hp. apply elem_of_cons in Hp as [->|Hp]; [by simplify_eq|]. exact (proj1 (S2 p x Hp (Hold p x Hp Hx))).
  - rewrite P7, P8 by (by apply Hne). split; [set_solver|done].
  - rewrite P7. split; [set_solver|done].
  - cbn. lia.
  - destruct S7 as [E1 E2 E3 E4 E5 E6]. split; try done. intros o k sz Hsz. destruct (E5 o k sz Hsz) as (ch & Ech & ? & ? & ? & Hn).
    exists ch. split_and!; try done. apply eq_None_not_Some. intros [[y Hy]|Hc]%P5; [congruence|]. by eapply S8.
  - rewrite P7. unfold napi_sum. cbn [foldr]. rewrite D1, D5. fold (napi_sum (w_nd w') (netdev_list (w_nd w))).
    rewrite (napi_sum_others (w_nd w) (w_nd w')) by (intros q Hq; apply P8; by apply Hne). lia.
Qed.

(** The probe, the router and the normal world's opening of the device. *)
Lemma probed_opens pe v base pa r ring ps e rs p1 d1 mbase blocked c phy :
  probe_start hw virt_to_phys cache_invalidate roundup2 ndev pe v base pa r ring (ps_env ps) -> pe_emu pe = true ->
  system_start pe e rs (ps_env ps) p1 d1 ->
  (forall a b e f n : Z, Forall (fun v => 0 <= v <= 255) [a; b; e; f] -> 0 <= n <= 32 ->
     lpm_strtobin (pretty a +:+ "." +:+ pretty b +:+ "." +:+ pretty e +:+ "." +:+ pretty f +:+ "/" +:+ pretty n)%string
       = Some ([a; b; e; f], n)) ->
  (forall l a n v, is_Some (lpm_insert (L := L) (V := route_info_t) l a n v)) -> length stack = 4%nat ->
  exists ps' f rs' s' mdio rxs d,
    fec_probe hw virt_to_phys cache_invalidate asserts roundup2 ndev rx_id tx_id pe ("imx6q-fec"%string, imx6q_driver_data) ps = Ok (0, ps') /\
    ps_fep ps' = Some f /\
    init_trusted_router lpm_strtobin stack roundup2 e true true (rs <| r_world := ps_env ps' |>) = Ok (TEE_SUCCESS, rs') /\
    nw_run hw junk ndev mbase blocked (nw_fec_enet_open c phy) (mk_drv f (r_world rs')) = Ok s' /\
    restarted hw junk f (boot_mac hw v) c 512 512 rxs (rev rxs ++ inuse_list (w_pool (ps_env ps))) mdio s' /\ Forall (mdio_access f) mdio /\
    primary_st (sfec_state (fep s')) = (if link c then SFEC_PRI_RUNNING else SFEC_PRI_RESTARTED) /\
    devs (w_nd (env s')) !! ndev = Some d /\ dev_ok d /\ stopped <$> egress_queue d = Some false /\
    enabled (rx_napi (fep s')) /\ enabled (route_tx_napi (fep s')).
Proof.
  intros Hps He Hss Hcidr Hins Hst.
  destruct (probe_ok hw virt_to_phys cache_invalidate asserts roundup2 ndev rx_id tx_id pe v base pa r ring ps Hps)
    as (f & w & rxs & d & ps1 & E & _ & _ & [B1 [B2 B3] B4 B5 _ (B6 & B7 & B8 & _) _] & Hpw). rewrite He in E. cbn [negb] in E.
  pose proof Hps as [_ _ _ [_ _ (Hreg & _ & Hni)]].
  pose proof (probed_start pe e rs (ps_env ps) w _ rxs d p1 d1 Hss Hreg Hni Hpw) as Hso.
  destruct (init_router_ok lpm_strtobin stack roundup2 e _ p1 d1 ndev d Hcidr Hins Hst Hso) as (rs' & Ei & Ho & El & _ & Hready & Hhw & _).
  pose proof Hpw as [_ P2 _ _ _ [_ P7] _ _]. change (r_world (rs <| r_world := w |>)) with w in *. rewrite P2 in Ho.
  assert (Hn : ndev ∈ netdev_list (w_nd w)) by (rewrite P7; set_solver).
  assert (Hn' : ndev ∈ netdev_list (w_nd (r_world rs'))) by (by rewrite El).
  destruct (Hready ndev Hn) as (d' & Hd' & Hok & _). pose proof (dk_queue _ Hok) as (q & Hq & _).
  assert (Hmac : hwaddr d' = boot_mac hw v).
  { specialize (Hhw ndev). rewrite Hd' in Hhw. destruct Hpw as [_ _ _ _ _ _ _ (D1 & _ & _ & _ & <- & _)]. rewrite D1 in Hhw. by injection Hhw. }
  eexists _, _, rs'. set (f1 := f <| sfec_state ::= fun st => st <| primary_st := SFEC_PRI_PROBED |> |>) in *.
  destruct (nw_open_starts hw junk ndev mbase blocked c (mk_drv f1 (r_world rs')) 512 512 [] rxs (rev rxs ++ inuse_list (w_pool (ps_env ps))) d' q
    B7 B8 Hn' Hd' Hq B4 B5 Ho phy 0 0 0 B1 B2 B3) as (s' & mdio & En & Hr & Hm & Hs & Hd2 & N1 & N2). rewrite Hmac in Hr.
  exists s', mdio, rxs, (d' <| egress_queue := Some (q <| stopped := false |>) |>).
  split; [exact E|]. split; [reflexivity|]. split; [exact Ei|]. split; [exact En|]. split; [exact Hr|]. split; [exact Hm|].
  split; [by rewrite Hs|]. split; [exact Hd2|]. split; [|done].
  destruct Hok as [K1 K2 K3 K4 (q' & Hq' & Hwf & Hall) K6]. split; try done. exists (q <| stopped := false |>). simplify_eq.
  split; [done|]. split; [by destruct Hwf|done].
Qed.

(** The world before any driver has started: no device, no packet buffer. *)
Definition fresh_world : world T := mk_world bstgw_ethpool_init (netdev_init (netdev_static ∅)) [] 0.

Lemma fresh_pool : pool_wf bstgw_ethpool_init /\ pool_aligned bstgw_ethpool_init.
Proof.
  split; [|apply map_Forall_empty].
  split; cbn; [constructor|intros i; rewrite lookup_empty; split; [by intros ?%elem_of_nil|by intros [? ?]]|apply map_Forall_empty|by intros ? ? ?%elem_of_nil|done].
Qed.

(** What the card, the controller and the router ask for is there. *)
Record boot_served (ve : vnic_env) (pe : probe_env) (e : init_env T) (v base pa : Z) (r : Z * Z) (ring : list ebptr) : Prop := {
  bo_vnic : vnic_served ve;
  bo_probe : probe_served hw pe v base pa r ring bstgw_ethpool_init;
  bo_emu : pe_emu pe = true;
  bo_round : rounds_up roundup2;
  bo_dma : dma_rx_ok virt_to_phys cache_invalidate;
  bo_env : env_ok roundup2 e bstgw_ethpool_init;
  bo_apart : forall i o k sz ch, probe_chunk pe i -> env_heap e o k sz = Some ch -> ch_id ch <> i;
  bo_libs : env_router e = true /\ env_npf e = true /\ env_icmp e = 0 /\ env_rtable e = true;
  bo_threads : 5 <= env_threads e <= MAX_U32
}.

(** After the card has started, the controller can be probed. *)
Lemma vnic_starts ve pe e v base pa r ring (rs : rstate T L) :
  boot_served ve pe e v base pa r ring -> trusted_router rs = false -> nw_ndev <> ndev ->
  exists vs d1, vnic_init nw_ndev vnapi_id ve (mk_vs None (mk_napi 0 false false) [] fresh_world) = Ok (TEE_SUCCESS, vs) /\
    bstgw_vnic vs = Some vnic_state_init /\ vs_napi vs = mk_napi 0 false false /\
    probe_start hw virt_to_phys cache_invalidate roundup2 ndev pe v base pa r ring (vs_world vs) /\
    system_start pe e rs (vs_world vs) nw_ndev d1 /\ inuse_list (w_pool (vs_world vs)) = [].
Proof.
  intros [B1 B2 B3 B4 B5 B6 B7 B8 B9] Hrs Hne. destruct fresh_pool as [Hp Ha].
  destruct (vnic_init_ready nw_ndev vnapi_id ve (mk_vs None (mk_napi 0 false false) [] fresh_world) B1) as
    (vs & E & V1 & V2 & _ & Epool & R1 & R2 & R3 & R4 & R5); [apply netdev_init_wf|done|cbn; set_solver|].
  change (netdev_list (w_nd (vs_world (mk_vs None (mk_napi 0 false false) [] fresh_world)))) with (@nil positive) in R2.
  change (w_pool (vs_world (mk_vs None (mk_napi 0 false false) [] fresh_world))) with bstgw_ethpool_init in Epool.
  change (next_if_idx (w_nd (vs_world (mk_vs None (mk_napi 0 false false) [] fresh_world)))) with 1 in R3, R5.
  exists vs, ((vnic_dev vnapi_id) <| ifnet_idx := 1 |>). split; [exact E|]. split; [exact V1|]. split; [exact V2|].
  assert (Hl : forall p d, p ∈ netdev_list (w_nd (vs_world vs)) -> devs (w_nd (vs_world vs)) !! p = Some d ->
    p = nw_ndev /\ d = (vnic_dev vnapi_id) <| ifnet_idx := 1 |>).
  { intros p d Hpl Hd. rewrite R2 in Hpl. apply elem_of_cons in Hpl as [->|?%elem_of_nil]; [|done]. split; [done|congruence]. }
  split; [|split; [|by rewrite Epool]].
  - split; [by rewrite Epool|done|done|]. split; rewrite ?Epool; [done|apply map_Forall_empty|].
    split; [exact R1|]. split; [rewrite R3; vm_compute; discriminate|]. rewrite R2. set_solver.
  - split; rewrite ?Epool; try done.
    + intros p d Hpl Hd. destruct (Hl p d Hpl Hd) as [_ ->]. split; [apply vnic_dev_raw|done].
    + intros p q d d' Hpl Hq Hd Hd'. destruct (Hl p d Hpl Hd) as [-> _], (Hl q d' Hq Hd') as [-> _]. done.
    + rewrite R2. cbn. lia.
    + rewrite R2. split; [set_solver|done].
    + rewrite R2. unfold napi_sum. cbn [foldr]. rewrite R5. cbn. lia.
Qed.

(** C10. From boot to a running gateway.  The virtual card is started, the
    Ethernet controller is probed, the router is initialised with its default
    configuration, the normal world opens the device (its restart sequence,
    any operations of the PHY library, the final virtual write): every step
    succeeds, from what the steps before it left.  Afterwards the normal world
    finds the card in its initial state; the controller has seen exactly the
    register sequence of a restart, with the ring addresses, the address the
    boot loader had programmed and the modes of the secure driver in it; its
    transmit ring is empty, its receive ring holds the buffers of the probe,
    and these are all buffers in use; the driver runs with its egress queue
    and both NAPI contexts enabled. *)
Theorem boot_to_running ve pe e v base pa r ring irqs (rs : rstate T L) mbase blocked c phy :
  boot_served ve pe e v base pa r ring -> trusted_router rs = false -> nw_ndev <> ndev ->
  (forall a b e f n : Z, Forall (fun v => 0 <= v <= 255) [a; b; e; f] -> 0 <= n <= 32 ->
     lpm_strtobin (pretty a +:+ "." +:+ pretty b +:+ "." +:+ pretty e +:+ "." +:+ pretty f +:+ "/" +:+ pretty n)%string
       = Some ([a; b; e; f], n)) ->
  (forall l a n v, is_Some (lpm_insert (L := L) (V := route_info_t) l a n v)) -> length stack = 4%nat ->
  exists vs ps f rs' s' mdio rxs d,
    vnic_init nw_ndev vnapi_id ve (mk_vs None (mk_napi 0 false false) [] fresh_world) = Ok (TEE_SUCCESS, vs) /\
    bstgw_vnic vs = Some vnic_state_init /\ vs_napi vs = mk_napi 0 false false /\
    fec_probe hw virt_to_phys cache_invalidate asserts roundup2 ndev rx_id tx_id pe ("imx6q-fec"%string, imx6q_driver_data)
      (mk_ps None (vs_world vs) irqs [] 0 false) = Ok (0, ps) /\
    ps_fep ps = Some f /\
    init_trusted_router lpm_strtobin stack roundup2 e true true (rs <| r_world := ps_env ps |>) = Ok (TEE_SUCCESS, rs') /\
    nw_run hw junk ndev mbase blocked (nw_fec_enet_open c phy) (mk_drv f (r_world rs')) = Ok s' /\
    restarted hw junk f (boot_mac hw v) c 512 512 rxs (rev rxs) mdio s' /\ Forall (mdio_access f) mdio /\
    primary_st (sfec_state (fep s')) = (if link c then SFEC_PRI_RUNNING else SFEC_PRI_RESTARTED) /\
    devs (w_nd (env s')) !! ndev = Some d /\ dev_ok d /\ stopped <$> egress_queue d = Some false /\
    enabled (rx_napi (fep s')) /\ enabled (route_tx_napi (fep s')).
Proof.
  intros Hbo Hrs Hne Hcidr Hins Hst. destruct (vnic_starts ve pe e v base pa r ring rs Hbo Hrs Hne) as (vs & d1 & Ev & V1 & V2 & Hps & Hss & Hin).
  destruct (probed_opens pe v base pa r ring (mk_ps None (vs_world vs) irqs [] 0 false) e rs nw_ndev d1 mbase blocked c phy Hps (bo_emu _ _ _ _ _ _ _ _ Hbo) Hss Hcidr Hins Hst)
    as (ps & f & rs' & s' & mdio & rxs & d & H1 & H2 & H3 & H4 & H5 & H6).
  cbn [ps_env] in H5. rewrite Hin, app_nil_r in H5. by exists vs, ps, f, rs', s', mdio, rxs, d.
Qed.

End boot.

(** ** Example: a gigabit link *)

Definition ex_ve : vnic_env := mk_vnic_env 0x1000 0x2190000 (fun pa => pa) true true true true true true true 0x18000000 40 (fun n => Some n) (fun d => Some d) true.

Lemma ex_boot_served :
  boot_served ex_roundup ex_hw (fun _ => 0x80000000) (fun _ _ => true) ex_ve (ex_pe true) ex_env 0x2188000 0x10000 0x10000 (0x2188000, 0x4000)
    (replicate 224 None).
Proof.
  pose proof (ex_probe_start true) as [Hsv Hro Hdma _]. split.
  - by split.
  - exact Hsv.
  - done.
  - exact Hro.
  - exact Hdma.
  - exact ex_env_ok.
  - intros i o k sz ch (b & k' & sz' & ch' & [= <-] & <-) [= <-]. done.
  - done.
  - vm_compute. split; discriminate.
Qed.

Lemma boot_to_running_witness :
  exists vs ps f rs' s' mdio rxs d,
    vnic_init 1 5 ex_ve (mk_vs None (mk_napi 0 false false) [] fresh_world) = Ok (TEE_SUCCESS, vs) /\
    bstgw_vnic vs = Some vnic_state_init /\ vs_napi vs = mk_napi 0 false false /\
    fec_probe ex_hw (fun _ => 0x80000000) (fun _ _ => true) false ex_roundup 2 3 4 (ex_pe true) ("imx6q-fec"%string, imx6q_driver_data)
      (mk_ps None (vs_world vs) [] [] 0 false) = Ok (0, ps) /\
    ps_fep ps = Some f /\
    init_trusted_router cidr_parse [0; 0; 0; 0] ex_roundup ex_env true true (ex_start <| r_world := ps_env ps |>) = Ok (TEE_SUCCESS, rs') /\
    nw_run ex_hw (0, 0) 2 0x2188000 0 (nw_fec_enet_open ex_link [MdioRead false 1 2]) (mk_drv f (r_world rs')) = Ok s' /\
    restarted ex_hw (0, 0) f [2; 0; 0; 1; 2; 0] ex_link 512 512 rxs (rev rxs) mdio s' /\ Forall (mdio_access f) mdio /\
    primary_st (sfec_state (fep s')) = SFEC_PRI_RUNNING /\
    devs (w_nd (env s')) !! 2%positive = Some d /\ dev_ok d /\ stopped <$> egress_queue d = Some false /\
    enabled (rx_napi (fep s')) /\ enabled (route_tx_napi (fep s')).
Proof.
  apply (boot_to_running cidr_parse [0; 0; 0; 0] ex_roundup ex_hw (fun _ => 0x80000000) (fun _ _ => true) false (0, 0) 2 3 4 1 5 ex_ve (ex_pe true) ex_env
    0x2188000 0x10000 0x10000 (0x2188000, 0x4000) (replicate 224 None) [] ex_start 0x2188000 0 ex_link [MdioRead false 1 2] ex_boot_served eq_refl).
  - done.
  - exact cidr_parse_ok.
  - intros. by eexists.
  - reflexivity.
Defined.
